(* ===== verification/_CoqProject ===== *)
-Q . S2P
Prelude.v
GF256.v
MulTable.v
LargeTables.v
GFVect.v
Avx.v
OneTable.v
GFMatrix.v
Decode.v
Cauchy.v
Vandermonde.v
MT.v
Config.v
Fault.v
State.v
Portal.v
CtxPool.v
Store.v
Chunks.v
Transfer.v
Completion.v
Slots.v
Stripe.v
WritePath.v
Pages.v
Overlap.v
Reads.v
ReadPath.v
EcRead.v
FaultRead.v
Placement.v
Device.v
Configfs.v
Failure.v
Recovery.v
Remote.v
Disk.v
Retry.v
Loss.v
Connect.v
Kmod.v
Monitor.v
Regions.v
Serve.v
Evict.v
Ownership.v
Pressure.v
Flow.v
Daemon.v
Einj.v
