(* ===== verification/Prelude.v ===== *)
(** * Ramp: resilient remote memory, verified

    The program keeps the pages of a block device in the memory of other machines.  The
    _resilience manager_ is a kernel module ([src/resilience_manager]): each page written to
    its block device is sent over RDMA to [NDISKS] servers, as copies (replication) or as
    [NDATAS] splits and [NDISKS - NDATAS] parities (erasure coding), and a read collects
    [NDATAS] of them again.  The _resource monitor_ is a process on each server
    ([src/resource_monitor]) that lends its memory in 1 GB slabs and takes it back under
    pressure.  [src/einj] injects memory errors through ACPI for experiments.

    This file is the prelude: machine integers, bytes, arrays, loops, records with update,
    the state monad, and their lemmas.  The other files follow the code, part by part.

    ** The files and the code

    Erasure coding ([resilience_manager/erasure_code]):
    - [GF256]: the field, [gf_mul] and [gf_inv] on the tables of [ec_base.h].
    - [MulTable], [LargeTables]: the multiplication table that [GF_LARGE_TABLES] selects,
      and the two functions of that build.
    - [GFVect]: [ec_base.c], [ec_base_aliases.c], [ec_highlevel_func.c]: multiplication
      tables, dot products, encoding and updating, and the AVX dispatcher.  The assembly
      kernels are arguments with a contract ([DotProdKernel]), for tables as
      [ec_init_tables] makes them.
    - [Avx]: the kernels in assembly that the dispatcher calls ([gf_vect_dot_prod_avx.asm] to
      [gf_4vect_dot_prod_avx.asm]); they meet the contract.
    - [OneTable]: [gf_vect_dot_prod_1tbl.c], the library's functional test.
    - [GFMatrix]: [gf_gen_rs_matrix], [gf_gen_cauchy1_matrix], [gf_invert_matrix].
    - [Decode]: [gf_gen_decode_matrix] of [is_main.c] and the recovery of lost splits.
    - [Cauchy], [Vandermonde]: every choice of [k] surviving rows of the Cauchy generator is
      invertible, and of the other generator when there are at most three parities.

    The manager ([is_main.c], [is_mq.c], [is_configfs.c], [is_fault.c], [infiniswap.h]):
    - [MT], [Fault]: the Mersenne Twister ([mt19937-64.c], [mt19937.c]) and [is_fault.c].
    - [Config], [State]: the build configuration (a record; [rep] is the build of
      [infiniswap.h], [ec] the one its comment describes) and the structures: sessions,
      server connections, slabs, contexts and their pools, requests, and the [world] they
      live in, with the completions to come and the messages posted.
    - [Portal]: [portal_parser], [portal_attr_store], [IS_session_find_by_portal].
    - [CtxPool], [Store]: [IS_get_ctx], [IS_insert_ctx], [IS_ctx_init], [IS_ctx_dma_setup];
      the contexts as a map from addresses.
    - [Chunks]: [IS_session_create], [IS_create_conn], [kernel_cb_init], [client_recv] with
      the two chunk initialisers, and the map passes of a disconnection.
    - [Transfer]: the data path of both builds, from [IS_request] through [IS_rdma_read] and
      [IS_rdma_write] to [rdma_cq_event_handler], [client_read_done] and
      [client_write_done], and the control messages.
    - [Completion], [Slots], [Stripe], [WritePath], [Reads], [ReadPath], [EcRead]: no new
      operation but the proofs of the data path: polling, the slots of a request, the cut of
      a page into a stripe, writes of both builds, and reads of each.
    - [Pages], [FaultRead]: no new operation: requests that are not one page in one piece, and
      reads with injected faults.
    - [Overlap]: several processors in [IS_rdma_write] at once, sharing pools and completion
      queues.
    - [Recovery]: no new operation: the statements that would build the encode and decode
      tables, which the sources carry commented out, and what they would set; with what the
      detector finds, that is what the reads of [EcRead] need.
    - [Remote], [Disk]: the memory of the servers next to the data path, pages read back
      after losses, and the block device as a map from page numbers to pages.
    - [Placement]: [IS_single_chunk_map], [rdma_trigger].
    - [Device]: devices and sessions from configfs down: [is_configfs.c]'s store, show, make
      and drop functions, [IS_create_device], [IS_register_block_device],
      [IS_destroy_device], [IS_session_destroy].
    - [Configfs]: the attribute tables of [is_configfs.c], for kernels since 4.4 and before,
      and the function that serves each file.
    - [Failure]: [IS_cma_event_handler], [IS_disconnect_handler] and its detector,
      [IS_chunk_wait_in_flight_requests], [evict_handler].
    - [Retry]: no new operation: the handler of a lost server with a read in flight to it,
      which is issued again.
    - [Loss]: no new operation: servers lost while a write waits for them, and the handler
      after it.
    - [Connect]: [rdma_connect_upper], [rdma_connect_down] and all they call.
    - [Kmod]: [IS_init_module], [IS_cleanup_module], the configfs subsystem, and
      [IS_alloc_hctx].

    The monitor ([rdma-common.c], [rdma-common.h], [daemon.c], [util.c]):
    - [Monitor]: the region table, connections, the messages and their handler
      ([on_completion]), [evict_mem] cut at its waits, the policy of [free_mem].
    - [Regions], [Serve], [Evict], [Ownership], [Flow]: the ownership invariant over a step
      relation ([mon_step]); what each message does and that both sides agree; memory
      pressure; which operations are defined in the states that are reached; flow control
      and the life of the memory thread.
    - [Pressure]: the turns of [free_mem] with its filter in [float], on the floating point
      of the Standard Library.
    - [Daemon]: [parse_args], [on_event], the loop of [main], [build_context],
      [spin_microseconds].

    [Einj]: all of [einj.c].

    Parts meet as in the code: the data path draws contexts from the pools, looks slabs up
    in the maps that the messages of [Chunks] fill, and sends what [Monitor] answers
    ([Serve.bind_single_agreement] runs the two ends against each other); a lost server goes
    through [Failure], which edits the same maps and sets the erasures that [EcRead]
    recovers from with [Decode].

    ** What is shown

    - Erasure coding is correct from the field up: [gf_mul] is the polynomial product,
      in both builds ([large_tables_equivalence]), encoding is the matrix product, inversion inverts, and any large enough set of
      survivors gives the data back ([cauchy_recovery], [vandermonde_recovery]), the decode
      matrix being built by the code's own loop with its retries; with four parities the
      second generator can fail ([four_parities_dependent]).
    - The dispatcher with the AVX kernels computes what the portable code computes, on
      tables that [ec_init_tables] made ([ec_encode_data_avx_equivalence]); on others it
      does not ([malformed_table_differs]).
    - The data path: a write posts the right bytes of each slot to the right server at the
      right address and gives every context back ([write_request_correct]); a replicated
      read returns what the first replica holds ([read_request_correct]).  Over the memory
      of the servers, any series of writes, reads and losses of the replicated device, the
      reads being of slabs whose first disk is left, refines a map from page numbers to
      pages ([device_refined]): an abstract device ([device_step]), a representation
      relation ([represents]) and a simulation, against an interface that each build's
      read path implements ([Reader]).
    - The erasure-coded build as the sources mean it.  No compiled code sets the encode and
      decode tables: as compiled no write returns ([unset_tables_write]).  With the tables
      as the commented statements would set them ([encode_set], [decode_set]) a read
      returns the page also after losses that the detector found ([stripe_read_correct]), a
      page that was written is read back after the loss of up to [NDISKS - NDATAS] disks
      ([write_read_roundtrip]), and the device refines the same map
      ([stripe_device_refined]).  The detector counts the losses of slab 0 exactly
      ([detect_correct]); a read of another slab whose losses it missed returns stale bytes
      ([unmarked_read_stale]).
    - A request's slab and offset are those of its first byte; its share stays in the 1 GB of
      the remote slab exactly when it does not cross into the next slab
      ([request_translation_correct]), which pages do not and other requests can.
    - Reads with injected faults: the servers of the disks that are struck are told and answer,
      and others are read.  Under replication the page is the data of the replica that was read
      ([faulty_replica_read]), unless a disk before it is on no server; in the erasure-coded
      build the splits that were struck are not rebuilt ([faulty_read_stale]).  On kernels
      before 4.4 injection cannot even be switched on ([faults_stay_off]).
    - Requests that are not one page in one piece do not come back ([write_in_one_piece],
      [read_in_one_piece]).
    - Writes of several processors, interleaved in any way: no context is shared, buffers keep
      what is being sent, a request is ended exactly when [NDATAS] of its writes are done,
      whichever processor handles the completions, and all processors finish
      ([overlap_safe], [overlap_finishes]).
    - A server lost in the middle of a read: the handler takes it out of the maps, finds the
      erasures and issues the read again, which ends the request with the right page when the
      decode tables are set for what it found ([lost_read_retried]); but contexts that were not read stay marked as
      in flight, and a loss after the read overruns their free list
      ([read_then_loss_overruns]).  A write goes on without the servers it loses, but their
      contexts never come back ([write_survives_losses]).
    - Safety of shared structures: a context is never handed out twice, maps stay inverse to
      each other through mapping, disconnection and creation, device names are unique, the
      monitor's handlers, one at a time, never give one region to two clients nor free
      memory in use, and of the operations that move regions only a [DONE] for chunks the
      client does not have leaves its arrays ([monitor_safe]); a message that was not
      handled is never overwritten ([one_receive]).  Between the monitor's threads nothing
      is locked, and memory in use can be freed ([evict_race]).
    - The portal's parser stays in its arrays exactly for well-formed portals
      ([portal_parser_defined]) and reads back what a portal prints ([portal_roundtrip]).
    - Loops end: placement, the detector, eviction, the injection's busy wait, on the bounds
      the code gives; the memory thread acts on shortage and plenty within a bounded number
      of turns ([pressure_answered]).  Error paths give back what was taken ([connect_upper_correct],
      [module_balanced], [error_inject_set_safe]), or the theorem says what they leave.
    - Where the code does not do what it means to, the theorem says so exactly, on the
      state in which it happens ([degraded_read_stale], [unmarked_read_stale],
      [probe_never_ends], [unset_tables_write], [memory_thread_ends], and others).

    ** Conventions

    A C integer is a [Z]; unsigned results are reduced ([u8] to [u64]) and signed ones
    where they can leave their range ([i32], [i64], [s32]).  An array is a list indexed by
    [Z]; reading or writing outside it, freeing twice, dividing by zero or reading
    uninitialised memory has no value: [None] in plain functions, [Ub] in the monad, where
    [Bug] is a [BUG_ON] that fires and [Wait] a wait that nothing ends.  Locks are not
    modelled: an operation under a lock is one step.

    Loops over a range are [for_up], [for_brk] and [loop], with no fuel.  Fuel is used where
    the code has no bound: polling a completion queue (one more than the completions that
    are to come), searching for a good parity ([NDISKS + 1]), picking a context (one
    more than there are), retrying an inversion (one more than the rows), probing for a mapped chunk
    (33, one more than the chunks), the busy wait of an injection (10001: its budget of
    1000000 spent in steps of 100, and one reading more), the pause (the reading that is
    late enough).  Theorems state the result for such fuel, not only that a result is
    right.

    The environment is made of parameters: the stream of completions and what posting
    returns, the events of the connection manager, random numbers, the block layer's
    answers, allocation failures, the clock, the firmware and its tables.  The end-to-end theorems of the data path are about requests of one page
    whose slots are in different pools ([placed]), as the placement makes them.

    ** Not modelled

    The SIMD kernels that nothing calls, and the others down to instructions and registers
    ([Avx] has their passes); what the block layer does ([blk_mq_start_request]); a completion
    queue whose poll fails; attributes that are only handed to the verbs library; console
    output; reads of pages that were never written ([Disk]); interleavings inside a handler
    (each handler, or each part of it between two waits, is one step, but for [evict_race]; so
    are looking up a device name and creating the device; in [Overlap] a step is everything
    a write does up to its first poll, or one poll); scripts, playbooks, command line tools
    and test programs.

    ** Plan

    The parts of the program that can be modelled from its sources are.  Open: several reads at
    once, as [Overlap] has it for writes; and a handler of a lost server interleaved with
    requests turn by turn, where [Retry] and [Loss] take one order. *)

From stdpp Require Export base list option numbers strings.
From Stdlib Require Export Strings.Byte ZArith Lia.

#[global] Open Scope Z_scope.

(** * Machine integers *)

(** An unsigned [w]-bit integer is a [Z] in [0, 2^w); C unsigned arithmetic
    wraps, so every result is reduced.  Signed 32/64-bit conversions are the
    two's complement ones of the compilers the code is built with. *)
Definition wrap (w z : Z) : Z := z mod 2 ^ w.
Definition u8 (z : Z) : Z := wrap 8 z.
Definition u16 (z : Z) : Z := wrap 16 z.
Definition u32 (z : Z) : Z := wrap 32 z.
Definition u64 (z : Z) : Z := wrap 64 z.
Definition signed (w z : Z) : Z := (z + 2 ^ (w - 1)) mod 2 ^ w - 2 ^ (w - 1).
Definition i32 (z : Z) : Z := signed 32 z.
Definition i64 (z : Z) : Z := signed 64 z.

(** C truth of an integer. *)
Definition truthy (z : Z) : bool := negb (z =? 0).

(** * Bytes ([unsigned char]) *)

Definition b2z (b : byte) : Z := Z.of_N (Byte.to_N b).
Definition z2b (z : Z) : byte := default x00 (Byte.of_N (Z.to_N (z mod 256))).
Definition bxor (a b : byte) : byte := z2b (Z.lxor (b2z a) (b2z b)).

(** All 256 bytes, for proofs by exhaustive evaluation. *)
Definition all_bytes : list byte := z2b <$> seqZ 0 256.

#[export] Instance byte_eq_dec : EqDecision byte := Byte.byte_eq_dec.
#[export] Instance byte_inhabited : Inhabited byte := populate x00.

(** * Arrays

    C arrays are lists.  An index is a [Z], because the code computes with
    signed indices ([-1] marks an absent entry); an access outside the array is
    undefined behaviour, the value [None]. *)
Definition aget {A} (l : list A) (i : Z) : option A :=
  if i <? 0 then None else l !! Z.to_nat i.
Definition aset {A} (l : list A) (i : Z) (x : A) : option (list A) :=
  if (0 <=? i) && (i <? Z.of_nat (length l)) then Some (<[Z.to_nat i := x]> l) else None.

(** Length of an array as a C integer. *)
Definition alen {A} (l : list A) : Z := Z.of_nat (length l).

(** Reading with a default, for specifications. *)
Definition bget (l : list byte) (i : Z) : byte := default x00 (aget l i).
Definition mget (m : list (list byte)) (r c : Z) : byte := bget (default [] (aget m r)) c.

(** [n] buffers of at least [len] bytes. *)
Definition buffers (n len : Z) (m : list (list byte)) : Prop :=
  n <= alen m ∧ ∀ i r, 0 <= i < n → aget m i = Some r → len <= alen r.


(** * Loops

    [for_up lo hi body s] is [for (i = lo; i < hi; i++) body]; a body that hits
    undefined behaviour stops the loop with [None]. *)
Fixpoint for_n {S} (n : nat) (i : Z) (body : Z → S → option S) (s : S) : option S :=
  match n with
  | O => Some s
  | Datatypes.S n' => s' ← body i s; for_n n' (i + 1) body s'
  end.
Definition for_up {S} (lo hi : Z) (body : Z → S → option S) (s : S) : option S :=
  for_n (Z.to_nat (hi - lo)) lo body s.

(** Loops with [break]: the body says whether to go on.  The result carries the
    index at which the loop stopped ([hi] when it ran to the end). *)
Inductive ctl (S : Type) : Type :=
| Next (s : S)
| Stop (s : S).
Arguments Next {S} s.
Arguments Stop {S} s.

Fixpoint for_brk_n {S} (n : nat) (i : Z) (body : Z → S → option (ctl S)) (s : S) : option (Z * S) :=
  match n with
  | O => Some (i, s)
  | Datatypes.S n' =>
      c ← body i s;
      match c with
      | Next s' => for_brk_n n' (i + 1) body s'
      | Stop s' => Some (i, s')
      end
  end.
Definition for_brk {S} (lo hi : Z) (body : Z → S → option (ctl S)) (s : S) : option (Z * S) :=
  for_brk_n (Z.to_nat (hi - lo)) lo body s.

(** First index in [lo, hi) that satisfies a test. *)
Fixpoint find_up (n : nat) (i : Z) (p : Z → bool) : option Z :=
  match n with
  | O => None
  | S n' => if p i then Some i else find_up n' (i + 1) p
  end.

(** * Reachability of a step relation *)

Inductive star {A} (R : A → A → Prop) : A → A → Prop :=
| star_refl a : star R a a
| star_step a b c : R a b → star R b c → star R a c.

(** * Record update

    [r <| f := v |>] is [r] with field [f] replaced.  A record provides the expansion of
    its values into fields ([Settable]); the setter of a field is found by abstracting
    the field's projection from that expansion. *)
Class Settable (R : Type) := expand : R → R.
Class Setter {R T : Type} (f : R → T) := update_field : (T → T) → R → R.
Arguments update_field {R T} f {_} _ _ : assert.

Ltac make_setter :=
  match goal with
  | |- @Setter ?R ?T ?f =>
      let e := eval hnf in (@expand R _) in
      match eval pattern f in e with
      | ?k _ => exact (λ g : T → T, k (λ r : R, g (f r)))
      end
  end.
#[export] Hint Extern 1 (Setter _) => make_setter : typeclass_instances.

Notation "r <| f := v |>" := (update_field f (λ _, v) r)
  (at level 1, left associativity, format "r  <| f  :=  v |>") : stdpp_scope.

(** * Computations that change a state

    The kernel code runs over a shared state [W] and can end in four ways: a result,
    undefined behaviour, a [BUG_ON] that fires, or a wait for a completion that the
    network has not delivered. *)
Inductive res (A : Type) : Type :=
| Ret (a : A)
| Ub
| Bug
| Wait.
Arguments Ret {A} a.
Arguments Ub {A}.
Arguments Bug {A}.
Arguments Wait {A}.

Definition M (W A : Type) : Type := W → res (A * W).

#[export] Instance M_ret W : MRet (M W) := λ A a w, Ret (a, w).
#[export] Instance M_bind W : MBind (M W) := λ A B f m w,
  match m w with
  | Ret (a, w') => f a w'
  | Ub => Ub
  | Bug => Bug
  | Wait => Wait
  end.

Section monad.
Context {W : Type}.

Definition get : M W W := λ w, Ret (w, w).
Definition gets {A} (f : W → A) : M W A := λ w, Ret (f w, w).
Definition modify (f : W → W) : M W () := λ w, Ret ((), f w).
Definition undefined {A} : M W A := λ _, Ub.
Definition bug {A} : M W A := λ _, Bug.
Definition wait {A} : M W A := λ _, Wait.
(** A partial operation; failure is undefined behaviour. *)
Definition lift {A} (o : option A) : M W A := λ w, match o with Some a => Ret (a, w) | None => Ub end.
Definition when (b : bool) (m : M W ()) : M W () := if b then m else mret ().

(** [for (i = lo; i < hi; i++)] over a local state. *)
Fixpoint loop_n {S} (n : nat) (i : Z) (body : Z → S → M W S) (s : S) : M W S :=
  match n with
  | O => mret s
  | Datatypes.S n' => s' ← body i s; loop_n n' (i + 1) body s'
  end.
Definition loop {S} (lo hi : Z) (body : Z → S → M W S) (s : S) : M W S :=
  loop_n (Z.to_nat (hi - lo)) lo body s.

(** The same with [return]: [inr] leaves the loop with a value. *)
Fixpoint loop_ret_n {S R} (n : nat) (i : Z) (body : Z → S → M W (S + R)) (s : S) : M W (S + R) :=
  match n with
  | O => mret (inl s)
  | Datatypes.S n' =>
      r ← body i s;
      match r with
      | inl s' => loop_ret_n n' (i + 1) body s'
      | inr v => mret (inr v)
      end
  end.
Definition loop_ret {S R} (lo hi : Z) (body : Z → S → M W (S + R)) (s : S) : M W (S + R) :=
  loop_ret_n (Z.to_nat (hi - lo)) lo body s.
End monad.

(** * Lemmas *)

Create HintDb ramp.
Create Rewrite HintDb bytes.

Lemma wrap_range w z : 0 <= w → 0 <= wrap w z < 2 ^ w.
Proof. intros Hw. apply Z.mod_pos_bound, Z.pow_pos_nonneg; lia. Qed.

Lemma wrap_small w z : 0 <= z < 2 ^ w → wrap w z = z.
Proof. intros H. by apply Z.mod_small. Qed.

Lemma wrap_wrap w z : 0 <= w → wrap w (wrap w z) = wrap w z.
Proof. intros Hw. apply wrap_small, wrap_range, Hw. Qed.

Lemma u32_range z : 0 <= u32 z < 2 ^ 32.
Proof. apply wrap_range; lia. Qed.
Lemma u64_range z : 0 <= u64 z < 2 ^ 64.
Proof. apply wrap_range; lia. Qed.

Lemma signed_small w z : 0 < w → - 2 ^ (w - 1) <= z < 2 ^ (w - 1) → signed w z = z.
Proof.
  intros Hw Hz. unfold signed.
  assert (2 ^ w = 2 * 2 ^ (w - 1)) as E by (rewrite <- Z.pow_succ_r by lia; f_equal; lia).
  rewrite Z.mod_small by lia. lia.
Qed.

Lemma i32_small z : - 2 ^ 31 <= z < 2 ^ 31 → i32 z = z.
Proof. intros H. by apply (signed_small 32). Qed.
Lemma i64_small z : - 2 ^ 63 <= z < 2 ^ 63 → i64 z = z.
Proof. intros H. by apply (signed_small 64). Qed.

Lemma i32_range z : - 2 ^ 31 <= i32 z < 2 ^ 31.
Proof. unfold i32, signed. pose proof (Z.mod_pos_bound (z + 2 ^ (32 - 1)) (2 ^ 32)). lia. Qed.

Lemma truthy_true z : truthy z = true ↔ z ≠ 0.
Proof. unfold truthy. destruct (Z.eqb_spec z 0); naive_solver. Qed.
Lemma truthy_false z : truthy z = false ↔ z = 0.
Proof. unfold truthy. destruct (Z.eqb_spec z 0); naive_solver. Qed.

Lemma bind_some {A B} (f : A → option B) (x : A) : (Some x ≫= f) = f x.
Proof. done. Qed.

(** ** Bytes *)

Lemma b2z_range b : 0 <= b2z b < 256.
Proof.
  unfold b2z. pose proof (Byte.of_to_N b) as H.
  destruct (N.le_gt_cases (Byte.to_N b) 255) as [|Hgt]; [lia|].
  apply Byte.of_N_None_iff in Hgt. congruence.
Qed.

Lemma z2b_b2z b : z2b (b2z b) = b.
Proof.
  unfold z2b. rewrite Z.mod_small by apply b2z_range.
  unfold b2z. by rewrite N2Z.id, Byte.of_to_N.
Qed.

Lemma b2z_z2b z : b2z (z2b z) = z mod 256.
Proof.
  unfold z2b, b2z. pose proof (Z.mod_pos_bound z 256).
  destruct (Byte.of_N (Z.to_N (z mod 256))) as [y|] eqn:E; cbn.
  - apply Byte.to_of_N in E. rewrite E, Z2N.id; lia.
  - apply Byte.of_N_None_iff in E. lia.
Qed.

Lemma b2z_z2b_small z : 0 <= z < 256 → b2z (z2b z) = z.
Proof. intros H. rewrite b2z_z2b. by apply Z.mod_small. Qed.

Lemma b2z_inj a b : b2z a = b2z b → a = b.
Proof. intros H. by rewrite <- (z2b_b2z a), <- (z2b_b2z b), H. Qed.

Lemma byte_eq_iff a b : a = b ↔ b2z a = b2z b.
Proof. split; [by intros -> | apply b2z_inj]. Qed.

Lemma elem_of_all_bytes b : b ∈ all_bytes.
Proof.
  unfold all_bytes. apply list_elem_of_fmap. exists (b2z b).
  split; [by rewrite z2b_b2z | apply elem_of_seqZ; pose proof (b2z_range b); lia].
Qed.

(** Exhaustive checking: a boolean property that evaluates to [true] on the
    list of all bytes holds of every byte. *)
Lemma byte_forall (p : byte → bool) : forallb p all_bytes = true → ∀ b, p b = true.
Proof.
  intros H b. rewrite forallb_forall in H. apply H, list_elem_of_In, elem_of_all_bytes.
Qed.

Lemma byte_forall2 (p : byte → byte → bool) :
  forallb (λ a, forallb (p a) all_bytes) all_bytes = true → ∀ a b, p a b = true.
Proof. intros H a. apply byte_forall. by apply (byte_forall (λ a, forallb (p a) all_bytes)). Qed.

Lemma lxor_byte_range a b : 0 <= a < 256 → 0 <= b < 256 → 0 <= Z.lxor a b < 256.
Proof.
  intros Ha Hb. assert (0 <= Z.lxor a b) by (apply Z.lxor_nonneg; lia).
  split; [done|]. destruct (Z.eq_dec (Z.lxor a b) 0) as [->|]; [lia|].
  assert (∀ x, 0 <= x < 256 → Z.log2 x < 8) as L.
  { intros x Hx. destruct (Z.eq_dec x 0) as [->|]; [done|]. apply Z.log2_lt_pow2; lia. }
  pose proof (Z.log2_lxor a b ltac:(lia) ltac:(lia)).
  change 256 with (2 ^ 8). apply Z.log2_lt_pow2; [lia|].
  pose proof (L a Ha). pose proof (L b Hb). lia.
Qed.

Lemma b2z_bxor a b : b2z (bxor a b) = Z.lxor (b2z a) (b2z b).
Proof. unfold bxor. apply b2z_z2b_small, lxor_byte_range; apply b2z_range. Qed.

Lemma bxor_comm a b : bxor a b = bxor b a.
Proof. apply b2z_inj. by rewrite !b2z_bxor, Z.lxor_comm. Qed.
Lemma bxor_assoc a b c : bxor a (bxor b c) = bxor (bxor a b) c.
Proof. apply b2z_inj. by rewrite !b2z_bxor, Z.lxor_assoc. Qed.
Lemma bxor_0_l a : bxor x00 a = a.
Proof. apply b2z_inj. rewrite b2z_bxor. apply Z.lxor_0_l. Qed.
Lemma bxor_0_r a : bxor a x00 = a.
Proof. by rewrite bxor_comm, bxor_0_l. Qed.
Lemma bxor_nilpotent a : bxor a a = x00.
Proof. apply b2z_inj. rewrite b2z_bxor. apply Z.lxor_nilpotent. Qed.
#[export] Hint Rewrite bxor_0_l bxor_0_r bxor_nilpotent : bytes.

(** ** Arrays *)

Lemma aget_Some {A} (l : list A) i x :
  aget l i = Some x ↔ 0 <= i ∧ l !! Z.to_nat i = Some x.
Proof.
  unfold aget. destruct (Z.ltb_spec i 0); (split; [|intros [? ?]]); try done; lia.
Qed.

Lemma aget_nat {A} (l : list A) (i : nat) : aget l (Z.of_nat i) = l !! i.
Proof. unfold aget. destruct (Z.ltb_spec (Z.of_nat i) 0); [lia|]. by rewrite Nat2Z.id. Qed.

Lemma aget_lt {A} (l : list A) i x : aget l i = Some x → 0 <= i < alen l.
Proof. rewrite aget_Some. intros [? H]. apply lookup_lt_Some in H. unfold alen. lia. Qed.

Lemma aget_elem {A} (l : list A) i x : aget l i = Some x → x ∈ l.
Proof. intros [_ E]%aget_Some. by eapply list_elem_of_lookup_2. Qed.

Lemma elem_of_aget {A} (l : list A) x : x ∈ l ↔ ∃ i, aget l i = Some x.
Proof.
  split; [|intros [i E]; by eapply aget_elem]. intros [i Ei]%list_elem_of_lookup.
  exists (Z.of_nat i). by rewrite aget_nat.
Qed.

Lemma aget_is_Some {A} (l : list A) i : is_Some (aget l i) ↔ 0 <= i < alen l.
Proof.
  split; [intros [x H]; by eapply aget_lt |]. unfold alen. intros H.
  destruct (lookup_lt_is_Some_2 l (Z.to_nat i)) as [x Hx]; [lia|].
  exists x. apply aget_Some. split; [lia|done].
Qed.

Lemma aget_None {A} (l : list A) i : aget l i = None ↔ ¬ (0 <= i < alen l).
Proof. rewrite <- aget_is_Some, <- eq_None_not_Some. done. Qed.

Lemma aset_Some {A} (l : list A) i x :
  0 <= i < alen l → aset l i x = Some (<[Z.to_nat i := x]> l).
Proof.
  unfold aset, alen. intros H.
  destruct (Z.leb_spec 0 i), (Z.ltb_spec i (Z.of_nat (length l))); try lia. done.
Qed.

Lemma aset_inv {A} (l l' : list A) i x :
  aset l i x = Some l' → 0 <= i < alen l ∧ l' = <[Z.to_nat i := x]> l.
Proof.
  unfold aset, alen.
  destruct (Z.leb_spec 0 i), (Z.ltb_spec i (Z.of_nat (length l))); cbn; naive_solver lia.
Qed.

Lemma aset_None {A} (l : list A) i x : aset l i x = None ↔ ¬ (0 <= i < alen l).
Proof.
  unfold aset, alen.
  destruct (Z.leb_spec 0 i), (Z.ltb_spec i (Z.of_nat (length l))); cbn; split; (done || lia).
Qed.

Lemma aset_length {A} (l l' : list A) i x : aset l i x = Some l' → alen l' = alen l.
Proof. intros [_ ->]%aset_inv. unfold alen. by rewrite length_insert. Qed.

Lemma aget_aset_eq {A} (l l' : list A) i x : aset l i x = Some l' → aget l' i = Some x.
Proof.
  intros [H ->]%aset_inv. apply aget_Some. split; [lia|].
  apply list_lookup_insert_eq. unfold alen in H. lia.
Qed.

Lemma aget_aset_ne {A} (l l' : list A) i j x :
  aset l i x = Some l' → i ≠ j → aget l' j = aget l j.
Proof.
  intros [H ->]%aset_inv Hne. unfold aget. destruct (Z.ltb_spec j 0); [done|].
  apply list_lookup_insert_ne. lia.
Qed.

Lemma aget_aset {A} (l l' : list A) i j x :
  aset l i x = Some l' → aget l' j = if decide (i = j) then Some x else aget l j.
Proof.
  intros H. case_decide; [subst; by eapply aget_aset_eq | by eapply aget_aset_ne].
Qed.

Lemma array_ext {A} (l l' : list A) : (∀ i, 0 <= i → aget l i = aget l' i) → l = l'.
Proof.
  intros H. apply list_eq. intros i. specialize (H (Z.of_nat i) ltac:(lia)). by rewrite !aget_nat in H.
Qed.

Lemma bget_Some l i x : aget l i = Some x → bget l i = x.
Proof. unfold bget. by intros ->. Qed.
Lemma aget_bget l i : 0 <= i < alen l → aget l i = Some (bget l i).
Proof. intros H. unfold bget. by destruct (proj2 (aget_is_Some l i) H) as [x ->]. Qed.
Lemma mget_Some m r c row : aget m r = Some row → mget m r c = bget row c.
Proof. unfold mget. by intros ->. Qed.

Lemma buffers_get n len m i j :
  buffers n len m → 0 <= i < n → 0 <= j < len →
  ∃ row, aget m i = Some row ∧ aget row j = Some (mget m i j).
Proof.
  intros [Hn H] Hi Hj. destruct (proj2 (aget_is_Some m i)) as [row E]; [lia|].
  exists row. split; [done|]. rewrite (mget_Some _ _ _ _ E). apply aget_bget.
  pose proof (H i row Hi E). lia.
Qed.

(** A checkable sufficient condition, for concrete buffers. *)
Lemma buffers_check n len m :
  (n <=? alen m) && forallb (λ r, len <=? alen r) m = true → buffers n len m.
Proof.
  intros [H1%Z.leb_le H2]%andb_true_iff. split; [done|]. intros i r Hi [_ Er]%aget_Some.
  rewrite forallb_forall in H2. apply Z.leb_le, H2, list_elem_of_In.
  by eapply list_elem_of_lookup_2.
Qed.

Lemma aget_app {A} (l l' : list A) i :
  0 <= i →
  aget (l ++ l') i = if decide (i < alen l) then aget l i else aget l' (i - alen l).
Proof.
  intros Hi. unfold aget, alen. destruct (Z.ltb_spec i 0) as [?|_]; [lia|]. case_decide.
  - rewrite lookup_app_l by lia. done.
  - destruct (Z.ltb_spec (i - Z.of_nat (length l)) 0); [lia|].
    rewrite lookup_app_r by lia. f_equal. lia.
Qed.

Lemma aget_drop {A} (l : list A) n i :
  0 <= n → 0 <= i → aget (drop (Z.to_nat n) l) i = aget l (n + i).
Proof.
  intros. unfold aget. destruct (Z.ltb_spec i 0), (Z.ltb_spec (n + i) 0); try lia.
  rewrite lookup_drop. f_equal. lia.
Qed.

Lemma aget_take {A} (l : list A) n i :
  0 <= i < n → aget (take (Z.to_nat n) l) i = aget l i.
Proof.
  intros. unfold aget. destruct (Z.ltb_spec i 0); [lia|]. apply lookup_take_lt. lia.
Qed.

Lemma alen_app {A} (l l' : list A) : alen (l ++ l') = alen l + alen l'.
Proof. unfold alen. rewrite length_app. lia. Qed.

Lemma aget_map {A B} (f : A → B) (l : list A) i : aget (f <$> l) i = f <$> aget l i.
Proof. unfold aget. destruct (i <? 0); [done|]. apply list_lookup_fmap. Qed.
Lemma aget_replicate {A} (n : nat) (x : A) i :
  0 <= i < Z.of_nat n → aget (replicate n x) i = Some x.
Proof. intros H. apply aget_Some. split; [lia|]. apply lookup_replicate_2. lia. Qed.

Lemma aget_insert {A} (l : list A) i j x :
  0 <= i < alen l → aget (<[Z.to_nat i := x]> l) j = if decide (i = j) then Some x else aget l j.
Proof. intros Hi. by apply aget_aset, aset_Some. Qed.
Lemma alen_insert {A} (l : list A) i x : alen (<[i := x]> l) = alen l.
Proof. unfold alen. by rewrite length_insert. Qed.

(** ** Filters *)

Lemma filter_le {A} (P Q : A → Prop) `{HP : ∀ x, Decision (P x), HQ : ∀ x, Decision (Q x)} (l : list A) :
  (∀ x, x ∈ l → P x → Q x) → alen (filter P l) <= alen (filter Q l).
Proof.
  unfold alen. induction l as [|y l IH]; intros H0; [done|]. specialize (IH (λ x Hx, H0 x (list_elem_of_further _ _ _ Hx))).
  rewrite !filter_cons. pose proof (H0 y (list_elem_of_here _ _)). repeat case_decide; cbn; try lia. tauto.
Qed.
Lemma filter_full {A} (P Q : A → Prop) `{HP : ∀ x, Decision (P x), HQ : ∀ x, Decision (Q x)} (l : list A) :
  (∀ x, x ∈ l → P x → Q x) → alen (filter Q l) <= alen (filter P l) → ∀ x, x ∈ l → Q x → P x.
Proof.
  induction l as [|y l IH]; intros H Hl x Hx Hq; [by apply elem_of_nil in Hx|].
  pose proof (filter_le P Q l (λ z Hz, H z (list_elem_of_further _ _ _ Hz))) as Hle. pose proof (H y (list_elem_of_here _ _)) as Hy.
  rewrite !filter_cons in Hl. unfold alen in *.
  apply elem_of_cons in Hx as [->|Hx].
  - destruct (decide (P y)); [done|]. rewrite decide_True in Hl by done. cbn in Hl. lia.
  - apply IH; try done; [intros z Hz; by apply H; right|]. repeat case_decide; cbn in Hl; try lia. tauto.
Qed.

Lemma filter_ext_in {A} (P Q : A → Prop) `{HP : ∀ x, Decision (P x), HQ : ∀ x, Decision (Q x)} (l : list A) :
  (∀ x, x ∈ l → P x ↔ Q x) → filter P l = filter Q l.
Proof.
  induction l as [|x l IH]; intros H; [done|]. assert (filter P l = filter Q l) as E by (apply IH; intros y Hy; apply H; by right).
  destruct (decide (P x)) as [Hp|Hp].
  - rewrite !filter_cons_True by (done || by apply H; [left|]). by rewrite E.
  - rewrite !filter_cons_False by (done || by rewrite <- H by left). done.
Qed.

Lemma filter_count {A} (f : A → bool) (l : list A) :
  alen (filter (λ x, f x = true) l) + alen (filter (λ x, f x = false) l) = alen l.
Proof.
  unfold alen. induction l as [|x l IH]; [done|]. rewrite !filter_cons.
  destruct (f x); repeat case_decide; cbn; try done; lia.
Qed.

(** ** Loops *)

(** Total correctness of a counting loop: an invariant that the body
    re-establishes without undefined behaviour holds at the end. *)
Lemma for_n_inv {S} (P : Z → S → Prop) body n i (s : S) :
  P i s →
  (∀ j t, i <= j < i + Z.of_nat n → P j t → ∃ t', body j t = Some t' ∧ P (j + 1) t') →
  ∃ s', for_n n i body s = Some s' ∧ P (i + Z.of_nat n) s'.
Proof.
  revert i s. induction n as [|n IH]; intros i s H0 Hstep.
  - exists s. split; [done|]. by replace (i + Z.of_nat 0) with i by lia.
  - destruct (Hstep i s) as (s1 & E & H1); [lia|done|].
    destruct (IH (i + 1) s1 H1) as (s' & E' & H').
    { intros j t Hj. apply Hstep. lia. }
    exists s'. cbn. rewrite E. split; [done|].
    by replace (i + Z.of_nat (Datatypes.S n)) with (i + 1 + Z.of_nat n) by lia.
Qed.

Lemma for_up_inv {S} (P : Z → S → Prop) body lo hi (s : S) :
  lo <= hi →
  P lo s →
  (∀ j t, lo <= j < hi → P j t → ∃ t', body j t = Some t' ∧ P (j + 1) t') →
  ∃ s', for_up lo hi body s = Some s' ∧ P hi s'.
Proof.
  intros Hle H0 Hstep. unfold for_up.
  destruct (for_n_inv P body (Z.to_nat (hi - lo)) lo s H0) as (s' & E & H).
  { intros j t Hj. apply Hstep. lia. }
  exists s'. split; [done|]. by replace hi with (lo + Z.of_nat (Z.to_nat (hi - lo))) by lia.
Qed.

(** Partial version: an invariant of a loop that is known to have ended. *)
Lemma for_n_partial {S} (P : Z → S → Prop) body n i (s s' : S) :
  for_n n i body s = Some s' →
  P i s →
  (∀ j t t', i <= j < i + Z.of_nat n → P j t → body j t = Some t' → P (j + 1) t') →
  P (i + Z.of_nat n) s'.
Proof.
  revert i s. induction n as [|n IH]; intros i s E H0 Hstep; cbn in E.
  - simplify_eq. by replace (i + Z.of_nat 0) with i by lia.
  - destruct (body i s) as [s1|] eqn:E1; [|done]. cbn in E.
    replace (i + Z.of_nat (Datatypes.S n)) with (i + 1 + Z.of_nat n) by lia.
    eapply IH; [done | eapply Hstep; [lia|done|done] |].
    intros j t t' Hj. apply Hstep. lia.
Qed.

Lemma for_up_partial {S} (P : Z → S → Prop) body lo hi (s s' : S) :
  lo <= hi →
  for_up lo hi body s = Some s' →
  P lo s →
  (∀ j t t', lo <= j < hi → P j t → body j t = Some t' → P (j + 1) t') →
  P hi s'.
Proof.
  intros Hle E H0 Hstep. unfold for_up in E.
  replace hi with (lo + Z.of_nat (Z.to_nat (hi - lo))) by lia.
  eapply for_n_partial; [done|done|]. intros j t t' Hj. apply Hstep. lia.
Qed.

Lemma for_up_empty {S} lo hi body (s : S) : hi <= lo → for_up lo hi body s = Some s.
Proof. intros H. unfold for_up. by replace (Z.to_nat (hi - lo)) with 0%nat by lia. Qed.

(** The same for a property of the state alone, whatever the bounds. *)
Lemma for_up_keeps {S} (P : S → Prop) body lo hi (s s' : S) :
  for_up lo hi body s = Some s' → P s →
  (∀ j t t', lo <= j < hi → P t → body j t = Some t' → P t') → P s'.
Proof.
  intros E H0 Hstep. destruct (Z.le_gt_cases lo hi).
  - by apply (for_up_partial (λ _, P) body lo hi s s').
  - rewrite for_up_empty in E by lia. by injection E as <-.
Qed.

Lemma for_up_step {S} lo hi body (s : S) :
  lo < hi → for_up lo hi body s = s' ← body lo s; for_up (lo + 1) hi body s'.
Proof.
  intros H. unfold for_up.
  replace (Z.to_nat (hi - lo)) with (Datatypes.S (Z.to_nat (hi - (lo + 1)))) by lia. done.
Qed.

(** A loop over an array whose [i]-th iteration writes cell [i] only, with a
    value related by [P] to what the cell held. *)
Lemma for_up_array {A} (P : Z → A → A → Prop) body len (d : list A) :
  0 <= len <= alen d →
  (∀ i t x, 0 <= i < len → alen t = alen d → aget t i = Some x → aget d i = Some x →
    ∃ y, body i t = aset t i y ∧ P i x y) →
  ∃ d', for_up 0 len body d = Some d' ∧ alen d' = alen d ∧
    (∀ i x, aget d i = Some x → ∃ y, aget d' i = Some y ∧ if decide (i < len) then P i x y else y = x).
Proof.
  intros Hlen Hbody.
  destruct (for_up_inv (λ j t, alen t = alen d ∧
    (∀ i x, aget d i = Some x → ∃ y, aget t i = Some y ∧ if decide (i < j) then P i x y else y = x))
    body 0 len d) as (d' & E & Hl & Hd); [lia| | |by exists d'].
  - split; [done|]. intros i x Hx. exists x. split; [done|].
    destruct (decide (i < 0)); [apply aget_lt in Hx; lia|done].
  - intros j t Hj [Hl Ht]. destruct (proj2 (aget_is_Some d j)) as [x Hx]; [lia|].
    destruct (Ht j x Hx) as (y & Hy & E). destruct (decide (j < j)); [lia|]. subst y.
    destruct (Hbody j t x Hj Hl Hy Hx) as (y & Eb & HP).
    rewrite Eb, aset_Some by lia. eexists; split; [done|].
    pose proof (aset_Some t j y ltac:(lia)) as Es. split; [by rewrite (aset_length _ _ _ _ Es)|].
    intros i z Hz. rewrite (aget_aset _ _ _ i _ Es). case_decide as Hji.
    + subst i. exists y. split; [done|]. destruct (decide (j < j + 1)); [|lia].
      rewrite Hx in Hz. by simplify_eq.
    + destruct (Ht i z Hz) as (y' & Hy' & Hp). exists y'. split; [done|].
      destruct (decide (i < j)), (decide (i < j + 1)); (done || lia).
Qed.

(** The loop that fills an array, cell [i] with [f i]. *)
Lemma for_up_fill {A} (f : Z → A) body len (d : list A) :
  0 <= len <= alen d →
  (∀ i t, 0 <= i < len → alen t = alen d → body i t = aset t i (f i)) →
  ∃ d', for_up 0 len body d = Some d' ∧ alen d' = alen d ∧
    (∀ i, 0 <= i < len → aget d' i = Some (f i)) ∧ (∀ i, len <= i → aget d' i = aget d i).
Proof.
  intros Hlen Hb. destruct (for_up_array (λ i _ y, y = f i) body len d) as (d' & E & Hl & H); [done| |].
  { intros i t x Hi Ht _ _. exists (f i). split; [by apply Hb|done]. }
  exists d'. split_and!; [done..| |].
  - intros i Hi. destruct (proj2 (aget_is_Some d i)) as [x Hx]; [lia|].
    destruct (H i x Hx) as (y & -> & Hy). destruct (decide (i < len)); [by subst|lia].
  - intros i Hi. destruct (aget d i) as [x|] eqn:Hx.
    + destruct (H i x Hx) as (y & -> & Hy). destruct (decide (i < len)); [lia|by subst].
    + apply aget_None in Hx. apply aget_None. by rewrite Hl.
Qed.

(** Loops with [break]: an invariant holds when the loop runs to the end, and the
    exit condition when it stops early. *)
Lemma for_brk_n_inv {S} (P Q : Z → S → Prop) body n i (s : S) :
  P i s →
  (∀ j t, i <= j < i + Z.of_nat n → P j t →
    ∃ c, body j t = Some c ∧ match c with Next t' => P (j + 1) t' | Stop t' => Q j t' end) →
  ∃ k s', for_brk_n n i body s = Some (k, s') ∧
    ((k = i + Z.of_nat n ∧ P k s') ∨ (i <= k < i + Z.of_nat n ∧ Q k s')).
Proof.
  revert i s. induction n as [|n IH]; intros i s H0 Hstep.
  - exists i, s. split; [done|]. left. split; [lia|done].
  - destruct (Hstep i s) as ([s1|s1] & E & H1); [lia|done| |].
    + destruct (IH (i + 1) s1 H1) as (k & s' & E' & H').
      { intros j t Hj. apply Hstep. lia. }
      exists k, s'. cbn. rewrite E. split; [done|].
      destruct H' as [[-> ?]|[? ?]]; [left; split; [lia|done] | right; split; [lia|done]].
    + exists i, s1. cbn. rewrite E. split; [done|]. right. split; [lia|done].
Qed.

(** Loops whose bodies agree over the range are equal. *)
Lemma for_brk_ext {S} (f g : Z → S → option (ctl S)) lo hi (s : S) :
  (∀ i t, lo <= i < hi → f i t = g i t) → for_brk lo hi f s = for_brk lo hi g s.
Proof.
  unfold for_brk. remember (Z.to_nat (hi - lo)) as n eqn:En. revert lo s En.
  induction n as [|n IH]; intros i s En H; [done|]. cbn. rewrite (H i s) by lia.
  destruct (g i s) as [[s'|s']|]; cbn; [|done..]. apply IH; [lia|]. intros j t Hj. apply H. lia.
Qed.

(** A search that stops at [k]. *)
Lemma for_brk_first {S} (p : Z → bool) body lo k hi (s s' : S) :
  lo <= k < hi → (∀ j, lo <= j < k → body j s = Some (Next s)) → body k s = Some (Stop s') →
  for_brk lo hi body s = Some (k, s').
Proof.
  intros Hk Hn Hs. unfold for_brk. replace (Z.to_nat (hi - lo)) with (Z.to_nat (k - lo) + Datatypes.S (Z.to_nat (hi - k - 1)))%nat by lia.
  remember (Z.to_nat (k - lo)) as n eqn:En. revert lo En Hk Hn.
  induction n as [|n IH]; intros lo En Hk Hn; cbn.
  - assert (k = lo) as -> by lia. by rewrite Hs.
  - rewrite Hn by lia. cbn. apply IH; [lia|lia|]. intros j Hj. apply Hn. lia.
Qed.

(** A loop with [break] that is known to end: whether it ran to the end or stopped. *)
Lemma for_brk_ended {S} (P : S → Prop) (Q : Z → S → Prop) body lo hi (s s' : S) k :
  for_brk lo hi body s = Some (k, s') → lo <= hi → P s →
  (∀ j t c, lo <= j < hi → P t → body j t = Some c → match c with Next t' => P t' | Stop t' => Q j t' end) →
  (k = hi ∧ P s') ∨ (lo <= k < hi ∧ Q k s').
Proof.
  unfold for_brk. intros E Hle H0 Hstep. replace hi with (lo + Z.of_nat (Z.to_nat (hi - lo))) in Hstep |- * by lia.
  clear Hle. revert E Hstep. generalize (Z.to_nat (hi - lo)) as n. intros n. revert lo s H0.
  induction n as [|n IH]; intros lo s H0 E Hs; cbn in E; [injection E as <- <-; left; split; [lia|done]|].
  apply bind_Some in E as (c & Ec & E). specialize (Hs lo s c) as Hc. destruct c as [t|t].
  - destruct (IH (lo + 1) t) as [[-> ?]|[? ?]]; [by apply Hc; [lia|..]|done| | |].
    + intros j u c Hj. apply Hs. lia.
    + left. split; [lia|done].
    + right. split; [lia|done].
  - injection E as <- <-. right. split; [lia|]. by apply Hc; [lia|..].
Qed.

(** Preservation by it. *)
Lemma for_brk_partial {S} (P : S → Prop) body lo hi (s s' : S) k :
  for_brk lo hi body s = Some (k, s') →
  P s →
  (∀ j t c, lo <= j < hi → P t → body j t = Some c → P match c with Next t' => t' | Stop t' => t' end) →
  P s'.
Proof.
  intros E H0 Hstep. destruct (Z.le_gt_cases lo hi).
  - destruct (for_brk_ended P (λ _, P) body lo hi s s' k) as [[_ ?]|[_ ?]]; [done..| |done|done].
    intros j t c Hj Ht Ec. specialize (Hstep j t c Hj Ht Ec). by destruct c.
  - unfold for_brk in E. replace (Z.to_nat (hi - lo)) with 0%nat in E by lia. by injection E as _ <-.
Qed.

Lemma for_brk_inv {S} (P Q : Z → S → Prop) body lo hi (s : S) :
  lo <= hi →
  P lo s →
  (∀ j t, lo <= j < hi → P j t →
    ∃ c, body j t = Some c ∧ match c with Next t' => P (j + 1) t' | Stop t' => Q j t' end) →
  ∃ k s', for_brk lo hi body s = Some (k, s') ∧ ((k = hi ∧ P hi s') ∨ (lo <= k < hi ∧ Q k s')).
Proof.
  intros Hle H0 Hstep. unfold for_brk.
  destruct (for_brk_n_inv P Q body (Z.to_nat (hi - lo)) lo s H0) as (k & s' & E & H).
  { intros j t Hj. apply Hstep. lia. }
  exists k, s'. split; [done|]. replace (lo + Z.of_nat (Z.to_nat (hi - lo))) with hi in H by lia.
  destruct H as [[-> ?]|?]; auto.
Qed.

(** A search loop: stop at the first index that satisfies [p]. *)
Lemma for_brk_search {S} (p : Z → bool) body lo hi (s : S) :
  lo <= hi →
  (∀ j, lo <= j < hi → body j s = Some (if p j then Stop s else Next s)) →
  ∃ k, for_brk lo hi body s = Some (k, s) ∧ lo <= k <= hi ∧
    (∀ j, lo <= j < k → p j = false) ∧ (k < hi → p k = true).
Proof.
  intros Hle Hb.
  destruct (for_brk_inv (λ k t, t = s ∧ ∀ j, lo <= j < k → p j = false)
    (λ k t, t = s ∧ p k = true ∧ ∀ j, lo <= j < k → p j = false) body lo hi s)
    as (k & t & E & [[-> [-> H]]|[? (-> & Hp & H)]]); [lia| | | |].
  - split; [done|]. intros j ?. lia.
  - intros j t Hj [-> H]. rewrite Hb by done. eexists; split; [done|].
    destruct (p j) eqn:Ep; [done|]. split; [done|]. intros j' ?.
    destruct (Z.eq_dec j' j) as [->|]; [done|]. apply H. lia.
  - exists hi. split_and!; [done|lia|lia|done|lia].
  - exists k. split_and!; [done|lia|lia|done|done].
Qed.

Lemma find_up_Some n i p j :
  find_up n i p = Some j ↔
  i <= j < i + Z.of_nat n ∧ p j = true ∧ (∀ k, i <= k < j → p k = false).
Proof.
  revert i. induction n as [|n IH]; intros i; cbn.
  { split; [done|]. intros [? _]. lia. }
  destruct (p i) eqn:E.
  - split.
    + intros [= <-]. split_and!; [lia|lia|done|]. intros k ?. lia.
    + intros (? & Hj & Hk). destruct (Z.eq_dec i j) as [->|]; [done|].
      rewrite (Hk i) in E by lia. done.
  - rewrite IH. split.
    + intros (? & Hj & Hk). split_and!; [lia|lia|done|]. intros k ?.
      destruct (Z.eq_dec k i) as [->|]; [done|]. apply Hk. lia.
    + intros (? & Hj & Hk). assert (i ≠ j) by (intros ->; congruence).
      split_and!; [lia|lia|done|]. intros k ?. apply Hk. lia.
Qed.

Lemma find_up_None n i p :
  find_up n i p = None ↔ (∀ k, i <= k < i + Z.of_nat n → p k = false).
Proof.
  revert i. induction n as [|n IH]; intros i; cbn.
  { split; [intros _ k ?; lia | done]. }
  destruct (p i) eqn:E.
  - split; [done|]. intros H. rewrite H in E by lia. done.
  - rewrite IH. split; intros H k Hk.
    + destruct (Z.eq_dec k i) as [->|]; [done|]. apply H. lia.
    + apply H. lia.
Qed.

(** ** State computations *)

Section monad_lemmas.
Context {W : Type}.

Lemma M_bind_ret {A B} (a : A) (f : A → M W B) w : (mret a ≫= f) w = f a w.
Proof. done. Qed.
Lemma M_bind_Ret {A B} (m : M W A) (f : A → M W B) w a w' :
  m w = Ret (a, w') → (m ≫= f) w = f a w'.
Proof. intros E. unfold mbind, M_bind. by rewrite E. Qed.
Lemma M_bind_Ub {A B} (m : M W A) (f : A → M W B) w : m w = Ub → (m ≫= f) w = Ub.
Proof. intros E. unfold mbind, M_bind. by rewrite E. Qed.
Lemma M_bind_inv {A B} (m : M W A) (f : A → M W B) w b w' :
  (m ≫= f) w = Ret (b, w') → ∃ a w1, m w = Ret (a, w1) ∧ f a w1 = Ret (b, w').
Proof. unfold mbind, M_bind. destruct (m w) as [[a w1]| | |]; try done. eauto. Qed.
Lemma lift_Some {A} (a : A) w : lift (W := W) (Some a) w = Ret (a, w).
Proof. done. Qed.

(** Total correctness of a loop, and preservation by a loop that ends. *)
Lemma loop_n_inv {S} (P : Z → S → W → Prop) body n i (s : S) w :
  P i s w →
  (∀ j t v, i <= j < i + Z.of_nat n → P j t v → ∃ t' v', body j t v = Ret (t', v') ∧ P (j + 1) t' v') →
  ∃ s' w', loop_n n i body s w = Ret (s', w') ∧ P (i + Z.of_nat n) s' w'.
Proof.
  revert i s w. induction n as [|n IH]; intros i s w H0 Hstep.
  - exists s, w. split; [done|]. by replace (i + Z.of_nat 0) with i by lia.
  - destruct (Hstep i s w) as (s1 & w1 & E & H1); [lia|done|].
    destruct (IH (i + 1) s1 w1 H1) as (s' & w' & E' & H').
    { intros j t v Hj. apply Hstep. lia. }
    exists s', w'. cbn. erewrite M_bind_Ret by done. split; [done|].
    by replace (i + Z.of_nat (Datatypes.S n)) with (i + 1 + Z.of_nat n) by lia.
Qed.

Lemma loop_inv {S} (P : Z → S → W → Prop) body lo hi (s : S) w :
  lo <= hi → P lo s w →
  (∀ j t v, lo <= j < hi → P j t v → ∃ t' v', body j t v = Ret (t', v') ∧ P (j + 1) t' v') →
  ∃ s' w', loop lo hi body s w = Ret (s', w') ∧ P hi s' w'.
Proof.
  intros Hle H0 Hstep. unfold loop.
  destruct (loop_n_inv P body (Z.to_nat (hi - lo)) lo s w H0) as (s' & w' & E & H).
  { intros j t v Hj. apply Hstep. lia. }
  exists s', w'. split; [done|]. by replace hi with (lo + Z.of_nat (Z.to_nat (hi - lo))) by lia.
Qed.

(** A loop in which one turn only does something. *)
Lemma loop_one {S} (body : Z → S → M W S) lo k hi (s s' : S) w w' :
  lo <= k < hi → (∀ i, lo <= i < k → body i s w = Ret (s, w)) → body k s w = Ret (s', w') →
  (∀ i, k < i < hi → body i s' w' = Ret (s', w')) → loop lo hi body s w = Ret (s', w').
Proof.
  intros Hk H1 H2 H3.
  destruct (loop_inv (λ i t v, if decide (i <= k) then t = s ∧ v = w else t = s' ∧ v = w') body lo hi s w)
    as (t & v & E & Hv); [lia|by rewrite decide_True by lia| |].
  - intros i t v Hi Hv. case_decide.
    + destruct Hv as [-> ->]. destruct (decide (i = k)) as [->|].
      * exists s', w'. by rewrite decide_False by lia.
      * exists s, w. rewrite decide_True by lia. split; [apply H1; lia|done].
    + destruct Hv as [-> ->]. exists s', w'. rewrite decide_False by lia. split; [apply H3; lia|done].
  - rewrite decide_False in Hv by lia. by destruct Hv as [-> ->].
Qed.
Lemma loop_idle {S} (body : Z → S → M W S) lo hi (s : S) w :
  lo <= hi → (∀ i, lo <= i < hi → body i s w = Ret (s, w)) → loop lo hi body s w = Ret (s, w).
Proof.
  intros Hle H. destruct (loop_inv (λ _ t v, t = s ∧ v = w) body lo hi s w) as (t & v & E & -> & ->); [done..| |done].
  intros i t v Hi [-> ->]. exists s, w. by rewrite H.
Qed.

Lemma loop_Ub {S} (body : Z → S → M W S) lo k hi (s : S) w :
  lo <= k < hi → (∀ i, lo <= i < k → body i s w = Ret (s, w)) → body k s w = Ub → loop lo hi body s w = Ub.
Proof.
  intros Hk H1 H2. unfold loop. remember (Z.to_nat (hi - lo)) as n eqn:En. revert lo Hk H1 En.
  induction n as [|n IH]; intros lo Hk H1 En; [lia|]. cbn. destruct (decide (lo = k)) as [->|]; [by apply M_bind_Ub|].
  erewrite M_bind_Ret by (apply H1; lia). apply IH; [lia| |lia]. intros i Hi. apply H1. lia.
Qed.

(** Every turn of a loop that ends was taken, in a state that what the turns keep leads to. *)
Lemma loop_turn {S} (P : S → W → Prop) (body : Z → S → M W S) lo hi k (s s' : S) w w' :
  loop lo hi body s w = Ret (s', w') → P s w →
  (∀ i t u t' u', lo <= i < hi → body i t u = Ret (t', u') → P t u → P t' u') → lo <= k < hi →
  P s' w' ∧ ∃ t u t' u', P t u ∧ body k t u = Ret (t', u').
Proof.
  unfold loop. intros E H0 Hkeep Hk.
  assert (∀ n i t u, hi = i + Z.of_nat n → lo <= i → P t u → loop_n n i body t u = Ret (s', w') →
    P s' w' ∧ (i <= k → ∃ t u t' u', P t u ∧ body k t u = Ret (t', u'))) as H.
  { intros n. induction n as [|n IH]; intros i t u Hn Hi Hu En; [injection En as <- <-; split; [done|lia]|].
    cbn [loop_n] in En. apply M_bind_inv in En as (t1 & u1 & E1 & En).
    destruct (IH (i + 1) t1 u1) as [Hw IHk]; [lia|lia|by eapply (Hkeep i); [lia|..]|done|]. split; [done|]. intros Hik.
    destruct (decide (i = k)) as [<-|]; [by eauto 6|apply IHk; lia]. }
  destruct (H (Z.to_nat (hi - lo)) lo s w) as [Hw Hk']; [lia|lia|done..|]. split; [done|apply Hk'; lia].
Qed.

Lemma loop_ret_inv {S R} (P : Z → S → W → Prop) (body : Z → S → M W (S + R)) lo hi (s : S) w :
  lo <= hi → P lo s w →
  (∀ j t v, lo <= j < hi → P j t v → ∃ t' v', body j t v = Ret (inl t', v') ∧ P (j + 1) t' v') →
  ∃ s' w', loop_ret lo hi body s w = Ret (inl s', w') ∧ P hi s' w'.
Proof.
  intros Hle H0 Hstep. unfold loop_ret. remember (Z.to_nat (hi - lo)) as n eqn:En.
  assert (hi = lo + Z.of_nat n) as -> by lia. clear En Hle. revert lo s w H0 Hstep.
  induction n as [|n IH]; intros lo s w H0 Hstep.
  - exists s, w. split; [done|]. by rewrite Z.add_0_r.
  - destruct (Hstep lo s w) as (s1 & w1 & E & H1); [lia|done|].
    destruct (IH (lo + 1) s1 w1 H1) as (s' & w' & E' & H').
    { intros j t v Hj. apply Hstep. lia. }
    exists s', w'. cbn [loop_ret_n]. split; [by erewrite M_bind_Ret by exact E|].
    by replace (lo + Z.of_nat (Datatypes.S n)) with (lo + 1 + Z.of_nat n) by lia.
Qed.

(** ** Total correctness *)

(** From a state in [P], [m] ends, without undefined behaviour, in [Q]. *)
Definition hoare {A} (P : W → Prop) (m : M W A) (Q : A → W → Prop) : Prop :=
  ∀ w, P w → ∃ a w', m w = Ret (a, w') ∧ Q a w'.

Lemma hoare_ret {A} P (a : A) Q : (∀ w, P w → Q a w) → hoare P (mret a) Q.
Proof. intros HQ w Hw. exists a, w. by auto. Qed.
Lemma hoare_bind {A B} P (m : M W A) R (f : A → M W B) Q :
  hoare P m R → (∀ a, hoare (R a) (f a) Q) → hoare P (m ≫= f) Q.
Proof.
  intros Hm Hf w (a & w1 & E & HR)%Hm. destruct (Hf a w1 HR) as (b & w2 & E2 & HQ). exists b, w2.
  by rewrite (M_bind_Ret m f w a w1 E).
Qed.
Lemma hoare_conseq {A} (P P' : W → Prop) (m : M W A) (Q Q' : A → W → Prop) :
  hoare P' m Q' → (∀ w, P w → P' w) → (∀ a w, Q' a w → Q a w) → hoare P m Q.
Proof. intros Hm HP HQ w Hw. destruct (Hm w (HP w Hw)) as (a & w' & E & H'). exists a, w'. by auto. Qed.
Lemma hoare_get {B} P (f : W → M W B) Q : (∀ w0, P w0 → hoare (λ w, w = w0) (f w0) Q) → hoare P (get ≫= f) Q.
Proof. intros Hf w Hw. destruct (Hf w Hw w eq_refl) as (b & w' & E & HQ). by exists b, w'. Qed.
Lemma hoare_pre {A} P (m : M W A) Q : (∀ w, P w → hoare (λ v, v = w) m Q) → hoare P m Q.
Proof. intros Hm w Hw. by apply (Hm w Hw). Qed.
Lemma hoare_modify (P : W → Prop) g (Q : () → W → Prop) : (∀ w, P w → Q () (g w)) → hoare P (modify g) Q.
Proof. intros Hg w Hw. exists (), (g w). by auto. Qed.
Lemma hoare_if {A} P (b : bool) (m1 m2 : M W A) Q :
  (b = true → hoare P m1 Q) → (b = false → hoare P m2 Q) → hoare P (if b then m1 else m2) Q.
Proof. destruct b; auto. Qed.

(** A property of the state that every part of a computation keeps. *)
Definition keeps (P : W → W → Prop) {A} (m : M W A) : Prop := ∀ w a w', m w = Ret (a, w') → P w w'.

Lemma keeps_ret (P : W → W → Prop) {A} (a : A) : Reflexive P → keeps P (mret a : M W A).
Proof. intros HP w b w' [= <- <-]. reflexivity. Qed.
Lemma keeps_bind (P : W → W → Prop) {A B} (m : M W A) (f : A → M W B) :
  Transitive P → keeps P m → (∀ a, keeps P (f a)) → keeps P (m ≫= f).
Proof. intros HP Hm Hf w b w' (a & w1 & E1 & E2)%M_bind_inv. etransitivity; [by eapply Hm|by eapply Hf]. Qed.
Lemma keeps_lift (P : W → W → Prop) {A} (o : option A) : Reflexive P → keeps P (lift o : M W A).
Proof. intros HP w a w' E. destruct o; [|done]. injection E as <- <-. reflexivity. Qed.
Lemma keeps_gets (P : W → W → Prop) {A} (f : W → A) : Reflexive P → keeps P (gets f).
Proof. intros HP w a w' [= <- <-]. reflexivity. Qed.
Lemma keeps_get (P : W → W → Prop) : Reflexive P → keeps P get.
Proof. intros HP w a w' [= _ <-]. reflexivity. Qed.
Lemma keeps_modify (P : W → W → Prop) g : (∀ w, P w (g w)) → keeps P (modify g).
Proof. intros Hg w u w' [= _ <-]. apply Hg. Qed.
Lemma keeps_fails (P : W → W → Prop) {A} (r : res (A * W)) : (∀ x, r ≠ Ret x) → keeps P (λ _, r).
Proof. intros Hr w a w' E. by destruct (Hr (a, w')). Qed.
Lemma keeps_loop (P : W → W → Prop) {S} lo hi (body : Z → S → M W S) s :
  Reflexive P → Transitive P → (∀ i t, keeps P (body i t)) → keeps P (loop lo hi body s).
Proof.
  intros HR HT Hb. unfold loop. generalize (Z.to_nat (hi - lo)) as n. intros n. revert lo s.
  induction n as [|n IH]; intros i s; [by apply keeps_ret|]. by apply keeps_bind.
Qed.
Lemma keeps_loop_ret (P : W → W → Prop) {S R} lo hi (body : Z → S → M W (S + R)) s :
  Reflexive P → Transitive P → (∀ i t, keeps P (body i t)) → keeps P (loop_ret lo hi body s).
Proof.
  intros HR HT Hb. unfold loop_ret. generalize (Z.to_nat (hi - lo)) as n. intros n. revert lo s.
  induction n as [|n IH]; intros i s; [by apply keeps_ret|]. apply keeps_bind; [done..|].
  intros [t|v]; [done|by apply keeps_ret].
Qed.
End monad_lemmas.

(** Follows a computation down to its changes of the state. *)
Ltac keeps_walk :=
  repeat match goal with
  | |- keeps _ (mret _) => apply keeps_ret; apply _
  | |- keeps _ (gets _) => apply keeps_gets; apply _
  | |- keeps _ (lift _) => apply keeps_lift; apply _
  | |- keeps _ get => apply keeps_get; apply _
  | |- keeps _ (modify _) => apply keeps_modify; intros ?; try (by split)
  | |- keeps _ undefined => by apply keeps_fails
  | |- keeps _ bug => by apply keeps_fails
  | |- keeps _ wait => by apply keeps_fails
  | |- keeps _ (_ ≫= _) => apply keeps_bind; [apply _| |intros ?]
  | |- keeps _ (loop _ _ _ _) => apply keeps_loop; [apply _..|intros ? ?]
  | |- keeps _ (loop_ret _ _ _ _) => apply keeps_loop_ret; [apply _..|intros ? ?]
  | |- keeps _ (when ?b _) => unfold when; destruct b
  | |- keeps _ (if ?b then _ else _) => destruct b
  | |- keeps _ (let '(_, _) := ?x in _) => destruct x
  | |- keeps _ (match ?x with _ => _ end) => destruct x
  end.

(** ** Words: bit operations keep the width *)

Lemma range_land w x : 0 <= w → (0 <= x < 2 ^ w ↔ Z.land x (Z.ones w) = x).
Proof.
  intros Hw. rewrite Z.land_ones by done. split; [apply Z.mod_small|]. intros <-.
  apply Z.mod_pos_bound, Z.pow_pos_nonneg; lia.
Qed.

Lemma lxor_range w x y : 0 <= w → 0 <= x < 2 ^ w → 0 <= y < 2 ^ w → 0 <= Z.lxor x y < 2 ^ w.
Proof.
  intros Hw. rewrite !range_land by done. intros Hx Hy. rewrite <- Hx, <- Hy at 2.
  apply Z.bits_inj. intros i. rewrite Z.lxor_spec, !Z.land_spec, Z.lxor_spec.
  rewrite <- Hx, <- Hy, !Z.land_spec.
  by destruct (Z.testbit x i), (Z.testbit y i), (Z.testbit (Z.ones w) i).
Qed.

Lemma land_range_l w x y : 0 <= w → 0 <= x < 2 ^ w → 0 <= Z.land x y < 2 ^ w.
Proof.
  intros Hw. rewrite !range_land by done. intros Hx.
  by rewrite <- Z.land_assoc, (Z.land_comm y), Z.land_assoc, Hx.
Qed.

Lemma lor_range w x y : 0 <= w → 0 <= x < 2 ^ w → 0 <= y < 2 ^ w → 0 <= Z.lor x y < 2 ^ w.
Proof.
  intros Hw. rewrite !range_land by done. intros Hx Hy. by rewrite Z.land_lor_distr_l, Hx, Hy.
Qed.

(** Placing a word above another. *)
Lemma lor_concat n hi lo : 0 <= n → 0 <= lo < 2 ^ n → Z.lor (hi * 2 ^ n) lo = hi * 2 ^ n + lo.
Proof.
  intros Hn Hlo. assert (Z.land (hi * 2 ^ n) lo = 0) as H0.
  { apply Z.bits_inj_0. intros i. rewrite Z.land_spec, <- Z.shiftl_mul_pow2 by done.
    destruct (Z.lt_ge_cases i n); [rewrite Z.shiftl_spec_low by done; done|].
    apply (range_land n lo Hn) in Hlo as <-. rewrite Z.land_spec, Z.ones_spec_high by lia.
    by rewrite !andb_false_r. }
  rewrite <- Z.lxor_lor by done. by rewrite Z.add_nocarry_lxor.
Qed.

Lemma shiftr_range w x n : 0 <= w → 0 <= n → 0 <= x < 2 ^ w → 0 <= Z.shiftr x n < 2 ^ w.
Proof.
  intros Hw Hn Hx. rewrite Z.shiftr_div_pow2 by done.
  assert (0 < 2 ^ n) by (apply Z.pow_pos_nonneg; lia). split; [apply Z.div_pos; lia|].
  apply Z.div_lt_upper_bound; nia.
Qed.

(** ** Step relations *)

Lemma star_one {A} (R : A → A → Prop) a b : R a b → star R a b.
Proof. intros H. eapply star_step; [done|constructor]. Qed.

Lemma star_trans {A} (R : A → A → Prop) a b c : star R a b → star R b c → star R a c.
Proof. induction 1; [done|]. intros. eapply star_step; eauto. Qed.

(** Rule induction for an invariant. *)
Lemma star_inv {A} (R : A → A → Prop) (I : A → Prop) a b :
  (∀ x y, I x → R x y → I y) → star R a b → I a → I b.
Proof. intros Hstep. induction 1; eauto. Qed.

(** * Tactics *)

(** Expose the binds of an option computation that is known to succeed. *)
Ltac bind_inv H :=
  repeat (apply bind_Some in H; let x := fresh "v" in let E := fresh "E" in
          destruct H as (x & E & H)).

(** Advance through binds whose first computation is a known [Some]. *)
Ltac step_bind := cbv beta iota zeta; repeat (rewrite bind_some; cbv beta iota zeta).

(** Close goals about ranges after unfolding the array length. *)
Ltac arr_lia := unfold alen in *; rewrite ?length_insert, ?length_replicate in *; lia.
