(* ===== verification/GF256.v ===== *)
(** GF(2^8) arithmetic of [erasure_code/ec_base.c] with the logarithm tables of
    [erasure_code/ec_base.h]: [gf_mul] and [gf_inv], the proof that the table
    driven product is the polynomial product modulo x^8+x^4+x^3+x^2+1, and the
    commutative ring that the matrix code computes in. *)

From S2P Require Import Prelude.

(** * Tables *)

Definition gff_base : list byte :=
  [ x01; x02; x04; x08; x10; x20; x40; x80; x1d; x3a; x74; xe8; xcd; x87; x13; x26;
  x4c; x98; x2d; x5a; xb4; x75; xea; xc9; x8f; x03; x06; x0c; x18; x30; x60; xc0;
  x9d; x27; x4e; x9c; x25; x4a; x94; x35; x6a; xd4; xb5; x77; xee; xc1; x9f; x23;
  x46; x8c; x05; x0a; x14; x28; x50; xa0; x5d; xba; x69; xd2; xb9; x6f; xde; xa1;
  x5f; xbe; x61; xc2; x99; x2f; x5e; xbc; x65; xca; x89; x0f; x1e; x3c; x78; xf0;
  xfd; xe7; xd3; xbb; x6b; xd6; xb1; x7f; xfe; xe1; xdf; xa3; x5b; xb6; x71; xe2;
  xd9; xaf; x43; x86; x11; x22; x44; x88; x0d; x1a; x34; x68; xd0; xbd; x67; xce;
  x81; x1f; x3e; x7c; xf8; xed; xc7; x93; x3b; x76; xec; xc5; x97; x33; x66; xcc;
  x85; x17; x2e; x5c; xb8; x6d; xda; xa9; x4f; x9e; x21; x42; x84; x15; x2a; x54;
  xa8; x4d; x9a; x29; x52; xa4; x55; xaa; x49; x92; x39; x72; xe4; xd5; xb7; x73;
  xe6; xd1; xbf; x63; xc6; x91; x3f; x7e; xfc; xe5; xd7; xb3; x7b; xf6; xf1; xff;
  xe3; xdb; xab; x4b; x96; x31; x62; xc4; x95; x37; x6e; xdc; xa5; x57; xae; x41;
  x82; x19; x32; x64; xc8; x8d; x07; x0e; x1c; x38; x70; xe0; xdd; xa7; x53; xa6;
  x51; xa2; x59; xb2; x79; xf2; xf9; xef; xc3; x9b; x2b; x56; xac; x45; x8a; x09;
  x12; x24; x48; x90; x3d; x7a; xf4; xf5; xf7; xf3; xfb; xeb; xcb; x8b; x0b; x16;
  x2c; x58; xb0; x7d; xfa; xe9; xcf; x83; x1b; x36; x6c; xd8; xad; x47; x8e; x01 ].

Definition gflog_base : list byte :=
  [ x00; xff; x01; x19; x02; x32; x1a; xc6; x03; xdf; x33; xee; x1b; x68; xc7; x4b;
  x04; x64; xe0; x0e; x34; x8d; xef; x81; x1c; xc1; x69; xf8; xc8; x08; x4c; x71;
  x05; x8a; x65; x2f; xe1; x24; x0f; x21; x35; x93; x8e; xda; xf0; x12; x82; x45;
  x1d; xb5; xc2; x7d; x6a; x27; xf9; xb9; xc9; x9a; x09; x78; x4d; xe4; x72; xa6;
  x06; xbf; x8b; x62; x66; xdd; x30; xfd; xe2; x98; x25; xb3; x10; x91; x22; x88;
  x36; xd0; x94; xce; x8f; x96; xdb; xbd; xf1; xd2; x13; x5c; x83; x38; x46; x40;
  x1e; x42; xb6; xa3; xc3; x48; x7e; x6e; x6b; x3a; x28; x54; xfa; x85; xba; x3d;
  xca; x5e; x9b; x9f; x0a; x15; x79; x2b; x4e; xd4; xe5; xac; x73; xf3; xa7; x57;
  x07; x70; xc0; xf7; x8c; x80; x63; x0d; x67; x4a; xde; xed; x31; xc5; xfe; x18;
  xe3; xa5; x99; x77; x26; xb8; xb4; x7c; x11; x44; x92; xd9; x23; x20; x89; x2e;
  x37; x3f; xd1; x5b; x95; xbc; xcf; xcd; x90; x87; x97; xb2; xdc; xfc; xbe; x61;
  xf2; x56; xd3; xab; x14; x2a; x5d; x9e; x84; x3c; x39; x53; x47; x6d; x41; xa2;
  x1f; x2d; x43; xd8; xb7; x7b; xa4; x76; xc4; x17; x49; xec; x7f; x0c; x6f; xf6;
  x6c; xa1; x3b; x52; x29; x9d; x55; xaa; xfb; x60; x86; xb1; xbb; xcc; x3e; x5a;
  xcb; x59; x5f; xb0; x9c; xa9; xa0; x51; x0b; xf5; x16; xeb; x7a; x75; x2c; xd7;
  x4f; xae; xd5; xe9; xe6; xe7; xad; xe8; x74; xd6; xf4; xea; xa8; x50; x58; xaf ].

(** The inverse table of the [GF_LARGE_TABLES] build. *)
Definition gf_inv_table_base : list byte :=
  [ x00; x01; x8e; xf4; x47; xa7; x7a; xba; xad; x9d; xdd; x98; x3d; xaa; x5d; x96;
  xd8; x72; xc0; x58; xe0; x3e; x4c; x66; x90; xde; x55; x80; xa0; x83; x4b; x2a;
  x6c; xed; x39; x51; x60; x56; x2c; x8a; x70; xd0; x1f; x4a; x26; x8b; x33; x6e;
  x48; x89; x6f; x2e; xa4; xc3; x40; x5e; x50; x22; xcf; xa9; xab; x0c; x15; xe1;
  x36; x5f; xf8; xd5; x92; x4e; xa6; x04; x30; x88; x2b; x1e; x16; x67; x45; x93;
  x38; x23; x68; x8c; x81; x1a; x25; x61; x13; xc1; xcb; x63; x97; x0e; x37; x41;
  x24; x57; xca; x5b; xb9; xc4; x17; x4d; x52; x8d; xef; xb3; x20; xec; x2f; x32;
  x28; xd1; x11; xd9; xe9; xfb; xda; x79; xdb; x77; x06; xbb; x84; xcd; xfe; xfc;
  x1b; x54; xa1; x1d; x7c; xcc; xe4; xb0; x49; x31; x27; x2d; x53; x69; x02; xf5;
  x18; xdf; x44; x4f; x9b; xbc; x0f; x5c; x0b; xdc; xbd; x94; xac; x09; xc7; xa2;
  x1c; x82; x9f; xc6; x34; xc2; x46; x05; xce; x3b; x0d; x3c; x9c; x08; xbe; xb7;
  x87; xe5; xee; x6b; xeb; xf2; xbf; xaf; xc5; x64; x07; x7b; x95; x9a; xae; xb6;
  x12; x59; xa5; x35; x65; xb8; xa3; x9e; xd2; xf7; x62; x5a; x85; x7d; xa8; x3a;
  x29; x71; xc8; xf6; xf9; x43; xd7; xd6; x10; x73; x76; x78; x99; x0a; x19; x91;
  x14; x3f; xe6; xf0; x86; xb1; xe2; xf1; xfa; x74; xf3; xb4; x6d; x21; xb2; x6a;
  xe3; xe7; xb5; xea; x03; x8f; xd3; xc9; x42; xd4; xe8; x75; x7f; xff; x7e; xfd ].

(** An element of a static table; the indices the code uses are in range
    ([gf_mul_index_bounds], [gf_inv_index_bounds]). *)
Definition tab (t : list byte) (i : Z) : byte := t !!! Z.to_nat i.

(** * Arithmetic *)

(** The index into [gff_base] that [gf_mul] computes. *)
Definition gf_mul_index (a b : byte) : Z :=
  let i := b2z (tab gflog_base (b2z a)) + b2z (tab gflog_base (b2z b)) in
  if i >? 254 then i - 255 else i.

Definition gf_mul (a b : byte) : byte :=
  if (b2z a =? 0) || (b2z b =? 0) then x00 else tab gff_base (gf_mul_index a b).

Definition gf_inv_index (a : byte) : Z := 255 - b2z (tab gflog_base (b2z a)).

Definition gf_inv (a : byte) : byte :=
  if b2z a =? 0 then x00 else tab gff_base (gf_inv_index a).

(** [gf_inv] of the [GF_LARGE_TABLES] build. *)
Definition gf_inv_large (a : byte) : byte := tab gf_inv_table_base (b2z a).

(** [(c << 1) ^ ((c & 0x80) ? 0x1d : 0)] stored in an [unsigned char]:
    multiplication by x. *)
Definition gf_double (c : byte) : byte :=
  z2b (Z.lxor (Z.shiftl (b2z c) 1) (if truthy (Z.land (b2z c) 0x80) then 0x1d else 0)).

(** * Reference product

    The sum over the set bits of the first factor of the shifted second one:
    schoolbook polynomial multiplication modulo 0x11d. *)
Definition gf_term (a b : byte) (i : nat) : byte :=
  if Z.testbit (b2z a) (Z.of_nat i) then Nat.iter i gf_double b else x00.
Definition gf_mul_ref (a b : byte) : byte :=
  foldr (λ i acc, bxor (gf_term a b i) acc) x00 (seq 0 8).

(** Discrete exponential and logarithm to the base x. *)
Definition gexp (n : Z) : byte := tab gff_base (n mod 255).
Definition glog (a : byte) : Z := b2z (tab gflog_base (b2z a)).

(** * Tables are consistent *)

Lemma gff_base_length : length gff_base = 256%nat.
Proof. reflexivity. Qed.
Lemma gflog_base_length : length gflog_base = 256%nat.
Proof. reflexivity. Qed.

Lemma glog_range a : 0 <= glog a <= 255.
Proof. unfold glog. pose proof (b2z_range (tab gflog_base (b2z a))). lia. Qed.

Definition zero_byte (a : byte) : bool := b2z a =? 0.

Lemma zero_byte_true a : zero_byte a = true ↔ a = x00.
Proof.
  unfold zero_byte. rewrite Z.eqb_eq. split; [|by intros ->].
  intros H. apply b2z_inj. rewrite H. reflexivity.
Qed.
Lemma zero_byte_false a : zero_byte a = false ↔ a ≠ x00.
Proof. rewrite <- zero_byte_true. destruct (zero_byte a); naive_solver. Qed.

Lemma byte_eqb_eq a b : Byte.eqb a b = true ↔ a = b.
Proof.
  split; [apply Byte.byte_dec_bl | apply Byte.byte_dec_lb].
Qed.

(** Exhaustive check of a property of nonzero bytes. *)
Lemma nonzero_forall (p : byte → bool) :
  forallb (λ a, zero_byte a || p a) all_bytes = true → ∀ a, a ≠ x00 → p a = true.
Proof.
  intros H a Ha%zero_byte_false. pose proof (byte_forall _ H a) as Hp. cbn in Hp.
  by rewrite Ha in Hp.
Qed.

Lemma gexp_glog a : a ≠ x00 → gexp (glog a) = a.
Proof.
  intros Ha. apply byte_eqb_eq. revert a Ha. apply nonzero_forall. vm_compute. reflexivity.
Qed.

Lemma gexp_table_check :
  forallb (λ n, (glog (gexp n) mod 255 =? n) && negb (zero_byte (gexp n))) (seqZ 0 255) = true.
Proof. vm_compute. reflexivity. Qed.

Lemma gexp_mod n : gexp (n mod 255) = gexp n.
Proof. unfold gexp. by rewrite Zmod_mod. Qed.

Lemma gexp_check n : glog (gexp n) mod 255 = n mod 255 ∧ gexp n ≠ x00.
Proof.
  pose proof gexp_table_check as H. rewrite forallb_forall in H.
  assert (n mod 255 ∈ seqZ 0 255) as Hin.
  { apply elem_of_seqZ. pose proof (Z.mod_pos_bound n 255). lia. }
  apply list_elem_of_In, H in Hin. rewrite gexp_mod in Hin.
  apply andb_true_iff in Hin as [H1%Z.eqb_eq H2%negb_true_iff%zero_byte_false]. done.
Qed.

Lemma glog_gexp n : glog (gexp n) mod 255 = n mod 255.
Proof. apply gexp_check. Qed.
Lemma gexp_nonzero n : gexp n ≠ x00.
Proof. apply gexp_check. Qed.

Lemma gexp_eq m n : m mod 255 = n mod 255 → gexp m = gexp n.
Proof. intros H. rewrite <- (gexp_mod m), <- (gexp_mod n). by rewrite H. Qed.

(** * [gf_mul] on the exponential side *)

Lemma gf_mul_0_l b : gf_mul x00 b = x00.
Proof. reflexivity. Qed.
Lemma gf_mul_0_r a : gf_mul a x00 = x00.
Proof. unfold gf_mul. change (b2z x00 =? 0) with true. by rewrite orb_true_r. Qed.

Lemma tab_gff_255 : tab gff_base 255 = tab gff_base 0.
Proof. reflexivity. Qed.

Lemma gf_mul_exp a b : a ≠ x00 → b ≠ x00 → gf_mul a b = gexp (glog a + glog b).
Proof.
  intros Ha%zero_byte_false Hb%zero_byte_false. unfold zero_byte in *.
  unfold gf_mul. rewrite Ha, Hb. cbn [orb]. unfold gf_mul_index, gexp.
  fold (glog a) (glog b). pose proof (glog_range a). pose proof (glog_range b).
  rewrite Z.gtb_ltb. destruct (Z.ltb_spec 254 (glog a + glog b)).
  - destruct (Z.eq_dec (glog a + glog b) 510) as [E|]; [rewrite E; reflexivity|].
    rewrite (Z.mod_eq (glog a + glog b)) by lia.
    replace ((glog a + glog b) / 255) with 1 by (apply Z.div_unique with (glog a + glog b - 255); lia).
    f_equal; lia.
  - rewrite Z.mod_small by lia. done.
Qed.

Lemma gf_mul_nonzero a b : a ≠ x00 → b ≠ x00 → gf_mul a b ≠ x00.
Proof. intros. rewrite gf_mul_exp by done. apply gexp_nonzero. Qed.

Lemma gf_mul_integral a b : gf_mul a b = x00 → a = x00 ∨ b = x00.
Proof.
  intros H. destruct (decide (a = x00)) as [|Ha]; [by left|].
  destruct (decide (b = x00)) as [|Hb]; [by right|]. by destruct (gf_mul_nonzero a b).
Qed.

Lemma gf_mul_comm a b : gf_mul a b = gf_mul b a.
Proof.
  destruct (decide (a = x00)) as [->|]; [by rewrite gf_mul_0_l, gf_mul_0_r|].
  destruct (decide (b = x00)) as [->|]; [by rewrite gf_mul_0_l, gf_mul_0_r|].
  rewrite !gf_mul_exp by done. f_equal. lia.
Qed.

Lemma gf_mul_assoc a b c : gf_mul a (gf_mul b c) = gf_mul (gf_mul a b) c.
Proof.
  destruct (decide (a = x00)) as [->|]; [by rewrite !gf_mul_0_l|].
  destruct (decide (b = x00)) as [->|]; [by rewrite (gf_mul_0_l c), gf_mul_0_r, gf_mul_0_l|].
  destruct (decide (c = x00)) as [->|]; [by rewrite !gf_mul_0_r|].
  rewrite (gf_mul_exp a) by (done || by apply gf_mul_nonzero).
  rewrite (gf_mul_exp (gf_mul a b)) by (done || by apply gf_mul_nonzero).
  apply gexp_eq. rewrite !gf_mul_exp by done.
  rewrite (Z.add_mod (glog a)), (Z.add_mod _ (glog c)), !glog_gexp by lia.
  rewrite <- !Z.add_mod by lia. f_equal. lia.
Qed.

Lemma gf_mul_1_l a : gf_mul x01 a = a.
Proof.
  apply byte_eqb_eq. revert a. apply byte_forall. vm_compute. reflexivity.
Qed.

(** * The reference product is bilinear *)

Lemma z2b_lxor x y : 0 <= x → 0 <= y → z2b (Z.lxor x y) = bxor (z2b x) (z2b y).
Proof.
  intros Hx Hy. apply b2z_inj. rewrite b2z_bxor, !b2z_z2b.
  change 256 with (2 ^ 8). rewrite <- !Z.land_ones by lia.
  apply Z.bits_inj'. intros n Hn. rewrite !Z.land_spec, !Z.lxor_spec, !Z.land_spec.
  by destruct (Z.testbit x n), (Z.testbit y n), (Z.testbit (Z.ones 8) n).
Qed.

(** The conditional reduction of [gf_double] depends on bit 7 only. *)
Lemma truthy_bit7 c : truthy (Z.land (b2z c) 0x80) = Z.testbit (b2z c) 7.
Proof.
  apply eqb_prop. revert c. apply byte_forall. vm_compute. reflexivity.
Qed.

Lemma gf_double_bxor a b : gf_double (bxor a b) = bxor (gf_double a) (gf_double b).
Proof.
  unfold gf_double. rewrite !truthy_bit7, b2z_bxor, Z.shiftl_lxor, Z.lxor_spec.
  pose proof (b2z_range a). pose proof (b2z_range b).
  assert (∀ c : bool, 0 <= (if c then 0x1d else 0)) as Hc by (intros []; lia).
  assert (∀ x y, 0 <= x → 0 <= y → 0 <= Z.lxor x y) as Hx by (intros; apply Z.lxor_nonneg; tauto).
  assert (0 <= Z.shiftl (b2z a) 1 ∧ 0 <= Z.shiftl (b2z b) 1) as [Ha Hb] by (rewrite !Z.shiftl_nonneg; lia).
  rewrite <- z2b_lxor by auto.
  f_equal. destruct (Z.testbit (b2z a) 7), (Z.testbit (b2z b) 7); cbn [xorb];
    apply Z.bits_inj'; intros n Hn; rewrite !Z.lxor_spec, ?Z.bits_0;
    destruct (Z.testbit (Z.shiftl (b2z a) 1) n), (Z.testbit (Z.shiftl (b2z b) 1) n);
    try destruct (Z.testbit 29 n); done.
Qed.

Lemma bxor_swap a b c d : bxor (bxor a b) (bxor c d) = bxor (bxor a c) (bxor b d).
Proof.
  rewrite !bxor_assoc. f_equal. rewrite <- !bxor_assoc. f_equal. apply bxor_comm.
Qed.

Lemma gf_term_bxor_l a b c i : gf_term (bxor a b) c i = bxor (gf_term a c i) (gf_term b c i).
Proof.
  unfold gf_term. rewrite b2z_bxor, Z.lxor_spec.
  destruct (Z.testbit (b2z a) _), (Z.testbit (b2z b) _); cbn [xorb];
    by rewrite ?bxor_0_l, ?bxor_0_r, ?bxor_nilpotent.
Qed.

Lemma gf_mul_ref_bxor_l a b c : gf_mul_ref (bxor a b) c = bxor (gf_mul_ref a c) (gf_mul_ref b c).
Proof.
  unfold gf_mul_ref. induction (seq 0 8) as [|i l IH]; cbn [foldr].
  - by rewrite bxor_0_l.
  - by rewrite gf_term_bxor_l, IH, bxor_swap.
Qed.

(** ** Additive functions are determined by the eight powers of two *)

Definition additive (f : byte → byte) : Prop := ∀ a b, f (bxor a b) = bxor (f a) (f b).

Definition bits_of (a : byte) : list byte :=
  (λ i, if Z.testbit (b2z a) (Z.of_nat i) then z2b (2 ^ Z.of_nat i) else x00) <$> seq 0 8.
Definition basis : list byte := (λ i, z2b (2 ^ Z.of_nat i)) <$> seq 0 8.

Lemma bits_of_sum a : foldr bxor x00 (bits_of a) = a.
Proof. apply byte_eqb_eq. revert a. apply byte_forall. vm_compute. reflexivity. Qed.

Lemma additive_0 f : additive f → f x00 = x00.
Proof.
  intros H. pose proof (H x00 x00) as E. by rewrite !bxor_nilpotent in E.
Qed.

Lemma additive_foldr f l : additive f → f (foldr bxor x00 l) = foldr bxor x00 (f <$> l).
Proof.
  intros H. induction l as [|x l IH]; cbn; [by apply additive_0|]. by rewrite H, IH.
Qed.

Lemma additive_ext f g : additive f → additive g → (∀ b, b ∈ basis → f b = g b) → ∀ a, f a = g a.
Proof.
  intros Hf Hg Hb a. rewrite <- (bits_of_sum a), !additive_foldr by done. f_equal.
  unfold bits_of. rewrite <- !list_fmap_compose. apply list_fmap_ext. intros k i Hi. cbn.
  destruct (Z.testbit _ _); [|by rewrite !additive_0].
  apply Hb. unfold basis. apply list_elem_of_fmap. exists i. split; [done|].
  by eapply list_elem_of_lookup_2.
Qed.

Lemma gf_mul_ref_additive b : additive (λ a, gf_mul_ref a b).
Proof. intros a a'. apply gf_mul_ref_bxor_l. Qed.

Lemma gf_double_additive : additive gf_double.
Proof. intros a b. apply gf_double_bxor. Qed.

Lemma gf_mul_ref_double_basis :
  forallb (λ a, forallb (λ b,
    Byte.eqb (gf_mul_ref (gf_double a) b) (gf_double (gf_mul_ref a b))) all_bytes) basis = true.
Proof. vm_compute. reflexivity. Qed.

Lemma gf_mul_ref_double a b : gf_mul_ref (gf_double a) b = gf_double (gf_mul_ref a b).
Proof.
  revert a. apply (additive_ext (λ a, gf_mul_ref (gf_double a) b) (λ a, gf_double (gf_mul_ref a b))).
  - intros x y. cbn beta. by rewrite gf_double_bxor, gf_mul_ref_bxor_l.
  - intros x y. cbn beta. by rewrite gf_mul_ref_bxor_l, gf_double_bxor.
  - intros x Hx. pose proof gf_mul_ref_double_basis as H. rewrite forallb_forall in H.
    apply byte_eqb_eq, (byte_forall _ (H x (proj1 (list_elem_of_In _ _) Hx)) b).
Qed.

Lemma gexp_succ n : gexp (n + 1) = gf_double (gexp n).
Proof.
  assert (forallb (λ n, Byte.eqb (gexp (n + 1)) (gf_double (gexp n))) (seqZ 0 255) = true) as H
    by (vm_compute; reflexivity).
  rewrite forallb_forall in H. rewrite <- (gexp_mod n), <- (gexp_mod (n + 1)).
  rewrite <- (Zplus_mod_idemp_l n 1 255), gexp_mod. apply byte_eqb_eq, H, list_elem_of_In, elem_of_seqZ.
  pose proof (Z.mod_pos_bound n 255). lia.
Qed.

Lemma gf_mul_ref_0_l b : gf_mul_ref x00 b = x00.
Proof. apply (additive_0 _ (gf_mul_ref_additive b)). Qed.

Lemma gf_mul_ref_0_r a : gf_mul_ref a x00 = x00.
Proof. apply byte_eqb_eq. revert a. apply byte_forall. vm_compute. reflexivity. Qed.

Lemma gf_mul_ref_1_l b : gf_mul_ref x01 b = b.
Proof. apply byte_eqb_eq. revert b. apply byte_forall. vm_compute. reflexivity. Qed.

Lemma gf_mul_ref_gexp (n : nat) b :
  b ≠ x00 → gf_mul_ref (gexp (Z.of_nat n)) b = gexp (Z.of_nat n + glog b).
Proof.
  intros Hb. induction n as [|n IH].
  - change (gexp (Z.of_nat 0)) with x01. rewrite gf_mul_ref_1_l, Z.add_0_l.
    by rewrite gexp_glog.
  - rewrite Nat2Z.inj_succ, <- Z.add_1_r, gexp_succ, gf_mul_ref_double, IH.
    rewrite <- gexp_succ. f_equal. lia.
Qed.

(** * Properties *)

Lemma gf_mul_ref_spec a b : gf_mul a b = gf_mul_ref a b.
Proof.
  destruct (decide (a = x00)) as [->|Ha]; [by rewrite gf_mul_0_l, gf_mul_ref_0_l|].
  destruct (decide (b = x00)) as [->|Hb]; [by rewrite gf_mul_0_r, gf_mul_ref_0_r|].
  rewrite gf_mul_exp by done.
  transitivity (gf_mul_ref (gexp (Z.of_nat (Z.to_nat (glog a)))) b).
  - rewrite gf_mul_ref_gexp by done. rewrite Z2Nat.id; [done|]. apply glog_range.
  - rewrite Z2Nat.id by apply glog_range. by rewrite gexp_glog.
Qed.

(** C31: the log/antilog product is polynomial multiplication over GF(2) modulo
    x^8+x^4+x^3+x^2+1, for every pair of bytes. *)
Lemma gf_mul_is_reference a b : gf_mul a b = gf_mul_ref a b.
Proof. apply gf_mul_ref_spec. Qed.

Lemma gf_mul_distr_l a b c : gf_mul (bxor a b) c = bxor (gf_mul a c) (gf_mul b c).
Proof. rewrite !gf_mul_ref_spec. apply gf_mul_ref_bxor_l. Qed.

Lemma gf_mul_distr_r a b c : gf_mul a (bxor b c) = bxor (gf_mul a b) (gf_mul a c).
Proof. rewrite !(gf_mul_comm a). apply gf_mul_distr_l. Qed.

Lemma gf_mul_inv a : a ≠ x00 → gf_mul a (gf_inv a) = x01.
Proof.
  intros Ha. apply byte_eqb_eq. revert a Ha. apply nonzero_forall. vm_compute. reflexivity.
Qed.

Lemma gf_inv_nonzero a : a ≠ x00 → gf_inv a ≠ x00.
Proof.
  intros Ha E. pose proof (gf_mul_inv a Ha) as H. rewrite E, gf_mul_0_r in H. done.
Qed.

(** The indices [gf_mul] and [gf_inv] compute stay inside the 256-entry
    tables, so neither reads out of bounds. *)
Lemma gf_table_indices_in_bounds a b :
  0 <= gf_mul_index a b < alen gff_base ∧ 0 <= gf_inv_index a < alen gff_base
  ∧ 0 <= b2z a < alen gflog_base.
Proof.
  pose proof (glog_range a). pose proof (glog_range b). pose proof (b2z_range a).
  unfold gf_mul_index, gf_inv_index, alen. fold (glog a) (glog b).
  rewrite gff_base_length, gflog_base_length, Z.gtb_ltb.
  destruct (Z.ltb_spec 254 (glog a + glog b)); lia.
Qed.

(** The two builds ([GF_LARGE_TABLES] or not) compute the same inverse. *)
Lemma gf_inv_large_eq a : gf_inv_large a = gf_inv a.
Proof. apply byte_eqb_eq. revert a. apply byte_forall. vm_compute. reflexivity. Qed.

(** * The ring of bytes *)

Lemma gf_ring_theory :
  ring_theory x00 x01 bxor gf_mul bxor (λ a, a) (@eq byte).
Proof.
  split; intros.
  - apply bxor_0_l.
  - apply bxor_comm.
  - apply bxor_assoc.
  - apply gf_mul_1_l.
  - apply gf_mul_comm.
  - apply gf_mul_assoc.
  - apply gf_mul_distr_l.
  - done.
  - apply bxor_nilpotent.
Qed.

Add Ring gf_ring : gf_ring_theory.

#[global] Opaque gf_mul gf_inv.

#[export] Hint Rewrite gf_mul_0_l gf_mul_0_r gf_mul_1_l : bytes.

(** ** Finite sums (XOR) *)

(** [f 0 + ... + f (n-1)]. *)
Fixpoint bsum (n : nat) (f : Z → byte) : byte :=
  match n with
  | O => x00
  | S n' => bxor (bsum n' f) (f (Z.of_nat n'))
  end.

Lemma bsum_ext n f g : (∀ i, 0 <= i < Z.of_nat n → f i = g i) → bsum n f = bsum n g.
Proof.
  induction n as [|n IH]; intros H; cbn; [done|]. rewrite IH, H; [done|lia|].
  intros i Hi. apply H. lia.
Qed.

Lemma bsum_zero n f : (∀ i, 0 <= i < Z.of_nat n → f i = x00) → bsum n f = x00.
Proof.
  induction n as [|n IH]; intros H; cbn; [done|]. rewrite IH, H; [done|lia|].
  intros i Hi. apply H. lia.
Qed.

Lemma bsum_bxor n f g : bsum n (λ i, bxor (f i) (g i)) = bxor (bsum n f) (bsum n g).
Proof. induction n as [|n IH]; cbn; [done|]. rewrite IH. ring. Qed.

Lemma bsum_mul_l n c f : bsum n (λ i, gf_mul c (f i)) = gf_mul c (bsum n f).
Proof. induction n as [|n IH]; cbn; [by rewrite gf_mul_0_r|]. rewrite IH. ring. Qed.

Lemma bsum_mul_r n c f : bsum n (λ i, gf_mul (f i) c) = gf_mul (bsum n f) c.
Proof. induction n as [|n IH]; cbn; [by rewrite gf_mul_0_l|]. rewrite IH. ring. Qed.

Lemma bsum_swap n m (f : Z → Z → byte) :
  bsum n (λ i, bsum m (λ j, f i j)) = bsum m (λ j, bsum n (λ i, f i j)).
Proof.
  induction n as [|n IH]; cbn.
  - symmetry. by apply bsum_zero.
  - by rewrite IH, <- bsum_bxor.
Qed.

(** A sum with a single nonzero term. *)
Lemma bsum_single n k f :
  0 <= k < Z.of_nat n → (∀ i, 0 <= i < Z.of_nat n → i ≠ k → f i = x00) → bsum n f = f k.
Proof.
  induction n as [|n IH]; intros Hk H; [lia|]. cbn.
  destruct (Z.eq_dec k (Z.of_nat n)) as [->|].
  - rewrite bsum_zero, bxor_0_l; [done|]. intros i Hi. apply H; lia.
  - rewrite (H (Z.of_nat n)), bxor_0_r by lia. apply IH; [lia|]. intros i Hi. apply H. lia.
Qed.
