(* ===== verification/MulTable.v ===== *)
(** The 65536-entry multiplication table of [erasure_code/ec_base.h], which [GF_LARGE_TABLES]
    selects: [gf_mul_table_base], written as in the source, in parts of 150 of its lines.  What
    it holds is shown in [LargeTables]. *)

From S2P Require Import Prelude.

(** * Bytes in hexadecimal

    A literal such as ["00 1f a0"%hex] is the list of its bytes; spaces and line ends separate
    them. *)

Definition hex_digit (c : byte) : option Z :=
  if (0x30 <=? b2z c) && (b2z c <=? 0x39) then Some (b2z c - 0x30)
  else if (0x61 <=? b2z c) && (b2z c <=? 0x66) then Some (b2z c - 0x61 + 10) else None.
Fixpoint hex_read (s : list byte) : option (list byte) :=
  match s with
  | [] => Some []
  | c :: s' =>
      if (b2z c =? 0x20) || (b2z c =? 0x0a) then hex_read s'
      else match s' with
           | d :: s'' => h ← hex_digit c; l ← hex_digit d; r ← hex_read s''; Some (z2b (16 * h + l) :: r)
           | [] => None
           end
  end.
Definition hex_char (d : Z) : byte := z2b (if d <? 10 then 0x30 + d else 0x61 + (d - 10)).
Definition hex_write (s : list byte) : list byte := s ≫= λ c, [hex_char (b2z c / 16); hex_char (b2z c mod 16); x20].

Inductive hexes : Set := Hexes (l : list byte).
Definition bytes_of (h : hexes) : list byte := let 'Hexes l := h in l.
Definition parse_hexes (s : list byte) : option hexes := Hexes <$> hex_read s.
Definition print_hexes (h : hexes) : list byte := hex_write (bytes_of h).

Declare Scope hex_scope.
Delimit Scope hex_scope with hex.
String Notation hexes parse_hexes print_hexes : hex_scope.

(** * The table *)

Definition gf_mul_table_base_00 : list byte := bytes_of "
  00 00 00 00 00 00 00 00 00 00 00 00 00 00 00 00 00 00 00 00 00 00 00 00 00 00 00 00 00 00
  00 00 00 00 00 00 00 00 00 00 00 00 00 00 00 00 00 00 00 00 00 00 00 00 00 00 00 00 00 00
  00 00 00 00 00 00 00 00 00 00 00 00 00 00 00 00 00 00 00 00 00 00 00 00 00 00 00 00 00 00
  00 00 00 00 00 00 00 00 00 00 00 00 00 00 00 00 00 00 00 00 00 00 00 00 00 00 00 00 00 00
  00 00 00 00 00 00 00 00 00 00 00 00 00 00 00 00 00 00 00 00 00 00 00 00 00 00 00 00 00 00
  00 00 00 00 00 00 00 00 00 00 00 00 00 00 00 00 00 00 00 00 00 00 00 00 00 00 00 00 00 00
  00 00 00 00 00 00 00 00 00 00 00 00 00 00 00 00 00 00 00 00 00 00 00 00 00 00 00 00 00 00
  00 00 00 00 00 00 00 00 00 00 00 00 00 00 00 00 00 00 00 00 00 00 00 00 00 00 00 00 00 00
  00 00 00 00 00 00 00 00 00 00 00 00 00 00 00 00 00 01 02 03 04 05 06 07 08 09 0a 0b 0c 0d
  0e 0f 10 11 12 13 14 15 16 17 18 19 1a 1b 1c 1d 1e 1f 20 21 22 23 24 25 26 27 28 29 2a 2b
  2c 2d 2e 2f 30 31 32 33 34 35 36 37 38 39 3a 3b 3c 3d 3e 3f 40 41 42 43 44 45 46 47 48 49
  4a 4b 4c 4d 4e 4f 50 51 52 53 54 55 56 57 58 59 5a 5b 5c 5d 5e 5f 60 61 62 63 64 65 66 67
  68 69 6a 6b 6c 6d 6e 6f 70 71 72 73 74 75 76 77 78 79 7a 7b 7c 7d 7e 7f 80 81 82 83 84 85
  86 87 88 89 8a 8b 8c 8d 8e 8f 90 91 92 93 94 95 96 97 98 99 9a 9b 9c 9d 9e 9f a0 a1 a2 a3
  a4 a5 a6 a7 a8 a9 aa ab ac ad ae af b0 b1 b2 b3 b4 b5 b6 b7 b8 b9 ba bb bc bd be bf c0 c1
  c2 c3 c4 c5 c6 c7 c8 c9 ca cb cc cd ce cf d0 d1 d2 d3 d4 d5 d6 d7 d8 d9 da db dc dd de df
  e0 e1 e2 e3 e4 e5 e6 e7 e8 e9 ea eb ec ed ee ef f0 f1 f2 f3 f4 f5 f6 f7 f8 f9 fa fb fc fd
  fe ff 00 02 04 06 08 0a 0c 0e 10 12 14 16 18 1a 1c 1e 20 22 24 26 28 2a 2c 2e 30 32 34 36
  38 3a 3c 3e 40 42 44 46 48 4a 4c 4e 50 52 54 56 58 5a 5c 5e 60 62 64 66 68 6a 6c 6e 70 72
  74 76 78 7a 7c 7e 80 82 84 86 88 8a 8c 8e 90 92 94 96 98 9a 9c 9e a0 a2 a4 a6 a8 aa ac ae
  b0 b2 b4 b6 b8 ba bc be c0 c2 c4 c6 c8 ca cc ce d0 d2 d4 d6 d8 da dc de e0 e2 e4 e6 e8 ea
  ec ee f0 f2 f4 f6 f8 fa fc fe 1d 1f 19 1b 15 17 11 13 0d 0f 09 0b 05 07 01 03 3d 3f 39 3b
  35 37 31 33 2d 2f 29 2b 25 27 21 23 5d 5f 59 5b 55 57 51 53 4d 4f 49 4b 45 47 41 43 7d 7f
  79 7b 75 77 71 73 6d 6f 69 6b 65 67 61 63 9d 9f 99 9b 95 97 91 93 8d 8f 89 8b 85 87 81 83
  bd bf b9 bb b5 b7 b1 b3 ad af a9 ab a5 a7 a1 a3 dd df d9 db d5 d7 d1 d3 cd cf c9 cb c5 c7
  c1 c3 fd ff f9 fb f5 f7 f1 f3 ed ef e9 eb e5 e7 e1 e3 00 03 06 05 0c 0f 0a 09 18 1b 1e 1d
  14 17 12 11 30 33 36 35 3c 3f 3a 39 28 2b 2e 2d 24 27 22 21 60 63 66 65 6c 6f 6a 69 78 7b
  7e 7d 74 77 72 71 50 53 56 55 5c 5f 5a 59 48 4b 4e 4d 44 47 42 41 c0 c3 c6 c5 cc cf ca c9
  d8 db de dd d4 d7 d2 d1 f0 f3 f6 f5 fc ff fa f9 e8 eb ee ed e4 e7 e2 e1 a0 a3 a6 a5 ac af
  aa a9 b8 bb be bd b4 b7 b2 b1 90 93 96 95 9c 9f 9a 99 88 8b 8e 8d 84 87 82 81 9d 9e 9b 98
  91 92 97 94 85 86 83 80 89 8a 8f 8c ad ae ab a8 a1 a2 a7 a4 b5 b6 b3 b0 b9 ba bf bc fd fe
  fb f8 f1 f2 f7 f4 e5 e6 e3 e0 e9 ea ef ec cd ce cb c8 c1 c2 c7 c4 d5 d6 d3 d0 d9 da df dc
  5d 5e 5b 58 51 52 57 54 45 46 43 40 49 4a 4f 4c 6d 6e 6b 68 61 62 67 64 75 76 73 70 79 7a
  7f 7c 3d 3e 3b 38 31 32 37 34 25 26 23 20 29 2a 2f 2c 0d 0e 0b 08 01 02 07 04 15 16 13 10
  19 1a 1f 1c 00 04 08 0c 10 14 18 1c 20 24 28 2c 30 34 38 3c 40 44 48 4c 50 54 58 5c 60 64
  68 6c 70 74 78 7c 80 84 88 8c 90 94 98 9c a0 a4 a8 ac b0 b4 b8 bc c0 c4 c8 cc d0 d4 d8 dc
  e0 e4 e8 ec f0 f4 f8 fc 1d 19 15 11 0d 09 05 01 3d 39 35 31 2d 29 25 21 5d 59 55 51 4d 49
  45 41 7d 79 75 71 6d 69 65 61 9d 99 95 91 8d 89 85 81 bd b9 b5 b1 ad a9 a5 a1 dd d9 d5 d1
  cd c9 c5 c1 fd f9 f5 f1 ed e9 e5 e1 3a 3e 32 36 2a 2e 22 26 1a 1e 12 16 0a 0e 02 06 7a 7e
  72 76 6a 6e 62 66 5a 5e 52 56 4a 4e 42 46 ba be b2 b6 aa ae a2 a6 9a 9e 92 96 8a 8e 82 86
  fa fe f2 f6 ea ee e2 e6 da de d2 d6 ca ce c2 c6 27 23 2f 2b 37 33 3f 3b 07 03 0f 0b 17 13
  1f 1b 67 63 6f 6b 77 73 7f 7b 47 43 4f 4b 57 53 5f 5b a7 a3 af ab b7 b3 bf bb 87 83 8f 8b
  97 93 9f 9b e7 e3 ef eb f7 f3 ff fb c7 c3 cf cb d7 d3 df db 00 05 0a 0f 14 11 1e 1b 28 2d
  22 27 3c 39 36 33 50 55 5a 5f 44 41 4e 4b 78 7d 72 77 6c 69 66 63 a0 a5 aa af b4 b1 be bb
  88 8d 82 87 9c 99 96 93 f0 f5 fa ff e4 e1 ee eb d8 dd d2 d7 cc c9 c6 c3 5d 58 57 52 49 4c
  43 46 75 70 7f 7a 61 64 6b 6e 0d 08 07 02 19 1c 13 16 25 20 2f 2a 31 34 3b 3e fd f8 f7 f2
  e9 ec e3 e6 d5 d0 df da c1 c4 cb ce ad a8 a7 a2 b9 bc b3 b6 85 80 8f 8a 91 94 9b 9e ba bf
  b0 b5 ae ab a4 a1 92 97 98 9d 86 83 8c 89 ea ef e0 e5 fe fb f4 f1 c2 c7 c8 cd d6 d3 dc d9
  1a 1f 10 15 0e 0b 04 01 32 37 38 3d 26 23 2c 29 4a 4f 40 45 5e 5b 54 51 62 67 68 6d 76 73
  7c 79 e7 e2 ed e8 f3 f6 f9 fc cf ca c5 c0 db de d1 d4 b7 b2 bd b8 a3 a6 a9 ac 9f 9a 95 90"%hex.
Definition gf_mul_table_base_01 : list byte := bytes_of "
  8b 8e 81 84 47 42 4d 48 53 56 59 5c 6f 6a 65 60 7b 7e 71 74 17 12 1d 18 03 06 09 0c 3f 3a
  35 30 2b 2e 21 24 00 06 0c 0a 18 1e 14 12 30 36 3c 3a 28 2e 24 22 60 66 6c 6a 78 7e 74 72
  50 56 5c 5a 48 4e 44 42 c0 c6 cc ca d8 de d4 d2 f0 f6 fc fa e8 ee e4 e2 a0 a6 ac aa b8 be
  b4 b2 90 96 9c 9a 88 8e 84 82 9d 9b 91 97 85 83 89 8f ad ab a1 a7 b5 b3 b9 bf fd fb f1 f7
  e5 e3 e9 ef cd cb c1 c7 d5 d3 d9 df 5d 5b 51 57 45 43 49 4f 6d 6b 61 67 75 73 79 7f 3d 3b
  31 37 25 23 29 2f 0d 0b 01 07 15 13 19 1f 27 21 2b 2d 3f 39 33 35 17 11 1b 1d 0f 09 03 05
  47 41 4b 4d 5f 59 53 55 77 71 7b 7d 6f 69 63 65 e7 e1 eb ed ff f9 f3 f5 d7 d1 db dd cf c9
  c3 c5 87 81 8b 8d 9f 99 93 95 b7 b1 bb bd af a9 a3 a5 ba bc b6 b0 a2 a4 ae a8 8a 8c 86 80
  92 94 9e 98 da dc d6 d0 c2 c4 ce c8 ea ec e6 e0 f2 f4 fe f8 7a 7c 76 70 62 64 6e 68 4a 4c
  46 40 52 54 5e 58 1a 1c 16 10 02 04 0e 08 2a 2c 26 20 32 34 3e 38 00 07 0e 09 1c 1b 12 15
  38 3f 36 31 24 23 2a 2d 70 77 7e 79 6c 6b 62 65 48 4f 46 41 54 53 5a 5d e0 e7 ee e9 fc fb
  f2 f5 d8 df d6 d1 c4 c3 ca cd 90 97 9e 99 8c 8b 82 85 a8 af a6 a1 b4 b3 ba bd dd da d3 d4
  c1 c6 cf c8 e5 e2 eb ec f9 fe f7 f0 ad aa a3 a4 b1 b6 bf b8 95 92 9b 9c 89 8e 87 80 3d 3a
  33 34 21 26 2f 28 05 02 0b 0c 19 1e 17 10 4d 4a 43 44 51 56 5f 58 75 72 7b 7c 69 6e 67 60
  a7 a0 a9 ae bb bc b5 b2 9f 98 91 96 83 84 8d 8a d7 d0 d9 de cb cc c5 c2 ef e8 e1 e6 f3 f4
  fd fa 47 40 49 4e 5b 5c 55 52 7f 78 71 76 63 64 6d 6a 37 30 39 3e 2b 2c 25 22 0f 08 01 06
  13 14 1d 1a 7a 7d 74 73 66 61 68 6f 42 45 4c 4b 5e 59 50 57 0a 0d 04 03 16 11 18 1f 32 35
  3c 3b 2e 29 20 27 9a 9d 94 93 86 81 88 8f a2 a5 ac ab be b9 b0 b7 ea ed e4 e3 f6 f1 f8 ff
  d2 d5 dc db ce c9 c0 c7 00 08 10 18 20 28 30 38 40 48 50 58 60 68 70 78 80 88 90 98 a0 a8
  b0 b8 c0 c8 d0 d8 e0 e8 f0 f8 1d 15 0d 05 3d 35 2d 25 5d 55 4d 45 7d 75 6d 65 9d 95 8d 85
  bd b5 ad a5 dd d5 cd c5 fd f5 ed e5 3a 32 2a 22 1a 12 0a 02 7a 72 6a 62 5a 52 4a 42 ba b2
  aa a2 9a 92 8a 82 fa f2 ea e2 da d2 ca c2 27 2f 37 3f 07 0f 17 1f 67 6f 77 7f 47 4f 57 5f
  a7 af b7 bf 87 8f 97 9f e7 ef f7 ff c7 cf d7 df 74 7c 64 6c 54 5c 44 4c 34 3c 24 2c 14 1c
  04 0c f4 fc e4 ec d4 dc c4 cc b4 bc a4 ac 94 9c 84 8c 69 61 79 71 49 41 59 51 29 21 39 31
  09 01 19 11 e9 e1 f9 f1 c9 c1 d9 d1 a9 a1 b9 b1 89 81 99 91 4e 46 5e 56 6e 66 7e 76 0e 06
  1e 16 2e 26 3e 36 ce c6 de d6 ee e6 fe f6 8e 86 9e 96 ae a6 be b6 53 5b 43 4b 73 7b 63 6b
  13 1b 03 0b 33 3b 23 2b d3 db c3 cb f3 fb e3 eb 93 9b 83 8b b3 bb a3 ab 00 09 12 1b 24 2d
  36 3f 48 41 5a 53 6c 65 7e 77 90 99 82 8b b4 bd a6 af d8 d1 ca c3 fc f5 ee e7 3d 34 2f 26
  19 10 0b 02 75 7c 67 6e 51 58 43 4a ad a4 bf b6 89 80 9b 92 e5 ec f7 fe c1 c8 d3 da 7a 73
  68 61 5e 57 4c 45 32 3b 20 29 16 1f 04 0d ea e3 f8 f1 ce c7 dc d5 a2 ab b0 b9 86 8f 94 9d
  47 4e 55 5c 63 6a 71 78 0f 06 1d 14 2b 22 39 30 d7 de c5 cc f3 fa e1 e8 9f 96 8d 84 bb b2
  a9 a0 f4 fd e6 ef d0 d9 c2 cb bc b5 ae a7 98 91 8a 83 64 6d 76 7f 40 49 52 5b 2c 25 3e 37
  08 01 1a 13 c9 c0 db d2 ed e4 ff f6 81 88 93 9a a5 ac b7 be 59 50 4b 42 7d 74 6f 66 11 18
  03 0a 35 3c 27 2e 8e 87 9c 95 aa a3 b8 b1 c6 cf d4 dd e2 eb f0 f9 1e 17 0c 05 3a 33 28 21
  56 5f 44 4d 72 7b 60 69 b3 ba a1 a8 97 9e 85 8c fb f2 e9 e0 df d6 cd c4 23 2a 31 38 07 0e
  15 1c 6b 62 79 70 4f 46 5d 54 00 0a 14 1e 28 22 3c 36 50 5a 44 4e 78 72 6c 66 a0 aa b4 be
  88 82 9c 96 f0 fa e4 ee d8 d2 cc c6 5d 57 49 43 75 7f 61 6b 0d 07 19 13 25 2f 31 3b fd f7
  e9 e3 d5 df c1 cb ad a7 b9 b3 85 8f 91 9b ba b0 ae a4 92 98 86 8c ea e0 fe f4 c2 c8 d6 dc
  1a 10 0e 04 32 38 26 2c 4a 40 5e 54 62 68 76 7c e7 ed f3 f9 cf c5 db d1 b7 bd a3 a9 9f 95
  8b 81 47 4d 53 59 6f 65 7b 71 17 1d 03 09 3f 35 2b 21 69 63 7d 77 41 4b 55 5f 39 33 2d 27
  11 1b 05 0f c9 c3 dd d7 e1 eb f5 ff 99 93 8d 87 b1 bb a5 af 34 3e 20 2a 1c 16 08 02 64 6e
  70 7a 4c 46 58 52 94 9e 80 8a bc b6 a8 a2 c4 ce d0 da ec e6 f8 f2 d3 d9 c7 cd fb f1 ef e5
  83 89 97 9d ab a1 bf b5 73 79 67 6d 5b 51 4f 45 23 29 37 3d 0b 01 1f 15 8e 84 9a 90 a6 ac
  b2 b8 de d4 ca c0 f6 fc e2 e8 2e 24 3a 30 06 0c 12 18 7e 74 6a 60 56 5c 42 48 00 0b 16 1d
  2c 27 3a 31 58 53 4e 45 74 7f 62 69 b0 bb a6 ad 9c 97 8a 81 e8 e3 fe f5 c4 cf d2 d9 7d 76
  6b 60 51 5a 47 4c 25 2e 33 38 09 02 1f 14 cd c6 db d0 e1 ea f7 fc 95 9e 83 88 b9 b2 af a4
  fa f1 ec e7 d6 dd c0 cb a2 a9 b4 bf 8e 85 98 93 4a 41 5c 57 66 6d 70 7b 12 19 04 0f 3e 35
  28 23 87 8c 91 9a ab a0 bd b6 df d4 c9 c2 f3 f8 e5 ee 37 3c 21 2a 1b 10 0d 06 6f 64 79 72
  43 48 55 5e e9 e2 ff f4 c5 ce d3 d8 b1 ba a7 ac 9d 96 8b 80 59 52 4f 44 75 7e 63 68 01 0a
  17 1c 2d 26 3b 30 94 9f 82 89 b8 b3 ae a5 cc c7 da d1 e0 eb f6 fd 24 2f 32 39 08 03 1e 15"%hex.
Definition gf_mul_table_base_02 : list byte := bytes_of "
  7c 77 6a 61 50 5b 46 4d 13 18 05 0e 3f 34 29 22 4b 40 5d 56 67 6c 71 7a a3 a8 b5 be 8f 84
  99 92 fb f0 ed e6 d7 dc c1 ca 6e 65 78 73 42 49 54 5f 36 3d 20 2b 1a 11 0c 07 de d5 c8 c3
  f2 f9 e4 ef 86 8d 90 9b aa a1 bc b7 00 0c 18 14 30 3c 28 24 60 6c 78 74 50 5c 48 44 c0 cc
  d8 d4 f0 fc e8 e4 a0 ac b8 b4 90 9c 88 84 9d 91 85 89 ad a1 b5 b9 fd f1 e5 e9 cd c1 d5 d9
  5d 51 45 49 6d 61 75 79 3d 31 25 29 0d 01 15 19 27 2b 3f 33 17 1b 0f 03 47 4b 5f 53 77 7b
  6f 63 e7 eb ff f3 d7 db cf c3 87 8b 9f 93 b7 bb af a3 ba b6 a2 ae 8a 86 92 9e da d6 c2 ce
  ea e6 f2 fe 7a 76 62 6e 4a 46 52 5e 1a 16 02 0e 2a 26 32 3e 4e 42 56 5a 7e 72 66 6a 2e 22
  36 3a 1e 12 06 0a 8e 82 96 9a be b2 a6 aa ee e2 f6 fa de d2 c6 ca d3 df cb c7 e3 ef fb f7
  b3 bf ab a7 83 8f 9b 97 13 1f 0b 07 23 2f 3b 37 73 7f 6b 67 43 4f 5b 57 69 65 71 7d 59 55
  41 4d 09 05 11 1d 39 35 21 2d a9 a5 b1 bd 99 95 81 8d c9 c5 d1 dd f9 f5 e1 ed f4 f8 ec e0
  c4 c8 dc d0 94 98 8c 80 a4 a8 bc b0 34 38 2c 20 04 08 1c 10 54 58 4c 40 64 68 7c 70 00 0d
  1a 17 34 39 2e 23 68 65 72 7f 5c 51 46 4b d0 dd ca c7 e4 e9 fe f3 b8 b5 a2 af 8c 81 96 9b
  bd b0 a7 aa 89 84 93 9e d5 d8 cf c2 e1 ec fb f6 6d 60 77 7a 59 54 43 4e 05 08 1f 12 31 3c
  2b 26 67 6a 7d 70 53 5e 49 44 0f 02 15 18 3b 36 21 2c b7 ba ad a0 83 8e 99 94 df d2 c5 c8
  eb e6 f1 fc da d7 c0 cd ee e3 f4 f9 b2 bf a8 a5 86 8b 9c 91 0a 07 10 1d 3e 33 24 29 62 6f
  78 75 56 5b 4c 41 ce c3 d4 d9 fa f7 e0 ed a6 ab bc b1 92 9f 88 85 1e 13 04 09 2a 27 30 3d
  76 7b 6c 61 42 4f 58 55 73 7e 69 64 47 4a 5d 50 1b 16 01 0c 2f 22 35 38 a3 ae b9 b4 97 9a
  8d 80 cb c6 d1 dc ff f2 e5 e8 a9 a4 b3 be 9d 90 87 8a c1 cc db d6 f5 f8 ef e2 79 74 63 6e
  4d 40 57 5a 11 1c 0b 06 25 28 3f 32 14 19 0e 03 20 2d 3a 37 7c 71 66 6b 48 45 52 5f c4 c9
  de d3 f0 fd ea e7 ac a1 b6 bb 98 95 82 8f 00 0e 1c 12 38 36 24 2a 70 7e 6c 62 48 46 54 5a
  e0 ee fc f2 d8 d6 c4 ca 90 9e 8c 82 a8 a6 b4 ba dd d3 c1 cf e5 eb f9 f7 ad a3 b1 bf 95 9b
  89 87 3d 33 21 2f 05 0b 19 17 4d 43 51 5f 75 7b 69 67 a7 a9 bb b5 9f 91 83 8d d7 d9 cb c5
  ef e1 f3 fd 47 49 5b 55 7f 71 63 6d 37 39 2b 25 0f 01 13 1d 7a 74 66 68 42 4c 5e 50 0a 04
  16 18 32 3c 2e 20 9a 94 86 88 a2 ac be b0 ea e4 f6 f8 d2 dc ce c0 53 5d 4f 41 6b 65 77 79
  23 2d 3f 31 1b 15 07 09 b3 bd af a1 8b 85 97 99 c3 cd df d1 fb f5 e7 e9 8e 80 92 9c b6 b8
  aa a4 fe f0 e2 ec c6 c8 da d4 6e 60 72 7c 56 58 4a 44 1e 10 02 0c 26 28 3a 34 f4 fa e8 e6
  cc c2 d0 de 84 8a 98 96 bc b2 a0 ae 14 1a 08 06 2c 22 30 3e 64 6a 78 76 5c 52 40 4e 29 27
  35 3b 11 1f 0d 03 59 57 45 4b 61 6f 7d 73 c9 c7 d5 db f1 ff ed e3 b9 b7 a5 ab 81 8f 9d 93
  00 0f 1e 11 3c 33 22 2d 78 77 66 69 44 4b 5a 55 f0 ff ee e1 cc c3 d2 dd 88 87 96 99 b4 bb
  aa a5 fd f2 e3 ec c1 ce df d0 85 8a 9b 94 b9 b6 a7 a8 0d 02 13 1c 31 3e 2f 20 75 7a 6b 64
  49 46 57 58 e7 e8 f9 f6 db d4 c5 ca 9f 90 81 8e a3 ac bd b2 17 18 09 06 2b 24 35 3a 6f 60
  71 7e 53 5c 4d 42 1a 15 04 0b 26 29 38 37 62 6d 7c 73 5e 51 40 4f ea e5 f4 fb d6 d9 c8 c7
  92 9d 8c 83 ae a1 b0 bf d3 dc cd c2 ef e0 f1 fe ab a4 b5 ba 97 98 89 86 23 2c 3d 32 1f 10
  01 0e 5b 54 45 4a 67 68 79 76 2e 21 30 3f 12 1d 0c 03 56 59 48 47 6a 65 74 7b de d1 c0 cf
  e2 ed fc f3 a6 a9 b8 b7 9a 95 84 8b 34 3b 2a 25 08 07 16 19 4c 43 52 5d 70 7f 6e 61 c4 cb
  da d5 f8 f7 e6 e9 bc b3 a2 ad 80 8f 9e 91 c9 c6 d7 d8 f5 fa eb e4 b1 be af a0 8d 82 93 9c
  39 36 27 28 05 0a 1b 14 41 4e 5f 50 7d 72 63 6c 00 10 20 30 40 50 60 70 80 90 a0 b0 c0 d0
  e0 f0 1d 0d 3d 2d 5d 4d 7d 6d 9d 8d bd ad dd cd fd ed 3a 2a 1a 0a 7a 6a 5a 4a ba aa 9a 8a
  fa ea da ca 27 37 07 17 67 77 47 57 a7 b7 87 97 e7 f7 c7 d7 74 64 54 44 34 24 14 04 f4 e4
  d4 c4 b4 a4 94 84 69 79 49 59 29 39 09 19 e9 f9 c9 d9 a9 b9 89 99 4e 5e 6e 7e 0e 1e 2e 3e
  ce de ee fe 8e 9e ae be 53 43 73 63 13 03 33 23 d3 c3 f3 e3 93 83 b3 a3 e8 f8 c8 d8 a8 b8
  88 98 68 78 48 58 28 38 08 18 f5 e5 d5 c5 b5 a5 95 85 75 65 55 45 35 25 15 05 d2 c2 f2 e2
  92 82 b2 a2 52 42 72 62 12 02 32 22 cf df ef ff 8f 9f af bf 4f 5f 6f 7f 0f 1f 2f 3f 9c 8c
  bc ac dc cc fc ec 1c 0c 3c 2c 5c 4c 7c 6c 81 91 a1 b1 c1 d1 e1 f1 01 11 21 31 41 51 61 71
  a6 b6 86 96 e6 f6 c6 d6 26 36 06 16 66 76 46 56 bb ab 9b 8b fb eb db cb 3b 2b 1b 0b 7b 6b
  5b 4b 00 11 22 33 44 55 66 77 88 99 aa bb cc dd ee ff 0d 1c 2f 3e 49 58 6b 7a 85 94 a7 b6
  c1 d0 e3 f2 1a 0b 38 29 5e 4f 7c 6d 92 83 b0 a1 d6 c7 f4 e5 17 06 35 24 53 42 71 60 9f 8e
  bd ac db ca f9 e8 34 25 16 07 70 61 52 43 bc ad 9e 8f f8 e9 da cb 39 28 1b 0a 7d 6c 5f 4e
  b1 a0 93 82 f5 e4 d7 c6 2e 3f 0c 1d 6a 7b 48 59 a6 b7 84 95 e2 f3 c0 d1 23 32 01 10 67 76
  45 54 ab ba 89 98 ef fe cd dc 68 79 4a 5b 2c 3d 0e 1f e0 f1 c2 d3 a4 b5 86 97 65 74 47 56"%hex.
Definition gf_mul_table_base_03 : list byte := bytes_of "
  21 30 03 12 ed fc cf de a9 b8 8b 9a 72 63 50 41 36 27 14 05 fa eb d8 c9 be af 9c 8d 7f 6e
  5d 4c 3b 2a 19 08 f7 e6 d5 c4 b3 a2 91 80 5c 4d 7e 6f 18 09 3a 2b d4 c5 f6 e7 90 81 b2 a3
  51 40 73 62 15 04 37 26 d9 c8 fb ea 9d 8c bf ae 46 57 64 75 02 13 20 31 ce df ec fd 8a 9b
  a8 b9 4b 5a 69 78 0f 1e 2d 3c c3 d2 e1 f0 87 96 a5 b4 00 12 24 36 48 5a 6c 7e 90 82 b4 a6
  d8 ca fc ee 3d 2f 19 0b 75 67 51 43 ad bf 89 9b e5 f7 c1 d3 7a 68 5e 4c 32 20 16 04 ea f8
  ce dc a2 b0 86 94 47 55 63 71 0f 1d 2b 39 d7 c5 f3 e1 9f 8d bb a9 f4 e6 d0 c2 bc ae 98 8a
  64 76 40 52 2c 3e 08 1a c9 db ed ff 81 93 a5 b7 59 4b 7d 6f 11 03 35 27 8e 9c aa b8 c6 d4
  e2 f0 1e 0c 3a 28 56 44 72 60 b3 a1 97 85 fb e9 df cd 23 31 07 15 6b 79 4f 5d f5 e7 d1 c3
  bd af 99 8b 65 77 41 53 2d 3f 09 1b c8 da ec fe 80 92 a4 b6 58 4a 7c 6e 10 02 34 26 8f 9d
  ab b9 c7 d5 e3 f1 1f 0d 3b 29 57 45 73 61 b2 a0 96 84 fa e8 de cc 22 30 06 14 6a 78 4e 5c
  01 13 25 37 49 5b 6d 7f 91 83 b5 a7 d9 cb fd ef 3c 2e 18 0a 74 66 50 42 ac be 88 9a e4 f6
  c0 d2 7b 69 5f 4d 33 21 17 05 eb f9 cf dd a3 b1 87 95 46 54 62 70 0e 1c 2a 38 d6 c4 f2 e0
  9e 8c ba a8 00 13 26 35 4c 5f 6a 79 98 8b be ad d4 c7 f2 e1 2d 3e 0b 18 61 72 47 54 b5 a6
  93 80 f9 ea df cc 5a 49 7c 6f 16 05 30 23 c2 d1 e4 f7 8e 9d a8 bb 77 64 51 42 3b 28 1d 0e
  ef fc c9 da a3 b0 85 96 b4 a7 92 81 f8 eb de cd 2c 3f 0a 19 60 73 46 55 99 8a bf ac d5 c6
  f3 e0 01 12 27 34 4d 5e 6b 78 ee fd c8 db a2 b1 84 97 76 65 50 43 3a 29 1c 0f c3 d0 e5 f6
  8f 9c a9 ba 5b 48 7d 6e 17 04 31 22 75 66 53 40 39 2a 1f 0c ed fe cb d8 a1 b2 87 94 58 4b
  7e 6d 14 07 32 21 c0 d3 e6 f5 8c 9f aa b9 2f 3c 09 1a 63 70 45 56 b7 a4 91 82 fb e8 dd ce
  02 11 24 37 4e 5d 68 7b 9a 89 bc af d6 c5 f0 e3 c1 d2 e7 f4 8d 9e ab b8 59 4a 7f 6c 15 06
  33 20 ec ff ca d9 a0 b3 86 95 74 67 52 41 38 2b 1e 0d 9b 88 bd ae d7 c4 f1 e2 03 10 25 36
  4f 5c 69 7a b6 a5 90 83 fa e9 dc cf 2e 3d 08 1b 62 71 44 57 00 14 28 3c 50 44 78 6c a0 b4
  88 9c f0 e4 d8 cc 5d 49 75 61 0d 19 25 31 fd e9 d5 c1 ad b9 85 91 ba ae 92 86 ea fe c2 d6
  1a 0e 32 26 4a 5e 62 76 e7 f3 cf db b7 a3 9f 8b 47 53 6f 7b 17 03 3f 2b 69 7d 41 55 39 2d
  11 05 c9 dd e1 f5 99 8d b1 a5 34 20 1c 08 64 70 4c 58 94 80 bc a8 c4 d0 ec f8 d3 c7 fb ef
  83 97 ab bf 73 67 5b 4f 23 37 0b 1f 8e 9a a6 b2 de ca f6 e2 2e 3a 06 12 7e 6a 56 42 d2 c6
  fa ee 82 96 aa be 72 66 5a 4e 22 36 0a 1e 8f 9b a7 b3 df cb f7 e3 2f 3b 07 13 7f 6b 57 43
  68 7c 40 54 38 2c 10 04 c8 dc e0 f4 98 8c b0 a4 35 21 1d 09 65 71 4d 59 95 81 bd a9 c5 d1
  ed f9 bb af 93 87 eb ff c3 d7 1b 0f 33 27 4b 5f 63 77 e6 f2 ce da b6 a2 9e 8a 46 52 6e 7a
  16 02 3e 2a 01 15 29 3d 51 45 79 6d a1 b5 89 9d f1 e5 d9 cd 5c 48 74 60 0c 18 24 30 fc e8
  d4 c0 ac b8 84 90 00 15 2a 3f 54 41 7e 6b a8 bd 82 97 fc e9 d6 c3 4d 58 67 72 19 0c 33 26
  e5 f0 cf da b1 a4 9b 8e 9a 8f b0 a5 ce db e4 f1 32 27 18 0d 66 73 4c 59 d7 c2 fd e8 83 96
  a9 bc 7f 6a 55 40 2b 3e 01 14 29 3c 03 16 7d 68 57 42 81 94 ab be d5 c0 ff ea 64 71 4e 5b
  30 25 1a 0f cc d9 e6 f3 98 8d b2 a7 b3 a6 99 8c e7 f2 cd d8 1b 0e 31 24 4f 5a 65 70 fe eb
  d4 c1 aa bf 80 95 56 43 7c 69 02 17 28 3d 52 47 78 6d 06 13 2c 39 fa ef d0 c5 ae bb 84 91
  1f 0a 35 20 4b 5e 61 74 b7 a2 9d 88 e3 f6 c9 dc c8 dd e2 f7 9c 89 b6 a3 60 75 4a 5f 34 21
  1e 0b 85 90 af ba d1 c4 fb ee 2d 38 07 12 79 6c 53 46 7b 6e 51 44 2f 3a 05 10 d3 c6 f9 ec
  87 92 ad b8 36 23 1c 09 62 77 48 5d 9e 8b b4 a1 ca df e0 f5 e1 f4 cb de b5 a0 9f 8a 49 5c
  63 76 1d 08 37 22 ac b9 86 93 f8 ed d2 c7 04 11 2e 3b 50 45 7a 6f 00 16 2c 3a 58 4e 74 62
  b0 a6 9c 8a e8 fe c4 d2 7d 6b 51 47 25 33 09 1f cd db e1 f7 95 83 b9 af fa ec d6 c0 a2 b4
  8e 98 4a 5c 66 70 12 04 3e 28 87 91 ab bd df c9 f3 e5 37 21 1b 0d 6f 79 43 55 e9 ff c5 d3
  b1 a7 9d 8b 59 4f 75 63 01 17 2d 3b 94 82 b8 ae cc da e0 f6 24 32 08 1e 7c 6a 50 46 13 05
  3f 29 4b 5d 67 71 a3 b5 8f 99 fb ed d7 c1 6e 78 42 54 36 20 1a 0c de c8 f2 e4 86 90 aa bc
  cf d9 e3 f5 97 81 bb ad 7f 69 53 45 27 31 0b 1d b2 a4 9e 88 ea fc c6 d0 02 14 2e 38 5a 4c
  76 60 35 23 19 0f 6d 7b 41 57 85 93 a9 bf dd cb f1 e7 48 5e 64 72 10 06 3c 2a f8 ee d4 c2
  a0 b6 8c 9a 26 30 0a 1c 7e 68 52 44 96 80 ba ac ce d8 e2 f4 5b 4d 77 61 03 15 2f 39 eb fd
  c7 d1 b3 a5 9f 89 dc ca f0 e6 84 92 a8 be 6c 7a 40 56 34 22 18 0e a1 b7 8d 9b f9 ef d5 c3
  11 07 3d 2b 49 5f 65 73 00 17 2e 39 5c 4b 72 65 b8 af 96 81 e4 f3 ca dd 6d 7a 43 54 31 26
  1f 08 d5 c2 fb ec 89 9e a7 b0 da cd f4 e3 86 91 a8 bf 62 75 4c 5b 3e 29 10 07 b7 a0 99 8e
  eb fc c5 d2 0f 18 21 36 53 44 7d 6a a9 be 87 90 f5 e2 db cc 11 06 3f 28 4d 5a 63 74 c4 d3
  ea fd 98 8f b6 a1 7c 6b 52 45 20 37 0e 19 73 64 5d 4a 2f 38 01 16 cb dc e5 f2 97 80 b9 ae"%hex.
Definition gf_mul_table_base_04 : list byte := bytes_of "
  1e 09 30 27 42 55 6c 7b a6 b1 88 9f fa ed d4 c3 4f 58 61 76 13 04 3d 2a f7 e0 d9 ce ab bc
  85 92 22 35 0c 1b 7e 69 50 47 9a 8d b4 a3 c6 d1 e8 ff 95 82 bb ac c9 de e7 f0 2d 3a 03 14
  71 66 5f 48 f8 ef d6 c1 a4 b3 8a 9d 40 57 6e 79 1c 0b 32 25 e6 f1 c8 df ba ad 94 83 5e 49
  70 67 02 15 2c 3b 8b 9c a5 b2 d7 c0 f9 ee 33 24 1d 0a 6f 78 41 56 3c 2b 12 05 60 77 4e 59
  84 93 aa bd d8 cf f6 e1 51 46 7f 68 0d 1a 23 34 e9 fe c7 d0 b5 a2 9b 8c 00 18 30 28 60 78
  50 48 c0 d8 f0 e8 a0 b8 90 88 9d 85 ad b5 fd e5 cd d5 5d 45 6d 75 3d 25 0d 15 27 3f 17 0f
  47 5f 77 6f e7 ff d7 cf 87 9f b7 af ba a2 8a 92 da c2 ea f2 7a 62 4a 52 1a 02 2a 32 4e 56
  7e 66 2e 36 1e 06 8e 96 be a6 ee f6 de c6 d3 cb e3 fb b3 ab 83 9b 13 0b 23 3b 73 6b 43 5b
  69 71 59 41 09 11 39 21 a9 b1 99 81 c9 d1 f9 e1 f4 ec c4 dc 94 8c a4 bc 34 2c 04 1c 54 4c
  64 7c 9c 84 ac b4 fc e4 cc d4 5c 44 6c 74 3c 24 0c 14 01 19 31 29 61 79 51 49 c1 d9 f1 e9
  a1 b9 91 89 bb a3 8b 93 db c3 eb f3 7b 63 4b 53 1b 03 2b 33 26 3e 16 0e 46 5e 76 6e e6 fe
  d6 ce 86 9e b6 ae d2 ca e2 fa b2 aa 82 9a 12 0a 22 3a 72 6a 42 5a 4f 57 7f 67 2f 37 1f 07
  8f 97 bf a7 ef f7 df c7 f5 ed c5 dd 95 8d a5 bd 35 2d 05 1d 55 4d 65 7d 68 70 58 40 08 10
  38 20 a8 b0 98 80 c8 d0 f8 e0 00 19 32 2b 64 7d 56 4f c8 d1 fa e3 ac b5 9e 87 8d 94 bf a6
  e9 f0 db c2 45 5c 77 6e 21 38 13 0a 07 1e 35 2c 63 7a 51 48 cf d6 fd e4 ab b2 99 80 8a 93
  b8 a1 ee f7 dc c5 42 5b 70 69 26 3f 14 0d 0e 17 3c 25 6a 73 58 41 c6 df f4 ed a2 bb 90 89
  83 9a b1 a8 e7 fe d5 cc 4b 52 79 60 2f 36 1d 04 09 10 3b 22 6d 74 5f 46 c1 d8 f3 ea a5 bc
  97 8e 84 9d b6 af e0 f9 d2 cb 4c 55 7e 67 28 31 1a 03 1c 05 2e 37 78 61 4a 53 d4 cd e6 ff
  b0 a9 82 9b 91 88 a3 ba f5 ec c7 de 59 40 6b 72 3d 24 0f 16 1b 02 29 30 7f 66 4d 54 d3 ca
  e1 f8 b7 ae 85 9c 96 8f a4 bd f2 eb c0 d9 5e 47 6c 75 3a 23 08 11 12 0b 20 39 76 6f 44 5d
  da c3 e8 f1 be a7 8c 95 9f 86 ad b4 fb e2 c9 d0 57 4e 65 7c 33 2a 01 18 15 0c 27 3e 71 68
  43 5a dd c4 ef f6 b9 a0 8b 92 98 81 aa b3 fc e5 ce d7 50 49 62 7b 34 2d 06 1f 00 1a 34 2e
  68 72 5c 46 d0 ca e4 fe b8 a2 8c 96 bd a7 89 93 d5 cf e1 fb 6d 77 59 43 05 1f 31 2b 67 7d
  53 49 0f 15 3b 21 b7 ad 83 99 df c5 eb f1 da c0 ee f4 b2 a8 86 9c 0a 10 3e 24 62 78 56 4c
  ce d4 fa e0 a6 bc 92 88 1e 04 2a 30 76 6c 42 58 73 69 47 5d 1b 01 2f 35 a3 b9 97 8d cb d1
  ff e5 a9 b3 9d 87 c1 db f5 ef 79 63 4d 57 11 0b 25 3f 14 0e 20 3a 7c 66 48 52 c4 de f0 ea
  ac b6 98 82 81 9b b5 af e9 f3 dd c7 51 4b 65 7f 39 23 0d 17 3c 26 08 12 54 4e 60 7a ec f6
  d8 c2 84 9e b0 aa e6 fc d2 c8 8e 94 ba a0 36 2c 02 18 5e 44 6a 70 5b 41 6f 75 33 29 07 1d
  8b 91 bf a5 e3 f9 d7 cd 4f 55 7b 61 27 3d 13 09 9f 85 ab b1 f7 ed c3 d9 f2 e8 c6 dc 9a 80
  ae b4 22 38 16 0c 4a 50 7e 64 28 32 1c 06 40 5a 74 6e f8 e2 cc d6 90 8a a4 be 95 8f a1 bb
  fd e7 c9 d3 45 5f 71 6b 2d 37 19 03 00 1b 36 2d 6c 77 5a 41 d8 c3 ee f5 b4 af 82 99 ad b6
  9b 80 c1 da f7 ec 75 6e 43 58 19 02 2f 34 47 5c 71 6a 2b 30 1d 06 9f 84 a9 b2 f3 e8 c5 de
  ea f1 dc c7 86 9d b0 ab 32 29 04 1f 5e 45 68 73 8e 95 b8 a3 e2 f9 d4 cf 56 4d 60 7b 3a 21
  0c 17 23 38 15 0e 4f 54 79 62 fb e0 cd d6 97 8c a1 ba c9 d2 ff e4 a5 be 93 88 11 0a 27 3c
  7d 66 4b 50 64 7f 52 49 08 13 3e 25 bc a7 8a 91 d0 cb e6 fd 01 1a 37 2c 6d 76 5b 40 d9 c2
  ef f4 b5 ae 83 98 ac b7 9a 81 c0 db f6 ed 74 6f 42 59 18 03 2e 35 46 5d 70 6b 2a 31 1c 07
  9e 85 a8 b3 f2 e9 c4 df eb f0 dd c6 87 9c b1 aa 33 28 05 1e 5f 44 69 72 8f 94 b9 a2 e3 f8
  d5 ce 57 4c 61 7a 3b 20 0d 16 22 39 14 0f 4e 55 78 63 fa e1 cc d7 96 8d a0 bb c8 d3 fe e5
  a4 bf 92 89 10 0b 26 3d 7c 67 4a 51 65 7e 53 48 09 12 3f 24 bd a6 8b 90 d1 ca e7 fc 00 1c
  38 24 70 6c 48 54 e0 fc d8 c4 90 8c a8 b4 dd c1 e5 f9 ad b1 95 89 3d 21 05 19 4d 51 75 69
  a7 bb 9f 83 d7 cb ef f3 47 5b 7f 63 37 2b 0f 13 7a 66 42 5e 0a 16 32 2e 9a 86 a2 be ea f6
  d2 ce 53 4f 6b 77 23 3f 1b 07 b3 af 8b 97 c3 df fb e7 8e 92 b6 aa fe e2 c6 da 6e 72 56 4a
  1e 02 26 3a f4 e8 cc d0 84 98 bc a0 14 08 2c 30 64 78 5c 40 29 35 11 0d 59 45 61 7d c9 d5
  f1 ed b9 a5 81 9d a6 ba 9e 82 d6 ca ee f2 46 5a 7e 62 36 2a 0e 12 7b 67 43 5f 0b 17 33 2f
  9b 87 a3 bf eb f7 d3 cf 01 1d 39 25 71 6d 49 55 e1 fd d9 c5 91 8d a9 b5 dc c0 e4 f8 ac b0
  94 88 3c 20 04 18 4c 50 74 68 f5 e9 cd d1 85 99 bd a1 15 09 2d 31 65 79 5d 41 28 34 10 0c
  58 44 60 7c c8 d4 f0 ec b8 a4 80 9c 52 4e 6a 76 22 3e 1a 06 b2 ae 8a 96 c2 de fa e6 8f 93
  b7 ab ff e3 c7 db 6f 73 57 4b 1f 03 27 3b 00 1d 3a 27 74 69 4e 53 e8 f5 d2 cf 9c 81 a6 bb
  cd d0 f7 ea b9 a4 83 9e 25 38 1f 02 51 4c 6b 76 87 9a bd a0 f3 ee c9 d4 6f 72 55 48 1b 06
  21 3c 4a 57 70 6d 3e 23 04 19 a2 bf 98 85 d6 cb ec f1 13 0e 29 34 67 7a 5d 40 fb e6 c1 dc"%hex.
Definition gf_mul_table_base_05 : list byte := bytes_of "
  8f 92 b5 a8 de c3 e4 f9 aa b7 90 8d 36 2b 0c 11 42 5f 78 65 94 89 ae b3 e0 fd da c7 7c 61
  46 5b 08 15 32 2f 59 44 63 7e 2d 30 17 0a b1 ac 8b 96 c5 d8 ff e2 26 3b 1c 01 52 4f 68 75
  ce d3 f4 e9 ba a7 80 9d eb f6 d1 cc 9f 82 a5 b8 03 1e 39 24 77 6a 4d 50 a1 bc 9b 86 d5 c8
  ef f2 49 54 73 6e 3d 20 07 1a 6c 71 56 4b 18 05 22 3f 84 99 be a3 f0 ed ca d7 35 28 0f 12
  41 5c 7b 66 dd c0 e7 fa a9 b4 93 8e f8 e5 c2 df 8c 91 b6 ab 10 0d 2a 37 64 79 5e 43 b2 af
  88 95 c6 db fc e1 5a 47 60 7d 2e 33 14 09 7f 62 45 58 0b 16 31 2c 97 8a ad b0 e3 fe d9 c4
  00 1e 3c 22 78 66 44 5a f0 ee cc d2 88 96 b4 aa fd e3 c1 df 85 9b b9 a7 0d 13 31 2f 75 6b
  49 57 e7 f9 db c5 9f 81 a3 bd 17 09 2b 35 6f 71 53 4d 1a 04 26 38 62 7c 5e 40 ea f4 d6 c8
  92 8c ae b0 d3 cd ef f1 ab b5 97 89 23 3d 1f 01 5b 45 67 79 2e 30 12 0c 56 48 6a 74 de c0
  e2 fc a6 b8 9a 84 34 2a 08 16 4c 52 70 6e c4 da f8 e6 bc a2 80 9e c9 d7 f5 eb b1 af 8d 93
  39 27 05 1b 41 5f 7d 63 bb a5 87 99 c3 dd ff e1 4b 55 77 69 33 2d 0f 11 46 58 7a 64 3e 20
  02 1c b6 a8 8a 94 ce d0 f2 ec 5c 42 60 7e 24 3a 18 06 ac b2 90 8e d4 ca e8 f6 a1 bf 9d 83
  d9 c7 e5 fb 51 4f 6d 73 29 37 15 0b 68 76 54 4a 10 0e 2c 32 98 86 a4 ba e0 fe dc c2 95 8b
  a9 b7 ed f3 d1 cf 65 7b 59 47 1d 03 21 3f 8f 91 b3 ad f7 e9 cb d5 7f 61 43 5d 07 19 3b 25
  72 6c 4e 50 0a 14 36 28 82 9c be a0 fa e4 c6 d8 00 1f 3e 21 7c 63 42 5d f8 e7 c6 d9 84 9b
  ba a5 ed f2 d3 cc 91 8e af b0 15 0a 2b 34 69 76 57 48 c7 d8 f9 e6 bb a4 85 9a 3f 20 01 1e
  43 5c 7d 62 2a 35 14 0b 56 49 68 77 d2 cd ec f3 ae b1 90 8f 93 8c ad b2 ef f0 d1 ce 6b 74
  55 4a 17 08 29 36 7e 61 40 5f 02 1d 3c 23 86 99 b8 a7 fa e5 c4 db 54 4b 6a 75 28 37 16 09
  ac b3 92 8d d0 cf ee f1 b9 a6 87 98 c5 da fb e4 41 5e 7f 60 3d 22 03 1c 3b 24 05 1a 47 58
  79 66 c3 dc fd e2 bf a0 81 9e d6 c9 e8 f7 aa b5 94 8b 2e 31 10 0f 52 4d 6c 73 fc e3 c2 dd
  80 9f be a1 04 1b 3a 25 78 67 46 59 11 0e 2f 30 6d 72 53 4c e9 f6 d7 c8 95 8a ab b4 a8 b7
  96 89 d4 cb ea f5 50 4f 6e 71 2c 33 12 0d 45 5a 7b 64 39 26 07 18 bd a2 83 9c c1 de ff e0
  6f 70 51 4e 13 0c 2d 32 97 88 a9 b6 eb f4 d5 ca 82 9d bc a3 fe e1 c0 df 7a 65 44 5b 06 19
  38 27 00 20 40 60 80 a0 c0 e0 1d 3d 5d 7d 9d bd dd fd 3a 1a 7a 5a ba 9a fa da 27 07 67 47
  a7 87 e7 c7 74 54 34 14 f4 d4 b4 94 69 49 29 09 e9 c9 a9 89 4e 6e 0e 2e ce ee 8e ae 53 73
  13 33 d3 f3 93 b3 e8 c8 a8 88 68 48 28 08 f5 d5 b5 95 75 55 35 15 d2 f2 92 b2 52 72 12 32
  cf ef 8f af 4f 6f 0f 2f 9c bc dc fc 1c 3c 5c 7c 81 a1 c1 e1 01 21 41 61 a6 86 e6 c6 26 06
  66 46 bb 9b fb db 3b 1b 7b 5b cd ed 8d ad 4d 6d 0d 2d d0 f0 90 b0 50 70 10 30 f7 d7 b7 97
  77 57 37 17 ea ca aa 8a 6a 4a 2a 0a b9 99 f9 d9 39 19 79 59 a4 84 e4 c4 24 04 64 44 83 a3
  c3 e3 03 23 43 63 9e be de fe 1e 3e 5e 7e 25 05 65 45 a5 85 e5 c5 38 18 78 58 b8 98 f8 d8
  1f 3f 5f 7f 9f bf df ff 02 22 42 62 82 a2 c2 e2 51 71 11 31 d1 f1 91 b1 4c 6c 0c 2c cc ec
  8c ac 6b 4b 2b 0b eb cb ab 8b 76 56 36 16 f6 d6 b6 96 00 21 42 63 84 a5 c6 e7 15 34 57 76
  91 b0 d3 f2 2a 0b 68 49 ae 8f ec cd 3f 1e 7d 5c bb 9a f9 d8 54 75 16 37 d0 f1 92 b3 41 60
  03 22 c5 e4 87 a6 7e 5f 3c 1d fa db b8 99 6b 4a 29 08 ef ce ad 8c a8 89 ea cb 2c 0d 6e 4f
  bd 9c ff de 39 18 7b 5a 82 a3 c0 e1 06 27 44 65 97 b6 d5 f4 13 32 51 70 fc dd be 9f 78 59
  3a 1b e9 c8 ab 8a 6d 4c 2f 0e d6 f7 94 b5 52 73 10 31 c3 e2 81 a0 47 66 05 24 4d 6c 0f 2e
  c9 e8 8b aa 58 79 1a 3b dc fd 9e bf 67 46 25 04 e3 c2 a1 80 72 53 30 11 f6 d7 b4 95 19 38
  5b 7a 9d bc df fe 0c 2d 4e 6f 88 a9 ca eb 33 12 71 50 b7 96 f5 d4 26 07 64 45 a2 83 e0 c1
  e5 c4 a7 86 61 40 23 02 f0 d1 b2 93 74 55 36 17 cf ee 8d ac 4b 6a 09 28 da fb 98 b9 5e 7f
  1c 3d b1 90 f3 d2 35 14 77 56 a4 85 e6 c7 20 01 62 43 9b ba d9 f8 1f 3e 5d 7c 8e af cc ed
  0a 2b 48 69 00 22 44 66 88 aa cc ee 0d 2f 49 6b 85 a7 c1 e3 1a 38 5e 7c 92 b0 d6 f4 17 35
  53 71 9f bd db f9 34 16 70 52 bc 9e f8 da 39 1b 7d 5f b1 93 f5 d7 2e 0c 6a 48 a6 84 e2 c0
  23 01 67 45 ab 89 ef cd 68 4a 2c 0e e0 c2 a4 86 65 47 21 03 ed cf a9 8b 72 50 36 14 fa d8
  be 9c 7f 5d 3b 19 f7 d5 b3 91 5c 7e 18 3a d4 f6 90 b2 51 73 15 37 d9 fb 9d bf 46 64 02 20
  ce ec 8a a8 4b 69 0f 2d c3 e1 87 a5 d0 f2 94 b6 58 7a 1c 3e dd ff 99 bb 55 77 11 33 ca e8
  8e ac 42 60 06 24 c7 e5 83 a1 4f 6d 0b 29 e4 c6 a0 82 6c 4e 28 0a e9 cb ad 8f 61 43 25 07
  fe dc ba 98 76 54 32 10 f3 d1 b7 95 7b 59 3f 1d b8 9a fc de 30 12 74 56 b5 97 f1 d3 3d 1f
  79 5b a2 80 e6 c4 2a 08 6e 4c af 8d eb c9 27 05 63 41 8c ae c8 ea 04 26 40 62 81 a3 c5 e7
  09 2b 4d 6f 96 b4 d2 f0 1e 3c 5a 78 9b b9 df fd 13 31 57 75 00 23 46 65 8c af ca e9 05 26
  43 60 89 aa cf ec 0a 29 4c 6f 86 a5 c0 e3 0f 2c 49 6a 83 a0 c5 e6 14 37 52 71 98 bb de fd"%hex.
Definition gf_mul_table_base_06 : list byte := bytes_of "
  11 32 57 74 9d be db f8 1e 3d 58 7b 92 b1 d4 f7 1b 38 5d 7e 97 b4 d1 f2 28 0b 6e 4d a4 87
  e2 c1 2d 0e 6b 48 a1 82 e7 c4 22 01 64 47 ae 8d e8 cb 27 04 61 42 ab 88 ed ce 3c 1f 7a 59
  b0 93 f6 d5 39 1a 7f 5c b5 96 f3 d0 36 15 70 53 ba 99 fc df 33 10 75 56 bf 9c f9 da 50 73
  16 35 dc ff 9a b9 55 76 13 30 d9 fa 9f bc 5a 79 1c 3f d6 f5 90 b3 5f 7c 19 3a d3 f0 95 b6
  44 67 02 21 c8 eb 8e ad 41 62 07 24 cd ee 8b a8 4e 6d 08 2b c2 e1 84 a7 4b 68 0d 2e c7 e4
  81 a2 78 5b 3e 1d f4 d7 b2 91 7d 5e 3b 18 f1 d2 b7 94 72 51 34 17 fe dd b8 9b 77 54 31 12
  fb d8 bd 9e 6c 4f 2a 09 e0 c3 a6 85 69 4a 2f 0c e5 c6 a3 80 66 45 20 03 ea c9 ac 8f 63 40
  25 06 ef cc a9 8a 00 24 48 6c 90 b4 d8 fc 3d 19 75 51 ad 89 e5 c1 7a 5e 32 16 ea ce a2 86
  47 63 0f 2b d7 f3 9f bb f4 d0 bc 98 64 40 2c 08 c9 ed 81 a5 59 7d 11 35 8e aa c6 e2 1e 3a
  56 72 b3 97 fb df 23 07 6b 4f f5 d1 bd 99 65 41 2d 09 c8 ec 80 a4 58 7c 10 34 8f ab c7 e3
  1f 3b 57 73 b2 96 fa de 22 06 6a 4e 01 25 49 6d 91 b5 d9 fd 3c 18 74 50 ac 88 e4 c0 7b 5f
  33 17 eb cf a3 87 46 62 0e 2a d6 f2 9e ba f7 d3 bf 9b 67 43 2f 0b ca ee 82 a6 5a 7e 12 36
  8d a9 c5 e1 1d 39 55 71 b0 94 f8 dc 20 04 68 4c 03 27 4b 6f 93 b7 db ff 3e 1a 76 52 ae 8a
  e6 c2 79 5d 31 15 e9 cd a1 85 44 60 0c 28 d4 f0 9c b8 02 26 4a 6e 92 b6 da fe 3f 1b 77 53
  af 8b e7 c3 78 5c 30 14 e8 cc a0 84 45 61 0d 29 d5 f1 9d b9 f6 d2 be 9a 66 42 2e 0a cb ef
  83 a7 5b 7f 13 37 8c a8 c4 e0 1c 38 54 70 b1 95 f9 dd 21 05 69 4d 00 25 4a 6f 94 b1 de fb
  35 10 7f 5a a1 84 eb ce 6a 4f 20 05 fe db b4 91 5f 7a 15 30 cb ee 81 a4 d4 f1 9e bb 40 65
  0a 2f e1 c4 ab 8e 75 50 3f 1a be 9b f4 d1 2a 0f 60 45 8b ae c1 e4 1f 3a 55 70 b5 90 ff da
  21 04 6b 4e 80 a5 ca ef 14 31 5e 7b df fa 95 b0 4b 6e 01 24 ea cf a0 85 7e 5b 34 11 61 44
  2b 0e f5 d0 bf 9a 54 71 1e 3b c0 e5 8a af 0b 2e 41 64 9f ba d5 f0 3e 1b 74 51 aa 8f e0 c5
  77 52 3d 18 e3 c6 a9 8c 42 67 08 2d d6 f3 9c b9 1d 38 57 72 89 ac c3 e6 28 0d 62 47 bc 99
  f6 d3 a3 86 e9 cc 37 12 7d 58 96 b3 dc f9 02 27 48 6d c9 ec 83 a6 5d 78 17 32 fc d9 b6 93
  68 4d 22 07 c2 e7 88 ad 56 73 1c 39 f7 d2 bd 98 63 46 29 0c a8 8d e2 c7 3c 19 76 53 9d b8
  d7 f2 09 2c 43 66 16 33 5c 79 82 a7 c8 ed 23 06 69 4c b7 92 fd d8 7c 59 36 13 e8 cd a2 87
  49 6c 03 26 dd f8 97 b2 00 26 4c 6a 98 be d4 f2 2d 0b 61 47 b5 93 f9 df 5a 7c 16 30 c2 e4
  8e a8 77 51 3b 1d ef c9 a3 85 b4 92 f8 de 2c 0a 60 46 99 bf d5 f3 01 27 4d 6b ee c8 a2 84
  76 50 3a 1c c3 e5 8f a9 5b 7d 17 31 75 53 39 1f ed cb a1 87 58 7e 14 32 c0 e6 8c aa 2f 09
  63 45 b7 91 fb dd 02 24 4e 68 9a bc d6 f0 c1 e7 8d ab 59 7f 15 33 ec ca a0 86 74 52 38 1e
  9b bd d7 f1 03 25 4f 69 b6 90 fa dc 2e 08 62 44 ea cc a6 80 72 54 3e 18 c7 e1 8b ad 5f 79
  13 35 b0 96 fc da 28 0e 64 42 9d bb d1 f7 05 23 49 6f 5e 78 12 34 c6 e0 8a ac 73 55 3f 19
  eb cd a7 81 04 22 48 6e 9c ba d0 f6 29 0f 65 43 b1 97 fd db 9f b9 d3 f5 07 21 4b 6d b2 94
  fe d8 2a 0c 66 40 c5 e3 89 af 5d 7b 11 37 e8 ce a4 82 70 56 3c 1a 2b 0d 67 41 b3 95 ff d9
  06 20 4a 6c 9e b8 d2 f4 71 57 3d 1b e9 cf a5 83 5c 7a 10 36 c4 e2 88 ae 00 27 4e 69 9c bb
  d2 f5 25 02 6b 4c b9 9e f7 d0 4a 6d 04 23 d6 f1 98 bf 6f 48 21 06 f3 d4 bd 9a 94 b3 da fd
  08 2f 46 61 b1 96 ff d8 2d 0a 63 44 de f9 90 b7 42 65 0c 2b fb dc b5 92 67 40 29 0e 35 12
  7b 5c a9 8e e7 c0 10 37 5e 79 8c ab c2 e5 7f 58 31 16 e3 c4 ad 8a 5a 7d 14 33 c6 e1 88 af
  a1 86 ef c8 3d 1a 73 54 84 a3 ca ed 18 3f 56 71 eb cc a5 82 77 50 39 1e ce e9 80 a7 52 75
  1c 3b 6a 4d 24 03 f6 d1 b8 9f 4f 68 01 26 d3 f4 9d ba 20 07 6e 49 bc 9b f2 d5 05 22 4b 6c
  99 be d7 f0 fe d9 b0 97 62 45 2c 0b db fc 95 b2 47 60 09 2e b4 93 fa dd 28 0f 66 41 91 b6
  df f8 0d 2a 43 64 5f 78 11 36 c3 e4 8d aa 7a 5d 34 13 e6 c1 a8 8f 15 32 5b 7c 89 ae c7 e0
  30 17 7e 59 ac 8b e2 c5 cb ec 85 a2 57 70 19 3e ee c9 a0 87 72 55 3c 1b 81 a6 cf e8 1d 3a
  53 74 a4 83 ea cd 38 1f 76 51 00 28 50 78 a0 88 f0 d8 5d 75 0d 25 fd d5 ad 85 ba 92 ea c2
  1a 32 4a 62 e7 cf b7 9f 47 6f 17 3f 69 41 39 11 c9 e1 99 b1 34 1c 64 4c 94 bc c4 ec d3 fb
  83 ab 73 5b 23 0b 8e a6 de f6 2e 06 7e 56 d2 fa 82 aa 72 5a 22 0a 8f a7 df f7 2f 07 7f 57
  68 40 38 10 c8 e0 98 b0 35 1d 65 4d 95 bd c5 ed bb 93 eb c3 1b 33 4b 63 e6 ce b6 9e 46 6e
  16 3e 01 29 51 79 a1 89 f1 d9 5c 74 0c 24 fc d4 ac 84 b9 91 e9 c1 19 31 49 61 e4 cc b4 9c
  44 6c 14 3c 03 2b 53 7b a3 8b f3 db 5e 76 0e 26 fe d6 ae 86 d0 f8 80 a8 70 58 20 08 8d a5
  dd f5 2d 05 7d 55 6a 42 3a 12 ca e2 9a b2 37 1f 67 4f 97 bf c7 ef 6b 43 3b 13 cb e3 9b b3
  36 1e 66 4e 96 be c6 ee d1 f9 81 a9 71 59 21 09 8c a4 dc f4 2c 04 7c 54 02 2a 52 7a a2 8a
  f2 da 5f 77 0f 27 ff d7 af 87 b8 90 e8 c0 18 30 48 60 e5 cd b5 9d 45 6d 15 3d 00 29 52 7b"%hex.
Definition gf_mul_table_base_07 : list byte := bytes_of "
  a4 8d f6 df 55 7c 07 2e f1 d8 a3 8a aa 83 f8 d1 0e 27 5c 75 ff d6 ad 84 5b 72 09 20 49 60
  1b 32 ed c4 bf 96 1c 35 4e 67 b8 91 ea c3 e3 ca b1 98 47 6e 15 3c b6 9f e4 cd 12 3b 40 69
  92 bb c0 e9 36 1f 64 4d c7 ee 95 bc 63 4a 31 18 38 11 6a 43 9c b5 ce e7 6d 44 3f 16 c9 e0
  9b b2 db f2 89 a0 7f 56 2d 04 8e a7 dc f5 2a 03 78 51 71 58 23 0a d5 fc 87 ae 24 0d 76 5f
  80 a9 d2 fb 39 10 6b 42 9d b4 cf e6 6c 45 3e 17 c8 e1 9a b3 93 ba c1 e8 37 1e 65 4c c6 ef
  94 bd 62 4b 30 19 70 59 22 0b d4 fd 86 af 25 0c 77 5e 81 a8 d3 fa da f3 88 a1 7e 57 2c 05
  8f a6 dd f4 2b 02 79 50 ab 82 f9 d0 0f 26 5d 74 fe d7 ac 85 5a 73 08 21 01 28 53 7a a5 8c
  f7 de 54 7d 06 2f f0 d9 a2 8b e2 cb b0 99 46 6f 14 3d b7 9e e5 cc 13 3a 41 68 48 61 1a 33
  ec c5 be 97 1d 34 4f 66 b9 90 eb c2 00 2a 54 7e a8 82 fc d6 4d 67 19 33 e5 cf b1 9b 9a b0
  ce e4 32 18 66 4c d7 fd 83 a9 7f 55 2b 01 29 03 7d 57 81 ab d5 ff 64 4e 30 1a cc e6 98 b2
  b3 99 e7 cd 1b 31 4f 65 fe d4 aa 80 56 7c 02 28 52 78 06 2c fa d0 ae 84 1f 35 4b 61 b7 9d
  e3 c9 c8 e2 9c b6 60 4a 34 1e 85 af d1 fb 2d 07 79 53 7b 51 2f 05 d3 f9 87 ad 36 1c 62 48
  9e b4 ca e0 e1 cb b5 9f 49 63 1d 37 ac 86 f8 d2 04 2e 50 7a a4 8e f0 da 0c 26 58 72 e9 c3
  bd 97 41 6b 15 3f 3e 14 6a 40 96 bc c2 e8 73 59 27 0d db f1 8f a5 8d a7 d9 f3 25 0f 71 5b
  c0 ea 94 be 68 42 3c 16 17 3d 43 69 bf 95 eb c1 5a 70 0e 24 f2 d8 a6 8c f6 dc a2 88 5e 74
  0a 20 bb 91 ef c5 13 39 47 6d 6c 46 38 12 c4 ee 90 ba 21 0b 75 5f 89 a3 dd f7 df f5 8b a1
  77 5d 23 09 92 b8 c6 ec 3a 10 6e 44 45 6f 11 3b ed c7 b9 93 08 22 5c 76 a0 8a f4 de 00 2b
  56 7d ac 87 fa d1 45 6e 13 38 e9 c2 bf 94 8a a1 dc f7 26 0d 70 5b cf e4 99 b2 63 48 35 1e
  09 22 5f 74 a5 8e f3 d8 4c 67 1a 31 e0 cb b6 9d 83 a8 d5 fe 2f 04 79 52 c6 ed 90 bb 6a 41
  3c 17 12 39 44 6f be 95 e8 c3 57 7c 01 2a fb d0 ad 86 98 b3 ce e5 34 1f 62 49 dd f6 8b a0
  71 5a 27 0c 1b 30 4d 66 b7 9c e1 ca 5e 75 08 23 f2 d9 a4 8f 91 ba c7 ec 3d 16 6b 40 d4 ff
  82 a9 78 53 2e 05 24 0f 72 59 88 a3 de f5 61 4a 37 1c cd e6 9b b0 ae 85 f8 d3 02 29 54 7f
  eb c0 bd 96 47 6c 11 3a 2d 06 7b 50 81 aa d7 fc 68 43 3e 15 c4 ef 92 b9 a7 8c f1 da 0b 20
  5d 76 e2 c9 b4 9f 4e 65 18 33 36 1d 60 4b 9a b1 cc e7 73 58 25 0e df f4 89 a2 bc 97 ea c1
  10 3b 46 6d f9 d2 af 84 55 7e 03 28 3f 14 69 42 93 b8 c5 ee 7a 51 2c 07 d6 fd 80 ab b5 9e
  e3 c8 19 32 4f 64 f0 db a6 8d 5c 77 0a 21 00 2c 58 74 b0 9c e8 c4 7d 51 25 09 cd e1 95 b9
  fa d6 a2 8e 4a 66 12 3e 87 ab df f3 37 1b 6f 43 e9 c5 b1 9d 59 75 01 2d 94 b8 cc e0 24 08
  7c 50 13 3f 4b 67 a3 8f fb d7 6e 42 36 1a de f2 86 aa cf e3 97 bb 7f 53 27 0b b2 9e ea c6
  02 2e 5a 76 35 19 6d 41 85 a9 dd f1 48 64 10 3c f8 d4 a0 8c 26 0a 7e 52 96 ba ce e2 5b 77
  03 2f eb c7 b3 9f dc f0 84 a8 6c 40 34 18 a1 8d f9 d5 11 3d 49 65 83 af db f7 33 1f 6b 47
  fe d2 a6 8a 4e 62 16 3a 79 55 21 0d c9 e5 91 bd 04 28 5c 70 b4 98 ec c0 6a 46 32 1e da f6
  82 ae 17 3b 4f 63 a7 8b ff d3 90 bc c8 e4 20 0c 78 54 ed c1 b5 99 5d 71 05 29 4c 60 14 38
  fc d0 a4 88 31 1d 69 45 81 ad d9 f5 b6 9a ee c2 06 2a 5e 72 cb e7 93 bf 7b 57 23 0f a5 89
  fd d1 15 39 4d 61 d8 f4 80 ac 68 44 30 1c 5f 73 07 2b ef c3 b7 9b 22 0e 7a 56 92 be ca e6
  00 2d 5a 77 b4 99 ee c3 75 58 2f 02 c1 ec 9b b6 ea c7 b0 9d 5e 73 04 29 9f b2 c5 e8 2b 06
  71 5c c9 e4 93 be 7d 50 27 0a bc 91 e6 cb 08 25 52 7f 23 0e 79 54 97 ba cd e0 56 7b 0c 21
  e2 cf b8 95 8f a2 d5 f8 3b 16 61 4c fa d7 a0 8d 4e 63 14 39 65 48 3f 12 d1 fc 8b a6 10 3d
  4a 67 a4 89 fe d3 46 6b 1c 31 f2 df a8 85 33 1e 69 44 87 aa dd f0 ac 81 f6 db 18 35 42 6f
  d9 f4 83 ae 6d 40 37 1a 03 2e 59 74 b7 9a ed c0 76 5b 2c 01 c2 ef 98 b5 e9 c4 b3 9e 5d 70
  07 2a 9c b1 c6 eb 28 05 72 5f ca e7 90 bd 7e 53 24 09 bf 92 e5 c8 0b 26 51 7c 20 0d 7a 57
  94 b9 ce e3 55 78 0f 22 e1 cc bb 96 8c a1 d6 fb 38 15 62 4f f9 d4 a3 8e 4d 60 17 3a 66 4b
  3c 11 d2 ff 88 a5 13 3e 49 64 a7 8a fd d0 45 68 1f 32 f1 dc ab 86 30 1d 6a 47 84 a9 de f3
  af 82 f5 d8 1b 36 41 6c da f7 80 ad 6e 43 34 19 00 2e 5c 72 b8 96 e4 ca 6d 43 31 1f d5 fb
  89 a7 da f4 86 a8 62 4c 3e 10 b7 99 eb c5 0f 21 53 7d a9 87 f5 db 11 3f 4d 63 c4 ea 98 b6
  7c 52 20 0e 73 5d 2f 01 cb e5 97 b9 1e 30 42 6c a6 88 fa d4 4f 61 13 3d f7 d9 ab 85 22 0c
  7e 50 9a b4 c6 e8 95 bb c9 e7 2d 03 71 5f f8 d6 a4 8a 40 6e 1c 32 e6 c8 ba 94 5e 70 02 2c
  8b a5 d7 f9 33 1d 6f 41 3c 12 60 4e 84 aa d8 f6 51 7f 0d 23 e9 c7 b5 9b 9e b0 c2 ec 26 08
  7a 54 f3 dd af 81 4b 65 17 39 44 6a 18 36 fc d2 a0 8e 29 07 75 5b 91 bf cd e3 37 19 6b 45
  8f a1 d3 fd 5a 74 06 28 e2 cc be 90 ed c3 b1 9f 55 7b 09 27 80 ae dc f2 38 16 64 4a d1 ff
  8d a3 69 47 35 1b bc 92 e0 ce 04 2a 58 76 0b 25 57 79 b3 9d ef c1 66 48 3a 14 de f0 82 ac"%hex.
Definition gf_mul_table_base_08 : list byte := bytes_of "
  78 56 24 0a c0 ee 9c b2 15 3b 49 67 ad 83 f1 df a2 8c fe d0 1a 34 46 68 cf e1 93 bd 77 59
  2b 05 00 2f 5e 71 bc 93 e2 cd 65 4a 3b 14 d9 f6 87 a8 ca e5 94 bb 76 59 28 07 af 80 f1 de
  13 3c 4d 62 89 a6 d7 f8 35 1a 6b 44 ec c3 b2 9d 50 7f 0e 21 43 6c 1d 32 ff d0 a1 8e 26 09
  78 57 9a b5 c4 eb 0f 20 51 7e b3 9c ed c2 6a 45 34 1b d6 f9 88 a7 c5 ea 9b b4 79 56 27 08
  a0 8f fe d1 1c 33 42 6d 86 a9 d8 f7 3a 15 64 4b e3 cc bd 92 5f 70 01 2e 4c 63 12 3d f0 df
  ae 81 29 06 77 58 95 ba cb e4 1e 31 40 6f a2 8d fc d3 7b 54 25 0a c7 e8 99 b6 d4 fb 8a a5
  68 47 36 19 b1 9e ef c0 0d 22 53 7c 97 b8 c9 e6 2b 04 75 5a f2 dd ac 83 4e 61 10 3f 5d 72
  03 2c e1 ce bf 90 38 17 66 49 84 ab da f5 11 3e 4f 60 ad 82 f3 dc 74 5b 2a 05 c8 e7 96 b9
  db f4 85 aa 67 48 39 16 be 91 e0 cf 02 2d 5c 73 98 b7 c6 e9 24 0b 7a 55 fd d2 a3 8c 41 6e
  1f 30 52 7d 0c 23 ee c1 b0 9f 37 18 69 46 8b a4 d5 fa 00 30 60 50 c0 f0 a0 90 9d ad fd cd
  5d 6d 3d 0d 27 17 47 77 e7 d7 87 b7 ba 8a da ea 7a 4a 1a 2a 4e 7e 2e 1e 8e be ee de d3 e3
  b3 83 13 23 73 43 69 59 09 39 a9 99 c9 f9 f4 c4 94 a4 34 04 54 64 9c ac fc cc 5c 6c 3c 0c
  01 31 61 51 c1 f1 a1 91 bb 8b db eb 7b 4b 1b 2b 26 16 46 76 e6 d6 86 b6 d2 e2 b2 82 12 22
  72 42 4f 7f 2f 1f 8f bf ef df f5 c5 95 a5 35 05 55 65 68 58 08 38 a8 98 c8 f8 25 15 45 75
  e5 d5 85 b5 b8 88 d8 e8 78 48 18 28 02 32 62 52 c2 f2 a2 92 9f af ff cf 5f 6f 3f 0f 6b 5b
  0b 3b ab 9b cb fb f6 c6 96 a6 36 06 56 66 4c 7c 2c 1c 8c bc ec dc d1 e1 b1 81 11 21 71 41
  b9 89 d9 e9 79 49 19 29 24 14 44 74 e4 d4 84 b4 9e ae fe ce 5e 6e 3e 0e 03 33 63 53 c3 f3
  a3 93 f7 c7 97 a7 37 07 57 67 6a 5a 0a 3a aa 9a ca fa d0 e0 b0 80 10 20 70 40 4d 7d 2d 1d
  8d bd ed dd 00 31 62 53 c4 f5 a6 97 95 a4 f7 c6 51 60 33 02 37 06 55 64 f3 c2 91 a0 a2 93
  c0 f1 66 57 04 35 6e 5f 0c 3d aa 9b c8 f9 fb ca 99 a8 3f 0e 5d 6c 59 68 3b 0a 9d ac ff ce
  cc fd ae 9f 08 39 6a 5b dc ed be 8f 18 29 7a 4b 49 78 2b 1a 8d bc ef de eb da 89 b8 2f 1e
  4d 7c 7e 4f 1c 2d ba 8b d8 e9 b2 83 d0 e1 76 47 14 25 27 16 45 74 e3 d2 81 b0 85 b4 e7 d6
  41 70 23 12 10 21 72 43 d4 e5 b6 87 a5 94 c7 f6 61 50 03 32 30 01 52 63 f4 c5 96 a7 92 a3
  f0 c1 56 67 34 05 07 36 65 54 c3 f2 a1 90 cb fa a9 98 0f 3e 6d 5c 5e 6f 3c 0d 9a ab f8 c9
  fc cd 9e af 38 09 5a 6b 69 58 0b 3a ad 9c cf fe 79 48 1b 2a bd 8c df ee ec dd 8e bf 28 19
  4a 7b 4e 7f 2c 1d 8a bb e8 d9 db ea b9 88 1f 2e 7d 4c 17 26 75 44 d3 e2 b1 80 82 b3 e0 d1
  46 77 24 15 20 11 42 73 e4 d5 86 b7 b5 84 d7 e6 71 40 13 22 00 32 64 56 c8 fa ac 9e 8d bf
  e9 db 45 77 21 13 07 35 63 51 cf fd ab 99 8a b8 ee dc 42 70 26 14 0e 3c 6a 58 c6 f4 a2 90
  83 b1 e7 d5 4b 79 2f 1d 09 3b 6d 5f c1 f3 a5 97 84 b6 e0 d2 4c 7e 28 1a 1c 2e 78 4a d4 e6
  b0 82 91 a3 f5 c7 59 6b 3d 0f 1b 29 7f 4d d3 e1 b7 85 96 a4 f2 c0 5e 6c 3a 08 12 20 76 44
  da e8 be 8c 9f ad fb c9 57 65 33 01 15 27 71 43 dd ef b9 8b 98 aa fc ce 50 62 34 06 38 0a
  5c 6e f0 c2 94 a6 b5 87 d1 e3 7d 4f 19 2b 3f 0d 5b 69 f7 c5 93 a1 b2 80 d6 e4 7a 48 1e 2c
  36 04 52 60 fe cc 9a a8 bb 89 df ed 73 41 17 25 31 03 55 67 f9 cb 9d af bc 8e d8 ea 74 46
  10 22 24 16 40 72 ec de 88 ba a9 9b cd ff 61 53 05 37 23 11 47 75 eb d9 8f bd ae 9c ca f8
  66 54 02 30 2a 18 4e 7c e2 d0 86 b4 a7 95 c3 f1 6f 5d 0b 39 2d 1f 49 7b e5 d7 81 b3 a0 92
  c4 f6 68 5a 0c 3e 00 33 66 55 cc ff aa 99 85 b6 e3 d0 49 7a 2f 1c 17 24 71 42 db e8 bd 8e
  92 a1 f4 c7 5e 6d 38 0b 2e 1d 48 7b e2 d1 84 b7 ab 98 cd fe 67 54 01 32 39 0a 5f 6c f5 c6
  93 a0 bc 8f da e9 70 43 16 25 5c 6f 3a 09 90 a3 f6 c5 d9 ea bf 8c 15 26 73 40 4b 78 2d 1e
  87 b4 e1 d2 ce fd a8 9b 02 31 64 57 72 41 14 27 be 8d d8 eb f7 c4 91 a2 3b 08 5d 6e 65 56
  03 30 a9 9a cf fc e0 d3 86 b5 2c 1f 4a 79 b8 8b de ed 74 47 12 21 3d 0e 5b 68 f1 c2 97 a4
  af 9c c9 fa 63 50 05 36 2a 19 4c 7f e6 d5 80 b3 96 a5 f0 c3 5a 69 3c 0f 13 20 75 46 df ec
  b9 8a 81 b2 e7 d4 4d 7e 2b 18 04 37 62 51 c8 fb ae 9d e4 d7 82 b1 28 1b 4e 7d 61 52 07 34
  ad 9e cb f8 f3 c0 95 a6 3f 0c 59 6a 76 45 10 23 ba 89 dc ef ca f9 ac 9f 06 35 60 53 4f 7c
  29 1a 83 b0 e5 d6 dd ee bb 88 11 22 77 44 58 6b 3e 0d 94 a7 f2 c1 00 34 68 5c d0 e4 b8 8c
  bd 89 d5 e1 6d 59 05 31 67 53 0f 3b b7 83 df eb da ee b2 86 0a 3e 62 56 ce fa a6 92 1e 2a
  76 42 73 47 1b 2f a3 97 cb ff a9 9d c1 f5 79 4d 11 25 14 20 7c 48 c4 f0 ac 98 81 b5 e9 dd
  51 65 39 0d 3c 08 54 60 ec d8 84 b0 e6 d2 8e ba 36 02 5e 6a 5b 6f 33 07 8b bf e3 d7 4f 7b
  27 13 9f ab f7 c3 f2 c6 9a ae 22 16 4a 7e 28 1c 40 74 f8 cc 90 a4 95 a1 fd c9 45 71 2d 19
  1f 2b 77 43 cf fb a7 93 a2 96 ca fe 72 46 1a 2e 78 4c 10 24 a8 9c c0 f4 c5 f1 ad 99 15 21
  7d 49 d1 e5 b9 8d 01 35 69 5d 6c 58 04 30 bc 88 d4 e0 b6 82 de ea 66 52 0e 3a 0b 3f 63 57"%hex.
Definition gf_mul_table_base_09 : list byte := bytes_of "
  db ef b3 87 9e aa f6 c2 4e 7a 26 12 23 17 4b 7f f3 c7 9b af f9 cd 91 a5 29 1d 41 75 44 70
  2c 18 94 a0 fc c8 50 64 38 0c 80 b4 e8 dc ed d9 85 b1 3d 09 55 61 37 03 5f 6b e7 d3 8f bb
  8a be e2 d6 5a 6e 32 06 00 35 6a 5f d4 e1 be 8b b5 80 df ea 61 54 0b 3e 77 42 1d 28 a3 96
  c9 fc c2 f7 a8 9d 16 23 7c 49 ee db 84 b1 3a 0f 50 65 5b 6e 31 04 8f ba e5 d0 99 ac f3 c6
  4d 78 27 12 2c 19 46 73 f8 cd 92 a7 c1 f4 ab 9e 15 20 7f 4a 74 41 1e 2b a0 95 ca ff b6 83
  dc e9 62 57 08 3d 03 36 69 5c d7 e2 bd 88 2f 1a 45 70 fb ce 91 a4 9a af f0 c5 4e 7b 24 11
  58 6d 32 07 8c b9 e6 d3 ed d8 87 b2 39 0c 53 66 9f aa f5 c0 4b 7e 21 14 2a 1f 40 75 fe cb
  94 a1 e8 dd 82 b7 3c 09 56 63 5d 68 37 02 89 bc e3 d6 71 44 1b 2e a5 90 cf fa c4 f1 ae 9b
  10 25 7a 4f 06 33 6c 59 d2 e7 b8 8d b3 86 d9 ec 67 52 0d 38 5e 6b 34 01 8a bf e0 d5 eb de
  81 b4 3f 0a 55 60 29 1c 43 76 fd c8 97 a2 9c a9 f6 c3 48 7d 22 17 b0 85 da ef 64 51 0e 3b
  05 30 6f 5a d1 e4 bb 8e c7 f2 ad 98 13 26 79 4c 72 47 18 2d a6 93 cc f9 00 36 6c 5a d8 ee
  b4 82 ad 9b c1 f7 75 43 19 2f 47 71 2b 1d 9f a9 f3 c5 ea dc 86 b0 32 04 5e 68 8e b8 e2 d4
  56 60 3a 0c 23 15 4f 79 fb cd 97 a1 c9 ff a5 93 11 27 7d 4b 64 52 08 3e bc 8a d0 e6 01 37
  6d 5b d9 ef b5 83 ac 9a c0 f6 74 42 18 2e 46 70 2a 1c 9e a8 f2 c4 eb dd 87 b1 33 05 5f 69
  8f b9 e3 d5 57 61 3b 0d 22 14 4e 78 fa cc 96 a0 c8 fe a4 92 10 26 7c 4a 65 53 09 3f bd 8b
  d1 e7 02 34 6e 58 da ec b6 80 af 99 c3 f5 77 41 1b 2d 45 73 29 1f 9d ab f1 c7 e8 de 84 b2
  30 06 5c 6a 8c ba e0 d6 54 62 38 0e 21 17 4d 7b f9 cf 95 a3 cb fd a7 91 13 25 7f 49 66 50
  0a 3c be 88 d2 e4 03 35 6f 59 db ed b7 81 ae 98 c2 f4 76 40 1a 2c 44 72 28 1e 9c aa f0 c6
  e9 df 85 b3 31 07 5d 6b 8d bb e1 d7 55 63 39 0f 20 16 4c 7a f8 ce 94 a2 ca fc a6 90 12 24
  7e 48 67 51 0b 3d bf 89 d3 e5 00 37 6e 59 dc eb b2 85 a5 92 cb fc 79 4e 17 20 57 60 39 0e
  8b bc e5 d2 f2 c5 9c ab 2e 19 40 77 ae 99 c0 f7 72 45 1c 2b 0b 3c 65 52 d7 e0 b9 8e f9 ce
  97 a0 25 12 4b 7c 5c 6b 32 05 80 b7 ee d9 41 76 2f 18 9d aa f3 c4 e4 d3 8a bd 38 0f 56 61
  16 21 78 4f ca fd a4 93 b3 84 dd ea 6f 58 01 36 ef d8 81 b6 33 04 5d 6a 4a 7d 24 13 96 a1
  f8 cf b8 8f d6 e1 64 53 0a 3d 1d 2a 73 44 c1 f6 af 98 82 b5 ec db 5e 69 30 07 27 10 49 7e
  fb cc 95 a2 d5 e2 bb 8c 09 3e 67 50 70 47 1e 29 ac 9b c2 f5 2c 1b 42 75 f0 c7 9e a9 89 be
  e7 d0 55 62 3b 0c 7b 4c 15 22 a7 90 c9 fe de e9 b0 87 02 35 6c 5b c3 f4 ad 9a 1f 28 71 46
  66 51 08 3f ba 8d d4 e3 94 a3 fa cd 48 7f 26 11 31 06 5f 68 ed da 83 b4 6d 5a 03 34 b1 86
  df e8 c8 ff a6 91 14 23 7a 4d 3a 0d 54 63 e6 d1 88 bf 9f a8 f1 c6 43 74 2d 1a 00 38 70 48
  e0 d8 90 a8 dd e5 ad 95 3d 05 4d 75 a7 9f d7 ef 47 7f 37 0f 7a 42 0a 32 9a a2 ea d2 53 6b
  23 1b b3 8b c3 fb 8e b6 fe c6 6e 56 1e 26 f4 cc 84 bc 14 2c 64 5c 29 11 59 61 c9 f1 b9 81
  a6 9e d6 ee 46 7e 36 0e 7b 43 0b 33 9b a3 eb d3 01 39 71 49 e1 d9 91 a9 dc e4 ac 94 3c 04
  4c 74 f5 cd 85 bd 15 2d 65 5d 28 10 58 60 c8 f0 b8 80 52 6a 22 1a b2 8a c2 fa 8f b7 ff c7
  6f 57 1f 27 51 69 21 19 b1 89 c1 f9 8c b4 fc c4 6c 54 1c 24 f6 ce 86 be 16 2e 66 5e 2b 13
  5b 63 cb f3 bb 83 02 3a 72 4a e2 da 92 aa df e7 af 97 3f 07 4f 77 a5 9d d5 ed 45 7d 35 0d
  78 40 08 30 98 a0 e8 d0 f7 cf 87 bf 17 2f 67 5f 2a 12 5a 62 ca f2 ba 82 50 68 20 18 b0 88
  c0 f8 8d b5 fd c5 6d 55 1d 25 a4 9c d4 ec 44 7c 34 0c 79 41 09 31 99 a1 e9 d1 03 3b 73 4b
  e3 db 93 ab de e6 ae 96 3e 06 4e 76 00 39 72 4b e4 dd 96 af d5 ec a7 9e 31 08 43 7a b7 8e
  c5 fc 53 6a 21 18 62 5b 10 29 86 bf f4 cd 73 4a 01 38 97 ae e5 dc a6 9f d4 ed 42 7b 30 09
  c4 fd b6 8f 20 19 52 6b 11 28 63 5a f5 cc 87 be e6 df 94 ad 02 3b 70 49 33 0a 41 78 d7 ee
  a5 9c 51 68 23 1a b5 8c c7 fe 84 bd f6 cf 60 59 12 2b 95 ac e7 de 71 48 03 3a 40 79 32 0b
  a4 9d d6 ef 22 1b 50 69 c6 ff b4 8d f7 ce 85 bc 13 2a 61 58 d1 e8 a3 9a 35 0c 47 7e 04 3d
  76 4f e0 d9 92 ab 66 5f 14 2d 82 bb f0 c9 b3 8a c1 f8 57 6e 25 1c a2 9b d0 e9 46 7f 34 0d
  77 4e 05 3c 93 aa e1 d8 15 2c 67 5e f1 c8 83 ba c0 f9 b2 8b 24 1d 56 6f 37 0e 45 7c d3 ea
  a1 98 e2 db 90 a9 06 3f 74 4d 80 b9 f2 cb 64 5d 16 2f 55 6c 27 1e b1 88 c3 fa 44 7d 36 0f
  a0 99 d2 eb 91 a8 e3 da 75 4c 07 3e f3 ca 81 b8 17 2e 65 5c 26 1f 54 6d c2 fb b0 89 00 3a
  74 4e e8 d2 9c a6 cd f7 b9 83 25 1f 51 6b 87 bd f3 c9 6f 55 1b 21 4a 70 3e 04 a2 98 d6 ec
  13 29 67 5d fb c1 8f b5 de e4 aa 90 36 0c 42 78 94 ae e0 da 7c 46 08 32 59 63 2d 17 b1 8b
  c5 ff 26 1c 52 68 ce f4 ba 80 eb d1 9f a5 03 39 77 4d a1 9b d5 ef 49 73 3d 07 6c 56 18 22
  84 be f0 ca 35 0f 41 7b dd e7 a9 93 f8 c2 8c b6 10 2a 64 5e b2 88 c6 fc 5a 60 2e 14 7f 45
  0b 31 97 ad e3 d9 4c 76 38 02 a4 9e d0 ea 81 bb f5 cf 69 53 1d 27 cb f1 bf 85 23 19 57 6d"%hex.
Definition gf_mul_table_base_10 : list byte := bytes_of "
  06 3c 72 48 ee d4 9a a0 5f 65 2b 11 b7 8d c3 f9 92 a8 e6 dc 7a 40 0e 34 d8 e2 ac 96 30 0a
  44 7e 15 2f 61 5b fd c7 89 b3 6a 50 1e 24 82 b8 f6 cc a7 9d d3 e9 4f 75 3b 01 ed d7 99 a3
  05 3f 71 4b 20 1a 54 6e c8 f2 bc 86 79 43 0d 37 91 ab e5 df b4 8e c0 fa 5c 66 28 12 fe c4
  8a b0 16 2c 62 58 33 09 47 7d db e1 af 95 00 3b 76 4d ec d7 9a a1 c5 fe b3 88 29 12 5f 64
  97 ac e1 da 7b 40 0d 36 52 69 24 1f be 85 c8 f3 33 08 45 7e df e4 a9 92 f6 cd 80 bb 1a 21
  6c 57 a4 9f d2 e9 48 73 3e 05 61 5a 17 2c 8d b6 fb c0 66 5d 10 2b 8a b1 fc c7 a3 98 d5 ee
  4f 74 39 02 f1 ca 87 bc 1d 26 6b 50 34 0f 42 79 d8 e3 ae 95 55 6e 23 18 b9 82 cf f4 90 ab
  e6 dd 7c 47 0a 31 c2 f9 b4 8f 2e 15 58 63 07 3c 71 4a eb d0 9d a6 cc f7 ba 81 20 1b 56 6d
  09 32 7f 44 e5 de 93 a8 5b 60 2d 16 b7 8c c1 fa 9e a5 e8 d3 72 49 04 3f ff c4 89 b2 13 28
  65 5e 3a 01 4c 77 d6 ed a0 9b 68 53 1e 25 84 bf f2 c9 ad 96 db e0 41 7a 37 0c aa 91 dc e7
  46 7d 30 0b 6f 54 19 22 83 b8 f5 ce 3d 06 4b 70 d1 ea a7 9c f8 c3 8e b5 14 2f 62 59 99 a2
  ef d4 75 4e 03 38 5c 67 2a 11 b0 8b c6 fd 0e 35 78 43 e2 d9 94 af cb f0 bd 86 27 1c 51 6a
  00 3c 78 44 f0 cc 88 b4 fd c1 85 b9 0d 31 75 49 e7 db 9f a3 17 2b 6f 53 1a 26 62 5e ea d6
  92 ae d3 ef ab 97 23 1f 5b 67 2e 12 56 6a de e2 a6 9a 34 08 4c 70 c4 f8 bc 80 c9 f5 b1 8d
  39 05 41 7d bb 87 c3 ff 4b 77 33 0f 46 7a 3e 02 b6 8a ce f2 5c 60 24 18 ac 90 d4 e8 a1 9d
  d9 e5 51 6d 29 15 68 54 10 2c 98 a4 e0 dc 95 a9 ed d1 65 59 1d 21 8f b3 f7 cb 7f 43 07 3b
  72 4e 0a 36 82 be fa c6 6b 57 13 2f 9b a7 e3 df 96 aa ee d2 66 5a 1e 22 8c b0 f4 c8 7c 40
  04 38 71 4d 09 35 81 bd f9 c5 b8 84 c0 fc 48 74 30 0c 45 79 3d 01 b5 89 cd f1 5f 63 27 1b
  af 93 d7 eb a2 9e da e6 52 6e 2a 16 d0 ec a8 94 20 1c 58 64 2d 11 55 69 dd e1 a5 99 37 0b
  4f 73 c7 fb bf 83 ca f6 b2 8e 3a 06 42 7e 03 3f 7b 47 f3 cf 8b b7 fe c2 86 ba 0e 32 76 4a
  e4 d8 9c a0 14 28 6c 50 19 25 61 5d e9 d5 91 ad 00 3d 7a 47 f4 c9 8e b3 f5 c8 8f b2 01 3c
  7b 46 f7 ca 8d b0 03 3e 79 44 02 3f 78 45 f6 cb 8c b1 f3 ce 89 b4 07 3a 7d 40 06 3b 7c 41
  f2 cf 88 b5 04 39 7e 43 f0 cd 8a b7 f1 cc 8b b6 05 38 7f 42 fb c6 81 bc 0f 32 75 48 0e 33
  74 49 fa c7 80 bd 0c 31 76 4b f8 c5 82 bf f9 c4 83 be 0d 30 77 4a 08 35 72 4f fc c1 86 bb
  fd c0 87 ba 09 34 73 4e ff c2 85 b8 0b 36 71 4c 0a 37 70 4d fe c3 84 b9 eb d6 91 ac 1f 22
  65 58 1e 23 64 59 ea d7 90 ad 1c 21 66 5b e8 d5 92 af e9 d4 93 ae 1d 20 67 5a 18 25 62 5f
  ec d1 96 ab ed d0 97 aa 19 24 63 5e ef d2 95 a8 1b 26 61 5c 1a 27 60 5d ee d3 94 a9 10 2d
  6a 57 e4 d9 9e a3 e5 d8 9f a2 11 2c 6b 56 e7 da 9d a0 13 2e 69 54 12 2f 68 55 e6 db 9c a1
  e3 de 99 a4 17 2a 6d 50 16 2b 6c 51 e2 df 98 a5 14 29 6e 53 e0 dd 9a a7 e1 dc 9b a6 15 28
  6f 52 00 3e 7c 42 f8 c6 84 ba ed d3 91 af 15 2b 69 57 c7 f9 bb 85 3f 01 43 7d 2a 14 56 68
  d2 ec ae 90 93 ad ef d1 6b 55 17 29 7e 40 02 3c 86 b8 fa c4 54 6a 28 16 ac 92 d0 ee b9 87
  c5 fb 41 7f 3d 03 3b 05 47 79 c3 fd bf 81 d6 e8 aa 94 2e 10 52 6c fc c2 80 be 04 3a 78 46
  11 2f 6d 53 e9 d7 95 ab a8 96 d4 ea 50 6e 2c 12 45 7b 39 07 bd 83 c1 ff 6f 51 13 2d 97 a9
  eb d5 82 bc fe c0 7a 44 06 38 76 48 0a 34 8e b0 f2 cc 9b a5 e7 d9 63 5d 1f 21 b1 8f cd f3
  49 77 35 0b 5c 62 20 1e a4 9a d8 e6 e5 db 99 a7 1d 23 61 5f 08 36 74 4a f0 ce 8c b2 22 1c
  5e 60 da e4 a6 98 cf f1 b3 8d 37 09 4b 75 4d 73 31 0f b5 8b c9 f7 a0 9e dc e2 58 66 24 1a
  8a b4 f6 c8 72 4c 0e 30 67 59 1b 25 9f a1 e3 dd de e0 a2 9c 26 18 5a 64 33 0d 4f 71 cb f5
  b7 89 19 27 65 5b e1 df 9d a3 f4 ca 88 b6 0c 32 70 4e 00 3f 7e 41 fc c3 82 bd e5 da 9b a4
  19 26 67 58 d7 e8 a9 96 2b 14 55 6a 32 0d 4c 73 ce f1 b0 8f b3 8c cd f2 4f 70 31 0e 56 69
  28 17 aa 95 d4 eb 64 5b 1a 25 98 a7 e6 d9 81 be ff c0 7d 42 03 3c 7b 44 05 3a 87 b8 f9 c6
  9e a1 e0 df 62 5d 1c 23 ac 93 d2 ed 50 6f 2e 11 49 76 37 08 b5 8a cb f4 c8 f7 b6 89 34 0b
  4a 75 2d 12 53 6c d1 ee af 90 1f 20 61 5e e3 dc 9d a2 fa c5 84 bb 06 39 78 47 f6 c9 88 b7
  0a 35 74 4b 13 2c 6d 52 ef d0 91 ae 21 1e 5f 60 dd e2 a3 9c c4 fb ba 85 38 07 46 79 45 7a
  3b 04 b9 86 c7 f8 a0 9f de e1 5c 63 22 1d 92 ad ec d3 6e 51 10 2f 77 48 09 36 8b b4 f5 ca
  8d b2 f3 cc 71 4e 0f 30 68 57 16 29 94 ab ea d5 5a 65 24 1b a6 99 d8 e7 bf 80 c1 fe 43 7c
  3d 02 3e 01 40 7f c2 fd bc 83 db e4 a5 9a 27 18 59 66 e9 d6 97 a8 15 2a 6b 54 0c 33 72 4d
  f0 cf 8e b1 00 40 80 c0 1d 5d 9d dd 3a 7a ba fa 27 67 a7 e7 74 34 f4 b4 69 29 e9 a9 4e 0e
  ce 8e 53 13 d3 93 e8 a8 68 28 f5 b5 75 35 d2 92 52 12 cf 8f 4f 0f 9c dc 1c 5c 81 c1 01 41
  a6 e6 26 66 bb fb 3b 7b cd 8d 4d 0d d0 90 50 10 f7 b7 77 37 ea aa 6a 2a b9 f9 39 79 a4 e4
  24 64 83 c3 03 43 9e de 1e 5e 25 65 a5 e5 38 78 b8 f8 1f 5f 9f df 02 42 82 c2 51 11 d1 91"%hex.
Definition gf_mul_table_base_11 : list byte := bytes_of "
  4c 0c cc 8c 6b 2b eb ab 76 36 f6 b6 87 c7 07 47 9a da 1a 5a bd fd 3d 7d a0 e0 20 60 f3 b3
  73 33 ee ae 6e 2e c9 89 49 09 d4 94 54 14 6f 2f ef af 72 32 f2 b2 55 15 d5 95 48 08 c8 88
  1b 5b 9b db 06 46 86 c6 21 61 a1 e1 3c 7c bc fc 4a 0a ca 8a 57 17 d7 97 70 30 f0 b0 6d 2d
  ed ad 3e 7e be fe 23 63 a3 e3 04 44 84 c4 19 59 99 d9 a2 e2 22 62 bf ff 3f 7f 98 d8 18 58
  85 c5 05 45 d6 96 56 16 cb 8b 4b 0b ec ac 6c 2c f1 b1 71 31 00 41 82 c3 19 58 9b da 32 73
  b0 f1 2b 6a a9 e8 64 25 e6 a7 7d 3c ff be 56 17 d4 95 4f 0e cd 8c c8 89 4a 0b d1 90 53 12
  fa bb 78 39 e3 a2 61 20 ac ed 2e 6f b5 f4 37 76 9e df 1c 5d 87 c6 05 44 8d cc 0f 4e 94 d5
  16 57 bf fe 3d 7c a6 e7 24 65 e9 a8 6b 2a f0 b1 72 33 db 9a 59 18 c2 83 40 01 45 04 c7 86
  5c 1d de 9f 77 36 f5 b4 6e 2f ec ad 21 60 a3 e2 38 79 ba fb 13 52 91 d0 0a 4b 88 c9 07 46
  85 c4 1e 5f 9c dd 35 74 b7 f6 2c 6d ae ef 63 22 e1 a0 7a 3b f8 b9 51 10 d3 92 48 09 ca 8b
  cf 8e 4d 0c d6 97 54 15 fd bc 7f 3e e4 a5 66 27 ab ea 29 68 b2 f3 30 71 99 d8 1b 5a 80 c1
  02 43 8a cb 08 49 93 d2 11 50 b8 f9 3a 7b a1 e0 23 62 ee af 6c 2d f7 b6 75 34 dc 9d 5e 1f
  c5 84 47 06 42 03 c0 81 5b 1a d9 98 70 31 f2 b3 69 28 eb aa 26 67 a4 e5 3f 7e bd fc 14 55
  96 d7 0d 4c 8f ce 00 42 84 c6 15 57 91 d3 2a 68 ae ec 3f 7d bb f9 54 16 d0 92 41 03 c5 87
  7e 3c fa b8 6b 29 ef ad a8 ea 2c 6e bd ff 39 7b 82 c0 06 44 97 d5 13 51 fc be 78 3a e9 ab
  6d 2f d6 94 52 10 c3 81 47 05 4d 0f c9 8b 58 1a dc 9e 67 25 e3 a1 72 30 f6 b4 19 5b 9d df
  0c 4e 88 ca 33 71 b7 f5 26 64 a2 e0 e5 a7 61 23 f0 b2 74 36 cf 8d 4b 09 da 98 5e 1c b1 f3
  35 77 a4 e6 20 62 9b d9 1f 5d 8e cc 0a 48 9a d8 1e 5c 8f cd 0b 49 b0 f2 34 76 a5 e7 21 63
  ce 8c 4a 08 db 99 5f 1d e4 a6 60 22 f1 b3 75 37 32 70 b6 f4 27 65 a3 e1 18 5a 9c de 0d 4f
  89 cb 66 24 e2 a0 73 31 f7 b5 4c 0e c8 8a 59 1b dd 9f d7 95 53 11 c2 80 46 04 fd bf 79 3b
  e8 aa 6c 2e 83 c1 07 45 96 d4 12 50 a9 eb 2d 6f bc fe 38 7a 7f 3d fb b9 6a 28 ee ac 55 17
  d1 93 40 02 c4 86 2b 69 af ed 3e 7c ba f8 01 43 85 c7 14 56 90 d2 00 43 86 c5 11 52 97 d4
  22 61 a4 e7 33 70 b5 f6 44 07 c2 81 55 16 d3 90 66 25 e0 a3 77 34 f1 b2 88 cb 0e 4d 99 da
  1f 5c aa e9 2c 6f bb f8 3d 7e cc 8f 4a 09 dd 9e 5b 18 ee ad 68 2b ff bc 79 3a 0d 4e 8b c8
  1c 5f 9a d9 2f 6c a9 ea 3e 7d b8 fb 49 0a cf 8c 58 1b de 9d 6b 28 ed ae 7a 39 fc bf 85 c6
  03 40 94 d7 12 51 a7 e4 21 62 b6 f5 30 73 c1 82 47 04 d0 93 56 15 e3 a0 65 26 f2 b1 74 37
  1a 59 9c df 0b 48 8d ce 38 7b be fd 29 6a af ec 5e 1d d8 9b 4f 0c c9 8a 7c 3f fa b9 6d 2e
  eb a8 92 d1 14 57 83 c0 05 46 b0 f3 36 75 a1 e2 27 64 d6 95 50 13 c7 84 41 02 f4 b7 72 31
  e5 a6 63 20 17 54 91 d2 06 45 80 c3 35 76 b3 f0 24 67 a2 e1 53 10 d5 96 42 01 c4 87 71 32
  f7 b4 60 23 e6 a5 9f dc 19 5a 8e cd 08 4b bd fe 3b 78 ac ef 2a 69 db 98 5d 1e ca 89 4c 0f
  f9 ba 7f 3c e8 ab 6e 2d 00 44 88 cc 0d 49 85 c1 1a 5e 92 d6 17 53 9f db 34 70 bc f8 39 7d
  b1 f5 2e 6a a6 e2 23 67 ab ef 68 2c e0 a4 65 21 ed a9 72 36 fa be 7f 3b f7 b3 5c 18 d4 90
  51 15 d9 9d 46 02 ce 8a 4b 0f c3 87 d0 94 58 1c dd 99 55 11 ca 8e 42 06 c7 83 4f 0b e4 a0
  6c 28 e9 ad 61 25 fe ba 76 32 f3 b7 7b 3f b8 fc 30 74 b5 f1 3d 79 a2 e6 2a 6e af eb 27 63
  8c c8 04 40 81 c5 09 4d 96 d2 1e 5a 9b df 13 57 bd f9 35 71 b0 f4 38 7c a7 e3 2f 6b aa ee
  22 66 89 cd 01 45 84 c0 0c 48 93 d7 1b 5f 9e da 16 52 d5 91 5d 19 d8 9c 50 14 cf 8b 47 03
  c2 86 4a 0e e1 a5 69 2d ec a8 64 20 fb bf 73 37 f6 b2 7e 3a 6d 29 e5 a1 60 24 e8 ac 77 33
  ff bb 7a 3e f2 b6 59 1d d1 95 54 10 dc 98 43 07 cb 8f 4e 0a c6 82 05 41 8d c9 08 4c 80 c4
  1f 5b 97 d3 12 56 9a de 31 75 b9 fd 3c 78 b4 f0 2b 6f a3 e7 26 62 ae ea 00 45 8a cf 09 4c
  83 c6 12 57 98 dd 1b 5e 91 d4 24 61 ae eb 2d 68 a7 e2 36 73 bc f9 3f 7a b5 f0 48 0d c2 87
  41 04 cb 8e 5a 1f d0 95 53 16 d9 9c 6c 29 e6 a3 65 20 ef aa 7e 3b f4 b1 77 32 fd b8 90 d5
  1a 5f 99 dc 13 56 82 c7 08 4d 8b ce 01 44 b4 f1 3e 7b bd f8 37 72 a6 e3 2c 69 af ea 25 60
  d8 9d 52 17 d1 94 5b 1e ca 8f 40 05 c3 86 49 0c fc b9 76 33 f5 b0 7f 3a ee ab 64 21 e7 a2
  6d 28 3d 78 b7 f2 34 71 be fb 2f 6a a5 e0 26 63 ac e9 19 5c 93 d6 10 55 9a df 0b 4e 81 c4
  02 47 88 cd 75 30 ff ba 7c 39 f6 b3 67 22 ed a8 6e 2b e4 a1 51 14 db 9e 58 1d d2 97 43 06
  c9 8c 4a 0f c0 85 ad e8 27 62 a4 e1 2e 6b bf fa 35 70 b6 f3 3c 79 89 cc 03 46 80 c5 0a 4f
  9b de 11 54 92 d7 18 5d e5 a0 6f 2a ec a9 66 23 f7 b2 7d 38 fe bb 74 31 c1 84 4b 0e c8 8d
  42 07 d3 96 59 1c da 9f 50 15 00 46 8c ca 05 43 89 cf 0a 4c 86 c0 0f 49 83 c5 14 52 98 de
  11 57 9d db 1e 58 92 d4 1b 5d 97 d1 28 6e a4 e2 2d 6b a1 e7 22 64 ae e8 27 61 ab ed 3c 7a
  b0 f6 39 7f b5 f3 36 70 ba fc 33 75 bf f9 50 16 dc 9a 55 13 d9 9f 5a 1c d6 90 5f 19 d3 95"%hex.
Definition gf_mul_table_base_12 : list byte := bytes_of "
  44 02 c8 8e 41 07 cd 8b 4e 08 c2 84 4b 0d c7 81 78 3e f4 b2 7d 3b f1 b7 72 34 fe b8 77 31
  fb bd 6c 2a e0 a6 69 2f e5 a3 66 20 ea ac 63 25 ef a9 a0 e6 2c 6a a5 e3 29 6f aa ec 26 60
  af e9 23 65 b4 f2 38 7e b1 f7 3d 7b be f8 32 74 bb fd 37 71 88 ce 04 42 8d cb 01 47 82 c4
  0e 48 87 c1 0b 4d 9c da 10 56 99 df 15 53 96 d0 1a 5c 93 d5 1f 59 f0 b6 7c 3a f5 b3 79 3f
  fa bc 76 30 ff b9 73 35 e4 a2 68 2e e1 a7 6d 2b ee a8 62 24 eb ad 67 21 d8 9e 54 12 dd 9b
  51 17 d2 94 5e 18 d7 91 5b 1d cc 8a 40 06 c9 8f 45 03 c6 80 4a 0c c3 85 4f 09 00 47 8e c9
  01 46 8f c8 02 45 8c cb 03 44 8d ca 04 43 8a cd 05 42 8b cc 06 41 88 cf 07 40 89 ce 08 4f
  86 c1 09 4e 87 c0 0a 4d 84 c3 0b 4c 85 c2 0c 4b 82 c5 0d 4a 83 c4 0e 49 80 c7 0f 48 81 c6
  10 57 9e d9 11 56 9f d8 12 55 9c db 13 54 9d da 14 53 9a dd 15 52 9b dc 16 51 98 df 17 50
  99 de 18 5f 96 d1 19 5e 97 d0 1a 5d 94 d3 1b 5c 95 d2 1c 5b 92 d5 1d 5a 93 d4 1e 59 90 d7
  1f 58 91 d6 20 67 ae e9 21 66 af e8 22 65 ac eb 23 64 ad ea 24 63 aa ed 25 62 ab ec 26 61
  a8 ef 27 60 a9 ee 28 6f a6 e1 29 6e a7 e0 2a 6d a4 e3 2b 6c a5 e2 2c 6b a2 e5 2d 6a a3 e4
  2e 69 a0 e7 2f 68 a1 e6 30 77 be f9 31 76 bf f8 32 75 bc fb 33 74 bd fa 34 73 ba fd 35 72
  bb fc 36 71 b8 ff 37 70 b9 fe 38 7f b6 f1 39 7e b7 f0 3a 7d b4 f3 3b 7c b5 f2 3c 7b b2 f5
  3d 7a b3 f4 3e 79 b0 f7 3f 78 b1 f6 00 48 90 d8 3d 75 ad e5 7a 32 ea a2 47 0f d7 9f f4 bc
  64 2c c9 81 59 11 8e c6 1e 56 b3 fb 23 6b f5 bd 65 2d c8 80 58 10 8f c7 1f 57 b2 fa 22 6a
  01 49 91 d9 3c 74 ac e4 7b 33 eb a3 46 0e d6 9e f7 bf 67 2f ca 82 5a 12 8d c5 1d 55 b0 f8
  20 68 03 4b 93 db 3e 76 ae e6 79 31 e9 a1 44 0c d4 9c 02 4a 92 da 3f 77 af e7 78 30 e8 a0
  45 0d d5 9d f6 be 66 2e cb 83 5b 13 8c c4 1c 54 b1 f9 21 69 f3 bb 63 2b ce 86 5e 16 89 c1
  19 51 b4 fc 24 6c 07 4f 97 df 3a 72 aa e2 7d 35 ed a5 40 08 d0 98 06 4e 96 de 3b 73 ab e3
  7c 34 ec a4 41 09 d1 99 f2 ba 62 2a cf 87 5f 17 88 c0 18 50 b5 fd 25 6d 04 4c 94 dc 39 71
  a9 e1 7e 36 ee a6 43 0b d3 9b f0 b8 60 28 cd 85 5d 15 8a c2 1a 52 b7 ff 27 6f f1 b9 61 29
  cc 84 5c 14 8b c3 1b 53 b6 fe 26 6e 05 4d 95 dd 38 70 a8 e0 7f 37 ef a7 42 0a d2 9a 00 49
  92 db 39 70 ab e2 72 3b e0 a9 4b 02 d9 90 e4 ad 76 3f dd 94 4f 06 96 df 04 4d af e6 3d 74
  d5 9c 47 0e ec a5 7e 37 a7 ee 35 7c 9e d7 0c 45 31 78 a3 ea 08 41 9a d3 43 0a d1 98 7a 33
  e8 a1 b7 fe 25 6c 8e c7 1c 55 c5 8c 57 1e fc b5 6e 27 53 1a c1 88 6a 23 f8 b1 21 68 b3 fa
  18 51 8a c3 62 2b f0 b9 5b 12 c9 80 10 59 82 cb 29 60 bb f2 86 cf 14 5d bf f6 2d 64 f4 bd
  66 2f cd 84 5f 16 73 3a e1 a8 4a 03 d8 91 01 48 93 da 38 71 aa e3 97 de 05 4c ae e7 3c 75
  e5 ac 77 3e dc 95 4e 07 a6 ef 34 7d 9f d6 0d 44 d4 9d 46 0f ed a4 7f 36 42 0b d0 99 7b 32
  e9 a0 30 79 a2 eb 09 40 9b d2 c4 8d 56 1f fd b4 6f 26 b6 ff 24 6d 8f c6 1d 54 20 69 b2 fb
  19 50 8b c2 52 1b c0 89 6b 22 f9 b0 11 58 83 ca 28 61 ba f3 63 2a f1 b8 5a 13 c8 81 f5 bc
  67 2e cc 85 5e 17 87 ce 15 5c be f7 2c 65 00 4a 94 de 35 7f a1 eb 6a 20 fe b4 5f 15 cb 81
  d4 9e 40 0a e1 ab 75 3f be f4 2a 60 8b c1 1f 55 b5 ff 21 6b 80 ca 14 5e df 95 4b 01 ea a0
  7e 34 61 2b f5 bf 54 1e c0 8a 0b 41 9f d5 3e 74 aa e0 77 3d e3 a9 42 08 d6 9c 1d 57 89 c3
  28 62 bc f6 a3 e9 37 7d 96 dc 02 48 c9 83 5d 17 fc b6 68 22 c2 88 56 1c f7 bd 63 29 a8 e2
  3c 76 9d d7 09 43 16 5c 82 c8 23 69 b7 fd 7c 36 e8 a2 49 03 dd 97 ee a4 7a 30 db 91 4f 05
  84 ce 10 5a b1 fb 25 6f 3a 70 ae e4 0f 45 9b d1 50 1a c4 8e 65 2f f1 bb 5b 11 cf 85 6e 24
  fa b0 31 7b a5 ef 04 4e 90 da 8f c5 1b 51 ba f0 2e 64 e5 af 71 3b d0 9a 44 0e 99 d3 0d 47
  ac e6 38 72 f3 b9 67 2d c6 8c 52 18 4d 07 d9 93 78 32 ec a6 27 6d b3 f9 12 58 86 cc 2c 66
  b8 f2 19 53 8d c7 46 0c d2 98 73 39 e7 ad f8 b2 6c 26 cd 87 59 13 92 d8 06 4c a7 ed 33 79
  00 4b 96 dd 31 7a a7 ec 62 29 f4 bf 53 18 c5 8e c4 8f 52 19 f5 be 63 28 a6 ed 30 7b 97 dc
  01 4a 95 de 03 48 a4 ef 32 79 f7 bc 61 2a c6 8d 50 1b 51 1a c7 8c 60 2b f6 bd 33 78 a5 ee
  02 49 94 df 37 7c a1 ea 06 4d 90 db 55 1e c3 88 64 2f f2 b9 f3 b8 65 2e c2 89 54 1f 91 da
  07 4c a0 eb 36 7d a2 e9 34 7f 93 d8 05 4e c0 8b 56 1d f1 ba 67 2c 66 2d f0 bb 57 1c c1 8a
  04 4f 92 d9 35 7e a3 e8 6e 25 f8 b3 5f 14 c9 82 0c 47 9a d1 3d 76 ab e0 aa e1 3c 77 9b d0
  0d 46 c8 83 5e 15 f9 b2 6f 24 fb b0 6d 26 ca 81 5c 17 99 d2 0f 44 a8 e3 3e 75 3f 74 a9 e2
  0e 45 98 d3 5d 16 cb 80 6c 27 fa b1 59 12 cf 84 68 23 fe b5 3b 70 ad e6 0a 41 9c d7 9d d6
  0b 40 ac e7 3a 71 ff b4 69 22 ce 85 58 13 cc 87 5a 11 fd b6 6b 20 ae e5 38 73 9f d4 09 42
  08 43 9e d5 39 72 af e4 6a 21 fc b7 5b 10 cd 86 00 4c 98 d4 2d 61 b5 f9 5a 16 c2 8e 77 3b
  ef a3 b4 f8 2c 60 99 d5 01 4d ee a2 76 3a c3 8f 5b 17 75 39 ed a1 58 14 c0 8c 2f 63 b7 fb"%hex.
Definition gf_mul_table_base_13 : list byte := bytes_of "
  02 4e 9a d6 c1 8d 59 15 ec a0 74 38 9b d7 03 4f b6 fa 2e 62 ea a6 72 3e c7 8b 5f 13 b0 fc
  28 64 9d d1 05 49 5e 12 c6 8a 73 3f eb a7 04 48 9c d0 29 65 b1 fd 9f d3 07 4b b2 fe 2a 66
  c5 89 5d 11 e8 a4 70 3c 2b 67 b3 ff 06 4a 9e d2 71 3d e9 a5 5c 10 c4 88 c9 85 51 1d e4 a8
  7c 30 93 df 0b 47 be f2 26 6a 7d 31 e5 a9 50 1c c8 84 27 6b bf f3 0a 46 92 de bc f0 24 68
  91 dd 09 45 e6 aa 7e 32 cb 87 53 1f 08 44 90 dc 25 69 bd f1 52 1e ca 86 7f 33 e7 ab 23 6f
  bb f7 0e 42 96 da 79 35 e1 ad 54 18 cc 80 97 db 0f 43 ba f6 22 6e cd 81 55 19 e0 ac 78 34
  56 1a ce 82 7b 37 e3 af 0c 40 94 d8 21 6d b9 f5 e2 ae 7a 36 cf 83 57 1b b8 f4 20 6c 95 d9
  0d 41 00 4d 9a d7 29 64 b3 fe 52 1f c8 85 7b 36 e1 ac a4 e9 3e 73 8d c0 17 5a f6 bb 6c 21
  df 92 45 08 55 18 cf 82 7c 31 e6 ab 07 4a 9d d0 2e 63 b4 f9 f1 bc 6b 26 d8 95 42 0f a3 ee
  39 74 8a c7 10 5d aa e7 30 7d 83 ce 19 54 f8 b5 62 2f d1 9c 4b 06 0e 43 94 d9 27 6a bd f0
  5c 11 c6 8b 75 38 ef a2 ff b2 65 28 d6 9b 4c 01 ad e0 37 7a 84 c9 1e 53 5b 16 c1 8c 72 3f
  e8 a5 09 44 93 de 20 6d ba f7 49 04 d3 9e 60 2d fa b7 1b 56 81 cc 32 7f a8 e5 ed a0 77 3a
  c4 89 5e 13 bf f2 25 68 96 db 0c 41 1c 51 86 cb 35 78 af e2 4e 03 d4 99 67 2a fd b0 b8 f5
  22 6f 91 dc 0b 46 ea a7 70 3d c3 8e 59 14 e3 ae 79 34 ca 87 50 1d b1 fc 2b 66 98 d5 02 4f
  47 0a dd 90 6e 23 f4 b9 15 58 8f c2 3c 71 a6 eb b6 fb 2c 61 9f d2 05 48 e4 a9 7e 33 cd 80
  57 1a 12 5f 88 c5 3b 76 a1 ec 40 0d da 97 69 24 f3 be 00 4e 9c d2 25 6b b9 f7 4a 04 d6 98
  6f 21 f3 bd 94 da 08 46 b1 ff 2d 63 de 90 42 0c fb b5 67 29 35 7b a9 e7 10 5e 8c c2 7f 31
  e3 ad 5a 14 c6 88 a1 ef 3d 73 84 ca 18 56 eb a5 77 39 ce 80 52 1c 6a 24 f6 b8 4f 01 d3 9d
  20 6e bc f2 05 4b 99 d7 fe b0 62 2c db 95 47 09 b4 fa 28 66 91 df 0d 43 5f 11 c3 8d 7a 34
  e6 a8 15 5b 89 c7 30 7e ac e2 cb 85 57 19 ee a0 72 3c 81 cf 1d 53 a4 ea 38 76 d4 9a 48 06
  f1 bf 6d 23 9e d0 02 4c bb f5 27 69 40 0e dc 92 65 2b f9 b7 0a 44 96 d8 2f 61 b3 fd e1 af
  7d 33 c4 8a 58 16 ab e5 37 79 8e c0 12 5c 75 3b e9 a7 50 1e cc 82 3f 71 a3 ed 1a 54 86 c8
  be f0 22 6c 9b d5 07 49 f4 ba 68 26 d1 9f 4d 03 2a 64 b6 f8 0f 41 93 dd 60 2e fc b2 45 0b
  d9 97 8b c5 17 59 ae e0 32 7c c1 8f 5d 13 e4 aa 78 36 1f 51 83 cd 3a 74 a6 e8 55 1b c9 87
  70 3e ec a2 00 4f 9e d1 21 6e bf f0 42 0d dc 93 63 2c fd b2 84 cb 1a 55 a5 ea 3b 74 c6 89
  58 17 e7 a8 79 36 15 5a 8b c4 34 7b aa e5 57 18 c9 86 76 39 e8 a7 91 de 0f 40 b0 ff 2e 61
  d3 9c 4d 02 f2 bd 6c 23 2a 65 b4 fb 0b 44 95 da 68 27 f6 b9 49 06 d7 98 ae e1 30 7f 8f c0
  11 5e ec a3 72 3d cd 82 53 1c 3f 70 a1 ee 1e 51 80 cf 7d 32 e3 ac 5c 13 c2 8d bb f4 25 6a
  9a d5 04 4b f9 b6 67 28 d8 97 46 09 54 1b ca 85 75 3a eb a4 16 59 88 c7 37 78 a9 e6 d0 9f
  4e 01 f1 be 6f 20 92 dd 0c 43 b3 fc 2d 62 41 0e df 90 60 2f fe b1 03 4c 9d d2 22 6d bc f3
  c5 8a 5b 14 e4 ab 7a 35 87 c8 19 56 a6 e9 38 77 7e 31 e0 af 5f 10 c1 8e 3c 73 a2 ed 1d 52
  83 cc fa b5 64 2b db 94 45 0a b8 f7 26 69 99 d6 07 48 6b 24 f5 ba 4a 05 d4 9b 29 66 b7 f8
  08 47 96 d9 ef a0 71 3e ce 81 50 1f ad e2 33 7c 8c c3 12 5d 00 50 a0 f0 5d 0d fd ad ba ea
  1a 4a e7 b7 47 17 69 39 c9 99 34 64 94 c4 d3 83 73 23 8e de 2e 7e d2 82 72 22 8f df 2f 7f
  68 38 c8 98 35 65 95 c5 bb eb 1b 4b e6 b6 46 16 01 51 a1 f1 5c 0c fc ac b9 e9 19 49 e4 b4
  44 14 03 53 a3 f3 5e 0e fe ae d0 80 70 20 8d dd 2d 7d 6a 3a ca 9a 37 67 97 c7 6b 3b cb 9b
  36 66 96 c6 d1 81 71 21 8c dc 2c 7c 02 52 a2 f2 5f 0f ff af b8 e8 18 48 e5 b5 45 15 6f 3f
  cf 9f 32 62 92 c2 d5 85 75 25 88 d8 28 78 06 56 a6 f6 5b 0b fb ab bc ec 1c 4c e1 b1 41 11
  bd ed 1d 4d e0 b0 40 10 07 57 a7 f7 5a 0a fa aa d4 84 74 24 89 d9 29 79 6e 3e ce 9e 33 63
  93 c3 d6 86 76 26 8b db 2b 7b 6c 3c cc 9c 31 61 91 c1 bf ef 1f 4f e2 b2 42 12 05 55 a5 f5
  58 08 f8 a8 04 54 a4 f4 59 09 f9 a9 be ee 1e 4e e3 b3 43 13 6d 3d cd 9d 30 60 90 c0 d7 87
  77 27 8a da 2a 7a 00 51 a2 f3 59 08 fb aa b2 e3 10 41 eb ba 49 18 79 28 db 8a 20 71 82 d3
  cb 9a 69 38 92 c3 30 61 f2 a3 50 01 ab fa 09 58 40 11 e2 b3 19 48 bb ea 8b da 29 78 d2 83
  70 21 39 68 9b ca 60 31 c2 93 f9 a8 5b 0a a0 f1 02 53 4b 1a e9 b8 12 43 b0 e1 80 d1 22 73
  d9 88 7b 2a 32 63 90 c1 6b 3a c9 98 0b 5a a9 f8 52 03 f0 a1 b9 e8 1b 4a e0 b1 42 13 72 23
  d0 81 2b 7a 89 d8 c0 91 62 33 99 c8 3b 6a ef be 4d 1c b6 e7 14 45 5d 0c ff ae 04 55 a6 f7
  96 c7 34 65 cf 9e 6d 3c 24 75 86 d7 7d 2c df 8e 1d 4c bf ee 44 15 e6 b7 af fe 0d 5c f6 a7
  54 05 64 35 c6 97 3d 6c 9f ce d6 87 74 25 8f de 2d 7c 16 47 b4 e5 4f 1e ed bc a4 f5 06 57
  fd ac 5f 0e 6f 3e cd 9c 36 67 94 c5 dd 8c 7f 2e 84 d5 26 77 e4 b5 46 17 bd ec 1f 4e 56 07
  f4 a5 0f 5e ad fc 9d cc 3f 6e c4 95 66 37 2f 7e 8d dc 76 27 d4 85 00 52 a4 f6 55 07 f1 a3"%hex.
Definition gf_mul_table_base_14 : list byte := bytes_of "
  aa f8 0e 5c ff ad 5b 09 49 1b ed bf 1c 4e b8 ea e3 b1 47 15 b6 e4 12 40 92 c0 36 64 c7 95
  63 31 38 6a 9c ce 6d 3f c9 9b db 89 7f 2d 8e dc 2a 78 71 23 d5 87 24 76 80 d2 39 6b 9d cf
  6c 3e c8 9a 93 c1 37 65 c6 94 62 30 70 22 d4 86 25 77 81 d3 da 88 7e 2c 8f dd 2b 79 ab f9
  0f 5d fe ac 5a 08 01 53 a5 f7 54 06 f0 a2 e2 b0 46 14 b7 e5 13 41 48 1a ec be 1d 4f b9 eb
  72 20 d6 84 27 75 83 d1 d8 8a 7c 2e 8d df 29 7b 3b 69 9f cd 6e 3c ca 98 91 c3 35 67 c4 96
  60 32 e0 b2 44 16 b5 e7 11 43 4a 18 ee bc 1f 4d bb e9 a9 fb 0d 5f fc ae 58 0a 03 51 a7 f5
  56 04 f2 a0 4b 19 ef bd 1e 4c ba e8 e1 b3 45 17 b4 e6 10 42 02 50 a6 f4 57 05 f3 a1 a8 fa
  0c 5e fd af 59 0b d9 8b 7d 2f 8c de 28 7a 73 21 d7 85 26 74 82 d0 90 c2 34 66 c5 97 61 33
  3a 68 9e cc 6f 3d cb 99 00 53 a6 f5 51 02 f7 a4 a2 f1 04 57 f3 a0 55 06 59 0a ff ac 08 5b
  ae fd fb a8 5d 0e aa f9 0c 5f b2 e1 14 47 e3 b0 45 16 10 43 b6 e5 41 12 e7 b4 eb b8 4d 1e
  ba e9 1c 4f 49 1a ef bc 18 4b be ed 79 2a df 8c 28 7b 8e dd db 88 7d 2e 8a d9 2c 7f 20 73
  86 d5 71 22 d7 84 82 d1 24 77 d3 80 75 26 cb 98 6d 3e 9a c9 3c 6f 69 3a cf 9c 38 6b 9e cd
  92 c1 34 67 c3 90 65 36 30 63 96 c5 61 32 c7 94 f2 a1 54 07 a3 f0 05 56 50 03 f6 a5 01 52
  a7 f4 ab f8 0d 5e fa a9 5c 0f 09 5a af fc 58 0b fe ad 40 13 e6 b5 11 42 b7 e4 e2 b1 44 17
  b3 e0 15 46 19 4a bf ec 48 1b ee bd bb e8 1d 4e ea b9 4c 1f 8b d8 2d 7e da 89 7c 2f 29 7a
  8f dc 78 2b de 8d d2 81 74 27 83 d0 25 76 70 23 d6 85 21 72 87 d4 39 6a 9f cc 68 3b ce 9d
  9b c8 3d 6e ca 99 6c 3f 60 33 c6 95 31 62 97 c4 c2 91 64 37 93 c0 35 66 00 54 a8 fc 4d 19
  e5 b1 9a ce 32 66 d7 83 7f 2b 29 7d 81 d5 64 30 cc 98 b3 e7 1b 4f fe aa 56 02 52 06 fa ae
  1f 4b b7 e3 c8 9c 60 34 85 d1 2d 79 7b 2f d3 87 36 62 9e ca e1 b5 49 1d ac f8 04 50 a4 f0
  0c 58 e9 bd 41 15 3e 6a 96 c2 73 27 db 8f 8d d9 25 71 c0 94 68 3c 17 43 bf eb 5a 0e f2 a6
  f6 a2 5e 0a bb ef 13 47 6c 38 c4 90 21 75 89 dd df 8b 77 23 92 c6 3a 6e 45 11 ed b9 08 5c
  a0 f4 55 01 fd a9 18 4c b0 e4 cf 9b 67 33 82 d6 2a 7e 7c 28 d4 80 31 65 99 cd e6 b2 4e 1a
  ab ff 03 57 07 53 af fb 4a 1e e2 b6 9d c9 35 61 d0 84 78 2c 2e 7a 86 d2 63 37 cb 9f b4 e0
  1c 48 f9 ad 51 05 f1 a5 59 0d bc e8 14 40 6b 3f c3 97 26 72 8e da d8 8c 70 24 95 c1 3d 69
  42 16 ea be 0f 5b a7 f3 a3 f7 0b 5f ee ba 46 12 39 6d 91 c5 74 20 dc 88 8a de 22 76 c7 93
  6f 3b 10 44 b8 ec 5d 09 f5 a1 00 55 aa ff 49 1c e3 b6 92 c7 38 6d db 8e 71 24 39 6c 93 c6
  70 25 da 8f ab fe 01 54 e2 b7 48 1d 72 27 d8 8d 3b 6e 91 c4 e0 b5 4a 1f a9 fc 03 56 4b 1e
  e1 b4 02 57 a8 fd d9 8c 73 26 90 c5 3a 6f e4 b1 4e 1b ad f8 07 52 76 23 dc 89 3f 6a 95 c0
  dd 88 77 22 94 c1 3e 6b 4f 1a e5 b0 06 53 ac f9 96 c3 3c 69 df 8a 75 20 04 51 ae fb 4d 18
  e7 b2 af fa 05 50 e6 b3 4c 19 3d 68 97 c2 74 21 de 8b d5 80 7f 2a 9c c9 36 63 47 12 ed b8
  0e 5b a4 f1 ec b9 46 13 a5 f0 0f 5a 7e 2b d4 81 37 62 9d c8 a7 f2 0d 58 ee bb 44 11 35 60
  9f ca 7c 29 d6 83 9e cb 34 61 d7 82 7d 28 0c 59 a6 f3 45 10 ef ba 31 64 9b ce 78 2d d2 87
  a3 f6 09 5c ea bf 40 15 08 5d a2 f7 41 14 eb be 9a cf 30 65 d3 86 79 2c 43 16 e9 bc 0a 5f
  a0 f5 d1 84 7b 2e 98 cd 32 67 7a 2f d0 85 33 66 99 cc e8 bd 42 17 a1 f4 0b 5e 00 56 ac fa
  45 13 e9 bf 8a dc 26 70 cf 99 63 35 09 5f a5 f3 4c 1a e0 b6 83 d5 2f 79 c6 90 6a 3c 12 44
  be e8 57 01 fb ad 98 ce 34 62 dd 8b 71 27 1b 4d b7 e1 5e 08 f2 a4 91 c7 3d 6b d4 82 78 2e
  24 72 88 de 61 37 cd 9b ae f8 02 54 eb bd 47 11 2d 7b 81 d7 68 3e c4 92 a7 f1 0b 5d e2 b4
  4e 18 36 60 9a cc 73 25 df 89 bc ea 10 46 f9 af 55 03 3f 69 93 c5 7a 2c d6 80 b5 e3 19 4f
  f0 a6 5c 0a 48 1e e4 b2 0d 5b a1 f7 c2 94 6e 38 87 d1 2b 7d 41 17 ed bb 04 52 a8 fe cb 9d
  67 31 8e d8 22 74 5a 0c f6 a0 1f 49 b3 e5 d0 86 7c 2a 95 c3 39 6f 53 05 ff a9 16 40 ba ec
  d9 8f 75 23 9c ca 30 66 6c 3a c0 96 29 7f 85 d3 e6 b0 4a 1c a3 f5 0f 59 65 33 c9 9f 20 76
  8c da ef b9 43 15 aa fc 06 50 7e 28 d2 84 3b 6d 97 c1 f4 a2 58 0e b1 e7 1d 4b 77 21 db 8d
  32 64 9e c8 fd ab 51 07 b8 ee 14 42 00 57 ae f9 41 16 ef b8 82 d5 2c 7b c3 94 6d 3a 19 4e
  b7 e0 58 0f f6 a1 9b cc 35 62 da 8d 74 23 32 65 9c cb 73 24 dd 8a b0 e7 1e 49 f1 a6 5f 08
  2b 7c 85 d2 6a 3d c4 93 a9 fe 07 50 e8 bf 46 11 64 33 ca 9d 25 72 8b dc e6 b1 48 1f a7 f0
  09 5e 7d 2a d3 84 3c 6b 92 c5 ff a8 51 06 be e9 10 47 56 01 f8 af 17 40 b9 ee d4 83 7a 2d
  95 c2 3b 6c 4f 18 e1 b6 0e 59 a0 f7 cd 9a 63 34 8c db 22 75 c8 9f 66 31 89 de 27 70 4a 1d
  e4 b3 0b 5c a5 f2 d1 86 7f 28 90 c7 3e 69 53 04 fd aa 12 45 bc eb fa ad 54 03 bb ec 15 42
  78 2f d6 81 39 6e 97 c0 e3 b4 4d 1a a2 f5 0c 5b 61 36 cf 98 20 77 8e d9 ac fb 02 55 ed ba
  43 14 2e 79 80 d7 6f 38 c1 96 b5 e2 1b 4c f4 a3 5a 0d 37 60 99 ce 76 21 d8 8f 9e c9 30 67"%hex.
Definition gf_mul_table_base_15 : list byte := bytes_of "
  df 88 71 26 1c 4b b2 e5 5d 0a f3 a4 87 d0 29 7e c6 91 68 3f 05 52 ab fc 44 13 ea bd 00 58
  b0 e8 7d 25 cd 95 fa a2 4a 12 87 df 37 6f e9 b1 59 01 94 cc 24 7c 13 4b a3 fb 6e 36 de 86
  cf 97 7f 27 b2 ea 02 5a 35 6d 85 dd 48 10 f8 a0 26 7e 96 ce 5b 03 eb b3 dc 84 6c 34 a1 f9
  11 49 83 db 33 6b fe a6 4e 16 79 21 c9 91 04 5c b4 ec 6a 32 da 82 17 4f a7 ff 90 c8 20 78
  ed b5 5d 05 4c 14 fc a4 31 69 81 d9 b6 ee 06 5e cb 93 7b 23 a5 fd 15 4d d8 80 68 30 5f 07
  ef b7 22 7a 92 ca 1b 43 ab f3 66 3e d6 8e e1 b9 51 09 9c c4 2c 74 f2 aa 42 1a 8f d7 3f 67
  08 50 b8 e0 75 2d c5 9d d4 8c 64 3c a9 f1 19 41 2e 76 9e c6 53 0b e3 bb 3d 65 8d d5 40 18
  f0 a8 c7 9f 77 2f ba e2 0a 52 98 c0 28 70 e5 bd 55 0d 62 3a d2 8a 1f 47 af f7 71 29 c1 99
  0c 54 bc e4 8b d3 3b 63 f6 ae 46 1e 57 0f e7 bf 2a 72 9a c2 ad f5 1d 45 d0 88 60 38 be e6
  0e 56 c3 9b 73 2b 44 1c f4 ac 39 61 89 d1 00 59 b2 eb 79 20 cb 92 f2 ab 40 19 8b d2 39 60
  f9 a0 4b 12 80 d9 32 6b 0b 52 b9 e0 72 2b c0 99 ef b6 5d 04 96 cf 24 7d 1d 44 af f6 64 3d
  d6 8f 16 4f a4 fd 6f 36 dd 84 e4 bd 56 0f 9d c4 2f 76 c3 9a 71 28 ba e3 08 51 31 68 83 da
  48 11 fa a3 3a 63 88 d1 43 1a f1 a8 c8 91 7a 23 b1 e8 03 5a 2c 75 9e c7 55 0c e7 be de 87
  6c 35 a7 fe 15 4c d5 8c 67 3e ac f5 1e 47 27 7e 95 cc 5e 07 ec b5 9b c2 29 70 e2 bb 50 09
  69 30 db 82 10 49 a2 fb 62 3b d0 89 1b 42 a9 f0 90 c9 22 7b e9 b0 5b 02 74 2d c6 9f 0d 54
  bf e6 86 df 34 6d ff a6 4d 14 8d d4 3f 66 f4 ad 46 1f 7f 26 cd 94 06 5f b4 ed 58 01 ea b3
  21 78 93 ca aa f3 18 41 d3 8a 61 38 a1 f8 13 4a d8 81 6a 33 53 0a e1 b8 2a 73 98 c1 b7 ee
  05 5c ce 97 7c 25 45 1c f7 ae 3c 65 8e d7 4e 17 fc a5 37 6e 85 dc bc e5 0e 57 c5 9c 77 2e
  00 5a b4 ee 75 2f c1 9b ea b0 5e 04 9f c5 2b 71 c9 93 7d 27 bc e6 08 52 23 79 97 cd 56 0c
  e2 b8 8f d5 3b 61 fa a0 4e 14 65 3f d1 8b 10 4a a4 fe 46 1c f2 a8 33 69 87 dd ac f6 18 42
  d9 83 6d 37 03 59 b7 ed 76 2c c2 98 e9 b3 5d 07 9c c6 28 72 ca 90 7e 24 bf e5 0b 51 20 7a
  94 ce 55 0f e1 bb 8c d6 38 62 f9 a3 4d 17 66 3c d2 88 13 49 a7 fd 45 1f f1 ab 30 6a 84 de
  af f5 1b 41 da 80 6e 34 06 5c b2 e8 73 29 c7 9d ec b6 58 02 99 c3 2d 77 cf 95 7b 21 ba e0
  0e 54 25 7f 91 cb 50 0a e4 be 89 d3 3d 67 fc a6 48 12 63 39 d7 8d 16 4c a2 f8 40 1a f4 ae
  35 6f 81 db aa f0 1e 44 df 85 6b 31 05 5f b1 eb 70 2a c4 9e ef b5 5b 01 9a c0 2e 74 cc 96
  78 22 b9 e3 0d 57 26 7c 92 c8 53 09 e7 bd 8a d0 3e 64 ff a5 4b 11 60 3a d4 8e 15 4f a1 fb
  43 19 f7 ad 36 6c 82 d8 a9 f3 1d 47 dc 86 68 32 00 5b b6 ed 71 2a c7 9c e2 b9 54 0f 93 c8
  25 7e d9 82 6f 34 a8 f3 1e 45 3b 60 8d d6 4a 11 fc a7 af f4 19 42 de 85 68 33 4d 16 fb a0
  3c 67 8a d1 76 2d c0 9b 07 5c b1 ea 94 cf 22 79 e5 be 53 08 43 18 f5 ae 32 69 84 df a1 fa
  17 4c d0 8b 66 3d 9a c1 2c 77 eb b0 5d 06 78 23 ce 95 09 52 bf e4 ec b7 5a 01 9d c6 2b 70
  0e 55 b8 e3 7f 24 c9 92 35 6e 83 d8 44 1f f2 a9 d7 8c 61 3a a6 fd 10 4b 86 dd 30 6b f7 ac
  41 1a 64 3f d2 89 15 4e a3 f8 5f 04 e9 b2 2e 75 98 c3 bd e6 0b 50 cc 97 7a 21 29 72 9f c4
  58 03 ee b5 cb 90 7d 26 ba e1 0c 57 f0 ab 46 1d 81 da 37 6c 12 49 a4 ff 63 38 d5 8e c5 9e
  73 28 b4 ef 02 59 27 7c 91 ca 56 0d e0 bb 1c 47 aa f1 6d 36 db 80 fe a5 48 13 8f d4 39 62
  6a 31 dc 87 1b 40 ad f6 88 d3 3e 65 f9 a2 4f 14 b3 e8 05 5e c2 99 74 2f 51 0a e7 bc 20 7b
  96 cd 00 5c b8 e4 6d 31 d5 89 da 86 62 3e b7 eb 0f 53 a9 f5 11 4d c4 98 7c 20 73 2f cb 97
  1e 42 a6 fa 4f 13 f7 ab 22 7e 9a c6 95 c9 2d 71 f8 a4 40 1c e6 ba 5e 02 8b d7 33 6f 3c 60
  84 d8 51 0d e9 b5 9e c2 26 7a f3 af 4b 17 44 18 fc a0 29 75 91 cd 37 6b 8f d3 5a 06 e2 be
  ed b1 55 09 80 dc 38 64 d1 8d 69 35 bc e0 04 58 0b 57 b3 ef 66 3a de 82 78 24 c0 9c 15 49
  ad f1 a2 fe 1a 46 cf 93 77 2b 21 7d 99 c5 4c 10 f4 a8 fb a7 43 1f 96 ca 2e 72 88 d4 30 6c
  e5 b9 5d 01 52 0e ea b6 3f 63 87 db 6e 32 d6 8a 03 5f bb e7 b4 e8 0c 50 d9 85 61 3d c7 9b
  7f 23 aa f6 12 4e 1d 41 a5 f9 70 2c c8 94 bf e3 07 5b d2 8e 6a 36 65 39 dd 81 08 54 b0 ec
  16 4a ae f2 7b 27 c3 9f cc 90 74 28 a1 fd 19 45 f0 ac 48 14 9d c1 25 79 2a 76 92 ce 47 1b
  ff a3 59 05 e1 bd 34 68 8c d0 83 df 3b 67 ee b2 56 0a 00 5d ba e7 69 34 d3 8e d2 8f 68 35
  bb e6 01 5c b9 e4 03 5e d0 8d 6a 37 6b 36 d1 8c 02 5f b8 e5 6f 32 d5 88 06 5b bc e1 bd e0
  07 5a d4 89 6e 33 d6 8b 6c 31 bf e2 05 58 04 59 be e3 6d 30 d7 8a de 83 64 39 b7 ea 0d 50
  0c 51 b6 eb 65 38 df 82 67 3a dd 80 0e 53 b4 e9 b5 e8 0f 52 dc 81 66 3b b1 ec 0b 56 d8 85
  62 3f 63 3e d9 84 0a 57 b0 ed 08 55 b2 ef 61 3c db 86 da 87 60 3d b3 ee 09 54 a1 fc 1b 46
  c8 95 72 2f 73 2e c9 94 1a 47 a0 fd 18 45 a2 ff 71 2c cb 96 ca 97 70 2d a3 fe 19 44 ce 93
  74 29 a7 fa 1d 40 1c 41 a6 fb 75 28 cf 92 77 2a cd 90 1e 43 a4 f9 a5 f8 1f 42 cc 91 76 2b"%hex.
Definition gf_mul_table_base_16 : list byte := bytes_of "
  7f 22 c5 98 16 4b ac f1 ad f0 17 4a c4 99 7e 23 c6 9b 7c 21 af f2 15 48 14 49 ae f3 7d 20
  c7 9a 10 4d aa f7 79 24 c3 9e c2 9f 78 25 ab f6 11 4c a9 f4 13 4e c0 9d 7a 27 7b 26 c1 9c
  12 4f a8 f5 00 5e bc e2 65 3b d9 87 ca 94 76 28 af f1 13 4d 89 d7 35 6b ec b2 50 0e 43 1d
  ff a1 26 78 9a c4 0f 51 b3 ed 6a 34 d6 88 c5 9b 79 27 a0 fe 1c 42 86 d8 3a 64 e3 bd 5f 01
  4c 12 f0 ae 29 77 95 cb 1e 40 a2 fc 7b 25 c7 99 d4 8a 68 36 b1 ef 0d 53 97 c9 2b 75 f2 ac
  4e 10 5d 03 e1 bf 38 66 84 da 11 4f ad f3 74 2a c8 96 db 85 67 39 be e0 02 5c 98 c6 24 7a
  fd a3 41 1f 52 0c ee b0 37 69 8b d5 3c 62 80 de 59 07 e5 bb f6 a8 4a 14 93 cd 2f 71 b5 eb
  09 57 d0 8e 6c 32 7f 21 c3 9d 1a 44 a6 f8 33 6d 8f d1 56 08 ea b4 f9 a7 45 1b 9c c2 20 7e
  ba e4 06 58 df 81 63 3d 70 2e cc 92 15 4b a9 f7 22 7c 9e c0 47 19 fb a5 e8 b6 54 0a 8d d3
  31 6f ab f5 17 49 ce 90 72 2c 61 3f dd 83 04 5a b8 e6 2d 73 91 cf 48 16 f4 aa e7 b9 5b 05
  82 dc 3e 60 a4 fa 18 46 c1 9f 7d 23 6e 30 d2 8c 0b 55 b7 e9 00 5f be e1 61 3e df 80 c2 9d
  7c 23 a3 fc 1d 42 99 c6 27 78 f8 a7 46 19 5b 04 e5 ba 3a 65 84 db 2f 70 91 ce 4e 11 f0 af
  ed b2 53 0c 8c d3 32 6d b6 e9 08 57 d7 88 69 36 74 2b ca 95 15 4a ab f4 5e 01 e0 bf 3f 60
  81 de 9c c3 22 7d fd a2 43 1c c7 98 79 26 a6 f9 18 47 05 5a bb e4 64 3b da 85 71 2e cf 90
  10 4f ae f1 b3 ec 0d 52 d2 8d 6c 33 e8 b7 56 09 89 d6 37 68 2a 75 94 cb 4b 14 f5 aa bc e3
  02 5d dd 82 63 3c 7e 21 c0 9f 1f 40 a1 fe 25 7a 9b c4 44 1b fa a5 e7 b8 59 06 86 d9 38 67
  93 cc 2d 72 f2 ad 4c 13 51 0e ef b0 30 6f 8e d1 0a 55 b4 eb 6b 34 d5 8a c8 97 76 29 a9 f6
  17 48 e2 bd 5c 03 83 dc 3d 62 20 7f 9e c1 41 1e ff a0 7b 24 c5 9a 1a 45 a4 fb b9 e6 07 58
  d8 87 66 39 cd 92 73 2c ac f3 12 4d 0f 50 b1 ee 6e 31 d0 8f 54 0b ea b5 35 6a 8b d4 96 c9
  28 77 f7 a8 49 16 00 60 c0 a0 9d fd 5d 3d 27 47 e7 87 ba da 7a 1a 4e 2e 8e ee d3 b3 13 73
  69 09 a9 c9 f4 94 34 54 9c fc 5c 3c 01 61 c1 a1 bb db 7b 1b 26 46 e6 86 d2 b2 12 72 4f 2f
  8f ef f5 95 35 55 68 08 a8 c8 25 45 e5 85 b8 d8 78 18 02 62 c2 a2 9f ff 5f 3f 6b 0b ab cb
  f6 96 36 56 4c 2c 8c ec d1 b1 11 71 b9 d9 79 19 24 44 e4 84 9e fe 5e 3e 03 63 c3 a3 f7 97
  37 57 6a 0a aa ca d0 b0 10 70 4d 2d 8d ed 4a 2a 8a ea d7 b7 17 77 6d 0d ad cd f0 90 30 50
  04 64 c4 a4 99 f9 59 39 23 43 e3 83 be de 7e 1e d6 b6 16 76 4b 2b 8b eb f1 91 31 51 6c 0c
  ac cc 98 f8 58 38 05 65 c5 a5 bf df 7f 1f 22 42 e2 82 6f 0f af cf f2 92 32 52 48 28 88 e8
  d5 b5 15 75 21 41 e1 81 bc dc 7c 1c 06 66 c6 a6 9b fb 5b 3b f3 93 33 53 6e 0e ae ce d4 b4
  14 74 49 29 89 e9 bd dd 7d 1d 20 40 e0 80 9a fa 5a 3a 07 67 c7 a7 00 61 c2 a3 99 f8 5b 3a
  2f 4e ed 8c b6 d7 74 15 5e 3f 9c fd c7 a6 05 64 71 10 b3 d2 e8 89 2a 4b bc dd 7e 1f 25 44
  e7 86 93 f2 51 30 0a 6b c8 a9 e2 83 20 41 7b 1a b9 d8 cd ac 0f 6e 54 35 96 f7 65 04 a7 c6
  fc 9d 3e 5f 4a 2b 88 e9 d3 b2 11 70 3b 5a f9 98 a2 c3 60 01 14 75 d6 b7 8d ec 4f 2e d9 b8
  1b 7a 40 21 82 e3 f6 97 34 55 6f 0e ad cc 87 e6 45 24 1e 7f dc bd a8 c9 6a 0b 31 50 f3 92
  ca ab 08 69 53 32 91 f0 e5 84 27 46 7c 1d be df 94 f5 56 37 0d 6c cf ae bb da 79 18 22 43
  e0 81 76 17 b4 d5 ef 8e 2d 4c 59 38 9b fa c0 a1 02 63 28 49 ea 8b b1 d0 73 12 07 66 c5 a4
  9e ff 5c 3d af ce 6d 0c 36 57 f4 95 80 e1 42 23 19 78 db ba f1 90 33 52 68 09 aa cb de bf
  1c 7d 47 26 85 e4 13 72 d1 b0 8a eb 48 29 3c 5d fe 9f a5 c4 67 06 4d 2c 8f ee d4 b5 16 77
  62 03 a0 c1 fb 9a 39 58 00 62 c4 a6 95 f7 51 33 37 55 f3 91 a2 c0 66 04 6e 0c aa c8 fb 99
  3f 5d 59 3b 9d ff cc ae 08 6a dc be 18 7a 49 2b 8d ef eb 89 2f 4d 7e 1c ba d8 b2 d0 76 14
  27 45 e3 81 85 e7 41 23 10 72 d4 b6 a5 c7 61 03 30 52 f4 96 92 f0 56 34 07 65 c3 a1 cb a9
  0f 6d 5e 3c 9a f8 fc 9e 38 5a 69 0b ad cf 79 1b bd df ec 8e 28 4a 4e 2c 8a e8 db b9 1f 7d
  17 75 d3 b1 82 e0 46 24 20 42 e4 86 b5 d7 71 13 57 35 93 f1 c2 a0 06 64 60 02 a4 c6 f5 97
  31 53 39 5b fd 9f ac ce 68 0a 0e 6c ca a8 9b f9 5f 3d 8b e9 4f 2d 1e 7c da b8 bc de 78 1a
  29 4b ed 8f e5 87 21 43 70 12 b4 d6 d2 b0 16 74 47 25 83 e1 f2 90 36 54 67 05 a3 c1 c5 a7
  01 63 50 32 94 f6 9c fe 58 3a 09 6b cd af ab c9 6f 0d 3e 5c fa 98 2e 4c ea 88 bb d9 7f 1d
  19 7b dd bf 8c ee 48 2a 40 22 84 e6 d5 b7 11 73 77 15 b3 d1 e2 80 26 44 00 63 c6 a5 91 f2
  57 34 3f 5c f9 9a ae cd 68 0b 7e 1d b8 db ef 8c 29 4a 41 22 87 e4 d0 b3 16 75 fc 9f 3a 59
  6d 0e ab c8 c3 a0 05 66 52 31 94 f7 82 e1 44 27 13 70 d5 b6 bd de 7b 18 2c 4f ea 89 e5 86
  23 40 74 17 b2 d1 da b9 1c 7f 4b 28 8d ee 9b f8 5d 3e 0a 69 cc af a4 c7 62 01 35 56 f3 90
  19 7a df bc 88 eb 4e 2d 26 45 e0 83 b7 d4 71 12 67 04 a1 c2 f6 95 30 53 58 3b 9e fd c9 aa
  0f 6c d7 b4 11 72 46 25 80 e3 e8 8b 2e 4d 79 1a bf dc a9 ca 6f 0c 38 5b fe 9d 96 f5 50 33"%hex.
Definition gf_mul_table_base_17 : list byte := bytes_of "
  07 64 c1 a2 2b 48 ed 8e ba d9 7c 1f 14 77 d2 b1 85 e6 43 20 55 36 93 f0 c4 a7 02 61 6a 09
  ac cf fb 98 3d 5e 32 51 f4 97 a3 c0 65 06 0d 6e cb a8 9c ff 5a 39 4c 2f 8a e9 dd be 1b 78
  73 10 b5 d6 e2 81 24 47 ce ad 08 6b 5f 3c 99 fa f1 92 37 54 60 03 a6 c5 b0 d3 76 15 21 42
  e7 84 8f ec 49 2a 1e 7d d8 bb 00 64 c8 ac 8d e9 45 21 07 63 cf ab 8a ee 42 26 0e 6a c6 a2
  83 e7 4b 2f 09 6d c1 a5 84 e0 4c 28 1c 78 d4 b0 91 f5 59 3d 1b 7f d3 b7 96 f2 5e 3a 12 76
  da be 9f fb 57 33 15 71 dd b9 98 fc 50 34 38 5c f0 94 b5 d1 7d 19 3f 5b f7 93 b2 d6 7a 1e
  36 52 fe 9a bb df 73 17 31 55 f9 9d bc d8 74 10 24 40 ec 88 a9 cd 61 05 23 47 eb 8f ae ca
  66 02 2a 4e e2 86 a7 c3 6f 0b 2d 49 e5 81 a0 c4 68 0c 70 14 b8 dc fd 99 35 51 77 13 bf db
  fa 9e 32 56 7e 1a b6 d2 f3 97 3b 5f 79 1d b1 d5 f4 90 3c 58 6c 08 a4 c0 e1 85 29 4d 6b 0f
  a3 c7 e6 82 2e 4a 62 06 aa ce ef 8b 27 43 65 01 ad c9 e8 8c 20 44 48 2c 80 e4 c5 a1 0d 69
  4f 2b 87 e3 c2 a6 0a 6e 46 22 8e ea cb af 03 67 41 25 89 ed cc a8 04 60 54 30 9c f8 d9 bd
  11 75 53 37 9b ff de ba 16 72 5a 3e 92 f6 d7 b3 1f 7b 5d 39 95 f1 d0 b4 18 7c 00 65 ca af
  89 ec 43 26 0f 6a c5 a0 86 e3 4c 29 1e 7b d4 b1 97 f2 5d 38 11 74 db be 98 fd 52 37 3c 59
  f6 93 b5 d0 7f 1a 33 56 f9 9c ba df 70 15 22 47 e8 8d ab ce 61 04 2d 48 e7 82 a4 c1 6e 0b
  78 1d b2 d7 f1 94 3b 5e 77 12 bd d8 fe 9b 34 51 66 03 ac c9 ef 8a 25 40 69 0c a3 c6 e0 85
  2a 4f 44 21 8e eb cd a8 07 62 4b 2e 81 e4 c2 a7 08 6d 5a 3f 90 f5 d3 b6 19 7c 55 30 9f fa
  dc b9 16 73 f0 95 3a 5f 79 1c b3 d6 ff 9a 35 50 76 13 bc d9 ee 8b 24 41 67 02 ad c8 e1 84
  2b 4e 68 0d a2 c7 cc a9 06 63 45 20 8f ea c3 a6 09 6c 4a 2f 80 e5 d2 b7 18 7d 5b 3e 91 f4
  dd b8 17 72 54 31 9e fb 88 ed 42 27 01 64 cb ae 87 e2 4d 28 0e 6b c4 a1 96 f3 5c 39 1f 7a
  d5 b0 99 fc 53 36 10 75 da bf b4 d1 7e 1b 3d 58 f7 92 bb de 71 14 32 57 f8 9d aa cf 60 05
  23 46 e9 8c a5 c0 6f 0a 2c 49 e6 83 00 66 cc aa 85 e3 49 2f 17 71 db bd 92 f4 5e 38 2e 48
  e2 84 ab cd 67 01 39 5f f5 93 bc da 70 16 5c 3a 90 f6 d9 bf 15 73 4b 2d 87 e1 ce a8 02 64
  72 14 be d8 f7 91 3b 5d 65 03 a9 cf e0 86 2c 4a b8 de 74 12 3d 5b f1 97 af c9 63 05 2a 4c
  e6 80 96 f0 5a 3c 13 75 df b9 81 e7 4d 2b 04 62 c8 ae e4 82 28 4e 61 07 ad cb f3 95 3f 59
  76 10 ba dc ca ac 06 60 4f 29 83 e5 dd bb 11 77 58 3e 94 f2 6d 0b a1 c7 e8 8e 24 42 7a 1c
  b6 d0 ff 99 33 55 43 25 8f e9 c6 a0 0a 6c 54 32 98 fe d1 b7 1d 7b 31 57 fd 9b b4 d2 78 1e
  26 40 ea 8c a3 c5 6f 09 1f 79 d3 b5 9a fc 56 30 08 6e c4 a2 8d eb 41 27 d5 b3 19 7f 50 36
  9c fa c2 a4 0e 68 47 21 8b ed fb 9d 37 51 7e 18 b2 d4 ec 8a 20 46 69 0f a5 c3 89 ef 45 23
  0c 6a c0 a6 9e f8 52 34 1b 7d d7 b1 a7 c1 6b 0d 22 44 ee 88 b0 d6 7c 1a 35 53 f9 9f 00 67
  ce a9 81 e6 4f 28 1f 78 d1 b6 9e f9 50 37 3e 59 f0 97 bf d8 71 16 21 46 ef 88 a0 c7 6e 09
  7c 1b b2 d5 fd 9a 33 54 63 04 ad ca e2 85 2c 4b 42 25 8c eb c3 a4 0d 6a 5d 3a 93 f4 dc bb
  12 75 f8 9f 36 51 79 1e b7 d0 e7 80 29 4e 66 01 a8 cf c6 a1 08 6f 47 20 89 ee d9 be 17 70
  58 3f 96 f1 84 e3 4a 2d 05 62 cb ac 9b fc 55 32 1a 7d d4 b3 ba dd 74 13 3b 5c f5 92 a5 c2
  6b 0c 24 43 ea 8d ed 8a 23 44 6c 0b a2 c5 f2 95 3c 5b 73 14 bd da d3 b4 1d 7a 52 35 9c fb
  cc ab 02 65 4d 2a 83 e4 91 f6 5f 38 10 77 de b9 8e e9 40 27 0f 68 c1 a6 af c8 61 06 2e 49
  e0 87 b0 d7 7e 19 31 56 ff 98 15 72 db bc 94 f3 5a 3d 0a 6d c4 a3 8b ec 45 22 2b 4c e5 82
  aa cd 64 03 34 53 fa 9d b5 d2 7b 1c 69 0e a7 c0 e8 8f 26 41 76 11 b8 df f7 90 39 5e 57 30
  99 fe d6 b1 18 7f 48 2f 86 e1 c9 ae 07 60 00 68 d0 b8 bd d5 6d 05 67 0f b7 df da b2 0a 62
  ce a6 1e 76 73 1b a3 cb a9 c1 79 11 14 7c c4 ac 81 e9 51 39 3c 54 ec 84 e6 8e 36 5e 5b 33
  8b e3 4f 27 9f f7 f2 9a 22 4a 28 40 f8 90 95 fd 45 2d 1f 77 cf a7 a2 ca 72 1a 78 10 a8 c0
  c5 ad 15 7d d1 b9 01 69 6c 04 bc d4 b6 de 66 0e 0b 63 db b3 9e f6 4e 26 23 4b f3 9b f9 91
  29 41 44 2c 94 fc 50 38 80 e8 ed 85 3d 55 37 5f e7 8f 8a e2 5a 32 3e 56 ee 86 83 eb 53 3b
  59 31 89 e1 e4 8c 34 5c f0 98 20 48 4d 25 9d f5 97 ff 47 2f 2a 42 fa 92 bf d7 6f 07 02 6a
  d2 ba d8 b0 08 60 65 0d b5 dd 71 19 a1 c9 cc a4 1c 74 16 7e c6 ae ab c3 7b 13 21 49 f1 99
  9c f4 4c 24 46 2e 96 fe fb 93 2b 43 ef 87 3f 57 52 3a 82 ea 88 e0 58 30 35 5d e5 8d a0 c8
  70 18 1d 75 cd a5 c7 af 17 7f 7a 12 aa c2 6e 06 be d6 d3 bb 03 6b 09 61 d9 b1 b4 dc 64 0c
  00 69 d2 bb b9 d0 6b 02 6f 06 bd d4 d6 bf 04 6d de b7 0c 65 67 0e b5 dc b1 d8 63 0a 08 61
  da b3 a1 c8 73 1a 18 71 ca a3 ce a7 1c 75 77 1e a5 cc 7f 16 ad c4 c6 af 14 7d 10 79 c2 ab
  a9 c0 7b 12 5f 36 8d e4 e6 8f 34 5d 30 59 e2 8b 89 e0 5b 32 81 e8 53 3a 38 51 ea 83 ee 87
  3c 55 57 3e 85 ec fe 97 2c 45 47 2e 95 fc 91 f8 43 2a 28 41 fa 93 20 49 f2 9b 99 f0 4b 22"%hex.
Definition gf_mul_table_base_18 : list byte := bytes_of "
  4f 26 9d f4 f6 9f 24 4d be d7 6c 05 07 6e d5 bc d1 b8 03 6a 68 01 ba d3 60 09 b2 db d9 b0
  0b 62 0f 66 dd b4 b6 df 64 0d 1f 76 cd a4 a6 cf 74 1d 70 19 a2 cb c9 a0 1b 72 c1 a8 13 7a
  78 11 aa c3 ae c7 7c 15 17 7e c5 ac e1 88 33 5a 58 31 8a e3 8e e7 5c 35 37 5e e5 8c 3f 56
  ed 84 86 ef 54 3d 50 39 82 eb e9 80 3b 52 40 29 92 fb f9 90 2b 42 2f 46 fd 94 96 ff 44 2d
  9e f7 4c 25 27 4e f5 9c f1 98 23 4a 48 21 9a f3 00 6a d4 be b5 df 61 0b 77 1d a3 c9 c2 a8
  16 7c ee 84 3a 50 5b 31 8f e5 99 f3 4d 27 2c 46 f8 92 c1 ab 15 7f 74 1e a0 ca b6 dc 62 08
  03 69 d7 bd 2f 45 fb 91 9a f0 4e 24 58 32 8c e6 ed 87 39 53 9f f5 4b 21 2a 40 fe 94 e8 82
  3c 56 5d 37 89 e3 71 1b a5 cf c4 ae 10 7a 06 6c d2 b8 b3 d9 67 0d 5e 34 8a e0 eb 81 3f 55
  29 43 fd 97 9c f6 48 22 b0 da 64 0e 05 6f d1 bb c7 ad 13 79 72 18 a6 cc 23 49 f7 9d 96 fc
  42 28 54 3e 80 ea e1 8b 35 5f cd a7 19 73 78 12 ac c6 ba d0 6e 04 0f 65 db b1 e2 88 36 5c
  57 3d 83 e9 95 ff 41 2b 20 4a f4 9e 0c 66 d8 b2 b9 d3 6d 07 7b 11 af c5 ce a4 1a 70 bc d6
  68 02 09 63 dd b7 cb a1 1f 75 7e 14 aa c0 52 38 86 ec e7 8d 33 59 25 4f f1 9b 90 fa 44 2e
  7d 17 a9 c3 c8 a2 1c 76 0a 60 de b4 bf d5 6b 01 93 f9 47 2d 26 4c f2 98 e4 8e 30 5a 51 3b
  85 ef 00 6b d6 bd b1 da 67 0c 7f 14 a9 c2 ce a5 18 73 fe 95 28 43 4f 24 99 f2 81 ea 57 3c
  30 5b e6 8d e1 8a 37 5c 50 3b 86 ed 9e f5 48 23 2f 44 f9 92 1f 74 c9 a2 ae c5 78 13 60 0b
  b6 dd d1 ba 07 6c df b4 09 62 6e 05 b8 d3 a0 cb 76 1d 11 7a c7 ac 21 4a f7 9c 90 fb 46 2d
  5e 35 88 e3 ef 84 39 52 3e 55 e8 83 8f e4 59 32 41 2a 97 fc f0 9b 26 4d c0 ab 16 7d 71 1a
  a7 cc bf d4 69 02 0e 65 d8 b3 a3 c8 75 1e 12 79 c4 af dc b7 0a 61 6d 06 bb d0 5d 36 8b e0
  ec 87 3a 51 22 49 f4 9f 93 f8 45 2e 42 29 94 ff f3 98 25 4e 3d 56 eb 80 8c e7 5a 31 bc d7
  6a 01 0d 66 db b0 c3 a8 15 7e 72 19 a4 cf 7c 17 aa c1 cd a6 1b 70 03 68 d5 be b2 d9 64 0f
  82 e9 54 3f 33 58 e5 8e fd 96 2b 40 4c 27 9a f1 9d f6 4b 20 2c 47 fa 91 e2 89 34 5f 53 38
  85 ee 63 08 b5 de d2 b9 04 6f 1c 77 ca a1 ad c6 7b 10 00 6c d8 b4 ad c1 75 19 47 2b 9f f3
  ea 86 32 5e 8e e2 56 3a 23 4f fb 97 c9 a5 11 7d 64 08 bc d0 01 6d d9 b5 ac c0 74 18 46 2a
  9e f2 eb 87 33 5f 8f e3 57 3b 22 4e fa 96 c8 a4 10 7c 65 09 bd d1 02 6e da b6 af c3 77 1b
  45 29 9d f1 e8 84 30 5c 8c e0 54 38 21 4d f9 95 cb a7 13 7f 66 0a be d2 03 6f db b7 ae c2
  76 1a 44 28 9c f0 e9 85 31 5d 8d e1 55 39 20 4c f8 94 ca a6 12 7e 67 0b bf d3 04 68 dc b0
  a9 c5 71 1d 43 2f 9b f7 ee 82 36 5a 8a e6 52 3e 27 4b ff 93 cd a1 15 79 60 0c b8 d4 05 69
  dd b1 a8 c4 70 1c 42 2e 9a f6 ef 83 37 5b 8b e7 53 3f 26 4a fe 92 cc a0 14 78 61 0d b9 d5
  06 6a de b2 ab c7 73 1f 41 2d 99 f5 ec 80 34 58 88 e4 50 3c 25 49 fd 91 cf a3 17 7b 62 0e
  ba d6 07 6b df b3 aa c6 72 1e 40 2c 98 f4 ed 81 35 59 89 e5 51 3d 24 48 fc 90 ce a2 16 7a
  63 0f bb d7 00 6d da b7 a9 c4 73 1e 4f 22 95 f8 e6 8b 3c 51 9e f3 44 29 37 5a ed 80 d1 bc
  0b 66 78 15 a2 cf 21 4c fb 96 88 e5 52 3f 6e 03 b4 d9 c7 aa 1d 70 bf d2 65 08 16 7b cc a1
  f0 9d 2a 47 59 34 83 ee 42 2f 98 f5 eb 86 31 5c 0d 60 d7 ba a4 c9 7e 13 dc b1 06 6b 75 18
  af c2 93 fe 49 24 3a 57 e0 8d 63 0e b9 d4 ca a7 10 7d 2c 41 f6 9b 85 e8 5f 32 fd 90 27 4a
  54 39 8e e3 b2 df 68 05 1b 76 c1 ac 84 e9 5e 33 2d 40 f7 9a cb a6 11 7c 62 0f b8 d5 1a 77
  c0 ad b3 de 69 04 55 38 8f e2 fc 91 26 4b a5 c8 7f 12 0c 61 d6 bb ea 87 30 5d 43 2e 99 f4
  3b 56 e1 8c 92 ff 48 25 74 19 ae c3 dd b0 07 6a c6 ab 1c 71 6f 02 b5 d8 89 e4 53 3e 20 4d
  fa 97 58 35 82 ef f1 9c 2b 46 17 7a cd a0 be d3 64 09 e7 8a 3d 50 4e 23 94 f9 a8 c5 72 1f
  01 6c db b6 79 14 a3 ce d0 bd 0a 67 36 5b ec 81 9f f2 45 28 00 6e dc b2 a5 cb 79 17 57 39
  8b e5 f2 9c 2e 40 ae c0 72 1c 0b 65 d7 b9 f9 97 25 4b 5c 32 80 ee 41 2f 9d f3 e4 8a 38 56
  16 78 ca a4 b3 dd 6f 01 ef 81 33 5d 4a 24 96 f8 b8 d6 64 0a 1d 73 c1 af 82 ec 5e 30 27 49
  fb 95 d5 bb 09 67 70 1e ac c2 2c 42 f0 9e 89 e7 55 3b 7b 15 a7 c9 de b0 02 6c c3 ad 1f 71
  66 08 ba d4 94 fa 48 26 31 5f ed 83 6d 03 b1 df c8 a6 14 7a 3a 54 e6 88 9f f1 43 2d 19 77
  c5 ab bc d2 60 0e 4e 20 92 fc eb 85 37 59 b7 d9 6b 05 12 7c ce a0 e0 8e 3c 52 45 2b 99 f7
  58 36 84 ea fd 93 21 4f 0f 61 d3 bd aa c4 76 18 f6 98 2a 44 53 3d 8f e1 a1 cf 7d 13 04 6a
  d8 b6 9b f5 47 29 3e 50 e2 8c cc a2 10 7e 69 07 b5 db 35 5b e9 87 90 fe 4c 22 62 0c be d0
  c7 a9 1b 75 da b4 06 68 7f 11 a3 cd 8d e3 51 3f 28 46 f4 9a 74 1a a8 c6 d1 bf 0d 63 23 4d
  ff 91 86 e8 5a 34 00 6f de b1 a1 ce 7f 10 5f 30 81 ee fe 91 20 4f be d1 60 0f 1f 70 c1 ae
  e1 8e 3f 50 40 2f 9e f1 61 0e bf d0 c0 af 1e 71 3e 51 e0 8f 9f f0 41 2e df b0 01 6e 7e 11
  a0 cf 80 ef 5e 31 21 4e ff 90 c2 ad 1c 73 63 0c bd d2 9d f2 43 2c 3c 53 e2 8d 7c 13 a2 cd"%hex.
Definition gf_mul_table_base_19 : list byte := bytes_of "
  dd b2 03 6c 23 4c fd 92 82 ed 5c 33 a3 cc 7d 12 02 6d dc b3 fc 93 22 4d 5d 32 83 ec 1d 72
  c3 ac bc d3 62 0d 42 2d 9c f3 e3 8c 3d 52 99 f6 47 28 38 57 e6 89 c6 a9 18 77 67 08 b9 d6
  27 48 f9 96 86 e9 58 37 78 17 a6 c9 d9 b6 07 68 f8 97 26 49 59 36 87 e8 a7 c8 79 16 06 69
  d8 b7 46 29 98 f7 e7 88 39 56 19 76 c7 a8 b8 d7 66 09 5b 34 85 ea fa 95 24 4b 04 6b da b5
  a5 ca 7b 14 e5 8a 3b 54 44 2b 9a f5 ba d5 64 0b 1b 74 c5 aa 3a 55 e4 8b 9b f4 45 2a 65 0a
  bb d4 c4 ab 1a 75 84 eb 5a 35 25 4a fb 94 db b4 05 6a 7a 15 a4 cb 00 70 e0 90 dd ad 3d 4d
  a7 d7 47 37 7a 0a 9a ea 53 23 b3 c3 8e fe 6e 1e f4 84 14 64 29 59 c9 b9 a6 d6 46 36 7b 0b
  9b eb 01 71 e1 91 dc ac 3c 4c f5 85 15 65 28 58 c8 b8 52 22 b2 c2 8f ff 6f 1f 51 21 b1 c1
  8c fc 6c 1c f6 86 16 66 2b 5b cb bb 02 72 e2 92 df af 3f 4f a5 d5 45 35 78 08 98 e8 f7 87
  17 67 2a 5a ca ba 50 20 b0 c0 8d fd 6d 1d a4 d4 44 34 79 09 99 e9 03 73 e3 93 de ae 3e 4e
  a2 d2 42 32 7f 0f 9f ef 05 75 e5 95 d8 a8 38 48 f1 81 11 61 2c 5c cc bc 56 26 b6 c6 8b fb
  6b 1b 04 74 e4 94 d9 a9 39 49 a3 d3 43 33 7e 0e 9e ee 57 27 b7 c7 8a fa 6a 1a f0 80 10 60
  2d 5d cd bd f3 83 13 63 2e 5e ce be 54 24 b4 c4 89 f9 69 19 a0 d0 40 30 7d 0d 9d ed 07 77
  e7 97 da aa 3a 4a 55 25 b5 c5 88 f8 68 18 f2 82 12 62 2f 5f cf bf 06 76 e6 96 db ab 3b 4b
  a1 d1 41 31 7c 0c 9c ec 00 71 e2 93 d9 a8 3b 4a af de 4d 3c 76 07 94 e5 43 32 a1 d0 9a eb
  78 09 ec 9d 0e 7f 35 44 d7 a6 86 f7 64 15 5f 2e bd cc 29 58 cb ba f0 81 12 63 c5 b4 27 56
  1c 6d fe 8f 6a 1b 88 f9 b3 c2 51 20 11 60 f3 82 c8 b9 2a 5b be cf 5c 2d 67 16 85 f4 52 23
  b0 c1 8b fa 69 18 fd 8c 1f 6e 24 55 c6 b7 97 e6 75 04 4e 3f ac dd 38 49 da ab e1 90 03 72
  d4 a5 36 47 0d 7c ef 9e 7b 0a 99 e8 a2 d3 40 31 22 53 c0 b1 fb 8a 19 68 8d fc 6f 1e 54 25
  b6 c7 61 10 83 f2 b8 c9 5a 2b ce bf 2c 5d 17 66 f5 84 a4 d5 46 37 7d 0c 9f ee 0b 7a e9 98
  d2 a3 30 41 e7 96 05 74 3e 4f dc ad 48 39 aa db 91 e0 73 02 33 42 d1 a0 ea 9b 08 79 9c ed
  7e 0f 45 34 a7 d6 70 01 92 e3 a9 d8 4b 3a df ae 3d 4c 06 77 e4 95 b5 c4 57 26 6c 1d 8e ff
  1a 6b f8 89 c3 b2 21 50 f6 87 14 65 2f 5e cd bc 59 28 bb ca 80 f1 62 13 00 72 e4 96 d5 a7
  31 43 b7 c5 53 21 62 10 86 f4 73 01 97 e5 a6 d4 42 30 c4 b6 20 52 11 63 f5 87 e6 94 02 70
  33 41 d7 a5 51 23 b5 c7 84 f6 60 12 95 e7 71 03 40 32 a4 d6 22 50 c6 b4 f7 85 13 61 d1 a3
  35 47 04 76 e0 92 66 14 82 f0 b3 c1 57 25 a2 d0 46 34 77 05 93 e1 15 67 f1 83 c0 b2 24 56
  37 45 d3 a1 e2 90 06 74 80 f2 64 16 55 27 b1 c3 44 36 a0 d2 91 e3 75 07 f3 81 17 65 26 54
  c2 b0 bf cd 5b 29 6a 18 8e fc 08 7a ec 9e dd af 39 4b cc be 28 5a 19 6b fd 8f 7b 09 9f ed
  ae dc 4a 38 59 2b bd cf 8c fe 68 1a ee 9c 0a 78 3b 49 df ad 2a 58 ce bc ff 8d 1b 69 9d ef
  79 0b 48 3a ac de 6e 1c 8a f8 bb c9 5f 2d d9 ab 3d 4f 0c 7e e8 9a 1d 6f f9 8b c8 ba 2c 5e
  aa d8 4e 3c 7f 0d 9b e9 88 fa 6c 1e 5d 2f b9 cb 3f 4d db a9 ea 98 0e 7c fb 89 1f 6d 2e 5c
  ca b8 4c 3e a8 da 99 eb 7d 0f 00 73 e6 95 d1 a2 37 44 bf cc 59 2a 6e 1d 88 fb 63 10 85 f6
  b2 c1 54 27 dc af 3a 49 0d 7e eb 98 c6 b5 20 53 17 64 f1 82 79 0a 9f ec a8 db 4e 3d a5 d6
  43 30 74 07 92 e1 1a 69 fc 8f cb b8 2d 5e 91 e2 77 04 40 33 a6 d5 2e 5d c8 bb ff 8c 19 6a
  f2 81 14 67 23 50 c5 b6 4d 3e ab d8 9c ef 7a 09 57 24 b1 c2 86 f5 60 13 e8 9b 0e 7d 39 4a
  df ac 34 47 d2 a1 e5 96 03 70 8b f8 6d 1e 5a 29 bc cf 3f 4c d9 aa ee 9d 08 7b 80 f3 66 15
  51 22 b7 c4 5c 2f ba c9 8d fe 6b 18 e3 90 05 76 32 41 d4 a7 f9 8a 1f 6c 28 5b ce bd 46 35
  a0 d3 97 e4 71 02 9a e9 7c 0f 4b 38 ad de 25 56 c3 b0 f4 87 12 61 ae dd 48 3b 7f 0c 99 ea
  11 62 f7 84 c0 b3 26 55 cd be 2b 58 1c 6f fa 89 72 01 94 e7 a3 d0 45 36 68 1b 8e fd b9 ca
  5f 2c d7 a4 31 42 06 75 e0 93 0b 78 ed 9e da a9 3c 4f b4 c7 52 21 65 16 83 f0 00 74 e8 9c
  cd b9 25 51 87 f3 6f 1b 4a 3e a2 d6 13 67 fb 8f de aa 36 42 94 e0 7c 08 59 2d b1 c5 26 52
  ce ba eb 9f 03 77 a1 d5 49 3d 6c 18 84 f0 35 41 dd a9 f8 8c 10 64 b2 c6 5a 2e 7f 0b 97 e3
  4c 38 a4 d0 81 f5 69 1d cb bf 23 57 06 72 ee 9a 5f 2b b7 c3 92 e6 7a 0e d8 ac 30 44 15 61
  fd 89 6a 1e 82 f6 a7 d3 4f 3b ed 99 05 71 20 54 c8 bc 79 0d 91 e5 b4 c0 5c 28 fe 8a 16 62
  33 47 db af 98 ec 70 04 55 21 bd c9 1f 6b f7 83 d2 a6 3a 4e 8b ff 63 17 46 32 ae da 0c 78
  e4 90 c1 b5 29 5d be ca 56 22 73 07 9b ef 39 4d d1 a5 f4 80 1c 68 ad d9 45 31 60 14 88 fc
  2a 5e c2 b6 e7 93 0f 7b d4 a0 3c 48 19 6d f1 85 53 27 bb cf 9e ea 76 02 c7 b3 2f 5b 0a 7e
  e2 96 40 34 a8 dc 8d f9 65 11 f2 86 1a 6e 3f 4b d7 a3 75 01 9d e9 b8 cc 50 24 e1 95 09 7d
  2c 58 c4 b0 66 12 8e fa ab df 43 37 00 75 ea 9f c9 bc 23 56 8f fa 65 10 46 33 ac d9 03 76
  e9 9c ca bf 20 55 8c f9 66 13 45 30 af da 06 73 ec 99 cf ba 25 50 89 fc 63 16 40 35 aa df"%hex.
Definition gf_mul_table_base_20 : list byte := bytes_of "
  05 70 ef 9a cc b9 26 53 8a ff 60 15 43 36 a9 dc 0c 79 e6 93 c5 b0 2f 5a 83 f6 69 1c 4a 3f
  a0 d5 0f 7a e5 90 c6 b3 2c 59 80 f5 6a 1f 49 3c a3 d6 0a 7f e0 95 c3 b6 29 5c 85 f0 6f 1a
  4c 39 a6 d3 09 7c e3 96 c0 b5 2a 5f 86 f3 6c 19 4f 3a a5 d0 18 6d f2 87 d1 a4 3b 4e 97 e2
  7d 08 5e 2b b4 c1 1b 6e f1 84 d2 a7 38 4d 94 e1 7e 0b 5d 28 b7 c2 1e 6b f4 81 d7 a2 3d 48
  91 e4 7b 0e 58 2d b2 c7 1d 68 f7 82 d4 a1 3e 4b 92 e7 78 0d 5b 2e b1 c4 14 61 fe 8b dd a8
  37 42 9b ee 71 04 52 27 b8 cd 17 62 fd 88 de ab 34 41 98 ed 72 07 51 24 bb ce 12 67 f8 8d
  db ae 31 44 9d e8 77 02 54 21 be cb 11 64 fb 8e d8 ad 32 47 9e eb 74 01 57 22 bd c8 00 76
  ec 9a c5 b3 29 5f 97 e1 7b 0d 52 24 be c8 33 45 df a9 f6 80 1a 6c a4 d2 48 3e 61 17 8d fb
  66 10 8a fc a3 d5 4f 39 f1 87 1d 6b 34 42 d8 ae 55 23 b9 cf 90 e6 7c 0a c2 b4 2e 58 07 71
  eb 9d cc ba 20 56 09 7f e5 93 5b 2d b7 c1 9e e8 72 04 ff 89 13 65 3a 4c d6 a0 68 1e 84 f2
  ad db 41 37 aa dc 46 30 6f 19 83 f5 3d 4b d1 a7 f8 8e 14 62 99 ef 75 03 5c 2a b0 c6 0e 78
  e2 94 cb bd 27 51 85 f3 69 1f 40 36 ac da 12 64 fe 88 d7 a1 3b 4d b6 c0 5a 2c 73 05 9f e9
  21 57 cd bb e4 92 08 7e e3 95 0f 79 26 50 ca bc 74 02 98 ee b1 c7 5d 2b d0 a6 3c 4a 15 63
  f9 8f 47 31 ab dd 82 f4 6e 18 49 3f a5 d3 8c fa 60 16 de a8 32 44 1b 6d f7 81 7a 0c 96 e0
  bf c9 53 25 ed 9b 01 77 28 5e c4 b2 2f 59 c3 b5 ea 9c 06 70 b8 ce 54 22 7d 0b 91 e7 1c 6a
  f0 86 d9 af 35 43 8b fd 67 11 4e 38 a2 d4 00 77 ee 99 c1 b6 2f 58 9f e8 71 06 5e 29 b0 c7
  23 54 cd ba e2 95 0c 7b bc cb 52 25 7d 0a 93 e4 46 31 a8 df 87 f0 69 1e d9 ae 37 40 18 6f
  f6 81 65 12 8b fc a4 d3 4a 3d fa 8d 14 63 3b 4c d5 a2 8c fb 62 15 4d 3a a3 d4 13 64 fd 8a
  d2 a5 3c 4b af d8 41 36 6e 19 80 f7 30 47 de a9 f1 86 1f 68 ca bd 24 53 0b 7c e5 92 55 22
  bb cc 94 e3 7a 0d e9 9e 07 70 28 5f c6 b1 76 01 98 ef b7 c0 59 2e 05 72 eb 9c c4 b3 2a 5d
  9a ed 74 03 5b 2c b5 c2 26 51 c8 bf e7 90 09 7e b9 ce 57 20 78 0f 96 e1 43 34 ad da 82 f5
  6c 1b dc ab 32 45 1d 6a f3 84 60 17 8e f9 a1 d6 4f 38 ff 88 11 66 3e 49 d0 a7 89 fe 67 10
  48 3f a6 d1 16 61 f8 8f d7 a0 39 4e aa dd 44 33 6b 1c 85 f2 35 42 db ac f4 83 1a 6d cf b8
  21 56 0e 79 e0 97 50 27 be c9 91 e6 7f 08 ec 9b 02 75 2d 5a c3 b4 73 04 9d ea b2 c5 5c 2b
  00 78 f0 88 fd 85 0d 75 e7 9f 17 6f 1a 62 ea 92 d3 ab 23 5b 2e 56 de a6 34 4c c4 bc c9 b1
  39 41 bb c3 4b 33 46 3e b6 ce 5c 24 ac d4 a1 d9 51 29 68 10 98 e0 95 ed 65 1d 8f f7 7f 07
  72 0a 82 fa 6b 13 9b e3 96 ee 66 1e 8c f4 7c 04 71 09 81 f9 b8 c0 48 30 45 3d b5 cd 5f 27
  af d7 a2 da 52 2a d0 a8 20 58 2d 55 dd a5 37 4f c7 bf ca b2 3a 42 03 7b f3 8b fe 86 0e 76
  e4 9c 14 6c 19 61 e9 91 d6 ae 26 5e 2b 53 db a3 31 49 c1 b9 cc b4 3c 44 05 7d f5 8d f8 80
  08 70 e2 9a 12 6a 1f 67 ef 97 6d 15 9d e5 90 e8 60 18 8a f2 7a 02 77 0f 87 ff be c6 4e 36
  43 3b b3 cb 59 21 a9 d1 a4 dc 54 2c bd c5 4d 35 40 38 b0 c8 5a 22 aa d2 a7 df 57 2f 6e 16
  9e e6 93 eb 63 1b 89 f1 79 01 74 0c 84 fc 06 7e f6 8e fb 83 0b 73 e1 99 11 69 1c 64 ec 94
  d5 ad 25 5d 28 50 d8 a0 32 4a c2 ba cf b7 3f 47 00 79 f2 8b f9 80 0b 72 ef 96 1d 64 16 6f
  e4 9d c3 ba 31 48 3a 43 c8 b1 2c 55 de a7 d5 ac 27 5e 9b e2 69 10 62 1b 90 e9 74 0d 86 ff
  8d f4 7f 06 58 21 aa d3 a1 d8 53 2a b7 ce 45 3c 4e 37 bc c5 2b 52 d9 a0 d2 ab 20 59 c4 bd
  36 4f 3d 44 cf b6 e8 91 1a 63 11 68 e3 9a 07 7e f5 8c fe 87 0c 75 b0 c9 42 3b 49 30 bb c2
  5f 26 ad d4 a6 df 54 2d 73 0a 81 f8 8a f3 78 01 9c e5 6e 17 65 1c 97 ee 56 2f a4 dd af d6
  5d 24 b9 c0 4b 32 40 39 b2 cb 95 ec 67 1e 6c 15 9e e7 7a 03 88 f1 83 fa 71 08 cd b4 3f 46
  34 4d c6 bf 22 5b d0 a9 db a2 29 50 0e 77 fc 85 f7 8e 05 7c e1 98 13 6a 18 61 ea 93 7d 04
  8f f6 84 fd 76 0f 92 eb 60 19 6b 12 99 e0 be c7 4c 35 47 3e b5 cc 51 28 a3 da a8 d1 5a 23
  e6 9f 14 6d 1f 66 ed 94 09 70 fb 82 f0 89 02 7b 25 5c d7 ae dc a5 2e 57 ca b3 38 41 33 4a
  c1 b8 00 7a f4 8e f5 8f 01 7b f7 8d 03 79 02 78 f6 8c f3 89 07 7d 06 7c f2 88 04 7e f0 8a
  f1 8b 05 7f fb 81 0f 75 0e 74 fa 80 0c 76 f8 82 f9 83 0d 77 08 72 fc 86 fd 87 09 73 ff 85
  0b 71 0a 70 fe 84 eb 91 1f 65 1e 64 ea 90 1c 66 e8 92 e9 93 1d 67 18 62 ec 96 ed 97 19 63
  ef 95 1b 61 1a 60 ee 94 10 6a e4 9e e5 9f 11 6b e7 9d 13 69 12 68 e6 9c e3 99 17 6d 16 6c
  e2 98 14 6e e0 9a e1 9b 15 6f cb b1 3f 45 3e 44 ca b0 3c 46 c8 b2 c9 b3 3d 47 38 42 cc b6
  cd b7 39 43 cf b5 3b 41 3a 40 ce b4 30 4a c4 be c5 bf 31 4b c7 bd 33 49 32 48 c6 bc c3 b9
  37 4d 36 4c c2 b8 34 4e c0 ba c1 bb 35 4f 20 5a d4 ae d5 af 21 5b d7 ad 23 59 22 58 d6 ac
  d3 a9 27 5d 26 5c d2 a8 24 5e d0 aa d1 ab 25 5f db a1 2f 55 2e 54 da a0 2c 56 d8 a2 d9 a3
  2d 57 28 52 dc a6 dd a7 29 53 df a5 2b 51 2a 50 de a4 00 7b f6 8d f1 8a 07 7c ff 84 09 72"%hex.
Definition gf_mul_table_base_21 : list byte := bytes_of "
  0e 75 f8 83 e3 98 15 6e 12 69 e4 9f 1c 67 ea 91 ed 96 1b 60 db a0 2d 56 2a 51 dc a7 24 5f
  d2 a9 d5 ae 23 58 38 43 ce b5 c9 b2 3f 44 c7 bc 31 4a 36 4d c0 bb ab d0 5d 26 5a 21 ac d7
  54 2f a2 d9 a5 de 53 28 48 33 be c5 b9 c2 4f 34 b7 cc 41 3a 46 3d b0 cb 70 0b 86 fd 81 fa
  77 0c 8f f4 79 02 7e 05 88 f3 93 e8 65 1e 62 19 94 ef 6c 17 9a e1 9d e6 6b 10 4b 30 bd c6
  ba c1 4c 37 b4 cf 42 39 45 3e b3 c8 a8 d3 5e 25 59 22 af d4 57 2c a1 da a6 dd 50 2b 90 eb
  66 1d 61 1a 97 ec 6f 14 99 e2 9e e5 68 13 73 08 85 fe 82 f9 74 0f 8c f7 7a 01 7d 06 8b f0
  e0 9b 16 6d 11 6a e7 9c 1f 64 e9 92 ee 95 18 63 03 78 f5 8e f2 89 04 7f fc 87 0a 71 0d 76
  fb 80 3b 40 cd b6 ca b1 3c 47 c4 bf 32 49 35 4e c3 b8 d8 a3 2e 55 29 52 df a4 27 5c d1 aa
  d6 ad 20 5b 00 7c f8 84 ed 91 15 69 c7 bb 3f 43 2a 56 d2 ae 93 ef 6b 17 7e 02 86 fa 54 28
  ac d0 b9 c5 41 3d 3b 47 c3 bf d6 aa 2e 52 fc 80 04 78 11 6d e9 95 a8 d4 50 2c 45 39 bd c1
  6f 13 97 eb 82 fe 7a 06 76 0a 8e f2 9b e7 63 1f b1 cd 49 35 5c 20 a4 d8 e5 99 1d 61 08 74
  f0 8c 22 5e da a6 cf b3 37 4b 4d 31 b5 c9 a0 dc 58 24 8a f6 72 0e 67 1b 9f e3 de a2 26 5a
  33 4f cb b7 19 65 e1 9d f4 88 0c 70 ec 90 14 68 01 7d f9 85 2b 57 d3 af c6 ba 3e 42 7f 03
  87 fb 92 ee 6a 16 b8 c4 40 3c 55 29 ad d1 d7 ab 2f 53 3a 46 c2 be 10 6c e8 94 fd 81 05 79
  44 38 bc c0 a9 d5 51 2d 83 ff 7b 07 6e 12 96 ea 9a e6 62 1e 77 0b 8f f3 5d 21 a5 d9 b0 cc
  48 34 09 75 f1 8d e4 98 1c 60 ce b2 36 4a 23 5f db a7 a1 dd 59 25 4c 30 b4 c8 66 1a 9e e2
  8b f7 73 0f 32 4e ca b6 df a3 27 5b f5 89 0d 71 18 64 e0 9c 00 7d fa 87 e9 94 13 6e cf b2
  35 48 26 5b dc a1 83 fe 79 04 6a 17 90 ed 4c 31 b6 cb a5 d8 5f 22 1b 66 e1 9c f2 8f 08 75
  d4 a9 2e 53 3d 40 c7 ba 98 e5 62 1f 71 0c 8b f6 57 2a ad d0 be c3 44 39 36 4b cc b1 df a2
  25 58 f9 84 03 7e 10 6d ea 97 b5 c8 4f 32 5c 21 a6 db 7a 07 80 fd 93 ee 69 14 2d 50 d7 aa
  c4 b9 3e 43 e2 9f 18 65 0b 76 f1 8c ae d3 54 29 47 3a bd c0 61 1c 9b e6 88 f5 72 0f 6c 11
  96 eb 85 f8 7f 02 a3 de 59 24 4a 37 b0 cd ef 92 15 68 06 7b fc 81 20 5d da a7 c9 b4 33 4e
  77 0a 8d f0 9e e3 64 19 b8 c5 42 3f 51 2c ab d6 f4 89 0e 73 1d 60 e7 9a 3b 46 c1 bc d2 af
  28 55 5a 27 a0 dd b3 ce 49 34 95 e8 6f 12 7c 01 86 fb d9 a4 23 5e 30 4d ca b7 16 6b ec 91
  ff 82 05 78 41 3c bb c6 a8 d5 52 2f 8e f3 74 09 67 1a 9d e0 c2 bf 38 45 2b 56 d1 ac 0d 70
  f7 8a e4 99 1e 63 00 7e fc 82 e5 9b 19 67 d7 a9 2b 55 32 4c ce b0 b3 cd 4f 31 56 28 aa d4
  64 1a 98 e6 81 ff 7d 03 7b 05 87 f9 9e e0 62 1c ac d2 50 2e 49 37 b5 cb c8 b6 34 4a 2d 53
  d1 af 1f 61 e3 9d fa 84 06 78 f6 88 0a 74 13 6d ef 91 21 5f dd a3 c4 ba 38 46 45 3b b9 c7
  a0 de 5c 22 92 ec 6e 10 77 09 8b f5 8d f3 71 0f 68 16 94 ea 5a 24 a6 d8 bf c1 43 3d 3e 40
  c2 bc db a5 27 59 e9 97 15 6b 0c 72 f0 8e f1 8f 0d 73 14 6a e8 96 26 58 da a4 c3 bd 3f 41
  42 3c be c0 a7 d9 5b 25 95 eb 69 17 70 0e 8c f2 8a f4 76 08 6f 11 93 ed 5d 23 a1 df b8 c6
  44 3a 39 47 c5 bb dc a2 20 5e ee 90 12 6c 0b 75 f7 89 07 79 fb 85 e2 9c 1e 60 d0 ae 2c 52
  35 4b c9 b7 b4 ca 48 36 51 2f ad d3 63 1d 9f e1 86 f8 7a 04 7c 02 80 fe 99 e7 65 1b ab d5
  57 29 4e 30 b2 cc cf b1 33 4d 2a 54 d6 a8 18 66 e4 9a fd 83 01 7f 00 7f fe 81 e1 9e 1f 60
  df a0 21 5e 3e 41 c0 bf a3 dc 5d 22 42 3d bc c3 7c 03 82 fd 9d e2 63 1c 5b 24 a5 da ba c5
  44 3b 84 fb 7a 05 65 1a 9b e4 f8 87 06 79 19 66 e7 98 27 58 d9 a6 c6 b9 38 47 b6 c9 48 37
  57 28 a9 d6 69 16 97 e8 88 f7 76 09 15 6a eb 94 f4 8b 0a 75 ca b5 34 4b 2b 54 d5 aa ed 92
  13 6c 0c 73 f2 8d 32 4d cc b3 d3 ac 2d 52 4e 31 b0 cf af d0 51 2e 91 ee 6f 10 70 0f 8e f1
  71 0e 8f f0 90 ef 6e 11 ae d1 50 2f 4f 30 b1 ce d2 ad 2c 53 33 4c cd b2 0d 72 f3 8c ec 93
  12 6d 2a 55 d4 ab cb b4 35 4a f5 8a 0b 74 14 6b ea 95 89 f6 77 08 68 17 96 e9 56 29 a8 d7
  b7 c8 49 36 c7 b8 39 46 26 59 d8 a7 18 67 e6 99 f9 86 07 78 64 1b 9a e5 85 fa 7b 04 bb c4
  45 3a 5a 25 a4 db 9c e3 62 1d 7d 02 83 fc 43 3c bd c2 a2 dd 5c 23 3f 40 c1 be de a1 20 5f
  e0 9f 1e 61 01 7e ff 80 00 80 1d 9d 3a ba 27 a7 74 f4 69 e9 4e ce 53 d3 e8 68 f5 75 d2 52
  cf 4f 9c 1c 81 01 a6 26 bb 3b cd 4d d0 50 f7 77 ea 6a b9 39 a4 24 83 03 9e 1e 25 a5 38 b8
  1f 9f 02 82 51 d1 4c cc 6b eb 76 f6 87 07 9a 1a bd 3d a0 20 f3 73 ee 6e c9 49 d4 54 6f ef
  72 f2 55 d5 48 c8 1b 9b 06 86 21 a1 3c bc 4a ca 57 d7 70 f0 6d ed 3e be 23 a3 04 84 19 99
  a2 22 bf 3f 98 18 85 05 d6 56 cb 4b ec 6c f1 71 13 93 0e 8e 29 a9 34 b4 67 e7 7a fa 5d dd
  40 c0 fb 7b e6 66 c1 41 dc 5c 8f 0f 92 12 b5 35 a8 28 de 5e c3 43 e4 64 f9 79 aa 2a b7 37
  90 10 8d 0d 36 b6 2b ab 0c 8c 11 91 42 c2 5f df 78 f8 65 e5 94 14 89 09 ae 2e b3 33 e0 60
  fd 7d da 5a c7 47 7c fc 61 e1 46 c6 5b db 08 88 15 95 32 b2 2f af 59 d9 44 c4 63 e3 7e fe"%hex.
Definition gf_mul_table_base_22 : list byte := bytes_of "
  2d ad 30 b0 17 97 0a 8a b1 31 ac 2c 8b 0b 96 16 c5 45 d8 58 ff 7f e2 62 00 81 1f 9e 3e bf
  21 a0 7c fd 63 e2 42 c3 5d dc f8 79 e7 66 c6 47 d9 58 84 05 9b 1a ba 3b a5 24 ed 6c f2 73
  d3 52 cc 4d 91 10 8e 0f af 2e b0 31 15 94 0a 8b 2b aa 34 b5 69 e8 76 f7 57 d6 48 c9 c7 46
  d8 59 f9 78 e6 67 bb 3a a4 25 85 04 9a 1b 3f be 20 a1 01 80 1e 9f 43 c2 5c dd 7d fc 62 e3
  2a ab 35 b4 14 95 0b 8a 56 d7 49 c8 68 e9 77 f6 d2 53 cd 4c ec 6d f3 72 ae 2f b1 30 90 11
  8f 0e 93 12 8c 0d ad 2c b2 33 ef 6e f0 71 d1 50 ce 4f 6b ea 74 f5 55 d4 4a cb 17 96 08 89
  29 a8 36 b7 7e ff 61 e0 40 c1 5f de 02 83 1d 9c 3c bd 23 a2 86 07 99 18 b8 39 a7 26 fa 7b
  e5 64 c4 45 db 5a 54 d5 4b ca 6a eb 75 f4 28 a9 37 b6 16 97 09 88 ac 2d b3 32 92 13 8d 0c
  d0 51 cf 4e ee 6f f1 70 b9 38 a6 27 87 06 98 19 c5 44 da 5b fb 7a e4 65 41 c0 5e df 7f fe
  60 e1 3d bc 22 a3 03 82 1c 9d 00 82 19 9b 32 b0 2b a9 64 e6 7d ff 56 d4 4f cd c8 4a d1 53
  fa 78 e3 61 ac 2e b5 37 9e 1c 87 05 8d 0f 94 16 bf 3d a6 24 e9 6b f0 72 db 59 c2 40 45 c7
  5c de 77 f5 6e ec 21 a3 38 ba 13 91 0a 88 07 85 1e 9c 35 b7 2c ae 63 e1 7a f8 51 d3 48 ca
  cf 4d d6 54 fd 7f e4 66 ab 29 b2 30 99 1b 80 02 8a 08 93 11 b8 3a a1 23 ee 6c f7 75 dc 5e
  c5 47 42 c0 5b d9 70 f2 69 eb 26 a4 3f bd 14 96 0d 8f 0e 8c 17 95 3c be 25 a7 6a e8 73 f1
  58 da 41 c3 c6 44 df 5d f4 76 ed 6f a2 20 bb 39 90 12 89 0b 83 01 9a 18 b1 33 a8 2a e7 65
  fe 7c d5 57 cc 4e 4b c9 52 d0 79 fb 60 e2 2f ad 36 b4 1d 9f 04 86 09 8b 10 92 3b b9 22 a0
  6d ef 74 f6 5f dd 46 c4 c1 43 d8 5a f3 71 ea 68 a5 27 bc 3e 97 15 8e 0c 84 06 9d 1f b6 34
  af 2d e0 62 f9 7b d2 50 cb 49 4c ce 55 d7 7e fc 67 e5 28 aa 31 b3 1a 98 03 81 00 83 1b 98
  36 b5 2d ae 6c ef 77 f4 5a d9 41 c2 d8 5b c3 40 ee 6d f5 76 b4 37 af 2c 82 01 99 1a ad 2e
  b6 35 9b 18 80 03 c1 42 da 59 f7 74 ec 6f 75 f6 6e ed 43 c0 58 db 19 9a 02 81 2f ac 34 b7
  47 c4 5c df 71 f2 6a e9 2b a8 30 b3 1d 9e 06 85 9f 1c 84 07 a9 2a b2 31 f3 70 e8 6b c5 46
  de 5d ea 69 f1 72 dc 5f c7 44 86 05 9d 1e b0 33 ab 28 32 b1 29 aa 04 87 1f 9c 5e dd 45 c6
  68 eb 73 f0 8e 0d 95 16 b8 3b a3 20 e2 61 f9 7a d4 57 cf 4c 56 d5 4d ce 60 e3 7b f8 3a b9
  21 a2 0c 8f 17 94 23 a0 38 bb 15 96 0e 8d 4f cc 54 d7 79 fa 62 e1 fb 78 e0 63 cd 4e d6 55
  97 14 8c 0f a1 22 ba 39 c9 4a d2 51 ff 7c e4 67 a5 26 be 3d 93 10 88 0b 11 92 0a 89 27 a4
  3c bf 7d fe 66 e5 4b c8 50 d3 64 e7 7f fc 52 d1 49 ca 08 8b 13 90 3e bd 25 a6 bc 3f a7 24
  8a 09 91 12 d0 53 cb 48 e6 65 fd 7e 00 84 15 91 2a ae 3f bb 54 d0 41 c5 7e fa 6b ef a8 2c
  bd 39 82 06 97 13 fc 78 e9 6d d6 52 c3 47 4d c9 58 dc 67 e3 72 f6 19 9d 0c 88 33 b7 26 a2
  e5 61 f0 74 cf 4b da 5e b1 35 a4 20 9b 1f 8e 0a 9a 1e 8f 0b b0 34 a5 21 ce 4a db 5f e4 60
  f1 75 32 b6 27 a3 18 9c 0d 89 66 e2 73 f7 4c c8 59 dd d7 53 c2 46 fd 79 e8 6c 83 07 96 12
  a9 2d bc 38 7f fb 6a ee 55 d1 40 c4 2b af 3e ba 01 85 14 90 29 ad 3c b8 03 87 16 92 7d f9
  68 ec 57 d3 42 c6 81 05 94 10 ab 2f be 3a d5 51 c0 44 ff 7b ea 6e 64 e0 71 f5 4e ca 5b df
  30 b4 25 a1 1a 9e 0f 8b cc 48 d9 5d e6 62 f3 77 98 1c 8d 09 b2 36 a7 23 b3 37 a6 22 99 1d
  8c 08 e7 63 f2 76 cd 49 d8 5c 1b 9f 0e 8a 31 b5 24 a0 4f cb 5a de 65 e1 70 f4 fe 7a eb 6f
  d4 50 c1 45 aa 2e bf 3b 80 04 95 11 56 d2 43 c7 7c f8 69 ed 02 86 17 93 28 ac 3d b9 00 85
  17 92 2e ab 39 bc 5c d9 4b ce 72 f7 65 e0 b8 3d af 2a 96 13 81 04 e4 61 f3 76 ca 4f dd 58
  6d e8 7a ff 43 c6 54 d1 31 b4 26 a3 1f 9a 08 8d d5 50 c2 47 fb 7e ec 69 89 0c 9e 1b a7 22
  b0 35 da 5f cd 48 f4 71 e3 66 86 03 91 14 a8 2d bf 3a 62 e7 75 f0 4c c9 5b de 3e bb 29 ac
  10 95 07 82 b7 32 a0 25 99 1c 8e 0b eb 6e fc 79 c5 40 d2 57 0f 8a 18 9d 21 a4 36 b3 53 d6
  44 c1 7d f8 6a ef a9 2c be 3b 87 02 90 15 f5 70 e2 67 db 5e cc 49 11 94 06 83 3f ba 28 ad
  4d c8 5a df 63 e6 74 f1 c4 41 d3 56 ea 6f fd 78 98 1d 8f 0a b6 33 a1 24 7c f9 6b ee 52 d7
  45 c0 20 a5 37 b2 0e 8b 19 9c 73 f6 64 e1 5d d8 4a cf 2f aa 38 bd 01 84 16 93 cb 4e dc 59
  e5 60 f2 77 97 12 80 05 b9 3c ae 2b 1e 9b 09 8c 30 b5 27 a2 42 c7 55 d0 6c e9 7b fe a6 23
  b1 34 88 0d 9f 1a fa 7f ed 68 d4 51 c3 46 00 86 11 97 22 a4 33 b5 44 c2 55 d3 66 e0 77 f1
  88 0e 99 1f aa 2c bb 3d cc 4a dd 5b ee 68 ff 79 0d 8b 1c 9a 2f a9 3e b8 49 cf 58 de 6b ed
  7a fc 85 03 94 12 a7 21 b6 30 c1 47 d0 56 e3 65 f2 74 1a 9c 0b 8d 38 be 29 af 5e d8 4f c9
  7c fa 6d eb 92 14 83 05 b0 36 a1 27 d6 50 c7 41 f4 72 e5 63 17 91 06 80 35 b3 24 a2 53 d5
  42 c4 71 f7 60 e6 9f 19 8e 08 bd 3b ac 2a db 5d ca 4c f9 7f e8 6e 34 b2 25 a3 16 90 07 81
  70 f6 61 e7 52 d4 43 c5 bc 3a ad 2b 9e 18 8f 09 f8 7e e9 6f da 5c cb 4d 39 bf 28 ae 1b 9d
  0a 8c 7d fb 6c ea 5f d9 4e c8 b1 37 a0 26 93 15 82 04 f5 73 e4 62 d7 51 c6 40 2e a8 3f b9"%hex.
Definition gf_mul_table_base_23 : list byte := bytes_of "
  0c 8a 1d 9b 6a ec 7b fd 48 ce 59 df a6 20 b7 31 84 02 95 13 e2 64 f3 75 c0 46 d1 57 23 a5
  32 b4 01 87 10 96 67 e1 76 f0 45 c3 54 d2 ab 2d ba 3c 89 0f 98 1e ef 69 fe 78 cd 4b dc 5a
  00 87 13 94 26 a1 35 b2 4c cb 5f d8 6a ed 79 fe 98 1f 8b 0c be 39 ad 2a d4 53 c7 40 f2 75
  e1 66 2d aa 3e b9 0b 8c 18 9f 61 e6 72 f5 47 c0 54 d3 b5 32 a6 21 93 14 80 07 f9 7e ea 6d
  df 58 cc 4b 5a dd 49 ce 7c fb 6f e8 16 91 05 82 30 b7 23 a4 c2 45 d1 56 e4 63 f7 70 8e 09
  9d 1a a8 2f bb 3c 77 f0 64 e3 51 d6 42 c5 3b bc 28 af 1d 9a 0e 89 ef 68 fc 7b c9 4e da 5d
  a3 24 b0 37 85 02 96 11 b4 33 a7 20 92 15 81 06 f8 7f eb 6c de 59 cd 4a 2c ab 3f b8 0a 8d
  19 9e 60 e7 73 f4 46 c1 55 d2 99 1e 8a 0d bf 38 ac 2b d5 52 c6 41 f3 74 e0 67 01 86 12 95
  27 a0 34 b3 4d ca 5e d9 6b ec 78 ff ee 69 fd 7a c8 4f db 5c a2 25 b1 36 84 03 97 10 76 f1
  65 e2 50 d7 43 c4 3a bd 29 ae 1c 9b 0f 88 c3 44 d0 57 e5 62 f6 71 8f 08 9c 1b a9 2e ba 3d
  5b dc 48 cf 7d fa 6e e9 17 90 04 83 31 b6 22 a5 00 88 0d 85 1a 92 17 9f 34 bc 39 b1 2e a6
  23 ab 68 e0 65 ed 72 fa 7f f7 5c d4 51 d9 46 ce 4b c3 d0 58 dd 55 ca 42 c7 4f e4 6c e9 61
  fe 76 f3 7b b8 30 b5 3d a2 2a af 27 8c 04 81 09 96 1e 9b 13 bd 35 b0 38 a7 2f aa 22 89 01
  84 0c 93 1b 9e 16 d5 5d d8 50 cf 47 c2 4a e1 69 ec 64 fb 73 f6 7e 6d e5 60 e8 77 ff 7a f2
  59 d1 54 dc 43 cb 4e c6 05 8d 08 80 1f 97 12 9a 31 b9 3c b4 2b a3 26 ae 67 ef 6a e2 7d f5
  70 f8 53 db 5e d6 49 c1 44 cc 0f 87 02 8a 15 9d 18 90 3b b3 36 be 21 a9 2c a4 b7 3f ba 32
  ad 25 a0 28 83 0b 8e 06 99 11 94 1c df 57 d2 5a c5 4d c8 40 eb 63 e6 6e f1 79 fc 74 da 52
  d7 5f c0 48 cd 45 ee 66 e3 6b f4 7c f9 71 b2 3a bf 37 a8 20 a5 2d 86 0e 8b 03 9c 14 91 19
  0a 82 07 8f 10 98 1d 95 3e b6 33 bb 24 ac 29 a1 62 ea 6f e7 78 f0 75 fd 56 de 5b d3 4c c4
  41 c9 00 89 0f 86 1e 97 11 98 3c b5 33 ba 22 ab 2d a4 78 f1 77 fe 66 ef 69 e0 44 cd 4b c2
  5a d3 55 dc f0 79 ff 76 ee 67 e1 68 cc 45 c3 4a d2 5b dd 54 88 01 87 0e 96 1f 99 10 b4 3d
  bb 32 aa 23 a5 2c fd 74 f2 7b e3 6a ec 65 c1 48 ce 47 df 56 d0 59 85 0c 8a 03 9b 12 94 1d
  b9 30 b6 3f a7 2e a8 21 0d 84 02 8b 13 9a 1c 95 31 b8 3e b7 2f a6 20 a9 75 fc 7a f3 6b e2
  64 ed 49 c0 46 cf 57 de 58 d1 e7 6e e8 61 f9 70 f6 7f db 52 d4 5d c5 4c ca 43 9f 16 90 19
  81 08 8e 07 a3 2a ac 25 bd 34 b2 3b 17 9e 18 91 09 80 06 8f 2b a2 24 ad 35 bc 3a b3 6f e6
  60 e9 71 f8 7e f7 53 da 5c d5 4d c4 42 cb 1a 93 15 9c 04 8d 0b 82 26 af 29 a0 38 b1 37 be
  62 eb 6d e4 7c f5 73 fa 5e d7 51 d8 40 c9 4f c6 ea 63 e5 6c f4 7d fb 72 d6 5f d9 50 c8 41
  c7 4e 92 1b 9d 14 8c 05 83 0a ae 27 a1 28 b0 39 bf 36 00 8a 09 83 12 98 1b 91 24 ae 2d a7
  36 bc 3f b5 48 c2 41 cb 5a d0 53 d9 6c e6 65 ef 7e f4 77 fd 90 1a 99 13 82 08 8b 01 b4 3e
  bd 37 a6 2c af 25 d8 52 d1 5b ca 40 c3 49 fc 76 f5 7f ee 64 e7 6d 3d b7 34 be 2f a5 26 ac
  19 93 10 9a 0b 81 02 88 75 ff 7c f6 67 ed 6e e4 51 db 58 d2 43 c9 4a c0 ad 27 a4 2e bf 35
  b6 3c 89 03 80 0a 9b 11 92 18 e5 6f ec 66 f7 7d fe 74 c1 4b c8 42 d3 59 da 50 7a f0 73 f9
  68 e2 61 eb 5e d4 57 dd 4c c6 45 cf 32 b8 3b b1 20 aa 29 a3 16 9c 1f 95 04 8e 0d 87 ea 60
  e3 69 f8 72 f1 7b ce 44 c7 4d dc 56 d5 5f a2 28 ab 21 b0 3a b9 33 86 0c 8f 05 94 1e 9d 17
  47 cd 4e c4 55 df 5c d6 63 e9 6a e0 71 fb 78 f2 0f 85 06 8c 1d 97 14 9e 2b a1 22 a8 39 b3
  30 ba d7 5d de 54 c5 4f cc 46 f3 79 fa 70 e1 6b e8 62 9f 15 96 1c 8d 07 84 0e bb 31 b2 38
  a9 23 a0 2a 00 8b 0b 80 16 9d 1d 96 2c a7 27 ac 3a b1 31 ba 58 d3 53 d8 4e c5 45 ce 74 ff
  7f f4 62 e9 69 e2 b0 3b bb 30 a6 2d ad 26 9c 17 97 1c 8a 01 81 0a e8 63 e3 68 fe 75 f5 7e
  c4 4f cf 44 d2 59 d9 52 7d f6 76 fd 6b e0 60 eb 51 da 5a d1 47 cc 4c c7 25 ae 2e a5 33 b8
  38 b3 09 82 02 89 1f 94 14 9f cd 46 c6 4d db 50 d0 5b e1 6a ea 61 f7 7c fc 77 95 1e 9e 15
  83 08 88 03 b9 32 b2 39 af 24 a4 2f fa 71 f1 7a ec 67 e7 6c d6 5d dd 56 c0 4b cb 40 a2 29
  a9 22 b4 3f bf 34 8e 05 85 0e 98 13 93 18 4a c1 41 ca 5c d7 57 dc 66 ed 6d e6 70 fb 7b f0
  12 99 19 92 04 8f 0f 84 3e b5 35 be 28 a3 23 a8 87 0c 8c 07 91 1a 9a 11 ab 20 a0 2b bd 36
  b6 3d df 54 d4 5f c9 42 c2 49 f3 78 f8 73 e5 6e ee 65 37 bc 3c b7 21 aa 2a a1 1b 90 10 9b
  0d 86 06 8d 6f e4 64 ef 79 f2 72 f9 43 c8 48 c3 55 de 5e d5 00 8c 05 89 0a 86 0f 83 14 98
  11 9d 1e 92 1b 97 28 a4 2d a1 22 ae 27 ab 3c b0 39 b5 36 ba 33 bf 50 dc 55 d9 5a d6 5f d3
  44 c8 41 cd 4e c2 4b c7 78 f4 7d f1 72 fe 77 fb 6c e0 69 e5 66 ea 63 ef a0 2c a5 29 aa 26
  af 23 b4 38 b1 3d be 32 bb 37 88 04 8d 01 82 0e 87 0b 9c 10 99 15 96 1a 93 1f f0 7c f5 79
  fa 76 ff 73 e4 68 e1 6d ee 62 eb 67 d8 54 dd 51 d2 5e d7 5b cc 40 c9 45 c6 4a c3 4f 5d d1
  58 d4 57 db 52 de 49 c5 4c c0 43 cf 46 ca 75 f9 70 fc 7f f3 7a f6 61 ed 64 e8 6b e7 6e e2"%hex.
Definition gf_mul_table_base_24 : list byte := bytes_of "
  0d 81 08 84 07 8b 02 8e 19 95 1c 90 13 9f 16 9a 25 a9 20 ac 2f a3 2a a6 31 bd 34 b8 3b b7
  3e b2 fd 71 f8 74 f7 7b f2 7e e9 65 ec 60 e3 6f e6 6a d5 59 d0 5c df 53 da 56 c1 4d c4 48
  cb 47 ce 42 ad 21 a8 24 a7 2b a2 2e b9 35 bc 30 b3 3f b6 3a 85 09 80 0c 8f 03 8a 06 91 1d
  94 18 9b 17 9e 12 00 8d 07 8a 0e 83 09 84 1c 91 1b 96 12 9f 15 98 38 b5 3f b2 36 bb 31 bc
  24 a9 23 ae 2a a7 2d a0 70 fd 77 fa 7e f3 79 f4 6c e1 6b e6 62 ef 65 e8 48 c5 4f c2 46 cb
  41 cc 54 d9 53 de 5a d7 5d d0 e0 6d e7 6a ee 63 e9 64 fc 71 fb 76 f2 7f f5 78 d8 55 df 52
  d6 5b d1 5c c4 49 c3 4e ca 47 cd 40 90 1d 97 1a 9e 13 99 14 8c 01 8b 06 82 0f 85 08 a8 25
  af 22 a6 2b a1 2c b4 39 b3 3e ba 37 bd 30 dd 50 da 57 d3 5e d4 59 c1 4c c6 4b cf 42 c8 45
  e5 68 e2 6f eb 66 ec 61 f9 74 fe 73 f7 7a f0 7d ad 20 aa 27 a3 2e a4 29 b1 3c b6 3b bf 32
  b8 35 95 18 92 1f 9b 16 9c 11 89 04 8e 03 87 0a 80 0d 3d b0 3a b7 33 be 34 b9 21 ac 26 ab
  2f a2 28 a5 05 88 02 8f 0b 86 0c 81 19 94 1e 93 17 9a 10 9d 4d c0 4a c7 43 ce 44 c9 51 dc
  56 db 5f d2 58 d5 75 f8 72 ff 7b f6 7c f1 69 e4 6e e3 67 ea 60 ed 00 8e 01 8f 02 8c 03 8d
  04 8a 05 8b 06 88 07 89 08 86 09 87 0a 84 0b 85 0c 82 0d 83 0e 80 0f 81 10 9e 11 9f 12 9c
  13 9d 14 9a 15 9b 16 98 17 99 18 96 19 97 1a 94 1b 95 1c 92 1d 93 1e 90 1f 91 20 ae 21 af
  22 ac 23 ad 24 aa 25 ab 26 a8 27 a9 28 a6 29 a7 2a a4 2b a5 2c a2 2d a3 2e a0 2f a1 30 be
  31 bf 32 bc 33 bd 34 ba 35 bb 36 b8 37 b9 38 b6 39 b7 3a b4 3b b5 3c b2 3d b3 3e b0 3f b1
  40 ce 41 cf 42 cc 43 cd 44 ca 45 cb 46 c8 47 c9 48 c6 49 c7 4a c4 4b c5 4c c2 4d c3 4e c0
  4f c1 50 de 51 df 52 dc 53 dd 54 da 55 db 56 d8 57 d9 58 d6 59 d7 5a d4 5b d5 5c d2 5d d3
  5e d0 5f d1 60 ee 61 ef 62 ec 63 ed 64 ea 65 eb 66 e8 67 e9 68 e6 69 e7 6a e4 6b e5 6c e2
  6d e3 6e e0 6f e1 70 fe 71 ff 72 fc 73 fd 74 fa 75 fb 76 f8 77 f9 78 f6 79 f7 7a f4 7b f5
  7c f2 7d f3 7e f0 7f f1 00 8f 03 8c 06 89 05 8a 0c 83 0f 80 0a 85 09 86 18 97 1b 94 1e 91
  1d 92 14 9b 17 98 12 9d 11 9e 30 bf 33 bc 36 b9 35 ba 3c b3 3f b0 3a b5 39 b6 28 a7 2b a4
  2e a1 2d a2 24 ab 27 a8 22 ad 21 ae 60 ef 63 ec 66 e9 65 ea 6c e3 6f e0 6a e5 69 e6 78 f7
  7b f4 7e f1 7d f2 74 fb 77 f8 72 fd 71 fe 50 df 53 dc 56 d9 55 da 5c d3 5f d0 5a d5 59 d6
  48 c7 4b c4 4e c1 4d c2 44 cb 47 c8 42 cd 41 ce c0 4f c3 4c c6 49 c5 4a cc 43 cf 40 ca 45
  c9 46 d8 57 db 54 de 51 dd 52 d4 5b d7 58 d2 5d d1 5e f0 7f f3 7c f6 79 f5 7a fc 73 ff 70
  fa 75 f9 76 e8 67 eb 64 ee 61 ed 62 e4 6b e7 68 e2 6d e1 6e a0 2f a3 2c a6 29 a5 2a ac 23
  af 20 aa 25 a9 26 b8 37 bb 34 be 31 bd 32 b4 3b b7 38 b2 3d b1 3e 90 1f 93 1c 96 19 95 1a
  9c 13 9f 10 9a 15 99 16 88 07 8b 04 8e 01 8d 02 84 0b 87 08 82 0d 81 0e 00 90 3d ad 7a ea
  47 d7 f4 64 c9 59 8e 1e b3 23 f5 65 c8 58 8f 1f b2 22 01 91 3c ac 7b eb 46 d6 f7 67 ca 5a
  8d 1d b0 20 03 93 3e ae 79 e9 44 d4 02 92 3f af 78 e8 45 d5 f6 66 cb 5b 8c 1c b1 21 f3 63
  ce 5e 89 19 b4 24 07 97 3a aa 7d ed 40 d0 06 96 3b ab 7c ec 41 d1 f2 62 cf 5f 88 18 b5 25
  04 94 39 a9 7e ee 43 d3 f0 60 cd 5d 8a 1a b7 27 f1 61 cc 5c 8b 1b b6 26 05 95 38 a8 7f ef
  42 d2 fb 6b c6 56 81 11 bc 2c 0f 9f 32 a2 75 e5 48 d8 0e 9e 33 a3 74 e4 49 d9 fa 6a c7 57
  80 10 bd 2d 0c 9c 31 a1 76 e6 4b db f8 68 c5 55 82 12 bf 2f f9 69 c4 54 83 13 be 2e 0d 9d
  30 a0 77 e7 4a da 08 98 35 a5 72 e2 4f df fc 6c c1 51 86 16 bb 2b fd 6d c0 50 87 17 ba 2a
  09 99 34 a4 73 e3 4e de ff 6f c2 52 85 15 b8 28 0b 9b 36 a6 71 e1 4c dc 0a 9a 37 a7 70 e0
  4d dd fe 6e c3 53 84 14 b9 29 00 91 3f ae 7e ef 41 d0 fc 6d c3 52 82 13 bd 2c e5 74 da 4b
  9b 0a a4 35 19 88 26 b7 67 f6 58 c9 d7 46 e8 79 a9 38 96 07 2b ba 14 85 55 c4 6a fb 32 a3
  0d 9c 4c dd 73 e2 ce 5f f1 60 b0 21 8f 1e b3 22 8c 1d cd 5c f2 63 4f de 70 e1 31 a0 0e 9f
  56 c7 69 f8 28 b9 17 86 aa 3b 95 04 d4 45 eb 7a 64 f5 5b ca 1a 8b 25 b4 98 09 a7 36 e6 77
  d9 48 81 10 be 2f ff 6e c0 51 7d ec 42 d3 03 92 3c ad 7b ea 44 d5 05 94 3a ab 87 16 b8 29
  f9 68 c6 57 9e 0f a1 30 e0 71 df 4e 62 f3 5d cc 1c 8d 23 b2 ac 3d 93 02 d2 43 ed 7c 50 c1
  6f fe 2e bf 11 80 49 d8 76 e7 37 a6 08 99 b5 24 8a 1b cb 5a f4 65 c8 59 f7 66 b6 27 89 18
  34 a5 0b 9a 4a db 75 e4 2d bc 12 83 53 c2 6c fd d1 40 ee 7f af 3e 90 01 1f 8e 20 b1 61 f0
  5e cf e3 72 dc 4d 9d 0c a2 33 fa 6b c5 54 84 15 bb 2a 06 97 39 a8 78 e9 47 d6 00 92 39 ab
  72 e0 4b d9 e4 76 dd 4f 96 04 af 3d d5 47 ec 7e a7 35 9e 0c 31 a3 08 9a 43 d1 7a e8 b7 25
  8e 1c c5 57 fc 6e 53 c1 6a f8 21 b3 18 8a 62 f0 5b c9 10 82 29 bb 86 14 bf 2d f4 66 cd 5f
  73 e1 4a d8 01 93 38 aa 97 05 ae 3c e5 77 dc 4e a6 34 9f 0d d4 46 ed 7f 42 d0 7b e9 30 a2
  09 9b c4 56 fd 6f b6 24 8f 1d 20 b2 19 8b 52 c0 6b f9 11 83 28 ba 63 f1 5a c8 f5 67 cc 5e"%hex.
Definition gf_mul_table_base_25 : list byte := bytes_of "
  87 15 be 2c e6 74 df 4d 94 06 ad 3f 02 90 3b a9 70 e2 49 db 33 a1 0a 98 41 d3 78 ea d7 45
  ee 7c a5 37 9c 0e 51 c3 68 fa 23 b1 1a 88 b5 27 8c 1e c7 55 fe 6c 84 16 bd 2f f6 64 cf 5d
  60 f2 59 cb 12 80 2b b9 95 07 ac 3e e7 75 de 4c 71 e3 48 da 03 91 3a a8 40 d2 79 eb 32 a0
  0b 99 a4 36 9d 0f d6 44 ef 7d 22 b0 1b 89 50 c2 69 fb c6 54 ff 6d b4 26 8d 1f f7 65 ce 5c
  85 17 bc 2e 13 81 2a b8 61 f3 58 ca 00 93 3b a8 76 e5 4d de ec 7f d7 44 9a 09 a1 32 c5 56
  fe 6d b3 20 88 1b 29 ba 12 81 5f cc 64 f7 97 04 ac 3f e1 72 da 49 7b e8 40 d3 0d 9e 36 a5
  52 c1 69 fa 24 b7 1f 8c be 2d 85 16 c8 5b f3 60 33 a0 08 9b 45 d6 7e ed df 4c e4 77 a9 3a
  92 01 f6 65 cd 5e 80 13 bb 28 1a 89 21 b2 6c ff 57 c4 a4 37 9f 0c d2 41 e9 7a 48 db 73 e0
  3e ad 05 96 61 f2 5a c9 17 84 2c bf 8d 1e b6 25 fb 68 c0 53 66 f5 5d ce 10 83 2b b8 8a 19
  b1 22 fc 6f c7 54 a3 30 98 0b d5 46 ee 7d 4f dc 74 e7 39 aa 02 91 f1 62 ca 59 87 14 bc 2f
  1d 8e 26 b5 6b f8 50 c3 34 a7 0f 9c 42 d1 79 ea d8 4b e3 70 ae 3d 95 06 55 c6 6e fd 23 b0
  18 8b b9 2a 82 11 cf 5c f4 67 90 03 ab 38 e6 75 dd 4e 7c ef 47 d4 0a 99 31 a2 c2 51 f9 6a
  b4 27 8f 1c 2e bd 15 86 58 cb 63 f0 07 94 3c af 71 e2 4a d9 eb 78 d0 43 9d 0e a6 35 00 94
  35 a1 6a fe 5f cb d4 40 e1 75 be 2a 8b 1f b5 21 80 14 df 4b ea 7e 61 f5 54 c0 0b 9f 3e aa
  77 e3 42 d6 1d 89 28 bc a3 37 96 02 c9 5d fc 68 c2 56 f7 63 a8 3c 9d 09 16 82 23 b7 7c e8
  49 dd ee 7a db 4f 84 10 b1 25 3a ae 0f 9b 50 c4 65 f1 5b cf 6e fa 31 a5 04 90 8f 1b ba 2e
  e5 71 d0 44 99 0d ac 38 f3 67 c6 52 4d d9 78 ec 27 b3 12 86 2c b8 19 8d 46 d2 73 e7 f8 6c
  cd 59 92 06 a7 33 c1 55 f4 60 ab 3f 9e 0a 15 81 20 b4 7f eb 4a de 74 e0 41 d5 1e 8a 2b bf
  a0 34 95 01 ca 5e ff 6b b6 22 83 17 dc 48 e9 7d 62 f6 57 c3 08 9c 3d a9 03 97 36 a2 69 fd
  5c c8 d7 43 e2 76 bd 29 88 1c 2f bb 1a 8e 45 d1 70 e4 fb 6f ce 5a 91 05 a4 30 9a 0e af 3b
  f0 64 c5 51 4e da 7b ef 24 b0 11 85 58 cc 6d f9 32 a6 07 93 8c 18 b9 2d e6 72 d3 47 ed 79
  d8 4c 87 13 b2 26 39 ad 0c 98 53 c7 66 f2 00 95 37 a2 6e fb 59 cc dc 49 eb 7e b2 27 85 10
  a5 30 92 07 cb 5e fc 69 79 ec 4e db 17 82 20 b5 57 c2 60 f5 39 ac 0e 9b 8b 1e bc 29 e5 70
  d2 47 f2 67 c5 50 9c 09 ab 3e 2e bb 19 8c 40 d5 77 e2 ae 3b 99 0c c0 55 f7 62 72 e7 45 d0
  1c 89 2b be 0b 9e 3c a9 65 f0 52 c7 d7 42 e0 75 b9 2c 8e 1b f9 6c ce 5b 97 02 a0 35 25 b0
  12 87 4b de 7c e9 5c c9 6b fe 32 a7 05 90 80 15 b7 22 ee 7b d9 4c 41 d4 76 e3 2f ba 18 8d
  9d 08 aa 3f f3 66 c4 51 e4 71 d3 46 8a 1f bd 28 38 ad 0f 9a 56 c3 61 f4 16 83 21 b4 78 ed
  4f da ca 5f fd 68 a4 31 93 06 b3 26 84 11 dd 48 ea 7f 6f fa 58 cd 01 94 36 a3 ef 7a d8 4d
  81 14 b6 23 33 a6 04 91 5d c8 6a ff 4a df 7d e8 24 b1 13 86 96 03 a1 34 f8 6d cf 5a b8 2d
  8f 1a d6 43 e1 74 64 f1 53 c6 0a 9f 3d a8 1d 88 2a bf 73 e6 44 d1 c1 54 f6 63 af 3a 98 0d
  00 96 31 a7 62 f4 53 c5 c4 52 f5 63 a6 30 97 01 95 03 a4 32 f7 61 c6 50 51 c7 60 f6 33 a5
  02 94 37 a1 06 90 55 c3 64 f2 f3 65 c2 54 91 07 a0 36 a2 34 93 05 c0 56 f1 67 66 f0 57 c1
  04 92 35 a3 6e f8 5f c9 0c 9a 3d ab aa 3c 9b 0d c8 5e f9 6f fb 6d ca 5c 99 0f a8 3e 3f a9
  0e 98 5d cb 6c fa 59 cf 68 fe 3b ad 0a 9c 9d 0b ac 3a ff 69 ce 58 cc 5a fd 6b ae 38 9f 09
  08 9e 39 af 6a fc 5b cd dc 4a ed 7b be 28 8f 19 18 8e 29 bf 7a ec 4b dd 49 df 78 ee 2b bd
  1a 8c 8d 1b bc 2a ef 79 de 48 eb 7d da 4c 89 1f b8 2e 2f b9 1e 88 4d db 7c ea 7e e8 4f d9
  1c 8a 2d bb ba 2c 8b 1d d8 4e e9 7f b2 24 83 15 d0 46 e1 77 76 e0 47 d1 14 82 25 b3 27 b1
  16 80 45 d3 74 e2 e3 75 d2 44 81 17 b0 26 85 13 b4 22 e7 71 d6 40 41 d7 70 e6 23 b5 12 84
  10 86 21 b7 72 e4 43 d5 d4 42 e5 73 b6 20 87 11 00 97 33 a4 66 f1 55 c2 cc 5b ff 68 aa 3d
  99 0e 85 12 b6 21 e3 74 d0 47 49 de 7a ed 2f b8 1c 8b 17 80 24 b3 71 e6 42 d5 db 4c e8 7f
  bd 2a 8e 19 92 05 a1 36 f4 63 c7 50 5e c9 6d fa 38 af 0b 9c 2e b9 1d 8a 48 df 7b ec e2 75
  d1 46 84 13 b7 20 ab 3c 98 0f cd 5a fe 69 67 f0 54 c3 01 96 32 a5 39 ae 0a 9d 5f c8 6c fb
  f5 62 c6 51 93 04 a0 37 bc 2b 8f 18 da 4d e9 7e 70 e7 43 d4 16 81 25 b2 5c cb 6f f8 3a ad
  09 9e 90 07 a3 34 f6 61 c5 52 d9 4e ea 7d bf 28 8c 1b 15 82 26 b1 73 e4 40 d7 4b dc 78 ef
  2d ba 1e 89 87 10 b4 23 e1 76 d2 45 ce 59 fd 6a a8 3f 9b 0c 02 95 31 a6 64 f3 57 c0 72 e5
  41 d6 14 83 27 b0 be 29 8d 1a d8 4f eb 7c f7 60 c4 53 91 06 a2 35 3b ac 08 9f 5d ca 6e f9
  65 f2 56 c1 03 94 30 a7 a9 3e 9a 0d cf 58 fc 6b e0 77 d3 44 86 11 b5 22 2c bb 1f 88 4a dd
  79 ee 00 98 2d b5 5a c2 77 ef b4 2c 99 01 ee 76 c3 5b 75 ed 58 c0 2f b7 02 9a c1 59 ec 74
  9b 03 b6 2e ea 72 c7 5f b0 28 9d 05 5e c6 73 eb 04 9c 29 b1 9f 07 b2 2a c5 5d e8 70 2b b3
  06 9e 71 e9 5c c4 c9 51 e4 7c 93 0b be 26 7d e5 50 c8 27 bf 0a 92 bc 24 91 09 e6 7e cb 53"%hex.
Definition gf_mul_table_base_26 : list byte := bytes_of "
  08 90 25 bd 52 ca 7f e7 23 bb 0e 96 79 e1 54 cc 97 0f ba 22 cd 55 e0 78 56 ce 7b e3 0c 94
  21 b9 e2 7a cf 57 b8 20 95 0d 8f 17 a2 3a d5 4d f8 60 3b a3 16 8e 61 f9 4c d4 fa 62 d7 4f
  a0 38 8d 15 4e d6 63 fb 14 8c 39 a1 65 fd 48 d0 3f a7 12 8a d1 49 fc 64 8b 13 a6 3e 10 88
  3d a5 4a d2 67 ff a4 3c 89 11 fe 66 d3 4b 46 de 6b f3 1c 84 31 a9 f2 6a df 47 a8 30 85 1d
  33 ab 1e 86 69 f1 44 dc 87 1f aa 32 dd 45 f0 68 ac 34 81 19 f6 6e db 43 18 80 35 ad 42 da
  6f f7 d9 41 f4 6c 83 1b ae 36 6d f5 40 d8 37 af 1a 82 00 99 2f b6 5e c7 71 e8 bc 25 93 0a
  e2 7b cd 54 65 fc 4a d3 3b a2 14 8d d9 40 f6 6f 87 1e a8 31 ca 53 e5 7c 94 0d bb 22 76 ef
  59 c0 28 b1 07 9e af 36 80 19 f1 68 de 47 13 8a 3c a5 4d d4 62 fb 89 10 a6 3f d7 4e f8 61
  35 ac 1a 83 6b f2 44 dd ec 75 c3 5a b2 2b 9d 04 50 c9 7f e6 0e 97 21 b8 43 da 6c f5 1d 84
  32 ab ff 66 d0 49 a1 38 8e 17 26 bf 09 90 78 e1 57 ce 9a 03 b5 2c c4 5d eb 72 0f 96 20 b9
  51 c8 7e e7 b3 2a 9c 05 ed 74 c2 5b 6a f3 45 dc 34 ad 1b 82 d6 4f f9 60 88 11 a7 3e c5 5c
  ea 73 9b 02 b4 2d 79 e0 56 cf 27 be 08 91 a0 39 8f 16 fe 67 d1 48 1c 85 33 aa 42 db 6d f4
  86 1f a9 30 d8 41 f7 6e 3a a3 15 8c 64 fd 4b d2 e3 7a cc 55 bd 24 92 0b 5f c6 70 e9 01 98
  2e b7 4c d5 63 fa 12 8b 3d a4 f0 69 df 46 ae 37 81 18 29 b0 06 9f 77 ee 58 c1 95 0c ba 23
  cb 52 e4 7d 00 9a 29 b3 52 c8 7b e1 a4 3e 8d 17 f6 6c df 45 55 cf 7c e6 07 9d 2e b4 f1 6b
  d8 42 a3 39 8a 10 aa 30 83 19 f8 62 d1 4b 0e 94 27 bd 5c c6 75 ef ff 65 d6 4c ad 37 84 1e
  5b c1 72 e8 09 93 20 ba 49 d3 60 fa 1b 81 32 a8 ed 77 c4 5e bf 25 96 0c 1c 86 35 af 4e d4
  67 fd b8 22 91 0b ea 70 c3 59 e3 79 ca 50 b1 2b 98 02 47 dd 6e f4 15 8f 3c a6 b6 2c 9f 05
  e4 7e cd 57 12 88 3b a1 40 da 69 f3 92 08 bb 21 c0 5a e9 73 36 ac 1f 85 64 fe 4d d7 c7 5d
  ee 74 95 0f bc 26 63 f9 4a d0 31 ab 18 82 38 a2 11 8b 6a f0 43 d9 9c 06 b5 2f ce 54 e7 7d
  6d f7 44 de 3f a5 16 8c c9 53 e0 7a 9b 01 b2 28 db 41 f2 68 89 13 a0 3a 7f e5 56 cc 2d b7
  04 9e 8e 14 a7 3d dc 46 f5 6f 2a b0 03 99 78 e2 51 cb 71 eb 58 c2 23 b9 0a 90 d5 4f fc 66
  87 1d ae 34 24 be 0d 97 76 ec 5f c5 80 1a a9 33 d2 48 fb 61 00 9b 2b b0 56 cd 7d e6 ac 37
  87 1c fa 61 d1 4a 45 de 6e f5 13 88 38 a3 e9 72 c2 59 bf 24 94 0f 8a 11 a1 3a dc 47 f7 6c
  26 bd 0d 96 70 eb 5b c0 cf 54 e4 7f 99 02 b2 29 63 f8 48 d3 35 ae 1e 85 09 92 22 b9 5f c4
  74 ef a5 3e 8e 15 f3 68 d8 43 4c d7 67 fc 1a 81 31 aa e0 7b cb 50 b6 2d 9d 06 83 18 a8 33
  d5 4e fe 65 2f b4 04 9f 79 e2 52 c9 c6 5d ed 76 90 0b bb 20 6a f1 41 da 3c a7 17 8c 12 89
  39 a2 44 df 6f f4 be 25 95 0e e8 73 c3 58 57 cc 7c e7 01 9a 2a b1 fb 60 d0 4b ad 36 86 1d
  98 03 b3 28 ce 55 e5 7e 34 af 1f 84 62 f9 49 d2 dd 46 f6 6d 8b 10 a0 3b 71 ea 5a c1 27 bc
  0c 97 1b 80 30 ab 4d d6 66 fd b7 2c 9c 07 e1 7a ca 51 5e c5 75 ee 08 93 23 b8 f2 69 d9 42
  a4 3f 8f 14 91 0a ba 21 c7 5c ec 77 3d a6 16 8d 6b f0 40 db d4 4f ff 64 82 19 a9 32 78 e3
  53 c8 2e b5 05 9e 00 9c 25 b9 4a d6 6f f3 94 08 b1 2d de 42 fb 67 35 a9 10 8c 7f e3 5a c6
  a1 3d 84 18 eb 77 ce 52 6a f6 4f d3 20 bc 05 99 fe 62 db 47 b4 28 91 0d 5f c3 7a e6 15 89
  30 ac cb 57 ee 72 81 1d a4 38 d4 48 f1 6d 9e 02 bb 27 40 dc 65 f9 0a 96 2f b3 e1 7d c4 58
  ab 37 8e 12 75 e9 50 cc 3f a3 1a 86 be 22 9b 07 f4 68 d1 4d 2a b6 0f 93 60 fc 45 d9 8b 17
  ae 32 c1 5d e4 78 1f 83 3a a6 55 c9 70 ec b5 29 90 0c ff 63 da 46 21 bd 04 98 6b f7 4e d2
  80 1c a5 39 ca 56 ef 73 14 88 31 ad 5e c2 7b e7 df 43 fa 66 95 09 b0 2c 4b d7 6e f2 01 9d
  24 b8 ea 76 cf 53 a0 3c 85 19 7e e2 5b c7 34 a8 11 8d 61 fd 44 d8 2b b7 0e 92 f5 69 d0 4c
  bf 23 9a 06 54 c8 71 ed 1e 82 3b a7 c0 5c e5 79 8a 16 af 33 0b 97 2e b2 41 dd 64 f8 9f 03
  ba 26 d5 49 f0 6c 3e a2 1b 87 74 e8 51 cd aa 36 8f 13 e0 7c c5 59 00 9d 27 ba 4e d3 69 f4
  9c 01 bb 26 d2 4f f5 68 25 b8 02 9f 6b f6 4c d1 b9 24 9e 03 f7 6a d0 4d 4a d7 6d f0 04 99
  23 be d6 4b f1 6c 98 05 bf 22 6f f2 48 d5 21 bc 06 9b f3 6e d4 49 bd 20 9a 07 94 09 b3 2e
  da 47 fd 60 08 95 2f b2 46 db 61 fc b1 2c 96 0b ff 62 d8 45 2d b0 0a 97 63 fe 44 d9 de 43
  f9 64 90 0d b7 2a 42 df 65 f8 0c 91 2b b6 fb 66 dc 41 b5 28 92 0f 67 fa 40 dd 29 b4 0e 93
  35 a8 12 8f 7b e6 5c c1 a9 34 8e 13 e7 7a c0 5d 10 8d 37 aa 5e c3 79 e4 8c 11 ab 36 c2 5f
  e5 78 7f e2 58 c5 31 ac 16 8b e3 7e c4 59 ad 30 8a 17 5a c7 7d e0 14 89 33 ae c6 5b e1 7c
  88 15 af 32 a1 3c 86 1b ef 72 c8 55 3d a0 1a 87 73 ee 54 c9 84 19 a3 3e ca 57 ed 70 18 85
  3f a2 56 cb 71 ec eb 76 cc 51 a5 38 82 1f 77 ea 50 cd 39 a4 1e 83 ce 53 e9 74 80 1d a7 3a
  52 cf 75 e8 1c 81 3b a6 00 9e 21 bf 42 dc 63 fd 84 1a a5 3b c6 58 e7 79 15 8b 34 aa 57 c9
  76 e8 91 0f b0 2e d3 4d f2 6c 2a b4 0b 95 68 f6 49 d7 ae 30 8f 11 ec 72 cd 53 3f a1 1e 80"%hex.
Definition gf_mul_table_base_27 : list byte := bytes_of "
  7d e3 5c c2 bb 25 9a 04 f9 67 d8 46 54 ca 75 eb 16 88 37 a9 d0 4e f1 6f 92 0c b3 2d 41 df
  60 fe 03 9d 22 bc c5 5b e4 7a 87 19 a6 38 7e e0 5f c1 3c a2 1d 83 fa 64 db 45 b8 26 99 07
  6b f5 4a d4 29 b7 08 96 ef 71 ce 50 ad 33 8c 12 a8 36 89 17 ea 74 cb 55 2c b2 0d 93 6e f0
  4f d1 bd 23 9c 02 ff 61 de 40 39 a7 18 86 7b e5 5a c4 82 1c a3 3d c0 5e e1 7f 06 98 27 b9
  44 da 65 fb 97 09 b6 28 d5 4b f4 6a 13 8d 32 ac 51 cf 70 ee fc 62 dd 43 be 20 9f 01 78 e6
  59 c7 3a a4 1b 85 e9 77 c8 56 ab 35 8a 14 6d f3 4c d2 2f b1 0e 90 d6 48 f7 69 94 0a b5 2b
  52 cc 73 ed 10 8e 31 af c3 5d e2 7c 81 1f a0 3e 47 d9 66 f8 05 9b 24 ba 00 9f 23 bc 46 d9
  65 fa 8c 13 af 30 ca 55 e9 76 05 9a 26 b9 43 dc 60 ff 89 16 aa 35 cf 50 ec 73 0a 95 29 b6
  4c d3 6f f0 86 19 a5 3a c0 5f e3 7c 0f 90 2c b3 49 d6 6a f5 83 1c a0 3f c5 5a e6 79 14 8b
  37 a8 52 cd 71 ee 98 07 bb 24 de 41 fd 62 11 8e 32 ad 57 c8 74 eb 9d 02 be 21 db 44 f8 67
  1e 81 3d a2 58 c7 7b e4 92 0d b1 2e d4 4b f7 68 1b 84 38 a7 5d c2 7e e1 97 08 b4 2b d1 4e
  f2 6d 28 b7 0b 94 6e f1 4d d2 a4 3b 87 18 e2 7d c1 5e 2d b2 0e 91 6b f4 48 d7 a1 3e 82 1d
  e7 78 c4 5b 22 bd 01 9e 64 fb 47 d8 ae 31 8d 12 e8 77 cb 54 27 b8 04 9b 61 fe 42 dd ab 34
  88 17 ed 72 ce 51 3c a3 1f 80 7a e5 59 c6 b0 2f 93 0c f6 69 d5 4a 39 a6 1a 85 7f e0 5c c3
  b5 2a 96 09 f3 6c d0 4f 36 a9 15 8a 70 ef 53 cc ba 25 99 06 fc 63 df 40 33 ac 10 8f 75 ea
  56 c9 bf 20 9c 03 f9 66 da 45 00 a0 5d fd ba 1a e7 47 69 c9 34 94 d3 73 8e 2e d2 72 8f 2f
  68 c8 35 95 bb 1b e6 46 01 a1 5c fc b9 19 e4 44 03 a3 5e fe d0 70 8d 2d 6a ca 37 97 6b cb
  36 96 d1 71 8c 2c 02 a2 5f ff b8 18 e5 45 6f cf 32 92 d5 75 88 28 06 a6 5b fb bc 1c e1 41
  bd 1d e0 40 07 a7 5a fa d4 74 89 29 6e ce 33 93 d6 76 8b 2b 6c cc 31 91 bf 1f e2 42 05 a5
  58 f8 04 a4 59 f9 be 1e e3 43 6d cd 30 90 d7 77 8a 2a de 7e 83 23 64 c4 39 99 b7 17 ea 4a
  0d ad 50 f0 0c ac 51 f1 b6 16 eb 4b 65 c5 38 98 df 7f 82 22 67 c7 3a 9a dd 7d 80 20 0e ae
  53 f3 b4 14 e9 49 b5 15 e8 48 0f af 52 f2 dc 7c 81 21 66 c6 3b 9b b1 11 ec 4c 0b ab 56 f6
  d8 78 85 25 62 c2 3f 9f 63 c3 3e 9e d9 79 84 24 0a aa 57 f7 b0 10 ed 4d 08 a8 55 f5 b2 12
  ef 4f 61 c1 3c 9c db 7b 86 26 da 7a 87 27 60 c0 3d 9d b3 13 ee 4e 09 a9 54 f4 00 a1 5f fe
  be 1f e1 40 61 c0 3e 9f df 7e 80 21 c2 63 9d 3c 7c dd 23 82 a3 02 fc 5d 1d bc 42 e3 99 38
  c6 67 27 86 78 d9 f8 59 a7 06 46 e7 19 b8 5b fa 04 a5 e5 44 ba 1b 3a 9b 65 c4 84 25 db 7a
  2f 8e 70 d1 91 30 ce 6f 4e ef 11 b0 f0 51 af 0e ed 4c b2 13 53 f2 0c ad 8c 2d d3 72 32 93
  6d cc b6 17 e9 48 08 a9 57 f6 d7 76 88 29 69 c8 36 97 74 d5 2b 8a ca 6b 95 34 15 b4 4a eb
  ab 0a f4 55 5e ff 01 a0 e0 41 bf 1e 3f 9e 60 c1 81 20 de 7f 9c 3d c3 62 22 83 7d dc fd 5c
  a2 03 43 e2 1c bd c7 66 98 39 79 d8 26 87 a6 07 f9 58 18 b9 47 e6 05 a4 5a fb bb 1a e4 45
  64 c5 3b 9a da 7b 85 24 71 d0 2e 8f cf 6e 90 31 10 b1 4f ee ae 0f f1 50 b3 12 ec 4d 0d ac
  52 f3 d2 73 8d 2c 6c cd 33 92 e8 49 b7 16 56 f7 09 a8 89 28 d6 77 37 96 68 c9 2a 8b 75 d4
  94 35 cb 6a 4b ea 14 b5 f5 54 aa 0b 00 a2 59 fb b2 10 eb 49 79 db 20 82 cb 69 92 30 f2 50
  ab 09 40 e2 19 bb 8b 29 d2 70 39 9b 60 c2 f9 5b a0 02 4b e9 12 b0 80 22 d9 7b 32 90 6b c9
  0b a9 52 f0 b9 1b e0 42 72 d0 2b 89 c0 62 99 3b ef 4d b6 14 5d ff 04 a6 96 34 cf 6d 24 86
  7d df 1d bf 44 e6 af 0d f6 54 64 c6 3d 9f d6 74 8f 2d 16 b4 4f ed a4 06 fd 5f 6f cd 36 94
  dd 7f 84 26 e4 46 bd 1f 56 f4 0f ad 9d 3f c4 66 2f 8d 76 d4 c3 61 9a 38 71 d3 28 8a ba 18
  e3 41 08 aa 51 f3 31 93 68 ca 83 21 da 78 48 ea 11 b3 fa 58 a3 01 3a 98 63 c1 88 2a d1 73
  43 e1 1a b8 f1 53 a8 0a c8 6a 91 33 7a d8 23 81 b1 13 e8 4a 03 a1 5a f8 2c 8e 75 d7 9e 3c
  c7 65 55 f7 0c ae e7 45 be 1c de 7c 87 25 6c ce 35 97 a7 05 fe 5c 15 b7 4c ee d5 77 8c 2e
  67 c5 3e 9c ac 0e f5 57 1e bc 47 e5 27 85 7e dc 95 37 cc 6e 5e fc 07 a5 ec 4e b5 17 00 a3
  5b f8 b6 15 ed 4e 71 d2 2a 89 c7 64 9c 3f e2 41 b9 1a 54 f7 0f ac 93 30 c8 6b 25 86 7e dd
  d9 7a 82 21 6f cc 34 97 a8 0b f3 50 1e bd 45 e6 3b 98 60 c3 8d 2e d6 75 4a e9 11 b2 fc 5f
  a7 04 af 0c f4 57 19 ba 42 e1 de 7d 85 26 68 cb 33 90 4d ee 16 b5 fb 58 a0 03 3c 9f 67 c4
  8a 29 d1 72 76 d5 2d 8e c0 63 9b 38 07 a4 5c ff b1 12 ea 49 94 37 cf 6c 22 81 79 da e5 46
  be 1d 53 f0 08 ab 43 e0 18 bb f5 56 ae 0d 32 91 69 ca 84 27 df 7c a1 02 fa 59 17 b4 4c ef
  d0 73 8b 28 66 c5 3d 9e 9a 39 c1 62 2c 8f 77 d4 eb 48 b0 13 5d fe 06 a5 78 db 23 80 ce 6d
  95 36 09 aa 52 f1 bf 1c e4 47 ec 4f b7 14 5a f9 01 a2 9d 3e c6 65 2b 88 70 d3 0e ad 55 f6
  b8 1b e3 40 7f dc 24 87 c9 6a 92 31 35 96 6e cd 83 20 d8 7b 44 e7 1f bc f2 51 a9 0a d7 74
  8c 2f 61 c2 3a 99 a6 05 fd 5e 10 b3 4b e8 00 a4 55 f1 aa 0e ff 5b 49 ed 1c b8 e3 47 b6 12"%hex.
Definition gf_mul_table_base_28 : list byte := bytes_of "
  92 36 c7 63 38 9c 6d c9 db 7f 8e 2a 71 d5 24 80 39 9d 6c c8 93 37 c6 62 70 d4 25 81 da 7e
  8f 2b ab 0f fe 5a 01 a5 54 f0 e2 46 b7 13 48 ec 1d b9 72 d6 27 83 d8 7c 8d 29 3b 9f 6e ca
  91 35 c4 60 e0 44 b5 11 4a ee 1f bb a9 0d fc 58 03 a7 56 f2 4b ef 1e ba e1 45 b4 10 02 a6
  57 f3 a8 0c fd 59 d9 7d 8c 28 73 d7 26 82 90 34 c5 61 3a 9e 6f cb e4 40 b1 15 4e ea 1b bf
  ad 09 f8 5c 07 a3 52 f6 76 d2 23 87 dc 78 89 2d 3f 9b 6a ce 95 31 c0 64 dd 79 88 2c 77 d3
  22 86 94 30 c1 65 3e 9a 6b cf 4f eb 1a be e5 41 b0 14 06 a2 53 f7 ac 08 f9 5d 96 32 c3 67
  3c 98 69 cd df 7b 8a 2e 75 d1 20 84 04 a0 51 f5 ae 0a fb 5f 4d e9 18 bc e7 43 b2 16 af 0b
  fa 5e 05 a1 50 f4 e6 42 b3 17 4c e8 19 bd 3d 99 68 cc 97 33 c2 66 74 d0 21 85 de 7a 8b 2f
  00 a5 57 f2 ae 0b f9 5c 41 e4 16 b3 ef 4a b8 1d 82 27 d5 70 2c 89 7b de c3 66 94 31 6d c8
  3a 9f 19 bc 4e eb b7 12 e0 45 58 fd 0f aa f6 53 a1 04 9b 3e cc 69 35 90 62 c7 da 7f 8d 28
  74 d1 23 86 32 97 65 c0 9c 39 cb 6e 73 d6 24 81 dd 78 8a 2f b0 15 e7 42 1e bb 49 ec f1 54
  a6 03 5f fa 08 ad 2b 8e 7c d9 85 20 d2 77 6a cf 3d 98 c4 61 93 36 a9 0c fe 5b 07 a2 50 f5
  e8 4d bf 1a 46 e3 11 b4 64 c1 33 96 ca 6f 9d 38 25 80 72 d7 8b 2e dc 79 e6 43 b1 14 48 ed
  1f ba a7 02 f0 55 09 ac 5e fb 7d d8 2a 8f d3 76 84 21 3c 99 6b ce 92 37 c5 60 ff 5a a8 0d
  51 f4 06 a3 be 1b e9 4c 10 b5 47 e2 56 f3 01 a4 f8 5d af 0a 17 b2 40 e5 b9 1c ee 4b d4 71
  83 26 7a df 2d 88 95 30 c2 67 3b 9e 6c c9 4f ea 18 bd e1 44 b6 13 0e ab 59 fc a0 05 f7 52
  cd 68 9a 3f 63 c6 34 91 8c 29 db 7e 22 87 75 d0 00 a6 51 f7 a2 04 f3 55 59 ff 08 ae fb 5d
  aa 0c b2 14 e3 45 10 b6 41 e7 eb 4d ba 1c 49 ef 18 be 79 df 28 8e db 7d 8a 2c 20 86 71 d7
  82 24 d3 75 cb 6d 9a 3c 69 cf 38 9e 92 34 c3 65 30 96 61 c7 f2 54 a3 05 50 f6 01 a7 ab 0d
  fa 5c 09 af 58 fe 40 e6 11 b7 e2 44 b3 15 19 bf 48 ee bb 1d ea 4c 8b 2d da 7c 29 8f 78 de
  d2 74 83 25 70 d6 21 87 39 9f 68 ce 9b 3d ca 6c 60 c6 31 97 c2 64 93 35 f9 5f a8 0e 5b fd
  0a ac a0 06 f1 57 02 a4 53 f5 4b ed 1a bc e9 4f b8 1e 12 b4 43 e5 b0 16 e1 47 80 26 d1 77
  22 84 73 d5 d9 7f 88 2e 7b dd 2a 8c 32 94 63 c5 90 36 c1 67 6b cd 3a 9c c9 6f 98 3e 0b ad
  5a fc a9 0f f8 5e 52 f4 03 a5 f0 56 a1 07 b9 1f e8 4e 1b bd 4a ec e0 46 b1 17 42 e4 13 b5
  72 d4 23 85 d0 76 81 27 2b 8d 7a dc 89 2f d8 7e c0 66 91 37 62 c4 33 95 99 3f c8 6e 3b 9d
  6a cc 00 a7 53 f4 a6 01 f5 52 51 f6 02 a5 f7 50 a4 03 a2 05 f1 56 04 a3 57 f0 f3 54 a0 07
  55 f2 06 a1 59 fe 0a ad ff 58 ac 0b 08 af 5b fc ae 09 fd 5a fb 5c a8 0f 5d fa 0e a9 aa 0d
  f9 5e 0c ab 5f f8 b2 15 e1 46 14 b3 47 e0 e3 44 b0 17 45 e2 16 b1 10 b7 43 e4 b6 11 e5 42
  41 e6 12 b5 e7 40 b4 13 eb 4c b8 1f 4d ea 1e b9 ba 1d e9 4e 1c bb 4f e8 49 ee 1a bd ef 48
  bc 1b 18 bf 4b ec be 19 ed 4a 79 de 2a 8d df 78 8c 2b 28 8f 7b dc 8e 29 dd 7a db 7c 88 2f
  7d da 2e 89 8a 2d d9 7e 2c 8b 7f d8 20 87 73 d4 86 21 d5 72 71 d6 22 85 d7 70 84 23 82 25
  d1 76 24 83 77 d0 d3 74 80 27 75 d2 26 81 cb 6c 98 3f 6d ca 3e 99 9a 3d c9 6e 3c 9b 6f c8
  69 ce 3a 9d cf 68 9c 3b 38 9f 6b cc 9e 39 cd 6a 92 35 c1 66 34 93 67 c0 c3 64 90 37 65 c2
  36 91 30 97 63 c4 96 31 c5 62 61 c6 32 95 c7 60 94 33 00 a8 4d e5 9a 32 d7 7f 29 81 64 cc
  b3 1b fe 56 52 fa 1f b7 c8 60 85 2d 7b d3 36 9e e1 49 ac 04 a4 0c e9 41 3e 96 73 db 8d 25
  c0 68 17 bf 5a f2 f6 5e bb 13 6c c4 21 89 df 77 92 3a 45 ed 08 a0 55 fd 18 b0 cf 67 82 2a
  7c d4 31 99 e6 4e ab 03 07 af 4a e2 9d 35 d0 78 2e 86 63 cb b4 1c f9 51 f1 59 bc 14 6b c3
  26 8e d8 70 95 3d 42 ea 0f a7 a3 0b ee 46 39 91 74 dc 8a 22 c7 6f 10 b8 5d f5 aa 02 e7 4f
  30 98 7d d5 83 2b ce 66 19 b1 54 fc f8 50 b5 1d 62 ca 2f 87 d1 79 9c 34 4b e3 06 ae 0e a6
  43 eb 94 3c d9 71 27 8f 6a c2 bd 15 f0 58 5c f4 11 b9 c6 6e 8b 23 75 dd 38 90 ef 47 a2 0a
  ff 57 b2 1a 65 cd 28 80 d6 7e 9b 33 4c e4 01 a9 ad 05 e0 48 37 9f 7a d2 84 2c c9 61 1e b6
  53 fb 5b f3 16 be c1 69 8c 24 72 da 3f 97 e8 40 a5 0d 09 a1 44 ec 93 3b de 76 20 88 6d c5
  ba 12 f7 5f 00 a9 4f e6 9e 37 d1 78 21 88 6e c7 bf 16 f0 59 42 eb 0d a4 dc 75 93 3a 63 ca
  2c 85 fd 54 b2 1b 84 2d cb 62 1a b3 55 fc a5 0c ea 43 3b 92 74 dd c6 6f 89 20 58 f1 17 be
  e7 4e a8 01 79 d0 36 9f 15 bc 5a f3 8b 22 c4 6d 34 9d 7b d2 aa 03 e5 4c 57 fe 18 b1 c9 60
  86 2f 76 df 39 90 e8 41 a7 0e 91 38 de 77 0f a6 40 e9 b0 19 ff 56 2e 87 61 c8 d3 7a 9c 35
  4d e4 02 ab f2 5b bd 14 6c c5 23 8a 2a 83 65 cc b4 1d fb 52 0b a2 44 ed 95 3c da 73 68 c1
  27 8e f6 5f b9 10 49 e0 06 af d7 7e 98 31 ae 07 e1 48 30 99 7f d6 8f 26 c0 69 11 b8 5e f7
  ec 45 a3 0a 72 db 3d 94 cd 64 82 2b 53 fa 1c b5 3f 96 70 d9 a1 08 ee 47 1e b7 51 f8 80 29
  cf 66 7d d4 32 9b e3 4a ac 05 5c f5 13 ba c2 6b 8d 24 bb 12 f4 5d 25 8c 6a c3 9a 33 d5 7c"%hex.
Definition gf_mul_table_base_29 : list byte := bytes_of "
  04 ad 4b e2 f9 50 b6 1f 67 ce 28 81 d8 71 97 3e 46 ef 09 a0 00 aa 49 e3 92 38 db 71 39 93
  70 da ab 01 e2 48 72 d8 3b 91 e0 4a a9 03 4b e1 02 a8 d9 73 90 3a e4 4e ad 07 76 dc 3f 95
  dd 77 94 3e 4f e5 06 ac 96 3c df 75 04 ae 4d e7 af 05 e6 4c 3d 97 74 de d5 7f 9c 36 47 ed
  0e a4 ec 46 a5 0f 7e d4 37 9d a7 0d ee 44 35 9f 7c d6 9e 34 d7 7d 0c a6 45 ef 31 9b 78 d2
  a3 09 ea 40 08 a2 41 eb 9a 30 d3 79 43 e9 0a a0 d1 7b 98 32 7a d0 33 99 e8 42 a1 0b b7 1d
  fe 54 25 8f 6c c6 8e 24 c7 6d 1c b6 55 ff c5 6f 8c 26 57 fd 1e b4 fc 56 b5 1f 6e c4 27 8d
  53 f9 1a b0 c1 6b 88 22 6a c0 23 89 f8 52 b1 1b 21 8b 68 c2 b3 19 fa 50 18 b2 51 fb 8a 20
  c3 69 62 c8 2b 81 f0 5a b9 13 5b f1 12 b8 c9 63 80 2a 10 ba 59 f3 82 28 cb 61 29 83 60 ca
  bb 11 f2 58 86 2c cf 65 14 be 5d f7 bf 15 f6 5c 2d 87 64 ce f4 5e bd 17 66 cc 2f 85 cd 67
  84 2e 5f f5 16 bc 00 ab 4b e0 96 3d dd 76 31 9a 7a d1 a7 0c ec 47 62 c9 29 82 f4 5f bf 14
  53 f8 18 b3 c5 6e 8e 25 c4 6f 8f 24 52 f9 19 b2 f5 5e be 15 63 c8 28 83 a6 0d ed 46 30 9b
  7b d0 97 3c dc 77 01 aa 4a e1 95 3e de 75 03 a8 48 e3 a4 0f ef 44 32 99 79 d2 f7 5c bc 17
  61 ca 2a 81 c6 6d 8d 26 50 fb 1b b0 51 fa 1a b1 c7 6c 8c 27 60 cb 2b 80 f6 5d bd 16 33 98
  78 d3 a5 0e ee 45 02 a9 49 e2 94 3f df 74 37 9c 7c d7 a1 0a ea 41 06 ad 4d e6 90 3b db 70
  55 fe 1e b5 c3 68 88 23 64 cf 2f 84 f2 59 b9 12 f3 58 b8 13 65 ce 2e 85 c2 69 89 22 54 ff
  1f b4 91 3a da 71 07 ac 4c e7 a0 0b eb 40 36 9d 7d d6 a2 09 e9 42 34 9f 7f d4 93 38 d8 73
  05 ae 4e e5 c0 6b 8b 20 56 fd 1d b6 f1 5a ba 11 67 cc 2c 87 66 cd 2d 86 f0 5b bb 10 57 fc
  1c b7 c1 6a 8a 21 04 af 4f e4 92 39 d9 72 35 9e 7e d5 a3 08 e8 43 00 ac 45 e9 8a 26 cf 63
  09 a5 4c e0 83 2f c6 6a 12 be 57 fb 98 34 dd 71 1b b7 5e f2 91 3d d4 78 24 88 61 cd ae 02
  eb 47 2d 81 68 c4 a7 0b e2 4e 36 9a 73 df bc 10 f9 55 3f 93 7a d6 b5 19 f0 5c 48 e4 0d a1
  c2 6e 87 2b 41 ed 04 a8 cb 67 8e 22 5a f6 1f b3 d0 7c 95 39 53 ff 16 ba d9 75 9c 30 6c c0
  29 85 e6 4a a3 0f 65 c9 20 8c ef 43 aa 06 7e d2 3b 97 f4 58 b1 1d 77 db 32 9e fd 51 b8 14
  90 3c d5 79 1a b6 5f f3 99 35 dc 70 13 bf 56 fa 82 2e c7 6b 08 a4 4d e1 8b 27 ce 62 01 ad
  44 e8 b4 18 f1 5d 3e 92 7b d7 bd 11 f8 54 37 9b 72 de a6 0a e3 4f 2c 80 69 c5 af 03 ea 46
  25 89 60 cc d8 74 9d 31 52 fe 17 bb d1 7d 94 38 5b f7 1e b2 ca 66 8f 23 40 ec 05 a9 c3 6f
  86 2a 49 e5 0c a0 fc 50 b9 15 76 da 33 9f f5 59 b0 1c 7f d3 3a 96 ee 42 ab 07 64 c8 21 8d
  e7 4b a2 0e 6d c1 28 84 00 ad 47 ea 8e 23 c9 64 01 ac 46 eb 8f 22 c8 65 02 af 45 e8 8c 21
  cb 66 03 ae 44 e9 8d 20 ca 67 04 a9 43 ee 8a 27 cd 60 05 a8 42 ef 8b 26 cc 61 06 ab 41 ec
  88 25 cf 62 07 aa 40 ed 89 24 ce 63 08 a5 4f e2 86 2b c1 6c 09 a4 4e e3 87 2a c0 6d 0a a7
  4d e0 84 29 c3 6e 0b a6 4c e1 85 28 c2 6f 0c a1 4b e6 82 2f c5 68 0d a0 4a e7 83 2e c4 69
  0e a3 49 e4 80 2d c7 6a 0f a2 48 e5 81 2c c6 6b 10 bd 57 fa 9e 33 d9 74 11 bc 56 fb 9f 32
  d8 75 12 bf 55 f8 9c 31 db 76 13 be 54 f9 9d 30 da 77 14 b9 53 fe 9a 37 dd 70 15 b8 52 ff
  9b 36 dc 71 16 bb 51 fc 98 35 df 72 17 ba 50 fd 99 34 de 73 18 b5 5f f2 96 3b d1 7c 19 b4
  5e f3 97 3a d0 7d 1a b7 5d f0 94 39 d3 7e 1b b6 5c f1 95 38 d2 7f 1c b1 5b f6 92 3f d5 78
  1d b0 5a f7 93 3e d4 79 1e b3 59 f4 90 3d d7 7a 1f b2 58 f5 91 3c d6 7b 00 ae 41 ef 82 2c
  c3 6d 19 b7 58 f6 9b 35 da 74 32 9c 73 dd b0 1e f1 5f 2b 85 6a c4 a9 07 e8 46 64 ca 25 8b
  e6 48 a7 09 7d d3 3c 92 ff 51 be 10 56 f8 17 b9 d4 7a 95 3b 4f e1 0e a0 cd 63 8c 22 c8 66
  89 27 4a e4 0b a5 d1 7f 90 3e 53 fd 12 bc fa 54 bb 15 78 d6 39 97 e3 4d a2 0c 61 cf 20 8e
  ac 02 ed 43 2e 80 6f c1 b5 1b f4 5a 37 99 76 d8 9e 30 df 71 1c b2 5d f3 87 29 c6 68 05 ab
  44 ea 8d 23 cc 62 0f a1 4e e0 94 3a d5 7b 16 b8 57 f9 bf 11 fe 50 3d 93 7c d2 a6 08 e7 49
  24 8a 65 cb e9 47 a8 06 6b c5 2a 84 f0 5e b1 1f 72 dc 33 9d db 75 9a 34 59 f7 18 b6 c2 6c
  83 2d 40 ee 01 af 45 eb 04 aa c7 69 86 28 5c f2 1d b3 de 70 9f 31 77 d9 36 98 f5 5b b4 1a
  6e c0 2f 81 ec 42 ad 03 21 8f 60 ce a3 0d e2 4c 38 96 79 d7 ba 14 fb 55 13 bd 52 fc 91 3f
  d0 7e 0a a4 4b e5 88 26 c9 67 00 af 43 ec 86 29 c5 6a 11 be 52 fd 97 38 d4 7b 22 8d 61 ce
  a4 0b e7 48 33 9c 70 df b5 1a f6 59 44 eb 07 a8 c2 6d 81 2e 55 fa 16 b9 d3 7c 90 3f 66 c9
  25 8a e0 4f a3 0c 77 d8 34 9b f1 5e b2 1d 88 27 cb 64 0e a1 4d e2 99 36 da 75 1f b0 5c f3
  aa 05 e9 46 2c 83 6f c0 bb 14 f8 57 3d 92 7e d1 cc 63 8f 20 4a e5 09 a6 dd 72 9e 31 5b f4
  18 b7 ee 41 ad 02 68 c7 2b 84 ff 50 bc 13 79 d6 3a 95 0d a2 4e e1 8b 24 c8 67 1c b3 5f f0
  9a 35 d9 76 2f 80 6c c3 a9 06 ea 45 3e 91 7d d2 b8 17 fb 54 49 e6 0a a5 cf 60 8c 23 58 f7
  1b b4 de 71 9d 32 6b c4 28 87 ed 42 ae 01 7a d5 39 96 fc 53 bf 10 85 2a c6 69 03 ac 40 ef"%hex.
Definition gf_mul_table_base_30 : list byte := bytes_of "
  94 3b d7 78 12 bd 51 fe a7 08 e4 4b 21 8e 62 cd b6 19 f5 5a 30 9f 73 dc c1 6e 82 2d 47 e8
  04 ab d0 7f 93 3c 56 f9 15 ba e3 4c a0 0f 65 ca 26 89 f2 5d b1 1e 74 db 37 98 00 b0 7d cd
  fa 4a 87 37 e9 59 94 24 13 a3 6e de cf 7f b2 02 35 85 48 f8 26 96 5b eb dc 6c a1 11 83 33
  fe 4e 79 c9 04 b4 6a da 17 a7 90 20 ed 5d 4c fc 31 81 b6 06 cb 7b a5 15 d8 68 5f ef 22 92
  1b ab 66 d6 e1 51 9c 2c f2 42 8f 3f 08 b8 75 c5 d4 64 a9 19 2e 9e 53 e3 3d 8d 40 f0 c7 77
  ba 0a 98 28 e5 55 62 d2 1f af 71 c1 0c bc 8b 3b f6 46 57 e7 2a 9a ad 1d d0 60 be 0e c3 73
  44 f4 39 89 36 86 4b fb cc 7c b1 01 df 6f a2 12 25 95 58 e8 f9 49 84 34 03 b3 7e ce 10 a0
  6d dd ea 5a 97 27 b5 05 c8 78 4f ff 32 82 5c ec 21 91 a6 16 db 6b 7a ca 07 b7 80 30 fd 4d
  93 23 ee 5e 69 d9 14 a4 2d 9d 50 e0 d7 67 aa 1a c4 74 b9 09 3e 8e 43 f3 e2 52 9f 2f 18 a8
  65 d5 0b bb 76 c6 f1 41 8c 3c ae 1e d3 63 54 e4 29 99 47 f7 3a 8a bd 0d c0 70 61 d1 1c ac
  9b 2b e6 56 88 38 f5 45 72 c2 0f bf 00 b1 7f ce fe 4f 81 30 e1 50 9e 2f 1f ae 60 d1 df 6e
  a0 11 21 90 5e ef 3e 8f 41 f0 c0 71 bf 0e a3 12 dc 6d 5d ec 22 93 42 f3 3d 8c bc 0d c3 72
  7c cd 03 b2 82 33 fd 4c 9d 2c e2 53 63 d2 1c ad 5b ea 24 95 a5 14 da 6b ba 0b c5 74 44 f5
  3b 8a 84 35 fb 4a 7a cb 05 b4 65 d4 1a ab 9b 2a e4 55 f8 49 87 36 06 b7 79 c8 19 a8 66 d7
  e7 56 98 29 27 96 58 e9 d9 68 a6 17 c6 77 b9 08 38 89 47 f6 b6 07 c9 78 48 f9 37 86 57 e6
  28 99 a9 18 d6 67 69 d8 16 a7 97 26 e8 59 88 39 f7 46 76 c7 09 b8 15 a4 6a db eb 5a 94 25
  f4 45 8b 3a 0a bb 75 c4 ca 7b b5 04 34 85 4b fa 2b 9a 54 e5 d5 64 aa 1b ed 5c 92 23 13 a2
  6c dd 0c bd 73 c2 f2 43 8d 3c 32 83 4d fc cc 7d b3 02 d3 62 ac 1d 2d 9c 52 e3 4e ff 31 80
  b0 01 cf 7e af 1e d0 61 51 e0 2e 9f 91 20 ee 5f 6f de 10 a1 70 c1 0f be 8e 3f f1 40 00 b2
  79 cb f2 40 8b 39 f9 4b 80 32 0b b9 72 c0 ef 5d 96 24 1d af 64 d6 16 a4 6f dd e4 56 9d 2f
  c3 71 ba 08 31 83 48 fa 3a 88 43 f1 c8 7a b1 03 2c 9e 55 e7 de 6c a7 15 d5 67 ac 1e 27 95
  5e ec 9b 29 e2 50 69 db 10 a2 62 d0 1b a9 90 22 e9 5b 74 c6 0d bf 86 34 ff 4d 8d 3f f4 46
  7f cd 06 b4 58 ea 21 93 aa 18 d3 61 a1 13 d8 6a 53 e1 2a 98 b7 05 ce 7c 45 f7 3c 8e 4e fc
  37 85 bc 0e c5 77 2b 99 52 e0 d9 6b a0 12 d2 60 ab 19 20 92 59 eb c4 76 bd 0f 36 84 4f fd
  3d 8f 44 f6 cf 7d b6 04 e8 5a 91 23 1a a8 63 d1 11 a3 68 da e3 51 9a 28 07 b5 7e cc f5 47
  8c 3e fe 4c 87 35 0c be 75 c7 b0 02 c9 7b 42 f0 3b 89 49 fb 30 82 bb 09 c2 70 5f ed 26 94
  ad 1f d4 66 a6 14 df 6d 54 e6 2d 9f 73 c1 0a b8 81 33 f8 4a 8a 38 f3 41 78 ca 01 b3 9c 2e
  e5 57 6e dc 17 a5 65 d7 1c ae 97 25 ee 5c 00 b3 7b c8 f6 45 8d 3e f1 42 8a 39 07 b4 7c cf
  ff 4c 84 37 09 ba 72 c1 0e bd 75 c6 f8 4b 83 30 e3 50 98 2b 15 a6 6e dd 12 a1 69 da e4 57
  9f 2c 1c af 67 d4 ea 59 91 22 ed 5e 96 25 1b a8 60 d3 db 68 a0 13 2d 9e 56 e5 2a 99 51 e2
  dc 6f a7 14 24 97 5f ec d2 61 a9 1a d5 66 ae 1d 23 90 58 eb 38 8b 43 f0 ce 7d b5 06 c9 7a
  b2 01 3f 8c 44 f7 c7 74 bc 0f 31 82 4a f9 36 85 4d fe c0 73 bb 08 ab 18 d0 63 5d ee 26 95
  5a e9 21 92 ac 1f d7 64 54 e7 2f 9c a2 11 d9 6a a5 16 de 6d 53 e0 28 9b 48 fb 33 80 be 0d
  c5 76 b9 0a c2 71 4f fc 34 87 b7 04 cc 7f 41 f2 3a 89 46 f5 3d 8e b0 03 cb 78 70 c3 0b b8
  86 35 fd 4e 81 32 fa 49 77 c4 0c bf 8f 3c f4 47 79 ca 02 b1 7e cd 05 b6 88 3b f3 40 93 20
  e8 5b 65 d6 1e ad 62 d1 19 aa 94 27 ef 5c 6c df 17 a4 9a 29 e1 52 9d 2e e6 55 6b d8 10 a3
  00 b4 75 c1 ea 5e 9f 2b c9 7d bc 08 23 97 56 e2 8f 3b fa 4e 65 d1 10 a4 46 f2 33 87 ac 18
  d9 6d 03 b7 76 c2 e9 5d 9c 28 ca 7e bf 0b 20 94 55 e1 8c 38 f9 4d 66 d2 13 a7 45 f1 30 84
  af 1b da 6e 06 b2 73 c7 ec 58 99 2d cf 7b ba 0e 25 91 50 e4 89 3d fc 48 63 d7 16 a2 40 f4
  35 81 aa 1e df 6b 05 b1 70 c4 ef 5b 9a 2e cc 78 b9 0d 26 92 53 e7 8a 3e ff 4b 60 d4 15 a1
  43 f7 36 82 a9 1d dc 68 0c b8 79 cd e6 52 93 27 c5 71 b0 04 2f 9b 5a ee 83 37 f6 42 69 dd
  1c a8 4a fe 3f 8b a0 14 d5 61 0f bb 7a ce e5 51 90 24 c6 72 b3 07 2c 98 59 ed 80 34 f5 41
  6a de 1f ab 49 fd 3c 88 a3 17 d6 62 0a be 7f cb e0 54 95 21 c3 77 b6 02 29 9d 5c e8 85 31
  f0 44 6f db 1a ae 4c f8 39 8d a6 12 d3 67 09 bd 7c c8 e3 57 96 22 c0 74 b5 01 2a 9e 5f eb
  86 32 f3 47 6c d8 19 ad 4f fb 3a 8e a5 11 d0 64 00 b5 77 c2 ee 5b 99 2c c1 74 b6 03 2f 9a
  58 ed 9f 2a e8 5d 71 c4 06 b3 5e eb 29 9c b0 05 c7 72 23 96 54 e1 cd 78 ba 0f e2 57 95 20
  0c b9 7b ce bc 09 cb 7e 52 e7 25 90 7d c8 0a bf 93 26 e4 51 46 f3 31 84 a8 1d df 6a 87 32
  f0 45 69 dc 1e ab d9 6c ae 1b 37 82 40 f5 18 ad 6f da f6 43 81 34 65 d0 12 a7 8b 3e fc 49
  a4 11 d3 66 4a ff 3d 88 fa 4f 8d 38 14 a1 63 d6 3b 8e 4c f9 d5 60 a2 17 8c 39 fb 4e 62 d7
  15 a0 4d f8 3a 8f a3 16 d4 61 13 a6 64 d1 fd 48 8a 3f d2 67 a5 10 3c 89 4b fe af 1a d8 6d"%hex.
Definition gf_mul_table_base_31 : list byte := bytes_of "
  41 f4 36 83 6e db 19 ac 80 35 f7 42 30 85 47 f2 de 6b a9 1c f1 44 86 33 1f aa 68 dd ca 7f
  bd 08 24 91 53 e6 0b be 7c c9 e5 50 92 27 55 e0 22 97 bb 0e cc 79 94 21 e3 56 7a cf 0d b8
  e9 5c 9e 2b 07 b2 70 c5 28 9d 5f ea c6 73 b1 04 76 c3 01 b4 98 2d ef 5a b7 02 c0 75 59 ec
  2e 9b 00 b6 71 c7 e2 54 93 25 d9 6f a8 1e 3b 8d 4a fc af 19 de 68 4d fb 3c 8a 76 c0 07 b1
  94 22 e5 53 43 f5 32 84 a1 17 d0 66 9a 2c eb 5d 78 ce 09 bf ec 5a 9d 2b 0e b8 7f c9 35 83
  44 f2 d7 61 a6 10 86 30 f7 41 64 d2 15 a3 5f e9 2e 98 bd 0b cc 7a 29 9f 58 ee cb 7d ba 0c
  f0 46 81 37 12 a4 63 d5 c5 73 b4 02 27 91 56 e0 1c aa 6d db fe 48 8f 39 6a dc 1b ad 88 3e
  f9 4f b3 05 c2 74 51 e7 20 96 11 a7 60 d6 f3 45 82 34 c8 7e b9 0f 2a 9c 5b ed be 08 cf 79
  5c ea 2d 9b 67 d1 16 a0 85 33 f4 42 52 e4 23 95 b0 06 c1 77 8b 3d fa 4c 69 df 18 ae fd 4b
  8c 3a 1f a9 6e d8 24 92 55 e3 c6 70 b7 01 97 21 e6 50 75 c3 04 b2 4e f8 3f 89 ac 1a dd 6b
  38 8e 49 ff da 6c ab 1d e1 57 90 26 03 b5 72 c4 d4 62 a5 13 36 80 47 f1 0d bb 7c ca ef 59
  9e 28 7b cd 0a bc 99 2f e8 5e a2 14 d3 65 40 f6 31 87 00 b7 73 c4 e6 51 95 22 d1 66 a2 15
  37 80 44 f3 bf 08 cc 7b 59 ee 2a 9d 6e d9 1d aa 88 3f fb 4c 63 d4 10 a7 85 32 f6 41 b2 05
  c1 76 54 e3 27 90 dc 6b af 18 3a 8d 49 fe 0d ba 7e c9 eb 5c 98 2f c6 71 b5 02 20 97 53 e4
  17 a0 64 d3 f1 46 82 35 79 ce 0a bd 9f 28 ec 5b a8 1f db 6c 4e f9 3d 8a a5 12 d6 61 43 f4
  30 87 74 c3 07 b0 92 25 e1 56 1a ad 69 de fc 4b 8f 38 cb 7c b8 0f 2d 9a 5e e9 91 26 e2 55
  77 c0 04 b3 40 f7 33 84 a6 11 d5 62 2e 99 5d ea c8 7f bb 0c ff 48 8c 3b 19 ae 6a dd f2 45
  81 36 14 a3 67 d0 23 94 50 e7 c5 72 b6 01 4d fa 3e 89 ab 1c d8 6f 9c 2b ef 58 7a cd 09 be
  57 e0 24 93 b1 06 c2 75 86 31 f5 42 60 d7 13 a4 e8 5f 9b 2c 0e b9 7d ca 39 8e 4a fd df 68
  ac 1b 34 83 47 f0 d2 65 a1 16 e5 52 96 21 03 b4 70 c7 8b 3c f8 4f 6d da 1e a9 5a ed 29 9e
  bc 0b cf 78 00 b8 6d d5 da 62 b7 0f a9 11 c4 7c 73 cb 1e a6 4f f7 22 9a 95 2d f8 40 e6 5e
  8b 33 3c 84 51 e9 9e 26 f3 4b 44 fc 29 91 37 8f 5a e2 ed 55 80 38 d1 69 bc 04 0b b3 66 de
  78 c0 15 ad a2 1a cf 77 21 99 4c f4 fb 43 96 2e 88 30 e5 5d 52 ea 3f 87 6e d6 03 bb b4 0c
  d9 61 c7 7f aa 12 1d a5 70 c8 bf 07 d2 6a 65 dd 08 b0 16 ae 7b c3 cc 74 a1 19 f0 48 9d 25
  2a 92 47 ff 59 e1 34 8c 83 3b ee 56 42 fa 2f 97 98 20 f5 4d eb 53 86 3e 31 89 5c e4 0d b5
  60 d8 d7 6f ba 02 a4 1c c9 71 7e c6 13 ab dc 64 b1 09 06 be 6b d3 75 cd 18 a0 af 17 c2 7a
  93 2b fe 46 49 f1 24 9c 3a 82 57 ef e0 58 8d 35 63 db 0e b6 b9 01 d4 6c ca 72 a7 1f 10 a8
  7d c5 2c 94 41 f9 f6 4e 9b 23 85 3d e8 50 5f e7 32 8a fd 45 90 28 27 9f 4a f2 54 ec 39 81
  8e 36 e3 5b b2 0a df 67 68 d0 05 bd 1b a3 76 ce c1 79 ac 14 00 b9 6f d6 de 67 b1 08 a1 18
  ce 77 7f c6 10 a9 5f e6 30 89 81 38 ee 57 fe 47 91 28 20 99 4f f6 be 07 d1 68 60 d9 0f b6
  1f a6 70 c9 c1 78 ae 17 e1 58 8e 37 3f 86 50 e9 40 f9 2f 96 9e 27 f1 48 61 d8 0e b7 bf 06
  d0 69 c0 79 af 16 1e a7 71 c8 3e 87 51 e8 e0 59 8f 36 9f 26 f0 49 41 f8 2e 97 df 66 b0 09
  01 b8 6e d7 7e c7 11 a8 a0 19 cf 76 80 39 ef 56 5e e7 31 88 21 98 4e f7 ff 46 90 29 c2 7b
  ad 14 1c a5 73 ca 63 da 0c b5 bd 04 d2 6b 9d 24 f2 4b 43 fa 2c 95 3c 85 53 ea e2 5b 8d 34
  7c c5 13 aa a2 1b cd 74 dd 64 b2 0b 03 ba 6c d5 23 9a 4c f5 fd 44 92 2b 82 3b ed 54 5c e5
  33 8a a3 1a cc 75 7d c4 12 ab 02 bb 6d d4 dc 65 b3 0a fc 45 93 2a 22 9b 4d f4 5d e4 32 8b
  83 3a ec 55 1d a4 72 cb c3 7a ac 15 bc 05 d3 6a 62 db 0d b4 42 fb 2d 94 9c 25 f3 4a e3 5a
  8c 35 3d 84 52 eb 00 ba 69 d3 d2 68 bb 01 b9 03 d0 6a 6b d1 02 b8 6f d5 06 bc bd 07 d4 6e
  d6 6c bf 05 04 be 6d d7 de 64 b7 0d 0c b6 65 df 67 dd 0e b4 b5 0f dc 66 b1 0b d8 62 63 d9
  0a b0 08 b2 61 db da 60 b3 09 a1 1b c8 72 73 c9 1a a0 18 a2 71 cb ca 70 a3 19 ce 74 a7 1d
  1c a6 75 cf 77 cd 1e a4 a5 1f cc 76 7f c5 16 ac ad 17 c4 7e c6 7c af 15 14 ae 7d c7 10 aa
  79 c3 c2 78 ab 11 a9 13 c0 7a 7b c1 12 a8 5f e5 36 8c 8d 37 e4 5e e6 5c 8f 35 34 8e 5d e7
  30 8a 59 e3 e2 58 8b 31 89 33 e0 5a 5b e1 32 88 81 3b e8 52 53 e9 3a 80 38 82 51 eb ea 50
  83 39 ee 54 87 3d 3c 86 55 ef 57 ed 3e 84 85 3f ec 56 fe 44 97 2d 2c 96 45 ff 47 fd 2e 94
  95 2f fc 46 91 2b f8 42 43 f9 2a 90 28 92 41 fb fa 40 93 29 20 9a 49 f3 f2 48 9b 21 99 23
  f0 4a 4b f1 22 98 4f f5 26 9c 9d 27 f4 4e f6 4c 9f 25 24 9e 4d f7 00 bb 6b d0 d6 6d bd 06
  b1 0a da 61 67 dc 0c b7 7f c4 14 af a9 12 c2 79 ce 75 a5 1e 18 a3 73 c8 fe 45 95 2e 28 93
  43 f8 4f f4 24 9f 99 22 f2 49 81 3a ea 51 57 ec 3c 87 30 8b 5b e0 e6 5d 8d 36 e1 5a 8a 31
  37 8c 5c e7 50 eb 3b 80 86 3d ed 56 9e 25 f5 4e 48 f3 23 98 2f 94 44 ff f9 42 92 29 1f a4
  74 cf c9 72 a2 19 ae 15 c5 7e 78 c3 13 a8 60 db 0b b0 b6 0d dd 66 d1 6a ba 01 07 bc 6c d7"%hex.
Definition gf_mul_table_base_32 : list byte := bytes_of "
  df 64 b4 0f 09 b2 62 d9 6e d5 05 be b8 03 d3 68 a0 1b cb 70 76 cd 1d a6 11 aa 7a c1 c7 7c
  ac 17 21 9a 4a f1 f7 4c 9c 27 90 2b fb 40 46 fd 2d 96 5e e5 35 8e 88 33 e3 58 ef 54 84 3f
  39 82 52 e9 3e 85 55 ee e8 53 83 38 8f 34 e4 5f 59 e2 32 89 41 fa 2a 91 97 2c fc 47 f0 4b
  9b 20 26 9d 4d f6 c0 7b ab 10 16 ad 7d c6 71 ca 1a a1 a7 1c cc 77 bf 04 d4 6f 69 d2 02 b9
  0e b5 65 de d8 63 b3 08 00 bc 65 d9 ca 76 af 13 89 35 ec 50 43 ff 26 9a 0f b3 6a d6 c5 79
  a0 1c 86 3a e3 5f 4c f0 29 95 1e a2 7b c7 d4 68 b1 0d 97 2b f2 4e 5d e1 38 84 11 ad 74 c8
  db 67 be 02 98 24 fd 41 52 ee 37 8b 3c 80 59 e5 f6 4a 93 2f b5 09 d0 6c 7f c3 1a a6 33 8f
  56 ea f9 45 9c 20 ba 06 df 63 70 cc 15 a9 22 9e 47 fb e8 54 8d 31 ab 17 ce 72 61 dd 04 b8
  2d 91 48 f4 e7 5b 82 3e a4 18 c1 7d 6e d2 0b b7 78 c4 1d a1 b2 0e d7 6b f1 4d 94 28 3b 87
  5e e2 77 cb 12 ae bd 01 d8 64 fe 42 9b 27 34 88 51 ed 66 da 03 bf ac 10 c9 75 ef 53 8a 36
  25 99 40 fc 69 d5 0c b0 a3 1f c6 7a e0 5c 85 39 2a 96 4f f3 44 f8 21 9d 8e 32 eb 57 cd 71
  a8 14 07 bb 62 de 4b f7 2e 92 81 3d e4 58 c2 7e a7 1b 08 b4 6d d1 5a e6 3f 83 90 2c f5 49
  d3 6f b6 0a 19 a5 7c c0 55 e9 30 8c 9f 23 fa 46 dc 60 b9 05 16 aa 73 cf 00 bd 67 da ce 73
  a9 14 81 3c e6 5b 4f f2 28 95 1f a2 78 c5 d1 6c b6 0b 9e 23 f9 44 50 ed 37 8a 3e 83 59 e4
  f0 4d 97 2a bf 02 d8 65 71 cc 16 ab 21 9c 46 fb ef 52 88 35 a0 1d c7 7a 6e d3 09 b4 7c c1
  1b a6 b2 0f d5 68 fd 40 9a 27 33 8e 54 e9 63 de 04 b9 ad 10 ca 77 e2 5f 85 38 2c 91 4b f6
  42 ff 25 98 8c 31 eb 56 c3 7e a4 19 0d b0 6a d7 5d e0 3a 87 93 2e f4 49 dc 61 bb 06 12 af
  75 c8 f8 45 9f 22 36 8b 51 ec 79 c4 1e a3 b7 0a d0 6d e7 5a 80 3d 29 94 4e f3 66 db 01 bc
  a8 15 cf 72 c6 7b a1 1c 08 b5 6f d2 47 fa 20 9d 89 34 ee 53 d9 64 be 03 17 aa 70 cd 58 e5
  3f 82 96 2b f1 4c 84 39 e3 5e 4a f7 2d 90 05 b8 62 df cb 76 ac 11 9b 26 fc 41 55 e8 32 8f
  1a a7 7d c0 d4 69 b3 0e ba 07 dd 60 74 c9 13 ae 3b 86 5c e1 f5 48 92 2f a5 18 c2 7f 6b d6
  0c b1 24 99 43 fe ea 57 8d 30 00 be 61 df c2 7c a3 1d 99 27 f8 46 5b e5 3a 84 2f 91 4e f0
  ed 53 8c 32 b6 08 d7 69 74 ca 15 ab 5e e0 3f 81 9c 22 fd 43 c7 79 a6 18 05 bb 64 da 71 cf
  10 ae b3 0d d2 6c e8 56 89 37 2a 94 4b f5 bc 02 dd 63 7e c0 1f a1 25 9b 44 fa e7 59 86 38
  93 2d f2 4c 51 ef 30 8e 0a b4 6b d5 c8 76 a9 17 e2 5c 83 3d 20 9e 41 ff 7b c5 1a a4 b9 07
  d8 66 cd 73 ac 12 0f b1 6e d0 54 ea 35 8b 96 28 f7 49 65 db 04 ba a7 19 c6 78 fc 42 9d 23
  3e 80 5f e1 4a f4 2b 95 88 36 e9 57 d3 6d b2 0c 11 af 70 ce 3b 85 5a e4 f9 47 98 26 a2 1c
  c3 7d 60 de 01 bf 14 aa 75 cb d6 68 b7 09 8d 33 ec 52 4f f1 2e 90 d9 67 b8 06 1b a5 7a c4
  40 fe 21 9f 82 3c e3 5d f6 48 97 29 34 8a 55 eb 6f d1 0e b0 ad 13 cc 72 87 39 e6 58 45 fb
  24 9a 1e a0 7f c1 dc 62 bd 03 a8 16 c9 77 6a d4 0b b5 31 8f 50 ee f3 4d 92 2c 00 bf 63 dc
  c6 79 a5 1a 91 2e f2 4d 57 e8 34 8b 3f 80 5c e3 f9 46 9a 25 ae 11 cd 72 68 d7 0b b4 7e c1
  1d a2 b8 07 db 64 ef 50 8c 33 29 96 4a f5 41 fe 22 9d 87 38 e4 5b d0 6f b3 0c 16 a9 75 ca
  fc 43 9f 20 3a 85 59 e6 6d d2 0e b1 ab 14 c8 77 c3 7c a0 1f 05 ba 66 d9 52 ed 31 8e 94 2b
  f7 48 82 3d e1 5e 44 fb 27 98 13 ac 70 cf d5 6a b6 09 bd 02 de 61 7b c4 18 a7 2c 93 4f f0
  ea 55 89 36 e5 5a 86 39 23 9c 40 ff 74 cb 17 a8 b2 0d d1 6e da 65 b9 06 1c a3 7f c0 4b f4
  28 97 8d 32 ee 51 9b 24 f8 47 5d e2 3e 81 0a b5 69 d6 cc 73 af 10 a4 1b c7 78 62 dd 01 be
  35 8a 56 e9 f3 4c 90 2f 19 a6 7a c5 df 60 bc 03 88 37 eb 54 4e f1 2d 92 26 99 45 fa e0 5f
  83 3c b7 08 d4 6b 71 ce 12 ad 67 d8 04 bb a1 1e c2 7d f6 49 95 2a 30 8f 53 ec 58 e7 3b 84
  9e 21 fd 42 c9 76 aa 15 0f b0 6c d3 00 c0 9d 5d 27 e7 ba 7a 4e 8e d3 13 69 a9 f4 34 9c 5c
  01 c1 bb 7b 26 e6 d2 12 4f 8f f5 35 68 a8 25 e5 b8 78 02 c2 9f 5f 6b ab f6 36 4c 8c d1 11
  b9 79 24 e4 9e 5e 03 c3 f7 37 6a aa d0 10 4d 8d 4a 8a d7 17 6d ad f0 30 04 c4 99 59 23 e3
  be 7e d6 16 4b 8b f1 31 6c ac 98 58 05 c5 bf 7f 22 e2 6f af f2 32 48 88 d5 15 21 e1 bc 7c
  06 c6 9b 5b f3 33 6e ae d4 14 49 89 bd 7d 20 e0 9a 5a 07 c7 94 54 09 c9 b3 73 2e ee da 1a
  47 87 fd 3d 60 a0 08 c8 95 55 2f ef b2 72 46 86 db 1b 61 a1 fc 3c b1 71 2c ec 96 56 0b cb
  ff 3f 62 a2 d8 18 45 85 2d ed b0 70 0a ca 97 57 63 a3 fe 3e 44 84 d9 19 de 1e 43 83 f9 39
  64 a4 90 50 0d cd b7 77 2a ea 42 82 df 1f 65 a5 f8 38 0c cc 91 51 2b eb b6 76 fb 3b 66 a6
  dc 1c 41 81 b5 75 28 e8 92 52 0f cf 67 a7 fa 3a 40 80 dd 1d 29 e9 b4 74 0e ce 93 53 00 c1
  9f 5e 23 e2 bc 7d 46 87 d9 18 65 a4 fa 3b 8c 4d 13 d2 af 6e 30 f1 ca 0b 55 94 e9 28 76 b7
  05 c4 9a 5b 26 e7 b9 78 43 82 dc 1d 60 a1 ff 3e 89 48 16 d7 aa 6b 35 f4 cf 0e 50 91 ec 2d
  73 b2 0a cb 95 54 29 e8 b6 77 4c 8d d3 12 6f ae f0 31 86 47 19 d8 a5 64 3a fb c0 01 5f 9e"%hex.
Definition gf_mul_table_base_33 : list byte := bytes_of "
  e3 22 7c bd 0f ce 90 51 2c ed b3 72 49 88 d6 17 6a ab f5 34 83 42 1c dd a0 61 3f fe c5 04
  5a 9b e6 27 79 b8 14 d5 8b 4a 37 f6 a8 69 52 93 cd 0c 71 b0 ee 2f 98 59 07 c6 bb 7a 24 e5
  de 1f 41 80 fd 3c 62 a3 11 d0 8e 4f 32 f3 ad 6c 57 96 c8 09 74 b5 eb 2a 9d 5c 02 c3 be 7f
  21 e0 db 1a 44 85 f8 39 67 a6 1e df 81 40 3d fc a2 63 58 99 c7 06 7b ba e4 25 92 53 0d cc
  b1 70 2e ef d4 15 4b 8a f7 36 68 a9 1b da 84 45 38 f9 a7 66 5d 9c c2 03 7e bf e1 20 97 56
  08 c9 b4 75 2b ea d1 10 4e 8f f2 33 6d ac 00 c2 99 5b 2f ed b6 74 5e 9c c7 05 71 b3 e8 2a
  bc 7e 25 e7 93 51 0a c8 e2 20 7b b9 cd 0f 54 96 65 a7 fc 3e 4a 88 d3 11 3b f9 a2 60 14 d6
  8d 4f d9 1b 40 82 f6 34 6f ad 87 45 1e dc a8 6a 31 f3 ca 08 53 91 e5 27 7c be 94 56 0d cf
  bb 79 22 e0 76 b4 ef 2d 59 9b c0 02 28 ea b1 73 07 c5 9e 5c af 6d 36 f4 80 42 19 db f1 33
  68 aa de 1c 47 85 13 d1 8a 48 3c fe a5 67 4d 8f d4 16 62 a0 fb 39 89 4b 10 d2 a6 64 3f fd
  d7 15 4e 8c f8 3a 61 a3 35 f7 ac 6e 1a d8 83 41 6b a9 f2 30 44 86 dd 1f ec 2e 75 b7 c3 01
  5a 98 b2 70 2b e9 9d 5f 04 c6 50 92 c9 0b 7f bd e6 24 0e cc 97 55 21 e3 b8 7a 43 81 da 18
  6c ae f5 37 1d df 84 46 32 f0 ab 69 ff 3d 66 a4 d0 12 49 8b a1 63 38 fa 8e 4c 17 d5 26 e4
  bf 7d 09 cb 90 52 78 ba e1 23 57 95 ce 0c 9a 58 03 c1 b5 77 2c ee c4 06 5d 9f eb 29 72 b0
  00 c3 9b 58 2b e8 b0 73 56 95 cd 0e 7d be e6 25 ac 6f 37 f4 87 44 1c df fa 39 61 a2 d1 12
  4a 89 45 86 de 1d 6e ad f5 36 13 d0 88 4b 38 fb a3 60 e9 2a 72 b1 c2 01 59 9a bf 7c 24 e7
  94 57 0f cc 8a 49 11 d2 a1 62 3a f9 dc 1f 47 84 f7 34 6c af 26 e5 bd 7e 0d ce 96 55 70 b3
  eb 28 5b 98 c0 03 cf 0c 54 97 e4 27 7f bc 99 5a 02 c1 b2 71 29 ea 63 a0 f8 3b 48 8b d3 10
  35 f6 ae 6d 1e dd 85 46 09 ca 92 51 22 e1 b9 7a 5f 9c c4 07 74 b7 ef 2c a5 66 3e fd 8e 4d
  15 d6 f3 30 68 ab d8 1b 43 80 4c 8f d7 14 67 a4 fc 3f 1a d9 81 42 31 f2 aa 69 e0 23 7b b8
  cb 08 50 93 b6 75 2d ee 9d 5e 06 c5 83 40 18 db a8 6b 33 f0 d5 16 4e 8d fe 3d 65 a6 2f ec
  b4 77 04 c7 9f 5c 79 ba e2 21 52 91 c9 0a c6 05 5d 9e ed 2e 76 b5 90 53 0b c8 bb 78 20 e3
  6a a9 f1 32 41 82 da 19 3c ff a7 64 17 d4 8c 4f 00 c4 95 51 37 f3 a2 66 6e aa fb 3f 59 9d
  cc 08 dc 18 49 8d eb 2f 7e ba b2 76 27 e3 85 41 10 d4 a5 61 30 f4 92 56 07 c3 cb 0f 5e 9a
  fc 38 69 ad 79 bd ec 28 4e 8a db 1f 17 d3 82 46 20 e4 b5 71 57 93 c2 06 60 a4 f5 31 39 fd
  ac 68 0e ca 9b 5f 8b 4f 1e da bc 78 29 ed e5 21 70 b4 d2 16 47 83 f2 36 67 a3 c5 01 50 94
  9c 58 09 cd ab 6f 3e fa 2e ea bb 7f 19 dd 8c 48 40 84 d5 11 77 b3 e2 26 ae 6a 3b ff 99 5d
  0c c8 c0 04 55 91 f7 33 62 a6 72 b6 e7 23 45 81 d0 14 1c d8 89 4d 2b ef be 7a 0b cf 9e 5a
  3c f8 a9 6d 65 a1 f0 34 52 96 c7 03 d7 13 42 86 e0 24 75 b1 b9 7d 2c e8 8e 4a 1b df f9 3d
  6c a8 ce 0a 5b 9f 97 53 02 c6 a0 64 35 f1 25 e1 b0 74 12 d6 87 43 4b 8f de 1a 7c b8 e9 2d
  5c 98 c9 0d 6b af fe 3a 32 f6 a7 63 05 c1 90 54 80 44 15 d1 b7 73 22 e6 ee 2a 7b bf d9 1d
  4c 88 00 c5 97 52 33 f6 a4 61 66 a3 f1 34 55 90 c2 07 cc 09 5b 9e ff 3a 68 ad aa 6f 3d f8
  99 5c 0e cb 85 40 12 d7 b6 73 21 e4 e3 26 74 b1 d0 15 47 82 49 8c de 1b 7a bf ed 28 2f ea
  b8 7d 1c d9 8b 4e 17 d2 80 45 24 e1 b3 76 71 b4 e6 23 42 87 d5 10 db 1e 4c 89 e8 2d 7f ba
  bd 78 2a ef 8e 4b 19 dc 92 57 05 c0 a1 64 36 f3 f4 31 63 a6 c7 02 50 95 5e 9b c9 0c 6d a8
  fa 3f 38 fd af 6a 0b ce 9c 59 2e eb b9 7c 1d d8 8a 4f 48 8d df 1a 7b be ec 29 e2 27 75 b0
  d1 14 46 83 84 41 13 d6 b7 72 20 e5 ab 6e 3c f9 98 5d 0f ca cd 08 5a 9f fe 3b 69 ac 67 a2
  f0 35 54 91 c3 06 01 c4 96 53 32 f7 a5 60 39 fc ae 6b 0a cf 9d 58 5f 9a c8 0d 6c a9 fb 3e
  f5 30 62 a7 c6 03 51 94 93 56 04 c1 a0 65 37 f2 bc 79 2b ee 8f 4a 18 dd da 1f 4d 88 e9 2c
  7e bb 70 b5 e7 22 43 86 d4 11 16 d3 81 44 25 e0 b2 77 00 c6 91 57 3f f9 ae 68 7e b8 ef 29
  41 87 d0 16 fc 3a 6d ab c3 05 52 94 82 44 13 d5 bd 7b 2c ea e5 23 74 b2 da 1c 4b 8d 9b 5d
  0a cc a4 62 35 f3 19 df 88 4e 26 e0 b7 71 67 a1 f6 30 58 9e c9 0f d7 11 46 80 e8 2e 79 bf
  a9 6f 38 fe 96 50 07 c1 2b ed ba 7c 14 d2 85 43 55 93 c4 02 6a ac fb 3d 32 f4 a3 65 0d cb
  9c 5a 4c 8a dd 1b 73 b5 e2 24 ce 08 5f 99 f1 37 60 a6 b0 76 21 e7 8f 49 1e d8 b3 75 22 e4
  8c 4a 1d db cd 0b 5c 9a f2 34 63 a5 4f 89 de 18 70 b6 e1 27 31 f7 a0 66 0e c8 9f 59 56 90
  c7 01 69 af f8 3e 28 ee b9 7f 17 d1 86 40 aa 6c 3b fd 95 53 04 c2 d4 12 45 83 eb 2d 7a bc
  64 a2 f5 33 5b 9d ca 0c 1a dc 8b 4d 25 e3 b4 72 98 5e 09 cf a7 61 36 f0 e6 20 77 b1 d9 1f
  48 8e 81 47 10 d6 be 78 2f e9 ff 39 6e a8 c0 06 51 97 7d bb ec 2a 42 84 d3 15 03 c5 92 54
  3c fa ad 6b 00 c7 93 54 3b fc a8 6f 76 b1 e5 22 4d 8a de 19 ec 2b 7f b8 d7 10 44 83 9a 5d
  09 ce a1 66 32 f5 c5 02 56 91 fe 39 6d aa b3 74 20 e7 88 4f 1b dc 29 ee ba 7d 12 d5 81 46"%hex.
Definition gf_mul_table_base_34 : list byte := bytes_of "
  5f 98 cc 0b 64 a3 f7 30 97 50 04 c3 ac 6b 3f f8 e1 26 72 b5 da 1d 49 8e 7b bc e8 2f 40 87
  d3 14 0d ca 9e 59 36 f1 a5 62 52 95 c1 06 69 ae fa 3d 24 e3 b7 70 1f d8 8c 4b be 79 2d ea
  85 42 16 d1 c8 0f 5b 9c f3 34 60 a7 33 f4 a0 67 08 cf 9b 5c 45 82 d6 11 7e b9 ed 2a df 18
  4c 8b e4 23 77 b0 a9 6e 3a fd 92 55 01 c6 f6 31 65 a2 cd 0a 5e 99 80 47 13 d4 bb 7c 28 ef
  1a dd 89 4e 21 e6 b2 75 6c ab ff 38 57 90 c4 03 a4 63 37 f0 9f 58 0c cb d2 15 41 86 e9 2e
  7a bd 48 8f db 1c 73 b4 e0 27 3e f9 ad 6a 05 c2 96 51 61 a6 f2 35 5a 9d c9 0e 17 d0 84 43
  2c eb bf 78 8d 4a 1e d9 b6 71 25 e2 fb 3c 68 af c0 07 53 94 00 c8 8d 45 07 cf 8a 42 0e c6
  83 4b 09 c1 84 4c 1c d4 91 59 1b d3 96 5e 12 da 9f 57 15 dd 98 50 38 f0 b5 7d 3f f7 b2 7a
  36 fe bb 73 31 f9 bc 74 24 ec a9 61 23 eb ae 66 2a e2 a7 6f 2d e5 a0 68 70 b8 fd 35 77 bf
  fa 32 7e b6 f3 3b 79 b1 f4 3c 6c a4 e1 29 6b a3 e6 2e 62 aa ef 27 65 ad e8 20 48 80 c5 0d
  4f 87 c2 0a 46 8e cb 03 41 89 cc 04 54 9c d9 11 53 9b de 16 5a 92 d7 1f 5d 95 d0 18 e0 28
  6d a5 e7 2f 6a a2 ee 26 63 ab e9 21 64 ac fc 34 71 b9 fb 33 76 be f2 3a 7f b7 f5 3d 78 b0
  d8 10 55 9d df 17 52 9a d6 1e 5b 93 d1 19 5c 94 c4 0c 49 81 c3 0b 4e 86 ca 02 47 8f cd 05
  40 88 90 58 1d d5 97 5f 1a d2 9e 56 13 db 99 51 14 dc 8c 44 01 c9 8b 43 06 ce 82 4a 0f c7
  85 4d 08 c0 a8 60 25 ed af 67 22 ea a6 6e 2b e3 a1 69 2c e4 b4 7c 39 f1 b3 7b 3e f6 ba 72
  37 ff bd 75 30 f8 00 c9 8f 46 03 ca 8c 45 06 cf 89 40 05 cc 8a 43 0c c5 83 4a 0f c6 80 49
  0a c3 85 4c 09 c0 86 4f 18 d1 97 5e 1b d2 94 5d 1e d7 91 58 1d d4 92 5b 14 dd 9b 52 17 de
  98 51 12 db 9d 54 11 d8 9e 57 30 f9 bf 76 33 fa bc 75 36 ff b9 70 35 fc ba 73 3c f5 b3 7a
  3f f6 b0 79 3a f3 b5 7c 39 f0 b6 7f 28 e1 a7 6e 2b e2 a4 6d 2e e7 a1 68 2d e4 a2 6b 24 ed
  ab 62 27 ee a8 61 22 eb ad 64 21 e8 ae 67 60 a9 ef 26 63 aa ec 25 66 af e9 20 65 ac ea 23
  6c a5 e3 2a 6f a6 e0 29 6a a3 e5 2c 69 a0 e6 2f 78 b1 f7 3e 7b b2 f4 3d 7e b7 f1 38 7d b4
  f2 3b 74 bd fb 32 77 be f8 31 72 bb fd 34 71 b8 fe 37 50 99 df 16 53 9a dc 15 56 9f d9 10
  55 9c da 13 5c 95 d3 1a 5f 96 d0 19 5a 93 d5 1c 59 90 d6 1f 48 81 c7 0e 4b 82 c4 0d 4e 87
  c1 08 4d 84 c2 0b 44 8d cb 02 47 8e c8 01 42 8b cd 04 41 88 ce 07 00 ca 89 43 0f c5 86 4c
  1e d4 97 5d 11 db 98 52 3c f6 b5 7f 33 f9 ba 70 22 e8 ab 61 2d e7 a4 6e 78 b2 f1 3b 77 bd
  fe 34 66 ac ef 25 69 a3 e0 2a 44 8e cd 07 4b 81 c2 08 5a 90 d3 19 55 9f dc 16 f0 3a 79 b3
  ff 35 76 bc ee 24 67 ad e1 2b 68 a2 cc 06 45 8f c3 09 4a 80 d2 18 5b 91 dd 17 54 9e 88 42
  01 cb 87 4d 0e c4 96 5c 1f d5 99 53 10 da b4 7e 3d f7 bb 71 32 f8 aa 60 23 e9 a5 6f 2c e6
  fd 37 74 be f2 38 7b b1 e3 29 6a a0 ec 26 65 af c1 0b 48 82 ce 04 47 8d df 15 56 9c d0 1a
  59 93 85 4f 0c c6 8a 40 03 c9 9b 51 12 d8 94 5e 1d d7 b9 73 30 fa b6 7c 3f f5 a7 6d 2e e4
  a8 62 21 eb 0d c7 84 4e 02 c8 8b 41 13 d9 9a 50 1c d6 95 5f 31 fb b8 72 3e f4 b7 7d 2f e5
  a6 6c 20 ea a9 63 75 bf fc 36 7a b0 f3 39 6b a1 e2 28 64 ae ed 27 49 83 c0 0a 46 8c cf 05
  57 9d de 14 58 92 d1 1b 00 cb 8b 40 0b c0 80 4b 16 dd 9d 56 1d d6 96 5d 2c e7 a7 6c 27 ec
  ac 67 3a f1 b1 7a 31 fa ba 71 58 93 d3 18 53 98 d8 13 4e 85 c5 0e 45 8e ce 05 74 bf ff 34
  7f b4 f4 3f 62 a9 e9 22 69 a2 e2 29 b0 7b 3b f0 bb 70 30 fb a6 6d 2d e6 ad 66 26 ed 9c 57
  17 dc 97 5c 1c d7 8a 41 01 ca 81 4a 0a c1 e8 23 63 a8 e3 28 68 a3 fe 35 75 be f5 3e 7e b5
  c4 0f 4f 84 cf 04 44 8f d2 19 59 92 d9 12 52 99 7d b6 f6 3d 76 bd fd 36 6b a0 e0 2b 60 ab
  eb 20 51 9a da 11 5a 91 d1 1a 47 8c cc 07 4c 87 c7 0c 25 ee ae 65 2e e5 a5 6e 33 f8 b8 73
  38 f3 b3 78 09 c2 82 49 02 c9 89 42 1f d4 94 5f 14 df 9f 54 cd 06 46 8d c6 0d 4d 86 db 10
  50 9b d0 1b 5b 90 e1 2a 6a a1 ea 21 61 aa f7 3c 7c b7 fc 37 77 bc 95 5e 1e d5 9e 55 15 de
  83 48 08 c3 88 43 03 c8 b9 72 32 f9 b2 79 39 f2 af 64 24 ef a4 6f 2f e4 00 cc 85 49 17 db
  92 5e 2e e2 ab 67 39 f5 bc 70 5c 90 d9 15 4b 87 ce 02 72 be f7 3b 65 a9 e0 2c b8 74 3d f1
  af 63 2a e6 96 5a 13 df 81 4d 04 c8 e4 28 61 ad f3 3f 76 ba ca 06 4f 83 dd 11 58 94 6d a1
  e8 24 7a b6 ff 33 43 8f c6 0a 54 98 d1 1d 31 fd b4 78 26 ea a3 6f 1f d3 9a 56 08 c4 8d 41
  d5 19 50 9c c2 0e 47 8b fb 37 7e b2 ec 20 69 a5 89 45 0c c0 9e 52 1b d7 a7 6b 22 ee b0 7c
  35 f9 da 16 5f 93 cd 01 48 84 f4 38 71 bd e3 2f 66 aa 86 4a 03 cf 91 5d 14 d8 a8 64 2d e1
  bf 73 3a f6 62 ae e7 2b 75 b9 f0 3c 4c 80 c9 05 5b 97 de 12 3e f2 bb 77 29 e5 ac 60 10 dc
  95 59 07 cb 82 4e b7 7b 32 fe a0 6c 25 e9 99 55 1c d0 8e 42 0b c7 eb 27 6e a2 fc 30 79 b5
  c5 09 40 8c d2 1e 57 9b 0f c3 8a 46 18 d4 9d 51 21 ed a4 68 36 fa b3 7f 53 9f d6 1a 44 88
  c1 0d 7d b1 f8 34 6a a6 ef 23 00 cd 87 4a 13 de 94 59 26 eb a1 6c 35 f8 b2 7f 4c 81 cb 06"%hex.
Definition gf_mul_table_base_35 : list byte := bytes_of "
  5f 92 d8 15 6a a7 ed 20 79 b4 fe 33 98 55 1f d2 8b 46 0c c1 be 73 39 f4 ad 60 2a e7 d4 19
  53 9e c7 0a 40 8d f2 3f 75 b8 e1 2c 66 ab 2d e0 aa 67 3e f3 b9 74 0b c6 8c 41 18 d5 9f 52
  61 ac e6 2b 72 bf f5 38 47 8a c0 0d 54 99 d3 1e b5 78 32 ff a6 6b 21 ec 93 5e 14 d9 80 4d
  07 ca f9 34 7e b3 ea 27 6d a0 df 12 58 95 cc 01 4b 86 5a 97 dd 10 49 84 ce 03 7c b1 fb 36
  6f a2 e8 25 16 db 91 5c 05 c8 82 4f 30 fd b7 7a 23 ee a4 69 c2 0f 45 88 d1 1c 56 9b e4 29
  63 ae f7 3a 70 bd 8e 43 09 c4 9d 50 1a d7 a8 65 2f e2 bb 76 3c f1 77 ba f0 3d 64 a9 e3 2e
  51 9c d6 1b 42 8f c5 08 3b f6 bc 71 28 e5 af 62 1d d0 9a 57 0e c3 89 44 ef 22 68 a5 fc 31
  7b b6 c9 04 4e 83 da 17 5d 90 a3 6e 24 e9 b0 7d 37 fa 85 48 02 cf 96 5b 11 dc 00 ce 81 4f
  1f d1 9e 50 3e f0 bf 71 21 ef a0 6e 7c b2 fd 33 63 ad e2 2c 42 8c c3 0d 5d 93 dc 12 f8 36
  79 b7 e7 29 66 a8 c6 08 47 89 d9 17 58 96 84 4a 05 cb 9b 55 1a d4 ba 74 3b f5 a5 6b 24 ea
  ed 23 6c a2 f2 3c 73 bd d3 1d 52 9c cc 02 4d 83 91 5f 10 de 8e 40 0f c1 af 61 2e e0 b0 7e
  31 ff 15 db 94 5a 0a c4 8b 45 2b e5 aa 64 34 fa b5 7b 69 a7 e8 26 76 b8 f7 39 57 99 d6 18
  48 86 c9 07 c7 09 46 88 d8 16 59 97 f9 37 78 b6 e6 28 67 a9 bb 75 3a f4 a4 6a 25 eb 85 4b
  04 ca 9a 54 1b d5 3f f1 be 70 20 ee a1 6f 01 cf 80 4e 1e d0 9f 51 43 8d c2 0c 5c 92 dd 13
  7d b3 fc 32 62 ac e3 2d 2a e4 ab 65 35 fb b4 7a 14 da 95 5b 0b c5 8a 44 56 98 d7 19 49 87
  c8 06 68 a6 e9 27 77 b9 f6 38 d2 1c 53 9d cd 03 4c 82 ec 22 6d a3 f3 3d 72 bc ae 60 2f e1
  b1 7f 30 fe 90 5e 11 df 8f 41 0e c0 00 cf 83 4c 1b d4 98 57 36 f9 b5 7a 2d e2 ae 61 6c a3
  ef 20 77 b8 f4 3b 5a 95 d9 16 41 8e c2 0d d8 17 5b 94 c3 0c 40 8f ee 21 6d a2 f5 3a 76 b9
  b4 7b 37 f8 af 60 2c e3 82 4d 01 ce 99 56 1a d5 ad 62 2e e1 b6 79 35 fa 9b 54 18 d7 80 4f
  03 cc c1 0e 42 8d da 15 59 96 f7 38 74 bb ec 23 6f a0 75 ba f6 39 6e a1 ed 22 43 8c c0 0f
  58 97 db 14 19 d6 9a 55 02 cd 81 4e 2f e0 ac 63 34 fb b7 78 47 88 c4 0b 5c 93 df 10 71 be
  f2 3d 6a a5 e9 26 2b e4 a8 67 30 ff b3 7c 1d d2 9e 51 06 c9 85 4a 9f 50 1c d3 84 4b 07 c8
  a9 66 2a e5 b2 7d 31 fe f3 3c 70 bf e8 27 6b a4 c5 0a 46 89 de 11 5d 92 ea 25 69 a6 f1 3e
  72 bd dc 13 5f 90 c7 08 44 8b 86 49 05 ca 9d 52 1e d1 b0 7f 33 fc ab 64 28 e7 32 fd b1 7e
  29 e6 aa 65 04 cb 87 48 1f d0 9c 53 5e 91 dd 12 45 8a c6 09 68 a7 eb 24 73 bc f0 3f 00 d0
  bd 6d 67 b7 da 0a ce 1e 73 a3 a9 79 14 c4 81 51 3c ec e6 36 5b 8b 4f 9f f2 22 28 f8 95 45
  1f cf a2 72 78 a8 c5 15 d1 01 6c bc b6 66 0b db 9e 4e 23 f3 f9 29 44 94 50 80 ed 3d 37 e7
  8a 5a 3e ee 83 53 59 89 e4 34 f0 20 4d 9d 97 47 2a fa bf 6f 02 d2 d8 08 65 b5 71 a1 cc 1c
  16 c6 ab 7b 21 f1 9c 4c 46 96 fb 2b ef 3f 52 82 88 58 35 e5 a0 70 1d cd c7 17 7a aa 6e be
  d3 03 09 d9 b4 64 7c ac c1 11 1b cb a6 76 b2 62 0f df d5 05 68 b8 fd 2d 40 90 9a 4a 27 f7
  33 e3 8e 5e 54 84 e9 39 63 b3 de 0e 04 d4 b9 69 ad 7d 10 c0 ca 1a 77 a7 e2 32 5f 8f 85 55
  38 e8 2c fc 91 41 4b 9b f6 26 42 92 ff 2f 25 f5 98 48 8c 5c 31 e1 eb 3b 56 86 c3 13 7e ae
  a4 74 19 c9 0d dd b0 60 6a ba d7 07 5d 8d e0 30 3a ea 87 57 93 43 2e fe f4 24 49 99 dc 0c
  61 b1 bb 6b 06 d6 12 c2 af 7f 75 a5 c8 18 00 d1 bf 6e 63 b2 dc 0d c6 17 79 a8 a5 74 1a cb
  91 40 2e ff f2 23 4d 9c 57 86 e8 39 34 e5 8b 5a 3f ee 80 51 5c 8d e3 32 f9 28 46 97 9a 4b
  25 f4 ae 7f 11 c0 cd 1c 72 a3 68 b9 d7 06 0b da b4 65 7e af c1 10 1d cc a2 73 b8 69 07 d6
  db 0a 64 b5 ef 3e 50 81 8c 5d 33 e2 29 f8 96 47 4a 9b f5 24 41 90 fe 2f 22 f3 9d 4c 87 56
  38 e9 e4 35 5b 8a d0 01 6f be b3 62 0c dd 16 c7 a9 78 75 a4 ca 1b fc 2d 43 92 9f 4e 20 f1
  3a eb 85 54 59 88 e6 37 6d bc d2 03 0e df b1 60 ab 7a 14 c5 c8 19 77 a6 c3 12 7c ad a0 71
  1f ce 05 d4 ba 6b 66 b7 d9 08 52 83 ed 3c 31 e0 8e 5f 94 45 2b fa f7 26 48 99 82 53 3d ec
  e1 30 5e 8f 44 95 fb 2a 27 f6 98 49 13 c2 ac 7d 70 a1 cf 1e d5 04 6a bb b6 67 09 d8 bd 6c
  02 d3 de 0f 61 b0 7b aa c4 15 18 c9 a7 76 2c fd 93 42 4f 9e f0 21 ea 3b 55 84 89 58 36 e7
  00 d2 b9 6b 6f bd d6 04 de 0c 67 b5 b1 63 08 da a1 73 18 ca ce 1c 77 a5 7f ad c6 14 10 c2
  a9 7b 5f 8d e6 34 30 e2 89 5b 81 53 38 ea ee 3c 57 85 fe 2c 47 95 91 43 28 fa 20 f2 99 4b
  4f 9d f6 24 be 6c 07 d5 d1 03 68 ba 60 b2 d9 0b 0f dd b6 64 1f cd a6 74 70 a2 c9 1b c1 13
  78 aa ae 7c 17 c5 e1 33 58 8a 8e 5c 37 e5 3f ed 86 54 50 82 e9 3b 40 92 f9 2b 2f fd 96 44
  9e 4c 27 f5 f1 23 48 9a 61 b3 d8 0a 0e dc b7 65 bf 6d 06 d4 d0 02 69 bb c0 12 79 ab af 7d
  16 c4 1e cc a7 75 71 a3 c8 1a 3e ec 87 55 51 83 e8 3a e0 32 59 8b 8f 5d 36 e4 9f 4d 26 f4
  f0 22 49 9b 41 93 f8 2a 2e fc 97 45 df 0d 66 b4 b0 62 09 db 01 d3 b8 6a 6e bc d7 05 7e ac
  c7 15 11 c3 a8 7a a0 72 19 cb cf 1d 76 a4 80 52 39 eb ef 3d 56 84 5e 8c e7 35 31 e3 88 5a"%hex.
Definition gf_mul_table_base_36 : list byte := bytes_of "
  21 f3 98 4a 4e 9c f7 25 ff 2d 46 94 90 42 29 fb 00 d3 bb 68 6b b8 d0 03 d6 05 6d be bd 6e
  06 d5 b1 62 0a d9 da 09 61 b2 67 b4 dc 0f 0c df b7 64 7f ac c4 17 14 c7 af 7c a9 7a 12 c1
  c2 11 79 aa ce 1d 75 a6 a5 76 1e cd 18 cb a3 70 73 a0 c8 1b fe 2d 45 96 95 46 2e fd 28 fb
  93 40 43 90 f8 2b 4f 9c f4 27 24 f7 9f 4c 99 4a 22 f1 f2 21 49 9a 81 52 3a e9 ea 39 51 82
  57 84 ec 3f 3c ef 87 54 30 e3 8b 58 5b 88 e0 33 e6 35 5d 8e 8d 5e 36 e5 e1 32 5a 89 8a 59
  31 e2 37 e4 8c 5f 5c 8f e7 34 50 83 eb 38 3b e8 80 53 86 55 3d ee ed 3e 56 85 9e 4d 25 f6
  f5 26 4e 9d 48 9b f3 20 23 f0 98 4b 2f fc 94 47 44 97 ff 2c f9 2a 42 91 92 41 29 fa 1f cc
  a4 77 74 a7 cf 1c c9 1a 72 a1 a2 71 19 ca ae 7d 15 c6 c5 16 7e ad 78 ab c3 10 13 c0 a8 7b
  60 b3 db 08 0b d8 b0 63 b6 65 0d de dd 0e 66 b5 d1 02 6a b9 ba 69 01 d2 07 d4 bc 6f 6c bf
  d7 04 00 d4 b5 61 77 a3 c2 16 ee 3a 5b 8f 99 4d 2c f8 c1 15 74 a0 b6 62 03 d7 2f fb 9a 4e
  58 8c ed 39 9f 4b 2a fe e8 3c 5d 89 71 a5 c4 10 06 d2 b3 67 5e 8a eb 3f 29 fd 9c 48 b0 64
  05 d1 c7 13 72 a6 23 f7 96 42 54 80 e1 35 cd 19 78 ac ba 6e 0f db e2 36 57 83 95 41 20 f4
  0c d8 b9 6d 7b af ce 1a bc 68 09 dd cb 1f 7e aa 52 86 e7 33 25 f1 90 44 7d a9 c8 1c 0a de
  bf 6b 93 47 26 f2 e4 30 51 85 46 92 f3 27 31 e5 84 50 a8 7c 1d c9 df 0b 6a be 87 53 32 e6
  f0 24 45 91 69 bd dc 08 1e ca ab 7f d9 0d 6c b8 ae 7a 1b cf 37 e3 82 56 40 94 f5 21 18 cc
  ad 79 6f bb da 0e f6 22 43 97 81 55 34 e0 65 b1 d0 04 12 c6 a7 73 8b 5f 3e ea fc 28 49 9d
  a4 70 11 c5 d3 07 66 b2 4a 9e ff 2b 3d e9 88 5c fa 2e 4f 9b 8d 59 38 ec 14 c0 a1 75 63 b7
  d6 02 3b ef 8e 5a 4c 98 f9 2d d5 01 60 b4 a2 76 17 c3 00 d5 b7 62 73 a6 c4 11 e6 33 51 84
  95 40 22 f7 d1 04 66 b3 a2 77 15 c0 37 e2 80 55 44 91 f3 26 bf 6a 08 dd cc 19 7b ae 59 8c
  ee 3b 2a ff 9d 48 6e bb d9 0c 1d c8 aa 7f 88 5d 3f ea fb 2e 4c 99 63 b6 d4 01 10 c5 a7 72
  85 50 32 e7 f6 23 41 94 b2 67 05 d0 c1 14 76 a3 54 81 e3 36 27 f2 90 45 dc 09 6b be af 7a
  18 cd 3a ef 8d 58 49 9c fe 2b 0d d8 ba 6f 7e ab c9 1c eb 3e 5c 89 98 4d 2f fa c6 13 71 a4
  b5 60 02 d7 20 f5 97 42 53 86 e4 31 17 c2 a0 75 64 b1 d3 06 f1 24 46 93 82 57 35 e0 79 ac
  ce 1b 0a df bd 68 9f 4a 28 fd ec 39 5b 8e a8 7d 1f ca db 0e 6c b9 4e 9b f9 2c 3d e8 8a 5f
  a5 70 12 c7 d6 03 61 b4 43 96 f4 21 30 e5 87 52 74 a1 c3 16 07 d2 b0 65 92 47 25 f0 e1 34
  56 83 1a cf ad 78 69 bc de 0b fc 29 4b 9e 8f 5a 38 ed cb 1e 7c a9 b8 6d 0f da 2d f8 9a 4f
  5e 8b e9 3c 00 d6 b1 67 7f a9 ce 18 fe 28 4f 99 81 57 30 e6 e1 37 50 86 9e 48 2f f9 1f c9
  ae 78 60 b6 d1 07 df 09 6e b8 a0 76 11 c7 21 f7 90 46 5e 88 ef 39 3e e8 8f 59 41 97 f0 26
  c0 16 71 a7 bf 69 0e d8 a3 75 12 c4 dc 0a 6d bb 5d 8b ec 3a 22 f4 93 45 42 94 f3 25 3d eb
  8c 5a bc 6a 0d db c3 15 72 a4 7c aa cd 1b 03 d5 b2 64 82 54 33 e5 fd 2b 4c 9a 9d 4b 2c fa
  e2 34 53 85 63 b5 d2 04 1c ca ad 7b 5b 8d ea 3c 24 f2 95 43 a5 73 14 c2 da 0c 6b bd ba 6c
  0b dd c5 13 74 a2 44 92 f5 23 3b ed 8a 5c 84 52 35 e3 fb 2d 4a 9c 7a ac cb 1d 05 d3 b4 62
  65 b3 d4 02 1a cc ab 7d 9b 4d 2a fc e4 32 55 83 f8 2e 49 9f 87 51 36 e0 06 d0 b7 61 79 af
  c8 1e 19 cf a8 7e 66 b0 d7 01 e7 31 56 80 98 4e 29 ff 27 f1 96 40 58 8e e9 3f d9 0f 68 be
  a6 70 17 c1 c6 10 77 a1 b9 6f 08 de 38 ee 89 5f 47 91 f6 20 00 d7 b3 64 7b ac c8 1f f6 21
  45 92 8d 5a 3e e9 f1 26 42 95 8a 5d 39 ee 07 d0 b4 63 7c ab cf 18 ff 28 4c 9b 84 53 37 e0
  09 de ba 6d 72 a5 c1 16 0e d9 bd 6a 75 a2 c6 11 f8 2f 4b 9c 83 54 30 e7 e3 34 50 87 98 4f
  2b fc 15 c2 a6 71 6e b9 dd 0a 12 c5 a1 76 69 be da 0d e4 33 57 80 9f 48 2c fb 1c cb af 78
  67 b0 d4 03 ea 3d 59 8e 91 46 22 f5 ed 3a 5e 89 96 41 25 f2 1b cc a8 7f 60 b7 d3 04 db 0c
  68 bf a0 77 13 c4 2d fa 9e 49 56 81 e5 32 2a fd 99 4e 51 86 e2 35 dc 0b 6f b8 a7 70 14 c3
  24 f3 97 40 5f 88 ec 3b d2 05 61 b6 a9 7e 1a cd d5 02 66 b1 ae 79 1d ca 23 f4 90 47 58 8f
  eb 3c 38 ef 8b 5c 43 94 f0 27 ce 19 7d aa b5 62 06 d1 c9 1e 7a ad b2 65 01 d6 3f e8 8c 5b
  44 93 f7 20 c7 10 74 a3 bc 6b 0f d8 31 e6 82 55 4a 9d f9 2e 36 e1 85 52 4d 9a fe 29 c0 17
  73 a4 bb 6c 08 df 00 d8 ad 75 47 9f ea 32 8e 56 23 fb c9 11 64 bc 01 d9 ac 74 46 9e eb 33
  8f 57 22 fa c8 10 65 bd 02 da af 77 45 9d e8 30 8c 54 21 f9 cb 13 66 be 03 db ae 76 44 9c
  e9 31 8d 55 20 f8 ca 12 67 bf 04 dc a9 71 43 9b ee 36 8a 52 27 ff cd 15 60 b8 05 dd a8 70
  42 9a ef 37 8b 53 26 fe cc 14 61 b9 06 de ab 73 41 99 ec 34 88 50 25 fd cf 17 62 ba 07 df
  aa 72 40 98 ed 35 89 51 24 fc ce 16 63 bb 08 d0 a5 7d 4f 97 e2 3a 86 5e 2b f3 c1 19 6c b4
  09 d1 a4 7c 4e 96 e3 3b 87 5f 2a f2 c0 18 6d b5 0a d2 a7 7f 4d 95 e0 38 84 5c 29 f1 c3 1b
  6e b6 0b d3 a6 7e 4c 94 e1 39 85 5d 28 f0 c2 1a 6f b7 0c d4 a1 79 4b 93 e6 3e 82 5a 2f f7"%hex.
Definition gf_mul_table_base_37 : list byte := bytes_of "
  c5 1d 68 b0 0d d5 a0 78 4a 92 e7 3f 83 5b 2e f6 c4 1c 69 b1 0e d6 a3 7b 49 91 e4 3c 80 58
  2d f5 c7 1f 6a b2 0f d7 a2 7a 48 90 e5 3d 81 59 2c f4 c6 1e 6b b3 00 d9 af 76 43 9a ec 35
  86 5f 29 f0 c5 1c 6a b3 11 c8 be 67 52 8b fd 24 97 4e 38 e1 d4 0d 7b a2 22 fb 8d 54 61 b8
  ce 17 a4 7d 0b d2 e7 3e 48 91 33 ea 9c 45 70 a9 df 06 b5 6c 1a c3 f6 2f 59 80 44 9d eb 32
  07 de a8 71 c2 1b 6d b4 81 58 2e f7 55 8c fa 23 16 cf b9 60 d3 0a 7c a5 90 49 3f e6 66 bf
  c9 10 25 fc 8a 53 e0 39 4f 96 a3 7a 0c d5 77 ae d8 01 34 ed 9b 42 f1 28 5e 87 b2 6b 1d c4
  88 51 27 fe cb 12 64 bd 0e d7 a1 78 4d 94 e2 3b 99 40 36 ef da 03 75 ac 1f c6 b0 69 5c 85
  f3 2a aa 73 05 dc e9 30 46 9f 2c f5 83 5a 6f b6 c0 19 bb 62 14 cd f8 21 57 8e 3d e4 92 4b
  7e a7 d1 08 cc 15 63 ba 8f 56 20 f9 4a 93 e5 3c 09 d0 a6 7f dd 04 72 ab 9e 47 31 e8 5b 82
  f4 2d 18 c1 b7 6e ee 37 41 98 ad 74 02 db 68 b1 c7 1e 2b f2 84 5d ff 26 50 89 bc 65 13 ca
  79 a0 d6 0f 3a e3 95 4c 00 da a9 73 4f 95 e6 3c 9e 44 37 ed d1 0b 78 a2 21 fb 88 52 6e b4
  c7 1d bf 65 16 cc f0 2a 59 83 42 98 eb 31 0d d7 a4 7e dc 06 75 af 93 49 3a e0 63 b9 ca 10
  2c f6 85 5f fd 27 54 8e b2 68 1b c1 84 5e 2d f7 cb 11 62 b8 1a c0 b3 69 55 8f fc 26 a5 7f
  0c d6 ea 30 43 99 3b e1 92 48 74 ae dd 07 c6 1c 6f b5 89 53 20 fa 58 82 f1 2b 17 cd be 64
  e7 3d 4e 94 a8 72 01 db 79 a3 d0 0a 36 ec 9f 45 15 cf bc 66 5a 80 f3 29 8b 51 22 f8 c4 1e
  6d b7 34 ee 9d 47 7b a1 d2 08 aa 70 03 d9 e5 3f 4c 96 57 8d fe 24 18 c2 b1 6b c9 13 60 ba
  86 5c 2f f5 76 ac df 05 39 e3 90 4a e8 32 41 9b a7 7d 0e d4 91 4b 38 e2 de 04 77 ad 0f d5
  a6 7c 40 9a e9 33 b0 6a 19 c3 ff 25 56 8c 2e f4 87 5d 61 bb c8 12 d3 09 7a a0 9c 46 35 ef
  4d 97 e4 3e 02 d8 ab 71 f2 28 5b 81 bd 67 14 ce 6c b6 c5 1f 23 f9 8a 50 00 db ab 70 4b 90
  e0 3b 96 4d 3d e6 dd 06 76 ad 31 ea 9a 41 7a a1 d1 0a a7 7c 0c d7 ec 37 47 9c 62 b9 c9 12
  29 f2 82 59 f4 2f 5f 84 bf 64 14 cf 53 88 f8 23 18 c3 b3 68 c5 1e 6e b5 8e 55 25 fe c4 1f
  6f b4 8f 54 24 ff 52 89 f9 22 19 c2 b2 69 f5 2e 5e 85 be 65 15 ce 63 b8 c8 13 28 f3 83 58
  a6 7d 0d d6 ed 36 46 9d 30 eb 9b 40 7b a0 d0 0b 97 4c 3c e7 dc 07 77 ac 01 da aa 71 4a 91
  e1 3a 95 4e 3e e5 de 05 75 ae 03 d8 a8 73 48 93 e3 38 a4 7f 0f d4 ef 34 44 9f 32 e9 99 42
  79 a2 d2 09 f7 2c 5c 87 bc 67 17 cc 61 ba ca 11 2a f1 81 5a c6 1d 6d b6 8d 56 26 fd 50 8b
  fb 20 1b c0 b0 6b 51 8a fa 21 1a c1 b1 6a c7 1c 6c b7 8c 57 27 fc 60 bb cb 10 2b f0 80 5b
  f6 2d 5d 86 bd 66 16 cd 33 e8 98 43 78 a3 d3 08 a5 7e 0e d5 ee 35 45 9e 02 d9 a9 72 49 92
  e2 39 94 4f 3f e4 df 04 74 af 00 dc a5 79 57 8b f2 2e ae 72 0b d7 f9 25 5c 80 41 9d e4 38
  16 ca b3 6f ef 33 4a 96 b8 64 1d c1 82 5e 27 fb d5 09 70 ac 2c f0 89 55 7b a7 de 02 c3 1f
  66 ba 94 48 31 ed 6d b1 c8 14 3a e6 9f 43 19 c5 bc 60 4e 92 eb 37 b7 6b 12 ce e0 3c 45 99
  58 84 fd 21 0f d3 aa 76 f6 2a 53 8f a1 7d 04 d8 9b 47 3e e2 cc 10 69 b5 35 e9 90 4c 62 be
  c7 1b da 06 7f a3 8d 51 28 f4 74 a8 d1 0d 23 ff 86 5a 32 ee 97 4b 65 b9 c0 1c 9c 40 39 e5
  cb 17 6e b2 73 af d6 0a 24 f8 81 5d dd 01 78 a4 8a 56 2f f3 b0 6c 15 c9 e7 3b 42 9e 1e c2
  bb 67 49 95 ec 30 f1 2d 54 88 a6 7a 03 df 5f 83 fa 26 08 d4 ad 71 2b f7 8e 52 7c a0 d9 05
  85 59 20 fc d2 0e 77 ab 6a b6 cf 13 3d e1 98 44 c4 18 61 bd 93 4f 36 ea a9 75 0c d0 fe 22
  5b 87 07 db a2 7e 50 8c f5 29 e8 34 4d 91 bf 63 1a c6 46 9a e3 3f 11 cd b4 68 00 dd a7 7a
  53 8e f4 29 a6 7b 01 dc f5 28 52 8f 51 8c f6 2b 02 df a5 78 f7 2a 50 8d a4 79 03 de a2 7f
  05 d8 f1 2c 56 8b 04 d9 a3 7e 57 8a f0 2d f3 2e 54 89 a0 7d 07 da 55 88 f2 2f 06 db a1 7c
  59 84 fe 23 0a d7 ad 70 ff 22 58 85 ac 71 0b d6 08 d5 af 72 5b 86 fc 21 ae 73 09 d4 fd 20
  5a 87 fb 26 5c 81 a8 75 0f d2 5d 80 fa 27 0e d3 a9 74 aa 77 0d d0 f9 24 5e 83 0c d1 ab 76
  5f 82 f8 25 b2 6f 15 c8 e1 3c 46 9b 14 c9 b3 6e 47 9a e0 3d e3 3e 44 99 b0 6d 17 ca 45 98
  e2 3f 16 cb b1 6c 10 cd b7 6a 43 9e e4 39 b6 6b 11 cc e5 38 42 9f 41 9c e6 3b 12 cf b5 68
  e7 3a 40 9d b4 69 13 ce eb 36 4c 91 b8 65 1f c2 4d 90 ea 37 1e c3 b9 64 ba 67 1d c0 e9 34
  4e 93 1c c1 bb 66 4f 92 e8 35 49 94 ee 33 1a c7 bd 60 ef 32 48 95 bc 61 1b c6 18 c5 bf 62
  4b 96 ec 31 be 63 19 c4 ed 30 4a 97 00 de a1 7f 5f 81 fe 20 be 60 1f c1 e1 3f 40 9e 61 bf
  c0 1e 3e e0 9f 41 df 01 7e a0 80 5e 21 ff c2 1c 63 bd 9d 43 3c e2 7c a2 dd 03 23 fd 82 5c
  a3 7d 02 dc fc 22 5d 83 1d c3 bc 62 42 9c e3 3d 99 47 38 e6 c6 18 67 b9 27 f9 86 58 78 a6
  d9 07 f8 26 59 87 a7 79 06 d8 46 98 e7 39 19 c7 b8 66 5b 85 fa 24 04 da a5 7b e5 3b 44 9a
  ba 64 1b c5 3a e4 9b 45 65 bb c4 1a 84 5a 25 fb db 05 7a a4 2f f1 8e 50 70 ae d1 0f 91 4f
  30 ee ce 10 6f b1 4e 90 ef 31 11 cf b0 6e f0 2e 51 8f af 71 0e d0 ed 33 4c 92 b2 6c 13 cd"%hex.
Definition gf_mul_table_base_38 : list byte := bytes_of "
  53 8d f2 2c 0c d2 ad 73 8c 52 2d f3 d3 0d 72 ac 32 ec 93 4d 6d b3 cc 12 b6 68 17 c9 e9 37
  48 96 08 d6 a9 77 57 89 f6 28 d7 09 76 a8 88 56 29 f7 69 b7 c8 16 36 e8 97 49 74 aa d5 0b
  2b f5 8a 54 ca 14 6b b5 95 4b 34 ea 15 cb b4 6a 4a 94 eb 35 ab 75 0a d4 f4 2a 55 8b 00 df
  a3 7c 5b 84 f8 27 b6 69 15 ca ed 32 4e 91 71 ae d2 0d 2a f5 89 56 c7 18 64 bb 9c 43 3f e0
  e2 3d 41 9e b9 66 1a c5 54 8b f7 28 0f d0 ac 73 93 4c 30 ef c8 17 6b b4 25 fa 86 59 7e a1
  dd 02 d9 06 7a a5 82 5d 21 fe 6f b0 cc 13 34 eb 97 48 a8 77 0b d4 f3 2c 50 8f 1e c1 bd 62
  45 9a e6 39 3b e4 98 47 60 bf c3 1c 8d 52 2e f1 d6 09 75 aa 4a 95 e9 36 11 ce b2 6d fc 23
  5f 80 a7 78 04 db af 70 0c d3 f4 2b 57 88 19 c6 ba 65 42 9d e1 3e de 01 7d a2 85 5a 26 f9
  68 b7 cb 14 33 ec 90 4f 4d 92 ee 31 16 c9 b5 6a fb 24 58 87 a0 7f 03 dc 3c e3 9f 40 67 b8
  c4 1b 8a 55 29 f6 d1 0e 72 ad 76 a9 d5 0a 2d f2 8e 51 c0 1f 63 bc 9b 44 38 e7 07 d8 a4 7b
  5c 83 ff 20 b1 6e 12 cd ea 35 49 96 94 4b 37 e8 cf 10 6c b3 22 fd 81 5e 79 a6 da 05 e5 3a
  46 99 be 61 1d c2 53 8c f0 2f 08 d7 ab 74 00 e0 dd 3d a7 47 7a 9a 53 b3 8e 6e f4 14 29 c9
  a6 46 7b 9b 01 e1 dc 3c f5 15 28 c8 52 b2 8f 6f 51 b1 8c 6c f6 16 2b cb 02 e2 df 3f a5 45
  78 98 f7 17 2a ca 50 b0 8d 6d a4 44 79 99 03 e3 de 3e a2 42 7f 9f 05 e5 d8 38 f1 11 2c cc
  56 b6 8b 6b 04 e4 d9 39 a3 43 7e 9e 57 b7 8a 6a f0 10 2d cd f3 13 2e ce 54 b4 89 69 a0 40
  7d 9d 07 e7 da 3a 55 b5 88 68 f2 12 2f cf 06 e6 db 3b a1 41 7c 9c 59 b9 84 64 fe 1e 23 c3
  0a ea d7 37 ad 4d 70 90 ff 1f 22 c2 58 b8 85 65 ac 4c 71 91 0b eb d6 36 08 e8 d5 35 af 4f
  72 92 5b bb 86 66 fc 1c 21 c1 ae 4e 73 93 09 e9 d4 34 fd 1d 20 c0 5a ba 87 67 fb 1b 26 c6
  5c bc 81 61 a8 48 75 95 0f ef d2 32 5d bd 80 60 fa 1a 27 c7 0e ee d3 33 a9 49 74 94 aa 4a
  77 97 0d ed d0 30 f9 19 24 c4 5e be 83 63 0c ec d1 31 ab 4b 76 96 5f bf 82 62 f8 18 25 c5
  00 e1 df 3e a3 42 7c 9d 5b ba 84 65 f8 19 27 c6 b6 57 69 88 15 f4 ca 2b ed 0c 32 d3 4e af
  91 70 71 90 ae 4f d2 33 0d ec 2a cb f5 14 89 68 56 b7 c7 26 18 f9 64 85 bb 5a 9c 7d 43 a2
  3f de e0 01 e2 03 3d dc 41 a0 9e 7f b9 58 66 87 1a fb c5 24 54 b5 8b 6a f7 16 28 c9 0f ee
  d0 31 ac 4d 73 92 93 72 4c ad 30 d1 ef 0e c8 29 17 f6 6b 8a b4 55 25 c4 fa 1b 86 67 59 b8
  7e 9f a1 40 dd 3c 02 e3 d9 38 06 e7 7a 9b a5 44 82 63 5d bc 21 c0 fe 1f 6f 8e b0 51 cc 2d
  13 f2 34 d5 eb 0a 97 76 48 a9 a8 49 77 96 0b ea d4 35 f3 12 2c cd 50 b1 8f 6e 1e ff c1 20
  bd 5c 62 83 45 a4 9a 7b e6 07 39 d8 3b da e4 05 98 79 47 a6 60 81 bf 5e c3 22 1c fd 8d 6c
  52 b3 2e cf f1 10 d6 37 09 e8 75 94 aa 4b 4a ab 95 74 e9 08 36 d7 11 f0 ce 2f b2 53 6d 8c
  fc 1d 23 c2 5f be 80 61 a7 46 78 99 04 e5 db 3a 00 e2 d9 3b af 4d 76 94 43 a1 9a 78 ec 0e
  35 d7 86 64 5f bd 29 cb f0 12 c5 27 1c fe 6a 88 b3 51 11 f3 c8 2a be 5c 67 85 52 b0 8b 69
  fd 1f 24 c6 97 75 4e ac 38 da e1 03 d4 36 0d ef 7b 99 a2 40 22 c0 fb 19 8d 6f 54 b6 61 83
  b8 5a ce 2c 17 f5 a4 46 7d 9f 0b e9 d2 30 e7 05 3e dc 48 aa 91 73 33 d1 ea 08 9c 7e 45 a7
  70 92 a9 4b df 3d 06 e4 b5 57 6c 8e 1a f8 c3 21 f6 14 2f cd 59 bb 80 62 44 a6 9d 7f eb 09
  32 d0 07 e5 de 3c a8 4a 71 93 c2 20 1b f9 6d 8f b4 56 81 63 58 ba 2e cc f7 15 55 b7 8c 6e
  fa 18 23 c1 16 f4 cf 2d b9 5b 60 82 d3 31 0a e8 7c 9e a5 47 90 72 49 ab 3f dd e6 04 66 84
  bf 5d c9 2b 10 f2 25 c7 fc 1e 8a 68 53 b1 e0 02 39 db 4f ad 96 74 a3 41 7a 98 0c ee d5 37
  77 95 ae 4c d8 3a 01 e3 34 d6 ed 0f 9b 79 42 a0 f1 13 28 ca 5e bc 87 65 b2 50 6b 89 1d ff
  c4 26 00 e3 db 38 ab 48 70 93 4b a8 90 73 e0 03 3b d8 96 75 4d ae 3d de e6 05 dd 3e 06 e5
  76 95 ad 4e 31 d2 ea 09 9a 79 41 a2 7a 99 a1 42 d1 32 0a e9 a7 44 7c 9f 0c ef d7 34 ec 0f
  37 d4 47 a4 9c 7f 62 81 b9 5a c9 2a 12 f1 29 ca f2 11 82 61 59 ba f4 17 2f cc 5f bc 84 67
  bf 5c 64 87 14 f7 cf 2c 53 b0 88 6b f8 1b 23 c0 18 fb c3 20 b3 50 68 8b c5 26 1e fd 6e 8d
  b5 56 8e 6d 55 b6 25 c6 fe 1d c4 27 1f fc 6f 8c b4 57 8f 6c 54 b7 24 c7 ff 1c 52 b1 89 6a
  f9 1a 22 c1 19 fa c2 21 b2 51 69 8a f5 16 2e cd 5e bd 85 66 be 5d 65 86 15 f6 ce 2d 63 80
  b8 5b c8 2b 13 f0 28 cb f3 10 83 60 58 bb a6 45 7d 9e 0d ee d6 35 ed 0e 36 d5 46 a5 9d 7e
  30 d3 eb 08 9b 78 40 a3 7b 98 a0 43 d0 33 0b e8 97 74 4c af 3c df e7 04 dc 3f 07 e4 77 94
  ac 4f 01 e2 da 39 aa 49 71 92 4a a9 91 72 e1 02 3a d9 00 e4 d5 31 b7 53 62 86 73 97 a6 42
  c4 20 11 f5 e6 02 33 d7 51 b5 84 60 95 71 40 a4 22 c6 f7 13 d1 35 04 e0 66 82 b3 57 a2 46
  77 93 15 f1 c0 24 37 d3 e2 06 80 64 55 b1 44 a0 91 75 f3 17 26 c2 bf 5b 6a 8e 08 ec dd 39
  cc 28 19 fd 7b 9f ae 4a 59 bd 8c 68 ee 0a 3b df 2a ce ff 1b 9d 79 48 ac 6e 8a bb 5f d9 3d
  0c e8 1d f9 c8 2c aa 4e 7f 9b 88 6c 5d b9 3f db ea 0e fb 1f 2e ca 4c a8 99 7d 63 87 b6 52"%hex.
Definition gf_mul_table_base_39 : list byte := bytes_of "
  d4 30 01 e5 10 f4 c5 21 a7 43 72 96 85 61 50 b4 32 d6 e7 03 f6 12 23 c7 41 a5 94 70 b2 56
  67 83 05 e1 d0 34 c1 25 14 f0 76 92 a3 47 54 b0 81 65 e3 07 36 d2 27 c3 f2 16 90 74 45 a1
  dc 38 09 ed 6b 8f be 5a af 4b 7a 9e 18 fc cd 29 3a de ef 0b 8d 69 58 bc 49 ad 9c 78 fe 1a
  2b cf 0d e9 d8 3c ba 5e 6f 8b 7e 9a ab 4f c9 2d 1c f8 eb 0f 3e da 5c b8 89 6d 98 7c 4d a9
  2f cb fa 1e 00 e5 d7 32 b3 56 64 81 7b 9e ac 49 c8 2d 1f fa f6 13 21 c4 45 a0 92 77 8d 68
  5a bf 3e db e9 0c f1 14 26 c3 42 a7 95 70 8a 6f 5d b8 39 dc ee 0b 07 e2 d0 35 b4 51 63 86
  7c 99 ab 4e cf 2a 18 fd ff 1a 28 cd 4c a9 9b 7e 84 61 53 b6 37 d2 e0 05 09 ec de 3b ba 5f
  6d 88 72 97 a5 40 c1 24 16 f3 0e eb d9 3c bd 58 6a 8f 75 90 a2 47 c6 23 11 f4 f8 1d 2f ca
  4b ae 9c 79 83 66 54 b1 30 d5 e7 02 e3 06 34 d1 50 b5 87 62 98 7d 4f aa 2b ce fc 19 15 f0
  c2 27 a6 43 71 94 6e 8b b9 5c dd 38 0a ef 12 f7 c5 20 a1 44 76 93 69 8c be 5b da 3f 0d e8
  e4 01 33 d6 57 b2 80 65 9f 7a 48 ad 2c c9 fb 1e 1c f9 cb 2e af 4a 78 9d 67 82 b0 55 d4 31
  03 e6 ea 0f 3d d8 59 bc 8e 6b 91 74 46 a3 22 c7 f5 10 ed 08 3a df 5e bb 89 6c 96 73 41 a4
  25 c0 f2 17 1b fe cc 29 a8 4d 7f 9a 60 85 b7 52 d3 36 04 e1 00 e6 d1 37 bf 59 6e 88 63 85
  b2 54 dc 3a 0d eb c6 20 17 f1 79 9f a8 4e a5 43 74 92 1a fc cb 2d 91 77 40 a6 2e c8 ff 19
  f2 14 23 c5 4d ab 9c 7a 57 b1 86 60 e8 0e 39 df 34 d2 e5 03 8b 6d 5a bc 3f d9 ee 08 80 66
  51 b7 5c ba 8d 6b e3 05 32 d4 f9 1f 28 ce 46 a0 97 71 9a 7c 4b ad 25 c3 f4 12 ae 48 7f 99
  11 f7 c0 26 cd 2b 1c fa 72 94 a3 45 68 8e b9 5f d7 31 06 e0 0b ed da 3c b4 52 65 83 7e 98
  af 49 c1 27 10 f6 1d fb cc 2a a2 44 73 95 b8 5e 69 8f 07 e1 d6 30 db 3d 0a ec 64 82 b5 53
  ef 09 3e d8 50 b6 81 67 8c 6a 5d bb 33 d5 e2 04 29 cf f8 1e 96 70 47 a1 4a ac 9b 7d f5 13
  24 c2 41 a7 90 76 fe 18 2f c9 22 c4 f3 15 9d 7b 4c aa 87 61 56 b0 38 de e9 0f e4 02 35 d3
  5b bd 8a 6c d0 36 01 e7 6f 89 be 58 b3 55 62 84 0c ea dd 3b 16 f0 c7 21 a9 4f 78 9e 75 93
  a4 42 ca 2c 1b fd 00 e7 d3 34 bb 5c 68 8f 6b 8c b8 5f d0 37 03 e4 d6 31 05 e2 6d 8a be 59
  bd 5a 6e 89 06 e1 d5 32 b1 56 62 85 0a ed d9 3e da 3d 09 ee 61 86 b2 55 67 80 b4 53 dc 3b
  0f e8 0c eb df 38 b7 50 64 83 7f 98 ac 4b c4 23 17 f0 14 f3 c7 20 af 48 7c 9b a9 4e 7a 9d
  12 f5 c1 26 c2 25 11 f6 79 9e aa 4d ce 29 1d fa 75 92 a6 41 a5 42 76 91 1e f9 cd 2a 18 ff
  cb 2c a3 44 70 97 73 94 a0 47 c8 2f 1b fc fe 19 2d ca 45 a2 96 71 95 72 46 a1 2e c9 fd 1a
  28 cf fb 1c 93 74 40 a7 43 a4 90 77 f8 1f 2b cc 4f a8 9c 7b f4 13 27 c0 24 c3 f7 10 9f 78
  4c ab 99 7e 4a ad 22 c5 f1 16 f2 15 21 c6 49 ae 9a 7d 81 66 52 b5 3a dd e9 0e ea 0d 39 de
  51 b6 82 65 57 b0 84 63 ec 0b 3f d8 3c db ef 08 87 60 54 b3 30 d7 e3 04 8b 6c 58 bf 5b bc
  88 6f e0 07 33 d4 e6 01 35 d2 5d ba 8e 69 8d 6a 5e b9 36 d1 e5 02 00 e8 cd 25 87 6f 4a a2
  13 fb de 36 94 7c 59 b1 26 ce eb 03 a1 49 6c 84 35 dd f8 10 b2 5a 7f 97 4c a4 81 69 cb 23
  06 ee 5f b7 92 7a d8 30 15 fd 6a 82 a7 4f ed 05 20 c8 79 91 b4 5c fe 16 33 db 98 70 55 bd
  1f f7 d2 3a 8b 63 46 ae 0c e4 c1 29 be 56 73 9b 39 d1 f4 1c ad 45 60 88 2a c2 e7 0f d4 3c
  19 f1 53 bb 9e 76 c7 2f 0a e2 40 a8 8d 65 f2 1a 3f d7 75 9d b8 50 e1 09 2c c4 66 8e ab 43
  2d c5 e0 08 aa 42 67 8f 3e d6 f3 1b b9 51 74 9c 0b e3 c6 2e 8c 64 41 a9 18 f0 d5 3d 9f 77
  52 ba 61 89 ac 44 e6 0e 2b c3 72 9a bf 57 f5 1d 38 d0 47 af 8a 62 c0 28 0d e5 54 bc 99 71
  d3 3b 1e f6 b5 5d 78 90 32 da ff 17 a6 4e 6b 83 21 c9 ec 04 93 7b 5e b6 14 fc d9 31 80 68
  4d a5 07 ef ca 22 f9 11 34 dc 7e 96 b3 5b ea 02 27 cf 6d 85 a0 48 df 37 12 fa 58 b0 95 7d
  cc 24 01 e9 4b a3 86 6e 00 e9 cf 26 83 6a 4c a5 1b f2 d4 3d 98 71 57 be 36 df f9 10 b5 5c
  7a 93 2d c4 e2 0b ae 47 61 88 6c 85 a3 4a ef 06 20 c9 77 9e b8 51 f4 1d 3b d2 5a b3 95 7c
  d9 30 16 ff 41 a8 8e 67 c2 2b 0d e4 d8 31 17 fe 5b b2 94 7d c3 2a 0c e5 40 a9 8f 66 ee 07
  21 c8 6d 84 a2 4b f5 1c 3a d3 76 9f b9 50 b4 5d 7b 92 37 de f8 11 af 46 60 89 2c c5 e3 0a
  82 6b 4d a4 01 e8 ce 27 99 70 56 bf 1a f3 d5 3c ad 44 62 8b 2e c7 e1 08 b6 5f 79 90 35 dc
  fa 13 9b 72 54 bd 18 f1 d7 3e 80 69 4f a6 03 ea cc 25 c1 28 0e e7 42 ab 8d 64 da 33 15 fc
  59 b0 96 7f f7 1e 38 d1 74 9d bb 52 ec 05 23 ca 6f 86 a0 49 75 9c ba 53 f6 1f 39 d0 6e 87
  a1 48 ed 04 22 cb 43 aa 8c 65 c0 29 0f e6 58 b1 97 7e db 32 14 fd 19 f0 d6 3f 9a 73 55 bc
  02 eb cd 24 81 68 4e a7 2f c6 e0 09 ac 45 63 8a 34 dd fb 12 b7 5e 78 91 00 ea c9 23 8f 65
  46 ac 03 e9 ca 20 8c 66 45 af 06 ec cf 25 89 63 40 aa 05 ef cc 26 8a 60 43 a9 0c e6 c5 2f
  83 69 4a a0 0f e5 c6 2c 80 6a 49 a3 0a e0 c3 29 85 6f 4c a6 09 e3 c0 2a 86 6c 4f a5 18 f2
  d1 3b 97 7d 5e b4 1b f1 d2 38 94 7e 5d b7 1e f4 d7 3d 91 7b 58 b2 1d f7 d4 3e 92 78 5b b1"%hex.
Definition gf_mul_table_base_40 : list byte := bytes_of "
  14 fe dd 37 9b 71 52 b8 17 fd de 34 98 72 51 bb 12 f8 db 31 9d 77 54 be 11 fb d8 32 9e 74
  57 bd 30 da f9 13 bf 55 76 9c 33 d9 fa 10 bc 56 75 9f 36 dc ff 15 b9 53 70 9a 35 df fc 16
  ba 50 73 99 3c d6 f5 1f b3 59 7a 90 3f d5 f6 1c b0 5a 79 93 3a d0 f3 19 b5 5f 7c 96 39 d3
  f0 1a b6 5c 7f 95 28 c2 e1 0b a7 4d 6e 84 2b c1 e2 08 a4 4e 6d 87 2e c4 e7 0d a1 4b 68 82
  2d c7 e4 0e a2 48 6b 81 24 ce ed 07 ab 41 62 88 27 cd ee 04 a8 42 61 8b 22 c8 eb 01 ad 47
  64 8e 21 cb e8 02 ae 44 67 8d 00 eb cb 20 8b 60 40 ab 0b e0 c0 2b 80 6b 4b a0 16 fd dd 36
  9d 76 56 bd 1d f6 d6 3d 96 7d 5d b6 2c c7 e7 0c a7 4c 6c 87 27 cc ec 07 ac 47 67 8c 3a d1
  f1 1a b1 5a 7a 91 31 da fa 11 ba 51 71 9a 58 b3 93 78 d3 38 18 f3 53 b8 98 73 d8 33 13 f8
  4e a5 85 6e c5 2e 0e e5 45 ae 8e 65 ce 25 05 ee 74 9f bf 54 ff 14 34 df 7f 94 b4 5f f4 1f
  3f d4 62 89 a9 42 e9 02 22 c9 69 82 a2 49 e2 09 29 c2 b0 5b 7b 90 3b d0 f0 1b bb 50 70 9b
  30 db fb 10 a6 4d 6d 86 2d c6 e6 0d ad 46 66 8d 26 cd ed 06 9c 77 57 bc 17 fc dc 37 97 7c
  5c b7 1c f7 d7 3c 8a 61 41 aa 01 ea ca 21 81 6a 4a a1 0a e1 c1 2a e8 03 23 c8 63 88 a8 43
  e3 08 28 c3 68 83 a3 48 fe 15 35 de 75 9e be 55 f5 1e 3e d5 7e 95 b5 5e c4 2f 0f e4 4f a4
  84 6f cf 24 04 ef 44 af 8f 64 d2 39 19 f2 59 b2 92 79 d9 32 12 f9 52 b9 99 72 00 ec c5 29
  97 7b 52 be 33 df f6 1a a4 48 61 8d 66 8a a3 4f f1 1d 34 d8 55 b9 90 7c c2 2e 07 eb cc 20
  09 e5 5b b7 9e 72 ff 13 3a d6 68 84 ad 41 aa 46 6f 83 3d d1 f8 14 99 75 5c b0 0e e2 cb 27
  85 69 40 ac 12 fe d7 3b b6 5a 73 9f 21 cd e4 08 e3 0f 26 ca 74 98 b1 5d d0 3c 15 f9 47 ab
  82 6e 49 a5 8c 60 de 32 1b f7 7a 96 bf 53 ed 01 28 c4 2f c3 ea 06 b8 54 7d 91 1c f0 d9 35
  8b 67 4e a2 17 fb d2 3e 80 6c 45 a9 24 c8 e1 0d b3 5f 76 9a 71 9d b4 58 e6 0a 23 cf 42 ae
  87 6b d5 39 10 fc db 37 1e f2 4c a0 89 65 e8 04 2d c1 7f 93 ba 56 bd 51 78 94 2a c6 ef 03
  8e 62 4b a7 19 f5 dc 30 92 7e 57 bb 05 e9 c0 2c a1 4d 64 88 36 da f3 1f f4 18 31 dd 63 8f
  a6 4a c7 2b 02 ee 50 bc 95 79 5e b2 9b 77 c9 25 0c e0 6d 81 a8 44 fa 16 3f d3 38 d4 fd 11
  af 43 6a 86 0b e7 ce 22 9c 70 59 b5 00 ed c7 2a 93 7e 54 b9 3b d6 fc 11 a8 45 6f 82 76 9b
  b1 5c e5 08 22 cf 4d a0 8a 67 de 33 19 f4 ec 01 2b c6 7f 92 b8 55 d7 3a 10 fd 44 a9 83 6e
  9a 77 5d b0 09 e4 ce 23 a1 4c 66 8b 32 df f5 18 c5 28 02 ef 56 bb 91 7c fe 13 39 d4 6d 80
  aa 47 b3 5e 74 99 20 cd e7 0a 88 65 4f a2 1b f6 dc 31 29 c4 ee 03 ba 57 7d 90 12 ff d5 38
  81 6c 46 ab 5f b2 98 75 cc 21 0b e6 64 89 a3 4e f7 1a 30 dd 97 7a 50 bd 04 e9 c3 2e ac 41
  6b 86 3f d2 f8 15 e1 0c 26 cb 72 9f b5 58 da 37 1d f0 49 a4 8e 63 7b 96 bc 51 e8 05 2f c2
  40 ad 87 6a d3 3e 14 f9 0d e0 ca 27 9e 73 59 b4 36 db f1 1c a5 48 62 8f 52 bf 95 78 c1 2c
  06 eb 69 84 ae 43 fa 17 3d d0 24 c9 e3 0e b7 5a 70 9d 1f f2 d8 35 8c 61 4b a6 be 53 79 94
  2d c0 ea 07 85 68 42 af 16 fb d1 3c c8 25 0f e2 5b b6 9c 71 f3 1e 34 d9 60 8d a7 4a 00 ee
  c1 2f 9f 71 5e b0 23 cd e2 0c bc 52 7d 93 46 a8 87 69 d9 37 18 f6 65 8b a4 4a fa 14 3b d5
  8c 62 4d a3 13 fd d2 3c af 41 6e 80 30 de f1 1f ca 24 0b e5 55 bb 94 7a e9 07 28 c6 76 98
  b7 59 05 eb c4 2a 9a 74 5b b5 26 c8 e7 09 b9 57 78 96 43 ad 82 6c dc 32 1d f3 60 8e a1 4f
  ff 11 3e d0 89 67 48 a6 16 f8 d7 39 aa 44 6b 85 35 db f4 1a cf 21 0e e0 50 be 91 7f ec 02
  2d c3 73 9d b2 5c 0a e4 cb 25 95 7b 54 ba 29 c7 e8 06 b6 58 77 99 4c a2 8d 63 d3 3d 12 fc
  6f 81 ae 40 f0 1e 31 df 86 68 47 a9 19 f7 d8 36 a5 4b 64 8a 3a d4 fb 15 c0 2e 01 ef 5f b1
  9e 70 e3 0d 22 cc 7c 92 bd 53 0f e1 ce 20 90 7e 51 bf 2c c2 ed 03 b3 5d 72 9c 49 a7 88 66
  d6 38 17 f9 6a 84 ab 45 f5 1b 34 da 83 6d 42 ac 1c f2 dd 33 a0 4e 61 8f 3f d1 fe 10 c5 2b
  04 ea 5a b4 9b 75 e6 08 27 c9 79 97 b8 56 00 ef c3 2c 9b 74 58 b7 2b c4 e8 07 b0 5f 73 9c
  56 b9 95 7a cd 22 0e e1 7d 92 be 51 e6 09 25 ca ac 43 6f 80 37 d8 f4 1b 87 68 44 ab 1c f3
  df 30 fa 15 39 d6 61 8e a2 4d d1 3e 12 fd 4a a5 89 66 45 aa 86 69 de 31 1d f2 6e 81 ad 42
  f5 1a 36 d9 13 fc d0 3f 88 67 4b a4 38 d7 fb 14 a3 4c 60 8f e9 06 2a c5 72 9d b1 5e c2 2d
  01 ee 59 b6 9a 75 bf 50 7c 93 24 cb e7 08 94 7b 57 b8 0f e0 cc 23 8a 65 49 a6 11 fe d2 3d
  a1 4e 62 8d 3a d5 f9 16 dc 33 1f f0 47 a8 84 6b f7 18 34 db 6c 83 af 40 26 c9 e5 0a bd 52
  7e 91 0d e2 ce 21 96 79 55 ba 70 9f b3 5c eb 04 28 c7 5b b4 98 77 c0 2f 03 ec cf 20 0c e3
  54 bb 97 78 e4 0b 27 c8 7f 90 bc 53 99 76 5a b5 02 ed c1 2e b2 5d 71 9e 29 c6 ea 05 63 8c
  a0 4f f8 17 3b d4 48 a7 8b 64 d3 3c 10 ff 35 da f6 19 ae 41 6d 82 1e f1 dd 32 85 6a 46 a9
  00 f0 fd 0d e7 17 1a ea d3 23 2e de 34 c4 c9 39 bb 4b 46 b6 5c ac a1 51 68 98 95 65 8f 7f
  72 82 6b 9b 96 66 8c 7c 71 81 b8 48 45 b5 5f af a2 52 d0 20 2d dd 37 c7 ca 3a 03 f3 fe 0e"%hex.
Definition gf_mul_table_base_41 : list byte := bytes_of "
  e4 14 19 e9 d6 26 2b db 31 c1 cc 3c 05 f5 f8 08 e2 12 1f ef 6d 9d 90 60 8a 7a 77 87 be 4e
  43 b3 59 a9 a4 54 bd 4d 40 b0 5a aa a7 57 6e 9e 93 63 89 79 74 84 06 f6 fb 0b e1 11 1c ec
  d5 25 28 d8 32 c2 cf 3f b1 41 4c bc 56 a6 ab 5b 62 92 9f 6f 85 75 78 88 0a fa f7 07 ed 1d
  10 e0 d9 29 24 d4 3e ce c3 33 da 2a 27 d7 3d cd c0 30 09 f9 f4 04 ee 1e 13 e3 61 91 9c 6c
  86 76 7b 8b b2 42 4f bf 55 a5 a8 58 67 97 9a 6a 80 70 7d 8d b4 44 49 b9 53 a3 ae 5e dc 2c
  21 d1 3b cb c6 36 0f ff f2 02 e8 18 15 e5 0c fc f1 01 eb 1b 16 e6 df 2f 22 d2 38 c8 c5 35
  b7 47 4a ba 50 a0 ad 5d 64 94 99 69 83 73 7e 8e 00 f1 ff 0e e3 12 1c ed db 2a 24 d5 38 c9
  c7 36 ab 5a 54 a5 48 b9 b7 46 70 81 8f 7e 93 62 6c 9d 4b ba b4 45 a8 59 57 a6 90 61 6f 9e
  73 82 8c 7d e0 11 1f ee 03 f2 fc 0d 3b ca c4 35 d8 29 27 d6 96 67 69 98 75 84 8a 7b 4d bc
  b2 43 ae 5f 51 a0 3d cc c2 33 de 2f 21 d0 e6 17 19 e8 05 f4 fa 0b dd 2c 22 d3 3e cf c1 30
  06 f7 f9 08 e5 14 1a eb 76 87 89 78 95 64 6a 9b ad 5c 52 a3 4e bf b1 40 31 c0 ce 3f d2 23
  2d dc ea 1b 15 e4 09 f8 f6 07 9a 6b 65 94 79 88 86 77 41 b0 be 4f a2 53 5d ac 7a 8b 85 74
  99 68 66 97 a1 50 5e af 42 b3 bd 4c d1 20 2e df 32 c3 cd 3c 0a fb f5 04 e9 18 16 e7 a7 56
  58 a9 44 b5 bb 4a 7c 8d 83 72 9f 6e 60 91 0c fd f3 02 ef 1e 10 e1 d7 26 28 d9 34 c5 cb 3a
  ec 1d 13 e2 0f fe f0 01 37 c6 c8 39 d4 25 2b da 47 b6 b8 49 a4 55 5b aa 9c 6d 63 92 7f 8e
  80 71 00 f2 f9 0b ef 1d 16 e4 c3 31 3a c8 2c de d5 27 9b 69 62 90 74 86 8d 7f 58 aa a1 53
  b7 45 4e bc 2b d9 d2 20 c4 36 3d cf e8 1a 11 e3 07 f5 fe 0c b0 42 49 bb 5f ad a6 54 73 81
  8a 78 9c 6e 65 97 56 a4 af 5d b9 4b 40 b2 95 67 6c 9e 7a 88 83 71 cd 3f 34 c6 22 d0 db 29
  0e fc f7 05 e1 13 18 ea 7d 8f 84 76 92 60 6b 99 be 4c 47 b5 51 a3 a8 5a e6 14 1f ed 09 fb
  f0 02 25 d7 dc 2e ca 38 33 c1 ac 5e 55 a7 43 b1 ba 48 6f 9d 96 64 80 72 79 8b 37 c5 ce 3c
  d8 2a 21 d3 f4 06 0d ff 1b e9 e2 10 87 75 7e 8c 68 9a 91 63 44 b6 bd 4f ab 59 52 a0 1c ee
  e5 17 f3 01 0a f8 df 2d 26 d4 30 c2 c9 3b fa 08 03 f1 15 e7 ec 1e 39 cb c0 32 d6 24 2f dd
  61 93 98 6a 8e 7c 77 85 a2 50 5b a9 4d bf b4 46 d1 23 28 da 3e cc c7 35 12 e0 eb 19 fd 0f
  04 f6 4a b8 b3 41 a5 57 5c ae 89 7b 70 82 66 94 9f 6d 00 f3 fb 08 eb 18 10 e3 cb 38 30 c3
  20 d3 db 28 8b 78 70 83 60 93 9b 68 40 b3 bb 48 ab 58 50 a3 0b f8 f0 03 e0 13 1b e8 c0 33
  3b c8 2b d8 d0 23 80 73 7b 88 6b 98 90 63 4b b8 b0 43 a0 53 5b a8 16 e5 ed 1e fd 0e 06 f5
  dd 2e 26 d5 36 c5 cd 3e 9d 6e 66 95 76 85 8d 7e 56 a5 ad 5e bd 4e 46 b5 1d ee e6 15 f6 05
  0d fe d6 25 2d de 3d ce c6 35 96 65 6d 9e 7d 8e 86 75 5d ae a6 55 b6 45 4d be 2c df d7 24
  c7 34 3c cf e7 14 1c ef 0c ff f7 04 a7 54 5c af 4c bf b7 44 6c 9f 97 64 87 74 7c 8f 27 d4
  dc 2f cc 3f 37 c4 ec 1f 17 e4 07 f4 fc 0f ac 5f 57 a4 47 b4 bc 4f 67 94 9c 6f 8c 7f 77 84
  3a c9 c1 32 d1 22 2a d9 f1 02 0a f9 1a e9 e1 12 b1 42 4a b9 5a a9 a1 52 7a 89 81 72 91 62
  6a 99 31 c2 ca 39 da 29 21 d2 fa 09 01 f2 11 e2 ea 19 ba 49 41 b2 51 a2 aa 59 71 82 8a 79
  9a 69 61 92 00 f4 f5 01 f7 03 02 f6 f3 07 06 f2 04 f0 f1 05 fb 0f 0e fa 0c f8 f9 0d 08 fc
  fd 09 ff 0b 0a fe eb 1f 1e ea 1c e8 e9 1d 18 ec ed 19 ef 1b 1a ee 10 e4 e5 11 e7 13 12 e6
  e3 17 16 e2 14 e0 e1 15 cb 3f 3e ca 3c c8 c9 3d 38 cc cd 39 cf 3b 3a ce 30 c4 c5 31 c7 33
  32 c6 c3 37 36 c2 34 c0 c1 35 20 d4 d5 21 d7 23 22 d6 d3 27 26 d2 24 d0 d1 25 db 2f 2e da
  2c d8 d9 2d 28 dc dd 29 df 2b 2a de 8b 7f 7e 8a 7c 88 89 7d 78 8c 8d 79 8f 7b 7a 8e 70 84
  85 71 87 73 72 86 83 77 76 82 74 80 81 75 60 94 95 61 97 63 62 96 93 67 66 92 64 90 91 65
  9b 6f 6e 9a 6c 98 99 6d 68 9c 9d 69 9f 6b 6a 9e 40 b4 b5 41 b7 43 42 b6 b3 47 46 b2 44 b0
  b1 45 bb 4f 4e ba 4c b8 b9 4d 48 bc bd 49 bf 4b 4a be ab 5f 5e aa 5c a8 a9 5d 58 ac ad 59
  af 5b 5a ae 50 a4 a5 51 a7 53 52 a6 a3 57 56 a2 54 a0 a1 55 00 f5 f7 02 f3 06 04 f1 fb 0e
  0c f9 08 fd ff 0a eb 1e 1c e9 18 ed ef 1a 10 e5 e7 12 e3 16 14 e1 cb 3e 3c c9 38 cd cf 3a
  30 c5 c7 32 c3 36 34 c1 20 d5 d7 22 d3 26 24 d1 db 2e 2c d9 28 dd df 2a 8b 7e 7c 89 78 8d
  8f 7a 70 85 87 72 83 76 74 81 60 95 97 62 93 66 64 91 9b 6e 6c 99 68 9d 9f 6a 40 b5 b7 42
  b3 46 44 b1 bb 4e 4c b9 48 bd bf 4a ab 5e 5c a9 58 ad af 5a 50 a5 a7 52 a3 56 54 a1 0b fe
  fc 09 f8 0d 0f fa f0 05 07 f2 03 f6 f4 01 e0 15 17 e2 13 e6 e4 11 1b ee ec 19 e8 1d 1f ea
  c0 35 37 c2 33 c6 c4 31 3b ce cc 39 c8 3d 3f ca 2b de dc 29 d8 2d 2f da d0 25 27 d2 23 d6
  d4 21 80 75 77 82 73 86 84 71 7b 8e 8c 79 88 7d 7f 8a 6b 9e 9c 69 98 6d 6f 9a 90 65 67 92
  63 96 94 61 4b be bc 49 b8 4d 4f ba b0 45 47 b2 43 b6 b4 41 a0 55 57 a2 53 a6 a4 51 5b ae
  ac 59 a8 5d 5f aa 00 f6 f1 07 ff 09 0e f8 e3 15 12 e4 1c ea ed 1b db 2d 2a dc 24 d2 d5 23"%hex.
Definition gf_mul_table_base_42 : list byte := bytes_of "
  38 ce c9 3f c7 31 36 c0 ab 5d 5a ac 54 a2 a5 53 48 be b9 4f b7 41 46 b0 70 86 81 77 8f 79
  7e 88 93 65 62 94 6c 9a 9d 6b 4b bd ba 4c b4 42 45 b3 a8 5e 59 af 57 a1 a6 50 90 66 61 97
  6f 99 9e 68 73 85 82 74 8c 7a 7d 8b e0 16 11 e7 1f e9 ee 18 03 f5 f2 04 fc 0a 0d fb 3b cd
  ca 3c c4 32 35 c3 d8 2e 29 df 27 d1 d6 20 96 60 67 91 69 9f 98 6e 75 83 84 72 8a 7c 7b 8d
  4d bb bc 4a b2 44 43 b5 ae 58 5f a9 51 a7 a0 56 3d cb cc 3a c2 34 33 c5 de 28 2f d9 21 d7
  d0 26 e6 10 17 e1 19 ef e8 1e 05 f3 f4 02 fa 0c 0b fd dd 2b 2c da 22 d4 d3 25 3e c8 cf 39
  c1 37 30 c6 06 f0 f7 01 f9 0f 08 fe e5 13 14 e2 1a ec eb 1d 76 80 87 71 89 7f 78 8e 95 63
  64 92 6a 9c 9b 6d ad 5b 5c aa 52 a4 a3 55 4e b8 bf 49 b1 47 40 b6 00 f7 f3 04 fb 0c 08 ff
  eb 1c 18 ef 10 e7 e3 14 cb 3c 38 cf 30 c7 c3 34 20 d7 d3 24 db 2c 28 df 8b 7c 78 8f 70 87
  83 74 60 97 93 64 9b 6c 68 9f 40 b7 b3 44 bb 4c 48 bf ab 5c 58 af 50 a7 a3 54 0b fc f8 0f
  f0 07 03 f4 e0 17 13 e4 1b ec e8 1f c0 37 33 c4 3b cc c8 3f 2b dc d8 2f d0 27 23 d4 80 77
  73 84 7b 8c 88 7f 6b 9c 98 6f 90 67 63 94 4b bc b8 4f b0 47 43 b4 a0 57 53 a4 5b ac a8 5f
  16 e1 e5 12 ed 1a 1e e9 fd 0a 0e f9 06 f1 f5 02 dd 2a 2e d9 26 d1 d5 22 36 c1 c5 32 cd 3a
  3e c9 9d 6a 6e 99 66 91 95 62 76 81 85 72 8d 7a 7e 89 56 a1 a5 52 ad 5a 5e a9 bd 4a 4e b9
  46 b1 b5 42 1d ea ee 19 e6 11 15 e2 f6 01 05 f2 0d fa fe 09 d6 21 25 d2 2d da de 29 3d ca
  ce 39 c6 31 35 c2 96 61 65 92 6d 9a 9e 69 7d 8a 8e 79 86 71 75 82 5d aa ae 59 a6 51 55 a2
  b6 41 45 b2 4d ba be 49 00 f8 ed 15 c7 3f 2a d2 93 6b 7e 86 54 ac b9 41 3b c3 d6 2e fc 04
  11 e9 a8 50 45 bd 6f 97 82 7a 76 8e 9b 63 b1 49 5c a4 e5 1d 08 f0 22 da cf 37 4d b5 a0 58
  8a 72 67 9f de 26 33 cb 19 e1 f4 0c ec 14 01 f9 2b d3 c6 3e 7f 87 92 6a b8 40 55 ad d7 2f
  3a c2 10 e8 fd 05 44 bc a9 51 83 7b 6e 96 9a 62 77 8f 5d a5 b0 48 09 f1 e4 1c ce 36 23 db
  a1 59 4c b4 66 9e 8b 73 32 ca df 27 f5 0d 18 e0 c5 3d 28 d0 02 fa ef 17 56 ae bb 43 91 69
  7c 84 fe 06 13 eb 39 c1 d4 2c 6d 95 80 78 aa 52 47 bf b3 4b 5e a6 74 8c 99 61 20 d8 cd 35
  e7 1f 0a f2 88 70 65 9d 4f b7 a2 5a 1b e3 f6 0e dc 24 31 c9 29 d1 c4 3c ee 16 03 fb ba 42
  57 af 7d 85 90 68 12 ea ff 07 d5 2d 38 c0 81 79 6c 94 46 be ab 53 5f a7 b2 4a 98 60 75 8d
  cc 34 21 d9 0b f3 e6 1e 64 9c 89 71 a3 5b 4e b6 f7 0f 1a e2 30 c8 dd 25 00 f9 ef 16 c3 3a
  2c d5 9b 62 74 8d 58 a1 b7 4e 2b d2 c4 3d e8 11 07 fe b0 49 5f a6 73 8a 9c 65 56 af b9 40
  95 6c 7a 83 cd 34 22 db 0e f7 e1 18 7d 84 92 6b be 47 51 a8 e6 1f 09 f0 25 dc ca 33 ac 55
  43 ba 6f 96 80 79 37 ce d8 21 f4 0d 1b e2 87 7e 68 91 44 bd ab 52 1c e5 f3 0a df 26 30 c9
  fa 03 15 ec 39 c0 d6 2f 61 98 8e 77 a2 5b 4d b4 d1 28 3e c7 12 eb fd 04 4a b3 a5 5c 89 70
  66 9f 45 bc aa 53 86 7f 69 90 de 27 31 c8 1d e4 f2 0b 6e 97 81 78 ad 54 42 bb f5 0c 1a e3
  36 cf d9 20 13 ea fc 05 d0 29 3f c6 88 71 67 9e 4b b2 a4 5d 38 c1 d7 2e fb 02 14 ed a3 5a
  4c b5 60 99 8f 76 e9 10 06 ff 2a d3 c5 3c 72 8b 9d 64 b1 48 5e a7 c2 3b 2d d4 01 f8 ee 17
  59 a0 b6 4f 9a 63 75 8c bf 46 50 a9 7c 85 93 6a 24 dd cb 32 e7 1e 08 f1 94 6d 7b 82 57 ae
  b8 41 0f f6 e0 19 cc 35 23 da 00 fa e9 13 cf 35 26 dc 83 79 6a 90 4c b6 a5 5f 1b e1 f2 08
  d4 2e 3d c7 98 62 71 8b 57 ad be 44 36 cc df 25 f9 03 10 ea b5 4f 5c a6 7a 80 93 69 2d d7
  c4 3e e2 18 0b f1 ae 54 47 bd 61 9b 88 72 6c 96 85 7f a3 59 4a b0 ef 15 06 fc 20 da c9 33
  77 8d 9e 64 b8 42 51 ab f4 0e 1d e7 3b c1 d2 28 5a a0 b3 49 95 6f 7c 86 d9 23 30 ca 16 ec
  ff 05 41 bb a8 52 8e 74 67 9d c2 38 2b d1 0d f7 e4 1e d8 22 31 cb 17 ed fe 04 5b a1 b2 48
  94 6e 7d 87 c3 39 2a d0 0c f6 e5 1f 40 ba a9 53 8f 75 66 9c ee 14 07 fd 21 db c8 32 6d 97
  84 7e a2 58 4b b1 f5 0f 1c e6 3a c0 d3 29 76 8c 9f 65 b9 43 50 aa b4 4e 5d a7 7b 81 92 68
  37 cd de 24 f8 02 11 eb af 55 46 bc 60 9a 89 73 2c d6 c5 3f e3 19 0a f0 82 78 6b 91 4d b7
  a4 5e 01 fb e8 12 ce 34 27 dd 99 63 70 8a 56 ac bf 45 1a e0 f3 09 d5 2f 3c c6 00 fb eb 10
  cb 30 20 db 8b 70 60 9b 40 bb ab 50 0b f0 e0 1b c0 3b 2b d0 80 7b 6b 90 4b b0 a0 5b 16 ed
  fd 06 dd 26 36 cd 9d 66 76 8d 56 ad bd 46 1d e6 f6 0d d6 2d 3d c6 96 6d 7d 86 5d a6 b6 4d
  2c d7 c7 3c e7 1c 0c f7 a7 5c 4c b7 6c 97 87 7c 27 dc cc 37 ec 17 07 fc ac 57 47 bc 67 9c
  8c 77 3a c1 d1 2a f1 0a 1a e1 b1 4a 5a a1 7a 81 91 6a 31 ca da 21 fa 01 11 ea ba 41 51 aa
  71 8a 9a 61 58 a3 b3 48 93 68 78 83 d3 28 38 c3 18 e3 f3 08 53 a8 b8 43 98 63 73 88 d8 23
  33 c8 13 e8 f8 03 4e b5 a5 5e 85 7e 6e 95 c5 3e 2e d5 0e f5 e5 1e 45 be ae 55 8e 75 65 9e
  ce 35 25 de 05 fe ee 15 74 8f 9f 64 bf 44 54 af ff 04 14 ef 34 cf df 24 7f 84 94 6f b4 4f
  5f a4 f4 0f 1f e4 3f c4 d4 2f 62 99 89 72 a9 52 42 b9 e9 12 02 f9 22 d9 c9 32 69 92 82 79"%hex.
Definition gf_mul_table_base_43 : list byte := bytes_of "
  a2 59 49 b2 e2 19 09 f2 29 d2 c2 39 00 fc e5 19 d7 2b 32 ce b3 4f 56 aa 64 98 81 7d 7b 87
  9e 62 ac 50 49 b5 c8 34 2d d1 1f e3 fa 06 f6 0a 13 ef 21 dd c4 38 45 b9 a0 5c 92 6e 77 8b
  8d 71 68 94 5a a6 bf 43 3e c2 db 27 e9 15 0c f0 f1 0d 14 e8 26 da c3 3f 42 be a7 5b 95 69
  70 8c 8a 76 6f 93 5d a1 b8 44 39 c5 dc 20 ee 12 0b f7 07 fb e2 1e d0 2c 35 c9 b4 48 51 ad
  63 9f 86 7a 7c 80 99 65 ab 57 4e b2 cf 33 2a d6 18 e4 fd 01 ff 03 1a e6 28 d4 cd 31 4c b0
  a9 55 9b 67 7e 82 84 78 61 9d 53 af b6 4a 37 cb d2 2e e0 1c 05 f9 09 f5 ec 10 de 22 3b c7
  ba 46 5f a3 6d 91 88 74 72 8e 97 6b a5 59 40 bc c1 3d 24 d8 16 ea f3 0f 0e f2 eb 17 d9 25
  3c c0 bd 41 58 a4 6a 96 8f 73 75 89 90 6c a2 5e 47 bb c6 3a 23 df 11 ed f4 08 f8 04 1d e1
  2f d3 ca 36 4b b7 ae 52 9c 60 79 85 83 7f 66 9a 54 a8 b1 4d 30 cc d5 29 e7 1b 02 fe 00 fd
  e7 1a d3 2e 34 c9 bb 46 5c a1 68 95 8f 72 6b 96 8c 71 b8 45 5f a2 d0 2d 37 ca 03 fe e4 19
  d6 2b 31 cc 05 f8 e2 1f 6d 90 8a 77 be 43 59 a4 bd 40 5a a7 6e 93 89 74 06 fb e1 1c d5 28
  32 cf b1 4c 56 ab 62 9f 85 78 0a f7 ed 10 d9 24 3e c3 da 27 3d c0 09 f4 ee 13 61 9c 86 7b
  b2 4f 55 a8 67 9a 80 7d b4 49 53 ae dc 21 3b c6 0f f2 e8 15 0c f1 eb 16 df 22 38 c5 b7 4a
  50 ad 64 99 83 7e 7f 82 98 65 ac 51 4b b6 c4 39 23 de 17 ea f0 0d 14 e9 f3 0e c7 3a 20 dd
  af 52 48 b5 7c 81 9b 66 a9 54 4e b3 7a 87 9d 60 12 ef f5 08 c1 3c 26 db c2 3f 25 d8 11 ec
  f6 0b 79 84 9e 63 aa 57 4d b0 ce 33 29 d4 1d e0 fa 07 75 88 92 6f a6 5b 41 bc a5 58 42 bf
  76 8b 91 6c 1e e3 f9 04 cd 30 2a d7 18 e5 ff 02 cb 36 2c d1 a3 5e 44 b9 70 8d 97 6a 73 8e
  94 69 a0 5d 47 ba c8 35 2f d2 1b e6 fc 01 00 fe e1 1f df 21 3e c0 a3 5d 42 bc 7c 82 9d 63
  5b a5 ba 44 84 7a 65 9b f8 06 19 e7 27 d9 c6 38 b6 48 57 a9 69 97 88 76 15 eb f4 0a ca 34
  2b d5 ed 13 0c f2 32 cc d3 2d 4e b0 af 51 91 6f 70 8e 71 8f 90 6e ae 50 4f b1 d2 2c 33 cd
  0d f3 ec 12 2a d4 cb 35 f5 0b 14 ea 89 77 68 96 56 a8 b7 49 c7 39 26 d8 18 e6 f9 07 64 9a
  85 7b bb 45 5a a4 9c 62 7d 83 43 bd a2 5c 3f c1 de 20 e0 1e 01 ff e2 1c 03 fd 3d c3 dc 22
  41 bf a0 5e 9e 60 7f 81 b9 47 58 a6 66 98 87 79 1a e4 fb 05 c5 3b 24 da 54 aa b5 4b 8b 75
  6a 94 f7 09 16 e8 28 d6 c9 37 0f f1 ee 10 d0 2e 31 cf ac 52 4d b3 73 8d 92 6c 93 6d 72 8c
  4c b2 ad 53 30 ce d1 2f ef 11 0e f0 c8 36 29 d7 17 e9 f6 08 6b 95 8a 74 b4 4a 55 ab 25 db
  c4 3a fa 04 1b e5 86 78 67 99 59 a7 b8 46 7e 80 9f 61 a1 5f 40 be dd 23 3c c2 02 fc e3 1d
  00 ff e3 1c db 24 38 c7 ab 54 48 b7 70 8f 93 6c 4b b4 a8 57 90 6f 73 8c e0 1f 03 fc 3b c4
  d8 27 96 69 75 8a 4d b2 ae 51 3d c2 de 21 e6 19 05 fa dd 22 3e c1 06 f9 e5 1a 76 89 95 6a
  ad 52 4e b1 31 ce d2 2d ea 15 09 f6 9a 65 79 86 41 be a2 5d 7a 85 99 66 a1 5e 42 bd d1 2e
  32 cd 0a f5 e9 16 a7 58 44 bb 7c 83 9f 60 0c f3 ef 10 d7 28 34 cb ec 13 0f f0 37 c8 d4 2b
  47 b8 a4 5b 9c 63 7f 80 62 9d 81 7e b9 46 5a a5 c9 36 2a d5 12 ed f1 0e 29 d6 ca 35 f2 0d
  11 ee 82 7d 61 9e 59 a6 ba 45 f4 0b 17 e8 2f d0 cc 33 5f a0 bc 43 84 7b 67 98 bf 40 5c a3
  64 9b 87 78 14 eb f7 08 cf 30 2c d3 53 ac b0 4f 88 77 6b 94 f8 07 1b e4 23 dc c0 3f 18 e7
  fb 04 c3 3c 20 df b3 4c 50 af 68 97 8b 74 c5 3a 26 d9 1e e1 fd 02 6e 91 8d 72 b5 4a 56 a9
  8e 71 6d 92 55 aa b6 49 25 da c6 39 fe 01 1d e2"%hex.

Definition gf_mul_table_base : list byte :=
  mjoin [gf_mul_table_base_00; gf_mul_table_base_01; gf_mul_table_base_02; gf_mul_table_base_03;
    gf_mul_table_base_04; gf_mul_table_base_05; gf_mul_table_base_06; gf_mul_table_base_07;
    gf_mul_table_base_08; gf_mul_table_base_09; gf_mul_table_base_10; gf_mul_table_base_11;
    gf_mul_table_base_12; gf_mul_table_base_13; gf_mul_table_base_14; gf_mul_table_base_15;
    gf_mul_table_base_16; gf_mul_table_base_17; gf_mul_table_base_18; gf_mul_table_base_19;
    gf_mul_table_base_20; gf_mul_table_base_21; gf_mul_table_base_22; gf_mul_table_base_23;
    gf_mul_table_base_24; gf_mul_table_base_25; gf_mul_table_base_26; gf_mul_table_base_27;
    gf_mul_table_base_28; gf_mul_table_base_29; gf_mul_table_base_30; gf_mul_table_base_31;
    gf_mul_table_base_32; gf_mul_table_base_33; gf_mul_table_base_34; gf_mul_table_base_35;
    gf_mul_table_base_36; gf_mul_table_base_37; gf_mul_table_base_38; gf_mul_table_base_39;
    gf_mul_table_base_40; gf_mul_table_base_41; gf_mul_table_base_42; gf_mul_table_base_43].
