(* ===== verification/LargeTables.v ===== *)
(** [gf_mul] and [gf_inv] of the [GF_LARGE_TABLES] build ([erasure_code/ec_base.c]): look-ups in
    the tables of [erasure_code/ec_base.h] ([MulTable], [GF256.gf_inv_table_base]), shown to be
    the functions of the other build, so that all that is shown of them holds there too. *)

From S2P Require Import Prelude GF256 MulTable.

(** * The functions of that build *)

Definition gf_mul_large_index (a b : byte) : Z := b2z b * 256 + b2z a.
Definition gf_mul_large (a b : byte) : byte := tab gf_mul_table_base (gf_mul_large_index a b).

(** * Rows by doubling *)

(** The first [2 ^ k] products with [b], and the next power of two times [b]. *)
Fixpoint doubled (k : nat) (b : byte) : list byte * byte :=
  match k with
  | O => ([x00], b)
  | S k => let '(l, v) := doubled k b in (l ++ (bxor v <$> l), gf_double v)
  end.
Definition product_row (b : byte) : list byte := (doubled 8 b).1.

(** The table read row by row. *)
Fixpoint reads_rows (bs t : list byte) : bool :=
  match bs with
  | [] => match t with [] => true | _ => false end
  | b :: bs => bool_decide (take 256 t = product_row b) && reads_rows bs (drop 256 t)
  end.

Lemma table_rows : reads_rows all_bytes gf_mul_table_base = true.
Proof. vm_compute. reflexivity. Qed.

(** ** What is in a row *)

Lemma z2b_bit k j : 0 <= j < 2 ^ Z.of_nat k → z2b (2 ^ Z.of_nat k + j) = bxor (z2b (2 ^ Z.of_nat k)) (z2b j).
Proof.
  intros Hj. rewrite <- z2b_lxor by lia. f_equal. apply Z.add_nocarry_lxor, Z.bits_inj'. intros n Hn.
  rewrite Z.land_spec, Z.pow2_bits_eqb, Z.bits_0 by lia. destruct (Z.eqb_spec (Z.of_nat k) n) as [<-|]; [|done].
  rewrite <- (Z.mod_small j (2 ^ Z.of_nat k)) by done. apply Z.mod_pow2_bits_high. lia.
Qed.

Lemma gf_mul_2 c : gf_mul x02 c = gf_double c.
Proof. apply byte_eqb_eq. revert c. apply byte_forall. vm_compute. reflexivity. Qed.
Lemma gf_double_pow k b : (k < 7)%nat → gf_double (gf_mul (z2b (2 ^ Z.of_nat k)) b) = gf_mul (z2b (2 ^ Z.of_nat (S k))) b.
Proof.
  intros Hk. rewrite <- gf_mul_2, gf_mul_assoc. f_equal.
  do 7 (destruct k as [|k]; [vm_compute; reflexivity|]). lia.
Qed.

Lemma doubled_spec k b : (k <= 8)%nat →
  alen (doubled k b).1 = 2 ^ Z.of_nat k ∧
  (∀ j, 0 <= j < 2 ^ Z.of_nat k → aget (doubled k b).1 j = Some (gf_mul (z2b j) b)) ∧
  ((k < 8)%nat → (doubled k b).2 = gf_mul (z2b (2 ^ Z.of_nat k)) b).
Proof.
  induction k as [|k IH]; intros Hk.
  - split; [done|]. split; [|intros _; symmetry; apply gf_mul_1_l].
    intros j Hj. assert (j = 0) as -> by (cbn in Hj; lia). change (z2b 0) with x00. by rewrite gf_mul_0_l.
  - destruct IH as (Hl & Hj & Hv); [lia|]. specialize (Hv ltac:(lia)). cbn [doubled].
    destruct (doubled k b) as [l v]. cbn [fst snd] in *. subst v.
    assert (2 ^ Z.of_nat (S k) = 2 * 2 ^ Z.of_nat k) as E by (rewrite Nat2Z.inj_succ, Z.pow_succ_r by lia; lia).
    split_and!.
    + rewrite alen_app. unfold alen in *. rewrite length_fmap. lia.
    + intros j Hj'. rewrite aget_app, Hl by lia. destruct (decide (j < 2 ^ Z.of_nat k)); [apply Hj; lia|].
      rewrite aget_map, Hj by lia. cbn. f_equal. rewrite <- gf_mul_distr_l, <- z2b_bit by lia. f_equal. f_equal. lia.
    + intros Hk'. apply gf_double_pow. lia.
Qed.

Lemma product_row_length b : length (product_row b) = 256%nat.
Proof. destruct (doubled_spec 8 b) as (Hl & _); [done|]. unfold alen in Hl. unfold product_row. lia. Qed.

(** ** What is in the table *)

Lemma reads_rows_sound bs t : reads_rows bs t = true → t = mjoin (product_row <$> bs).
Proof.
  revert t. induction bs as [|b bs IH]; intros t; cbn; [by destruct t|].
  intros [H%bool_decide_eq_true Hr%IH]%andb_true_iff. rewrite <- (take_drop 256 t) at 1. by rewrite H, Hr.
Qed.

Lemma join_rows {A} (n : nat) (ls : list (list A)) i j :
  (∀ l, l ∈ ls → length l = n) → (j < n)%nat → mjoin ls !! (i * n + j)%nat = (l ← ls !! i; l !! j).
Proof.
  revert i. induction ls as [|l ls IH]; intros i Hn Hj; [done|]. cbn. pose proof (Hn l (list_elem_of_here _ _)) as Hl.
  destruct i as [|i]; cbn; [apply lookup_app_l; lia|].
  rewrite lookup_app_r by lia. rewrite <- IH; [f_equal; lia| |done]. intros l' Hl'. apply Hn. by right.
Qed.

Lemma table_entry a b : gf_mul_table_base !! (Z.to_nat (b2z b) * 256 + Z.to_nat (b2z a))%nat = Some (gf_mul a b).
Proof.
  rewrite (reads_rows_sound _ _ table_rows). pose proof (b2z_range a). pose proof (b2z_range b).
  rewrite (join_rows 256); [|by intros l (c & -> & _)%list_elem_of_fmap; apply product_row_length|lia].
  assert (all_bytes !! Z.to_nat (b2z b) = Some b) as Eb.
  { unfold all_bytes. rewrite list_lookup_fmap, lookup_seqZ_lt, Z.add_0_l, Z2Nat.id by lia. cbn. by rewrite z2b_b2z. }
  rewrite list_lookup_fmap, Eb. change (product_row b !! Z.to_nat (b2z a) = Some (gf_mul a b)). destruct (doubled_spec 8 b) as (_ & Hj & _); [done|].
  specialize (Hj (b2z a) ltac:(lia)). apply aget_Some in Hj as [_ Hj]. unfold product_row. rewrite Hj. by rewrite z2b_b2z.
Qed.

(** * The two builds agree *)

(** C30: built with [GF_LARGE_TABLES], [gf_mul] and [gf_inv] compute the functions they compute
    without it: each of the 65536 entries of the multiplication table is the product of its
    column and its row, each entry of the inverse table is the inverse, and the index that
    [gf_mul] computes is that of an entry. *)
Theorem large_tables_equivalence a b :
  gf_mul_large a b = gf_mul a b ∧ gf_inv_large a = gf_inv a ∧
  0 <= gf_mul_large_index a b < alen gf_mul_table_base ∧ 0 <= b2z a < alen gf_inv_table_base.
Proof.
  pose proof (b2z_range a). pose proof (b2z_range b). pose proof (table_entry a b) as E.
  assert (Z.to_nat (gf_mul_large_index a b) = (Z.to_nat (b2z b) * 256 + Z.to_nat (b2z a))%nat) as Ei
    by (unfold gf_mul_large_index; lia).
  rewrite <- Ei in E. split_and!; try (unfold gf_mul_large_index; lia).
  - unfold gf_mul_large, tab. by apply list_lookup_total_correct.
  - apply gf_inv_large_eq.
  - apply lookup_lt_Some in E. unfold alen. lia.
  - change (alen gf_inv_table_base) with 256. lia.
Qed.
