(* ===== verification/GFVect.v ===== *)
(** Vector operations of [erasure_code/ec_base.c]: multiplication tables,
    dot products, multiply-accumulate and block encoding, with the aliases of
    [ec_base_aliases.c] and the SIMD dispatcher of [ec_highlevel_func.c]. *)

From S2P Require Import Prelude GF256.

(** * Multiplication tables *)

(** The eight little-endian bytes of a 64-bit word. *)
Definition bytes_of_u64 (w : Z) : list byte := (λ i, z2b (Z.shiftr w (8 * i))) <$> seqZ 0 8.

(** The 32 bytes [gf_vect_mul_init(c, tbl)] stores, x86-64 branch: four 64-bit
    words assembled by multiplication. *)
Definition gf_vect_mul_init (c : byte) : list byte :=
  let c2 := gf_double c in
  let c4 := gf_double c2 in
  let c8 := gf_double c4 in
  let v1 := u64 (b2z c * 0x0100010001000100) in
  let v2 := u64 (b2z c2 * 0x0101000001010000) in
  let v4 := u64 (b2z c4 * 0x0101010100000000) in
  let v8 := u64 (b2z c8 * 0x0101010101010101) in
  let v4 := Z.lxor (Z.lxor v1 v2) v4 in
  let t0 := v4 in
  let t1 := Z.lxor v8 v4 in
  let c17 := gf_double c8 in
  let c18 := gf_double c17 in
  let c20 := gf_double c18 in
  let c24 := gf_double c20 in
  let v10 := u64 (b2z c17 * 0x0100010001000100) in
  let v20 := u64 (b2z c18 * 0x0101000001010000) in
  let v40 := u64 (b2z c20 * 0x0101010100000000) in
  let v80 := u64 (b2z c24 * 0x0101010101010101) in
  let v40 := Z.lxor (Z.lxor v10 v20) v40 in
  let t2 := v40 in
  let t3 := Z.lxor v80 v40 in
  bytes_of_u64 t0 ++ bytes_of_u64 t1 ++ bytes_of_u64 t2 ++ bytes_of_u64 t3.

(** The portable branch of the same function. *)
Definition gf_vect_mul_init_portable (c : byte) : list byte :=
  let c2 := gf_double c in
  let c4 := gf_double c2 in
  let c8 := gf_double c4 in
  let c3 := bxor c2 c in
  let c5 := bxor c4 c in
  let c6 := bxor c4 c2 in
  let c7 := bxor c4 c3 in
  let c9 := bxor c8 c in
  let c10 := bxor c8 c2 in
  let c11 := bxor c8 c3 in
  let c12 := bxor c8 c4 in
  let c13 := bxor c8 c5 in
  let c14 := bxor c8 c6 in
  let c15 := bxor c8 c7 in
  let c17 := gf_double c8 in
  let c18 := gf_double c17 in
  let c19 := bxor c18 c17 in
  let c20 := gf_double c18 in
  let c21 := bxor c20 c17 in
  let c22 := bxor c20 c18 in
  let c23 := bxor c20 c19 in
  let c24 := gf_double c20 in
  let c25 := bxor c24 c17 in
  let c26 := bxor c24 c18 in
  let c27 := bxor c24 c19 in
  let c28 := bxor c24 c20 in
  let c29 := bxor c24 c21 in
  let c30 := bxor c24 c22 in
  let c31 := bxor c24 c23 in
  [ x00; c; c2; c3; c4; c5; c6; c7; c8; c9; c10; c11; c12; c13; c14; c15;
    x00; c17; c18; c19; c20; c21; c22; c23; c24; c25; c26; c27; c28; c29; c30; c31 ].

(** Store a block of bytes into a buffer at an offset. *)
Fixpoint write_bytes (buf : list byte) (off : Z) (bs : list byte) : option (list byte) :=
  match bs with
  | [] => Some buf
  | b :: bs' => buf' ← aset buf off b; write_bytes buf' (off + 1) bs'
  end.

(** [ec_init_tables]: the cursors [a++] and [g_tbls += 32] are part of the state
    [(buf, pa, pt)]. *)
Definition ec_init_tables (k rows : Z) (a : list byte) (g_tbls : list byte) : option (list byte) :=
  '(buf, _, _) ←
    for_up 0 rows (λ _ st,
      for_up 0 k (λ _ '(buf, pa, pt),
        c ← aget a pa;
        buf' ← write_bytes buf pt (gf_vect_mul_init c);
        Some (buf', pa + 1, pt + 32)) st) (g_tbls, 0, 0);
  Some buf.

(** * Dot products and encoding *)

(** [for (j = 0; j < n; j++) s ^= term(j)] from [s = 0]. *)
Definition xor_loop (n : Z) (term : Z → option byte) : option byte :=
  for_up 0 n (λ j s, x ← term j; Some (bxor s x)) x00.

Definition gf_vect_dot_prod_base (len vlen : Z) (v : list byte) (src : list (list byte))
    (dest : list byte) : option (list byte) :=
  for_up 0 len (λ i dest,
    s ← xor_loop vlen (λ j,
      sj ← aget src j; x ← aget sj i; y ← aget v (j * 32 + 1); Some (gf_mul x y));
    aset dest i s) dest.

Definition gf_vect_mad_base (len vec vec_i : Z) (v src dest : list byte) : option (list byte) :=
  for_up 0 len (λ i dest,
    s ← aget dest i;
    x ← aget src i; y ← aget v (vec_i * 32 + 1);
    let s := bxor s (gf_mul x y) in
    aset dest i s) dest.

Definition ec_encode_data_base (len srcs dests : Z) (v : list byte) (src dest : list (list byte))
    : option (list (list byte)) :=
  for_up 0 dests (λ l dest,
    row ← aget dest l;
    row' ← for_up 0 len (λ i row,
      s ← xor_loop srcs (λ j,
        sj ← aget src j; x ← aget sj i; y ← aget v (j * 32 + l * srcs * 32 + 1); Some (gf_mul x y));
      aset row i s) row;
    aset dest l row') dest.

Definition ec_encode_data_update_base (len k rows vec_i : Z) (v data : list byte)
    (dest : list (list byte)) : option (list (list byte)) :=
  for_up 0 rows (λ l dest,
    row ← aget dest l;
    row' ← for_up 0 len (λ i row,
      s ← aget row i;
      x ← aget data i; y ← aget v (vec_i * 32 + l * k * 32 + 1);
      let s := bxor s (gf_mul x y) in
      aset row i s) row;
    aset dest l row') dest.

(** [while (len-- > 0) *dest++ = gf_mul(c, *src++)]. *)
Definition gf_vect_mul_base (len : Z) (a src dest : list byte) : option (list byte) :=
  c ← aget a 1;
  for_up 0 len (λ i dest, x ← aget src i; aset dest i (gf_mul c x)) dest.

(** The unaccelerated entry points of [ec_base_aliases.c]. *)
Definition gf_vect_dot_prod := gf_vect_dot_prod_base.
Definition gf_vect_mad := gf_vect_mad_base.
Definition ec_encode_data := ec_encode_data_base.
Definition ec_encode_data_update := ec_encode_data_update_base.
Definition gf_vect_mul := gf_vect_mul_base.

(** * SIMD dispatch

    The assembly kernels [gf_{1,2,3,4}vect_dot_prod_avx] are parameters: an
    [n]-vector kernel takes [len], [k], the tables and the sources, and writes
    the first [n] destination buffers. *)
Section avx.
Context (gf_vect_dot_prod_avx gf_2vect_dot_prod_avx gf_3vect_dot_prod_avx gf_4vect_dot_prod_avx :
  Z → Z → list byte → list (list byte) → list (list byte) → option (list (list byte))).

(** The [while (rows >= 4)] loop and the final [switch]: [g_tbls += 4*k*32] and
    [coding += 4] drop the part already handled. *)
Fixpoint ec_encode_avx_rows (fuel : nat) (len k rows : Z) (g_tbls : list byte)
    (data coding : list (list byte)) : option (list (list byte)) :=
  match fuel with
  | O => None
  | S fuel' =>
      if rows >=? 4 then
        done ← gf_4vect_dot_prod_avx len k g_tbls data coding;
        rest ← ec_encode_avx_rows fuel' len k (rows - 4) (drop (Z.to_nat (4 * k * 32)) g_tbls)
                 data (drop 4 done);
        Some (take 4 done ++ rest)
      else if rows =? 3 then gf_3vect_dot_prod_avx len k g_tbls data coding
      else if rows =? 2 then gf_2vect_dot_prod_avx len k g_tbls data coding
      else if rows =? 1 then gf_vect_dot_prod_avx len k g_tbls data coding
      else Some coding
  end.

Definition ec_encode_data_avx (len k rows : Z) (g_tbls : list byte) (data coding : list (list byte))
    : option (list (list byte)) :=
  if len <? 16 then ec_encode_data_base len k rows g_tbls data coding
  else ec_encode_avx_rows (S (Z.to_nat rows)) len k rows g_tbls data coding.
End avx.

(** * Specifications *)

(** [row'] is [row] with its first [len] bytes replaced by the inner products of
    the source columns with the coefficients [c]. *)
Definition encoded_row (len k : Z) (c : Z → byte) (src : list (list byte)) (row row' : list byte) : Prop :=
  alen row' = alen row ∧
  ∀ i, 0 <= i → aget row' i =
    if decide (i < len) then Some (bsum (Z.to_nat k) (λ j, gf_mul (mget src j i) (c j)))
    else aget row i.

(** Coefficient [(l, j)] as stored by the table format: byte 1 of block [l*k+j]. *)
Definition coef (k : Z) (v : list byte) (l j : Z) : byte := bget v (j * 32 + l * k * 32 + 1).

Definition encoded (len k rows : Z) (v : list byte) (src dest dest' : list (list byte)) : Prop :=
  alen dest' = alen dest ∧
  ∀ l row, aget dest l = Some row → ∃ row', aget dest' l = Some row' ∧
    if decide (l < rows) then encoded_row len k (coef k v l) src row row' else row' = row.

Lemma encoded_unique len k rows v src dest d1 d2 :
  encoded len k rows v src dest d1 → encoded len k rows v src dest d2 → d1 = d2.
Proof.
  intros [L1 H1] [L2 H2]. apply array_ext. intros l Hl.
  destruct (aget dest l) as [row|] eqn:E.
  - destruct (H1 l row E) as (r1 & -> & P1), (H2 l row E) as (r2 & -> & P2). f_equal.
    destruct (decide (l < rows)); [|congruence].
    destruct P1 as [_ P1], P2 as [_ P2]. apply array_ext. intros i Hi. by rewrite P1, P2.
  - apply aget_None in E. rewrite !(proj2 (aget_None _ l)); [done|lia..].
Qed.

(** * Tables *)

Lemma gf_vect_mul_init_length c : length (gf_vect_mul_init c) = 32%nat.
Proof. reflexivity. Qed.

Definition gf_vect_mul_spec (c : byte) : list byte :=
  ((λ i, gf_mul c (z2b i)) <$> seqZ 0 16) ++ ((λ i, gf_mul c (z2b (16 * i))) <$> seqZ 0 16).

Definition bytes_eqb (l l' : list byte) : bool := bool_decide (l = l').

(** C29: both branches of [gf_vect_mul_init] (64-bit word arithmetic and the
    portable one) store the products of the constant by the 16 low nibbles and
    the 16 high nibbles. *)
Lemma gf_vect_mul_init_correct c :
  gf_vect_mul_init c = gf_vect_mul_spec c ∧ gf_vect_mul_init_portable c = gf_vect_mul_spec c.
Proof.
  assert (bytes_eqb (gf_vect_mul_init c) (gf_vect_mul_spec c)
          && bytes_eqb (gf_vect_mul_init_portable c) (gf_vect_mul_spec c) = true) as H.
  { revert c. apply byte_forall. vm_compute. reflexivity. }
  apply andb_true_iff in H. unfold bytes_eqb in H. by rewrite !bool_decide_eq_true in H.
Qed.

Lemma gf_vect_mul_init_1 c : gf_vect_mul_init c !! 1%nat = Some c.
Proof.
  assert (bool_decide (gf_vect_mul_init c !! 1%nat = Some c) = true) as H.
  { revert c. apply byte_forall. vm_compute. reflexivity. }
  by apply bool_decide_eq_true in H.
Qed.

Lemma write_bytes_spec bs : ∀ buf off,
  0 <= off → off + alen bs <= alen buf →
  ∃ buf', write_bytes buf off bs = Some buf' ∧ alen buf' = alen buf ∧
    (∀ i, 0 <= i < alen bs → aget buf' (off + i) = aget bs i) ∧
    (∀ i, i < off ∨ off + alen bs <= i → aget buf' i = aget buf i).
Proof.
  induction bs as [|b bs IH]; intros buf off Hoff Hlen.
  - exists buf. split_and!; [done..| |done]. intros i Hi. unfold alen in Hi. cbn in Hi. lia.
  - assert (alen (b :: bs) = alen bs + 1) as L by (unfold alen; cbn [length]; lia).
    rewrite L in *. assert (0 <= alen bs) by (unfold alen; lia).
    cbn. pose proof (aset_Some buf off b ltac:(lia)) as Es.
    rewrite Es. cbn. pose proof (aset_length _ _ _ _ Es) as Ls.
    destruct (IH (<[Z.to_nat off:=b]> buf) (off + 1)) as (buf' & -> & Lb & H1 & H2); [lia|lia|].
    exists buf'. split_and!; [done|lia| |].
    + intros i Hi. destruct (Z.eq_dec i 0) as [->|].
      * rewrite H2 by lia. rewrite Z.add_0_r. by rewrite (aget_aset_eq _ _ _ _ Es).
      * replace (off + i) with (off + 1 + (i - 1)) by lia. rewrite H1 by lia.
        unfold aget. destruct (Z.ltb_spec (i - 1) 0), (Z.ltb_spec i 0); try lia.
        replace (Z.to_nat i) with (S (Z.to_nat (i - 1))) by lia. done.
    + intros i Hi. rewrite H2 by lia. eapply aget_aset_ne; [done|lia].
Qed.

(** The inner loop of [ec_init_tables], and the loops together: block [b] of the
    output is the table of the [b]-th coefficient. *)
Definition tables_upto (a buf0 buf : list byte) (n : Z) : Prop :=
  alen buf = alen buf0 ∧
  (∀ b i, 0 <= b < n → 0 <= i < 32 → aget buf (b * 32 + i) = gf_vect_mul_init (bget a b) !! Z.to_nat i) ∧
  (∀ i, n * 32 <= i → aget buf i = aget buf0 i).

Lemma ec_init_tables_step a buf0 buf n :
  0 <= n < alen a → (n + 1) * 32 <= alen buf0 → tables_upto a buf0 buf n →
  ∃ buf', write_bytes buf (n * 32) (gf_vect_mul_init (bget a n)) = Some buf' ∧
    tables_upto a buf0 buf' (n + 1).
Proof.
  intros Hn Hlen (Lb & H1 & H2).
  assert (alen (gf_vect_mul_init (bget a n)) = 32) as L32
    by (unfold alen; by rewrite gf_vect_mul_init_length).
  destruct (write_bytes_spec (gf_vect_mul_init (bget a n)) buf (n * 32))
    as (buf' & E & L & W1 & W2); [lia|lia|].
  exists buf'. split; [done|]. split_and!; [lia| |].
  - intros b i Hb Hi. destruct (Z.eq_dec b n) as [->|].
    + rewrite W1 by lia. unfold aget. destruct (Z.ltb_spec i 0); [lia|done].
    + rewrite W2 by lia. apply H1; lia.
  - intros i Hi. rewrite W2 by lia. apply H2. lia.
Qed.

Lemma ec_init_tables_spec k rows a g_tbls :
  0 <= k → 0 <= rows → rows * k <= alen a → rows * k * 32 <= alen g_tbls →
  ∃ buf, ec_init_tables k rows a g_tbls = Some buf ∧ tables_upto a g_tbls buf (rows * k).
Proof.
  intros Hk Hr Ha Hg. unfold ec_init_tables.
  destruct (for_up_inv (λ l st, let '(buf, pa, pt) := st in
      pa = l * k ∧ pt = l * k * 32 ∧ tables_upto a g_tbls buf (l * k))
    (λ _ st, for_up 0 k (λ _ '(buf, pa, pt),
        c ← aget a pa; buf' ← write_bytes buf pt (gf_vect_mul_init c);
        Some (buf', pa + 1, pt + 32)) st) 0 rows (g_tbls, 0, 0))
    as ([[buf pa] pt] & E & H); [lia| | |].
  - split_and!; [lia..|]. split_and!; [done| |done]. intros b i Hb. lia.
  - intros l [[buf pa] pt] Hl (-> & -> & Hb).
    destruct (for_up_inv (λ j st, let '(buf, pa, pt) := st in
        pa = l * k + j ∧ pt = (l * k + j) * 32 ∧ tables_upto a g_tbls buf (l * k + j))
      (λ _ '(buf, pa, pt),
        c ← aget a pa; buf' ← write_bytes buf pt (gf_vect_mul_init c);
        Some (buf', pa + 1, pt + 32)) 0 k (buf, l * k, l * k * 32))
      as ([[buf' pa] pt] & E & H); [lia| | |].
    + rewrite Z.add_0_r. done.
    + intros j [[buf1 pa] pt] Hj (-> & -> & Hb1).
      assert (l * k + j < rows * k) by nia.
      rewrite aget_bget by nia. cbn.
      destruct (ec_init_tables_step a g_tbls buf1 (l * k + j)) as (buf2 & -> & H2); [nia|lia|done|].
      eexists; split; [done|]. cbn. split_and!; [lia..|].
      by rewrite Z.add_assoc.
    + eexists; split; [done|]. destruct H as (-> & -> & H).
      split_and!; [lia..|]. by replace ((l + 1) * k) with (l * k + k) by lia.
  - rewrite E. cbn. eexists; split; [done|]. by destruct H as (_ & _ & H).
Qed.

Lemma ec_init_tables_coef_spec k rows a g_tbls :
  0 <= k → 0 <= rows → rows * k <= alen a → rows * k * 32 <= alen g_tbls →
  ∃ buf, ec_init_tables k rows a g_tbls = Some buf ∧ alen buf = alen g_tbls ∧
    ∀ l j, 0 <= l < rows → 0 <= j < k → coef k buf l j = bget a (l * k + j).
Proof.
  intros Hk Hr Ha Hg. destruct (ec_init_tables_spec k rows a g_tbls) as (buf & E & Lb & H1 & _); [done..|].
  exists buf. split_and!; [done..|]. intros l j Hl Hj. unfold coef. apply bget_Some.
  replace (j * 32 + l * k * 32 + 1) with ((l * k + j) * 32 + 1) by lia.
  rewrite H1 by nia. apply gf_vect_mul_init_1.
Qed.

(** The tables built from a coefficient matrix hold, where the encoder looks
    them up, exactly the coefficients. *)
Theorem ec_init_tables_coef k rows a g_tbls :
  0 <= k → 0 <= rows → rows * k <= alen a → rows * k * 32 <= alen g_tbls →
  ∃ buf, ec_init_tables k rows a g_tbls = Some buf ∧ alen buf = alen g_tbls ∧
    ∀ l j, 0 <= l < rows → 0 <= j < k → coef k buf l j = bget a (l * k + j).
Proof. apply ec_init_tables_coef_spec. Qed.

(** [v] holds [n] tables of 32 bytes: each block is what [gf_vect_mul_init] makes of the
    coefficient in its byte 1. *)
Definition tabulated (n : Z) (v : list byte) : Prop := ∀ b i,
  0 <= b < n → 0 <= i < 32 → aget v (b * 32 + i) = gf_vect_mul_init (bget v (b * 32 + 1)) !! Z.to_nat i.

Lemma tabulated_drop m n v :
  0 <= m → tabulated (m + n) v → tabulated n (drop (Z.to_nat (m * 32)) v).
Proof.
  intros Hm Ht b i Hb Hi. unfold bget. rewrite !aget_drop by lia.
  replace (m * 32 + (b * 32 + i)) with ((m + b) * 32 + i) by lia.
  replace (m * 32 + (b * 32 + 1)) with ((m + b) * 32 + 1) by lia. by apply Ht; lia.
Qed.

Lemma ec_init_tables_tabulated k rows a g_tbls buf :
  0 <= k → 0 <= rows → rows * k <= alen a → rows * k * 32 <= alen g_tbls →
  ec_init_tables k rows a g_tbls = Some buf → tabulated (rows * k) buf.
Proof.
  intros Hk Hr Ha Hg E. destruct (ec_init_tables_spec k rows a g_tbls) as (buf' & E' & _ & H & _); [done..|].
  assert (buf' = buf) as -> by congruence. intros b i Hb Hi. rewrite H by done.
  rewrite (bget_Some buf (b * 32 + 1) (bget a b)); [done|]. rewrite H by lia. apply gf_vect_mul_init_1.
Qed.

(** * Encoding *)

Lemma xor_loop_spec n term (f : Z → byte) :
  0 <= n → (∀ j, 0 <= j < n → term j = Some (f j)) → xor_loop n term = Some (bsum (Z.to_nat n) f).
Proof.
  intros Hn Ht. unfold xor_loop.
  destruct (for_up_inv (λ j s, s = bsum (Z.to_nat j) f) (λ j s, x ← term j; Some (bxor s x)) 0 n x00)
    as (s & E & ->); [lia|done| |done].
  intros j s Hj ->. rewrite Ht by lia. cbn. eexists; split; [done|].
  replace (Z.to_nat (j + 1)) with (S (Z.to_nat j)) by lia. cbn. by rewrite Z2Nat.id by lia.
Qed.

(** One source term [gf_mul(src[j][i], v[o])] of an inner product. *)
Lemma src_term len k src v i j o :
  buffers k len src → 0 <= i < len → 0 <= j < k → 0 <= o < alen v →
  (sj ← aget src j; x ← aget sj i; y ← aget v o; Some (gf_mul x y))
  = Some (gf_mul (mget src j i) (bget v o)).
Proof.
  intros Hb Hi Hj Ho. destruct (buffers_get k len src j i Hb Hj Hi) as (row & -> & E). cbn.
  rewrite E. cbn. rewrite aget_bget by done. done.
Qed.

(** Cell-wise loop over one row. *)
Lemma row_loop len k src c body (row : list byte) :
  0 <= len <= alen row →
  (∀ i t, 0 <= i < len → alen t = alen row →
     body i t = aset t i (bsum (Z.to_nat k) (λ j, gf_mul (mget src j i) (c j)))) →
  ∃ row', for_up 0 len body row = Some row' ∧ encoded_row len k c src row row'.
Proof.
  intros Hlen Hb.
  destruct (for_up_fill (λ i, bsum (Z.to_nat k) (λ j, gf_mul (mget src j i) (c j))) body len row)
    as (row' & E & L & H1 & H2); [done..|].
  exists row'. split; [done|]. split; [done|]. intros i Hi. case_decide; [by apply H1|apply H2; lia].
Qed.

Lemma ec_encode_data_base_spec len k rows v src dest :
  0 <= len → 0 <= k → 0 <= rows → buffers k len src → buffers rows len dest →
  rows * k * 32 <= alen v →
  ∃ dest', ec_encode_data_base len k rows v src dest = Some dest' ∧ encoded len k rows v src dest dest'.
Proof.
  intros Hlen Hk Hr Hs Hd Hv. unfold ec_encode_data_base.
  destruct (for_up_array (λ l row row', encoded_row len k (coef k v l) src row row')
    (λ l dest, row ← aget dest l;
      row' ← for_up 0 len (λ i row,
        s ← xor_loop k (λ j,
          sj ← aget src j; x ← aget sj i; y ← aget v (j * 32 + l * k * 32 + 1); Some (gf_mul x y));
        aset row i s) row;
      aset dest l row') rows dest) as (dest' & E & L & H); [destruct Hd; lia| |by exists dest'].
  intros l t row Hl Lt Et Ed. rewrite Et. cbn.
  match goal with |- context [for_up 0 len ?b row] =>
    destruct (row_loop len k src (coef k v l) b row) as (row' & E & Hrow') end; [ | |rewrite E; by exists row'].
  - pose proof (proj2 Hd l row Hl Ed). lia.
  - intros i r Hi Lr. erewrite xor_loop_spec; [done|lia|]. intros j Hj.
    apply (src_term len k); [done..|]. nia.
Qed.

(** [ec_encode_data_base] runs without an out-of-bounds access and replaces
    the first [len] bytes of each output buffer by the product of the coefficient
    matrix with the source columns; all other bytes are left alone. *)
Theorem ec_encode_data_base_correct len k rows v src dest :
  0 <= len → 0 <= k → 0 <= rows → buffers k len src → buffers rows len dest →
  rows * k * 32 <= alen v →
  ∃ dest', ec_encode_data_base len k rows v src dest = Some dest' ∧ encoded len k rows v src dest dest'.
Proof. apply ec_encode_data_base_spec. Qed.

(** One destination row: the dot product routine is a one-row encoding. *)
Theorem gf_vect_dot_prod_base_correct len k v src dest :
  0 <= len <= alen dest → 0 <= k → buffers k len src → k * 32 <= alen v →
  ∃ dest', gf_vect_dot_prod_base len k v src dest = Some dest' ∧
    encoded_row len k (λ j, bget v (j * 32 + 1)) src dest dest'.
Proof.
  intros Hlen Hk Hs Hv. unfold gf_vect_dot_prod_base. apply row_loop; [done|].
  intros i r Hi Lr. erewrite xor_loop_spec; [done|lia|]. intros j Hj.
  apply (src_term len k); [done..|]. lia.
Qed.

(** ** Incremental encoding *)

(** [row'] is [row] plus [c] times the data. *)
Definition accumulated_row (len : Z) (c : byte) (data row row' : list byte) : Prop :=
  alen row' = alen row ∧
  ∀ i x, aget row i = Some x →
    aget row' i = Some (if decide (i < len) then bxor x (gf_mul (bget data i) c) else x).

Lemma mad_loop len o v data (row : list byte) :
  0 <= len <= alen row → len <= alen data → 0 <= o < alen v →
  ∃ row', for_up 0 len (λ i row,
      s ← aget row i; x ← aget data i; y ← aget v o;
      aset row i (bxor s (gf_mul x y))) row = Some row' ∧
    accumulated_row len (bget v o) data row row'.
Proof.
  intros Hlen Hd Ho.
  destruct (for_up_array (λ i x y, y = bxor x (gf_mul (bget data i) (bget v o)))
    (λ i row, s ← aget row i; x ← aget data i; y ← aget v o;
      aset row i (bxor s (gf_mul x y))) len row) as (row' & E & L & H); [lia| |].
  - intros i t x Hi Lt Et Er. rewrite Et. cbn. rewrite !aget_bget by lia. cbn. eauto.
  - exists row'. split; [done|]. split; [done|]. intros i x Hx.
    destruct (H i x Hx) as (y & -> & Hy). f_equal. destruct (decide (i < len)); done.
Qed.

(** [gf_vect_mad_base] adds one scaled source to a buffer. *)
Theorem gf_vect_mad_base_correct len vec vec_i v src dest :
  0 <= len <= alen dest → len <= alen src → 0 <= vec_i * 32 → vec_i * 32 + 1 < alen v →
  ∃ dest', gf_vect_mad_base len vec vec_i v src dest = Some dest' ∧
    accumulated_row len (bget v (vec_i * 32 + 1)) src dest dest'.
Proof. intros. apply mad_loop; lia. Qed.

Lemma ec_encode_data_update_base_spec len k rows vec_i v data dest :
  0 <= len → 0 <= rows → 0 <= vec_i < k → len <= alen data → buffers rows len dest →
  rows * k * 32 <= alen v →
  ∃ dest', ec_encode_data_update_base len k rows vec_i v data dest = Some dest' ∧
    alen dest' = alen dest ∧
    ∀ l row, aget dest l = Some row → ∃ row', aget dest' l = Some row' ∧
      if decide (l < rows) then accumulated_row len (coef k v l vec_i) data row row' else row' = row.
Proof.
  intros Hlen Hr Hi Hdata Hd Hv. unfold ec_encode_data_update_base.
  apply (for_up_array (λ l row row', accumulated_row len (coef k v l vec_i) data row row'));
    [destruct Hd; lia|].
  intros l t row Hl Lt Et Ed. rewrite Et. cbn.
  edestruct (mad_loop len (vec_i * 32 + l * k * 32 + 1) v data row) as (row' & E & H).
  - pose proof (proj2 Hd l row Hl Ed). lia.
  - done.
  - nia.
  - rewrite E. by exists row'.
Qed.

(** Feed the sources one at a time, as the update interface is meant to be used. *)
Definition encode_incremental (len k rows : Z) (v : list byte) (src dest : list (list byte))
    : option (list (list byte)) :=
  for_up 0 k (λ vec_i dest,
    data ← aget src vec_i;
    ec_encode_data_update_base len k rows vec_i v data dest) dest.

(** All cells of the first [rows] buffers start at zero. *)
Definition zeroed (len rows : Z) (dest : list (list byte)) : Prop :=
  ∀ l row i, 0 <= l < rows → aget dest l = Some row → 0 <= i < len → aget row i = Some x00.

Lemma encode_incremental_correct len k rows v src dest :
  0 <= len → 0 <= k → 0 <= rows → buffers k len src → buffers rows len dest →
  rows * k * 32 <= alen v → zeroed len rows dest →
  ∃ dest', encode_incremental len k rows v src dest = Some dest' ∧ encoded len k rows v src dest dest'.
Proof.
  intros Hlen Hk Hr Hs Hd Hv Hz. unfold encode_incremental.
  apply (for_up_inv (λ n d, alen d = alen dest ∧
    ∀ l row, aget dest l = Some row → ∃ row', aget d l = Some row' ∧
      if decide (l < rows) then encoded_row len n (coef k v l) src row row' else row' = row)); [lia| |].
  - split; [done|]. intros l row E. exists row. split; [done|].
    destruct (decide (l < rows)); [|done]. split; [done|]. intros i Hi. cbn.
    case_decide; [|done]. eapply Hz; [|done|lia]. apply aget_lt in E. lia.
  - intros n d Hn [Ld H]. destruct (proj2 (aget_is_Some src n)) as [data Edata].
    { destruct Hs. lia. }
    rewrite Edata. cbn. pose proof (proj2 Hs n data Hn Edata) as Hdata.
    edestruct (ec_encode_data_update_base_spec len k rows n v data d) as (d' & E & Ld' & H');
      [done|done|lia|lia| |done|].
    { destruct Hd as [Hd1 Hd2]. split; [lia|]. intros l r Hl Er.
      destruct (proj2 (aget_is_Some dest l)) as [row Erow]; [lia|].
      destruct (H l row Erow) as (r' & E' & Hr'). simplify_eq.
      destruct (decide (l < rows)); [|lia]. destruct Hr' as [-> _]. by eapply Hd2. }
    rewrite E. exists d'. split; [done|]. split; [lia|]. intros l row Erow.
    destruct (H l row Erow) as (r1 & E1 & H1), (H' l r1 E1) as (r2 & E2 & H2).
    exists r2. split; [done|]. destruct (decide (l < rows)); [|congruence].
    destruct H1 as [L1 H1], H2 as [L2 H2]. split; [lia|]. intros i Hi.
    specialize (H1 i Hi). destruct (aget r1 i) as [x|] eqn:Ex.
    + rewrite (H2 i x Ex). destruct (decide (i < len)); [|done]. f_equal.
      replace (Z.to_nat (n + 1)) with (S (Z.to_nat n)) by lia. cbn. rewrite Z2Nat.id by lia.
      injection H1 as ->. f_equal. f_equal. by rewrite (mget_Some _ _ _ _ Edata).
    + destruct (decide (i < len)); [done|]. rewrite <- H1. apply aget_None.
      apply aget_None in Ex. lia.
Qed.

(** Accumulating the sources one by one with [ec_encode_data_update_base],
    from zeroed outputs, gives the same buffers as encoding them all at once. *)
Theorem encode_update_equivalence len k rows v src dest :
  0 <= len → 0 <= k → 0 <= rows → buffers k len src → buffers rows len dest →
  rows * k * 32 <= alen v → zeroed len rows dest →
  is_Some (ec_encode_data_base len k rows v src dest) ∧
  encode_incremental len k rows v src dest = ec_encode_data_base len k rows v src dest.
Proof.
  intros Hlen Hk Hr Hs Hd Hv Hz.
  destruct (ec_encode_data_base_spec len k rows v src dest) as (d1 & -> & H1); [done..|].
  destruct (encode_incremental_correct len k rows v src dest) as (d2 & -> & H2); [done..|].
  split; [done|]. f_equal. by eapply encoded_unique.
Qed.

(** ** The SIMD path *)

(** What the dispatcher relies on: an [n]-vector kernel, called with at least 16 bytes, at
    least one source and the tables of [ec_init_tables], computes [n] dot products per byte
    position ([erasure_code.h]).  [Avx] shows that the kernels in assembly do. *)
Class DotProdKernel (n : Z)
    (kern : Z → Z → list byte → list (list byte) → list (list byte) → option (list (list byte))) : Prop :=
  dot_prod_kernel : ∀ len k v src dest,
    16 <= len → 1 <= k → buffers k len src → buffers n len dest → n * k * 32 <= alen v → tabulated (n * k) v →
    ∃ dest', kern len k v src dest = Some dest' ∧ encoded len k n v src dest dest'.

Lemma coef_drop k v n l j :
  0 <= k → 0 <= n → 0 <= l → 0 <= j → coef k (drop (Z.to_nat (n * k * 32)) v) l j = coef k v (n + l) j.
Proof.
  intros. unfold coef, bget. rewrite aget_drop by nia. do 2 f_equal. lia.
Qed.

Lemma encoded_split len k n rows v src dest d rest :
  0 <= k → 0 <= n <= rows → n <= alen dest → buffers k len src →
  encoded len k n v src dest d →
  encoded len k (rows - n) (drop (Z.to_nat (n * k * 32)) v) src (drop (Z.to_nat n) d) rest →
  encoded len k rows v src dest (take (Z.to_nat n) d ++ rest).
Proof.
  intros Hk Hn Hdest Hs [L1 H1] [L2 H2].
  assert (alen (take (Z.to_nat n) d) = n) as Lt by (unfold alen in *; rewrite length_take; lia).
  assert (alen (drop (Z.to_nat n) d) = alen d - n) as Ldr by (unfold alen in *; rewrite length_drop; lia).
  split; [rewrite alen_app; lia|]. intros l row E. pose proof (aget_lt _ _ _ E).
  destruct (H1 l row E) as (r1 & E1 & P1). rewrite aget_app, Lt by lia. case_decide.
  - rewrite aget_take by lia. exists r1. split; [done|].
    destruct (decide (l < n)), (decide (l < rows)); (done || lia).
  - destruct (decide (l < n)); [lia|]. subst r1.
    destruct (H2 (l - n) row) as (r2 & E2 & P2).
    { rewrite aget_drop by lia. by replace (n + (l - n)) with l by lia. }
    exists r2. split; [done|].
    destruct (decide (l - n < rows - n)), (decide (l < rows)); try lia; [|done].
    destruct P2 as [L P2]. split; [done|]. intros i Hi. rewrite P2 by done.
    destruct (decide (i < len)); [|done]. f_equal. apply bsum_ext. intros j Hj.
    rewrite coef_drop by lia. by replace (n + (l - n)) with l by lia.
Qed.

Section avx_correct.
Context (k1 k2 k3 k4 : Z → Z → list byte → list (list byte) → list (list byte) → option (list (list byte))).
Context `{K1 : !DotProdKernel 1 k1} `{K2 : !DotProdKernel 2 k2}
        `{K3 : !DotProdKernel 3 k3} `{K4 : !DotProdKernel 4 k4}.

Lemma ec_encode_avx_rows_correct fuel : ∀ len k rows v src dest,
  rows < Z.of_nat fuel → 16 <= len → 1 <= k → 0 <= rows →
  buffers k len src → buffers rows len dest → rows * k * 32 <= alen v → tabulated (rows * k) v →
  ∃ dest', ec_encode_avx_rows k1 k2 k3 k4 fuel len k rows v src dest = Some dest' ∧
    encoded len k rows v src dest dest'.
Proof using K1 K2 K3 K4.
  induction fuel as [|fuel IH]; intros len k rows v src dest Hf Hlen Hk Hr Hs Hd Hv Ht; [lia|].
  cbn [ec_encode_avx_rows]. rewrite Z.geb_leb. destruct (Z.leb_spec 4 rows) as [H4|H4].
  - assert (buffers 4 len dest) as Hd4.
    { destruct Hd as [? Hd]. split; [lia|]. intros i r ?. apply Hd. lia. }
    destruct (K4 len k v src dest) as (d & -> & Pd); [done..|nia|intros b i Hb; apply Ht; nia|]. cbn.
    destruct (IH len k (rows - 4) (drop (Z.to_nat (4 * k * 32)) v) src (drop 4 d)) as (rest & -> & Pr);
      [lia|lia|lia|lia|done| | | |].
    { destruct Pd as [Ld Pd]. destruct Hd as [Hd1 Hd2]. split.
      - unfold alen in *. rewrite length_drop. lia.
      - intros i r Hi Er. change 4%nat with (Z.to_nat 4) in Er. rewrite aget_drop in Er by lia.
        destruct (proj2 (aget_is_Some dest (4 + i))) as [row Erow]; [lia|].
        destruct (Pd (4 + i) row Erow) as (r' & E' & Hr').
        destruct (decide (4 + i < 4)); [lia|]. simplify_eq. apply (Hd2 (4 + i)); [lia|done]. }
    { unfold alen in *. rewrite length_drop. lia. }
    { apply tabulated_drop; [lia|]. by replace (4 * k + (rows - 4) * k) with (rows * k) by lia. }
    cbn. eexists; split; [done|]. destruct Hd. apply (encoded_split len k 4 rows v src dest d rest);
      (done || lia).
  - destruct (Z.eqb_spec rows 3) as [->|]; [by apply K3|].
    destruct (Z.eqb_spec rows 2) as [->|]; [by apply K2|].
    destruct (Z.eqb_spec rows 1) as [->|]; [by apply K1|].
    assert (rows = 0) as -> by lia. exists dest. split; [done|]. split; [done|].
    intros l row E. exists row. split; [done|]. apply aget_lt in E.
    destruct (decide (l < 0)); [lia|done].
Qed.

(** The dispatcher encodes, whatever kernels it calls. *)
Lemma ec_encode_data_avx_spec len k rows v src dest :
  0 <= len → 1 <= k → 0 <= rows → buffers k len src → buffers rows len dest → rows * k * 32 <= alen v →
  tabulated (rows * k) v →
  ∃ dest', ec_encode_data_avx k1 k2 k3 k4 len k rows v src dest = Some dest' ∧ encoded len k rows v src dest dest'.
Proof using K1 K2 K3 K4.
  intros Hlen Hk Hr Hs Hd Hv Ht. unfold ec_encode_data_avx. destruct (Z.ltb_spec len 16).
  - apply ec_encode_data_base_spec; (done || lia).
  - apply ec_encode_avx_rows_correct; (done || lia).
Qed.

(** It agrees with the portable code on every table that [ec_init_tables] makes. *)
Lemma dispatch_equivalence len k rows v src dest :
  0 <= len → 1 <= k → 0 <= rows → buffers k len src → buffers rows len dest →
  rows * k * 32 <= alen v → tabulated (rows * k) v →
  is_Some (ec_encode_data_base len k rows v src dest) ∧
  ec_encode_data_avx k1 k2 k3 k4 len k rows v src dest = ec_encode_data_base len k rows v src dest.
Proof using K1 K2 K3 K4.
  intros Hlen Hk Hr Hs Hd Hv Ht.
  destruct (ec_encode_data_base_spec len k rows v src dest) as (d1 & E1 & P1); [done || lia..|].
  destruct (ec_encode_data_avx_spec len k rows v src dest) as (d2 & -> & P2); [done..|].
  split; [by rewrite E1|]. rewrite E1. f_equal. by eapply encoded_unique.
Qed.
End avx_correct.

Definition test_src : list (list byte) := [replicate 16 x02; replicate 16 x03].
Definition test_dest : list (list byte) := replicate 5 (replicate 16 x00).
Definition test_tbls : list byte :=
  default [] (ec_init_tables 2 5 [x01; x02; x03; x04; x05; x06; x07; x08; x09; x0a] (replicate 320 x00)).

Ltac solve_buffers := apply buffers_check; vm_compute; reflexivity.

Lemma ec_init_tables_coef_witness :
  ∃ buf, ec_init_tables 2 5 [x01; x02; x03; x04; x05; x06; x07; x08; x09; x0a] (replicate 320 x00) = Some buf ∧
    alen buf = alen (replicate 320 x00) ∧
    ∀ l j, 0 <= l < 5 → 0 <= j < 2 →
      coef 2 buf l j = bget [x01; x02; x03; x04; x05; x06; x07; x08; x09; x0a] (l * 2 + j).
Proof. apply ec_init_tables_coef; [lia|lia|vm_compute; discriminate|vm_compute; discriminate]. Defined.

Lemma ec_encode_data_base_correct_witness :
  ∃ dest', ec_encode_data_base 16 2 5 test_tbls test_src test_dest = Some dest' ∧
    encoded 16 2 5 test_tbls test_src test_dest dest'.
Proof.
  apply ec_encode_data_base_correct;
    [lia|lia|lia|solve_buffers|solve_buffers|vm_compute; discriminate].
Defined.

Lemma encode_update_equivalence_witness :
  is_Some (ec_encode_data_base 16 2 5 test_tbls test_src test_dest) ∧
  encode_incremental 16 2 5 test_tbls test_src test_dest = ec_encode_data_base 16 2 5 test_tbls test_src test_dest.
Proof.
  apply encode_update_equivalence;
    [lia|lia|lia|solve_buffers|solve_buffers|vm_compute; discriminate|].
  intros l row i Hl [_ Hrow]%aget_Some Hi. apply (lookup_replicate_1 5) in Hrow as [-> _]. by apply (aget_replicate 16).
Defined.
