(* ===== verification/Avx.v ===== *)
(** The AVX kernels that [ec_encode_data_avx] calls ([gf_vect_dot_prod_avx.asm],
    [gf_2vect_dot_prod_avx.asm] to [gf_4vect_dot_prod_avx.asm]), 64-bit code: products by
    two nibble lookups, sixteen byte positions at a time, and an overlapping last pass.
    They meet the contract [DotProdKernel], so that the dispatcher computes what the
    portable code computes. *)

From S2P Require Import Prelude GF256 GFVect.

(** * One pass *)

(** A source byte multiplied by the table at [o]: the low nibble ([vpand] with the mask)
    is looked up in the first half, the high nibble ([vpsraw] by 4, [vpand]) in the second
    ([vpshufb]), and the two are added. *)
Definition nibble_product (v : list byte) (o : Z) (x : byte) : option byte :=
  lo ← aget v (o + Z.land (b2z x) 0x0f);
  hi ← aget v (o + 16 + Z.shiftr (b2z x) 4);
  Some (bxor hi lo).

(** The body of [.loop16]: the sixteen bytes at [pos] of the [n] outputs, each the sum over
    the [k] sources ([.next_vect]). *)
Definition avx_pass (n k : Z) (v : list byte) (src : list (list byte)) (pos : Z) (dest : list (list byte))
    : option (list (list byte)) :=
  for_up 0 n (λ l dest,
    row ← aget dest l;
    row ← for_up 0 16 (λ i row,
      xp ← xor_loop k (λ j, sj ← aget src j; x ← aget sj (pos + i); nibble_product v ((l * k + j) * 32) x);
      aset row (pos + i) xp) row;
    aset dest l row) dest.

(** * The kernel *)

(** [.loop16] with its three ways out: the next sixteen bytes, the end, or [Tail len], one
    more pass over the last sixteen. *)
Fixpoint avx_loop (fuel : nat) (n len k : Z) (v : list byte) (src : list (list byte)) (pos : Z)
    (dest : list (list byte)) : option (list (list byte)) :=
  match fuel with
  | O => None
  | S fuel' =>
      dest ← avx_pass n k v src pos dest;
      let pos := pos + 16 in
      if pos <=? len - 16 then avx_loop fuel' n len k v src pos dest
      else if pos =? len - 16 + 16 then Some dest
      else avx_loop fuel' n len k v src (len - 16) dest
  end.

(** [gf_vect_dot_prod_avx] for [n = 1], [gf_2vect_dot_prod_avx] and so on.  Fewer than
    sixteen bytes are left alone ([.return_fail]); the loop over the sources is entered
    without a test, so without sources it reads past the arrays. *)
Definition avx_kernel (n len k : Z) (v : list byte) (src dest : list (list byte)) : option (list (list byte)) :=
  if len <? 16 then Some dest
  else if k <? 1 then None
  else avx_loop (S (S (Z.to_nat len))) n len k v src 0 dest.

(** * The product *)

Lemma nibbles x :
  0 <= Z.land (b2z x) 0x0f < 16 ∧ 0 <= Z.shiftr (b2z x) 4 < 16 ∧
  bxor (z2b (16 * Z.shiftr (b2z x) 4)) (z2b (Z.land (b2z x) 0x0f)) = x.
Proof.
  pose proof (b2z_range x). assert (0 <= Z.land (b2z x) 0x0f < 16) as Hl.
  { change 0x0f with (Z.ones 4). rewrite Z.land_ones by lia. apply Z.mod_pos_bound. lia. }
  assert (0 <= Z.shiftr (b2z x) 4 < 16) as Hh.
  { rewrite Z.shiftr_div_pow2 by lia. change (2 ^ 4) with 16. split; [apply Z.div_pos; lia|apply Z.div_lt_upper_bound; lia]. }
  split_and!; try lia.
  assert (bool_decide (bxor (z2b (16 * Z.shiftr (b2z x) 4)) (z2b (Z.land (b2z x) 0x0f)) = x) = true) as E.
  { clear. revert x. apply byte_forall. vm_compute. reflexivity. }
  by apply bool_decide_eq_true in E.
Qed.

Lemma tabulated_entry n v b i :
  tabulated n v → 0 <= b < n → 0 <= i < 32 →
  aget v (b * 32 + i) = aget (gf_vect_mul_spec (bget v (b * 32 + 1))) i.
Proof.
  intros Ht Hb Hi. rewrite (Ht b i Hb Hi), (proj1 (gf_vect_mul_init_correct _)). unfold aget.
  by destruct (Z.ltb_spec i 0); [lia|].
Qed.

Lemma nibble_product_Some n v b x :
  tabulated n v → 0 <= b < n → nibble_product v (b * 32) x = Some (gf_mul x (bget v (b * 32 + 1))).
Proof.
  intros Ht Hb. destruct (nibbles x) as (Hl & Hh & Ex). unfold nibble_product.
  rewrite (tabulated_entry n) by (done || lia). rewrite <- Z.add_assoc, (tabulated_entry n) by (done || lia).
  unfold gf_vect_mul_spec. assert (∀ f : Z → byte, alen (f <$> seqZ 0 16) = 16) as L by done.
  rewrite !aget_app, !L by lia. destruct (decide (Z.land _ _ < 16)); [|lia]. destruct (decide (16 + _ < 16)); [lia|].
  replace (16 + Z.shiftr (b2z x) 4 - 16) with (Z.shiftr (b2z x) 4) by lia.
  assert (∀ i, 0 <= i < 16 → aget (seqZ 0 16) i = Some i) as Hs.
  { intros i Hi. apply aget_Some. split; [lia|]. apply lookup_seqZ. lia. }
  rewrite !aget_map, !Hs by lia. cbn. f_equal. rewrite <- gf_mul_distr_r, Ex. apply gf_mul_comm.
Qed.

(** * The passes *)

Section passes.
Context (n len k : Z) (v : list byte) (src dest : list (list byte)).
Context (Hlen : 16 <= len) (Hk : 1 <= k) (Hn : 0 <= n).
Context (Hs : buffers k len src) (Hd : buffers n len dest) (Ht : tabulated (n * k) v).

#[local] Abbreviation cell l i := (bsum (Z.to_nat k) (λ j, gf_mul (mget src j i) (coef k v l j))).

(** Sixteen bytes of one row. *)
Lemma row_pass l pos row :
  0 <= l < n → 0 <= pos → pos + 16 <= len → len <= alen row →
  ∃ row', for_up 0 16 (λ i row,
      xp ← xor_loop k (λ j, sj ← aget src j; x ← aget sj (pos + i); nibble_product v ((l * k + j) * 32) x);
      aset row (pos + i) xp) row = Some row' ∧
    alen row' = alen row ∧
    ∀ i, 0 <= i → aget row' i = if decide (pos <= i < pos + 16) then Some (cell l i) else aget row i.
Proof using Hlen Hk Hs Ht.
  intros Hl Hp Hp' Hr.
  destruct (for_up_inv (λ t r, alen r = alen row ∧
      ∀ i, 0 <= i → aget r i = if decide (pos <= i < pos + t) then Some (cell l i) else aget row i)
    (λ i row, xp ← xor_loop k (λ j, sj ← aget src j; x ← aget sj (pos + i); nibble_product v ((l * k + j) * 32) x);
      aset row (pos + i) xp) 0 16 row) as (row' & E & H); [lia| | |by exists row'].
  - split; [done|]. intros i Hi. by rewrite decide_False by lia.
  - intros t r Ht' [Lr Hr'].
    rewrite (xor_loop_spec k _ (λ j, gf_mul (mget src j (pos + t)) (coef k v l j))); [|lia|].
    + cbn. rewrite aset_Some by lia. eexists. split; [done|]. split; [by rewrite alen_insert|].
      intros i Hi. rewrite aget_insert by lia. destruct (decide (pos + t = i)) as [<-|Hne].
      * by rewrite decide_True by lia.
      * rewrite Hr' by done. repeat case_decide; done || lia.
    + intros j Hj. destruct (buffers_get k len src j (pos + t) Hs Hj ltac:(lia)) as (sj & Ej & Ex). rewrite Ej. cbn.
      rewrite Ex. cbn. rewrite (nibble_product_Some (n * k)) by (done || nia). unfold coef. do 3 f_equal. lia.
Qed.

(** A pass at [pos] extends what is encoded, when it leaves no gap. *)
Lemma pass_encoded pos q d :
  0 <= pos <= q → q <= pos + 16 <= len → encoded q k n v src dest d →
  ∃ d', avx_pass n k v src pos d = Some d' ∧ encoded (pos + 16) k n v src dest d'.
Proof using Hlen Hk Hn Hs Hd Ht.
  intros Hp Hq [Ld Hrows]. destruct Hd as [Hd1 Hd2]. unfold avx_pass.
  assert (∀ l row, 0 <= l < n → aget d l = Some row → ∃ row0, aget dest l = Some row0 ∧ alen row = alen row0 ∧ len <= alen row0 ∧
    encoded_row q k (coef k v l) src row0 row) as Hold.
  { intros l row Hl E. destruct (proj2 (aget_is_Some dest l)) as [row0 E0]; [lia|].
    destruct (Hrows l row0 E0) as (r' & E' & Hr'). rewrite decide_True in Hr' by lia. simplify_eq.
    exists row0. split_and!; [done|apply Hr'|by eapply Hd2|done]. }
  match goal with |- context [for_up 0 n ?body d] => destruct (for_up_array (λ l x y, alen y = alen x ∧
    ∀ i, 0 <= i → aget y i = if decide (pos <= i < pos + 16) then Some (cell l i) else aget x i) body n d)
    as (d' & E & L & H) end; [lia| |].
  - intros l t x Hl Lt Et Ex. rewrite Et. cbn. destruct (Hold l x Hl Ex) as (row0 & _ & L0 & Hx & _).
    destruct (row_pass l pos x) as (row' & -> & Hrow'); [done|lia..|]. by exists row'.
  - exists d'. split; [exact E|]. split; [lia|]. intros l row0 E0. destruct (Hrows l row0 E0) as (x & Ex & Hx).
    destruct (H l x Ex) as (y & Ey & Hy). exists y. split; [done|]. pose proof (aget_lt _ _ _ E0).
    destruct (decide (l < n)); [|congruence]. destruct Hx as [Lx Hx], Hy as [Ly Hy]. split; [lia|].
    intros i Hi. rewrite Hy, Hx by done. repeat case_decide; done || lia.
Qed.

Lemma loop_encoded fuel pos d :
  0 <= pos → pos + 16 <= len → (Z.to_nat (len - pos) < fuel)%nat → encoded pos k n v src dest d →
  ∃ d', avx_loop fuel n len k v src pos d = Some d' ∧ encoded len k n v src dest d'.
Proof using Hlen Hk Hn Hs Hd Ht.
  revert pos d. induction fuel as [|fuel IH]; intros pos d H0 Hp Hf He; [lia|].
  cbn [avx_loop]. destruct (pass_encoded pos pos d) as (d1 & -> & H1); [lia..|done|]. cbn.
  destruct (Z.leb_spec (pos + 16) (len - 16)); [apply IH; lia || done|].
  destruct (Z.eqb_spec (pos + 16) (len - 16 + 16)) as [Heq|Hne].
  - exists d1. split; [done|]. by replace len with (pos + 16) by lia.
  - (* the tail: one pass, and out *)
    destruct fuel as [|fuel]; [lia|]. cbn [avx_loop].
    destruct (pass_encoded (len - 16) (pos + 16) d1) as (d2 & -> & H2); [lia..|done|]. cbn.
    replace (len - 16 + 16) with len in * by lia.
    destruct (Z.leb_spec len (len - 16)); [lia|]. rewrite Z.eqb_refl. by exists d2.
Qed.
End passes.

Lemma encoded_none k n v src dest : encoded 0 k n v src dest dest.
Proof.
  split; [done|]. intros l row E. exists row. split; [done|]. destruct (decide (l < n)); [|done].
  split; [done|]. intros i Hi. by rewrite decide_False by lia.
Qed.

(** The kernels meet the contract. *)
#[export] Instance avx_kernel_ok n : 0 <= n → DotProdKernel n (avx_kernel n).
Proof.
  intros Hn len k v src dest Hlen Hk Hs Hd Hv Ht. unfold avx_kernel.
  destruct (Z.ltb_spec len 16); [lia|]. destruct (Z.ltb_spec k 1); [lia|].
  apply loop_encoded; (done || lia || apply encoded_none).
Qed.

(** C28: [ec_encode_data_avx] returns the same buffers as the portable [ec_encode_data_base],
    for any number of at least one source and of outputs, any length, and tables made by
    [ec_init_tables] ([tabulated]; the portable code reads byte 1 of each block of 32 only,
    the kernels look products up in all of it): four rows at a time and the rest by a
    smaller kernel, lengths under 16 by the portable code, and in the kernels two nibble
    lookups for each product, sixteen positions a pass, with an overlapping last pass. *)
Theorem ec_encode_data_avx_equivalence len k rows v src dest :
  0 <= len → 1 <= k → 0 <= rows → buffers k len src → buffers rows len dest →
  rows * k * 32 <= alen v → tabulated (rows * k) v →
  is_Some (ec_encode_data_base len k rows v src dest) ∧
  ec_encode_data_avx (avx_kernel 1) (avx_kernel 2) (avx_kernel 3) (avx_kernel 4) len k rows v src dest =
    ec_encode_data_base len k rows v src dest.
Proof.
  apply (dispatch_equivalence (avx_kernel 1) (avx_kernel 2) (avx_kernel 3) (avx_kernel 4)
    (K1 := avx_kernel_ok 1 ltac:(lia)) (K2 := avx_kernel_ok 2 ltac:(lia))
    (K3 := avx_kernel_ok 3 ltac:(lia)) (K4 := avx_kernel_ok 4 ltac:(lia))).
Qed.

(** Without the tables' other bytes the two differ: a block with the coefficient in byte 1
    alone is 2 to the portable code and 0 to the kernels. *)
Lemma malformed_table_differs :
  let v := x00 :: x02 :: replicate 30 x00 in
  let src := [replicate 16 x03] in let dest := [replicate 16 xff] in
  ec_encode_data_base 16 1 1 v src dest = Some [replicate 16 x06] ∧
  ec_encode_data_avx (avx_kernel 1) (avx_kernel 2) (avx_kernel 3) (avx_kernel 4) 16 1 1 v src dest = Some [replicate 16 x00].
Proof. split; vm_compute; reflexivity. Qed.

(** Five outputs of twenty bytes from two sources: a four-row kernel, a one-row kernel, and
    an overlapping pass in each. *)
Definition test_src20 : list (list byte) := [replicate 20 x02; replicate 20 x03].
Definition test_dest20 : list (list byte) := replicate 5 (replicate 20 x00).

Lemma ec_encode_data_avx_equivalence_witness :
  is_Some (ec_encode_data_base 20 2 5 test_tbls test_src20 test_dest20) ∧
  ec_encode_data_avx (avx_kernel 1) (avx_kernel 2) (avx_kernel 3) (avx_kernel 4) 20 2 5 test_tbls test_src20 test_dest20 =
    ec_encode_data_base 20 2 5 test_tbls test_src20 test_dest20.
Proof.
  apply ec_encode_data_avx_equivalence; [lia|lia|lia|solve_buffers|solve_buffers|vm_compute; discriminate|].
  destruct (ec_init_tables 2 5 [x01; x02; x03; x04; x05; x06; x07; x08; x09; x0a] (replicate 320 x00)) as [t|] eqn:E;
    [|vm_compute in E; discriminate E].
  assert (test_tbls = t) as -> by (unfold test_tbls; by rewrite E).
  eapply (ec_init_tables_tabulated 2 5); [lia|lia| | |exact E]; vm_compute; discriminate.
Defined.
