(* ===== verification/OneTable.v ===== *)
(** The functional test of the erasure-code library ([gf_vect_dot_prod_1tbl.c]): the field
    tables made from the generator, the 65536-entry product table, and the dot product by
    one look-up per term compared with the reference. *)

From S2P Require Import Prelude GF256 GFVect.

(** * Operations *)

(** [mk_gf_field]: the arrays [gff] and [gflog] of 256 bytes. *)
Definition mk_gf_field (gff gflog : list byte) : option (list byte * list byte) :=
  gflog ← aset gflog 0 x00;
  '(gff, gflog, _) ← for_up 0 256 (λ i '(gff, gflog, s),
    gff ← aset gff i s;
    gflog ← aset gflog (b2z s) (z2b i);
    Some (gff, gflog, z2b (Z.lxor (Z.shiftl (b2z s) 1) (if truthy (Z.land (b2z s) 0x80) then 0x1d else 0))))
    (gff, gflog, x01);
  Some (gff, gflog).

Definition mk_gf_mul_table (table : list byte) : option (list byte) :=
  for_up 0 256 (λ i table,
    for_up 0 256 (λ j table, aset table (i * 256 + j) (gf_mul (z2b i) (z2b j))) table) table.

Definition gf_vect_dot_prod_ref (len vlen : Z) (v : list byte) (src : list (list byte)) (dest : list byte)
    : option (list byte) :=
  for_up 0 len (λ i dest,
    s ← xor_loop vlen (λ j, sj ← aget src j; x ← aget sj i; y ← aget v j; Some (gf_mul x y));
    aset dest i s) dest.

(** The look-up loop of [main]. *)
Definition dot_prod_1tbl (len vlen : Z) (table v : list byte) (src : list (list byte)) (dest : list byte)
    : option (list byte) :=
  for_up 0 len (λ i dest,
    s ← xor_loop vlen (λ j, y ← aget v j; sj ← aget src j; x ← aget sj i; aget table (b2z y * 256 + b2z x));
    aset dest i s) dest.

(** [main] up to its verdict: [memcmp] of the two results. *)
Definition functional_test (len vlen : Z) (gff gflog table vec : list byte) (matrix : list (list byte)) (dest1 dest2 : list byte)
    : option bool :=
  _ ← mk_gf_field gff gflog;
  table ← mk_gf_mul_table table;
  dest1 ← gf_vect_dot_prod_ref len vlen vec matrix dest1;
  dest2 ← dot_prod_1tbl len vlen table vec matrix dest2;
  Some (bool_decide (take (Z.to_nat len) dest1 = take (Z.to_nat len) dest2)).

(** * Properties *)

(** The generated tables are the first 256 entries of the constant ones. *)
Lemma mk_gf_field_tables :
  mk_gf_field (replicate 256 x00) (replicate 256 x00) = Some (take 256 gff_base, take 256 gflog_base).
Proof. vm_compute. reflexivity. Qed.

Lemma mk_gf_field_Some gff gflog : alen gff = 256 → alen gflog = 256 → is_Some (mk_gf_field gff gflog).
Proof.
  intros L1 L2. unfold mk_gf_field. rewrite aset_Some by lia. step_bind.
  destruct (for_up_inv (λ _ st, alen st.1.1 = 256 ∧ alen st.1.2 = 256) (λ i '(gff, gflog, s),
    gff ← aset gff i s; gflog ← aset gflog (b2z s) (z2b i);
    Some (gff, gflog, z2b (Z.lxor (Z.shiftl (b2z s) 1) (if truthy (Z.land (b2z s) 0x80) then 0x1d else 0))))
    0 256 (gff, <[Z.to_nat 0:=x00]> gflog, x01)) as ([[g l] s] & -> & _); [lia|cbn [fst snd]; by rewrite alen_insert| |by step_bind; eexists].
  intros i [[g l] s] Hi [H1 H2]. cbn [fst snd] in *. pose proof (b2z_range s).
  rewrite !aset_Some by lia. step_bind.
  eexists; split; [done|]. cbn. by rewrite !alen_insert.
Qed.

Definition product_table (table : list byte) : Prop :=
  ∀ x y, aget table (b2z x * 256 + b2z y) = Some (gf_mul x y).

Lemma mk_gf_mul_table_correct table : alen table = 65536 → ∃ t, mk_gf_mul_table table = Some t ∧ product_table t.
Proof.
  intros L. unfold mk_gf_mul_table.
  destruct (for_up_inv (λ i t, alen t = 65536 ∧ ∀ a b, 0 <= a < i → 0 <= b < 256 → aget t (a * 256 + b) = Some (gf_mul (z2b a) (z2b b)))
    (λ i table, for_up 0 256 (λ j table, aset table (i * 256 + j) (gf_mul (z2b i) (z2b j))) table) 0 256 table)
    as (t & -> & Lt & Ht); [lia|split; [done|lia]| |].
  - intros i t Hi [Lt Ht].
    destruct (for_up_inv (λ j t', alen t' = 65536 ∧ (∀ a b, 0 <= a < i → 0 <= b < 256 → aget t' (a * 256 + b) = Some (gf_mul (z2b a) (z2b b))) ∧
        ∀ b, 0 <= b < j → aget t' (i * 256 + b) = Some (gf_mul (z2b i) (z2b b)))
      (λ j table, aset table (i * 256 + j) (gf_mul (z2b i) (z2b j))) 0 256 t) as (t' & -> & Lt' & Ha & Hb);
      [lia|split_and!; [done|done|lia]| |].
    + intros j t' Hj (Lt' & Ha & Hb). rewrite aset_Some by lia. eexists; split; [done|]. rewrite alen_insert.
      split_and!; [done| |]; intros; rewrite aget_insert by lia; case_decide.
      * lia.
      * by apply Ha.
      * assert (b = j) as -> by lia. done.
      * apply Hb. lia.
    + eexists; split; [done|]. split; [done|]. intros a b Ha' Hb'. destruct (decide (a = i)) as [->|]; [by apply Hb|apply Ha; lia].
  - exists t. split; [done|]. intros x y. pose proof (b2z_range x). pose proof (b2z_range y).
    rewrite Ht by lia. by rewrite !z2b_b2z.
Qed.

(** Both loops compute the same inner products. *)
Lemma dot_loop len vlen v src dest term :
  0 <= len <= alen dest → 0 <= vlen →
  (∀ i j, 0 <= i < len → 0 <= j < vlen → term i j = Some (gf_mul (mget src j i) (bget v j))) →
  ∃ dest', for_up 0 len (λ i dest, s ← xor_loop vlen (term i); aset dest i s) dest = Some dest' ∧
    encoded_row len vlen (bget v) src dest dest'.
Proof.
  intros Hlen Hv Ht. apply row_loop; [done|]. intros i t Hi Lt.
  rewrite (xor_loop_spec vlen _ (λ j, gf_mul (mget src j i) (bget v j))) by (done || intros; by apply Ht). done.
Qed.

(** The functional test of the erasure-code library passes whatever vector, matrix and
    lengths it is run with: the field tables and the product table are built inside their
    arrays, both dot products end, and the one that looks products up in the table agrees
    with the reference on every byte. *)
Theorem functional_test_passes len vlen gff gflog table vec matrix dest1 dest2 :
  alen gff = 256 → alen gflog = 256 → alen table = 65536 → 0 <= vlen → alen vec = vlen → buffers vlen len matrix →
  0 <= len → alen dest1 = len → alen dest2 = len →
  functional_test len vlen gff gflog table vec matrix dest1 dest2 = Some true.
Proof.
  intros Hg Hl Ht Hv Lv Hm Hlen L1 L2. unfold functional_test.
  destruct (mk_gf_field_Some gff gflog Hg Hl) as [fl ->]. step_bind.
  destruct (mk_gf_mul_table_correct table Ht) as (t & -> & Hprod). step_bind. unfold gf_vect_dot_prod_ref, dot_prod_1tbl.
  destruct (dot_loop len vlen vec matrix dest1 (λ i j, sj ← aget matrix j; x ← aget sj i; y ← aget vec j; Some (gf_mul x y)))
    as (d1 & -> & R1 & H1); [lia|done| |].
  { intros i j Hi Hj. apply (src_term len vlen); [done..|lia]. }
  destruct (dot_loop len vlen vec matrix dest2 (λ i j, y ← aget vec j; sj ← aget matrix j; x ← aget sj i; aget t (b2z y * 256 + b2z x)))
    as (d2 & -> & R2 & H2); [lia|done| |].
  { intros i j Hi Hj. destruct (buffers_get vlen len matrix j i Hm Hj Hi) as (row & -> & E).
    rewrite aget_bget by lia. step_bind. rewrite E. step_bind. by rewrite Hprod, gf_mul_comm. }
  step_bind. rewrite bool_decide_true; [done|]. apply array_ext. intros i Hi. destruct (decide (i < len)).
  - rewrite !aget_take, H1, H2 by lia. by rewrite !decide_True by lia.
  - rewrite !(proj2 (aget_None _ i)); [done|unfold alen in *; rewrite length_take; lia..].
Qed.

Lemma functional_test_passes_witness :
  functional_test 2 1 (replicate 256 x00) (replicate 256 x00) (replicate (Z.to_nat 65536) x00) [x03] [[x05; x07]] [x00; x00] [x00; x00]
    = Some true.
Proof.
  apply functional_test_passes;
    [reflexivity|reflexivity|unfold alen; by rewrite length_replicate, Z2Nat.id|lia|reflexivity|by apply buffers_check|lia|reflexivity|reflexivity].
Defined.
