(* ===== verification/GFMatrix.v ===== *)
(** Matrices over GF(2^8) in [erasure_code/ec_base.c]: the two generators of
    encoding matrices and Gauss-Jordan inversion, stored row by row in flat
    arrays as the code stores them. *)

From S2P Require Import Prelude GF256.

(** * Generators *)

(** [memset(a, 0, n)]. *)
Definition memset0 (a : list byte) (n : Z) : option (list byte) :=
  for_up 0 n (λ i a, aset a i x00) a.

(** [for (i = 0; i < k; i++) a[k*i + i] = 1]. *)
Definition set_identity (a : list byte) (k : Z) : option (list byte) :=
  for_up 0 k (λ i a, aset a (k * i + i) x01) a.

Definition gf_gen_rs_matrix (a : list byte) (m k : Z) : option (list byte) :=
  a ← memset0 a (k * m);
  a ← set_identity a k;
  '(a, _) ← for_up k m (λ i '(a, gen),
    '(a, _) ← for_up 0 k (λ j '(a, p),
      a ← aset a (k * i + j) p;
      Some (a, gf_mul p gen)) (a, x01);
    Some (a, gf_mul gen x02)) (a, x01);
  Some a.

(** The cursor [p = &a[k*k]] is part of the loop state. *)
Definition gf_gen_cauchy1_matrix (a : list byte) (m k : Z) : option (list byte) :=
  a ← memset0 a (k * m);
  a ← set_identity a k;
  '(a, _) ← for_up k m (λ i st,
    for_up 0 k (λ j '(a, p),
      a ← aset a p (gf_inv (z2b (Z.lxor i j)));
      Some (a, p + 1)) st) (a, k * k);
  Some a.

(** * Inversion *)

(** Loop state of [gf_invert_matrix]: the arrays [in_mat] and [out_mat]. *)
Definition mats : Type := list byte * list byte.

(** Set [out_mat] to the identity. *)
Definition invert_init (out : list byte) (n : Z) : option (list byte) :=
  out ← for_up 0 (n * n) (λ i out, aset out i x00) out;
  for_up 0 n (λ i out, aset out (i * n + i) x01) out.

(** The first row below [i] with a nonzero entry in column [i], or [n]. *)
Definition find_pivot (inm : list byte) (n i : Z) : option Z :=
  '(j, _) ← for_brk (i + 1) n (λ j _,
      x ← aget inm (j * n + i);
      Some (if zero_byte x then Next tt else Stop tt)) tt;
  Some j.

(** Swap rows [i] and [j] of both arrays. *)
Definition swap_rows (n i j : Z) (st : mats) : option mats :=
  for_up 0 n (λ k '(inm, out),
    temp ← aget inm (i * n + k);
    x ← aget inm (j * n + k);
    inm ← aset inm (i * n + k) x;
    inm ← aset inm (j * n + k) temp;
    temp ← aget out (i * n + k);
    x ← aget out (j * n + k);
    out ← aset out (i * n + k) x;
    out ← aset out (j * n + k) temp;
    Some (inm, out)) st.

(** Scale row [i] of both arrays by [temp]. *)
Definition scale_row (n i : Z) (temp : byte) (st : mats) : option mats :=
  for_up 0 n (λ j '(inm, out),
    x ← aget inm (i * n + j);
    inm ← aset inm (i * n + j) (gf_mul x temp);
    y ← aget out (i * n + j);
    out ← aset out (i * n + j) (gf_mul y temp);
    Some (inm, out)) st.

(** Subtract [temp] times row [i] from row [j] of both arrays. *)
Definition eliminate_row (n i j : Z) (temp : byte) (st : mats) : option mats :=
  for_up 0 n (λ k '(inm, out),
    x ← aget out (j * n + k); y ← aget out (i * n + k);
    out ← aset out (j * n + k) (bxor x (gf_mul temp y));
    x ← aget inm (j * n + k); y ← aget inm (i * n + k);
    inm ← aset inm (j * n + k) (bxor x (gf_mul temp y));
    Some (inm, out)) st.

Definition eliminate (n i : Z) (st : mats) : option mats :=
  for_up 0 n (λ j '(inm, out),
    if j =? i then Some (inm, out)
    else
      temp ← aget inm (j * n + i);
      eliminate_row n i j temp (inm, out)) st.

(** One iteration of the main loop; [Stop] is [return -1]. *)
Definition invert_step (n i : Z) (st : mats) : option (ctl mats) :=
  let '(inm, out) := st in
  pivot ← aget inm (i * n + i);
  swapped ← (if zero_byte pivot then
               j ← find_pivot inm n i;
               if j =? n then Some None
               else st ← swap_rows n i j (inm, out); Some (Some st)
             else Some (Some (inm, out)));
  match swapped with
  | None => Some (Stop (inm, out))
  | Some (inm, out) =>
      pivot ← aget inm (i * n + i);
      let temp := gf_inv pivot in
      st ← scale_row n i temp (inm, out);
      st ← eliminate n i st;
      Some (Next st)
  end.

(** Result: the return value and the final arrays. *)
Definition gf_invert_matrix (in_mat out_mat : list byte) (n : Z) : option (Z * list byte * list byte) :=
  out ← invert_init out_mat n;
  '(i, (inm, out)) ← for_brk 0 n (λ i st, invert_step n i st) (in_mat, out);
  Some (if i =? n then 0 else -1, inm, out).

(** * Matrices as functions *)

(** Entry [(r, c)] of an array seen as a matrix with [k] columns. *)
Definition cell (k : Z) (m : list byte) (r c : Z) : byte := bget m (r * k + c).

(** An array of [L] bytes that has room for an [n] by [n] matrix. *)
Definition square (n L : Z) (m : list byte) : Prop := alen m = L ∧ n * n <= L.

Definition matrix : Type := Z → Z → byte.
Definition mat_eq (n : Z) (A B : matrix) : Prop :=
  ∀ r c, 0 <= r < n → 0 <= c < n → A r c = B r c.
Definition identity : matrix := λ r c, if r =? c then x01 else x00.
Definition mat_mul (n : Z) (A B : matrix) : matrix :=
  λ r c, bsum (Z.to_nat n) (λ k, gf_mul (A r k) (B k c)).
(** Matrix times column vector. *)
Definition mat_vec (n : Z) (A : matrix) (v : Z → byte) : Z → byte :=
  λ r, bsum (Z.to_nat n) (λ c, gf_mul (A r c) (v c)).
Definition in_kernel (n : Z) (A : matrix) (v : Z → byte) : Prop :=
  ∀ r, 0 <= r < n → mat_vec n A v r = x00.
(** A matrix that maps some nonzero vector to zero. *)
Definition singular (n : Z) (A : matrix) : Prop :=
  ∃ v, (∃ c, 0 <= c < n ∧ v c ≠ x00) ∧ in_kernel n A v.

(** The elementary row operations. *)
Definition swapM (i j : Z) (A : matrix) : matrix :=
  λ r c, if r =? i then A j c else if r =? j then A i c else A r c.
Definition scaleM (i : Z) (t : byte) (A : matrix) : matrix :=
  λ r c, if r =? i then gf_mul (A r c) t else A r c.
(** Row [r] minus [t r] times row [i], for every row but [i]. *)
Definition elimM (i : Z) (t : Z → byte) (A : matrix) : matrix :=
  λ r c, if r =? i then A r c else bxor (A r c) (gf_mul (t r) (A i c)).

(** Row [j] only. *)
Definition elim1M (i j : Z) (t : byte) (A : matrix) : matrix :=
  λ r c, if r =? j then bxor (A r c) (gf_mul t (A i c)) else A r c.

(** ** Array accesses *)

Lemma index_inj n r c r' c' :
  0 <= c < n → 0 <= c' < n → r * n + c = r' * n + c' → r = r' ∧ c = c'.
Proof. intros. assert (r = r') as -> by nia. lia. Qed.

Lemma cell_get n L m r c :
  square n L m → 0 <= r < n → 0 <= c < n → aget m (r * n + c) = Some (cell n m r c).
Proof. intros [H ?] ? ?. apply aget_bget. rewrite H. nia. Qed.

Lemma cell_set n L m r c x :
  square n L m → 0 <= r < n → 0 <= c < n →
  ∃ m', aset m (r * n + c) x = Some m' ∧ square n L m' ∧
    ∀ r' c', 0 <= r' < n → 0 <= c' < n →
      cell n m' r' c' = if (r' =? r) && (c' =? c) then x else cell n m r' c'.
Proof.
  intros [H HL] Hr Hc. pose proof (aset_Some m (r * n + c) x) as E. rewrite H in E.
  specialize (E ltac:(nia)). eexists; split; [done|]. split.
  { unfold square. by rewrite (aset_length _ _ _ _ E). }
  intros r' c' Hr' Hc'. unfold cell, bget. rewrite (aget_aset _ _ _ _ _ E).
  case_decide as Hi.
  - destruct (index_inj n r c r' c') as [-> ->]; [done..|]. by rewrite !Z.eqb_refl.
  - destruct (Z.eqb_spec r' r), (Z.eqb_spec c' c); cbn; try done. subst. done.
Qed.

(** Reads and writes of square arrays inside a loop body: rewrite the reads to
    cells and name the array after a write. *)
Ltac sq_get :=
  step_bind;
  match goal with Hs : square ?n ?L ?m |- ∃ _, (mbind _ (aget ?m (?r * ?n + ?c)) = _) ∧ _ =>
    rewrite (cell_get n L m r c Hs) by lia; step_bind
  end.
Ltac sq_set m' H :=
  step_bind;
  match goal with Hs : square ?n ?L ?m |- ∃ _, (mbind _ (aset ?m (?r * ?n + ?c) ?x) = _) ∧ _ =>
    let E := fresh "E" in let Hsq := fresh "Hsq" in
    destruct (cell_set n L m r c x Hs) as (m' & E & Hsq & H); [lia|lia|];
    rewrite E; step_bind
  end.
(** Decide all the index comparisons of a goal. *)
Ltac idx :=
  repeat (match goal with
          | |- context [?a =? ?b] => destruct (Z.eqb_spec a b)
          | |- context [?a <? ?b] => destruct (Z.ltb_spec a b)
          | |- context [decide (?P)] => destruct (decide P)
          end; cbn [andb orb]; subst; try lia; try done).

(** [st'] holds the matrices [F A] and [G B] where [st] holds [A] and [B]. *)
Definition holds (n L1 L2 : Z) (st : mats) (A B : matrix) : Prop :=
  square n L1 st.1 ∧ square n L2 st.2 ∧ mat_eq n (cell n st.1) A ∧ mat_eq n (cell n st.2) B.

(** A loop that rewrites column [k] of both arrays in iteration [k]. *)
Lemma column_loop n L1 L2 body (st : mats) (A B A' B' : matrix) :
  0 <= n → holds n L1 L2 st A B →
  (∀ k st, 0 <= k < n →
    holds n L1 L2 st (λ r c, if c <? k then A' r c else A r c) (λ r c, if c <? k then B' r c else B r c) →
    ∃ st', body k st = Some st' ∧
      holds n L1 L2 st' (λ r c, if c <? k + 1 then A' r c else A r c) (λ r c, if c <? k + 1 then B' r c else B r c)) →
  ∃ st', for_up 0 n body st = Some st' ∧ holds n L1 L2 st' A' B'.
Proof.
  intros Hn H0 Hb.
  destruct (for_up_inv (λ k st, holds n L1 L2 st (λ r c, if c <? k then A' r c else A r c)
    (λ r c, if c <? k then B' r c else B r c)) body 0 n st) as (st' & E & H); [lia| |done|].
  - destruct H0 as (? & ? & HA & HB). split_and!; [done..| |]; intros r c Hr Hc;
      destruct (Z.ltb_spec c 0); (lia || auto).
  - exists st'. split; [done|]. destruct H as (? & ? & HA & HB).
    split_and!; [done..| |]; intros r c Hr Hc.
    + rewrite HA by done. destruct (Z.ltb_spec c n); (lia || done).
    + rewrite HB by done. destruct (Z.ltb_spec c n); (lia || done).
Qed.

Lemma ltb_step (A : Type) c k (x y : A) :
  (if c <? k + 1 then x else y) = if c =? k then x else if c <? k then x else y.
Proof. destruct (Z.ltb_spec c (k + 1)), (Z.eqb_spec c k), (Z.ltb_spec c k); (lia || done). Qed.

Lemma swap_rows_correct n L1 L2 i j st A B :
  0 <= i < n → 0 <= j < n → i ≠ j → holds n L1 L2 st A B →
  ∃ st', swap_rows n i j st = Some st' ∧ holds n L1 L2 st' (swapM i j A) (swapM i j B).
Proof.
  intros Hi Hj Hij H0. unfold swap_rows. apply (column_loop _ _ _ _ _ A B); [lia|done|].
  intros k [inm out] Hk (S1 & S2 & HA & HB). cbn [fst snd] in *.
  do 2 sq_get. sq_set in1 H1. sq_set in2 H2. do 2 sq_get. sq_set out1 H3. sq_set out2 H4.
  eexists; split; [done|]. split_and!; [done..| |]; intros r c Hr Hc; cbn [fst snd];
    rewrite ltb_step.
  - rewrite H2, H1, !HA by done. rewrite Z.ltb_irrefl. unfold swapM, scaleM, elim1M. idx.
  - rewrite H4, H3, !HB by done. rewrite Z.ltb_irrefl. unfold swapM, scaleM, elim1M. idx.
Qed.

Lemma scale_row_correct n L1 L2 i t st A B :
  0 <= i < n → holds n L1 L2 st A B →
  ∃ st', scale_row n i t st = Some st' ∧ holds n L1 L2 st' (scaleM i t A) (scaleM i t B).
Proof.
  intros Hi H0. unfold scale_row. apply (column_loop _ _ _ _ _ A B); [lia|done|].
  intros k [inm out] Hk (S1 & S2 & HA & HB). cbn [fst snd] in *.
  sq_get. sq_set in1 H1. sq_get. sq_set out1 H2.
  eexists; split; [done|]. split_and!; [done..| |]; intros r c Hr Hc; cbn [fst snd];
    rewrite ltb_step.
  - rewrite H1, !HA by done. rewrite Z.ltb_irrefl. unfold swapM, scaleM, elim1M. idx.
  - rewrite H2, !HB by done. rewrite Z.ltb_irrefl. unfold swapM, scaleM, elim1M. idx.
Qed.

Lemma eliminate_row_correct n L1 L2 i j t st A B :
  0 <= i < n → 0 <= j < n → i ≠ j → holds n L1 L2 st A B →
  ∃ st', eliminate_row n i j t st = Some st' ∧ holds n L1 L2 st' (elim1M i j t A) (elim1M i j t B).
Proof.
  intros Hi Hj Hij H0. unfold eliminate_row. apply (column_loop _ _ _ _ _ A B); [lia|done|].
  intros k [inm out] Hk (S1 & S2 & HA & HB). cbn [fst snd] in *.
  do 2 sq_get. sq_set out1 H1. do 2 sq_get. sq_set in1 H2.
  eexists; split; [done|]. split_and!; [done..| |]; intros r c Hr Hc; cbn [fst snd];
    rewrite ltb_step.
  - rewrite H2, !HA by done. rewrite Z.ltb_irrefl. unfold swapM, scaleM, elim1M. idx.
  - rewrite H1, !HB by done. rewrite Z.ltb_irrefl. unfold swapM, scaleM, elim1M. idx.
Qed.

Lemma eliminate_correct n L1 L2 i st A B :
  0 <= i < n → holds n L1 L2 st A B →
  ∃ st', eliminate n i st = Some st' ∧
    holds n L1 L2 st' (elimM i (λ r, A r i) A) (elimM i (λ r, A r i) B).
Proof.
  intros Hi H0. unfold eliminate.
  pose (upto := λ (j : Z) (M : matrix) (r c : Z), if r <? j then elimM i (λ r, A r i) M r c else M r c).
  destruct (for_up_inv (λ j st, holds n L1 L2 st (upto j A) (upto j B))
    (λ j '(inm, out), if j =? i then Some (inm, out)
      else temp ← aget inm (j * n + i); eliminate_row n i j temp (inm, out)) 0 n st)
    as (st' & E & H); [lia| | |].
  - destruct H0 as (? & ? & HA & HB). unfold upto.
    split_and!; [done..| |]; intros r c Hr Hc; destruct (Z.ltb_spec r 0); (lia || auto).
  - intros j [inm out] Hj (S1 & S2 & HA & HB). cbn [fst snd] in *. unfold upto in *.
    destruct (Z.eqb_spec j i) as [->|Hji].
    + eexists; split; [done|]. split_and!; [done..| |]; intros r c Hr Hc; cbn [fst snd].
      * rewrite HA, ltb_step by done. unfold elimM. idx.
      * rewrite HB, ltb_step by done. unfold elimM. idx.
    + sq_get. destruct (eliminate_row_correct n L1 L2 i j (cell n inm j i) (inm, out) (upto j A) (upto j B))
        as (st2 & E & S1' & S2' & HA' & HB'); [lia|lia|done|done|].
      exists st2. split; [done|]. rewrite HA, Z.ltb_irrefl in HA', HB' by lia. unfold upto in *.
      split_and!; [done..| |]; intros r c Hr Hc.
      * rewrite HA', ltb_step by done. unfold elim1M, elimM. idx.
      * rewrite HB', ltb_step by done. unfold elim1M, elimM. idx.
  - exists st'. split; [done|]. destruct H as (? & ? & HA & HB). unfold upto in *.
    split_and!; [done..| |]; intros r c Hr Hc.
    + rewrite HA by done. destruct (Z.ltb_spec r n); (lia || done).
    + rewrite HB by done. destruct (Z.ltb_spec r n); (lia || done).
Qed.

(** ** Row operations act on products and kernels *)

Lemma mat_mul_swap n i j B M : mat_eq n (mat_mul n (swapM i j B) M) (swapM i j (mat_mul n B M)).
Proof. intros r c _ _. unfold mat_mul, swapM. by destruct (r =? i), (r =? j). Qed.

Lemma mat_mul_scale n i t B M : mat_eq n (mat_mul n (scaleM i t B) M) (scaleM i t (mat_mul n B M)).
Proof.
  intros r c _ _. unfold mat_mul, scaleM. destruct (r =? i); [|done].
  rewrite <- bsum_mul_r. apply bsum_ext. intros k _. ring.
Qed.

Lemma mat_mul_elim n i t B M : mat_eq n (mat_mul n (elimM i t B) M) (elimM i t (mat_mul n B M)).
Proof.
  intros r c _ _. unfold mat_mul, elimM. destruct (r =? i); [done|].
  rewrite <- bsum_mul_l, <- bsum_bxor. apply bsum_ext. intros k _. ring.
Qed.

Lemma mat_vec_ext n A B v r :
  mat_eq n A B → 0 <= r < n → mat_vec n A v r = mat_vec n B v r.
Proof. intros H Hr. apply bsum_ext. intros c Hc. rewrite H; [done|lia|lia]. Qed.

Lemma mat_vec_elim n i t A v r :
  r ≠ i → mat_vec n (elimM i t A) v r = bxor (mat_vec n A v r) (gf_mul (t r) (mat_vec n A v i)).
Proof.
  intros Hr. unfold mat_vec, elimM. destruct (Z.eqb_spec r i); [done|].
  rewrite <- bsum_mul_l, <- bsum_bxor. apply bsum_ext. intros k _. ring.
Qed.

Lemma kernel_swap n i j A v :
  0 <= i < n → 0 <= j < n → in_kernel n (swapM i j A) v → in_kernel n A v.
Proof.
  intros Hi Hj H r Hr. unfold in_kernel, mat_vec, swapM in *.
  destruct (Z.eqb_spec r j) as [->|].
  - specialize (H i Hi). by rewrite Z.eqb_refl in H.
  - destruct (Z.eqb_spec r i) as [->|].
    + specialize (H j Hj). rewrite Z.eqb_refl in H. by destruct (Z.eqb_spec j i).
    + specialize (H r Hr). destruct (Z.eqb_spec r i), (Z.eqb_spec r j); done.
Qed.

Lemma kernel_scale n i t A v :
  t ≠ x00 → in_kernel n (scaleM i t A) v → in_kernel n A v.
Proof.
  intros Ht H r Hr. specialize (H r Hr). unfold mat_vec, scaleM in *.
  destruct (r =? i); [|done].
  assert (gf_mul (bsum (Z.to_nat n) (λ c, gf_mul (A r c) (v c))) t = x00) as E.
  { rewrite <- H, <- bsum_mul_r. apply bsum_ext. intros k _. ring. }
  by apply gf_mul_integral in E as [?|?].
Qed.

Lemma kernel_elim n i t A v :
  0 <= i < n → in_kernel n (elimM i t A) v → in_kernel n A v.
Proof.
  intros Hi H. assert (mat_vec n A v i = x00) as H0.
  { specialize (H i Hi). unfold mat_vec, elimM in *. by rewrite Z.eqb_refl in H. }
  intros r Hr. destruct (Z.eq_dec r i) as [->|Hne]; [done|].
  specialize (H r Hr). rewrite mat_vec_elim, H0, gf_mul_0_r, bxor_0_r in H by done. done.
Qed.

(** * Correctness of inversion *)

(** Before step [i]: the first [i] columns of [A] are those of the identity, [A]
    is [B] times the input, and no kernel vector was introduced. *)
Definition inverting (n i : Z) (M A B : matrix) : Prop :=
  mat_eq n A (mat_mul n B M) ∧
  (∀ v, in_kernel n A v → in_kernel n M v) ∧
  (∀ r c, 0 <= r < n → 0 <= c < i → A r c = identity r c).

Lemma inverting_swap n i j M A B :
  0 <= i < j → j < n → inverting n i M A B → inverting n i M (swapM i j A) (swapM i j B).
Proof.
  intros Hij Hj (HP & HK & HU). split_and!.
  - intros r c Hr Hc. rewrite mat_mul_swap by done. unfold swapM.
    destruct (r =? i), (r =? j); apply HP; lia.
  - intros v Hv. apply HK. eapply kernel_swap; [..|done]; lia.
  - intros r c Hr Hc. unfold swapM, identity. rewrite !HU by lia. unfold identity. idx.
Qed.

Lemma inverting_scale n i t M A B :
  0 <= i < n → t ≠ x00 → inverting n i M A B → inverting n i M (scaleM i t A) (scaleM i t B).
Proof.
  intros Hi Ht (HP & HK & HU). split_and!.
  - intros r c Hr Hc. rewrite mat_mul_scale by done. unfold scaleM. by rewrite HP.
  - intros v Hv. eapply HK, kernel_scale; done.
  - intros r c Hr Hc. unfold scaleM. rewrite HU by lia. unfold identity.
    destruct (Z.eqb_spec r i), (Z.eqb_spec r c); (lia || done).
Qed.

Lemma inverting_elim n i M A B :
  0 <= i < n → A i i = x01 → inverting n i M A B →
  inverting n (i + 1) M (elimM i (λ r, A r i) A) (elimM i (λ r, A r i) B).
Proof.
  intros Hi H1 (HP & HK & HU). split_and!.
  - intros r c Hr Hc. rewrite mat_mul_elim by done. unfold elimM. rewrite !HP by (done || lia). done.
  - intros v Hv. eapply HK, kernel_elim; done.
  - intros r c Hr Hc. unfold elimM. destruct (Z.eq_dec c i) as [->|].
    + unfold identity. destruct (Z.eqb_spec r i) as [->|]; [done|].
      rewrite H1, gf_mul_comm, gf_mul_1_l. apply bxor_nilpotent.
    + rewrite (HU r c), (HU i c) by lia. unfold identity. destruct (Z.eqb_spec i c); [lia|].
      rewrite gf_mul_0_r, bxor_0_r. by destruct (r =? i).
Qed.

Lemma find_pivot_correct n L inm i :
  0 <= i < n → square n L inm →
  ∃ j, find_pivot inm n i = Some j ∧ i + 1 <= j <= n ∧
    (∀ r, i + 1 <= r < j → cell n inm r i = x00) ∧ (j < n → cell n inm j i ≠ x00).
Proof.
  intros Hi Hs. unfold find_pivot.
  destruct (for_brk_search (λ j, negb (zero_byte (cell n inm j i)))
    (λ j _, x ← aget inm (j * n + i); Some (if zero_byte x then Next tt else Stop tt)) (i + 1) n tt)
    as (j & E & Hj & Hz & Hp); [lia| |].
  - intros j Hj. rewrite (cell_get n L) by (done || lia). step_bind. by destruct (zero_byte _).
  - exists j. rewrite E. step_bind. split_and!; [done|lia|lia| |].
    + intros r Hr. by apply zero_byte_true, negb_false_iff, Hz.
    + intros H. apply zero_byte_false, negb_true_iff. by apply Hp.
Qed.

(** No pivot: column [i] lies in the span of the unit columns before it. *)
Lemma no_pivot_singular n i M A B :
  0 <= i < n → inverting n i M A B → (∀ r, i <= r < n → A r i = x00) → singular n M.
Proof.
  intros Hi (_ & HK & HU) Hz.
  exists (λ c, if c <? i then A c i else if c =? i then x01 else x00). split.
  { exists i. split; [done|]. rewrite Z.ltb_irrefl, Z.eqb_refl. done. }
  apply HK. intros r Hr. unfold mat_vec.
  transitivity (bsum (Z.to_nat n) (λ c, bxor
    (if c =? i then A r i else x00) (if (c =? r) && (r <? i) then A r i else x00))).
  - apply bsum_ext. intros c Hc. destruct (Z.ltb_spec c i).
    + rewrite HU by lia. unfold identity. idx; rewrite ?gf_mul_1_l, ?gf_mul_0_l, ?bxor_0_l; done.
    + destruct (Z.eqb_spec c i) as [->|].
      * rewrite gf_mul_comm, gf_mul_1_l. idx; by rewrite bxor_0_r.
      * rewrite gf_mul_0_r. idx; by rewrite bxor_0_l.
  - rewrite bsum_bxor, (bsum_single _ i), Z.eqb_refl; [|lia|intros c ? ?; by idx].
    destruct (Z.ltb_spec r i).
    + rewrite (bsum_single _ r), Z.eqb_refl; [|lia|intros c ? ?; by idx]. apply bxor_nilpotent.
    + rewrite Hz by lia. rewrite bsum_zero; [done|]. intros c ?. by rewrite andb_false_r.
Qed.

(** The state before step [i] of the main loop. *)
Definition invert_inv (n L1 L2 : Z) (M : matrix) (i : Z) (st : mats) : Prop :=
  ∃ A B, holds n L1 L2 st A B ∧ inverting n i M A B.

Lemma holds_inverting n L1 L2 st M i A B :
  holds n L1 L2 st A B → inverting n i M A B → 0 <= i < n →
  inverting n i M (cell n st.1) (cell n st.2).
Proof.
  intros (_ & _ & HA & HB) (HP & HK & HU) Hi. split_and!.
  - intros r c Hr Hc. rewrite HA, HP by done. apply bsum_ext. intros k Hk. rewrite HB; [done|lia|lia].
  - intros v Hv. apply HK. intros r Hr. rewrite <- (Hv r Hr). symmetry. by apply mat_vec_ext.
  - intros r c Hr Hc. rewrite HA by lia. by apply HU.
Qed.

Lemma holds_self n L1 L2 st A B : holds n L1 L2 st A B → holds n L1 L2 st (cell n st.1) (cell n st.2).
Proof. intros (? & ? & _ & _). by split_and!. Qed.

(** The tail of a step, once the pivot is nonzero. *)
Lemma invert_finish n L1 L2 M i st A B :
  0 <= i < n → holds n L1 L2 st A B → inverting n i M A B → A i i ≠ x00 →
  ∃ st', (pivot ← aget st.1 (i * n + i);
          let temp := gf_inv pivot in
          st ← scale_row n i temp st; st ← eliminate n i st; Some (Next st)) = Some (Next st') ∧
    invert_inv n L1 L2 M (i + 1) st'.
Proof.
  intros Hi Hh Hinv Hp. pose proof Hh as (S1 & S2 & HA & _).
  rewrite (cell_get n L1) by (done || lia). step_bind. rewrite HA by lia.
  destruct (scale_row_correct n L1 L2 i (gf_inv (A i i)) st A B) as (st1 & -> & Hh1); [done..|]. step_bind.
  destruct (eliminate_correct n L1 L2 i st1 _ _ Hi Hh1) as (st2 & -> & Hh2). step_bind.
  exists st2. split; [done|]. do 2 eexists. split; [done|].
  apply inverting_elim; [done| |apply inverting_scale; [done|by apply gf_inv_nonzero|done]].
  unfold scaleM. rewrite Z.eqb_refl. by apply gf_mul_inv.
Qed.

Lemma invert_step_correct n L1 L2 M i st :
  0 <= i < n → invert_inv n L1 L2 M i st →
  ∃ c, invert_step n i st = Some c ∧
    match c with
    | Next st' => invert_inv n L1 L2 M (i + 1) st'
    | Stop st' => singular n M ∧ alen st'.1 = L1 ∧ alen st'.2 = L2
    end.
Proof.
  intros Hi (A0 & B0 & Hh0 & Hinv0). destruct st as [inm out].
  pose proof (holds_self _ _ _ _ _ _ Hh0) as Hh. pose proof (holds_inverting _ _ _ _ _ _ _ _ Hh0 Hinv0 Hi) as Hinv.
  cbn [fst snd] in *. pose proof Hh as (S1 & S2 & _). cbn [fst snd] in *.
  unfold invert_step. rewrite (cell_get n L1) by (done || lia). step_bind.
  destruct (zero_byte (cell n inm i i)) eqn:Ez.
  - apply zero_byte_true in Ez.
    destruct (find_pivot_correct n L1 inm i Hi S1) as (j & -> & Hj & Hz & Hp). step_bind.
    destruct (Z.eqb_spec j n) as [->|Hjn].
    + eexists; split; [step_bind; done|]. split; [|by destruct S1, S2].
      eapply no_pivot_singular; [done|done|]. intros r Hr.
      destruct (Z.eq_dec r i) as [->|]; [done|]. apply Hz. lia.
    + edestruct (swap_rows_correct n L1 L2 i j (inm, out)) as (st1 & -> & Hh1); [lia|lia|lia|done|].
      step_bind. destruct st1 as [in1 out1].
      edestruct (invert_finish n L1 L2 M i (in1, out1)) as (st' & E & H); [done|done| | |].
      * apply inverting_swap; [lia|lia|done].
      * unfold swapM. rewrite Z.eqb_refl. apply Hp. lia.
      * cbn [fst snd] in E. exists (Next st'). split; [exact E|done].
  - apply zero_byte_false in Ez. step_bind.
    destruct (invert_finish n L1 L2 M i (inm, out) _ _ Hi Hh Hinv Ez) as (st' & E & H).
    exists (Next st'). split; [exact E|done].
Qed.

Lemma invert_init_correct n L out :
  0 <= n → square n L out →
  ∃ out', invert_init out n = Some out' ∧ square n L out' ∧ mat_eq n (cell n out') identity.
Proof.
  intros Hn [HL Hle]. unfold invert_init.
  destruct (for_up_fill (λ _, x00) (λ i out, aset out i x00) (n * n) out) as (o1 & -> & L1 & Hz & _);
    [nia|done|]. step_bind.
  destruct (for_up_inv (λ i o, square n L o ∧
      ∀ r c, 0 <= r < n → 0 <= c < n → cell n o r c = if (r =? c) && (c <? i) then x01 else x00)
    (λ i out, aset out (i * n + i) x01) 0 n o1) as (o2 & -> & H); [lia| | |].
  - split; [split; [lia|done]|]. intros r c Hr Hc. unfold cell, bget. rewrite Hz by nia.
    destruct (Z.ltb_spec c 0); [lia|]. by rewrite andb_false_r.
  - intros i o Hi [Hs Hc]. destruct (cell_set n L o i i x01 Hs) as (o' & -> & Hs' & H'); [lia|lia|].
    eexists; split; [done|]. split; [done|]. intros r c Hr Hc'. rewrite H', Hc by done. idx.
  - eexists; split; [done|]. destruct H as [Hs H]. split; [done|]. intros r c Hr Hc.
    rewrite H by done. unfold identity. destruct (Z.ltb_spec c n); [|lia]. by rewrite andb_true_r.
Qed.

Lemma mat_mul_identity_l n A : mat_eq n (mat_mul n identity A) A.
Proof.
  intros r c Hr Hc. unfold mat_mul, identity. rewrite (bsum_single _ r); [|lia|].
  - by rewrite Z.eqb_refl, gf_mul_1_l.
  - intros i Hi Hne. destruct (Z.eqb_spec r i); [lia|]. by rewrite gf_mul_0_l.
Qed.

(** A left inverse excludes nonzero kernel vectors. *)
Lemma mat_mul_vec n A B v r :
  mat_vec n (mat_mul n A B) v r = bsum (Z.to_nat n) (λ k, gf_mul (A r k) (mat_vec n B v k)).
Proof.
  unfold mat_vec, mat_mul.
  transitivity (bsum (Z.to_nat n) (λ c, bsum (Z.to_nat n) (λ k, gf_mul (gf_mul (A r k) (B k c)) (v c)))).
  - apply bsum_ext. intros c _. by rewrite bsum_mul_r.
  - rewrite bsum_swap. apply bsum_ext. intros k _. rewrite <- bsum_mul_l. apply bsum_ext. intros c _. ring.
Qed.

Lemma mat_vec_identity n v r : 0 <= r < n → mat_vec n identity v r = v r.
Proof.
  intros Hr. unfold mat_vec, identity. rewrite (bsum_single _ r); [|lia|].
  - by rewrite Z.eqb_refl, gf_mul_1_l.
  - intros i Hi Hne. destruct (Z.eqb_spec r i); [lia|]. by rewrite gf_mul_0_l.
Qed.

Lemma left_inverse_not_singular n A B : mat_eq n (mat_mul n B A) identity → ¬ singular n A.
Proof.
  intros H (v & (c & Hc & Hv) & Hk). apply Hv.
  rewrite <- (mat_vec_identity n v c) by done. rewrite <- (mat_vec_ext n _ _ v c H) by done.
  rewrite mat_mul_vec. apply bsum_zero. intros k Hk'. rewrite Hk by lia. apply gf_mul_0_r.
Qed.

(** What [gf_invert_matrix] leaves behind, by return value. *)
Definition inverted (n L1 L2 : Z) (M : matrix) (ret : Z) (inm out : list byte) : Prop :=
  alen inm = L1 ∧ alen out = L2 ∧
  ((ret = 0 ∧ mat_eq n (cell n inm) identity ∧ mat_eq n (mat_mul n (cell n out) M) identity)
   ∨ (ret = -1 ∧ singular n M)).

Lemma gf_invert_matrix_spec n L1 L2 inm out :
  0 <= n → square n L1 inm → square n L2 out →
  ∃ ret inm' out', gf_invert_matrix inm out n = Some (ret, inm', out') ∧
    inverted n L1 L2 (cell n inm) ret inm' out'.
Proof.
  intros Hn H1 H2. unfold gf_invert_matrix.
  destruct (invert_init_correct n L2 out Hn H2) as (o & -> & Ho & Hid). step_bind.
  destruct (for_brk_inv (invert_inv n L1 L2 (cell n inm))
    (λ _ st, singular n (cell n inm) ∧ alen st.1 = L1 ∧ alen st.2 = L2)
    (λ i st, invert_step n i st) 0 n (inm, o)) as (i & [im om] & -> & H); [lia| | |].
  - exists (cell n inm), (cell n o). split; [by split_and!|]. split_and!; [|done|intros r c ? ?; lia].
    intros r c Hr Hc. rewrite <- (mat_mul_identity_l n (cell n inm) r c) by done. apply bsum_ext. intros k Hk.
    rewrite Hid; [done|lia|lia].
  - intros i st Hi Hst. by apply invert_step_correct.
  - step_bind. do 3 eexists; split; [done|]. unfold inverted. cbn [fst snd] in *.
    destruct H as [(-> & A & B & (S1 & S2 & HA & HB) & (HP & HK & HU))|(Hi & Hs & L1' & L2')].
    + cbn [fst snd] in *. destruct S1, S2. split_and!; [done..|]. left.
      rewrite Z.eqb_refl. split_and!; [done| |].
      * intros r c Hr Hc. rewrite HA by done. by apply HU.
      * intros r c Hr Hc. rewrite <- HU, HP by done. apply bsum_ext. intros k Hk. rewrite HB; [done|lia|lia].
    + split_and!; [done..|]. right. destruct (Z.eqb_spec i n); [lia|done].
Qed.

(** C4: [gf_invert_matrix] never leaves its arrays and decides invertibility: it
    returns 0 exactly on the matrices without a nonzero kernel vector, and then
    [out_mat] times the input is the identity; otherwise it returns -1. *)
Theorem gf_invert_matrix_correct n inm out :
  0 <= n → n * n <= alen inm → n * n <= alen out →
  ∃ ret inm' out', gf_invert_matrix inm out n = Some (ret, inm', out') ∧
    (ret = 0 ∨ ret = -1) ∧
    (ret = 0 ↔ ¬ singular n (cell n inm)) ∧
    (ret = 0 → mat_eq n (mat_mul n (cell n out') (cell n inm)) identity).
Proof.
  intros Hn H1 H2.
  destruct (gf_invert_matrix_spec n (alen inm) (alen out) inm out) as (ret & im & om & E & _ & _ & H);
    [done..|].
  exists ret, im, om. split; [done|].
  destruct H as [(-> & _ & Hi)|[-> Hs]].
  - split_and!; [by left| |done]. split; [|done]. intros _. by eapply left_inverse_not_singular.
  - split_and!; [by right| |done]. split; [done|]. intros Hns. by destruct Hns.
Qed.

Lemma gf_invert_matrix_correct_witness :
  ∃ ret inm' out',
    gf_invert_matrix [x00; x01; x01; x02] (replicate 4 x00) 2 = Some (ret, inm', out') ∧
    (ret = 0 ∨ ret = -1) ∧
    (ret = 0 ↔ ¬ singular 2 (cell 2 [x00; x01; x01; x02])) ∧
    (ret = 0 → mat_eq 2 (mat_mul 2 (cell 2 out') (cell 2 [x00; x01; x01; x02])) identity).
Proof. apply (gf_invert_matrix_correct 2); [lia|vm_compute; discriminate..]. Defined.

(** ** Generators *)

Lemma memset0_correct a n :
  0 <= n <= alen a →
  ∃ a', memset0 a n = Some a' ∧ alen a' = alen a ∧ ∀ i, 0 <= i < n → aget a' i = Some x00.
Proof.
  intros Hn. destruct (for_up_fill (λ _, x00) (λ i a, aset a i x00) n a) as (a' & E & L & H & _);
    [done|done|]. eauto.
Qed.

(** [i]-th element of the parity row of the Cauchy matrix. *)
Definition cauchy_entry (k r c : Z) : byte :=
  if r <? k then identity r c else gf_inv (z2b (Z.lxor r c)).

Lemma set_identity_correct a k L :
  0 <= k → square k L a → (∀ i, 0 <= i < k * k → aget a i = Some x00) →
  ∃ a', set_identity a k = Some a' ∧ alen a' = L ∧ mat_eq k (cell k a') identity.
Proof.
  intros Hk Hs Hz. unfold set_identity.
  destruct (for_up_inv (λ i o, square k L o ∧
      ∀ r c, 0 <= r < k → 0 <= c < k → cell k o r c = if (r =? c) && (c <? i) then x01 else x00)
    (λ i a, aset a (k * i + i) x01) 0 k a) as (o2 & E & H); [lia| | |].
  - split; [done|]. intros r c Hr Hc. unfold cell, bget. rewrite Hz by nia.
    destruct (Z.ltb_spec c 0); [lia|]. by rewrite andb_false_r.
  - intros i o Hi [Hs' Hc]. rewrite (Z.mul_comm k i).
    destruct (cell_set k L o i i x01 Hs') as (o' & -> & Hs'' & H'); [lia|lia|].
    eexists; split; [done|]. split; [done|]. intros r c Hr Hc'. rewrite H', Hc by done. idx.
  - exists o2. split; [done|]. destruct H as [[L2 _] H]. split; [done|]. intros r c Hr Hc.
    rewrite H by done. unfold identity. destruct (Z.ltb_spec c k); [|lia]. by rewrite andb_true_r.
Qed.

Lemma gf_gen_cauchy1_matrix_spec a m k :
  0 <= k <= m → m * k <= alen a →
  ∃ a', gf_gen_cauchy1_matrix a m k = Some a' ∧ alen a' = alen a ∧
    ∀ r c, 0 <= r < m → 0 <= c < k → cell k a' r c = cauchy_entry k r c.
Proof.
  intros Hk Ha. unfold gf_gen_cauchy1_matrix.
  destruct (memset0_correct a (k * m)) as (a1 & -> & L1 & Hz); [nia|]. step_bind.
  destruct (set_identity_correct a1 k (alen a)) as (a2 & -> & L2 & Hid);
    [lia|split; nia|intros i Hi; apply Hz; nia|]. step_bind.
  pose (done_upto := λ n (o : list byte), alen o = alen a ∧
    ∀ r c, 0 <= r → 0 <= c < k → r * k + c < n → cell k o r c = cauchy_entry k r c).
  destruct (for_up_inv (λ i st, st.2 = i * k ∧ done_upto (i * k) st.1)
    (λ i st, for_up 0 k (λ j '(a, p), a ← aset a p (gf_inv (z2b (Z.lxor i j))); Some (a, p + 1)) st)
    k m (a2, k * k)) as ([a3 p] & -> & _ & H3); [lia| | |].
  - split; [done|]. split; [done|]. intros r c Hr Hc Hlt. cbn [fst]. assert (r < k) by nia.
    rewrite Hid by lia. unfold cauchy_entry. destruct (Z.ltb_spec r k); [done|lia].
  - intros i [b p] Hi [Hp Hb]. cbn [fst snd] in *. subst p.
    destruct (for_up_inv (λ j st, st.2 = i * k + j ∧ done_upto (i * k + j) st.1)
      (λ j '(a, p), a ← aset a p (gf_inv (z2b (Z.lxor i j))); Some (a, p + 1)) 0 k (b, i * k))
      as ([b' p] & -> & Hp & Hb'); [lia|by rewrite Z.add_0_r| |].
    + intros j [b1 p] Hj [Hp [Lb Hb1]]. cbn [fst snd] in *. subst p.
      pose proof (aset_Some b1 (i * k + j) (gf_inv (z2b (Z.lxor i j))) ltac:(nia)) as E.
      rewrite E. step_bind. eexists; split; [done|]. cbn [fst snd]. split; [lia|].
      split; [by rewrite (aset_length _ _ _ _ E)|]. intros r c Hr Hc Hlt.
      unfold cell, bget. rewrite (aget_aset _ _ _ _ _ E). case_decide as Hd.
      * destruct (index_inj k i j r c) as [-> ->]; [lia|lia|done|].
        unfold cauchy_entry. destruct (Z.ltb_spec r k); [lia|done].
      * apply Hb1; lia.
    + eexists; split; [done|]. cbn [fst snd] in *. split; [lia|].
      by replace ((i + 1) * k) with (i * k + k) by lia.
  - step_bind. exists a3. destruct H3 as [L3 H3]. split_and!; [done|done|].
    intros r c Hr Hc. apply H3; [lia|lia|nia].
Qed.

(** The Cauchy generator stores the identity over the parity rows
    [1 / (i xor j)], without leaving its [m * k] array. *)
Theorem gf_gen_cauchy1_matrix_correct a m k :
  0 <= k <= m → m * k <= alen a →
  ∃ a', gf_gen_cauchy1_matrix a m k = Some a' ∧ alen a' = alen a ∧
    ∀ r c, 0 <= r < m → 0 <= c < k → cell k a' r c = cauchy_entry k r c.
Proof. apply gf_gen_cauchy1_matrix_spec. Qed.

Lemma gf_gen_cauchy1_matrix_correct_witness :
  ∃ a', gf_gen_cauchy1_matrix (replicate 24 x00) 6 4 = Some a' ∧ alen a' = 24 ∧
    ∀ r c, 0 <= r < 6 → 0 <= c < 4 → cell 4 a' r c = cauchy_entry 4 r c.
Proof. apply (gf_gen_cauchy1_matrix_correct (replicate 24 x00) 6 4); [lia|vm_compute; discriminate]. Defined.
