(* ===== verification/Decode.v ===== *)
(** Decoding matrices ([gf_gen_decode_matrix] of [is_main.c], [#ifdef EC]) and the
    recovery of lost slabs from any large enough set of survivors, composing the
    encoder, the table builder and the inversion. *)

From S2P Require Import Prelude GF256 GFVect GFMatrix.

Definition NO_INVERT_MATRIX : Z := -2.

(** [while (src_in_err[r]) r++], with fuel; leaving the array is [None]. *)
Fixpoint skip_errs (fuel : nat) (src_in_err : list Z) (r : Z) : option Z :=
  match fuel with
  | O => None
  | S fuel' => e ← aget src_in_err r; if truthy e then skip_errs fuel' src_in_err (r + 1) else Some r
  end.

Section gen_decode_matrix.
(** Size of the local arrays [backup] and [b]: [NDISKS*NDATAS]. *)
Context (bsize : Z).

(** [memcpy(dst, src, n)] between two arrays. *)
Definition memcpy (dst src : list byte) (n : Z) : option (list byte) :=
  for_up 0 n (λ i d, x ← aget src i; aset d i x) dst.

(** Construct matrix [b] by removing error rows: state [(b, backup, decode_index, r)]. *)
Definition construct_b (enc : list byte) (src_in_err : list Z) (k : Z)
    (b backup : list byte) (decode_index : list Z)
    : option (list byte * list byte * list Z * Z) :=
  for_up 0 k (λ i '(b, backup, decode_index, r),
    r ← skip_errs (S (length src_in_err)) src_in_err r;
    '(b, backup) ← for_up 0 k (λ j '(b, backup),
      x ← aget enc (k * r + j);
      b ← aset b (k * i + j) x;
      backup ← aset backup (k * i + j) x;
      Some (b, backup)) (b, backup);
    decode_index ← aset decode_index i r;
    Some (b, backup, decode_index, r + 1)) (b, backup, decode_index, 0).

(** The [while (gf_invert_matrix(b, invert_matrix, k) < 0)] loop: on a singular
    [b], try the next surviving row in last position.  Result:
    [(ret, invert_matrix, decode_index)]. *)
Fixpoint invert_retry (fuel : nat) (enc backup : list byte) (src_err_list : list Z)
    (nerrs nsrcerrs k m : Z) (b inv : list byte) (decode_index : list Z) (incr : Z)
    : option (Z * list byte * list Z) :=
  match fuel with
  | O => None
  | S fuel' =>
      '(ret, b, inv) ← gf_invert_matrix b inv k;
      if ret <? 0 then
        if nerrs =? m - k then Some (NO_INVERT_MATRIX, inv, decode_index)
        else
          let incr := incr + 1 in
          b ← memcpy b backup bsize;
          last ← aget decode_index (k - 1);
          incr ← for_up nsrcerrs (nerrs - nsrcerrs) (λ i incr,
            e ← aget src_err_list i;
            Some (if e =? last + incr then incr + 1 else incr)) incr;
          if last + incr >=? m then Some (NO_INVERT_MATRIX, inv, decode_index)
          else
            decode_index ← aset decode_index (k - 1) (last + incr);
            b ← for_up 0 k (λ j b,
              x ← aget enc (k * (last + incr) + j);
              aset b (k * (k - 1) + j) x) b;
            invert_retry fuel' enc backup src_err_list nerrs nsrcerrs k m b inv decode_index incr
      else Some (0, inv, decode_index)
  end.

(** Rows of the decode matrix: inverse rows for lost sources, encoding rows times
    the inverse for lost parities. *)
Definition decode_src_rows (inv : list byte) (src_err_list : list Z) (nsrcerrs k : Z)
    (dec : list byte) : option (list byte) :=
  for_up 0 nsrcerrs (λ i dec,
    for_up 0 k (λ j dec,
      e ← aget src_err_list i;
      x ← aget inv (k * e + j);
      aset dec (k * i + j) x) dec) dec.

Definition decode_parity_rows (enc inv : list byte) (src_err_list : list Z) (nerrs nsrcerrs k : Z)
    (dec : list byte) : option (list byte) :=
  for_up nsrcerrs nerrs (λ p dec,
    for_up 0 k (λ i dec,
      s ← xor_loop k (λ j,
        x ← aget inv (j * k + i);
        e ← aget src_err_list p;
        y ← aget enc (k * e + j);
        Some (gf_mul x y));
      aset dec (k * p + i) s) dec) dec.

(** The whole function: [(ret, decode_matrix, invert_matrix, decode_index)]; [b0] and
    [backup0] are the uninitialised contents of the local arrays. *)
Definition gf_gen_decode_matrix (b0 backup0 enc dec inv : list byte) (decode_index : list Z)
    (src_err_list src_in_err : list Z) (nerrs nsrcerrs k m : Z)
    : option (Z * list byte * list byte * list Z) :=
  '(b, backup, decode_index, _) ← construct_b enc src_in_err k b0 backup0 decode_index;
  '(ret, inv, decode_index) ←
    invert_retry (S (Z.to_nat m)) enc backup src_err_list nerrs nsrcerrs k m b inv decode_index 0;
  if ret =? NO_INVERT_MATRIX then Some (ret, dec, inv, decode_index)
  else
    dec ← decode_src_rows inv src_err_list nsrcerrs k dec;
    dec ← decode_parity_rows enc inv src_err_list nerrs nsrcerrs k dec;
    Some (0, dec, inv, decode_index).
End gen_decode_matrix.

(** ** The encode/decode pipeline of the EC build

    [IS_ec_init] (its body is commented out in the source, this is what it
    documents): build the encoding matrix and the parity tables; write: encode
    the data buffers into the parity buffers; read: rebuild the lost buffers from
    the survivors [decode_index]. *)

(** [data[i] = ptrs[decode_index[i]]] in [client_read_done]. *)
Definition gather (k : Z) (ptrs : list (list byte)) (decode_index : list Z) : list (list byte) :=
  (λ r, default [] (aget ptrs r)) <$> take (Z.to_nat k) decode_index.

(** Rebuilding the lost buffers as the sources mean it, a specification that the recovery
    theorems use: tables for the decode matrix (a statement that is commented out), then the
    portable encoder on the gathered survivors.  What the code runs is [Transfer.recover]. *)
Definition rebuild (len k nerrs : Z) (dec tbls0 : list byte) (ptrs : list (list byte))
    (decode_index : list Z) (out : list (list byte)) : option (list (list byte)) :=
  tbls ← ec_init_tables k nerrs dec tbls0;
  ec_encode_data len k nerrs tbls (gather k ptrs decode_index) out.

(** * Erasure patterns *)

Definition survivors (src_in_err : list Z) (m : Z) : list Z :=
  filter (λ i, truthy (default 1 (aget src_in_err i)) = false) (seqZ 0 m).

(** What the failure detection establishes: the lost disks in increasing order
    in [src_err_list], sources before parities, marked in [src_in_err], with at
    least [k] survivors. *)
Record erasures (k m : Z) (src_err_list src_in_err : list Z) (nerrs nsrcerrs : Z) : Prop := {
  er_k : 0 < k <= m;
  er_in_err : alen src_in_err = m;
  er_list : nerrs <= alen src_err_list;
  er_counts : 0 <= nsrcerrs <= nerrs;
  er_src : ∀ p e, 0 <= p < nsrcerrs → aget src_err_list p = Some e → 0 <= e < k;
  er_parity : ∀ p e, nsrcerrs <= p < nerrs → aget src_err_list p = Some e → k <= e < m;
  er_survivors : k <= alen (survivors src_in_err m)
}.

(** * Construction of the survivor matrix *)

Definition survivors_from (src_in_err : list Z) (m r : Z) : list Z :=
  filter (λ i, truthy (default 1 (aget src_in_err i)) = false) (seqZ r (m - r)).

Lemma survivors_from_0 errs m : survivors_from errs m 0 = survivors errs m.
Proof. unfold survivors_from. by rewrite Z.sub_0_r. Qed.

Lemma survivors_from_step errs m r :
  r < m → survivors_from errs m r =
    if truthy (default 1 (aget errs r)) then survivors_from errs m (r + 1)
    else r :: survivors_from errs m (r + 1).
Proof.
  intros Hr. unfold survivors_from. rewrite seqZ_cons by lia.
  replace (Z.pred (m - r)) with (m - (r + 1)) by lia. change (Z.succ r) with (r + 1).
  destruct (truthy _) eqn:E.
  - rewrite filter_cons_False; [done|by rewrite E].
  - by rewrite filter_cons_True.
Qed.

Lemma survivors_from_end errs m r : m <= r → survivors_from errs m r = [].
Proof. intros. unfold survivors_from. by rewrite seqZ_nil by lia. Qed.

Lemma skip_errs_spec errs m fuel : ∀ r s rest,
  alen errs = m → 0 <= r → m - r < Z.of_nat fuel → survivors_from errs m r = s :: rest →
  skip_errs fuel errs r = Some s ∧ r <= s < m ∧ survivors_from errs m (s + 1) = rest.
Proof.
  induction fuel as [|fuel IH]; intros r s rest Hm Hr Hf Hs.
  { destruct (Z.le_gt_cases m r); [|lia]. by rewrite survivors_from_end in Hs. }
  destruct (Z.le_gt_cases m r); [by rewrite survivors_from_end in Hs|].
  destruct (proj2 (aget_is_Some errs r)) as [e E]; [lia|].
  cbn. rewrite survivors_from_step, E in Hs by lia. rewrite E. cbn in *.
  destruct (truthy e).
  - destruct (IH (r + 1) s rest) as (? & ? & ?); [done|lia|lia|done|]. split_and!; (done || lia).
  - simplify_eq. split_and!; (done || lia).
Qed.

(** The rows of the encoding matrix that an index list selects. *)
Definition rows_of (k : Z) (enc : list byte) (idx : list Z) : matrix :=
  λ i j, cell k enc (default 0 (aget idx i)) j.

Definition idx_ok (k m : Z) (idx : list Z) : Prop :=
  ∀ i d, 0 <= i < k → aget idx i = Some d → 0 <= d < m.

Lemma copy_row_correct k L i r enc b backup :
  0 <= i < k → 0 <= r → (r + 1) * k <= alen enc → square k L b → square k L backup →
  ∃ b' backup', for_up 0 k (λ j '(b, backup),
      x ← aget enc (k * r + j);
      b ← aset b (k * i + j) x;
      backup ← aset backup (k * i + j) x;
      Some (b, backup)) (b, backup) = Some (b', backup') ∧
    square k L b' ∧ square k L backup' ∧
    ∀ r' c, 0 <= r' < k → 0 <= c < k →
      cell k b' r' c = (if r' =? i then cell k enc r c else cell k b r' c) ∧
      cell k backup' r' c = (if r' =? i then cell k enc r c else cell k backup r' c).
Proof.
  intros Hi Hr Henc Hb Hbk.
  destruct (for_up_inv (λ j st, square k L st.1 ∧ square k L st.2 ∧
    ∀ r' c, 0 <= r' < k → 0 <= c < k →
      cell k st.1 r' c = (if (r' =? i) && (c <? j) then cell k enc r c else cell k b r' c) ∧
      cell k st.2 r' c = (if (r' =? i) && (c <? j) then cell k enc r c else cell k backup r' c))
    (λ j '(b, backup),
      x ← aget enc (k * r + j);
      b ← aset b (k * i + j) x;
      backup ← aset backup (k * i + j) x;
      Some (b, backup)) 0 k (b, backup)) as ([b' bk'] & -> & S1 & S2 & H); [lia| | |].
  - split_and!; [done..|]. intros r' c Hr' Hc. cbn. destruct (Z.ltb_spec c 0); [lia|].
    by rewrite andb_false_r.
  - intros j [b1 bk1] Hj (S1 & S2 & H). cbn [fst snd] in *.
    rewrite (Z.mul_comm k r), (Z.mul_comm k i).
    rewrite aget_bget by nia. step_bind. sq_set b2 H2. sq_set bk2 H3.
    eexists; split; [done|]. cbn [fst snd]. split_and!; [done..|].
    intros r' c Hr' Hc. destruct (H r' c Hr' Hc) as [E1 E2]. rewrite H2, H3, E1, E2 by done.
    fold (cell k enc r j). idx.
  - exists b', bk'. cbn [fst snd] in *. split_and!; [done..|]. intros r' c Hr' Hc.
    destruct (H r' c Hr' Hc) as [-> ->]. destruct (Z.ltb_spec c k); [|lia]. by rewrite !andb_true_r.
Qed.

Lemma aget_drop_cons {A} (l : list A) i x rest :
  0 <= i → drop (Z.to_nat i) l = x :: rest → aget l i = Some x ∧ drop (Z.to_nat (i + 1)) l = rest.
Proof.
  intros Hi H. split.
  - pose proof (aget_drop l i 0 Hi ltac:(lia)) as E. rewrite H, Z.add_0_r in E. by rewrite <- E.
  - replace (Z.to_nat (i + 1)) with (Z.to_nat i + 1)%nat by lia. by rewrite <- drop_drop, H.
Qed.

Lemma construct_b_correct k m L enc errs b0 backup0 idx0 :
  0 < k <= m → alen errs = m → m * k <= alen enc → square k L b0 → square k L backup0 →
  k <= alen idx0 → k <= alen (survivors errs m) →
  ∃ b backup idx r, construct_b enc errs k b0 backup0 idx0 = Some (b, backup, idx, r) ∧
    square k L b ∧ square k L backup ∧ alen idx = alen idx0 ∧ idx_ok k m idx ∧
    (∀ i, 0 <= i < k → aget idx i = aget (survivors errs m) i) ∧
    mat_eq k (cell k b) (rows_of k enc idx) ∧ mat_eq k (cell k backup) (rows_of k enc idx).
Proof.
  intros Hk Hm Henc Hb Hbk Hidx Hsv. set (sv := survivors errs m) in *.
  unfold construct_b.
  match goal with |- context [for_up 0 k ?body ?s] => destruct (for_up_inv (λ i st,
    let '(b, backup, idx, r) := st in
    square k L b ∧ square k L backup ∧ alen idx = alen idx0 ∧ 0 <= r ∧
    survivors_from errs m r = drop (Z.to_nat i) sv ∧
    (∀ i', 0 <= i' < i → aget idx i' = aget sv i') ∧
    (∀ i' d, 0 <= i' < i → aget idx i' = Some d → 0 <= d < m) ∧
    (∀ r' c, 0 <= r' < i → 0 <= c < k →
      cell k b r' c = rows_of k enc idx r' c ∧ cell k backup r' c = rows_of k enc idx r' c)) body 0 k s)
    as ([[[b backup] idx] r] & -> & S1 & S2 & Li & _ & _ & Hsv' & Hok & Hc) end; [lia| | |].
  - split_and!; [done..| | | |]; [by rewrite survivors_from_0|intros; lia..].
  - intros i [[[b backup] idx] r] Hi (S1 & S2 & Li & Hr & Hdrop & Hsv' & Hok & Hc).
    destruct (drop (Z.to_nat i) sv) as [|s rest] eqn:Ed.
    { apply (f_equal length) in Ed. rewrite length_drop in Ed. unfold alen in Hsv. cbn in Ed. lia. }
    destruct (aget_drop_cons sv i s rest) as [Es Er]; [lia|done|].
    destruct (skip_errs_spec errs m (S (length errs)) r s rest) as (-> & Hs & Hrest);
      [done|done|unfold alen in Hm; lia|done|]. step_bind.
    destruct (copy_row_correct k L i s enc b backup) as (b' & bk' & -> & S1' & S2' & Hc');
      [lia|lia|nia|done|done|]. step_bind.
    pose proof (aset_Some idx i s ltac:(lia)) as Ea. rewrite Ea. step_bind.
    eexists; split; [done|]. cbv beta iota.
    assert (∀ i', 0 <= i' < i + 1 → aget (<[Z.to_nat i:=s]> idx) i' = aget sv i') as Hnew.
    { intros i' Hi'. rewrite (aget_aset _ _ _ _ _ Ea). case_decide; [by subst|apply Hsv'; lia]. }
    split_and!; [done|done|by rewrite (aset_length _ _ _ _ Ea)|lia|by rewrite Er|done| |].
    + intros i' d Hi' Hd. rewrite (aget_aset _ _ _ _ _ Ea) in Hd.
      case_decide; [by simplify_eq; lia|apply (Hok i'); [lia|done]].
    + intros r' c Hr' Hc0. destruct (Hc' r' c) as [-> ->]; [lia|lia|].
      unfold rows_of. rewrite (aget_aset _ _ _ _ _ Ea).
      destruct (Z.eqb_spec r' i) as [->|].
      * by destruct (decide (i = i)).
      * destruct (decide (i = r')); [lia|]. apply Hc; lia.
  - do 4 eexists; split; [done|]. split_and!; [done|done|done|exact Hok|done| |]; intros r' c Hr' Hc0; by apply Hc.
Qed.

(** * Inversion with retries *)

Lemma memcpy_correct dst src L :
  alen dst = L → alen src = L → memcpy dst src L = Some src.
Proof.
  intros Hd Hs. unfold memcpy. assert (0 <= L) as HL0 by (unfold alen in *; lia).
  destruct (for_up_fill (bget src) (λ i d, x ← aget src i; aset d i x) L dst) as (d & -> & Ld & H & _);
    [lia| |].
  - intros i t Hi _. by rewrite aget_bget by lia.
  - f_equal. apply array_ext. intros i Hi. destruct (Z.lt_ge_cases i L).
    + rewrite H, aget_bget by lia. done.
    + rewrite !(proj2 (aget_None _ i)); [done|lia..].
Qed.

Lemma last_row_correct k L enc d (b : list byte) :
  0 < k → 0 <= d → (d + 1) * k <= alen enc → square k L b →
  ∃ b', for_up 0 k (λ j b, x ← aget enc (k * d + j); aset b (k * (k - 1) + j) x) b = Some b' ∧
    square k L b' ∧
    ∀ r c, 0 <= r < k → 0 <= c < k → cell k b' r c = if r =? k - 1 then cell k enc d c else cell k b r c.
Proof.
  intros Hk Hd Henc Hb.
  destruct (for_up_inv (λ j b', square k L b' ∧ ∀ r c, 0 <= r < k → 0 <= c < k →
      cell k b' r c = if (r =? k - 1) && (c <? j) then cell k enc d c else cell k b r c)
    (λ j b, x ← aget enc (k * d + j); aset b (k * (k - 1) + j) x) 0 k b) as (b' & -> & S & H); [lia| | |].
  - split; [done|]. intros r c Hr Hc. destruct (Z.ltb_spec c 0); [lia|]. by rewrite andb_false_r.
  - intros j b1 Hj [S1 H1]. rewrite (Z.mul_comm k d), (Z.mul_comm k (k - 1)).
    rewrite aget_bget by nia. step_bind.
    destruct (cell_set k L b1 (k - 1) j (bget enc (d * k + j)) S1) as (b2 & -> & S2 & H2); [lia|lia|].
    eexists; split; [done|]. split; [done|]. intros r c Hr Hc. rewrite H2, H1 by done.
    fold (cell k enc d j). idx.
  - exists b'. split_and!; [done..|]. intros r c Hr Hc. rewrite H by done.
    destruct (Z.ltb_spec c k); [|lia]. by rewrite andb_true_r.
Qed.

(** Skipping erased parity lines only moves forward. *)
Lemma skip_parity_correct src_err_list lo hi last incr :
  0 <= lo → hi <= alen src_err_list →
  ∃ incr', for_up lo hi (λ i incr, e ← aget src_err_list i;
      Some (if e =? last + incr then incr + 1 else incr)) incr = Some incr' ∧ incr <= incr'.
Proof.
  intros Hlo Hhi. destruct (Z.le_gt_cases hi lo).
  { rewrite for_up_empty by done. exists incr. split; [done|lia]. }
  apply (for_up_inv (λ _ t, incr <= t)); [lia|done|].
  intros j t Hj Ht. destruct (proj2 (aget_is_Some src_err_list j)) as [e ->]; [lia|]. step_bind.
  eexists; split; [done|]. destruct (e =? last + t); lia.
Qed.

(** What the retry loop returns. *)
Definition retry_post (k m L : Z) (enc : list byte) (idx0 : list Z) (ret : Z) (inv : list byte)
    (idx : list Z) : Prop :=
  square k L inv ∧ alen idx = alen idx0 ∧ idx_ok k m idx ∧
  (ret = NO_INVERT_MATRIX ∨
   ret = 0 ∧ mat_eq k (mat_mul k (cell k inv) (rows_of k enc idx)) identity).

Lemma singular_ext n A B : mat_eq n A B → singular n A → singular n B.
Proof.
  intros H (v & Hv & Hk). exists v. split; [done|]. intros r Hr.
  rewrite <- (Hk r Hr). symmetry. by apply mat_vec_ext.
Qed.

Lemma mat_mul_ext_r n A B C : mat_eq n B C → mat_eq n (mat_mul n A B) (mat_mul n A C).
Proof. intros H r c Hr Hc. apply bsum_ext. intros k Hk. rewrite H; [done|lia|lia]. Qed.

Section retry.
Context (k m L : Z) (enc : list byte) (src_err_list : list Z) (nerrs nsrcerrs : Z).
Context (Hk : 0 < k <= m) (Henc : m * k <= alen enc) (HL : k * k <= L).
Context (Hns : 0 <= nsrcerrs) (Hne : nsrcerrs <= nerrs) (Hlist : nerrs <= alen src_err_list).

Lemma invert_retry_correct fuel : ∀ b backup inv idx incr,
  square k L b → square k L backup → square k L inv → k <= alen idx → idx_ok k m idx → 0 <= incr →
  m - default 0 (aget idx (k - 1)) < Z.of_nat fuel →
  mat_eq k (cell k b) (rows_of k enc idx) →
  (∀ r c, 0 <= r < k - 1 → 0 <= c < k → cell k backup r c = rows_of k enc idx r c) →
  ∃ ret inv' idx',
    invert_retry L fuel enc backup src_err_list nerrs nsrcerrs k m b inv idx incr = Some (ret, inv', idx') ∧
    retry_post k m L enc idx ret inv' idx' ∧
    (¬ singular k (rows_of k enc idx) → ret = 0 ∧ idx' = idx).
Proof using Hk Henc HL Hns Hne Hlist.
  induction fuel as [|fuel IH]; intros b backup inv idx incr Sb Sbk Si Li Hok Hincr Hf Hb Hbk.
  { destruct (proj2 (aget_is_Some idx (k - 1))) as [d E]; [lia|]. rewrite E in Hf. cbn in Hf.
    pose proof (Hok (k - 1) d ltac:(lia) E). lia. }
  cbn [invert_retry].
  destruct (gf_invert_matrix_spec k L L b inv) as (ret & b1 & inv1 & -> & Lb1 & Linv1 & Hinv); [lia|done..|].
  step_bind. assert (square k L inv1) as Si1 by done. assert (square k L b1) as Sb1 by done.
  destruct Hinv as [(-> & _ & Hid)|[-> Hs]]; cbn [Z.ltb Z.compare].
  { do 3 eexists; split; [done|]. split; [|done]. split_and!; [apply Si1..|done|done|]. right. split; [done|].
    intros r c Hr Hc. rewrite <- Hid by done. symmetry. by apply mat_mul_ext_r. }
  apply (singular_ext _ _ _ Hb) in Hs.
  destruct (nerrs =? m - k).
  { do 3 eexists; split; [done|]. split; [|done]. split_and!; [apply Si1..|done|done|by left]. }
  rewrite memcpy_correct by (apply Sb1 || apply Sbk). step_bind.
  destruct (proj2 (aget_is_Some idx (k - 1))) as [last Elast]; [lia|]. rewrite Elast in *. step_bind.
  cbn [from_option id] in Hf. pose proof (Hok (k - 1) last ltac:(lia) Elast) as Hlast.
  destruct (skip_parity_correct src_err_list nsrcerrs (nerrs - nsrcerrs) last (incr + 1))
    as (incr' & -> & Hincr'); [lia|lia|]. step_bind.
  rewrite Z.geb_leb. destruct (Z.leb_spec m (last + incr')).
  { do 3 eexists; split; [done|]. split; [|done]. split_and!; [apply Si1..|done|done|by left]. }
  pose proof (aset_Some idx (k - 1) (last + incr') ltac:(lia)) as Ea. rewrite Ea. step_bind.
  destruct (last_row_correct k L enc (last + incr') backup) as (b2 & -> & Sb2 & Hb2);
    [lia|lia|nia|done|]. step_bind.
  set (idx2 := <[Z.to_nat (k - 1):=last + incr']> idx) in *.
  pose proof (aset_length _ _ _ _ Ea) as L2.
  assert (∀ i, 0 <= i < k - 1 → aget idx2 i = aget idx i) as Hold.
  { intros i Hi. eapply aget_aset_ne; [done|lia]. }
  destruct (IH b2 backup inv1 idx2 incr') as (ret & inv' & idx' & E & Hpost & _).
  - done.
  - done.
  - done.
  - lia.
  - intros i d Hi Hd. destruct (Z.eq_dec i (k - 1)) as [->|].
    + rewrite (aget_aset_eq _ _ _ _ Ea) in Hd. simplify_eq. lia.
    + rewrite Hold in Hd by lia. by eapply Hok.
  - lia.
  - rewrite (aget_aset_eq _ _ _ _ Ea). cbn [from_option id]. lia.
  - intros r c Hr Hc. rewrite Hb2 by done. unfold rows_of. destruct (Z.eqb_spec r (k - 1)) as [->|].
    + by rewrite (aget_aset_eq _ _ _ _ Ea).
    + rewrite Hold by lia. apply Hbk; lia.
  - intros r c Hr Hc. unfold rows_of. rewrite Hold by lia. by apply Hbk.
  - exists ret, inv', idx'. split; [done|]. split; [|done].
    destruct Hpost as (? & L3 & ? & ?). split_and!; [done|lia|done|done].
Qed.
End retry.

(** * Rows of the decode matrix *)

Definition dec_entry (k : Z) (enc inv : list byte) (src_err_list : list Z) (nsrcerrs p c : Z) : byte :=
  let e := default 0 (aget src_err_list p) in
  if p <? nsrcerrs then cell k inv e c
  else bsum (Z.to_nat k) (λ j, gf_mul (cell k inv j c) (cell k enc e j)).

(** A loop that fills rows [lo..hi) of a matrix with [k] columns. *)
Lemma fill_rows k (f : Z → Z → byte) body lo hi (dec : list byte) :
  0 <= k → 0 <= lo <= hi → hi * k <= alen dec →
  (∀ p c d, lo <= p < hi → 0 <= c < k → alen d = alen dec → body p c d = aset d (p * k + c) (f p c)) →
  ∃ dec', for_up lo hi (λ p dec, for_up 0 k (λ c dec, body p c dec) dec) dec = Some dec' ∧
    alen dec' = alen dec ∧
    ∀ r c, 0 <= r < hi → 0 <= c < k → cell k dec' r c = if r <? lo then cell k dec r c else f r c.
Proof.
  intros Hk Hlo Hlen Hbody.
  destruct (for_up_inv (λ p d, alen d = alen dec ∧ ∀ r c, 0 <= r < hi → 0 <= c < k →
      cell k d r c = if r <? lo then cell k dec r c else if r <? p then f r c else cell k dec r c)
    (λ p dec, for_up 0 k (λ c dec, body p c dec) dec) lo hi dec) as (d & -> & L & H); [lia| | |].
  - split; [done|]. intros r c Hr Hc. idx.
  - intros p d Hp [L H].
    destruct (for_up_inv (λ q d', alen d' = alen dec ∧ ∀ r c, 0 <= r < hi → 0 <= c < k →
        cell k d' r c = if (r =? p) && (c <? q) then f r c else cell k d r c)
      (λ c dec, body p c dec) 0 k d) as (d' & -> & L' & H'); [lia| | |].
    + split; [done|]. intros r c Hr Hc. destruct (Z.ltb_spec c 0); [lia|]. by rewrite andb_false_r.
    + intros q d1 Hq [L1 H1]. rewrite Hbody by (done || lia).
      pose proof (aset_Some d1 (p * k + q) (f p q) ltac:(nia)) as Ea. rewrite Ea.
      eexists; split; [done|]. split; [by rewrite (aset_length _ _ _ _ Ea)|].
      intros r c Hr Hc. unfold cell at 1, bget. rewrite (aget_aset _ _ _ _ _ Ea). case_decide as Hd.
      * destruct (index_inj k p q r c) as [-> ->]; [done..|]. idx.
      * fold (bget d1 (r * k + c)). fold (cell k d1 r c). rewrite H1 by done.
        destruct (Z.eqb_spec r p) as [->|]; [|done]. idx.
    + eexists; split; [done|]. split; [done|]. intros r c Hr Hc. rewrite H', H by done. idx.
  - exists d. split_and!; [done..|]. intros r c Hr Hc. rewrite H by done. idx.
Qed.

Lemma decode_rows_correct k m L enc inv src_err_list nerrs nsrcerrs dec :
  0 < k <= m → m * k <= alen enc → square k L inv → 0 <= nsrcerrs <= nerrs → nerrs * k <= alen dec →
  nerrs <= alen src_err_list →
  (∀ p e, 0 <= p < nsrcerrs → aget src_err_list p = Some e → 0 <= e < k) →
  (∀ p e, nsrcerrs <= p < nerrs → aget src_err_list p = Some e → k <= e < m) →
  ∃ d1 d2, decode_src_rows inv src_err_list nsrcerrs k dec = Some d1 ∧
    decode_parity_rows enc inv src_err_list nerrs nsrcerrs k d1 = Some d2 ∧ alen d2 = alen dec ∧
    ∀ p c, 0 <= p < nerrs → 0 <= c < k → cell k d2 p c = dec_entry k enc inv src_err_list nsrcerrs p c.
Proof.
  intros Hk Henc Hinv Hn Hdec Hlist Hsrc Hpar.
  assert (∀ p, 0 <= p < nerrs → ∃ e, aget src_err_list p = Some e) as Hget.
  { intros p Hp. apply aget_is_Some. lia. }
  unfold decode_src_rows.
  destruct (fill_rows k (dec_entry k enc inv src_err_list nsrcerrs)
    (λ i j dec, e ← aget src_err_list i; x ← aget inv (k * e + j); aset dec (k * i + j) x)
    0 nsrcerrs dec) as (d1 & -> & L1 & H1); [lia|lia|nia| |].
  { intros p c d Hp Hc _. destruct (Hget p) as [e He]; [lia|]. unfold dec_entry. rewrite He. step_bind.
    rewrite (Z.mul_comm k e), (Z.mul_comm k p). pose proof (Hsrc p e Hp He).
    rewrite (cell_get k L) by (done || lia). step_bind. cbn [from_option id]. by destruct (Z.ltb_spec p nsrcerrs); [|lia]. }
  exists d1. unfold decode_parity_rows.
  destruct (fill_rows k (dec_entry k enc inv src_err_list nsrcerrs)
    (λ p i dec, s ← xor_loop k (λ j, x ← aget inv (j * k + i); e ← aget src_err_list p;
        y ← aget enc (k * e + j); Some (gf_mul x y));
      aset dec (k * p + i) s) nsrcerrs nerrs d1) as (d2 & -> & L2 & H2); [lia|lia|lia| |].
  { intros p c d Hp Hc _. destruct (Hget p) as [e He]; [lia|]. pose proof (Hpar p e Hp He).
    rewrite (xor_loop_spec k _ (λ j, gf_mul (cell k inv j c) (cell k enc e j))); [|lia|].
    - step_bind. rewrite (Z.mul_comm k p). unfold dec_entry. rewrite He.
      by destruct (Z.ltb_spec p nsrcerrs); [lia|].
    - intros j Hj. rewrite (cell_get k L) by (done || lia). step_bind. rewrite He. step_bind.
      rewrite (Z.mul_comm k e). rewrite aget_bget by nia. done. }
  exists d2. split_and!; [done|done|lia|]. intros p c Hp Hc. rewrite H2 by lia.
  destruct (Z.ltb_spec p nsrcerrs); [|done]. rewrite H1 by lia. by destruct (Z.ltb_spec p 0); [lia|].
Qed.

(** * The whole function *)

(** Encoded value of line [r] for a data column [x]. *)
Definition line (k : Z) (enc : list byte) (x : Z → byte) (r : Z) : byte := mat_vec k (cell k enc) x r.

Lemma inverse_recovers k enc inv idx x r :
  mat_eq k (mat_mul k (cell k inv) (rows_of k enc idx)) identity → 0 <= r < k →
  bsum (Z.to_nat k) (λ j, gf_mul (cell k inv r j) (line k enc x (default 0 (aget idx j)))) = x r.
Proof.
  intros H Hr. rewrite <- (mat_vec_identity k x r Hr), <- (mat_vec_ext k _ _ x r H Hr).
  by rewrite mat_mul_vec.
Qed.

Lemma dec_entry_recovers k m enc inv idx src_err_list nerrs nsrcerrs x p e :
  0 <= nsrcerrs → mat_eq k (cell k enc) identity →
  mat_eq k (mat_mul k (cell k inv) (rows_of k enc idx)) identity →
  (∀ p e, 0 <= p < nsrcerrs → aget src_err_list p = Some e → 0 <= e < k) →
  (∀ p e, nsrcerrs <= p < nerrs → aget src_err_list p = Some e → k <= e < m) →
  0 <= p < nerrs → aget src_err_list p = Some e →
  bsum (Z.to_nat k) (λ j, gf_mul (dec_entry k enc inv src_err_list nsrcerrs p j)
    (line k enc x (default 0 (aget idx j)))) = line k enc x e.
Proof.
  intros Hn Hid Hinv Hsrc Hpar Hp He. unfold dec_entry. rewrite He. cbn [from_option id].
  destruct (Z.ltb_spec p nsrcerrs).
  - pose proof (Hsrc p e ltac:(lia) He) as Hr. rewrite inverse_recovers by done.
    unfold line. rewrite (mat_vec_ext k _ _ x e Hid Hr). by rewrite mat_vec_identity.
  - unfold line at 2, mat_vec. symmetry. etransitivity.
    { apply bsum_ext. intros c Hc. rewrite <- (inverse_recovers k enc inv idx x c Hinv) by lia.
      by rewrite <- bsum_mul_l. }
    rewrite bsum_swap. apply bsum_ext. intros j _. rewrite <- bsum_mul_r. apply bsum_ext. intros c _. ring.
Qed.

(** What a call of [gf_gen_decode_matrix] establishes. *)
Record decoded (k m : Z) (enc : list byte) (errs src_err_list : list Z) (nerrs ret : Z)
    (dec : list byte) (idx : list Z) : Prop := {
  dc_ret : ret = 0 ∨ ret = NO_INVERT_MATRIX;
  dc_index : idx_ok k m idx;
  dc_recovers : ret = 0 → ∀ x p e, 0 <= p < nerrs → aget src_err_list p = Some e →
    bsum (Z.to_nat k) (λ j, gf_mul (cell k dec p j) (line k enc x (default 0 (aget idx j)))) = line k enc x e;
  dc_total : ¬ singular k (rows_of k enc (survivors errs m)) →
    ret = 0 ∧ ∀ i, 0 <= i < k → aget idx i = aget (survivors errs m) i
}.

Lemma gf_gen_decode_matrix_spec k m L b0 backup0 enc dec inv idx src_err_list errs nerrs nsrcerrs :
  erasures k m src_err_list errs nerrs nsrcerrs →
  m * k <= alen enc → mat_eq k (cell k enc) identity →
  square k L b0 → square k L backup0 → square k L inv → k <= alen idx → nerrs * k <= alen dec →
  ∃ ret dec' inv' idx',
    gf_gen_decode_matrix L b0 backup0 enc dec inv idx src_err_list errs nerrs nsrcerrs k m
      = Some (ret, dec', inv', idx') ∧
    alen dec' = alen dec ∧ alen idx' = alen idx ∧
    decoded k m enc errs src_err_list nerrs ret dec' idx'.
Proof.
  intros [Hk Herr Hlist Hcnt Hsrc Hpar Hsv] Henc Hid Sb Sbk Si Li Hdec. unfold gf_gen_decode_matrix.
  destruct (construct_b_correct k m L enc errs b0 backup0 idx)
    as (b & backup & idx1 & r & -> & Sb1 & Sbk1 & Li1 & Hok & Hsvi & Hb & Hbk); [done..|]. step_bind.
  destruct (invert_retry_correct k m L enc src_err_list nerrs nsrcerrs Hk Henc (proj2 Si) ltac:(lia)
    ltac:(lia) Hlist (S (Z.to_nat m)) b backup inv idx1 0)
    as (ret & inv' & idx' & -> & (Sinv & Li' & Hok' & Hret) & Htot); [done|done|done|lia|done|lia| |done| |].
  { destruct (proj2 (aget_is_Some idx1 (k - 1))) as [d E]; [lia|].
    pose proof (Hok (k - 1) d ltac:(lia) E). rewrite E. cbn [from_option id]. lia. }
  { intros r0 c Hr Hc. apply Hbk; lia. }
  assert (mat_eq k (rows_of k enc (survivors errs m)) (rows_of k enc idx1)) as Hrows.
  { intros i c Hi Hc. unfold rows_of. by rewrite Hsvi. }
  assert (¬ singular k (rows_of k enc (survivors errs m)) → ret = 0 ∧ idx' = idx1) as Htot'.
  { intros Hns. apply Htot. intros Hs. apply Hns. eapply singular_ext; [|done]. intros i c Hi Hc.
    by rewrite Hrows. }
  step_bind. destruct Hret as [->|[-> Hinv]]; cbn [Z.eqb].
  - change (NO_INVERT_MATRIX =? NO_INVERT_MATRIX) with true. cbv iota.
    do 4 eexists; split; [done|]. split_and!; [done|lia|]. split; [by right|done|done|].
    intros Hns. destruct (Htot' Hns) as [? ->]. split; [done|]. by apply Hsvi.
  - change (0 =? NO_INVERT_MATRIX) with false. cbv iota.
    destruct (decode_rows_correct k m L enc inv' src_err_list nerrs nsrcerrs dec)
      as (d1 & d2 & -> & E2 & L2 & Hd); [done..|]. step_bind. rewrite E2. step_bind.
    do 4 eexists; split; [done|]. split_and!; [done|lia|]. split; [by left|done| |].
    + intros _ x p e Hp He. etransitivity.
      { apply bsum_ext. intros j Hj. by rewrite Hd by lia. }
      eapply dec_entry_recovers; [|done..]. lia.
    + intros Hns. destruct (Htot' Hns) as [_ ->]. split; [done|]. by apply Hsvi.
Qed.

(** * Rebuilding lost slabs *)

(** The surviving buffers hold the encoding of the data [x]. *)
Definition surviving (k m len : Z) (enc : list byte) (errs : list Z) (ptrs : list (list byte))
    (x : Z → Z → byte) : Prop :=
  ∀ s, s ∈ survivors errs m → ∃ row, aget ptrs s = Some row ∧ len <= alen row ∧
    ∀ i, 0 <= i < len → bget row i = line k enc (λ j, x j i) s.

Lemma aget_gather k ptrs idx j d row :
  0 <= j < k → aget idx j = Some d → aget ptrs d = Some row → aget (gather k ptrs idx) j = Some row.
Proof.
  intros Hj Hd Hrow. unfold gather. apply aget_Some. split; [lia|].
  rewrite list_lookup_fmap. apply aget_Some in Hd as [_ Hd].
  rewrite lookup_take_lt, Hd by lia. cbn. by rewrite Hrow.
Qed.

Lemma rebuild_correct k m len enc errs src_err_list nerrs ret dec idx ptrs x tbls0 out :
  0 <= len → 0 < k → 0 <= nerrs → k <= alen (survivors errs m) →
  decoded k m enc errs src_err_list nerrs ret dec idx → ret = 0 →
  (∀ i, 0 <= i < k → aget idx i = aget (survivors errs m) i) →
  surviving k m len enc errs ptrs x →
  nerrs * k <= alen dec → nerrs * k * 32 <= alen tbls0 → buffers nerrs len out →
  ∃ out', rebuild len k nerrs dec tbls0 ptrs idx out = Some out' ∧
    ∀ p e i, 0 <= p < nerrs → aget src_err_list p = Some e → 0 <= i < len →
      mget out' p i = line k enc (λ j, x j i) e.
Proof.
  intros Hlen Hk Hn Hsv Hdec -> Hidx Hptrs Hd Ht Hout. unfold rebuild.
  destruct (ec_init_tables_coef_spec k nerrs dec tbls0) as (t & -> & Lt & Hc); [lia..|]. step_bind.
  assert (∀ j, 0 <= j < k → ∃ s row, aget idx j = Some s ∧ aget (gather k ptrs idx) j = Some row ∧
    len <= alen row ∧ ∀ i, 0 <= i < len → bget row i = line k enc (λ j, x j i) s) as Hg.
  { intros j Hj. destruct (proj2 (aget_is_Some (survivors errs m) j)) as [s Es]; [lia|].
    destruct (Hptrs s) as (row & Er & Lr & Hr). { apply aget_Some in Es as [_ Es]. by eapply list_elem_of_lookup_2. }
    exists s, row. rewrite Hidx by done. split_and!; [done| |done|done]. eapply aget_gather; [done| |done]. by rewrite Hidx. }
  assert (buffers k len (gather k ptrs idx)) as Hbuf.
  { split.
    - destruct (Hg (k - 1)) as (? & row & _ & Hl%aget_lt & _); lia.
    - intros i r Hi Hr. destruct (Hg i Hi) as (? & row & _ & E & L & _). congruence. }
  destruct (ec_encode_data_base_spec len k nerrs t (gather k ptrs idx) out) as (out' & E & _ & H);
    [lia|lia|lia|done|done|lia|].
  exists out'. split; [exact E|]. intros p e i Hp He Hi.
  destruct (proj2 (aget_is_Some out p)) as [row Hrow]; [destruct Hout; lia|].
  destruct (H p row Hrow) as (row' & E' & Henc). destruct (decide (p < nerrs)); [|lia].
  destruct Henc as [_ Henc]. rewrite (mget_Some _ _ _ _ E'). apply bget_Some. rewrite Henc by lia.
  destruct (decide (i < len)); [|lia]. f_equal.
  rewrite <- (dc_recovers _ _ _ _ _ _ _ _ _ Hdec eq_refl (λ j, x j i) p e Hp He).
  apply bsum_ext. intros j Hj. destruct (Hg j) as (s & rj & Es & Eg & _ & Hr); [lia|].
  rewrite (mget_Some _ _ _ _ Eg), Hr, Hc, Es by lia. apply gf_mul_comm.
Qed.

(** C3: [gf_gen_decode_matrix] stays inside its arrays and terminates; it returns 0
    or [NO_INVERT_MATRIX]; with 0, row [p] of the decode matrix applied to the lines
    [decode_index] of any stripe gives line [src_err_list[p]], data or parity; and it
    succeeds, on the first [k] survivors, whenever their rows are independent. *)
Theorem gf_gen_decode_matrix_correct k m L b0 backup0 enc dec inv idx src_err_list errs nerrs nsrcerrs :
  erasures k m src_err_list errs nerrs nsrcerrs →
  m * k <= alen enc → mat_eq k (cell k enc) identity →
  square k L b0 → square k L backup0 → square k L inv → k <= alen idx → nerrs * k <= alen dec →
  ∃ ret dec' inv' idx',
    gf_gen_decode_matrix L b0 backup0 enc dec inv idx src_err_list errs nerrs nsrcerrs k m
      = Some (ret, dec', inv', idx') ∧
    decoded k m enc errs src_err_list nerrs ret dec' idx'.
Proof.
  intros He H1 H2 H3 H4 H5 H6 H7.
  destruct (gf_gen_decode_matrix_spec k m L b0 backup0 enc dec inv idx src_err_list errs nerrs nsrcerrs)
    as (ret & d & i & x & E & _ & _ & H); [done..|]. eauto 6.
Qed.

(** Recovery end to end: whenever the rows of the first [k] survivors are
    independent, the decode matrix is built and encoding the survivors with its
    tables restores every lost buffer, byte for byte. *)
Lemma recovery_correct k m L len b0 backup0 enc dec inv idx src_err_list errs nerrs nsrcerrs ptrs x tbls0 out :
  erasures k m src_err_list errs nerrs nsrcerrs →
  m * k <= alen enc → mat_eq k (cell k enc) identity →
  square k L b0 → square k L backup0 → square k L inv → k <= alen idx → nerrs * k <= alen dec →
  ¬ singular k (rows_of k enc (survivors errs m)) →
  0 <= len → surviving k m len enc errs ptrs x → nerrs * k * 32 <= alen tbls0 → buffers nerrs len out →
  ∃ dec' inv' idx' out',
    gf_gen_decode_matrix L b0 backup0 enc dec inv idx src_err_list errs nerrs nsrcerrs k m
      = Some (0, dec', inv', idx') ∧
    rebuild len k nerrs dec' tbls0 ptrs idx' out = Some out' ∧
    ∀ p e i, 0 <= p < nerrs → aget src_err_list p = Some e → 0 <= i < len →
      mget out' p i = line k enc (λ j, x j i) e.
Proof.
  intros Her H1 H2 H3 H4 H5 H6 H7 Hns Hlen Hptrs Ht Hout.
  destruct (gf_gen_decode_matrix_spec k m L b0 backup0 enc dec inv idx src_err_list errs nerrs nsrcerrs)
    as (ret & d & i & ix & E & Ld & _ & H); [done..|].
  destruct (dc_total _ _ _ _ _ _ _ _ _ H Hns) as [-> Hix]. destruct Her.
  destruct (rebuild_correct k m len enc errs src_err_list nerrs 0 d ix ptrs x tbls0 out)
    as (out' & E' & Hr); [lia|lia|lia|done|done|done|done|done|lia|done|done|].
  exists d, i, ix, out'. by split_and!.
Qed.
