(* ===== verification/Cauchy.v ===== *)
(** Any large enough set of survivors is enough: the rows that the Cauchy generator
    stores ([gf_gen_cauchy1_matrix], [ec_base.c]) are such that every [k] of them are
    independent, so [gf_gen_decode_matrix] never meets a singular matrix and the
    recovery of [Decode.v] is unconditional. *)

From S2P Require Import Prelude GF256 GFVect GFMatrix Decode.

(** * Polynomials over GF(256) *)

(** Coefficients from the constant term up, evaluated by Horner's rule. *)
Fixpoint ev (p : list byte) (z : byte) : byte :=
  match p with
  | [] => x00
  | a :: p' => bxor a (gf_mul z (ev p' z))
  end.

(** Synthetic division by [z + r]. *)
Lemma ev_divide p r : ∃ q, length q = Nat.pred (length p) ∧
  ∀ z, ev p z = bxor (ev p r) (gf_mul (bxor z r) (ev q z)).
Proof.
  induction p as [|a p (q & Lq & IH)].
  { exists []. split; [done|]. intros z. cbn. by rewrite gf_mul_0_r. }
  destruct p as [|b p].
  { exists []. split; [done|]. intros z. cbn. by rewrite !gf_mul_0_r, !bxor_0_r. }
  exists (ev (b :: p) r :: q). split; [cbn in *; lia|]. intros z.
  change (ev (a :: b :: p) z) with (bxor a (gf_mul z (ev (b :: p) z))).
  change (ev (a :: b :: p) r) with (bxor a (gf_mul r (ev (b :: p) r))).
  change (ev (ev (b :: p) r :: q) z) with (bxor (ev (b :: p) r) (gf_mul z (ev q z))).
  rewrite IH. set (e := ev (b :: p) r). set (f := ev q z).
  replace (gf_mul (bxor z r) (bxor e (gf_mul z f)))
    with (bxor (gf_mul r e) (gf_mul z (bxor e (gf_mul (bxor z r) f)))) by ring.
  rewrite (bxor_assoc (bxor a (gf_mul r e))), <- (bxor_assoc a), bxor_nilpotent. by rewrite bxor_0_r.
Qed.

Lemma bxor_zero a b : bxor a b = x00 → a = b.
Proof. intros H. rewrite <- (bxor_0_l b), <- H, <- bxor_assoc, bxor_nilpotent. by rewrite bxor_0_r. Qed.

(** A polynomial with as many distinct roots as coefficients is zero. *)
Lemma roots_zero rs : ∀ p, NoDup rs → (length p <= length rs)%nat →
  (∀ r, r ∈ rs → ev p r = x00) → ∀ z, ev p z = x00.
Proof.
  induction rs as [|r rs IH]; intros p Hnd Hl Hr z.
  { destruct p; [done|cbn in Hl; lia]. }
  apply NoDup_cons in Hnd as [Hni Hnd].
  destruct (ev_divide p r) as (q & Lq & Hq). rewrite Hq, Hr by left.
  rewrite (IH q); [by rewrite gf_mul_0_r, bxor_0_l|done|cbn in Hl; lia|].
  intros r' Hr'. assert (ev p r' = x00) as E by (apply Hr; by right).
  rewrite Hq, Hr, bxor_0_l in E by left. apply gf_mul_integral in E as [E|E]; [|done].
  apply bxor_zero in E. by subst.
Qed.

(** Functions that are polynomials with at most [n] coefficients. *)
Definition poly (n : nat) (f : byte → byte) : Prop := ∃ p, (length p <= n)%nat ∧ ∀ z, f z = ev p z.

Lemma poly_const c : poly 1 (λ _, c).
Proof. exists [c]. split; [done|]. intros z. cbn. by rewrite gf_mul_0_r, bxor_0_r. Qed.

Lemma poly_scale n c f : poly n f → poly n (λ z, gf_mul c (f z)).
Proof.
  intros (p & Lp & H). exists (gf_mul c <$> p). split; [by rewrite length_fmap|]. intros z. rewrite H.
  clear. induction p as [|a p IH]; [by apply gf_mul_0_r|]. cbn. rewrite <- IH. ring.
Qed.

Lemma poly_add n f g : poly n f → poly n g → poly n (λ z, bxor (f z) (g z)).
Proof.
  intros (p & Lp & Hp) (q & Lq & Hq).
  assert (∃ s, (length s <= n)%nat ∧ ∀ z, bxor (ev p z) (ev q z) = ev s z) as (s & Ls & Hs).
  { clear Hp Hq. revert n q Lp Lq. induction p as [|a p IH]; intros n q Lp Lq.
    { exists q. split; [done|]. intros z. apply bxor_0_l. }
    destruct q as [|b q]; [exists (a :: p); split; [done|]; intros z; apply bxor_0_r|].
    destruct n as [|n]; [cbn in Lp; lia|]. destruct (IH n q) as (s & Ls & Hs); [cbn in *; lia..|].
    exists (bxor a b :: s). split; [cbn; lia|]. intros z. cbn. rewrite <- Hs. ring. }
  exists s. split; [done|]. intros z. by rewrite Hp, Hq.
Qed.

Lemma poly_linear n c f : poly n f → poly (S n) (λ z, gf_mul (bxor z c) (f z)).
Proof.
  intros Hf. destruct (poly_scale n c f Hf) as (q & Lq & Hq).
  destruct Hf as (p & Lp & Hp).
  destruct (poly_add (S n) (ev (x00 :: p)) (ev q)) as (s & Ls & Hs).
  { exists (x00 :: p). split; [cbn; lia|done]. }
  { exists q. split; [lia|done]. }
  exists s. split; [done|]. intros z. rewrite <- Hs, <- Hq. cbn. rewrite <- Hp, bxor_0_l. ring.
Qed.

(** * Cauchy sums *)

(** [Σ_{c ∈ cs} v c / (z + c)], its common denominator and its numerator. *)
Fixpoint csum (v : byte → byte) (cs : list byte) (z : byte) : byte :=
  match cs with
  | [] => x00
  | c :: cs' => bxor (gf_mul (gf_inv (bxor z c)) (v c)) (csum v cs' z)
  end.
Fixpoint denom (cs : list byte) (z : byte) : byte :=
  match cs with [] => x01 | c :: cs' => gf_mul (bxor z c) (denom cs' z) end.
Fixpoint numer (v : byte → byte) (cs : list byte) (z : byte) : byte :=
  match cs with
  | [] => x00
  | c :: cs' => bxor (gf_mul (v c) (denom cs' z)) (gf_mul (bxor z c) (numer v cs' z))
  end.

Lemma denom_poly cs : poly (S (length cs)) (denom cs).
Proof. induction cs as [|c cs IH]; [apply poly_const|]. by apply poly_linear. Qed.

Lemma numer_poly v cs : poly (length cs) (numer v cs).
Proof.
  induction cs as [|c cs IH]; [by exists []|]. cbn [numer length].
  apply (poly_add _ (λ z, gf_mul (v c) (denom cs z)) (λ z, gf_mul (bxor z c) (numer v cs z))).
  - apply poly_scale, denom_poly.
  - by apply poly_linear.
Qed.

Lemma denom_nonzero cs z : z ∉ cs → denom cs z ≠ x00.
Proof.
  induction cs as [|c cs IH]; intros Hz; [done|]. apply not_elem_of_cons in Hz as [Hne Hz]. cbn.
  apply gf_mul_nonzero; [|by apply IH]. intros E%bxor_zero. done.
Qed.

Lemma numer_csum v cs z : z ∉ cs → numer v cs z = gf_mul (denom cs z) (csum v cs z).
Proof.
  induction cs as [|c cs IH]; intros Hz; [by rewrite gf_mul_0_r|].
  apply not_elem_of_cons in Hz as [Hne Hz]. cbn. rewrite IH by done.
  assert (gf_mul (bxor z c) (gf_inv (bxor z c)) = x01) as Hi.
  { apply gf_mul_inv. intros E%bxor_zero. done. }
  rewrite <- (gf_mul_1_l (gf_mul (v c) (denom cs z))), <- Hi. ring.
Qed.

(** Columns [cs] and at least as many other points on which the Cauchy sum vanishes:
    all the coefficients are zero. *)
Lemma cauchy_independent v cs : ∀ rs, NoDup cs → NoDup rs → (∀ r, r ∈ rs → r ∉ cs) →
  (length cs <= length rs)%nat → (∀ r, r ∈ rs → csum v cs r = x00) → ∀ c, c ∈ cs → v c = x00.
Proof.
  induction cs as [|c cs IH]; intros rs Hc Hr Hdis Hl Hs c' Hin; [by apply not_elem_of_nil in Hin|].
  assert (v c = x00) as Hv.
  { destruct (numer_poly v (c :: cs)) as (p & Lp & Hp).
    assert (ev p c = x00) as E.
    { apply (roots_zero rs); [done|lia|]. intros r Hin'. rewrite <- Hp, numer_csum by by apply Hdis.
      rewrite Hs by done. apply gf_mul_0_r. }
    rewrite <- Hp in E. cbn in E. rewrite bxor_nilpotent, gf_mul_0_l, bxor_0_r in E.
    apply gf_mul_integral in E as [E|E]; [done|]. apply NoDup_cons in Hc as [Hc _].
    by apply denom_nonzero in E. }
  apply elem_of_cons in Hin as [->|Hin]; [done|]. apply NoDup_cons in Hc as [_ Hc].
  apply (IH rs); [done|done| |cbn in Hl; lia| |done].
  - intros r Hin'. by apply Hdis in Hin' as [_ ?]%not_elem_of_cons.
  - intros r Hin'. specialize (Hs r Hin'). cbn in Hs. by rewrite Hv, gf_mul_0_r, bxor_0_l in Hs.
Qed.

(** * Survivors of a stripe *)

Lemma foldr_bxor_app l1 l2 : foldr bxor x00 (l1 ++ l2) = bxor (foldr bxor x00 l1) (foldr bxor x00 l2).
Proof. induction l1 as [|a l1 IH]; cbn; [by rewrite bxor_0_l|]. rewrite IH. apply bxor_assoc. Qed.

(** A sum over the indices that satisfy [P], when the others contribute nothing. *)
Lemma bsum_filter (P : Z → Prop) `{!∀ i, Decision (P i)} n f :
  (∀ i, 0 <= i < Z.of_nat n → ¬ P i → f i = x00) →
  bsum n f = foldr bxor x00 (f <$> filter P (seqZ 0 (Z.of_nat n))).
Proof.
  induction n as [|n IH]; intros Hz; [done|]. cbn [bsum]. rewrite IH by (intros; apply Hz; [lia|done]).
  replace (Z.of_nat (S n)) with (Z.of_nat n + 1) by lia.
  rewrite seqZ_app, filter_app, fmap_app, foldr_bxor_app by lia. f_equal.
  rewrite Z.add_0_l, (seqZ_cons (Z.of_nat n) 1), seqZ_nil by lia.
  destruct (decide (P (Z.of_nat n))) as [HP|HP].
  - rewrite filter_cons_True by done. cbn. by rewrite bxor_0_r.
  - rewrite filter_cons_False by done. cbn. apply Hz; [lia|done].
Qed.

Lemma csum_fmap v (cs : list Z) z :
  csum v (z2b <$> cs) z = foldr bxor x00 ((λ c, gf_mul (gf_inv (bxor z (z2b c))) (v (z2b c))) <$> cs).
Proof. induction cs as [|c cs IH]; [done|]. cbn. by rewrite IH. Qed.

Lemma z2b_inj_byte x y : 0 <= x < 256 → 0 <= y < 256 → z2b x = z2b y → x = y.
Proof. intros Hx Hy E. apply (f_equal b2z) in E. by rewrite !b2z_z2b_small in E. Qed.

Lemma NoDup_bytes (l : list Z) : NoDup l → (∀ x, x ∈ l → 0 <= x < 256) → NoDup (z2b <$> l).
Proof. intros Hnd Hl. apply NoDup_fmap_2_strong; [|done]. intros x y Hx Hy. apply z2b_inj_byte; auto. Qed.

(** Split or parity [i] survives; the splits that do, the parities that do, the splits that
    are lost. *)
Definition alive (errs : list Z) (i : Z) : Prop := truthy (default 1 (aget errs i)) = false.
#[local] Instance alive_dec errs i : Decision (alive errs i).
Proof. unfold alive. apply _. Defined.
Definition dsv (k : Z) (errs : list Z) : list Z := filter (alive errs) (seqZ 0 k).
Definition psv (k m : Z) (errs : list Z) : list Z := filter (alive errs) (seqZ k (m - k)).
Definition lost_splits (k : Z) (errs : list Z) : list Z := filter (λ i, ¬ alive errs i) (seqZ 0 k).

(** A generator with the identity over the parity rows [entry]. *)
Section survivors.
Context (k m : Z) (enc : list byte) (errs : list Z) (entry : Z → Z → byte) (v : Z → byte).
Context (Hk : 0 < k <= m).
Context (Henc : ∀ r c, 0 <= r < m → 0 <= c < k → cell k enc r c = if r <? k then identity r c else entry r c).
Context (Hker : in_kernel k (rows_of k enc (survivors errs m)) v).

#[local] Abbreviation alive := (alive errs).
#[local] Abbreviation dsv := (dsv k errs).
#[local] Abbreviation psv := (psv k m errs).
#[local] Abbreviation lost := (lost_splits k errs).

Lemma survivors_split : survivors errs m = dsv ++ psv.
Proof using Hk.
  unfold dsv, psv, survivors. rewrite <- filter_app. f_equal.
  replace (seqZ k (m - k)) with (seqZ (0 + k) (m - k)) by (f_equal; lia).
  rewrite <- seqZ_app by lia. f_equal. lia.
Qed.

Lemma survivors_counts : alen dsv + alen lost = k.
Proof using Hk.
  unfold dsv, lost, alen. pose proof (length_seqZ 0 k) as Hl. revert Hl.
  generalize (seqZ 0 k). intros l Hl.
  enough (length (filter alive l) + length (filter (λ i, ¬ alive i) l) = length l)%nat by lia.
  clear. induction l as [|x l IH]; [done|]. destruct (decide (alive x)).
  - rewrite filter_cons_True, filter_cons_False by tauto. cbn. lia.
  - rewrite filter_cons_False, filter_cons_True by tauto. cbn. lia.
Qed.

(** Row [i] of the survivor matrix. *)
Lemma kernel_row i s : 0 <= i < k → aget (survivors errs m) i = Some s →
  bsum (Z.to_nat k) (λ c, gf_mul (cell k enc s c) (v c)) = x00.
Proof using Hker. intros Hi Hs. rewrite <- (Hker i Hi). unfold mat_vec, rows_of. by rewrite Hs. Qed.

Lemma kernel_alive s : s ∈ dsv → v s = x00.
Proof using All.
  intros Hs. assert (0 <= s < k) as Hr.
  { apply list_elem_of_filter in Hs as [_ Hs]. apply elem_of_seqZ in Hs. lia. }
  apply list_elem_of_lookup in Hs as (i & Hi). pose proof (lookup_lt_Some _ _ _ Hi).
  pose proof survivors_counts. unfold alen in *.
  rewrite <- (mat_vec_identity k v s Hr). rewrite <- (kernel_row (Z.of_nat i) s).
  - apply bsum_ext. intros c Hc. rewrite Henc by lia. by destruct (Z.ltb_spec s k); [|lia].
  - lia.
  - rewrite aget_nat, survivors_split. by rewrite lookup_app_l.
Qed.

(** A parity row that is used sees the lost splits only. *)
Lemma kernel_lost s : s ∈ take (Z.to_nat (k - alen dsv)) psv →
  k <= s < m ∧ foldr bxor x00 ((λ c, gf_mul (entry s c) (v c)) <$> lost) = x00.
Proof using All.
  intros Hs. apply list_elem_of_lookup in Hs as (j & Hj).
  apply lookup_take_Some in Hj as [Hj Hlt]. assert (k <= s < m) as Hr.
  { apply list_elem_of_lookup_2, list_elem_of_filter in Hj as [_ Hj]. apply elem_of_seqZ in Hj. lia. }
  split; [done|]. pose proof survivors_counts as Hcnt. unfold alen in Hlt, Hcnt.
  transitivity (bsum (Z.to_nat k) (λ c, gf_mul (cell k enc s c) (v c)));
    [|apply (kernel_row (Z.of_nat (length dsv + j)) s)].
  - rewrite (bsum_filter (λ i, ¬ alive i)).
    + rewrite Z2Nat.id by lia. f_equal. apply list_fmap_ext. intros i c Hi.
      assert (0 <= c < k) as Hc.
      { apply list_elem_of_lookup_2, list_elem_of_filter in Hi as [_ Hi]. apply elem_of_seqZ in Hi. lia. }
      rewrite Henc by lia. by destruct (Z.ltb_spec s k); [lia|].
    + intros c Hc Halive. rewrite (kernel_alive c), gf_mul_0_r; [done|].
      apply list_elem_of_filter. split; [by apply dec_stable|]. apply elem_of_seqZ. lia.
  - lia.
  - rewrite aget_nat, survivors_split, lookup_app_r by lia. by replace (length dsv + j - length dsv)%nat with j by lia.
Qed.

(** Lost splits and the parity rows used for them. *)
Lemma lost_rows : k <= alen (survivors errs m) → alen lost = alen (take (Z.to_nat (k - alen dsv)) psv).
Proof using Hk.
  intros Hsv. pose proof survivors_counts as Hcnt. rewrite survivors_split, alen_app in Hsv.
  unfold alen in *. rewrite length_take. lia.
Qed.
Lemma lost_elem c : c ∈ lost ↔ 0 <= c < k ∧ ¬ alive c.
Proof. unfold lost_splits. rewrite list_elem_of_filter, elem_of_seqZ. split; intros [? ?]; (split; [|]; done || lia). Qed.
Lemma kernel_split c : (∀ x, x ∈ lost → v x = x00) → 0 <= c < k → v c = x00.
Proof using All.
  intros Hl Hc. destruct (decide (alive c)) as [Ha|Ha]; [|by apply Hl, lost_elem].
  apply kernel_alive, list_elem_of_filter. split; [done|]. apply elem_of_seqZ. lia.
Qed.
End survivors.

(** ** The Cauchy generator *)

Lemma kernel_zero k m enc errs v :
  0 < k <= m → m <= 256 → k <= alen (survivors errs m) →
  (∀ r c, 0 <= r < m → 0 <= c < k → cell k enc r c = cauchy_entry k r c) →
  in_kernel k (rows_of k enc (survivors errs m)) v → ∀ c, 0 <= c < k → v c = x00.
Proof.
  intros Hk Hm Hsv Henc Hker c Hc. apply (kernel_split k m enc errs (λ r c, gf_inv (z2b (Z.lxor r c))) v); try done.
  clear c Hc. intros c Hc. pose proof (proj1 (lost_elem k errs c) Hc) as [Hr _]. rewrite <- (b2z_z2b_small c) by lia.
  pose proof (kernel_lost k m enc errs (λ r c, gf_inv (z2b (Z.lxor r c))) v Hk Henc Hker) as Hrow.
  pose proof (lost_rows k m errs Hk Hsv) as Hcount.
  assert (∀ x, x ∈ lost_splits k errs → 0 <= x < k) as Hlost by (intros x Hx%lost_elem; lia).
  apply (cauchy_independent (λ b, v (b2z b)) (z2b <$> lost_splits k errs) (z2b <$> take (Z.to_nat (k - alen (dsv k errs))) (psv k m errs))).
  - apply NoDup_bytes; [apply NoDup_filter, NoDup_seqZ|]. intros x Hx%Hlost. lia.
  - apply NoDup_bytes; [apply (sublist_NoDup _ (psv k m errs)); [apply NoDup_filter, NoDup_seqZ|apply sublist_take]|]. intros x [Hx _]%Hrow. lia.
  - intros r (s & -> & Hs)%list_elem_of_fmap (s' & E & Hs')%list_elem_of_fmap.
    apply Hrow in Hs as [Hs _]. apply Hlost in Hs'. apply z2b_inj_byte in E; lia.
  - rewrite !length_fmap. unfold alen in *. lia.
  - intros r (s & -> & Hs)%list_elem_of_fmap. destruct (Hrow s Hs) as [Hs' E]. etransitivity; [|exact E]. rewrite csum_fmap. f_equal.
    apply list_fmap_ext. intros i x Hx%list_elem_of_lookup_2%Hlost. rewrite z2b_lxor, b2z_z2b_small by lia. done.
  - apply list_elem_of_fmap. by exists c.
Qed.

Lemma cauchy_survivors_independent k m enc errs :
  0 < k <= m → m <= 256 → k <= alen (survivors errs m) →
  (∀ r c, 0 <= r < m → 0 <= c < k → cell k enc r c = cauchy_entry k r c) →
  ¬ singular k (rows_of k enc (survivors errs m)).
Proof.
  intros Hk Hm Hsv Henc (v & (c & Hc & Hv) & Hker). apply Hv. by apply (kernel_zero k m enc errs).
Qed.

(** * Recovery *)

(** The matrix of a Cauchy-coded configuration. *)
Lemma cauchy_matrix_facts a m k :
  0 < k <= m → m * k <= alen a →
  ∃ enc, gf_gen_cauchy1_matrix a m k = Some enc ∧ m * k <= alen enc ∧
    mat_eq k (cell k enc) identity ∧
    ∀ r c, 0 <= r < m → 0 <= c < k → cell k enc r c = cauchy_entry k r c.
Proof.
  intros Hk Ha. destruct (gf_gen_cauchy1_matrix_spec a m k) as (enc & E & L & H); [lia|done|].
  exists enc. split_and!; [done|lia| |done]. intros r c Hr Hc. rewrite H by lia.
  unfold cauchy_entry. by destruct (Z.ltb_spec r k); [|lia].
Qed.

(** C1: for every [k] data and [m - k] parity splits with [m] at most 256, and every
    erasure pattern that leaves [k] survivors, the matrix generated by
    [gf_gen_cauchy1_matrix] decodes: [gf_gen_decode_matrix] returns 0, and encoding the
    survivors with its tables restores every lost data or parity buffer. *)
Theorem cauchy_recovery k m L len a b0 backup0 dec inv idx src_err_list errs nerrs nsrcerrs ptrs x tbls0 out :
  m <= 256 → m * k <= alen a → erasures k m src_err_list errs nerrs nsrcerrs →
  square k L b0 → square k L backup0 → square k L inv → k <= alen idx → nerrs * k <= alen dec →
  nerrs * k * 32 <= alen tbls0 → 0 <= len → buffers nerrs len out →
  ∃ enc, gf_gen_cauchy1_matrix a m k = Some enc ∧
    (surviving k m len enc errs ptrs x →
     ∃ dec' inv' idx' out',
      gf_gen_decode_matrix L b0 backup0 enc dec inv idx src_err_list errs nerrs nsrcerrs k m
        = Some (0, dec', inv', idx') ∧
      rebuild len k nerrs dec' tbls0 ptrs idx' out = Some out' ∧
      ∀ p e i, 0 <= p < nerrs → aget src_err_list p = Some e → 0 <= i < len →
        mget out' p i = line k enc (λ j, x j i) e).
Proof.
  intros Hm Ha Her H3 H4 H5 H6 H7 Ht Hlen Hout. pose proof (er_k _ _ _ _ _ _ Her).
  destruct (cauchy_matrix_facts a m k) as (enc & E & Le & Hid & Hc); [done..|].
  exists enc. split; [done|]. intros Hptrs. eapply recovery_correct; try done.
  apply (cauchy_survivors_independent k m); [done|done|apply Her|done].
Qed.

(** The EC configuration of [infiniswap.h], four data and two parity splits, with one
    data and one parity split lost. *)
Definition ec_enc : list byte := default [] (gf_gen_cauchy1_matrix (replicate 24 x00) 6 4).
Definition ec_errs : list Z := [0; 1; 0; 0; 1; 0].
Definition ec_err_list : list Z := [1; 4].
Definition ec_data : list (list byte) := [[x01; x10]; [x02; x20]; [x03; x30]; [x04; x40]].
Definition ec_parity : list (list byte) :=
  default [] (tbls ← ec_init_tables 4 2 (drop 16 ec_enc) (replicate 256 x00);
    ec_encode_data 2 4 2 tbls ec_data (replicate 2 [x00; x00])).
Definition ec_ptrs : list (list byte) := <[1%nat := [xff; xff]]> ec_data ++ ec_parity.

Lemma ec_erasures : erasures 4 6 ec_err_list ec_errs 2 1.
Proof.
  split; try (vm_compute; (done || split; done)).
  - intros p e Hp. replace p with 0 by lia. intros [= <-]. lia.
  - intros p e Hp. replace p with 1 by lia. intros [= <-]. lia.
Qed.

(** The buffers computed by the encoder are a stripe, and survive as one. *)
Lemma ec_surviving : surviving 4 6 2 ec_enc ec_errs ec_ptrs (mget ec_data).
Proof.
  intros s Hs. assert (s = 0 ∨ s = 2 ∨ s = 3 ∨ s = 5) as Hcase.
  { change (survivors ec_errs 6) with [0; 2; 3; 5] in Hs. rewrite !elem_of_cons, elem_of_nil in Hs. tauto. }
  destruct Hcase as [-> | [-> | [-> | ->]]]; (eexists; split; [vm_compute; reflexivity|]);
    (split; [vm_compute; discriminate|]); intros i Hi; assert (i = 0 ∨ i = 1) as [-> | ->] by lia;
    vm_compute; reflexivity.
Qed.

Lemma cauchy_recovery_witness :
  ∃ dec' inv' idx' out',
    gf_gen_decode_matrix 24 (replicate 24 x00) (replicate 24 x00) ec_enc (replicate 8 x00) (replicate 24 x00)
      [0; 0; 0; 0] ec_err_list ec_errs 2 1 4 6 = Some (0, dec', inv', idx') ∧
    rebuild 2 4 2 dec' (replicate 256 x00) ec_ptrs idx' (replicate 2 [x00; x00]) = Some out' ∧
    ∀ p e i, 0 <= p < 2 → aget ec_err_list p = Some e → 0 <= i < 2 →
      mget out' p i = line 4 ec_enc (λ j, mget ec_data j i) e.
Proof.
  destruct (cauchy_recovery 4 6 24 2 (replicate 24 x00) (replicate 24 x00) (replicate 24 x00)
    (replicate 8 x00) (replicate 24 x00) [0; 0; 0; 0] ec_err_list ec_errs 2 1 ec_ptrs (mget ec_data)
    (replicate 256 x00) (replicate 2 [x00; x00])) as (enc & E & H);
    [lia|vm_compute; discriminate|exact ec_erasures|split; vm_compute; (done || discriminate)..| | | | | |].
  - vm_compute; discriminate.
  - vm_compute; discriminate.
  - vm_compute; discriminate.
  - lia.
  - by apply buffers_check.
  - assert (enc = ec_enc) as -> by (unfold ec_enc; by rewrite E). apply H, ec_surviving.
Defined.

(** Any survivors of the same stripe ([Decode.gf_gen_decode_matrix_correct]). *)
Lemma gf_gen_decode_matrix_correct_witness :
  ∃ ret dec' inv' idx',
    gf_gen_decode_matrix 24 (replicate 24 x00) (replicate 24 x00) ec_enc (replicate 8 x00) (replicate 24 x00)
      [0; 0; 0; 0] ec_err_list ec_errs 2 1 4 6 = Some (ret, dec', inv', idx') ∧
    decoded 4 6 ec_enc ec_errs ec_err_list 2 ret dec' idx'.
Proof.
  apply (gf_gen_decode_matrix_correct 4 6 24); [exact ec_erasures|vm_compute; discriminate| |..];
    try (split; vm_compute; (done || discriminate)); [|vm_compute; discriminate..].
  intros i j Hi Hj. assert (i = 0 ∨ i = 1 ∨ i = 2 ∨ i = 3) as Ci by lia.
  assert (j = 0 ∨ j = 1 ∨ j = 2 ∨ j = 3) as Cj by lia.
  destruct Ci as [-> | [-> | [-> | ->]]], Cj as [-> | [-> | [-> | ->]]]; vm_compute; reflexivity.
Defined.
