(* ===== verification/Vandermonde.v ===== *)
(** The other generator, [gf_gen_rs_matrix] ([ec_base.c]): identity over powers of powers of 2.
    Not every choice of rows is independent for large codes, as the header of the library
    warns; but with at most three parities, as the manager has, every choice is. *)

From S2P Require Import Prelude GF256 GFVect GFMatrix Decode Cauchy.

(** * What it stores *)

(** The parity rows: row [r] has [2 ^ ((r - k) c)] in column [c]. *)
Definition rs_row (k r c : Z) : byte := gexp ((r - k) * c).
Definition rs_entry (k r c : Z) : byte := if r <? k then identity r c else rs_row k r c.

Lemma gexp_0 : gexp 0 = x01.
Proof. reflexivity. Qed.
Lemma gexp_1 : gexp 1 = x02.
Proof. reflexivity. Qed.
Lemma gexp_add i j : gf_mul (gexp i) (gexp j) = gexp (i + j).
Proof.
  rewrite gf_mul_exp by apply gexp_nonzero. apply gexp_eq.
  rewrite Zplus_mod, !glog_gexp, <- Zplus_mod. done.
Qed.
Lemma gexp_inj i j : gexp i = gexp j → (255 | i - j).
Proof.
  intros E. apply (f_equal glog) in E. apply Z.mod_divide; [done|].
  rewrite Zminus_mod, <- (glog_gexp i), <- (glog_gexp j), E, Z.sub_diag. done.
Qed.

Lemma gf_gen_rs_matrix_spec a m k :
  0 <= k <= m → m * k <= alen a →
  ∃ a', gf_gen_rs_matrix a m k = Some a' ∧ alen a' = alen a ∧
    ∀ r c, 0 <= r < m → 0 <= c < k → cell k a' r c = rs_entry k r c.
Proof.
  intros Hk Ha. unfold gf_gen_rs_matrix.
  destruct (memset0_correct a (k * m)) as (a1 & -> & L1 & Hz); [nia|]. step_bind.
  destruct (set_identity_correct a1 k (alen a)) as (a2 & -> & L2 & Hid);
    [lia|split; nia|intros i Hi; apply Hz; nia|]. step_bind.
  pose (done_upto := λ n (o : list byte), alen o = alen a ∧
    ∀ r c, 0 <= r → 0 <= c < k → r * k + c < n → cell k o r c = rs_entry k r c).
  match goal with |- context [for_up k m ?body ?s0] =>
    destruct (for_up_inv (λ i st, st.2 = gexp (i - k) ∧ done_upto (i * k) st.1) body k m s0) as ([a3 g] & -> & _ & L3 & H3) end; [lia| | |].
  - rewrite Z.sub_diag, gexp_0. split; [done|]. split; [done|]. intros r c Hr Hc Hlt. cbn [fst]. assert (r < k) by nia.
    rewrite Hid by lia. unfold rs_entry. destruct (Z.ltb_spec r k); [done|lia].
  - intros i [b g] Hi [Hg Hb]. cbn [fst snd] in *. subst g.
    match goal with |- context [for_up 0 k ?body ?s0] =>
      destruct (for_up_inv (λ j st, st.2 = gexp ((i - k) * j) ∧ done_upto (i * k + j) st.1) body 0 k s0)
        as ([b' p] & -> & Hp & Hb') end; [lia|by rewrite Z.mul_0_r, Z.add_0_r, gexp_0| |].
    + intros j [b1 p] Hj [Hp [Lb Hb1]]. cbn [fst snd] in *. subst p.
      pose proof (aset_Some b1 (k * i + j) (gexp ((i - k) * j)) ltac:(nia)) as E.
      rewrite E. step_bind. eexists; split; [done|]. cbn [fst snd].
      split; [rewrite gexp_add; f_equal; lia|]. split; [by rewrite (aset_length _ _ _ _ E)|]. intros r c Hr Hc Hlt.
      unfold cell, bget. rewrite (aget_aset _ _ _ _ _ E). case_decide as Hd.
      * destruct (index_inj k i j r c) as [-> ->]; [lia|lia|lia|].
        unfold rs_entry, rs_row. destruct (Z.ltb_spec r k); [lia|done].
      * apply Hb1; [lia|lia|]. lia.
    + step_bind. eexists; split; [done|]. cbn [fst snd] in *. split.
      * rewrite <- gexp_1, gexp_add. f_equal. lia.
      * by replace ((i + 1) * k) with (i * k + k) by lia.
  - step_bind. exists a3. split_and!; [done|done|]. intros r c Hr Hc. apply H3; [lia|lia|nia].
Qed.

(** * Independence *)

Lemma two_unknowns x1 y1 x2 y2 a b :
  bxor (gf_mul x1 a) (gf_mul y1 b) = x00 → bxor (gf_mul x2 a) (gf_mul y2 b) = x00 →
  gf_mul x1 y2 ≠ gf_mul x2 y1 → a = x00.
Proof.
  intros E1%bxor_zero E2%bxor_zero Hd.
  assert (gf_mul (bxor (gf_mul x1 y2) (gf_mul x2 y1)) a = x00) as E.
  { rewrite gf_mul_distr_l. replace (gf_mul (gf_mul x1 y2) a) with (gf_mul y2 (gf_mul x1 a)) by ring.
    replace (gf_mul (gf_mul x2 y1) a) with (gf_mul y1 (gf_mul x2 a)) by ring. rewrite E1, E2.
    replace (gf_mul y2 (gf_mul y1 b)) with (gf_mul y1 (gf_mul y2 b)) by ring. apply bxor_nilpotent. }
  apply gf_mul_integral in E as [E|E]; [|done]. by apply bxor_zero in E.
Qed.

Lemma gf_square x y : gf_mul (bxor x y) (bxor x y) = bxor (gf_mul x x) (gf_mul y y).
Proof.
  transitivity (bxor (bxor (gf_mul x x) (gf_mul y y)) (bxor (gf_mul x y) (gf_mul x y))); [ring|].
  by rewrite bxor_nilpotent, bxor_0_r.
Qed.

Lemma three_unknowns x y z a b c :
  bxor a (bxor b c) = x00 → bxor (gf_mul x a) (bxor (gf_mul y b) (gf_mul z c)) = x00 →
  bxor (gf_mul (gf_mul x x) a) (bxor (gf_mul (gf_mul y y) b) (gf_mul (gf_mul z z) c)) = x00 →
  x ≠ y → x ≠ z → y ≠ z → b = x00.
Proof.
  intros E1%bxor_zero E2 E3 Hxy Hxz Hyz. subst a. set (p := bxor x y). set (q := bxor x z).
  apply (two_unknowns p q (gf_mul p p) (gf_mul q q) b c).
  - unfold p, q. rewrite <- E2. ring.
  - unfold p, q. rewrite !gf_square, <- E3. ring.
  - intros E. assert (gf_mul p (gf_mul q (bxor p q)) = x00) as H.
    { replace (gf_mul p (gf_mul q (bxor p q))) with (bxor (gf_mul p (gf_mul q q)) (gf_mul (gf_mul p p) q)) by ring.
      rewrite E. apply bxor_nilpotent. }
    apply gf_mul_integral in H as [H|H]; [by apply Hxy, bxor_zero|].
    apply gf_mul_integral in H as [H|H]; [by apply Hxz, bxor_zero|].
    apply bxor_zero in H. apply Hyz. unfold p, q in H. apply (f_equal (bxor x)) in H.
    by rewrite !bxor_assoc, !bxor_nilpotent, !bxor_0_l in H.
Qed.

Lemma NoDup_two {A} (a b : A) : NoDup [a; b] → a ≠ b.
Proof. intros [H _]%NoDup_cons ->. apply H. left. Qed.
Lemma NoDup_three {A} (a b c : A) l : NoDup (a :: b :: c :: l) → a ≠ b ∧ a ≠ c ∧ b ≠ c.
Proof.
  intros [H1 [H2 _]%NoDup_cons]%NoDup_cons. split_and!; intros ->; [apply H1|apply H1|apply H2].
  - left.
  - right; left.
  - left.
Qed.

(** Two powers of 2 with exponents closer than the order of 2 differ. *)
Lemma gexp_ne i j : 0 < Z.abs (i - j) < 255 → gexp i ≠ gexp j.
Proof. intros H [q Hq]%gexp_inj. nia. Qed.
Lemma rs_minor i j a b :
  0 < Z.abs (i - j) <= 2 → 0 < Z.abs (a - b) < 255 →
  gf_mul (gexp (i * a)) (gexp (j * b)) ≠ gf_mul (gexp (j * a)) (gexp (i * b)).
Proof.
  intros Hij Hab E. rewrite !gexp_add in E. apply gexp_inj in E.
  replace (i * a + j * b - (j * a + i * b)) with ((i - j) * (a - b)) in E by lia.
  assert (255 | a - b) as [q Hq]; [|nia]. apply (Z.gauss _ (i - j)); [done|].
  assert (i - j = 1 ∨ i - j = 2 ∨ i - j = -1 ∨ i - j = -2) as [->|[->|[->| ->]]] by lia; reflexivity.
Qed.

Section survivors.
Context (k m : Z) (enc : list byte) (errs : list Z) (v : Z → byte).
Context (Hk : 0 < k <= m) (Hm : m - k <= 3) (Hlarge : k <= 255) (Hsv : k <= alen (survivors errs m)).
Context (Henc : ∀ r c, 0 <= r < m → 0 <= c < k → cell k enc r c = rs_entry k r c).
Context (Hker : in_kernel k (rows_of k enc (survivors errs m)) v).

#[local] Abbreviation rows := (take (Z.to_nat (k - alen (dsv k errs))) (psv k m errs)).

Lemma rs_rows s : s ∈ rows → k <= s < m ∧ foldr bxor x00 ((λ c, gf_mul (gexp ((s - k) * c)) (v c)) <$> lost_splits k errs) = x00.
Proof using Hk Henc Hker. intros Hs. by apply (kernel_lost k m enc errs (rs_row k) v Hk Henc Hker). Qed.

Lemma rs_kernel_lost c : c ∈ lost_splits k errs → v c = x00.
Proof using All.
  pose proof (lost_rows k m errs Hk Hsv) as Hl. pose proof rs_rows as Hrow.
  assert (NoDup rows) as Hnd by (apply (sublist_NoDup _ (psv k m errs)); [apply NoDup_filter, NoDup_seqZ|apply sublist_take]).
  assert (NoDup (lost_splits k errs)) as Hnl by apply NoDup_filter, NoDup_seqZ.
  assert (∀ x, x ∈ lost_splits k errs → 0 <= x < k) as Hin by (intros x Hx%lost_elem; lia).
  revert Hl Hrow Hnd Hnl Hin. generalize (lost_splits k errs) as L. generalize rows as R. unfold alen. intros R L Hl Hrow Hnd Hnl Hin.
  destruct L as [|x [|y [|z [|x' L]]]], R as [|s [|t [|u [|s' R]]]]; try (exfalso; cbn in Hl; lia).
  - intros Hc. by apply elem_of_nil in Hc.
  - intros ->%list_elem_of_singleton. destruct (Hrow s) as [_ E]; [left|]. cbn in E. rewrite bxor_0_r in E.
    apply gf_mul_integral in E as [E|E]; [by apply gexp_nonzero in E|done].
  - destruct (Hrow s) as [Hs E1]; [left|]. destruct (Hrow t) as [Ht E2]; [right; left|]. cbn in E1, E2. rewrite bxor_0_r in E1, E2.
    pose proof (Hin x ltac:(left)). pose proof (Hin y ltac:(right; left)).
    apply NoDup_two in Hnd. apply NoDup_two in Hnl.
    intros [->| ->%list_elem_of_singleton]%elem_of_cons.
    + by apply (two_unknowns _ _ _ _ _ _ E1 E2), rs_minor; lia.
    + rewrite bxor_comm in E1, E2. by apply (two_unknowns _ _ _ _ _ _ E1 E2), rs_minor; lia.
  - destruct (Hrow s) as [Hs _]; [left|]. destruct (Hrow t) as [Ht _]; [right; left|]. destruct (Hrow u) as [Hu _]; [right; right; left|].
    apply NoDup_three in Hnd as (? & ? & ?). apply NoDup_three in Hnl as (? & ? & ?).
    pose proof (Hin x ltac:(left)). pose proof (Hin y ltac:(right; left)). pose proof (Hin z ltac:(right; right; left)).
    assert (∀ i, 0 <= i < 3 → foldr bxor x00 ((λ c, gf_mul (gexp (i * c)) (v c)) <$> [x; y; z]) = x00) as Hall.
    { intros i Hi. destruct (Hrow (k + i)) as [_ E].
      - assert (k + i = s ∨ k + i = t ∨ k + i = u) as [-> | [-> | ->]] by lia; [left|right; left|right; right; left].
      - by replace (k + i - k) with i in E by lia. }
    pose proof (Hall 0 ltac:(lia)) as E0. pose proof (Hall 1 ltac:(lia)) as E1. pose proof (Hall 2 ltac:(lia)) as E2.
    cbn [fmap list_fmap foldr] in E0, E1, E2. rewrite !bxor_0_r in E0, E1, E2.
    rewrite !Z.mul_0_l, gexp_0, !gf_mul_1_l in E0. rewrite !Z.mul_1_l in E1.
    assert (∀ n, gexp (2 * n) = gf_mul (gexp n) (gexp n)) as Hsq by (intros n; rewrite gexp_add; f_equal; lia).
    rewrite !Hsq in E2.
    assert (∀ n n', n ≠ n' → 0 <= n < k → 0 <= n' < k → gexp n ≠ gexp n') as Hne by (intros; apply gexp_ne; lia).
    intros [->|[->| ->%list_elem_of_singleton]%elem_of_cons]%elem_of_cons.
    + apply (three_unknowns (gexp y) (gexp x) (gexp z) (v y) (v x) (v z)); try (by apply Hne);
        first [etransitivity; [|exact E0]; ring|etransitivity; [|exact E1]; ring|etransitivity; [|exact E2]; ring].
    + apply (three_unknowns (gexp x) (gexp y) (gexp z) (v x) (v y) (v z)); (done || by apply Hne).
    + apply (three_unknowns (gexp x) (gexp z) (gexp y) (v x) (v z) (v y)); try (by apply Hne);
        first [etransitivity; [|exact E0]; ring|etransitivity; [|exact E1]; ring|etransitivity; [|exact E2]; ring].
  - exfalso. destruct (Hrow s) as [Hs _]; [left|]. destruct (Hrow t) as [Ht _]; [right; left|].
    destruct (Hrow u) as [Hu _]; [right; right; left|]. destruct (Hrow s') as [Hs' _]; [right; right; right; left|].
    destruct (NoDup_three _ _ _ _ Hnd) as (? & ? & ?). apply NoDup_cons in Hnd as [Hns Hnd].
    apply NoDup_three in Hnd as (? & ? & ?). assert (s ≠ s') by (intros ->; apply Hns; right; right; left). lia.
Qed.
End survivors.

Lemma rs_survivors_independent k m enc errs :
  0 < k <= m → m - k <= 3 → k <= 255 → k <= alen (survivors errs m) →
  (∀ r c, 0 <= r < m → 0 <= c < k → cell k enc r c = rs_entry k r c) →
  ¬ singular k (rows_of k enc (survivors errs m)).
Proof.
  intros Hk Hm Hl Hsv Henc (v & (c & Hc & Hv) & Hker). apply Hv.
  apply (kernel_split k m enc errs (rs_row k) v Hk Henc Hker); [|done].
  intros x Hx. by apply (rs_kernel_lost k m enc errs v).
Qed.

(** * Recovery *)

(** C2: with at most three parities and 255 data splits the matrix of [gf_gen_rs_matrix]
    recovers as well: [gf_gen_decode_matrix] returns 0 for every erasure pattern that leaves
    [k] survivors, and encoding the survivors with its tables restores every lost buffer. *)
Theorem vandermonde_recovery k m L len a b0 backup0 dec inv idx src_err_list errs nerrs nsrcerrs ptrs x tbls0 out :
  m - k <= 3 → k <= 255 → m * k <= alen a → erasures k m src_err_list errs nerrs nsrcerrs →
  square k L b0 → square k L backup0 → square k L inv → k <= alen idx → nerrs * k <= alen dec →
  nerrs * k * 32 <= alen tbls0 → 0 <= len → buffers nerrs len out →
  ∃ enc, gf_gen_rs_matrix a m k = Some enc ∧
    (surviving k m len enc errs ptrs x →
     ∃ dec' inv' idx' out',
      gf_gen_decode_matrix L b0 backup0 enc dec inv idx src_err_list errs nerrs nsrcerrs k m
        = Some (0, dec', inv', idx') ∧
      rebuild len k nerrs dec' tbls0 ptrs idx' out = Some out' ∧
      ∀ p e i, 0 <= p < nerrs → aget src_err_list p = Some e → 0 <= i < len →
        mget out' p i = line k enc (λ j, x j i) e).
Proof.
  intros Hm Hl Ha Her H3 H4 H5 H6 H7 Ht Hlen Hout. pose proof (er_k _ _ _ _ _ _ Her) as Hk.
  destruct (gf_gen_rs_matrix_spec a m k) as (enc & E & Le & Hc); [lia|done|].
  exists enc. split; [done|]. intros Hptrs. eapply recovery_correct; try done.
  - lia.
  - intros r c Hr Hcc. rewrite Hc by lia. unfold rs_entry. by destruct (Z.ltb_spec r k); [|lia].
  - by apply (rs_survivors_independent k m); [| | |apply Her|].
Qed.

(** One data split and one parity of a small code. *)
Definition rs_enc : list byte := default [] (gf_gen_rs_matrix (replicate 24 x00) 6 4).
Definition rs_ptrs : list (list byte) := <[1%nat := [xff; xff]]> ec_data ++
  default [] (tbls ← ec_init_tables 4 2 (drop 16 rs_enc) (replicate 256 x00);
    ec_encode_data 2 4 2 tbls ec_data (replicate 2 [x00; x00])).

Lemma rs_surviving : surviving 4 6 2 rs_enc ec_errs rs_ptrs (mget ec_data).
Proof.
  intros s Hs. assert (s = 0 ∨ s = 2 ∨ s = 3 ∨ s = 5) as Hcase.
  { change (survivors ec_errs 6) with [0; 2; 3; 5] in Hs. rewrite !elem_of_cons, elem_of_nil in Hs. tauto. }
  destruct Hcase as [-> | [-> | [-> | ->]]]; (eexists; split; [vm_compute; reflexivity|]);
    (split; [vm_compute; discriminate|]); intros i Hi; assert (i = 0 ∨ i = 1) as [-> | ->] by lia;
    vm_compute; reflexivity.
Qed.

Lemma vandermonde_recovery_witness :
  ∃ dec' inv' idx' out',
    gf_gen_decode_matrix 24 (replicate 24 x00) (replicate 24 x00) rs_enc (replicate 8 x00) (replicate 24 x00)
      [0; 0; 0; 0] ec_err_list ec_errs 2 1 4 6 = Some (0, dec', inv', idx') ∧
    rebuild 2 4 2 dec' (replicate 256 x00) rs_ptrs idx' (replicate 2 [x00; x00]) = Some out' ∧
    ∀ p e i, 0 <= p < 2 → aget ec_err_list p = Some e → 0 <= i < 2 →
      mget out' p i = line 4 rs_enc (λ j, mget ec_data j i) e.
Proof.
  destruct (vandermonde_recovery 4 6 24 2 (replicate 24 x00) (replicate 24 x00) (replicate 24 x00)
    (replicate 8 x00) (replicate 24 x00) [0; 0; 0; 0] ec_err_list ec_errs 2 1 rs_ptrs (mget ec_data)
    (replicate 256 x00) (replicate 2 [x00; x00])) as (enc & E & H);
    [lia|lia|vm_compute; discriminate|exact ec_erasures|split; vm_compute; (done || discriminate)..| | | | | |].
  - vm_compute; discriminate.
  - vm_compute; discriminate.
  - vm_compute; discriminate.
  - lia.
  - by apply buffers_check.
  - assert (enc = rs_enc) as -> by (unfold rs_enc; by rewrite E). apply H, rs_surviving.
Defined.

(** The bound on the parities is sharp: with 22 splits and four parities, the loss of splits 0, 10
    and 21 and of the third parity leaves 22 rows that are dependent. *)
Definition four_errs : list Z := <[24%nat := 1]> (<[21%nat := 1]> (<[10%nat := 1]> (<[0%nat := 1]> (replicate 26 0)))).
Definition four_kernel (c : Z) : byte := if c =? 0 then xfb else if c =? 10 then xfa else if c =? 21 then x01 else x00.

Theorem four_parities_dependent :
  ∃ enc, gf_gen_rs_matrix (replicate 572 x00) 26 22 = Some enc ∧ alen (survivors four_errs 26) = 22 ∧
    singular 22 (rows_of 22 enc (survivors four_errs 26)).
Proof.
  destruct (gf_gen_rs_matrix_spec (replicate 572 x00) 26 22) as (enc & E & _ & Hc); [lia|vm_compute; discriminate|].
  exists enc. split; [done|]. split; [reflexivity|]. exists four_kernel. split; [exists 21; split; [lia|discriminate]|].
  intros r Hr. assert (forallb (λ r, Byte.eqb (bsum 22 (λ c, gf_mul (rs_entry 22 (default 0 (aget (survivors four_errs 26) r)) c)
    (four_kernel c))) x00) (seqZ 0 22) = true) as Hall by (vm_compute; reflexivity).
  rewrite forallb_forall in Hall. specialize (Hall r ltac:(apply list_elem_of_In, elem_of_seqZ; lia)). apply byte_eqb_eq in Hall.
  etransitivity; [|exact Hall]. unfold mat_vec, rows_of. apply bsum_ext. intros c Hcc. f_equal. apply Hc; [|lia].
  destruct (aget (survivors four_errs 26) r) as [x|] eqn:Ex; [|cbn; lia]. apply aget_elem in Ex. cbn.
  apply list_elem_of_filter in Ex as [_ Ex]. apply elem_of_seqZ in Ex. lia.
Qed.
