(* ===== verification/MT.v ===== *)
(** The Mersenne Twister generators [mt19937-64.c] (used by the fault injector) and
    [mt19937.c]: the two files have one algorithm at two word sizes, modelled once
    over its constants and instantiated with each file's. *)

From S2P Require Import Prelude.

(** * State and constants *)

(** [MTRand64], [MTRand]: the word array and the next position in it. *)
Record MTRand : Type := { mt : list Z; mti : Z }.

(** The constants of one of the files: [uintW_t] words, [NN]/[N], [MM]/[M],
    [MATRIX_A], the upper and lower masks, the multiplier and shift of the
    initialiser, the default seed, and the four tempering steps. *)
Record params : Type := {
  W : Z; NN : Z; MM : Z;
  MATRIX_A : Z; UM : Z; LM : Z;
  MULT : Z; SHIFT : Z; SEED : Z;
  T1 : Z; D1 : Z; T2 : Z; B2 : Z; T3 : Z; C3 : Z; T4 : Z
}.

Definition mt64 : params := {|
  W := 64; NN := 312; MM := 156;
  MATRIX_A := 0xB5026F5AA96619E9; UM := 0xFFFFFFFF80000000; LM := 0x7FFFFFFF;
  MULT := 6364136223846793005; SHIFT := 62; SEED := 4357;
  T1 := 29; D1 := 0x5555555555555555; T2 := 17; B2 := 0x71D67FFFEDA60000;
  T3 := 37; C3 := 0xFFF7EEE000000000; T4 := 43 |}.

(** [y ^= (y >> 11)] has no mask: all the bits of the word. *)
Definition mt32 : params := {|
  W := 32; NN := 624; MM := 397;
  MATRIX_A := 0x9908b0df; UM := 0x80000000; LM := 0x7fffffff;
  MULT := 1812433253; SHIFT := 30; SEED := 5489;
  T1 := 11; D1 := 0xffffffff; T2 := 7; B2 := 0x9d2c5680;
  T3 := 15; C3 := 0xefc60000; T4 := 18 |}.

Section generator.
Context (p : params).

(** * Operations *)

(** [init_genrand64], [init_genrand]. *)
Definition init_word (prev i : Z) : Z :=
  wrap (W p) (MULT p * Z.lxor prev (Z.shiftr prev (SHIFT p)) + i).

Definition init (rand : MTRand) (seed : Z) : option MTRand :=
  m ← aset (mt rand) 0 (wrap (W p) seed);
  m ← for_up 1 (NN p) (λ i m, prev ← aget m (i - 1); aset m i (init_word prev i)) m;
  Some {| mt := m; mti := NN p |}.

(** [x = (mt[i]&UM)|(mt[j]&LM); mt[i] = mt[k] ^ (x>>1) ^ mag01[x&1]]. *)
Definition mag01 (b : Z) : option Z := aget [0; MATRIX_A p] b.

Definition twist (m : list Z) (i j k : Z) : option (list Z) :=
  a ← aget m i;
  b ← aget m j;
  let x := Z.lor (Z.land a (UM p)) (Z.land b (LM p)) in
  c ← aget m k;
  g ← mag01 (Z.land x 1);
  aset m i (Z.lxor (Z.lxor c (Z.shiftr x 1)) g).

(** Generate [NN] words at one time. *)
Definition refill (m : list Z) : option (list Z) :=
  m ← for_up 0 (NN p - MM p) (λ i m, twist m i (i + 1) (i + MM p)) m;
  m ← for_up (NN p - MM p) (NN p - 1) (λ i m, twist m i (i + 1) (i + (MM p - NN p))) m;
  twist m (NN p - 1) 0 (MM p - 1).

Definition temper (x : Z) : Z :=
  let x := Z.lxor x (Z.land (Z.shiftr x (T1 p)) (D1 p)) in
  let x := Z.lxor x (Z.land (wrap (W p) (Z.shiftl x (T2 p))) (B2 p)) in
  let x := Z.lxor x (Z.land (wrap (W p) (Z.shiftl x (T3 p))) (C3 p)) in
  Z.lxor x (Z.shiftr x (T4 p)).

(** [genrand64_uint64], [genrand_uint32]: the next word and the new state. *)
Definition genrand (rand : MTRand) : option (Z * MTRand) :=
  rand ← (if mti rand >=? NN p then
            rand ← (if mti rand =? NN p + 1 then init rand (SEED p) else Some rand);
            m ← refill (mt rand);
            Some {| mt := m; mti := 0 |}
          else Some rand);
  x ← aget (mt rand) (mti rand);
  Some (temper x, {| mt := mt rand; mti := mti rand + 1 |}).

(** * The recurrence

    The reference: an infinite sequence of words in which word [n + NN] is computed
    from words [n], [n + 1] and [n + MM], kept as a growing history. *)
Definition next_word (a b c : Z) : Z :=
  let x := Z.lor (Z.land a (UM p)) (Z.land b (LM p)) in
  Z.lxor (Z.lxor c (Z.shiftr x 1)) (if Z.odd x then MATRIX_A p else 0).

Definition extend (h : list Z) : list Z :=
  let n := alen h - NN p in
  let at_ i := default 0 (aget h i) in
  h ++ [next_word (at_ n) (at_ (n + 1)) (at_ (n + MM p))].

(** The first [n] outputs by repeated calls, and by the recurrence. *)
Fixpoint outputs (n : nat) (rand : MTRand) : option (list Z * MTRand) :=
  match n with
  | O => Some ([], rand)
  | S n' => '(x, rand) ← genrand rand; '(xs, rand) ← outputs n' rand; Some (x :: xs, rand)
  end.
Definition history (n : nat) (m : list Z) : list Z := Nat.iter n extend m.
Definition reference (n : nat) (m : list Z) : list Z :=
  temper <$> drop (Z.to_nat (NN p)) (history n m).

Definition word (x : Z) : Prop := 0 <= x < 2 ^ W p.
Definition words (m : list Z) : Prop := alen m = NN p ∧ ∀ i x, aget m i = Some x → word x.
End generator.

(** ** The functions of the two files *)

Definition init_genrand64 := init mt64.
Definition genrand64_uint64 := genrand mt64.
Definition init_genrand := init mt32.
Definition genrand_uint32 := genrand mt32.

(** * Correctness *)

Record params_ok (p : params) : Prop := {
  ok_W : 0 < W p;
  ok_MM : 0 < MM p < NN p;
  ok_A : word p (MATRIX_A p);
  ok_UM : word p (UM p);
  ok_LM : word p (LM p);
  ok_T1 : 0 < T1 p; ok_T2 : 0 < T2 p; ok_T3 : 0 < T3 p; ok_T4 : 0 < T4 p;
  ok_masks : word p (D1 p) ∧ word p (B2 p) ∧ word p (C3 p)
}.

Lemma mt64_ok : params_ok mt64.
Proof. split; unfold word; cbn; lia. Qed.
Lemma mt32_ok : params_ok mt32.
Proof. split; unfold word; cbn; lia. Qed.

Section correct.
Context (p : params) (Hp : params_ok p).

Lemma word_lxor x y : word p x → word p y → word p (Z.lxor x y).
Proof using Hp. apply lxor_range. pose proof (ok_W p Hp). lia. Qed.
Lemma word_lor x y : word p x → word p y → word p (Z.lor x y).
Proof using Hp. apply lor_range. pose proof (ok_W p Hp). lia. Qed.
Lemma word_land x y : word p x → word p (Z.land x y).
Proof using Hp. apply land_range_l. pose proof (ok_W p Hp). lia. Qed.
Lemma word_shiftr x n : 0 <= n → word p x → word p (Z.shiftr x n).
Proof using Hp. intros. apply shiftr_range; [pose proof (ok_W p Hp); lia|done|done]. Qed.
Lemma word_wrap x : word p (wrap (W p) x).
Proof using Hp. apply wrap_range. pose proof (ok_W p Hp). lia. Qed.

Hint Resolve word_lxor word_lor word_land word_shiftr word_wrap : ramp.

Lemma word_temper x : word p x → word p (temper p x).
Proof using Hp. pose proof (ok_T1 p Hp). pose proof (ok_T4 p Hp). intros Hx. unfold temper. auto 12 with ramp lia zarith. Qed.

Lemma word_next a b c : word p a → word p b → word p c → word p (next_word p a b c).
Proof using Hp.
  intros Ha Hb Hc. pose proof (ok_A p Hp). assert (word p 0).
  { split; [lia|]. apply Z.pow_pos_nonneg; [lia|]. pose proof (ok_W p Hp). lia. }
  unfold next_word. case_match; auto 10 with ramp zarith.
Qed.

(** ** Initialisation *)

Lemma init_correct rand seed :
  alen (mt rand) = NN p →
  ∃ m, init p rand seed = Some {| mt := m; mti := NN p |} ∧ words p m ∧
    aget m 0 = Some (wrap (W p) seed) ∧
    ∀ i x, 1 <= i < NN p → aget m (i - 1) = Some x → aget m i = Some (init_word p x i).
Proof using Hp.
  pose proof (ok_MM p Hp). intros Hl. unfold init.
  pose proof (aset_Some (mt rand) 0 (wrap (W p) seed) ltac:(lia)) as E0. rewrite E0. step_bind.
  set (m0 := <[_:=_]> _) in *.
  destruct (for_up_inv (λ j m, alen m = NN p ∧ (∀ i x, i < j → aget m i = Some x → word p x) ∧
      aget m 0 = Some (wrap (W p) seed) ∧
      ∀ i x, 1 <= i < j → aget m (i - 1) = Some x → aget m i = Some (init_word p x i))
    (λ i m, prev ← aget m (i - 1); aset m i (init_word p prev i)) 1 (NN p) m0)
    as (m & -> & Lm & Hw & H0 & Hi); [lia| | |].
  - rewrite (aset_length _ _ _ _ E0). split_and!; [done| |by eapply aget_aset_eq|intros; lia].
    intros i x Hi Hx. assert (i = 0) as -> by (apply aget_lt in Hx; lia).
    erewrite aget_aset_eq in Hx by done. simplify_eq. apply word_wrap.
  - intros j m Hj (Lm & Hw & H0 & Hi).
    destruct (proj2 (aget_is_Some m (j - 1))) as [x Ex]; [lia|]. rewrite Ex. step_bind.
    pose proof (aset_Some m j (init_word p x j) ltac:(lia)) as E. rewrite E. eexists; split; [done|].
    rewrite (aset_length _ _ _ _ E). split_and!; [done| | |].
    + intros i y Hij. rewrite (aget_aset _ _ _ _ _ E). case_decide as Hd.
      * intros. simplify_eq. apply word_wrap.
      * apply Hw. lia.
    + by rewrite (aget_aset_ne _ _ _ _ _ E) by lia.
    + intros i y Hij. rewrite !(aget_aset _ _ _ _ _ E). repeat case_decide; try lia; [congruence|].
      apply Hi. lia.
  - step_bind. exists m. split_and!; [done|split; [done|]|done|done].
    intros i x Hx. eapply Hw; [|done]. apply aget_lt in Hx. lia.
Qed.

(** ** Block generation follows the recurrence *)

Section stream.
Context (s : Z → Z).
Context (Hs : ∀ i, 0 <= i → s (i + NN p) = next_word p (s i) (s (i + 1)) (s (i + MM p))).

Lemma twist_correct m i j k a b c :
  aget m i = Some a → aget m j = Some b → aget m k = Some c →
  twist p m i j k = Some (<[Z.to_nat i := next_word p a b c]> m).
Proof using Type.
  intros Ha Hb Hc. unfold twist, mag01. rewrite Ha, Hb, Hc. step_bind.
  set (x := Z.lor _ _). pose proof (Z.land_ones x 1 ltac:(lia)) as E. change (Z.ones 1) with 1 in E. change (2 ^ 1) with 2 in E. rewrite E, Zmod_odd.
  unfold next_word. fold x. destruct (Z.odd x); step_bind; apply aset_Some; by eapply aget_lt.
Qed.

(** The array during [refill]: cells below [i] already belong to the next block. *)
Definition mid (b i : Z) (m : list Z) : Prop :=
  alen m = NN p ∧ ∀ j, 0 <= j < NN p → aget m j = Some (if j <? i then s (b + NN p + j) else s (b + j)).

Lemma twist_mid b i j k m :
  0 <= b → 0 <= i < NN p → mid b i m →
  aget m j = Some (s (b + i + 1)) → aget m k = Some (s (b + i + MM p)) →
  ∃ m', twist p m i j k = Some m' ∧ mid b (i + 1) m'.
Proof using Hs.
  intros Hb Hi [Lm Hm] Hj Hk. pose proof (Hm i Hi) as Ei. rewrite Z.ltb_irrefl in Ei.
  rewrite (twist_correct _ _ _ _ _ _ _ Ei Hj Hk). eexists; split; [done|].
  replace (b + i + 1) with ((b + i) + 1) by lia. rewrite <- Hs by lia.
  pose proof (aset_Some m i (s (b + i + NN p)) ltac:(lia)) as E. split; [by rewrite (aset_length _ _ _ _ E)|].
  intros l Hl. rewrite (aget_aset _ _ _ _ _ E). case_decide as Hd.
  - subst l. destruct (Z.ltb_spec i (i + 1)); [|lia]. do 2 f_equal. lia.
  - rewrite Hm by done. destruct (Z.ltb_spec l i), (Z.ltb_spec l (i + 1)); (done || lia).
Qed.

Lemma mid_get b i m j v : mid b i m → 0 <= j < NN p →
  v = (if j <? i then b + NN p + j else b + j) → aget m j = Some (s v).
Proof using Type. intros [_ H] Hj ->. rewrite H by done. by destruct (j <? i). Qed.

Lemma refill_correct b m : 0 <= b → mid b 0 m → ∃ m', refill p m = Some m' ∧ mid (b + NN p) 0 m'.
Proof using Hp Hs.
  pose proof (ok_MM p Hp) as HMM. intros Hb Hm. unfold refill.
  destruct (for_up_inv (λ i m, mid b i m) (λ i m, twist p m i (i + 1) (i + MM p)) 0 (NN p - MM p) m)
    as (m1 & -> & H1); [lia|done| |].
  { intros i t Hi Ht. apply twist_mid; [lia|lia|done|eapply mid_get; [done|lia|]..].
    - destruct (Z.ltb_spec (i + 1) i); lia.
    - destruct (Z.ltb_spec (i + MM p) i); lia. }
  step_bind.
  destruct (for_up_inv (λ i m, mid b i m) (λ i m, twist p m i (i + 1) (i + (MM p - NN p)))
    (NN p - MM p) (NN p - 1) m1) as (m2 & -> & H2); [lia|done| |].
  { intros i t Hi Ht. apply twist_mid; [lia|lia|done|eapply mid_get; [done|lia|]..].
    - destruct (Z.ltb_spec (i + 1) i); lia.
    - destruct (Z.ltb_spec (i + (MM p - NN p)) i); lia. }
  step_bind.
  destruct (twist_mid b (NN p - 1) 0 (MM p - 1) m2) as (m3 & -> & L3 & H3); [lia|lia|done|..].
  - eapply mid_get; [done|lia|]. destruct (Z.ltb_spec 0 (NN p - 1)); lia.
  - eapply mid_get; [done|lia|]. destruct (Z.ltb_spec (MM p - 1) (NN p - 1)); lia.
  - exists m3. split; [done|]. split; [done|]. intros j Hj. rewrite H3 by done.
    destruct (Z.ltb_spec j (NN p - 1 + 1)), (Z.ltb_spec j 0); (done || lia).
Qed.

(** The generator is about to produce word [n] of the stream. *)
Definition synced (n : Z) (rand : MTRand) : Prop :=
  ∃ b, 0 <= b ∧ n = b + mti rand ∧ 0 <= mti rand <= NN p ∧ mid b 0 (mt rand).

Lemma genrand_correct n rand :
  synced n rand → ∃ rand', genrand p rand = Some (temper p (s n), rand') ∧ synced (n + 1) rand'.
Proof using Hp Hs.
  pose proof (ok_MM p Hp). intros (b & Hb & -> & Hi & Hm). unfold genrand. rewrite Z.geb_leb.
  destruct (Z.leb_spec (NN p) (mti rand)).
  - destruct (Z.eqb_spec (mti rand) (NN p + 1)); [lia|]. step_bind.
    destruct (refill_correct b (mt rand)) as (m & -> & Hm'); [done..|]. step_bind. cbn [mt mti].
    rewrite (mid_get _ _ _ _ (b + mti rand) Hm'); [|lia|cbn; lia]. step_bind.
    eexists; split; [done|]. exists (b + NN p). cbn. split_and!; [lia..|done].
  - step_bind. rewrite (mid_get _ _ _ _ (b + mti rand) Hm); [|lia|].
    + step_bind. eexists; split; [done|]. exists b. cbn. split_and!; [lia..|done].
    + destruct (Z.ltb_spec (mti rand) 0); lia.
Qed.

Lemma outputs_correct n : ∀ k rand, synced k rand →
  ∃ rand', outputs p n rand = Some ((λ i, temper p (s i)) <$> seqZ k (Z.of_nat n), rand').
Proof using Hp Hs.
  induction n as [|n IH]; intros k rand Hk; [by eexists|]. cbn [outputs].
  destruct (genrand_correct k rand Hk) as (r1 & -> & H1). step_bind.
  destruct (IH (k + 1) r1 H1) as (r2 & ->). step_bind. exists r2.
  rewrite (seqZ_cons k) by lia. replace (Z.pred (Z.of_nat (S n))) with (Z.of_nat n) by lia. done.
Qed.
End stream.
End correct.

(** ** The history as a stream *)

Section history.
Context (p : params) (Hp : params_ok p) (m : list Z) (Hm : alen m = NN p).

Lemma alen_history n : alen (history p n m) = NN p + Z.of_nat n.
Proof using Hm.
  induction n as [|n IH]; [cbn; lia|]. change (history p (S n) m) with (extend p (history p n m)).
  unfold extend. rewrite alen_app, IH. unfold alen. cbn. lia.
Qed.

Lemma history_stable k n i : (n <= k)%nat → 0 <= i < NN p + Z.of_nat n →
  aget (history p k m) i = aget (history p n m) i.
Proof using Hm.
  induction 1 as [|k Hle IH]; intros Hi; [done|].
  change (history p (S k) m) with (extend p (history p k m)). unfold extend. rewrite aget_app by lia.
  rewrite alen_history. destruct (decide (i < NN p + Z.of_nat k)); [by apply IH|lia].
Qed.

Definition stream (i : Z) : Z := default 0 (aget (history p (Z.to_nat i) m) i).

Lemma aget_history n i : 0 <= i < NN p + Z.of_nat n → aget (history p n m) i = Some (stream i).
Proof using Hm Hp.
  pose proof (ok_MM p Hp). intros Hi. unfold stream.
  destruct (proj2 (aget_is_Some (history p n m) i)) as [x Hx]; [rewrite alen_history; lia|].
  destruct (Nat.le_ge_cases n (Z.to_nat i)).
  - by rewrite (history_stable (Z.to_nat i) n), Hx.
  - rewrite <- (history_stable n (Z.to_nat i)) by lia. by rewrite Hx.
Qed.

Lemma stream_recurrence i : 0 <= i →
  stream (i + NN p) = next_word p (stream i) (stream (i + 1)) (stream (i + MM p)).
Proof using Hm Hp.
  pose proof (ok_MM p Hp). intros Hi.
  enough (aget (history p (S (Z.to_nat i)) m) (i + NN p) =
    Some (next_word p (stream i) (stream (i + 1)) (stream (i + MM p)))) as E.
  { rewrite aget_history in E by lia. by simplify_eq. }
  change (history p (S (Z.to_nat i)) m) with (extend p (history p (Z.to_nat i) m)). unfold extend.
  rewrite aget_app, alen_history by lia. destruct (decide _); [lia|].
  replace (NN p + Z.of_nat (Z.to_nat i) - NN p) with i by lia.
  rewrite !aget_history by lia. cbn [from_option id].
  by replace (i + NN p - (NN p + Z.of_nat (Z.to_nat i))) with 0 by lia.
Qed.

Lemma stream_words : words p m → ∀ i, 0 <= i → word p (stream i).
Proof using Hm Hp.
  pose proof (ok_MM p Hp). intros [_ Hw]. apply (Zlt_0_ind (λ i, word p (stream i))). intros i IH Hi.
  destruct (Z.lt_ge_cases i (NN p)).
  - apply (Hw i). pose proof (aget_history 0 i ltac:(lia)) as E. done.
  - replace i with (i - NN p + NN p) by lia. rewrite stream_recurrence by lia.
    apply word_next; [done|apply IH; lia..].
Qed.

Lemma stream_synced : synced p stream (NN p) {| mt := m; mti := NN p |}.
Proof using Hm Hp.
  pose proof (ok_MM p Hp). exists 0. cbn. split_and!; [lia..|]. split; [done|]. intros j Hj.
  destruct (Z.ltb_spec j 0); [lia|]. apply (aget_history 0). lia.
Qed.

Lemma reference_stream n : reference p n m = (λ i, temper p (stream i)) <$> seqZ (NN p) (Z.of_nat n).
Proof using Hm Hp.
  pose proof (ok_MM p Hp). unfold reference.
  change (λ i, temper p (stream i)) with (temper p ∘ stream). rewrite list_fmap_compose. f_equal.
  apply array_ext. intros i Hi. rewrite aget_drop by lia.
  destruct (Z.lt_ge_cases i (Z.of_nat n)).
  - rewrite aget_history by lia. symmetry. apply aget_Some. split; [done|].
    rewrite list_lookup_fmap, lookup_seqZ_lt by lia. cbn. do 2 f_equal. lia.
  - rewrite !(proj2 (aget_None _ _)); [done| |rewrite alen_history; lia].
    unfold alen. rewrite length_fmap, length_seqZ. lia.
Qed.

Lemma outputs_reference n :
  ∃ rand', outputs p n {| mt := m; mti := NN p |} = Some (reference p n m, rand').
Proof using Hm Hp.
  rewrite reference_stream. apply outputs_correct; [done|apply stream_recurrence|apply stream_synced].
Qed.

Lemma reference_words n : words p m → Forall (word p) (reference p n m).
Proof using Hm Hp.
  pose proof (ok_MM p Hp). intros Hw. rewrite reference_stream. apply Forall_fmap, Forall_forall.
  intros i Hi%elem_of_seqZ. cbn. apply word_temper; [done|]. apply stream_words; [done|lia].
Qed.
End history.

(** A seeded generator produces the reference sequence, for every seed and length. *)
Lemma seeded_reference p (Hp : params_ok p) rand seed n :
  alen (mt rand) = NN p →
  ∃ m rand', init p rand seed = Some {| mt := m; mti := NN p |} ∧
    aget m 0 = Some (wrap (W p) seed) ∧
    (∀ i x, 1 <= i < NN p → aget m (i - 1) = Some x → aget m i = Some (init_word p x i)) ∧
    outputs p n {| mt := m; mti := NN p |} = Some (reference p n m, rand') ∧
    Forall (word p) (reference p n m).
Proof.
  intros Hl. destruct (init_correct p Hp rand seed Hl) as (m & E & Hw & H0 & Hi).
  destruct (outputs_reference p Hp m (proj1 Hw) n) as (r & Eo).
  exists m, r. split_and!; [done..|]. apply reference_words; [done|apply Hw|done].
Qed.

(** C32: [init_genrand64] stays in its array for every seed, fills it by the published
    recursion, and the outputs of any number of calls of [genrand64_uint64] are the
    tempered words of the MT19937-64 recurrence: the in-place, three-segment block
    update computes exactly the linear recurrence, and every output is a 64-bit word. *)
Theorem genrand64_reference rand seed n :
  alen (mt rand) = 312 →
  ∃ m rand', init_genrand64 rand seed = Some {| mt := m; mti := 312 |} ∧
    aget m 0 = Some (u64 seed) ∧
    (∀ i x, 1 <= i < 312 → aget m (i - 1) = Some x → aget m i = Some (init_word mt64 x i)) ∧
    outputs mt64 n {| mt := m; mti := 312 |} = Some (reference mt64 n m, rand') ∧
    Forall (λ x, 0 <= x < 2 ^ 64) (reference mt64 n m).
Proof. apply (seeded_reference mt64 mt64_ok). Qed.

Definition zero_rand (p : params) : MTRand := {| mt := replicate (Z.to_nat (NN p)) 0; mti := NN p + 1 |}.

Lemma genrand64_reference_witness :
  ∃ m rand', init_genrand64 (zero_rand mt64) 1 = Some {| mt := m; mti := 312 |} ∧
    aget m 0 = Some (u64 1) ∧
    (∀ i x, 1 <= i < 312 → aget m (i - 1) = Some x → aget m i = Some (init_word mt64 x i)) ∧
    outputs mt64 3 {| mt := m; mti := 312 |} = Some (reference mt64 3 m, rand') ∧
    Forall (λ x, 0 <= x < 2 ^ 64) (reference mt64 3 m).
Proof. apply (genrand64_reference (zero_rand mt64) 1 3). reflexivity. Defined.

(** The same for the 32-bit generator, [init_genrand] and [genrand_uint32]. *)
Theorem genrand32_reference rand seed n :
  alen (mt rand) = 624 →
  ∃ m rand', init_genrand rand seed = Some {| mt := m; mti := 624 |} ∧
    aget m 0 = Some (u32 seed) ∧
    (∀ i x, 1 <= i < 624 → aget m (i - 1) = Some x → aget m i = Some (init_word mt32 x i)) ∧
    outputs mt32 n {| mt := m; mti := 624 |} = Some (reference mt32 n m, rand') ∧
    Forall (λ x, 0 <= x < 2 ^ 32) (reference mt32 n m).
Proof. apply (seeded_reference mt32 mt32_ok). Qed.

Lemma genrand32_reference_witness :
  ∃ m rand', init_genrand (zero_rand mt32) 5489 = Some {| mt := m; mti := 624 |} ∧
    aget m 0 = Some (u32 5489) ∧
    (∀ i x, 1 <= i < 624 → aget m (i - 1) = Some x → aget m i = Some (init_word mt32 x i)) ∧
    outputs mt32 3 {| mt := m; mti := 624 |} = Some (reference mt32 3 m, rand') ∧
    Forall (λ x, 0 <= x < 2 ^ 32) (reference mt32 3 m).
Proof. apply (genrand32_reference (zero_rand mt32) 5489 3). reflexivity. Defined.

(** A generator state the driver can be in: seeded or not. *)
Definition rand_ok (p : params) (r : MTRand) : Prop := words p (mt r) ∧ 0 <= mti r <= NN p + 1.

Lemma synced_words p (Hp : params_ok p) s n r : (∀ i, 0 <= i → word p (s i)) → synced p s n r → words p (mt r).
Proof.
  intros Hs (b & Hb & _ & _ & L & H). split; [done|]. intros i x Hx. pose proof (aget_lt _ _ _ Hx).
  rewrite H in Hx by lia. destruct (Z.ltb_spec i 0); [lia|]. simplify_eq. apply Hs. lia.
Qed.

Lemma genrand_ok p (Hp : params_ok p) r :
  rand_ok p r → ∃ x r', genrand p r = Some (x, r') ∧ word p x ∧ rand_ok p r'.
Proof.
  pose proof (ok_MM p Hp) as HMM. intros [Hw Hi].
  assert (∀ b, words p (mt b) → 0 <= mti b <= NN p →
    ∃ x r', genrand p b = Some (x, r') ∧ word p x ∧ rand_ok p r') as Hgen.
  { intros b Hb Hib. assert (synced p (stream p (mt b)) (mti b) b) as Hsync.
    { exists 0. split_and!; [lia..|]. split; [apply Hb|]. intros j Hj.
      destruct (Z.ltb_spec j 0); [lia|]. apply (aget_history p Hp _ (proj1 Hb) 0). lia. }
    destruct (genrand_correct p Hp (stream p (mt b)) (stream_recurrence p Hp _ (proj1 Hb)) (mti b) b Hsync)
      as (r' & E & Hr').
    exists (temper p (stream p (mt b) (mti b))), r'. split; [done|].
    split; [apply word_temper; [done|]; by apply (stream_words p Hp _ (proj1 Hb)); [|lia]|].
    split; [eapply synced_words; [done|by apply (stream_words p Hp _ (proj1 Hb))|done]|].
    destruct Hr' as (? & ? & ? & ? & ?). lia. }
  destruct (Z.eq_dec (mti r) (NN p + 1)) as [E|]; [|apply Hgen; [done|lia]].
  destruct (init_correct p Hp r (SEED p) (proj1 Hw)) as (m & Ei & Hm & _).
  destruct (Hgen {| mt := m; mti := NN p |} Hm) as (x & r' & Eg & H); [cbn; lia|].
  exists x, r'. split; [|done]. rewrite <- Eg. unfold genrand. rewrite E, Ei. cbn [mt mti].
  rewrite Z.eqb_refl, !Z.geb_leb. destruct (Z.leb_spec (NN p) (NN p + 1)), (Z.leb_spec (NN p) (NN p)); try lia.
  destruct (Z.eqb_spec (NN p) (NN p + 1)); [lia|]. done.
Qed.

(** ** Tempering loses nothing *)

Lemma word_testbit w x i : 0 <= x < 2 ^ w → w <= i → Z.testbit x i = false.
Proof.
  intros Hx Hi. destruct (Z.eq_dec x 0) as [->|]; [apply Z.bits_0|].
  apply Z.bits_above_log2; [lia|]. assert (Z.log2 x < w) by (apply Z.log2_lt_pow2; lia). lia.
Qed.

Lemma xorb_cancel a b c d : xorb a c = xorb b d → c = d → a = b.
Proof. destruct a, b, c, d; done. Qed.

(** Bits are determined from the top down ... *)
Lemma xor_shiftr_inj w s m x y :
  0 < s → 0 <= x < 2 ^ w → 0 <= y < 2 ^ w →
  Z.lxor x (Z.land (Z.shiftr x s) m) = Z.lxor y (Z.land (Z.shiftr y s) m) → x = y.
Proof.
  intros Hs Hx Hy E.
  assert (∀ n i, 0 <= i → w - i <= Z.of_nat n → Z.testbit x i = Z.testbit y i) as H.
  { induction n as [|n IH]; intros i Hi Hn; [by rewrite !(word_testbit w) by (done || lia)|].
    apply (f_equal (λ z, Z.testbit z i)) in E. rewrite !Z.lxor_spec, !Z.land_spec, !Z.shiftr_spec in E by lia.
    eapply xorb_cancel; [exact E|]. by rewrite IH by lia. }
  apply Z.bits_inj'. intros i Hi. apply (H (Z.to_nat (w - i))); lia.
Qed.

(** ... or from the bottom up. *)
Lemma xor_shiftl_inj w s m x y :
  0 < s → 0 <= w → 0 <= x < 2 ^ w → 0 <= y < 2 ^ w →
  Z.lxor x (Z.land (wrap w (Z.shiftl x s)) m) = Z.lxor y (Z.land (wrap w (Z.shiftl y s)) m) → x = y.
Proof.
  intros Hs Hw Hx Hy E. apply Z.bits_inj'. apply Zlt_0_ind. intros i IH Hi.
  apply (f_equal (λ z, Z.testbit z i)) in E. rewrite !Z.lxor_spec, !Z.land_spec in E.
  eapply xorb_cancel; [exact E|]. f_equal. unfold wrap. destruct (Z.lt_ge_cases i w).
  - rewrite !Z.mod_pow2_bits_low, !Z.shiftl_spec by lia. destruct (Z.lt_ge_cases (i - s) 0).
    + by rewrite !Z.testbit_neg_r.
    + apply IH. lia.
  - by rewrite !Z.mod_pow2_bits_high by lia.
Qed.

Lemma temper_inj p (Hp : params_ok p) x y : word p x → word p y → temper p x = temper p y → x = y.
Proof.
  intros Hx Hy. pose proof Hp as [HW _ _ _ _ H1 H2 H3 H4 _]. unfold temper. cbv zeta.
  set (f1 := λ x, Z.lxor x (Z.land (Z.shiftr x (T1 p)) (D1 p))).
  set (f2 := λ x, Z.lxor x (Z.land (wrap (W p) (Z.shiftl x (T2 p))) (B2 p))).
  set (f3 := λ x, Z.lxor x (Z.land (wrap (W p) (Z.shiftl x (T3 p))) (C3 p))).
  assert (∀ x, word p x → word p (f1 x)) as W1.
  { intros z Hz. by apply word_lxor, word_land, word_shiftr; [..|lia|]. }
  assert (∀ x, word p x → word p (f2 x)) as W2.
  { intros z Hz. by apply word_lxor, word_land, word_wrap. }
  assert (∀ x, word p x → word p (f3 x)) as W3.
  { intros z Hz. by apply word_lxor, word_land, word_wrap. }
  change (Z.lxor (f3 (f2 (f1 x))) (Z.shiftr (f3 (f2 (f1 x))) (T4 p)) =
          Z.lxor (f3 (f2 (f1 y))) (Z.shiftr (f3 (f2 (f1 y))) (T4 p)) → x = y).
  rewrite <- (Z.land_m1_r (Z.shiftr (f3 (f2 (f1 x))) _)), <- (Z.land_m1_r (Z.shiftr (f3 (f2 (f1 y))) _)).
  intros E. apply (xor_shiftr_inj (W p)) in E; [|lia|by apply W3, W2, W1..].
  apply (xor_shiftl_inj (W p)) in E; [|lia|lia|by apply W2, W1..].
  apply (xor_shiftl_inj (W p)) in E; [|lia|lia|by apply W1..].
  by apply (xor_shiftr_inj (W p)) in E.
Qed.

(** The generator is total: from any state, seeded or not ([mti = NN + 1]), a call
    stays in its array and returns a 64-bit word in a state of the same kind; and
    tempering is injective, so distinct state words give distinct outputs. *)
Theorem genrand64_total r :
  rand_ok mt64 r →
  (∃ x r', genrand64_uint64 r = Some (x, r') ∧ 0 <= x < 2 ^ 64 ∧ rand_ok mt64 r') ∧
  ∀ a b, 0 <= a < 2 ^ 64 → 0 <= b < 2 ^ 64 → temper mt64 a = temper mt64 b → a = b.
Proof. intros Hr. split; [exact (genrand_ok mt64 mt64_ok r Hr)|exact (temper_inj mt64 mt64_ok)]. Qed.

Lemma zero_rand_ok p (Hp : params_ok p) : rand_ok p (zero_rand p).
Proof.
  pose proof (ok_MM p Hp). split; [|cbn; lia]. split; [cbn; arr_lia|]. intros i x [_ Hx]%aget_Some.
  apply lookup_replicate in Hx as [-> _]. split; [lia|]. apply Z.pow_pos_nonneg; [lia|]. destruct Hp. lia.
Qed.

Lemma genrand64_total_witness :
  (∃ x r', genrand64_uint64 (zero_rand mt64) = Some (x, r') ∧ 0 <= x < 2 ^ 64 ∧ rand_ok mt64 r') ∧
  ∀ a b, 0 <= a < 2 ^ 64 → 0 <= b < 2 ^ 64 → temper mt64 a = temper mt64 b → a = b.
Proof. apply (genrand64_total (zero_rand mt64)), zero_rand_ok, mt64_ok. Defined.

(** The published first output for seed 5489. *)
Example genrand64_first :
  (r ← init_genrand64 (zero_rand mt64) 5489; '(x, _) ← genrand64_uint64 r; Some x)
  = Some 14514284786278117030.
Proof. vm_compute. reflexivity. Qed.
