(* ===== verification/Config.v ===== *)
(** Build-time configuration of the resilience manager ([infiniswap.h]): the
    replication setup that is compiled and the erasure-coding setup that the header
    keeps in a comment, as values of one record.  Every other component is
    parametric in it. *)

From S2P Require Import Prelude.

(** A dot product kernel: [(len, k, tables, sources, destinations)]. *)
Definition kernel : Type := Z → Z → list byte → list (list byte) → list (list byte) → option (list (list byte)).

(** What the erasure-coding build adds ([is_main.c]): the SIMD kernels it is linked with,
    and the globals [encode_tbls], [decode_tbls] (NULL or a table) and [decode_index].  No
    code that is compiled assigns them. *)
Record ec_env : Type := {
  dot_prod1 : kernel; dot_prod2 : kernel; dot_prod3 : kernel; dot_prod4 : kernel;
  encode_tbls : option (list byte);
  decode_tbls : option (list byte);
  decode_index : list Z
}.

(** [#ifdef REP] or [#ifdef EC]. *)
Inductive build_mode : Type := REP | EC (e : ec_env).

Record config : Type := {
  build : build_mode;
  NDATAS : Z;      (* number of splits *)
  NDISKS : Z;      (* splits plus redundancy *)
  DATASIZE_G : Z;  (* size of the block device in GB *)
  SLAB_SHIFT : Z;
  SLAB_MASK : Z
}.

Definition ONE_GB_SHIFT : Z := 30.
Definition ONE_GB_MASK : Z := 0x3fffffff.
Definition ONE_GB : Z := 1073741824.

(** [#define REP]. *)
Definition rep : config :=
  {| build := REP; NDATAS := 1; NDISKS := 1 + 2; DATASIZE_G := 1; SLAB_SHIFT := ONE_GB_SHIFT; SLAB_MASK := ONE_GB_MASK |}.
(** [#define EC]. *)
Definition ec (e : ec_env) : config :=
  {| build := EC e; NDATAS := 4; NDISKS := 4 + 2; DATASIZE_G := 4; SLAB_SHIFT := 32; SLAB_MASK := 0xffffffff |}.

(** [((DATASIZE_G/NDATAS)*NDISKS)]: slabs of the session. *)
Definition DISKSIZE_G (cfg : config) : Z := (DATASIZE_G cfg / NDATAS cfg) * NDISKS cfg.

Definition SUPPORTED_DISKS : Z := 256.
Definition IS_SECT_SIZE : Z := 512.
Definition IS_SECT_SHIFT : Z := 9.
Definition IS_QUEUE_DEPTH : Z := 256.
Definition QUEUE_NUM_MASK : Z := 0x001f.
Definition MAX_MR_SIZE_GB : Z := 32.
Definition IS_PAGE_SIZE : Z := 4096.
(** [#define SERVER_SELECT_NUM NDISKS+1]. *)
Definition SERVER_SELECT_NUM (cfg : config) : Z := NDISKS cfg + 1.

Definition EINVAL : Z := 22.
Definition ENOMEM : Z := 12.
Definition EEXIST : Z := 17.
Definition ENOTTY : Z := 25.
Definition EIO : Z := 5.

(** What the other components need of a configuration. *)
Record config_ok (cfg : config) : Prop := {
  cfg_NDATAS : 0 < NDATAS cfg < NDISKS cfg;
  cfg_small : NDISKS cfg <= 256;
  cfg_size : 0 < DATASIZE_G cfg < 2 ^ 30;
  cfg_divides : DATASIZE_G cfg = NDATAS cfg * (DATASIZE_G cfg / NDATAS cfg);
  cfg_shift : 0 <= SLAB_SHIFT cfg;
  cfg_mask : SLAB_MASK cfg = Z.ones (SLAB_SHIFT cfg);
  cfg_slab : 2 ^ SLAB_SHIFT cfg = NDATAS cfg * ONE_GB;
  cfg_pages : (NDATAS cfg | IS_PAGE_SIZE)
}.

Lemma rep_ok : config_ok rep.
Proof. split; cbn; try (done || lia). by apply Z.divide_1_l. Qed.
Lemma ec_ok e : config_ok (ec e).
Proof. split; cbn; try (done || lia). by exists 1024. Qed.
