(* ===== verification/Fault.v ===== *)
(** Fault injection ([is_fault.c]): per-disk counters of remaining accesses, reloaded
    from the 64-bit Mersenne Twister when a fault is injected. *)

From S2P Require Import Prelude MT Config.

(** [struct IS_fault_injection_disk]. *)
Record fault_disk : Type := {
  access_count : Z;                    (* unsigned long long *)
  access_count_before_next_fault : Z;  (* long long *)
  fault_count : Z;                     (* unsigned long long *)
  seed : MTRand
}.

(** [struct IS_fault_injection]. *)
Record fault_injection : Type := {
  inject_fault : Z;            (* unsigned int *)
  fault_rate : Z;              (* unsigned long long *)
  disk_fault : list fault_disk
}.

(** Unsigned remainder; by zero is undefined. *)
Definition u64_mod (a b : Z) : option Z := if b =? 0 then None else Some (a mod b).

(** Signed 64-bit arithmetic; overflow is undefined. *)
Definition s64 (z : Z) : option Z := if (- 2 ^ 63 <=? z) && (z <? 2 ^ 63) then Some z else None.

Section fault.
Context (cfg : config).

Definition update_disk (fi : fault_injection) (d : Z) (x : fault_disk) : option fault_injection :=
  l ← aset (disk_fault fi) d x;
  Some {| inject_fault := inject_fault fi; fault_rate := fault_rate fi; disk_fault := l |}.

Definition init_uniform_distr (fi : fault_injection) (rate : Z) : option fault_injection :=
  for_up 0 (NDISKS cfg) (λ i fi,
    d ← aget (disk_fault fi) i;
    s ← init_genrand64 (seed d) 1;
    '(x, s) ← genrand64_uint64 s;
    r ← u64_mod x (u64 (2 * rate));
    update_disk fi i {| access_count := 0; access_count_before_next_fault := i64 r;
                        fault_count := fault_count d; seed := s |})
  {| inject_fault := inject_fault fi; fault_rate := rate; disk_fault := disk_fault fi |}.

Definition IS_fault_injection_init (fi : fault_injection) : option fault_injection :=
  init_uniform_distr
    {| inject_fault := 0; fault_rate := fault_rate fi; disk_fault := disk_fault fi |} 1000000000.

Definition IS_fault_injection_enable (fi : fault_injection) : Z := inject_fault fi.

Definition IS_fault_injection_set_enable (fi : fault_injection) (enable : Z) : fault_injection :=
  {| inject_fault := enable; fault_rate := fault_rate fi; disk_fault := disk_fault fi |}.

Definition IS_fault_injection_fault_count (fi : fault_injection) : option Z :=
  for_up 0 (NDISKS cfg) (λ i count,
    d ← aget (disk_fault fi) i; Some (u64 (count + fault_count d))) 0.

(** [sscanf(distr, "%llu", &fault_rate)] is the kernel's; [None] is no conversion,
    which leaves the local variable uninitialised. *)
Definition IS_fault_injection_set_distr (sscanf_llu : string → option Z) (fi : fault_injection)
    (distr : string) : option fault_injection :=
  rate ← sscanf_llu distr; init_uniform_distr fi rate.

(** [snprintf(distr, PAGE_SIZE, "%d\n", fault_rate)]: the conversion reads an [int]. *)
Definition IS_fault_injection_distr (snprintf_d : Z → string) (fi : fault_injection) : string :=
  snprintf_d (i32 (fault_rate fi)).

Definition IS_fault_injection_access (fi : fault_injection) (disk : Z) : option fault_injection :=
  d ← aget (disk_fault fi) disk;
  c ← s64 (access_count_before_next_fault d - 1);
  update_disk fi disk {| access_count := u64 (access_count d + 1); access_count_before_next_fault := c;
                         fault_count := fault_count d; seed := seed d |}.

Definition IS_fault_injection_inject_fault (fi : fault_injection) (disk : Z) : option (Z * fault_injection) :=
  if negb (inject_fault fi =? 1) then Some (0, fi)
  else
    d ← aget (disk_fault fi) disk;
    if access_count_before_next_fault d <=? 0 then
      '(x, s) ← genrand64_uint64 (seed d);
      r ← u64_mod x (u64 (2 * fault_rate fi));
      fi ← update_disk fi disk
        {| access_count := access_count d; access_count_before_next_fault := i64 (u64 (1 + r));
           fault_count := u64 (fault_count d + 1); seed := s |};
      Some (1, fi)
    else Some (0, fi).

(** * Invariant *)

Record disk_ok (d : fault_disk) : Prop := {
  d_access : 0 <= access_count d < 2 ^ 64;
  d_before : - 2 ^ 63 <= access_count_before_next_fault d < 2 ^ 63;
  d_faults : 0 <= fault_count d < 2 ^ 64;
  d_seed : rand_ok mt64 (seed d)
}.

(** Rates for which [2*fault_rate] does not wrap and a counter fits. *)
Definition rate_ok (rate : Z) : Prop := 0 < rate < 2 ^ 62.

Record fault_ok (fi : fault_injection) : Prop := {
  f_disks : alen (disk_fault fi) = NDISKS cfg;
  f_rate : rate_ok (fault_rate fi);
  f_disk : ∀ i d, aget (disk_fault fi) i = Some d → disk_ok d
}.

(** * Properties *)

Lemma s64_Some z : - 2 ^ 63 <= z < 2 ^ 63 → s64 z = Some z.
Proof.
  intros H. unfold s64. destruct (Z.leb_spec (- 2 ^ 63) z), (Z.ltb_spec z (2 ^ 63)); (done || lia).
Qed.

Lemma u64_double rate : rate_ok rate → u64 (2 * rate) = 2 * rate.
Proof. intros H. unfold rate_ok in H. apply wrap_small. lia. Qed.

Lemma update_disk_Some fi d x :
  0 <= d < alen (disk_fault fi) →
  update_disk fi d x = Some {| inject_fault := inject_fault fi; fault_rate := fault_rate fi;
                               disk_fault := <[Z.to_nat d := x]> (disk_fault fi) |}.
Proof. intros H. unfold update_disk. by rewrite aset_Some. Qed.

(** Updating one disk keeps the invariant and reads back. *)
Lemma update_disk_ok fi d x fi' :
  fault_ok fi → disk_ok x → update_disk fi d x = Some fi' →
  fault_ok fi' ∧ inject_fault fi' = inject_fault fi ∧ fault_rate fi' = fault_rate fi ∧
  aget (disk_fault fi') d = Some x ∧ ∀ j, j ≠ d → aget (disk_fault fi') j = aget (disk_fault fi) j.
Proof.
  intros [HL HR HD] Hx E. unfold update_disk in E. bind_inv E. simplify_eq. cbn. split_and!.
  - split; cbn; [by rewrite (aset_length _ _ _ _ E0)|done|]. intros i y Hy.
    rewrite (aget_aset _ _ _ _ _ E0) in Hy. case_decide; [by simplify_eq|by eapply HD].
  - done.
  - done.
  - by eapply aget_aset_eq.
  - intros j Hj. by eapply aget_aset_ne.
Qed.

(** Reloading a counter: the generator is total and the remainder in range. *)
Lemma reload_correct s rate :
  rand_ok mt64 s → rate_ok rate →
  ∃ x s' r, genrand64_uint64 s = Some (x, s') ∧ u64_mod x (u64 (2 * rate)) = Some r ∧
    0 <= r < 2 * rate ∧ rand_ok mt64 s'.
Proof.
  intros Hs Hr. destruct (genrand_ok mt64 mt64_ok s Hs) as (x & s' & E & Hx & Hs').
  exists x, s', (x mod (2 * rate)). split; [done|]. rewrite u64_double by done. unfold u64_mod.
  unfold rate_ok in Hr. destruct (Z.eqb_spec (2 * rate) 0); [lia|].
  split; [done|]. split; [apply Z.mod_pos_bound; lia|done].
Qed.

(** The state of a zeroed structure, before initialisation. *)
Definition seedable (fi : fault_injection) : Prop :=
  alen (disk_fault fi) = NDISKS cfg ∧
  ∀ i d, aget (disk_fault fi) i = Some d → alen (mt (seed d)) = 312 ∧ 0 <= fault_count d < 2 ^ 64.

Definition fresh_disk (rate : Z) (old new : fault_disk) : Prop :=
  disk_ok new ∧ access_count new = 0 ∧ 0 <= access_count_before_next_fault new < 2 * rate ∧
  fault_count new = fault_count old.

Lemma init_uniform_distr_correct fi rate :
  0 <= NDISKS cfg → seedable fi → rate_ok rate →
  ∃ fi', init_uniform_distr fi rate = Some fi' ∧ fault_ok fi' ∧
    inject_fault fi' = inject_fault fi ∧ fault_rate fi' = rate ∧
    ∀ i d, aget (disk_fault fi) i = Some d → ∃ d', aget (disk_fault fi') i = Some d' ∧ fresh_disk rate d d'.
Proof.
  intros Hn [HL HS] Hr. unfold init_uniform_distr.
  destruct (for_up_inv (λ j f, alen (disk_fault f) = NDISKS cfg ∧ inject_fault f = inject_fault fi ∧
      fault_rate f = rate ∧ ∀ i d, aget (disk_fault fi) i = Some d → ∃ d', aget (disk_fault f) i = Some d' ∧
        if decide (i < j) then fresh_disk rate d d' else d' = d)
    (λ i fi, d ← aget (disk_fault fi) i;
      s ← init_genrand64 (seed d) 1;
      '(x, s) ← genrand64_uint64 s;
      r ← u64_mod x (u64 (2 * rate));
      update_disk fi i {| access_count := 0; access_count_before_next_fault := i64 r;
                          fault_count := fault_count d; seed := s |}) 0 (NDISKS cfg)
    {| inject_fault := inject_fault fi; fault_rate := rate; disk_fault := disk_fault fi |})
    as (f & -> & Lf & If & Rf & Hf); [done| | |].
  - split_and!; [done..|]. intros i d Hd. exists d. split; [done|]. apply aget_lt in Hd.
    destruct (decide (i < 0)); [lia|done].
  - intros j f Hj (Lf & If & Rf & Hf). destruct (proj2 (aget_is_Some (disk_fault fi) j)) as [d Hd]; [lia|].
    destruct (Hf j d Hd) as (d' & Ed & E). destruct (decide (j < j)); [lia|]. subst d'. rewrite Ed. step_bind.
    destruct (HS j d Hd) as [Ls Hc].
    destruct (init_correct mt64 mt64_ok (seed d) 1 Ls) as (m & Ei & Hw & _). unfold init_genrand64. rewrite Ei. step_bind.
    destruct (reload_correct {| mt := m; mti := NN mt64 |} rate) as (x & s' & r & Eg & Er & Hrr & Hs'); [|done|].
    { split; [done|]. cbn. lia. }
    rewrite Eg. step_bind. rewrite Er. step_bind. rewrite update_disk_Some by lia.
    eexists; split; [done|]. cbn. pose proof (aset_Some (disk_fault f) j
      {| access_count := 0; access_count_before_next_fault := i64 r; fault_count := fault_count d; seed := s' |}
      ltac:(lia)) as Ea. split_and!; [by rewrite (aset_length _ _ _ _ Ea)|done..|].
    intros i e He. rewrite (aget_aset _ _ _ _ _ Ea). case_decide as Hij.
    + subst i. simplify_eq. eexists; split; [done|]. destruct (decide (j < j + 1)); [|lia].
      unfold rate_ok in Hr. rewrite i64_small by lia. split_and!; cbn; try lia. split; cbn; (done || lia).
    + destruct (Hf i e He) as (e' & ? & ?). exists e'. split; [done|].
      destruct (decide (i < j)), (decide (i < j + 1)); (done || lia).
  - exists f. split; [done|].
    assert (∀ i d, aget (disk_fault fi) i = Some d → ∃ d', aget (disk_fault f) i = Some d' ∧ fresh_disk rate d d') as Hall.
    { intros i d Hd. destruct (Hf i d Hd) as (d' & ? & H). exists d'. split; [done|].
      apply aget_lt in Hd. destruct (decide (i < NDISKS cfg)); [done|lia]. }
    split_and!; [|done..]. split; [done|by rewrite Rf|]. intros i d Hd.
    destruct (proj2 (aget_is_Some (disk_fault fi) i)) as [d0 H0]; [apply aget_lt in Hd; lia|].
    destruct (Hall i d0 H0) as (d' & E & Hd'). assert (d' = d) as -> by congruence. apply Hd'.
Qed.

(** One access: both counters move by one. *)
Lemma access_step fi disk d :
  fault_ok fi → aget (disk_fault fi) disk = Some d → - 2 ^ 63 < access_count_before_next_fault d →
  ∃ fi' d', IS_fault_injection_access fi disk = Some fi' ∧ fault_ok fi' ∧
    inject_fault fi' = inject_fault fi ∧ aget (disk_fault fi') disk = Some d' ∧
    access_count d' = u64 (access_count d + 1) ∧
    access_count_before_next_fault d' = access_count_before_next_fault d - 1 ∧
    fault_count d' = fault_count d.
Proof.
  intros Hfi Hd Hmin. unfold IS_fault_injection_access. rewrite Hd. step_bind.
  pose proof (f_disk _ Hfi _ _ Hd) as [HA HB HF HS]. rewrite s64_Some by lia. step_bind.
  pose proof (aget_lt _ _ _ Hd) as Hlt. set (x := {| access_count := _ |}).
  pose proof (update_disk_Some fi disk x Hlt) as E. rewrite E.
  assert (disk_ok x) as Hx by (split; cbn; [apply u64_range|lia|done|done]).
  destruct (update_disk_ok _ disk x _ Hfi Hx E) as (Hok & HI & _ & Hg & _).
  eexists _, x. split_and!; done.
Qed.

(** The counter alone decides whether a fault is injected. *)
Lemma inject_step fi disk d :
  fault_ok fi → aget (disk_fault fi) disk = Some d →
  IS_fault_injection_inject_fault fi disk = Some (0, fi) ∧
    ¬ (inject_fault fi = 1 ∧ access_count_before_next_fault d <= 0) ∨
  (inject_fault fi = 1 ∧ access_count_before_next_fault d <= 0) ∧
  ∃ fi' d', IS_fault_injection_inject_fault fi disk = Some (1, fi') ∧ fault_ok fi' ∧
    inject_fault fi' = 1 ∧ aget (disk_fault fi') disk = Some d' ∧
    1 <= access_count_before_next_fault d' <= 2 * fault_rate fi ∧
    fault_count d' = u64 (fault_count d + 1) ∧ access_count d' = access_count d ∧
    ∀ j, j ≠ disk → aget (disk_fault fi') j = aget (disk_fault fi) j.
Proof.
  intros Hfi Hd. unfold IS_fault_injection_inject_fault.
  destruct (Z.eqb_spec (inject_fault fi) 1) as [H1|]; cbn [negb]; [|left; split; [done|tauto]].
  rewrite Hd. step_bind. destruct (Z.leb_spec (access_count_before_next_fault d) 0) as [H0|];
    [right; split; [done|]|left; split; [done|lia]].
  pose proof (f_disk _ Hfi _ _ Hd) as [HA HB HF HS]. pose proof (f_rate _ Hfi) as Hr.
  destruct (reload_correct (seed d) (fault_rate fi) HS Hr) as (x & s' & r & -> & Em & Hrr & Hs').
  step_bind. rewrite Em. step_bind. unfold rate_ok in Hr.
  assert (i64 (u64 (1 + r)) = 1 + r) as ER by (unfold u64; rewrite wrap_small, i64_small; lia).
  set (y := {| access_count := _ |}).
  pose proof (update_disk_Some fi disk y (aget_lt _ _ _ Hd)) as E. rewrite E. step_bind.
  assert (disk_ok y) as Hy.
  { split; cbn [y access_count access_count_before_next_fault fault_count seed];
      [done|rewrite ER; lia|apply u64_range|done]. }
  destruct (update_disk_ok _ disk y _ Hfi Hy E) as (Hok & HI & _ & Hg & Ho).
  eexists _, y. split; [done|]. split; [done|]. split; [by rewrite HI|]. split; [done|].
  cbn [y access_count access_count_before_next_fault fault_count]. rewrite ER. split_and!; (done || lia).
Qed.

(** Initialisation of a zeroed structure succeeds, leaves injection off, and gives
    every disk a reproducible counter in [0, 2 * 10^9); a later [set_distr] with a
    rate below 2^62 does the same for its rate, keeping the fault counts. *)
Theorem fault_init_correct fi sscanf_llu distr rate :
  0 <= NDISKS cfg → seedable fi → sscanf_llu distr = Some rate → rate_ok rate →
  (∃ fi', IS_fault_injection_init fi = Some fi' ∧ fault_ok fi' ∧
    IS_fault_injection_enable fi' = 0 ∧ fault_rate fi' = 1000000000 ∧
    ∀ i d, aget (disk_fault fi) i = Some d → ∃ d', aget (disk_fault fi') i = Some d' ∧ fresh_disk 1000000000 d d') ∧
  ∃ fi', IS_fault_injection_set_distr sscanf_llu fi distr = Some fi' ∧ fault_ok fi' ∧
    IS_fault_injection_enable fi' = IS_fault_injection_enable fi ∧ fault_rate fi' = rate ∧
    ∀ i d, aget (disk_fault fi) i = Some d → ∃ d', aget (disk_fault fi') i = Some d' ∧ fresh_disk rate d d'.
Proof.
  intros Hn Hs Hd Hr. split.
  - apply (init_uniform_distr_correct {| inject_fault := 0; fault_rate := fault_rate fi;
      disk_fault := disk_fault fi |}); [done|exact Hs|unfold rate_ok; lia].
  - unfold IS_fault_injection_set_distr. rewrite Hd. step_bind. by apply init_uniform_distr_correct.
Qed.

(** C33: a fault is injected exactly when injection is enabled and the disk's counter
    has run out; the counter is then reloaded in [1, 2 * fault_rate] and only that
    disk changes; otherwise nothing changes at all. *)
Theorem inject_fault_correct fi disk d :
  fault_ok fi → aget (disk_fault fi) disk = Some d →
  ∃ r fi', IS_fault_injection_inject_fault fi disk = Some (r, fi') ∧ fault_ok fi' ∧
    (r = 0 ∨ r = 1) ∧ (r = 1 ↔ inject_fault fi = 1 ∧ access_count_before_next_fault d <= 0) ∧
    (r = 0 → fi' = fi) ∧
    (r = 1 → (∀ j, j ≠ disk → aget (disk_fault fi') j = aget (disk_fault fi) j) ∧
      ∃ d', aget (disk_fault fi') disk = Some d' ∧
        1 <= access_count_before_next_fault d' <= 2 * fault_rate fi ∧
        fault_count d' = u64 (fault_count d + 1) ∧ access_count d' = access_count d).
Proof.
  intros Hfi Hd.
  destruct (inject_step fi disk d Hfi Hd) as [[E Hn]|[Hy (fi' & d' & E & Hok & _ & Hg & Hc & Hf & Ha & Ho)]].
  - exists 0, fi. split_and!; [done|done|by left| |done|done]. split; [done|tauto].
  - exists 1, fi'. split_and!; [done|done|by right|done|done|]. intros _. split; [done|].
    exists d'. split_and!; (done || lia).
Qed.

(** ** Spacing of faults *)

(** What the read path does to a disk: ask for a fault, count an access. *)
Inductive op : Type := Access | Inject.

Fixpoint run (ops : list op) (disk : Z) (fi : fault_injection) : option (list Z * fault_injection) :=
  match ops with
  | [] => Some ([], fi)
  | Access :: ops' => fi ← IS_fault_injection_access fi disk; run ops' disk fi
  | Inject :: ops' =>
      '(r, fi) ← IS_fault_injection_inject_fault fi disk;
      '(rs, fi) ← run ops' disk fi; Some (r :: rs, fi)
  end.

Fixpoint accesses (ops : list op) : Z :=
  match ops with [] => 0 | Access :: ops' => 1 + accesses ops' | Inject :: ops' => accesses ops' end.

Lemma accesses_nonneg ops : 0 <= accesses ops.
Proof. induction ops as [|[] ops IH]; cbn; lia. Qed.

(** Faults are spaced by the counter: while fewer accesses than the counter have
    happened, no interleaving of accesses and injection requests injects a fault, the
    counter measures the distance that is left, and the fault count stands still; with
    injection on, the first request after the counter's last access injects one. *)
Theorem fault_spacing fi disk d ops :
  fault_ok fi → aget (disk_fault fi) disk = Some d → inject_fault fi = 1 →
  0 < access_count_before_next_fault d → accesses ops < access_count_before_next_fault d →
  ∃ rs fi' d', run ops disk fi = Some (rs, fi') ∧ Forall (λ r, r = 0) rs ∧
    fault_ok fi' ∧ aget (disk_fault fi') disk = Some d' ∧ fault_count d' = fault_count d ∧
    access_count_before_next_fault d' = access_count_before_next_fault d - accesses ops ∧
    (accesses ops + 1 = access_count_before_next_fault d →
      ∃ fi'', run (ops ++ [Access; Inject]) disk fi = Some (rs ++ [1], fi'')).
Proof.
  revert fi d. induction ops as [|[] ops IH]; intros fi d Hfi Hd Hin Hpos Hlt; cbn [accesses app run] in *.
  - exists [], fi, d. split_and!; [done|constructor|done|done|done|lia|]. intros Hone.
    destruct (access_step fi disk d Hfi Hd) as (f1 & d1 & -> & H1 & I1 & G1 & _ & C1 & _); [lia|]. step_bind.
    destruct (inject_step f1 disk d1 H1 G1) as [[_ Hn]|[_ (f2 & d2 & -> & _)]].
    { exfalso. apply Hn. split; [congruence|lia]. }
    step_bind. by exists f2.
  - pose proof (accesses_nonneg ops).
    destruct (access_step fi disk d Hfi Hd) as (f1 & d1 & -> & H1 & I1 & G1 & _ & C1 & F1); [lia|]. step_bind.
    destruct (IH f1 d1) as (rs & f2 & d2 & E & Hrs & H2 & G2 & F2 & C2 & Hnext); [done|done|congruence|lia|lia|].
    exists rs, f2, d2. split_and!; [done|done|done|done|congruence|lia|]. intros. apply Hnext. lia.
  - destruct (inject_step fi disk d Hfi Hd) as [[-> _]|[[_ Hn] _]]; [|lia]. step_bind.
    destruct (IH fi d) as (rs & f2 & d2 & E & Hrs & H2 & G2 & F2 & C2 & Hnext); [done..|]. rewrite E. step_bind.
    exists (0 :: rs), f2, d2. split_and!; [done|by constructor|done|done|done|done|].
    intros Hone. destruct (Hnext Hone) as (f3 & ->). step_bind. by exists f3.
Qed.

(** A rate of 0, which [set_distr] accepts, divides by zero as soon as the counters
    are computed; so does 2^63, whose double wraps to 0. *)
Theorem set_distr_zero_undefined fi sscanf_llu distr :
  0 < NDISKS cfg → sscanf_llu distr = Some 0 ∨ sscanf_llu distr = Some (2 ^ 63) →
  IS_fault_injection_set_distr sscanf_llu fi distr = None.
Proof.
  intros Hn Hd. assert (∃ rate, sscanf_llu distr = Some rate ∧ u64 (2 * rate) = 0) as (rate & E & H0).
  { destruct Hd as [E|E]; eexists; split; [done| |done|]; done. }
  unfold IS_fault_injection_set_distr. rewrite E. step_bind. unfold init_uniform_distr.
  rewrite for_up_step by done. cbn [disk_fault].
  destruct (aget (disk_fault fi) 0) as [d|]; [|done]. step_bind.
  destruct (init_genrand64 (seed d) 1) as [s|]; [|done]. step_bind.
  destruct (genrand64_uint64 s) as [[x s']|]; [|done]. step_bind.
  by rewrite H0.
Qed.
End fault.

(** * Instances *)

Definition zero_fault (cfg : config) : fault_injection := {|
  inject_fault := 0; fault_rate := 0;
  disk_fault := replicate (Z.to_nat (NDISKS cfg))
    {| access_count := 0; access_count_before_next_fault := 0; fault_count := 0; seed := zero_rand mt64 |} |}.

Definition ready_fault (counter : Z) : fault_injection := {|
  inject_fault := 1; fault_rate := 10;
  disk_fault := replicate 3
    {| access_count := 0; access_count_before_next_fault := counter; fault_count := 0; seed := zero_rand mt64 |} |}.

Lemma zero_fault_seedable : seedable rep (zero_fault rep).
Proof.
  split; [reflexivity|]. intros i d [_ Hd]%aget_Some. apply lookup_replicate in Hd as [-> _]. cbn. split; [reflexivity|lia].
Qed.

Lemma ready_fault_ok c : - 2 ^ 63 <= c < 2 ^ 63 → fault_ok rep (ready_fault c).
Proof.
  intros Hc. split; [done|split; cbn; lia|]. intros i d [_ Hd]%aget_Some.
  apply lookup_replicate in Hd as [-> _]. split; cbn; [lia|done|lia|]. apply zero_rand_ok, mt64_ok.
Qed.

(** A decimal reader for the witnesses. *)
Definition scan_100 (s : string) : option Z := if decide (s = "100"%string) then Some 100 else None.

Lemma fault_init_correct_witness :
  (∃ fi', IS_fault_injection_init rep (zero_fault rep) = Some fi' ∧ fault_ok rep fi' ∧
    IS_fault_injection_enable fi' = 0 ∧ fault_rate fi' = 1000000000 ∧
    ∀ i d, aget (disk_fault (zero_fault rep)) i = Some d →
      ∃ d', aget (disk_fault fi') i = Some d' ∧ fresh_disk 1000000000 d d') ∧
  ∃ fi', IS_fault_injection_set_distr rep scan_100 (zero_fault rep) "100" = Some fi' ∧ fault_ok rep fi' ∧
    IS_fault_injection_enable fi' = 0 ∧ fault_rate fi' = 100 ∧
    ∀ i d, aget (disk_fault (zero_fault rep)) i = Some d →
      ∃ d', aget (disk_fault fi') i = Some d' ∧ fresh_disk 100 d d'.
Proof.
  apply (fault_init_correct rep (zero_fault rep) scan_100 "100" 100);
    [cbn; lia|exact zero_fault_seedable|reflexivity|unfold rate_ok; lia].
Defined.

Definition ready_disk (counter : Z) : fault_disk :=
  {| access_count := 0; access_count_before_next_fault := counter; fault_count := 0; seed := zero_rand mt64 |}.

Lemma inject_fault_correct_witness :
  ∃ r fi', IS_fault_injection_inject_fault (ready_fault 0) 1 = Some (r, fi') ∧ fault_ok rep fi' ∧
    (r = 0 ∨ r = 1) ∧ (r = 1 ↔ inject_fault (ready_fault 0) = 1 ∧ 0 <= 0) ∧
    (r = 0 → fi' = ready_fault 0) ∧
    (r = 1 → (∀ j, j ≠ 1 → aget (disk_fault fi') j = aget (disk_fault (ready_fault 0)) j) ∧
      ∃ d', aget (disk_fault fi') 1 = Some d' ∧
        1 <= access_count_before_next_fault d' <= 2 * 10 ∧
        fault_count d' = u64 (0 + 1) ∧ access_count d' = 0).
Proof. apply (inject_fault_correct rep (ready_fault 0) 1 (ready_disk 0)); [apply ready_fault_ok; lia|reflexivity]. Defined.

Lemma fault_spacing_witness :
  ∃ rs fi' d', run [Access; Inject; Access] 0 (ready_fault 3) = Some (rs, fi') ∧ Forall (λ r, r = 0) rs ∧
    fault_ok rep fi' ∧ aget (disk_fault fi') 0 = Some d' ∧ fault_count d' = 0 ∧
    access_count_before_next_fault d' = 3 - 2 ∧
    (2 + 1 = 3 → ∃ fi'', run ([Access; Inject; Access] ++ [Access; Inject]) 0 (ready_fault 3) = Some (rs ++ [1], fi'')).
Proof.
  apply (fault_spacing rep (ready_fault 3) 0 (ready_disk 3) [Access; Inject; Access]);
    [apply ready_fault_ok; lia|reflexivity|reflexivity|cbn; lia|cbn; lia].
Defined.

Lemma set_distr_zero_undefined_witness :
  IS_fault_injection_set_distr rep (λ _, Some 0) (zero_fault rep) "0" = None.
Proof. apply set_distr_zero_undefined; [cbn; lia|by left]. Defined.
