(* ===== verification/State.v ===== *)
(** The state of the resilience manager ([infiniswap.h]): messages, slabs of a server
    connection ([kernel_cb]), RDMA contexts and their pools, sessions, block requests,
    and the world they live in, with the network's completions and what was posted. *)

From S2P Require Import Prelude Config MT Fault.

(** * Wire format *)

(** [ntohl] of the little-endian machines the driver runs on, byte by byte. *)
Definition ntohl (x : Z) : Z :=
  let x := u32 x in
  (x mod 256) * 2 ^ 24 + (x / 2 ^ 8 mod 256) * 2 ^ 16 + (x / 2 ^ 16 mod 256) * 2 ^ 8 + x / 2 ^ 24.

(** The [ntohll] macro. *)
Definition ntohll (x : Z) : Z :=
  Z.lor (u64 (Z.shiftl (ntohl (i32 (Z.shiftr (u64 (Z.shiftl x 32)) 32))) 32))
        (ntohl (i32 (Z.shiftr x 32))).
Definition htonll : Z → Z := ntohll.

Inductive msg_type : Set :=
| DONE | INFO | INFO_SINGLE | FREE_SIZE | EVICT | ACTIVITY | STOP | BIND | BIND_SINGLE | QUERY
| FAULT | FAULT_DONE | BAD_TYPE.

(** [struct IS_rdma_info]. *)
Record rdma_info : Type := {
  ri_buf : list Z;    (* uint64_t [MAX_MR_SIZE_GB] *)
  ri_rkey : list Z;   (* uint32_t [MAX_MR_SIZE_GB] *)
  ri_size_gb : Z;     (* int *)
  ri_type : msg_type
}.

(** * Servers *)

(** [enum test_state]; the code compares states, so they are numbered. *)
Inductive test_state : Set :=
| IDLE | CONNECT_REQUEST | ADDR_RESOLVED | ROUTE_RESOLVED | CONNECTED | FREE_MEM_RECV | AFTER_FREE_MEM
| RDMA_BUF_ADV | WAIT_OPS | RECV_STOP | RECV_EVICT | RECV_FAULT_DONE | RDMA_WRITE_RUNNING
| RDMA_READ_RUNNING | SEND_DONE | RDMA_DONE | RDMA_READ_ADV | RDMA_WRITE_ADV | CM_DISCONNECT | ERROR.

Definition test_state_num (s : test_state) : Z :=
  match s with
  | IDLE => 1 | CONNECT_REQUEST => 2 | ADDR_RESOLVED => 3 | ROUTE_RESOLVED => 4 | CONNECTED => 5
  | FREE_MEM_RECV => 6 | AFTER_FREE_MEM => 7 | RDMA_BUF_ADV => 8 | WAIT_OPS => 9 | RECV_STOP => 10
  | RECV_EVICT => 11 | RECV_FAULT_DONE => 12 | RDMA_WRITE_RUNNING => 13 | RDMA_READ_RUNNING => 14
  | SEND_DONE => 15 | RDMA_DONE => 16 | RDMA_READ_ADV => 17 | RDMA_WRITE_ADV => 18
  | CM_DISCONNECT => 19 | ERROR => 20
  end.

Inductive chunk_list_state : Set := C_IDLE | C_READY | C_EVICT | C_STOP.

(** [enum cb_state]. *)
Inductive cb_state : Set := CB_IDLE | CB_CONNECTED | CB_MAPPED | CB_EVICTING | CB_FAIL.
Definition cb_state_num (s : cb_state) : Z :=
  match s with CB_IDLE => 0 | CB_CONNECTED => 1 | CB_MAPPED => 2 | CB_EVICTING => 3 | CB_FAIL => 4 end.

#[export] Instance msg_type_eq_dec : EqDecision msg_type.
Proof. solve_decision. Defined.
#[export] Instance test_state_eq_dec : EqDecision test_state.
Proof. solve_decision. Defined.
#[export] Instance chunk_list_state_eq_dec : EqDecision chunk_list_state.
Proof. solve_decision. Defined.
#[export] Instance cb_state_eq_dec : EqDecision cb_state.
Proof. solve_decision. Defined.

(** [struct remote_chunk_g]. *)
Record remote_chunk_g : Type := { remote_rkey : Z; remote_addr : Z }.

Definition CHUNK_MAPPED : Z := 1.
Definition CHUNK_UNMAPPED : Z := 0.

(** [struct kernel_cb] with its [struct remote_chunk_g_list remote_chunk].  The
    kernel objects it points to (queue pair, memory regions, wait queues, the evict
    thread) are reduced to whether the thread was started. *)
Record kernel_cb : Type := {
  cb_index : Z;
  cb_st : test_state;
  recv_buf : rdma_info;
  send_buf : rdma_info;
  chunk_list : list remote_chunk_g;
  remote_mapped : list Z;
  chunk_size_g : Z;
  target_size_g : Z;
  shrink_size_g : Z;
  chunk_map : list Z;          (* cb chunk -> session chunk, -1 unmapped *)
  evict_chunk_map : list Z;    (* char *)
  c_state : chunk_list_state;
  evict_thread : bool
}.

#[export] Instance kernel_cb_settable : Settable kernel_cb := λ r,
  Build_kernel_cb (cb_index r) (cb_st r) (recv_buf r) (send_buf r) (chunk_list r) (remote_mapped r)
    (chunk_size_g r) (target_size_g r) (shrink_size_g r) (chunk_map r) (evict_chunk_map r) (c_state r)
    (evict_thread r).
(** The two arrays of a message. *)
Record info_ok (m : rdma_info) : Prop := {
  i_buf : alen (ri_buf m) = MAX_MR_SIZE_GB;
  i_rkey : alen (ri_rkey m) = MAX_MR_SIZE_GB
}.
#[export] Instance rdma_info_settable : Settable rdma_info := λ r,
  Build_rdma_info (ri_buf r) (ri_rkey r) (ri_size_gb r) (ri_type r).

(** * Contexts *)

Definition CTX_IDLE : Z := 0.
Definition CTX_R_IN_FLIGHT : Z := 1.
Definition CTX_W_IN_FLIGHT : Z := 2.
Definition NO_CB_MAPPED : Z := -1.

(** A context is addressed by its connection, its pool and its place in the pool. *)
Record ctx_ref : Type := { rf_conn : Z; rf_pool : Z; rf_ix : Z }.
#[export] Instance ctx_ref_eq_dec : EqDecision ctx_ref.
Proof. solve_decision. Defined.

Inductive opcode : Set := WR_RDMA_READ | WR_RDMA_WRITE | WR_SEND.

(** [rdma_sq_wr]. *)
Record send_wr : Type := { wr_length : Z; wr_rkey : Z; wr_remote_addr : Z; wr_opcode : opcode }.

(** [struct rdma_ctx]; requests and counters are references into the world. *)
Record rdma_ctx : Type := {
  ctx_req : option nat;
  in_flight : Z;
  chunk_index : Z;
  ctx_cb : option Z;
  ctx_offset : Z;
  ctx_len : Z;
  chunk_ptr : option remote_chunk_g;
  ctxs : list (option ctx_ref);
  ctx_idx : Z;
  ctx_cnt : option nat;
  fault : Z;
  rdma_buf : list byte;
  sq_wr : send_wr
}.

#[export] Instance rdma_ctx_settable : Settable rdma_ctx := λ r,
  Build_rdma_ctx (ctx_req r) (in_flight r) (chunk_index r) (ctx_cb r) (ctx_offset r) (ctx_len r)
    (chunk_ptr r) (ctxs r) (ctx_idx r) (ctx_cnt r) (fault r) (rdma_buf r) (sq_wr r).

(** [struct free_ctx_pool] and [struct ctx_pool_list]; before [IS_ctx_init] the pool of
    a server is a pair of null pointers. *)
Record free_ctx_pool : Type := { pool_len : Z; ctx_list : list Z; pool_head : Z; pool_tail : Z }.
Record ctx_pool_list : Type := { ctx_pool : list rdma_ctx; free_ctxs : free_ctx_pool }.

#[export] Instance free_ctx_pool_settable : Settable free_ctx_pool := λ r,
  Build_free_ctx_pool (pool_len r) (ctx_list r) (pool_head r) (pool_tail r).
#[export] Instance ctx_pool_list_settable : Settable ctx_pool_list := λ r,
  Build_ctx_pool_list (ctx_pool r) (free_ctxs r).

(** [struct IS_connection]: its pools, by server. *)
Definition connection : Type := list (option ctx_pool_list).

(** * Sessions *)

(** [struct IS_session]. *)
Record session : Type := {
  mapped_cb_num : Z;
  cb_list : list kernel_cb;
  cb_num : Z;
  cb_state_list : list cb_state;
  IS_conns : list connection;
  capacity : Z;
  capacity_g : Z;
  cb_index_map : list Z;         (* session chunk -> server, -1 unmapped *)
  chunk_map_cb_chunk : list Z;   (* session chunk -> chunk of that server *)
  unmapped_chunk_list : list Z;
  free_chunk_index : Z;
  IS_fault_injection : fault_injection
}.

#[export] Instance session_settable : Settable session := λ r,
  Build_session (mapped_cb_num r) (cb_list r) (cb_num r) (cb_state_list r) (IS_conns r) (capacity r)
    (capacity_g r) (cb_index_map r) (chunk_map_cb_chunk r) (unmapped_chunk_list r) (free_chunk_index r)
    (IS_fault_injection r).

(** * Requests *)

(** A [bio] is a list of page segments; [struct request] chains bios. *)
Record request : Type := {
  rq_bio : list (list (list byte));
  rq_addr : Z;      (* address of the first page, [bio_data(req->bio)] *)
  rq_pos : Z;       (* first sector *)
  rq_bytes : Z;
  rq_write : bool;
  rq_ended : Z;     (* times [blk_mq_end_request] was called *)
  rq_errors : Z
}.

#[export] Instance request_settable : Settable request := λ r,
  Build_request (rq_bio r) (rq_addr r) (rq_pos r) (rq_bytes r) (rq_write r) (rq_ended r) (rq_errors r).

(** * The world *)

(** [struct ib_wc], with what the hardware has written by the time it is polled: the
    receive buffer for a receive, the context's buffer for an RDMA read. *)
Inductive wc_op : Type :=
| WC_RECV (msg : rdma_info)
| WC_SEND
| WC_RDMA_READ (ctx : ctx_ref) (data : list byte)
| WC_RDMA_WRITE (ctx : ctx_ref)
| WC_OTHER.

(** Completion status: success, flushed, or another error. *)
Inductive wc_status : Set := WC_SUCCESS | WC_WR_FLUSH_ERR | WC_ERROR.

Record ib_wc : Type := { wc_stat : wc_status; wc_op_ : wc_op; wc_byte_len_ok : bool }.

(** What a server connection is asked to do. *)
Inductive post : Type :=
| PostSend (cb : Z) (msg : rdma_info)
| PostRdma (cb : Z) (ctx : ctx_ref) (wr : send_wr)
| PostRecv (cb : Z).

(** The state of the failure detector ([src_in_err], [src_err_list], [nerrs],
    [nsrcerrs]). *)
Record detector : Type := { src_in_err : list Z; src_err_list : list Z; nerrs : Z; nsrcerrs : Z }.

(** [cqs] holds, for each server, what successive polls of its completion queue
    return ([None] for an empty queue); a poll past its end waits for ever. *)
Record world : Type := {
  sess : session;
  reqs : list request;
  counters : list Z;
  cqs : list (list (option ib_wc));
  posted : list post;
  det : detector
}.

#[export] Instance detector_settable : Settable detector := λ r,
  Build_detector (src_in_err r) (src_err_list r) (nerrs r) (nsrcerrs r).
#[export] Instance world_settable : Settable world := λ r,
  Build_world (sess r) (reqs r) (counters r) (cqs r) (posted r) (det r).

(** * Access to the parts of the world *)

Definition upd_sess (f : session → session) : M world () := modify (λ w, w <| sess := f (sess w) |>).

(** [IS_sess->cb_list[i]]. *)
Definition get_cb (i : Z) : M world kernel_cb := l ← gets (λ w, cb_list (sess w)); lift (aget l i).
Definition set_cb (i : Z) (cb : kernel_cb) : M world () :=
  l ← gets (λ w, cb_list (sess w)); l ← lift (aset l i cb); upd_sess (λ s, s <| cb_list := l |>).
Definition upd_cb (i : Z) (f : kernel_cb → kernel_cb) : M world () := cb ← get_cb i; set_cb i (f cb).

Definition get_cb_state (i : Z) : M world cb_state :=
  l ← gets (λ w, cb_state_list (sess w)); lift (aget l i).
Definition set_cb_state (i : Z) (s : cb_state) : M world () :=
  l ← gets (λ w, cb_state_list (sess w)); l ← lift (aset l i s); upd_sess (λ s, s <| cb_state_list := l |>).

Definition get_pool (conn pool : Z) : M world ctx_pool_list :=
  cs ← gets (λ w, IS_conns (sess w));
  lift (c ← aget cs conn; p ← aget c pool; p).
Definition set_pool (conn pool : Z) (p : ctx_pool_list) : M world () :=
  cs ← gets (λ w, IS_conns (sess w));
  cs ← lift (c ← aget cs conn; c ← aset c pool (Some p); aset cs conn c);
  upd_sess (λ s, s <| IS_conns := cs |>).

(** [*ctx]. *)
Definition get_ctx (r : ctx_ref) : M world rdma_ctx :=
  p ← get_pool (rf_conn r) (rf_pool r); lift (aget (ctx_pool p) (rf_ix r)).
Definition set_ctx (r : ctx_ref) (c : rdma_ctx) : M world () :=
  p ← get_pool (rf_conn r) (rf_pool r);
  l ← lift (aset (ctx_pool p) (rf_ix r) c);
  set_pool (rf_conn r) (rf_pool r) (p <| ctx_pool := l |>).
Definition upd_ctx (r : ctx_ref) (f : rdma_ctx → rdma_ctx) : M world () := c ← get_ctx r; set_ctx r (f c).

Definition get_req (r : nat) : M world request := l ← gets reqs; lift (l !! r).
Definition upd_req (r : nat) (f : request → request) : M world () :=
  x ← get_req r; modify (λ w, w <| reqs := <[r := f x]> (reqs w) |>).

(** [blk_mq_end_request(req, 0)]. *)
Definition end_request (r : nat) : M world () := upd_req r (λ x, x <| rq_ended := rq_ended x + 1 |>).

(** [kzalloc(sizeof(atomic_t))] and [atomic_set]. *)
Definition new_counter (v : Z) : M world nat :=
  w ← get; modify (λ w, w <| counters := counters w ++ [v] |>);; mret (length (counters w)).

(** [atomic_dec_and_test]. *)
Definition atomic_dec_and_test (c : nat) : M world bool :=
  l ← gets counters; v ← lift (l !! c);
  modify (λ w, w <| counters := <[c := v - 1]> (counters w) |>);; mret (v - 1 =? 0).

Definition emit (p : post) : M world () := modify (λ w, w <| posted := posted w ++ [p] |>).

(** A null pointer dereference is undefined. *)
Definition deref {A} (o : option A) : M world A := lift o.

(** ** Wire format *)

Lemma byte_split a k : 0 <= a < 256 → (a + 256 * k) mod 256 = a ∧ (a + 256 * k) / 256 = k.
Proof.
  intros Ha. split; symmetry.
  - apply (Z.mod_unique_pos _ _ k); lia.
  - apply (Z.div_unique_pos _ _ _ a); lia.
Qed.

(** [ntohl] reverses the bytes of a word. *)
Lemma ntohl_bytes a b c d :
  0 <= a < 256 → 0 <= b < 256 → 0 <= c < 256 → 0 <= d < 256 →
  ntohl (a + 256 * (b + 256 * (c + 256 * d))) = d + 256 * (c + 256 * (b + 256 * a)).
Proof.
  intros Ha Hb Hc Hd. unfold ntohl, u32. rewrite wrap_small by lia. cbv zeta.
  change (2 ^ 24) with (256 * 256 * 256). change (2 ^ 16) with (256 * 256). change (2 ^ 8) with 256.
  rewrite <- !Z.div_div by lia.
  destruct (byte_split a (b + 256 * (c + 256 * d)) Ha) as [-> ->].
  destruct (byte_split b (c + 256 * d) Hb) as [-> ->].
  destruct (byte_split c d Hc) as [-> ->]. lia.
Qed.

Lemma word_bytes x : 0 <= x < 2 ^ 32 → ∃ a b c d,
  0 <= a < 256 ∧ 0 <= b < 256 ∧ 0 <= c < 256 ∧ 0 <= d < 256 ∧ x = a + 256 * (b + 256 * (c + 256 * d)).
Proof.
  intros Hx. exists (x mod 256), (x / 256 mod 256), (x / 256 / 256 mod 256), (x / 256 / 256 / 256).
  pose proof (Z.mod_pos_bound x 256). pose proof (Z.mod_pos_bound (x / 256) 256).
  pose proof (Z.mod_pos_bound (x / 256 / 256) 256).
  pose proof (Z.div_mod x 256). pose proof (Z.div_mod (x / 256) 256). pose proof (Z.div_mod (x / 256 / 256) 256).
  lia.
Qed.

Lemma ntohl_u32 x : ntohl (u32 x) = ntohl x.
Proof. unfold ntohl, u32. by rewrite wrap_wrap. Qed.

Lemma ntohl_range x : 0 <= ntohl x < 2 ^ 32.
Proof.
  rewrite <- ntohl_u32. destruct (word_bytes (u32 x) (u32_range x)) as (a & b & c & d & ? & ? & ? & ? & ->).
  rewrite ntohl_bytes by done. lia.
Qed.

Lemma ntohl_involutive x : 0 <= x < 2 ^ 32 → ntohl (ntohl x) = x.
Proof. intros (a & b & c & d & ? & ? & ? & ? & ->)%word_bytes. by rewrite !ntohl_bytes. Qed.

(** The macro swaps the two halves and the bytes of each. *)
Lemma ntohll_halves x : 0 <= x < 2 ^ 64 → ntohll x = ntohl (x mod 2 ^ 32) * 2 ^ 32 + ntohl (x / 2 ^ 32).
Proof.
  intros Hx. unfold ntohll.
  assert (∀ y, ntohl (i32 y) = ntohl (y mod 2 ^ 32)) as Hi.
  { intros y. rewrite <- ntohl_u32, <- (ntohl_u32 (y mod _)). f_equal. unfold u32, wrap, i32, signed.
    change (2 ^ (32 - 1)) with 2147483648. change (2 ^ 32) with 4294967296.
    rewrite Zmod_mod, Zminus_mod, Zmod_mod, <- Zminus_mod. f_equal. lia. }
  rewrite !Hi, !Z.shiftr_div_pow2, !Z.shiftl_mul_pow2 by lia.
  assert (u64 (x * 2 ^ 32) / 2 ^ 32 = x mod 2 ^ 32) as ->.
  { unfold u64, wrap. change (2 ^ 64) with (2 ^ 32 * 2 ^ 32).
    rewrite Z.mul_mod_distr_r, Z.div_mul by lia. done. }
  rewrite Zmod_mod, (Z.mod_small (x / 2 ^ 32)) by (split; [apply Z.div_pos|apply Z.div_lt_upper_bound]; lia).
  pose proof (ntohl_range (x mod 2 ^ 32)). pose proof (ntohl_range (x / 2 ^ 32)) as Hlo.
  unfold u64. rewrite wrap_small by lia.
  apply lor_concat; [lia|done].
Qed.

Lemma ntohll_involutive x : 0 <= x < 2 ^ 64 → ntohll (ntohll x) = x ∧ 0 <= ntohll x < 2 ^ 64.
Proof.
  intros Hx. pose proof (ntohl_range (x mod 2 ^ 32)) as Hr1.
  pose proof (ntohl_range (x / 2 ^ 32)) as Hr2.
  assert (0 <= x mod 2 ^ 32 < 2 ^ 32) by (apply Z.mod_pos_bound; lia).
  assert (0 <= x / 2 ^ 32 < 2 ^ 32) by (split; [apply Z.div_pos|apply Z.div_lt_upper_bound]; lia).
  rewrite (ntohll_halves x Hx). set (h := ntohl (x mod _)) in *. set (l := ntohl (x / _)) in *.
  split; [|lia].
  rewrite ntohll_halves by lia.
  replace ((h * 2 ^ 32 + l) mod 2 ^ 32) with l by (apply (Z.mod_unique_pos _ _ h); lia).
  replace ((h * 2 ^ 32 + l) / 2 ^ 32) with h by (apply (Z.div_unique_pos _ _ _ l); lia).
  unfold h, l. rewrite !ntohl_involutive by done. pose proof (Z.div_mod x (2 ^ 32)). lia.
Qed.

(** [ntohll] (and [htonll], the same macro) is the byte reversal of 64-bit words:
    it is its own inverse, so rkeys and addresses survive the round trip over the wire. *)
Theorem ntohll_roundtrip x y :
  0 <= x < 2 ^ 64 → 0 <= y < 2 ^ 32 →
  ntohll (htonll x) = x ∧ 0 <= htonll x < 2 ^ 64 ∧ ntohl (ntohl y) = y.
Proof.
  intros Hx Hy. destruct (ntohll_involutive x Hx). split; [done|]. split; [done|by apply ntohl_involutive].
Qed.

Lemma ntohll_roundtrip_witness :
  ntohll (htonll 0x0102030405060708) = 0x0102030405060708 ∧ 0 <= htonll 0x0102030405060708 < 2 ^ 64 ∧
  ntohl (ntohl 0xdeadbeef) = 0xdeadbeef.
Proof. apply (ntohll_roundtrip 0x0102030405060708 0xdeadbeef); lia. Defined.
