(* ===== verification/Portal.v ===== *)
(** The portal string of a session ([is_main.c]: [portal_parser],
    [IS_session_find_by_portal]; the string part of [portal_attr_store]):
    [rdma://2,192.168.0.12:8000,192.168.0.11:9400], parsed in place in a C array. *)

From S2P Require Import Prelude Config.

(** * C strings *)

(** A pointer into a [char] array is the suffix of the array that starts there; reading
    past its end is undefined. *)
Definition nul : byte := x00.
Definition comma : byte := x2c.
Definition colon : byte := x3a.

(** The string at a pointer. *)
Fixpoint cstr (s : list byte) : list byte :=
  match s with [] => [] | c :: s' => if decide (c = nul) then [] else c :: cstr s' end.

Definition is_space (c : byte) : bool := let z := b2z c in (z =? 32) || ((9 <=? z) && (z <=? 13)).
Definition is_digit (c : byte) : bool := let z := b2z c in (48 <=? z) && (z <=? 57).

(** [strsep(&p, delim)] for a non-null [p]: the token, whose delimiter has been overwritten
    by a NUL (what follows it in the array is still there), and the new [p]. *)
Fixpoint strsep (delim : byte) (s : list byte) : option (list byte * option (list byte)) :=
  match s with
  | [] => None
  | c :: s' =>
      if decide (c = nul) then Some (s, None)
      else if decide (c = delim) then Some (nul :: s', Some s')
      else '(t, r) ← strsep delim s'; Some (c :: t, r)
  end.

Fixpoint skip_spaces (s : list byte) : list byte :=
  match s with [] => [] | c :: s' => if is_space c then skip_spaces s' else s end.
Fixpoint scan_digits (acc : Z) (s : list byte) : Z :=
  match s with
  | [] => acc
  | c :: s' => if is_digit c then scan_digits (10 * acc + (b2z c - 48)) s' else acc
  end.

(** [sscanf(s, "%d", &x)]: the [int] stored, [None] when nothing is. *)
Definition scan_d (s : list byte) : option Z :=
  match skip_spaces s with
  | c :: s' =>
      if decide (c = x2d) then
        match s' with d :: _ => if is_digit d then Some (i32 (- scan_digits 0 s')) else None | [] => None end
      else if is_digit c then Some (i32 (scan_digits 0 (c :: s'))) else None
  | [] => None
  end.

(** [sscanf(s, "%s", d)]: the word stored. *)
Fixpoint word (s : list byte) : list byte :=
  match s with [] => [] | c :: s' => if decide (c = nul) then [] else if is_space c then [] else c :: word s' end.
Definition scan_s (s : list byte) : option (list byte) :=
  match word (skip_spaces s) with [] => None | w => Some w end.

(** * [portal_parser] *)

Definition MAX_PORTAL_NAME : Z := 512.

(** [struct IS_portal]. *)
Record IS_portal : Type := { portal_port : Z; portal_addr : list byte }.

(** [while (single_portal[j] != ':') j++]: it stops at no NUL. *)
Fixpoint find_colon (s : list byte) : option nat :=
  match s with [] => None | c :: s' => if decide (c = colon) then Some 0%nat else S <$> find_colon s' end.

(** One entry, from its token.  The code copies what is before the colon without a bound,
    and a NUL after it, into [addr], which has 16 bytes: no value when that runs past its
    end ([portal_parser_defined] tells when it does). *)
Definition parse_portal (tok : list byte) : option IS_portal :=
  j ← find_colon tok;
  if Z.of_nat j <? 16 then
    Some {| portal_port := u16 (default 0 (scan_d (drop (S j) tok)));
            portal_addr := take j tok ++ replicate (16 - j) nul |}
  else None.

(** The array after a [strsep] on its suffix: what lies before the new pointer. *)
Definition behind (tok : list byte) (rest : option (list byte)) : list byte :=
  match rest with Some r => take (length tok - length r) tok | None => tok end.

(** The loop over the portals; [strsep] of a null pointer is null, and reading it is
    undefined.  The last component is the array from [ptr] on, as the loop leaves it. *)
Fixpoint parse_portals (n : nat) (ptr : option (list byte)) : option (list IS_portal * list byte) :=
  match n with
  | O => Some ([], default [] ptr)
  | S n' =>
      p ← ptr;
      '(tok, rest) ← strsep comma p;
      e ← parse_portal tok;
      '(l, after) ← parse_portals n' rest;
      Some (e :: l, behind tok rest ++ after)
  end.

(** [portal_parser]: the number of servers ([NUM_CB], [cb_num]), [portal_list], and
    [IS_session->portal] afterwards. *)
Definition portal_parser (portal : list byte) : option (Z * list IS_portal * list byte) :=
  let ptr := drop 7 portal in
  '(tok, rest) ← strsep comma ptr;
  let p_count := default 0 (scan_d tok) in
  '(l, after) ← parse_portals (Z.to_nat p_count) rest;
  Some (p_count, l, take 7 portal ++ behind tok rest ++ after).

(** * Finding a session *)

(** [IS_session_find_by_portal]: [strcmp] against the portal of every session; its index. *)
Fixpoint IS_session_find_by_portal (portals : list (list byte)) (portal : list byte) : option nat :=
  match portals with
  | [] => None
  | p :: ps => if decide (cstr p = cstr portal) then Some 0%nat else S <$> IS_session_find_by_portal ps portal
  end.

Definition rdma_prefix : list byte := [x72; x64; x6d; x61; x3a; x2f; x2f].

(** [sscanf(strcat(rdma, buf), "%s", rdma)] in [char rdma[MAX_PORTAL_NAME]]: the string it
    leaves. *)
Definition portal_string (buf : list byte) : option (list byte) :=
  let s := rdma_prefix ++ cstr buf in
  if Z.of_nat (length s) <? MAX_PORTAL_NAME then scan_s s else None.

(** [memcpy(IS_session->portal, portal, strlen(portal))], without the NUL. *)
Definition store_portal (old s : list byte) : option (list byte) :=
  if Z.of_nat (length s) <=? alen old then Some (s ++ drop (length s) old) else None.

(** * Strings *)

Lemma strsep_delim delim t r :
  (∀ c, c ∈ t → c ≠ nul ∧ c ≠ delim) → delim ≠ nul → strsep delim (t ++ delim :: r) = Some (t ++ nul :: r, Some r).
Proof.
  intros Ht Hd. induction t as [|c t IH]; cbn.
  - by rewrite decide_False, decide_True by done.
  - destruct (Ht c) as [H1 H2]; [left|]. rewrite !decide_False by done. rewrite IH; [done|]. intros x Hx. apply Ht. by right.
Qed.

Lemma strsep_end delim t r :
  (∀ c, c ∈ t → c ≠ nul ∧ c ≠ delim) → strsep delim (t ++ nul :: r) = Some (t ++ nul :: r, None).
Proof.
  intros Ht. induction t as [|c t IH]; cbn; [done|].
  destruct (Ht c) as [H1 H2]; [left|]. rewrite !decide_False by done. rewrite IH; [done|]. intros x Hx. apply Ht. by right.
Qed.

Lemma strsep_length delim s tok rest :
  strsep delim s = Some (tok, rest) → length tok = length s ∧ ∀ r, rest = Some r → (length r < length tok)%nat.
Proof.
  revert tok rest. induction s as [|c s IH]; intros tok rest E; cbn in E; [done|].
  case_decide; [by injection E as <- <-|]. case_decide.
  - injection E as <- <-. split; [done|]. intros r [= <-]. cbn. lia.
  - apply bind_Some in E as ([t r] & E & [= <- <-]). destruct (IH _ _ E) as [Hl Hr]. cbn. split; [lia|].
    intros r' Er. specialize (Hr r' Er). lia.
Qed.

Lemma cstr_nul t r : (∀ c, c ∈ t → c ≠ nul) → cstr (t ++ nul :: r) = t.
Proof.
  induction t as [|c t IH]; intros Ht; cbn; [done|]. rewrite decide_False by (apply Ht; left).
  f_equal. apply IH. intros x Hx. apply Ht. by right.
Qed.

Lemma cstr_id t : (∀ c, c ∈ t → c ≠ nul) → cstr t = t.
Proof.
  induction t as [|c t IH]; intros Ht; cbn; [done|]. rewrite decide_False by (apply Ht; left).
  f_equal. apply IH. intros x Hx. apply Ht. by right.
Qed.

Lemma find_colon_app t r : (∀ c, c ∈ t → c ≠ colon) → find_colon (t ++ colon :: r) = Some (length t).
Proof.
  induction t as [|c t IH]; intros Ht; cbn; [done|]. rewrite decide_False by (apply Ht; left).
  rewrite IH; [done|]. intros x Hx. apply Ht. by right.
Qed.

Lemma find_colon_lt s j : find_colon s = Some j → (j < length s)%nat.
Proof.
  revert j. induction s as [|c s IH]; intros j E; cbn in E; [done|]. case_decide; [by injection E as <-; cbn; lia|].
  destruct (find_colon s) as [k|]; [|done]. injection E as <-. specialize (IH k eq_refl). cbn. lia.
Qed.

(** ** Decimal numbers *)

(** [n] in decimal, for [n < 10 ^ fuel]. *)
Fixpoint dec (fuel : nat) (n : Z) : list byte :=
  match fuel with
  | O => []
  | S f => if n <? 10 then [z2b (48 + n)] else dec f (n / 10) ++ [z2b (48 + n mod 10)]
  end.

Lemma digit_ok d : 0 <= d < 10 → is_digit (z2b (48 + d)) = true ∧ b2z (z2b (48 + d)) = 48 + d.
Proof.
  intros Hd. assert (b2z (z2b (48 + d)) = 48 + d) as E by (rewrite b2z_z2b; apply Z.mod_small; lia).
  split; [|done]. unfold is_digit. rewrite E. apply andb_true_iff. split; apply Z.leb_le; lia.
Qed.

Lemma dec_digits fuel n : 0 <= n → ∀ c, c ∈ dec fuel n → is_digit c = true.
Proof.
  revert n. induction fuel as [|f IH]; intros n Hn c Hc; cbn in Hc; [by apply elem_of_nil in Hc|].
  destruct (Z.ltb_spec n 10).
  - apply list_elem_of_singleton in Hc as ->. apply digit_ok. lia.
  - apply elem_of_app in Hc as [Hc|Hc]; [eapply IH; [|done]; by apply Z.div_pos|].
    apply list_elem_of_singleton in Hc as ->. apply digit_ok, Z.mod_pos_bound. lia.
Qed.

Lemma dec_nonempty fuel n : dec (S fuel) n ≠ [].
Proof. cbn. destruct (n <? 10); [done|]. by destruct (dec fuel (n / 10)). Qed.

Lemma scan_digits_dec fuel n :
  0 <= n < 10 ^ Z.of_nat fuel → ∃ k, ∀ acc rest, scan_digits acc (dec fuel n ++ rest) = scan_digits (acc * k + n) rest.
Proof.
  revert n. induction fuel as [|f IH]; intros n Hn.
  - exists 1. intros acc rest. cbn in *. f_equal. lia.
  - cbn [dec]. destruct (Z.ltb_spec n 10).
    + destruct (digit_ok n) as [Hd Hv]; [lia|]. exists 10. intros acc rest. cbn. rewrite Hd, Hv. f_equal. lia.
    + pose proof (Z.mod_pos_bound n 10). destruct (digit_ok (n mod 10)) as [Hd Hv]; [lia|].
      destruct (IH (n / 10)) as [k Hk].
      { split; [apply Z.div_pos; lia|]. apply Z.div_lt_upper_bound; [lia|].
        rewrite Nat2Z.inj_succ, Z.pow_succ_r in Hn by lia. lia. }
      exists (k * 10). intros acc rest. rewrite <- app_assoc, Hk. cbn. rewrite Hd, Hv. f_equal.
      pose proof (Z.div_mod n 10). lia.
Qed.

Definition stops (rest : list byte) : Prop := match rest with [] => True | c :: _ => is_digit c = false end.

Lemma digit_not c : is_digit c = true → is_space c = false ∧ c ≠ x2d ∧ c ≠ nul ∧ c ≠ comma ∧ c ≠ colon.
Proof.
  intros Hd. assert (is_space c = false) as Hs.
  { unfold is_digit, is_space in *. apply andb_true_iff in Hd as [H1%Z.leb_le H2%Z.leb_le].
    apply orb_false_iff. split; [apply Z.eqb_neq; lia|]. apply andb_false_iff. right. apply Z.leb_gt. lia. }
  split_and!; [done|by intros ->..].
Qed.

Lemma scan_d_dec fuel n rest :
  0 <= n < 10 ^ Z.of_nat (S fuel) → n < 2 ^ 31 → stops rest → scan_d (dec (S fuel) n ++ rest) = Some n.
Proof.
  intros Hn Hs Hr. pose proof (dec_digits (S fuel) n ltac:(lia)) as Hdig. unfold scan_d.
  destruct (scan_digits_dec (S fuel) n Hn) as [k Hk]. specialize (Hk 0 rest).
  destruct (dec (S fuel) n) as [|c l] eqn:E; [by apply dec_nonempty in E|].
  assert (is_digit c = true) as Hc by (apply Hdig; left). destruct (digit_not c Hc) as (Hsp & Hm & _).
  cbn [app skip_spaces]. rewrite Hsp, decide_False, Hc by done. cbn [app] in Hk. rewrite Hk.
  assert (∀ a, scan_digits a rest = a) as Ha by (intros a; destruct rest as [|x rest]; cbn; [done|by rewrite Hr]).
  rewrite Ha, Z.mul_0_l, Z.add_0_l. by rewrite i32_small by lia.
Qed.

(** * Round trip *)

Record server : Type := { sv_addr : list byte; sv_port : Z }.

Record server_ok (s : server) : Prop := {
  sv_chars : ∀ c, c ∈ sv_addr s → c ≠ nul ∧ c ≠ comma ∧ c ≠ colon;
  sv_len : alen (sv_addr s) < 16;
  sv_range : 0 <= sv_port s < 2 ^ 16
}.

(** [addr:port], and the whole portal. *)
Definition print_server (s : server) : list byte := sv_addr s ++ colon :: dec 5 (sv_port s).
Definition print_servers (ss : list server) : list byte := mjoin ((λ s, comma :: print_server s) <$> ss).
Definition print_portal (ss : list server) : list byte := rdma_prefix ++ dec 10 (alen ss) ++ print_servers ss.

Definition parsed (s : server) : IS_portal :=
  {| portal_port := sv_port s; portal_addr := sv_addr s ++ replicate (16 - length (sv_addr s)) nul |}.

Lemma print_server_chars s c : server_ok s → c ∈ print_server s → c ≠ nul ∧ c ≠ comma.
Proof.
  intros [Hc _ Hp] Hin. unfold print_server in Hin. apply elem_of_app in Hin as [Hin|Hin].
  { destruct (Hc c Hin) as (? & ? & ?). done. }
  apply elem_of_cons in Hin as [->|Hin]; [done|].
  by apply dec_digits, digit_not in Hin as (_ & _ & ? & ? & _); [|lia].
Qed.

Lemma parse_portal_print s r :
  server_ok s → stops r → parse_portal (print_server s ++ r) = Some (parsed s).
Proof.
  intros [Hc Hl Hp] Hr. unfold parse_portal, print_server. rewrite <- app_assoc. cbn [app].
  rewrite find_colon_app by (intros c Hin; apply (Hc c Hin)). step_bind.
  unfold alen in Hl. destruct (Z.ltb_spec (Z.of_nat (length (sv_addr s))) 16); [|lia]. f_equal. unfold parsed. f_equal.
  - rewrite cons_middle, app_assoc, drop_app_length' by (rewrite length_app; cbn; lia).
    rewrite (scan_d_dec 4) by (done || cbn; lia). cbn. apply wrap_small. lia.
  - by rewrite take_app_length.
Qed.

Lemma parse_portals_print ss pad :
  Forall server_ok ss → ss ≠ [] →
  ∃ s ss' after, ss = s :: ss' ∧ parse_portals (length ss) (Some (print_server s ++ print_servers ss' ++ nul :: pad)) = Some (parsed <$> ss, after) ∧
    length after = length (print_server s ++ print_servers ss' ++ nul :: pad).
Proof.
  intros Hok. induction Hok as [|s ss Hs Hss IH]; [done|]. intros _. exists s, ss.
  assert (∀ c, c ∈ print_server s → c ≠ nul ∧ c ≠ comma) as Hch by (intros c; by apply print_server_chars).
  cbn [length parse_portals]. step_bind. destruct ss as [|s' ss].
  - eexists. split; [done|]. cbn [print_servers fmap list_fmap mjoin list_join app]. rewrite strsep_end by done. step_bind.
    rewrite (parse_portal_print s) by done. step_bind. split; [done|]. cbn. by rewrite app_nil_r.
  - destruct IH as (s1 & ss1 & after & [= <- <-] & E & Hl); [done|]. eexists. split; [done|].
    change (print_servers (s' :: ss)) with ((comma :: print_server s') ++ print_servers ss).
    rewrite <- app_assoc. cbn [app]. rewrite strsep_delim by done. step_bind.
    rewrite (parse_portal_print s) by done. step_bind. rewrite E. step_bind. split; [done|].
    cbn [behind]. rewrite length_app, Hl, length_take, !length_app. cbn. rewrite !length_app. cbn. lia.
Qed.

(** Parsing a printed portal. *)
Lemma parse_cut ss pad :
  Forall server_ok ss → ss ≠ [] → alen ss < 2 ^ 31 →
  ∃ buf, portal_parser (print_portal ss ++ nul :: pad) = Some (alen ss, parsed <$> ss, buf) ∧
    length buf = length (print_portal ss ++ nul :: pad) ∧
    cstr buf = rdma_prefix ++ dec 10 (alen ss).
Proof.
  intros Hok Hne Hlen. destruct (parse_portals_print ss pad Hok Hne) as (s & ss' & after & -> & E & Hl).
  unfold portal_parser, print_portal.
  set (n := alen (s :: ss')) in *. assert (0 <= n < 10 ^ Z.of_nat 10) as Hn by (change (10 ^ Z.of_nat 10) with 10000000000; unfold n, alen in *; lia).
  rewrite <- !app_assoc. rewrite drop_app_length' by done.
  change (print_servers (s :: ss')) with (comma :: print_server s ++ print_servers ss'). cbn [app].
  rewrite <- (app_assoc (print_server s)).
  assert (∀ c, c ∈ dec 10 n → c ≠ nul ∧ c ≠ comma) as Hch.
  { intros c Hc%dec_digits; [|lia]. apply digit_not in Hc. tauto. }
  rewrite strsep_delim by done. step_bind. rewrite (scan_d_dec 9) by (done || lia).
  change (default 0 (Some n)) with n.
  replace (Z.to_nat n) with (length (s :: ss')) by (unfold n, alen; lia). rewrite E. step_bind.
  eexists. split; [done|]. rewrite take_app_length' by done. cbn [behind]. set (rest := print_server s ++ _) in *.
  assert (take (length (dec 10 n ++ nul :: rest) - length rest) (dec 10 n ++ nul :: rest) = dec 10 n ++ [nul]) as ->.
  { rewrite cons_middle, app_assoc. apply take_app_length'. rewrite !length_app. cbn. lia. }
  split; [repeat (rewrite ?length_app, ?Hl; cbn); lia|].
  rewrite <- app_assoc, (app_assoc rdma_prefix). cbn [app]. apply cstr_nul. intros c [Hc|Hc]%elem_of_app.
  - repeat (apply elem_of_cons in Hc as [->|Hc]; [done|]). by apply elem_of_nil in Hc.
  - by apply Hch.
Qed.

(** C36: parsing a printed portal gives back its servers: [portal_parser] on the array that
    holds [rdma://n,addr:port,...] (whatever follows the NUL) returns the number of
    servers, and every address, NUL-terminated in its 16 bytes, with its port.  Parsing
    is in place: the array keeps its length, but as a string it now ends at the first
    comma. *)
Theorem portal_roundtrip ss pad :
  Forall server_ok ss → ss ≠ [] → alen ss < 2 ^ 31 →
  ∃ buf, portal_parser (print_portal ss ++ nul :: pad) = Some (alen ss, parsed <$> ss, buf) ∧
    length buf = length (print_portal ss ++ nul :: pad) ∧
    cstr buf = rdma_prefix ++ dec 10 (alen ss).
Proof. apply parse_cut. Qed.

Definition test_servers : list server :=
  [{| sv_addr := [x31; x2e; x32]; sv_port := 9400 |}; {| sv_addr := [x68]; sv_port := 0 |}].
Lemma test_servers_ok : Forall server_ok test_servers.
Proof.
  assert (∀ l : list byte, forallb (λ c, bool_decide (c ≠ nul ∧ c ≠ comma ∧ c ≠ colon)) l = true →
            ∀ c, c ∈ l → c ≠ nul ∧ c ≠ comma ∧ c ≠ colon) as Hl.
  { intros l Hl c Hc. rewrite forallb_forall in Hl. apply (bool_decide_unpack _).
    apply Is_true_true, Hl. by apply list_elem_of_In. }
  constructor; [|constructor; [|constructor]]; (split; [by apply Hl|done|cbn; lia]).
Qed.

Lemma portal_roundtrip_witness :
  ∃ buf, portal_parser (print_portal test_servers ++ nul :: [x2c; x31]) = Some (2, parsed <$> test_servers, buf) ∧
    length buf = length (print_portal test_servers ++ nul :: [x2c; x31]) ∧ cstr buf = rdma_prefix ++ [x32].
Proof. apply (portal_roundtrip test_servers [x2c; x31]); [exact test_servers_ok|done|done]. Defined.

(** * Any portal *)

(** What follows each comma of the string in an array. *)
Fixpoint after_commas (s : list byte) : list (list byte) :=
  match s with
  | [] => []
  | c :: s' => if decide (c = nul) then [] else if decide (c = comma) then s' :: after_commas s' else after_commas s'
  end.

(** An array with the first comma of its string overwritten: what [strsep] leaves. *)
Definition cut (s : list byte) : list byte := match strsep comma s with Some (tok, _) => tok | None => s end.

(** The code stays in [addr] on an entry: a colon, even after the end of the entry or of
    the string, is among its first sixteen bytes. *)
Definition short (s : list byte) : Prop := ∃ j, find_colon s = Some j ∧ (j < 16)%nat.

Lemma strsep_spec s : nul ∈ s → ∃ rest, strsep comma s = Some (cut s, rest) ∧ rest = head (after_commas s) ∧
  after_commas s = match rest with Some r => r :: after_commas r | None => [] end ∧ (∀ r, rest = Some r → nul ∈ r).
Proof.
  unfold cut. induction s as [|c s IH]; intros Hn; [by apply elem_of_nil in Hn|]. cbn.
  destruct (decide (c = nul)) as [->|Hc]; [by eexists|].
  assert (nul ∈ s) as Hs by (by apply elem_of_cons in Hn as [?|]). destruct (decide (c = comma)) as [->|Hd].
  - eexists. split_and!; [done..|]. by intros r [= <-].
  - destruct (IH Hs) as (rest & E & H). destruct (strsep comma s) as [[t r]|]; [|done]. injection E as <-. cbn.
    exists r. by split.
Qed.

(** The scanners do not see the difference. *)
Definition alike (x y : byte) : Prop := x = y ∨ x = nul ∧ y = comma.

Lemma cut_alike s : Forall2 alike (cut s) s.
Proof.
  assert (∀ l, Forall2 alike l l) as Hrefl by (induction l; constructor; [by left|done]).
  unfold cut. induction s as [|c s IH]; [done|]. cbn. destruct (decide (c = nul)); [apply Hrefl|].
  destruct (decide (c = comma)) as [->|]; [constructor; [by right|apply Hrefl]|].
  destruct (strsep comma s) as [[t r]|]; cbn in *; [|apply Hrefl]. constructor; [by left|done].
Qed.

Lemma scan_digits_alike a s t : Forall2 alike s t → scan_digits a s = scan_digits a t.
Proof.
  intros H. revert a. induction H as [|x y s t [->|[-> ->]] _ IH]; intros a; [done| |done]. cbn. by rewrite IH.
Qed.
Lemma skip_spaces_alike s t : Forall2 alike s t → Forall2 alike (skip_spaces s) (skip_spaces t).
Proof.
  induction 1 as [|x y s t [->|[-> ->]] Hst IH]; [constructor| |].
  - cbn. destruct (is_space y); [done|]. constructor; [by left|done].
  - cbn. constructor; [by right|done].
Qed.
Lemma scan_d_alike s t : Forall2 alike s t → scan_d s = scan_d t.
Proof.
  intros H%skip_spaces_alike. unfold scan_d. destruct H as [|x y s' t' [->|[-> ->]] Hst]; [done| |done].
  assert (∀ a, scan_digits a s' = scan_digits a t') as Hd by (intros a; by apply scan_digits_alike).
  assert (scan_digits 0 (y :: s') = scan_digits 0 (y :: t')) as -> by (cbn; by rewrite Hd). rewrite Hd.
  case_decide; [|done]. by destruct Hst as [|x' y' s'' t'' [->|[-> ->]] _].
Qed.
Lemma find_colon_alike s t : Forall2 alike s t → find_colon s = find_colon t.
Proof. induction 1 as [|x y s t [->|[-> ->]] _ IH]; [done| |]; cbn; by rewrite IH. Qed.

(** What an entry gives. *)
Definition entry (s : list byte) (e : IS_portal) : Prop :=
  ∃ j, find_colon s = Some j ∧ portal_addr e = take j (cut s) ++ replicate (16 - j) nul ∧ length (portal_addr e) = 16%nat ∧
    portal_port e = u16 (default 0 (scan_d (drop (S j) s))).

Lemma parse_portal_cut s : short s ↔ is_Some (parse_portal (cut s)).
Proof.
  unfold parse_portal, short. rewrite (find_colon_alike _ _ (cut_alike s)). split.
  - intros (j & -> & Hj). step_bind. destruct (Z.ltb_spec (Z.of_nat j) 16); [by eexists|lia].
  - intros [e (j & -> & E)%bind_Some]. exists j. split; [done|]. destruct (Z.ltb_spec (Z.of_nat j) 16); [lia|done].
Qed.
Lemma parse_portal_entry s e : parse_portal (cut s) = Some e → entry s e.
Proof.
  unfold parse_portal. rewrite (find_colon_alike _ _ (cut_alike s)). intros (j & Ej & E)%bind_Some. exists j. split; [done|].
  destruct (Z.ltb_spec (Z.of_nat j) 16); [|done]. injection E as <-. cbn. split; [done|]. apply find_colon_lt in Ej.
  split; [|by rewrite (scan_d_alike _ (drop (S j) s)) by (apply Forall2_drop, cut_alike)].
  rewrite length_app, length_take, length_replicate. rewrite (Forall2_length _ _ _ (cut_alike s)). lia.
Qed.

Lemma length_behind delim p tok rest :
  strsep delim p = Some (tok, rest) → (length (behind tok rest) + length (default [] rest))%nat = length p.
Proof.
  intros [Hl Hr]%strsep_length. destruct rest as [r|]; cbn; [|lia]. specialize (Hr r eq_refl).
  rewrite length_take. lia.
Qed.

(** The entries that follow a pointer which [strsep] has set. *)
Lemma parse_portals_defined n ptr :
  (∀ p, ptr = Some p → nul ∈ p) →
  let rs := match ptr with Some p => p :: after_commas p | None => [] end in
  (is_Some (parse_portals n ptr) ↔ (n <= length rs)%nat ∧ Forall short (take n rs)) ∧
  ∀ l after, parse_portals n ptr = Some (l, after) →
    Forall2 entry (take n rs) l ∧ length after = length (default [] ptr).
Proof.
  revert ptr. induction n as [|n IH]; intros ptr Hp rs.
  { split; [split; [intros _; split; [lia|constructor]|by eexists]|]. intros l after [= <- <-]. by split; [constructor|]. }
  destruct ptr as [p|]; cbn [parse_portals mbind option_bind].
  2: { split; [split; [by intros [? ?]|cbn; lia]|done]. }
  destruct (strsep_spec p (Hp p eq_refl)) as (rest & E & _ & Hrs & Hn). rewrite E. cbn [mbind option_bind].
  destruct (IH rest Hn) as [IH1 IH2]. clear IH. unfold rs. rewrite Hrs. set (tl := match rest with Some _ => _ | None => _ end) in *.
  cbn [take length]. split.
  - rewrite Forall_cons, parse_portal_cut. destruct (parse_portal (cut p)) as [e|]; cbn [mbind option_bind].
    + destruct (parse_portals n rest) as [[l after]|]; cbn [mbind option_bind].
      * split; [|by eexists]. intros _. destruct (proj1 IH1) as [H1 H2]; [by eexists|]. split; [lia|]. by split; [eexists|].
      * split; [by intros [? ?]|]. intros (H1 & _ & H2). apply IH1. split; [lia|done].
    + split; [by intros [? ?]|]. intros (_ & [? ?] & _). done.
  - intros l after (e & Ee & H)%bind_Some. apply bind_Some in H as ([l' after'] & El & [= <- <-]).
    destruct (IH2 _ _ El) as [H1 H2]. split; [by constructor; [apply parse_portal_entry|]|].
    rewrite length_app, H2. by eapply length_behind.
Qed.

(** C37: whatever was written to the attribute, [portal_parser] stays inside its arrays
    exactly when the string has at least as many commas as the number it starts with, and
    each of that many entries has a colon among the first sixteen bytes from its start (a
    longer address runs past [addr], a missing entry is read through a null pointer).
    Then [portal_list] has an entry for each: as address what is before the colon, ended by
    a NUL, and as port the number after the colon, reduced to 16 bits.  The colon may be
    that of a later entry, or behind the end of the string: the search for it looks at
    neither.  A negative number gives an empty list. *)
Theorem portal_parser_defined portal :
  nul ∈ drop 7 portal →
  let n := default 0 (scan_d (drop 7 portal)) in let rs := after_commas (drop 7 portal) in
  (is_Some (portal_parser portal) ↔ n <= alen rs ∧ Forall short (take (Z.to_nat n) rs)) ∧
  ∀ m l buf, portal_parser portal = Some (m, l, buf) →
    m = n ∧ alen l = Z.max 0 n ∧ Forall2 entry (take (Z.to_nat n) rs) l ∧ length buf = length portal.
Proof.
  intros Hn n rs. unfold portal_parser. destruct (strsep_spec _ Hn) as (rest & E & _ & Hrs & Hr). rewrite E. cbn [mbind option_bind].
  rewrite (scan_d_alike _ _ (cut_alike (drop 7 portal))). fold n.
  destruct (parse_portals_defined (Z.to_nat n) rest Hr) as [H1 H2]. unfold rs. rewrite Hrs. set (tl := match rest with Some _ => _ | None => _ end) in *.
  split.
  - transitivity (is_Some (parse_portals (Z.to_nat n) rest)).
    { destruct (parse_portals (Z.to_nat n) rest) as [[l after]|]; cbn; split; try by intros [? ?]. all: intros _; by eexists. }
    rewrite H1. unfold alen. split; intros [? ?]; (split; [lia|done]).
  - intros m l buf ([l' after] & El & [= <- <- <-])%bind_Some. destruct (H2 _ _ El) as [H3 H4].
    assert (is_Some (parse_portals (Z.to_nat n) rest)) as [Hle _]%H1 by by eexists.
    pose proof (Forall2_length _ _ _ H3) as Hl. rewrite length_take in Hl. split_and!; [done|unfold alen; lia|done|].
    apply length_behind in E. rewrite !length_app, H4, length_take. rewrite length_drop in E. lia.
Qed.

(** * Sessions with the same portal *)

Lemma print_portal_chars ss c : Forall server_ok ss → c ∈ print_portal ss → c ≠ nul.
Proof.
  intros Hok Hc. unfold print_portal in Hc.
  repeat (apply elem_of_app in Hc as [Hc|Hc]).
  - repeat (apply elem_of_cons in Hc as [->|Hc]; [done|]). by apply elem_of_nil in Hc.
  - apply dec_digits, digit_not in Hc; [tauto|unfold alen; lia].
  - unfold print_servers in Hc. apply list_elem_of_join in Hc as (l & Hc & Hl).
    apply list_elem_of_fmap in Hl as (s & -> & Hs). apply elem_of_cons in Hc as [->|Hc]; [done|].
    rewrite Forall_forall in Hok. by apply (print_server_chars s c (Hok s Hs)).
Qed.

Lemma comma_in_portal ss : ss ≠ [] → comma ∈ print_portal ss.
Proof.
  destruct ss as [|s ss]; [done|]. intros _. unfold print_portal. apply elem_of_app. right. apply elem_of_app. right. left.
Qed.

(** A session never finds an earlier one with the same portal.  Parsing has cut the
    stored portal at its first comma, so [strcmp] with a portal that names servers always
    differs, whatever sessions exist, and the "already exists" error cannot happen. *)
Theorem duplicate_portal_undetected portals ss :
  Forall (λ p, ∃ ts pad, Forall server_ok ts ∧ ts ≠ [] ∧ alen ts < 2 ^ 31 ∧
            ∃ n l, portal_parser (print_portal ts ++ nul :: pad) = Some (n, l, p)) portals →
  Forall server_ok ss → ss ≠ [] →
  IS_session_find_by_portal portals (print_portal ss) = None.
Proof.
  intros Hp Hok Hne. induction Hp as [|p portals (ts & pad & Hts & Htn & Htl & n & l & E) _ IH]; [done|].
  cbn [IS_session_find_by_portal]. rewrite decide_False; [by rewrite IH|].
  destruct (parse_cut ts pad Hts Htn Htl) as (buf & Eb & _ & Hc). rewrite E in Eb. injection Eb as -> -> <-.
  rewrite Hc, cstr_id by (intros c; by apply print_portal_chars). intros Heq.
  pose proof (comma_in_portal ss Hne) as Hin. rewrite <- Heq in Hin. apply elem_of_app in Hin as [Hin|Hin].
  - repeat (apply elem_of_cons in Hin as [Hin|Hin]; [done|]). by apply elem_of_nil in Hin.
  - apply dec_digits, digit_not in Hin; [tauto|unfold alen; lia].
Qed.

(** One entry, whose colon is behind the string's end; and an address of sixteen bytes. *)
Definition colon_behind : list byte := rdma_prefix ++ [x31; x2c; x61; nul; x3a; x37; nul].
Definition long_address : list byte := rdma_prefix ++ [x31; x2c] ++ replicate 16 x61 ++ [x3a; x37; nul].

Lemma portal_parser_defined_witness :
  (∃ buf, portal_parser colon_behind = Some (1, [{| portal_port := 7; portal_addr := x61 :: replicate 15 nul |}], buf)) ∧
  portal_parser long_address = None.
Proof.
  split.
  - destruct (portal_parser_defined colon_behind) as [H1 H2]; [by apply (bool_decide_unpack _); vm_compute|].
    destruct (proj2 H1) as [[[m l] buf] E].
    { split; [vm_compute; discriminate|]. constructor; [|constructor]. exists 2%nat. split; [reflexivity|lia]. }
    destruct (H2 m l buf E) as (Hm & _ & Hl & _). exists buf. rewrite E. vm_compute in Hm. subst m.
    change (take (Z.to_nat (default 0 (scan_d (drop 7 colon_behind)))) (after_commas (drop 7 colon_behind)))
      with [[x61; nul; x3a; x37; nul]] in Hl.
    inversion Hl as [|? [p a] ? ? (j & Ej & Ha & _ & Hp) Hnil]; subst. inversion Hnil; subst. injection Ej as <-.
    cbn in Ha, Hp. rewrite Ha, Hp. reflexivity.
  - apply eq_None_not_Some. intros Hs. destruct (portal_parser_defined long_address) as [H1 _]; [by apply (bool_decide_unpack _); vm_compute|].
    apply H1 in Hs as [_ Hs]. vm_compute in Hs. inversion Hs as [|? ? (j & Ej & Hj) _]; subst. vm_compute in Ej. injection Ej as <-. lia.
Defined.

Lemma duplicate_portal_undetected_witness :
  ∃ buf, portal_parser (print_portal test_servers ++ [nul]) = Some (2, parsed <$> test_servers, buf) ∧
    IS_session_find_by_portal [buf] (print_portal test_servers) = None.
Proof.
  destruct (parse_cut test_servers []) as (buf & E & _); [exact test_servers_ok|done|done|].
  exists buf. split; [exact E|]. apply (duplicate_portal_undetected [buf] test_servers); [|exact test_servers_ok|done].
  constructor; [|done]. exists test_servers, []. split_and!; [exact test_servers_ok|done|done|by eexists _, _].
Defined.
