(* ===== verification/CtxPool.v ===== *)
(** Pools of RDMA contexts ([is_main.c]: [IS_get_ctx], [IS_insert_ctx], [IS_ctx_init],
    [IS_ctx_dma_setup]): a stack of free contexts per connection and server. *)

From S2P Require Import Prelude Config State.

(** * Operations on the free list *)

(** [IS_get_ctx], under its lock: [Some None] is the NULL return. *)
Definition pool_get (p : free_ctx_pool) : option (option Z * free_ctx_pool) :=
  if pool_tail p =? -1 then Some (None, p)
  else
    res ← aget (ctx_list p) (pool_tail p);
    Some (Some res, p <| pool_tail := pool_tail p - 1 |>).

(** [IS_insert_ctx], under its lock; the overflow test comes after the write. *)
Definition pool_insert (p : free_ctx_pool) (ctx : Z) : option free_ctx_pool :=
  let p := p <| pool_tail := pool_tail p + 1 |> in
  l ← aset (ctx_list p) (pool_tail p) ctx;
  Some (p <| ctx_list := l |>).

Definition IS_get_ctx (conn pool : Z) : M world (option ctx_ref) :=
  p ← get_pool conn pool;
  '(r, f) ← lift (pool_get (free_ctxs p));
  set_pool conn pool (p <| free_ctxs := f |>);;
  mret ((λ ix, {| rf_conn := conn; rf_pool := pool; rf_ix := ix |}) <$> r).

(** [ctx->free_ctxs] is the pool the context was created in. *)
Definition IS_insert_ctx (r : ctx_ref) : M world () :=
  p ← get_pool (rf_conn r) (rf_pool r);
  _ ← lift (aget (ctx_pool p) (rf_ix r));
  f ← lift (pool_insert (free_ctxs p) (rf_ix r));
  set_pool (rf_conn r) (rf_pool r) (p <| free_ctxs := f |>).

(** * Creation *)

(** A zeroed context. *)
Definition zero_ctx (cfg : config) : rdma_ctx := {|
  ctx_req := None; in_flight := 0; chunk_index := 0; ctx_cb := None; ctx_offset := 0; ctx_len := 0;
  chunk_ptr := None; ctxs := replicate (Z.to_nat (NDISKS cfg)) None; ctx_idx := 0; ctx_cnt := None;
  fault := 0; rdma_buf := [];
  sq_wr := {| wr_length := 0; wr_rkey := 0; wr_remote_addr := 0; wr_opcode := WR_RDMA_WRITE |} |}.

Definition MAX_SGL_LEN : Z := 1.
(** [cb->size] ([kernel_cb_init]). *)
Definition cb_size (cfg : config) : Z := IS_PAGE_SIZE / NDATAS cfg * MAX_SGL_LEN.

Section init.
(** Whether the [i]-th buffer allocation succeeds. *)
Context (cfg : config) (kzalloc_ok : Z → bool).

(** [IS_ctx_init]: the pool it leaves behind and its return value.  A free list entry
    not yet filled is a null pointer, the index -1. *)
Definition IS_ctx_init : option (Z * ctx_pool_list) :=
  let p := {| ctx_pool := replicate (Z.to_nat IS_QUEUE_DEPTH) (zero_ctx cfg);
              free_ctxs := {| pool_len := IS_QUEUE_DEPTH;
                              ctx_list := replicate (Z.to_nat IS_QUEUE_DEPTH) (-1);
                              pool_head := 0; pool_tail := IS_QUEUE_DEPTH - 1 |} |} in
  '(i, (ret, p)) ← for_brk 0 IS_QUEUE_DEPTH (λ i '(ret, p),
    ctx ← aget (ctx_pool p) i;
    l ← aset (ctx_list (free_ctxs p)) i i;
    let p := p <| free_ctxs := (free_ctxs p) <| ctx_list := l |> |> in
    let ctx := ctx <| in_flight := CTX_IDLE |> <| chunk_index := -1 |> <| ctx_req := None |> in
    let buf := if kzalloc_ok i then replicate (Z.to_nat (cb_size cfg)) x00 else [] in
    c ← aset (ctx_pool p) i (ctx <| rdma_buf := buf |>);
    let p := p <| ctx_pool := c |> in
    if kzalloc_ok i then Some (Next (ret, p)) else Some (Stop (- ENOMEM, p))) (0, p);
  Some (ret, p).
End init.

(** [IS_ctx_dma_setup]: one pool per connection; the result of [IS_ctx_init] is not
    looked at. *)
Definition IS_ctx_dma_setup (cfg : config) (kzalloc_ok : Z → Z → bool) (submit_queues cb_ix : Z) : M world () :=
  loop 0 submit_queues (λ i _,
    '(_, p) ← lift (IS_ctx_init cfg (kzalloc_ok i));
    cs ← gets (λ w, IS_conns (sess w));
    cs ← lift (c ← aget cs i; c ← aset c cb_ix (Some p); aset cs i c);
    upd_sess (λ s, s <| IS_conns := cs |>)) ().

(** * Specification *)

(** The contexts of a pool are the free ones and those handed out. *)
Record pool_ok (p : free_ctx_pool) (out : list Z) : Prop := {
  p_len : alen (ctx_list p) = IS_QUEUE_DEPTH;
  p_tail : -1 <= pool_tail p < IS_QUEUE_DEPTH;
  p_all : take (Z.to_nat (pool_tail p + 1)) (ctx_list p) ++ out ≡ₚ seqZ 0 IS_QUEUE_DEPTH
}.

Lemma take_top {A} (l : list A) t x :
  0 <= t → aget l t = Some x → take (Z.to_nat (t + 1)) l = take (Z.to_nat t) l ++ [x].
Proof.
  intros Ht [_ Hx]%aget_Some. replace (Z.to_nat (t + 1)) with (S (Z.to_nat t)) by lia.
  by apply take_S_r.
Qed.

Lemma pool_get_ok p out :
  pool_ok p out →
  pool_get p = Some (None, p) ∧ out ≡ₚ seqZ 0 IS_QUEUE_DEPTH ∨
  ∃ c p', pool_get p = Some (Some c, p') ∧ (c ∉ out) ∧ pool_ok p' (c :: out).
Proof.
  intros [HL HT HA]. unfold pool_get. destruct (Z.eqb_spec (pool_tail p) (-1)) as [E|].
  - left. split; [done|]. rewrite E in HA. exact HA.
  - right. destruct (proj2 (aget_is_Some (ctx_list p) (pool_tail p))) as [c Ec]; [lia|]. rewrite Ec. step_bind.
    exists c. eexists. split; [done|].
    rewrite (take_top _ _ c) in HA by (done || lia). rewrite <- app_assoc in HA. split.
    + assert (NoDup (take (Z.to_nat (pool_tail p)) (ctx_list p) ++ [c] ++ out)) as Hnd.
      { rewrite HA. apply NoDup_seqZ. }
      apply NoDup_app in Hnd as (_ & _ & Hnd). by apply NoDup_cons in Hnd as [? _].
    + split; cbn; [done|lia|]. replace (pool_tail p - 1 + 1) with (pool_tail p) by lia. exact HA.
Qed.

Lemma pool_insert_ok p out out' c :
  pool_ok p out → out ≡ₚ c :: out' → ∃ p', pool_insert p c = Some p' ∧ pool_ok p' out'.
Proof.
  intros [HL HT HA] Ho.
  assert (pool_tail p + 1 < IS_QUEUE_DEPTH) as Hlt.
  { apply Permutation_length in HA. apply Permutation_length in Ho.
    rewrite length_app, length_take, length_seqZ in HA. cbn in Ho. unfold alen in HL. lia. }
  unfold pool_insert. cbn [pool_tail ctx_list update_field].
  pose proof (aset_Some (ctx_list p) (pool_tail p + 1) c ltac:(lia)) as E.
  change (pool_tail (p <| pool_tail := pool_tail p + 1 |>)) with (pool_tail p + 1).
  change (ctx_list (p <| pool_tail := pool_tail p + 1 |>)) with (ctx_list p). rewrite E. step_bind.
  eexists; split; [done|]. split; cbn; [by rewrite (aset_length _ _ _ _ E)|lia|].
  rewrite (take_top _ (pool_tail p + 1) c) by (lia || by eapply aget_aset_eq).
  rewrite take_insert_ge by lia. by rewrite <- app_assoc, <- HA, Ho.
Qed.

(** Returning a context to a pool that already holds all of its contexts writes past
    the end of the list: the overflow test that follows comes too late. *)
Lemma pool_insert_overflow p c : pool_ok p [] → pool_insert p c = None.
Proof.
  intros [HL HT HA]. apply Permutation_length in HA. rewrite app_nil_r, length_take, length_seqZ in HA.
  unfold pool_insert. cbn. replace (aset _ _ _) with (@None (list Z)); [done|].
  symmetry. apply aset_None. unfold alen in *. lia.
Qed.

(** ** Initialisation *)

Lemma IS_ctx_init_ok cfg kzalloc_ok :
  (∀ i, 0 <= i < IS_QUEUE_DEPTH → kzalloc_ok i = true) →
  ∃ p, IS_ctx_init cfg kzalloc_ok = Some (0, p) ∧ pool_ok (free_ctxs p) [] ∧
    alen (ctx_pool p) = IS_QUEUE_DEPTH ∧
    ∀ i c, aget (ctx_pool p) i = Some c →
      in_flight c = CTX_IDLE ∧ chunk_index c = -1 ∧ ctx_req c = None ∧
      alen (rdma_buf c) = Z.max 0 (cb_size cfg) ∧ alen (ctxs c) = Z.max 0 (NDISKS cfg).
Proof.
  intros Hk. unfold IS_ctx_init.
  match goal with |- context [for_brk 0 IS_QUEUE_DEPTH ?body ?s] => destruct (for_brk_inv
    (λ i st, let '(ret, p) := st in ret = 0 ∧ alen (ctx_pool p) = IS_QUEUE_DEPTH ∧
      pool_tail (free_ctxs p) = IS_QUEUE_DEPTH - 1 ∧ alen (ctx_list (free_ctxs p)) = IS_QUEUE_DEPTH ∧
      (∀ j, 0 <= j < i → aget (ctx_list (free_ctxs p)) j = Some j) ∧
      (∀ j c, aget (ctx_pool p) j = Some c → alen (ctxs c) = Z.max 0 (NDISKS cfg)) ∧
      ∀ j c, j < i → aget (ctx_pool p) j = Some c →
        in_flight c = CTX_IDLE ∧ chunk_index c = -1 ∧ ctx_req c = None ∧ alen (rdma_buf c) = Z.max 0 (cb_size cfg))
    (λ _ _, False) body 0 IS_QUEUE_DEPTH s) as (k & [ret p] & -> & [[-> H]|[_ []]]) end; [done| | |].
  - split_and!; [done|done|done|done|lia| |].
    + intros j c [_ H]%aget_Some. apply lookup_replicate in H as [-> _]. cbn. arr_lia.
    + intros j c Hj H%aget_lt. lia.
  - intros i [ret p] Hi (-> & HL & HT & HF & Hl & Hc & Hz).
    destruct (proj2 (aget_is_Some (ctx_pool p) i)) as [ctx Ectx]; [lia|]. rewrite Ectx. step_bind.
    pose proof (aset_Some (ctx_list (free_ctxs p)) i i ltac:(lia)) as El. rewrite El. step_bind.
    rewrite Hk by done.
    match goal with |- context [aset (ctx_pool ?q) i ?c] => change (ctx_pool q) with (ctx_pool p);
      pose proof (aset_Some (ctx_pool p) i c ltac:(lia)) as Ec; rewrite Ec; set (ctx' := c) in * end.
    step_bind. eexists; split; [done|]. cbv beta iota. cbn.
    split_and!; [done|by rewrite (aset_length _ _ _ _ Ec)|done|by rewrite (aset_length _ _ _ _ El)| | |].
    + intros j Hj. rewrite (aget_aset _ _ _ _ _ El). case_decide; [by subst|apply Hl; lia].
    + intros j c. rewrite (aget_aset _ _ _ _ _ Ec). case_decide; [|apply Hc]. intros [= <-].
      exact (Hc i ctx Ectx).
    + intros j c Hj. rewrite (aget_aset _ _ _ _ _ Ec). case_decide; [|apply Hz; lia]. intros [= <-].
      unfold ctx'. cbn. split_and!; [done..|]. arr_lia.
  - step_bind. destruct H as (-> & HL & HT & HF & Hl & Hc & Hz). exists p. split_and!; [done| |done|].
    + split; [done|unfold IS_QUEUE_DEPTH in *; lia|]. rewrite HT, app_nil_r. replace (ctx_list (free_ctxs p)) with (seqZ 0 IS_QUEUE_DEPTH).
      { by rewrite firstn_all2 by (rewrite length_seqZ; lia). }
      apply array_ext. intros i Hi. destruct (Z.lt_ge_cases i IS_QUEUE_DEPTH).
      * rewrite Hl by lia. apply aget_Some. split; [done|]. rewrite lookup_seqZ_lt by lia. f_equal. lia.
      * rewrite !(proj2 (aget_None _ i)); [done|lia|]. unfold alen. rewrite length_seqZ. lia.
    + intros i c H. pose proof (aget_lt _ _ _ H). destruct (Hz i c) as (? & ? & ? & ?); [lia|done|].
      split_and!; [done..|]. by eapply Hc.
Qed.

(** * Use of a pool *)

(** A pool in use, with the bag of contexts its clients hold: a client asks for a
    context, or returns one that it holds. *)
Definition pool_state : Type := free_ctx_pool * list Z.

Inductive pool_step : pool_state → pool_state → Prop :=
| step_get p out c p' : pool_get p = Some (Some c, p') → pool_step (p, out) (p', c :: out)
| step_null p out p' : pool_get p = Some (None, p') → pool_step (p, out) (p', out)
| step_put p out c p' : c ∈ out → pool_insert p c = Some p' → pool_step (p, out) (p', list_difference out [c]).

Lemma pool_ok_NoDup p out : pool_ok p out → NoDup out ∧ ∀ c, c ∈ out → 0 <= c < IS_QUEUE_DEPTH.
Proof.
  intros [_ _ HA]. assert (NoDup (take (Z.to_nat (pool_tail p + 1)) (ctx_list p) ++ out)) as Hnd.
  { rewrite HA. apply NoDup_seqZ. }
  apply NoDup_app in Hnd as (_ & _ & Hnd). split; [done|]. intros c Hc.
  assert (c ∈ seqZ 0 IS_QUEUE_DEPTH) as Hin by (rewrite <- HA; apply elem_of_app; by right).
  apply elem_of_seqZ in Hin. lia.
Qed.

Lemma list_difference_cons_perm (l : list Z) c : NoDup l → c ∈ l → l ≡ₚ c :: list_difference l [c].
Proof.
  intros Hnd Hc. apply NoDup_Permutation.
  - done.
  - apply NoDup_cons. split; [rewrite list_elem_of_difference, list_elem_of_singleton; tauto|].
    by apply NoDup_list_difference.
  - intros x. rewrite elem_of_cons, list_elem_of_difference, list_elem_of_singleton.
    destruct (decide (x = c)) as [->|]; tauto.
Qed.

Lemma pool_step_ok s s' : pool_ok s.1 s.2 → pool_step s s' → pool_ok s'.1 s'.2.
Proof.
  intros Hok Hs. destruct Hs as [p out c p' E|p out p' E|p out c p' Hc E]; cbn in *.
  - destruct (pool_get_ok p out Hok) as [[E' _]|(c' & p'' & E' & _ & H)]; congruence.
  - destruct (pool_get_ok p out Hok) as [[E' _]|(c' & p'' & E' & _ & H)]; [|congruence].
    rewrite E' in E. by simplify_eq.
  - destruct (pool_insert_ok p out (list_difference out [c]) c Hok) as (q & E' & H).
    + apply list_difference_cons_perm; [by eapply pool_ok_NoDup|done].
    + congruence.
Qed.

(** C18: a pool set up by [IS_ctx_init] is a correct allocator: in every state its clients
    can reach, [IS_get_ctx] stays in its array and returns NULL exactly when all 256
    contexts are out, and otherwise one that nobody holds; returning a held context
    never overflows the list. *)
Theorem ctx_pool_safe cfg kzalloc_ok p0 p out :
  (∀ i, 0 <= i < IS_QUEUE_DEPTH → kzalloc_ok i = true) →
  IS_ctx_init cfg kzalloc_ok = Some (0, p0) → star pool_step (free_ctxs p0, []) (p, out) →
  (∃ r p', pool_get p = Some (r, p') ∧ (r = None ↔ alen out = IS_QUEUE_DEPTH) ∧
    ∀ c, r = Some c → 0 <= c < IS_QUEUE_DEPTH ∧ c ∉ out) ∧
  ∀ c, c ∈ out → ∃ p', pool_insert p c = Some p' ∧ pool_step (p, out) (p', list_difference out [c]).
Proof.
  intros Hk Ei Hs. assert (pool_ok p out) as Hok.
  { destruct (IS_ctx_init_ok cfg kzalloc_ok Hk) as (q & E & Hq & _). assert (q = p0) as -> by congruence.
    apply (star_inv pool_step (λ s, pool_ok s.1 s.2) _ (p, out)) in Hs; [done|apply pool_step_ok|done]. }
  split.
  - destruct (pool_get_ok p out Hok) as [[E Ho]|(c & p' & E & Hc & Hok')].
    + exists None, p. split_and!; [done| |done]. split; [|done]. intros _.
      unfold alen. rewrite Ho, length_seqZ. done.
    + exists (Some c), p'. split_and!; [done| |].
      * split; [done|]. intros Hl. destruct Hok' as [HL HT HA]. apply Permutation_length in HA.
        rewrite length_app, length_seqZ in HA. cbn in HA. unfold alen in *. lia.
      * intros c' [= <-]. split; [|done]. apply (proj2 (pool_ok_NoDup p' (c :: out) Hok')). by left.
  - intros c Hc. destruct (pool_insert_ok p out (list_difference out [c]) c Hok) as (p' & E & _).
    + apply list_difference_cons_perm; [by eapply pool_ok_NoDup|done].
    + exists p'. split; [done|]. by apply step_put.
Qed.

Definition init_pool : ctx_pool_list :=
  match IS_ctx_init rep (λ _, true) with
  | Some (_, p) => p
  | None => {| ctx_pool := []; free_ctxs := {| pool_len := 0; ctx_list := []; pool_head := 0; pool_tail := 0 |} |}
  end.

Lemma init_pool_eq : IS_ctx_init rep (λ _, true) = Some (0, init_pool).
Proof. unfold init_pool. destruct (IS_ctx_init_ok rep (λ _, true)) as (p & -> & _); done. Qed.

Lemma ctx_pool_safe_witness :
  (∃ r p', pool_get (free_ctxs init_pool) = Some (r, p') ∧ (r = None ↔ alen (@nil Z) = IS_QUEUE_DEPTH) ∧
    ∀ c, r = Some c → 0 <= c < IS_QUEUE_DEPTH ∧ (c ∉ []))  ∧
  ∀ c, c ∈ [] → ∃ p', pool_insert (free_ctxs init_pool) c = Some p' ∧
    pool_step (free_ctxs init_pool, []) (p', list_difference [] [c]).
Proof.
  apply (ctx_pool_safe rep (λ _, true) init_pool (free_ctxs init_pool) []);
    [done|exact init_pool_eq|constructor].
Defined.
