(* ===== verification/Store.v ===== *)
(** The store of RDMA contexts as a map from addresses, and how the accessors of [State]
    and the pool operations act on it; used to run the data path symbolically. *)

From S2P Require Import Prelude Config MT Fault State CtxPool.

(** * The store *)

Definition pool_of (cs : list connection) (conn pool : Z) : option ctx_pool_list :=
  c ← aget cs conn; p ← aget c pool; p.
Definition ctx_of (cs : list connection) (r : ctx_ref) : option rdma_ctx :=
  p ← pool_of cs (rf_conn r) (rf_pool r); aget (ctx_pool p) (rf_ix r).

Definition conns_of (w : world) : list connection := IS_conns (sess w).
(** The world with another store. *)
Definition with_conns (w : world) (cs : list connection) : world := w <| sess := (sess w) <| IS_conns := cs |> |>.

Lemma conns_of_with w cs : conns_of (with_conns w cs) = cs.
Proof. done. Qed.
Lemma with_conns_with w cs cs' : with_conns (with_conns w cs) cs' = with_conns w cs'.
Proof. done. Qed.
Lemma with_conns_id w : with_conns w (conns_of w) = w.
Proof. by destruct w as [[] ? ? ? ? ?]. Qed.

(** Two stores that agree except for one pool. *)
Definition pool_set (cs cs' : list connection) (conn pool : Z) (p : ctx_pool_list) : Prop :=
  ∀ c q, pool_of cs' c q = if decide (c = conn ∧ q = pool) then Some p else pool_of cs c q.

Lemma get_pool_Ret w conn pool p : pool_of (conns_of w) conn pool = Some p → get_pool conn pool w = Ret (p, w).
Proof. unfold pool_of, get_pool, conns_of. intros E. erewrite M_bind_Ret by done. unfold lift. by rewrite E. Qed.

Lemma set_pool_Ret w conn pool p q :
  pool_of (conns_of w) conn pool = Some p →
  ∃ cs, set_pool conn pool q w = Ret ((), with_conns w cs) ∧ pool_set (conns_of w) cs conn pool q.
Proof.
  unfold pool_of, conns_of. intros (c & Ec & E)%bind_Some. apply bind_Some in E as (o & Eo & ->).
  pose proof (aget_lt _ _ _ Ec). pose proof (aget_lt _ _ _ Eo).
  exists (<[Z.to_nat conn := <[Z.to_nat pool := Some q]> c]> (IS_conns (sess w))). split.
  - unfold set_pool. erewrite M_bind_Ret by done. erewrite M_bind_Ret; [done|].
    unfold lift. rewrite Ec. cbn. rewrite aset_Some by done. cbn. by rewrite aset_Some by done.
  - intros c' q'. unfold pool_of, conns_of. rewrite aget_insert by done.
    destruct (decide (conn = c')) as [<-|Hne].
    + cbn. rewrite aget_insert by done. destruct (decide (pool = q')) as [<-|Hne].
      * cbn. by rewrite decide_True.
      * rewrite decide_False by (intros [? ?]; congruence). by rewrite Ec.
    + by rewrite decide_False by (intros [? ?]; congruence).
Qed.

Lemma get_ctx_Ret w r c : ctx_of (conns_of w) r = Some c → get_ctx r w = Ret (c, w).
Proof.
  unfold ctx_of, get_ctx. intros (p & Ep & E)%bind_Some. erewrite M_bind_Ret by (by apply get_pool_Ret).
  unfold lift. by rewrite E.
Qed.

(** Two stores that agree except for one context. *)
Record ctx_set (cs cs' : list connection) (r : ctx_ref) (x : rdma_ctx) : Prop := {
  cset_ctx : ∀ s, ctx_of cs' s = if decide (s = r) then Some x else ctx_of cs s;
  cset_free : ∀ c q, free_ctxs <$> pool_of cs' c q = free_ctxs <$> pool_of cs c q
}.

Lemma set_ctx_Ret w r c x :
  ctx_of (conns_of w) r = Some c →
  ∃ cs, set_ctx r x w = Ret ((), with_conns w cs) ∧ ctx_set (conns_of w) cs r x.
Proof.
  unfold ctx_of at 1. intros (p & Ep & E)%bind_Some. pose proof (aget_lt _ _ _ E).
  destruct (set_pool_Ret w (rf_conn r) (rf_pool r) p (p <| ctx_pool := <[Z.to_nat (rf_ix r) := x]> (ctx_pool p) |>) Ep)
    as (cs & Es & Hs). exists cs. split.
  - unfold set_ctx. erewrite M_bind_Ret by (by apply get_pool_Ret).
    erewrite M_bind_Ret by (unfold lift; by rewrite aset_Some by done). exact Es.
  - split.
    + intros s. unfold ctx_of. rewrite Hs. destruct (decide (s = r)) as [->|Hne].
      * rewrite decide_True by done. cbn. by rewrite aget_insert, decide_True by done.
      * case_decide as Hd; [|done]. destruct Hd as [E1 E2]. rewrite E1, E2, Ep. cbn.
        rewrite aget_insert by done. rewrite decide_False; [done|]. intros E3. apply Hne.
        destruct s, r; cbn in *; congruence.
    + intros c' q. rewrite Hs. case_decide as Hd; [|done]. destruct Hd as [-> ->]. by rewrite Ep.
Qed.

Lemma upd_ctx_Ret w r c f :
  ctx_of (conns_of w) r = Some c →
  ∃ cs, upd_ctx r f w = Ret ((), with_conns w cs) ∧ ctx_set (conns_of w) cs r (f c).
Proof. intros E. unfold upd_ctx. erewrite M_bind_Ret by (by apply get_ctx_Ret). by eapply set_ctx_Ret. Qed.

(** * Pools *)

(** The top of the free list. *)
Definition top_free (cs : list connection) (conn pool ix : Z) : Prop :=
  ∃ f, free_ctxs <$> pool_of cs conn pool = Some f ∧ 0 <= pool_tail f ∧ aget (ctx_list f) (pool_tail f) = Some ix.

(** Taking the top changes only the tail of that pool. *)
Record popped (cs cs' : list connection) (conn pool : Z) : Prop := {
  pop_ctx : ∀ r, ctx_of cs' r = ctx_of cs r;
  pop_free : ∀ c q, free_ctxs <$> pool_of cs' c q =
    if decide (c = conn ∧ q = pool) then (λ f, f <| pool_tail := pool_tail f - 1 |>) <$> (free_ctxs <$> pool_of cs c q)
    else free_ctxs <$> pool_of cs c q
}.

Lemma IS_get_ctx_Ret w conn pool ix :
  top_free (conns_of w) conn pool ix →
  ∃ cs, IS_get_ctx conn pool w = Ret (Some {| rf_conn := conn; rf_pool := pool; rf_ix := ix |}, with_conns w cs) ∧
    popped (conns_of w) cs conn pool.
Proof.
  intros (f & Ef & Ht & Ei). destruct (pool_of (conns_of w) conn pool) as [p|] eqn:Ep; [|done].
  injection Ef as <-.
  destruct (set_pool_Ret w conn pool p (p <| free_ctxs := (free_ctxs p) <| pool_tail := pool_tail (free_ctxs p) - 1 |> |>) Ep)
    as (cs & Es & Hs). exists cs. split.
  - unfold IS_get_ctx. erewrite M_bind_Ret by (by apply get_pool_Ret). erewrite M_bind_Ret.
    2: { unfold pool_get. destruct (Z.eqb_spec (pool_tail (free_ctxs p)) (-1)); [lia|]. rewrite Ei. reflexivity. }
    cbv beta iota. by erewrite M_bind_Ret by done.
  - split.
    + intros r. unfold ctx_of. rewrite Hs. case_decide as Hd; [|done]. destruct Hd as [-> ->]. by rewrite Ep.
    + intros c q. rewrite Hs. case_decide as Hd; [|done]. destruct Hd as [-> ->]. by rewrite Ep.
Qed.

(** Returning a context pushes it. *)
Record pushed (cs cs' : list connection) (r : ctx_ref) : Prop := {
  push_ctx : ∀ s, ctx_of cs' s = ctx_of cs s;
  push_free : ∀ c q, free_ctxs <$> pool_of cs' c q =
    if decide (c = rf_conn r ∧ q = rf_pool r)
    then f ← free_ctxs <$> pool_of cs c q; pool_insert f (rf_ix r)
    else free_ctxs <$> pool_of cs c q
}.

Lemma IS_insert_ctx_Ret w r f c :
  ctx_of (conns_of w) r = Some c → free_ctxs <$> pool_of (conns_of w) (rf_conn r) (rf_pool r) = Some f →
  -1 <= pool_tail f < alen (ctx_list f) - 1 →
  ∃ cs, IS_insert_ctx r w = Ret ((), with_conns w cs) ∧ pushed (conns_of w) cs r.
Proof.
  intros Ec Ef Ht. unfold ctx_of in Ec. apply bind_Some in Ec as (p & Ep & Ec). rewrite Ep in Ef. injection Ef as <-.
  assert (∃ g, pool_insert (free_ctxs p) (rf_ix r) = Some g) as [g Eg].
  { unfold pool_insert. cbn. rewrite aset_Some by lia. by eexists. }
  destruct (set_pool_Ret w (rf_conn r) (rf_pool r) p (p <| free_ctxs := g |>) Ep) as (cs & Es & Hs). exists cs. split.
  - unfold IS_insert_ctx. erewrite M_bind_Ret by (by apply get_pool_Ret).
    erewrite M_bind_Ret by (unfold lift; by rewrite Ec). by erewrite M_bind_Ret by (unfold lift; by rewrite Eg).
  - split.
    + intros s. unfold ctx_of. rewrite Hs. case_decide as Hd; [|done]. destruct Hd as [-> ->]. by rewrite Ep.
    + intros c' q. rewrite Hs. case_decide as Hd; [|done]. destruct Hd as [-> ->]. rewrite Ep. cbn. by rewrite Eg.
Qed.

(** * Loops over the contexts of a request *)

(** Contexts in different pools. *)
Definition separate (refs : list ctx_ref) : Prop := NoDup ((λ r, (rf_conn r, rf_pool r)) <$> refs).

(** Progress of a loop that rewrites the contexts in order: the first [j] contexts went
    through [f] and their free lists through [g], the others are as they were. *)
Record progress (refs : list ctx_ref) (f : Z → rdma_ctx → rdma_ctx) (g : ctx_ref → free_ctx_pool → option free_ctx_pool)
    (cs : list connection) (j : Z) (cs' : list connection) : Prop := {
  pr_ctx : ∀ i r, aget refs i = Some r →
             ctx_of cs' r = if decide (i < j) then f i <$> ctx_of cs r else ctx_of cs r;
  pr_free : ∀ i r, aget refs i = Some r → free_ctxs <$> pool_of cs' (rf_conn r) (rf_pool r) =
              if decide (i < j) then (free_ctxs <$> pool_of cs (rf_conn r) (rf_pool r)) ≫= g r
              else free_ctxs <$> pool_of cs (rf_conn r) (rf_pool r);
  pr_others : ∀ r, r ∉ refs → ctx_of cs' r = ctx_of cs r;
  pr_pools : ∀ c q, (∀ r, r ∈ refs → ¬ (c = rf_conn r ∧ q = rf_pool r)) → free_ctxs <$> pool_of cs' c q = free_ctxs <$> pool_of cs c q
}.

Lemma separate_ne refs i j r s :
  separate refs → aget refs i = Some r → aget refs j = Some s → i ≠ j → ¬ (rf_conn r = rf_conn s ∧ rf_pool r = rf_pool s).
Proof.
  intros Hnd [Hi Er]%aget_Some [Hj Es]%aget_Some Hne [E1 E2]. apply Hne.
  assert (Z.to_nat i = Z.to_nat j); [|lia].
  apply (NoDup_lookup _ _ _ (rf_conn r, rf_pool r) Hnd); rewrite list_lookup_fmap; [by rewrite Er|].
  rewrite Es. cbn. by rewrite E1, E2.
Qed.

Lemma progress_start refs f g cs : progress refs f g cs 0 cs.
Proof. split; [| |done|done]; intros i r E; pose proof (aget_lt _ _ _ E); by rewrite decide_False by lia. Qed.

Lemma progress_step refs f g cs j v v' r :
  separate refs → aget refs j = Some r → progress refs f g cs j v →
  (∀ s, ctx_of v' s = if decide (s = r) then f j <$> ctx_of v s else ctx_of v s) →
  (∀ c q, free_ctxs <$> pool_of v' c q =
     if decide (c = rf_conn r ∧ q = rf_pool r) then (free_ctxs <$> pool_of v c q) ≫= g r else free_ctxs <$> pool_of v c q) →
  progress refs f g cs (j + 1) v'.
Proof.
  intros Hs Er [Hc Hf Ho Hp] Hc' Hf'. pose proof (aget_elem _ _ _ Er) as Hin. split; [intros i s Es..| |].
  - rewrite Hc', (Hc i s Es). destruct (decide (i = j)) as [->|Hne].
    + assert (s = r) as -> by congruence. by rewrite decide_True, (decide_False (P := j < j)), decide_True by (done || lia).
    + rewrite decide_False by (intros ->; by eapply (separate_ne refs i j)). repeat case_decide; done || lia.
  - rewrite Hf', (Hf i s Es). destruct (decide (i = j)) as [->|Hne].
    + assert (s = r) as -> by congruence. by rewrite decide_True, (decide_False (P := j < j)), decide_True by (done || lia).
    + rewrite decide_False by (by eapply (separate_ne refs i j)). repeat case_decide; done || lia.
  - intros s Hns. rewrite Hc', decide_False by (by intros ->). by apply Ho.
  - intros c q Hnq. rewrite Hf', decide_False by (by apply Hnq). by apply Hp.
Qed.

(** Rewriting one context only. *)
Lemma progress_set refs f cs j v v' r c :
  separate refs → aget refs j = Some r → progress refs f (λ _, Some) cs j v →
  ctx_of v r = Some c → ctx_set v v' r (f j c) → progress refs f (λ _, Some) cs (j + 1) v'.
Proof.
  intros Hs Er Hp Ec [H1 H2]. eapply progress_step; [done..| |].
  - intros s. rewrite H1. case_decide as Hd; [|done]. by rewrite Hd, Ec.
  - intros c' q. rewrite H2. case_decide; [|done]. by destruct (free_ctxs <$> _).
Qed.

(** What the loop has left when it reaches context [j]. *)
Lemma progress_at refs f g cs j v r c :
  progress refs f g cs j v → aget refs j = Some r → ctx_of cs r = Some c → ctx_of v r = Some c.
Proof. intros Hp Er Ec. rewrite (pr_ctx _ _ _ _ _ _ Hp j r Er), decide_False by lia. done. Qed.
Lemma progress_end refs f g cs n v i r c :
  progress refs f g cs n v → alen refs = n → aget refs i = Some r → ctx_of cs r = Some c → ctx_of v r = Some (f i c).
Proof.
  intros Hp Hn Er Ec. pose proof (aget_lt _ _ _ Er). rewrite (pr_ctx _ _ _ _ _ _ Hp i r Er), decide_True, Ec by lia. done.
Qed.

Definition pop (f : free_ctx_pool) : free_ctx_pool := f <| pool_tail := pool_tail f - 1 |>.

(** Popping the top and pushing it back restores the free list. *)
Lemma pop_push f ix :
  0 <= pool_tail f → aget (ctx_list f) (pool_tail f) = Some ix → pool_insert (pop f) ix = Some f.
Proof.
  intros Ht E. pose proof (aget_lt _ _ _ E). unfold pool_insert, pop. cbn. rewrite Z.sub_add, aset_Some by done. cbn.
  apply aget_Some in E as [_ E]. rewrite list_insert_id by done. by destruct f.
Qed.

Lemma ctx_set_refl cs r c : ctx_of cs r = Some c → ctx_set cs cs r c.
Proof. intros E. split; [|done]. intros s. case_decide as Hd; [by rewrite Hd|done]. Qed.
Lemma ctx_set_trans cs1 cs2 cs3 r x y : ctx_set cs1 cs2 r x → ctx_set cs2 cs3 r y → ctx_set cs1 cs3 r y.
Proof.
  intros [H1 H2] [H3 H4]. split; [|by intros; rewrite H4]. intros s. rewrite H3, H1. by case_decide.
Qed.
Lemma ctx_set_get cs cs' r x : ctx_set cs cs' r x → ctx_of cs' r = Some x.
Proof. intros [H _]. by rewrite H, decide_True. Qed.
