(* ===== verification/Chunks.v ===== *)
(** Slab maps of a session ([is_main.c], [is_mq.c]): creation, the messages that map
    remote slabs to session chunks, and the maps that requests look up. *)

From S2P Require Import Prelude Config MT Fault State.

Abbreviation slab_map s x := (aget (cb_index_map s) x).
Abbreviation slab_slot s x := (aget (chunk_map_cb_chunk s) x).

(** Changing server [c] of a session. *)
Definition with_cb (s : session) (c : Z) (f : kernel_cb → option kernel_cb) : option session :=
  cb ← aget (cb_list s) c;
  cb' ← f cb;
  l ← aset (cb_list s) c cb';
  Some (s <| cb_list := l |>).

(** * Creation *)

Definition zero_info : rdma_info :=
  {| ri_buf := replicate 32 0; ri_rkey := replicate 32 0; ri_size_gb := 0; ri_type := BAD_TYPE |}.

(** A zeroed [struct kernel_cb]: its arrays are null. *)
Definition zero_cb (i : Z) : kernel_cb := {|
  cb_index := i; cb_st := IDLE; recv_buf := zero_info; send_buf := zero_info; chunk_list := [];
  remote_mapped := []; chunk_size_g := 0; target_size_g := 0; shrink_size_g := 0; chunk_map := [];
  evict_chunk_map := []; c_state := C_IDLE; evict_thread := false |}.

(** [kernel_cb_init]; when [rdma_create_id] fails the structure is freed. *)
Definition kernel_cb_init (rdma_create_id_ok : bool) (cb : kernel_cb) : option kernel_cb :=
  let n := Z.to_nat MAX_MR_SIZE_GB in
  let cb := cb <| cb_st := IDLE |> <| chunk_size_g := 0 |>
    <| chunk_list := replicate n {| remote_rkey := 0; remote_addr := 0 |} |>
    <| remote_mapped := replicate n CHUNK_UNMAPPED |> <| chunk_map := replicate n (-1) |>
    <| evict_chunk_map := replicate n 0 |> <| c_state := C_IDLE |> in
  if rdma_create_id_ok then Some cb else None.

(** [IS_create_conn]: a connection has one empty context pool per server ([NUM_CB], the
    [num_cb] of the session). *)
Definition IS_create_conn (kzalloc_ok : bool) (num_cb : Z) : Z * option connection :=
  if kzalloc_ok then (0, Some (replicate (Z.to_nat num_cb) None)) else (- ENOMEM, None).

Section create.
Context (cfg : config).

(** [IS_session_create] after [portal_parser], with [num_cb] portals: the return value
    and the session.  [kzalloc_ok] tells whether connection [i] can be allocated, [s0]
    is the session before (its fault injection seeds are overwritten). *)
Definition IS_session_create (kzalloc_ok : Z → bool) (submit_queues num_cb : Z) (s0 : session)
    : option (Z * session) :=
  let s := s0 <| cb_num := num_cb |> <| capacity_g := DATASIZE_G cfg |>
    <| capacity := u64 (DATASIZE_G cfg * ONE_GB) |> <| mapped_cb_num := 0 |>
    <| cb_state_list := replicate (Z.to_nat num_cb) CB_IDLE |>
    <| cb_list := zero_cb <$> seqZ 0 num_cb |>
    <| cb_index_map := replicate (Z.to_nat (DISKSIZE_G cfg)) 0 |>
    <| chunk_map_cb_chunk := replicate (Z.to_nat (DISKSIZE_G cfg)) 0 |>
    <| unmapped_chunk_list := replicate (Z.to_nat (DISKSIZE_G cfg)) 0 |>
    <| free_chunk_index := DISKSIZE_G cfg - 1 |> in
  s ← for_up 0 (DISKSIZE_G cfg) (λ i s,
    m ← aset (cb_index_map s) i NO_CB_MAPPED;
    u ← aset (unmapped_chunk_list s) i (capacity_g s - 1 - i);
    c ← aset (chunk_map_cb_chunk s) i (-1);
    Some (s <| cb_index_map := m |> <| unmapped_chunk_list := u |> <| chunk_map_cb_chunk := c |>)) s;
  '(_, (ret, conns)) ← for_brk 0 submit_queues (λ i '(_, conns),
    let '(ret, c) := IS_create_conn (kzalloc_ok i) num_cb in
    Some (match c with
          | Some c => if ret =? 0 then Next (ret, conns ++ [c]) else Stop (ret, conns)
          | None => Stop (ret, conns)
          end)) (0, []);
  if ret =? 0 then
    let s := s <| IS_conns := conns |> in
    f ← IS_fault_injection_init cfg (IS_fault_injection s);
    Some (0, s <| IS_fault_injection := f |>)
  else Some (ret, s <| IS_conns := [] |>).  (* [err_destroy_conns] frees them *)
End create.

(** * Mapping messages *)

(** [cb->remote_chunk.chunk_list[i]] takes the remote key and address of the message. *)
Definition store_remote (cb : kernel_cb) (i rkey addr : Z) : option kernel_cb :=
  l ← aset (chunk_list cb) i {| remote_rkey := ntohl rkey; remote_addr := ntohll addr |};
  Some (cb <| chunk_list := l |>).

(** [IS_single_chunk_init]: the first chunk with a key is mapped to the chunk that the
    bind request named. *)
Definition IS_single_chunk_init (s : session) (c : Z) : option session :=
  cb ← aget (cb_list s) c;
  let select_chunk := ri_size_gb (recv_buf cb) in
  '(_, s) ← for_brk 0 MAX_MR_SIZE_GB (λ i s,
    rkey ← aget (ri_rkey (recv_buf cb)) i;
    if truthy rkey then
      addr ← aget (ri_buf (recv_buf cb)) i;
      s ← with_cb s c (λ cb, store_remote cb i rkey addr);
      let s := s <| free_chunk_index := free_chunk_index s - 1 |> in
      m ← aset (chunk_map_cb_chunk s) select_chunk i;
      let s := s <| chunk_map_cb_chunk := m |> in
      s ← with_cb s c (λ cb,
        l ← aset (chunk_map cb) i select_chunk;
        r ← aset (remote_mapped cb) i CHUNK_MAPPED;
        Some (cb <| chunk_map := l |> <| chunk_size_g := chunk_size_g cb + 1 |>
                 <| c_state := C_READY |> <| remote_mapped := r |>));
      m ← aset (cb_index_map s) select_chunk (cb_index cb);
      Some (Stop (s <| cb_index_map := m |>))
    else Some (Next s)) s;
  Some s.

(** [IS_chunk_list_init]: every chunk with a key is mapped to the chunk on top of the
    list of unmapped chunks. *)
Definition IS_chunk_list_init (s : session) (c : Z) : option session :=
  cb ← aget (cb_list s) c;
  let size_g := ri_size_gb (recv_buf cb) in
  '(s, j) ← for_up 0 MAX_MR_SIZE_GB (λ i '(s, j),
    rkey ← aget (ri_rkey (recv_buf cb)) i;
    if truthy rkey then
      addr ← aget (ri_buf (recv_buf cb)) i;
      s ← with_cb s c (λ cb, cb ← store_remote cb i rkey addr;
        r ← aset (remote_mapped cb) i CHUNK_MAPPED; Some (cb <| remote_mapped := r |>));
      sess_free_chunk ← aget (unmapped_chunk_list s) (free_chunk_index s);
      let s := s <| free_chunk_index := free_chunk_index s - 1 |> in
      m ← aset (cb_index_map s) sess_free_chunk (cb_index cb);
      k ← aset (chunk_map_cb_chunk s) sess_free_chunk i;
      let s := s <| cb_index_map := m |> <| chunk_map_cb_chunk := k |> in
      s ← with_cb s c (λ cb, l ← aset (chunk_map cb) i sess_free_chunk; Some (cb <| chunk_map := l |>));
      Some (s, j + 1)
    else Some (s, j)) (s, 0);
  with_cb s c (λ cb, Some (cb <| chunk_size_g := chunk_size_g cb + size_g |> <| c_state := C_READY |>)).

(** [client_recv_evict], [client_recv_stop]. *)
Definition client_recv_evict (cb : kernel_cb) : kernel_cb :=
  if ri_size_gb (recv_buf cb) =? 0 then cb
  else cb <| shrink_size_g := ri_size_gb (recv_buf cb) |> <| c_state := C_EVICT |>.

(** The characters ['s'] and ['a']. *)
Definition chr_s : Z := 115.
Definition chr_a : Z := 97.

Definition client_recv_stop (cb : kernel_cb) : option kernel_cb :=
  let cb := cb <| shrink_size_g := ri_size_gb (recv_buf cb) |> in
  if ri_size_gb (recv_buf cb) =? 0 then Some (cb <| c_state := C_STOP |>)
  else
    m ← for_up 0 MAX_MR_SIZE_GB (λ i m,
      rkey ← aget (ri_rkey (recv_buf cb)) i;
      aset m i (if truthy rkey then chr_s else chr_a)) (evict_chunk_map cb);
    Some (cb <| evict_chunk_map := m |> <| c_state := C_STOP |>).

(** [client_recv]: return value and session; [byte_len_ok] is [wc->byte_len ==
    sizeof(cb->recv_buf)]. *)
Definition client_recv (s : session) (c : Z) (byte_len_ok : bool) : option (Z * session) :=
  cb ← aget (cb_list s) c;
  if negb byte_len_ok then Some (-1, s)
  else if test_state_num (cb_st cb) <? test_state_num CONNECTED then Some (-1, s)
  else
    let set_state st s := with_cb s c (λ cb, Some (cb <| cb_st := st |>)) in
    let mapped s := l ← aset (cb_state_list s) (cb_index cb) CB_MAPPED; Some (s <| cb_state_list := l |>) in
    match ri_type (recv_buf cb) with
    | FREE_SIZE =>
        s ← with_cb s c (λ cb, Some (cb <| target_size_g := ri_size_gb (recv_buf cb) |>));
        s ← set_state FREE_MEM_RECV s; Some (0, s)
    | INFO => s ← mapped s; s ← set_state WAIT_OPS s; s ← IS_chunk_list_init s c; Some (0, s)
    | INFO_SINGLE => s ← mapped s; s ← set_state WAIT_OPS s; s ← IS_single_chunk_init s c; Some (0, s)
    | EVICT =>
        s ← set_state RECV_EVICT s; s ← with_cb s c (λ cb, Some (client_recv_evict cb)); Some (0, s)
    | STOP => s ← set_state RECV_STOP s; s ← with_cb s c client_recv_stop; Some (0, s)
    | FAULT_DONE => s ← set_state RECV_FAULT_DONE s; Some (0, s)
    | _ => Some (-1, s)
    end.

(** * Unmapping *)

(** First loop of [IS_disconnect_handler] over the chunks of the lost server: requests
    are no longer sent to them. *)
Definition disconnect_unmap (s : session) (c : Z) : option session :=
  for_up 0 MAX_MR_SIZE_GB (λ i s,
    cb ← aget (cb_list s) c;
    sess_chunk_index ← aget (chunk_map cb) i;
    if negb (sess_chunk_index =? -1) then
      s ← with_cb s c (λ cb, r ← aset (remote_mapped cb) i CHUNK_UNMAPPED; Some (cb <| remote_mapped := r |>));
      m ← aset (cb_index_map s) sess_chunk_index NO_CB_MAPPED;
      Some (s <| cb_index_map := m |>)
    else Some s) s.

(** Last loop: the session chunks are free again. *)
Definition disconnect_free_body (c i : Z) (s : session) : option session :=
  cb ← aget (cb_list s) c;
  sess_chunk_index ← aget (chunk_map cb) i;
  if negb (sess_chunk_index =? -1) then
    k ← aset (chunk_map_cb_chunk s) sess_chunk_index (-1);
    let s := s <| chunk_map_cb_chunk := k |> <| free_chunk_index := free_chunk_index s + 1 |> in
    u ← aset (unmapped_chunk_list s) (free_chunk_index s) sess_chunk_index;
    let s := s <| unmapped_chunk_list := u |> in
    with_cb s c (λ cb, l ← aset (chunk_map cb) i (-1); Some (cb <| chunk_map := l |>))
  else Some s.

Definition disconnect_free (s : session) (c : Z) : option session :=
  for_up 0 MAX_MR_SIZE_GB (disconnect_free_body c) s.

(** * The invariant *)

Definition mapped_chunks (m : list Z) : Z := alen (filter (λ c, c ≠ NO_CB_MAPPED) m).

(** Arrays of an initialised server. *)
Record cb_ok (cb : kernel_cb) : Prop := {
  c_chunks : alen (chunk_list cb) = MAX_MR_SIZE_GB;
  c_remote : alen (remote_mapped cb) = MAX_MR_SIZE_GB;
  c_map : alen (chunk_map cb) = MAX_MR_SIZE_GB;
  c_evict : alen (evict_chunk_map cb) = MAX_MR_SIZE_GB
}.
(** Session chunks and server chunks point at each other, and the free index counts
    the session chunks that are not mapped. *)
Record maps_ok (cfg : config) (s : session) : Prop := {
  m_index : alen (cb_index_map s) = DISKSIZE_G cfg;
  m_slot : alen (chunk_map_cb_chunk s) = DISKSIZE_G cfg;
  m_list : alen (unmapped_chunk_list s) = DISKSIZE_G cfg;
  m_states : alen (cb_state_list s) = alen (cb_list s);
  m_cb : ∀ c cb, aget (cb_list s) c = Some cb → cb_index cb = c ∧ info_ok (recv_buf cb);
  m_fwd : ∀ x c, slab_map s x = Some c → c ≠ NO_CB_MAPPED →
    ∃ cb i, aget (cb_list s) c = Some cb ∧ slab_slot s x = Some i ∧ aget (chunk_map cb) i = Some x ∧ cb_ok cb;
  m_bwd : ∀ c cb i x, aget (cb_list s) c = Some cb → aget (chunk_map cb) i = Some x → x ≠ -1 →
    slab_map s x = Some c ∧ slab_slot s x = Some i;
  m_free : free_chunk_index s = DISKSIZE_G cfg - 1 - mapped_chunks (cb_index_map s)
}.

(** * Lemmas *)

Lemma with_cb_Some s c f cb cb' :
  aget (cb_list s) c = Some cb → f cb = Some cb' →
  with_cb s c f = Some (s <| cb_list := <[Z.to_nat c := cb']> (cb_list s) |>).
Proof.
  intros E Ef. unfold with_cb. rewrite E. step_bind. rewrite Ef. step_bind.
  by rewrite aset_Some by (by eapply aget_lt).
Qed.

Definition mapped1 (c : Z) : Z := if decide (c ≠ NO_CB_MAPPED) then 1 else 0.

Lemma mapped_chunks_cons c m : mapped_chunks (c :: m) = mapped1 c + mapped_chunks m.
Proof. unfold mapped_chunks, mapped1, alen. rewrite filter_cons. case_decide; cbn; lia. Qed.

Lemma mapped_chunks_insert m x old v :
  aget m x = Some old → mapped_chunks (<[Z.to_nat x := v]> m) = mapped_chunks m + mapped1 v - mapped1 old.
Proof.
  intros [_ Hx]%aget_Some. revert m Hx. generalize (Z.to_nat x) as n. clear x.
  induction n as [|n IH]; intros [|c m] H; try done; cbn in *.
  - simplify_eq. rewrite !mapped_chunks_cons. lia.
  - rewrite !mapped_chunks_cons, IH by done. lia.
Qed.

Lemma mapped_chunks_range m : 0 <= mapped_chunks m <= alen m.
Proof.
  induction m as [|c m IH]; [done|]. rewrite mapped_chunks_cons. unfold mapped1, alen in *. cbn.
  case_decide; lia.
Qed.

Lemma mapped_chunks_below m x : aget m x = Some NO_CB_MAPPED → mapped_chunks m < alen m.
Proof.
  intros H. pose proof (mapped_chunks_insert m x _ 0 H) as E.
  pose proof (mapped_chunks_range (<[Z.to_nat x := 0]> m)) as R. rewrite alen_insert in R.
  change (mapped1 0) with 1 in E. change (mapped1 NO_CB_MAPPED) with 0 in E. lia.
Qed.

Lemma mapped_chunks_pos m x c : aget m x = Some c → c ≠ NO_CB_MAPPED → 0 < mapped_chunks m.
Proof.
  intros H Hc. pose proof (mapped_chunks_insert m x _ NO_CB_MAPPED H) as E.
  pose proof (mapped_chunks_range (<[Z.to_nat x := NO_CB_MAPPED]> m)) as R.
  unfold mapped1 in E. rewrite decide_False, decide_True in E by (done || tauto). lia.
Qed.

(** ** Mapping and unmapping one chunk *)

(** [s'] is [s] with session chunk [x] moved to server [v] (-1 for none), slot [k], and
    server [c]'s chunk [i] pointing at [y]. *)
Record remapped (s s' : session) (c : Z) (cb cb' : kernel_cb) (x v k i y : Z) : Prop := {
  r_cbs : cb_list s' = <[Z.to_nat c := cb']> (cb_list s);
  r_cbi : cb_index cb' = cb_index cb;
  r_recv : recv_buf cb' = recv_buf cb;
  r_ok : cb_ok cb → cb_ok cb';
  r_map : chunk_map cb' = <[Z.to_nat i := y]> (chunk_map cb);
  r_index : cb_index_map s' = <[Z.to_nat x := v]> (cb_index_map s);
  r_slot : chunk_map_cb_chunk s' = <[Z.to_nat x := k]> (chunk_map_cb_chunk s);
  r_list : alen (unmapped_chunk_list s') = alen (unmapped_chunk_list s);
  r_states : alen (cb_state_list s') = alen (cb_state_list s)
}.

Lemma maps_attach cfg s s' c cb cb' x i :
  maps_ok cfg s → aget (cb_list s) c = Some cb → cb_ok cb →
  slab_map s x = Some NO_CB_MAPPED → aget (chunk_map cb) i = Some (-1) →
  remapped s s' c cb cb' x c i i x → free_chunk_index s' = free_chunk_index s - 1 →
  maps_ok cfg s'.
Proof.
  intros [HI HS HL HT HC HF HB HN] Hcb Hok Hx Hi [Ecbs Ebi Erv Eok Emap Eidx Eslot El Est] Ef.
  pose proof (aget_lt _ _ _ Hcb). pose proof (aget_lt _ _ _ Hx). pose proof (aget_lt _ _ _ Hi).
  split; rewrite ?Ecbs, ?Eidx, ?Eslot, ?Est, ?alen_insert; [lia|lia|lia|lia| | | |].
  - intros c' cb1. rewrite aget_insert by done. case_decide as Hc; [|apply HC]. intros [= <-].
    rewrite Ebi, Erv. subst c'. by apply HC.
  - intros y c'. rewrite aget_insert by done. case_decide as Hy.
    + intros [= <-] _. subst y. exists cb', i. rewrite !aget_insert, !decide_True by lia.
      rewrite Emap, aget_insert, decide_True by lia. auto.
    + intros Hy1 Hy2. destruct (HF y c' Hy1 Hy2) as (cb1 & i1 & E1 & E2 & E3 & E4).
      rewrite !aget_insert, (decide_False (P := x = y)) by lia. destruct (decide (c = c')) as [<-|].
      * exists cb', i1. assert (cb1 = cb) as -> by congruence. rewrite Emap, aget_insert by done.
        split_and!; [done|done| |by apply Eok]. destruct (decide (i = i1)) as [<-|]; [|done].
        rewrite Hi in E3. injection E3 as <-. apply aget_lt in Hy1. lia.
      * exists cb1, i1. by split_and!.
  - intros c' cb1 i1 y. rewrite aget_insert by done. destruct (decide (c = c')) as [<-|].
    + intros [= <-]. rewrite Emap, aget_insert by done. destruct (decide (i = i1)) as [<-|].
      * intros [= <-] _. by rewrite !aget_insert, !decide_True by lia.
      * intros Hy1 Hy2. destruct (HB c cb i1 y Hcb Hy1 Hy2) as [E1 E2].
        rewrite !aget_insert by lia. destruct (decide (x = y)) as [<-|]; [|done].
        rewrite Hx in E1. injection E1 as E1. apply aget_lt in Hcb. unfold NO_CB_MAPPED in *. lia.
    + intros Hc1 Hy1 Hy2. destruct (HB c' cb1 i1 y Hc1 Hy1 Hy2) as [E1 E2].
      rewrite !aget_insert by lia. destruct (decide (x = y)) as [<-|]; [|done].
      rewrite Hx in E1. injection E1 as E1. apply aget_lt in Hc1. unfold NO_CB_MAPPED in *. lia.
  - rewrite Ef, HN, (mapped_chunks_insert _ _ _ _ Hx). unfold mapped1, NO_CB_MAPPED.
    rewrite decide_True, decide_False by lia. lia.
Qed.

Lemma maps_detach cfg s s' c cb cb' x i :
  maps_ok cfg s → aget (cb_list s) c = Some cb →
  aget (chunk_map cb) i = Some x → x ≠ -1 →
  remapped s s' c cb cb' x NO_CB_MAPPED (-1) i (-1) → free_chunk_index s' = free_chunk_index s + 1 →
  maps_ok cfg s'.
Proof.
  intros [HI HS HL HT HC HF HB HN] Hcb Hi Hx [Ecbs Ebi Erv Eok Emap Eidx Eslot El Est] Ef.
  destruct (HB c cb i x Hcb Hi Hx) as [Hxc Hxi].
  pose proof (aget_lt _ _ _ Hcb). pose proof (aget_lt _ _ _ Hxc). pose proof (aget_lt _ _ _ Hi).
  split; rewrite ?Ecbs, ?Eidx, ?Eslot, ?Est, ?alen_insert; [lia|lia|lia|lia| | | |].
  - intros c' cb1. rewrite aget_insert by done. case_decide as Hc; [|apply HC]. intros [= <-].
    rewrite Ebi, Erv. subst c'. by apply HC.
  - intros y c'. rewrite aget_insert by done. case_decide as Hy; [intros [= <-]; done|].
    intros Hy1 Hy2. destruct (HF y c' Hy1 Hy2) as (cb1 & i1 & E1 & E2 & E3 & E4).
    rewrite !aget_insert, (decide_False (P := x = y)) by lia. destruct (decide (c = c')) as [<-|].
    + exists cb', i1. assert (cb1 = cb) as -> by congruence. rewrite Emap, aget_insert by done.
      split_and!; [done|done| |by apply Eok]. destruct (decide (i = i1)) as [<-|]; [congruence|done].
    + exists cb1, i1. by split_and!.
  - intros c' cb1 i1 y. rewrite aget_insert by done.
    assert (∀ c0 cb0, aget (cb_list s) c0 = Some cb0 → aget (chunk_map cb0) i1 = Some y → y ≠ -1 →
      (c0 ≠ c ∨ i1 ≠ i) → slab_map s y = Some c0 ∧ slab_slot s y = Some i1 ∧ x ≠ y) as Hne.
    { intros c0 cb0 Hc0 Hy1 Hy2 Hor. destruct (HB c0 cb0 i1 y Hc0 Hy1 Hy2) as [E1 E2]. split_and!; [done..|].
      intros <-. destruct Hor; congruence. }
    destruct (decide (c = c')) as [<-|].
    + intros [= <-]. rewrite Emap, aget_insert by done. destruct (decide (i = i1)) as [<-|]; [by intros [= <-]|].
      intros Hy1 Hy2. destruct (Hne c cb) as (? & ? & ?); [done..|by right|].
      by rewrite !aget_insert, !decide_False by lia.
    + intros Hc1 Hy1 Hy2. destruct (Hne c' cb1) as (? & ? & ?); [done..|by left|].
      by rewrite !aget_insert, !decide_False by lia.
  - rewrite Ef, HN, (mapped_chunks_insert _ _ _ _ Hxc). unfold mapped1, NO_CB_MAPPED.
    rewrite decide_False, decide_True by (apply aget_lt in Hcb; lia). lia.
Qed.

(** ** Session creation *)

Lemma aget_fmap {A B} (f : A → B) l i : aget (f <$> l) i = f <$> aget l i.
Proof. unfold aget. destruct (i <? 0); [done|]. apply list_lookup_fmap. Qed.

Lemma aget_seqZ n i x : aget (seqZ 0 n) i = Some x ↔ x = i ∧ 0 <= i < n.
Proof.
  rewrite aget_Some, lookup_seqZ. split; [intros (? & ? & ?); lia|intros (? & ?); lia].
Qed.

Lemma mapped_chunks_none m : (∀ x c, aget m x = Some c → c = NO_CB_MAPPED) → mapped_chunks m = 0.
Proof.
  induction m as [|c m IH]; intros H; [done|]. rewrite mapped_chunks_cons, (H 0 c eq_refl), IH; [done|].
  intros x d Hx. apply (H (x + 1)). apply aget_Some in Hx as [? Hx]. apply aget_Some. split; [lia|].
  by replace (Z.to_nat (x + 1)) with (S (Z.to_nat x)) by lia.
Qed.

(** The maps of a new session. *)
Record fresh_maps (cfg : config) (num_cb : Z) (s : session) : Prop := {
  fr_cbs : cb_list s = zero_cb <$> seqZ 0 num_cb;
  fr_states : cb_state_list s = replicate (Z.to_nat num_cb) CB_IDLE;
  fr_num : cb_num s = num_cb;
  fr_index : alen (cb_index_map s) = DISKSIZE_G cfg;
  fr_slot : alen (chunk_map_cb_chunk s) = DISKSIZE_G cfg;
  fr_list : alen (unmapped_chunk_list s) = DISKSIZE_G cfg;
  fr_free : free_chunk_index s = DISKSIZE_G cfg - 1;
  fr_chunks : ∀ x, 0 <= x < DISKSIZE_G cfg →
    slab_map s x = Some NO_CB_MAPPED ∧ slab_slot s x = Some (-1) ∧
    aget (unmapped_chunk_list s) x = Some (DATASIZE_G cfg - 1 - x)
}.

Lemma fresh_maps_ok cfg num_cb s : fresh_maps cfg num_cb s → maps_ok cfg s.
Proof.
  intros [Hcb Hst Hn HI HS HL HF Hx]. split; [done|done|done| | | | |].
  - rewrite Hst, Hcb. unfold alen. by rewrite length_replicate, length_fmap, length_seqZ.
  - intros c cb. rewrite Hcb, aget_fmap. intros (i & [-> _]%aget_seqZ & ->)%fmap_Some.
    split; [done|]. split; reflexivity.
  - intros x c Hm Hc. pose proof (aget_lt _ _ _ Hm). destruct (Hx x) as [E _]; [lia|]. congruence.
  - intros c cb i x. rewrite Hcb, aget_fmap. intros (i' & _ & ->)%fmap_Some. cbn.
    by intros [_ ?%lookup_nil_Some]%aget_Some || by intros [_ ?]%aget_Some.
  - rewrite HF, mapped_chunks_none; [lia|]. intros x c Hm. pose proof (aget_lt _ _ _ Hm).
    destruct (Hx x) as [E _]; [lia|]. congruence.
Qed.

(** The connections of all queues, or [-ENOMEM]. *)
Lemma create_conns kzalloc_ok submit_queues num_cb :
  ∃ k ret conns, for_brk 0 submit_queues (λ i '(_, conns),
      let '(ret, c) := IS_create_conn (kzalloc_ok i) num_cb in
      Some (match c with
            | Some c => if ret =? 0 then Next (ret, conns ++ [c]) else Stop (ret, conns)
            | None => Stop (ret, conns)
            end)) (0, []) = Some (k, (ret, conns)) ∧
    ((ret = 0 ∧ (∀ i, 0 <= i < submit_queues → kzalloc_ok i = true) ∧
        conns = replicate (Z.to_nat submit_queues) (replicate (Z.to_nat num_cb) None)) ∨
     (ret = - ENOMEM ∧ ∃ i, 0 <= i < submit_queues ∧ kzalloc_ok i = false)).
Proof.
  destruct (Z.le_gt_cases 0 submit_queues) as [Hq|Hq].
  - match goal with |- context [for_brk 0 submit_queues ?body ?s0] =>
      destruct (for_brk_inv
        (λ i st, st.1 = 0 ∧ (∀ j, 0 <= j < i → kzalloc_ok j = true) ∧
                 st.2 = replicate (Z.to_nat i) (replicate (Z.to_nat num_cb) None))
        (λ i st, st.1 = - ENOMEM ∧ kzalloc_ok i = false) body 0 submit_queues s0)
        as (k & [ret conns] & E & H) end; [done| | |].
    + split_and!; [done|intros j ?; lia|done].
    + intros i [r l] Hi (E0 & Hall & E1). cbn in E0, E1. subst. destruct (kzalloc_ok i) eqn:Ek; cbn [IS_create_conn].
      * eexists. split; [done|]. cbn. split_and!; [done| |].
        { intros j Hj. destruct (decide (j = i)) as [->|]; [done|]. apply Hall. lia. }
        { replace (Z.to_nat (i + 1)) with (Z.to_nat i + 1)%nat by lia. by rewrite replicate_add. }
      * eexists. split; [done|]. done.
    + exists k, ret, conns. split; [exact E|]. cbn in H.
      destruct H as [(-> & -> & Hall & ->)|(Hk & -> & Hf)]; [by left|right]. eauto.
  - exists 0, 0, []. unfold for_brk. replace (Z.to_nat (submit_queues - 0)) with 0%nat by lia. split; [done|].
    left. split; [done|]. split; [intros i ?; lia|]. by replace (Z.to_nat submit_queues) with 0%nat by lia.
Qed.

(** Session creation leaves a consistent session: every server idle, every slab
    unmapped, the free index at the top of the list, fault injection off, and one empty
    context pool per connection and server; when a connection cannot be allocated it
    returns [-ENOMEM]. *)
Theorem IS_session_create_correct cfg kzalloc_ok submit_queues num_cb s0 :
  0 <= DISKSIZE_G cfg → 0 <= NDISKS cfg → seedable cfg (IS_fault_injection s0) →
  ∃ ret s, IS_session_create cfg kzalloc_ok submit_queues num_cb s0 = Some (ret, s) ∧
    fresh_maps cfg num_cb s ∧ maps_ok cfg s ∧ mapped_cb_num s = 0 ∧
    (ret = 0 ↔ ∀ i, 0 <= i < submit_queues → kzalloc_ok i = true) ∧
    (ret = 0 → IS_conns s = replicate (Z.to_nat submit_queues) (replicate (Z.to_nat num_cb) None) ∧
      fault_ok cfg (IS_fault_injection s) ∧ inject_fault (IS_fault_injection s) = 0) ∧
    (ret ≠ 0 → ret = - ENOMEM).
Proof.
  intros Hd Hn Hseed. unfold IS_session_create.
  match goal with |- context [for_up 0 (DISKSIZE_G cfg) ?body ?s] => destruct (for_up_inv (λ i t,
    cb_list t = zero_cb <$> seqZ 0 num_cb ∧ cb_state_list t = replicate (Z.to_nat num_cb) CB_IDLE ∧
    cb_num t = num_cb ∧ alen (cb_index_map t) = DISKSIZE_G cfg ∧ alen (chunk_map_cb_chunk t) = DISKSIZE_G cfg ∧
    alen (unmapped_chunk_list t) = DISKSIZE_G cfg ∧ free_chunk_index t = DISKSIZE_G cfg - 1 ∧
    capacity_g t = DATASIZE_G cfg ∧ mapped_cb_num t = 0 ∧ IS_fault_injection t = IS_fault_injection s0 ∧
    ∀ x, 0 <= x < i → slab_map t x = Some NO_CB_MAPPED ∧ slab_slot t x = Some (-1) ∧
      aget (unmapped_chunk_list t) x = Some (DATASIZE_G cfg - 1 - x)) body 0 (DISKSIZE_G cfg) s)
    as (t & -> & Hcb & Hst & Hnum & HI & HS & HL & HF & HC & Hm & Hf & Hx) end; [done| | |].
  - cbn. split_and!; try done; [arr_lia..|lia].
  - intros i t Hi (Hcb & Hst & Hnum & HI & HS & HL & HF & HC & Hm & Hf & Hx).
    rewrite !aset_Some by lia. step_bind. eexists; split; [done|]. cbn. rewrite !alen_insert.
    split_and!; try done. intros x Hx'. rewrite !aget_insert by lia. rewrite HC. case_decide as E; [by subst|].
    apply Hx. lia.
  - step_bind. assert (∀ t', cb_list t' = cb_list t → cb_state_list t' = cb_state_list t → cb_num t' = cb_num t →
      cb_index_map t' = cb_index_map t → chunk_map_cb_chunk t' = chunk_map_cb_chunk t →
      unmapped_chunk_list t' = unmapped_chunk_list t → free_chunk_index t' = free_chunk_index t →
      fresh_maps cfg num_cb t') as Hfresh.
    { intros t' E1 E2 E3 E4 E5 E6 E7. split; rewrite ?E1, ?E2, ?E3, ?E4, ?E5, ?E6, ?E7; done. }
    destruct (create_conns kzalloc_ok submit_queues num_cb) as (k & ret & conns & -> & Hret). step_bind.
    destruct Hret as [(-> & Hall & ->)|(-> & i & Hi & Hk)].
    + destruct (init_uniform_distr_correct cfg
        {| inject_fault := 0; fault_rate := fault_rate (IS_fault_injection t);
           disk_fault := disk_fault (IS_fault_injection t) |} 1000000000) as (f & E & Hok & Hin & _);
        [done|by rewrite Hf|unfold rate_ok; lia|].
      cbn [Z.eqb]. change (IS_fault_injection (t <| IS_conns := _ |>)) with (IS_fault_injection t).
      unfold IS_fault_injection_init. rewrite E. step_bind. do 2 eexists; split; [done|].
      split; [by apply Hfresh|]. split; [by eapply fresh_maps_ok, Hfresh|]. done.
    + change (- ENOMEM =? 0) with false. cbv iota. do 2 eexists; split; [done|].
      split; [by apply Hfresh|]. split; [by eapply fresh_maps_ok, Hfresh|].
      split_and!; [done| |done|done]. split; [done|]. intros Hall. rewrite Hall in Hk by done. done.
Qed.

Definition zero_session (cfg : config) : session := {|
  mapped_cb_num := 0; cb_list := []; cb_num := 0; cb_state_list := []; IS_conns := []; capacity := 0;
  capacity_g := 0; cb_index_map := []; chunk_map_cb_chunk := []; unmapped_chunk_list := [];
  free_chunk_index := 0; IS_fault_injection := zero_fault cfg |}.

Lemma IS_session_create_correct_witness :
  ∃ ret s, IS_session_create rep (λ _, true) 8 5 (zero_session rep) = Some (ret, s) ∧
    fresh_maps rep 5 s ∧ maps_ok rep s ∧ mapped_cb_num s = 0 ∧
    (ret = 0 ↔ ∀ i, 0 <= i < 8 → true = true) ∧
    (ret = 0 → IS_conns s = replicate (Z.to_nat 8) (replicate (Z.to_nat 5) None) ∧
      fault_ok rep (IS_fault_injection s) ∧ inject_fault (IS_fault_injection s) = 0) ∧
    (ret ≠ 0 → ret = - ENOMEM).
Proof.
  apply (IS_session_create_correct rep (λ _, true) 8 5 (zero_session rep));
    [vm_compute; discriminate|cbn; lia|exact zero_fault_seedable].
Defined.

(** ** Mapping messages *)

(** What a message maps: the first chunk with a key. *)
Definition offers (m : rdma_info) (i rkey addr : Z) : Prop :=
  aget (ri_rkey m) i = Some rkey ∧ rkey ≠ 0 ∧ aget (ri_buf m) i = Some addr ∧
  ∀ j, 0 <= j < i → aget (ri_rkey m) j = Some 0.

(** [s'] is [s] with session chunk [x] served by chunk [i] of server [c]. *)
Record chunk_added (s s' : session) (c x i rkey addr : Z) : Prop := {
  ad_map : slab_map s' x = Some c;
  ad_slot : slab_slot s' x = Some i;
  ad_remote : ∃ cb', aget (cb_list s') c = Some cb' ∧ aget (chunk_map cb') i = Some x ∧
    aget (chunk_list cb') i = Some {| remote_rkey := ntohl rkey; remote_addr := ntohll addr |} ∧
    aget (remote_mapped cb') i = Some CHUNK_MAPPED ∧ c_state cb' = C_READY;
  ad_others : ∀ y, y ≠ x → slab_map s' y = slab_map s y ∧ slab_slot s' y = slab_slot s y;
  ad_cbs : ∀ d, d ≠ c → aget (cb_list s') d = aget (cb_list s) d;
  ad_free : free_chunk_index s' = free_chunk_index s - 1
}.

Lemma single_chunk_init_correct cfg s c cb i rkey addr :
  maps_ok cfg s → aget (cb_list s) c = Some cb → cb_ok cb →
  slab_map s (ri_size_gb (recv_buf cb)) = Some NO_CB_MAPPED →
  offers (recv_buf cb) i rkey addr → aget (chunk_map cb) i = Some (-1) →
  ∃ s', IS_single_chunk_init s c = Some s' ∧ maps_ok cfg s' ∧
    chunk_added s s' c (ri_size_gb (recv_buf cb)) i rkey addr ∧ cb_state_list s' = cb_state_list s.
Proof.
  intros Hok Hcb Hcok Hx (Hrk & Hrk0 & Had & Hfirst) Hi. set (x := ri_size_gb (recv_buf cb)) in *.
  pose proof (aget_lt _ _ _ Hi) as Hi'. pose proof (aget_lt _ _ _ Hx) as Hx'.
  pose proof (aget_lt _ _ _ Hcb) as Hc'. destruct Hcok as [HK HR HM HE]. pose proof Hok as [HI HS HL HT HC HF HB HN].
  unfold IS_single_chunk_init. rewrite Hcb. step_bind. fold x.
  set (cb1 := cb <| chunk_list := <[Z.to_nat i := {| remote_rkey := ntohl rkey; remote_addr := ntohll addr |}]> (chunk_list cb) |>).
  set (cb2 := cb1 <| chunk_map := <[Z.to_nat i := x]> (chunk_map cb) |> <| chunk_size_g := chunk_size_g cb + 1 |>
    <| c_state := C_READY |> <| remote_mapped := <[Z.to_nat i := CHUNK_MAPPED]> (remote_mapped cb) |>).
  set (s' := s <| cb_list := <[Z.to_nat c := cb2]> (cb_list s) |> <| free_chunk_index := free_chunk_index s - 1 |>
    <| chunk_map_cb_chunk := <[Z.to_nat x := i]> (chunk_map_cb_chunk s) |>
    <| cb_index_map := <[Z.to_nat x := c]> (cb_index_map s) |>).
  erewrite (for_brk_first (λ _, true) _ 0 i MAX_MR_SIZE_GB s s'); [|lia| |].
  - step_bind. exists s'. split; [done|]. assert (remapped s s' c cb cb2 x c i i x) as Hre.
    { split; cbn; rewrite ?alen_insert; try done. intros _. split; cbn; by rewrite ?alen_insert. }
    split; [|split; [|done]].
    + eapply maps_attach; [exact Hok|exact Hcb|done|exact Hx|exact Hi|exact Hre|done].
    + split; cbn.
      * by rewrite aget_insert, decide_True by lia.
      * by rewrite aget_insert, decide_True by lia.
      * exists cb2. rewrite aget_insert, decide_True by lia. cbn. rewrite !aget_insert, !decide_True by lia. done.
      * intros y Hy. by rewrite !aget_insert, !decide_False by lia.
      * intros d Hd. by rewrite aget_insert, decide_False by lia.
      * done.
  - intros j Hj. rewrite Hfirst by done. done.
  - rewrite Hrk. step_bind. rewrite (proj2 (truthy_true rkey)) by done. rewrite Had. step_bind.
    erewrite with_cb_Some; [|done|unfold store_remote; by rewrite aset_Some by lia]. step_bind.
    cbn [chunk_map_cb_chunk update_field]. 
    change (chunk_map_cb_chunk (s <| cb_list := ?l |> <| free_chunk_index := ?f |>)) with (chunk_map_cb_chunk s).
    cbn. rewrite aset_Some by lia. step_bind.
    erewrite with_cb_Some; [|cbn; rewrite aget_insert, decide_True by lia; done|cbn; rewrite !aset_Some by lia; done].
    step_bind. cbn. rewrite (proj1 (HC c cb Hcb)), aset_Some by lia. step_bind.
    unfold s'. rewrite list_insert_insert_eq. done.
Qed.

(** The maps only depend on some fields. *)
Lemma maps_ok_frame cfg s s' c cb cb' :
  maps_ok cfg s → aget (cb_list s) c = Some cb → cb_list s' = <[Z.to_nat c := cb']> (cb_list s) →
  cb_index cb' = cb_index cb → recv_buf cb' = recv_buf cb → (cb_ok cb → cb_ok cb') → chunk_map cb' = chunk_map cb →
  cb_index_map s' = cb_index_map s → chunk_map_cb_chunk s' = chunk_map_cb_chunk s →
  unmapped_chunk_list s' = unmapped_chunk_list s → free_chunk_index s' = free_chunk_index s →
  alen (cb_state_list s') = alen (cb_state_list s) → maps_ok cfg s'.
Proof.
  intros [HI HS HL HT HC HF HB HN] Hcb E1 E2 E3 E4 E5 E6 E7 E8 E9 E10. pose proof (aget_lt _ _ _ Hcb).
  split; rewrite ?E1, ?E6, ?E7, ?E8, ?E9, ?E10, ?alen_insert; try done.
  - intros c' cb1. rewrite aget_insert by done. case_decide as Hc; [|apply HC]. intros [= <-].
    subst c'. rewrite E2, E3. by apply HC.
  - intros x c' Hx Hc. destruct (HF x c' Hx Hc) as (cb1 & i & F1 & F2 & F3 & F4).
    destruct (decide (c = c')) as [<-|].
    + assert (cb1 = cb) as -> by congruence. exists cb', i. rewrite aget_insert, decide_True by done.
      rewrite E5. auto.
    + exists cb1, i. by rewrite aget_insert, decide_False by done.
  - intros c' cb1 i x. rewrite aget_insert by done. case_decide as Hc; [|apply HB]. intros [= <-].
    subst c'. rewrite E5. by apply HB.
Qed.

Lemma client_recv_single cfg s c cb i rkey addr :
  maps_ok cfg s → aget (cb_list s) c = Some cb → cb_ok cb →
  ri_type (recv_buf cb) = INFO_SINGLE → test_state_num CONNECTED <= test_state_num (cb_st cb) →
  slab_map s (ri_size_gb (recv_buf cb)) = Some NO_CB_MAPPED →
  offers (recv_buf cb) i rkey addr → aget (chunk_map cb) i = Some (-1) →
  ∃ s', client_recv s c true = Some (0, s') ∧ maps_ok cfg s' ∧
    chunk_added s s' c (ri_size_gb (recv_buf cb)) i rkey addr ∧
    aget (cb_state_list s') c = Some CB_MAPPED.
Proof.
  intros Hok Hcb Hcok Hty Hst Hx Hoff Hi. pose proof Hok as [HI HS HL HT HC HF HB HN].
  pose proof (aget_lt _ _ _ Hcb) as Hc'. unfold client_recv. rewrite Hcb. step_bind. cbn [negb].
  destruct (Z.ltb_spec (test_state_num (cb_st cb)) (test_state_num CONNECTED)); [lia|].
  rewrite Hty, (proj1 (HC c cb Hcb)), aset_Some by lia. step_bind.
  set (s1 := s <| cb_state_list := _ |>). set (cb1 := cb <| cb_st := WAIT_OPS |>).
  erewrite with_cb_Some; [|done|done]. step_bind. set (s2 := s1 <| cb_list := _ |>).
  assert (maps_ok cfg s2) as Hok2.
  { eapply (maps_ok_frame cfg s s2 c cb cb1); try done; [by intros []|]. unfold s2. cbn. by rewrite alen_insert. }
  assert (cb_ok cb1) as Hcok1 by (by destruct Hcok).
  assert (aget (cb_list s2) c = Some cb1) as Hcb1 by (unfold s2; cbn; by rewrite aget_insert, decide_True by lia).
  destruct (single_chunk_init_correct cfg s2 c cb1 i rkey addr) as (s' & -> & Hok' & [A1 A2 A3 A4 A5 A6] & Est);
    [done..|]. step_bind. exists s'. split; [done|]. split; [done|].
  split; [|rewrite Est; unfold s2; cbn; by rewrite aget_insert, decide_True by lia].
  split; [done|done|done|done| |done].
  intros d Hd. rewrite A5 by done. unfold s2. cbn. by rewrite aget_insert, decide_False by lia.
Qed.

(** An [INFO_SINGLE] message from a connected server maps the chunk that was asked
    for: the session chunk points at the server and slot of the first key, the slot back
    at the session chunk, with key and address converted from network order; nothing
    else moves, the server becomes [CB_MAPPED], and the maps stay consistent. *)
Theorem client_recv_info_single cfg s c cb i rkey addr :
  maps_ok cfg s → aget (cb_list s) c = Some cb → cb_ok cb →
  ri_type (recv_buf cb) = INFO_SINGLE → test_state_num CONNECTED <= test_state_num (cb_st cb) →
  slab_map s (ri_size_gb (recv_buf cb)) = Some NO_CB_MAPPED →
  offers (recv_buf cb) i rkey addr → aget (chunk_map cb) i = Some (-1) →
  ∃ s', client_recv s c true = Some (0, s') ∧ maps_ok cfg s' ∧
    chunk_added s s' c (ri_size_gb (recv_buf cb)) i rkey addr ∧
    aget (cb_state_list s') c = Some CB_MAPPED.
Proof. apply client_recv_single. Qed.

(** A session with one connected server whose slot 2 is offered for slab 0. *)
Definition offer_msg : rdma_info :=
  {| ri_buf := <[2%nat := 0x0102]> (replicate 32 0); ri_rkey := <[2%nat := 0x0304]> (replicate 32 0);
     ri_size_gb := 0; ri_type := INFO_SINGLE |}.
Definition connected_cb (i : Z) (m : rdma_info) : kernel_cb :=
  (default (zero_cb i) (kernel_cb_init true (zero_cb i))) <| cb_st := AFTER_FREE_MEM |> <| recv_buf := m |>.
Definition offer_session : session :=
  (zero_session rep) <| cb_num := 2 |> <| cb_state_list := [CB_CONNECTED; CB_IDLE] |>
    <| cb_list := [connected_cb 0 offer_msg; zero_cb 1] |> <| cb_index_map := [-1; -1; -1] |>
    <| chunk_map_cb_chunk := [-1; -1; -1] |> <| unmapped_chunk_list := [0; -1; -2] |> <| free_chunk_index := 2 |>.

Lemma offer_session_ok : maps_ok rep offer_session.
Proof.
  split; try reflexivity.
  - intros c cb H. pose proof (aget_lt _ _ _ H) as Hc. change (alen (cb_list offer_session)) with 2 in Hc.
    assert (c = 0 ∨ c = 1) as [-> | ->] by lia; injection H as <-; split; (done || split; reflexivity).
  - intros x c H Hc. pose proof (aget_lt _ _ _ H) as Hx. change (alen (cb_index_map offer_session)) with 3 in Hx.
    assert (x = 0 ∨ x = 1 ∨ x = 2) as [-> | [-> | ->]] by lia; injection H as <-; done.
  - intros c cb i x H Hi Hx. pose proof (aget_lt _ _ _ H) as Hc. change (alen (cb_list offer_session)) with 2 in Hc.
    assert (c = 0 ∨ c = 1) as [-> | ->] by lia; injection H as <-.
    + apply aget_Some in Hi as [_ Hi]. apply (lookup_replicate 32 (-1)) in Hi as [-> _]. by destruct Hx.
    + apply aget_lt in Hi. change (alen (chunk_map (zero_cb 1))) with 0 in Hi. lia.
Qed.

Lemma client_recv_info_single_witness :
  ∃ s', client_recv offer_session 0 true = Some (0, s') ∧ maps_ok rep s' ∧
    chunk_added offer_session s' 0 0 2 0x0304 0x0102 ∧ aget (cb_state_list s') 0 = Some CB_MAPPED.
Proof.
  apply (client_recv_info_single rep offer_session 0 (connected_cb 0 offer_msg) 2 0x0304 0x0102);
    [exact offer_session_ok|reflexivity|split; reflexivity|reflexivity|vm_compute; discriminate|reflexivity| |reflexivity].
  split_and!; [reflexivity|lia|reflexivity|]. intros j Hj. assert (j = 0 ∨ j = 1) as [-> | ->] by lia; reflexivity.
Defined.

(** The list of unmapped chunks as [IS_session_create] leaves it ([fresh_maps]). *)
Definition new_list (cfg : config) (s : session) : Prop :=
  free_chunk_index s = DISKSIZE_G cfg - 1 ∧
  ∀ x, 0 <= x < DISKSIZE_G cfg → aget (unmapped_chunk_list s) x = Some (DATASIZE_G cfg - 1 - x).

(** The list of unmapped chunks of a new session ends in negative indices whenever
    there are more slabs than gigabytes of capacity, as in both configurations; an
    [INFO] message with a key in its first slot would then index the maps below 0. *)
Theorem chunk_list_init_undefined cfg s c cb rkey :
  new_list cfg s → 0 < DATASIZE_G cfg < DISKSIZE_G cfg →
  aget (cb_list s) c = Some cb → cb_ok cb → info_ok (recv_buf cb) →
  aget (ri_rkey (recv_buf cb)) 0 = Some rkey → rkey ≠ 0 →
  IS_chunk_list_init s c = None.
Proof.
  intros (HF & Hx) Hd Hcb [HK HR HM HE] [Hb Hr] Hrk Hrk0. unfold IS_chunk_list_init. rewrite Hcb. step_bind.
  assert (0 < MAX_MR_SIZE_GB) as Hpos by done.
  rewrite for_up_step by done. rewrite Hrk. step_bind. rewrite (proj2 (truthy_true rkey)) by done.
  destruct (proj2 (aget_is_Some (ri_buf (recv_buf cb)) 0)) as [addr ->]; [lia|]. step_bind.
  pose proof (aget_lt _ _ _ Hcb).
  erewrite with_cb_Some; [|done|unfold store_remote; rewrite aset_Some by lia; cbn;
    by rewrite aset_Some by lia]. step_bind. cbn.
  rewrite HF. rewrite (Hx (DISKSIZE_G cfg - 1)) by lia. step_bind.
  rewrite (proj2 (aset_None (cb_index_map s) (DATASIZE_G cfg - 1 - (DISKSIZE_G cfg - 1)) _)) by lia. reflexivity.
Qed.

Definition full_msg : rdma_info :=
  {| ri_buf := replicate 32 7; ri_rkey := replicate 32 1; ri_size_gb := 32; ri_type := INFO |}.

Lemma chunk_list_init_undefined_witness :
  IS_chunk_list_init (offer_session <| cb_list := [connected_cb 0 full_msg; zero_cb 1] |>) 0 = None.
Proof.
  apply (chunk_list_init_undefined rep _ 0 (connected_cb 0 full_msg) 1);
    [split; [reflexivity|]|split; reflexivity|reflexivity|split; reflexivity|split; reflexivity|reflexivity|lia].
  intros x Hx. change (DISKSIZE_G rep) with 3 in Hx.
  assert (x = 0 ∨ x = 1 ∨ x = 2) as [-> | [-> | ->]] by lia; reflexivity.
Defined.

(** ** Unmapping a lost server *)

(** Server of chunk [x] once the first [i] slots of server [c] are gone. *)
Definition without (s : session) (c i x v : Z) : Z :=
  if bool_decide (v = c) && (default (-1) (slab_slot s x) <? i) then NO_CB_MAPPED else v.

Lemma without_0 cfg s c x v : maps_ok cfg s → slab_map s x = Some v → without s c 0 x v = v.
Proof.
  intros Hok Hx. unfold without. destruct (bool_decide_reflect (v = c)) as [->|]; [|done]. cbn.
  destruct (decide (c = NO_CB_MAPPED)) as [->|Hc]; [by case_match|].
  destruct (m_fwd cfg s Hok x c Hx Hc) as (cb & i & _ & E & Ei%aget_lt & _). rewrite E. cbn.
  destruct (Z.ltb_spec i 0); [lia|done].
Qed.

(** Going from slot [i] to [i + 1] changes the chunk that slot [i] serves. *)
Lemma without_step cfg s c cb i x y v :
  maps_ok cfg s → aget (cb_list s) c = Some cb → aget (chunk_map cb) i = Some x → slab_map s y = Some v →
  without s c (i + 1) y v = if decide (y = x) then NO_CB_MAPPED else without s c i y v.
Proof.
  intros Hok Hcb Hi Hy. pose proof (aget_lt _ _ _ Hcb). unfold without.
  destruct (decide (y = x)) as [->|Hne].
  - pose proof (aget_lt _ _ _ Hy). destruct (m_bwd cfg s Hok c cb i x Hcb Hi) as [E1 E2]; [lia|].
    rewrite E2. cbn. assert (v = c) as -> by congruence. rewrite bool_decide_true by done.
    by destruct (Z.ltb_spec i (i + 1)); [|lia].
  - destruct (bool_decide_reflect (v = c)) as [->|]; [|done]. cbn.
    destruct (m_fwd cfg s Hok y c Hy) as (cb1 & j & E1 & E2 & E3 & _); [unfold NO_CB_MAPPED; lia|].
    rewrite E2. cbn. assert (cb1 = cb) as -> by congruence.
    destruct (Z.ltb_spec j (i + 1)), (Z.ltb_spec j i); try done; [|lia].
    assert (j = i) as -> by lia. congruence.
Qed.

Lemma without_all cfg s c x v :
  maps_ok cfg s → slab_map s x = Some v →
  without s c MAX_MR_SIZE_GB x v = if decide (v = c) then NO_CB_MAPPED else v.
Proof.
  intros Hok Hx. unfold without. destruct (decide (v = c)) as [->|];
    [rewrite bool_decide_true by done|by rewrite bool_decide_false]. cbn.
  destruct (decide (c = NO_CB_MAPPED)) as [->|Hc]; [by case_match|].
  destruct (m_fwd cfg s Hok x c Hx Hc) as (cb & i & _ & E & Ei & Hcb). rewrite E. cbn.
  apply aget_lt in Ei. rewrite (c_map _ Hcb) in Ei. by destruct (Z.ltb_spec i MAX_MR_SIZE_GB); [|lia].
Qed.

(** What unmapping leaves alone. *)
Record unmapping (s t : session) (c : Z) (cb : kernel_cb) : Prop := {
  un_cb : ∃ cb', cb_list t = <[Z.to_nat c := cb']> (cb_list s) ∧ cb_index cb' = cb_index cb ∧
    recv_buf cb' = recv_buf cb ∧ chunk_map cb' = chunk_map cb ∧ cb_ok cb';
  un_slot : chunk_map_cb_chunk t = chunk_map_cb_chunk s;
  un_list : unmapped_chunk_list t = unmapped_chunk_list s;
  un_free : free_chunk_index t = free_chunk_index s;
  un_states : cb_state_list t = cb_state_list s
}.

Lemma disconnect_unmap_correct cfg s c cb :
  maps_ok cfg s → aget (cb_list s) c = Some cb → cb_ok cb →
  ∃ t, disconnect_unmap s c = Some t ∧ unmapping s t c cb ∧ alen (cb_index_map t) = alen (cb_index_map s) ∧
    ∀ x v, slab_map s x = Some v → slab_map t x = Some (if decide (v = c) then NO_CB_MAPPED else v).
Proof.
  intros Hok Hcb Hcok. pose proof (aget_lt _ _ _ Hcb) as Hc.
  destruct (for_up_inv (λ i t, unmapping s t c cb ∧ alen (cb_index_map t) = alen (cb_index_map s) ∧
      ∀ x v, slab_map s x = Some v → slab_map t x = Some (without s c i x v))
    (λ i s, cb ← aget (cb_list s) c;
      sess_chunk_index ← aget (chunk_map cb) i;
      if negb (sess_chunk_index =? -1) then
        s ← with_cb s c (λ cb, r ← aset (remote_mapped cb) i CHUNK_UNMAPPED; Some (cb <| remote_mapped := r |>));
        m ← aset (cb_index_map s) sess_chunk_index NO_CB_MAPPED;
        Some (s <| cb_index_map := m |>)
      else Some s) 0 MAX_MR_SIZE_GB s) as (t & E & Ht & Hl & Hx); [done| | |].
  - split; [|split; [done|]].
    + split; try done. exists cb. split_and!; try done. symmetry. by apply list_insert_id, aget_Some.
    + intros x v Hx. by rewrite (without_0 cfg).
  - intros i t Hi ([(cb' & Ecb & E1 & E2 & E3 & Hcb') U2 U3 U4 U5] & Hl & Hx).
    rewrite Ecb, aget_insert, decide_True by done. step_bind. rewrite E3.
    destruct (proj2 (aget_is_Some (chunk_map cb) i)) as [x Ex]; [rewrite (c_map _ Hcok); lia|].
    rewrite Ex. step_bind. destruct (Z.eqb_spec x (-1)) as [->|Hne]; cbn [negb].
    + eexists; split; [done|]. split; [by split; eauto 6|]. split; [done|]. intros y v Hy.
      rewrite (Hx y v Hy), (without_step cfg s c cb i (-1)) by done. pose proof (aget_lt _ _ _ Hy).
      by rewrite decide_False by lia.
    + destruct Hcb' as [K1 K2 K3 K4].
      erewrite with_cb_Some; [|by rewrite Ecb, aget_insert, decide_True by done|by rewrite aset_Some by lia].
      step_bind. destruct (m_bwd cfg s Hok c cb i x Hcb Ex Hne) as [Exc _]. pose proof (aget_lt _ _ _ Exc).
      cbn. rewrite aset_Some by lia. eexists; split; [done|]. cbn. rewrite alen_insert.
      split; [|split; [done|]].
      * split; cbn; try done. eexists. rewrite Ecb, list_insert_insert_eq. split; [done|]. cbn.
        split_and!; try done. split; cbn; rewrite ?alen_insert; done.
      * intros y v Hy. rewrite aget_insert by lia. rewrite (without_step cfg s c cb i x) by done.
        destruct (decide (x = y)) as [->|]; [by rewrite decide_True|]. rewrite decide_False by done. by apply Hx.
  - exists t. split; [exact E|]. split_and!; [done..|]. intros x v Hxv. rewrite (Hx x v Hxv).
    by rewrite (without_all cfg).
Qed.

(** The state of the last loop at slot [i]: consistent for the ghost map in which only
    the first [i] slots of the lost server are unmapped. *)
Record freeing (cfg : config) (s t0 : session) (c : Z) (i : Z) (t : session) : Prop := {
  fg_ok : ∃ g, alen g = alen (cb_index_map s) ∧ maps_ok cfg (t <| cb_index_map := g |>) ∧
    ∀ x v, slab_map s x = Some v → aget g x = Some (without s c i x v);
  fg_index : cb_index_map t = cb_index_map t0;
  fg_states : cb_state_list t = cb_state_list t0;
  fg_cb : ∃ cb, aget (cb_list t) c = Some cb ∧ cb_ok cb ∧
    (∀ j, 0 <= j < i → aget (chunk_map cb) j = Some (-1)) ∧
    ∀ cb0 j, aget (cb_list s) c = Some cb0 → i <= j → aget (chunk_map cb) j = aget (chunk_map cb0) j;
  fg_slot : ∀ y v, slab_map s y = Some v → v ≠ c → slab_slot t y = slab_slot s y;
  fg_others : ∀ d, d ≠ c → aget (cb_list t) d = aget (cb_list s) d
}.

Lemma freeing_step cfg s t0 c cb0 i t :
  maps_ok cfg s → aget (cb_list s) c = Some cb0 → cb_ok cb0 → 0 <= i < MAX_MR_SIZE_GB →
  freeing cfg s t0 c i t → ∃ t', disconnect_free_body c i t = Some t' ∧ freeing cfg s t0 c (i + 1) t'.
Proof.
  intros Hok Hcb0 Hcok Hi [(g & Lg & Hg & Hgx) HI HST (cb & Hcb & Hcbok & Hdone & Hrest) HSL HO].
  pose proof (aget_lt _ _ _ Hcb) as Hc. unfold disconnect_free_body. rewrite Hcb. step_bind.
  rewrite (Hrest cb0 i Hcb0) by lia.
  destruct (proj2 (aget_is_Some (chunk_map cb0) i)) as [x Ex]; [rewrite (c_map _ Hcok); lia|].
  rewrite Ex. step_bind. assert (aget (chunk_map cb) i = Some x) as Ex' by (by rewrite (Hrest cb0 i Hcb0) by lia).
  assert (∀ y v, slab_map s y = Some v →
    without s c (i + 1) y v = if decide (y = x) then NO_CB_MAPPED else without s c i y v) as Hstep.
  { intros. by eapply without_step. }
  destruct (Z.eqb_spec x (-1)) as [->|Hne]; cbn [negb].
  - exists t. split; [done|]. split; [|done|done| |done|done].
    + exists g. split_and!; [done..|]. intros y v Hy. rewrite (Hgx y v Hy), (Hstep y v Hy).
      pose proof (aget_lt _ _ _ Hy). by rewrite decide_False by lia.
    + exists cb. split_and!; [done..| |].
      * intros j Hj. destruct (Z.eq_dec j i) as [->|]; [done|]. apply Hdone. lia.
      * intros cb1 j E Hj. apply Hrest; [done|lia].
  - destruct (m_bwd cfg _ Hg c cb i x Hcb Ex' Hne) as [Egc Egs]. cbn in Egc, Egs.
    pose proof (aget_lt _ _ _ Egs) as Hs. pose proof (aget_lt _ _ _ Egc) as Hgl.
    destruct (m_bwd cfg s Hok c cb0 i x Hcb0 Ex Hne) as [Exc _].
    rewrite aset_Some by done. step_bind. cbn.
    assert (0 <= free_chunk_index t + 1 < alen (unmapped_chunk_list t)) as Hfr.
    { pose proof (m_free _ _ Hg) as F. pose proof (m_list _ _ Hg) as L. pose proof (m_index _ _ Hg) as I.
      cbn in F, L, I. pose proof (mapped_chunks_range g).
      pose proof (mapped_chunks_pos g x c Egc ltac:(unfold NO_CB_MAPPED; lia)). lia. }
    rewrite aset_Some by done. step_bind.
    set (cb' := cb <| chunk_map := <[Z.to_nat i := -1]> (chunk_map cb) |>).
    assert (0 <= i < alen (chunk_map cb)) as Hi' by (rewrite (c_map _ Hcbok); done).
    erewrite (with_cb_Some _ _ _ cb cb'); [|done|by rewrite aset_Some by lia].
    eexists; split; [done|]. split; cbn.
    + exists (<[Z.to_nat x := NO_CB_MAPPED]> g). rewrite alen_insert. split; [done|]. split.
      * eapply (maps_detach cfg (t <| cb_index_map := g |>) _ c cb cb' x i); [done..| |done].
        split; cbn; rewrite ?alen_insert; try done. intros []. split; cbn; rewrite ?alen_insert; done.
      * intros y v Hy. rewrite aget_insert by done. rewrite (Hstep y v Hy).
        destruct (decide (x = y)) as [->|]; [by rewrite decide_True|]. rewrite decide_False by done. by apply Hgx.
    + done.
    + done.
    + exists cb'. rewrite aget_insert, decide_True by done. split; [done|]. cbn. split.
      { destruct Hcbok. split; cbn; rewrite ?alen_insert; done. }
      split.
      * intros j Hj. rewrite aget_insert by done. case_decide; [done|]. apply Hdone. lia.
      * intros cb1 j E Hj. rewrite aget_insert, decide_False by lia. apply Hrest; [done|lia].
    + intros y v Hy Hv. rewrite aget_insert by done. rewrite decide_False by congruence. by eapply HSL.
    + intros d Hd. rewrite aget_insert, decide_False by done. by apply HO.
Qed.

Lemma disconnect_free_correct cfg s t c cb :
  maps_ok cfg s → aget (cb_list s) c = Some cb → cb_ok cb → unmapping s t c cb →
  alen (cb_index_map t) = alen (cb_index_map s) →
  (∀ x v, slab_map s x = Some v → slab_map t x = Some (if decide (v = c) then NO_CB_MAPPED else v)) →
  ∃ u, disconnect_free t c = Some u ∧ maps_ok cfg u ∧ freeing cfg s t c MAX_MR_SIZE_GB u.
Proof.
  intros Hok Hcb Hcok Hun Hl Hx. unfold disconnect_free. pose proof (aget_lt _ _ _ Hcb) as Hc.
  destruct (for_up_inv (freeing cfg s t c) (disconnect_free_body c) 0 MAX_MR_SIZE_GB t) as (u & E & Hu); [done| | |].
  - destruct Hun as [(cb' & Ecb & E1 & E2 & E3 & Hcb') U2 U3 U4 U5].
    split; [|done|done| | |].
    + exists (cb_index_map s). split; [done|]. split.
      * apply (maps_ok_frame cfg s _ c cb cb'); try done. cbn. by rewrite U5.
      * intros x v Hxv. by rewrite (without_0 cfg).
    + exists cb'. rewrite Ecb, aget_insert, decide_True by done. split_and!; [done|done|lia|].
      intros cb1 j E Hj. by rewrite E3; congruence.
    + intros. by rewrite U2.
    + intros d Hd. by rewrite Ecb, aget_insert, decide_False.
  - intros i v Hi Hv. by eapply freeing_step.
  - exists u. split; [exact E|]. split; [|done]. destruct (fg_ok _ _ _ _ _ _ Hu) as (g & Lg & Hg & Hgx).
    assert (g = cb_index_map u) as ->.
    { rewrite (fg_index _ _ _ _ _ _ Hu). apply array_ext. intros x Hx0.
      destruct (aget (cb_index_map s) x) as [v|] eqn:Ev.
      - rewrite (Hgx x v Ev), (Hx x v Ev). by rewrite (without_all cfg).
      - apply aget_None in Ev. rewrite !(proj2 (aget_None _ x)); [done|lia|lia]. }
    by destruct u.
Qed.

(** The two map passes of [IS_disconnect_handler]: every slab of the lost server, and
    no other, becomes unmapped for requests; afterwards all its slots are free, the free
    index has grown by as many, no array is overrun, and the maps are consistent again. *)
Theorem disconnect_maps_correct cfg s c cb :
  maps_ok cfg s → aget (cb_list s) c = Some cb → cb_ok cb →
  ∃ t u, disconnect_unmap s c = Some t ∧ disconnect_free t c = Some u ∧ maps_ok cfg u ∧
    cb_index_map u = cb_index_map t ∧
    (∀ x v, slab_map s x = Some v →
      slab_map u x = Some (if decide (v = c) then NO_CB_MAPPED else v) ∧
      (v ≠ c → slab_slot u x = slab_slot s x)) ∧
    (∀ d, d ≠ c → aget (cb_list u) d = aget (cb_list s) d) ∧
    ∃ cb', aget (cb_list u) c = Some cb' ∧ ∀ j, 0 <= j < MAX_MR_SIZE_GB → aget (chunk_map cb') j = Some (-1).
Proof.
  intros Hok Hcb Hcok. destruct (disconnect_unmap_correct cfg s c cb) as (t & Et & Hun & Hl & Hx); [done..|].
  destruct (disconnect_free_correct cfg s t c cb) as (u & Eu & Hu & Hfr); [done..|].
  exists t, u. destruct Hfr as [_ HI _ (cb' & Hcb' & _ & Hd & _) HS HO]. split_and!; [done..| |done|by exists cb'].
  intros x v Hxv. rewrite HI. split; [by apply Hx|]. intros Hv. by eapply HS.
Qed.

Definition mapped_session : session := default offer_session (snd <$> client_recv offer_session 0 true).

Lemma disconnect_maps_correct_witness : ∃ cb,
  aget (cb_list mapped_session) 0 = Some cb ∧ slab_map mapped_session 0 = Some 0 ∧
  ∃ t u, disconnect_unmap mapped_session 0 = Some t ∧ disconnect_free t 0 = Some u ∧ maps_ok rep u ∧
    cb_index_map u = cb_index_map t ∧
    (∀ x v, slab_map mapped_session x = Some v →
      slab_map u x = Some (if decide (v = 0) then NO_CB_MAPPED else v) ∧
      (v ≠ 0 → slab_slot u x = slab_slot mapped_session x)) ∧
    (∀ d, d ≠ 0 → aget (cb_list u) d = aget (cb_list mapped_session) d) ∧
    ∃ cb', aget (cb_list u) 0 = Some cb' ∧ ∀ j, 0 <= j < MAX_MR_SIZE_GB → aget (chunk_map cb') j = Some (-1).
Proof.
  eexists. split; [vm_compute; reflexivity|]. split; [vm_compute; reflexivity|].
  eapply (disconnect_maps_correct rep mapped_session 0); [|vm_compute; reflexivity|split; vm_compute; reflexivity].
  eapply (maps_attach rep offer_session _ 0 (connected_cb 0 offer_msg) _ 0 2);
    [exact offer_session_ok|reflexivity|split; reflexivity|reflexivity|reflexivity|split|];
    vm_compute; try reflexivity. intros _. split; reflexivity.
Defined.
