(* ===== verification/Transfer.v ===== *)
(** The data path of both builds, replication and erasure coding ([is_main.c],
    [is_mq.c]): completions, control messages, reads and writes of a slab, and block
    requests. *)

From S2P Require Import Prelude GFVect Config MT Fault State CtxPool Chunks.

(** [memcpy(dst + doff, src + soff, n)]. *)
Definition slice (src : list byte) (off n : Z) : option (list byte) :=
  if (0 <=? off) && (0 <=? n) && (off + n <=? alen src)
  then Some (take (Z.to_nat n) (drop (Z.to_nat off) src)) else None.
Definition overwrite (dst : list byte) (off : Z) (bs : list byte) : option (list byte) :=
  if (0 <=? off) && (off + alen bs <=? alen dst)
  then Some (take (Z.to_nat off) dst ++ bs ++ drop (Z.to_nat (off + alen bs)) dst) else None.
Definition memcpy_at (dst : list byte) (doff : Z) (src : list byte) (soff n : Z) : option (list byte) :=
  bs ← slice src soff n; overwrite dst doff bs.

Section transfer.
Context (cfg : config).
(** Return value of the [n]-th [ib_post_send]/[ib_post_recv]. *)
Context (post_ret : Z → Z).

Definition ib_post (p : post) : M world Z :=
  n ← gets (λ w, alen (posted w)); emit p;; mret (post_ret n).

(** One poll of the completion queue of server [c]: a completion, or none yet ([None]).  When
    its stream has run out, nothing comes in any more.  The poll itself does not fail (a
    negative result would leave [wc] without a value). *)
Definition ib_poll_cq (c : Z) : M world (option ib_wc) :=
  l ← gets cqs;
  q ← lift (aget l c);
  match q with
  | [] => mret None
  | o :: q' => l ← lift (aset l c q'); modify (λ w, w <| cqs := l |>);; mret o
  end.

(** [do { ret = ib_poll_cq(...); if (CB_FAIL) goto error; } while (ret == 0)]; [None]
    is the jump to [error].  The fuel is one more than the polls that the stream answers: a
    thread that is still polling then, the server not having failed, waits for ever. *)
Fixpoint poll_loop (fuel : nat) (c : Z) : M world (option ib_wc) :=
  match fuel with
  | O => wait
  | S fuel' =>
      r ← ib_poll_cq c;
      cb ← get_cb c;
      st ← get_cb_state (cb_index cb);
      if decide (st = CB_FAIL) then mret None
      else match r with None => poll_loop fuel' c | Some wc => mret (Some wc) end
  end.

(** * Completions *)

Definition client_send (c : Z) : M world Z := mret 0.

(** Copy a finished read into the pages of one bio: for each split, the first context
    from its own on without an injected fault.  The inner loop tests [i], not [j]. *)
Fixpoint pick_ctx (fuel : nat) (refs : list ctx_ref) (j : Z) : M world rdma_ctx :=
  match fuel with
  | O => undefined
  | S fuel' =>
      r ← lift (aget refs j);
      c ← get_ctx r;
      if fault c =? 0 then mret c else pick_ctx fuel' refs (j + 1)
  end.

Definition copy_bio (refs : list ctx_ref) (bio_offset : Z) (page : list byte) : M world (list byte) :=
  loop 0 (NDATAS cfg) (λ i page,
    c ← pick_ctx (S (length refs)) refs i;
    lift (memcpy_at page (i * IS_PAGE_SIZE / NDATAS cfg) (rdma_buf c) (bio_offset / NDATAS cfg)
            (IS_PAGE_SIZE / NDATAS cfg))) page.

(** The chain of bios; a bio with one segment has its page copied. *)
Fixpoint read_bios (copy : Z → list byte → M world (list byte)) (bio_offset : Z) (bios : list (list (list byte)))
    : M world (list (list (list byte))) :=
  match bios with
  | [] => mret []
  | segs :: rest =>
      page ← lift (aget segs 0);
      page ← copy bio_offset page;
      rest ← read_bios copy (bio_offset + IS_PAGE_SIZE) rest;
      mret ((page :: drop 1 segs) :: rest)
  end.

(** A first bio with several segments: each segment is copied from [ctxs[i]], where [i]
    has just run to [NDISKS]. *)
Fixpoint read_segments (refs : list ctx_ref) (bio_offset : Z) (segs : list (list byte)) : M world (list (list byte)) :=
  match segs with
  | [] => mret []
  | seg :: rest =>
      when (negb (alen seg =? IS_PAGE_SIZE)) bug;;
      r ← lift (aget refs (NDISKS cfg));
      c ← get_ctx r;
      page ← lift (memcpy_at seg 0 (rdma_buf c) bio_offset IS_PAGE_SIZE);
      rest ← read_segments refs (bio_offset + IS_PAGE_SIZE) rest;
      mret (page :: rest)
  end.

Definition read_pages_rep (refs : list ctx_ref) (bios : list (list (list byte))) : M world (list (list (list byte))) :=
  match bios with
  | segs :: rest =>
      if 1 <? alen segs then segs ← read_segments refs 0 segs; mret (segs :: rest)
      else read_bios (copy_bio refs) 0 bios
  | [] => undefined
  end.

(** ** Erasure coding *)

(** [ec_encode_data_avx] on the buffers of the contexts [dst], from those of [src]. *)
Fixpoint load_bufs (l : list (option ctx_ref)) (ix : list Z) : M world (list (list byte)) :=
  match ix with
  | [] => mret []
  | i :: ix =>
      o ← lift (aget l i); r ← deref o; c ← get_ctx r;
      bs ← load_bufs l ix; mret (rdma_buf c :: bs)
  end.
Fixpoint store_bufs (l : list (option ctx_ref)) (ix : list Z) (bs : list (list byte)) : M world () :=
  match ix, bs with
  | i :: ix, b :: bs =>
      o ← lift (aget l i); r ← deref o;
      upd_ctx r (λ c, c <| rdma_buf := b |>);; store_bufs l ix bs
  | _, _ => mret ()
  end.
(** The tables may be NULL; buffers that are read and written must not overlap, which
    the kernels rely on. *)
Definition overlapping (src dst : list Z) : bool := negb (bool_decide (NoDup dst ∧ Forall (λ i, i ∉ src) dst)).
Definition encode_bufs (e : ec_env) (l : list (option ctx_ref)) (len rows : Z) (tbls : option (list byte))
    (src dst : list Z) : M world () :=
  when (overlapping src dst) undefined;;
  tbls ← lift tbls;
  data ← load_bufs l src;
  out ← load_bufs l dst;
  out ← lift (ec_encode_data_avx (dot_prod1 e) (dot_prod2 e) (dot_prod3 e) (dot_prod4 e)
                len (NDATAS cfg) rows tbls data out);
  store_bufs l dst out.

(** The first [n] entries of an array. *)
Definition entries (a : list Z) (n : Z) : option (list Z) := for_up 0 n (λ i l, x ← aget a i; Some (l ++ [x])) [].

(** Rebuild the lost splits and parities from the survivors. *)
Definition recover (e : ec_env) (refs : list ctx_ref) (len : Z) : M world () :=
  d ← gets det;
  if 0 <? nsrcerrs d then
    recov ← lift (entries (src_err_list d) (nerrs d));
    when (NDISKS cfg - NDATAS cfg <? nerrs d) undefined;;
    data ← lift (entries (decode_index e) (NDATAS cfg));
    encode_bufs e (Some <$> refs) len (nerrs d) (decode_tbls e) data recov
  else mret ().

(** A page is put together from the splits. *)
Definition merge_page (refs : list ctx_ref) (bio_offset : Z) (page : list byte) : M world (list byte) :=
  loop 0 (NDATAS cfg) (λ i page,
    r ← lift (aget refs i); c ← get_ctx r;
    lift (memcpy_at page (i * IS_PAGE_SIZE / NDATAS cfg) (rdma_buf c) (bio_offset / NDATAS cfg)
            (IS_PAGE_SIZE / NDATAS cfg))) page.
Fixpoint merge_segments (refs : list ctx_ref) (bio_offset : Z) (segs : list (list byte)) : M world (list (list byte)) :=
  match segs with
  | [] => mret []
  | seg :: rest =>
      when (negb (alen seg =? IS_PAGE_SIZE)) bug;;
      page ← merge_page refs bio_offset seg;
      rest ← merge_segments refs (bio_offset + IS_PAGE_SIZE) rest;
      mret (page :: rest)
  end.

Definition read_pages_ec (e : ec_env) (refs : list ctx_ref) (rq : request) : M world (list (list (list byte))) :=
  recover e refs (rq_bytes rq / NDATAS cfg);;
  match rq_bio rq with
  | segs :: rest =>
      if 1 <? alen segs then segs ← merge_segments refs 0 segs; mret (segs :: rest)
      else read_bios (merge_page refs) 0 (rq_bio rq)
  | [] => undefined
  end.

Definition read_pages (refs : list ctx_ref) (rq : request) : M world (list (list (list byte))) :=
  match build cfg with REP => read_pages_rep refs (rq_bio rq) | EC e => read_pages_ec e refs rq end.

(** [client_read_done]. *)
Definition client_read_done (ctx : ctx_ref) : M world Z :=
  c ← get_ctx ctx;
  req ← deref (ctx_req c);
  rq ← get_req req;
  upd_ctx ctx (λ c, c <| in_flight := CTX_IDLE |> <| chunk_index := -1 |>
                      <| chunk_ptr := None |> <| ctx_req := None |>);;
  cnt ← deref (ctx_cnt c);
  z ← atomic_dec_and_test cnt;
  if negb z then mret 0
  else
    c ← get_ctx ctx;
    refs ← loop 0 (NDISKS cfg) (λ i refs, o ← lift (aget (ctxs c) i); r ← deref o; mret (refs ++ [r])) [];
    bios ← read_pages refs rq;
    upd_req req (λ rq, rq <| rq_bio := bios |>);;
    end_request req;;
    loop 0 (NDISKS cfg) (λ i _, r ← lift (aget refs i); IS_insert_ctx r) ();;
    mret 0.

(** [client_write_done]. *)
Definition client_write_done (ctx : ctx_ref) : M world Z :=
  c ← get_ctx ctx;
  upd_ctx ctx (λ c, c <| in_flight := CTX_IDLE |>);;
  cnt ← deref (ctx_cnt c);
  z ← atomic_dec_and_test cnt;
  when z (req ← deref (ctx_req c); end_request req);;
  upd_ctx ctx (λ c, c <| chunk_index := -1 |> <| chunk_ptr := None |> <| ctx_req := None |>);;
  IS_insert_ctx ctx;;
  mret 0.

(** The session part of [client_recv]. *)
Definition recv_msg (c : Z) (len_ok : bool) : M world Z :=
  s ← gets sess;
  '(ret, s) ← lift (client_recv s c len_ok);
  modify (λ w, w <| sess := s |>);; mret ret.

(** [rdma_cq_event_handler].  What the adapter wrote to memory before the completion
    (a message, the data of a read) becomes visible when it is polled. *)
Definition rdma_cq_event_handler (c : Z) : M world () :=
  let error := upd_cb c (λ cb, cb <| cb_st := ERROR |>) in
  cb ← get_cb c;
  if decide (cb_st cb = ERROR) then mret ()
  else
    l ← gets cqs;
    r ← poll_loop (S (length (default [] (aget l c)))) c;
    match r with
    | None => error
    | Some wc =>
        match wc_stat wc with
        | WC_WR_FLUSH_ERR => mret ()
        | WC_ERROR => error
        | WC_SUCCESS =>
            match wc_op_ wc with
            | WC_RECV msg =>
                upd_cb c (λ cb, cb <| recv_buf := msg |>);;
                ret ← recv_msg c (wc_byte_len_ok wc);
                if negb (ret =? 0) then error
                else
                  ret ← ib_post (PostRecv c);
                  if negb (ret =? 0) then error else mret ()
            | WC_SEND => ret ← client_send c; if negb (ret =? 0) then error else mret ()
            | WC_RDMA_READ ctx data =>
                x ← get_ctx ctx;
                b ← lift (overwrite (rdma_buf x) 0 data);
                set_ctx ctx (x <| rdma_buf := b |>);;
                ret ← client_read_done ctx; if negb (ret =? 0) then error else mret ()
            | WC_RDMA_WRITE ctx =>
                ret ← client_write_done ctx; if negb (ret =? 0) then error else mret ()
            | WC_OTHER => error
            end
        end
    end.

(** * Control messages *)

(** Fill the send buffer, post it, and wait for its completion. *)
Definition post_msg (c : Z) (f : rdma_info → rdma_info) : M world Z :=
  upd_cb c (λ cb, cb <| send_buf := f (send_buf cb) |>);;
  cb ← get_cb c; ib_post (PostSend c (send_buf cb)).

Definition send_and_wait (c : Z) (f : rdma_info → rdma_info) : M world Z :=
  ret ← post_msg c f;
  if negb (ret =? 0) then mret ret else rdma_cq_event_handler c;; mret 0.

Definition IS_send_activity (c : Z) : M world Z :=
  cb ← get_cb c;
  l ← lift (for_up 0 MAX_MR_SIZE_GB (λ i l, _ ← aget (chunk_map cb) i; aset l i 0) (ri_buf (send_buf cb)));
  send_and_wait c (λ m, m <| ri_type := ACTIVITY |> <| ri_buf := l |>).
Definition IS_send_query (c : Z) : M world Z := send_and_wait c (λ m, m <| ri_type := QUERY |>).
Definition IS_send_bind_single (c select_chunk : Z) : M world Z :=
  send_and_wait c (λ m, m <| ri_type := BIND_SINGLE |> <| ri_size_gb := select_chunk |>).
Definition IS_send_fault (c : Z) : M world Z := send_and_wait c (λ m, m <| ri_type := FAULT |>).
(** [IS_send_done] does not wait. *)
Definition IS_send_done (c num : Z) : M world Z :=
  ret ← post_msg c (λ m, m <| ri_type := DONE |> <| ri_size_gb := num |>);
  if negb (ret =? 0) then mret ret else mret 0.

(** * Reads *)

(** What [IS_request] has looked up for disk [i]: its server, and the slab there. *)
Record target : Type := { t_cb : Z; t_cb_ptr : option Z; t_chunk_index : Z; t_chunk : option remote_chunk_g }.

Definition conn_id (rq : request) : Z := Z.land (rq_addr rq) QUEUE_NUM_MASK.

Definition the_target (ts : list target) (i : Z) : M world target := lift (aget ts i).
Definition unmapped (t : target) : bool := t_cb t =? NO_CB_MAPPED.

(** Set up the context of one disk. *)
Definition prepare (op : opcode) (fl : option Z) (req cnt : nat) (i offset len : Z) (t : target) (r : ctx_ref)
    (full : bool) : M world () :=
  cb ← deref (t_cb_ptr t);
  ck ← deref (t_chunk t);
  upd_ctx r (λ c,
    let c := c <| ctx_req := Some req |> <| ctx_cb := Some cb |> in
    let c := match fl with Some v => c <| in_flight := v |> | None => c end in
    let c := if full then c <| ctx_offset := offset / NDATAS cfg |> <| ctx_len := len / NDATAS cfg |>
                            <| chunk_ptr := Some ck |> <| chunk_index := t_chunk_index t |> else c in
    c <| sq_wr := {| wr_length := len / NDATAS cfg; wr_rkey := remote_rkey ck;
                     wr_remote_addr := u64 (remote_addr ck + offset / NDATAS cfg); wr_opcode := op |} |>
      <| ctx_idx := i |> <| ctx_cnt := Some cnt |>).

(** The contexts of all disks, an unmapped disk taking one from the pool of its index. *)
Definition get_ctxs_read (ts : list target) (conn offset len : Z) (req cnt : nat) : M world (list (option ctx_ref)) :=
  loop 0 (NDISKS cfg) (λ i l,
    t ← the_target ts i;
    if unmapped t then o ← IS_get_ctx conn i; mret (l ++ [o])
    else
      o ← IS_get_ctx conn (t_cb t);
      match o with
      | None => bug
      | Some r =>
          prepare WR_RDMA_READ (Some CTX_R_IN_FLIGHT) req cnt i offset len t r false;;
          mret (l ++ [o])
      end) [].

(** [ctx[i]->ctxs[j] = ctx[j]]. *)
Definition link_ctxs (l : list (option ctx_ref)) : M world () :=
  loop 0 (NDISKS cfg) (λ i _,
    loop 0 (NDISKS cfg) (λ j _,
      o ← lift (aget l i); r ← deref o; cj ← lift (aget l j);
      c ← get_ctx r; a ← lift (aset (ctxs c) j cj);
      set_ctx r (c <| ctxs := a |>)) ()) ().

Definition inject_faults (ts : list target) (l : list (option ctx_ref)) : M world () :=
  loop 0 (NDISKS cfg) (λ i _,
    f ← gets (λ w, IS_fault_injection (sess w));
    '(v, f) ← lift (IS_fault_injection_inject_fault f i);
    upd_sess (λ s, s <| IS_fault_injection := f |>);;
    o ← lift (aget l i); r ← deref o;
    upd_ctx r (λ c, c <| fault := v |>);;
    when (negb (v =? 0))
      (t ← the_target ts i; c ← deref (t_cb_ptr t);
       _ ← IS_send_fault c; rdma_cq_event_handler c)) ().

(** [cb_index[i] == NO_CB_MAPPED || ctx[i]->fault]. *)
Definition is_bad (ts : list target) (l : list (option ctx_ref)) (i : Z) : M world bool :=
  t ← the_target ts i;
  if unmapped t then mret true
  else o ← lift (aget l i); r ← deref o; c ← get_ctx r; mret (negb (fault c =? 0)).

(** The search for a good parity, which has no bound of its own. *)
Fixpoint find_parity (fuel : nat) (ts : list target) (l : list (option ctx_ref)) (j : Z) : M world Z :=
  match fuel with
  | O => undefined
  | S fuel' => b ← is_bad ts l (NDATAS cfg + j); if (b : bool) then find_parity fuel' ts l (j + 1) else mret j
  end.

(** [ib_post_send] of the context of disk [i], and its access count. *)
Definition post_read (ts : list target) (l : list (option ctx_ref)) (i : Z) : M world Z :=
  t ← the_target ts i; cb ← deref (t_cb_ptr t);
  o ← lift (aget l i); r ← deref o; c ← get_ctx r;
  ret ← ib_post (PostRdma cb r (sq_wr c));
  f ← gets (λ w, IS_fault_injection (sess w));
  f ← lift (IS_fault_injection_access f i);
  upd_sess (λ s, s <| IS_fault_injection := f |>);;
  mret ret.

(** The posting loop: [inl j] when all splits are posted, [inr ret] to return. *)
Definition post_reads (ts : list target) (l : list (option ctx_ref)) : M world (Z + Z) :=
  loop_ret 0 (NDATAS cfg) (λ i j,
    b ← is_bad ts l i;
    if (b : bool) then
      j ← find_parity (S (Z.to_nat (NDISKS cfg))) ts l j;
      if j <? NDISKS cfg - NDATAS cfg then
        ret ← post_read ts l (NDATAS cfg + j);
        if negb (ret =? 0) then mret (inr ret) else mret (inl (j + 1))
      else undefined
    else
      ret ← post_read ts l i;
      if negb (ret =? 0) then mret (inr ret) else mret (inl j)) 0.

Definition wait_reads (ts : list target) (l : list (option ctx_ref)) (j : Z) : M world () :=
  loop 0 (NDATAS cfg + j) (λ i _,
    b ← is_bad ts l i;
    if (b : bool) then mret ()
    else t ← the_target ts i; c ← deref (t_cb_ptr t); rdma_cq_event_handler c) ().

(** [IS_rdma_read] up to the posts: the contexts and the result of the posting loop. *)
Definition start_read (ts : list target) (offset len : Z) (req : nat) : M world (list (option ctx_ref) * (Z + Z)) :=
  cnt ← new_counter (NDATAS cfg);
  rq ← get_req req;
  l ← get_ctxs_read ts (conn_id rq) offset len req cnt;
  link_ctxs l;;
  inject_faults ts l;;
  r ← post_reads ts l;
  mret (l, r).

(** [IS_rdma_read]. *)
Definition IS_rdma_read (ts : list target) (offset len : Z) (req : nat) : M world Z :=
  '(l, r) ← start_read ts offset len req;
  match r with
  | inr ret => mret ret
  | inl j => wait_reads ts l j;; mret 0
  end.

(** * Writes *)

Definition get_ctxs_write (ts : list target) (conn offset len : Z) (req cnt : nat) : M world (list (option ctx_ref)) :=
  loop 0 (NDISKS cfg) (λ i l,
    t ← the_target ts i;
    if unmapped t then
      o ← IS_get_ctx conn i;
      r ← deref o; _ ← get_ctx r;  (* ptrs[i] = ctx[i]->rdma_buf *)
      mret (l ++ [o])
    else
      o ← IS_get_ctx conn (t_cb t);
      match o with
      | None => bug
      | Some r => prepare WR_RDMA_WRITE None req cnt i offset len t r true;; mret (l ++ [o])
      end) [].

(** Replication: every context gets a copy of the page of every bio. *)
Fixpoint copy_pages (l : list (option ctx_ref)) (bio_offset : Z) (bios : list (list (list byte))) : M world () :=
  match bios with
  | [] => mret ()
  | segs :: rest =>
      loop 0 (NDISKS cfg) (λ i _,
        o ← lift (aget l i); r ← deref o; c ← get_ctx r;
        page ← lift (aget segs 0);
        b ← lift (memcpy_at (rdma_buf c) bio_offset page 0 IS_PAGE_SIZE);
        set_ctx r (c <| rdma_buf := b |>)) ();;
      copy_pages l (bio_offset + IS_PAGE_SIZE) rest
  end.

(** Erasure coding: every page is split over the first [NDATAS] contexts, and the parities
    are computed from them. *)
Definition split_page (l : list (option ctx_ref)) (bio_offset : Z) (page : list byte) : M world () :=
  loop 0 (NDATAS cfg) (λ i _,
    o ← lift (aget l i); r ← deref o; c ← get_ctx r;
    b ← lift (memcpy_at (rdma_buf c) (bio_offset / NDATAS cfg) page (i * IS_PAGE_SIZE / NDATAS cfg)
                (IS_PAGE_SIZE / NDATAS cfg));
    set_ctx r (c <| rdma_buf := b |>)) ().
Fixpoint split_segments (l : list (option ctx_ref)) (bio_offset : Z) (segs : list (list byte)) : M world () :=
  match segs with
  | [] => mret ()
  | seg :: rest =>
      when (negb (alen seg =? IS_PAGE_SIZE)) bug;;
      split_page l bio_offset seg;;
      split_segments l (bio_offset + IS_PAGE_SIZE) rest
  end.
Fixpoint split_bios (l : list (option ctx_ref)) (bio_offset : Z) (bios : list (list (list byte))) : M world () :=
  match bios with
  | [] => mret ()
  | segs :: rest =>
      page ← lift (aget segs 0);
      split_page l bio_offset page;;
      split_bios l (bio_offset + IS_PAGE_SIZE) rest
  end.
Definition write_pages_ec (e : ec_env) (l : list (option ctx_ref)) (len : Z) (bios : list (list (list byte))) : M world () :=
  (match bios with
   | segs :: _ => if 1 <? alen segs then split_segments l 0 segs else split_bios l 0 bios
   | [] => undefined
   end);;
  encode_bufs e l (len / NDATAS cfg) (NDISKS cfg - NDATAS cfg) (encode_tbls e)
    (seqZ 0 (NDATAS cfg)) (seqZ (NDATAS cfg) (NDISKS cfg - NDATAS cfg)).

Definition fill_pages (l : list (option ctx_ref)) (len : Z) (bios : list (list (list byte))) : M world () :=
  match build cfg with REP => copy_pages l 0 bios | EC e => write_pages_ec e l len bios end.

(** Post the writes of the disks in [lo, hi). *)
Definition post_writes (ts : list target) (l : list (option ctx_ref)) (lo hi : Z) : M world (() + Z) :=
  loop_ret lo hi (λ i _,
    t ← the_target ts i;
    if unmapped t then mret (inl ())
    else
      cb ← deref (t_cb_ptr t); o ← lift (aget l i); r ← deref o; c ← get_ctx r;
      ret ← ib_post (PostRdma cb r (sq_wr c));
      if negb (ret =? 0) then mret (inr ret) else mret (inl ())) ().

Definition wait_writes (ts : list target) (l : list (option ctx_ref)) : M world () :=
  loop 0 (NDISKS cfg) (λ i _,
    t ← the_target ts i;
    if unmapped t then o ← lift (aget l i); r ← deref o; IS_insert_ctx r
    else c ← deref (t_cb_ptr t); rdma_cq_event_handler c) ().

(** [IS_rdma_write] up to the posts: the splits first, then the parities. *)
Definition start_write (ts : list target) (offset len : Z) (req : nat) : M world (list (option ctx_ref) * (() + Z)) :=
  cnt ← new_counter (NDATAS cfg);
  rq ← get_req req;
  l ← get_ctxs_write ts (conn_id rq) offset len req cnt;
  fill_pages l len (rq_bio rq);;
  r ← post_writes ts l 0 (NDATAS cfg);
  match r with
  | inr ret => mret (l, inr ret)
  | inl _ => r ← post_writes ts l (NDATAS cfg) (NDISKS cfg); mret (l, r)
  end.

(** [IS_rdma_write]. *)
Definition IS_rdma_write (ts : list target) (offset len : Z) (req : nat) : M world Z :=
  '(l, r) ← start_write ts offset len req;
  match r with
  | inr ret => mret ret
  | inl _ => wait_writes ts l;; mret 0
  end.

Definition IS_transfer_chunk (ts : list target) (offset len : Z) (write : bool) (req : nat) : M world Z :=
  retval ← (if write then IS_rdma_write ts offset len req else IS_rdma_read ts offset len req);
  if negb (retval =? 0) then mret retval else mret 0.

(** * Block requests *)

(** The slab and the offset in it of a request. *)
Definition slab_index (rq : request) : Z := i32 (Z.shiftr (u64 (Z.shiftl (rq_pos rq) IS_SECT_SHIFT)) (SLAB_SHIFT cfg)).
Definition chunk_offset (rq : request) : Z := Z.land (u64 (Z.shiftl (rq_pos rq) IS_SECT_SHIFT)) (SLAB_MASK cfg).

(** Look up the server and the remote slab of session chunk [x]. *)
Definition lookup_target (s : session) (x : Z) : option target :=
  cb_ix ← aget (cb_index_map s) x;
  if negb (cb_ix =? NO_CB_MAPPED) then
    cb ← aget (cb_list s) cb_ix;
    ck ← aget (chunk_map_cb_chunk s) x;
    if negb (ck =? -1) then
      chunk ← aget (chunk_list cb) ck;
      Some {| t_cb := cb_ix; t_cb_ptr := Some cb_ix; t_chunk_index := ck; t_chunk := Some chunk |}
    else Some {| t_cb := cb_ix; t_cb_ptr := Some cb_ix; t_chunk_index := ck; t_chunk := None |}
  else Some {| t_cb := cb_ix; t_cb_ptr := None; t_chunk_index := 0; t_chunk := None |}.

Definition lookup_targets (s : session) (slab : Z) : option (list target) :=
  for_up 0 (NDISKS cfg) (λ i ts, t ← lookup_target s (slab * NDISKS cfg + i); Some (ts ++ [t])) [].

(** [IS_request]. *)
Definition IS_request (req : nat) : M world Z :=
  rq ← get_req req;
  s ← gets sess;
  ts ← lift (lookup_targets s (slab_index rq));
  IS_transfer_chunk ts (chunk_offset rq) (rq_bytes rq) (rq_write rq) req.

(** [IS_queue_rq]: what the block layer is told.  [blk_mq_start_request], which is called just
    before [BLK_MQ_RQ_QUEUE_OK] is returned and on no other path, is the block layer's: that
    answer stands for it. *)
Inductive queue_rc : Set := BLK_MQ_RQ_QUEUE_OK | BLK_MQ_RQ_QUEUE_ERROR.
Definition EIO : Z := 5.
Definition IS_queue_rq (req : nat) : M world queue_rc :=
  err ← IS_request req;
  if negb (err =? 0) then upd_req req (λ rq, rq <| rq_errors := - EIO |>);; mret BLK_MQ_RQ_QUEUE_ERROR
  else mret BLK_MQ_RQ_QUEUE_OK.
End transfer.

(** * Address translation *)

(** A request inside the device. *)
Record rq_ok (cfg : config) (rq : request) : Prop := {
  rq_first : 0 <= rq_pos rq * 512;
  rq_size : 0 < rq_bytes rq;
  rq_last : rq_pos rq * 512 + rq_bytes rq <= DATASIZE_G cfg * ONE_GB
}.

(** Its bytes are on more than one slab. *)
Definition crosses (cfg : config) (rq : request) : bool :=
  2 ^ SLAB_SHIFT cfg <? (rq_pos rq * 512) mod 2 ^ SLAB_SHIFT cfg + rq_bytes rq.

Lemma rq_start cfg rq : config_ok cfg → rq_ok cfg rq →
  u64 (Z.shiftl (rq_pos rq) IS_SECT_SHIFT) = rq_pos rq * 512.
Proof.
  intros Hc [Hf Hs Hd]. unfold IS_SECT_SHIFT. rewrite Z.shiftl_mul_pow2 by lia. change (2 ^ 9) with 512.
  apply wrap_small. pose proof (cfg_size _ Hc). unfold ONE_GB in Hd. lia.
Qed.

Lemma slab_index_correct cfg rq : config_ok cfg → rq_ok cfg rq →
  slab_index cfg rq = rq_pos rq * 512 / 2 ^ SLAB_SHIFT cfg ∧
  chunk_offset cfg rq = (rq_pos rq * 512) mod 2 ^ SLAB_SHIFT cfg ∧
  0 <= slab_index cfg rq < DATASIZE_G cfg / NDATAS cfg.
Proof.
  intros Hc Hr. unfold slab_index, chunk_offset. rewrite (rq_start cfg) by done.
  pose proof (cfg_shift _ Hc). pose proof (cfg_size _ Hc) as Hsz. pose proof (cfg_divides _ Hc) as Hdv.
  pose proof (cfg_NDATAS _ Hc). pose proof (cfg_slab _ Hc) as Hsl. destruct Hr as [Hf Hs Hd].
  rewrite Z.shiftr_div_pow2, (cfg_mask _ Hc), Z.land_ones by done.
  set (start := rq_pos rq * 512) in *. set (n := DATASIZE_G cfg / NDATAS cfg) in *.
  assert (0 < 2 ^ SLAB_SHIFT cfg) by (apply Z.pow_pos_nonneg; lia).
  assert (0 <= start / 2 ^ SLAB_SHIFT cfg < n) as Hr.
  { split; [apply Z.div_pos; lia|]. apply Z.div_lt_upper_bound; [done|].
    unfold ONE_GB in *. rewrite Hsl. nia. }
  assert (n < 2 ^ 30) by nia.
  rewrite i32_small by lia. done.
Qed.

(** What a target must say about a session chunk. *)
Definition target_ok (s : session) (x : Z) (t : target) : Prop :=
  slab_map s x = Some (t_cb t) ∧
  (t_cb t = NO_CB_MAPPED → t_cb_ptr t = None) ∧
  (t_cb t ≠ NO_CB_MAPPED → ∃ cb ck, t_cb_ptr t = Some (t_cb t) ∧ aget (cb_list s) (t_cb t) = Some cb ∧
    aget (chunk_map cb) (t_chunk_index t) = Some x ∧ t_chunk t = Some ck ∧
    aget (chunk_list cb) (t_chunk_index t) = Some ck).

Lemma lookup_target_correct cfg s x :
  maps_ok cfg s → 0 <= x < DISKSIZE_G cfg → ∃ t, lookup_target s x = Some t ∧ target_ok s x t.
Proof.
  intros Hok Hx. unfold lookup_target. destruct (proj2 (aget_is_Some (cb_index_map s) x)) as [c Ec];
    [rewrite (m_index _ _ Hok); lia|]. rewrite Ec. step_bind.
  destruct (Z.eqb_spec c NO_CB_MAPPED) as [->|Hc]; cbn [negb].
  - eexists; split; [done|]. by split_and!.
  - destruct (m_fwd _ _ Hok x c Ec Hc) as (cb & i & Ecb & Ei & Em & Hcb). rewrite Ecb. step_bind.
    rewrite Ei. step_bind. pose proof (aget_lt _ _ _ Em) as Hi. destruct (Z.eqb_spec i (-1)); [lia|]. cbn [negb].
    destruct (proj2 (aget_is_Some (chunk_list cb) i)) as [ck Ek].
    { rewrite (c_chunks _ Hcb), <- (c_map _ Hcb). lia. }
    rewrite Ek. step_bind. eexists; split; [done|]. split_and!; [done|done|]. intros _. by exists cb, ck.
Qed.

Lemma lookup_targets_aget cfg s slab ts i :
  lookup_targets cfg s slab = Some ts → 0 <= i < NDISKS cfg → lookup_target s (slab * NDISKS cfg + i) = aget ts i.
Proof.
  intros E Hi. unfold lookup_targets in E.
  assert (alen ts = NDISKS cfg ∧ ∀ j, 0 <= j < NDISKS cfg → lookup_target s (slab * NDISKS cfg + j) = aget ts j) as [_ H]; [|by apply H].
  eapply (for_up_partial (λ j l, alen l = j ∧ ∀ i, 0 <= i < j → lookup_target s (slab * NDISKS cfg + i) = aget l i)
    _ 0 (NDISKS cfg)); [lia|exact E|split; [done|lia]|].
  clear E i Hi. intros j l l' Hj (Hl & IH) (t & Et & [= <-])%bind_Some.
  split; [unfold alen in *; rewrite length_app; cbn; lia|]. intros i Hi. rewrite aget_app by lia. case_decide.
  - apply IH. lia.
  - assert (i = j) as -> by lia. rewrite Et, Hl, Z.sub_diag. done.
Qed.

Lemma lookup_targets_Some cfg s slab ts :
  alen ts = NDISKS cfg → (∀ i, 0 <= i < NDISKS cfg → lookup_target s (slab * NDISKS cfg + i) = aget ts i) →
  lookup_targets cfg s slab = Some ts.
Proof.
  intros Hl H. unfold lookup_targets. assert (0 <= alen ts) by (unfold alen; lia).
  destruct (for_up_inv (λ i l, l = take (Z.to_nat i) ts)
    (λ i l, t ← lookup_target s (slab * NDISKS cfg + i); Some (l ++ [t])) 0 (NDISKS cfg) []) as (l & -> & ->); [lia|done| |].
  - intros i l Hi ->. rewrite H by done. destruct (proj2 (aget_is_Some ts i)) as [x Ex]; [lia|]. rewrite Ex. eexists; split; [done|].
    apply aget_Some in Ex as [_ Ex]. replace (Z.to_nat (i + 1)) with (S (Z.to_nat i)) by lia. by rewrite (take_S_r _ _ _ Ex).
  - rewrite take_ge; [done|]. unfold alen in Hl. lia.
Qed.

(** The targets of a request inside the device. *)
Lemma request_targets cfg s rq :
  config_ok cfg → maps_ok cfg s → rq_ok cfg rq →
  ∃ ts, lookup_targets cfg s (slab_index cfg rq) = Some ts ∧ alen ts = NDISKS cfg ∧
    ∀ i, 0 <= i < NDISKS cfg → 0 <= slab_index cfg rq * NDISKS cfg + i < DISKSIZE_G cfg ∧
      ∃ t, aget ts i = Some t ∧ target_ok s (slab_index cfg rq * NDISKS cfg + i) t.
Proof.
  intros Hc Hok Hr. destruct (slab_index_correct cfg rq Hc Hr) as (_ & _ & Hs). pose proof (cfg_NDATAS _ Hc) as HN.
  assert (∀ i, 0 <= i < NDISKS cfg → 0 <= slab_index cfg rq * NDISKS cfg + i < DISKSIZE_G cfg) as Hin.
  { intros i Hi. unfold DISKSIZE_G. nia. }
  destruct (for_up_inv (λ i ts, alen ts = i ∧ ∀ j, 0 <= j < i → ∃ t, aget ts j = Some t ∧
      target_ok s (slab_index cfg rq * NDISKS cfg + j) t)
    (λ i ts, t ← lookup_target s (slab_index cfg rq * NDISKS cfg + i); Some (ts ++ [t])) 0 (NDISKS cfg) [])
    as (ts & E & Hl & Ht); [lia|split; [done|intros; lia]| |].
  - intros i ts Hi [Hl Ht]. destruct (lookup_target_correct cfg s (slab_index cfg rq * NDISKS cfg + i))
      as (t & -> & Hto); [done|by apply Hin|]. step_bind. eexists; split; [done|].
    split; [rewrite alen_app, Hl; done|]. intros j Hj. rewrite aget_app by lia. rewrite Hl.
    case_decide; [apply Ht; lia|]. assert (j = i) as -> by lia. exists t. by rewrite Z.sub_diag.
  - exists ts. split_and!; [exact E|done|]. intros i Hi. split; [by apply Hin|by apply Ht].
Qed.

(** A device of one slab has no request that crosses, nor has a request for a page, or a part
    of one from its start. *)
Lemma no_crossing cfg rq :
  config_ok cfg → rq_ok cfg rq →
  DATASIZE_G cfg = NDATAS cfg ∨ ((IS_PAGE_SIZE | rq_pos rq * 512) ∧ rq_bytes rq <= IS_PAGE_SIZE) →
  crosses cfg rq = false.
Proof.
  intros Hc [Hf Hb Hl] Hcase. unfold crosses. apply Z.ltb_ge. pose proof (cfg_NDATAS _ Hc) as HN. rewrite (cfg_slab _ Hc).
  destruct Hcase as [Hone|[[q Hq] Hp]].
  - rewrite Hone in Hl. rewrite Z.mod_small by lia. lia.
  - rewrite Hq. assert (NDATAS cfg * ONE_GB = (NDATAS cfg * 262144) * IS_PAGE_SIZE) as -> by (unfold ONE_GB, IS_PAGE_SIZE; lia).
    rewrite Z.mul_mod_distr_r by (unfold IS_PAGE_SIZE; lia). pose proof (Z.mod_pos_bound q (NDATAS cfg * 262144) ltac:(lia)).
    unfold IS_PAGE_SIZE in *. nia.
Qed.

(** C27: address translation of [IS_request]: for a request inside the device the slab
    index and slab offset recompose its byte address; all [NDISKS] chunks of the slab are
    inside the maps; each target is the server and remote slab that the maps give (or
    unmapped).  The share of a server stays within its 1 GB slab when the request does not
    cross into the next slab, as on a device of one slab, and with requests for pages; a
    request that does cross is not split: when [NDATAS] divides its offset and size, its
    share runs past the end of the server's slab. *)
Theorem request_translation_correct cfg s rq :
  config_ok cfg → maps_ok cfg s → rq_ok cfg rq →
  rq_pos rq * 512 = slab_index cfg rq * 2 ^ SLAB_SHIFT cfg + chunk_offset cfg rq ∧
  0 <= chunk_offset cfg rq / NDATAS cfg < ONE_GB ∧
  (crosses cfg rq = false → chunk_offset cfg rq / NDATAS cfg + rq_bytes rq / NDATAS cfg <= ONE_GB) ∧
  (crosses cfg rq = true → (NDATAS cfg | chunk_offset cfg rq) → (NDATAS cfg | rq_bytes rq) →
     ONE_GB < chunk_offset cfg rq / NDATAS cfg + rq_bytes rq / NDATAS cfg) ∧
  (DATASIZE_G cfg = NDATAS cfg ∨ ((IS_PAGE_SIZE | rq_pos rq * 512) ∧ rq_bytes rq <= IS_PAGE_SIZE) → crosses cfg rq = false) ∧
  ∃ ts, lookup_targets cfg s (slab_index cfg rq) = Some ts ∧ alen ts = NDISKS cfg ∧
    ∀ i, 0 <= i < NDISKS cfg → 0 <= slab_index cfg rq * NDISKS cfg + i < DISKSIZE_G cfg ∧
      ∃ t, aget ts i = Some t ∧ target_ok s (slab_index cfg rq * NDISKS cfg + i) t.
Proof.
  intros Hc Hok Hr. destruct (slab_index_correct cfg rq Hc Hr) as (Es & Eo & Hs).
  pose proof (cfg_NDATAS _ Hc) as HN. pose proof (cfg_shift _ Hc).
  assert (0 < 2 ^ SLAB_SHIFT cfg) by (apply Z.pow_pos_nonneg; lia).
  pose proof (Z.mod_pos_bound (rq_pos rq * 512) (2 ^ SLAB_SHIFT cfg)) as Hmod.
  assert (crosses cfg rq = (NDATAS cfg * ONE_GB <? chunk_offset cfg rq + rq_bytes rq)) as Hcr
    by (unfold crosses; by rewrite Eo, <- (cfg_slab _ Hc)).
  split_and!.
  - rewrite Es, Eo, (Z.mul_comm (_ / _)). apply Z.div_mod. lia.
  - rewrite Eo. apply Z.div_pos; lia.
  - apply Z.div_lt_upper_bound; [lia|]. rewrite Eo, <- (cfg_slab _ Hc). lia.
  - rewrite Hcr, Z.ltb_ge. intros Hsl.
    pose proof (Z.mul_div_le (chunk_offset cfg rq) (NDATAS cfg)). pose proof (Z.mul_div_le (rq_bytes rq) (NDATAS cfg)). nia.
  - rewrite Hcr, Z.ltb_lt. intros Hsl [a Ha] [b Hb]. rewrite Ha, Hb, !Z.div_mul by lia. rewrite Ha, Hb in Hsl. nia.
  - by apply no_crossing.
  - by apply request_targets.
Qed.

Lemma request_translation_correct_witness :
  let rq := {| rq_bio := []; rq_addr := 0; rq_pos := 8; rq_bytes := 4096; rq_write := false; rq_ended := 0; rq_errors := 0 |} in
  8 * 512 = slab_index rep rq * 2 ^ 30 + chunk_offset rep rq ∧
  chunk_offset rep rq / 1 + 4096 / 1 <= ONE_GB ∧
  ∃ ts, lookup_targets rep offer_session (slab_index rep rq) = Some ts ∧ alen ts = 3 ∧
    ∀ i, 0 <= i < 3 → 0 <= slab_index rep rq * 3 + i < DISKSIZE_G rep ∧
      ∃ t, aget ts i = Some t ∧ target_ok offer_session (slab_index rep rq * 3 + i) t.
Proof.
  intros rq. destruct (request_translation_correct rep offer_session rq) as (H1 & _ & H2 & _ & H3 & H4);
    [exact rep_ok|exact offer_session_ok|split; vm_compute; done || discriminate|].
  split_and!; [exact H1|apply H2, H3; by left|exact H4].
Defined.

(** Two slabs of 1 GB: a request of two sectors around their boundary, which the driver
    admits, is sent whole to the first slab, half of it past the end. *)
Lemma crossing_request :
  let cfg := {| build := REP; NDATAS := 1; NDISKS := 3; DATASIZE_G := 2; SLAB_SHIFT := ONE_GB_SHIFT; SLAB_MASK := ONE_GB_MASK |} in
  let rq := {| rq_bio := []; rq_addr := 0; rq_pos := 2097151; rq_bytes := 1024; rq_write := true; rq_ended := 0; rq_errors := 0 |} in
  rq_ok cfg rq ∧ crosses cfg rq = true ∧ slab_index cfg rq = 0 ∧ chunk_offset cfg rq + rq_bytes rq = ONE_GB + 512.
Proof. split_and!; [split; vm_compute; done || discriminate|reflexivity..]. Qed.
