(* ===== verification/Completion.v ===== *)
(** Completions: polling a queue, and the handling of a finished read or write. *)

From S2P Require Import Prelude Config MT Fault State CtxPool Chunks Store Transfer.

(** * Memory *)

Lemma overwrite_all (dst bs : list byte) : alen dst = alen bs → overwrite dst 0 bs = Some bs.
Proof.
  intros Hl. unfold overwrite. rewrite Z.add_0_l, Hl, !Z.leb_refl. cbn. unfold alen in *.
  rewrite drop_ge by lia. by rewrite app_nil_r.
Qed.

Lemma memcpy_page (dst page : list byte) :
  alen dst = IS_PAGE_SIZE → alen page = IS_PAGE_SIZE → memcpy_at dst 0 page 0 IS_PAGE_SIZE = Some page.
Proof.
  intros Hd Hp. unfold memcpy_at, slice. rewrite Z.add_0_l, Hp, Z.leb_refl.
  change ((0 <=? 0) && (0 <=? IS_PAGE_SIZE) && true) with true. cbv iota. step_bind.
  rewrite drop_0, firstn_all2 by (unfold alen in *; lia). apply overwrite_all. lia.
Qed.

(** * Polling *)

(** The queue of a server delivers a completion after a number of empty polls. *)
Definition delivers (w : world) (cb : Z) (wc : ib_wc) : Prop :=
  ∃ k q, aget (cqs w) cb = Some (replicate k None ++ Some wc :: q).

(** The connection is usable: not in error, its slot of the state table not failed. *)
Definition usable (s : session) (c : Z) : Prop :=
  ∃ cb st, aget (cb_list s) c = Some cb ∧ cb_st cb ≠ ERROR ∧
    aget (cb_state_list s) (cb_index cb) = Some st ∧ st ≠ CB_FAIL.

Lemma ib_poll_cq_nil c w : aget (cqs w) c = Some [] → ib_poll_cq c w = Ret (None, w).
Proof.
  intros Hq. unfold ib_poll_cq. erewrite M_bind_Ret by done. by erewrite M_bind_Ret by (unfold lift; by rewrite Hq).
Qed.
Lemma ib_poll_cq_Ret c o q w :
  aget (cqs w) c = Some (o :: q) → ib_poll_cq c w = Ret (o, w <| cqs := <[Z.to_nat c := q]> (cqs w) |>).
Proof.
  intros Hq. pose proof (aget_lt _ _ _ Hq). unfold ib_poll_cq. erewrite M_bind_Ret by done.
  erewrite M_bind_Ret by (unfold lift; by rewrite Hq). cbv beta iota.
  by erewrite M_bind_Ret by (unfold lift; by rewrite aset_Some by done).
Qed.

Lemma get_cb_Ret c cb w : aget (cb_list (sess w)) c = Some cb → get_cb c w = Ret (cb, w).
Proof. intros E. unfold get_cb. erewrite M_bind_Ret by done. unfold lift. by rewrite E. Qed.
Lemma get_cb_state_Ret c st w : aget (cb_state_list (sess w)) c = Some st → get_cb_state c w = Ret (st, w).
Proof. intros E. unfold get_cb_state. erewrite M_bind_Ret by done. unfold lift. by rewrite E. Qed.

Lemma poll_loop_Ret c wc k q fuel w :
  usable (sess w) c → aget (cqs w) c = Some (replicate k None ++ Some wc :: q) → (k < fuel)%nat →
  ∃ l, poll_loop fuel c w = Ret (Some wc, w <| cqs := l |>) ∧ aget l c = Some q ∧ ∀ i, i ≠ c → aget l i = aget (cqs w) i.
Proof.
  revert k w. induction fuel as [|fuel IH]; intros k w Hu Hq Hk; [lia|].
  pose proof (aget_lt _ _ _ Hq) as Hlt. pose proof Hu as (cb & st & Ecb & Hst & Est & Hf).
  assert (∀ o q', aget (cqs w) c = Some (o :: q') → ∃ w', w' = w <| cqs := <[Z.to_nat c := q']> (cqs w) |> ∧
    poll_loop (S fuel) c w = match o with None => poll_loop fuel c w' | Some wc => Ret (Some wc, w') end) as Hstep.
  { intros o q' E. eexists. split; [done|]. cbn [poll_loop]. erewrite M_bind_Ret by (by apply ib_poll_cq_Ret).
    erewrite M_bind_Ret by (by apply get_cb_Ret). erewrite M_bind_Ret by (by apply get_cb_state_Ret).
    rewrite decide_False by done. by destruct o. }
  destruct k as [|k]; destruct (Hstep _ _ Hq) as (w' & -> & ->).
  - eexists. split; [done|]. cbn. split; [by rewrite aget_insert, decide_True|].
    intros i Hi. by rewrite aget_insert, decide_False by (done || lia).
  - destruct (IH k (w <| cqs := <[Z.to_nat c := replicate k None ++ Some wc :: q]> (cqs w) |>))
      as (l & E & Hc & Hl); [done| |lia|].
    { cbn. by rewrite aget_insert, decide_True by (done || lia). }
    exists l. split; [exact E|]. split; [exact Hc|]. intros i Hi. rewrite Hl by done. cbn.
    by rewrite aget_insert, decide_False by (done || lia).
Qed.

(** * Finished requests *)

Definition write_wc (r : ctx_ref) : ib_wc :=
  {| wc_stat := WC_SUCCESS; wc_op_ := WC_RDMA_WRITE r; wc_byte_len_ok := true |}.
Definition read_wc (r : ctx_ref) (data : list byte) : ib_wc :=
  {| wc_stat := WC_SUCCESS; wc_op_ := WC_RDMA_READ r data; wc_byte_len_ok := true |}.

(** A context whose request is over. *)
Definition finished (c : rdma_ctx) : rdma_ctx :=
  c <| in_flight := CTX_IDLE |> <| chunk_index := -1 |> <| chunk_ptr := None |> <| ctx_req := None |>.
Definition ended (rq : request) : request := rq <| rq_ended := rq_ended rq + 1 |>.

Lemma atomic_dec_and_test_Ret cnt n w :
  counters w !! cnt = Some n →
  atomic_dec_and_test cnt w = Ret (n - 1 =? 0, w <| counters := <[cnt := n - 1]> (counters w) |>).
Proof.
  intros En. unfold atomic_dec_and_test. erewrite M_bind_Ret by done.
  erewrite M_bind_Ret by (unfold lift; by rewrite En). by erewrite M_bind_Ret by done.
Qed.

Lemma get_req_Ret req rq w : reqs w !! req = Some rq → get_req req w = Ret (rq, w).
Proof. intros E. unfold get_req. erewrite M_bind_Ret by done. unfold lift. by rewrite E. Qed.
Lemma upd_req_Ret req rq f w :
  reqs w !! req = Some rq → upd_req req f w = Ret ((), w <| reqs := <[req := f rq]> (reqs w) |>).
Proof. intros E. unfold upd_req. by erewrite M_bind_Ret by (by apply get_req_Ret). Qed.

Section events.
Context (cfg : config) (post_ret : Z → Z).

(** A successful write completion is handed to [client_write_done], in a world that
    differs by the polls. *)
Lemma write_polled c r k q w :
  usable (sess w) c → aget (cqs w) c = Some (replicate k None ++ Some (write_wc r) :: q) →
  ∃ l, aget l c = Some q ∧ (∀ i, i ≠ c → aget l i = aget (cqs w) i) ∧
    ∀ v, client_write_done r (w <| cqs := l |>) = Ret (0, v) →
      rdma_cq_event_handler cfg post_ret c w = Ret ((), v).
Proof.
  intros Hu Eq. pose proof Hu as (cb & st & Ecb & Hst & Est & Hf).
  destruct (poll_loop_Ret c (write_wc r) k q (S (length (replicate k None ++ Some (write_wc r) :: q))) w Hu Eq)
    as (l & E & Hc & Hl). { rewrite length_app, length_replicate. cbn. lia. }
  exists l. split; [exact Hc|]. split; [exact Hl|]. intros v Ev. unfold rdma_cq_event_handler.
  erewrite M_bind_Ret by (by apply get_cb_Ret). rewrite decide_False by done.
  erewrite M_bind_Ret by done. rewrite Eq. cbn [default from_option].
  erewrite M_bind_Ret by exact E. cbn [write_wc wc_stat wc_op_]. by erewrite M_bind_Ret by exact Ev.
Qed.

Lemma write_event c r w :
  usable (sess w) c → delivers w c (write_wc r) →
  ∃ l, (∀ i, i ≠ c → aget l i = aget (cqs w) i) ∧
    ∀ v, client_write_done r (w <| cqs := l |>) = Ret (0, v) →
      rdma_cq_event_handler cfg post_ret c w = Ret ((), v).
Proof.
  intros Hu (k & q & Eq). destruct (write_polled c r k q w Hu Eq) as (l & _ & Hl & Hev). by exists l.
Qed.

(** A server that is found to be lost: its connection is in the error state, or it is marked
    as failed when the completion queue is polled, or the queue delivers an error. *)
Definition lost_server (w : world) (c : Z) : Prop :=
  ∃ cb, aget (cb_list (sess w)) c = Some cb ∧
    (cb_st cb = ERROR ∨ (aget (cb_state_list (sess w)) (cb_index cb) = Some CB_FAIL ∧ is_Some (aget (cqs w) c)) ∨
     usable (sess w) c ∧ ∃ wc, delivers w c wc ∧ wc_stat wc = WC_ERROR).

(** Then the connection is in the error state afterwards, whatever was polled. *)
Lemma lost_event c w :
  lost_server w c →
  ∃ cb l, aget (cb_list (sess w)) c = Some cb ∧ (∀ i, i ≠ c → aget l i = aget (cqs w) i) ∧
    rdma_cq_event_handler cfg post_ret c w = Ret ((), w <| cqs := l |>
      <| sess := (sess w) <| cb_list := <[Z.to_nat c := cb <| cb_st := ERROR |>]> (cb_list (sess w)) |> |>).
Proof.
  intros (cb & Ecb & Hcase). exists cb. pose proof (aget_lt _ _ _ Ecb) as Hc.
  destruct (decide (cb_st cb = ERROR)) as [He|He].
  { exists (cqs w). split_and!; [done..|]. unfold rdma_cq_event_handler. erewrite M_bind_Ret by (by apply get_cb_Ret).
    rewrite decide_True by done. replace (cb <| cb_st := ERROR |>) with cb by (destruct cb; cbn in *; by subst).
    rewrite list_insert_id by (by apply aget_Some in Ecb as [_ ?]). by destruct w as [[] ? ? ? ? ?]. }
  assert (∀ r l, poll_loop (S (length (default [] (aget (cqs w) c)))) c w = Ret (r, w <| cqs := l |>) →
    (r = None ∨ ∃ wc, r = Some wc ∧ wc_stat wc = WC_ERROR) →
    rdma_cq_event_handler cfg post_ret c w = Ret ((), w <| cqs := l |>
      <| sess := (sess w) <| cb_list := <[Z.to_nat c := cb <| cb_st := ERROR |>]> (cb_list (sess w)) |> |>)) as Hend.
  { intros r l E Hr. unfold rdma_cq_event_handler. erewrite M_bind_Ret by (by apply get_cb_Ret). rewrite decide_False by done.
    erewrite M_bind_Ret by done. erewrite M_bind_Ret by exact E. cbv zeta.
    assert (upd_cb c (λ cb, cb <| cb_st := ERROR |>) (w <| cqs := l |>) = Ret ((), w <| cqs := l |>
      <| sess := (sess w) <| cb_list := <[Z.to_nat c := cb <| cb_st := ERROR |>]> (cb_list (sess w)) |> |>)) as Hup.
    { unfold upd_cb. erewrite M_bind_Ret by (by apply get_cb_Ret). unfold set_cb. erewrite M_bind_Ret by done.
      by erewrite M_bind_Ret by (unfold lift; by rewrite aset_Some by done). }
    destruct Hr as [->|(wc & -> & Hwc)]; [exact Hup|]. rewrite Hwc. exact Hup. }
  destruct Hcase as [|[(Est & [[|o q] Eq])|(Hu & wc & (k & q & Eq) & Hwc)]]; [done|..].
  - exists (cqs w). split_and!; [done..|]. apply (Hend None); [|by left]. rewrite Eq. cbn [poll_loop length default].
    erewrite M_bind_Ret by (by apply ib_poll_cq_nil). erewrite M_bind_Ret by (by apply get_cb_Ret).
    erewrite M_bind_Ret by (by apply get_cb_state_Ret). rewrite decide_True by done. by destruct w.
  - exists (<[Z.to_nat c := q]> (cqs w)). pose proof (aget_lt _ _ _ Eq) as Hq. split; [done|].
    split; [intros i Hi; by rewrite aget_insert, decide_False by done|]. apply (Hend None); [|by left]. rewrite Eq. cbn [poll_loop].
    erewrite M_bind_Ret by (by apply ib_poll_cq_Ret). erewrite M_bind_Ret by (by apply get_cb_Ret).
    erewrite M_bind_Ret by (by apply get_cb_state_Ret). by rewrite decide_True.
  - destruct (poll_loop_Ret c wc k q (S (length (replicate k None ++ Some wc :: q))) w Hu Eq) as (l & E & _ & Hl).
    { rewrite length_app, length_replicate. cbn. lia. }
    exists l. split; [done|]. split; [done|]. apply (Hend (Some wc)); [by rewrite Eq|]. right. by exists wc.
Qed.

(** A queue with nothing in it is polled for ever. *)
Lemma poll_loop_empty c n fuel w :
  usable (sess w) c → aget (cqs w) c = Some (replicate n None) → poll_loop fuel c w = Wait.
Proof.
  revert n w. induction fuel as [|fuel IH]; intros n w Hu Eq; [done|]. pose proof (aget_lt _ _ _ Eq) as Hlt.
  pose proof Hu as (cb & st & Ecb & Hst & Est & Hf). cbn [poll_loop]. destruct n as [|n].
  - erewrite M_bind_Ret by (by apply ib_poll_cq_nil). erewrite M_bind_Ret by (by apply get_cb_Ret).
    erewrite M_bind_Ret by (by apply get_cb_state_Ret). rewrite decide_False by done. by apply (IH 0%nat).
  - erewrite M_bind_Ret by (by apply ib_poll_cq_Ret). erewrite M_bind_Ret by (by apply get_cb_Ret).
    erewrite M_bind_Ret by (by apply get_cb_state_Ret). rewrite decide_False by done.
    apply (IH n); [done|]. cbn. by rewrite aget_insert, decide_True.
Qed.
Lemma handler_empty c n w :
  usable (sess w) c → aget (cqs w) c = Some (replicate n None) → rdma_cq_event_handler cfg post_ret c w = Wait.
Proof.
  intros Hu Eq. pose proof Hu as (cb & st & Ecb & Hst & Est & Hf). unfold rdma_cq_event_handler.
  erewrite M_bind_Ret by (by apply get_cb_Ret). rewrite decide_False by done. erewrite M_bind_Ret by done.
  unfold mbind, M_bind. by rewrite (poll_loop_empty c n) by done.
Qed.

(** The data of a read is in the context's buffer when [client_read_done] sees it. *)
Lemma read_event c r data x w :
  usable (sess w) c → delivers w c (read_wc r data) →
  ctx_of (conns_of w) r = Some x → alen (rdma_buf x) = alen data →
  ∃ l cs, (∀ i, i ≠ c → aget l i = aget (cqs w) i) ∧
    ctx_set (conns_of w) cs r (x <| rdma_buf := data |>) ∧
    ∀ v, client_read_done cfg r (with_conns (w <| cqs := l |>) cs) = Ret (0, v) →
      rdma_cq_event_handler cfg post_ret c w = Ret ((), v).
Proof.
  intros Hu (k & q & Eq) Ex Hx. pose proof Hu as (cb & st & Ecb & Hst & Est & Hf).
  destruct (poll_loop_Ret c (read_wc r data) k q (S (length (replicate k None ++ Some (read_wc r data) :: q))) w Hu Eq)
    as (l & E & _ & Hl). { rewrite length_app, length_replicate. cbn. lia. }
  assert (ctx_of (conns_of (w <| cqs := l |>)) r = Some x) as Exl by exact Ex.
  destruct (set_ctx_Ret _ r x (x <| rdma_buf := data |>) Exl) as (cs & Es & Hs).
  exists l, cs. split; [exact Hl|]. split; [exact Hs|]. intros v Ev. unfold rdma_cq_event_handler.
  erewrite M_bind_Ret by (by apply get_cb_Ret). rewrite decide_False by done.
  erewrite M_bind_Ret by done. rewrite Eq. cbn [default from_option].
  erewrite M_bind_Ret by exact E. cbn [read_wc wc_stat wc_op_].
  erewrite M_bind_Ret by (apply get_ctx_Ret; exact Ex).
  erewrite M_bind_Ret by (unfold lift; by rewrite overwrite_all).
  erewrite M_bind_Ret by exact Es. by erewrite M_bind_Ret by exact Ev.
Qed.
End events.

(** [client_write_done]: the context is finished and returned to its pool; the request is
    ended when its counter reaches zero. *)
Lemma client_write_done_Ret r c f req cnt n rq w :
  ctx_of (conns_of w) r = Some c → ctx_req c = Some req → ctx_cnt c = Some cnt →
  counters w !! cnt = Some n → reqs w !! req = Some rq →
  free_ctxs <$> pool_of (conns_of w) (rf_conn r) (rf_pool r) = Some f → -1 <= pool_tail f < alen (ctx_list f) - 1 →
  ∃ cs, client_write_done r w = Ret (0, with_conns (w <| counters := <[cnt := n - 1]> (counters w) |>
      <| reqs := if n - 1 =? 0 then <[req := ended rq]> (reqs w) else reqs w |>) cs) ∧
    (∀ s, ctx_of cs s = if decide (s = r) then finished <$> ctx_of (conns_of w) s else ctx_of (conns_of w) s) ∧
    (∀ cn q, free_ctxs <$> pool_of cs cn q = if decide (cn = rf_conn r ∧ q = rf_pool r)
       then (free_ctxs <$> pool_of (conns_of w) cn q) ≫= λ f, pool_insert f (rf_ix r)
       else free_ctxs <$> pool_of (conns_of w) cn q).
Proof.
  intros Ec Ereq Ecnt En Erq Ef Ht. unfold client_write_done.
  erewrite M_bind_Ret by (by apply get_ctx_Ret).
  destruct (upd_ctx_Ret w r c (λ c, c <| in_flight := CTX_IDLE |>) Ec) as (cs1 & E1 & [P1 Q1]).
  erewrite M_bind_Ret by exact E1. rewrite Ecnt. erewrite M_bind_Ret by done.
  erewrite M_bind_Ret by (by apply atomic_dec_and_test_Ret).
  set (w1 := (with_conns w cs1) <| counters := _ |>).
  set (w2 := w1 <| reqs := if n - 1 =? 0 then <[req := ended rq]> (reqs w) else reqs w |>).
  erewrite (M_bind_Ret _ _ _ () w2).
  2: { unfold when. destruct (n - 1 =? 0); [|by subst w1 w2; destruct w]. rewrite Ereq.
       erewrite M_bind_Ret by done. unfold end_request. by erewrite upd_req_Ret by done. }
  assert (ctx_of (conns_of w2) r = Some (c <| in_flight := CTX_IDLE |>)) as Ec2.
  { change (conns_of w2) with cs1. by rewrite P1, decide_True. }
  destruct (upd_ctx_Ret w2 r _ (λ c, c <| chunk_index := -1 |> <| chunk_ptr := None |> <| ctx_req := None |>) Ec2)
    as (cs2 & E2 & [P2 Q2]). change (conns_of w2) with cs1 in P2, Q2.
  erewrite M_bind_Ret by exact E2.
  destruct (IS_insert_ctx_Ret (with_conns w2 cs2) r f (finished c)) as (cs3 & E3 & [P3 Q3]).
  { rewrite conns_of_with, P2. by rewrite decide_True. }
  { rewrite conns_of_with, Q2, Q1. exact Ef. }
  { done. }
  rewrite conns_of_with in P3, Q3. exists cs3. split; [|split].
  - by erewrite M_bind_Ret by exact E3.
  - intros s. rewrite P3, P2, P1. case_decide as Hd; [|done]. by rewrite Hd, Ec.
  - intros cn q. by rewrite Q3, Q2, Q1.
Qed.
