(* ===== verification/Slots.v ===== *)
(** The slots of a request: which server each of the [NDISKS] disks of a slab is on, the
    RDMA context the request takes for it, and the loops of the data path ([Transfer])
    that act on all of them. *)

From S2P Require Import Prelude Config MT Fault State CtxPool Chunks Store Transfer.

(** * Slots *)

(** Disk [i] of a slab: the pool its context comes from (the server's, or pool [i] when no
    server holds the disk), the context on top of it, and where the server keeps it. *)
Record slot : Type := { s_pool : Z; s_ix : Z; s_disk : option (Z * remote_chunk_g) }.

Definition mapped (s : slot) : bool := match s_disk s with Some _ => true | None => false end.
Definition target_of (s : slot) : target :=
  match s_disk s with
  | Some (ci, ck) => {| t_cb := s_pool s; t_cb_ptr := Some (s_pool s); t_chunk_index := ci; t_chunk := Some ck |}
  | None => {| t_cb := NO_CB_MAPPED; t_cb_ptr := None; t_chunk_index := 0; t_chunk := None |}
  end.
Definition sref (conn : Z) (s : slot) : ctx_ref := {| rf_conn := conn; rf_pool := s_pool s; rf_ix := s_ix s |}.

(** The slots of one request use different pools. *)
Record placed (ss : list slot) : Prop := {
  pl_pools : NoDup (s_pool <$> ss);
  pl_slot : ∀ i s, aget ss i = Some s → if mapped s then s_pool s ≠ NO_CB_MAPPED else s_pool s = i
}.

(** The context on top of the pool has its share of a page of memory. *)
Definition ready (cfg : config) (cs : list connection) (conn : Z) (s : slot) : Prop :=
  top_free cs conn (s_pool s) (s_ix s) ∧
  ∃ c, ctx_of cs (sref conn s) = Some c ∧ alen (rdma_buf c) = cb_size cfg ∧ alen (ctxs c) = NDISKS cfg.

Definition disk_wr (op : opcode) (offset len : Z) (ck : remote_chunk_g) : send_wr :=
  {| wr_length := len; wr_rkey := remote_rkey ck; wr_remote_addr := u64 (remote_addr ck + offset); wr_opcode := op |}.
Definition disk_post (op : opcode) (conn offset len : Z) (s : slot) : option post :=
  d ← s_disk s; Some (PostRdma (s_pool s) (sref conn s) (disk_wr op offset len d.2)).

Lemma unmapped_target ss i s : placed ss → aget ss i = Some s → unmapped (target_of s) = negb (mapped s).
Proof.
  intros Hp E. apply (pl_slot _ Hp) in E. unfold mapped, target_of, unmapped in *.
  destruct (s_disk s) as [[ci ck]|]; [|done]. by apply Z.eqb_neq.
Qed.

Lemma separate_refs conn ss : placed ss → separate (sref conn <$> ss).
Proof.
  intros [Hnd _]. unfold separate. rewrite <- list_fmap_compose.
  apply (NoDup_fmap_1 snd). by rewrite <- list_fmap_compose.
Qed.

Lemma aget_refs conn ss i s : aget ss i = Some s → aget (sref conn <$> ss) i = Some (sref conn s).
Proof. intros E. by rewrite aget_map, E. Qed.
Lemma aget_refs_Some conn ss i s : aget ss i = Some s → aget (Some <$> (sref conn <$> ss)) i = Some (Some (sref conn s)).
Proof. intros E. by rewrite !aget_map, E. Qed.
Lemma aget_refs_inv conn ss i r : aget (sref conn <$> ss) i = Some r → ∃ s, aget ss i = Some s ∧ r = sref conn s.
Proof. rewrite aget_map. destruct (aget ss i) as [s|]; [|done]. intros [= <-]. by exists s. Qed.
Lemma alen_refs conn ss : alen (sref conn <$> ss) = alen ss.
Proof. unfold alen. by rewrite length_fmap. Qed.

Lemma the_target_Ret ss i s w : aget ss i = Some s → the_target (target_of <$> ss) i w = Ret (target_of s, w).
Proof. intros E. unfold the_target, lift. by rewrite aget_map, E. Qed.

Section slots.
Context (cfg : config).
Context (conn : Z) (ss : list slot) (Hplaced : placed ss) (Hlen : alen ss = NDISKS cfg).

#[local] Notation "'refs'" := (sref conn <$> ss).
#[local] Notation "'some_refs'" := (Some <$> (sref conn <$> ss)).

Lemma slot_at i : 0 <= i < NDISKS cfg → ∃ s, aget ss i = Some s ∧ s ∈ ss.
Proof using Hlen.
  intros Hi. destruct (proj2 (aget_is_Some ss i)) as [s E]; [lia|]. exists s. split; [done|by eapply aget_elem].
Qed.

(** A loop over all contexts that rewrites each of them once. *)
Lemma loop_progress {S} (acc : Z → S) (f : Z → rdma_ctx → rdma_ctx) g (body : Z → S → M world S) w :
  (∀ i s v, aget ss i = Some s → progress refs f g (conns_of w) i v →
    ∃ cs, body i (acc i) (with_conns w v) = Ret (acc (i + 1), with_conns w cs) ∧
      (∀ r, ctx_of cs r = if decide (r = sref conn s) then f i <$> ctx_of v r else ctx_of v r) ∧
      (∀ c q, free_ctxs <$> pool_of cs c q = if decide (c = conn ∧ q = s_pool s)
         then (free_ctxs <$> pool_of v c q) ≫= g (sref conn s) else free_ctxs <$> pool_of v c q)) →
  ∃ cs, loop 0 (NDISKS cfg) body (acc 0) w = Ret (acc (NDISKS cfg), with_conns w cs) ∧
    progress refs f g (conns_of w) (NDISKS cfg) cs.
Proof using Hplaced Hlen.
  intros Hb.
  destruct (loop_inv (λ i a v, a = acc i ∧ ∃ cs, v = with_conns w cs ∧ progress refs f g (conns_of w) i cs)
    body 0 (NDISKS cfg) (acc 0) w) as (a & v & E & -> & cs & -> & Hpr); [unfold alen in Hlen; lia| | |by exists cs].
  - split; [done|]. exists (conns_of w). split; [by rewrite with_conns_id|apply progress_start].
  - intros i a v Hi (-> & cs & -> & Hpr). destruct (slot_at i Hi) as (s & Es & _).
    destruct (Hb i s cs Es Hpr) as (cs' & Ec & H1 & H2). exists (acc (i + 1)), (with_conns w cs').
    split; [done|]. split; [done|]. exists cs'. split; [done|].
    eapply progress_step; [by apply separate_refs|by apply aget_refs|done|done|done].
Qed.

(** The same when only one context changes and its free list stays. *)
Lemma loop_ctx_set (f : Z → rdma_ctx → rdma_ctx) (body : Z → () → M world ()) w :
  (∀ i s v c, aget ss i = Some s → progress refs f (λ _, Some) (conns_of w) i v →
    ctx_of (conns_of w) (sref conn s) = Some c → ctx_of v (sref conn s) = Some c →
    ∃ cs, body i () (with_conns w v) = Ret ((), with_conns w cs) ∧ ctx_set v cs (sref conn s) (f i c)) →
  (∀ s, s ∈ ss → is_Some (ctx_of (conns_of w) (sref conn s))) →
  ∃ cs, loop 0 (NDISKS cfg) body () w = Ret ((), with_conns w cs) ∧
    progress refs f (λ _, Some) (conns_of w) (NDISKS cfg) cs.
Proof using Hplaced Hlen.
  intros Hb Hc. apply (loop_progress (λ _, ())). intros i s v Es Hp.
  destruct (Hc s) as [c Ec]; [by eapply aget_elem|].
  assert (ctx_of v (sref conn s) = Some c) as Ev.
  { rewrite (pr_ctx _ _ _ _ _ _ Hp i) by (by apply aget_refs). by rewrite decide_False by lia. }
  destruct (Hb i s v c Es Hp Ec Ev) as (cs & E & [H1 H2]). exists cs. split_and!; [done| |].
  - intros r. rewrite H1. case_decide as Hd; [|done]. by rewrite Hd, Ev.
  - intros c' q. rewrite H2. case_decide; [|done]. by destruct (free_ctxs <$> _).
Qed.

(** * Taking the contexts *)

(** The context of disk [i] after [prepare], for a read ([Some] flag) or a write. *)
Definition prepared (op : opcode) (fl : option Z) (full : bool) (req cnt : nat) (offset len : Z) (i : Z) (c : rdma_ctx) : rdma_ctx :=
  match aget ss i with
  | Some {| s_pool := p; s_disk := Some (ci, ck) |} =>
      let c := c <| ctx_req := Some req |> <| ctx_cb := Some p |> in
      let c := match fl with Some v => c <| in_flight := v |> | None => c end in
      let c := if full then c <| ctx_offset := offset |> <| ctx_len := len |> <| chunk_ptr := Some ck |> <| chunk_index := ci |>
               else c in
      c <| sq_wr := disk_wr op offset len ck |> <| ctx_idx := i |> <| ctx_cnt := Some cnt |>
  | _ => c
  end.

Lemma prepare_Ret op fl full req cnt i offset len s c w :
  aget ss i = Some s → mapped s = true → ctx_of (conns_of w) (sref conn s) = Some c →
  ∃ cs, prepare cfg op fl req cnt i offset len (target_of s) (sref conn s) full w = Ret ((), with_conns w cs) ∧
    ctx_set (conns_of w) cs (sref conn s) (prepared op fl full req cnt (offset / NDATAS cfg) (len / NDATAS cfg) i c).
Proof.
  intros Es Hm E. unfold prepare, target_of, mapped, prepared in *. rewrite Es. destruct s as [p ix [[ci ck]|]]; [|done].
  cbn [s_disk s_pool]. erewrite M_bind_Ret by done. erewrite M_bind_Ret by done.
  match goal with |- context [upd_ctx _ ?f] => destruct (upd_ctx_Ret w _ c f E) as (cs & Eu & Hs) end.
  exists cs. split; [exact Eu|]. by destruct full, fl.
Qed.

(** A context is taken from each pool, and prepared if its disk is on a server. *)
Lemma take_ctx_Ret op fl full req cnt offset len i s v w c :
  aget ss i = Some s → top_free v conn (s_pool s) (s_ix s) → ctx_of v (sref conn s) = Some c →
  ∃ cs1 cs, IS_get_ctx conn (s_pool s) (with_conns w v) = Ret (Some (sref conn s), with_conns w cs1) ∧
    ctx_of cs1 (sref conn s) = Some c ∧
    (if mapped s then prepare cfg op fl req cnt i offset len (target_of s) (sref conn s) full (with_conns w cs1) =
                      Ret ((), with_conns w cs)
     else cs = cs1) ∧
    (∀ r, ctx_of cs r = if decide (r = sref conn s) 
        then prepared op fl full req cnt (offset / NDATAS cfg) (len / NDATAS cfg) i <$> ctx_of v r else ctx_of v r) ∧
    (∀ c q, free_ctxs <$> pool_of cs c q = if decide (c = conn ∧ q = s_pool s)
        then (free_ctxs <$> pool_of v c q) ≫= (λ f, Some (pop f)) else free_ctxs <$> pool_of v c q).
Proof.
  intros Es Htop Ec. destruct (IS_get_ctx_Ret (with_conns w v) conn (s_pool s) (s_ix s) Htop) as (cs1 & E1 & [P1 P2]).
  rewrite conns_of_with in P1, P2. exists cs1.
  assert (∀ c' q, free_ctxs <$> pool_of cs1 c' q = if decide (c' = conn ∧ q = s_pool s)
        then (free_ctxs <$> pool_of v c' q) ≫= (λ f, Some (pop f)) else free_ctxs <$> pool_of v c' q) as P3.
  { intros c' q. rewrite P2. case_decide; [|done]. by destruct (free_ctxs <$> _). }
  destruct (mapped s) eqn:Hm.
  - destruct (prepare_Ret op fl full req cnt i offset len s c (with_conns w cs1)) as (cs2 & E2 & [S1 S2]); [done..| |].
    { by rewrite conns_of_with, P1. }
    exists cs2. split_and!; [exact E1|by rewrite P1|exact E2| |].
    + intros r. rewrite S1. case_decide as Hd; [|apply P1]. by rewrite Hd, Ec.
    + intros c' q. by rewrite S2, conns_of_with.
  - exists cs1. split_and!; [exact E1|by rewrite P1|done| |exact P3].
    intros r. rewrite P1. case_decide as Hd; [|done]. unfold prepared. rewrite Es. unfold mapped in Hm.
    destruct s as [p ix [[ci ck]|]]; [done|]. by destruct (ctx_of v r).
Qed.

Definition taken (j : Z) : list (option ctx_ref) := take (Z.to_nat j) some_refs.

Lemma taken_step i s : aget ss i = Some s → taken (i + 1) = taken i ++ [Some (sref conn s)].
Proof.
  intros Es. pose proof (aget_lt _ _ _ Es). apply (aget_refs_Some conn) in Es as [_ Es]%aget_Some. unfold taken.
  replace (Z.to_nat (i + 1)) with (S (Z.to_nat i)) by lia. by rewrite (take_S_r _ _ _ Es).
Qed.
Lemma taken_all : taken (NDISKS cfg) = some_refs.
Proof using Hlen. unfold taken. apply take_ge. rewrite !length_fmap. unfold alen in Hlen. lia. Qed.

(** What [get_ctxs_write] and [get_ctxs_read] leave. *)
Definition all_taken (op : opcode) (fl : option Z) (full : bool) (req cnt : nat) (offset len : Z) (w : world) (cs : list connection) : Prop :=
  progress refs (prepared op fl full req cnt offset len) (λ _ f, Some (pop f)) (conns_of w) (NDISKS cfg) cs.

Lemma taking op fl full req cnt offset len w i s v :
  (∀ s, s ∈ ss → ready cfg (conns_of w) conn s) → aget ss i = Some s →
  progress refs (prepared op fl full req cnt offset len) (λ _ f, Some (pop f)) (conns_of w) i v →
  ∃ c, top_free v conn (s_pool s) (s_ix s) ∧ ctx_of v (sref conn s) = Some c.
Proof.
  intros Hr Es Hp. destruct (Hr s) as [(f & Ef & Ht & Ei) (c & Ec & _)]; [by eapply aget_elem|]. exists c.
  pose proof (pr_free _ _ _ _ _ _ Hp i _ (aget_refs conn ss i s Es)) as Hf.
  pose proof (pr_ctx _ _ _ _ _ _ Hp i _ (aget_refs conn ss i s Es)) as Hc.
  rewrite decide_False in Hf by lia. rewrite decide_False in Hc by lia. cbn [rf_conn rf_pool sref] in Hf.
  split; [exists f; by rewrite Hf|by rewrite Hc].
Qed.

Lemma get_ctxs_write_Ret offset len req cnt w :
  (∀ s, s ∈ ss → ready cfg (conns_of w) conn s) →
  ∃ cs, get_ctxs_write cfg (target_of <$> ss) conn offset len req cnt w = Ret (some_refs, with_conns w cs) ∧
    all_taken WR_RDMA_WRITE None true req cnt (offset / NDATAS cfg) (len / NDATAS cfg) w cs.
Proof using Hplaced Hlen.
  intros Hr. rewrite <- taken_all. unfold get_ctxs_write. apply (loop_progress taken). intros i s v Es Hp.
  destruct (taking _ _ _ _ _ _ _ _ _ _ _ Hr Es Hp) as (c & Ht & Ec).
  destruct (take_ctx_Ret WR_RDMA_WRITE None true req cnt offset len i s v w c Es Ht Ec) as (cs1 & cs & E1 & Ec1 & E2 & H).
  exists cs. split; [|exact H]. rewrite (taken_step i s Es). erewrite M_bind_Ret by (by apply the_target_Ret).
  rewrite (unmapped_target ss i s) by done. pose proof (pl_slot _ Hplaced _ _ Es) as Hs.
  destruct (mapped s) eqn:Hm; cbn [negb].
  - replace (t_cb (target_of s)) with (s_pool s) by (unfold mapped, target_of in *; by destruct (s_disk s) as [[]|]).
    erewrite M_bind_Ret by exact E1. cbv beta iota. by erewrite M_bind_Ret by exact E2.
  - rewrite Hs in E1. subst cs1. erewrite M_bind_Ret by exact E1. erewrite M_bind_Ret by done.
    by erewrite M_bind_Ret by (by apply get_ctx_Ret).
Qed.

Lemma get_ctxs_read_Ret offset len req cnt w :
  (∀ s, s ∈ ss → ready cfg (conns_of w) conn s) →
  ∃ cs, get_ctxs_read cfg (target_of <$> ss) conn offset len req cnt w = Ret (some_refs, with_conns w cs) ∧
    all_taken WR_RDMA_READ (Some CTX_R_IN_FLIGHT) false req cnt (offset / NDATAS cfg) (len / NDATAS cfg) w cs.
Proof using Hplaced Hlen.
  intros Hr. rewrite <- taken_all. unfold get_ctxs_read. apply (loop_progress taken). intros i s v Es Hp.
  destruct (taking _ _ _ _ _ _ _ _ _ _ _ Hr Es Hp) as (c & Ht & Ec).
  destruct (take_ctx_Ret WR_RDMA_READ (Some CTX_R_IN_FLIGHT) false req cnt offset len i s v w c Es Ht Ec)
    as (cs1 & cs & E1 & Ec1 & E2 & H).
  exists cs. split; [|exact H]. rewrite (taken_step i s Es). erewrite M_bind_Ret by (by apply the_target_Ret).
  rewrite (unmapped_target ss i s) by done. pose proof (pl_slot _ Hplaced _ _ Es) as Hs.
  destruct (mapped s) eqn:Hm; cbn [negb].
  - replace (t_cb (target_of s)) with (s_pool s) by (unfold mapped, target_of in *; by destruct (s_disk s) as [[]|]).
    erewrite M_bind_Ret by exact E1. cbv beta iota. by erewrite M_bind_Ret by exact E2.
  - rewrite Hs in E1. subst cs1. by erewrite M_bind_Ret by exact E1.
Qed.
(** The free list of a slot's pool once a loop over all contexts is over. *)
Lemma progress_free f g cs v s :
  progress refs f g cs (NDISKS cfg) v → s ∈ ss →
  free_ctxs <$> pool_of v conn (s_pool s) = (free_ctxs <$> pool_of cs conn (s_pool s)) ≫= g (sref conn s).
Proof using Hlen.
  intros Hpr [i Es]%elem_of_aget. pose proof (aget_lt _ _ _ Es).
  pose proof (pr_free _ _ _ _ _ _ Hpr i _ (aget_refs conn ss i s Es)) as Hf. by rewrite decide_True in Hf by lia.
Qed.
End slots.
