(* ===== verification/Stripe.v ===== *)
(** Stripes: how a page is cut into the [NDISKS] buffers of a slab in either build, how
    the encoder computes the redundant ones, how the page is put together again, and the
    buffers of a request's contexts as one array. *)

From S2P Require Import Prelude GF256 GFVect GFMatrix Decode Config MT Fault State CtxPool Store Transfer Slots.

(** * Copies *)

Lemma memcpy_at_spec dst doff src soff n :
  0 <= doff → 0 <= soff → 0 <= n → doff + n <= alen dst → soff + n <= alen src →
  ∃ d, memcpy_at dst doff src soff n = Some d ∧ alen d = alen dst ∧
    ∀ i, 0 <= i → aget d i = if decide (doff <= i < doff + n) then aget src (soff + (i - doff)) else aget dst i.
Proof.
  intros Hd Hs Hn Ld Ls. unfold memcpy_at, slice, overwrite.
  set (bs := take (Z.to_nat n) (drop (Z.to_nat soff) src)).
  assert (alen bs = n) as Lb by (subst bs; unfold alen in *; rewrite length_take, length_drop; lia).
  rewrite (proj2 (Z.leb_le 0 soff)), (proj2 (Z.leb_le 0 n)), (proj2 (Z.leb_le (soff + n) (alen src))) by done.
  cbn [andb]. step_bind. rewrite (proj2 (Z.leb_le 0 doff)), (proj2 (Z.leb_le (doff + alen bs) (alen dst))) by lia.
  cbn [andb]. eexists; split; [done|]. rewrite Lb. split.
  - rewrite !alen_app, Lb. unfold alen in *. rewrite length_take, length_drop. lia.
  - intros i Hi. assert (alen (take (Z.to_nat doff) dst) = doff) as Lt.
    { unfold alen in *. rewrite length_take. lia. }
    rewrite aget_app, Lt by done. destruct (decide (i < doff)).
    { rewrite decide_False by lia. apply aget_take. lia. }
    rewrite aget_app, Lb by lia. destruct (decide (i - doff < n)).
    + rewrite decide_True by lia. subst bs. rewrite aget_take, aget_drop by lia. done.
    + rewrite decide_False by lia. rewrite aget_drop by lia. f_equal. lia.
Qed.

(** A copy that is made is in bounds. *)
Lemma memcpy_at_inv dst doff src soff n d :
  memcpy_at dst doff src soff n = Some d →
  0 <= doff ∧ 0 <= soff ∧ 0 <= n ∧ doff + n <= alen dst ∧ soff + n <= alen src ∧ alen d = alen dst.
Proof.
  intros E. assert (0 <= doff ∧ 0 <= soff ∧ 0 <= n ∧ doff + n <= alen dst ∧ soff + n <= alen src) as (H1 & H2 & H3 & H4 & H5).
  { unfold memcpy_at, slice, overwrite in E. apply bind_Some in E as (bs & Eb & E).
    destruct (_ && _ && _) eqn:Hb in Eb; [|done]. injection Eb as <-. destruct (_ && _) eqn:Hd in E; [|done].
    rewrite !andb_true_iff, !Z.leb_le in *. unfold alen in *. rewrite length_take, length_drop in *. lia. }
  split_and!; try done. destruct (memcpy_at_spec dst doff src soff n H1 H2 H3 H4 H5) as (d' & E' & L & _). congruence.
Qed.

Lemma seqZ_at a n i : 0 <= i < n → aget (seqZ a n) i = Some (a + i).
Proof. intros Hi. apply aget_Some. split; [lia|]. apply lookup_seqZ. lia. Qed.
Lemma alen_seqZ a n : 0 <= n → alen (seqZ a n) = n.
Proof. intros Hn. unfold alen. rewrite length_seqZ. lia. Qed.

(** * The buffers of a stripe *)

(** The kernels that are linked compute dot products ([Avx]: those in the sources do). *)
Definition kernels (e : ec_env) : Prop :=
  DotProdKernel 1 (dot_prod1 e) ∧ DotProdKernel 2 (dot_prod2 e) ∧
  DotProdKernel 3 (dot_prod3 e) ∧ DotProdKernel 4 (dot_prod4 e).

Section stripe.
Context (cfg : config).

#[local] Abbreviation k := (NDATAS cfg).
#[local] Abbreviation sz := (cb_size cfg).

(** Buffer [i] of the stripe that carries [page]: line [i] of the code, byte by byte. *)
Definition stripe_buf (enc page : list byte) (i : Z) : list byte :=
  (λ o, line k enc (λ j, bget page (j * sz + o)) i) <$> seqZ 0 sz.

(** Split [i] of a page. *)
Definition share (page : list byte) (i : Z) : list byte := (λ o, bget page (i * sz + o)) <$> seqZ 0 sz.

(** The configuration writes pages with the code whose generator is [enc]: copies of the
    page in the replication build; in the other one, [encode_tbls] holds the tables of the
    parity rows of a systematic code.  No compiled code sets [encode_tbls]; the statements
    commented out in [IS_ec_init] do, for the Cauchy code ([Recovery.encode_set_coded]), and
    without them no write returns ([WritePath.unset_tables_write]). *)
Record coded (enc : list byte) : Prop := {
  cd_splits : 0 < k <= NDISKS cfg;
  cd_pages : (k | IS_PAGE_SIZE);
  cd_build : match build cfg with
    | REP => k = 1 ∧ ∀ r, 0 <= r < NDISKS cfg → cell 1 enc r 0 = x01
    | EC e => mat_eq k (cell k enc) identity ∧ NDISKS cfg * k <= alen enc ∧
        kernels e ∧
        ∃ tbls0, (NDISKS cfg - k) * k * 32 <= alen tbls0 ∧
          encode_tbls e = ec_init_tables k (NDISKS cfg - k) (drop (Z.to_nat (k * k)) enc) tbls0
    end
}.

Section coded.
Context (enc : list byte) (Hcoded : coded enc).

Lemma share_size : k * sz = IS_PAGE_SIZE ∧ 0 < sz.
Proof using Hcoded.
  destruct Hcoded as [Hk [q Hq] _]. unfold cb_size, MAX_SGL_LEN. rewrite Z.mul_1_r.
  rewrite Hq, Z.div_mul by lia. unfold IS_PAGE_SIZE in Hq. nia.
Qed.
Lemma share_offset i : i * IS_PAGE_SIZE / k = i * sz.
Proof using Hcoded.
  destruct Hcoded as [Hk _ _]. destruct share_size as [<- _].
  rewrite (Z.mul_comm k), Z.mul_assoc, Z.div_mul by lia. done.
Qed.
Lemma share_len : IS_PAGE_SIZE / k = sz.
Proof using Hcoded. pose proof (share_offset 1) as H. by rewrite !Z.mul_1_l in H. Qed.

Lemma alen_stripe page i : alen (stripe_buf enc page i) = sz.
Proof using Hcoded. unfold stripe_buf, alen. rewrite length_fmap, length_seqZ. pose proof share_size. lia. Qed.
Lemma alen_share page i : alen (share page i) = sz.
Proof using Hcoded. unfold share, alen. rewrite length_fmap, length_seqZ. pose proof share_size. lia. Qed.
Lemma aget_stripe page i o :
  0 <= o < sz → aget (stripe_buf enc page i) o = Some (line k enc (λ j, bget page (j * sz + o)) i).
Proof. intros Ho. unfold stripe_buf. by rewrite aget_map, seqZ_at. Qed.
Lemma aget_share page i o : 0 <= o < sz → aget (share page i) o = Some (bget page (i * sz + o)).
Proof. intros Ho. unfold share. by rewrite aget_map, seqZ_at. Qed.

(** Replication: every buffer is the page. *)
Lemma stripe_rep page i :
  build cfg = REP → 0 <= i < NDISKS cfg → alen page = IS_PAGE_SIZE → stripe_buf enc page i = page.
Proof using Hcoded.
  intros Hb Hi Lp. destruct share_size as [Hsz _]. pose proof (cd_build _ Hcoded) as H. rewrite Hb in H.
  destruct H as [H1 Hc]. assert (sz = IS_PAGE_SIZE) as Esz by (rewrite H1 in Hsz; lia).
  apply array_ext. intros o Ho. destruct (Z.lt_ge_cases o sz).
  - rewrite aget_stripe, aget_bget by lia. f_equal. unfold line, mat_vec. rewrite H1.
    change (Z.to_nat 1) with 1%nat. cbn [bsum]. rewrite Hc, bxor_0_l, gf_mul_1_l by done. done.
  - rewrite !(proj2 (aget_None _ o)); [done| |rewrite alen_stripe]; lia.
Qed.

(** Erasure coding: the first buffers are the splits. *)
Lemma stripe_split e page i : build cfg = EC e → 0 <= i < k → stripe_buf enc page i = share page i.
Proof using Hcoded.
  intros Hb Hi. pose proof (cd_build _ Hcoded) as H. rewrite Hb in H. destruct H as [Hid _].
  unfold stripe_buf, share. apply list_fmap_ext. intros _ o _. unfold line.
  by rewrite (mat_vec_ext k _ _ _ i Hid Hi), mat_vec_identity.
Qed.

(** ** Encoding *)

Lemma encode_rows e rows tbls data out :
  kernels e → 0 <= rows → rows * k * 32 <= alen tbls → tabulated (rows * k) tbls →
  alen data = k → (∀ j r, aget data j = Some r → alen r = sz) →
  alen out = rows → (∀ l r, aget out l = Some r → alen r = sz) →
  ∃ out', ec_encode_data_avx (dot_prod1 e) (dot_prod2 e) (dot_prod3 e) (dot_prod4 e) sz k rows tbls data out = Some out' ∧
    alen out' = rows ∧
    ∀ l, 0 <= l < rows →
      aget out' l = Some ((λ o, bsum (Z.to_nat k) (λ j, gf_mul (mget data j o) (coef k tbls l j))) <$> seqZ 0 sz).
Proof using Hcoded.
  intros (K1 & K2 & K3 & K4) Hr Ht Htab Ld Hd Lo Ho. pose proof (cd_splits _ Hcoded). destruct share_size as [_ Hsz].
  destruct (ec_encode_data_avx_spec (dot_prod1 e) (dot_prod2 e) (dot_prod3 e) (dot_prod4 e) sz k rows tbls data out)
    as (out' & E & L & H'); [lia|lia|done| | |done|exact Htab|].
  { split; [lia|]. intros i r _ Er. by rewrite (Hd i r). }
  { split; [lia|]. intros i r _ Er. by rewrite (Ho i r). }
  exists out'. split_and!; [done|lia|]. intros l Hl.
  destruct (proj2 (aget_is_Some out l)) as [row Erow]; [lia|].
  destruct (H' l row Erow) as (row' & -> & Henc). destruct (decide (l < rows)); [|lia].
  destruct Henc as [Lr Henc]. f_equal. apply array_ext. intros o Hpos. rewrite aget_map.
  destruct (decide (o < sz)).
  - rewrite seqZ_at, Henc by lia. destruct (decide (o < sz)); [|lia]. done.
  - rewrite (proj2 (aget_None _ o)), (proj2 (aget_None (seqZ _ _) o)); [done|rewrite alen_seqZ; lia|].
    rewrite Lr, (Ho l row Erow). lia.
Qed.

(** The redundant buffers of a page, from its splits. *)
Lemma encode_stripe e page data out :
  build cfg = EC e → alen data = k → (∀ j, 0 <= j < k → aget data j = Some (share page j)) →
  alen out = NDISKS cfg - k → (∀ l r, aget out l = Some r → alen r = sz) →
  ∃ tbls out', encode_tbls e = Some tbls ∧
    ec_encode_data_avx (dot_prod1 e) (dot_prod2 e) (dot_prod3 e) (dot_prod4 e) sz k (NDISKS cfg - k) tbls data out
      = Some out' ∧ alen out' = NDISKS cfg - k ∧
    ∀ l, 0 <= l < NDISKS cfg - k → aget out' l = Some (stripe_buf enc page (k + l)).
Proof using Hcoded.
  intros Hb Ld Hd Lo Ho. pose proof (cd_splits _ Hcoded) as Hk. pose proof (cd_build _ Hcoded) as H. rewrite Hb in H.
  destruct H as (Hid & Lenc & Hker & tbls0 & Lt & Et).
  destruct (ec_init_tables_coef_spec k (NDISKS cfg - k) (drop (Z.to_nat (k * k)) enc) tbls0)
    as (tbls & E & Lt' & Hc); [lia|lia| |lia|].
  { unfold alen in *. rewrite length_drop. nia. }
  assert (tabulated ((NDISKS cfg - k) * k) tbls) as Htab.
  { eapply ec_init_tables_tabulated; [| | | |exact E]; try lia. unfold alen in *. rewrite length_drop. nia. }
  rewrite E in Et. exists tbls.
  destruct (encode_rows e (NDISKS cfg - k) tbls data out) as (out' & E' & L' & H'); [done|lia|lia|exact Htab|done| |done|done|].
  { intros j r Er. pose proof (aget_lt _ _ _ Er). rewrite Hd in Er by lia. injection Er as <-. apply alen_share. }
  exists out'. split_and!; [done..|]. intros l Hl. rewrite H' by done. f_equal. unfold stripe_buf.
  apply list_fmap_ext. intros ? o Eo. apply list_elem_of_lookup_2, elem_of_seqZ in Eo.
  unfold line, mat_vec. apply bsum_ext. intros j Hj. rewrite Hc by lia.
  rewrite (mget_Some _ _ _ _ (Hd j ltac:(lia))), (bget_Some _ _ _ (aget_share page j o ltac:(lia))).
  rewrite gf_mul_comm. f_equal. unfold cell, bget. rewrite aget_drop by nia. do 2 f_equal. lia.
Qed.
End coded.
End stripe.

(** * The contexts' buffers *)

Section buffers.
Context (cfg : config).
Context (conn : Z) (ss : list slot) (Hplaced : placed ss) (Hlen : alen ss = NDISKS cfg).

#[local] Notation "'some_refs'" := (Some <$> (sref conn <$> ss)).

Definition with_buf (o : option (list byte)) (c : rdma_ctx) : rdma_ctx :=
  match o with Some b => c <| rdma_buf := b |> | None => c end.

(** The store [cs'] is [cs] with new contents in some of the slots' buffers. *)
Record rebuffered (cs : list connection) (f : Z → option (list byte)) (cs' : list connection) : Prop := {
  rb_ctx : ∀ i s, aget ss i = Some s → ctx_of cs' (sref conn s) = with_buf (f i) <$> ctx_of cs (sref conn s);
  rb_free : ∀ q, free_ctxs <$> pool_of cs' conn q = free_ctxs <$> pool_of cs conn q;
  rb_others : ∀ r, r ∉ sref conn <$> ss → ctx_of cs' r = ctx_of cs r
}.

Lemma rebuffered_refl cs : rebuffered cs (λ _, None) cs.
Proof. split; [|done..]. intros i s _. by destruct (ctx_of cs _). Qed.
Lemma rebuffered_ext cs f g cs' :
  (∀ i, 0 <= i < alen ss → f i = g i) → rebuffered cs f cs' → rebuffered cs g cs'.
Proof. intros H [H1 H2 H3]. split; [|done..]. intros i s Es. rewrite <- H by (by eapply aget_lt). by apply H1. Qed.
Lemma rebuffered_trans cs1 cs2 cs3 f g :
  rebuffered cs1 f cs2 → rebuffered cs2 g cs3 →
  rebuffered cs1 (λ i, match g i with Some b => Some b | None => f i end) cs3.
Proof.
  intros [H1 H2 O1] [H3 H4 O2]. split; [|by intros; rewrite H4|intros r Hr; by rewrite O2, O1].
  intros i s Es. rewrite (H3 i s Es), (H1 i s Es). destruct (ctx_of cs1 _); [|done]. cbn. by destruct (g i), (f i).
Qed.

Lemma slot_inj i j s t : aget ss i = Some s → aget ss j = Some t → sref conn s = sref conn t → i = j.
Proof using Hplaced.
  intros Es Et E. destruct (decide (i = j)) as [|Hne]; [done|]. exfalso.
  apply (separate_ne _ i j _ _ (separate_refs conn ss Hplaced) (aget_refs conn ss i s Es) (aget_refs conn ss j t Et) Hne).
  by rewrite E.
Qed.

Lemma rebuffered_one cs cs' i s c b :
  aget ss i = Some s → ctx_of cs (sref conn s) = Some c → ctx_set cs cs' (sref conn s) (c <| rdma_buf := b |>) →
  rebuffered cs (λ j, if decide (j = i) then Some b else None) cs'.
Proof using Hplaced.
  intros Es Ec [H1 H2]. split; [|by intros q; apply H2|].
  2: { intros r Hr. rewrite H1, decide_False; [done|]. intros ->. apply Hr, list_elem_of_fmap. exists s. split; [done|by eapply aget_elem]. }
  intros j t Et. rewrite H1. case_decide as Hd.
  - rewrite (slot_inj j i t s Et Es Hd), decide_True by done. by rewrite Hd, Ec.
  - rewrite decide_False by (intros ->; congruence). by destruct (ctx_of cs (sref conn t)).
Qed.

Lemma rebuffered_get cs f cs' i s c :
  rebuffered cs f cs' → aget ss i = Some s → ctx_of cs (sref conn s) = Some c →
  ctx_of cs' (sref conn s) = Some (with_buf (f i) c).
Proof. intros [H _ _] Es Ec. by rewrite (H i s Es), Ec. Qed.

(** A loop that fills the buffers of the first [n] slots. *)
Lemma loop_rebuffer n (b : Z → list byte) (body : Z → () → M world ()) w :
  0 <= n <= NDISKS cfg →
  (∀ i s v c, 0 <= i < n → aget ss i = Some s → ctx_of (conns_of w) (sref conn s) = Some c →
    ctx_of v (sref conn s) = Some c →
    ∃ cs, body i () (with_conns w v) = Ret ((), with_conns w cs) ∧ ctx_set v cs (sref conn s) (c <| rdma_buf := b i |>)) →
  (∀ s, s ∈ ss → is_Some (ctx_of (conns_of w) (sref conn s))) →
  ∃ cs, loop 0 n body () w = Ret ((), with_conns w cs) ∧
    rebuffered (conns_of w) (λ i, if decide (i < n) then Some (b i) else None) cs.
Proof using Hplaced Hlen.
  intros Hn Hb Hc.
  destruct (loop_inv (λ j _ v, ∃ cs, v = with_conns w cs ∧
      rebuffered (conns_of w) (λ i, if decide (i < j) then Some (b i) else None) cs) body 0 n () w)
    as ([] & v & E & cs & -> & Hr); [lia| | |by exists cs].
  - exists (conns_of w). split; [by rewrite with_conns_id|]. eapply rebuffered_ext; [|apply rebuffered_refl].
    intros i Hi. by rewrite decide_False by lia.
  - intros j [] v Hj (cs & -> & Hr). destruct (slot_at cfg ss Hlen j) as (s & Es & Hs); [lia|].
    destruct (Hc s Hs) as [c Ec]. pose proof (rebuffered_get _ _ _ j s c Hr Es Ec) as Ev.
    cbv beta in Ev. rewrite decide_False in Ev by lia. cbn in Ev.
    destruct (Hb j s cs c Hj Es Ec Ev) as (cs' & E & Hs'). exists (), (with_conns w cs'). split; [done|].
    exists cs'. split; [done|]. eapply rebuffered_ext; [|eapply rebuffered_trans; [done|by eapply rebuffered_one]].
    intros i Hi. cbn. destruct (decide (i = j)) as [->|]; [by rewrite decide_True by lia|].
    repeat case_decide; done || lia.
Qed.

(** ** Loading and storing *)

(** Slot [i] has a context whose buffer holds [b]. *)
Definition holds_buf (cs : list connection) (i : Z) (b : list byte) : Prop :=
  ∃ s c, aget ss i = Some s ∧ ctx_of cs (sref conn s) = Some c ∧ rdma_buf c = b.

Lemma load_bufs_Ret bufs ix w :
  (∀ i, i ∈ ix → holds_buf (conns_of w) i (bufs i)) → load_bufs some_refs ix w = Ret (bufs <$> ix, w).
Proof.
  induction ix as [|i ix IH]; intros H; [done|]. destruct (H i) as (s & c & Es & Ec & Eb); [left|].
  cbn [load_bufs]. erewrite M_bind_Ret by (unfold lift; by rewrite (aget_refs_Some conn ss i s)).
  erewrite M_bind_Ret by done. erewrite M_bind_Ret by (by apply get_ctx_Ret).
  erewrite M_bind_Ret by (apply IH; intros j Hj; apply H; by right). by rewrite fmap_cons, <- Eb.
Qed.

(** The last buffer stored to slot [i]. *)
Fixpoint buf_at (ix : list Z) (bs : list (list byte)) (i : Z) : option (list byte) :=
  match ix, bs with
  | j :: ix, b :: bs =>
      match buf_at ix bs i with Some b => Some b | None => if decide (i = j) then Some b else None end
  | _, _ => None
  end.

Lemma buf_at_nodup ix bs p i b : NoDup ix → aget ix p = Some i → aget bs p = Some b → buf_at ix bs i = Some b.
Proof.
  intros Hnd [Hp Ei]%aget_Some [_ Eb]%aget_Some. revert Ei Eb. generalize (Z.to_nat p). clear Hp. intros n.
  revert n bs Hnd. induction ix as [|j ix IH]; intros n bs Hnd Ei Eb; [done|]. destruct bs as [|b' bs]; [done|].
  apply NoDup_cons in Hnd as [Hj Hnd]. destruct n as [|n]; cbn in Ei, Eb |- *.
  - injection Ei as ->. injection Eb as ->. rewrite decide_True by done.
    assert (∀ bs, buf_at ix bs i = None) as ->; [|done]. clear IH Hnd. induction ix as [|j ix IH]; intros cs; [by destruct cs|].
    apply not_elem_of_cons in Hj as [H1 H2]. destruct cs as [|c cs]; [done|]. cbn. rewrite IH by done.
    by rewrite decide_False.
  - by rewrite (IH n bs Hnd Ei Eb).
Qed.
Lemma buf_at_None ix bs i : i ∉ ix → buf_at ix bs i = None.
Proof.
  revert bs. induction ix as [|j ix IH]; intros bs H; [by destruct bs|].
  apply not_elem_of_cons in H as [H1 H2]. destruct bs as [|b bs]; [done|]. cbn. rewrite IH by done.
  by rewrite decide_False.
Qed.

Lemma store_bufs_Ret ix bs w :
  (∀ i, i ∈ ix → ∃ b, holds_buf (conns_of w) i b) →
  ∃ cs, store_bufs some_refs ix bs w = Ret ((), with_conns w cs) ∧ rebuffered (conns_of w) (buf_at ix bs) cs.
Proof using Hplaced.
  revert bs w. induction ix as [|i ix IH]; intros bs w H.
  { exists (conns_of w). split; [cbn; by rewrite with_conns_id|by apply rebuffered_refl]. }
  destruct bs as [|b bs]. { exists (conns_of w). split; [cbn; by rewrite with_conns_id|by apply rebuffered_refl]. }
  destruct (H i) as (b0 & s & c & Es & Ec & _); [left|].
  destruct (upd_ctx_Ret w (sref conn s) c (λ c, c <| rdma_buf := b |>) Ec) as (cs1 & E1 & H1).
  pose proof (rebuffered_one _ _ i s c b Es Ec H1) as R1.
  destruct (IH bs (with_conns w cs1)) as (cs & E & R).
  { intros j Hj. destruct (H j) as (b' & t & x & Et & Ex & _); [by right|]. eexists _, t, _.
    split; [done|]. split; [by apply (rebuffered_get _ _ _ j t x R1)|done]. }
  exists cs. split; [|exact (rebuffered_trans _ _ _ _ _ R1 R)].
  cbn [store_bufs]. erewrite M_bind_Ret by (unfold lift; by rewrite (aget_refs_Some conn ss i s)).
  erewrite M_bind_Ret by done. by erewrite M_bind_Ret by exact E1.
Qed.

(** The encoder on the slots' buffers. *)
Lemma encode_bufs_Ret e len rows tbls src dst bufs out w :
  overlapping src dst = false → (∀ i, i ∈ src ++ dst → holds_buf (conns_of w) i (bufs i)) →
  ec_encode_data_avx (dot_prod1 e) (dot_prod2 e) (dot_prod3 e) (dot_prod4 e) len (NDATAS cfg) rows tbls
    (bufs <$> src) (bufs <$> dst) = Some out →
  ∃ cs, encode_bufs cfg e some_refs len rows (Some tbls) src dst w = Ret ((), with_conns w cs) ∧
    rebuffered (conns_of w) (buf_at dst out) cs.
Proof using Hplaced.
  intros Ho Hb E. destruct (store_bufs_Ret dst out w) as (cs & Es & Hr).
  { intros i Hi. exists (bufs i). apply Hb, elem_of_app. by right. }
  exists cs. split; [|exact Hr]. unfold encode_bufs. rewrite Ho. erewrite M_bind_Ret by done.
  erewrite M_bind_Ret by done.
  erewrite M_bind_Ret by (apply (load_bufs_Ret bufs); intros i Hi; apply Hb, elem_of_app; by left).
  erewrite M_bind_Ret by (apply (load_bufs_Ret bufs); intros i Hi; apply Hb, elem_of_app; by right).
  erewrite M_bind_Ret by (unfold lift; by rewrite E). exact Es.
Qed.
End buffers.
