(* ===== verification/WritePath.v ===== *)
(** Writes ([Transfer]), end to end and in both builds: what a write request leaves on the
    wire, in the contexts' buffers and in the pools, with any of its disks on a server or
    not. *)

From S2P Require Import Prelude GF256 GFVect Avx GFMatrix Decode Cauchy Config MT Fault State CtxPool Chunks Store Transfer Completion Slots Stripe.

Section write.
Context (cfg : config) (post_ret : Z → Z) (enc : list byte).
Context (Hcoded : coded cfg enc) (Hpost : ∀ n, post_ret n = 0).
Context (conn : Z) (ss : list slot) (Hplaced : placed ss) (Hlen : alen ss = NDISKS cfg).

#[local] Notation "'refs'" := (sref conn <$> ss).
#[local] Notation "'some_refs'" := (Some <$> (sref conn <$> ss)).

(** * Filling the buffers *)

(** Every slot has a context with its share of a page. *)
Definition in_place (cs : list connection) : Prop :=
  ∀ s, s ∈ ss → ∃ c, ctx_of cs (sref conn s) = Some c ∧ alen (rdma_buf c) = cb_size cfg.

Definition buf_of (cs : list connection) (i : Z) : list byte :=
  default [] (s ← aget ss i; c ← ctx_of cs (sref conn s); Some (rdma_buf c)).

Lemma buf_of_Some cs i s c : aget ss i = Some s → ctx_of cs (sref conn s) = Some c → buf_of cs i = rdma_buf c.
Proof. intros Es Ec. unfold buf_of. by rewrite Es; cbn; rewrite Ec. Qed.

(** Every buffer carries its line of the page's stripe. *)
Definition striped (page : list byte) (cs cs' : list connection) : Prop :=
  rebuffered conn ss cs (λ i, Some (stripe_buf cfg enc page i)) cs'.

Lemma copy_share page buf i :
  alen page = IS_PAGE_SIZE → alen buf = cb_size cfg → 0 <= i < NDATAS cfg →
  memcpy_at buf (0 / NDATAS cfg) page (i * IS_PAGE_SIZE / NDATAS cfg) (IS_PAGE_SIZE / NDATAS cfg)
    = Some (share cfg page i).
Proof using Hcoded.
  intros Lp Lb Hi. pose proof (cd_splits _ _ Hcoded). destruct (share_size cfg enc Hcoded) as [Hsz Hpos].
  rewrite Z.div_0_l, (share_offset cfg enc Hcoded), (share_len cfg enc Hcoded) by lia.
  destruct (memcpy_at_spec buf 0 page (i * cb_size cfg) (cb_size cfg)) as (d & -> & Ld & Hd); [lia|nia|lia|lia|nia|].
  f_equal. apply array_ext. intros o Ho. rewrite Hd by done. destruct (decide (0 <= o < 0 + cb_size cfg)).
  - rewrite (aget_share cfg) by lia. rewrite aget_bget by nia. f_equal. f_equal. lia.
  - rewrite !(proj2 (aget_None _ o)); [done|rewrite (alen_share cfg enc Hcoded); lia|lia].
Qed.

Lemma copy_pages_Ret page w :
  build cfg = REP → alen page = IS_PAGE_SIZE → in_place (conns_of w) →
  ∃ cs, copy_pages cfg some_refs 0 [[page]] w = Ret ((), with_conns w cs) ∧ striped page (conns_of w) cs.
Proof using Hcoded Hplaced Hlen.
  intros Hb Lp Hc. cbn [copy_pages]. pose proof (cd_splits _ _ Hcoded).
  match goal with |- context [loop 0 (NDISKS cfg) ?body ()] =>
    destruct (loop_rebuffer cfg conn ss Hplaced Hlen (NDISKS cfg) (stripe_buf cfg enc page) body w) as (cs & E & Hr) end;
    [lia| | |].
  - intros i s v c Hi Es Ec Ev. destruct (Hc s) as (c' & Ec' & Lb); [by eapply aget_elem|].
    assert (c' = c) as -> by congruence. rewrite (stripe_rep cfg enc Hcoded page i Hb Hi Lp).
    destruct (set_ctx_Ret (with_conns w v) (sref conn s) c (c <| rdma_buf := page |>) Ev) as (cs & E & Hs).
    exists cs. split; [|exact Hs].
    erewrite M_bind_Ret by (unfold lift; by rewrite (aget_refs_Some conn ss i s)). erewrite M_bind_Ret by done.
    erewrite M_bind_Ret by (by apply get_ctx_Ret). erewrite M_bind_Ret by done.
    erewrite M_bind_Ret; [exact E|]. unfold lift. rewrite memcpy_page; [done| |done].
    destruct (share_size cfg enc Hcoded) as [Hsz _]. pose proof (cd_build _ _ Hcoded) as Hk. rewrite Hb in Hk.
    destruct Hk as [Hk _]. rewrite Hk in Hsz. lia.
  - intros s Hs. destruct (Hc s Hs) as (c & Ec & _). by exists c.
  - exists cs. split; [by erewrite M_bind_Ret by exact E|]. eapply rebuffered_ext; [|exact Hr].
    intros i Hi. cbv beta. by rewrite decide_True by lia.
Qed.

Lemma split_page_Ret page w :
  alen page = IS_PAGE_SIZE → in_place (conns_of w) →
  ∃ cs, split_page cfg some_refs 0 page w = Ret ((), with_conns w cs) ∧
    rebuffered conn ss (conns_of w) (λ i, if decide (i < NDATAS cfg) then Some (share cfg page i) else None) cs.
Proof using Hcoded Hplaced Hlen.
  intros Lp Hc. pose proof (cd_splits _ _ Hcoded). apply (loop_rebuffer cfg conn ss Hplaced Hlen); [lia| |].
  - intros i s v c Hi Es Ec Ev. destruct (Hc s) as (c' & Ec' & Lb); [by eapply aget_elem|].
    assert (c' = c) as -> by congruence.
    destruct (set_ctx_Ret (with_conns w v) (sref conn s) c (c <| rdma_buf := share cfg page i |>) Ev) as (cs & E & Hs).
    exists cs. split; [|exact Hs].
    erewrite M_bind_Ret by (unfold lift; by rewrite (aget_refs_Some conn ss i s)). erewrite M_bind_Ret by done.
    erewrite M_bind_Ret by (by apply get_ctx_Ret).
    erewrite M_bind_Ret by (unfold lift; by rewrite copy_share). exact E.
  - intros s Hs. destruct (Hc s Hs) as (c & Ec & _). by exists c.
Qed.

Lemma not_overlapping a n m : overlapping (seqZ a n) (seqZ (a + n) m) = false.
Proof.
  unfold overlapping. rewrite bool_decide_true; [done|]. split; [apply NoDup_seqZ|].
  apply Forall_forall. intros i Hi. rewrite elem_of_seqZ in Hi |- *. lia.
Qed.

Lemma write_pages_ec_Ret e page w :
  build cfg = EC e → alen page = IS_PAGE_SIZE → in_place (conns_of w) →
  ∃ cs, write_pages_ec cfg e some_refs IS_PAGE_SIZE [[page]] w = Ret ((), with_conns w cs) ∧ striped page (conns_of w) cs.
Proof using Hcoded Hplaced Hlen.
  intros Hb Lp Hc. pose proof (cd_splits _ _ Hcoded) as Hk.
  destruct (split_page_Ret page w Lp Hc) as (cs1 & E1 & R1).
  set (bufs := buf_of cs1). set (src := seqZ 0 (NDATAS cfg)). set (dst := seqZ (NDATAS cfg) (NDISKS cfg - NDATAS cfg)).
  assert (∀ i, 0 <= i < NDISKS cfg → holds_buf conn ss cs1 i (bufs i) ∧ alen (bufs i) = cb_size cfg ∧
    (i < NDATAS cfg → bufs i = share cfg page i)) as Hbufs.
  { intros i Hi. destruct (slot_at cfg ss Hlen i Hi) as (s & Es & Hs). destruct (Hc s Hs) as (c & Ec & Lb).
    pose proof (rebuffered_get _ _ _ _ _ i s c R1 Es Ec) as E. cbv beta in E.
    pose proof (buf_of_Some _ _ _ _ Es E) as Eb. fold bufs in Eb. rewrite Eb. split; [by eexists _, _|].
    destruct (decide (i < NDATAS cfg)); cbn; split; try done. by rewrite (alen_share cfg enc Hcoded). }
  destruct (encode_stripe cfg enc Hcoded e page (bufs <$> src) (bufs <$> dst)) as (tbls & out & Et & Eo & Lo & Ho).
  { done. } { unfold alen, src. rewrite length_fmap. by apply alen_seqZ; lia. }
  { intros j Hj. unfold src. rewrite aget_map, seqZ_at by done. cbn. f_equal. apply Hbufs; lia. }
  { unfold alen, dst. rewrite length_fmap. apply alen_seqZ. lia. }
  { intros l r El. pose proof (aget_lt _ _ _ El) as Hl. unfold dst in *. unfold alen in Hl. rewrite length_fmap, length_seqZ in Hl.
    rewrite aget_map, seqZ_at in El by lia. injection El as <-. apply Hbufs. lia. }
  destruct (encode_bufs_Ret cfg conn ss Hplaced e (cb_size cfg) (NDISKS cfg - NDATAS cfg) tbls src dst bufs out (with_conns w cs1))
    as (cs & E & R2); [| |exact Eo|].
  { apply (not_overlapping 0). }
  { intros i Hi. apply Hbufs. unfold src, dst in Hi. rewrite elem_of_app, !elem_of_seqZ in Hi. lia. }
  exists cs. split.
  - unfold write_pages_ec. change (1 <? alen [page]) with false. cbv iota. cbn [split_bios].
    erewrite (M_bind_Ret _ _ _ () (with_conns w cs1)).
    2: { erewrite M_bind_Ret by done. by erewrite M_bind_Ret by exact E1. }
    rewrite (share_len cfg enc Hcoded), Et. exact E.
  - unfold striped. eapply rebuffered_ext; [|exact (rebuffered_trans _ _ _ _ _ _ _ R1 R2)].
    intros i Hi. cbv beta. destruct (decide (i < NDATAS cfg)).
    + rewrite buf_at_None by (unfold dst; rewrite elem_of_seqZ; lia). by rewrite (stripe_split cfg enc Hcoded e) by (done || lia).
    + erewrite (buf_at_nodup dst out (i - NDATAS cfg) i) by
        (try apply NoDup_seqZ; try (unfold dst; rewrite seqZ_at by lia; f_equal; lia); apply Ho; lia).
      do 2 f_equal. lia.
Qed.

Lemma fill_pages_Ret page w :
  alen page = IS_PAGE_SIZE → in_place (conns_of w) →
  ∃ cs, fill_pages cfg some_refs IS_PAGE_SIZE [[page]] w = Ret ((), with_conns w cs) ∧ striped page (conns_of w) cs.
Proof using Hcoded Hplaced Hlen.
  intros Lp Hc. unfold fill_pages. destruct (build cfg) as [|e] eqn:Hb.
  - by apply copy_pages_Ret.
  - by apply write_pages_ec_Ret.
Qed.

(** * Posting *)

(** The writes of the mapped disks, in order. *)
Definition write_posts (offset len : Z) : list (option post) := disk_post WR_RDMA_WRITE conn offset len <$> ss.

Lemma ib_post_Ret p w : ib_post post_ret p w = Ret (0, w <| posted := posted w ++ [p] |>).
Proof using Hpost. unfold ib_post. erewrite M_bind_Ret by done. erewrite M_bind_Ret by done. by rewrite Hpost. Qed.

Lemma loop_ret_posts {R} lo hi (body : Z → () → M world (() + R)) (ps : list (option post)) w :
  0 <= lo <= hi →
  (∀ i v, lo <= i < hi → sess v = sess w →
    ∃ p, aget ps i = Some p ∧ body i () v = Ret (inl (), v <| posted := posted v ++ option_list p |>)) →
  loop_ret lo hi body () w =
    Ret (inl (), w <| posted := posted w ++ mjoin (option_list <$> take (Z.to_nat (hi - lo)) (drop (Z.to_nat lo) ps)) |>).
Proof.
  intros Hle Hb. unfold loop_ret. remember (Z.to_nat (hi - lo)) as n eqn:En.
  assert (hi = lo + Z.of_nat n) as -> by lia. clear En.
  revert lo w Hle Hb. induction n as [|n IH]; intros lo w Hle Hb.
  - cbn. rewrite app_nil_r. by destruct w.
  - destruct (Hb lo w) as (p & [_ Ep]%aget_Some & E); [lia|done|].
    cbn [loop_ret_n]. erewrite M_bind_Ret by exact E. cbv beta iota.
    rewrite IH by (lia || (intros i u Hi Hu; apply Hb; [lia|done])).
    rewrite (drop_S ps p _ Ep). replace (Z.to_nat (lo + 1)) with (S (Z.to_nat lo)) by lia.
    do 2 f_equal. destruct w; cbn. by rewrite <- app_assoc.
Qed.

Lemma post_writes_Ret offset len w lo hi :
  0 <= lo <= hi → hi <= NDISKS cfg →
  (∀ s ci ck, s ∈ ss → s_disk s = Some (ci, ck) →
    ∃ c, ctx_of (conns_of w) (sref conn s) = Some c ∧ sq_wr c = disk_wr WR_RDMA_WRITE offset len ck) →
  post_writes post_ret (target_of <$> ss) some_refs lo hi w =
    Ret (inl (), w <| posted := posted w ++
      mjoin (option_list <$> take (Z.to_nat (hi - lo)) (drop (Z.to_nat lo) (write_posts offset len))) |>).
Proof using Hpost Hplaced Hlen.
  intros Hlo Hhi Hc. unfold post_writes. apply loop_ret_posts; [done|]. intros i v Hi Hv.
  destruct (slot_at cfg ss Hlen i) as (s & Es & Hs); [lia|].
  exists (disk_post WR_RDMA_WRITE conn offset len s). split; [by unfold write_posts; rewrite aget_map, Es|].
  erewrite M_bind_Ret by (by apply the_target_Ret). rewrite (unmapped_target ss i s) by done.
  unfold disk_post. pose proof (Hc s) as Hcs. unfold mapped, target_of. destruct (s_disk s) as [[ci ck]|]; cbn [negb].
  - destruct (Hcs ci ck Hs eq_refl) as (c & Ec & Ew). erewrite M_bind_Ret by done.
    erewrite M_bind_Ret by (unfold lift; by rewrite (aget_refs_Some conn ss i s)).
    erewrite M_bind_Ret by done. erewrite M_bind_Ret by (apply get_ctx_Ret; unfold conns_of; rewrite Hv; exact Ec).
    erewrite M_bind_Ret by apply ib_post_Ret. by rewrite Ew.
  - cbn. rewrite app_nil_r. by destruct v.
Qed.

Lemma split_posts (ps : list (option post)) :
  alen ps = NDISKS cfg →
  mjoin (option_list <$> take (Z.to_nat (NDATAS cfg - 0)) (drop (Z.to_nat 0) ps)) ++
  mjoin (option_list <$> take (Z.to_nat (NDISKS cfg - NDATAS cfg)) (drop (Z.to_nat (NDATAS cfg)) ps))
    = mjoin (option_list <$> ps).
Proof using Hcoded.
  intros Hps. unfold alen in Hps. pose proof (cd_splits _ _ Hcoded).
  rewrite (take_ge (drop (Z.to_nat (NDATAS cfg)) ps)) by (rewrite length_drop; lia).
  by rewrite drop_0, Z.sub_0_r, <- join_app, <- fmap_app, take_drop.
Qed.

(** * The writes are on their way *)

(** The context of disk [i] when its write is posted. *)
Definition sent_ctx (req cnt : nat) (offset : Z) (page : list byte) (i : Z) (c : rdma_ctx) : rdma_ctx :=
  (prepared ss WR_RDMA_WRITE None true req cnt (offset / NDATAS cfg) (cb_size cfg) i c)
    <| rdma_buf := stripe_buf cfg enc page i |>.

Lemma start_write_Ret offset req rq page w :
  alen page = IS_PAGE_SIZE → reqs w !! req = Some rq → rq_bio rq = [[page]] → conn_id rq = conn →
  (∀ s, s ∈ ss → ready cfg (conns_of w) conn s) →
  ∃ cs, start_write cfg post_ret (target_of <$> ss) offset IS_PAGE_SIZE req w =
      Ret (some_refs, inl (), with_conns (w <| counters := counters w ++ [NDATAS cfg] |>
        <| posted := posted w ++ mjoin (option_list <$> write_posts (offset / NDATAS cfg) (cb_size cfg)) |>) cs) ∧
    (∀ i s, aget ss i = Some s → ∃ c, ctx_of (conns_of w) (sref conn s) = Some c ∧
       ctx_of cs (sref conn s) = Some (sent_ctx req (length (counters w)) offset page i c)) ∧
    (∀ s, s ∈ ss → free_ctxs <$> pool_of cs conn (s_pool s) = pop <$> (free_ctxs <$> pool_of (conns_of w) conn (s_pool s))) ∧
    (∀ r, r ∉ refs → ctx_of cs r = ctx_of (conns_of w) r) ∧
    (∀ q, q ∉ s_pool <$> ss → free_ctxs <$> pool_of cs conn q = free_ctxs <$> pool_of (conns_of w) conn q).
Proof using Hcoded Hpost Hplaced Hlen.
  intros Hp Erq Ebio Hconn Hr. set (cnt := length (counters w)). set (w1 := w <| counters := counters w ++ [NDATAS cfg] |>).
  pose proof (cd_splits _ _ Hcoded) as Hk.
  destruct (get_ctxs_write_Ret cfg conn ss Hplaced Hlen offset IS_PAGE_SIZE req cnt w1 Hr) as (cs2 & E2 & H2).
  rewrite (share_len cfg enc Hcoded) in H2.
  set (prep := prepared ss WR_RDMA_WRITE None true req cnt (offset / NDATAS cfg) (cb_size cfg)) in *.
  assert (∀ i s, aget ss i = Some s → ∃ c, ctx_of (conns_of w) (sref conn s) = Some c ∧ alen (rdma_buf (prep i c)) = cb_size cfg ∧
    ctx_of cs2 (sref conn s) = Some (prep i c)) as Hc2.
  { intros i s Es. destruct (Hr s) as [_ (c & Ec & Hb & _)]; [by eapply aget_elem|]. exists c. split_and!; [done| |].
    - unfold prep, prepared. rewrite Es. by destruct s as [p ix [[ci ck]|]].
    - by apply (progress_end _ _ _ _ _ _ i _ c H2); [rewrite alen_refs|apply aget_refs|]. }
  destruct (fill_pages_Ret page (with_conns w1 cs2) Hp) as (cs3 & E3 & H3).
  { intros s [i Es]%elem_of_aget. destruct (Hc2 i s Es) as (c & _ & Hb & Ec). by eexists. }
  rewrite conns_of_with in H3.
  assert (∀ i s, aget ss i = Some s → ∃ c, ctx_of (conns_of w) (sref conn s) = Some c ∧
    ctx_of cs3 (sref conn s) = Some (sent_ctx req cnt offset page i c)) as Hc3.
  { intros i s Es. destruct (Hc2 i s Es) as (c & Ec & _ & Ec2). exists c. split; [done|].
    by rewrite (rebuffered_get _ _ _ _ _ i s _ H3 Es Ec2). }
  exists cs3. split_and!; [|exact Hc3|..].
  - unfold start_write. erewrite M_bind_Ret by done.
    erewrite M_bind_Ret by (apply get_req_Ret; exact Erq). rewrite Hconn. fold w1 cnt.
    erewrite M_bind_Ret by exact E2. rewrite Ebio. erewrite M_bind_Ret by exact E3.
    assert (∀ s ci ck, s ∈ ss → s_disk s = Some (ci, ck) → ∃ c, ctx_of cs3 (sref conn s) = Some c ∧
              sq_wr c = disk_wr WR_RDMA_WRITE (offset / NDATAS cfg) (cb_size cfg) ck) as Hwr.
    { intros s ci ck [i Es]%elem_of_aget Hd. destruct (Hc3 i s Es) as (c & _ & Ec). eexists. split; [exact Ec|].
      unfold sent_ctx, prepared. rewrite Es. destruct s as [p ix d]. cbn in Hd. by subst d. }
    erewrite M_bind_Ret by (apply (post_writes_Ret (offset / NDATAS cfg) (cb_size cfg)); [lia|lia|exact Hwr]). cbv beta iota.
    erewrite M_bind_Ret by (apply (post_writes_Ret (offset / NDATAS cfg) (cb_size cfg)); [lia|lia|exact Hwr]).
    set (ps := write_posts (offset / NDATAS cfg) (cb_size cfg)).
    rewrite <- (split_posts ps) by (unfold ps, write_posts, alen; rewrite length_fmap; exact Hlen).
    transitivity (Ret (A := _) (some_refs, inl () : () + Z, (with_conns w1 cs3) <| posted := (posted w ++
      mjoin (option_list <$> take (Z.to_nat (NDATAS cfg - 0)) (drop (Z.to_nat 0) ps))) ++
      mjoin (option_list <$> take (Z.to_nat (NDISKS cfg - NDATAS cfg)) (drop (Z.to_nat (NDATAS cfg)) ps)) |>)); [done|].
    by rewrite <- app_assoc.
  - intros s Hs. rewrite (rb_free _ _ _ _ _ H3), (progress_free cfg conn ss Hlen _ _ _ _ s H2 Hs).
    change (conns_of w1) with (conns_of w).
    by destruct (free_ctxs <$> pool_of (conns_of w) conn (s_pool s)).
  - intros r Hn. by rewrite (rb_others _ _ _ _ _ H3 r Hn), (pr_others _ _ _ _ _ _ H2 r Hn).
  - intros q Hn. rewrite (rb_free _ _ _ _ _ H3 q). apply (pr_pools _ _ _ _ _ _ H2).
    intros r (s & -> & Hs)%list_elem_of_fmap [_ ->]. apply Hn, list_elem_of_fmap. by exists s.
Qed.

(** * Waiting for them *)

(** The server of a disk is lost while the write waits for it. *)
Context (gone : slot → bool).

(** The disk takes no part in the write to the end; its write completes. *)
Definition dropped (s : slot) : bool := mapped s && gone s.
Definition acked (s : slot) : bool := mapped s && negb (gone s).

(** How many of the first [j] disks complete. *)
Definition acks (j : Z) : Z := alen (filter (λ s, acked s = true) (take (Z.to_nat j) ss)).

Lemma take_slots i s : aget ss i = Some s → take (Z.to_nat (i + 1)) ss = take (Z.to_nat i) ss ++ [s].
Proof.
  intros Es. pose proof (aget_lt _ _ _ Es). apply aget_Some in Es as [_ Es].
  replace (Z.to_nat (i + 1)) with (S (Z.to_nat i)) by lia. by rewrite (take_S_r _ _ _ Es).
Qed.
Lemma acks_step i s : aget ss i = Some s → acks (i + 1) = acks i + (if acked s then 1 else 0).
Proof.
  intros Es. unfold acks. rewrite (take_slots i s Es), filter_app, alen_app.
  f_equal. destruct (acked s) eqn:Hm.
  - by rewrite (filter_cons_True (λ s, acked s = true)).
  - rewrite (filter_cons_False (λ s, acked s = true)); [done|congruence].
Qed.
Lemma acks_nonneg j : 0 <= acks j.
Proof. unfold acks, alen. lia. Qed.

Definition completed (i : Z) (c : rdma_ctx) : rdma_ctx :=
  match aget ss i with Some s => if acked s then finished c else c | None => c end.

(** The context of a lost server does not come back. *)
Definition give_back (r : ctx_ref) (f : free_ctx_pool) : option free_ctx_pool :=
  if existsb (λ s, bool_decide (sref conn s = r) && dropped s) ss then Some f else pool_insert f (rf_ix r).

Lemma give_back_slot i s f : aget ss i = Some s →
  give_back (sref conn s) f = if dropped s then Some f else pool_insert f (s_ix s).
Proof using Hplaced.
  intros Es. unfold give_back. destruct (existsb _ ss) eqn:E.
  - apply existsb_exists in E as (t & Ht & Hd). apply list_elem_of_In, elem_of_aget in Ht as [j Et].
    apply andb_true_iff in Hd as [Hd%bool_decide_eq_true Hg]. pose proof (slot_inj conn ss Hplaced j i t s Et Es Hd) as ->.
    assert (t = s) as -> by congruence. by rewrite Hg.
  - destruct (dropped s) eqn:Hg; [|done]. exfalso. rewrite <- not_true_iff_false in E. apply E, existsb_exists. exists s.
    split; [by eapply list_elem_of_In, aget_elem|]. by rewrite bool_decide_true, Hg.
Qed.

(** The servers among those of the first [j] disks that are found to be lost. *)
Definition failing (j p : Z) : bool := existsb (λ s, dropped s && (s_pool s =? p)) (take (Z.to_nat j) ss).

Lemma failing_step i s p : aget ss i = Some s → failing (i + 1) p = failing i p || (dropped s && (s_pool s =? p)).
Proof. intros Es. unfold failing. rewrite (take_slots i s Es), existsb_app. cbn. by rewrite orb_false_r. Qed.
Lemma failing_fresh i s : aget ss i = Some s → failing i (s_pool s) = false.
Proof using Hplaced.
  intros Es. apply not_true_iff_false. intros (t & Ht & Hd)%existsb_exists. apply list_elem_of_In, elem_of_aget in Ht as [j Et].
  pose proof (aget_lt _ _ _ Et) as Hj. unfold alen in Hj. rewrite length_take in Hj. pose proof (aget_lt _ _ _ Es).
  rewrite aget_take in Et by lia. apply andb_true_iff in Hd as [_ Hp%Z.eqb_eq].
  apply (separate_ne _ j i _ _ (separate_refs 0 ss Hplaced) (aget_refs 0 ss j t Et) (aget_refs 0 ss i s Es)); [lia|done].
Qed.

(** Progress of the wait: [w] before it, [v] after the first [j] disks. *)
Record waited (cnt req : nat) (rq : request) (w : world) (j : Z) (v : world) : Prop := {
  wt_world : v = w <| sess := (sess w) <| IS_conns := conns_of v |> <| cb_list := cb_list (sess v) |> |>
                   <| counters := counters v |> <| reqs := reqs v |> <| cqs := cqs v |>;
  wt_cbs : ∀ p, aget (cb_list (sess v)) p =
    if failing j p then (λ cb, cb <| cb_st := ERROR |>) <$> aget (cb_list (sess w)) p else aget (cb_list (sess w)) p;
  wt_counters : counters v !! cnt = Some (NDATAS cfg - acks j);
  wt_reqs : reqs v = if decide (NDATAS cfg <= acks j) then <[req := ended rq]> (reqs w) else reqs w;
  wt_cqs : ∀ i s, j <= i → aget ss i = Some s → aget (cqs v) (s_pool s) = aget (cqs w) (s_pool s);
  wt_conns : progress refs completed give_back (conns_of w) j (conns_of v)
}.

(** A disk whose write is on its way (or that had none to send, or whose server is lost). *)
Definition answered (w : world) (s : slot) : Prop :=
  mapped s = true → if gone s then lost_server w (s_pool s)
                    else usable (sess w) (s_pool s) ∧ delivers w (s_pool s) (write_wc (sref conn s)).
Definition in_progress (w : world) (cnt req : nat) (s : slot) : Prop :=
  answered w s ∧
  (∃ c, ctx_of (conns_of w) (sref conn s) = Some c ∧ (mapped s = true → ctx_req c = Some req ∧ ctx_cnt c = Some cnt)) ∧
  ∃ f, free_ctxs <$> pool_of (conns_of w) conn (s_pool s) = Some f ∧ -1 <= pool_tail f < alen (ctx_list f) - 1.

Lemma pool_ne i j s t : aget ss i = Some s → aget ss j = Some t → i ≠ j → s_pool s ≠ s_pool t.
Proof using Hplaced.
  intros Es Et Hne Hp. apply (separate_ne _ i j _ _ (separate_refs 0 ss Hplaced)
    (aget_refs 0 ss i s Es) (aget_refs 0 ss j t Et) Hne). done.
Qed.

(** One disk: its completion is handled, it is given up with its server, or its unused context
    is given back. *)
Lemma wait_step cnt req rq w j v s :
  reqs w !! req = Some rq → in_progress w cnt req s → aget ss j = Some s → waited cnt req rq w j v →
  ∃ v', (t ← the_target (target_of <$> ss) j;
         if unmapped t then o ← lift (aget some_refs j); r ← deref o; IS_insert_ctx r
         else c ← deref (t_cb_ptr t); rdma_cq_event_handler cfg post_ret c) v = Ret ((), v') ∧
    waited cnt req rq w (j + 1) v'.
Proof using Hplaced.
  intros Erq (Hm & (c & Ec & Hc) & f & Ef & Ht) Es [Hw Hcbs Hcnt Hreqs Hcqs Hpr].
  pose proof (aget_refs conn ss j s Es) as Er.
  pose proof (pr_ctx _ _ _ _ _ _ Hpr j _ Er) as Ecv. pose proof (pr_free _ _ _ _ _ _ Hpr j _ Er) as Efv.
  rewrite decide_False in Ecv by lia. rewrite decide_False in Efv by lia. rewrite Ec in Ecv.
  cbn [rf_conn rf_pool sref] in Efv. rewrite Ef in Efv.
  assert (aget (cb_list (sess v)) (s_pool s) = aget (cb_list (sess w)) (s_pool s)) as Hcb by (by rewrite Hcbs, (failing_fresh j s)).
  pose proof (acks_step j s Es) as Hacks. pose proof (λ p, failing_step j s p Es) as Hfail.
  pose proof (give_back_slot j s) as Hgb. pose proof (acks_nonneg j).
  unfold answered in Hm. unfold acked in Hacks. unfold dropped in Hfail, Hgb.
  erewrite M_bind_Ret by (by apply the_target_Ret). rewrite (unmapped_target ss j s) by done.
  destruct (mapped s) eqn:Hmap; cbn [negb andb] in *; [destruct (gone s) eqn:Hgone; cbn [negb] in *|].
  - specialize (Hm eq_refl).
    replace (t_cb_ptr (target_of s)) with (Some (s_pool s)) by (unfold mapped, target_of in *; by destruct (s_disk s) as [[]|]).
    erewrite M_bind_Ret by done. destruct (lost_event cfg post_ret (s_pool s) v) as (cb & l & Ecb & Hl & E).
    { destruct Hm as (cb & Ecb & Hcase). exists cb. split; [by rewrite Hcb|].
      destruct Hcase as [|[(Est & Eq)|((cb0 & st & Hu) & wc & (k & q & Eq) & Hwc)]]; [by left|right; left|right; right].
      - split; [by rewrite Hw|]. by rewrite (Hcqs j s).
      - split; [exists cb0, st; rewrite Hcb; by rewrite Hw|]. exists wc. split; [|done]. exists k, q. by rewrite (Hcqs j s). }
    eexists. split; [exact E|]. rewrite Z.add_0_r in Hacks. constructor; cbn [counters reqs cqs]; rewrite ?Hacks.
    + rewrite Hw. by destruct w as [[] ? ? ? ? ?].
    + intros p. cbn. rewrite Hfail. rewrite aget_insert by (by eapply aget_lt). destruct (Z.eqb_spec (s_pool s) p) as [<-|Hp].
      * rewrite decide_True, orb_true_r, <- Hcb, Ecb by done. done.
      * by rewrite decide_False, orb_false_r.
    + done.
    + done.
    + intros i t Hi Et. cbn. rewrite Hl; [apply (Hcqs i t); [lia|done]|]. eapply pool_ne; [done..|lia].
    + eapply progress_step; [by apply separate_refs|exact Er|exact Hpr| |].
      * intros r. destruct (decide (r = sref conn s)) as [->|]; [|done]. change (ctx_of (conns_of v) (sref conn s) = completed j <$> ctx_of (conns_of v) (sref conn s)).
        rewrite Ecv. cbn. unfold completed, acked. by rewrite Es, Hmap, Hgone.
      * intros cn q. destruct (decide (cn = rf_conn (sref conn s) ∧ q = rf_pool (sref conn s))) as [[-> ->]|]; [|done]. cbn [rf_conn rf_pool sref].
        change (free_ctxs <$> pool_of (conns_of v) conn (s_pool s) = (free_ctxs <$> pool_of (conns_of v) conn (s_pool s)) ≫= give_back (sref conn s)).
        rewrite Efv. cbn. by rewrite Hgb.
  - destruct (Hm eq_refl) as [Hu (k & q & Eq)]. destruct (Hc eq_refl) as [Hreq Hcn].
    replace (t_cb_ptr (target_of s)) with (Some (s_pool s)) by (unfold mapped, target_of in *; by destruct (s_disk s) as [[]|]).
    erewrite M_bind_Ret by done.
    destruct (write_event cfg post_ret (s_pool s) (sref conn s) v) as (l & Hl & Hev).
    { destruct Hu as (cb & st & Ecb & Hu). exists cb, st. rewrite Hcb. split; [done|]. by rewrite Hw. }
    { exists k, q. by rewrite (Hcqs j s). }
    assert (∃ rq', reqs v !! req = Some rq' ∧ (acks j < NDATAS cfg → rq' = rq)) as (rq' & Erq' & Hrq').
    { rewrite Hreqs. case_decide; [|eauto]. rewrite list_lookup_insert_eq by (by eapply lookup_lt_Some).
      eexists. split; [done|lia]. }
    destruct (client_write_done_Ret (sref conn s) c f req cnt (NDATAS cfg - acks j) rq' (v <| cqs := l |>))
      as (cs & E & H1 & H2); [done..|].
    eexists. split; [by apply Hev|]. constructor.
    + rewrite Hw. by destruct w as [[] ? ? ? ? ?].
    + intros p. rewrite Hfail, orb_false_r. cbn. apply Hcbs.
    + cbn. rewrite Hacks. rewrite list_lookup_insert_eq by (by eapply lookup_lt_Some). f_equal. lia.
    + cbn. rewrite Hacks, Hreqs. destruct (Z.eqb_spec (NDATAS cfg - acks j - 1) 0).
      * rewrite Hrq' by lia. by rewrite decide_False, decide_True by lia.
      * destruct (decide (NDATAS cfg <= acks j)); [by rewrite decide_True by lia|by rewrite decide_False by lia].
    + intros i t Hi Et. cbn. rewrite Hl; [apply (Hcqs i t); [lia|done]|]. eapply pool_ne; [done..|lia].
    + rewrite conns_of_with. eapply progress_step; [by apply separate_refs|exact Er|exact Hpr| |].
      * intros r. rewrite H1. destruct (decide (r = sref conn s)) as [Hd|]; [|done]. change (conns_of (v <| cqs := l |>)) with (conns_of v).
        destruct (ctx_of (conns_of v) r); [|done]. cbn. unfold completed, acked. by rewrite Es, Hmap, Hgone.
      * intros cn p. rewrite H2. destruct (decide (cn = rf_conn (sref conn s) ∧ p = rf_pool (sref conn s))) as [[-> ->]|]; [|done]. cbn [rf_conn rf_pool sref rf_ix].
        change (conns_of (v <| cqs := l |>)) with (conns_of v). rewrite Efv. cbn. by rewrite Hgb.
  - erewrite M_bind_Ret by (unfold lift; by rewrite (aget_refs_Some conn ss j s)). erewrite M_bind_Ret by done.
    destruct (IS_insert_ctx_Ret v (sref conn s) f c Ecv Efv Ht) as (cs & E & [H1 H2]).
    exists (with_conns v cs). split; [exact E|]. rewrite Z.add_0_r in Hacks. constructor.
    + rewrite Hw. by destruct w as [[] ? ? ? ? ?].
    + intros p. rewrite Hfail, orb_false_r. cbn. apply Hcbs.
    + cbn. by rewrite Hacks.
    + cbn. by rewrite Hacks.
    + intros i t Hi Et. apply (Hcqs i t); [lia|done].
    + rewrite conns_of_with. eapply progress_step; [by apply separate_refs|exact Er|exact Hpr| |].
      * intros r. rewrite H1. destruct (decide (r = sref conn s)) as [Hd|]; [|done]. rewrite Hd, Ecv. cbn. unfold completed, acked. by rewrite Es, Hmap.
      * intros cn p. rewrite H2. destruct (decide (cn = rf_conn (sref conn s) ∧ p = rf_pool (sref conn s))) as [[-> ->]|]; [|done]. cbn [rf_conn rf_pool sref rf_ix]. rewrite Efv. cbn. by rewrite Hgb.
Qed.

Lemma wait_writes_Ret cnt req rq w :
  counters w !! cnt = Some (NDATAS cfg) → reqs w !! req = Some rq → (∀ s, s ∈ ss → in_progress w cnt req s) →
  ∃ v, wait_writes cfg post_ret (target_of <$> ss) some_refs w = Ret ((), v) ∧ waited cnt req rq w (NDISKS cfg) v.
Proof using Hcoded Hplaced Hlen.
  intros Ecnt Erq Hp. unfold wait_writes.
  match goal with |- context [loop 0 (NDISKS cfg) ?body ()] =>
    destruct (loop_inv (λ j _ v, waited cnt req rq w j v) body 0 (NDISKS cfg) () w) as ([] & v & E & Hv) end;
    [unfold alen in Hlen; lia| | |by exists v].
  - pose proof (cd_splits _ _ Hcoded). constructor; try done.
    + by destruct w as [[] ? ? ? ? ?].
    + change (acks 0) with 0. by rewrite Z.sub_0_r.
    + change (acks 0) with 0. by rewrite decide_False by lia.
    + apply progress_start.
  - intros j [] v Hj Hv. destruct (slot_at cfg ss Hlen j Hj) as (s & Es & Hs).
    destruct (wait_step cnt req rq w j v s Erq (Hp s Hs) Es Hv) as (v' & E & H). by exists (), v'.
Qed.

(** * The whole write *)

(** What a write of [page] leaves behind when some of the servers are lost. *)
Record settled (w : world) (offset : Z) (req : nat) (rq : request) (page : list byte) (v : world) : Prop := {
  se_posts : posted v = posted w ++ mjoin (option_list <$> write_posts (offset / NDATAS cfg) (cb_size cfg));
  se_pages : ∀ i s, aget ss i = Some s → mapped s = true →
    ∃ c, ctx_of (conns_of v) (sref conn s) = Some c ∧ rdma_buf c = stripe_buf cfg enc page i ∧
      if gone s then ctx_req c = Some req ∧ ∃ c0, ctx_of (conns_of w) (sref conn s) = Some c0 ∧ in_flight c = in_flight c0
      else in_flight c = CTX_IDLE ∧ ctx_req c = None;
  se_others : ∀ r, r ∉ refs → ctx_of (conns_of v) r = ctx_of (conns_of w) r;
  se_det : det v = det w;
  se_free : ∀ s, s ∈ ss → free_ctxs <$> pool_of (conns_of v) conn (s_pool s) =
    if dropped s then pop <$> (free_ctxs <$> pool_of (conns_of w) conn (s_pool s))
    else free_ctxs <$> pool_of (conns_of w) conn (s_pool s);
  se_reqs : reqs v = if NDATAS cfg <=? acks (NDISKS cfg) then <[req := ended rq]> (reqs w) else reqs w;
  se_sess : sess v = (sess w) <| IS_conns := conns_of v |> <| cb_list := cb_list (sess v) |>;
  se_cbs : ∀ p, aget (cb_list (sess v)) p =
    if failing (NDISKS cfg) p then (λ cb, cb <| cb_st := ERROR |>) <$> aget (cb_list (sess w)) p else aget (cb_list (sess w)) p
}.

Lemma rdma_write_settled offset req rq page w :
  alen page = IS_PAGE_SIZE → reqs w !! req = Some rq → rq_bio rq = [[page]] → conn_id rq = conn →
  (∀ s, s ∈ ss → ready cfg (conns_of w) conn s ∧ answered w s) →
  ∃ v, IS_rdma_write cfg post_ret (target_of <$> ss) offset IS_PAGE_SIZE req w = Ret (0, v) ∧
    settled w offset req rq page v.
Proof using Hcoded Hpost Hplaced Hlen.
  intros Hp Erq Ebio Hconn Hw. pose proof (cd_splits _ _ Hcoded) as Hk.
  destruct (start_write_Ret offset req rq page w) as (cs & E & Hctx & Hfree & Hoth & _); try done.
  { intros s Hs. apply (Hw s Hs). }
  set (cnt := length (counters w)) in *.
  set (v := with_conns _ cs) in E. destruct (wait_writes_Ret cnt req rq v) as (u & Eu & [U1 Ucb U2 U3 U4 U5]).
  { cbn. by apply list_lookup_middle. } { done. }
  { intros s Hs. destruct (Hw s Hs) as [[(f & Ef & Ht & Ei) _] Hm]. split; [exact Hm|]. split.
    - apply elem_of_aget in Hs as [i Es]. destruct (Hctx i s Es) as (c & _ & Ec). eexists. split; [exact Ec|].
      intros Hmap. unfold sent_ctx, prepared. rewrite Es. destruct s as [p ix [[ci ck]|]]; done.
    - change (conns_of v) with cs. rewrite (Hfree s Hs), Ef. eexists. split; [done|]. cbn.
      pose proof (aget_lt _ _ _ Ei). lia. }
  exists u. split.
  - unfold IS_rdma_write. erewrite M_bind_Ret by exact E. cbv beta iota. by erewrite M_bind_Ret by exact Eu.
  - change (conns_of v) with cs in U5. constructor.
    + by rewrite U1.
    + intros i s Es Hm. destruct (Hctx i s Es) as (c0 & Ec0 & Ec).
      eexists. split; [eapply (progress_end _ _ _ _ _ _ i); [exact U5|by rewrite alen_refs|by apply aget_refs|exact Ec]|].
      unfold completed, acked. rewrite Es, Hm. destruct (gone s); cbn [negb andb].
      * unfold sent_ctx, prepared. rewrite Es. unfold mapped in Hm. destruct s as [p ix [[ci ck]|]]; [|done].
        split_and!; [done..|]. by exists c0.
      * done.
    + intros r Hr. by rewrite (pr_others _ _ _ _ _ _ U5 r Hr), Hoth.
    + by rewrite U1.
    + intros s Hs. destruct (Hw s Hs) as [[(f & Ef & Ht & Ei) _] _]. pose proof Hs as [i Es]%elem_of_aget.
      rewrite (progress_free cfg conn ss Hlen _ _ _ _ s U5 Hs), (Hfree s Hs), Ef. cbn. rewrite (give_back_slot i s) by done.
      destruct (dropped s); [done|]. by apply pop_push.
    + rewrite U3. change (reqs v) with (reqs w).
      by destruct (Z.leb_spec (NDATAS cfg) (acks (NDISKS cfg))); [rewrite decide_True by done|rewrite decide_False by lia].
    + rewrite U1 at 1. by rewrite U1.
    + exact Ucb.
Qed.
End write.

(** ** All servers are up *)

Section all_up.
Context (cfg : config) (post_ret : Z → Z) (enc : list byte).
Context (Hcoded : coded cfg enc) (Hpost : ∀ n, post_ret n = 0).
Context (conn : Z) (ss : list slot) (Hplaced : placed ss) (Hlen : alen ss = NDISKS cfg).

(** The slot's context is on top of its pool; a server that holds the disk is connected
    and will complete the write. *)
Definition writable (w : world) (s : slot) : Prop :=
  ready cfg (conns_of w) conn s ∧
  (mapped s = true → usable (sess w) (s_pool s) ∧ delivers w (s_pool s) (write_wc (sref conn s))).

(** How many disks are on a server. *)
Definition servers : Z := alen (filter (λ s, mapped s = true) ss).

(** What a write of [page] leaves behind. *)
Record written (w : world) (offset : Z) (req : nat) (rq : request) (page : list byte) (v : world) : Prop := {
  wr_posts : posted v = posted w ++ mjoin (option_list <$> write_posts conn ss (offset / NDATAS cfg) (cb_size cfg));
  wr_pages : ∀ i s, aget ss i = Some s → mapped s = true →
    ∃ c, ctx_of (conns_of v) (sref conn s) = Some c ∧ rdma_buf c = stripe_buf cfg enc page i ∧
      in_flight c = CTX_IDLE ∧ ctx_req c = None;
  wr_free : ∀ s, s ∈ ss → free_ctxs <$> pool_of (conns_of v) conn (s_pool s) = free_ctxs <$> pool_of (conns_of w) conn (s_pool s);
  wr_reqs : reqs v = if NDATAS cfg <=? servers then <[req := ended rq]> (reqs w) else reqs w;
  wr_sess : sess v = (sess w) <| IS_conns := conns_of v |>
}.

Lemma rdma_write_Ret offset req rq page w :
  alen page = IS_PAGE_SIZE → reqs w !! req = Some rq → rq_bio rq = [[page]] → conn_id rq = conn →
  (∀ s, s ∈ ss → writable w s) →
  ∃ v, IS_rdma_write cfg post_ret (target_of <$> ss) offset IS_PAGE_SIZE req w = Ret (0, v) ∧
    written w offset req rq page v.
Proof using Hcoded Hpost Hplaced Hlen.
  intros Hp Erq Ebio Hconn Hw.
  destruct (rdma_write_settled cfg post_ret enc Hcoded Hpost conn ss Hplaced Hlen (λ _, false) offset req rq page w)
    as (v & E & [S1 S2 _ _ S3 S4 S5 S6]); [done..|]. exists v. split; [exact E|].
  assert (∀ s, acked (λ _, false) s = mapped s ∧ dropped (λ _, false) s = false) as Hall.
  { intros s. unfold acked, dropped. by destruct (mapped s). }
  split.
  - exact S1.
  - intros i s Es Hm. destruct (S2 i s Es Hm) as (c & Ec & Hb & Hc). by exists c.
  - intros s Hs. rewrite (S3 s Hs). by rewrite (proj2 (Hall s)).
  - rewrite S4. unfold acks, servers. rewrite take_ge by (unfold alen in Hlen; lia).
    by rewrite (list_filter_iff (λ s, acked (λ _, false) s = true) (λ s, mapped s = true)) by (intros s; by rewrite (proj1 (Hall s))).
  - rewrite S5. assert (cb_list (sess v) = cb_list (sess w)) as ->; [|by destruct (sess w)]. apply array_ext. intros p _. rewrite S6.
    assert (failing ss (λ _, false) (NDISKS cfg) p = false) as ->; [|done]. unfold failing.
    apply not_true_iff_false. intros (s & _ & Hs)%existsb_exists. by rewrite (proj2 (Hall s)) in Hs.
Qed.
End all_up.

Section request.
Context (cfg : config) (post_ret : Z → Z) (enc : list byte).
Context (Hcoded : coded cfg enc) (Hpost : ∀ n, post_ret n = 0).

(** The write of the request below, seen from the block layer. *)
Lemma queue_write_Ret ss req rq w v :
  reqs w !! req = Some rq → rq_bytes rq = IS_PAGE_SIZE → rq_write rq = true →
  lookup_targets cfg (sess w) (slab_index cfg rq) = Some (target_of <$> ss) →
  IS_rdma_write cfg post_ret (target_of <$> ss) (chunk_offset cfg rq) IS_PAGE_SIZE req w = Ret (0, v) →
  IS_queue_rq cfg post_ret req w = Ret (BLK_MQ_RQ_QUEUE_OK, v).
Proof.
  intros Erq Hby Hwr Ets E. unfold IS_queue_rq. erewrite (M_bind_Ret _ _ _ 0 v); [done|]. unfold IS_request.
  erewrite M_bind_Ret by (by apply get_req_Ret).
  erewrite M_bind_Ret by done. erewrite M_bind_Ret by (unfold lift; by rewrite Ets).
  unfold IS_transfer_chunk. rewrite Hwr, Hby. by erewrite M_bind_Ret by exact E.
Qed.

Lemma write_request_Ret ss req rq page w :
  placed ss → alen ss = NDISKS cfg → alen page = IS_PAGE_SIZE →
  reqs w !! req = Some rq → rq_bio rq = [[page]] → rq_bytes rq = IS_PAGE_SIZE → rq_write rq = true →
  lookup_targets cfg (sess w) (slab_index cfg rq) = Some (target_of <$> ss) →
  (∀ s, s ∈ ss → writable cfg (conn_id rq) w s) →
  ∃ v, IS_queue_rq cfg post_ret req w = Ret (BLK_MQ_RQ_QUEUE_OK, v) ∧
    written cfg enc (conn_id rq) ss w (chunk_offset cfg rq) req rq page v.
Proof using Hcoded Hpost.
  intros Ha Hl Hp Erq Ebio Hby Hwr Ets Hw.
  destruct (rdma_write_Ret cfg post_ret enc Hcoded Hpost (conn_id rq) ss Ha Hl (chunk_offset cfg rq)
    req rq page w) as (v & E & Hv); try done.
  exists v. split; [|done]. by eapply queue_write_Ret.
Qed.

(** C7: a write request of one page, from the block layer down ([IS_queue_rq]), in either
    build: the disks of the slab take their contexts from different pools ([placed]: that of the
    disk's server or, on no server, that of the disk's index), every server that holds a
    disk is up and will complete the write, and the contexts of the slots are free.  In the
    replication build there is one split; in the erasure-coding build [encode_tbls] is
    set to the tables of the parity rows of the code, as the commented statements of
    [IS_ec_init] would set it ([coded]; as compiled nothing sets it, and no write returns,
    [unset_tables_write]), and the dot-product kernels meet their contract, as those in
    assembly do ([avx_kernel_ok]).  Then the request is accepted after posting exactly one RDMA
    write per disk that is on a server, with that server's rkey and its remote address at the
    request's slab offset divided by the number of splits, for one split's length; the buffer
    sent to disk [i] is line [i] of the stripe of the page (the page itself under replication;
    its split or the parity of the Reed-Solomon code under erasure coding); every context,
    also of a disk on no server, is back on top of its free list; and the request is ended
    exactly once, although every disk completes, when at least [NDATAS] disks are on
    servers.  With fewer it is accepted but never ended. *)
Theorem write_request_correct ss req rq page w :
  placed ss → alen ss = NDISKS cfg → alen page = IS_PAGE_SIZE →
  reqs w !! req = Some rq → rq_bio rq = [[page]] → rq_bytes rq = IS_PAGE_SIZE → rq_write rq = true →
  lookup_targets cfg (sess w) (slab_index cfg rq) = Some (target_of <$> ss) →
  (∀ s, s ∈ ss → writable cfg (conn_id rq) w s) →
  ∃ v, IS_queue_rq cfg post_ret req w = Ret (BLK_MQ_RQ_QUEUE_OK, v) ∧
    written cfg enc (conn_id rq) ss w (chunk_offset cfg rq) req rq page v.
Proof using Hcoded Hpost. apply write_request_Ret. Qed.
End request.

(** * Tables that are never set *)

(** As the sources stand, nothing assigns [encode_tbls] (the body of [IS_ec_init] is a
    comment): in the erasure-coding build no write request returns, because computing the
    parities reads through a null pointer. *)
Theorem unset_tables_write cfg post_ret e req rq w r :
  build cfg = EC e → encode_tbls e = None → reqs w !! req = Some rq → rq_write rq = true →
  IS_queue_rq cfg post_ret req w ≠ Ret r.
Proof.
  intros Hb Ht Erq Hwr E. destruct r as [rc v]. unfold IS_queue_rq in E.
  apply M_bind_inv in E as (err & v1 & E & _). unfold IS_request in E.
  erewrite M_bind_Ret in E by (by apply get_req_Ret). erewrite M_bind_Ret in E by done.
  apply M_bind_inv in E as (ts & v2 & _ & E). unfold IS_transfer_chunk in E. rewrite Hwr in E.
  apply M_bind_inv in E as (ret & v3 & E & _). unfold IS_rdma_write in E.
  apply M_bind_inv in E as (lr & v4 & E & _). unfold start_write in E.
  apply M_bind_inv in E as (cnt & v5 & _ & E). apply M_bind_inv in E as (rq' & v6 & _ & E).
  apply M_bind_inv in E as (l & v7 & _ & E). apply M_bind_inv in E as ([] & v8 & E & _).
  unfold fill_pages in E. rewrite Hb in E. unfold write_pages_ec in E.
  apply M_bind_inv in E as ([] & v9 & _ & E). unfold encode_bufs in E. rewrite Ht in E.
  apply M_bind_inv in E as ([] & v10 & _ & E). done.
Qed.

(** * Concrete writes *)

(** The erasure-coding setup with the tables of its Cauchy code, and the decode tables and
    index for the loss of the [n] disks listed in [errl], [ns] of them splits; by default of
    disks 1 and 4 ([Cauchy.ec_err_list]). *)
Definition ec_tables : option (list byte) := ec_init_tables 4 2 (drop (Z.to_nat (4 * 4)) ec_enc) (replicate 256 x00).
Definition ec_decoder (errs errl : list Z) (n ns : Z) : option (Z * list byte * list byte * list Z) :=
  gf_gen_decode_matrix 24 (replicate 24 x00) (replicate 24 x00) ec_enc (replicate 24 x00) (replicate 24 x00)
    [0; 0; 0; 0] errl errs n ns 4 6.
Definition ec_env_for (errs errl : list Z) (n ns : Z) : ec_env :=
  {| dot_prod1 := avx_kernel 1; dot_prod2 := avx_kernel 2; dot_prod3 := avx_kernel 3; dot_prod4 := avx_kernel 4;
     encode_tbls := ec_tables;
     decode_tbls := '(_, dec, _, _) ← ec_decoder errs errl n ns; ec_init_tables 4 n dec (replicate 256 x00);
     decode_index := match ec_decoder errs errl n ns with Some (_, _, _, ix) => ix | None => [] end |}.
Definition ec_test_env : ec_env := ec_env_for ec_errs ec_err_list 2 1.
Definition ec_test : config := ec ec_test_env.

Lemma rep_coded : coded rep [x01; x01; x01].
Proof.
  split; [by cbn|by apply Z.divide_1_l|]. split; [done|]. intros r Hr. change (NDISKS rep) with 3 in Hr.
  assert (r = 0 ∨ r = 1 ∨ r = 2) as [-> | [-> | ->]] by lia; reflexivity.
Qed.
Lemma env_coded errs errl n ns : coded (ec (ec_env_for errs errl n ns)) ec_enc.
Proof.
  split; [by cbn|by exists 1024|]. split_and!.
  - destruct (cauchy_matrix_facts (replicate 24 x00) 6 4) as (enc & E & _ & Hid & _); [lia|vm_compute; discriminate|].
    unfold ec_enc. by rewrite E.
  - vm_compute; discriminate.
  - split_and!; apply avx_kernel_ok; lia.
  - exists (replicate 256 x00). split; [vm_compute; discriminate|reflexivity].
Qed.
Lemma ec_coded : coded ec_test ec_enc.
Proof. apply env_coded. Qed.

Definition test_page : list byte := replicate (Z.to_nat IS_PAGE_SIZE) x01.
Lemma test_page_len : alen test_page = IS_PAGE_SIZE.
Proof. unfold alen, test_page. by rewrite length_replicate, Z2Nat.id. Qed.

(** One server per disk, with disk [d] of slab 0 on server [d] except the disks in [out];
    one connection with a pool per server. *)
Section fixture.
Context (cfg : config) (out : Z → bool).

Definition test_ctx : rdma_ctx := (zero_ctx cfg) <| rdma_buf := replicate (Z.to_nat (cb_size cfg)) x00 |>.
Definition test_pool : ctx_pool_list :=
  {| ctx_pool := [test_ctx; test_ctx];
     free_ctxs := {| pool_len := 2; ctx_list := [0; 1]; pool_head := 0; pool_tail := 1 |} |}.
Definition test_remote (i : Z) : remote_chunk_g := {| remote_rkey := 100 + i; remote_addr := 0x10000 * i |}.
Definition test_cb (i : Z) : kernel_cb :=
  (zero_cb i) <| cb_st := AFTER_FREE_MEM |> <| chunk_list := [test_remote i] |> <| chunk_map := [i] |>.
Definition disks : list Z := seqZ 0 (NDISKS cfg).
Definition test_session : session :=
  (zero_session cfg) <| cb_num := NDISKS cfg |> <| cb_state_list := (λ _, CB_MAPPED) <$> disks |>
    <| cb_list := test_cb <$> disks |> <| cb_index_map := (λ d, if out d then NO_CB_MAPPED else d) <$> disks |>
    <| chunk_map_cb_chunk := (λ _, 0) <$> disks |> <| IS_conns := [(λ _, Some test_pool) <$> disks] |>.
Definition test_slot (d : Z) : slot :=
  {| s_pool := d; s_ix := 1; s_disk := if out d then None else Some (0, test_remote d) |}.
Definition test_slots : list slot := test_slot <$> disks.
Definition test_rq (write : bool) : request :=
  {| rq_bio := [[test_page]]; rq_addr := 0x1000; rq_pos := 16; rq_bytes := 4096; rq_write := write; rq_ended := 0; rq_errors := 0 |}.
Definition no_det : detector := {| src_in_err := []; src_err_list := []; nerrs := 0; nsrcerrs := 0 |}.

Lemma aget_disks {A} (f : Z → A) d : 0 <= d < NDISKS cfg → aget (f <$> disks) d = Some (f d).
Proof. intros Hd. unfold disks. by rewrite aget_map, seqZ_at. Qed.
Lemma test_slots_in s : s ∈ test_slots → ∃ d, s = test_slot d ∧ 0 <= d < NDISKS cfg.
Proof. intros (d & -> & Hd)%list_elem_of_fmap. apply elem_of_seqZ in Hd. exists d. split; [done|lia]. Qed.
Lemma test_slots_aget i s : aget test_slots i = Some s → s = test_slot i ∧ 0 <= i < NDISKS cfg.
Proof.
  intros E. pose proof (aget_lt _ _ _ E) as Hi. unfold test_slots, disks, alen in Hi.
  rewrite length_fmap, length_seqZ in Hi. unfold test_slots in E. rewrite aget_disks in E by lia.
  injection E as <-. split; [done|lia].
Qed.

Lemma test_placed : placed test_slots.
Proof.
  split.
  - unfold test_slots. rewrite <- list_fmap_compose.
    replace ((s_pool ∘ test_slot) <$> disks) with disks; [apply NoDup_seqZ|].
    by rewrite (list_fmap_ext _ id), list_fmap_id.
  - intros i s [-> Hi]%test_slots_aget. unfold mapped, test_slot. cbn. destruct (out i); [done|].
    unfold NO_CB_MAPPED. cbn. lia.
Qed.

Lemma test_len : 0 <= NDISKS cfg → alen test_slots = NDISKS cfg.
Proof. intros H. unfold test_slots, disks, alen. rewrite length_fmap, length_seqZ. lia. Qed.

Lemma test_pool_of d : 0 <= d < NDISKS cfg → pool_of (IS_conns test_session) 0 d = Some test_pool.
Proof.
  intros Hd. change ((p ← aget ((λ _, Some test_pool) <$> disks) d; p) = Some test_pool). by rewrite aget_disks.
Qed.
Lemma test_ctx_of s : s ∈ test_slots → ctx_of (IS_conns test_session) (sref 0 s) = Some test_ctx.
Proof. intros (d & -> & Hd)%test_slots_in. unfold ctx_of. cbn [sref rf_conn rf_pool test_slot s_pool]. by rewrite test_pool_of. Qed.

Lemma test_ready s : 0 <= NDISKS cfg → 0 <= cb_size cfg → s ∈ test_slots → ready cfg (IS_conns test_session) 0 s.
Proof.
  intros Hn Hsz Hs. split.
  - apply test_slots_in in Hs as (d & -> & Hd). eexists. cbn [test_slot s_pool]. rewrite test_pool_of by done.
    split; [reflexivity|]. split; [discriminate|reflexivity].
  - exists test_ctx. split; [by apply test_ctx_of|]. unfold alen. cbn [test_ctx rdma_buf ctxs].
    split; [|unfold zero_ctx; cbn; rewrite length_replicate; lia].
    change (Z.of_nat (length (replicate (Z.to_nat (cb_size cfg)) x00)) = cb_size cfg). rewrite length_replicate. lia.
Qed.
Lemma test_usable i : 0 <= i < NDISKS cfg → usable test_session i.
Proof.
  intros Hi. exists (test_cb i), CB_MAPPED. split_and!; [by apply (aget_disks test_cb)|done|by apply (aget_disks (λ _, CB_MAPPED))|done].
Qed.

(** The servers' completions come after some empty polls. *)
Definition write_world : world :=
  {| sess := test_session; reqs := [test_rq true]; counters := [];
     cqs := (λ d, replicate (Z.to_nat d) None ++ [Some (write_wc (sref 0 (test_slot d)))]) <$> disks;
     posted := []; det := no_det |}.
Lemma test_writable s : 0 <= NDISKS cfg → 0 <= cb_size cfg → s ∈ test_slots → writable cfg 0 write_world s.
Proof.
  intros Hn Hsz Hs. split; [by apply test_ready|]. apply test_slots_in in Hs as (d & -> & Hd). intros _.
  split; [by apply test_usable|]. exists (Z.to_nat d), [].
  by apply (aget_disks (λ d, replicate (Z.to_nat d) None ++ [Some (write_wc (sref 0 (test_slot d)))])).
Qed.
End fixture.

(** Disk 1 is on no server, in either build. *)
Definition one_out (d : Z) : bool := d =? 1.

Lemma write_request_correct_witness :
  (∃ v, IS_queue_rq rep (λ _, 0) 0 (write_world rep one_out) = Ret (BLK_MQ_RQ_QUEUE_OK, v) ∧
    written rep [x01; x01; x01] 0 (test_slots rep one_out) (write_world rep one_out) 8192 0 (test_rq true) test_page v) ∧
  (∃ v, IS_queue_rq ec_test (λ _, 0) 0 (write_world ec_test one_out) = Ret (BLK_MQ_RQ_QUEUE_OK, v) ∧
    written ec_test ec_enc 0 (test_slots ec_test one_out) (write_world ec_test one_out) 8192 0 (test_rq true) test_page v).
Proof.
  split.
  - apply (write_request_correct rep (λ _, 0) [x01; x01; x01] rep_coded (λ _, eq_refl)
      (test_slots rep one_out) 0 (test_rq true) test_page (write_world rep one_out));
      [apply test_placed|reflexivity|exact test_page_len|reflexivity|reflexivity|reflexivity|reflexivity|reflexivity|]. intros s. by apply test_writable.
  - apply (write_request_correct ec_test (λ _, 0) ec_enc ec_coded (λ _, eq_refl)
      (test_slots ec_test one_out) 0 (test_rq true) test_page (write_world ec_test one_out));
      [apply test_placed|reflexivity|exact test_page_len|reflexivity|reflexivity|reflexivity|reflexivity|reflexivity|]. intros s. by apply test_writable.
Defined.

Lemma unset_tables_write_witness :
  IS_queue_rq (ec {| dot_prod1 := avx_kernel 1; dot_prod2 := avx_kernel 2; dot_prod3 := avx_kernel 3;
                     dot_prod4 := avx_kernel 4; encode_tbls := None; decode_tbls := None; decode_index := [0; 0; 0; 0] |})
    (λ _, 0) 0 (write_world ec_test one_out) ≠ Ret (BLK_MQ_RQ_QUEUE_OK, write_world ec_test one_out).
Proof. by eapply (unset_tables_write _ (λ _, 0) _ 0 (test_rq true)). Defined.
