(* ===== verification/Pages.v ===== *)
(** Requests that are not one page in one piece ([Transfer]): what the driver does with bios of
    several segments and with chains of bios, which the block layer may send it. *)

From S2P Require Import Prelude GF256 GFVect GFMatrix Decode Cauchy Config MT Fault State CtxPool Chunks Store Transfer Completion Slots Stripe WritePath.

Section write.
Context (cfg : config) (post_ret : Z → Z) (enc : list byte) (Hcoded : coded cfg enc).
Context (conn : Z) (ss : list slot) (Hplaced : placed ss) (Hlen : alen ss = NDISKS cfg).

#[local] Notation "'some_refs'" := (Some <$> (sref conn <$> ss)).
#[local] Abbreviation k := (NDATAS cfg).

(** Every slot has a context with room for its share of one page. *)
#[local] Abbreviation sized w := (in_place cfg conn ss (conns_of w)).

(** A turn of the copy: [len] bytes of [page] at [soff] go to a buffer at [doff]. *)
Lemma copy_turn i doff page soff len w u :
  sized w → 0 <= i < NDISKS cfg →
  (o ← lift (aget some_refs i); r ← deref o; c ← get_ctx r;
   b ← lift (memcpy_at (rdma_buf c) doff page soff len); set_ctx r (c <| rdma_buf := b |>)) w = Ret ((), u) →
  0 <= doff ∧ 0 <= len ∧ doff + len <= cb_size cfg ∧ soff + len <= alen page ∧ sized u.
Proof using Hlen.
  intros Hs Hi E. destruct (slot_at cfg ss Hlen i Hi) as (s & Es & Hin). destruct (Hs s Hin) as (c & Ec & Lc).
  erewrite M_bind_Ret in E by (unfold lift; by rewrite (aget_refs_Some conn ss i s)).
  erewrite M_bind_Ret in E by done. erewrite M_bind_Ret in E by (by apply get_ctx_Ret).
  apply M_bind_inv in E as (b & w1 & E1 & E). unfold lift in E1. destruct (memcpy_at _ _ _ _ _) as [d|] eqn:Ed; [|done].
  injection E1 as <- <-. apply memcpy_at_inv in Ed as (H1 & H2 & H3 & H4 & H5 & H6).
  destruct (set_ctx_Ret w (sref conn s) c (c <| rdma_buf := d |>) Ec) as (cs & Eset & Hset).
  assert (u = with_conns w cs) as -> by congruence. split_and!; [done|done|lia|done|].
  intros t Ht. rewrite conns_of_with, (cset_ctx _ _ _ _ Hset). case_decide as Hd; [|by apply Hs].
  eexists. split; [done|]. cbn. lia.
Qed.

(** ** Replication *)

Lemma copy_pages_inv bios off w u :
  sized w → 0 <= off → copy_pages cfg some_refs off bios w = Ret ((), u) →
  match bios with
  | [] => True
  | segs :: rest => (∃ page more, segs = page :: more ∧ IS_PAGE_SIZE <= alen page) ∧ off + IS_PAGE_SIZE <= cb_size cfg ∧
      ∃ v, sized v ∧ copy_pages cfg some_refs (off + IS_PAGE_SIZE) rest v = Ret ((), u)
  end.
Proof using Hcoded Hlen.
  intros Hs Ho E. destruct bios as [|segs rest]; [done|]. cbn [copy_pages] in E. pose proof (cd_splits _ _ Hcoded).
  apply M_bind_inv in E as ([] & v & E1 & E).
  destruct segs as [|page more].
  { apply (loop_turn (λ _ _, True) _ _ _ 0) in E1 as (_ & t & x & t' & x' & _ & E1); [|done|done|lia].
    destruct (slot_at cfg ss Hlen 0) as (s & Es & _); [lia|].
    apply M_bind_inv in E1 as (o & x1 & _ & E1). apply M_bind_inv in E1 as (r & x2 & _ & E1).
    apply M_bind_inv in E1 as (c & x3 & _ & E1). by apply M_bind_inv in E1 as (p & x4 & E2 & _). }
  apply (loop_turn (λ _ w, sized w) _ _ _ 0) in E1 as (Hv & [] & x & [] & x' & Hx & E1); [|done| |lia].
  - apply (copy_turn 0 off page 0 IS_PAGE_SIZE) in E1 as (_ & _ & H1 & H2 & _); [|done|lia].
    split; [exists page, more; split; [done|lia]|]. split; [done|]. by exists v.
  - intros i [] y [] y' Hi Ey Hy. by apply (copy_turn i off page 0 IS_PAGE_SIZE) in Ey as (_ & _ & _ & _ & Hy').
Qed.

(** ** Erasure coding *)

Lemma split_page_inv off page w u :
  sized w → split_page cfg some_refs off page w = Ret ((), u) →
  off / k + cb_size cfg <= cb_size cfg ∧ IS_PAGE_SIZE <= alen page ∧ sized u.
Proof using Hcoded Hlen.
  intros Hs E. pose proof (cd_splits _ _ Hcoded). destruct (share_size cfg enc Hcoded) as [Hsz Hpos]. unfold split_page in E.
  assert (∀ i y y', 0 <= i < k → sized y →
    (o ← lift (aget some_refs i); r ← deref o; c ← get_ctx r;
     b ← lift (memcpy_at (rdma_buf c) (off / k) page (i * IS_PAGE_SIZE / k) (IS_PAGE_SIZE / k));
     set_ctx r (c <| rdma_buf := b |>)) y = Ret ((), y') →
    off / k + cb_size cfg <= cb_size cfg ∧ i * cb_size cfg + cb_size cfg <= alen page ∧ sized y') as Hturn.
  { intros i y y' Hi Hy Ey. apply copy_turn in Ey as (_ & _ & H1 & H2 & H3); [|done|lia].
    rewrite (share_len cfg enc Hcoded) in H1, H2. rewrite (share_offset cfg enc Hcoded) in H2. done. }
  apply (loop_turn (λ _ w, sized w) _ _ _ (k - 1)) in E as (Hu & [] & x & [] & x' & Hx & Ex); [|done| |lia].
  - apply Hturn in Ex as (H1 & H2 & _); [|lia|done]. split_and!; [done|nia|done].
  - intros i [] y [] y' Hi Ey Hy. by apply Hturn in Ey as (_ & _ & Hy').
Qed.

Lemma write_pages_ec_inv e bios len w u :
  sized w → write_pages_ec cfg e some_refs len bios w = Ret ((), u) → ∃ page, bios = [[page]].
Proof using Hcoded Hlen.
  intros Hs E. pose proof (cd_splits _ _ Hcoded) as Hk. destruct (share_size cfg enc Hcoded) as [Hsz Hpos].
  assert (∀ off, k <= off → 0 < off / k) as Hoff by (intros off Ho; apply Z.div_str_pos; lia).
  unfold write_pages_ec in E. apply M_bind_inv in E as ([] & v & E & _).
  destruct bios as [|segs rest]; [done|].
  assert (k <= 0 + IS_PAGE_SIZE) as Hpk by exact (Z.divide_pos_le k IS_PAGE_SIZE eq_refl (cd_pages _ _ Hcoded)).
  destruct (Z.ltb_spec 1 (alen segs)) as [Hn|Hn].
  - destruct segs as [|seg1 [|seg2 segs]]; [done..|]. cbn [split_segments] in E.
    apply M_bind_inv in E as ([] & v1 & E1 & E). destruct (alen seg1 =? IS_PAGE_SIZE); [|done]. injection E1 as <-.
    apply M_bind_inv in E as ([] & v2 & (_ & _ & Hs2)%split_page_inv & E); [|done].
    apply M_bind_inv in E as ([] & v3 & E3 & E). destruct (alen seg2 =? IS_PAGE_SIZE); [|done]. injection E3 as <-.
    apply M_bind_inv in E as ([] & v4 & (H2 & _)%split_page_inv & _); [|done]. specialize (Hoff _ Hpk). lia.
  - cbn [split_bios] in E. destruct segs as [|page [|seg2 segs]]; [by apply M_bind_inv in E as (x & v1 & E1 & _)| |unfold alen in Hn; cbn in Hn; lia].
    apply M_bind_inv in E as (x & v1 & [= <- <-] & E). apply M_bind_inv in E as ([] & v2 & (_ & Hpage & Hs2)%split_page_inv & E); [|done].
    destruct rest as [|segs rest]; [by exists page|].
    cbn [split_bios] in E. apply M_bind_inv in E as (x & v3 & E3 & E).
    assert (v3 = v2) as -> by (unfold lift in E3; destruct (aget segs 0); [by injection E3|done]).
    apply M_bind_inv in E as ([] & v4 & (H2 & _)%split_page_inv & _); [|done]. specialize (Hoff _ Hpk). lia.
Qed.

(** Only a request of one bio can be copied; the last segments of it are not looked at under
    replication. *)
Lemma fill_pages_inv bios len w u :
  sized w → bios ≠ [] →   fill_pages cfg some_refs len bios w = Ret ((), u) →
  ∃ page more, bios = [page :: more] ∧ (build cfg ≠ REP → more = []).
Proof using Hcoded Hlen.
  intros Hs Hne E. unfold fill_pages in E. destruct (build cfg) as [|e] eqn:Hb.
  - apply (copy_pages_inv bios 0) in E; [|done|done]. destruct bios as [|segs rest]; [done|].
    destruct E as ((page & more & -> & _) & _ & v & Hv & E). exists page, more. split; [|done].
    destruct rest as [|segs rest]; [done|]. apply copy_pages_inv in E as (_ & Hover & _); [|done|done].
    pose proof (cd_build _ _ Hcoded) as Hk. rewrite Hb in Hk. unfold cb_size in Hover. rewrite (proj1 Hk) in Hover.
    change (IS_PAGE_SIZE / 1 * MAX_SGL_LEN) with IS_PAGE_SIZE in Hover. unfold IS_PAGE_SIZE in Hover. lia.
  - destruct (write_pages_ec_inv e bios len w u Hs E) as (page & ->). by exists page, [].
Qed.

Lemma rdma_write_page offset len req rq w ret u :
  reqs w !! req = Some rq → conn_id rq = conn → (∀ s, s ∈ ss → ready cfg (conns_of w) conn s) → rq_bio rq ≠ [] →
  IS_rdma_write cfg post_ret (target_of <$> ss) offset len req w = Ret (ret, u) →
  ∃ page more, rq_bio rq = [page :: more] ∧ (build cfg ≠ REP → more = []).
Proof using Hcoded Hplaced Hlen.
  intros Erq Hconn Hr Hne E. unfold IS_rdma_write in E. apply M_bind_inv in E as ([l r] & w1 & E & _).
  unfold start_write in E. set (w0 := w <| counters := counters w ++ [k] |>) in *.
  erewrite M_bind_Ret in E by done. erewrite M_bind_Ret in E by (apply get_req_Ret; exact Erq). rewrite Hconn in E. fold w0 in E.
  destruct (get_ctxs_write_Ret cfg conn ss Hplaced Hlen offset len req (length (counters w)) w0 Hr) as (cs & Ec & Hcs).
  erewrite M_bind_Ret in E by exact Ec. apply M_bind_inv in E as ([] & w2 & E & _). eapply fill_pages_inv; [|done|exact E].
  intros s [i Es]%elem_of_aget. destruct (Hr s) as [_ (c & Eq & Hb & _)]; [by eapply aget_elem|].
  eexists. split.
  - rewrite conns_of_with. apply (progress_end _ _ _ _ _ _ i _ c Hcs); [by rewrite alen_refs|by apply aget_refs|exact Eq].
  - unfold prepared. rewrite Es. by destruct s as [p ix [[ci ck]|]].
Qed.
End write.

(** C22: a write only ever comes back from [IS_queue_rq], accepted or refused, when the request
    is a single bio, and in the erasure-coding build a bio in one piece: in any other case the
    pieces of a bio hit [BUG_ON], not being pages, or what comes after the first page is
    copied past the end of the contexts' buffers.  The driver does not tell the block layer:
    it announces blocks of 512 bytes, lets it merge requests, and limits their sectors only,
    not their segments. *)
Theorem write_in_one_piece cfg post_ret enc ss req rq w r :
  coded cfg enc → placed ss → alen ss = NDISKS cfg → reqs w !! req = Some rq → rq_write rq = true → rq_bio rq ≠ [] →
  lookup_targets cfg (sess w) (slab_index cfg rq) = Some (target_of <$> ss) →
  (∀ s, s ∈ ss → ready cfg (conns_of w) (conn_id rq) s) →
  IS_queue_rq cfg post_ret req w = Ret r →
  ∃ page more, rq_bio rq = [page :: more] ∧ (build cfg ≠ REP → more = []).
Proof.
  intros Hco Hpl Hlen Erq Hwr Hne Ets Hr E. destruct r as [rc v]. unfold IS_queue_rq in E.
  apply M_bind_inv in E as (err & v1 & E & _). unfold IS_request in E.
  erewrite M_bind_Ret in E by (by apply get_req_Ret). erewrite M_bind_Ret in E by done.
  erewrite M_bind_Ret in E by (unfold lift; by rewrite Ets). unfold IS_transfer_chunk in E. rewrite Hwr in E.
  apply M_bind_inv in E as (ret & v2 & E & _). by eapply (rdma_write_page cfg post_ret enc Hco (conn_id rq) ss Hpl Hlen).
Qed.

(** ** Reads *)

Section read.
Context (cfg : config) (Hsplits : 0 < NDATAS cfg) (Hpages : (NDATAS cfg | IS_PAGE_SIZE)).

(** The copy of a page, from buffers that are found one by one, fills a page. *)
Lemma copies_page (body : Z → list byte → M world (list byte)) off page w p u :
  (∀ i p w p' w', body i p w = Ret (p', w') →
     ∃ buf, memcpy_at p (i * IS_PAGE_SIZE / NDATAS cfg) buf off (IS_PAGE_SIZE / NDATAS cfg) = Some p') →
  loop 0 (NDATAS cfg) body page w = Ret (p, u) → IS_PAGE_SIZE <= alen page.
Proof using Hsplits Hpages.
  intros Hb E. apply (loop_turn (λ p _, alen p = alen page) _ _ _ (NDATAS cfg - 1)) in E as (_ & t & x & t' & x' & Ht & E); [|done| |lia].
  - apply Hb in E as (buf & (_ & _ & _ & H & _)%memcpy_at_inv). destruct Hpages as [q Hq]. rewrite Hq in H |- *.
    rewrite Z.mul_assoc, !Z.div_mul in H by lia. nia.
  - intros i t x t' x' _ (buf & Em%memcpy_at_inv)%Hb Ht. lia.
Qed.
Lemma copy_bio_page refs off page w p u : copy_bio cfg refs off page w = Ret (p, u) → IS_PAGE_SIZE <= alen page.
Proof using Hsplits Hpages.
  apply copies_page with (off := off / NDATAS cfg). intros i p1 w1 p2 w2 (c & w3 & _ & E)%M_bind_inv. unfold lift in E.
  destruct (memcpy_at _ _ _ _ _) eqn:Em; [|done]. injection E as <- _. by eexists.
Qed.
Lemma merge_page_page refs off page w p u : merge_page cfg refs off page w = Ret (p, u) → IS_PAGE_SIZE <= alen page.
Proof using Hsplits Hpages.
  apply copies_page with (off := off / NDATAS cfg). intros i p1 w1 p2 w2 (r & w3 & _ & (c & w4 & _ & E)%M_bind_inv)%M_bind_inv.
  unfold lift in E. destruct (memcpy_at _ _ _ _ _) eqn:Em; [|done]. injection E as <- _. by eexists.
Qed.

(** What is read into is at least a page. *)
Lemma read_pages_inv refs rq w bios u :
  read_pages cfg refs rq w = Ret (bios, u) →
  ∃ page more rest, rq_bio rq = (page :: more) :: rest ∧ IS_PAGE_SIZE <= alen page.
Proof using Hsplits Hpages.
  assert (∀ copy off w bios u, (∀ o page w p u, copy o page w = Ret (p, u) → IS_PAGE_SIZE <= alen page) → rq_bio rq ≠ [] →
    read_bios copy off (rq_bio rq) w = Ret (bios, u) →
    ∃ page more rest, rq_bio rq = (page :: more) :: rest ∧ IS_PAGE_SIZE <= alen page) as Hbios.
  { intros copy off w0 l u0 Hc Hne E. destruct (rq_bio rq) as [|segs rest]; [done|]. cbn [read_bios] in E.
    apply M_bind_inv in E as (page & w1 & E1 & E). destruct segs as [|pg more]; [done|]. injection E1 as <- <-.
    apply M_bind_inv in E as (p & w2 & E2 & _). exists pg, more, rest. split; [done|by eapply Hc]. }
  assert (∀ seg segs (m : M world (list (list byte))) w l u, (when (negb (alen seg =? IS_PAGE_SIZE)) bug;; m) w = Ret (l, u) →
    ∃ page more rest, (seg :: segs) :: drop 1 (rq_bio rq) = (page :: more) :: rest ∧ IS_PAGE_SIZE <= alen page) as Hseg.
  { intros seg segs m w0 l u0 H. exists seg, segs, (drop 1 (rq_bio rq)). split; [done|]. destruct (Z.eqb_spec (alen seg) IS_PAGE_SIZE); [lia|].
    by apply M_bind_inv in H as ([] & w1 & H & _). }
  intros E. unfold read_pages in E. destruct (build cfg) as [|e].
  - unfold read_pages_rep in E. destruct (rq_bio rq) as [|segs rest] eqn:Eb; [done|]. destruct (1 <? alen segs) eqn:Hn.
    + apply M_bind_inv in E as (l & w1 & E & _). destruct segs as [|seg segs]; [done|]. cbn [read_segments] in E.
      by eapply (Hseg seg segs).
    + eapply Hbios; [|done|exact E]. intros o page w0 p u0 Ec. by eapply copy_bio_page.
  - unfold read_pages_ec in E. apply M_bind_inv in E as ([] & w1 & _ & E).
    destruct (rq_bio rq) as [|segs rest] eqn:Eb; [done|]. destruct (1 <? alen segs) eqn:Hn.
    + apply M_bind_inv in E as (l & w2 & E & _). destruct segs as [|seg segs]; [done|]. cbn [merge_segments] in E.
      by eapply (Hseg seg segs).
    + eapply Hbios; [|done|exact E]. intros o page w0 p u0 Ec. by eapply merge_page_page.
Qed.

(** The completion that a read is ended by. *)
Lemma read_done_page r c cnt req rq w x w' :
  ctx_of (conns_of w) r = Some c → ctx_req c = Some req → ctx_cnt c = Some cnt → counters w !! cnt = Some 1 →
  reqs w !! req = Some rq → client_read_done cfg r w = Ret (x, w') →
  ∃ page more rest, rq_bio rq = (page :: more) :: rest ∧ IS_PAGE_SIZE <= alen page.
Proof using Hsplits Hpages.
  intros Ec Hreq Hcn En Erq E. unfold client_read_done in E. erewrite M_bind_Ret in E by (by apply get_ctx_Ret).
  rewrite Hreq in E. erewrite M_bind_Ret in E by done. erewrite M_bind_Ret in E by (by apply get_req_Ret).
  destruct (upd_ctx_Ret w r c finished Ec) as (cs & Eu & Hs). erewrite M_bind_Ret in E by exact Eu.
  rewrite Hcn in E. erewrite M_bind_Ret in E by done. erewrite M_bind_Ret in E by (by apply atomic_dec_and_test_Ret).
  change (negb (1 - 1 =? 0)) with false in E. cbv iota in E.
  apply M_bind_inv in E as (c' & w1 & _ & E). apply M_bind_inv in E as (refs & w2 & _ & E).
  apply M_bind_inv in E as (bios & w3 & E & _). by eapply read_pages_inv.
Qed.
End read.

(** How many bytes a request moves. *)
Definition bio_bytes (bios : list (list (list byte))) : Z := alen (mjoin (mjoin bios)).

(** The last completion of a read, which ends the request, is only ever handled to its end
    when the request, which is no longer than a page, is one page in one piece: otherwise the
    pieces hit [BUG_ON], or a whole page is copied into one that is shorter. *)
Theorem read_in_one_piece cfg r c cnt req rq w x w' :
  0 < NDATAS cfg → (NDATAS cfg | IS_PAGE_SIZE) → ctx_of (conns_of w) r = Some c → ctx_req c = Some req → ctx_cnt c = Some cnt →
  counters w !! cnt = Some 1 → reqs w !! req = Some rq → bio_bytes (rq_bio rq) <= IS_PAGE_SIZE →
  (∀ segs seg, segs ∈ rq_bio rq → seg ∈ segs → 0 < alen seg) → (∀ segs, segs ∈ rq_bio rq → segs ≠ []) →
  client_read_done cfg r w = Ret (x, w') → ∃ page, rq_bio rq = [[page]] ∧ alen page = IS_PAGE_SIZE.
Proof.
  intros Hk Hp Ec Hreq Hcn En Erq Hlen Hseg Hbio E.
  destruct (read_done_page cfg Hk Hp r c cnt req rq w x w' Ec Hreq Hcn En Erq E) as (page & more & rest & Eb & Hpage).
  rewrite Eb in *. exists page. unfold bio_bytes in Hlen. cbn in Hlen. rewrite join_app, !alen_app in Hlen. cbn in Hlen.
  assert (more = []) as ->.
  { destruct more as [|seg more]; [done|]. exfalso. cbn in Hlen. rewrite alen_app in Hlen.
    pose proof (Hseg (page :: seg :: more) seg ltac:(left) ltac:(right; left)). unfold alen in *. lia. }
  assert (rest = []) as ->.
  { destruct rest as [|segs rest]; [done|]. exfalso. destruct segs as [|seg segs]; [by apply (Hbio []); [right; left|]|].
    cbn in Hlen. rewrite !alen_app in Hlen. pose proof (Hseg (seg :: segs) seg ltac:(right; left) ltac:(left)). unfold alen in *. lia. }
  split; [done|]. cbn in Hlen. unfold alen in *. cbn in *. lia.
Qed.


(** A page is written in one piece; in two halves it never is. *)
Definition half_page : list byte := replicate (Z.to_nat (IS_PAGE_SIZE / 2)) x01.
Definition halves_world : world :=
  (write_world ec_test one_out) <| reqs := [(test_rq true) <| rq_bio := [[half_page; half_page]] |>] |>.

Lemma write_in_one_piece_witness :
  (∃ r, IS_queue_rq ec_test (λ _, 0) 0 (write_world ec_test one_out) = Ret r ∧
    ∃ page more, [[test_page]] = [page :: more] ∧ (build ec_test ≠ REP → more = [])) ∧
  ∀ r, IS_queue_rq ec_test (λ _, 0) 0 halves_world ≠ Ret r.
Proof.
  split.
  - destruct (write_request_Ret ec_test (λ _, 0) ec_enc ec_coded (λ _, eq_refl) (test_slots ec_test one_out) 0 (test_rq true) test_page
      (write_world ec_test one_out)) as (v & E & _);
      [apply test_placed|reflexivity|exact test_page_len|reflexivity|reflexivity|reflexivity|reflexivity|reflexivity|
       intros s; by apply test_writable|].
    eexists. split; [exact E|].
    apply (write_in_one_piece ec_test (λ _, 0) ec_enc (test_slots ec_test one_out) 0 (test_rq true) (write_world ec_test one_out)
      (BLK_MQ_RQ_QUEUE_OK, v));
      [exact ec_coded|apply test_placed|reflexivity|reflexivity|reflexivity|discriminate|reflexivity|intros s; by apply test_ready|exact E].
  - intros r E. destruct (write_in_one_piece ec_test (λ _, 0) ec_enc (test_slots ec_test one_out) 0
      ((test_rq true) <| rq_bio := [[half_page; half_page]] |>) halves_world r) as (page & more & Eb & Hm);
      [exact ec_coded|apply test_placed|reflexivity|reflexivity|reflexivity|discriminate|reflexivity|
       intros s; by apply test_ready|exact E|].
    injection Eb as _ Em. assert (length more = 1%nat) as Hl by (by rewrite <- Em). rewrite Hm in Hl; done.
Defined.

(** A read of one page whose last completion is being handled. *)
Definition last_ctx : rdma_ctx :=
  (test_ctx rep) <| ctx_req := Some 0%nat |> <| ctx_cnt := Some 0%nat |>
    <| ctxs := (λ d, Some (sref 0 (test_slot one_out d))) <$> disks rep |>.
Definition last_pool : ctx_pool_list :=
  {| ctx_pool := [last_ctx; last_ctx];
     free_ctxs := {| pool_len := 2; ctx_list := [0; 1]; pool_head := 0; pool_tail := 0 |} |}.
Definition last_world : world :=
  (write_world rep one_out) <| sess := (test_session rep one_out) <| IS_conns := [replicate 3 (Some last_pool)] |> |>
    <| reqs := [test_rq false] |> <| counters := [1] |>.

Lemma read_in_one_piece_witness :
  ∃ x w', client_read_done rep (sref 0 (test_slot one_out 0)) last_world = Ret (x, w') ∧
    ∃ page, [[test_page]] = [[page]] ∧ alen page = IS_PAGE_SIZE.
Proof.
  assert ((match client_read_done rep (sref 0 (test_slot one_out 0)) last_world with Ret _ => true | _ => false end) = true) as H
    by (vm_compute; reflexivity).
  destruct (client_read_done rep (sref 0 (test_slot one_out 0)) last_world) as [[x w']| | |] eqn:E; try discriminate.
  exists x, w'. split; [reflexivity|].
  apply (read_in_one_piece rep (sref 0 (test_slot one_out 0)) last_ctx 0 0 (test_rq false) last_world x w');
    [reflexivity|by exists IS_PAGE_SIZE|reflexivity..| | |intros segs ->%list_elem_of_singleton; discriminate|exact E].
  - vm_compute. discriminate.
  - intros segs seg ->%list_elem_of_singleton ->%list_elem_of_singleton. by rewrite test_page_len.
Defined.
