(* ===== verification/Overlap.v ===== *)
(** Writes at the same time: the block layer hands requests to several processors, which
    share the contexts and the completion queues.  Each runs [IS_rdma_write]; what one of
    them does between two of its polls is one step, and a processor may well handle the
    completion of another's write. *)

From stdpp Require Import relations.
From S2P Require Import Prelude GF256 GFVect GFMatrix Decode Cauchy Config MT Fault State CtxPool Chunks Store Transfer Completion Slots Stripe WritePath.

(** * Bags *)

Lemma filter_perm {A} (P : A → Prop) `{!∀ x, Decision (P x)} (l l' : list A) : l ≡ₚ l' → filter P l ≡ₚ filter P l'.
Proof. intros Hl. by rewrite Hl. Qed.

Lemma join_insert {A} (ls : list (list A)) b x l l' :
  ls !! b = Some l → l ≡ₚ x :: l' → mjoin ls ≡ₚ x :: mjoin (<[b := l']> ls).
Proof.
  intros Eb Hl. pose proof (lookup_lt_Some _ _ _ Eb). rewrite insert_take_drop by done.
  rewrite <- (take_drop_middle ls b l Eb) at 1. rewrite !join_app. cbn. rewrite Hl.
  cbn. by rewrite <- Permutation_middle.
Qed.

Lemma elem_of_join_at {A} (ls : list (list A)) x : x ∈ mjoin ls → ∃ b l, ls !! b = Some l ∧ x ∈ l.
Proof. intros (l & Hx & [b Hl]%list_elem_of_lookup)%list_elem_of_join. by exists b, l. Qed.

(** A completion queue up to its next completion. *)
Lemma omap_first {A} (l : list (option A)) x xs :
  omap id l = x :: xs → ∃ k q, l = replicate k None ++ Some x :: q ∧ omap id q = xs.
Proof.
  induction l as [|[y|] l IH]; intros E; [done| |].
  - injection E as -> E. by exists 0%nat, l.
  - destruct (IH E) as (k & q & -> & Eq). by exists (S k), q.
Qed.
Lemma omap_none {A} (l : list (option A)) : omap id l = [] → l = replicate (length l) None.
Proof. induction l as [|[y|] l IH]; intros E; [done|done|]. cbn in *. by rewrite <- IH. Qed.

(** * Pools and bags *)

Lemma pool_ok_perm f out out' : out ≡ₚ out' → pool_ok f out → pool_ok f out'.
Proof. intros Ho [H1 H2 H3]. split; [done..|]. by rewrite <- Ho. Qed.

Lemma pool_ok_pop f out ix :
  pool_ok f out → 0 <= pool_tail f → aget (ctx_list f) (pool_tail f) = Some ix → pool_ok (pop f) (ix :: out).
Proof.
  intros Hok Ht Ei. destruct (pool_get_ok f out Hok) as [[E _]|(c & f' & E & _ & Hok')]; unfold pool_get in E;
    destruct (Z.eqb_spec (pool_tail f) (-1)); try lia; rewrite Ei in E; [done|]. cbn in E. by injection E as <- <-.
Qed.

Lemma pool_ok_room f out c : pool_ok f (c :: out) → -1 <= pool_tail f < alen (ctx_list f) - 1.
Proof.
  intros [HL HT HA]. apply Permutation_length in HA. rewrite length_app, length_take, length_seqZ in HA. cbn in HA.
  unfold alen in *. unfold IS_QUEUE_DEPTH in *. lia.
Qed.

(** * The system *)

Section overlap.
Context (cfg : config) (post_ret : Z → Z) (enc : list byte).
Context (Hcoded : coded cfg enc) (Hpost : ∀ n, post_ret n = 0).
Context (conn : Z).

(** A processor in [IS_rdma_write], its posts made: the request, the slots it uses, and the
    disk it waits for next. *)
Record thread : Type := {
  th_req : nat; th_cnt : nat; th_rq : request; th_page : list byte; th_slots : list slot; th_next : Z
}.
(** With the writes that are on the network. *)
Record overlap : Type := { ov_world : world; ov_net : list ctx_ref; ov_threads : list thread }.

(** One turn of the loop of [wait_writes]. *)
Definition turn (ts : list target) (l : list (option ctx_ref)) (i : Z) : M world () :=
  t ← the_target ts i;
  if unmapped t then o ← lift (aget l i); r ← deref o; IS_insert_ctx r
  else c ← deref (t_cb_ptr t); rdma_cq_event_handler cfg post_ret c.
Lemma wait_writes_turns ts l : wait_writes cfg post_ret ts l = loop 0 (NDISKS cfg) (λ i _, turn ts l i) ().
Proof. done. Qed.

Definition turn_of (th : thread) : M world () :=
  turn (target_of <$> th_slots th) (Some <$> (sref conn <$> th_slots th)) (th_next th).
Definition next_turn (th : thread) : thread :=
  {| th_req := th_req th; th_cnt := th_cnt th; th_rq := th_rq th; th_page := th_page th; th_slots := th_slots th;
     th_next := th_next th + 1 |}.

Definition sends (ps : list post) : list ctx_ref := omap (λ p, match p with PostRdma _ r _ => Some r | _ => None end) ps.

(** A server that is up, with its completion queue. *)
Definition serving (w : world) (q : Z) : Prop := usable (sess w) q ∧ is_Some (aget (cqs w) q).

(** A processor takes a request that no other has, and finds a context in each pool. *)
Inductive starts : overlap → overlap → Prop :=
  starts_intro w net ths ss req rq page offset l v :
    placed ss → alen ss = NDISKS cfg → alen page = IS_PAGE_SIZE →
    reqs w !! req = Some rq → rq_bio rq = [[page]] → conn_id rq = conn → req ∉ th_req <$> ths →
    (∀ s, s ∈ ss → top_free (conns_of w) conn (s_pool s) (s_ix s)) →
    (∀ s, s ∈ ss → mapped s = true → serving w (s_pool s)) →
    start_write cfg post_ret (target_of <$> ss) offset IS_PAGE_SIZE req w = Ret (l, inl (), v) →
    starts {| ov_world := w; ov_net := net; ov_threads := ths |}
      {| ov_world := v; ov_net := net ++ sends (drop (length (posted w)) (posted v));
         ov_threads := ths ++ [{| th_req := req; th_cnt := length (counters w); th_rq := rq; th_page := page; th_slots := ss; th_next := 0 |}] |}.

(** A processor makes its next turn, or a write completes: its completion is queued after a
    number of empty polls. *)
Inductive advances : overlap → overlap → Prop :=
  | advances_turn w net ths a th v :
      ths !! a = Some th → th_next th < NDISKS cfg → turn_of th w = Ret ((), v) →
      advances {| ov_world := w; ov_net := net; ov_threads := ths |}
        {| ov_world := v; ov_net := net; ov_threads := <[a := next_turn th]> ths |}
  | advances_complete w net1 r net2 ths l n :
      aget (cqs w) (rf_pool r) = Some l →
      advances {| ov_world := w; ov_net := net1 ++ r :: net2; ov_threads := ths |}
        {| ov_world := w <| cqs := <[Z.to_nat (rf_pool r) := l ++ replicate n None ++ [Some (write_wc r)]]> (cqs w) |>;
           ov_net := net1 ++ net2; ov_threads := ths |}.

(** * The invariant *)

(** A slot of a server, and the slots that are still to be waited for. *)
Definition at_server (q : Z) (s : slot) : Prop := mapped s = true ∧ s_pool s = q.
#[local] Instance at_server_dec q s : Decision (at_server q s).
Proof. unfold at_server. apply _. Defined.
Definition rest (th : thread) : list slot := drop (Z.to_nat (th_next th)) (th_slots th).
(** How many of a processor's writes are done, of which [left] are not. *)
Definition done_of (th : thread) (left : list slot) : Z := servers (th_slots th) - servers left.

(** What holds for one processor, [left] being the slots whose contexts are out. *)
Record local (w : world) (th : thread) (left : list slot) : Prop := {
  lo_placed : placed (th_slots th);
  lo_slots : alen (th_slots th) = NDISKS cfg;
  lo_serving : ∀ s, s ∈ th_slots th → mapped s = true → serving w (s_pool s);
  lo_left : ∀ s, s ∈ left → s ∈ th_slots th;
  lo_once : NoDup left;
  lo_ctx : ∀ i s, aget (th_slots th) i = Some s → s ∈ left → ∃ c, ctx_of (conns_of w) (sref conn s) = Some c ∧
    (mapped s = true → ctx_req c = Some (th_req th) ∧ ctx_cnt c = Some (th_cnt th) ∧
                       rdma_buf c = stripe_buf cfg enc (th_page th) i);
  lo_counter : counters w !! th_cnt th = Some (NDATAS cfg - done_of th left);
  lo_req : reqs w !! th_req th = Some (if decide (NDATAS cfg <= done_of th left) then ended (th_rq th) else th_rq th)
}.

(** Its turns: the contexts of disks on no server come home in their turn. *)
Record in_turn (th : thread) (left : list slot) : Prop := {
  it_next : 0 <= th_next th <= NDISKS cfg;
  it_unused : filter (λ s, mapped s = false) left ≡ₚ filter (λ s, mapped s = false) (rest th)
}.

(** What holds for the contexts, the queues and the network together. *)
Record shared (w : world) (net : list ctx_ref) (out rests : list slot) : Prop := {
  sh_pools : ∀ q f, free_ctxs <$> pool_of (conns_of w) conn q = Some f → pool_ok f (s_ix <$> filter (λ s, s_pool s = q) out);
  sh_ctxs : ∀ q f ix, free_ctxs <$> pool_of (conns_of w) conn q = Some f → 0 <= ix < IS_QUEUE_DEPTH →
    ∃ c, ctx_of (conns_of w) {| rf_conn := conn; rf_pool := q; rf_ix := ix |} = Some c ∧
      alen (rdma_buf c) = cb_size cfg ∧ alen (ctxs c) = NDISKS cfg;
  sh_queues : ∀ q l, aget (cqs w) q = Some l → ∃ rs, omap id l = write_wc <$> rs ∧
    rs ++ filter (λ r, rf_pool r = q) net ≡ₚ sref conn <$> filter (at_server q) out;
  sh_net : ∀ r, r ∈ net → is_Some (aget (cqs w) (rf_pool r));
  sh_turns : ∀ q, length (filter (at_server q) out) = length (filter (at_server q) rests)
}.

Record inv (st : overlap) (lefts : list (list slot)) : Prop := {
  in_len : length lefts = length (ov_threads st);
  in_reqs : NoDup (th_req <$> ov_threads st);
  in_cnts : NoDup (th_cnt <$> ov_threads st);
  in_local : ∀ a th left, ov_threads st !! a = Some th → lefts !! a = Some left → local (ov_world st) th left;
  in_turns : ∀ a th left, ov_threads st !! a = Some th → lefts !! a = Some left → in_turn th left;
  in_shared : shared (ov_world st) (ov_net st) (mjoin lefts) (mjoin (rest <$> ov_threads st))
}.

Lemma done_range w th left : local w th left → 0 <= done_of th left <= servers (th_slots th).
Proof.
  intros L. unfold done_of, servers, alen. split; [|lia].
  enough (length (filter (λ s, mapped s = true) left) <= length (filter (λ s, mapped s = true) (th_slots th)))%nat by lia.
  apply submseteq_length, NoDup_submseteq; [apply NoDup_filter, (lo_once _ _ _ L)|].
  intros s [Hm Hs]%list_elem_of_filter. apply list_elem_of_filter. split; [done|by apply (lo_left _ _ _ L)].
Qed.

(** ** Preservation *)

Lemma omap_nones {A} n : omap id (replicate n (@None A)) = [].
Proof. by induction n. Qed.

Lemma serving_ext w w' q :
  (∀ c, usable (sess w) c → usable (sess w') c) → (∀ c, is_Some (aget (cqs w) c) → is_Some (aget (cqs w') c)) →
  serving w q → serving w' q.
Proof. intros Hu Hq [H1 H2]. split; auto. Qed.

Lemma complete_inv w net1 r net2 ths l n lefts :
  aget (cqs w) (rf_pool r) = Some l →
  inv {| ov_world := w; ov_net := net1 ++ r :: net2; ov_threads := ths |} lefts →
  inv {| ov_world := w <| cqs := <[Z.to_nat (rf_pool r) := l ++ replicate n None ++ [Some (write_wc r)]]> (cqs w) |>;
         ov_net := net1 ++ net2; ov_threads := ths |} lefts.
Proof.
  intros Eq [Hlen Hreqs Hcnts Hloc Hturn [Hpools Hctxs Hqs Hnet Hturns]]. cbn in *. pose proof (aget_lt _ _ _ Eq) as Hlt.
  split; cbn; [done..| |exact Hturn|].
  - intros a th left Et El. destruct (Hloc a th left Et El) as [L1 L2 L3 L4 L0 L5 L6 L7]. split; try done.
    intros s Hs Hm. apply (serving_ext w); [done| |by apply L3]. intros c [x Ex]. cbn. rewrite aget_insert by lia.
    destruct (decide (rf_pool r = c)); [by eexists|by exists x].
  - split; cbn; [exact Hpools|exact Hctxs| | |exact Hturns].
    2: { intros x Hx. destruct (Hnet x) as [y Ey].
      { apply elem_of_app in Hx as [Hx|Hx]; apply elem_of_app; [by left|right; by right]. }
      rewrite aget_insert by lia.
      destruct (decide (rf_pool r = rf_pool x)); [by eexists|by exists y]. }
    intros q l' El'. rewrite aget_insert in El' by lia.
    case_decide as Hd.
    + subst q.
      injection El' as <-. destruct (Hqs _ _ Eq) as (rs & E & Hp). exists (rs ++ [r]).
      split.
      * by rewrite !omap_app, omap_nones, E, fmap_app.
      * rewrite <- Hp, !filter_app. rewrite (filter_cons_True (λ r0, rf_pool r0 = rf_pool r)) by done.
        rewrite <- !(assoc_L (++)). cbn. by rewrite <- !Permutation_middle.
    + destruct (Hqs q l' El') as (rs & E & Hp). exists rs. split; [done|]. rewrite <- Hp, !filter_app.
      by rewrite (filter_cons_False (λ r0, rf_pool r0 = q)) by congruence.
Qed.

(** The context [s] of processor [b] comes home. *)
Lemma local_other w w' th left :
  local w th left →
  (∀ c, usable (sess w) c → usable (sess w') c) → (∀ c, is_Some (aget (cqs w) c) → is_Some (aget (cqs w') c)) →
  (∀ s, s ∈ left → ctx_of (conns_of w') (sref conn s) = ctx_of (conns_of w) (sref conn s)) →
  counters w' !! th_cnt th = counters w !! th_cnt th → reqs w' !! th_req th = reqs w !! th_req th →
  local w' th left.
Proof.
  intros [L1 L2 L3 L4 L0 L5 L6 L7] Hu Hq Hc Hcnt Hreq. split; try done.
  - intros s Hs Hm. by apply (serving_ext w), L3.
  - intros i s Es Hs. destruct (L5 i s Es Hs) as (c & Ec & H). exists c. by rewrite Hc.
  - by rewrite Hcnt.
  - by rewrite Hreq.
Qed.

Lemma servers_perm l l' : l ≡ₚ l' → servers l = servers l'.
Proof. intros H. unfold servers, alen. by rewrite H. Qed.
Lemma servers_cons s l : servers (s :: l) = servers l + (if mapped s then 1 else 0).
Proof.
  unfold servers. destruct (mapped s) eqn:E.
  - rewrite (filter_cons_True (λ s, mapped s = true)) by done. unfold alen. cbn. lia.
  - rewrite (filter_cons_False (λ s, mapped s = true)) by congruence. lia.
Qed.

(** The pools when the context of [s] is given back. *)
Lemma pools_home w w' out out' s f p :
  out ≡ₚ s :: out' →
  free_ctxs <$> pool_of (conns_of w) conn (s_pool s) = Some f → pool_insert f (s_ix s) = Some p →
  (∀ q f, free_ctxs <$> pool_of (conns_of w) conn q = Some f → pool_ok f (s_ix <$> filter (λ s, s_pool s = q) out)) →
  (∀ q, free_ctxs <$> pool_of (conns_of w') conn q = if decide (q = s_pool s) then Some p else free_ctxs <$> pool_of (conns_of w) conn q) →
  ∀ q f, free_ctxs <$> pool_of (conns_of w') conn q = Some f → pool_ok f (s_ix <$> filter (λ s, s_pool s = q) out').
Proof.
  intros Ho Ef Ep Hok Hw q g Eg. rewrite Hw in Eg. case_decide as Hd.
  - subst q. injection Eg as <-. pose proof (Hok _ _ Ef) as H.
    assert (s_ix <$> filter (λ t, s_pool t = s_pool s) out ≡ₚ s_ix s :: (s_ix <$> filter (λ t, s_pool t = s_pool s) out')) as Hp.
    { rewrite Ho. by rewrite (filter_cons_True (λ t, s_pool t = s_pool s)). }
    destruct (pool_insert_ok f _ _ (s_ix s) H Hp) as (p' & E & Hok'). by replace p with p' by congruence.
  - eapply pool_ok_perm; [|by apply Hok]. rewrite Ho. by rewrite (filter_cons_False (λ t, s_pool t = q)) by congruence.
Qed.

(** Contexts that are out are different. *)
Lemma out_distinct f s out t :
  pool_ok f (s_ix <$> filter (λ t, s_pool t = s_pool s) (s :: out)) → t ∈ out → sref conn t ≠ sref conn s.
Proof.
  intros [Hnd _]%pool_ok_NoDup Ht E. rewrite (filter_cons_True (λ t, s_pool t = s_pool s)) in Hnd by done.
  cbn in Hnd. apply NoDup_cons in Hnd as [Hn _]. apply Hn. injection E as Ep Ei. rewrite <- Ei.
  apply list_elem_of_fmap. exists t. split; [done|]. by apply list_elem_of_filter.
Qed.

Lemma rest_next th s : aget (th_slots th) (th_next th) = Some s → rest th = s :: rest (next_turn th).
Proof.
  intros [Hi Es]%aget_Some. unfold rest, next_turn. cbn. replace (Z.to_nat (th_next th + 1)) with (S (Z.to_nat (th_next th))) by lia.
  by apply drop_S.
Qed.

Lemma done_home th left s left' : left ≡ₚ s :: left' → done_of th left' = done_of th left + (if mapped s then 1 else 0).
Proof. intros Hl. unfold done_of. rewrite (servers_perm _ _ Hl), servers_cons. lia. Qed.

(** What bringing the context of slot [s] of processor [thb] home does. *)
Record home (w v : world) (thb : thread) (left : list slot) (s : slot) : Prop := {
  ho_others : ∀ r, r ≠ sref conn s → ctx_of (conns_of v) r = ctx_of (conns_of w) r;
  ho_ctx : ∀ c, ctx_of (conns_of w) (sref conn s) = Some c →
    ∃ c', ctx_of (conns_of v) (sref conn s) = Some c' ∧ rdma_buf c' = rdma_buf c ∧ ctxs c' = ctxs c;
  ho_free : ∀ q, free_ctxs <$> pool_of (conns_of v) conn q =
    if decide (q = s_pool s) then (free_ctxs <$> pool_of (conns_of w) conn q) ≫= (λ f, pool_insert f (s_ix s))
    else free_ctxs <$> pool_of (conns_of w) conn q;
  ho_usable : ∀ c, usable (sess w) c → usable (sess v) c;
  ho_counters : counters v = if mapped s then <[th_cnt thb := NDATAS cfg - done_of thb left - 1]> (counters w) else counters w;
  ho_reqs : reqs v = if mapped s && (NDATAS cfg - done_of thb left - 1 =? 0)
    then <[th_req thb := ended (th_rq thb)]> (reqs w) else reqs w;
  ho_queues : ∀ q l, aget (cqs v) q = Some l → ∃ l0, aget (cqs w) q = Some l0 ∧
    omap id l0 = if decide (at_server q s) then write_wc (sref conn s) :: omap id l else omap id l;
  ho_serve : ∀ c, is_Some (aget (cqs w) c) → is_Some (aget (cqs v) c)
}.

Lemma home_local w v thb left s left' :
  home w v thb left s → local w thb left → left ≡ₚ s :: left' → (∀ t, t ∈ left' → sref conn t ≠ sref conn s) → local v thb left'.
Proof using Hcoded.
  intros [H1 H2 H3 H4 H5 H6 H7 H8] [L1 L2 L3 L4 L0 L5 L6 L7] Hl Hne. pose proof (done_home thb _ _ _ Hl) as Hd.
  pose proof (lookup_lt_Some _ _ _ L6). pose proof (lookup_lt_Some _ _ _ L7). split; try done.
  - intros t Ht Hm. by apply (serving_ext w), L3.
  - intros t Ht. apply L4. rewrite Hl. by right.
  - rewrite Hl in L0. by apply NoDup_cons in L0 as [_ L0].
  - intros i t Et Ht. destruct (L5 i t Et) as (c & Ec & Hc); [rewrite Hl; by right|]. exists c. by rewrite H1 by (by apply Hne).
  - rewrite H5, Hd. destruct (mapped s); [rewrite list_lookup_insert_eq by done; f_equal; lia|rewrite L6; f_equal; lia].
  - rewrite H6, Hd. destruct (mapped s); cbn [andb].
    + destruct (Z.eqb_spec (NDATAS cfg - done_of thb left - 1) 0).
      * rewrite list_lookup_insert_eq by done. by rewrite decide_True by lia.
      * rewrite L7. f_equal. destruct (decide (NDATAS cfg <= done_of thb left)); [by rewrite decide_True by lia|by rewrite decide_False by lia].
    + by rewrite L7, Z.add_0_r.
Qed.

(** The turn [s0] of processor [a] brings home the context [s] of processor [b]. *)
Record brings (ths : list thread) (lefts : list (list slot)) (a : nat) (th : thread) (s0 : slot) (b : nat) (thb : thread)
    (left : list slot) (s : slot) : Prop := {
  br_turn : ths !! a = Some th;
  br_slot : aget (th_slots th) (th_next th) = Some s0;
  br_thread : ths !! b = Some thb;
  br_left : lefts !! b = Some left;
  br_in : s ∈ left;
  br_same : mapped s = mapped s0 ∧ if mapped s then s_pool s = s_pool s0 else a = b ∧ s = s0
}.

Lemma next_turn_fmap {A} (f : thread → A) (ths : list thread) (a : nat) th :
  (∀ t, f (next_turn t) = f t) → ths !! a = Some th → f <$> <[a := next_turn th]> ths = f <$> ths.
Proof. intros Hf Ea. rewrite list_fmap_insert, Hf. apply list_insert_id. by rewrite list_lookup_fmap, Ea. Qed.

(** A processor after the turn is one before it, one turn on. *)
Lemma turned (ths : list thread) (a : nat) th (j : nat) t :
  ths !! a = Some th → <[a := next_turn th]> ths !! j = Some t →
  ∃ t0, ths !! j = Some t0 ∧ t = (if decide (j = a) then next_turn t0 else t0).
Proof.
  intros Ea Ej. pose proof (lookup_lt_Some _ _ _ Ea). destruct (decide (j = a)) as [->|Hne].
  - rewrite list_lookup_insert_eq in Ej by done. injection Ej as <-. by exists th.
  - rewrite list_lookup_insert_ne in Ej by done. by exists t.
Qed.
Lemma lefts_at {A} (ls : list A) (b : nat) l (j : nat) x :
  <[b := l]> ls !! j = Some x → (b < length ls)%nat → if decide (j = b) then x = l else ls !! j = Some x.
Proof.
  intros Ej Hb. case_decide as Hd; [subst j; rewrite list_lookup_insert_eq in Ej by done; congruence|].
  by rewrite list_lookup_insert_ne in Ej.
Qed.

Section brings.
Context (w v : world) (net : list ctx_ref) (ths : list thread) (lefts : list (list slot)).
Context (a : nat) (th : thread) (s0 : slot) (b : nat) (thb : thread) (left : list slot) (s : slot) (left' : list slot).
Context (Hinv : inv {| ov_world := w; ov_net := net; ov_threads := ths |} lefts).
Context (Hb : brings ths lefts a th s0 b thb left s) (Hl : left ≡ₚ s :: left') (Hh : home w v thb left s).

#[local] Abbreviation out := (mjoin lefts).
#[local] Abbreviation out' := (mjoin (<[b := left']> lefts)).
#[local] Abbreviation ths' := (<[a := next_turn th]> ths).

Lemma brings_out : out ≡ₚ s :: out'.
Proof using Hb Hl. by eapply join_insert, Hl; apply Hb. Qed.
Lemma brings_rests : mjoin (rest <$> ths) ≡ₚ s0 :: mjoin (rest <$> ths').
Proof using Hb.
  rewrite list_fmap_insert. eapply join_insert; [by rewrite list_lookup_fmap, (br_turn _ _ _ _ _ _ _ _ _ Hb)|].
  by rewrite (rest_next th s0) by apply Hb.
Qed.

Lemma brings_ctx : ∃ c f, ctx_of (conns_of w) (sref conn s) = Some c ∧ free_ctxs <$> pool_of (conns_of w) conn (s_pool s) = Some f ∧
  pool_ok f (s_ix <$> filter (λ t, s_pool t = s_pool s) (s :: out')).
Proof using Hinv Hb Hl.
  destruct Hb as [Ha Hs0 Eb El Hs _]. pose proof (in_local _ _ Hinv b thb left Eb El) as L.
  destruct (proj1 (elem_of_aget _ _) (lo_left _ _ _ L s Hs)) as [i Es]. destruct (lo_ctx _ _ _ L i s Es Hs) as (c & Ec & _).
  exists c. pose proof Ec as Hp. unfold ctx_of in Hp. apply bind_Some in Hp as (p & Ep & _).
  exists (free_ctxs p). cbn in Ep. split; [done|]. cbn [ov_world] in *. assert (free_ctxs <$> pool_of (conns_of w) conn (s_pool s) = Some (free_ctxs p)) as Ef by by rewrite Ep.
  split; [exact Ef|]. eapply pool_ok_perm; [|by apply (sh_pools _ _ _ _ (in_shared _ _ Hinv))]. by rewrite <- brings_out.
Qed.

Lemma brings_distinct t : t ∈ out' → sref conn t ≠ sref conn s.
Proof using Hinv Hb Hl. destruct brings_ctx as (c & f & _ & _ & Hok). by apply (out_distinct f). Qed.

Lemma brings_local j t l : ths' !! j = Some t → <[b := left']> lefts !! j = Some l → local v t l.
Proof using Hcoded Hinv Hb Hl Hh.
  intros Ej El. destruct (turned ths a th j t (br_turn _ _ _ _ _ _ _ _ _ Hb) Ej) as (t0 & Et0 & ->).
  cut (local v t0 l). { intros H. by case_decide; [destruct H; split|]. }
  pose proof Hb as [Ha Hs0 Eb Elb Hs _]. pose proof (lookup_lt_Some _ _ _ Elb) as Hlt.
  pose proof (lefts_at _ _ _ _ _ El Hlt) as Hj.
  assert (∀ x, x ∈ l → sref conn x ≠ sref conn s) as Hne.
  { intros x Hx. apply brings_distinct, list_elem_of_join. exists l. split; [done|]. by eapply list_elem_of_lookup_2. }
  case_decide as Hd.
  - subst j l. assert (t0 = thb) as -> by congruence. eapply home_local; [exact Hh|by apply (in_local _ _ Hinv b)|exact Hl|exact Hne].
  - pose proof (in_local _ _ Hinv j t0 l Et0 Hj) as L. cbn in L. eapply local_other; [exact L|apply Hh|apply Hh|..].
    + intros x Hx. apply Hh. by apply Hne.
    + rewrite (ho_counters _ _ _ _ _ Hh). destruct (mapped s); [|done]. apply list_lookup_insert_ne.
      intros E. apply Hd. eapply (NoDup_lookup (th_cnt <$> ths)); [apply (in_cnts _ _ Hinv)|by rewrite list_lookup_fmap, Et0|].
      by rewrite list_lookup_fmap, Eb, <- E.
    + rewrite (ho_reqs _ _ _ _ _ Hh). destruct (mapped s && _); [|done]. apply list_lookup_insert_ne.
      intros E. apply Hd. eapply (NoDup_lookup (th_req <$> ths)); [apply (in_reqs _ _ Hinv)|by rewrite list_lookup_fmap, Et0|].
      by rewrite list_lookup_fmap, Eb, <- E.
Qed.

Lemma brings_turn j t l : ths' !! j = Some t → <[b := left']> lefts !! j = Some l → in_turn t l.
Proof using Hinv Hb Hl.
  intros Ej El. pose proof Hb as [Ha Hs0 Eb Elb Hs [Hm Hsame]].
  destruct (turned ths a th j t Ha Ej) as (t0 & Et0 & ->).
  pose proof (lefts_at _ _ _ _ _ El (lookup_lt_Some _ _ _ Elb)) as Hj.
  assert (∃ l0, lefts !! j = Some l0 ∧ in_turn t0 l0 ∧ if decide (j = b) then l0 ≡ₚ s :: l else l0 = l) as (l0 & El0 & Hin & Hl0).
  { case_decide; [subst; exists left|exists l]; (split; [done|]); (split; [by apply (in_turns _ _ Hinv _ _ _ Et0)|done]). }
  destruct Hin as [Hn Hu]. split.
  - destruct (decide (j = a)) as [Hd|]; [|done]. subst j. assert (t0 = th) as -> by congruence. cbn.
    pose proof (aget_lt _ _ _ Hs0) as Hlt.
    rewrite (lo_slots _ _ _ (in_local _ _ Hinv a th l0 Ha El0)) in Hlt. lia.
  - assert (filter (λ s, mapped s = false) l0 ≡ₚ
      (if decide (j = b) then filter (λ s, mapped s = false) [s] else []) ++ filter (λ s, mapped s = false) l) as E1.
    { destruct (decide (j = b)); [|by subst]. rewrite Hl0. by rewrite (filter_app _ [s] l). }
    assert (filter (λ s, mapped s = false) (rest t0) =
      (if decide (j = a) then filter (λ s, mapped s = false) [s0] else []) ++
      filter (λ s, mapped s = false) (rest (if decide (j = a) then next_turn t0 else t0))) as E2.
    { destruct (decide (j = a)) as [Hd|]; [|done]. subst j. assert (t0 = th) as -> by congruence.
      rewrite (rest_next th s0 Hs0). apply (filter_app _ [s0]). }
    rewrite E1, E2 in Hu. destruct (mapped s) eqn:Es.
    + rewrite (filter_cons_False (λ s, mapped s = false) s), (filter_cons_False (λ s, mapped s = false) s0) in Hu by congruence.
      rewrite !filter_nil in Hu. repeat case_decide; exact Hu.
    + destruct Hsame as [<- <-]. rewrite (filter_cons_True (λ s, mapped s = false) s), filter_nil in Hu by done.
      case_decide; [|exact Hu]. by apply (Permutation_app_inv_l [s]).
Qed.

Lemma at_server_filter q s1 l : filter (at_server q) (s1 :: l) = (if decide (at_server q s1) then [s1] else []) ++ filter (at_server q) l.
Proof. case_decide; [by rewrite filter_cons_True|by rewrite filter_cons_False]. Qed.

Lemma brings_shared : shared v net out' (mjoin (rest <$> ths')).
Proof using Hcoded Hinv Hb Hl Hh.
  pose proof Hb as [Ha Hs0 Eb Elb Hs [Hm Hsame]]. destruct (in_shared _ _ Hinv) as [Hpools Hctxs Hqs Hnet Hturns]. cbn in Hpools, Hctxs, Hqs, Hnet, Hturns.
  destruct brings_ctx as (c & f & Ec & Ef & Hok). destruct (pool_insert_ok f _ (s_ix <$> filter (λ t, s_pool t = s_pool s) out') (s_ix s) Hok) as (p & Ep & Hp).
  { by rewrite (filter_cons_True (λ t, s_pool t = s_pool s)). }
  assert (∀ q, free_ctxs <$> pool_of (conns_of v) conn q = if decide (q = s_pool s) then Some p else free_ctxs <$> pool_of (conns_of w) conn q) as Hfree.
  { intros q. rewrite (ho_free _ _ _ _ _ Hh). case_decide as Hd; [|done]. rewrite Hd, Ef. exact Ep. }
  split.
  - eapply pools_home; [exact brings_out|exact Ef|exact Ep|exact Hpools|exact Hfree].
  - intros q g ix Eg Hix. assert (∃ g', free_ctxs <$> pool_of (conns_of w) conn q = Some g') as [g' Eg'].
    { rewrite Hfree in Eg. case_decide as Hd; [rewrite Hd; by exists f|by exists g]. }
    destruct (Hctxs q g' ix Eg' Hix) as (x & Ex & Hx1 & Hx2). set (r := {| rf_conn := conn; rf_pool := q; rf_ix := ix |}) in *.
    destruct (decide (r = sref conn s)) as [E|Hne].
    + rewrite E in Ex |- *. destruct (ho_ctx _ _ _ _ _ Hh x Ex) as (x' & Ex' & Hb' & Hc').
      exists x'. by rewrite Hb', Hc'.
    + exists x. by rewrite (ho_others _ _ _ _ _ Hh).
  - intros q l Eq. destruct (ho_queues _ _ _ _ _ Hh q l Eq) as (l0 & El0 & Hl0). destruct (Hqs q l0 El0) as (rs & Ers & Hrs).
    rewrite brings_out, at_server_filter in Hrs. destruct (decide (at_server q s)) as [Hd|Hd].
    + rewrite Ers in Hl0. destruct rs as [|r rs]; [done|]. injection Hl0 as Er El. rewrite Er in Hrs. exists rs. split; [done|]. cbn in Hrs.
      by apply (Permutation_app_inv_l [sref conn s]).
    + exists rs. split; [congruence|exact Hrs].
  - intros r Hr. by apply (ho_serve _ _ _ _ _ Hh), Hnet.
  - intros q. pose proof (Hturns q) as Hq. rewrite brings_out, brings_rests, !at_server_filter, !length_app in Hq.
    assert (at_server q s ↔ at_server q s0) as Hiff.
    { unfold at_server. rewrite <- Hm. destruct (mapped s); [by rewrite Hsame|by split; intros [? _]]. }
    destruct (decide (at_server q s)), (decide (at_server q s0)); try (exfalso; tauto); cbn in Hq; lia.
Qed.

Lemma brings_inv : inv {| ov_world := v; ov_net := net; ov_threads := ths' |} (<[b := left']> lefts).
Proof using Hcoded Hinv Hb Hl Hh.
  pose proof (br_turn _ _ _ _ _ _ _ _ _ Hb) as Ha. split; cbn.
  - rewrite !length_insert. apply (in_len _ _ Hinv).
  - rewrite (next_turn_fmap th_req) by done. apply (in_reqs _ _ Hinv).
  - rewrite (next_turn_fmap th_cnt) by done. apply (in_cnts _ _ Hinv).
  - intros j t l. apply brings_local.
  - intros j t l. apply brings_turn.
  - apply brings_shared.
Qed.
End brings.

(** ** A turn *)

Section turn.
Context (w : world) (net : list ctx_ref) (ths : list thread) (lefts : list (list slot)) (a : nat) (th : thread) (s0 : slot).
Context (Hinv : inv {| ov_world := w; ov_net := net; ov_threads := ths |} lefts).
Context (Ha : ths !! a = Some th) (Hs0 : aget (th_slots th) (th_next th) = Some s0).

Lemma left_of b thb : ths !! b = Some thb → ∃ left, lefts !! b = Some left.
Proof using Hinv.
  intros Eb. apply lookup_lt_Some in Eb. pose proof (in_len _ _ Hinv) as Hl. cbn in Hl. rewrite <- Hl in Eb.
  by apply lookup_lt_is_Some.
Qed.

Lemma turn_of_Ret : turn_of th w =
  if mapped s0 then rdma_cq_event_handler cfg post_ret (s_pool s0) w else IS_insert_ctx (sref conn s0) w.
Proof using Hinv Ha Hs0.
  destruct (left_of a th Ha) as [left El]. pose proof (in_local _ _ Hinv a th left Ha El) as L.
  unfold turn_of, turn. erewrite M_bind_Ret by (by apply the_target_Ret).
  rewrite (unmapped_target (th_slots th) (th_next th) s0) by (exact (lo_placed _ _ _ L) || exact Hs0).
  unfold mapped. destruct (s_disk s0) as [[ci ck]|] eqn:Ed; cbn [negb].
  - unfold target_of. rewrite Ed. by erewrite M_bind_Ret by done.
  - erewrite M_bind_Ret by (unfold lift; by rewrite (aget_refs_Some conn (th_slots th) (th_next th) s0)).
    by erewrite M_bind_Ret by done.
Qed.

(** The context of a disk on no server. *)
Lemma turn_unused : mapped s0 = false → ∃ v lefts', turn_of th w = Ret ((), v) ∧
  inv {| ov_world := v; ov_net := net; ov_threads := <[a := next_turn th]> ths |} lefts'.
Proof using Hcoded Hinv Ha Hs0.
  intros Hm. destruct (left_of a th Ha) as [left El]. rewrite turn_of_Ret, Hm.
  assert (s0 ∈ left) as Hs.
  { enough (s0 ∈ filter (λ s, mapped s = false) left) as [_ H]%list_elem_of_filter by done.
    rewrite (it_unused _ _ (in_turns _ _ Hinv a th left Ha El)), (rest_next th s0 Hs0).
    apply list_elem_of_filter. split; [done|by left]. }
  apply elem_of_Permutation in Hs as Hp. destruct Hp as [left' Hl].
  assert (brings ths lefts a th s0 a th left s0) as Hb by (split; try done; rewrite Hm; done).
  destruct (brings_ctx w net ths lefts a th s0 a th left s0 left' Hinv Hb Hl) as (c & f & Ec & Ef & Hok).
  rewrite (filter_cons_True (λ t, s_pool t = s_pool s0)) in Hok by done.
  destruct (IS_insert_ctx_Ret w (sref conn s0) f c Ec Ef (pool_ok_room _ _ _ Hok)) as (cs & E & [P1 P2]).
  exists (with_conns w cs), (<[a := left']> lefts). split; [exact E|]. eapply brings_inv; [exact Hinv|exact Hb|exact Hl|].
  split; rewrite ?Hm; try done.
  - intros x Ex. exists x. by rewrite conns_of_with, P1.
  - intros q. rewrite conns_of_with, P2. cbn. destruct (decide (q = s_pool s0)) as [->|]; [by rewrite decide_True|].
    by rewrite decide_False by (by intros [_ ?]).
  - intros q l Eq. exists l. split; [exact Eq|]. by rewrite decide_False by (intros [? _]; congruence).
Qed.

(** The completion of a write, of this processor or another. *)
Lemma turn_completion r rs l :
  mapped s0 = true → aget (cqs w) (s_pool s0) = Some l → omap id l = write_wc <$> (r :: rs) →
  (r :: rs) ++ filter (λ r, rf_pool r = s_pool s0) net ≡ₚ sref conn <$> filter (at_server (s_pool s0)) (mjoin lefts) →
  ∃ v lefts', turn_of th w = Ret ((), v) ∧
    inv {| ov_world := v; ov_net := net; ov_threads := <[a := next_turn th]> ths |} lefts'.
Proof using Hcoded Hinv Ha Hs0.
  intros Hm El Er Hq. destruct (left_of a th Ha) as [lefta Ela].
  destruct (lo_serving _ _ _ (in_local _ _ Hinv a th lefta Ha Ela) s0) as [Hu _]; [by eapply aget_elem|done|].
  assert (r ∈ sref conn <$> filter (at_server (s_pool s0)) (mjoin lefts)) as Hr by (rewrite <- Hq; by left).
  apply list_elem_of_fmap in Hr as (s & -> & [[Hms Hps] Hs]%list_elem_of_filter).
  apply elem_of_join_at in Hs as (b & left & Elb & Hs).
  assert (∃ thb, ths !! b = Some thb) as [thb Eb].
  { apply lookup_lt_is_Some. pose proof (in_len _ _ Hinv) as Hl. cbn in Hl. rewrite <- Hl. by eapply lookup_lt_Some. }
  apply elem_of_Permutation in Hs as Hp. destruct Hp as [left' Hl].
  assert (brings ths lefts a th s0 b thb left s) as Hb by (split; try done; rewrite Hms, Hm; done).
  destruct (brings_ctx w net ths lefts a th s0 b thb left s left' Hinv Hb Hl) as (c & f & Ec & Ef & Hok).
  rewrite (filter_cons_True (λ t, s_pool t = s_pool s)) in Hok by done.
  pose proof (in_local _ _ Hinv b thb left Eb Elb) as L. cbn in L.
  destruct (proj1 (elem_of_aget _ _) (lo_left _ _ _ L s Hs)) as [i Es].
  destruct (lo_ctx _ _ _ L i s Es Hs) as (c' & Ec' & Hc). assert (c' = c) as -> by congruence.
  destruct (Hc Hms) as (Hreq & Hcnt & _). apply omap_first in Er as (k & q & -> & Eq).
  destruct (write_polled cfg post_ret (s_pool s0) (sref conn s) k q w Hu El) as (l' & El' & Hl' & Hev).
  set (w1 := w <| cqs := l' |>) in Hev.
  destruct (client_write_done_Ret (sref conn s) c f (th_req thb) (th_cnt thb) (NDATAS cfg - done_of thb left) _ w1
    Ec Hreq Hcnt (lo_counter _ _ _ L) (lo_req _ _ _ L) Ef (pool_ok_room _ _ _ Hok)) as (cs & E & P1 & P2).
  eexists _, (<[b := left']> lefts). rewrite turn_of_Ret, Hm. split; [exact (Hev _ E)|].
  eapply brings_inv; [exact Hinv|exact Hb|exact Hl|]. change (conns_of w1) with (conns_of w) in P1, P2.
  split; rewrite ?Hms; cbn [andb].
  - intros x Hx. rewrite conns_of_with, P1. by rewrite decide_False.
  - intros x Ex. exists (finished x). rewrite conns_of_with, P1, decide_True, Ex by done. done.
  - intros p. rewrite conns_of_with, P2. cbn. destruct (decide (p = s_pool s)) as [->|]; [by rewrite decide_True|].
    by rewrite decide_False by (by intros [_ ?]).
  - done.
  - done.
  - cbn. destruct (Z.eqb_spec (NDATAS cfg - done_of thb left - 1) 0); [|done]. by rewrite decide_False by lia.
  - intros p lp Ep. cbn in Ep. destruct (decide (p = s_pool s0)) as [->|Hne].
    + rewrite El' in Ep. injection Ep as <-. eexists. split; [exact El|]. rewrite decide_True by done.
      by rewrite omap_app, omap_nones.
    + exists lp. rewrite <- Hl' by done. split; [exact Ep|]. rewrite decide_False; [done|]. intros [_ ?]. congruence.
  - intros p [x Ex]. cbn. destruct (decide (p = s_pool s0)) as [->|]; [by rewrite El'|]. rewrite Hl' by done. by rewrite Ex.
Qed.

(** A turn runs, unless a write that it waits for is still on the network. *)
Lemma turn_runs :
  (∃ v lefts', turn_of th w = Ret ((), v) ∧
     inv {| ov_world := v; ov_net := net; ov_threads := <[a := next_turn th]> ths |} lefts') ∨
  (turn_of th w = Wait ∧ ∃ r, r ∈ net ∧ is_Some (aget (cqs w) (rf_pool r))).
Proof using Hcoded Hinv Ha Hs0.
  destruct (mapped s0) eqn:Hm; [|left; by apply turn_unused]. destruct (left_of a th Ha) as [lefta Ela].
  destruct (lo_serving _ _ _ (in_local _ _ Hinv a th lefta Ha Ela) s0) as [Hu [l El]]; [by eapply aget_elem|done|]. cbn in Hu, El.
  destruct (sh_queues _ _ _ _ (in_shared _ _ Hinv) _ l El) as (rs & Er & Hq). cbn in Hq.
  destruct rs as [|r rs]; [right|left; by eapply turn_completion]. split.
  - rewrite turn_of_Ret, Hm. apply omap_none in Er. rewrite Er in El. by eapply handler_empty.
  - pose proof (sh_turns _ _ _ _ (in_shared _ _ Hinv) (s_pool s0)) as Hn. cbn in Hn.
    assert (s0 ∈ filter (at_server (s_pool s0)) (mjoin (rest <$> ths))) as Hin.
    { apply list_elem_of_filter. split; [done|]. apply list_elem_of_join. exists (rest th).
      split; [rewrite (rest_next th s0 Hs0); by left|]. apply list_elem_of_fmap. exists th. split; [done|]. by eapply list_elem_of_lookup_2. }
    destruct (filter (λ r, rf_pool r = s_pool s0) net) as [|r rs] eqn:En.
    { apply Permutation_nil_l in Hq. symmetry in Hq. apply fmap_nil_inv in Hq. rewrite Hq in Hn.
      symmetry in Hn. apply nil_length_inv in Hn. rewrite Hn in Hin. by apply elem_of_nil in Hin. }
    assert (r ∈ filter (λ r, rf_pool r = s_pool s0) net) as [Hr Hrn]%list_elem_of_filter by (rewrite En; by left).
    exists r. split; [done|]. rewrite Hr, El. by eexists.
Qed.
End turn.

(** ** A start *)

Lemma no_pool_slot ss q : q ∉ s_pool <$> ss → filter (λ t, s_pool t = q) ss = [].
Proof.
  intros Hq. induction ss as [|t ss IH]; [done|]. cbn in Hq. apply not_elem_of_cons in Hq as [Ht Hq].
  rewrite filter_cons_False by congruence. by apply IH.
Qed.
Lemma pool_slot ss s : NoDup (s_pool <$> ss) → s ∈ ss → filter (λ t, s_pool t = s_pool s) ss = [s].
Proof.
  induction ss as [|t ss IH]; intros Hnd Hs; [by apply elem_of_nil in Hs|]. cbn in Hnd. apply NoDup_cons in Hnd as [Ht Hnd].
  apply elem_of_cons in Hs as [->|Hs].
  - rewrite filter_cons_True by done. f_equal. by apply no_pool_slot.
  - rewrite filter_cons_False; [by apply IH|]. intros E. apply Ht. rewrite E. apply list_elem_of_fmap. by exists s.
Qed.

Lemma sends_writes ss offset len :
  sends (mjoin (option_list <$> write_posts conn ss offset len)) = sref conn <$> filter (λ s, mapped s = true) ss.
Proof.
  induction ss as [|s ss IH]; [done|]. set (x := disk_post WR_RDMA_WRITE conn offset len s).
  change (sends (mjoin (option_list <$> write_posts conn (s :: ss) offset len)))
    with (sends (option_list x ++ mjoin (option_list <$> write_posts conn ss offset len))).
  unfold sends in *. rewrite omap_app, IH. subst x. unfold disk_post. destruct (s_disk s) as [d|] eqn:Ed.
  - by rewrite filter_cons_True by (unfold mapped; by rewrite Ed).
  - by rewrite filter_cons_False by (unfold mapped; by rewrite Ed).
Qed.

Lemma filter_at_server q (l : list slot) : filter (λ r, rf_pool r = q) (sref conn <$> filter (λ s, mapped s = true) l) = sref conn <$> filter (at_server q) l.
Proof.
  induction l as [|s l IH]; [done|]. rewrite at_server_filter. destruct (decide (mapped s = true)) as [Hm|Hm].
  - rewrite (filter_cons_True (λ s, mapped s = true)) by done. cbn [fmap list_fmap]. destruct (decide (s_pool s = q)) as [Hp|Hp].
    + rewrite filter_cons_True by done. rewrite decide_True by done. cbn. f_equal. exact IH.
    + rewrite filter_cons_False by done. rewrite decide_False by (by intros [_ ?]). exact IH.
  - rewrite (filter_cons_False (λ s, mapped s = true)) by done. rewrite decide_False by (by intros [? _]). exact IH.
Qed.

Section start.
Context (w : world) (net : list ctx_ref) (ths : list thread) (lefts : list (list slot)).
Context (ss : list slot) (req : nat) (rq : request) (page : list byte) (offset : Z).
Context (Hinv : inv {| ov_world := w; ov_net := net; ov_threads := ths |} lefts).
Context (Hpl : placed ss) (Hlen : alen ss = NDISKS cfg) (Hpage : alen page = IS_PAGE_SIZE).
Context (Hreq : reqs w !! req = Some rq) (Hbio : rq_bio rq = [[page]]) (Hconn : conn_id rq = conn) (Hnew : req ∉ th_req <$> ths).
Context (Htop : ∀ s, s ∈ ss → top_free (conns_of w) conn (s_pool s) (s_ix s)).
Context (Hserv : ∀ s, s ∈ ss → mapped s = true → serving w (s_pool s)).

#[local] Abbreviation new := {| th_req := req; th_cnt := length (counters w); th_rq := rq; th_page := page; th_slots := ss; th_next := 0 |}.

(** The free list of a slot's pool: its top is the context the slot takes. *)
Lemma start_top s : s ∈ ss → ∃ f, free_ctxs <$> pool_of (conns_of w) conn (s_pool s) = Some f ∧
  pool_ok (pop f) (s_ix s :: (s_ix <$> filter (λ t, s_pool t = s_pool s) (mjoin lefts))).
Proof using Hinv Htop.
  intros Hs. destruct (Htop s Hs) as (f & Ef & Ht & Ei). exists f. split; [done|]. apply pool_ok_pop; [|done..].
  by apply (sh_pools _ _ _ _ (in_shared _ _ Hinv)).
Qed.

Lemma start_ready s : s ∈ ss → ready cfg (conns_of w) conn s.
Proof using Hinv Htop.
  intros Hs. split; [by apply Htop|]. destruct (start_top s Hs) as (f & Ef & Hok).
  apply (sh_ctxs _ _ _ _ (in_shared _ _ Hinv) (s_pool s) f); [done|]. apply pool_ok_NoDup in Hok as [_ Hr]. apply Hr. by left.
Qed.

(** What the new processor takes is not out. *)
Lemma start_fresh s t : s ∈ ss → t ∈ mjoin lefts → sref conn t ≠ sref conn s.
Proof using Hinv Htop.
  intros Hs Ht. destruct (start_top s Hs) as (f & _ & Hok). eapply (out_distinct (pop f)); [|exact Ht].
  by rewrite (filter_cons_True (λ t, s_pool t = s_pool s)).
Qed.

Lemma start_local cs t l j v :
  v = with_conns (w <| counters := counters w ++ [NDATAS cfg] |>
        <| posted := posted w ++ mjoin (option_list <$> write_posts conn ss (offset / NDATAS cfg) (cb_size cfg)) |>) cs →
  (∀ i s, aget ss i = Some s → ∃ c, ctx_of (conns_of w) (sref conn s) = Some c ∧
     ctx_of cs (sref conn s) = Some (sent_ctx cfg enc ss req (length (counters w)) offset page i c)) →
  (∀ r, r ∉ sref conn <$> ss → ctx_of cs r = ctx_of (conns_of w) r) →
  (ths ++ [new]) !! j = Some t → (lefts ++ [ss]) !! j = Some l → local v t l.
Proof using All.
  intros -> Hctx Hoth Et El. pose proof (in_len _ _ Hinv) as Hll. cbn in Hll.
  destruct (decide (j < length ths)%nat) as [Hj|Hj].
  - rewrite lookup_app_l in Et by done. rewrite lookup_app_l in El by (rewrite Hll; done).
    pose proof (in_local _ _ Hinv j t l Et El) as L. cbn in L. eapply local_other; [exact L|done|done|..].
    + intros s Hs. rewrite conns_of_with. apply Hoth. intros (x & Ex & Hx)%list_elem_of_fmap. revert Ex. apply start_fresh; [done|].
      apply list_elem_of_join. exists l. split; [done|]. by eapply list_elem_of_lookup_2.
    + cbn. apply lookup_app_l. eapply lookup_lt_Some, (lo_counter _ _ _ L).
    + done.
  - rewrite lookup_app_r in Et by lia. rewrite lookup_app_r in El by lia. rewrite Hll in El.
    destruct (j - length ths)%nat as [|n]; [|by destruct n]. injection Et as <-. injection El as <-. pose proof (cd_splits _ _ Hcoded).
    assert (done_of new ss = 0) as Hd by (unfold done_of; cbn; lia). split; rewrite ?Hd; cbn; try done.
    + apply (NoDup_fmap_1 s_pool), (pl_pools _ Hpl).
    + intros i s Es Hs. destruct (Hctx i s Es) as (c & _ & Ec). eexists. split; [exact Ec|]. intros Hm.
      unfold sent_ctx, prepared. rewrite Es. unfold mapped in Hm. destruct s as [p ix [[ci ck]|]]; [|done]. by split_and!.
    + rewrite lookup_app_r by lia. rewrite Nat.sub_diag. cbn. f_equal. lia.
    + by rewrite decide_False by lia.
Qed.
Lemma join_snoc {A} (ls : list (list A)) (l : list A) : mjoin (ls ++ [l]) = mjoin ls ++ l.
Proof. rewrite join_app. cbn. by rewrite app_nil_r. Qed.

Lemma start_shared cs v :
  v = with_conns (w <| counters := counters w ++ [NDATAS cfg] |>
        <| posted := posted w ++ mjoin (option_list <$> write_posts conn ss (offset / NDATAS cfg) (cb_size cfg)) |>) cs →
  (∀ i s, aget ss i = Some s → ∃ c, ctx_of (conns_of w) (sref conn s) = Some c ∧
     ctx_of cs (sref conn s) = Some (sent_ctx cfg enc ss req (length (counters w)) offset page i c)) →
  (∀ s, s ∈ ss → free_ctxs <$> pool_of cs conn (s_pool s) = pop <$> (free_ctxs <$> pool_of (conns_of w) conn (s_pool s))) →
  (∀ r, r ∉ sref conn <$> ss → ctx_of cs r = ctx_of (conns_of w) r) →
  (∀ q, q ∉ s_pool <$> ss → free_ctxs <$> pool_of cs conn q = free_ctxs <$> pool_of (conns_of w) conn q) →
  shared v (net ++ sends (drop (length (posted w)) (posted v))) (mjoin (lefts ++ [ss])) (mjoin (rest <$> (ths ++ [new]))).
Proof using All.
  intros -> Hctx Hfree Hoth Hpools'. destruct (in_shared _ _ Hinv) as [Hpools Hctxs Hqs Hnet Hturns]. cbn in Hpools, Hctxs, Hqs, Hnet, Hturns.
  pose proof (pl_pools _ Hpl) as Hnd.
  replace (sends _) with (sref conn <$> filter (λ s, mapped s = true) ss).
  2: { cbn. rewrite drop_app_length. by rewrite sends_writes. }
  rewrite join_snoc, fmap_app. cbn [fmap list_fmap]. rewrite join_snoc. change (rest new) with ss. split.
  - intros q f. rewrite conns_of_with, filter_app, fmap_app. intros Ef. destruct (decide (q ∈ s_pool <$> ss)) as [Hq|Hq].
    + apply list_elem_of_fmap in Hq as (s & -> & Hs). rewrite (pool_slot ss s) by done. destruct (start_top s Hs) as (g & Eg & Hok).
      rewrite Hfree, Eg in Ef by done. injection Ef as <-. eapply pool_ok_perm; [|exact Hok]. apply Permutation_cons_append.
    + rewrite (no_pool_slot ss q) by done. rewrite app_nil_r. apply Hpools. by rewrite <- Hpools'.
  - intros q f ix. rewrite conns_of_with. intros Ef Hix. set (r := {| rf_conn := conn; rf_pool := q; rf_ix := ix |}).
    assert (∃ g, free_ctxs <$> pool_of (conns_of w) conn q = Some g) as [g Eg].
    { destruct (decide (q ∈ s_pool <$> ss)) as [Hq|Hq]; [|exists f; by rewrite <- Hpools'].
      apply list_elem_of_fmap in Hq as (s & -> & Hs). destruct (start_top s Hs) as (g & Eg & _). by exists g. }
    destruct (Hctxs q g ix Eg Hix) as (c & Ec & Hc1 & Hc2). fold r in Ec. destruct (decide (r ∈ sref conn <$> ss)) as [Hr|Hr].
    + apply list_elem_of_fmap in Hr as (s & Er & [i Es]%elem_of_aget). rewrite Er in Ec |- *.
      destruct (Hctx i s Es) as (c' & Ec' & ->). assert (c' = c) as -> by congruence. eexists. split; [done|]. cbn.
      split; [apply (alen_stripe cfg enc Hcoded)|]. unfold sent_ctx, prepared. rewrite Es. by destruct s as [p y [[ci ck]|]].
    + exists c. by rewrite Hoth.
  - intros q l El. destruct (Hqs q l El) as (rs & Ers & Hrs). exists rs. split; [done|].
    rewrite !filter_app, filter_at_server, fmap_app, (assoc_L (++)). by rewrite Hrs.
  - intros r [Hr|(s & -> & [Hm Hs]%list_elem_of_filter)%list_elem_of_fmap]%elem_of_app; [by apply Hnet|]. by apply Hserv.
  - intros q. rewrite !filter_app, !length_app, Hturns. done.
Qed.

Lemma start_inv l v :
  start_write cfg post_ret (target_of <$> ss) offset IS_PAGE_SIZE req w = Ret (l, inl (), v) →
  inv {| ov_world := v; ov_net := net ++ sends (drop (length (posted w)) (posted v)); ov_threads := ths ++ [new] |} (lefts ++ [ss]).
Proof using All.
  intros E. destruct (start_write_Ret cfg post_ret enc Hcoded Hpost conn ss Hpl Hlen offset req rq page w Hpage Hreq Hbio Hconn start_ready)
    as (cs & E' & Hctx & Hfree & Hoth & Hpools).
  rewrite E' in E. injection E as <- <-. pose proof (in_len _ _ Hinv) as Hll. cbn in Hll. split; cbn [ov_world ov_net ov_threads].
  - rewrite !length_app, Hll. done.
  - rewrite fmap_app. apply NoDup_app. split_and!; [apply (in_reqs _ _ Hinv)| |apply NoDup_singleton].
    intros x Hx Hx'%list_elem_of_singleton. by subst x.
  - rewrite fmap_app. apply NoDup_app. split_and!; [apply (in_cnts _ _ Hinv)| |apply NoDup_singleton].
    intros x (t & -> & [j Et]%list_elem_of_lookup)%list_elem_of_fmap Hx%list_elem_of_singleton. cbn in Hx.
    destruct (lookup_lt_is_Some_2 lefts j) as [left El]; [rewrite Hll; by eapply lookup_lt_Some|].
    pose proof (lookup_lt_Some _ _ _ (lo_counter _ _ _ (in_local _ _ Hinv j t left Et El))). cbn in *. lia.
  - intros j t left Et El. by eapply (start_local cs).
  - intros j t left Et El. destruct (decide (j < length ths)%nat) as [Hj|Hj].
    + rewrite lookup_app_l in Et by done. rewrite lookup_app_l in El by (rewrite Hll; done). by apply (in_turns _ _ Hinv j).
    + rewrite lookup_app_r in Et by lia. rewrite lookup_app_r in El by lia. rewrite Hll in El.
      destruct (j - length ths)%nat as [|n]; [|by destruct n]. injection Et as <-. injection El as <-.
      split; cbn; [unfold alen in Hlen; lia|done].
  - by eapply (start_shared cs).
Qed.
End start.

Lemma inv_starts st st' lefts : inv st lefts → starts st st' → ∃ lefts', inv st' lefts'.
Proof using Hcoded Hpost. intros Hinv Hs. destruct Hs as [w net ths ss req rq page offset l v]. eexists. by eapply start_inv. Qed.

Lemma inv_advances st st' lefts : inv st lefts → advances st st' → ∃ lefts', inv st' lefts'.
Proof using Hcoded Hpost.
  intros Hinv Hs. destruct Hs as [w net ths a th v Ha Hn E|w net1 r net2 ths l n Eq]; [|eexists; by eapply complete_inv].
  assert (∃ left, lefts !! a = Some left) as [left El] by by eapply left_of.
  pose proof (lo_slots _ _ _ (in_local _ _ Hinv a th left Ha El)) as Hl.
  destruct (proj2 (aget_is_Some (th_slots th) (th_next th))) as [s0 Hs0].
  { pose proof (it_next _ _ (in_turns _ _ Hinv a th left Ha El)). lia. }
  destruct (turn_runs w net ths lefts a th s0 Hinv Ha Hs0) as [(v' & lefts' & E' & Hinv')|[E' _]]; [|congruence].
  exists lefts'. by replace v with v' by congruence.
Qed.

(** * What it gives *)

(** Before any request: every context is home, every queue is empty. *)
Record quiet (w : world) : Prop := {
  qt_pools : ∀ q f, free_ctxs <$> pool_of (conns_of w) conn q = Some f → pool_ok f [];
  qt_ctxs : ∀ q f ix, free_ctxs <$> pool_of (conns_of w) conn q = Some f → 0 <= ix < IS_QUEUE_DEPTH →
    ∃ c, ctx_of (conns_of w) {| rf_conn := conn; rf_pool := q; rf_ix := ix |} = Some c ∧
      alen (rdma_buf c) = cb_size cfg ∧ alen (ctxs c) = NDISKS cfg;
  qt_queues : ∀ q l, aget (cqs w) q = Some l → omap id l = []
}.
Definition idle (w : world) : overlap := {| ov_world := w; ov_net := []; ov_threads := [] |}.
(** Processors start and advance in any order. *)
Definition overlaps : overlap → overlap → Prop := rtc (λ a b, starts a b ∨ advances a b).
Definition all_done (st : overlap) : Prop := ∀ th, th ∈ ov_threads st → th_next th = NDISKS cfg.

Lemma inv_idle w : quiet w → inv (idle w) [].
Proof.
  intros [H1 H2 H3]. split; cbn; [done|constructor|constructor|done|done|]. split; cbn; [exact H1|exact H2| | |done].
  2: { intros r Hr. by apply elem_of_nil in Hr. }
  intros q l El. exists []. split; [by eapply H3|done].
Qed.
Lemma inv_overlaps st st' lefts : inv st lefts → overlaps st st' → ∃ lefts', inv st' lefts'.
Proof using Hcoded Hpost.
  intros Hinv Hr. revert lefts Hinv. induction Hr as [st|st st1 st2 Hs Hr IH]; intros lefts Hinv; [by exists lefts|].
  destruct Hs as [Hs|Hs]; [eapply inv_starts in Hs as [l1 Hl]; [|done]|eapply inv_advances in Hs as [l1 Hl]; [|done]]; by eapply IH.
Qed.
Lemma overlaps_inv w st : quiet w → overlaps (idle w) st → ∃ lefts, inv st lefts.
Proof using Hcoded Hpost. intros Hq. eapply inv_overlaps. by apply inv_idle. Qed.

Lemma inv_thread st lefts a th : inv st lefts → ov_threads st !! a = Some th → ∃ left, lefts !! a = Some left.
Proof. intros Hinv Ha. apply lookup_lt_is_Some. rewrite (in_len _ _ Hinv). by eapply lookup_lt_Some. Qed.
Lemma inv_left st lefts a left : inv st lefts → lefts !! a = Some left → ∃ th, ov_threads st !! a = Some th.
Proof. intros Hinv Ha. apply lookup_lt_is_Some. rewrite <- (in_len _ _ Hinv). by eapply lookup_lt_Some. Qed.

(** ** No processor waits for ever *)

Lemma inv_progress st lefts th : inv st lefts → th ∈ ov_threads st → th_next th ≠ NDISKS cfg → ∃ st', advances st st'.
Proof using Hcoded.
  intros Hinv [a Ha]%list_elem_of_lookup Hn. destruct st as [w net ths]. cbn in Ha.
  destruct (inv_thread _ _ _ _ Hinv Ha) as [left El]. pose proof (lo_slots _ _ _ (in_local _ _ Hinv a th left Ha El)) as Hl.
  pose proof (it_next _ _ (in_turns _ _ Hinv a th left Ha El)) as Hr.
  destruct (proj2 (aget_is_Some (th_slots th) (th_next th))) as [s0 Hs0]; [lia|].
  destruct (turn_runs w net ths lefts a th s0 Hinv Ha Hs0) as [(v & lefts' & E & _)|(_ & r & Hr' & [l Eq])].
  - eexists. eapply advances_turn; [exact Ha|lia|exact E].
  - apply list_elem_of_split in Hr' as (net1 & net2 & ->). eexists. by apply (advances_complete _ _ _ _ _ l 0).
Qed.

(** Every step is one completion less on the network, or one turn less to make. *)
Definition to_go (st : overlap) : nat := (length (ov_net st) + length (mjoin (rest <$> ov_threads st)))%nat.

Lemma advances_to_go st st' lefts : inv st lefts → advances st st' → (to_go st' < to_go st)%nat.
Proof.
  intros Hinv Hs. destruct Hs as [w net ths a th v Ha Hn E|w net1 r net2 ths l n Eq]; unfold to_go; cbn.
  - destruct (inv_thread _ _ _ _ Hinv Ha) as [left El]. pose proof (lo_slots _ _ _ (in_local _ _ Hinv a th left Ha El)) as Hl.
    pose proof (it_next _ _ (in_turns _ _ Hinv a th left Ha El)) as Hr.
    destruct (proj2 (aget_is_Some (th_slots th) (th_next th))) as [s0 Hs0]; [lia|].
    assert (mjoin (rest <$> ths) ≡ₚ s0 :: mjoin (rest <$> <[a := next_turn th]> ths)) as ->; [|cbn; lia].
    rewrite list_fmap_insert. eapply join_insert; [by rewrite list_lookup_fmap, Ha|]. by rewrite (rest_next th s0).
  - rewrite !length_app. cbn. lia.
Qed.

Lemma inv_finishes st lefts : inv st lefts → ∃ st', rtc advances st st' ∧ all_done st'.
Proof using Hcoded Hpost.
  remember (to_go st) as n eqn:En. revert st lefts En. induction (lt_wf n) as [n _ IH]. intros st lefts En Hinv. subst n.
  destruct (decide (Forall (λ th, th_next th = NDISKS cfg) (ov_threads st))) as [Hd|Hd].
  - exists st. split; [done|]. intros th. by apply (proj1 (Forall_forall _ _) Hd).
  - apply not_Forall_Exists in Hd; [|apply _]. apply Exists_exists in Hd as (th & Hth & Hn).
    destruct (inv_progress st lefts th Hinv Hth Hn) as [st1 Hs]. destruct (inv_advances _ _ _ Hinv Hs) as [lefts1 Hinv1].
    destruct (IH _ (advances_to_go _ _ _ Hinv Hs) st1 lefts1) as (st' & Hr & Hd); [done..|]. exists st'. split; [by econstructor|done].
Qed.

(** ** When all have finished *)

Lemma inv_done st lefts : inv st lefts → all_done st → mjoin lefts = [] ∧ ov_net st = [].
Proof.
  intros Hinv Hd. assert (∀ th a left, ov_threads st !! a = Some th → lefts !! a = Some left → rest th = []) as Hrest.
  { intros th a left Ea El. unfold rest. apply drop_ge. pose proof (lo_slots _ _ _ (in_local _ _ Hinv a th left Ea El)) as Hl.
    rewrite (Hd th) by (by eapply list_elem_of_lookup_2). unfold alen in Hl. lia. }
  assert (mjoin (rest <$> ov_threads st) = []) as Hr.
  { destruct (mjoin _) as [|s l] eqn:E; [done|]. assert (s ∈ mjoin (rest <$> ov_threads st)) as Hs by (rewrite E; by left).
    apply list_elem_of_join in Hs as (l1 & Hs & (th & -> & [a Ea]%list_elem_of_lookup)%list_elem_of_fmap).
    destruct (inv_thread _ _ _ _ Hinv Ea) as [left El]. rewrite (Hrest th a left Ea El) in Hs. by apply elem_of_nil in Hs. }
  destruct (in_shared _ _ Hinv) as [_ _ Hqs Hnet Hturns]. rewrite Hr in Hturns.
  assert (mjoin lefts = []) as Hout.
  { destruct (mjoin lefts) as [|s l] eqn:E; [done|]. assert (s ∈ mjoin lefts) as Hs by (rewrite E; by left).
    destruct (mapped s) eqn:Hm.
    - specialize (Hturns (s_pool s)). rewrite at_server_filter, decide_True in Hturns by done. cbn in Hturns. lia.
    - apply elem_of_join_at in Hs as (a & left & El & Hs). destruct (inv_left _ _ _ _ Hinv El) as [th Ea].
      assert (s ∈ filter (λ s, mapped s = false) left) as Hf by (by apply list_elem_of_filter).
      rewrite (it_unused _ _ (in_turns _ _ Hinv a th left Ea El)), (Hrest th a left Ea El) in Hf. by apply elem_of_nil in Hf. }
  split; [done|]. destruct (ov_net st) as [|r net] eqn:En; [done|]. destruct (Hnet r) as [l El]; [by left|].
  destruct (Hqs _ l El) as (rs & _ & Hp). rewrite Hout, filter_cons_True in Hp by done. cbn in Hp.
  apply Permutation_nil_r, app_eq_nil in Hp as [_ Hp]. discriminate Hp.
Qed.

(** C8: Writes that overlap do not disturb each other: in every state that processors can get
    to, whichever way their starts, their turns and the network interleave,
    - the context of a write that is still on the network is held by one request only, and
      its buffer holds that request's line of its disk, so that the adapter sends the right
      bytes whenever it reads them;
    - each request has been ended once if at least [NDATAS] of its writes are done, and not
      at all otherwise. *)
Theorem overlap_safe w st :
  quiet w → overlaps (idle w) st →
  (∀ r, r ∈ ov_net st → ∃ th i s c, th ∈ ov_threads st ∧ aget (th_slots th) i = Some s ∧ r = sref conn s ∧
     ctx_of (conns_of (ov_world st)) r = Some c ∧ ctx_req c = Some (th_req th) ∧
     rdma_buf c = stripe_buf cfg enc (th_page th) i) ∧
  (∀ th, th ∈ ov_threads st → ∃ n, 0 <= n <= servers (th_slots th) ∧
     counters (ov_world st) !! th_cnt th = Some (NDATAS cfg - n) ∧
     reqs (ov_world st) !! th_req th = Some (if decide (NDATAS cfg <= n) then ended (th_rq th) else th_rq th)).
Proof using Hcoded Hpost.
  intros Hq Hr. destruct (overlaps_inv w st Hq Hr) as [lefts Hinv]. destruct (in_shared _ _ Hinv) as [Hpools _ Hqs Hnet _]. split.
  - intros r Hin. destruct (Hnet r Hin) as [l El]. destruct (Hqs _ l El) as (rs & _ & Hp).
    assert (r ∈ sref conn <$> filter (at_server (rf_pool r)) (mjoin lefts)) as Hs.
    { rewrite <- Hp. apply elem_of_app. right. by apply list_elem_of_filter. }
    apply list_elem_of_fmap in Hs as (s & Er & [[Hm _] Hs]%list_elem_of_filter).
    apply elem_of_join_at in Hs as (a & left & Eleft & Hs). destruct (inv_left _ _ _ _ Hinv Eleft) as [th Ea].
    pose proof (in_local _ _ Hinv a th left Ea Eleft) as L. destruct (proj1 (elem_of_aget _ _) (lo_left _ _ _ L s Hs)) as [i Es].
    destruct (lo_ctx _ _ _ L i s Es Hs) as (c & Ec & Hc). destruct (Hc Hm) as (Hc1 & _ & Hc2).
    exists th, i, s, c. split_and!; try done; [by eapply list_elem_of_lookup_2|by rewrite Er].
  - intros th [a Ea]%list_elem_of_lookup. destruct (inv_thread _ _ _ _ Hinv Ea) as [left El].
    pose proof (in_local _ _ Hinv a th left Ea El) as L. exists (done_of th left).
    split; [by eapply done_range|split; apply L].
Qed.

(** C9: And they all come to an end: from every state that processors can get to, however they
    interleave,
    - a processor that has not finished always has a step to wait for: its own next turn or
      the network's, and every step brings the end closer;
    - so all of them finish if no other starts, in whatever order they go on, and
    - when they have, nothing is left on the network, every context is back in its pool, and
      each request has been ended exactly once if its slab has at least [NDATAS] disks on
      servers (and never otherwise). *)
Theorem overlap_finishes w st :
  quiet w → overlaps (idle w) st →
  (∀ th, th ∈ ov_threads st → th_next th ≠ NDISKS cfg → ∃ st', advances st st') ∧
  (∀ st', advances st st' → (to_go st' < to_go st)%nat) ∧
  (∃ st', rtc advances st st' ∧ all_done st') ∧
  (all_done st → ov_net st = [] ∧
     (∀ q f, free_ctxs <$> pool_of (conns_of (ov_world st)) conn q = Some f → pool_ok f []) ∧
     ∀ th, th ∈ ov_threads st → reqs (ov_world st) !! th_req th =
       Some (if decide (NDATAS cfg <= servers (th_slots th)) then ended (th_rq th) else th_rq th)).
Proof using Hcoded Hpost.
  intros Hq Hr. destruct (overlaps_inv w st Hq Hr) as [lefts Hinv]. split_and!.
  - intros th. by eapply inv_progress.
  - intros st'. by eapply advances_to_go.
  - by eapply inv_finishes.
  - intros Hd. destruct (inv_done st lefts Hinv Hd) as [Hout Hnet]. split_and!; [done|..].
    + intros q f Ef. pose proof (sh_pools _ _ _ _ (in_shared _ _ Hinv) q f Ef) as Hok. by rewrite Hout in Hok.
    + intros th [a Ea]%list_elem_of_lookup. destruct (inv_thread _ _ _ _ Hinv Ea) as [left El].
      assert (left = []) as ->.
      { destruct left as [|s left]; [done|]. assert (s ∈ mjoin lefts) as Hs; [|rewrite Hout in Hs; by apply elem_of_nil in Hs].
        apply list_elem_of_join. exists (s :: left). split; [by left|by eapply list_elem_of_lookup_2]. }
      pose proof (lo_req _ _ _ (in_local _ _ Hinv a th [] Ea El)) as E. unfold done_of in E. by rewrite Z.sub_0_r in E.
Qed.
End overlap.

(** ** Two writes at the same time *)

Section two_writes.
Context (cfg : config) (enc : list byte) (Hcoded : coded cfg enc).

Definition full_pool : ctx_pool_list :=
  {| ctx_pool := replicate (Z.to_nat IS_QUEUE_DEPTH) (test_ctx cfg);
     free_ctxs := {| pool_len := IS_QUEUE_DEPTH; ctx_list := seqZ 0 IS_QUEUE_DEPTH; pool_head := 0; pool_tail := IS_QUEUE_DEPTH - 1 |} |}.
Definition quiet_world : world :=
  {| sess := (test_session cfg (λ _, false)) <| IS_conns := [(λ _, Some full_pool) <$> disks cfg] |>;
     reqs := [test_rq true; test_rq true]; counters := []; cqs := (λ _, []) <$> disks cfg; posted := []; det := no_det |}.
(** The slots of a request whose contexts have index [ix]. *)
Definition free_slots (ix : Z) : list slot := (λ d, {| s_pool := d; s_ix := ix; s_disk := Some (0, test_remote d) |}) <$> disks cfg.

Lemma full_pool_ok : pool_ok (free_ctxs full_pool) [].
Proof.
  split; cbn; [done|unfold IS_QUEUE_DEPTH; lia|]. rewrite app_nil_r, take_ge; [done|]. rewrite length_seqZ. unfold IS_QUEUE_DEPTH. lia.
Qed.

Lemma quiet_pool q : pool_of (conns_of quiet_world) 0 q = (λ _, full_pool) <$> aget (disks cfg) q.
Proof.
  change (pool_of (conns_of quiet_world) 0 q) with (p ← aget ((λ _, Some full_pool) <$> disks cfg) q; p).
  rewrite aget_map. by destruct (aget (disks cfg) q).
Qed.

Lemma quiet_pools q f : free_ctxs <$> pool_of (conns_of quiet_world) 0 q = Some f → f = free_ctxs full_pool ∧ 0 <= q < NDISKS cfg.
Proof.
  rewrite quiet_pool. destruct (aget (disks cfg) q) as [d|] eqn:E; [|done]. intros [= <-]. split; [done|].
  apply aget_lt in E. unfold disks, alen in E. rewrite length_seqZ in E. lia.
Qed.

Lemma quiet_quiet : 0 <= cb_size cfg → 0 <= NDISKS cfg → quiet cfg 0 quiet_world.
Proof.
  intros Hsz Hn. split.
  - intros q f [-> _]%quiet_pools. exact full_pool_ok.
  - intros q f ix [_ Hq]%quiet_pools Hix. exists (test_ctx cfg). unfold ctx_of. cbn [rf_conn rf_pool rf_ix]. rewrite quiet_pool.
    unfold disks. rewrite seqZ_at by done. cbn. split.
    { apply aget_Some. split; [lia|]. apply lookup_replicate. split; [done|lia]. }
    unfold alen. rewrite !length_replicate. lia.
  - intros q l. cbn. rewrite aget_map. destruct (aget (disks cfg) q); [|done]. by intros [= <-].
Qed.

Lemma free_placed ix : placed (free_slots ix).
Proof.
  split.
  - unfold free_slots. rewrite <- list_fmap_compose. rewrite (list_fmap_ext _ id), list_fmap_id by done. apply NoDup_seqZ.
  - intros i s E. unfold free_slots, disks in E. rewrite aget_map in E. pose proof E as H.
    destruct (aget (seqZ 0 (NDISKS cfg)) i) as [d|] eqn:Ed; [|done]. injection E as <-. cbn.
    apply aget_lt in Ed as Hi. unfold alen in Hi. rewrite length_seqZ in Hi. rewrite seqZ_at in Ed by lia. injection Ed as <-.
    unfold NO_CB_MAPPED. lia.
Qed.
Lemma free_slots_len ix : 0 <= NDISKS cfg → alen (free_slots ix) = NDISKS cfg.
Proof. intros H. unfold free_slots, disks, alen. rewrite length_fmap, length_seqZ. lia. Qed.
Lemma free_slots_in ix s : s ∈ free_slots ix → 0 <= s_pool s < NDISKS cfg ∧ s_ix s = ix.
Proof. intros (d & -> & Hd)%list_elem_of_fmap. apply elem_of_seqZ in Hd. cbn. split; [lia|done]. Qed.

Lemma quiet_serving q : 0 <= q < NDISKS cfg → serving quiet_world q.
Proof.
  intros Hq. split; [by apply (test_usable cfg (λ _, false))|]. exists []. by apply (aget_disks cfg (λ _, [])).
Qed.
Lemma full_top cs q : 0 <= q → free_ctxs <$> pool_of cs 0 q = Some (free_ctxs full_pool) → top_free cs 0 q 255.
Proof. intros Hq E. exists (free_ctxs full_pool). by split_and!. Qed.

Lemma free_slots_servers ix : 0 <= NDISKS cfg → servers (free_slots ix) = NDISKS cfg.
Proof.
  intros Hn. rewrite <- (free_slots_len ix Hn). unfold free_slots. induction (disks cfg) as [|d l IH]; [done|].
  cbn [fmap list_fmap]. rewrite servers_cons, IH. unfold alen. cbn. lia.
Qed.

(** A store in which the contexts below [ix] are free. *)
Definition free_below (cs : list connection) (ix : Z) : Prop := ∀ d, 0 <= d < NDISKS cfg →
  free_ctxs <$> pool_of cs 0 d = Some ((free_ctxs full_pool) <| pool_tail := ix |>) ∧
  ∀ i, 0 <= i <= ix → ctx_of cs {| rf_conn := 0; rf_pool := d; rf_ix := i |} = Some (test_ctx cfg).

Lemma quiet_below : free_below (conns_of quiet_world) 255.
Proof.
  intros d Hd. unfold ctx_of. cbn [rf_conn rf_pool rf_ix]. rewrite quiet_pool. unfold disks. rewrite seqZ_at by done. split; [done|].
  intros i Hi. cbn. apply aget_Some. split; [lia|]. apply lookup_replicate. split; [done|unfold IS_QUEUE_DEPTH; lia].
Qed.

Lemma below_ready cs ix s : 0 <= NDISKS cfg → 0 <= cb_size cfg → free_below cs ix → 0 <= ix < 256 → s ∈ free_slots ix → ready cfg cs 0 s.
Proof.
  intros Hn Hsz Hf Hix Hs. apply free_slots_in in Hs as [Hp Hs]. destruct (Hf _ Hp) as [E Ec]. split.
  - eexists. split; [exact E|]. cbn. split; [lia|]. rewrite Hs. by apply (seqZ_at 0).
  - exists (test_ctx cfg). rewrite <- (Ec ix) by lia. split; [by rewrite <- Hs|]. unfold alen. cbn. rewrite !length_replicate. lia.
Qed.

(** A request is started. *)
Lemma started w net ths ix req :
  free_below (conns_of w) ix → 0 <= ix < 256 → reqs w !! req = Some (test_rq true) → req ∉ th_req <$> ths →
  (∀ q, 0 <= q < NDISKS cfg → serving w q) →
  ∃ v net' th, starts cfg (λ _, 0) 0 {| ov_world := w; ov_net := net; ov_threads := ths |}
      {| ov_world := v; ov_net := net'; ov_threads := ths ++ [th] |} ∧
    th_req th = req ∧ servers (th_slots th) = NDISKS cfg ∧ free_below (conns_of v) (ix - 1) ∧ reqs v = reqs w ∧
    (∀ q, 0 <= q < NDISKS cfg → serving v q).
Proof using Hcoded.
  intros Hf Hix Hreq Hnew Hserv. destruct (share_size cfg enc Hcoded) as [_ Hsz]. pose proof (cd_splits _ _ Hcoded) as Hk.
  destruct (start_write_Ret cfg (λ _, 0) enc Hcoded (λ _, eq_refl) 0 (free_slots ix) (free_placed ix) (free_slots_len ix ltac:(lia))
    8192 req (test_rq true) test_page w test_page_len Hreq eq_refl eq_refl) as (cs & E & Hctx & Hfree & Hoth & _).
  { intros s Hs. apply (below_ready (conns_of w) ix); [lia|lia|done|done|done]. }
  eexists _, _, _. split; [eapply starts_intro; [apply free_placed|apply free_slots_len; lia|exact test_page_len|exact Hreq|reflexivity|reflexivity|exact Hnew| | |exact E]|].
  - intros s Hs. apply (below_ready (conns_of w) ix); [lia|lia|done|done|done].
  - intros s [Hp _]%free_slots_in _. by apply Hserv.
  - split_and!; [done|by apply free_slots_servers; lia| |done|done].
    intros d Hd. set (s := {| s_pool := d; s_ix := ix; s_disk := Some (0, test_remote d) |}).
    assert (s ∈ free_slots ix) as Hs.
    { apply list_elem_of_fmap. exists d. split; [done|]. apply elem_of_seqZ. lia. }
    rewrite conns_of_with. split.
    + pose proof (Hfree s Hs) as H. change (s_pool s) with d in H. rewrite (proj1 (Hf d Hd)) in H. exact H.
    + intros i Hi. rewrite Hoth; [apply (Hf d Hd); lia|]. intros (t & Et & [_ Ht]%free_slots_in)%list_elem_of_fmap.
      injection Et as _ Ei. lia.
Qed.

(** Both requests have been started, the second while the first is under way. *)
Lemma two_started : ∃ st, overlaps cfg (λ _, 0) 0 (idle quiet_world) st ∧ th_req <$> ov_threads st = [0%nat; 1%nat] ∧
  ∀ th, th ∈ ov_threads st → servers (th_slots th) = NDISKS cfg.
Proof using Hcoded.
  destruct (started quiet_world [] [] 255 0) as (v & net & th & Hs & Hr & Hsv & Hf & Hreqs & Hserv);
    [apply quiet_below|lia|done|apply not_elem_of_nil|apply quiet_serving|].
  destruct (started v net [th] 254 1) as (v' & net' & th' & Hs' & Hr' & Hsv' & _); [done|lia|by rewrite Hreqs| |done|].
  { cbn. rewrite Hr. by intros H%list_elem_of_singleton. }
  eexists. split; [eapply rtc_l; [left; exact Hs|eapply rtc_l; [left; exact Hs'|apply rtc_refl]]|]. cbn. split; [by rewrite Hr, Hr'|].
  intros t [->|[->|[]%elem_of_nil]%elem_of_cons]%elem_of_cons; done.
Qed.
End two_writes.

Lemma ec_test_sizes : 0 <= cb_size ec_test ∧ 0 <= NDISKS ec_test.
Proof. by split. Qed.

Lemma overlap_safe_witness :
  ∃ st, overlaps ec_test (λ _, 0) 0 (idle (quiet_world ec_test)) st ∧ th_req <$> ov_threads st = [0%nat; 1%nat] ∧
    ∀ th, th ∈ ov_threads st → ∃ n, 0 <= n <= servers (th_slots th) ∧
      counters (ov_world st) !! th_cnt th = Some (NDATAS ec_test - n) ∧
      reqs (ov_world st) !! th_req th = Some (if decide (NDATAS ec_test <= n) then ended (th_rq th) else th_rq th).
Proof.
  destruct (two_started ec_test ec_enc ec_coded) as (st & Hr & Hth & _). exists st.
  destruct (overlap_safe ec_test (λ _, 0) ec_enc ec_coded (λ _, eq_refl) 0 (quiet_world ec_test) st
    (quiet_quiet ec_test (proj1 ec_test_sizes) (proj2 ec_test_sizes)) Hr) as [_ H]. split; [exact Hr|]. split; [exact Hth|exact H].
Defined.

(** Both run to their ends. *)
Lemma overlap_finishes_witness :
  ∃ st st', overlaps ec_test (λ _, 0) 0 (idle (quiet_world ec_test)) st ∧ th_req <$> ov_threads st = [0%nat; 1%nat] ∧
    rtc (advances ec_test (λ _, 0) 0) st st' ∧ all_done ec_test st'.
Proof.
  destruct (two_started ec_test ec_enc ec_coded) as (st & Hr & Hth & _).
  destruct (overlap_finishes ec_test (λ _, 0) ec_enc ec_coded (λ _, eq_refl) 0 (quiet_world ec_test) st
    (quiet_quiet ec_test (proj1 ec_test_sizes) (proj2 ec_test_sizes)) Hr) as (_ & _ & (st' & Hr' & Hd) & _).
  exists st, st'. split; [exact Hr|]. split; [exact Hth|]. split; [exact Hr'|exact Hd].
Defined.
