(* ===== verification/Reads.v ===== *)
(** What reads do in either build ([Transfer]): setting up the contexts, posting one read,
    and giving the contexts back. *)

From S2P Require Import Prelude Config MT Fault State CtxPool Chunks Store Transfer Completion Slots Stripe WritePath.

Section read.
Context (cfg : config) (post_ret : Z → Z).
Context (Hdisks : 1 <= NDISKS cfg) (Hpost : ∀ n, post_ret n = 0).
Context (conn : Z) (ss : list slot) (Hplaced : placed ss) (Hlen : alen ss = NDISKS cfg).

#[local] Notation "'refs'" := (sref conn <$> ss).
#[local] Notation "'some_refs'" := (Some <$> (sref conn <$> ss)).

(** * Preparing the contexts *)

Lemma link_row i s c v w :
  aget ss i = Some s → ctx_of v (sref conn s) = Some c → alen (ctxs c) = NDISKS cfg →
  ∃ cs, loop 0 (NDISKS cfg) (λ j _,
      o ← lift (aget some_refs i); r ← deref o; cj ← lift (aget some_refs j);
      c ← get_ctx r; a ← lift (aset (ctxs c) j cj);
      set_ctx r (c <| ctxs := a |>)) () (with_conns w v) = Ret ((), with_conns w cs) ∧
    ctx_set v cs (sref conn s) (c <| ctxs := some_refs |>).
Proof using Hdisks Hlen.
  intros Es Ec Hl.
  match goal with |- context [loop 0 (NDISKS cfg) ?body ()] =>
    destruct (loop_inv (λ j _ u, ∃ a cs, u = with_conns w cs ∧ ctx_set v cs (sref conn s) (c <| ctxs := a |>) ∧
      alen a = NDISKS cfg ∧ ∀ k, 0 <= k < j → aget a k = aget some_refs k) body 0 (NDISKS cfg) () (with_conns w v))
      as ([] & u & E & a & cs & -> & Hs & Ha & Hk) end; [lia| | |].
  - exists (ctxs c), v. split_and!; [done| |done|lia]. apply ctx_set_refl. rewrite Ec. by destruct c.
  - intros j [] u Hj (a & cs & -> & Hs & Ha & Hk). destruct (slot_at cfg ss Hlen j Hj) as (t & Et & _).
    pose proof (ctx_set_get _ _ _ _ Hs) as Eg.
    destruct (set_ctx_Ret (with_conns w cs) (sref conn s) _ (c <| ctxs := <[Z.to_nat j := Some (sref conn t)]> a |>) Eg)
      as (cs' & E' & Hs'). rewrite conns_of_with in Hs'. exists (), (with_conns w cs'). split.
    + erewrite M_bind_Ret by (unfold lift; by rewrite (aget_refs_Some conn ss i s)). erewrite M_bind_Ret by done.
      erewrite M_bind_Ret by (unfold lift; by rewrite (aget_refs_Some conn ss j t)).
      erewrite M_bind_Ret by (by apply get_ctx_Ret).
      erewrite M_bind_Ret by (unfold lift; cbn; by rewrite aset_Some by lia). exact E'.
    + exists (<[Z.to_nat j := Some (sref conn t)]> a), cs'. split_and!; [done|by eapply ctx_set_trans| |].
      * by rewrite alen_insert.
      * intros k Hkj. rewrite aget_insert by lia. destruct (decide (j = k)) as [<-|]; [|apply Hk; lia].
        by rewrite (aget_refs_Some conn ss j t).
  - exists cs. split; [exact E|]. replace some_refs with a; [done|]. apply list_eq. intros k.
    destruct (decide (k < length a)%nat) as [Hlt|Hge].
    + rewrite <- !aget_nat. apply Hk. unfold alen in Ha. lia.
    + rewrite !lookup_ge_None_2; [done| |lia]. rewrite !length_fmap. unfold alen in *. lia.
Qed.

Lemma link_ctxs_Ret w :
  (∀ s, s ∈ ss → ∃ c, ctx_of (conns_of w) (sref conn s) = Some c ∧ alen (ctxs c) = NDISKS cfg) →
  ∃ cs, link_ctxs cfg some_refs w = Ret ((), with_conns w cs) ∧
    progress refs (λ _ c, c <| ctxs := some_refs |>) (λ _, Some) (conns_of w) (NDISKS cfg) cs.
Proof using Hdisks Hplaced Hlen.
  intros Hc. unfold link_ctxs. apply loop_ctx_set; [done|done| |].
  - intros i s v c Es _ Ec Ev. destruct (Hc s) as (c' & Ec' & Hl); [by eapply aget_elem|].
    assert (c' = c) as -> by congruence. by apply (link_row i s c v w).
  - intros s Hs. destruct (Hc s Hs) as (c & -> & _). by eexists.
Qed.

(** * Posting the read *)

(** Disks a fault is injected into are skipped like disks on no server. *)
Context (faulty : slot → bool).

Definition flag (s : slot) : Z := if faulty s then 1 else 0.
Definition serves (s : slot) : bool := mapped s && negb (faulty s).

Lemma serves_on s : serves s = true → mapped s = true.
Proof. unfold serves. by intros [? _]%andb_true_iff. Qed.

(** Every context is in place, with the flag of its disk. *)
Definition flagged (cs : list connection) : Prop :=
  ∀ s, s ∈ ss → ∃ c, ctx_of cs (sref conn s) = Some c ∧ fault c = flag s.

Lemma is_bad_Ret i s w :
  aget ss i = Some s → flagged (conns_of w) → is_bad (target_of <$> ss) some_refs i w = Ret (negb (serves s), w).
Proof using Hplaced.
  intros Es Hf. unfold is_bad. erewrite M_bind_Ret by (by apply the_target_Ret).
  rewrite (unmapped_target ss i s) by done. destruct (Hf s) as (c & Ec & Hz); [by eapply aget_elem|]. unfold serves, flag in *.
  destruct (mapped s); cbn [negb andb]; [|done].
  erewrite M_bind_Ret by (unfold lift; by rewrite (aget_refs_Some conn ss i s)). erewrite M_bind_Ret by done.
  erewrite M_bind_Ret by (by apply get_ctx_Ret). rewrite Hz. by destruct (faulty s).
Qed.

(** The flag of disk [i]. *)
Definition flag_at (i : Z) : Z := match aget ss i with Some s => flag s | None => 0 end.

(** No fault is injected when fault injection is off. *)
Lemma inject_faults_Ret ts w :
  inject_fault (IS_fault_injection (sess w)) ≠ 1 → (∀ s, s ∈ ss → faulty s = false) →
  (∀ s, s ∈ ss → is_Some (ctx_of (conns_of w) (sref conn s))) →
  ∃ cs, inject_faults cfg post_ret ts some_refs w = Ret ((), with_conns w cs) ∧
    progress refs (λ i c, c <| fault := flag_at i |>) (λ _, Some) (conns_of w) (NDISKS cfg) cs.
Proof using Hdisks Hplaced Hlen.
  intros Hoff Hnone Hc. unfold inject_faults. apply loop_ctx_set; [done|done| |done].
  intros i s v c Es _ Ec Ev.
  assert (flag_at i = 0) as -> by (unfold flag_at, flag; rewrite Es, Hnone; [done|by eapply aget_elem]). erewrite M_bind_Ret by done. erewrite M_bind_Ret.
  2: { unfold lift, IS_fault_injection_inject_fault. cbn [with_conns sess]. 
       change (IS_fault_injection _) with (IS_fault_injection (sess w)).
       apply Z.eqb_neq in Hoff. rewrite Hoff. cbn. reflexivity. }
  cbv beta iota. erewrite (M_bind_Ret _ _ _ () (with_conns w v)).
  2: { unfold upd_sess, modify. by destruct w as [[] ? ? ? ? ?]. }
  erewrite M_bind_Ret by (unfold lift; by rewrite (aget_refs_Some conn ss i s)). erewrite M_bind_Ret by done.
  destruct (upd_ctx_Ret (with_conns w v) (sref conn s) c (λ c, c <| fault := 0 |>) Ev) as (cs & E & Hs).
  exists cs. split; [|exact Hs]. by erewrite M_bind_Ret by exact E.
Qed.

(** * Posting one read *)

(** The world after the read of disk [g] was posted. *)
Definition read_posted (w : world) (fi : fault_injection) (s : slot) (wr : send_wr) : world :=
  w <| posted := posted w ++ [PostRdma (s_pool s) (sref conn s) wr] |>
    <| sess := (sess w) <| IS_fault_injection := fi |> |>.

Lemma post_read_Ret g s ci ck c fi w :
  aget ss g = Some s → s_disk s = Some (ci, ck) → ctx_of (conns_of w) (sref conn s) = Some c →
  IS_fault_injection_access (IS_fault_injection (sess w)) g = Some fi →
  post_read post_ret (target_of <$> ss) some_refs g w = Ret (0, read_posted w fi s (sq_wr c)).
Proof using Hpost.
  intros Es Ed Ec Ef. unfold post_read. erewrite M_bind_Ret by (by apply the_target_Ret).
  unfold target_of. rewrite Ed. erewrite M_bind_Ret by done.
  erewrite M_bind_Ret by (unfold lift; by rewrite (aget_refs_Some conn ss g s)). erewrite M_bind_Ret by done.
  erewrite M_bind_Ret by (by apply get_ctx_Ret).
  erewrite M_bind_Ret by (by apply ib_post_Ret). erewrite M_bind_Ret by done.
  erewrite M_bind_Ret by (unfold lift; cbn; by rewrite Ef). by erewrite M_bind_Ret by done.
Qed.

(** * After the last completion *)

Lemma collect_refs w :
  loop 0 (NDISKS cfg) (λ i l, o ← lift (aget some_refs i); r ← deref o; mret (l ++ [r])) [] w = Ret (refs, w).
Proof using Hdisks Hlen.
  match goal with |- loop 0 _ ?body _ _ = _ =>
    destruct (loop_inv (λ i l v, l = take (Z.to_nat i) refs ∧ v = w) body 0 (NDISKS cfg) [] w)
      as (l & v & -> & -> & ->) end; [lia|done| |].
  - intros i l v Hi [-> ->]. destruct (slot_at cfg ss Hlen i Hi) as (s & Es & _).
    eexists _, w. split; [|split; [|done]].
    + erewrite M_bind_Ret by (unfold lift; by rewrite (aget_refs_Some conn ss i s)). by erewrite M_bind_Ret by done.
    + apply (aget_refs conn) in Es as [_ Es]%aget_Some. replace (Z.to_nat (i + 1)) with (S (Z.to_nat i)) by lia.
      by rewrite (take_S_r _ _ _ Es).
  - rewrite take_ge; [done|]. rewrite length_fmap. unfold alen in Hlen. lia.
Qed.

(** All contexts go back to their pools. *)
Lemma insert_all w :
  (∀ s, s ∈ ss → is_Some (ctx_of (conns_of w) (sref conn s)) ∧
    ∃ f, free_ctxs <$> pool_of (conns_of w) conn (s_pool s) = Some f ∧ -1 <= pool_tail f < alen (ctx_list f) - 1) →
  ∃ cs, loop 0 (NDISKS cfg) (λ i _, r ← lift (aget refs i); IS_insert_ctx r) () w = Ret ((), with_conns w cs) ∧
    progress refs (λ _ c, c) (λ r f, pool_insert f (rf_ix r)) (conns_of w) (NDISKS cfg) cs.
Proof using Hdisks Hplaced Hlen.
  intros Hc. apply (loop_progress cfg conn ss Hplaced Hlen (λ _, ())). intros i s v Es Hpr.
  destruct (Hc s) as [[c Ec] (f & Ef & Ht)]; [by eapply aget_elem|].
  pose proof (pr_ctx _ _ _ _ _ _ Hpr i _ (aget_refs conn ss i s Es)) as Ecv.
  pose proof (pr_free _ _ _ _ _ _ Hpr i _ (aget_refs conn ss i s Es)) as Efv.
  rewrite decide_False in Ecv by lia. rewrite decide_False in Efv by lia. cbn [rf_conn rf_pool sref] in Efv.
  rewrite Ec in Ecv. rewrite Ef in Efv.
  destruct (IS_insert_ctx_Ret (with_conns w v) (sref conn s) f c Ecv Efv Ht) as (cs & E & [H1 H2]).
  rewrite conns_of_with in H1, H2. exists cs.
  split_and!; [|intros r; rewrite H1; destruct (decide _); [by destruct (ctx_of v r)|done]|exact H2].
  by erewrite M_bind_Ret by (unfold lift; by rewrite (aget_refs conn ss i s)).
Qed.

(** * The contexts when the posting loop starts *)

(** All contexts of a request are linked, and there is room for them in their pools. *)
Record linked (cs : list connection) : Prop := {
  lk_ctxs : ∀ s, s ∈ ss → ∃ c, ctx_of cs (sref conn s) = Some c ∧ ctxs c = some_refs;
  lk_free : ∀ s, s ∈ ss → ∃ f, free_ctxs <$> pool_of cs conn (s_pool s) = Some f ∧ -1 <= pool_tail f < alen (ctx_list f) - 1
}.

(** The context of disk [i] when the read is posted. *)
Definition read_ctx (req cnt : nat) (offset len i : Z) (c : rdma_ctx) : rdma_ctx :=
  (prepared ss WR_RDMA_READ (Some CTX_R_IN_FLIGHT) false req cnt offset len i c) <| ctxs := some_refs |> <| fault := flag_at i |>.

Lemma read_ctx_same req cnt offset len i c :
  rdma_buf (read_ctx req cnt offset len i c) = rdma_buf c ∧ fault (read_ctx req cnt offset len i c) = flag_at i ∧
  ctxs (read_ctx req cnt offset len i c) = some_refs.
Proof. unfold read_ctx, prepared. by destruct (aget ss i) as [[p ix [[ci ck]|]]|]. Qed.

Lemma read_ctx_mapped req cnt offset len i s ci ck c :
  aget ss i = Some s → s_disk s = Some (ci, ck) →
  ctx_req (read_ctx req cnt offset len i c) = Some req ∧ ctx_cnt (read_ctx req cnt offset len i c) = Some cnt ∧
  in_flight (read_ctx req cnt offset len i c) = CTX_R_IN_FLIGHT ∧
  sq_wr (read_ctx req cnt offset len i c) = disk_wr WR_RDMA_READ offset len ck.
Proof. intros Es Ed. unfold read_ctx, prepared. rewrite Es. destruct s as [p ix d]. cbn in Ed. by subst d. Qed.

(** All contexts are set up when the posting loop starts. *)
Definition set_up (offset len : Z) (req : nat) (w : world) (cs : list connection) : Prop :=
  (∀ i t, aget ss i = Some t → ∃ c, ctx_of (conns_of w) (sref conn t) = Some c ∧ alen (rdma_buf c) = cb_size cfg ∧
     ctx_of cs (sref conn t) = Some (read_ctx req (length (counters w)) offset len i c)) ∧
  (∀ t, t ∈ ss → free_ctxs <$> pool_of cs conn (s_pool t) = pop <$> (free_ctxs <$> pool_of (conns_of w) conn (s_pool t))) ∧
  (∀ r, r ∉ refs → ctx_of cs r = ctx_of (conns_of w) r).

Lemma set_up_flagged offset len req w cs : set_up offset len req w cs → flagged cs.
Proof.
  intros [Hc _] t [i Et]%elem_of_aget. destruct (Hc i t Et) as (x & _ & _ & Ex). eexists. split; [exact Ex|].
  destruct (read_ctx_same req (length (counters w)) offset len i x) as (_ & -> & _). unfold flag_at. by rewrite Et.
Qed.

(** The contexts are linked, and their pools have room for them. *)
Lemma set_up_linked offset len req w cs cs' :
  (∀ t, t ∈ ss → ready cfg (conns_of w) conn t) → set_up offset len req w cs →
  (∀ i t c, aget ss i = Some t → ctx_of cs (sref conn t) = Some c →
     ∃ c', ctx_of cs' (sref conn t) = Some c' ∧ ctxs c' = ctxs c) →
  (∀ q, free_ctxs <$> pool_of cs' conn q = free_ctxs <$> pool_of cs conn q) →
  linked cs' ∧ ∀ t, t ∈ ss → (free_ctxs <$> pool_of cs' conn (s_pool t)) ≫= (λ f, pool_insert f (s_ix t)) =
    free_ctxs <$> pool_of (conns_of w) conn (s_pool t).
Proof.
  intros Hr (Hc & Hf & _) Hc' Hf'. split; [split|].
  - intros t [i Et]%elem_of_aget. destruct (Hc i t Et) as (x & _ & _ & Ex). destruct (Hc' i t _ Et Ex) as (y & Ey & Hy).
    exists y. split; [done|]. rewrite Hy. apply read_ctx_same.
  - intros t Ht. rewrite Hf', (Hf t Ht). destruct (Hr t Ht) as [(f & -> & Htl & Ei) _].
    eexists. split; [done|]. cbn. pose proof (aget_lt _ _ _ Ei). lia.
  - intros t Ht. rewrite Hf', (Hf t Ht). destruct (Hr t Ht) as [(f & -> & Htl & Ei) _]. cbn. by apply pop_push.
Qed.

(** The contexts before faults are injected. *)
Definition linked_up (offset len : Z) (req : nat) (w : world) (cs : list connection) : Prop :=
  (∀ i t, aget ss i = Some t → ∃ c x, ctx_of (conns_of w) (sref conn t) = Some c ∧ alen (rdma_buf c) = cb_size cfg ∧
     ctx_of cs (sref conn t) = Some x ∧ x <| fault := flag_at i |> = read_ctx req (length (counters w)) offset len i c) ∧
  (∀ t, t ∈ ss → free_ctxs <$> pool_of cs conn (s_pool t) = pop <$> (free_ctxs <$> pool_of (conns_of w) conn (s_pool t))) ∧
  (∀ r, r ∉ refs → ctx_of cs r = ctx_of (conns_of w) r).

Lemma linked_up_Ret offset len req rq w :
  reqs w !! req = Some rq → conn_id rq = conn → (∀ t, t ∈ ss → ready cfg (conns_of w) conn t) →
  ∃ cs, linked_up (offset / NDATAS cfg) (len / NDATAS cfg) req w cs ∧
    start_read cfg post_ret (target_of <$> ss) offset len req w =
    (inject_faults cfg post_ret (target_of <$> ss) some_refs;;
     r ← post_reads cfg post_ret (target_of <$> ss) some_refs; mret (some_refs, r))
      (with_conns (w <| counters := counters w ++ [NDATAS cfg] |>) cs).
Proof using Hdisks Hplaced Hlen.
  intros Erq Hconn Hr. set (cnt := length (counters w)). set (w1 := w <| counters := counters w ++ [NDATAS cfg] |>).
  destruct (get_ctxs_read_Ret cfg conn ss Hplaced Hlen offset len req cnt w1 Hr) as (cs2 & E2 & H2).
  set (prep := prepared ss WR_RDMA_READ (Some CTX_R_IN_FLIGHT) false req cnt (offset / NDATAS cfg) (len / NDATAS cfg)) in *.
  assert (∀ i t, aget ss i = Some t → ∃ c, ctx_of (conns_of w) (sref conn t) = Some c ∧ alen (rdma_buf c) = cb_size cfg ∧
    alen (ctxs (prep i c)) = NDISKS cfg ∧ ctx_of cs2 (sref conn t) = Some (prep i c)) as Hc2.
  { intros i t Et. destruct (Hr t) as [_ (c & Ec & Hb & Hlc)]; [by eapply aget_elem|]. exists c. split_and!; [done|done| |].
    - subst prep. unfold prepared. rewrite Et. by destruct t as [p ix [[ci' ck']|]].
    - by apply (progress_end _ _ _ _ _ _ i _ c H2); [rewrite alen_refs|apply aget_refs|]. }
  destruct (link_ctxs_Ret (with_conns w1 cs2)) as (cs3 & E3 & H3).
  { intros t [i Et]%elem_of_aget. destruct (Hc2 i t Et) as (c & _ & _ & Hlc & Ec). eauto. }
  rewrite conns_of_with in H3. exists cs3. split; [split; [|split]|].
  - intros i t Et. destruct (Hc2 i t Et) as (c & Ec & Hb & _ & Ec2). exists c, ((prep i c) <| ctxs := some_refs |>).
    split_and!; [done|done| |done].
    eapply (progress_end _ _ _ _ _ _ i _ _ H3); [by rewrite alen_refs|by apply aget_refs|done].
  - intros t Ht. rewrite (progress_free cfg conn ss Hlen _ _ _ _ t H3 Ht), (progress_free cfg conn ss Hlen _ _ _ _ t H2 Ht).
    change (conns_of w1) with (conns_of w). by destruct (free_ctxs <$> pool_of (conns_of w) conn (s_pool t)).
  - intros r Hrr. rewrite (pr_others _ _ _ _ _ _ H3), (pr_others _ _ _ _ _ _ H2); done.
  - unfold start_read. erewrite M_bind_Ret by done. erewrite M_bind_Ret by (apply get_req_Ret; exact Erq).
    rewrite Hconn. fold w1 cnt. erewrite M_bind_Ret by exact E2. by erewrite M_bind_Ret by exact E3.
Qed.

(** Once the flags are set, all contexts are set up. *)
Lemma flagged_set_up offset len req w cs cs' :
  linked_up offset len req w cs → progress refs (λ i c, c <| fault := flag_at i |>) (λ _, Some) cs (NDISKS cfg) cs' →
  set_up offset len req w cs'.
Proof using Hlen.
  intros (Hc & Hf & Ho) Hpr. split; [|split].
  - intros i t Et. destruct (Hc i t Et) as (c & x & Ec & Hb & Ex & Hx). exists c. split_and!; [done|done|]. rewrite <- Hx.
    by apply (progress_end _ _ _ _ _ _ i _ x Hpr); [rewrite alen_refs|apply aget_refs|].
  - intros t Ht. rewrite (progress_free cfg conn ss Hlen _ _ _ _ t Hpr Ht), (Hf t Ht).
    by destruct (free_ctxs <$> pool_of (conns_of w) conn (s_pool t)).
  - intros r Hrr. by rewrite (pr_others _ _ _ _ _ _ Hpr), Ho.
Qed.

Lemma set_up_Ret offset len req rq w :
  reqs w !! req = Some rq → conn_id rq = conn → (∀ t, t ∈ ss → ready cfg (conns_of w) conn t) →
  inject_fault (IS_fault_injection (sess w)) ≠ 1 → (∀ t, t ∈ ss → faulty t = false) →
  ∃ cs, set_up (offset / NDATAS cfg) (len / NDATAS cfg) req w cs ∧
    start_read cfg post_ret (target_of <$> ss) offset len req w =
    (r ← post_reads cfg post_ret (target_of <$> ss) some_refs; mret (some_refs, r))
      (with_conns (w <| counters := counters w ++ [NDATAS cfg] |>) cs).
Proof using Hdisks Hplaced Hlen.
  intros Erq Hconn Hr Hoff Hnone. destruct (linked_up_Ret offset len req rq w Erq Hconn Hr) as (cs3 & Hl & ->).
  set (w1 := with_conns _ cs3). destruct (inject_faults_Ret (target_of <$> ss) w1 Hoff Hnone) as (cs4 & E4 & H4).
  { intros t [i Et]%elem_of_aget. destruct (proj1 Hl i t Et) as (c & x & _ & _ & Ex & _). by exists x. }
  exists cs4. split; [by eapply flagged_set_up|]. by erewrite M_bind_Ret by exact E4.
Qed.

(** * Completions *)

(** A completion that is not the last one of its request: the context is finished and
    stays with the request. *)
Lemma client_read_done_more r c req cnt n rq w :
  ctx_of (conns_of w) r = Some c → ctx_req c = Some req → ctx_cnt c = Some cnt →
  counters w !! cnt = Some n → n ≠ 1 → reqs w !! req = Some rq →
  ∃ cs, client_read_done cfg r w = Ret (0, with_conns (w <| counters := <[cnt := n - 1]> (counters w) |>) cs) ∧
    ctx_set (conns_of w) cs r (finished c).
Proof.
  intros Ec Hreq Hcn En Hn Erq. unfold client_read_done. erewrite M_bind_Ret by (by apply get_ctx_Ret).
  rewrite Hreq. erewrite M_bind_Ret by done. erewrite M_bind_Ret by (by apply get_req_Ret).
  destruct (upd_ctx_Ret w r c finished Ec) as (cs & E & Hs). erewrite M_bind_Ret by exact E.
  rewrite Hcn. erewrite M_bind_Ret by done. erewrite M_bind_Ret by (by apply atomic_dec_and_test_Ret).
  destruct (Z.eqb_spec (n - 1) 0); [lia|]. cbn [negb]. by exists cs.
Qed.

(** The last completion: the pages are filled, the request is ended and all its contexts
    go back to their pools. *)
Lemma client_read_done_last g c req cnt rq bios w :
  g ∈ ss → linked (conns_of w) → ctx_of (conns_of w) (sref conn g) = Some c → ctx_req c = Some req →
  ctx_cnt c = Some cnt → counters w !! cnt = Some 1 → reqs w !! req = Some rq →
  (∀ u, det u = det w → ctx_set (conns_of w) (conns_of u) (sref conn g) (finished c) →
     ∃ cs f, read_pages cfg refs rq u = Ret (bios, with_conns u cs) ∧ rebuffered conn ss (conns_of u) f cs) →
  ∃ cs, client_read_done cfg (sref conn g) w = Ret (0, with_conns (w <| counters := <[cnt := 0]> (counters w) |>
      <| reqs := <[req := ended (rq <| rq_bio := bios |>)]> (reqs w) |>) cs) ∧
    (∀ s, s ∈ ss → free_ctxs <$> pool_of cs conn (s_pool s) =
      (free_ctxs <$> pool_of (conns_of w) conn (s_pool s)) ≫= λ f, pool_insert f (s_ix s)) ∧
    (∀ r, r ∉ refs → ctx_of cs r = ctx_of (conns_of w) r) ∧
    ∀ s x, s ∈ ss → s ≠ g → ctx_of (conns_of w) (sref conn s) = Some x → ∃ b, ctx_of cs (sref conn s) = Some (x <| rdma_buf := b |>).
Proof using Hdisks Hplaced Hlen.
  intros Hg [Hc Hfr] Ec Hreq Hcn Ecnt Erq Hpages. unfold client_read_done.
  destruct (Hc g Hg) as (c' & Ec' & Hl). assert (c' = c) as -> by congruence.
  erewrite M_bind_Ret by (by apply get_ctx_Ret). rewrite Hreq. erewrite M_bind_Ret by done.
  erewrite M_bind_Ret by (by apply get_req_Ret).
  destruct (upd_ctx_Ret w (sref conn g) c finished Ec) as (cs1 & E1 & Hs). erewrite M_bind_Ret by exact E1.
  rewrite Hcn. erewrite M_bind_Ret by done. erewrite M_bind_Ret by (by apply atomic_dec_and_test_Ret).
  set (w1 := (with_conns w cs1) <| counters := _ |>). change (negb (1 - 1 =? 0)) with false. cbv iota.
  erewrite (M_bind_Ret _ _ w1 (finished c) w1) by (apply get_ctx_Ret; change (conns_of w1) with cs1; by eapply ctx_set_get).
  change (ctxs (finished c)) with (ctxs c). rewrite Hl. erewrite M_bind_Ret by apply collect_refs.
  destruct (Hpages w1) as (cs2 & f & E2 & [R1 R2 R3]); [done|exact Hs|]. change (conns_of w1) with cs1 in R1, R2, R3.
  destruct Hs as [S1 F1].
  erewrite M_bind_Ret by exact E2. erewrite M_bind_Ret by (apply upd_req_Ret; exact Erq). unfold end_request.
  erewrite M_bind_Ret.
  2: { apply upd_req_Ret. cbn. apply list_lookup_insert_eq. by eapply lookup_lt_Some. }
  set (w2 := _ <| reqs := _ |> <| reqs := _ |>).
  destruct (insert_all w2) as (cs & E & Hpr).
  { intros s Hs. change (conns_of w2) with cs2. apply elem_of_aget in Hs as [i Es]. split.
    - rewrite (R1 i s Es), S1. destruct (Hc s) as (x & Ex & _); [by eapply aget_elem|].
      case_decide; [by eexists|]. rewrite Ex. by eexists.
    - rewrite R2, F1. apply Hfr. by eapply aget_elem. }
  erewrite M_bind_Ret by exact E. exists cs. split; [|split; [|split]].
  - subst w2 w1. cbn [reqs with_conns]. destruct w. unfold with_conns. cbn. by rewrite list_insert_insert_eq.
  - intros s Hs. rewrite (progress_free cfg conn ss Hlen _ _ _ _ s Hpr Hs). change (conns_of w2) with cs2. by rewrite R2, F1.
  - intros r Hr. rewrite (pr_others _ _ _ _ _ _ Hpr r Hr). change (conns_of w2) with cs2. rewrite (R3 r Hr), S1.
    rewrite decide_False; [done|]. intros ->. apply Hr, list_elem_of_fmap. by exists g.
  - intros s x [i Es]%elem_of_aget Hsg Ex.
    assert (ctx_of cs (sref conn s) = ctx_of cs2 (sref conn s)) as Ecs.
    { rewrite (pr_ctx _ _ _ _ _ _ Hpr i _ (aget_refs conn ss i s Es)). case_decide; [|done]. change (conns_of w2) with cs2.
      by destruct (ctx_of cs2 (sref conn s)). }
    rewrite Ecs, (R1 i s Es), S1, decide_False, Ex.
    + exists (default (rdma_buf x) (f i)). cbn. destruct (f i); [done|]. by destruct x.
    + intros Hd. apply elem_of_aget in Hg as [j Eg]. apply Hsg. pose proof (slot_inj conn ss Hplaced i j s g Es Eg Hd) as ->.
      congruence.
Qed.
End read.

(** Fault injection is off, or strikes no disk of the request. *)
Definition no_fault (s : slot) : bool := false.

Lemma serves_mapped s : serves no_fault s = mapped s.
Proof. unfold serves. cbn. apply andb_true_r. Qed.
Lemma is_bad_mapped conn ss (Hplaced : placed ss) i s w :
  aget ss i = Some s → flagged conn ss no_fault (conns_of w) →
  is_bad (target_of <$> ss) (Some <$> (sref conn <$> ss)) i w = Ret (negb (mapped s), w).
Proof. intros Es Hf. by rewrite (is_bad_Ret conn ss Hplaced no_fault i s), serves_mapped. Qed.
Lemma no_flag ss i : flag_at ss no_fault i = 0.
Proof. unfold flag_at, flag. by destruct (aget ss i). Qed.
