(* ===== verification/ReadPath.v ===== *)
(** Replicated reads ([Transfer] with one split), end to end: which replica is read, and
    which bytes the request gets, with any of its disks on a server or not. *)

From S2P Require Import Prelude Config MT Fault State CtxPool Chunks Store Transfer Completion Slots Stripe WritePath Reads.

Section read.
Context (cfg : config) (post_ret : Z → Z).
Context (Hrep : build cfg = REP) (Hone : NDATAS cfg = 1) (Hdisks : 1 <= NDISKS cfg) (Hpost : ∀ n, post_ret n = 0).
Context (conn : Z) (ss : list slot) (Hplaced : placed ss) (Hlen : alen ss = NDISKS cfg).

#[local] Notation "'refs'" := (sref conn <$> ss).
#[local] Notation "'some_refs'" := (Some <$> (sref conn <$> ss)).
#[local] Abbreviation read_posted := (read_posted conn).

Lemma one_share : cb_size cfg = IS_PAGE_SIZE.
Proof using Hone. unfold cb_size. by rewrite Hone. Qed.

(** * Choosing a replica *)

Section choice.
Context (faulty : slot → bool).

#[local] Abbreviation flagged := (flagged conn ss faulty).
#[local] Abbreviation read_ctx := (read_ctx conn ss faulty).
#[local] Abbreviation set_up := (set_up cfg conn ss faulty).

(** The first disk that is on a server and that no fault is injected into. *)
Record first_serving (g : Z) (s : slot) (ci : Z) (ck : remote_chunk_g) : Prop := {
  fv_slot : aget ss g = Some s;
  fv_disk : s_disk s = Some (ci, ck);
  fv_up : faulty s = false;
  fv_first : ∀ i t, 0 <= i < g → aget ss i = Some t → serves faulty t = false
}.

Lemma first_serves g s ci ck : first_serving g s ci ck → serves faulty s = true.
Proof. intros [_ Ed Hu _]. unfold serves, mapped. by rewrite Ed, Hu. Qed.

Lemma find_parity_Ret g s ci ck j fuel w :
  first_serving g s ci ck → flagged (conns_of w) → 0 <= j <= g - 1 → g - 1 - j < Z.of_nat fuel →
  find_parity cfg fuel (target_of <$> ss) some_refs j w = Ret (g - 1, w).
Proof using Hone Hplaced.
  intros Hg Hf. revert j. induction fuel as [|fuel IH]; intros j Hj Hfuel; [lia|]. cbn [find_parity].
  pose proof (aget_lt _ _ _ (fv_slot _ _ _ _ Hg)).
  destruct (proj2 (aget_is_Some ss (NDATAS cfg + j))) as [t Et]; [lia|].
  erewrite M_bind_Ret by (by apply (is_bad_Ret conn ss Hplaced faulty)). destruct (decide (NDATAS cfg + j = g)) as [E|Hne].
  - assert (t = s) as -> by (pose proof (fv_slot _ _ _ _ Hg); congruence).
    rewrite (first_serves _ _ _ _ Hg). cbn. by replace (g - 1) with j by lia.
  - rewrite (fv_first _ _ _ _ Hg (NDATAS cfg + j) t) by (done || lia). cbn [negb]. apply IH; lia.
Qed.

Lemma post_reads_Ret g s ci ck c fi w :
  first_serving g s ci ck → flagged (conns_of w) → ctx_of (conns_of w) (sref conn s) = Some c →
  IS_fault_injection_access (IS_fault_injection (sess w)) g = Some fi →
  post_reads cfg post_ret (target_of <$> ss) some_refs w = Ret (inl g, read_posted w fi s (sq_wr c)).
Proof using Hone Hdisks Hpost Hplaced Hlen.
  intros Hg Hf Ec Efi. pose proof (aget_lt _ _ _ (fv_slot _ _ _ _ Hg)) as Hlt.
  unfold post_reads. rewrite Hone. change (loop_ret 0 1 ?b ?s) with (loop_ret_n 1 0 b s). cbn [loop_ret_n].
  destruct (slot_at cfg ss Hlen 0) as (t & Et & _); [lia|].
  erewrite (M_bind_Ret _ _ _ (inl g) (read_posted w fi s (sq_wr c))); [done|].
  erewrite M_bind_Ret by (by apply (is_bad_Ret conn ss Hplaced faulty)).
  destruct (decide (g = 0)) as [->|Hne].
  - assert (t = s) as -> by (pose proof (fv_slot _ _ _ _ Hg); congruence).
    rewrite (first_serves _ _ _ _ Hg). cbn [negb].
    by erewrite M_bind_Ret by (by eapply post_read_Ret; try done; apply Hg).
  - rewrite (fv_first _ _ _ _ Hg 0 t) by (done || lia). cbn [negb].
    erewrite M_bind_Ret by (eapply (find_parity_Ret g s ci ck); [done|done|lia|lia]).
    destruct (Z.ltb_spec (g - 1) (NDISKS cfg - 1)); [|lia]. replace (1 + (g - 1)) with g by lia.
    erewrite M_bind_Ret by (by eapply post_read_Ret; try done; apply Hg). cbn. by replace (g - 1 + 1) with g by lia.
Qed.

(** When no replica can be read, the search for one runs past the arrays. *)
Lemma find_parity_undefined j fuel w :
  (∀ s, s ∈ ss → serves faulty s = false) → flagged (conns_of w) → 0 <= j →
  find_parity cfg fuel (target_of <$> ss) some_refs j w = Ub.
Proof using Hone Hplaced.
  intros Hm Hf. revert j. induction fuel as [|fuel IH]; intros j Hj; [done|]. cbn [find_parity].
  destruct (aget ss (NDATAS cfg + j)) as [t|] eqn:Et.
  - erewrite M_bind_Ret by (by apply (is_bad_Ret conn ss Hplaced faulty)). rewrite (Hm t) by (by eapply aget_elem). cbn [negb]. apply IH. lia.
  - unfold mbind, M_bind, is_bad, the_target, lift at 1. unfold mbind, M_bind, lift. by rewrite aget_map, Et.
Qed.

(** The wait skips the disks before [g] and handles one completion. *)
Lemma wait_reads_Ret g s ci ck w v :
  first_serving g s ci ck → flagged (conns_of w) →
  rdma_cq_event_handler cfg post_ret (s_pool s) w = Ret ((), v) →
  wait_reads cfg post_ret (target_of <$> ss) some_refs g w = Ret ((), v).
Proof using Hone Hdisks Hplaced Hlen.
  intros Hg Hf Ev. pose proof (aget_lt _ _ _ (fv_slot _ _ _ _ Hg)) as Hlt. unfold wait_reads. rewrite Hone.
  match goal with |- loop 0 (1 + g) ?body _ _ = _ =>
    destruct (loop_inv (λ i _ u, if decide (i <= g) then u = w else u = v) body 0 (1 + g) () w)
      as ([] & u & E & Hu) end; [lia|by rewrite decide_True by lia| |].
  - intros i [] u Hi Hu. rewrite decide_True in Hu by lia. subst u.
    destruct (slot_at cfg ss Hlen i) as (t & Et & _); [lia|].
    erewrite M_bind_Ret by (by apply (is_bad_Ret conn ss Hplaced faulty)). destruct (decide (i = g)) as [->|Hne].
    + assert (t = s) as -> by (pose proof (fv_slot _ _ _ _ Hg); congruence).
      rewrite (first_serves _ _ _ _ Hg). cbn [negb]. exists (), v.
      split; [|by rewrite decide_False by lia]. erewrite M_bind_Ret by (by apply the_target_Ret).
      unfold target_of. rewrite (fv_disk _ _ _ _ Hg). by erewrite M_bind_Ret by done.
    + rewrite (fv_first _ _ _ _ Hg i t) by (done || lia). exists (), w. split; [done|]. by rewrite decide_True by lia.
  - rewrite decide_False in Hu by lia. by subst u.
Qed.

(** * Finishing the read *)

(** The copy takes the bytes of the first context without a fault flag, whether its disk was
    read or not. *)
Record first_unflagged (h : Z) (t : slot) : Prop := {
  fu_slot : aget ss h = Some t;
  fu_up : faulty t = false;
  fu_first : ∀ i u, 0 <= i < h → aget ss i = Some u → faulty u = true
}.

Lemma pick_ctx_Ret h t c fuel j w :
  first_unflagged h t → flagged (conns_of w) → ctx_of (conns_of w) (sref conn t) = Some c → 0 <= j <= h → h - j < Z.of_nat fuel →
  pick_ctx fuel refs j w = Ret (c, w).
Proof.
  intros [Et Hu Hh] Hf Ec. revert j. induction fuel as [|fuel IH]; intros j Hj Hfuel; [lia|]. cbn [pick_ctx].
  pose proof (aget_lt _ _ _ Et). destruct (proj2 (aget_is_Some ss j)) as [u Eu]; [lia|].
  erewrite M_bind_Ret by (unfold lift; by rewrite (aget_refs conn ss j u)).
  destruct (Hf u) as (x & Ex & Hx); [by eapply aget_elem|]. erewrite M_bind_Ret by (by apply get_ctx_Ret).
  rewrite Hx. unfold flag. destruct (decide (j = h)) as [->|Hne].
  - assert (u = t) as -> by congruence. rewrite Hu. by assert (x = c) as -> by congruence.
  - rewrite (Hh j u) by (done || lia). apply IH; lia.
Qed.

Lemma read_bios_Ret h t c page w :
  first_unflagged h t → flagged (conns_of w) → ctx_of (conns_of w) (sref conn t) = Some c →
  alen (rdma_buf c) = IS_PAGE_SIZE → alen page = IS_PAGE_SIZE →
  read_bios (copy_bio cfg refs) 0 [[page]] w = Ret ([[rdma_buf c]], w).
Proof using Hone.
  intros Hh Hf Ec Hb Hp. cbn [read_bios]. erewrite M_bind_Ret by done.
  erewrite (M_bind_Ret _ _ _ (rdma_buf c) w); [done|].
  unfold copy_bio. rewrite Hone. change (loop 0 1 ?b ?s) with (loop_n 1 0 b s). cbn [loop_n].
  pose proof (aget_lt _ _ _ (fu_slot _ _ Hh)) as Hlt. unfold alen in Hlt.
  erewrite (M_bind_Ret _ _ _ (rdma_buf c) w); [done|].
  erewrite M_bind_Ret by (eapply pick_ctx_Ret; [done|done|done|lia|rewrite length_fmap; lia]).
  rewrite !Z.div_1_r. unfold lift. rewrite Z.mul_0_l. by rewrite memcpy_page.
Qed.

Lemma client_read_done_Ret g h t c c0 cnt req rq page w :
  g ∈ ss → linked conn ss (conns_of w) → flagged (conns_of w) → ctx_of (conns_of w) (sref conn g) = Some c → ctx_req c = Some req →
  ctx_cnt c = Some cnt → counters w !! cnt = Some 1 → reqs w !! req = Some rq → rq_bio rq = [[page]] →
  alen page = IS_PAGE_SIZE → first_unflagged h t → ctx_of (conns_of w) (sref conn t) = Some c0 → alen (rdma_buf c0) = IS_PAGE_SIZE →
  ∃ cs, client_read_done cfg (sref conn g) w = Ret (0, with_conns (w <| counters := <[cnt := 0]> (counters w) |>
      <| reqs := <[req := ended (rq <| rq_bio := [[rdma_buf c0]] |>)]> (reqs w) |>) cs) ∧
    (∀ s, s ∈ ss → free_ctxs <$> pool_of cs conn (s_pool s) =
      (free_ctxs <$> pool_of (conns_of w) conn (s_pool s)) ≫= λ f, pool_insert f (s_ix s)) ∧
    ∀ r, r ∉ sref conn <$> ss → ctx_of cs r = ctx_of (conns_of w) r.
Proof using Hrep Hone Hdisks Hplaced Hlen.
  intros Hg Hl Hf Ec Hreq Hcn Ecnt Erq Ebio Hp Ht Ec0 Hb0.
  enough (∀ u, det u = det w → ctx_set (conns_of w) (conns_of u) (sref conn g) (finished c) → ∃ cs f,
    read_pages cfg refs rq u = Ret ([[rdma_buf c0]], with_conns u cs) ∧ rebuffered conn ss (conns_of u) f cs) as Hgot.
  { destruct (client_read_done_last cfg Hdisks conn ss Hplaced Hlen g c req cnt rq [[rdma_buf c0]] w) as (cs & E & H1 & H2 & _); [done..|].
    by exists cs. }
  intros u _ [S1 _].
  exists (conns_of u), (λ _, None). split; [|apply rebuffered_refl]. rewrite with_conns_id.
  unfold read_pages. rewrite Hrep, Ebio. unfold read_pages_rep. change (1 <? alen [page]) with false. cbv iota.
  assert (flagged (conns_of u)) as Hfu.
  { intros x Hx. destruct (Hf x Hx) as (y & Ey & Hy). rewrite S1. destruct (decide (sref conn x = sref conn g)) as [Hd|Hd]; [|by eauto].
    exists (finished c). split; [done|]. rewrite <- Hy, Hd in *. by assert (y = c) as -> by congruence. }
  destruct (decide (sref conn t = sref conn g)) as [Hd|Hd].
  - assert (c = c0) as <- by congruence.
    by rewrite (read_bios_Ret h t (finished c) page) by (done || by rewrite S1, decide_True).
  - by rewrite (read_bios_Ret h t c0 page) by (done || by rewrite S1, decide_False).
Qed.

(** * The whole read *)

(** What a read of replica [s] leaves behind, when its posting loop started in [w1]. *)
Record replica_read (w w1 : world) (offset len : Z) (req : nat) (rq : request) (s : slot) (ck : remote_chunk_g)
    (page : list byte) (v : world) : Prop := {
  rp_posts : posted v = posted w1 ++ [PostRdma (s_pool s) (sref conn s) (disk_wr WR_RDMA_READ offset len ck)];
  rp_free : ∀ t, t ∈ ss → free_ctxs <$> pool_of (conns_of v) conn (s_pool t) = free_ctxs <$> pool_of (conns_of w) conn (s_pool t);
  rp_reqs : reqs v = <[req := ended (rq <| rq_bio := [[page]] |>)]> (reqs w);
  rp_sess : ∃ fi, sess v = (sess w1) <| IS_conns := conns_of v |> <| IS_fault_injection := fi |>;
  rp_others : ∀ r, r ∉ refs → ctx_of (conns_of v) r = ctx_of (conns_of w) r
}.

(** The read from its posting loop on: the replica that is read is the first that can be,
    the one that is copied the first without a flag. *)
Lemma opened_replica_Ret offset len req rq old h t c0 w w1 g s ci ck data :
  reqs w !! req = Some rq → rq_bio rq = [[old]] → alen old = IS_PAGE_SIZE →
  (∀ t, t ∈ ss → ready cfg (conns_of w) conn t) → set_up offset len req w (conns_of w1) →
  counters w1 = counters w ++ [1] → reqs w1 = reqs w →
  start_read cfg post_ret (target_of <$> ss) offset len req w =
    (r ← post_reads cfg post_ret (target_of <$> ss) some_refs; mret (some_refs, r)) w1 →
  first_serving g s ci ck → first_unflagged h t → ctx_of (conns_of w) (sref conn t) = Some c0 →
  usable (sess w1) (s_pool s) → delivers w1 (s_pool s) (read_wc (sref conn s) data) → alen data = IS_PAGE_SIZE →
  is_Some (IS_fault_injection_access (IS_fault_injection (sess w1)) g) →
  ∃ v, IS_rdma_read cfg post_ret (target_of <$> ss) offset len req w = Ret (0, v) ∧
    replica_read w w1 offset len req rq s ck (if decide (h = g) then data else rdma_buf c0) v.
Proof using Hrep Hone Hdisks Hpost Hplaced Hlen.
  intros Erq Ebio Hold Hready Hset Hcn Hrq Estart Hg Hh Ec0 Hu Hd Hl [fi Hfi]. pose proof Hset as (Hctx & Hfree & Hother).
  set (cnt := length (counters w)) in *. pose proof (aget_elem _ _ _ (fv_slot _ _ _ _ Hg)) as Hs.
  destruct (Hctx g s (fv_slot _ _ _ _ Hg)) as (c & Ec & Hb & Ecv).
  destruct (read_ctx_same conn ss faulty req cnt offset len g c) as (Rb & Rf & _).
  destruct (read_ctx_mapped conn ss faulty req cnt offset len g s ci ck c) as (Rr & Rc & _ & Rw); [apply Hg|apply Hg|].
  pose proof (post_reads_Ret g s ci ck _ fi w1 Hg (set_up_flagged _ _ _ _ _ _ _ _ _ Hset) Ecv Hfi) as Epost.
  rewrite Rw in Epost. set (v := read_posted _ fi s _) in Epost.
  destruct (read_event cfg post_ret (s_pool s) (sref conn s) data (read_ctx req cnt offset len g c) v Hu Hd Ecv)
    as (l & cs' & _ & [S1 F1] & Hev). { rewrite Rb, Hb, Hl. apply one_share. }
  change (conns_of v) with (conns_of w1) in S1, F1. set (v' := with_conns (v <| cqs := l |>) cs').
  destruct (set_up_linked cfg conn ss faulty offset len req w (conns_of w1) cs' Hready Hset) as [Hlink Hback]; [|intros q; apply F1|].
  { intros i x y Ex Ey. rewrite S1. destruct (decide (sref conn x = sref conn s)) as [Hxs|]; [|by eauto]. eexists. split; [done|].
    rewrite Hxs, Ecv in Ey. by injection Ey as <-. }
  assert (flagged cs') as Hflag.
  { intros x Hx. destruct (set_up_flagged _ _ _ _ _ _ _ _ _ Hset x Hx) as (y & Ey & Hy). rewrite S1.
    destruct (decide (sref conn x = sref conn s)) as [Hxs|]; [|by eauto]. eexists. split; [done|].
    rewrite <- Hy. rewrite Hxs, Ecv in Ey. by injection Ey as <-. }
  destruct (Hctx h t (fu_slot _ _ Hh)) as (x0 & Ex0 & Hx0 & Ex0'). assert (x0 = c0) as -> by congruence.
  assert (∃ y, ctx_of cs' (sref conn t) = Some y ∧ alen (rdma_buf y) = IS_PAGE_SIZE ∧
    rdma_buf y = if decide (h = g) then data else rdma_buf c0) as (y & Ey & Hyl & Hy).
  { rewrite S1. destruct (decide (h = g)) as [->|Hne].
    - assert (t = s) as -> by (pose proof (fv_slot _ _ _ _ Hg); pose proof (fu_slot _ _ Hh); congruence).
      rewrite decide_True by done. by eexists.
    - rewrite decide_False.
      { eexists. split; [exact Ex0'|]. destruct (read_ctx_same conn ss faulty req cnt offset len h c0) as (-> & _ & _).
        by rewrite Hx0, one_share. }
      intros [= Hp _]. exact (pool_ne ss Hplaced h g t s (fu_slot _ _ Hh) (fv_slot _ _ _ _ Hg) Hne Hp). }
  destruct (client_read_done_Ret s h t ((read_ctx req cnt offset len g c) <| rdma_buf := data |>) y cnt req rq old v')
    as (cs2 & E2 & F2 & O2); try done.
  { change (conns_of v') with cs'. by rewrite S1, decide_True. }
  { change (counters v') with (counters w1). rewrite Hcn. by apply list_lookup_middle. }
  { change (reqs v') with (reqs w1). by rewrite Hrq. }
  eexists. split.
  - unfold IS_rdma_read. erewrite M_bind_Ret; [|rewrite Estart; by erewrite M_bind_Ret by exact Epost]. cbv beta iota.
    erewrite M_bind_Ret; [reflexivity|]. eapply wait_reads_Ret; [done| |apply Hev; exact E2].
    eapply set_up_flagged. exact Hset.
  - rewrite Hy. constructor; [done| | | |].
    + intros x Hx. rewrite conns_of_with, (F2 x Hx). by apply Hback.
    + cbn. by rewrite Hrq.
    + exists fi. by destruct w1 as [[] ? ? ? ? ?].
    + intros r Hrr. rewrite conns_of_with, (O2 r Hrr). change (conns_of v') with cs'. rewrite S1, decide_False; [by apply Hother|].
      intros ->. apply Hrr, list_elem_of_fmap. by exists s.
Qed.
End choice.

(** * With no faults *)

(** The first disk that is on a server. *)
Record first_mapped (g : Z) (s : slot) (ci : Z) (ck : remote_chunk_g) : Prop := {
  fm_slot : aget ss g = Some s;
  fm_disk : s_disk s = Some (ci, ck);
  fm_first : ∀ i t, 0 <= i < g → aget ss i = Some t → mapped t = false
}.

Lemma first_mapped_serving g s ci ck : first_mapped g s ci ck → first_serving no_fault g s ci ck.
Proof. intros [Es Ed Hf]. split; [done|done|done|]. intros i t Hi Et. rewrite serves_mapped. by apply (Hf i). Qed.

(** Disk [g] is the first on a server; the server is up and will deliver [data]; fault
    injection is off. *)
Record readable (w : world) (g : Z) (s : slot) (ci : Z) (ck : remote_chunk_g) (data : list byte) : Prop := {
  rd_ready : ∀ t, t ∈ ss → ready cfg (conns_of w) conn t;
  rd_first : first_mapped g s ci ck;
  rd_usable : usable (sess w) (s_pool s);
  rd_delivers : delivers w (s_pool s) (read_wc (sref conn s) data);
  rd_data : alen data = IS_PAGE_SIZE;
  rd_off : inject_fault (IS_fault_injection (sess w)) ≠ 1;
  rd_access : is_Some (IS_fault_injection_access (IS_fault_injection (sess w)) g)
}.

(** What a read leaves behind. *)
Record was_read (w : world) (offset len : Z) (req : nat) (rq : request) (s : slot) (ck : remote_chunk_g) (page : list byte)
    (v : world) : Prop := {
  rr_posts : posted v = posted w ++ [PostRdma (s_pool s) (sref conn s) (disk_wr WR_RDMA_READ offset len ck)];
  rr_free : ∀ t, t ∈ ss → free_ctxs <$> pool_of (conns_of v) conn (s_pool t) = free_ctxs <$> pool_of (conns_of w) conn (s_pool t);
  rr_reqs : reqs v = <[req := ended (rq <| rq_bio := [[page]] |>)]> (reqs w);
  rr_sess : ∃ fi, sess v = (sess w) <| IS_conns := conns_of v |> <| IS_fault_injection := fi |>;
  rr_others : ∀ r, r ∉ refs → ctx_of (conns_of v) r = ctx_of (conns_of w) r
}.

Lemma rdma_read_Ret offset len req rq old s0 c0 w g s ci ck data :
  reqs w !! req = Some rq → rq_bio rq = [[old]] → alen old = IS_PAGE_SIZE → conn_id rq = conn →
  readable w g s ci ck data → aget ss 0 = Some s0 → ctx_of (conns_of w) (sref conn s0) = Some c0 →
  ∃ v, IS_rdma_read cfg post_ret (target_of <$> ss) offset len req w = Ret (0, v) ∧
    was_read w offset len req rq s ck (if decide (0 = g) then data else rdma_buf c0) v.
Proof using Hrep Hone Hdisks Hpost Hplaced Hlen.
  intros Erq Ebio Hold Hconn [Hr Hg Hu Hd Hl Hoff Hfi] Es0 Ec0.
  destruct (set_up_Ret cfg post_ret Hdisks conn ss Hplaced Hlen no_fault offset len req rq w Erq Hconn Hr Hoff (λ _ _, eq_refl)) as (cs & Hs & E).
  rewrite Hone, !Z.div_1_r in Hs. rewrite Hone in E. set (w1 := with_conns _ cs) in E.
  destruct (opened_replica_Ret no_fault offset len req rq old 0 s0 c0 w w1 g s ci ck data) as (v & Ev & [V1 V2 V3 [fi V4] V5]); try done.
  - by apply first_mapped_serving.
  - split; [done|done|lia].
  - exists v. split; [exact Ev|]. split; [exact V1|exact V2|exact V3| |exact V5]. exists fi. rewrite V4. by destruct w as [[] ? ? ? ? ?].
Qed.

Lemma rdma_read_unmapped offset len req rq w :
  reqs w !! req = Some rq → conn_id rq = conn → (∀ t, t ∈ ss → ready cfg (conns_of w) conn t) →
  inject_fault (IS_fault_injection (sess w)) ≠ 1 → (∀ t, t ∈ ss → mapped t = false) →
  IS_rdma_read cfg post_ret (target_of <$> ss) offset len req w = Ub.
Proof using Hone Hdisks Hplaced Hlen.
  intros Erq Hconn Hr Hoff Hm. destruct (set_up_Ret cfg post_ret Hdisks conn ss Hplaced Hlen no_fault offset len req rq w Erq Hconn Hr Hoff (λ _ _, eq_refl)) as (cs & Hs & E).
  apply set_up_flagged in Hs. unfold IS_rdma_read. apply M_bind_Ub. rewrite E. apply M_bind_Ub.
  unfold post_reads. rewrite Hone. change (loop_ret 0 1 ?b ?s) with (loop_ret_n 1 0 b s). cbn [loop_ret_n].
  destruct (slot_at cfg ss Hlen 0) as (t & Et & Ht); [lia|]. apply M_bind_Ub.
  erewrite M_bind_Ret by (by apply is_bad_mapped). rewrite (Hm t Ht). cbn [negb]. apply M_bind_Ub.
  apply (find_parity_undefined no_fault); [|done|done]. intros x Hx. rewrite serves_mapped. by apply Hm.
Qed.
End read.

Section request.
Context (cfg : config) (post_ret : Z → Z).
Context (Hrep : build cfg = REP) (Hone : NDATAS cfg = 1) (Hdisks : 1 <= NDISKS cfg) (Hpost : ∀ n, post_ret n = 0).

(** A read request in the block layer. *)
Record read_request (ss : list slot) (req : nat) (rq : request) (old : list byte) (w : world) : Prop := {
  rq_placed : placed ss;
  rq_slots : alen ss = NDISKS cfg;
  rq_here : reqs w !! req = Some rq;
  rq_page : rq_bio rq = [[old]];
  rq_old : alen old = IS_PAGE_SIZE;
  rq_is_read : rq_write rq = false;
  rq_targets : lookup_targets cfg (sess w) (slab_index cfg rq) = Some (target_of <$> ss)
}.

Lemma IS_request_read ss req rq old w r :
  read_request ss req rq old w →
  IS_rdma_read cfg post_ret (target_of <$> ss) (chunk_offset cfg rq) (rq_bytes rq) req w = r →
  IS_request cfg post_ret req w = r.
Proof.
  intros [_ _ Erq _ _ Hrd Ets] Er. unfold IS_request.
  erewrite M_bind_Ret by (by apply get_req_Ret). erewrite M_bind_Ret by done.
  erewrite M_bind_Ret by (unfold lift; by rewrite Ets).
  unfold IS_transfer_chunk. rewrite Hrd. unfold mbind, M_bind. rewrite Er. destruct r as [[ret v]| | |]; try done.
  by destruct (Z.eqb_spec ret 0) as [->|].
Qed.

Lemma IS_queue_rq_request req w r :
  IS_request cfg post_ret req w = r →
  IS_queue_rq cfg post_ret req w = match r with
                          | Ret (ret, v) => if ret =? 0 then Ret (BLK_MQ_RQ_QUEUE_OK, v)
                              else (upd_req req (λ rq, rq <| rq_errors := - EIO |>);; mret BLK_MQ_RQ_QUEUE_ERROR) v
                          | Ub => Ub | Bug => Bug | Wait => Wait end.
Proof.
  intros E. unfold IS_queue_rq, mbind, M_bind. rewrite E. destruct r as [[ret v]| | |]; try done. by destruct (ret =? 0).
Qed.

Lemma IS_queue_rq_read ss req rq old w r :
  read_request ss req rq old w →
  IS_rdma_read cfg post_ret (target_of <$> ss) (chunk_offset cfg rq) (rq_bytes rq) req w = r →
  IS_queue_rq cfg post_ret req w = match r with
                          | Ret (ret, v) => if ret =? 0 then Ret (BLK_MQ_RQ_QUEUE_OK, v)
                              else (upd_req req (λ rq, rq <| rq_errors := - EIO |>);; mret BLK_MQ_RQ_QUEUE_ERROR) v
                          | Ub => Ub | Bug => Bug | Wait => Wait end.
Proof. intros Hq Er. by apply IS_queue_rq_request, (IS_request_read ss req rq old). Qed.

Lemma read_request_Ret ss req rq old w s ci ck data :
  read_request ss req rq old w → readable cfg (conn_id rq) ss w 0 s ci ck data →
  ∃ v, IS_queue_rq cfg post_ret req w = Ret (BLK_MQ_RQ_QUEUE_OK, v) ∧
    was_read (conn_id rq) ss w (chunk_offset cfg rq) (rq_bytes rq) req rq s ck data v.
Proof using Hrep Hone Hdisks Hpost.
  intros Hq Hr. destruct (rd_ready _ _ _ _ _ _ _ _ _ Hr s) as [_ (c & Ec & _)].
  { eapply aget_elem, (fm_slot _ _ _ _ _ (rd_first _ _ _ _ _ _ _ _ _ Hr)). }
  destruct (rdma_read_Ret cfg post_ret Hrep Hone Hdisks Hpost (conn_id rq) ss (rq_placed _ _ _ _ _ Hq) (rq_slots _ _ _ _ _ Hq)
    (chunk_offset cfg rq) (rq_bytes rq) req rq old s c w 0 s ci ck data) as (v & E & Hv); try done; try apply Hq.
  { apply Hr. }
  exists v. split; [|exact Hv]. by rewrite (IS_queue_rq_read ss req rq old w _ Hq E).
Qed.

(** C13: a replicated read of a slab whose first disk is on a server that is up
    ([IS_queue_rq], one split, fault injection off): it is accepted after posting exactly
    one RDMA read, to that server, at the request's offset and for its length; the page
    handed back is the data the server delivered; the request is ended exactly once, and
    every context is back on top of its free list. *)
Theorem read_request_correct ss req rq old w s ci ck data :
  read_request ss req rq old w → readable cfg (conn_id rq) ss w 0 s ci ck data →
  ∃ v, IS_queue_rq cfg post_ret req w = Ret (BLK_MQ_RQ_QUEUE_OK, v) ∧
    was_read (conn_id rq) ss w (chunk_offset cfg rq) (rq_bytes rq) req rq s ck data v.
Proof using Hrep Hone Hdisks Hpost. apply read_request_Ret. Qed.

(** The first disk is on no server, disk [g] is the first that is: the page comes from the
    unused context of disk 0. *)
Lemma degraded_request_Ret ss req rq old w g s ci ck data s0 c0 :
  read_request ss req rq old w → 0 < g → readable cfg (conn_id rq) ss w g s ci ck data →
  aget ss 0 = Some s0 → ctx_of (conns_of w) (sref (conn_id rq) s0) = Some c0 →
  ∃ v, IS_request cfg post_ret req w = Ret (0, v) ∧
    was_read (conn_id rq) ss w (chunk_offset cfg rq) (rq_bytes rq) req rq s ck (rdma_buf c0) v.
Proof using Hrep Hone Hdisks Hpost.
  intros Hq Hg Hr Es0 Ec0.
  destruct (rdma_read_Ret cfg post_ret Hrep Hone Hdisks Hpost (conn_id rq) ss (rq_placed _ _ _ _ _ Hq) (rq_slots _ _ _ _ _ Hq)
    (chunk_offset cfg rq) (rq_bytes rq) req rq old s0 c0 w g s ci ck data) as (v & E & Hv); try done; try apply Hq.
  rewrite decide_False in Hv by lia.
  exists v. split; [|exact Hv]. by apply (IS_request_read ss req rq old).
Qed.

(** C21: a degraded read returns stale bytes.  When the first disk is on no server and disk
    [g] is the first that is, the read is posted to disk [g] only, but the completion
    copies the page from the first context without a fault flag, which is the unused
    context of disk 0: the request succeeds with whatever that buffer held before, and
    the data the replica delivered is dropped. *)
Theorem degraded_read_stale ss req rq old w g s ci ck data s0 c0 :
  read_request ss req rq old w → 0 < g → readable cfg (conn_id rq) ss w g s ci ck data →
  aget ss 0 = Some s0 → ctx_of (conns_of w) (sref (conn_id rq) s0) = Some c0 →
  ∃ v, IS_queue_rq cfg post_ret req w = Ret (BLK_MQ_RQ_QUEUE_OK, v) ∧
    was_read (conn_id rq) ss w (chunk_offset cfg rq) (rq_bytes rq) req rq s ck (rdma_buf c0) v.
Proof using Hrep Hone Hdisks Hpost.
  intros Hq Hg Hr Es0 Ec0. destruct (degraded_request_Ret ss req rq old w g s ci ck data s0 c0) as (v & E & Hv); [done..|].
  exists v. split; [|exact Hv]. by rewrite (IS_queue_rq_request _ _ _ E).
Qed.

(** A read of a slab that is on no server is undefined: the search for a replica to
    read tests no bound and runs past [cb_index] and [ctx]. *)
Theorem unmapped_read_undefined ss req rq old w :
  read_request ss req rq old w → (∀ t, t ∈ ss → ready cfg (conns_of w) (conn_id rq) t) →
  inject_fault (IS_fault_injection (sess w)) ≠ 1 → (∀ t, t ∈ ss → mapped t = false) →
  IS_queue_rq cfg post_ret req w = Ub.
Proof using Hone Hdisks.
  intros Hq Hr Hoff Hm. rewrite (IS_queue_rq_read ss req rq old w _ Hq
    (rdma_read_unmapped cfg post_ret Hone Hdisks (conn_id rq) ss (rq_placed _ _ _ _ _ Hq) (rq_slots _ _ _ _ _ Hq)
      (chunk_offset cfg rq) (rq_bytes rq) req rq w (rq_here _ _ _ _ _ Hq) eq_refl Hr Hoff Hm)). done.
Qed.
End request.

(** * Concrete reads *)

Definition test_data : list byte := replicate (Z.to_nat IS_PAGE_SIZE) x02.
(** Server [g] will answer a read of its disk with [data]. *)
Definition read_world_of (data : list byte) (out : Z → bool) (g : Z) : world :=
  {| sess := test_session rep out; reqs := [test_rq false]; counters := [];
     cqs := (λ d, if d =? g then [None; Some (read_wc (sref 0 (test_slot out d)) data)] else []) <$> disks rep;
     posted := []; det := no_det |}.
Definition read_world : (Z → bool) → Z → world := read_world_of test_data.

Lemma test_read_request data out g :
  read_request rep (test_slots rep out) 0 (test_rq false) test_page (read_world_of data out g).
Proof.
  split; [apply test_placed|reflexivity|reflexivity|reflexivity|exact test_page_len|reflexivity|].
  vm_compute. by destruct (out 0), (out 1), (out 2).
Qed.

Lemma read_request_correct_witness :
  let ss := test_slots rep (λ _, false) in
  ∃ v, IS_queue_rq rep (λ _, 0) 0 (read_world (λ _, false) 0) = Ret (BLK_MQ_RQ_QUEUE_OK, v) ∧
    was_read 0 ss (read_world (λ _, false) 0) 8192 4096 0 (test_rq false) (test_slot (λ _, false) 0) (test_remote 0) test_data v.
Proof.
  intros ss. apply (read_request_correct rep (λ _, 0) eq_refl eq_refl ltac:(discriminate) (λ _, eq_refl) ss 0 (test_rq false) test_page
    _ (test_slot (λ _, false) 0) 0 (test_remote 0)); [apply test_read_request|]. split.
  - intros t. by apply test_ready.
  - split; [reflexivity|reflexivity|lia].
  - by apply test_usable.
  - by exists 1%nat, [].
  - unfold alen, test_data. by rewrite length_replicate, Z2Nat.id.
  - discriminate.
  - by eexists.
Defined.

Lemma degraded_read_stale_witness :
  let out := λ d, d =? 0 in let ss := test_slots rep out in
  ∃ v, IS_queue_rq rep (λ _, 0) 0 (read_world out 1) = Ret (BLK_MQ_RQ_QUEUE_OK, v) ∧
    was_read 0 ss (read_world out 1) 8192 4096 0 (test_rq false) (test_slot out 1) (test_remote 1) (rdma_buf (test_ctx rep)) v.
Proof.
  intros out ss. apply (degraded_read_stale rep (λ _, 0) eq_refl eq_refl ltac:(discriminate) (λ _, eq_refl) ss 0 (test_rq false) test_page
    _ 1 (test_slot out 1) 0 (test_remote 1) test_data (test_slot out 0) (test_ctx rep));
    [apply test_read_request|lia| |reflexivity|reflexivity]. split.
  - intros t. by apply test_ready.
  - split; [reflexivity|reflexivity|]. intros i t Hi E. assert (i = 0) as -> by lia. by injection E as <-.
  - by apply test_usable.
  - by exists 1%nat, [].
  - unfold alen, test_data. by rewrite length_replicate, Z2Nat.id.
  - discriminate.
  - by eexists.
Defined.

Lemma unmapped_read_undefined_witness :
  IS_queue_rq rep (λ _, 0) 0 (read_world (λ _, true) 0) = Ub.
Proof.
  apply (unmapped_read_undefined rep (λ _, 0) eq_refl ltac:(discriminate) (test_slots rep (λ _, true)) 0
    (test_rq false) test_page); [apply test_read_request|intros t; by apply test_ready|discriminate|].
  intros t. by intros (d & -> & _)%test_slots_in.
Defined.
