(* ===== verification/EcRead.v ===== *)
(** Erasure-coded reads ([Transfer], [#ifdef EC]), end to end: which disks are read, how the
    completions add up, and the recovery of lost splits before the page is put together. *)

From S2P Require Import Prelude GF256 GFVect GFMatrix Decode Cauchy Config MT Fault State CtxPool Chunks Store Transfer Completion Slots Stripe WritePath Reads ReadPath.

Section read.
Context (cfg : config) (post_ret : Z → Z) (enc : list byte) (e : ec_env).
Context (Hcoded : coded cfg enc) (Hec : build cfg = EC e) (Hpost : ∀ n, post_ret n = 0).
Context (conn : Z) (ss : list slot) (Hplaced : placed ss) (Hlen : alen ss = NDISKS cfg).
Context (faulty : slot → bool).

#[local] Notation "'refs'" := (sref conn <$> ss).
#[local] Notation "'some_refs'" := (Some <$> (sref conn <$> ss)).
#[local] Abbreviation k := (NDATAS cfg).
#[local] Abbreviation m := (NDISKS cfg).
#[local] Abbreviation sz := (cb_size cfg).
#[local] Abbreviation flagged := (flagged conn ss faulty).

(** * Disks that can be read *)

(** Disk [i] is on a server, and no fault is injected into it. *)
Definition up (i : Z) : bool := match aget ss i with Some s => serves faulty s | None => false end.
Definition ups (lo hi : Z) : list Z := filter (λ i, up i = true) (seqZ lo (hi - lo)).

Lemma elem_ups i lo hi : i ∈ ups lo hi ↔ up i = true ∧ lo <= i < hi.
Proof. unfold ups. rewrite list_elem_of_filter, elem_of_seqZ. split; intros [? ?]; (split; [done|lia]). Qed.
Lemma ups_nil lo hi : hi <= lo → ups lo hi = [].
Proof. intros H. unfold ups. by rewrite seqZ_nil by lia. Qed.
Lemma ups_app lo mid hi : lo <= mid <= hi → ups lo hi = ups lo mid ++ ups mid hi.
Proof.
  intros H. unfold ups. replace (hi - lo) with ((mid - lo) + (hi - mid)) by lia.
  rewrite seqZ_app by lia. rewrite filter_app. by replace (lo + (mid - lo)) with mid by lia.
Qed.
Lemma ups_one i : ups i (i + 1) = if up i then [i] else [].
Proof.
  unfold ups. replace (i + 1 - i) with 1 by lia. rewrite seqZ_cons, seqZ_nil by lia. destruct (up i) eqn:E.
  - by rewrite (filter_cons_True (λ i, up i = true)).
  - rewrite (filter_cons_False (λ i, up i = true)); [done|congruence].
Qed.
Lemma ups_snoc lo i : lo <= i → ups lo (i + 1) = ups lo i ++ (if up i then [i] else []).
Proof. intros H. by rewrite (ups_app lo i), ups_one by lia. Qed.
Lemma alen_ups lo hi : lo <= hi → alen (ups lo hi) <= hi - lo.
Proof. intros H. unfold alen, ups. pose proof (length_filter (λ i, up i = true) (seqZ lo (hi - lo))). rewrite length_seqZ in *. lia. Qed.
Lemma NoDup_ups lo hi : NoDup (ups lo hi).
Proof. apply NoDup_filter, NoDup_seqZ. Qed.

(** Enough disks are on servers. *)
Context (Hups : k <= alen (ups 0 m)).

(** The disks that are read. *)
Definition firsts : list Z := take (Z.to_nat k) (ups 0 m).

Lemma firsts_mapped i s : i ∈ firsts → aget ss i = Some s → ∃ ci ck, s_disk s = Some (ci, ck).
Proof.
  intros (n & Hi & _)%elem_of_take Es. apply list_elem_of_lookup_2, elem_ups in Hi as [Hup _].
  unfold up in Hup. rewrite Es in Hup. unfold serves, mapped in Hup. destruct (s_disk s) as [[ci ck]|]; [by eauto|done].
Qed.

Lemma ups_firsts g : 0 <= g <= m → alen (ups 0 g) = k → firsts = ups 0 g.
Proof.
  intros Hg Hk. unfold firsts. rewrite (ups_app 0 g m) by lia. rewrite take_app_le by (unfold alen in Hk; lia).
  apply take_ge. unfold alen in Hk. lia.
Qed.

Lemma is_bad_up i w : 0 <= i < m → flagged (conns_of w) → is_bad (target_of <$> ss) some_refs i w = Ret (negb (up i), w).
Proof using Hplaced Hlen.
  intros Hi Hf. destruct (slot_at cfg ss Hlen i Hi) as (s & Es & _). unfold up. rewrite Es. by apply (is_bad_Ret conn ss Hplaced faulty).
Qed.

Lemma up_slot i : up i = true → ∃ s ci ck, aget ss i = Some s ∧ s_disk s = Some (ci, ck) ∧ 0 <= i < m.
Proof using Hlen.
  unfold up, serves, mapped. destruct (aget ss i) as [s|] eqn:Es; [|done]. destruct (s_disk s) as [[ci ck]|] eqn:Ed; [|done].
  intros _. exists s, ci, ck. split_and!; [done|done|apply aget_lt in Es; lia..].
Qed.

(** * Posting *)

Lemma find_good_Ret fuel j q w :
  flagged (conns_of w) → 0 <= j <= q → k + q < m → up (k + q) = true → q - j < Z.of_nat fuel →
  ∃ p, j <= p <= q ∧ find_parity cfg fuel (target_of <$> ss) some_refs j w = Ret (p, w) ∧ up (k + p) = true ∧
    ups (k + j) (k + p) = [].
Proof using Hcoded Hplaced Hlen.
  intros Hf. pose proof (cd_splits _ _ Hcoded). revert j. induction fuel as [|fuel IH]; intros j Hj Hq Hu Hfuel; [lia|].
  cbn [find_parity]. erewrite M_bind_Ret by (apply is_bad_up; [lia|done]). destruct (up (k + j)) eqn:Eu; cbn [negb].
  - exists j. split_and!; [lia|lia|done|done|by apply ups_nil; lia].
  - assert (j ≠ q) by (intros ->; congruence).
    destruct (IH (j + 1)) as (p & Hp & E & Hup & Hn); [lia|lia|done|lia|]. exists p. split_and!; [lia|lia|done|done|].
    rewrite (ups_app _ (k + j + 1)), ups_one, Eu by lia. by replace (k + j + 1) with (k + (j + 1)) by lia.
Qed.

(** The access counters can go down [n] times. *)
Definition armed (n : Z) (fi : fault_injection) : Prop :=
  alen (disk_fault fi) = m ∧ ∀ i d, aget (disk_fault fi) i = Some d → - 2 ^ 63 + n <= access_count_before_next_fault d < 2 ^ 63.

Lemma access_armed n fi i :
  0 < n → armed n fi → 0 <= i < m → ∃ fi', IS_fault_injection_access fi i = Some fi' ∧ armed (n - 1) fi'.
Proof.
  intros Hn [Hl Hd] Hi. destruct (proj2 (aget_is_Some (disk_fault fi) i)) as [d Ed]; [lia|].
  unfold IS_fault_injection_access. rewrite Ed. step_bind. pose proof (Hd i d Ed).
  rewrite s64_Some by lia. step_bind. unfold update_disk. rewrite aset_Some by lia. step_bind.
  eexists; split; [done|]. split; cbn; [by rewrite alen_insert|].
  intros j d'. rewrite aget_insert by lia. case_decide; [intros [= <-]; cbn; lia|].
  intros E. pose proof (Hd j d' E). lia.
Qed.

(** The reads of the disks in a list. *)
Definition read_posts (offset len : Z) (order : list Z) : list post :=
  mjoin (option_list <$> ((λ i, s ← aget ss i; disk_post WR_RDMA_READ conn offset len s) <$> order)).

Lemma read_posts_snoc offset len order i s ci ck :
  aget ss i = Some s → s_disk s = Some (ci, ck) →
  read_posts offset len (order ++ [i]) =
    read_posts offset len order ++ [PostRdma (s_pool s) (sref conn s) (disk_wr WR_RDMA_READ offset len ck)].
Proof.
  intros Es Ed. unfold read_posts. rewrite !fmap_app, join_app. f_equal. cbn. rewrite Es. cbn. unfold disk_post. by rewrite Ed.
Qed.

Definition posting (offset len : Z) (w : world) (i j : Z) (order : list Z) (v : world) : Prop :=
  (∃ fi, v = w <| posted := posted w ++ read_posts offset len order |> <| sess := (sess w) <| IS_fault_injection := fi |> |> ∧
     armed (k - i) fi) ∧
  order ≡ₚ ups 0 i ++ ups k (k + j) ∧ alen order = i ∧ 0 <= j ∧ k + j <= m ∧ (0 < j → up (k + j - 1) = true).

(** Every mapped disk's request is ready to be posted. *)
Definition set_to_read (offset len : Z) (cs : list connection) : Prop :=
  ∀ i s ci ck, aget ss i = Some s → s_disk s = Some (ci, ck) →
    ∃ c, ctx_of cs (sref conn s) = Some c ∧ sq_wr c = disk_wr WR_RDMA_READ offset len ck.

Lemma posting_step offset len w i j order v d p :
  set_to_read offset len (conns_of w) → posting offset len w i j order v → i < k → up d = true →
  order ++ [d] ≡ₚ ups 0 (i + 1) ++ ups k (k + p) → 0 <= p → k + p <= m → (0 < p → up (k + p - 1) = true) →
  ∃ v', post_read post_ret (target_of <$> ss) some_refs d v = Ret (0, v') ∧
    posting offset len w (i + 1) p (order ++ [d]) v'.
Proof using Hpost Hlen.
  intros Hset ((fi & -> & Ha) & _ & Hl & _ & _ & _) Hi Hd Hperm Hp Hm Hup.
  destruct (up_slot d Hd) as (s & ci & ck & Es & Ed & Hdm).
  destruct (Hset d s ci ck Es Ed) as (c & Ec & Ewr).
  destruct (access_armed (k - i) fi d) as (fi' & Ef & Ha'); [lia|done|done|].
  eexists. split.
  - eapply (post_read_Ret post_ret Hpost conn ss d s ci ck c fi'); [done|done|exact Ec|exact Ef].
  - split_and!; [|done|by rewrite alen_app, Hl|done|done|done].
    exists fi'. split; [|by replace (k - (i + 1)) with (k - i - 1) by lia].
    rewrite (read_posts_snoc _ _ _ _ _ _ _ Es Ed), Ewr, app_assoc. by destruct w as [[] ? ? ? ? ?].
Qed.

(** A lost split has a good parity left to replace it. *)
Lemma parity_left i j order :
  0 <= i < k → up i = false → order ≡ₚ ups 0 i ++ ups k (k + j) → alen order = i → 0 <= j → k + j <= m →
  ∃ q, j <= q ∧ k + q < m ∧ up (k + q) = true.
Proof using Hcoded Hups.
  intros Hi Hu Hperm Hl Hj Hjm. pose proof (cd_splits _ _ Hcoded).
  destruct (ups (k + j) m) as [|d rest] eqn:E.
  - exfalso. apply Permutation_length in Hperm. rewrite length_app in Hperm.
    rewrite (ups_app 0 k m), (ups_app k (k + j) m), E, app_nil_r, (ups_app 0 i k), (ups_app i (i + 1) k), ups_one, Hu in Hups by lia.
    pose proof (alen_ups (i + 1) k). unfold alen in *. rewrite !length_app in Hups. cbn in Hups. lia.
  - assert (d ∈ ups (k + j) m) as Hd by (rewrite E; left). apply elem_ups in Hd as [Hd Hr].
    exists (d - k). replace (k + (d - k)) with d by lia. split_and!; (done || lia).
Qed.

Lemma post_stripe_Ret offset len w :
  flagged (conns_of w) → set_to_read offset len (conns_of w) → armed k (IS_fault_injection (sess w)) →
  ∃ j order v, post_reads cfg post_ret (target_of <$> ss) some_refs w = Ret (inl j, v) ∧ posting offset len w k j order v.
Proof using Hcoded Hpost Hplaced Hlen Hups.
  intros Hf Hset Ha. pose proof (cd_splits _ _ Hcoded).
  unfold post_reads. match goal with |- context [loop_ret 0 k ?body 0] =>
    destruct (loop_ret_inv (λ i j v, ∃ order, posting offset len w i j order v) body 0 k 0 w) as (j & v & E & order & Hv) end;
    [lia| | |by exists j, order, v].
  - exists []. split_and!; [|by rewrite !ups_nil by lia|done|done|lia|lia].
    exists (IS_fault_injection (sess w)). split; [|by rewrite Z.sub_0_r].
    cbn. rewrite app_nil_r. by destruct w as [[] ? ? ? ? ?].
  - intros i j v Hi (order & Hv). pose proof Hv as ((fi & Ev & _) & Hperm & Hl & Hj & Hjm & Hup).
    assert (flagged (conns_of v)) as Hfv by (by rewrite Ev).
    erewrite M_bind_Ret by (apply is_bad_up; [lia|done]). destruct (up i) eqn:Eu; cbn [negb].
    + destruct (posting_step offset len w i j order v i j) as (v' & E & Hv'); [done|done|lia|done| |lia|lia|done|].
      { rewrite ups_snoc, Eu by lia. rewrite Hperm, <- !app_assoc. f_equiv. apply Permutation_app_comm. }
      exists j, v'. split; [by erewrite M_bind_Ret by exact E|by exists (order ++ [i])].
    + destruct (parity_left i j order) as (q & Hq & Hqm & Huq); [lia|done..|].
      destruct (find_good_Ret (S (Z.to_nat m)) j q v) as (p & Hp & Ep & Hupp & Hn); [done|lia|lia|done|lia|].
      erewrite M_bind_Ret by exact Ep. destruct (Z.ltb_spec p (m - k)); [|lia].
      destruct (posting_step offset len w i j order v (k + p) (p + 1)) as (v' & E & Hv'); [done|done|lia|done| |lia|lia| |].
      { rewrite ups_snoc, Eu, app_nil_r by lia. rewrite (ups_app k (k + j) (k + (p + 1))) by lia.
        replace (k + (p + 1)) with (k + p + 1) by lia. rewrite (ups_snoc (k + j)), Hn, Hupp by lia. cbn.
        by rewrite Hperm, <- app_assoc. }
      { intros _. by replace (k + (p + 1) - 1) with (k + p) by lia. }
      exists (p + 1), v'. split; [by erewrite M_bind_Ret by exact E|by exists (order ++ [k + p])].
Qed.

(** What the posting loop ends with: the last disk that is waited for is one that was read. *)
Lemma posted_reads offset len w j order v :
  posting offset len w k j order v →
  order ≡ₚ ups 0 (k + j) ∧ firsts = ups 0 (k + j) ∧ alen (ups 0 (k + j)) = k ∧ up (k + j - 1) = true ∧ 0 <= j ∧ k + j <= m.
Proof using Hcoded.
  intros (_ & Hperm & Hl & Hj & Hjm & Hup). pose proof (cd_splits _ _ Hcoded).
  rewrite <- (ups_app 0 k (k + j)) in Hperm by lia.
  assert (alen (ups 0 (k + j)) = k) as Hk. { unfold alen in *. by rewrite <- (Permutation_length Hperm). }
  split_and!; [done|apply ups_firsts; [lia|done]|done| |done|done].
  destruct (decide (0 < j)) as [H0|H0]; [by apply Hup|]. assert (j = 0) as -> by lia. rewrite Z.add_0_r in *.
  destruct (up (k - 1)) eqn:E; [done|]. exfalso. replace k with (k - 1 + 1) in Hk at 1 by lia.
  rewrite ups_snoc, E, app_nil_r in Hk by lia. pose proof (alen_ups 0 (k - 1)). lia.
Qed.

(** * Putting the page together *)

#[local] Abbreviation holds_buf := (holds_buf conn ss).
#[local] Abbreviation stripe_buf := (stripe_buf cfg enc).

(** The page whose splits are the given buffers. *)
Definition assemble (bufs : Z → list byte) : list byte := (λ o, bget (bufs (o / sz)) (o mod sz)) <$> seqZ 0 IS_PAGE_SIZE.

Lemma aget_assemble bufs o : 0 <= o < IS_PAGE_SIZE → aget (assemble bufs) o = Some (bget (bufs (o / sz)) (o mod sz)).
Proof. intros Ho. unfold assemble. by rewrite aget_map, seqZ_at. Qed.
Lemma alen_assemble bufs : alen (assemble bufs) = IS_PAGE_SIZE.
Proof. unfold assemble, alen. rewrite length_fmap, length_seqZ. done. Qed.

(** Its splits are those buffers. *)
Lemma share_assemble bufs i : 0 <= i < k → alen (bufs i) = sz → share cfg (assemble bufs) i = bufs i.
Proof using Hcoded.
  intros Hi Lb. destruct (share_size cfg enc Hcoded) as [Hsz Hpos]. apply array_ext. intros o Ho.
  destruct (decide (o < sz)).
  - rewrite aget_share by lia. rewrite (bget_Some _ _ _ (aget_assemble bufs (i * sz + o) ltac:(nia))).
    rewrite Z.div_add_l, Z.div_small, Z.add_0_r by lia. rewrite (Z.add_comm (i * sz)), Z.mod_add, Z.mod_small by lia.
    by rewrite aget_bget by lia.
  - rewrite !(proj2 (aget_None _ o)); [done|lia|rewrite (alen_share cfg enc Hcoded); lia].
Qed.
Lemma assemble_shares bufs page : alen page = IS_PAGE_SIZE → (∀ i, 0 <= i < k → bufs i = share cfg page i) → assemble bufs = page.
Proof using Hcoded.
  intros Lp Hb. destruct (share_size cfg enc Hcoded) as [Hsz Hpos]. apply array_ext. intros o Ho. destruct (decide (o < IS_PAGE_SIZE)).
  - rewrite aget_assemble by lia. pose proof (Z.mod_pos_bound o sz Hpos). pose proof (Z.div_mod o sz ltac:(lia)).
    assert (0 <= o / sz < k) by (split; [apply Z.div_pos; lia|apply Z.div_lt_upper_bound; lia]).
    rewrite Hb by done. rewrite (bget_Some _ _ _ (aget_share cfg page (o / sz) (o mod sz) ltac:(lia))).
    rewrite aget_bget by lia. do 2 f_equal. lia.
  - rewrite !(proj2 (aget_None _ o)); [done|lia|rewrite alen_assemble; lia].
Qed.

Lemma merge_bufs bufs old u :
  alen old = IS_PAGE_SIZE → (∀ i, 0 <= i < k → holds_buf (conns_of u) i (bufs i) ∧ alen (bufs i) = sz) →
  merge_page cfg refs 0 old u = Ret (assemble bufs, u).
Proof using Hcoded.
  intros Lo Hb. pose proof (cd_splits _ _ Hcoded). destruct (share_size cfg enc Hcoded) as [Hsz Hpos].
  unfold merge_page. rewrite Z.div_0_l, (share_len cfg enc Hcoded) by lia.
  match goal with |- loop 0 k ?body _ _ = _ =>
    destruct (loop_inv (λ i p v, v = u ∧ alen p = IS_PAGE_SIZE ∧ ∀ o, 0 <= o < i * sz → aget p o = aget (assemble bufs) o) body 0 k old u)
      as (p & v & -> & -> & L & Hp) end; [lia| | |].
  - split_and!; [done|done|intros; lia].
  - intros i p v Hi (-> & L & Hp). destruct (Hb i Hi) as [(s & c & Es & Ec & Eb) Lb].
    destruct (memcpy_at_spec p (i * sz) (bufs i) 0 sz) as (d & Ed & Ld & Hd); [nia|lia|lia|nia|lia|].
    exists d, u. split; [|split_and!; [done|lia|]].
    + erewrite M_bind_Ret by (unfold lift; by rewrite (aget_refs conn ss i s)).
      erewrite M_bind_Ret by (by apply get_ctx_Ret). unfold lift. rewrite (share_offset cfg enc Hcoded), Eb. by rewrite Ed.
    + intros o Ho. rewrite Hd by lia. case_decide.
      * rewrite <- (share_assemble bufs i Hi Lb). rewrite aget_share by lia. rewrite aget_bget by (rewrite alen_assemble; nia).
        do 2 f_equal. lia.
      * apply Hp. nia.
  - do 2 f_equal. apply array_ext. intros o Ho. destruct (decide (o < k * sz)); [by apply Hp|].
    rewrite !(proj2 (aget_None _ o)); [done|rewrite alen_assemble; lia|lia].
Qed.

Lemma merge_page_Ret page old u :
  alen page = IS_PAGE_SIZE → alen old = IS_PAGE_SIZE → (∀ i, 0 <= i < k → holds_buf (conns_of u) i (stripe_buf page i)) →
  merge_page cfg refs 0 old u = Ret (page, u).
Proof using Hcoded Hec.
  intros Lp Lo Hb. rewrite (merge_bufs (stripe_buf page)).
  - rewrite (assemble_shares _ page); [done..|]. intros i Hi. by apply (stripe_split cfg enc Hcoded e).
  - done.
  - intros i Hi. split; [by apply Hb|apply (alen_stripe cfg enc Hcoded)].
Qed.

(** * Recovery *)

(** The failure detector knows which disks are lost. *)
Record detected (d : detector) : Prop := {
  dt_erasures : erasures k m (src_err_list d) (src_in_err d) (nerrs d) (nsrcerrs d);
  dt_bound : nerrs d <= m - k;
  dt_marks : ∀ i, 0 <= i < m → aget (src_in_err d) i = Some (if up i then 0 else 1);
  dt_listed : ∀ i, 0 <= i < m → up i = false → ∃ p, 0 <= p < nerrs d ∧ aget (src_err_list d) p = Some i;
  dt_lost : ∀ p i, 0 <= p < nerrs d → aget (src_err_list d) p = Some i → up i = false;
  dt_distinct : NoDup (take (Z.to_nat (nerrs d)) (src_err_list d))
}.

(** The decode tables are those of a matrix that [gf_gen_decode_matrix] made for the first
    survivors ([Decode.decoded]). *)
Definition decodes (d : detector) : Prop :=
  ∃ dec tbls0, decoded k m enc (src_in_err d) (src_err_list d) (nerrs d) 0 dec (decode_index e) ∧
    (∀ i, 0 <= i < k → aget (decode_index e) i = aget (survivors (src_in_err d) m) i) ∧
    nerrs d * k <= alen dec ∧ nerrs d * k * 32 <= alen tbls0 ∧
    decode_tbls e = ec_init_tables k (nerrs d) dec tbls0.

Lemma survivors_ups d : detected d → survivors (src_in_err d) m = ups 0 m.
Proof.
  intros Hd. unfold survivors, ups. rewrite Z.sub_0_r. apply filter_ext_in.
  intros i Hi%elem_of_seqZ. rewrite (dt_marks _ Hd i) by lia. cbn. by destruct (up i).
Qed.

Lemma entries_take a n : 0 <= n <= alen a → entries a n = Some (take (Z.to_nat n) a).
Proof.
  intros Hn. unfold entries. destruct (for_up_inv (λ i l, l = take (Z.to_nat i) a)
    (λ i l, x ← aget a i; Some (l ++ [x])) 0 n []) as (l & -> & ->); [lia|done| |done].
  intros i l Hi ->. destruct (proj2 (aget_is_Some a i)) as [x Ex]; [lia|]. rewrite Ex. eexists; split; [done|].
  apply aget_Some in Ex as [_ Ex]. replace (Z.to_nat (i + 1)) with (S (Z.to_nat i)) by lia. by rewrite (take_S_r _ _ _ Ex).
Qed.

Lemma elem_firsts i : i ∈ firsts → up i = true ∧ 0 <= i < m.
Proof. intros Hi%subseteq_take. by apply elem_ups. Qed.
Lemma elem_lost d i :
  detected d → i ∈ take (Z.to_nat (nerrs d)) (src_err_list d) → ∃ p, 0 <= p < nerrs d ∧ aget (src_err_list d) p = Some i.
Proof.
  intros Hd [p Ep]%elem_of_aget. pose proof (aget_lt _ _ _ Ep) as Hp. unfold alen in Hp. rewrite length_take in Hp.
  exists p. rewrite aget_take in Ep by lia. split; [lia|done].
Qed.
Lemma lost_entry d p i : detected d → 0 <= p < nerrs d → aget (src_err_list d) p = Some i → 0 <= i < m ∧ up i = false.
Proof.
  intros Hd Hp Ep. split; [|by eapply dt_lost]. destruct (dt_erasures _ Hd) as [Hk _ _ _ Hsrc Hpar _].
  destruct (decide (p < nsrcerrs d)); [pose proof (Hsrc p i ltac:(lia) Ep)|pose proof (Hpar p i ltac:(lia) Ep)]; lia.
Qed.

(** The buffers of the stripe after recovery: all splits are there. *)
Lemma recover_Ret page d u :
  det u = d → detected d → (0 < nsrcerrs d → decodes d) →
  (∀ i, i ∈ firsts → holds_buf (conns_of u) i (stripe_buf page i)) →
  (∀ i, 0 <= i < m → ∃ b, holds_buf (conns_of u) i b ∧ alen b = sz) →
  ∃ cs f, recover cfg e refs sz u = Ret ((), with_conns u cs) ∧ rebuffered conn ss (conns_of u) f cs ∧
    ∀ i, 0 <= i < k → holds_buf cs i (stripe_buf page i).
Proof using Hcoded Hec Hplaced Hlen Hups.
  intros Eu Hd Hdec Hb Hall. pose proof (cd_splits _ _ Hcoded) as Hk. pose proof (dt_erasures _ Hd) as [_ _ Hlist Hcnt Hsrc Hpar _].
  unfold recover. erewrite M_bind_Ret by done. rewrite Eu.
  assert (∀ i, 0 <= i < k → up i = true → holds_buf (conns_of u) i (stripe_buf page i)) as Hup.
  { intros i Hi Hui. apply Hb. assert (i ∈ ups 0 m) as Hin by (apply elem_ups; split; [done|lia]).
    unfold firsts. rewrite (ups_app 0 k m) by lia. rewrite take_app_ge by (pose proof (alen_ups 0 k); unfold alen in *; lia).
    apply elem_of_app. left. apply elem_ups. split; [done|lia]. }
  destruct (Z.ltb_spec 0 (nsrcerrs d)) as [Hpos|Hnone].
  2: { exists (conns_of u), (λ _, None). rewrite with_conns_id. split_and!; [done|apply rebuffered_refl|].
       intros i Hi. apply Hup; [done|]. destruct (up i) eqn:Eui; [done|].
       destruct (dt_listed _ Hd i) as (p & Hp & Ep); [lia|done|]. pose proof (Hpar p i ltac:(lia) Ep). lia. }
  destruct (Hdec Hpos) as (dec & tbls0 & Hdc & Hix & Ldec & Lt & Et).
  destruct (ec_init_tables_coef_spec k (nerrs d) dec tbls0) as (tbls & Etb & Ltb & Hcoef); [lia..|].
  set (recov := take (Z.to_nat (nerrs d)) (src_err_list d)).
  assert (take (Z.to_nat k) (decode_index e) = firsts) as Efirst.
  { unfold firsts. rewrite <- (survivors_ups d Hd). apply array_ext. intros i Hi.
    destruct (decide (i < k)); [by rewrite !aget_take, Hix by lia|].
    rewrite !(proj2 (aget_None _ i)); [done|unfold alen; rewrite length_take; lia..]. }
  assert (alen firsts = k) as Lf by (unfold firsts, alen in *; rewrite length_take; lia).
  erewrite M_bind_Ret by (unfold lift; by rewrite entries_take by lia).
  destruct (Z.ltb_spec (m - k) (nerrs d)) as [Hbig|_]; [pose proof (dt_bound _ Hd); lia|].
  erewrite M_bind_Ret by done.
  assert (k <= alen (decode_index e)) as Lix.
  { destruct (proj2 (aget_is_Some (survivors (src_in_err d) m) (k - 1))) as [x Ex].
    - rewrite survivors_ups by done. lia.
    - rewrite <- Hix in Ex by lia. apply aget_lt in Ex. lia. }
  erewrite M_bind_Ret by (unfold lift; by rewrite entries_take by lia). rewrite Efirst, Et, Etb.
  set (bufs := buf_of conn ss (conns_of u)).
  assert (∀ i b, holds_buf (conns_of u) i b → bufs i = b) as Hbufs.
  { intros i b (s & c & Es & Ec & <-). by apply (buf_of_Some conn ss (conns_of u) i s c). }
  assert (∀ i, 0 <= i < m → holds_buf (conns_of u) i (bufs i)) as Hhold.
  { intros i Hi. destruct (Hall i Hi) as (b & H & _). by rewrite (Hbufs i b H). }
  assert (∀ i, 0 <= i < m → alen (bufs i) = sz) as Hsize.
  { intros i Hi. destruct (Hall i Hi) as (b & H & Lb). by rewrite (Hbufs i b H). }
  assert (∀ i, i ∈ firsts ++ recov → 0 <= i < m) as Hrange.
  { intros i [Hi|Hi]%elem_of_app; [by apply elem_firsts in Hi as [_ Hi]|].
    apply elem_lost in Hi as (p & Hp & Ep); [|done]. by apply (lost_entry d p i Hd). }
  assert (overlapping firsts recov = false) as Hover.
  { unfold overlapping. rewrite bool_decide_true; [done|]. split; [by apply dt_distinct|].
    apply Forall_forall. intros i (p & Hp & Ep)%(elem_lost d i Hd) [Hi _]%elem_firsts.
    destruct (lost_entry d p i Hd Hp Ep). congruence. }
  destruct (encode_rows cfg enc Hcoded e (nerrs d) tbls (bufs <$> firsts) (bufs <$> recov)) as (out & Eo & Lo & Hout).
  { pose proof (cd_build _ _ Hcoded) as Hbd. rewrite Hec in Hbd. apply Hbd. } { lia. } { lia. }
  { eapply ec_init_tables_tabulated; [| | | |exact Etb]; lia. }
  { unfold alen. rewrite length_fmap. exact Lf. }
  { intros j r Er. rewrite aget_map in Er. destruct (aget firsts j) as [i|] eqn:Ei; [|done]. injection Er as <-.
    apply Hsize, Hrange, elem_of_app. left. by eapply aget_elem. }
  { unfold alen. rewrite length_fmap. unfold recov, alen in *. rewrite length_take. lia. }
  { intros j r Er. rewrite aget_map in Er. destruct (aget recov j) as [i|] eqn:Ei; [|done]. injection Er as <-.
    apply Hsize, Hrange, elem_of_app. right. by eapply aget_elem. }
  destruct (encode_bufs_Ret cfg conn ss Hplaced e sz (nerrs d) tbls firsts recov bufs out u Hover) as (cs & E & Hr); [|exact Eo|].
  { intros i Hi. by apply Hhold, Hrange. }
  exists cs, (buf_at recov out). split; [exact E|]. split; [exact Hr|].
  intros i Hi. destruct (Hall i) as (b & (s & c & Es & Ec & Eb) & _); [lia|].
  exists s, (with_buf (buf_at recov out i) c). split; [done|]. split; [by eapply rebuffered_get|].
  destruct (up i) eqn:Eui.
  - rewrite buf_at_None.
    + destruct (Hup i Hi Eui) as (s' & c' & Es' & Ec' & Eb'). cbn. congruence.
    + intros (p & Hp & Ep)%(elem_lost d i Hd). destruct (lost_entry d p i Hd Hp Ep). congruence.
  - destruct (dt_listed _ Hd i) as (p & Hp & Ep); [lia|done|].
    rewrite (buf_at_nodup recov out p i (stripe_buf page i)).
    + done.
    + by apply dt_distinct.
    + unfold recov. by rewrite aget_take.
    + rewrite Hout by done. f_equal. unfold stripe_buf. apply list_fmap_ext. intros ? o Ho.
      apply list_elem_of_lookup_2, elem_of_seqZ in Ho.
      rewrite <- (dc_recovers _ _ _ _ _ _ _ _ _ Hdc eq_refl (λ j, bget page (j * sz + o)) p i Hp Ep).
      apply bsum_ext. intros j Hj. rewrite Hcoef, gf_mul_comm by lia. f_equal.
      destruct (proj2 (aget_is_Some firsts j)) as [x Ex]; [lia|].
      rewrite (mget_Some _ _ _ (stripe_buf page x)).
      * rewrite (bget_Some _ _ _ (aget_stripe cfg enc page x o ltac:(lia))).
        rewrite <- Efirst, aget_take in Ex by lia. by rewrite Ex.
      * rewrite aget_map, Ex. cbn. f_equal. apply Hbufs, Hb. by eapply aget_elem.
Qed.

(** * Waiting for the data *)

(** The context of disk [i] when its data has arrived. *)
Definition filled (page : list byte) (i : Z) (c : rdma_ctx) : rdma_ctx :=
  if up i then finished (c <| rdma_buf := stripe_buf page i |>) else c.

Lemma filled_same page i c : ctxs (filled page i c) = ctxs c ∧ fault (filled page i c) = fault c.
Proof. unfold filled. by destruct (up i). Qed.

(** The reads are under way: the contexts are linked and belong to the request, and the
    servers of the disks that are read will deliver the lines of the stripe of [page]. *)
Record under_way (page : list byte) (cnt req : nat) (w : world) : Prop := {
  uw_ctx : ∀ i s, aget ss i = Some s → ∃ c, ctx_of (conns_of w) (sref conn s) = Some c ∧ alen (rdma_buf c) = sz ∧
    ctxs c = some_refs ∧ fault c = flag faulty s ∧ (mapped s = true → ctx_req c = Some req ∧ ctx_cnt c = Some cnt ∧ in_flight c = CTX_R_IN_FLIGHT);
  uw_free : ∀ s, s ∈ ss → ∃ f, free_ctxs <$> pool_of (conns_of w) conn (s_pool s) = Some f ∧ -1 <= pool_tail f < alen (ctx_list f) - 1;
  uw_delivers : ∀ i s, i ∈ firsts → aget ss i = Some s →
    usable (sess w) (s_pool s) ∧ delivers w (s_pool s) (read_wc (sref conn s) (stripe_buf page i))
}.

(** Progress of the wait: [w] before it, [v] when the disks below [j] have been waited for. *)
Record arrived (page : list byte) (cnt : nat) (w : world) (j : Z) (v : world) : Prop := {
  ar_world : v = w <| sess := (sess w) <| IS_conns := conns_of v |> |> <| counters := counters v |> <| cqs := cqs v |>;
  ar_counters : counters v !! cnt = Some (k - alen (ups 0 j));
  ar_cqs : ∀ i s, j <= i → aget ss i = Some s → aget (cqs v) (s_pool s) = aget (cqs w) (s_pool s);
  ar_conns : progress refs (filled page) (λ _, Some) (conns_of w) j (conns_of v)
}.

Lemma progress_skip f cs j v s c :
  aget ss j = Some s → progress refs f (λ _, Some) cs j v → ctx_of v (sref conn s) = Some c → f j c = c →
  progress refs f (λ _, Some) cs (j + 1) v.
Proof using Hplaced.
  intros Es Hp Ec Hf. eapply progress_set; [by apply separate_refs|by apply aget_refs|done|exact Ec|].
  rewrite Hf. by apply ctx_set_refl.
Qed.

Section wait.
Context (page : list byte) (cnt req : nat) (rq : request) (w : world).
Context (Hway : under_way page cnt req w) (Hreq : reqs w !! req = Some rq).

Lemma filled_ctx j cs i s :
  progress refs (filled page) (λ _, Some) (conns_of w) j cs → aget ss i = Some s →
  ∃ c, ctx_of (conns_of w) (sref conn s) = Some c ∧ ctx_of cs (sref conn s) = Some (if decide (i < j) then filled page i c else c).
Proof using Hway.
  intros Hp Es. destruct (uw_ctx _ _ _ _ Hway i s Es) as (c & Ec & _). exists c. split; [done|].
  rewrite (pr_ctx _ _ _ _ _ _ Hp i _ (aget_refs conn ss i s Es)), Ec. by case_decide.
Qed.

Lemma arrived_flagged j v : arrived page cnt w j v → flagged (conns_of v).
Proof using Hway.
  intros Ha s [i Es]%elem_of_aget. destruct (uw_ctx _ _ _ _ Hway i s Es) as (c & Ec & _ & _ & Hf & _).
  destruct (filled_ctx j (conns_of v) i s (ar_conns _ _ _ _ _ Ha) Es) as (c' & Ec' & E).
  assert (c' = c) as -> by congruence. eexists. split; [exact E|]. case_decide; [by rewrite (proj2 (filled_same page i c))|done].
Qed.

(** The data of disk [i] arrives: it is in the buffer when [client_read_done] is called. *)
Lemma data_arrives i s v :
  aget ss i = Some s → i ∈ firsts → arrived page cnt w i v →
  ∃ c l cs, ctx_of (conns_of w) (sref conn s) = Some c ∧ ctx_of (conns_of v) (sref conn s) = Some c ∧
    ctx_req c = Some req ∧ ctx_cnt c = Some cnt ∧ (∀ p, p ≠ s_pool s → aget l p = aget (cqs v) p) ∧
    ctx_set (conns_of v) cs (sref conn s) (c <| rdma_buf := stripe_buf page i |>) ∧
    ∀ u, client_read_done cfg (sref conn s) (with_conns (v <| cqs := l |>) cs) = Ret (0, u) →
      rdma_cq_event_handler cfg post_ret (s_pool s) v = Ret ((), u).
Proof using Hcoded Hway.
  intros Es Hi Ha. destruct (uw_ctx _ _ _ _ Hway i s Es) as (c & Ec & Lb & _ & _ & Hm).
  pose proof (elem_firsts i Hi) as [Hup _]. unfold up in Hup. rewrite Es in Hup. destruct (Hm (serves_on _ _ Hup)) as (Hr & Hc & _).
  destruct (uw_delivers _ _ _ _ Hway i s Hi Es) as [Hu (n & q & Hd)].
  destruct (filled_ctx i (conns_of v) i s (ar_conns _ _ _ _ _ Ha) Es) as (c' & Ec' & Ev).
  assert (c' = c) as -> by congruence. rewrite decide_False in Ev by lia.
  destruct (read_event cfg post_ret (s_pool s) (sref conn s) (stripe_buf page i) c v) as (l & cs & Hl & Hs & Hev).
  - rewrite (ar_world _ _ _ _ _ Ha). exact Hu.
  - exists n, q. by rewrite (ar_cqs _ _ _ _ _ Ha i s).
  - done.
  - by rewrite Lb, (alen_stripe cfg enc Hcoded).
  - exists c, l, cs. split_and!; done.
Qed.

Lemma counted j : up j = true → 0 <= j → alen (ups 0 (j + 1)) = alen (ups 0 j) + 1.
Proof. intros Hu Hj. by rewrite ups_snoc, Hu, alen_app by lia. Qed.

(** A disk before the last one that is read. *)
Lemma arrival_step i s v :
  aget ss i = Some s → (up i = true → i ∈ firsts ∧ alen (ups 0 (i + 1)) < k) → arrived page cnt w i v →
  ∃ v', (b ← is_bad (target_of <$> ss) some_refs i;
         if (b : bool) then mret ()
         else t ← the_target (target_of <$> ss) i; c ← deref (t_cb_ptr t); rdma_cq_event_handler cfg post_ret c) v
        = Ret ((), v') ∧ arrived page cnt w (i + 1) v'.
Proof using Hcoded Hplaced Hlen Hway Hreq.
  intros Es Hlast Ha. pose proof (aget_lt _ _ _ Es) as Hi. pose proof Ha as [Hw Hcnt Hcqs Hpr].
  erewrite M_bind_Ret by (apply is_bad_up; [lia|by eapply arrived_flagged]). destruct (up i) eqn:Eu; cbn [negb].
  - destruct (Hlast eq_refl) as [Hf Hmore]. destruct (up_slot i Eu) as (s' & ci & ck & Es' & Ed & _).
    assert (s' = s) as -> by congruence.
    destruct (data_arrives i s v Es Hf Ha) as (c & l & cs & Ec & Ev & Hr & Hc & Hl & Hs & Hev).
    pose proof (counted i Eu ltac:(lia)) as Hn.
    destruct (client_read_done_more cfg (sref conn s) (c <| rdma_buf := stripe_buf page i |>) req cnt (k - alen (ups 0 i)) rq
      (with_conns (v <| cqs := l |>) cs)) as (cs' & E & Hs').
    { rewrite conns_of_with. by eapply ctx_set_get. } { done. } { done. } { done. } { lia. }
    { rewrite Hw. exact Hreq. }
    erewrite M_bind_Ret by (by apply the_target_Ret). unfold target_of. rewrite Ed. erewrite M_bind_Ret by done.
    eexists. split; [by apply Hev|]. rewrite conns_of_with in Hs'. constructor.
    + rewrite Hw. by destruct w as [[] ? ? ? ? ?].
    + cbn. rewrite list_lookup_insert_eq by (by eapply lookup_lt_Some). f_equal. lia.
    + intros j t Hj Et. cbn. rewrite Hl; [apply (Hcqs j t); [lia|done]|]. eapply (pool_ne ss Hplaced j i); [done..|lia].
    + rewrite conns_of_with. eapply progress_set; [by apply separate_refs|by apply aget_refs|done|exact Ev|].
      unfold filled. rewrite Eu. by eapply ctx_set_trans.
  - exists v. split; [done|]. destruct (filled_ctx i (conns_of v) i s Hpr Es) as (c & _ & Ev).
    rewrite decide_False in Ev by lia. constructor; [done| | |].
    + by rewrite ups_snoc, Eu, app_nil_r by lia.
    + intros j t Hj. apply Hcqs. lia.
    + eapply progress_skip; [done|done|exact Ev|]. unfold filled. by rewrite Eu.
Qed.

(** ** The last completion *)

Context (old : list byte) (Hbio : rq_bio rq = [[old]]) (Hold : alen old = IS_PAGE_SIZE) (Hbytes : rq_bytes rq = IS_PAGE_SIZE).

(** The buffers once all disks below [g] have been waited for. *)
Lemma filled_bufs g cs :
  firsts = ups 0 g → progress refs (filled page) (λ _, Some) (conns_of w) g cs →
  (∀ i, i ∈ firsts → holds_buf cs i (stripe_buf page i)) ∧ (∀ i, 0 <= i < m → ∃ b, holds_buf cs i b ∧ alen b = sz).
Proof using Hcoded Hlen Hway.
  intros Hg Hp. assert (∀ i, i ∈ firsts → holds_buf cs i (stripe_buf page i)) as H1.
  { intros i Hi. pose proof (elem_firsts i Hi) as [Hup Him]. destruct (up_slot i Hup) as (s & ci & ck & Es & _).
    destruct (filled_ctx g cs i s Hp Es) as (c & _ & E). exists s. eexists. split; [done|]. split; [exact E|].
    rewrite Hg in Hi. apply elem_ups in Hi as [_ Hi]. rewrite decide_True by lia. unfold filled. by rewrite Hup. }
  split; [exact H1|]. intros i Hi. destruct (slot_at cfg ss Hlen i Hi) as (s & Es & _).
  destruct (filled_ctx g cs i s Hp Es) as (c & Ec & E). destruct (uw_ctx _ _ _ _ Hway i s Es) as (c' & Ec' & Lb & _).
  assert (c' = c) as -> by congruence. eexists. split; [by exists s; eexists|].
  case_decide; [|done]. unfold filled. destruct (up i); [|done]. cbn. by rewrite (alen_stripe cfg enc Hcoded).
Qed.

Lemma read_pages_Ret g u :
  alen page = IS_PAGE_SIZE → detected (det w) → (0 < nsrcerrs (det w) → decodes (det w)) →
  firsts = ups 0 g → det u = det w → progress refs (filled page) (λ _, Some) (conns_of w) g (conns_of u) →
  ∃ cs f, read_pages cfg refs rq u = Ret ([[page]], with_conns u cs) ∧ rebuffered conn ss (conns_of u) f cs.
Proof using Hcoded Hec Hplaced Hlen Hups Hway Hbio Hold Hbytes.
  intros Hpage Hdet Hdec Hg Hd Hp. destruct (filled_bufs g (conns_of u) Hg Hp) as [H1 H2].
  destruct (recover_Ret page (det w) u Hd Hdet Hdec H1 H2) as (cs & f & E & Hr & Hb).
  exists cs, f. split; [|done]. unfold read_pages. rewrite Hec. unfold read_pages_ec. rewrite Hbytes, (share_len cfg enc Hcoded).
  erewrite M_bind_Ret by exact E. rewrite Hbio. change (1 <? alen [old]) with false. cbv iota. cbn [read_bios].
  erewrite M_bind_Ret by done. erewrite M_bind_Ret by (apply (merge_page_Ret page old); done).
  by erewrite M_bind_Ret by done.
Qed.

(** Without lost splits in the detector nothing is rebuilt: the page is put together from
    what the buffers hold. *)
Lemma read_pages_bufs bufs g u :
  nsrcerrs (det w) <= 0 → firsts = ups 0 g → det u = det w → progress refs (filled page) (λ _, Some) (conns_of w) g (conns_of u) →
  (∀ i, 0 <= i < k → if up i then bufs i = stripe_buf page i else holds_buf (conns_of w) i (bufs i)) →
  ∃ cs f, read_pages cfg refs rq u = Ret ([[assemble bufs]], with_conns u cs) ∧ rebuffered conn ss (conns_of u) f cs.
Proof using Hcoded Hec Hlen Hups Hway Hbio Hold Hbytes.
  intros Hns Hg Hd Hp Hbufs. pose proof (cd_splits _ _ Hcoded). destruct (filled_bufs g (conns_of u) Hg Hp) as [H1 _].
  exists (conns_of u), (λ _, None). split; [|apply rebuffered_refl].
  assert (∀ i, 0 <= i < k → holds_buf (conns_of u) i (bufs i) ∧ alen (bufs i) = sz) as Hb.
  { intros i Hi. specialize (Hbufs i Hi). destruct (up i) eqn:Eu.
    - rewrite Hbufs. split; [|apply (alen_stripe cfg enc Hcoded)]. apply H1.
      unfold firsts. rewrite (ups_app 0 k m) by lia. rewrite take_app_ge by (pose proof (alen_ups 0 k); unfold alen in *; lia).
      apply elem_of_app. left. apply elem_ups. split; [done|lia].
    - destruct Hbufs as (s & c & Es & Ec & Eb). destruct (filled_ctx g (conns_of u) i s Hp Es) as (c' & Ec' & E).
      assert (c' = c) as -> by congruence. destruct (uw_ctx _ _ _ _ Hway i s Es) as (c' & Ec'' & Lb & _).
      assert (c' = c) as -> by congruence. split; [|by rewrite <- Eb]. exists s, c. split; [done|]. split; [|done]. rewrite E.
      unfold filled. rewrite Eu. by case_decide. }
  unfold read_pages. rewrite Hec. unfold read_pages_ec. erewrite (M_bind_Ret _ _ _ () u).
  - rewrite Hbio. change (1 <? alen [old]) with false. cbv iota. cbn [read_bios]. rewrite with_conns_id.
    erewrite M_bind_Ret by done. erewrite M_bind_Ret by (apply (merge_bufs bufs old); done). by erewrite M_bind_Ret by done.
  - unfold recover. erewrite M_bind_Ret by done. rewrite Hd. by destruct (Z.ltb_spec 0 (nsrcerrs (det w))); [lia|].
Qed.

(** ** What the read gives

    [got] is the page that is put together once the buffers are filled. *)
Context (got : list byte).
Context (Hgot : ∀ g u, firsts = ups 0 g → det u = det w → progress refs (filled page) (λ _, Some) (conns_of w) g (conns_of u) →
  ∃ cs f, read_pages cfg refs rq u = Ret ([[got]], with_conns u cs) ∧ rebuffered conn ss (conns_of u) f cs).

(** What is left when the read is over. *)
Record finished_read (v : world) : Prop := {
  fr_sess : sess v = (sess w) <| IS_conns := conns_of v |>;
  fr_det : det v = det w;
  fr_others : ∀ r, r ∉ refs → ctx_of (conns_of v) r = ctx_of (conns_of w) r;
  fr_unread : ∀ i s, aget ss i = Some s → mapped s = true → i ∉ firsts →
    ∃ c, ctx_of (conns_of v) (sref conn s) = Some c ∧ in_flight c = CTX_R_IN_FLIGHT ∧ ctx_req c = Some req;
  fr_posted : posted v = posted w;
  fr_reqs : reqs v = <[req := ended (rq <| rq_bio := [[got]] |>)]> (reqs w);
  fr_free : ∀ s, s ∈ ss → free_ctxs <$> pool_of (conns_of v) conn (s_pool s) =
    (free_ctxs <$> pool_of (conns_of w) conn (s_pool s)) ≫= λ f, pool_insert f (s_ix s)
}.

Lemma arrived_linked i s c cs v :
  aget ss i = Some s → arrived page cnt w i v → ctx_of (conns_of w) (sref conn s) = Some c →
  ctx_set (conns_of v) cs (sref conn s) (c <| rdma_buf := stripe_buf page i |>) → linked conn ss cs.
Proof using Hway.
  intros Es Ha Ec [S1 F1]. pose proof Ha as [_ _ _ Hpr]. split.
  - intros t [j Et]%elem_of_aget. destruct (uw_ctx _ _ _ _ Hway j t Et) as (x & Ex & _ & Hx & _). rewrite S1.
    case_decide as Hts; [|].
    + eexists. split; [done|]. cbn. rewrite <- Hx. congruence.
    + destruct (filled_ctx i (conns_of v) j t Hpr Et) as (x' & Ex' & E). assert (x' = x) as -> by congruence.
      eexists. split; [exact E|]. case_decide; [by rewrite (proj1 (filled_same page j x))|done].
  - intros t Ht. rewrite F1. destruct (uw_free _ _ _ _ Hway t Ht) as (f & Ef & Hf). apply elem_of_aget in Ht as [j Et].
    pose proof (pr_free _ _ _ _ _ _ Hpr j _ (aget_refs conn ss j t Et)) as E. cbn [rf_conn rf_pool sref] in E.
    exists f. split; [|done]. rewrite E, Ef. by case_decide.
Qed.

Lemma wait_last g s v :
  firsts = ups 0 g → alen (ups 0 g) = k → up (g - 1) = true → 0 < g → aget ss (g - 1) = Some s → arrived page cnt w (g - 1) v →
  ∃ v', (b ← is_bad (target_of <$> ss) some_refs (g - 1);
         if (b : bool) then mret ()
         else t ← the_target (target_of <$> ss) (g - 1); c ← deref (t_cb_ptr t); rdma_cq_event_handler cfg post_ret c) v
        = Ret ((), v') ∧ finished_read v'.
Proof using Hcoded Hec Hplaced Hlen Hups Hway Hreq Hbio Hgot.
  intros Hg Hk Hu Hpos Es Ha. pose proof (aget_lt _ _ _ Es) as Hi. pose proof Ha as [Hw Hcnt Hcqs Hpr].
  assert (g - 1 ∈ firsts) as Hf by (rewrite Hg; apply elem_ups; split; [done|lia]).
  destruct (up_slot _ Hu) as (s' & ci & ck & Es' & Ed & _). assert (s' = s) as -> by congruence.
  erewrite M_bind_Ret by (apply is_bad_up; [lia|by eapply arrived_flagged]). rewrite Hu. cbn [negb].
  destruct (data_arrives (g - 1) s v Es Hf Ha) as (c & l & cs & Ec & Ev & Hr & Hc & Hl & Hs & Hev).
  pose proof (counted (g - 1) Hu ltac:(lia)) as Hn. replace (g - 1 + 1) with g in Hn by lia.
  set (c1 := c <| rdma_buf := stripe_buf page (g - 1) |>) in *. set (u := with_conns (v <| cqs := l |>) cs).
  destruct (client_read_done_last cfg ltac:(lia) conn ss Hplaced Hlen s c1 req cnt rq [[got]] u) as (cs' & E & Hfree & Hothers & Hrest); try done.
  { by eapply aget_elem. } { by eapply (arrived_linked (g - 1) s c cs v). } { by eapply ctx_set_get. }
  { change (counters u) with (counters v). rewrite Hcnt. f_equal. lia. }
  { change (reqs u) with (reqs v). rewrite Hw. exact Hreq. }
  { intros x Hx Hsx. apply (Hgot g); [done| |].
    - rewrite Hx. change (det u) with (det v). by rewrite Hw.
    - replace g with (g - 1 + 1) by lia. eapply progress_set; [by apply separate_refs|by apply aget_refs|done|exact Ev|].
      unfold filled. rewrite Hu. by eapply ctx_set_trans. }
  erewrite M_bind_Ret by (by apply the_target_Ret). unfold target_of. rewrite Ed. erewrite M_bind_Ret by done.
  eexists. split; [by apply Hev|]. split.
  - cbn. by rewrite Hw.
  - cbn. by rewrite Hw.
  - intros r Hrr. rewrite conns_of_with, (Hothers r Hrr). change (conns_of u) with cs. rewrite (cset_ctx _ _ _ _ Hs), decide_False.
    + by apply (pr_others _ _ _ _ _ _ Hpr).
    + intros ->. apply Hrr, list_elem_of_fmap. exists s. split; [done|by eapply aget_elem].
  - intros i t Et Hmt Hif. assert (i ≠ g - 1) as Hgi by (by intros ->). pose proof (aget_lt _ _ _ Et).
    destruct (uw_ctx _ _ _ _ Hway i t Et) as (x & Ex & _ & _ & _ & Hx). destruct (Hx Hmt) as (Hxr & _ & Hxf).
    assert (ctx_of (conns_of v) (sref conn t) = Some x) as Ev'.
    { destruct (filled_ctx (g - 1) (conns_of v) i t Hpr Et) as (x' & Ex' & ->). assert (x' = x) as -> by congruence.
      case_decide; [|done]. unfold filled. destruct (up i) eqn:Eu; [|done]. exfalso. apply Hif. rewrite Hg.
      apply elem_ups. split; [done|lia]. }
    destruct (Hrest t x) as [b Eb]; [by eapply aget_elem| | |].
    + intros ->. pose proof (slot_inj conn ss Hplaced i (g - 1) s s Et Es eq_refl). lia.
    + change (conns_of u) with cs. rewrite (cset_ctx _ _ _ _ Hs), decide_False; [done|]. intros Hd.
      pose proof (slot_inj conn ss Hplaced i (g - 1) t s Et Es Hd). lia.
    + exists (x <| rdma_buf := b |>). rewrite conns_of_with. by destruct x.
  - cbn. by rewrite Hw.
  - cbn. by rewrite Hw.
  - intros t Ht. rewrite conns_of_with, (Hfree t Ht). change (conns_of u) with cs. rewrite (cset_free _ _ _ _ Hs).
    apply elem_of_aget in Ht as [j Et]. pose proof (pr_free _ _ _ _ _ _ Hpr j _ (aget_refs conn ss j t Et)) as E'.
    cbn [rf_conn rf_pool sref] in E'. rewrite E'. case_decide; [|done]. by destruct (free_ctxs <$> pool_of (conns_of w) conn (s_pool t)).
Qed.

Lemma wait_stripe_Ret j :
  firsts = ups 0 (k + j) → alen (ups 0 (k + j)) = k → up (k + j - 1) = true → 0 <= j → k + j <= m →
  counters w !! cnt = Some k →
  ∃ v, wait_reads cfg post_ret (target_of <$> ss) some_refs j w = Ret ((), v) ∧ finished_read v.
Proof using Hcoded Hec Hplaced Hlen Hups Hway Hreq Hbio Hgot.
  intros Hg Hk Hu Hj Hjm Ecnt. pose proof (cd_splits _ _ Hcoded). unfold wait_reads.
  match goal with |- context [loop 0 (k + j) ?body ()] =>
    destruct (loop_inv (λ i _ v, if decide (i < k + j) then arrived page cnt w i v else finished_read v) body 0 (k + j) () w)
      as ([] & v & E & Hv) end; [lia| | |].
  - rewrite decide_True by lia. constructor; [by destruct w as [[] ? ? ? ? ?]| |done|apply progress_start].
    rewrite ups_nil by lia. change (alen []) with 0. by rewrite Z.sub_0_r.
  - intros i [] v Hi Hv. rewrite decide_True in Hv by lia. destruct (slot_at cfg ss Hlen i) as (s & Es & _); [lia|].
    destruct (decide (i = k + j - 1)) as [->|Hne].
    + destruct (wait_last (k + j) s v) as (v' & E & Hv'); [done..|lia|done|done|]. exists (), v'. split; [exact E|].
      by rewrite decide_False by lia.
    + destruct (arrival_step i s v Es) as (v' & E & Hv'); [|done|].
      * intros Hup. split; [rewrite Hg; apply elem_ups; split; [done|lia]|].
        rewrite (ups_app 0 (i + 1) (k + j)), (ups_app (i + 1) (k + j - 1) (k + j)) in Hk by lia.
        replace (ups (k + j - 1) (k + j)) with [k + j - 1] in Hk.
        2: { pose proof (ups_one (k + j - 1)) as E1. rewrite Hu in E1. by replace (k + j - 1 + 1) with (k + j) in E1 by lia. }
        unfold alen in *. rewrite !length_app in Hk. cbn in Hk. lia.
      * exists (), v'. split; [exact E|]. by rewrite decide_True by lia.
  - rewrite decide_False in Hv by lia. by exists v.
Qed.
End wait.

(** * The whole read *)

(** What the read of [page] leaves behind. *)
Record stripe_was_read (w : world) (offset : Z) (req : nat) (rq : request) (page : list byte) (v : world) : Prop := {
  sw_posts : ∃ order, order ≡ₚ firsts ∧ posted v = posted w ++ read_posts (offset / k) sz order;
  sw_free : ∀ t, t ∈ ss → free_ctxs <$> pool_of (conns_of v) conn (s_pool t) = free_ctxs <$> pool_of (conns_of w) conn (s_pool t);
  sw_reqs : reqs v = <[req := ended (rq <| rq_bio := [[page]] |>)]> (reqs w);
  sw_sess : ∃ fi, sess v = (sess w) <| IS_conns := conns_of v |> <| IS_fault_injection := fi |>;
  sw_det : det v = det w;
  sw_others : ∀ r, r ∉ refs → ctx_of (conns_of v) r = ctx_of (conns_of w) r;
  sw_unread : ∀ i s, aget ss i = Some s → mapped s = true → i ∉ firsts →
    ∃ c, ctx_of (conns_of v) (sref conn s) = Some c ∧ in_flight c = CTX_R_IN_FLIGHT ∧ ctx_req c = Some req
}.

(** The page the read of a request is to be ended with: whatever state [v] the data is
    waited for in, provided its buffers are those of [w], [got] is what [read_pages] puts
    together once the data has arrived. *)
Definition puts_together (page : list byte) (rq : request) (w : world) (got : list byte) : Prop :=
  ∀ cnt req v g u,
    under_way page cnt req v → det v = det w → (∀ i b, holds_buf (conns_of w) i b → holds_buf (conns_of v) i b) →
    firsts = ups 0 g → det u = det v → progress refs (filled page) (λ _, Some) (conns_of v) g (conns_of u) →
    ∃ cs f, read_pages cfg refs rq u = Ret ([[got]], with_conns u cs) ∧ rebuffered conn ss (conns_of u) f cs.

Lemma puts_together_page page rq old w :
  rq_bio rq = [[old]] → alen old = IS_PAGE_SIZE → rq_bytes rq = IS_PAGE_SIZE → alen page = IS_PAGE_SIZE →
  detected (det w) → (0 < nsrcerrs (det w) → decodes (det w)) → puts_together page rq w page.
Proof using Hcoded Hec Hplaced Hlen Hups.
  intros Hb Ho Hy Hp Hdet Hdec cnt req v g u Hway Hd _ Hg Hu Hpr. rewrite <- Hd in Hdet, Hdec.
  by apply (read_pages_Ret page cnt req rq v Hway old Hb Ho Hy g u).
Qed.

Lemma puts_together_bufs page rq old w bufs :
  rq_bio rq = [[old]] → alen old = IS_PAGE_SIZE → rq_bytes rq = IS_PAGE_SIZE → nsrcerrs (det w) <= 0 →
  (∀ i, 0 <= i < k → if up i then bufs i = stripe_buf page i else holds_buf (conns_of w) i (bufs i)) →
  puts_together page rq w (assemble bufs).
Proof using Hcoded Hec Hlen Hups.
  intros Hb Ho Hy Hn Hbufs cnt req v g u Hway Hd Hsame Hg Hu Hpr. rewrite <- Hd in Hn.
  apply (read_pages_bufs page cnt req rq v Hway old Hb Ho Hy bufs g u); try done.
  intros i Hi. specialize (Hbufs i Hi). destruct (up i); [done|by apply Hsame].
Qed.

(** The posting loop starts in [w1]: the contexts are set up and their flags are known. *)
Record opened (offset : Z) (req : nat) (w w1 : world) : Prop := {
  op_set : set_up cfg conn ss faulty offset sz req w (conns_of w1);
  op_counters : counters w1 = counters w ++ [k];
  op_reqs : reqs w1 = reqs w;
  op_det : det w1 = det w
}.

(** What the read of [page] leaves behind, when its posting loop started in [w1]. *)
Record read_over (w w1 : world) (offset : Z) (req : nat) (rq : request) (page : list byte) (v : world) : Prop := {
  ro_posts : ∃ order, order ≡ₚ firsts ∧ posted v = posted w1 ++ read_posts (offset / k) sz order;
  ro_free : ∀ t, t ∈ ss → free_ctxs <$> pool_of (conns_of v) conn (s_pool t) = free_ctxs <$> pool_of (conns_of w) conn (s_pool t);
  ro_reqs : reqs v = <[req := ended (rq <| rq_bio := [[page]] |>)]> (reqs w);
  ro_sess : ∃ fi, sess v = (sess w1) <| IS_conns := conns_of v |> <| IS_fault_injection := fi |>;
  ro_det : det v = det w;
  ro_others : ∀ r, r ∉ refs → ctx_of (conns_of v) r = ctx_of (conns_of w) r;
  ro_unread : ∀ i s, aget ss i = Some s → mapped s = true → i ∉ firsts →
    ∃ c, ctx_of (conns_of v) (sref conn s) = Some c ∧ in_flight c = CTX_R_IN_FLIGHT ∧ ctx_req c = Some req
}.

Lemma opened_under_way offset page req w w1 :
  (∀ t, t ∈ ss → ready cfg (conns_of w) conn t) → opened offset req w w1 →
  (∀ i s, i ∈ firsts → aget ss i = Some s →
     usable (sess w1) (s_pool s) ∧ delivers w1 (s_pool s) (read_wc (sref conn s) (stripe_buf page i))) →
  under_way page (length (counters w)) req w1 ∧
  (∀ t, t ∈ ss → (free_ctxs <$> pool_of (conns_of w1) conn (s_pool t)) ≫= (λ f, pool_insert f (s_ix t)) =
    free_ctxs <$> pool_of (conns_of w) conn (s_pool t)) ∧
  ∀ i b, holds_buf (conns_of w) i b → holds_buf (conns_of w1) i b.
Proof.
  intros Hr [Hset _ _ _] Hdel. set (cnt := length (counters w)) in *.
  destruct (set_up_linked cfg conn ss faulty offset sz req w (conns_of w1) (conns_of w1) Hr Hset) as [[_ Hroom] Hback]; [eauto|done|].
  split; [|split; [exact Hback|]].
  - split.
    + intros i s Es. destruct (proj1 Hset i s Es) as (c & Ec & Lb & Ecs).
      exists (read_ctx conn ss faulty req cnt offset sz i c). split; [exact Ecs|].
      destruct (read_ctx_same conn ss faulty req cnt offset sz i c) as (-> & -> & ->). split_and!; [done..| |].
      * unfold flag_at. by rewrite Es.
      * intros Hm. unfold mapped in Hm. destruct (s_disk s) as [[ci ck]|] eqn:Ed; [|done].
        by destruct (read_ctx_mapped conn ss faulty req cnt offset sz i s ci ck c) as (-> & -> & -> & _).
    + intros s Hs. by apply Hroom.
    + exact Hdel.
  - intros i b (s & c & Es & Ec & Eb). destruct (proj1 Hset i s Es) as (c' & Ec' & Lb & Ecs).
    assert (c' = c) as -> by congruence. exists s, (read_ctx conn ss faulty req cnt offset sz i c).
    split; [done|]. split; [exact Ecs|]. by destruct (read_ctx_same conn ss faulty req cnt offset sz i c) as (-> & _).
Qed.

(** The read from its posting loop on. *)
Lemma opened_read_Ret offset req rq old page got w w1 :
  reqs w !! req = Some rq → rq_bio rq = [[old]] →
  (∀ t, t ∈ ss → ready cfg (conns_of w) conn t) → opened (offset / k) req w w1 →
  start_read cfg post_ret (target_of <$> ss) offset IS_PAGE_SIZE req w =
    (r ← post_reads cfg post_ret (target_of <$> ss) some_refs; mret (some_refs, r)) w1 →
  armed k (IS_fault_injection (sess w1)) →
  (∀ i s, i ∈ firsts → aget ss i = Some s →
     usable (sess w1) (s_pool s) ∧ delivers w1 (s_pool s) (read_wc (sref conn s) (stripe_buf page i))) →
  puts_together page rq w got →
  ∃ v, IS_rdma_read cfg post_ret (target_of <$> ss) offset IS_PAGE_SIZE req w = Ret (0, v) ∧
    read_over w w1 offset req rq got v.
Proof using Hcoded Hec Hpost Hplaced Hlen Hups.
  intros Erq Hbio Hr Hop Estart Ha Hdel Hgot. pose proof Hop as [Hset Hcn Hrq Hdet]. set (cnt := length (counters w)) in *.
  destruct (opened_under_way (offset / k) page req w w1 Hr Hop Hdel) as (Hway1 & Hback & Hsame1).
  destruct (post_stripe_Ret (offset / k) sz w1) as (j & order & v & Epost & Hposting).
  { eapply set_up_flagged. exact Hset. }
  { intros i s ci ck Es Ed. destruct (proj1 Hset i s Es) as (c & _ & _ & Ec). eexists. split; [exact Ec|].
    by apply (read_ctx_mapped conn ss faulty req cnt (offset / k) sz i s ci ck c). }
  { exact Ha. }
  destruct (posted_reads _ _ _ _ _ _ Hposting) as (Hperm & Hfirst & Hcount & Hlast & Hj & Hjm).
  destruct Hposting as ((fi & Ev & _) & _).
  assert (under_way page cnt req v) as Hway. { rewrite Ev. destruct Hway1. by split. }
  destruct (wait_stripe_Ret page cnt req rq v Hway) with (old := old) (got := got) (j := j) as (u & Ewait & [U0 U6 U4 U5 U1 U2 U3]);
    [by rewrite Ev, <- Erq, <- Hrq|done| |done..| |].
  { intros g u Hg Hu Hpr. apply (Hgot cnt req v g u); try done; [by rewrite Ev|]. intros i b Hb. rewrite Ev. by apply Hsame1. }
  { rewrite Ev. cbn. rewrite Hcn. by apply list_lookup_middle. }
  exists u. split.
  - unfold IS_rdma_read. erewrite M_bind_Ret; [|rewrite Estart; by erewrite M_bind_Ret by exact Epost].
    cbv beta iota. by erewrite M_bind_Ret by exact Ewait.
  - split.
    + exists order. split; [by rewrite Hfirst|]. rewrite U1, Ev. done.
    + intros t Ht. rewrite (U3 t Ht), Ev. by apply Hback.
    + rewrite U2, Ev. cbn. by rewrite Hrq.
    + exists fi. rewrite U0, Ev. by destruct w1 as [[] ? ? ? ? ?].
    + by rewrite U6, Ev.
    + intros r Hrr. rewrite (U4 r Hrr), Ev. by apply (proj2 (proj2 Hset)).
    + exact U5.
Qed.

Lemma stripe_read_Ret offset req rq old page got w :
  reqs w !! req = Some rq → rq_bio rq = [[old]] → conn_id rq = conn →
  (∀ t, t ∈ ss → ready cfg (conns_of w) conn t) → (∀ t, t ∈ ss → faulty t = false) →
  inject_fault (IS_fault_injection (sess w)) ≠ 1 → armed k (IS_fault_injection (sess w)) →
  (∀ i s, i ∈ firsts → aget ss i = Some s →
     usable (sess w) (s_pool s) ∧ delivers w (s_pool s) (read_wc (sref conn s) (stripe_buf page i))) →
  puts_together page rq w got →
  ∃ v, IS_rdma_read cfg post_ret (target_of <$> ss) offset IS_PAGE_SIZE req w = Ret (0, v) ∧
    stripe_was_read w offset req rq got v.
Proof using Hcoded Hec Hpost Hplaced Hlen Hups.
  intros Erq Hbio Hconn Hr Hnone Hoff Ha Hdel Hgot. pose proof (cd_splits _ _ Hcoded) as Hk.
  destruct (set_up_Ret cfg post_ret ltac:(lia) conn ss Hplaced Hlen faulty offset IS_PAGE_SIZE req rq w Erq Hconn Hr Hoff Hnone)
    as (cs & Hset & Estart). rewrite (share_len cfg enc Hcoded) in Hset.
  destruct (opened_read_Ret offset req rq old page got w (with_conns (w <| counters := counters w ++ [k] |>) cs))
    as (v & E & [V1 V2 V3 [fi V4] V5 V6 V7]); try done.
  exists v. split; [exact E|]. split; [exact V1|exact V2|exact V3| |exact V5|exact V6|exact V7].
  exists fi. rewrite V4. by destruct w as [[] ? ? ? ? ?].
Qed.

(** ** A page that is not rebuilt *)

(** The buffers the page is put together from when nothing is rebuilt: the line of the stripe
    for the splits that were read, what the context of the slot happened to hold for the
    others. *)
Definition stale_bufs (page : list byte) (w : world) (bufs : Z → list byte) : Prop :=
  ∀ i, 0 <= i < k → if up i then bufs i = stripe_buf page i else holds_buf (conns_of w) i (bufs i).

Lemma stale_page page w bufs :
  alen page = IS_PAGE_SIZE → (∀ t, t ∈ ss → ready cfg (conns_of w) conn t) → stale_bufs page w bufs →
  (∀ i, 0 <= i < k → share cfg (assemble bufs) i = bufs i) ∧
  (assemble bufs = page ↔ ∀ i, 0 <= i < k → up i = false → bufs i = share cfg page i).
Proof using Hcoded Hec.
  intros Hp Hr Hb.
  assert (∀ i, 0 <= i < k → share cfg (assemble bufs) i = bufs i) as Hsh.
  { intros i Hi. apply share_assemble; [done|]. specialize (Hb i Hi). destruct (up i).
    - rewrite Hb. apply (alen_stripe cfg enc Hcoded).
    - destruct Hb as (s & c & Es & Ec & <-). destruct (Hr s) as (_ & c' & Ec' & Lb & _); [by eapply aget_elem|].
      by assert (c' = c) as -> by congruence. }
  split; [done|]. split.
  - intros <- i Hi _. by rewrite Hsh.
  - intros Hl. apply assemble_shares; [done|]. intros i Hi. destruct (up i) eqn:Eu; [|by apply Hl].
    specialize (Hb i Hi). rewrite Eu in Hb. rewrite Hb. by apply (stripe_split cfg enc Hcoded e).
Qed.
End read.

Section request.
Context (cfg : config) (post_ret : Z → Z) (enc : list byte) (e : ec_env).
Context (Hcoded : coded cfg enc) (Hec : build cfg = EC e) (Hpost : ∀ n, post_ret n = 0).

(** The state in which a stripe can be read: the lost disks are those the failure detector
    marked, at most as many as there are parities, and the decode tables fit them. *)
Record recoverable (conn : Z) (ss : list slot) (w : world) : Prop := {
  sr_ready : ∀ t, t ∈ ss → ready cfg (conns_of w) conn t;
  sr_off : inject_fault (IS_fault_injection (sess w)) ≠ 1;
  sr_armed : armed cfg (NDATAS cfg) (IS_fault_injection (sess w));
  sr_detected : detected cfg ss no_fault (det w);
  sr_decodes : 0 < nsrcerrs (det w) → decodes cfg enc e (det w)
}.

(** Moreover the servers of the first [NDATAS] disks that are left deliver the lines of
    [page]. *)
Record stripe_readable (conn : Z) (ss : list slot) (page : list byte) (w : world) : Prop := {
  sr_recoverable : recoverable conn ss w;
  sr_delivers : ∀ i s, i ∈ firsts cfg ss no_fault → aget ss i = Some s →
    usable (sess w) (s_pool s) ∧ delivers w (s_pool s) (read_wc (sref conn s) (stripe_buf cfg enc page i))
}.

(** The state in which the data of [page] arrives in the buffers of the first [NDATAS] disks
    that are left, whatever the failure detector says. *)
Record stripe_served (conn : Z) (ss : list slot) (page : list byte) (w : world) : Prop := {
  ss_ready : ∀ t, t ∈ ss → ready cfg (conns_of w) conn t;
  ss_off : inject_fault (IS_fault_injection (sess w)) ≠ 1;
  ss_armed : armed cfg (NDATAS cfg) (IS_fault_injection (sess w));
  ss_enough : NDATAS cfg <= alen (ups ss no_fault 0 (NDISKS cfg));
  ss_delivers : ∀ i s, i ∈ firsts cfg ss no_fault → aget ss i = Some s →
    usable (sess w) (s_pool s) ∧ delivers w (s_pool s) (read_wc (sref conn s) (stripe_buf cfg enc page i))
}.

Lemma readable_served conn ss page w : stripe_readable conn ss page w → stripe_served conn ss page w.
Proof.
  intros [[Hr Hoff Ha Hdet Hdec] Hdel]. split; [done..| |done].
  rewrite <- (survivors_ups cfg ss no_fault _ Hdet). apply (er_survivors _ _ _ _ _ _ (dt_erasures _ _ _ _ Hdet)).
Qed.

Lemma served_read_Ret ss req rq old page got w :
  read_request cfg ss req rq old w → rq_bytes rq = IS_PAGE_SIZE → stripe_served (conn_id rq) ss page w →
  puts_together cfg enc (conn_id rq) ss no_fault page rq w got →
  ∃ v, IS_request cfg post_ret req w = Ret (0, v) ∧
    stripe_was_read cfg (conn_id rq) ss no_fault w (chunk_offset cfg rq) req rq got v.
Proof using Hcoded Hec Hpost.
  intros Hq Hby [Hr Hoff Ha Hups Hdel] Hgot. pose proof Hq as [Hpl Hlen Erq Ebio Hold _ _].
  destruct (stripe_read_Ret cfg post_ret enc e Hcoded Hec Hpost (conn_id rq) ss Hpl Hlen no_fault Hups (chunk_offset cfg rq) req rq old page got w)
    as (v & E & Hv); try done.
  exists v. split; [|done]. rewrite <- Hby in E. by apply (IS_request_read cfg post_ret ss req rq old).
Qed.

Lemma served_request_Ret ss req rq old page got w :
  read_request cfg ss req rq old w → rq_bytes rq = IS_PAGE_SIZE → stripe_served (conn_id rq) ss page w →
  puts_together cfg enc (conn_id rq) ss no_fault page rq w got →
  ∃ v, IS_queue_rq cfg post_ret req w = Ret (BLK_MQ_RQ_QUEUE_OK, v) ∧
    stripe_was_read cfg (conn_id rq) ss no_fault w (chunk_offset cfg rq) req rq got v.
Proof using Hcoded Hec Hpost.
  intros Hq Hby Hs Hgot. destruct (served_read_Ret ss req rq old page got w Hq Hby Hs Hgot) as (v & E & Hv).
  exists v. split; [|done]. by rewrite (IS_queue_rq_request cfg post_ret _ _ _ E).
Qed.

(** [IS_request] with the lost disks marked. *)
Lemma stripe_retry_Ret ss req rq old page w :
  read_request cfg ss req rq old w → rq_bytes rq = IS_PAGE_SIZE → alen page = IS_PAGE_SIZE →
  stripe_readable (conn_id rq) ss page w →
  ∃ v, IS_request cfg post_ret req w = Ret (0, v) ∧
    stripe_was_read cfg (conn_id rq) ss no_fault w (chunk_offset cfg rq) req rq page v.
Proof using Hcoded Hec Hpost.
  intros Hq Hby Hp Hrd. pose proof (readable_served _ _ _ _ Hrd) as Hs.
  apply (served_read_Ret ss req rq old page page w Hq Hby Hs).
  destruct Hrd as [[_ _ _ Hdet Hdec] _]. destruct Hq as [Hpl Hlen _ Ebio Hold _ _].
  by apply (puts_together_page cfg enc e Hcoded Hec (conn_id rq) ss Hpl Hlen no_fault (ss_enough _ _ _ _ Hs) page rq old w).
Qed.

Lemma stripe_request_Ret ss req rq old page w :
  read_request cfg ss req rq old w → rq_bytes rq = IS_PAGE_SIZE → alen page = IS_PAGE_SIZE →
  stripe_readable (conn_id rq) ss page w →
  ∃ v, IS_queue_rq cfg post_ret req w = Ret (BLK_MQ_RQ_QUEUE_OK, v) ∧
    stripe_was_read cfg (conn_id rq) ss no_fault w (chunk_offset cfg rq) req rq page v.
Proof using Hcoded Hec Hpost.
  intros Hq Hby Hp Hrd. destruct (stripe_retry_Ret ss req rq old page w Hq Hby Hp Hrd) as (v & E & Hv).
  exists v. split; [|done]. by rewrite (IS_queue_rq_request cfg post_ret _ _ _ E).
Qed.

(** C19: an erasure-coded read whose lost splits the failure detector has not recorded - it
    looks at the first slab only, and not at all after an eviction - succeeds with the wrong
    page: parities are read in place of the lost splits, but nothing is rebuilt, and the
    request is ended, without an error, with a page in which each lost split is what its
    unused context last held.  Unless each of those buffers happens to be the split, this is
    not the page whose stripe was written. *)
Theorem unmarked_read_stale ss req rq old page bufs w :
  read_request cfg ss req rq old w → rq_bytes rq = IS_PAGE_SIZE → alen page = IS_PAGE_SIZE →
  stripe_served (conn_id rq) ss page w → nsrcerrs (det w) <= 0 → stale_bufs cfg enc (conn_id rq) ss no_fault page w bufs →
  ∃ got v, IS_queue_rq cfg post_ret req w = Ret (BLK_MQ_RQ_QUEUE_OK, v) ∧
    stripe_was_read cfg (conn_id rq) ss no_fault w (chunk_offset cfg rq) req rq got v ∧
    (∀ i, 0 <= i < NDATAS cfg → share cfg got i = bufs i) ∧
    (got = page ↔ ∀ i, 0 <= i < NDATAS cfg → up ss no_fault i = false → bufs i = share cfg page i).
Proof using Hcoded Hec Hpost.
  intros Hq Hby Hp Hs Hn Hb. pose proof Hq as [Hpl Hlen _ Ebio Hold _ _]. exists (assemble cfg bufs).
  destruct (served_request_Ret ss req rq old page (assemble cfg bufs) w Hq Hby Hs) as (v & E & Hv).
  { apply (puts_together_bufs cfg enc e Hcoded Hec (conn_id rq) ss Hlen no_fault (ss_enough _ _ _ _ Hs) page rq old w bufs); done. }
  exists v. split; [done|]. split; [done|].
  by apply (stale_page cfg enc e Hcoded Hec (conn_id rq) ss no_fault page w bufs Hp (ss_ready _ _ _ _ Hs)).
Qed.

End request.

(** * A concrete loss *)

(** Disks 1 (a split) and 4 (a parity) of the six are lost. *)
Definition two_out (d : Z) : bool := (d =? 1) || (d =? 4).
Definition none_out (d : Z) : bool := false.
Definition ec_lost : detector := {| src_in_err := ec_errs; src_err_list := [1; 4; 0; 0; 0; 0]; nerrs := 2; nsrcerrs := 1 |}.
Definition stripe_world (page : list byte) : world :=
  {| sess := test_session ec_test two_out; reqs := [test_rq false]; counters := [];
     cqs := (λ d, [None; Some (read_wc (sref 0 (test_slot two_out d)) (stripe_buf ec_test ec_enc page d))]) <$> disks ec_test;
     posted := []; det := ec_lost |}.

Lemma six (P : Z → Prop) : P 0 → P 1 → P 2 → P 3 → P 4 → P 5 → ∀ i, 0 <= i < 6 → P i.
Proof.
  intros H0 H1 H2 H3 H4 H5 i Hi.
  assert (i = 0 ∨ i = 1 ∨ i = 2 ∨ i = 3 ∨ i = 4 ∨ i = 5) as [->|[->|[->|[->|[->| ->]]]]] by lia; done.
Qed.

Lemma stripe_world_request :
  read_request ec_test (test_slots ec_test two_out) 0 (test_rq false) test_page (stripe_world test_page).
Proof. split; [apply test_placed|reflexivity|reflexivity|reflexivity|exact test_page_len|reflexivity|reflexivity]. Qed.

Lemma stripe_world_ready page :
  (∀ t, t ∈ test_slots ec_test two_out → ready ec_test (conns_of (stripe_world page)) 0 t) ∧
  inject_fault (IS_fault_injection (sess (stripe_world page))) ≠ 1 ∧
  armed ec_test 4 (IS_fault_injection (sess (stripe_world page))).
Proof.
  split_and!.
  - intros t. by apply test_ready.
  - discriminate.
  - split; [reflexivity|]. intros i d E. apply aget_elem in E. apply elem_of_replicate in E as [-> _]. by split.
Qed.

Lemma stripe_world_delivers page i s :
  aget (test_slots ec_test two_out) i = Some s →
  usable (sess (stripe_world page)) (s_pool s) ∧
  delivers (stripe_world page) (s_pool s) (read_wc (sref 0 s) (stripe_buf ec_test ec_enc page i)).
Proof.
  intros [-> Hd]%test_slots_aget. split; [by apply test_usable|]. exists 1%nat, [].
  by apply (aget_disks ec_test (λ d, [None; Some (read_wc (sref 0 (test_slot two_out d)) (stripe_buf ec_test ec_enc page d))])).
Qed.

(** Disk 1 is lost and the detector knows nothing: its split comes back as the zeros its
    context was allocated with, not as the written ones. *)
Definition unmarked_world (page : list byte) : world :=
  (stripe_world page) <| det := no_det |>.
Definition zero_bufs (page : list byte) (i : Z) : list byte :=
  if up (test_slots ec_test two_out) no_fault i then stripe_buf ec_test ec_enc page i else replicate (Z.to_nat (cb_size ec_test)) x00.

Lemma unmarked_read_stale_witness :
  ∃ got v, IS_queue_rq ec_test (λ _, 0) 0 (unmarked_world test_page) = Ret (BLK_MQ_RQ_QUEUE_OK, v) ∧
    stripe_was_read ec_test 0 (test_slots ec_test two_out) no_fault (unmarked_world test_page) 8192 0 (test_rq false) got v ∧
    (∀ i, 0 <= i < 4 → share ec_test got i = zero_bufs test_page i) ∧ got ≠ test_page.
Proof.
  destruct (unmarked_read_stale ec_test (λ _, 0) ec_enc ec_test_env ec_coded eq_refl (λ _, eq_refl) (test_slots ec_test two_out) 0
    (test_rq false) test_page test_page (zero_bufs test_page) (unmarked_world test_page)) as (got & v & E & Hv & Hsh & Hgot).
  - split; [apply test_placed|reflexivity|reflexivity|reflexivity|exact test_page_len|reflexivity|reflexivity].
  - reflexivity.
  - exact test_page_len.
  - destruct (stripe_world_ready test_page) as (Hr & Hoff & Ha). split; [exact Hr|exact Hoff|exact Ha|discriminate|].
    intros i s _. apply (stripe_world_delivers test_page).
  - discriminate.
  - intros i Hi. change (NDATAS ec_test) with 4 in Hi. unfold zero_bufs. destruct (up (test_slots ec_test two_out) no_fault i); [done|].
    assert (aget (test_slots ec_test two_out) i = Some (test_slot two_out i)) as Es.
    { apply (aget_disks ec_test (test_slot two_out)). change (NDISKS ec_test) with 6. lia. }
    exists (test_slot two_out i), (test_ctx ec_test). split; [exact Es|]. split; [|done].
    apply (test_ctx_of ec_test two_out). by eapply aget_elem.
  - exists got, v. split; [exact E|]. split; [exact Hv|]. split; [exact Hsh|]. intros ->.
    pose proof (proj1 Hgot eq_refl 1 ltac:(split; reflexivity || discriminate) eq_refl) as H1.
    apply (f_equal (λ l, aget l 0)) in H1. vm_compute in H1. discriminate.
Defined.
