(* ===== verification/FaultRead.v ===== *)
(** Reads with injected faults ([Transfer], [Fault]): the manager tells the server of each disk
    that a fault strikes, waits for its answer, and reads other disks in its place.  What the
    request gets is what the other disks hold - under replication; in the erasure-coded build
    the missing splits are not rebuilt. *)

From S2P Require Import Prelude GF256 GFVect GFMatrix Decode Cauchy Config MT Fault State CtxPool Chunks Store Transfer Completion Slots Stripe WritePath Reads ReadPath EcRead.

(** * Telling a server *)

Definition send_wc : ib_wc := {| wc_stat := WC_SUCCESS; wc_op_ := WC_SEND; wc_byte_len_ok := true |}.
Definition recv_wc (msg : rdma_info) : ib_wc := {| wc_stat := WC_SUCCESS; wc_op_ := WC_RECV msg; wc_byte_len_ok := true |}.

(** The queue of server [c] reports that the message went out, then its answer. *)
Definition answers_fault (w : world) (c : Z) (msg : rdma_info) : Prop :=
  ri_type msg = FAULT_DONE ∧
  ∃ n m q, aget (cqs w) c = Some (replicate n None ++ Some send_wc :: replicate m None ++ Some (recv_wc msg) :: q).

(** The connection afterwards. *)
Definition told (msg : rdma_info) (cb : kernel_cb) : kernel_cb :=
  cb <| send_buf := (send_buf cb) <| ri_type := FAULT |> |> <| recv_buf := msg |> <| cb_st := RECV_FAULT_DONE |>.

Definition fault_posts (c : Z) (cb : kernel_cb) : list post :=
  [PostSend c ((send_buf cb) <| ri_type := FAULT |>); PostRecv c].

Section exchange.
Context (cfg : config) (post_ret : Z → Z) (Hpost : ∀ n, post_ret n = 0).

Lemma set_cb_Ret c cb x w :
  aget (cb_list (sess w)) c = Some cb →
  set_cb c x w = Ret ((), w <| sess := (sess w) <| cb_list := <[Z.to_nat c := x]> (cb_list (sess w)) |> |>).
Proof.
  intros Ecb. unfold set_cb. erewrite M_bind_Ret by done.
  by erewrite M_bind_Ret by (unfold lift; by rewrite aset_Some by (by eapply aget_lt)).
Qed.
Lemma upd_cb_Ret c cb f w :
  aget (cb_list (sess w)) c = Some cb →
  upd_cb c f w = Ret ((), w <| sess := (sess w) <| cb_list := <[Z.to_nat c := f cb]> (cb_list (sess w)) |> |>).
Proof. intros Ecb. unfold upd_cb. erewrite M_bind_Ret by (by apply get_cb_Ret). by apply (set_cb_Ret c cb). Qed.

(** A completion that is polled, as the handler sees it. *)
Lemma polled_event c cb st wc k q w :
  aget (cb_list (sess w)) c = Some cb → cb_st cb ≠ ERROR → aget (cb_state_list (sess w)) (cb_index cb) = Some st → st ≠ CB_FAIL →
  aget (cqs w) c = Some (replicate k None ++ Some wc :: q) →
  ∃ l, poll_loop (S (length (default [] (aget (cqs w) c)))) c w = Ret (Some wc, w <| cqs := l |>) ∧
    aget l c = Some q ∧ ∀ i, i ≠ c → aget l i = aget (cqs w) i.
Proof.
  intros Ecb He Est Hf Eq. rewrite Eq. apply (poll_loop_Ret c wc k q); [by exists cb, st|done|].
  cbn. rewrite length_app, length_replicate. cbn. lia.
Qed.

Lemma fault_exchange_Ret c cb st msg w :
  aget (cb_list (sess w)) c = Some cb → cb_st cb ≠ ERROR → test_state_num CONNECTED <= test_state_num (cb_st cb) →
  aget (cb_state_list (sess w)) (cb_index cb) = Some st → st ≠ CB_FAIL → answers_fault w c msg →
  ∃ l, (∀ i, i ≠ c → aget l i = aget (cqs w) i) ∧
    (_ ← IS_send_fault cfg post_ret c; rdma_cq_event_handler cfg post_ret c) w =
      Ret ((), w <| cqs := l |> <| posted := posted w ++ fault_posts c cb |>
        <| sess := (sess w) <| cb_list := <[Z.to_nat c := told msg cb]> (cb_list (sess w)) |> |>).
Proof using Hpost.
  intros Ecb He Hconn Est Hf (Hty & n & m & q & Eq). pose proof (aget_lt _ _ _ Ecb) as Hc.
  set (cb1 := cb <| send_buf := (send_buf cb) <| ri_type := FAULT |> |>).
  set (w1 := w <| sess := (sess w) <| cb_list := <[Z.to_nat c := cb1]> (cb_list (sess w)) |> |>
               <| posted := posted w ++ [PostSend c (send_buf cb1)] |>).
  assert (aget (cb_list (sess w1)) c = Some cb1) as Ecb1 by (cbn; by rewrite aget_insert, decide_True by done).
  destruct (polled_event c cb1 st send_wc n (replicate m None ++ Some (recv_wc msg) :: q) w1) as (l1 & E1 & Hl1 & Ho1); [done..|].
  destruct (polled_event c cb1 st (recv_wc msg) m q (w1 <| cqs := l1 |>)) as (l2 & E2 & Hl2 & Ho2); [done..|].
  exists l2. split; [intros i Hi; by rewrite Ho2, Ho1|].
  unfold IS_send_fault, send_and_wait, post_msg.
  erewrite (M_bind_Ret _ _ w 0 (w1 <| cqs := l1 |>)).
  2: { erewrite (M_bind_Ret _ _ w 0 w1).
       2: { erewrite M_bind_Ret by (by apply (upd_cb_Ret c cb)). erewrite M_bind_Ret by (apply get_cb_Ret; exact Ecb1).
            by apply ib_post_Ret. }
       change (negb (0 =? 0)) with false. cbv iota. erewrite M_bind_Ret; [reflexivity|].
       unfold rdma_cq_event_handler at 1. erewrite M_bind_Ret by (apply get_cb_Ret; exact Ecb1). rewrite decide_False by done.
       erewrite M_bind_Ret by done. erewrite M_bind_Ret by exact E1. done. }
  unfold rdma_cq_event_handler at 1. erewrite M_bind_Ret by (apply get_cb_Ret; exact Ecb1). rewrite decide_False by done.
  erewrite M_bind_Ret by done. erewrite M_bind_Ret by exact E2. cbn [recv_wc wc_stat wc_op_ wc_byte_len_ok].
  erewrite M_bind_Ret by (apply (upd_cb_Ret c cb1); exact Ecb1).
  set (w2 := _ <| sess := _ |>).
  assert (aget (cb_list (sess w2)) c = Some (cb1 <| recv_buf := msg |>)) as Ecb2.
  { subst w2 w1. cbn. by rewrite aget_insert, decide_True by (rewrite ?alen_insert; done). }
  erewrite (M_bind_Ret _ _ w2 0 (w2 <| sess := (sess w2) <| cb_list := <[Z.to_nat c := told msg cb]> (cb_list (sess w2)) |> |>)).
  2: { unfold recv_msg. erewrite M_bind_Ret by done.
       erewrite (M_bind_Ret _ _ w2 (0, (sess w2) <| cb_list := <[Z.to_nat c := told msg cb]> (cb_list (sess w2)) |>) w2); [reflexivity|].
       unfold lift, client_recv. rewrite Ecb2.
       step_bind. change (negb true) with false. cbv iota. change (cb_st (cb1 <| recv_buf := msg |>)) with (cb_st cb).
       destruct (Z.ltb_spec (test_state_num (cb_st cb)) (test_state_num CONNECTED)); [lia|].
       change (ri_type (recv_buf (cb1 <| recv_buf := msg |>))) with (ri_type msg). rewrite Hty.
       by rewrite (with_cb_Some _ _ _ _ (told msg cb) Ecb2) by done. }
  change (negb (0 =? 0)) with false. cbv iota. erewrite M_bind_Ret by (by apply ib_post_Ret).
  change (negb (0 =? 0)) with false. cbv iota. subst w2 w1. cbn. unfold mret, M_ret. do 2 f_equal.
  by rewrite !list_insert_insert_eq, <- app_assoc.
Qed.
End exchange.

(** * Injecting the faults of one read *)

Section inject.
Context (cfg : config) (post_ret : Z → Z) (Hpost : ∀ n, post_ret n = 0).
Context (conn : Z) (ss : list slot) (Hplaced : placed ss) (Hlen : alen ss = NDISKS cfg).
Context (faulty : slot → bool) (Hsmall : 0 <= NDATAS cfg <= 2 ^ 62).

#[local] Notation "'refs'" := (sref conn <$> ss).
#[local] Notation "'some_refs'" := (Some <$> (sref conn <$> ss)).
#[local] Abbreviation faults w := (IS_fault_injection (sess w)).

(** The counters strike the disks marked as faulty, and no others. *)
Definition strikes (fi : fault_injection) : Prop :=
  fault_ok cfg fi ∧ armed cfg (NDATAS cfg) fi ∧
  ∀ i s d, aget ss i = Some s → aget (disk_fault fi) i = Some d →
    (faulty s = true ↔ inject_fault fi = 1 ∧ access_count_before_next_fault d <= 0).

(** The server of a faulty disk is connected, and answers. *)
Definition tells (w : world) (s : slot) (msg : rdma_info) : Prop :=
  mapped s = true ∧ answers_fault w (s_pool s) msg ∧
  ∃ cb st, aget (cb_list (sess w)) (s_pool s) = Some cb ∧ cb_st cb ≠ ERROR ∧
    test_state_num CONNECTED <= test_state_num (cb_st cb) ∧
    aget (cb_state_list (sess w)) (cb_index cb) = Some st ∧ st ≠ CB_FAIL.

(** The messages that are sent. *)
Definition slot_posts (w : world) (s : slot) : list post :=
  if faulty s then match aget (cb_list (sess w)) (s_pool s) with Some cb => fault_posts (s_pool s) cb | None => [] end else [].

(** Progress of the loop: [w] before it, [v] after the first [j] disks. *)
Record injected (w : world) (j : Z) (v : world) : Prop := {
  in_world : v = w <| sess := (sess w) <| IS_conns := conns_of v |> <| cb_list := cb_list (sess v) |>
                                       <| IS_fault_injection := faults v |> |> <| cqs := cqs v |> <| posted := posted v |>;
  in_faults : fault_ok cfg (faults v) ∧ armed cfg (NDATAS cfg) (faults v) ∧ inject_fault (faults v) = inject_fault (faults w);
  in_disks : ∀ i, j <= i → aget (disk_fault (faults v)) i = aget (disk_fault (faults w)) i;
  in_ctxs : progress refs (λ i c, c <| fault := flag_at ss faulty i |>) (λ _, Some) (conns_of w) j (conns_of v);
  in_cbs : ∀ p, (∀ i s, i < j → aget ss i = Some s → faulty s = true → s_pool s ≠ p) →
    aget (cb_list (sess v)) p = aget (cb_list (sess w)) p;
  in_cqs : ∀ p, (∀ i s, i < j → aget ss i = Some s → faulty s = true → s_pool s ≠ p) → aget (cqs v) p = aget (cqs w) p;
  in_posts : posted v = posted w ++ mjoin (slot_posts w <$> take (Z.to_nat j) ss)
}.

Lemma posts_step w j s : aget ss j = Some s →
  mjoin (slot_posts w <$> take (Z.to_nat (j + 1)) ss) = mjoin (slot_posts w <$> take (Z.to_nat j) ss) ++ slot_posts w s.
Proof. intros Es. rewrite (take_slots ss j s Es), fmap_app, join_app. f_equal. cbn. apply app_nil_r. Qed.

(** What the counter of one disk decides. *)
Lemma decision fi j s d :
  fault_ok cfg fi → armed cfg (NDATAS cfg) fi → aget (disk_fault fi) j = Some d →
  (faulty s = true ↔ inject_fault fi = 1 ∧ access_count_before_next_fault d <= 0) → 0 <= NDATAS cfg <= 2 ^ 62 →
  ∃ f', IS_fault_injection_inject_fault fi j = Some (flag faulty s, f') ∧ fault_ok cfg f' ∧ armed cfg (NDATAS cfg) f' ∧
    inject_fault f' = inject_fault fi ∧ ∀ i, i ≠ j → aget (disk_fault f') i = aget (disk_fault fi) i.
Proof.
  intros Hok Ha Ed Hs Hn. unfold flag. destruct (inject_step cfg fi j d Hok Ed) as [[E Hno]|[Hy (f' & d' & E & Hok' & Hi & Hg & Hc & _ & _ & Ho)]].
  - exists fi. destruct (faulty s); [by destruct Hno; apply Hs|]. by split_and!.
  - exists f'. rewrite (proj2 Hs Hy). split_and!; [done|done| |by rewrite Hi; destruct Hy as [-> _]|done].
    split; [apply (f_disks _ _ Hok')|]. intros i x Ex. destruct (decide (i = j)) as [->|Hne].
    + assert (x = d') as -> by congruence. pose proof (f_rate _ _ Hok) as Hr. unfold rate_ok in Hr. lia.
    + rewrite Ho in Ex by done. by apply (proj2 Ha i x).
Qed.

Lemma inject_step_Ret w j s v :
  strikes (faults w) → (faulty s = true → ∃ msg, tells w s msg) → is_Some (ctx_of (conns_of w) (sref conn s)) →
  aget ss j = Some s → injected w j v →
  ∃ v', (f ← gets (λ w, faults w);
    '(x, f) ← lift (IS_fault_injection_inject_fault f j);
    upd_sess (λ s, s <| IS_fault_injection := f |>);;
    o ← lift (aget some_refs j); r ← deref o;
    upd_ctx r (λ c, c <| fault := x |>);;
    when (negb (x =? 0))
      (t ← the_target (target_of <$> ss) j; c ← deref (t_cb_ptr t);
       _ ← IS_send_fault cfg post_ret c; rdma_cq_event_handler cfg post_ret c)) v = Ret ((), v') ∧ injected w (j + 1) v'.
Proof using Hpost Hplaced Hlen Hsmall.
  intros (_ & _ & Hst) Htell [c Ec] Es [Hw (Hok & Ha & Hon) Hd Hpr Hcb Hcq Hp].
  pose proof (aget_lt _ _ _ Es) as Hj. pose proof (f_disks _ _ Hok) as Ld.
  destruct (proj2 (aget_is_Some (disk_fault (faults v)) j)) as [d Ed]; [lia|].
  assert (faulty s = true ↔ inject_fault (faults v) = 1 ∧ access_count_before_next_fault d <= 0) as Hs.
  { rewrite Hon. apply (Hst j s d Es). by rewrite <- Hd. }
  assert (ctx_of (conns_of v) (sref conn s) = Some c) as Ecv.
  { rewrite (pr_ctx _ _ _ _ _ _ Hpr j _ (aget_refs conn ss j s Es)), decide_False by lia. done. }
  destruct (decision (faults v) j s d Hok Ha Ed Hs Hsmall) as (f' & Ef & Hok' & Ha' & Hon' & Hd').
  set (v1 := v <| sess := (sess v) <| IS_fault_injection := f' |> |>).
  destruct (upd_ctx_Ret v1 (sref conn s) c (λ c, c <| fault := flag faulty s |>) Ecv) as (cs & E & Hcs).
  set (u := with_conns _ cs) in E.
  erewrite M_bind_Ret by done. erewrite M_bind_Ret by (unfold lift; by rewrite Ef). cbv beta iota. erewrite M_bind_Ret by done.
  erewrite M_bind_Ret by (unfold lift; by rewrite (aget_refs_Some conn ss j s)). erewrite M_bind_Ret by done.
  erewrite M_bind_Ret by exact E.
  assert (progress refs (λ i c, c <| fault := flag_at ss faulty i |>) (λ _, Some) (conns_of w) (j + 1) cs) as Hpr'.
  { eapply progress_set; [by apply separate_refs|by apply aget_refs|exact Hpr|exact Ecv|]. unfold flag_at. rewrite Es. exact Hcs. }
  assert (∀ i, j + 1 <= i → aget (disk_fault f') i = aget (disk_fault (faults w)) i) as Hrest.
  { intros i Hi. rewrite Hd' by lia. apply Hd. lia. }
  unfold flag in *. destruct (faulty s) eqn:Hf; cbn [negb Z.eqb when].
  - destruct (Htell eq_refl) as (msg & Hm & Hans & cb & st & Ecb & He & Hconn & Est & Hst').
    assert (∀ p, p = s_pool s → ∀ i t, i < j → aget ss i = Some t → faulty t = true → s_pool t ≠ p) as Hfresh.
    { intros p -> i t Hi Et _. apply (pool_ne ss Hplaced i j t s); [done..|lia]. }
    assert (cqs u = cqs v ∧ cb_list (sess u) = cb_list (sess v) ∧ cb_state_list (sess u) = cb_state_list (sess w)) as (Uq & Uc & Us).
    { split_and!; [done|done|]. change (cb_state_list (sess u)) with (cb_state_list (sess v)). by rewrite Hw. }
    destruct (fault_exchange_Ret cfg post_ret Hpost (s_pool s) cb st msg u) as (l & Hl & Ex); [|done|done| |done| |].
    { by rewrite Uc, Hcb by (by apply Hfresh). }
    { by rewrite Us. }
    { destruct Hans as [Hty (n & m & q & Eq)]. split; [done|]. exists n, m, q. by rewrite Uq, Hcq by (by apply Hfresh). }
    erewrite M_bind_Ret by (by apply the_target_Ret).
    replace (t_cb_ptr (target_of s)) with (Some (s_pool s)) by (unfold mapped, target_of in *; by destruct (s_disk s) as [[]|]).
    erewrite M_bind_Ret by done. eexists. split; [exact Ex|]. constructor.
    + subst u v1. rewrite Hw. by destruct w as [[] ? ? ? ? ?].
    + split_and!; [done|done|exact (eq_trans Hon' Hon)].
    + exact Hrest.
    + exact Hpr'.
    + intros p Hp'. assert (s_pool s ≠ p) by (apply (Hp' j); [lia|done|done]).
      transitivity (aget (<[Z.to_nat (s_pool s) := told msg cb]> (cb_list (sess v))) p); [done|].
      rewrite aget_insert by (rewrite <- Uc; eapply aget_lt; by rewrite Uc, Hcb by (by apply Hfresh)).
      rewrite decide_False by done. apply Hcb. intros i t Hi. apply Hp'. lia.
    + intros p Hp'. assert (s_pool s ≠ p) by (apply (Hp' j); [lia|done|done]). cbn. rewrite Hl by done. apply Hcq.
      intros i t Hi. apply Hp'. lia.
    + rewrite (posts_step w j s Es), app_assoc, <- Hp. unfold slot_posts. by rewrite Hf, Ecb.
  - exists u. split; [done|]. constructor.
    + subst u v1. rewrite Hw. by destruct w as [[] ? ? ? ? ?].
    + split_and!; [done|done|exact (eq_trans Hon' Hon)].
    + exact Hrest.
    + exact Hpr'.
    + intros p Hp'. apply Hcb. intros i t Hi. apply Hp'. lia.
    + intros p Hp'. apply Hcq. intros i t Hi. apply Hp'. lia.
    + rewrite (posts_step w j s Es), app_assoc, <- Hp. unfold slot_posts. rewrite Hf. by rewrite app_nil_r.
Qed.

Lemma inject_all_Ret w :
  strikes (faults w) → (∀ s, s ∈ ss → faulty s = true → ∃ msg, tells w s msg) →
  (∀ s, s ∈ ss → is_Some (ctx_of (conns_of w) (sref conn s))) →
  ∃ v, inject_faults cfg post_ret (target_of <$> ss) some_refs w = Ret ((), v) ∧ injected w (NDISKS cfg) v.
Proof using Hpost Hplaced Hlen Hsmall.
  intros Hst Htell Hc. unfold inject_faults.
  match goal with |- context [loop 0 (NDISKS cfg) ?body ()] =>
    destruct (loop_inv (λ j _ v, injected w j v) body 0 (NDISKS cfg) () w) as ([] & v & E & Hv) end;
    [unfold alen in Hlen; lia| | |by exists v].
  - destruct Hst as (Hok & Ha & _). constructor; try done; [by destruct w as [[] ? ? ? ? ?]|apply progress_start|].
    cbn. by rewrite app_nil_r.
  - intros j [] v Hj Hv. destruct (slot_at cfg ss Hlen j Hj) as (s & Es & Hs).
    destruct (inject_step_Ret w j s v Hst (Htell s Hs) (Hc s Hs) Es Hv) as (v' & E & H). by exists (), v'.
Qed.

(** ** The world the reads are posted in *)

(** The servers of the faulty disks know, and nothing else has changed but the contexts. *)
Record informed (w w1 : world) : Prop := {
  if_posts : posted w1 = posted w ++ mjoin (slot_posts w <$> ss);
  if_sess : sess w1 = (sess w) <| IS_conns := conns_of w1 |> <| cb_list := cb_list (sess w1) |> <| IS_fault_injection := faults w1 |>;
  if_cbs : ∀ p, (∀ s, s ∈ ss → faulty s = true → s_pool s ≠ p) → aget (cb_list (sess w1)) p = aget (cb_list (sess w)) p;
  if_cqs : ∀ p, (∀ s, s ∈ ss → faulty s = true → s_pool s ≠ p) → aget (cqs w1) p = aget (cqs w) p;
  if_reqs : reqs w1 = reqs w;
  if_det : det w1 = det w;
  if_counters : counters w1 = counters w ++ [NDATAS cfg];
  if_armed : armed cfg (NDATAS cfg) (faults w1)
}.

Lemma start_faulty_Ret offset len req rq w :
  1 <= NDISKS cfg → reqs w !! req = Some rq → conn_id rq = conn → (∀ t, t ∈ ss → ready cfg (conns_of w) conn t) →
  strikes (faults w) → (∀ s, s ∈ ss → faulty s = true → ∃ msg, tells w s msg) →
  ∃ w1, set_up cfg conn ss faulty (offset / NDATAS cfg) (len / NDATAS cfg) req w (conns_of w1) ∧ informed w w1 ∧
    start_read cfg post_ret (target_of <$> ss) offset len req w =
      (r ← post_reads cfg post_ret (target_of <$> ss) some_refs; mret (some_refs, r)) w1.
Proof using Hpost Hplaced Hlen Hsmall.
  intros Hd Erq Hconn Hr Hst Htell.
  destruct (linked_up_Ret cfg post_ret Hd conn ss Hplaced Hlen faulty offset len req rq w Erq Hconn Hr) as (cs & Hl & Estart).
  set (w0 := with_conns _ cs) in Estart. destruct (inject_all_Ret w0) as (w1 & E & [I1 (I2 & I3 & I4) I5 I6 I7 I8 I9]).
  { exact Hst. }
  { exact Htell. }
  { intros t [i Et]%elem_of_aget. destruct (proj1 Hl i t Et) as (c & x & _ & _ & Ex & _). by exists x. }
  assert (∀ p, (∀ s, s ∈ ss → faulty s = true → s_pool s ≠ p) → ∀ i s, i < NDISKS cfg → aget ss i = Some s → faulty s = true → s_pool s ≠ p) as Hp.
  { intros p H i s _ Es. apply H. by eapply aget_elem. }
  exists w1. split; [|split].
  - eapply (flagged_set_up cfg conn ss Hlen faulty); [exact Hl|]. exact I6.
  - constructor.
    + rewrite I9, take_ge by (unfold alen in Hlen; lia). done.
    + rewrite I1 at 1. by destruct w as [[] ? ? ? ? ?].
    + intros p H. by apply I7, Hp.
    + intros p H. by apply I8, Hp.
    + by rewrite I1.
    + by rewrite I1.
    + by rewrite I1.
    + exact I3.
  - rewrite Estart. by erewrite M_bind_Ret by exact E.
Qed.

(** A server that no fault is about can be read as before. *)
Lemma informed_served w w1 s wc :
  informed w w1 → s ∈ ss → faulty s = false → usable (sess w) (s_pool s) ∧ delivers w (s_pool s) wc →
  usable (sess w1) (s_pool s) ∧ delivers w1 (s_pool s) wc.
Proof using Hplaced.
  intros Hi [i Es]%elem_of_aget Hf [(cb & st & Ecb & He & Est & Hst) (n & q & Eq)].
  assert (∀ t, t ∈ ss → faulty t = true → s_pool t ≠ s_pool s) as Hp.
  { intros t [j Et]%elem_of_aget Ht Hp. destruct (decide (j = i)) as [->|Hne]; [congruence|].
    by apply (pool_ne ss Hplaced j i t s). }
  split.
  - exists cb, st. rewrite (if_cbs _ _ Hi) by done. split_and!; [done|done| |done]. by rewrite (if_sess _ _ Hi).
  - exists n, q. by rewrite (if_cqs _ _ Hi).
Qed.
End inject.

(** * Replication *)

Section replication.
Context (cfg : config) (post_ret : Z → Z).
Context (Hrep : build cfg = REP) (Hone : NDATAS cfg = 1) (Hdisks : 1 <= NDISKS cfg) (Hpost : ∀ n, post_ret n = 0).

(** Faults strike the disks in [faulty]; their servers answer; disk [g] is the first that is
    left, and its server delivers [data]. *)
Record replica_served (conn : Z) (ss : list slot) (faulty : slot → bool) (g : Z) (s : slot) (ci : Z) (ck : remote_chunk_g)
    (data : list byte) (w : world) : Prop := {
  rs_ready : ∀ t, t ∈ ss → ready cfg (conns_of w) conn t;
  rs_strikes : strikes cfg ss faulty (IS_fault_injection (sess w));
  rs_tells : ∀ t, t ∈ ss → faulty t = true → ∃ msg, tells w t msg;
  rs_first : first_serving ss faulty g s ci ck;
  rs_usable : usable (sess w) (s_pool s);
  rs_delivers : delivers w (s_pool s) (read_wc (sref conn s) data);
  rs_data : alen data = IS_PAGE_SIZE
}.

(** C14: a replicated read into whose disks faults are injected: the manager tells the server
    of each disk that is struck, which answers, and posts exactly one read, to the first disk
    [g] that is on a server and was not struck; the request is ended exactly once, without an
    error, and every context is back on top of its free list.  The page it gets is that of the
    first disk [h] that was not struck, whether that one was read or not: the data the
    replica delivered if every disk before [g] was struck, the old buffer of disk [h] if
    that disk was only on no server. *)
Theorem faulty_replica_read ss faulty req rq old w g s ci ck data h t c0 :
  read_request cfg ss req rq old w → replica_served (conn_id rq) ss faulty g s ci ck data w →
  first_unflagged ss faulty h t → ctx_of (conns_of w) (sref (conn_id rq) t) = Some c0 →
  ∃ w1 v, IS_queue_rq cfg post_ret req w = Ret (BLK_MQ_RQ_QUEUE_OK, v) ∧ informed cfg ss faulty w w1 ∧
    replica_read (conn_id rq) ss w w1 (chunk_offset cfg rq) (rq_bytes rq) req rq s ck (if decide (h = g) then data else rdma_buf c0) v.
Proof using Hrep Hone Hdisks Hpost.
  intros Hq [Hr Hst Ht Hg Hu Hd Hl] Hh Ec0. pose proof Hq as [Hpl Hlen Erq Ebio Hold _ _].
  destruct (start_faulty_Ret cfg post_ret Hpost (conn_id rq) ss Hpl Hlen faulty ltac:(lia) (chunk_offset cfg rq) (rq_bytes rq) req rq w)
    as (w1 & Hset & Hinf & Estart); try done. rewrite Hone, !Z.div_1_r in Hset.
  destruct (informed_served cfg ss Hpl faulty w w1 s (read_wc (sref (conn_id rq) s) data) Hinf) as [Hu1 Hd1]; [|apply Hg|done|].
  { eapply aget_elem, Hg. }
  destruct (access_armed cfg (NDATAS cfg) (IS_fault_injection (sess w1)) g) as (fi & Efi & _); [lia|apply Hinf| |].
  { pose proof (aget_lt _ _ _ (fv_slot _ _ _ _ _ _ Hg)). lia. }
  destruct (opened_replica_Ret cfg post_ret Hrep Hone Hdisks Hpost (conn_id rq) ss Hpl Hlen faulty (chunk_offset cfg rq) (rq_bytes rq)
    req rq old h t c0 w w1 g s ci ck data) as (v & E & Hv); try done; [by rewrite (if_counters _ _ _ _ _ Hinf), Hone|apply Hinf|].
  exists w1, v. split; [|by split]. by rewrite (IS_queue_rq_read cfg post_ret ss req rq old w _ Hq E).
Qed.
End replication.

(** * Erasure coding *)

Section erasure.
Context (cfg : config) (post_ret : Z → Z) (enc : list byte) (e : ec_env).
Context (Hcoded : coded cfg enc) (Hec : build cfg = EC e) (Hpost : ∀ n, post_ret n = 0) (Hsmall : NDATAS cfg <= 2 ^ 62).

(** Faults strike the disks in [faulty]; their servers answer; enough disks are left, and
    their servers deliver the lines of [page]. *)
Record faulty_served (conn : Z) (ss : list slot) (faulty : slot → bool) (page : list byte) (w : world) : Prop := {
  fs_ready : ∀ t, t ∈ ss → ready cfg (conns_of w) conn t;
  fs_strikes : strikes cfg ss faulty (IS_fault_injection (sess w));
  fs_tells : ∀ s, s ∈ ss → faulty s = true → ∃ msg, tells w s msg;
  fs_enough : NDATAS cfg <= alen (ups ss faulty 0 (NDISKS cfg));
  fs_delivers : ∀ i s, i ∈ firsts cfg ss faulty → aget ss i = Some s →
    usable (sess w) (s_pool s) ∧ delivers w (s_pool s) (read_wc (sref conn s) (stripe_buf cfg enc page i))
}.

Lemma faulty_read_Ret ss faulty req rq old page got w :
  read_request cfg ss req rq old w → rq_bytes rq = IS_PAGE_SIZE → faulty_served (conn_id rq) ss faulty page w →
  puts_together cfg enc (conn_id rq) ss faulty page rq w got →
  ∃ w1 v, IS_queue_rq cfg post_ret req w = Ret (BLK_MQ_RQ_QUEUE_OK, v) ∧ informed cfg ss faulty w w1 ∧
    read_over cfg (conn_id rq) ss faulty w w1 (chunk_offset cfg rq) req rq got v.
Proof using Hcoded Hec Hpost Hsmall.
  intros Hq Hby [Hr Hst Ht Hups Hdel] Hgot. pose proof Hq as [Hpl Hlen Erq Ebio Hold _ _]. pose proof (cd_splits _ _ Hcoded) as Hk.
  destruct (start_faulty_Ret cfg post_ret Hpost (conn_id rq) ss Hpl Hlen faulty ltac:(lia) (chunk_offset cfg rq) IS_PAGE_SIZE req rq w)
    as (w1 & Hset & Hinf & Estart); try done; [lia|]. rewrite (share_len cfg enc Hcoded) in Hset.
  destruct (opened_read_Ret cfg post_ret enc e Hcoded Hec Hpost (conn_id rq) ss Hpl Hlen faulty Hups (chunk_offset cfg rq)
    req rq old page got w w1) as (v & E & Hv); try done.
  - destruct Hinf. by constructor.
  - apply Hinf.
  - intros i s Hi Es. eapply (informed_served cfg ss Hpl faulty); [exact Hinf|by eapply aget_elem| |by apply Hdel].
    apply (elem_firsts cfg ss faulty) in Hi as [Hup _]. unfold up, serves in Hup. rewrite Es in Hup.
    apply andb_true_iff in Hup as [_ Hup]. by apply negb_true_iff.
  - exists w1, v. split; [|by split]. rewrite <- Hby in E.
    by rewrite (IS_queue_rq_request cfg post_ret _ _ _ (IS_request_read cfg post_ret ss req rq old w _ Hq E)).
Qed.

(** An erasure-coded read into whose disks faults are injected, the failure detector having
    no lost split on record: the manager tells the servers of those disks, which answer, and
    reads the first [NDATAS] of the others; but nothing is rebuilt, and the request is ended,
    without an error, with a page in which each split that was struck is what its unused
    context last held.  It is the page that was written exactly if these happen to agree, in
    particular if the faults strike parities only. *)
Theorem faulty_read_stale ss faulty req rq old page bufs w :
  read_request cfg ss req rq old w → rq_bytes rq = IS_PAGE_SIZE → alen page = IS_PAGE_SIZE →
  faulty_served (conn_id rq) ss faulty page w → nsrcerrs (det w) <= 0 →
  stale_bufs cfg enc (conn_id rq) ss faulty page w bufs →
  ∃ got w1 v, IS_queue_rq cfg post_ret req w = Ret (BLK_MQ_RQ_QUEUE_OK, v) ∧ informed cfg ss faulty w w1 ∧
    read_over cfg (conn_id rq) ss faulty w w1 (chunk_offset cfg rq) req rq got v ∧
    (∀ i, 0 <= i < NDATAS cfg → share cfg got i = bufs i) ∧
    (got = page ↔ ∀ i, 0 <= i < NDATAS cfg → up ss faulty i = false → bufs i = share cfg page i).
Proof using Hcoded Hec Hpost Hsmall.
  intros Hq Hby Hp Hs Hn Hb. pose proof Hq as [Hpl Hlen _ Ebio Hold _ _]. exists (assemble cfg bufs).
  destruct (faulty_read_Ret ss faulty req rq old page (assemble cfg bufs) w Hq Hby Hs) as (w1 & v & E & Hinf & Hv).
  { by apply (puts_together_bufs cfg enc e Hcoded Hec (conn_id rq) ss Hlen faulty (fs_enough _ _ _ _ _ Hs) page rq old w bufs). }
  exists w1, v. split; [done|]. split; [done|]. split; [done|].
  by apply (stale_page cfg enc e Hcoded Hec (conn_id rq) ss faulty page w bufs Hp (fs_ready _ _ _ _ _ Hs)).
Qed.
End erasure.

(** * Concrete reads

    All disks are on servers, and a fault strikes disk [x]. *)

Definition no_disk_out (d : Z) : bool := false.
Definition fault_done : rdma_info :=
  {| ri_buf := replicate 32 0; ri_rkey := replicate 32 0; ri_size_gb := 0; ri_type := FAULT_DONE |}.

Section struck.
Context (cfg : config) (Hn : 1 <= NDATAS cfg <= 2 ^ 62) (Hdisks : NDATAS cfg <= NDISKS cfg) (Hsz : 0 <= cb_size cfg).
Context (x : Z) (line : Z → list byte).

Definition struck_disk (s : slot) : bool := s_pool s =? x.
Definition struck_fault (d : Z) : fault_disk :=
  {| access_count := 0; access_count_before_next_fault := if d =? x then 0 else 5; fault_count := 0; seed := zero_rand mt64 |}.
Definition struck_faults : fault_injection :=
  {| inject_fault := 1; fault_rate := 10; disk_fault := struck_fault <$> seqZ 0 (NDISKS cfg) |}.
(** The server of disk [x] answers the fault, the others deliver their lines. *)
Definition struck_queue (d : Z) : list (option ib_wc) :=
  if d =? x then [Some send_wc; None; Some (recv_wc fault_done)]
  else [Some (read_wc (sref 0 (test_slot no_disk_out d)) (line d))].
Definition struck_world : world :=
  {| sess := (test_session cfg no_disk_out) <| IS_fault_injection := struck_faults |>;
     reqs := [test_rq false]; counters := [];
     cqs := struck_queue <$> disks cfg; posted := []; det := no_det |}.

Lemma struck_fault_at i d : aget (disk_fault struck_faults) i = Some d → 0 <= i < NDISKS cfg ∧ d = struck_fault i.
Proof using Hn Hdisks.
  intros E. pose proof (aget_lt _ _ _ E) as Hi. cbn [struck_faults disk_fault] in *. unfold alen in Hi.
  rewrite length_fmap, length_seqZ in Hi. rewrite aget_map, seqZ_at in E by lia. injection E as <-. split; [lia|done].
Qed.

Lemma struck_strikes : strikes cfg (test_slots cfg no_disk_out) struck_disk struck_faults.
Proof using Hn Hdisks.
  assert (alen (disk_fault struck_faults) = NDISKS cfg) as L.
  { cbn. unfold alen. rewrite length_fmap, length_seqZ. lia. }
  split; [split; [done|split; cbn; lia|]|split; [split; [done|]|]].
  - intros i d [_ ->]%struck_fault_at. split; cbn; [lia|by destruct (i =? x)|lia|apply zero_rand_ok, mt64_ok].
  - intros i d [_ ->]%struck_fault_at. cbn. destruct (i =? x); lia.
  - intros i s d [-> _]%test_slots_aget [_ ->]%struck_fault_at. unfold struck_disk. cbn. destruct (i =? x); split; try done; intros [_ ?]; lia.
Qed.

Lemma struck_tells s : s ∈ test_slots cfg no_disk_out → struck_disk s = true → ∃ msg, tells struck_world s msg.
Proof using Hn Hdisks.
  intros (d & -> & Hr)%test_slots_in Hs%Z.eqb_eq. cbn in Hs. subst d. exists fault_done. split; [done|]. split.
  - split; [done|]. exists 0%nat, 1%nat, []. transitivity (Some (struck_queue x)); [by apply (aget_disks cfg)|].
    unfold struck_queue. by rewrite Z.eqb_refl.
  - exists (test_cb x), CB_MAPPED. split_and!; [by apply (aget_disks cfg test_cb)|done|done|by apply (aget_disks cfg (λ _, CB_MAPPED))|done].
Qed.

(** Faults are no part of the connections. *)
Lemma struck_conns : conns_of struck_world = IS_conns (test_session cfg no_disk_out).
Proof. unfold struck_world, conns_of. cbn [sess]. generalize (test_session cfg no_disk_out). by intros []. Qed.
Lemma struck_usable i : usable (test_session cfg no_disk_out) i → usable (sess struck_world) i.
Proof. unfold struck_world. cbn [sess]. generalize (test_session cfg no_disk_out). by intros []. Qed.

Lemma struck_ready t : t ∈ test_slots cfg no_disk_out → ready cfg (conns_of struck_world) 0 t.
Proof using Hn Hdisks Hsz. intros Ht. rewrite struck_conns. apply (test_ready cfg no_disk_out); [lia|done|done]. Qed.
Lemma struck_ctx_of t : t ∈ test_slots cfg no_disk_out → ctx_of (conns_of struck_world) (sref 0 t) = Some (test_ctx cfg).
Proof. rewrite struck_conns. apply test_ctx_of. Qed.

Lemma struck_delivers i s :
  i ≠ x → aget (test_slots cfg no_disk_out) i = Some s →
  usable (sess struck_world) (s_pool s) ∧ delivers struck_world (s_pool s) (read_wc (sref 0 s) (line i)).
Proof.
  intros Hi [-> Hr]%test_slots_aget. split; [by apply struck_usable, (test_usable cfg no_disk_out)|]. exists 0%nat, [].
  transitivity (Some (struck_queue i)); [by apply (aget_disks cfg)|]. unfold struck_queue. by destruct (Z.eqb_spec i x).
Qed.
End struck.

(** Disk 0 of three is struck: the page comes from the replica on disk 1. *)
Definition struck_replicas : world := struck_world rep 0 (λ _, test_data).

Lemma faulty_replica_read_witness :
  ∃ w1 v, IS_queue_rq rep (λ _, 0) 0 struck_replicas = Ret (BLK_MQ_RQ_QUEUE_OK, v) ∧
    informed rep (test_slots rep no_disk_out) (struck_disk 0) struck_replicas w1 ∧
    replica_read 0 (test_slots rep no_disk_out) struck_replicas w1 8192 4096 0 (test_rq false) (test_slot no_disk_out 1)
      (test_remote 1) test_data v.
Proof.
  apply (faulty_replica_read rep (λ _, 0) eq_refl eq_refl ltac:(discriminate) (λ _, eq_refl) (test_slots rep no_disk_out) (struck_disk 0)
    0 (test_rq false) test_page struck_replicas 1 (test_slot no_disk_out 1) 0 (test_remote 1) test_data 1
    (test_slot no_disk_out 1) (test_ctx rep)).
  - split; [apply test_placed|reflexivity|reflexivity|reflexivity|exact test_page_len|reflexivity|reflexivity].
  - assert (∀ i t, 0 <= i < 1 → aget (test_slots rep no_disk_out) i = Some t → struck_disk 0 t = true) as Hfirst.
    { intros i t Hi [-> _]%test_slots_aget. unfold struck_disk. cbn. by assert (i = 0) as -> by lia. }
    destruct (struck_delivers rep 0 (λ _, test_data) 1 (test_slot no_disk_out 1)) as [Hu Hd]; [done|reflexivity|].
    split; [|apply struck_strikes; by vm_compute; try split| |split; [reflexivity|reflexivity|reflexivity|]|exact Hu|exact Hd|].
    + intros t. by apply struck_ready.
    + intros t. by apply struck_tells.
    + intros i t Hi Et. unfold serves. rewrite (Hfirst i t Hi Et). apply andb_false_r.
    + unfold alen, test_data. by rewrite length_replicate, Z2Nat.id.
  - split; [reflexivity|reflexivity|]. intros i t Hi [-> _]%test_slots_aget. unfold struck_disk. cbn. by assert (i = 0) as -> by lia.
  - apply struck_ctx_of. by apply (aget_elem _ 1).
Defined.

(** Disk 1 of six is struck: its split comes back as the zeros its context was allocated
    with. *)
Definition struck_stripe (page : list byte) : world := struck_world ec_test 1 (stripe_buf ec_test ec_enc page).
Definition struck_bufs (page : list byte) (i : Z) : list byte :=
  if i =? 1 then replicate (Z.to_nat (cb_size ec_test)) x00 else stripe_buf ec_test ec_enc page i.

Lemma struck_up i : 0 <= i < 6 → up (test_slots ec_test no_disk_out) (struck_disk 1) i = negb (i =? 1).
Proof.
  intros Hi. unfold up. rewrite (aget_disks ec_test (test_slot no_disk_out)) by (change (NDISKS ec_test) with 6; lia). done.
Qed.
Lemma struck_served page : faulty_served ec_test ec_enc 0 (test_slots ec_test no_disk_out) (struck_disk 1) page (struck_stripe page).
Proof.
  split.
  - intros t. by apply struck_ready.
  - apply struck_strikes; by vm_compute; try split.
  - intros s. by apply struck_tells.
  - vm_compute. discriminate.
  - intros i s Hi Es. apply (struck_delivers ec_test 1 (stripe_buf ec_test ec_enc page)); [|done]. intros ->.
    apply (elem_firsts ec_test) in Hi as [Hi _]. by rewrite struck_up in Hi.
Qed.

Lemma faulty_read_stale_witness :
  ∃ got w1 v, IS_queue_rq ec_test (λ _, 0) 0 (struck_stripe test_page) = Ret (BLK_MQ_RQ_QUEUE_OK, v) ∧
    informed ec_test (test_slots ec_test no_disk_out) (struck_disk 1) (struck_stripe test_page) w1 ∧
    read_over ec_test 0 (test_slots ec_test no_disk_out) (struck_disk 1) (struck_stripe test_page) w1 8192 0 (test_rq false) got v ∧
    (∀ i, 0 <= i < 4 → share ec_test got i = struck_bufs test_page i) ∧ got ≠ test_page.
Proof.
  destruct (faulty_read_stale ec_test (λ _, 0) ec_enc ec_test_env ec_coded eq_refl (λ _, eq_refl) ltac:(vm_compute; discriminate)
    (test_slots ec_test no_disk_out) (struck_disk 1) 0 (test_rq false) test_page test_page (struck_bufs test_page) (struck_stripe test_page))
    as (got & w1 & v & E & Hinf & Hv & Hsh & Hgot).
  - split; [apply test_placed|reflexivity|reflexivity|reflexivity|exact test_page_len|reflexivity|reflexivity].
  - reflexivity.
  - exact test_page_len.
  - exact (struck_served test_page).
  - discriminate.
  - intros i Hi. change (NDATAS ec_test) with 4 in Hi. rewrite struck_up by lia. unfold struck_bufs. destruct (i =? 1); [|done]. cbn [negb].
    assert (aget (test_slots ec_test no_disk_out) i = Some (test_slot no_disk_out i)) as Es.
    { apply (aget_disks ec_test (test_slot no_disk_out)). change (NDISKS ec_test) with 6. lia. }
    exists (test_slot no_disk_out i), (test_ctx ec_test). split; [exact Es|]. split; [|done].
    apply struck_ctx_of. by eapply aget_elem.
  - exists got, w1, v. split; [exact E|]. split; [exact Hinf|]. split; [exact Hv|]. split; [exact Hsh|]. intros ->.
    pose proof (proj1 Hgot eq_refl 1 ltac:(split; reflexivity || discriminate) eq_refl) as H1.
    apply (f_equal (λ l, aget l 0)) in H1. vm_compute in H1. discriminate.
Defined.
