(* ===== verification/Placement.v ===== *)
(** Placement of the slabs of a stripe ([IS_single_chunk_map], [is_main.c]): choice of
    candidate servers, query of their free memory, selection of the [NDISKS] servers
    with most memory, and binding one slab on each. *)

From S2P Require Import Prelude Config MT Fault State CtxPool Chunks Transfer.

(** Signed 32-bit arithmetic; overflow is undefined. *)
Definition s32 (z : Z) : option Z := if (- 2 ^ 31 <=? z) && (z <? 2 ^ 31) then Some z else None.

Section placement.
Context (cfg : config).

(** [cb_state_list[i] >= CB_EVICTING]. *)
Definition unavailable (st : cb_state) : bool := cb_state_num CB_EVICTING <=? cb_state_num st.

Definition count_available (states : list cb_state) (num_cb : Z) : option Z :=
  for_up 0 num_cb (λ i avail_cb,
    st ← aget states i; Some (if unavailable st then avail_cb - 1 else avail_cb)) num_cb.

(** Few servers: all that are available.  State [(selection, j)]. *)
Definition select_all (states : list cb_state) (num_cb : Z) (selection : list Z) : option (list Z * Z) :=
  for_up 0 num_cb (λ i '(selection, j),
    st ← aget states i;
    if negb (unavailable st) then selection ← aset selection j i; Some (selection, j + 1)
    else Some (selection, j)) (selection, 0).

(** Many servers: random draws, each moved on to the next server that is available and
    not taken.  [rand j] is the [j]-th random number. *)
Fixpoint next_free (fuel : nat) (states : list cb_state) (taken : list Z) (num_cb r : Z) : option Z :=
  match fuel with
  | O => None
  | S fuel' =>
      st ← aget states r;
      t ← aget taken r;
      if unavailable st || (t =? 1) then next_free fuel' states taken num_cb ((r + 1) mod num_cb) else Some r
  end.

Definition select_random (rand : Z → Z) (states : list cb_state) (num_cb : Z) (selection : list Z)
    : option (list Z * Z) :=
  '(selection, _) ← for_up 0 (SERVER_SELECT_NUM cfg) (λ j '(selection, taken),
    r ← next_free (S (Z.to_nat num_cb)) states taken num_cb (u32 (rand j) mod num_cb);
    selection ← aset selection j r;
    taken ← aset taken r 1;
    Some (selection, taken)) (selection, replicate (Z.to_nat num_cb) (u32 (-1)));
  Some (selection, SERVER_SELECT_NUM cfg).

(** The candidates and how many there are.  The available servers are counted, and drawn,
    among the global [NUM_CB]; few of them are taken among the session's [cb_num]. *)
Definition select_servers (rand : Z → Z) (states : list cb_state) (NUM_CB cb_num : Z) : option (list Z * Z) :=
  let selection := replicate (Z.to_nat (SERVER_SELECT_NUM cfg)) NUM_CB in
  avail_cb ← count_available states NUM_CB;
  if avail_cb <=? SERVER_SELECT_NUM cfg then select_all states cb_num selection
  else select_random rand states NUM_CB selection.

(** Swap by addition and subtraction, as the code does, on [int]s. *)
Definition swap_add (l : list Z) (i j : Z) : option (list Z) :=
  a ← aget l i; b ← aget l j; a ← s32 (a + b); l ← aset l i a;
  a ← aget l i; b ← aget l j; b ← s32 (a - b); l ← aset l j b;
  a ← aget l i; b ← aget l j; a ← s32 (a - b); aset l i a.

(** The partial selection sort: state [(free_mem, free_mem_sorted)]. *)
Definition sort_free (k : Z) (st : list Z * list Z) : option (list Z * list Z) :=
  for_up 0 (NDISKS cfg) (λ i st,
    for_up (i + 1) k (λ j '(free_mem, sorted),
      a ← aget free_mem i; b ← aget free_mem j;
      if a <? b then
        free_mem ← swap_add free_mem i j;
        sorted ← swap_add sorted i j;
        Some (free_mem, sorted)
      else Some (free_mem, sorted)) st) st.

(** * The whole function *)

(** [cm_result c]: the state in which the connection manager's events leave server [c]
    when a connection is attempted; [rdma_create_id_ok], [kzalloc_ok]: allocations. *)
Context (post_ret : Z → Z) (rand : Z → Z) (cm_result : Z → test_state)
  (rdma_create_id_ok : Z → bool) (kzalloc_ok : Z → Z → Z → bool) (submit_queues NUM_CB : Z).

(** [rdma_connect_upper], [rdma_connect_down]: set up the queue pair, post the receive
    buffer, connect.  Their results are not looked at. *)
Definition rdma_connect (c : Z) : M world () :=
  _ ← ib_post post_ret (PostRecv c);
  upd_cb c (λ cb, cb <| cb_st := cm_result c |>).

(** Ask one candidate for its free memory: [(free_mem[i], free_mem_sorted[i])]. *)
Definition query_server (cb_ix : Z) : M world (option (Z * Z)) :=
  st ← get_cb_state cb_ix;
  if decide (st = CB_FAIL) then mret None
  else
    (if cb_state_num CB_IDLE <? cb_state_num st then
       _ ← IS_send_query cfg post_ret cb_ix;
       rdma_cq_event_handler cfg post_ret cb_ix;;
       upd_cb cb_ix (λ cb, cb <| cb_st := AFTER_FREE_MEM |>)
     else
       cb ← get_cb cb_ix;
       cb ← lift (kernel_cb_init (rdma_create_id_ok cb_ix) cb);
       set_cb cb_ix cb;;
       rdma_connect cb_ix;;
       rdma_cq_event_handler cfg post_ret cb_ix;;
       upd_cb cb_ix (λ cb, cb <| cb_st := AFTER_FREE_MEM |>);;
       set_cb_state cb_ix CB_CONNECTED);;
    cb ← get_cb cb_ix;
    mret (Some (target_size_g cb, cb_ix)).

(** Bind chunk [need_chunk + i] on the [i]-th server. *)
Definition bind_server (need_chunk i cb_ix : Z) : M world () :=
  st ← get_cb_state cb_ix;
  when (bool_decide (st = CB_CONNECTED))
    (upd_sess (λ s, s <| mapped_cb_num := mapped_cb_num s + 1 |>);;
     IS_ctx_dma_setup cfg (kzalloc_ok cb_ix) submit_queues cb_ix;;
     upd_cb cb_ix (λ cb, cb <| evict_thread := true |>));;
  _ ← IS_send_bind_single cfg post_ret cb_ix (need_chunk + i);
  rdma_cq_event_handler cfg post_ret cb_ix.

Definition IS_single_chunk_map (select_chunk : Z) : M world Z :=
  s ← gets sess;
  '(selection, k) ← lift (select_servers rand (cb_state_list s) NUM_CB (cb_num s));
  if k <? NDISKS cfg then mret (-1)
  else
    let n := Z.to_nat (SERVER_SELECT_NUM cfg) in
    '(free_mem, sorted) ← loop 0 k (λ i '(free_mem, sorted),
      cb_ix ← lift (aget selection i);
      r ← query_server cb_ix;
      match r with
      | None => mret (free_mem, sorted)
      | Some (f, x) =>
          free_mem ← lift (aset free_mem i f);
          sorted ← lift (aset sorted i x);
          mret (free_mem, sorted)
      end) (replicate n (-1), replicate n NUM_CB);
    '(free_mem, sorted) ← lift (sort_free k (free_mem, sorted));
    least ← lift (aget free_mem (NDISKS cfg - 1));
    if least =? 0 then mret (-1)
    else
      loop 0 (NDISKS cfg) (λ i _,
        cb_ix ← lift (aget sorted i); bind_server select_chunk i cb_ix) ();;
      mret 0.
End placement.

(** [rdma_trigger]: map every stripe of the device, retrying for ever. *)
Section trigger.
Context (cfg : config) (post_ret : Z → Z) (rand : nat → Z → Z) (cm_result : Z → test_state)
  (rdma_create_id_ok : Z → bool) (kzalloc_ok : Z → Z → Z → bool) (submit_queues NUM_CB : Z).

Fixpoint map_until (fuel attempt : nat) (i : Z) : M world nat :=
  match fuel with
  | O => wait
  | S fuel' =>
      r ← IS_single_chunk_map cfg post_ret (rand attempt) cm_result rdma_create_id_ok kzalloc_ok
            submit_queues NUM_CB i;
      if negb (r =? 0) then map_until fuel' (S attempt) i else mret (S attempt)
  end.

Definition rdma_trigger (fuel : nat) : M world nat :=
  loop 0 (DISKSIZE_G cfg / NDISKS cfg) (λ n attempt, map_until fuel attempt (n * NDISKS cfg)) O.
End trigger.

(** * Candidates *)

Definition avail (states : list cb_state) (i : Z) : bool :=
  match aget states i with Some st => negb (unavailable st) | None => false end.
Definition available (states : list cb_state) (n : Z) : list Z := filter (λ i, avail states i = true) (seqZ 0 n).

Lemma available_step states i :
  0 <= i → available states (i + 1) = available states i ++ (if avail states i then [i] else []).
Proof.
  intros Hi. unfold available. rewrite seqZ_app, filter_app by lia. f_equal.
  rewrite Z.add_0_l, (seqZ_cons i 1), seqZ_nil by lia.
  destruct (avail states i) eqn:E; [by rewrite filter_cons_True|]. by rewrite filter_cons_False by congruence.
Qed.

Lemma elem_of_available states n i : i ∈ available states n ↔ avail states i = true ∧ 0 <= i < n.
Proof. unfold available. rewrite list_elem_of_filter, elem_of_seqZ. intuition lia. Qed.

Lemma available_mono states i n : 0 <= i <= n → alen (available states i) <= alen (available states n).
Proof.
  intros H. unfold available. replace n with (i + (n - i)) by lia. rewrite seqZ_app, filter_app, alen_app by lia.
  unfold alen. lia.
Qed.

Lemma avail_state states i : 0 <= i < alen states → ∃ st, aget states i = Some st ∧ avail states i = negb (unavailable st).
Proof. intros H. destruct (proj2 (aget_is_Some states i) H) as [st E]. exists st. unfold avail. by rewrite E. Qed.

Lemma count_available_correct states num_cb :
  0 <= num_cb → alen states = num_cb →
  count_available states num_cb = Some (alen (available states num_cb)).
Proof.
  intros Hn Hl.
  destruct (for_up_inv (λ i a, a = num_cb - i + alen (available states i))
    (λ i avail_cb, st ← aget states i; Some (if unavailable st then avail_cb - 1 else avail_cb)) 0 num_cb num_cb)
    as (a & E & ->); [done|change (alen (available states 0)) with 0; lia| |].
  - intros i a Hi ->. destruct (avail_state states i) as (st & -> & Ha); [lia|]. step_bind.
    eexists; split; [done|]. rewrite available_step, Ha, alen_app by lia.
    destruct (unavailable st); unfold alen; cbn; lia.
  - unfold count_available. rewrite E. f_equal. lia.
Qed.

Lemma take_insert_end {A} (l : list A) j x :
  0 <= j < alen l → take (Z.to_nat (j + 1)) (<[Z.to_nat j := x]> l) = take (Z.to_nat j) l ++ [x].
Proof.
  intros Hj. replace (Z.to_nat (j + 1)) with (S (Z.to_nat j)) by lia.
  rewrite (take_S_r _ _ x) by (apply list_lookup_insert_eq; unfold alen in Hj; lia).
  by rewrite take_insert_ge by lia.
Qed.

(** The candidates are distinct available servers. *)
Definition candidates (states : list cb_state) (num_cb : Z) (sel : list Z) (k : Z) : Prop :=
  NoDup (take (Z.to_nat k) sel) ∧ 0 <= k <= alen sel ∧
  ∀ c, c ∈ take (Z.to_nat k) sel → avail states c = true ∧ 0 <= c < num_cb.

Lemma select_all_correct states num_cb sel :
  0 <= num_cb → alen states = num_cb → alen (available states num_cb) <= alen sel →
  ∃ sel', select_all states num_cb sel = Some (sel', alen (available states num_cb)) ∧
    alen sel' = alen sel ∧ candidates states num_cb sel' (alen (available states num_cb)).
Proof.
  intros Hn Hl Ha.
  destruct (for_up_inv (λ i st, st.2 = alen (available states i) ∧ alen st.1 = alen sel ∧
      take (Z.to_nat st.2) st.1 = available states i)
    (λ i '(selection, j), st ← aget states i;
      if negb (unavailable st) then selection ← aset selection j i; Some (selection, j + 1)
      else Some (selection, j)) 0 num_cb (sel, 0)) as ([sel' j] & E & Hj & Hs & Ht); [done| | |].
  - split_and!; done.
  - intros i [s j] Hi (Hj & Hs & Ht). cbn [fst snd] in *.
    destruct (avail_state states i) as (st & -> & Hav); [lia|]. step_bind.
    pose proof (available_mono states (i + 1) num_cb ltac:(lia)) as Hmono.
    rewrite available_step in * by lia. rewrite Hav in *. destruct (negb (unavailable st)).
    + rewrite alen_app in Hmono. change (alen [i]) with 1 in Hmono.
      rewrite aset_Some by (unfold alen in *; lia). step_bind.
      eexists; split; [done|]. cbn [fst snd]. rewrite alen_app, alen_insert. change (alen [i]) with 1.
      split_and!; [lia|done|]. rewrite take_insert_end by (unfold alen in *; lia). by rewrite Ht.
    + rewrite app_nil_r. eexists; split; [done|]. by split_and!.
  - unfold select_all. rewrite E. cbn [fst snd] in *. subst j. exists sel'. split; [done|]. split; [done|].
    split; [rewrite Ht; apply NoDup_filter, NoDup_seqZ|]. split; [unfold alen in *; lia|].
    intros c. rewrite Ht. apply elem_of_available.
Qed.

(** The probe for the next free server ends: it moves towards any free server [f]. *)
Lemma next_free_correct states taken n f fuel : ∀ r,
  alen states = n → alen taken = n → 0 <= r < n → 0 <= f < n →
  avail states f = true → aget taken f ≠ Some 1 → (f - r) mod n < Z.of_nat fuel →
  ∃ r', next_free fuel states taken n r = Some r' ∧ 0 <= r' < n ∧ avail states r' = true ∧ aget taken r' ≠ Some 1.
Proof.
  induction fuel as [|fuel IH]; intros r Hs Ht Hr Hf Hav Htk Hd.
  { pose proof (Z.mod_pos_bound (f - r) n). lia. }
  cbn [next_free]. destruct (avail_state states r) as (st & -> & Ha); [lia|]. step_bind.
  destruct (proj2 (aget_is_Some taken r)) as [t Et]; [lia|]. rewrite Et. step_bind.
  destruct (unavailable st || (t =? 1)) eqn:Eb.
  - assert (r ≠ f) as Hne.
    { intros ->. rewrite Hav in Ha. destruct (unavailable st); [done|]. cbn in Eb.
      apply Z.eqb_eq in Eb as ->. done. }
    apply IH; try done; [apply Z.mod_pos_bound; lia|].
    rewrite Zminus_mod_idemp_r. replace (f - (r + 1)) with (f - r - 1) by lia.
    pose proof (Z.mod_pos_bound (f - r) n ltac:(lia)) as Hb.
    assert ((f - r) mod n ≠ 0) as Hnz.
    { intros E0. apply Z.mod_divide in E0 as [q Hq]; [|lia]. assert (q = 0) by nia. lia. }
    rewrite <- Zminus_mod_idemp_l, (Z.mod_small ((f - r) mod n - 1)) by lia. lia.
  - apply orb_false_iff in Eb as [Eu E1]. exists r. split_and!; [done|lia|lia| |].
    + by rewrite Ha, Eu.
    + rewrite Et. intros [= ->]. done.
Qed.

Lemma pick_available states num_cb (l : list Z) :
  alen l < alen (available states num_cb) → ∃ f, f ∈ available states num_cb ∧ f ∉ l.
Proof.
  intros Hl. destruct (decide (Forall (λ f, f ∈ l) (available states num_cb))) as [Hall|Hex].
  - assert (available states num_cb ⊆+ l) as Hsub.
    { apply NoDup_submseteq; [apply NoDup_filter, NoDup_seqZ|]. by apply Forall_forall. }
    apply submseteq_length in Hsub. unfold alen in Hl. lia.
  - apply not_Forall_Exists in Hex; [|solve_decision]. apply Exists_exists in Hex as (f & Hf & Hn). by exists f.
Qed.

Lemma select_random_correct cfg rand states num_cb sel :
  0 < num_cb → alen states = num_cb → 0 <= SERVER_SELECT_NUM cfg → alen sel = SERVER_SELECT_NUM cfg →
  SERVER_SELECT_NUM cfg < alen (available states num_cb) →
  ∃ sel', select_random cfg rand states num_cb sel = Some (sel', SERVER_SELECT_NUM cfg) ∧
    alen sel' = alen sel ∧ candidates states num_cb sel' (SERVER_SELECT_NUM cfg).
Proof.
  intros Hn Hl Hsn Hs Ha. unfold select_random.
  match goal with |- context [for_up 0 (SERVER_SELECT_NUM cfg) ?body ?s] => destruct (for_up_inv (λ j st,
    alen st.1 = alen sel ∧ alen st.2 = num_cb ∧ candidates states num_cb st.1 j ∧
    ∀ c, 0 <= c < num_cb → (aget st.2 c = Some 1 ↔ c ∈ take (Z.to_nat j) st.1)) body 0 (SERVER_SELECT_NUM cfg) s)
    as ([sel' tk] & -> & Hl' & _ & Hc & _) end; [done| | |].
  - cbn [fst snd]. split_and!; [done|arr_lia| |].
    + split; [constructor|]. split; [unfold alen; lia|]. intros c Hc. by apply elem_of_nil in Hc.
    + intros c Hc. rewrite aget_replicate by lia. split; [done|]. intros H. by apply elem_of_nil in H.
  - intros j [s tk] Hj (Ls & Lt & (Hnd & Hk & Hc) & Htk). cbn [fst snd] in *.
    destruct (pick_available states num_cb (take (Z.to_nat j) s)) as (f & Hf & Hni).
    { unfold alen in *. rewrite length_take. lia. }
    apply elem_of_available in Hf as [Hf Hfr].
    destruct (next_free_correct states tk num_cb f (S (Z.to_nat num_cb)) (u32 (rand j) mod num_cb))
      as (r & -> & Hr & Hrav & Hrt); try done.
    { by apply Z.mod_pos_bound. }
    { by rewrite Htk by done. }
    { pose proof (Z.mod_pos_bound (f - u32 (rand j) mod num_cb) num_cb). lia. }
    step_bind. rewrite !aset_Some by lia. step_bind.
    eexists; split; [done|]. cbn [fst snd]. rewrite !alen_insert.
    rewrite Htk in Hrt by done.
    split_and!; [done|done| |].
    + split; rewrite take_insert_end by lia.
      * apply NoDup_app. split_and!; [done| |apply NoDup_singleton].
        intros x Hx ->%list_elem_of_singleton. done.
      * split; [rewrite alen_insert; lia|]. intros c. rewrite elem_of_app, list_elem_of_singleton.
        intros [Hc'| ->]; [by apply Hc|done].
    + intros c Hc'. rewrite take_insert_end, elem_of_app, list_elem_of_singleton, aget_insert by lia.
      rewrite <- Htk by done. case_decide as E; [subst; tauto|]. split; [by left|]. intros [?|]; [done|]. congruence.
  - step_bind. exists sel'. by split_and!.
Qed.

(** C26: the choice of candidate servers ends (the random probe always finds a free
    server), stays inside its arrays, and yields [min(available, NDISKS+1)] distinct
    servers, all of them neither evicting nor failed, for the session whose portal was
    parsed last ([NUM_CB] is its number of servers, as is [cb_num]). *)
Theorem select_servers_correct cfg rand states num_cb :
  config_ok cfg → 0 < num_cb → alen states = num_cb →
  ∃ sel k, select_servers cfg rand states num_cb num_cb = Some (sel, k) ∧
    alen sel = SERVER_SELECT_NUM cfg ∧
    k = Z.min (alen (available states num_cb)) (SERVER_SELECT_NUM cfg) ∧
    candidates states num_cb sel k.
Proof.
  intros Hc Hn Hl. pose proof (cfg_NDATAS _ Hc). unfold select_servers.
  set (sel0 := replicate _ _). assert (alen sel0 = SERVER_SELECT_NUM cfg) as Hs.
  { unfold sel0, SERVER_SELECT_NUM. arr_lia. }
  rewrite count_available_correct by (done || lia). step_bind.
  destruct (Z.leb_spec (alen (available states num_cb)) (SERVER_SELECT_NUM cfg)).
  - destruct (select_all_correct states num_cb sel0) as (sel' & -> & L & Hcand); [lia|done|lia|].
    eexists _, _. split; [done|]. split_and!; [lia|lia|done].
  - destruct (select_random_correct cfg rand states num_cb sel0) as (sel' & -> & L & Hcand);
      [done|done|unfold SERVER_SELECT_NUM; lia|done|done|].
    eexists _, _. split; [done|]. split_and!; [lia|lia|done].
Qed.

Lemma select_servers_correct_witness :
  ∃ sel k, select_servers rep (λ j, 7 * j + 3) (CB_FAIL :: replicate 6 CB_IDLE) 7 7 = Some (sel, k) ∧
    alen sel = 4 ∧ k = Z.min (alen (available (CB_FAIL :: replicate 6 CB_IDLE) 7)) 4 ∧
    candidates (CB_FAIL :: replicate 6 CB_IDLE) 7 sel k.
Proof. apply (select_servers_correct rep (λ j, 7 * j + 3)); [exact rep_ok|lia|reflexivity]. Defined.

(** * Sorting by free memory *)

Definition small (l : list Z) : Prop := ∀ i x, aget l i = Some x → - 2 ^ 29 <= x < 2 ^ 29.

Lemma s32_Some z : - 2 ^ 31 <= z < 2 ^ 31 → s32 z = Some z.
Proof. intros H. unfold s32. destruct (Z.leb_spec (- 2 ^ 31) z), (Z.ltb_spec z (2 ^ 31)); (done || lia). Qed.

(** The arithmetic swap is a swap. *)
Definition swapped {A} (l : list A) (i j : Z) (a b : A) : list A := <[Z.to_nat j := a]> (<[Z.to_nat i := b]> l).

Lemma swap_add_correct l i j a b :
  i ≠ j → small l → aget l i = Some a → aget l j = Some b →
  swap_add l i j = Some (swapped l i j a b).
Proof.
  intros Hij Hsm Ha Hb. pose proof (Hsm i a Ha). pose proof (Hsm j b Hb).
  pose proof (aget_lt _ _ _ Ha). pose proof (aget_lt _ _ _ Hb). unfold swap_add.
  rewrite Ha, Hb. step_bind. rewrite s32_Some by lia. step_bind. rewrite aset_Some by done. step_bind.
  rewrite !aget_insert, (decide_True (P := i = i)), (decide_False (P := i = j)) by done. rewrite Hb. step_bind.
  replace (a + b - b) with a by lia. rewrite s32_Some by lia. step_bind.
  rewrite aset_Some by (rewrite alen_insert; lia). step_bind.
  rewrite !aget_insert by (rewrite ?alen_insert; lia).
  rewrite (decide_False (P := j = i)), !decide_True by done. step_bind.
  replace (a + b - a) with b by lia. rewrite s32_Some by lia. step_bind.
  rewrite aset_Some by (rewrite !alen_insert; lia). f_equal. unfold swapped.
  rewrite list_insert_insert_ne by lia. by rewrite list_insert_insert_eq.
Qed.

Lemma swapped_get {A} (l : list A) i j a b k :
  i ≠ j → aget l i = Some a → aget l j = Some b →
  aget (swapped l i j a b) k = if decide (k = i) then Some b else if decide (k = j) then Some a else aget l k.
Proof.
  intros Hij Ha Hb. pose proof (aget_lt _ _ _ Ha). pose proof (aget_lt _ _ _ Hb). unfold swapped.
  rewrite !aget_insert by (rewrite ?alen_insert; lia). repeat case_decide; subst; congruence.
Qed.

Lemma swapped_small l i j a b :
  i ≠ j → small l → aget l i = Some a → aget l j = Some b → small (swapped l i j a b).
Proof.
  intros Hij Hs Ha Hb k x. rewrite swapped_get by done.
  repeat case_decide; [intros [= <-]; eauto..|apply Hs].
Qed.

Lemma swapped_perm {A} (l : list A) i j a b :
  aget l i = Some a → aget l j = Some b → swapped l i j a b ≡ₚ l.
Proof. intros [_ Ha]%aget_Some [_ Hb]%aget_Some. by apply Permutation_insert_swap. Qed.

Lemma swapped_zip {A B} (l : list A) (m : list B) i j a b x y :
  zip (swapped l i j a b) (swapped m i j x y) = swapped (zip l m) i j (a, x) (b, y).
Proof. unfold swapped. by rewrite !insert_zip_with. Qed.

Lemma aget_zip {A B} (l : list A) (m : list B) i x y :
  aget l i = Some x → aget m i = Some y → aget (zip l m) i = Some (x, y).
Proof.
  intros [Hi Hx]%aget_Some [_ Hy]%aget_Some. apply aget_Some. split; [done|].
  rewrite lookup_zip_with, Hx. cbn. by rewrite Hy.
Qed.

(** State of the sort: entries below [i] are in place, entry [i] beats those below [j],
    and entries from [k] on are the original ones. *)
Record sorting (k : Z) (fm fs : list Z) (i j : Z) (st : list Z * list Z) : Prop := {
  so_len : alen st.1 = alen fm ∧ alen st.2 = alen fs;
  so_small : small st.1 ∧ small st.2;
  so_perm : zip st.1 st.2 ≡ₚ zip fm fs;
  so_rest : ∀ q, k <= q → aget st.1 q = aget fm q ∧ aget st.2 q = aget fs q;
  so_done : ∀ p q x y, 0 <= p < i → p < q < k → aget st.1 p = Some x → aget st.1 q = Some y → y <= x;
  so_best : ∀ q x y, i < q < j → aget st.1 i = Some x → aget st.1 q = Some y → y <= x
}.

Lemma sort_step k fm fs i j st :
  k <= alen fm → alen fm = alen fs → 0 <= i → i < j < k → sorting k fm fs i j st →
  ∃ st', (let '(free_mem, sorted) := st in
      a ← aget free_mem i; b ← aget free_mem j;
      if a <? b then
        free_mem ← swap_add free_mem i j;
        sorted ← swap_add sorted i j;
        Some (free_mem, sorted)
      else Some (free_mem, sorted)) = Some st' ∧ sorting k fm fs i (j + 1) st'.
Proof.
  intros Hk Hl Hi Hj [[L1 L2] [S1 S2] HP HR HD HB]. destruct st as [f s]. cbn [fst snd] in *.
  destruct (proj2 (aget_is_Some f i)) as [a Ea]; [lia|]. destruct (proj2 (aget_is_Some f j)) as [b Eb]; [lia|].
  destruct (proj2 (aget_is_Some s i)) as [c Ec]; [lia|]. destruct (proj2 (aget_is_Some s j)) as [d Ed]; [lia|].
  rewrite Ea, Eb. step_bind. destruct (Z.ltb_spec a b).
  - rewrite (swap_add_correct f i j a b), (swap_add_correct s i j c d) by (done || lia). step_bind.
    eexists; split; [done|]. split; cbn [fst snd].
    + unfold swapped. by rewrite !alen_insert.
    + split; apply swapped_small; (done || lia).
    + rewrite swapped_zip, swapped_perm; [done|by apply aget_zip..].
    + intros q Hq. rewrite !swapped_get, !decide_False by (done || lia). by apply HR.
    + intros p q x y Hp Hq. rewrite !swapped_get by (done || lia).
      rewrite (decide_False (P := p = i)), (decide_False (P := p = j)) by lia. intros Hx.
      repeat case_decide; intros Hy; subst.
      * injection Hy as <-. apply (HD p j x b); [lia|lia|done|done].
      * injection Hy as <-. apply (HD p i x a); [lia|lia|done|done].
      * by apply (HD p q x y).
    + intros q x y Hq. rewrite !swapped_get by (done || lia). rewrite decide_True by done. intros [= <-].
      rewrite (decide_False (P := q = i)) by lia. case_decide; intros Hy; [injection Hy as <-; lia|].
      pose proof (HB q a y ltac:(lia) Ea Hy). lia.
  - eexists; split; [done|]. split; cbn [fst snd]; try done. intros q x y Hq Hx Hy.
    destruct (Z.eq_dec q j) as [->|]; [assert (x = a) by congruence; assert (y = b) by congruence; lia|].
    apply (HB q x y); [lia|done|done].
Qed.

(** The partial sort with its arithmetic swaps, for memory sizes and server numbers
    below 2^29, keeps (free memory, server) pairs together, is a permutation of them,
    and puts in front the [NDISKS] largest in descending order: no candidate left out
    has more free memory than one that is used. *)
Theorem sort_free_correct cfg k fm fs :
  0 <= NDISKS cfg <= k → k <= alen fm → alen fm = alen fs → small fm → small fs →
  ∃ fm' fs', sort_free cfg k (fm, fs) = Some (fm', fs') ∧ alen fm' = alen fm ∧ alen fs' = alen fs ∧
    zip fm' fs' ≡ₚ zip fm fs ∧ (∀ q, k <= q → aget fm' q = aget fm q ∧ aget fs' q = aget fs q) ∧
    ∀ p q x y, 0 <= p < NDISKS cfg → p < q < k → aget fm' p = Some x → aget fm' q = Some y → y <= x.
Proof.
  intros Hn Hk Hl Hs1 Hs2. unfold sort_free.
  match goal with |- context [for_up 0 (NDISKS cfg) ?body ?s] =>
    destruct (for_up_inv (λ i st, sorting k fm fs i i st) body 0 (NDISKS cfg) s)
      as ([fm' fs'] & -> & [[L1 L2] _ HP HR HD _]) end; [lia| | |].
  - split; cbn [fst snd]; try done; intros; lia.
  - intros i st Hi Hst.
    destruct (for_up_inv (λ j st, sorting k fm fs i j st) (λ j '(free_mem, sorted),
      a ← aget free_mem i; b ← aget free_mem j;
      if a <? b then
        free_mem ← swap_add free_mem i j;
        sorted ← swap_add sorted i j;
        Some (free_mem, sorted)
      else Some (free_mem, sorted)) (i + 1) k st) as (st' & E & Hst'); [lia| | |].
    + destruct Hst. split; try done. intros; lia.
    + intros j t Hj Ht. apply (sort_step k fm fs i j t); [done|done|lia|lia|done].
    + exists st'. split; [exact E|]. destruct Hst' as [A1 A2 A3 A4 A5 A6]. split; try done; [|intros; lia].
      intros p q x y Hp Hq Hx Hy. destruct (Z.eq_dec p i) as [->|]; [apply (A6 q x y); (done || lia)|].
      apply (A5 p q x y); (done || lia).
  - cbn [fst snd] in *. exists fm', fs'. split_and!; done.
Qed.

Lemma sort_free_correct_witness :
  ∃ fm' fs', sort_free rep 4 ([3; 9; 5; 7], [0; 1; 2; 3]) = Some (fm', fs') ∧ alen fm' = 4 ∧ alen fs' = 4 ∧
    zip fm' fs' ≡ₚ zip [3; 9; 5; 7] [0; 1; 2; 3] ∧
    (∀ q, 4 <= q → aget fm' q = aget [3; 9; 5; 7] q ∧ aget fs' q = aget [0; 1; 2; 3] q) ∧
    ∀ p q x y, 0 <= p < 3 → p < q < 4 → aget fm' p = Some x → aget fm' q = Some y → y <= x.
Proof.
  apply (sort_free_correct rep 4 [3; 9; 5; 7] [0; 1; 2; 3]);
    [cbn; lia|vm_compute; discriminate|reflexivity| |];
    (intros i x [_ Hx]%aget_Some; apply list_elem_of_lookup_2 in Hx;
     repeat (apply elem_of_cons in Hx as [->|Hx]; [lia|]); by apply elem_of_nil in Hx).
Defined.
