(* ===== verification/Device.v ===== *)
(** Block devices and their sessions, from the configfs files down ([is_configfs.c],
    [is_mq.c], [is_main.c]): the device state, finding and creating devices, the queues
    and the disk of a device, and the destruction of devices and sessions. *)

From S2P Require Import Prelude Config MT Fault State CtxPool Chunks Transfer Placement Portal.

(** * Devices *)

(** [enum IS_dev_state]. *)
Inductive IS_dev_state : Set := DEVICE_INITIALIZING | DEVICE_OPENNING | DEVICE_RUNNING | DEVICE_OFFLINE.
#[export] Instance IS_dev_state_eq_dec : EqDecision IS_dev_state.
Proof. solve_decision. Defined.

(** What the block layer is told about a disk. *)
Record gendisk : Type := {
  gd_major : Z; first_minor : Z; disk_name : list byte; gd_capacity : Z;  (* in sectors *)
  max_hw_sectors : Z; gd_added : bool }.

(** [struct IS_file]; its queues, tag set, request queue and disk are null or allocated. *)
Record IS_file : Type := {
  file_name : list byte; dev_name : list byte; major : Z; index : Z;
  nr_queues : Z; queue_depth : Z; st_size : Z; dev_state : IS_dev_state;
  queues : bool; tag_set : bool; queue : bool; disk : option gendisk
}.
#[export] Instance gendisk_settable : Settable gendisk := λ r,
  Build_gendisk (gd_major r) (first_minor r) (disk_name r) (gd_capacity r) (max_hw_sectors r) (gd_added r).
#[export] Instance IS_file_settable : Settable IS_file := λ r,
  Build_IS_file (file_name r) (dev_name r) (major r) (index r) (nr_queues r) (queue_depth r) (st_size r)
    (dev_state r) (queues r) (tag_set r) (queue r) (disk r).

(** A zeroed [struct IS_file]. *)
Definition zero_file : IS_file := {|
  file_name := []; dev_name := []; major := 0; index := 0; nr_queues := 0; queue_depth := 0; st_size := 0;
  dev_state := DEVICE_INITIALIZING; queues := false; tag_set := false; queue := false; disk := None |}.

(** [IS_set_device_state]. *)
Definition IS_set_device_state (f : IS_file) (st : IS_dev_state) : Z * IS_file :=
  match st with
  | DEVICE_OPENNING =>
      if bool_decide (dev_state f = DEVICE_OFFLINE) || bool_decide (dev_state f = DEVICE_RUNNING) then (- EINVAL, f)
      else (0, f <| dev_state := st |>)
  | DEVICE_RUNNING => (0, f <| dev_state := st |>)
  | DEVICE_OFFLINE => (0, f <| dev_state := st |>)
  | DEVICE_INITIALIZING => (- EINVAL, f)
  end.

(** [IS_device_state_str]. *)
Definition IS_device_state_str (f : IS_file) : string :=
  match dev_state f with
  | DEVICE_INITIALIZING => "Initial state" | DEVICE_OPENNING => "openning"
  | DEVICE_RUNNING => "running" | DEVICE_OFFLINE => "offline"
  end.

(** ** Queues and disk *)

(** What the kernel answers when a device is set up: [kzalloc] of the queues,
    [blk_mq_alloc_tag_set], [blk_mq_init_queue] (0, or the error in the pointer), and
    [alloc_disk_node]. *)
Record blk_answers : Type := { queues_ok : bool; tag_set_ret : Z; init_queue_ret : Z; disk_ok : bool }.

(** Array sizes: [MAX_IS_DEV_NAME], and [DISK_NAME_LEN] of the kernel. *)
Definition MAX_IS_DEV_NAME : Z := 256.
Definition DISK_NAME_LEN : Z := 32.

Definition IS_setup_queues (a : blk_answers) (f : IS_file) : Z * IS_file :=
  if queues_ok a then (0, f <| queues := true |>) else (- ENOMEM, f <| queues := false |>).
(** The pointer is left dangling; nothing uses it afterwards. *)
Definition IS_destroy_queues (f : IS_file) : IS_file := f <| queues := false |>.

(** [sscanf(dev_name, "%s", disk_name)]. *)
Definition set_disk_name (name old : list byte) : option (list byte) :=
  match scan_s name with
  | None => Some old
  | Some w => if alen w <? DISK_NAME_LEN then Some w else None
  end.

Definition IS_register_block_device (IS_major : Z) (a : blk_answers) (f : IS_file) : option (Z * IS_file) :=
  let f := f <| major := IS_major |> in
  if negb (tag_set_ret a =? 0) then Some (tag_set_ret a, f)
  else
    let f := f <| tag_set := true |> in
    if negb (init_queue_ret a =? 0) then Some (init_queue_ret a, f <| tag_set := false |>)
    else
      let f := f <| queue := true |> in
      if negb (disk_ok a) then Some (- ENOMEM, f <| disk := None |> <| queue := false |> <| tag_set := false |>)
      else
        name ← set_disk_name (dev_name f) [];
        Some (0, f <| disk := Some {| gd_major := major f; first_minor := index f; disk_name := name;
                                      gd_capacity := st_size f / IS_SECT_SIZE;
                                      max_hw_sectors := IS_PAGE_SIZE / IS_SECT_SIZE * MAX_SGL_LEN; gd_added := false |} |>).

(** [put_disk] frees the disk; the pointer in [f] is not cleared. *)
Definition IS_unregister_block_device (f : IS_file) : IS_file := f <| queue := false |> <| tag_set := false |>.

(** The file operations of the disk, [IS_ops]. *)
Definition IS_open : Z := 0.
Definition IS_media_changed : Z := 0.
Definition IS_revalidate : Z := 0.
Definition IS_ioctl : Z := - ENOTTY.

(** [IS_init_hctx]: hardware queue [index] of a device uses connection [index]. *)
Record IS_queue : Type := { xq_conn : connection; xq_depth : Z }.
Definition IS_init_hctx (conns : list connection) (f : IS_file) (i : Z) : option (Z * IS_queue) :=
  c ← aget conns i; Some (0, {| xq_conn := c; xq_depth := queue_depth f |}).

(** * The host *)

(** A session in the driver: the world it runs in, its devices (a heap of [IS_file]s, [None]
    when freed, and [devs_list], last added first), the portals of all sessions
    ([g_IS_sessions]) with its own place among them, and the module's [IS_indexes]. *)
Record host : Type := {
  hw : world; files : list (option IS_file); devs_list : list nat;
  portals : list (list byte); self : nat; IS_indexes : Z }.
#[export] Instance host_settable : Settable host := λ r,
  Build_host (hw r) (files r) (devs_list r) (portals r) (self r) (IS_indexes r).

(** Code that only concerns the session. *)
Definition in_world {A} (m : M world A) : M host A := λ h,
  match m (hw h) with Ret (a, w) => Ret (a, h <| hw := w |>) | Ub => Ub | Bug => Bug | Wait => Wait end.

Definition get_file (d : nat) : M host IS_file := l ← gets files; lift (mjoin (l !! d)).
Definition set_file (d : nat) (f : IS_file) : M host () := modify (λ h, h <| files := <[d := Some f]> (files h) |>).
Definition upd_file (d : nat) (g : IS_file → IS_file) : M host () := f ← get_file d; set_file d (g f).

(** [IS_file_find]: the first device of [devs_list] with the name. *)
Fixpoint find_file (fs : list (option IS_file)) (devs : list nat) (name : list byte) : option (option nat) :=
  match devs with
  | [] => Some None
  | d :: devs =>
      f ← mjoin (fs !! d);
      if decide (file_name f = name) then Some (Some d) else find_file fs devs name
  end.
Definition IS_file_find (name : list byte) : M host (option nat) :=
  h ← get; lift (find_file (files h) (devs_list h) name).

Section host.
Context (cfg : config).
(** The environment: the data path's ([Transfer], [Placement]), the block layer's
    answers, and [register_blkdev]'s major. *)
Context (post_ret : Z → Z) (rand : nat → Z → Z) (cm_result : Z → test_state)
  (rdma_create_id_ok : Z → bool) (ctx_alloc_ok : Z → Z → Z → bool) (submit_queues : Z)
  (fuel : nat) (IS_major : Z).

(** * Creating and destroying devices *)

(** [IS_create_device]; [xdev_name] is a word. *)
Definition IS_create_device (a : blk_answers) (xdev_name : list byte) (d : nat) : M host Z :=
  ix ← gets IS_indexes;
  modify (λ h, h <| IS_indexes := i32 (ix + 1) |>);;
  upd_file d (λ f, f <| file_name := xdev_name |> <| index := ix |> <| nr_queues := submit_queues |>
                     <| queue_depth := IS_QUEUE_DEPTH |>);;
  f ← get_file d;
  let '(retval, f) := IS_setup_queues a f in
  set_file d f;;
  if negb (retval =? 0) then mret retval
  else
    cap ← gets (λ h, capacity (sess (hw h)));
    '(retval, f) ← lift (IS_register_block_device IS_major a (f <| st_size := cap |>));
    set_file d f;;
    if negb (retval =? 0) then upd_file d IS_destroy_queues;; mret retval
    else
      upd_file d (λ f, (IS_set_device_state f DEVICE_RUNNING).2);;
      n ← gets (λ h, cb_num (sess (hw h)));
      _ ← in_world (rdma_trigger cfg post_ret rand cm_result rdma_create_id_ok ctx_alloc_ok submit_queues n fuel);
      f ← get_file d;
      g ← lift (disk f);
      set_file d (f <| disk := Some (g <| gd_added := true |>) |>);;  (* add_disk *)
      mret 0.

(** [IS_destroy_device]: the servers of mapped slabs are told one by one. *)
Definition IS_destroy_device (d : nat) : M host () :=
  upd_file d (λ f, (IS_set_device_state f DEVICE_OFFLINE).2);;
  loop 0 (DISKSIZE_G cfg) (λ i _,
    cb_ix ← gets (λ h, aget (cb_index_map (sess (hw h))) i);
    cb_ix ← lift cb_ix;
    when (NO_CB_MAPPED <? cb_ix)
      (l ← gets (λ h, cb_list (sess (hw h))); _ ← lift (aget l cb_ix);
       _ ← in_world (IS_send_done post_ret cb_ix 1); mret ())) ();;
  f ← get_file d;
  match disk f with
  | Some _ => set_file d (IS_destroy_queues (IS_unregister_block_device f))
  | None => mret ()
  end;;
  modify (λ h, h <| devs_list := filter (λ e, e ≠ d) (devs_list h) |>).

Fixpoint destroy_devices (ds : list nat) : M host () :=
  match ds with [] => mret () | d :: ds => IS_destroy_device d;; destroy_devices ds end.
Definition IS_destroy_session_devices : M host () := ds ← gets devs_list; destroy_devices ds.

(** * Sessions *)

(** [IS_session_destroy]: the connections of the first [cb_num] queues are freed, then the
    array; the session leaves [g_IS_sessions], and its devices go last. *)
Definition IS_session_destroy : M host () :=
  s ← gets (λ h, sess (hw h));
  loop 0 (cb_num s) (λ i _, _ ← lift (aget (IS_conns s) i); mret ()) ();;
  modify (λ h, h <| hw := (hw h) <| sess := (sess (hw h)) <| IS_conns := [] |> |> |>);;
  modify (λ h, h <| portals := delete (self h) (portals h) |>);;
  IS_destroy_session_devices.

(** * configfs *)

(** [device_attr_store]; [count] is what the caller passes. *)
Definition device_attr_store (a : blk_answers) (d : nat) (page : list byte) (count : Z) : M host Z :=
  name ← lift (scan_s page);
  if MAX_IS_DEV_NAME <=? alen name then undefined
  else
    o ← IS_file_find name;
    match o with
    | Some _ => mret (- EEXIST)
    | None => ret ← IS_create_device a name d; if negb (ret =? 0) then mret ret else mret count
    end.

(** [state_attr_show], without the newline. *)
Definition state_attr_show (d : nat) : M host string := f ← get_file d; mret (IS_device_state_str f).

Definition upd_fault (g : fault_injection → option fault_injection) : M host () :=
  h ← get;
  f ← lift (g (IS_fault_injection (sess (hw h))));
  modify (λ h, h <| hw := (hw h) <| sess := (sess (hw h)) <| IS_fault_injection := f |> |> |>).
(** [sscanf(page, "%d", &enable)] into an [unsigned int] that is otherwise uninitialised. *)
Definition fault_injection_enable_attr_store (page : list byte) (count : Z) : M host Z :=
  enable ← lift (scan_d page);
  upd_fault (λ f, Some (IS_fault_injection_set_enable f (u32 enable)));; mret count.
Definition fault_injection_enable_attr_show : M host Z :=
  h ← get; mret (i32 (IS_fault_injection_enable (IS_fault_injection (sess (hw h))))).
(** The count is narrowed to [unsigned int] and printed with [%d]. *)
Definition fault_injection_fault_count_attr_show : M host Z :=
  h ← get; n ← lift (IS_fault_injection_fault_count cfg (IS_fault_injection (sess (hw h)))); mret (i32 (u32 n)).
Definition fault_injection_distr_attr_store (sscanf_llu : string → option Z) (page : string) (count : Z) : M host Z :=
  upd_fault (λ f, IS_fault_injection_set_distr cfg sscanf_llu f page);; mret count.
Definition fault_injection_distr_attr_show (snprintf_d : Z → string) : M host string :=
  h ← get; mret (IS_fault_injection_distr snprintf_d (IS_fault_injection (sess (hw h)))).

(** [IS_device_make_group]: a new device, [None] without memory. *)
Definition IS_device_make_group (kzalloc_ok : bool) (name : list byte) : M host (option nat) :=
  if negb kzalloc_ok then mret None
  else
    let '(ret, f) := IS_set_device_state zero_file DEVICE_OPENNING in
    if negb (ret =? 0) then mret None
    else
      let w := default [] (scan_s name) in
      if MAX_IS_DEV_NAME <=? alen w then undefined
      else
        h ← get;
        let d := length (files h) in
        modify (λ h, h <| files := files h ++ [Some (f <| dev_name := w |>)] |> <| devs_list := d :: devs_list h |>);;
        mret (Some d).

(** [IS_device_drop]. *)
Definition IS_device_drop (d : nat) : M host () :=
  IS_destroy_device d;; modify (λ h, h <| files := <[d := None]> (files h) |>).

(** [portal_attr_store]; [conn_ok] tells whether connection [i] can be allocated. *)
Definition portal_attr_store (conn_ok : Z → bool) (buf : list byte) (count : Z) : M host Z :=
  rdma ← lift (portal_string buf);
  h ← get;
  match IS_session_find_by_portal (portals h) rdma with
  | Some _ => mret (- EEXIST)
  | None =>
      old ← lift (portals h !! self h);
      p ← lift (store_portal old rdma);
      '(n, _, p) ← lift (portal_parser p);
      '(ret, s) ← lift (IS_session_create cfg conn_ok submit_queues n (sess (hw h)));
      modify (λ h, h <| portals := <[self h := p]> (portals h) |> <| hw := (hw h) <| sess := s |> |>);;
      if negb (ret =? 0) then mret (- EINVAL) else mret count
  end.

(** [IS_session_drop]; configfs frees the session itself. *)
Definition IS_session_drop : M host () := IS_session_destroy.
End host.

(** [IS_session_make_group]: a new session goes first in [g_IS_sessions]. *)
Definition IS_session_make_group (kzalloc_ok : bool) (portals : list (list byte)) (created_portals : Z)
    : bool * list (list byte) * Z :=
  if negb kzalloc_ok then (false, portals, created_portals)
  else (true, replicate (Z.to_nat MAX_PORTAL_NAME) nul :: portals, i32 (created_portals + 1)).

(** * What the operations change *)

Definition name_of (h : host) (d : nat) : option (list byte) := file_name <$> mjoin (files h !! d).

(** The devices stay, and only [d] may change its name, to [name]. *)
Record renames (d : nat) (name : list byte) (h h' : host) : Prop := {
  rn_devs : devs_list h' = devs_list h;
  rn_name : ∀ e, name_of h' e = name_of h e ∨ (e = d ∧ name_of h' e = Some name)
}.
(** The devices and their names stay. *)
Record same_names (h h' : host) : Prop := {
  sn_devs : devs_list h' = devs_list h;
  sn_name : ∀ e, name_of h' e = name_of h e
}.

#[export] Instance renames_refl d name : Reflexive (renames d name).
Proof. split; auto. Qed.
#[export] Instance renames_trans d name : Transitive (renames d name).
Proof.
  intros h1 h2 h3 [D1 N1] [D2 N2]. split; [congruence|]. intros e.
  destruct (N2 e) as [->|[-> ->]]; [|by right]. apply N1.
Qed.
#[export] Instance same_names_refl : Reflexive same_names.
Proof. by split. Qed.
#[export] Instance same_names_trans : Transitive same_names.
Proof. intros h1 h2 h3 [D1 N1] [D2 N2]. split; [congruence|]. intros e. by rewrite N2. Qed.
Lemma same_renames d name h h' : same_names h h' → renames d name h h'.
Proof. intros [D N]. split; [done|]. intros e. left. apply N. Qed.

Lemma keeps_weaken {W A} (P Q : W → W → Prop) (m : M W A) : (∀ w w', P w w' → Q w w') → keeps P m → keeps Q m.
Proof. intros HPQ Hm w a w' E. by eapply HPQ, Hm. Qed.
Lemma in_world_names {A} (m : M world A) : keeps same_names (in_world m).
Proof. intros h a h' E. unfold in_world in E. destruct (m (hw h)) as [[b w]| | |]; try done. by injection E as <- <-. Qed.
Lemma modify_names (g : host → host) :
  (∀ h, devs_list (g h) = devs_list h ∧ files (g h) = files h) → keeps same_names (modify g).
Proof. intros Hg h b h' [= <- <-]. destruct (Hg h) as [H1 H2]. split; [done|]. intros e. unfold name_of. by rewrite H2. Qed.

Lemma get_file_inv d h f h' : get_file d h = Ret (f, h') → files h !! d = Some (Some f) ∧ h' = h.
Proof.
  unfold get_file. intros (l & h1 & [= <- <-] & E)%M_bind_inv. unfold lift in E.
  destruct (files h !! d) as [[f'|]|]; cbn in E; try done. by injection E as <- <-.
Qed.
Lemma set_file_inv d f h u h' : set_file d f h = Ret (u, h') → h' = h <| files := <[d := Some f]> (files h) |>.
Proof. by intros [= _ <-]. Qed.

Lemma name_of_set h d f e : is_Some (files h !! d) →
  name_of (h <| files := <[d := Some f]> (files h) |>) e = if decide (e = d) then Some (file_name f) else name_of h e.
Proof.
  intros Ho%lookup_lt_is_Some. unfold name_of. cbn. case_decide as He.
  - subst. by rewrite list_lookup_insert_eq.
  - by rewrite list_lookup_insert_ne by done.
Qed.

(** Rewriting a device under the same name. *)
Lemma set_file_same d f g h u h' :
  files h !! d = Some (Some f) → file_name g = file_name f → set_file d g h = Ret (u, h') → same_names h h'.
Proof.
  intros Ef Hg ->%set_file_inv. split; [done|]. intros e. rewrite name_of_set by (by eexists).
  case_decide as He; [|done]. subst. unfold name_of. rewrite Ef. cbn. by rewrite Hg.
Qed.
Lemma upd_file_same d g : (∀ f, file_name (g f) = file_name f) → keeps same_names (upd_file d g).
Proof.
  intros Hg h u h' (f & h1 & [Ef ->]%get_file_inv & E)%M_bind_inv. by eapply set_file_same; [| |exact E].
Qed.
Lemma upd_file_renames d name g : (∀ f, file_name (g f) = name) → keeps (renames d name) (upd_file d g).
Proof.
  intros Hg h u h' (f & h1 & [Ef ->]%get_file_inv & ->%set_file_inv)%M_bind_inv. split; [done|]. intros e.
  rewrite name_of_set by (by eexists). case_decide; [|by left]. right. by rewrite Hg.
Qed.

Lemma setup_queues_name a f : file_name (IS_setup_queues a f).2 = file_name f.
Proof. unfold IS_setup_queues. by destruct (queues_ok a). Qed.
Lemma register_name maj a f r : IS_register_block_device maj a f = Some r → file_name r.2 = file_name f.
Proof.
  unfold IS_register_block_device. intros E. repeat (case_match; [by injection E as <-|]).
  by apply bind_Some in E as (w & _ & [= <-]).
Qed.

Section names.
Context (cfg : config) (post_ret : Z → Z) (rand : nat → Z → Z) (cm_result : Z → test_state)
  (rdma_create_id_ok : Z → bool) (ctx_alloc_ok : Z → Z → Z → bool) (submit_queues : Z)
  (fuel : nat) (IS_major : Z).
#[local] Notation "'create'" := (IS_create_device cfg post_ret rand cm_result rdma_create_id_ok ctx_alloc_ok submit_queues fuel IS_major).

Lemma create_renames a name d : keeps (renames d name) (create a name d).
Proof.
  unfold IS_create_device. apply keeps_bind; [apply _|apply keeps_gets; apply _|]. intros ix.
  apply keeps_bind; [apply _|by eapply keeps_weaken, modify_names; [apply same_renames|]|]. intros _.
  apply keeps_bind; [apply _|by apply upd_file_renames|]. intros _.
  apply (keeps_weaken same_names); [apply same_renames|].
  intros h r h' (f & h1 & [Ef ->]%get_file_inv & E)%M_bind_inv.
  pose proof (setup_queues_name a f) as Hn. destruct (IS_setup_queues a f) as [r1 f1]. cbn in Hn.
  apply M_bind_inv in E as (u & h1 & E1 & E). pose proof (set_file_same d f f1 h u h1 Ef Hn E1) as H1.
  apply set_file_inv in E1. assert (files h1 !! d = Some (Some f1)) as Ef1.
  { rewrite E1. cbn. apply list_lookup_insert_eq. by eapply lookup_lt_Some. }
  etransitivity; [exact H1|]. clear H1 E1 Ef Hn h f. destruct (negb (r1 =? 0)); [by injection E as _ <-|].
  apply M_bind_inv in E as (cap & h2 & [= <- <-] & E). apply M_bind_inv in E as ([r2 f2] & h2 & E2 & E).
  unfold lift in E2. destruct (IS_register_block_device _ _ _) as [[r3 f3]|] eqn:Er; [|done]. injection E2 as <- <- <-.
  apply register_name in Er. cbn in Er. apply M_bind_inv in E as (u2 & h2 & E2 & E).
  etransitivity; [by eapply set_file_same; [exact Ef1|exact Er|exact E2]|]. clear u.
  assert (keeps same_names (if negb (r3 =? 0) then upd_file d IS_destroy_queues;; mret r3
    else
      upd_file d (λ f, (IS_set_device_state f DEVICE_RUNNING).2);;
      n ← gets (λ h, cb_num (sess (hw h)));
      _ ← in_world (rdma_trigger cfg post_ret rand cm_result rdma_create_id_ok ctx_alloc_ok submit_queues n fuel);
      f ← get_file d; g ← lift (disk f); set_file d (f <| disk := Some (g <| gd_added := true |>) |>);; mret 0)) as Hk; [|by eapply Hk].
  destruct (negb (r3 =? 0)).
  - apply keeps_bind; [apply _|by apply upd_file_same|]. intros _. apply keeps_ret; apply _.
  - apply keeps_bind; [apply _|by apply upd_file_same|]. intros _. apply keeps_bind; [apply _|apply keeps_gets; apply _|]. intros n.
    apply keeps_bind; [apply _|apply in_world_names|]. intros _.
    intros h3 r4 h4 (f4 & h5 & [Ef4 ->]%get_file_inv & E4)%M_bind_inv.
    apply M_bind_inv in E4 as (g & h5 & E5 & E4). unfold lift in E5. destruct (disk f4); [|done]. injection E5 as <- <-.
    apply M_bind_inv in E4 as (u & h6 & E6 & [= _ <-]). by eapply set_file_same; [exact Ef4| |exact E6].
Qed.

Lemma destroy_names d h u h' :
  IS_destroy_device cfg post_ret d h = Ret (u, h') →
  devs_list h' = filter (λ e, e ≠ d) (devs_list h) ∧ ∀ e, name_of h' e = name_of h e.
Proof.
  unfold IS_destroy_device. intros (u1 & h1 & E1 & E)%M_bind_inv.
  apply M_bind_inv in E as (u2 & h2 & E2 & E). apply M_bind_inv in E as (f & h3 & [Ef ->]%get_file_inv & E).
  apply M_bind_inv in E as (u3 & h3 & E3 & [= _ <-]). apply upd_file_same in E1 as [D1 N1]; [|by intros f0].
  assert (same_names h1 h2) as [D2 N2].
  { revert E2. apply keeps_loop; [apply _|apply _|]. intros i [].
    apply keeps_bind; [apply _|apply keeps_gets; apply _|]. intros o.
    apply keeps_bind; [apply _|apply keeps_lift; apply _|]. intros c. unfold when. destruct (NO_CB_MAPPED <? c); [|apply keeps_ret; apply _].
    apply keeps_bind; [apply _|apply keeps_gets; apply _|]. intros l.
    apply keeps_bind; [apply _|apply keeps_lift; apply _|]. intros _.
    apply keeps_bind; [apply _|apply in_world_names|]. intros _. apply keeps_ret; apply _. }
  assert (same_names h2 h3) as [D3 N3].
  { destruct (disk f); [by eapply set_file_same; [exact Ef| |exact E3]|by injection E3 as <- <-]. }
  split; [by cbn; rewrite D3, D2, D1|]. intros e. change (name_of h3 e = name_of h e). by rewrite N3, N2, N1.
Qed.

(** * Names are unique *)

Record host_ok (h : host) : Prop := {
  ho_nodup : NoDup (devs_list h);
  ho_live : ∀ d, d ∈ devs_list h → is_Some (name_of h d);
  ho_unique : ∀ d e n, d ∈ devs_list h → e ∈ devs_list h → name_of h d = Some n → name_of h e = Some n → n ≠ [] → d = e
}.

Lemma same_ok h h' : same_names h h' → host_ok h → host_ok h'.
Proof.
  intros [D N] [Hn Hl Hu]. split; rewrite ?D; [done| |].
  - intros d Hd. rewrite N. by apply Hl.
  - intros d e n. rewrite !N. apply Hu.
Qed.

Lemma find_file_None fs devs name :
  find_file fs devs name = Some None → ∀ d f, d ∈ devs → mjoin (fs !! d) = Some f → file_name f ≠ name.
Proof.
  induction devs as [|x devs IH]; intros E d f Hd Ef; [by apply elem_of_nil in Hd|]. cbn in E.
  apply bind_Some in E as (g & Eg & E). case_decide as Hn; [done|].
  apply elem_of_cons in Hd as [->|Hd]; [congruence|by eapply IH].
Qed.

Lemma IS_file_find_inv name h o h' : IS_file_find name h = Ret (o, h') → find_file (files h) (devs_list h) name = Some o ∧ h' = h.
Proof.
  unfold IS_file_find. intros (g & h1 & [= <- <-] & E)%M_bind_inv. unfold lift in E.
  destruct (find_file _ _ _); [|done]. by injection E as <- <-.
Qed.

Lemma store_ok a d page count h r h' :
  d ∈ devs_list h → host_ok h →
  device_attr_store cfg post_ret rand cm_result rdma_create_id_ok ctx_alloc_ok submit_queues fuel IS_major a d page count h = Ret (r, h') →
  host_ok h'.
Proof.
  intros Hd Hok. unfold device_attr_store. intros (name & h1 & E1 & E)%M_bind_inv. unfold lift in E1.
  destruct (scan_s page) as [nm|]; [|done]. injection E1 as <- <-. destruct (MAX_IS_DEV_NAME <=? alen nm); [done|].
  apply M_bind_inv in E as (o & h1 & [Ef ->]%IS_file_find_inv & E). destruct o as [e|]; [by injection E as _ <-|].
  apply M_bind_inv in E as (ret & h1 & E1 & E). assert (h' = h1) as -> by (destruct (negb (ret =? 0)); by injection E as _ <-).
  apply create_renames in E1 as [D N]. destruct Hok as [Hn Hl Hu].
  assert (∀ e n, e ∈ devs_list h → name_of h e = Some n → n ≠ nm) as Hfree.
  { intros e n He En. unfold name_of in En. destruct (mjoin (files h !! e)) as [f|] eqn:Ej; [|done]. injection En as <-.
    by eapply find_file_None. }
  split; rewrite ?D; [done| |].
  - intros e He. destruct (N e) as [->|[_ ->]]; [by apply Hl|by eexists].
  - intros e1 e2 n H1 H2 E1 E2 Hne. destruct (N e1) as [N1|[-> N1]], (N e2) as [N2|[-> N2]]; rewrite N1 in E1; rewrite N2 in E2; try done.
    + by eapply Hu.
    + injection E2 as <-. exfalso. by eapply (Hfree e1).
    + injection E1 as <-. exfalso. by eapply (Hfree e2).
Qed.

Lemma make_group_ok kzalloc_ok name h r h' : IS_device_make_group kzalloc_ok name h = Ret (r, h') →
  host_ok h → host_ok h'.
Proof.
  intros E Hok. unfold IS_device_make_group in E. destruct kzalloc_ok; [|by injection E as _ <-]. cbn in E.
  destruct (MAX_IS_DEV_NAME <=? _); [done|]. injection E as _ <-. destruct Hok as [Hn Hl Hu].
  assert (∀ w ds e, name_of (h <| files := files h ++ [Some (zero_file <| dev_state := DEVICE_OPENNING |> <| dev_name := w |>)] |>
              <| devs_list := ds |>) e =
            if decide (e = length (files h)) then Some [] else name_of h e) as Hname.
  { intros w ds e. unfold name_of. cbn. case_decide as He.
    - subst. by rewrite list_lookup_middle.
    - destruct (decide (e < length (files h))%nat); [by rewrite lookup_app_l|].
      rewrite !lookup_ge_None_2; [done|lia|rewrite length_app; cbn; lia]. }
  assert (length (files h) ∉ devs_list h) as Hnew.
  { intros Hin%Hl. unfold name_of in Hin. rewrite lookup_ge_None_2 in Hin by lia. by destruct Hin. }
  split; cbn [devs_list].
  - by constructor.
  - intros d Hd. apply elem_of_cons in Hd as [->|Hd]; [rewrite Hname, decide_True by done; by eexists|].
    rewrite Hname, decide_False; [by apply Hl|]. by intros ->.
  - intros d e n Hd He E1 E2 Hne. rewrite Hname in E1, E2.
    destruct (decide (d = length (files h))), (decide (e = length (files h))); try (by subst); try congruence.
    apply elem_of_cons in Hd as [?|Hd]; [done|]. apply elem_of_cons in He as [?|He]; [done|]. by eapply Hu.
Qed.

Lemma drop_ok d h u h' : IS_device_drop cfg post_ret d h = Ret (u, h') → host_ok h → host_ok h'.
Proof.
  intros (u1 & h1 & [D N]%destroy_names & [= _ <-])%M_bind_inv [Hn Hl Hu].
  assert (∀ e, e ∈ devs_list h1 → name_of (h1 <| files := <[d := None]> (files h1) |>) e = name_of h e ∧ e ∈ devs_list h) as Hin.
  { intros e. rewrite D. intros [Hne He]%list_elem_of_filter. split; [|done]. rewrite <- N. unfold name_of. cbn.
    by rewrite list_lookup_insert_ne by done. }
  split; cbn [devs_list].
  - change (NoDup (devs_list h1)). rewrite D. by apply NoDup_filter.
  - intros e He. destruct (Hin e He) as [-> He']. by apply Hl.
  - intros e1 e2 n H1 H2. destruct (Hin e1 H1) as [-> H1'], (Hin e2 H2) as [-> H2']. by apply Hu.
Qed.

Lemma portal_store_ok conn_ok buf count : keeps same_names (portal_attr_store cfg submit_queues conn_ok buf count).
Proof.
  unfold portal_attr_store. apply keeps_bind; [apply _|apply keeps_lift; apply _|]. intros rdma.
  apply keeps_bind; [apply _|intros h r h' [= <- <-]; reflexivity|]. intros h.
  destruct (IS_session_find_by_portal _ _); [apply keeps_ret; apply _|].
  apply keeps_bind; [apply _|apply keeps_lift; apply _|]. intros old.
  apply keeps_bind; [apply _|apply keeps_lift; apply _|]. intros p.
  apply keeps_bind; [apply _|apply keeps_lift; apply _|]. intros [[n l] q].
  apply keeps_bind; [apply _|apply keeps_lift; apply _|]. intros [ret s].
  apply keeps_bind; [apply _|by apply modify_names|]. intros _. destruct (negb (ret =? 0)); apply keeps_ret; apply _.
Qed.

Lemma upd_fault_ok g : keeps same_names (upd_fault g).
Proof.
  unfold upd_fault. apply keeps_bind; [apply _|intros h r h' [= <- <-]; reflexivity|]. intros h.
  apply keeps_bind; [apply _|apply keeps_lift; apply _|]. intros f. by apply modify_names.
Qed.

(** What user space can do to a session through configfs; I/O goes on in between. *)
Inductive dev_step (h h' : host) : Prop :=
| step_make ok name r (E : IS_device_make_group ok name h = Ret (r, h'))
| step_store a d page count r (Hd : d ∈ devs_list h)
    (E : device_attr_store cfg post_ret rand cm_result rdma_create_id_ok ctx_alloc_ok submit_queues fuel IS_major a d page count h = Ret (r, h'))
| step_drop d (Hd : d ∈ devs_list h) (E : IS_device_drop cfg post_ret d h = Ret ((), h'))
| step_portal conn_ok buf count r (E : portal_attr_store cfg submit_queues conn_ok buf count h = Ret (r, h'))
| step_enable page count r (E : fault_injection_enable_attr_store page count h = Ret (r, h'))
| step_distr scan page count r (E : fault_injection_distr_attr_store cfg scan page count h = Ret (r, h'))
| step_io {A} (m : M world A) r (E : in_world m h = Ret (r, h')).

Lemma dev_step_ok h h' : host_ok h → dev_step h h' → host_ok h'.
Proof.
  intros Hok [ok name r E|a d page count r Hd E|d Hd E|c buf count r E|page count r E|scan page count r E|A m r E].
  - by eapply make_group_ok.
  - by eapply store_ok.
  - by eapply drop_ok.
  - eapply same_ok; [by eapply portal_store_ok|done].
  - unfold fault_injection_enable_attr_store in E. apply M_bind_inv in E as (x & h1 & E1 & E).
    assert (h1 = h) as -> by (unfold lift in E1; destruct (scan_d page); [by injection E1|done]).
    apply M_bind_inv in E as (u & h1 & E2 & [= _ <-]). eapply same_ok; [by eapply upd_fault_ok|done].
  - apply M_bind_inv in E as (u & h1 & E2 & [= _ <-]). eapply same_ok; [by eapply upd_fault_ok|done].
  - eapply same_ok; [by eapply in_world_names|done].
Qed.
End names.

(** C38: two devices of a session never have the same name, whatever devices are made,
    created, dropped or fail to be created, in whatever order, with configuration and I/O
    in between, starting from a session without devices. *)
Theorem device_names_unique cfg post_ret rand cm_result create_ok ctx_ok queues fuel maj h0 h d e f g :
  devs_list h0 = [] → star (dev_step cfg post_ret rand cm_result create_ok ctx_ok queues fuel maj) h0 h →
  d ∈ devs_list h → e ∈ devs_list h → files h !! d = Some (Some f) → files h !! e = Some (Some g) →
  file_name f = file_name g → file_name f ≠ [] → d = e.
Proof.
  intros H0 Hstar Hd He Ed Ee Hfg Hne.
  assert (host_ok h) as Hok.
  { eapply (star_inv _ host_ok); [|exact Hstar|].
    - intros x y Hx Hxy. by eapply dev_step_ok.
    - split; rewrite H0; [constructor|intros x Hx|intros x y n Hx]; by apply elem_of_nil in Hx. }
  eapply (ho_unique _ Hok d e (file_name f)); [done..| | |done]; unfold name_of; [by rewrite Ed|rewrite Ee; cbn; by rewrite Hfg].
Qed.

(** * Creating a device *)

Section create.
Context (cfg : config) (post_ret : Z → Z) (rand : nat → Z → Z) (cm_result : Z → test_state)
  (rdma_create_id_ok : Z → bool) (ctx_alloc_ok : Z → Z → Z → bool) (submit_queues : Z)
  (fuel : nat) (IS_major : Z).
#[local] Notation "'store'" :=
  (device_attr_store cfg post_ret rand cm_result rdma_create_id_ok ctx_alloc_ok submit_queues fuel IS_major).

(** The error of the first answer that is a failure. *)
Definition setup_error (a : blk_answers) : Z :=
  if negb (queues_ok a) then - ENOMEM
  else if negb (tag_set_ret a =? 0) then tag_set_ret a
  else if negb (init_queue_ret a =? 0) then init_queue_ret a
  else if negb (disk_ok a) then - ENOMEM else 0.

(** Nothing of the block layer is held. *)
Definition released (f : IS_file) : Prop := queues f = false ∧ tag_set f = false ∧ queue f = false ∧ disk f = None.

(** The device after a creation that failed: it has its name, and nothing else. *)
Record failed (name : list byte) (f g : IS_file) : Prop := {
  fd_name : file_name g = name;
  fd_state : dev_state g = dev_state f;
  fd_released : released g
}.

Lemma get_file_Ret d f h : files h !! d = Some (Some f) → get_file d h = Ret (f, h).
Proof. intros E. unfold get_file. erewrite M_bind_Ret by done. unfold lift. by rewrite E. Qed.
Lemma upd_file_Ret d f g h :
  files h !! d = Some (Some f) → upd_file d g h = Ret ((), h <| files := <[d := Some (g f)]> (files h) |>).
Proof. intros E. unfold upd_file. by erewrite M_bind_Ret by (by apply get_file_Ret). Qed.

Lemma create_failure a name d f h :
  files h !! d = Some (Some f) → released f → setup_error a ≠ 0 →
  ∃ g, IS_create_device cfg post_ret rand cm_result rdma_create_id_ok ctx_alloc_ok submit_queues fuel IS_major a name d h =
    Ret (setup_error a, h <| IS_indexes := i32 (IS_indexes h + 1) |> <| files := <[d := Some g]> (files h) |>) ∧
    failed name f g.
Proof.
  intros Ef (R1 & R2 & R3 & R4) Herr. pose proof (lookup_lt_Some _ _ _ Ef) as Hlt.
  unfold IS_create_device. erewrite M_bind_Ret by done. erewrite M_bind_Ret by done.
  erewrite M_bind_Ret by (by apply (upd_file_Ret d f)).
  erewrite M_bind_Ret by (apply get_file_Ret; cbn; by rewrite list_lookup_insert_eq).
  unfold setup_error, IS_setup_queues in *. destruct (queues_ok a); cbn [negb] in *.
  2: { erewrite M_bind_Ret by done. cbn -[list_insert]. rewrite list_insert_insert_eq. eexists. split; [done|]. by split. }
  erewrite M_bind_Ret by done. cbn -[list_insert mbind]. rewrite list_insert_insert_eq. erewrite M_bind_Ret by done.
  unfold IS_register_block_device.
  destruct (negb (tag_set_ret a =? 0)) eqn:E1; [|destruct (negb (init_queue_ret a =? 0)) eqn:E2;
    [|destruct (negb (disk_ok a)) eqn:E3; [|done]]].
  all: erewrite M_bind_Ret by done; cbv beta iota; erewrite M_bind_Ret by done; cbn -[list_insert mbind Z.eqb];
    rewrite list_insert_insert_eq; rewrite ?E1, ?E2; change (negb (- ENOMEM =? 0)) with true; cbv iota;
    erewrite M_bind_Ret by (apply upd_file_Ret; cbn; by rewrite list_lookup_insert_eq);
    cbn -[list_insert]; rewrite list_insert_insert_eq; eexists; (split; [done|]); by split.
Qed.

Lemma find_file_Some fs devs d f :
  d ∈ devs → fs !! d = Some (Some f) → (∀ e, e ∈ devs → is_Some (mjoin (fs !! e))) →
  ∃ e, find_file fs devs (file_name f) = Some (Some e).
Proof.
  intros Hd Ef Hl. induction devs as [|x devs IH]; [by apply elem_of_nil in Hd|]. cbn.
  destruct (Hl x) as [g Eg]; [left|]. rewrite Eg. cbn. case_decide as Hn; [by eexists|].
  apply elem_of_cons in Hd as [->|Hd]; [rewrite Ef in Eg; cbn in Eg; congruence|].
  apply IH; [done|]. intros e He. apply Hl. by right.
Qed.

(** A device whose creation failed cannot be created again under its name.  When the
    block layer refuses anything (in whatever step), the store returns that error and all
    that was allocated is released, but the name has already been recorded: every later
    store of the same name, on this device or another of the session, with whatever
    answers, finds the failed device itself and returns [-EEXIST]. *)
Theorem failed_device_stuck a d f page name count h :
  host_ok h → d ∈ devs_list h → files h !! d = Some (Some f) → released f →
  scan_s page = Some name → alen name < MAX_IS_DEV_NAME → find_file (files h) (devs_list h) name = Some None →
  setup_error a ≠ 0 →
  ∃ h', store a d page count h = Ret (setup_error a, h') ∧
    (∃ g, files h' !! d = Some (Some g) ∧ failed name f g) ∧
    ∀ a' e count', store a' e page count' h' = Ret (- EEXIST, h').
Proof.
  intros Hok Hd Ef Hrel Hs Hlen Hfind Herr.
  assert (∀ a e count h, store a e page count h =
    (o ← IS_file_find name; match o with Some _ => mret (- EEXIST)
     | None => ret ← IS_create_device cfg post_ret rand cm_result rdma_create_id_ok ctx_alloc_ok submit_queues fuel IS_major a name e;
               if negb (ret =? 0) then mret ret else mret count end) h) as Hst.
  { intros a1 e1 c1 h1. unfold device_attr_store. erewrite M_bind_Ret by (unfold lift; by rewrite Hs).
    destruct (Z.leb_spec MAX_IS_DEV_NAME (alen name)); [lia|done]. }
  destruct (create_failure a name d f h Ef Hrel Herr) as (g & Ec & Hg).
  set (h' := _ <| files := _ |>) in Ec. exists h'. split; [|split].
  - rewrite Hst. erewrite M_bind_Ret by (unfold IS_file_find; erewrite M_bind_Ret by done; unfold lift; by rewrite Hfind).
    cbv beta iota. erewrite M_bind_Ret by exact Ec. apply Z.eqb_neq in Herr. by rewrite Herr.
  - exists g. split; [|done]. cbn. apply list_lookup_insert_eq. by eapply lookup_lt_Some.
  - intros a' e c'. rewrite Hst. destruct (find_file_Some (files h') (devs_list h') d g) as [x Ex]; [done| | |].
    + cbn. apply list_lookup_insert_eq. by eapply lookup_lt_Some.
    + intros y Hy. destruct (ho_live _ Hok y Hy) as [n En]. cbn.
      destruct (decide (y = d)) as [->|Hne]; [rewrite list_lookup_insert_eq by (by eapply lookup_lt_Some); by eexists|].
      rewrite list_lookup_insert_ne by done. unfold name_of in En. destruct (mjoin (files h !! y)) as [z|]; [by eexists|done].
    + rewrite (fd_name _ _ _ Hg) in Ex.
      by erewrite M_bind_Ret by (unfold IS_file_find; erewrite M_bind_Ret by done; unfold lift; by rewrite Ex).
Qed.

(** The device once it runs. *)
Record running (h : host) (name : list byte) (f g : IS_file) : Prop := {
  ru_name : file_name g = name;
  ru_state : dev_state g = DEVICE_RUNNING;
  ru_queues : nr_queues g = submit_queues ∧ queue_depth g = IS_QUEUE_DEPTH ∧ queues g = true ∧ tag_set g = true ∧ queue g = true;
  ru_disk : disk g = Some {| gd_major := IS_major; first_minor := IS_indexes h;
              disk_name := default [] (scan_s (dev_name f)); gd_capacity := capacity (sess (hw h)) / 512;
              max_hw_sectors := 8; gd_added := true |}
}.

(** Creating a device, when the block layer gives what is asked for and the slabs get
    mapped: the store returns [count]; the device runs under the given name with one
    hardware queue per submit queue; its disk has the next minor number, the session's
    capacity in 512-byte sectors and requests of at most one page, and is added only
    after the slabs are mapped; the minor number is used up. *)
Theorem device_store_correct a d f page name count h n w :
  files h !! d = Some (Some f) → scan_s page = Some name → alen name < MAX_IS_DEV_NAME →
  find_file (files h) (devs_list h) name = Some None → setup_error a = 0 →
  alen (default [] (scan_s (dev_name f))) < DISK_NAME_LEN →
  rdma_trigger cfg post_ret rand cm_result rdma_create_id_ok ctx_alloc_ok submit_queues (cb_num (sess (hw h))) fuel (hw h) = Ret (n, w) →
  ∃ g, store a d page count h =
      Ret (count, h <| hw := w |> <| files := <[d := Some g]> (files h) |> <| IS_indexes := i32 (IS_indexes h + 1) |>) ∧
    running h name f g.
Proof.
  intros Ef Hs Hlen Hfind Herr Hdn Hmap. pose proof (lookup_lt_Some _ _ _ Ef) as Hlt.
  unfold device_attr_store. erewrite M_bind_Ret by (unfold lift; by rewrite Hs).
  destruct (Z.leb_spec MAX_IS_DEV_NAME (alen name)); [lia|].
  erewrite M_bind_Ret by (unfold IS_file_find; erewrite M_bind_Ret by done; unfold lift; by rewrite Hfind). cbv beta iota.
  unfold setup_error in Herr. destruct (queues_ok a) eqn:Ea; [|done]. cbn [negb] in Herr.
  destruct (negb (tag_set_ret a =? 0)) eqn:E1; [by rewrite Herr in E1|].
  destruct (negb (init_queue_ret a =? 0)) eqn:E2; [by rewrite Herr in E2|]. destruct (disk_ok a) eqn:E3; [|done].
  assert (set_disk_name (dev_name f) [] = Some (default [] (scan_s (dev_name f)))) as Hdisk.
  { unfold set_disk_name. destruct (scan_s (dev_name f)) as [x|]; [|done]. cbn in Hdn.
    by destruct (Z.ltb_spec (alen x) DISK_NAME_LEN); [|lia]. }
  unfold IS_create_device. eexists. split.
  { erewrite (M_bind_Ret _ _ _ 0); [reflexivity|]. erewrite M_bind_Ret by done. erewrite M_bind_Ret by done.
    erewrite M_bind_Ret by (by apply (upd_file_Ret d f)).
    erewrite M_bind_Ret by (apply get_file_Ret; cbn; by rewrite list_lookup_insert_eq).
    unfold IS_setup_queues. rewrite Ea. erewrite M_bind_Ret by done. cbn -[list_insert mbind]. rewrite list_insert_insert_eq.
    erewrite M_bind_Ret by done. unfold IS_register_block_device. rewrite E1, E2, E3. cbn -[list_insert mbind M_bind set_disk_name].
    rewrite Hdisk. step_bind. erewrite M_bind_Ret by done. cbv beta iota. erewrite M_bind_Ret by done.
    cbn -[list_insert mbind Z.div]. rewrite list_insert_insert_eq.
    erewrite M_bind_Ret by (apply upd_file_Ret; cbn; by rewrite list_lookup_insert_eq).
    cbn -[list_insert mbind Z.div]. rewrite list_insert_insert_eq. erewrite M_bind_Ret by done.
    erewrite M_bind_Ret by (unfold in_world; cbn -[rdma_trigger]; by rewrite Hmap).
    erewrite M_bind_Ret by (apply get_file_Ret; cbn; by rewrite list_lookup_insert_eq).
    erewrite M_bind_Ret by done. erewrite M_bind_Ret by done. cbn -[list_insert Z.div]. by rewrite list_insert_insert_eq. }
  by split.
Qed.

(** Destroying a session runs off its connections when it has more servers than the
    driver has queues: [IS_session_destroy] frees [cb_num] connections, but
    [IS_session_create] allocated one per submit queue. *)
Theorem session_destroy_undefined h :
  alen (IS_conns (sess (hw h))) < cb_num (sess (hw h)) → IS_session_destroy cfg post_ret h = Ub.
Proof.
  intros Hn. unfold IS_session_destroy. erewrite M_bind_Ret by done. apply M_bind_Ub.
  set (l := IS_conns _) in *. unfold loop. assert (∃ k, Z.to_nat (cb_num (sess (hw h)) - 0) = (length l + S k)%nat) as [k ->].
  { exists (Z.to_nat (cb_num (sess (hw h))) - length l - 1)%nat. unfold alen in Hn. lia. }
  assert (∀ m i, Z.of_nat m + i = alen l → 0 <= i →
    loop_n (m + S k) i (λ i _, _ ← lift (aget l i); mret ()) () h = Ub) as Hl.
  { intros m. induction m as [|m IH]; intros i Hi H0.
    - cbn. apply M_bind_Ub, M_bind_Ub. unfold lift. rewrite (proj2 (aget_None l i)); [done|lia].
    - cbn [Nat.add loop_n]. destruct (proj2 (aget_is_Some l i)) as [c Ec]; [lia|].
      erewrite M_bind_Ret by (by erewrite M_bind_Ret by (unfold lift; by rewrite Ec)). apply IH; lia. }
  apply Hl; unfold alen; lia.
Qed.
End create.

(** * Concrete sessions *)

Definition cfg0 : config := {| build := REP; NDATAS := 1; NDISKS := 3; DATASIZE_G := 0; SLAB_SHIFT := 30; SLAB_MASK := ONE_GB_MASK |}.
Definition good_answers : blk_answers := {| queues_ok := true; tag_set_ret := 0; init_queue_ret := 0; disk_ok := true |}.
Definition no_memory : blk_answers := {| queues_ok := true; tag_set_ret := 0; init_queue_ret := 0; disk_ok := false |}.

Definition test_world (s : session) : world :=
  {| sess := s; reqs := []; counters := []; cqs := []; posted := [];
     det := {| src_in_err := []; src_err_list := []; nerrs := 0; nsrcerrs := 0 |} |}.
Definition empty_host (s : session) : host :=
  {| hw := test_world s; files := []; devs_list := []; portals := [replicate 512 nul]; self := 0; IS_indexes := 7 |}.
Definition sized_session : session := (zero_session cfg0) <| capacity := 2 ^ 30 |>.
(** A device group [d0]. *)
Definition made_file : IS_file := zero_file <| dev_state := DEVICE_OPENNING |> <| dev_name := [x64; x30] |>.
Definition made_host : host := (empty_host sized_session) <| files := [Some made_file] |> <| devs_list := [0%nat] |>.

Lemma made_host_ok : host_ok made_host.
Proof.
  split; cbn [devs_list made_host].
  - apply NoDup_singleton.
  - intros d ->%list_elem_of_singleton. by eexists.
  - by intros d e n ->%list_elem_of_singleton ->%list_elem_of_singleton.
Qed.

(** The page [r0\n]. *)
Definition test_name : list byte := [x72; x30].
Definition test_store_page : list byte := test_name ++ [x0a].

Lemma failed_device_stuck_witness :
  ∃ h', device_attr_store cfg0 (λ _, 0) (λ _ _, 0) (λ _, CONNECTED) (λ _, true) (λ _ _ _, true) 2 5 252
      no_memory 0 test_store_page 3 made_host = Ret (-12, h') ∧
    (∃ g, files h' !! 0%nat = Some (Some g) ∧ failed test_name made_file g) ∧
    ∀ a' e count', device_attr_store cfg0 (λ _, 0) (λ _ _, 0) (λ _, CONNECTED) (λ _, true) (λ _ _ _, true) 2 5 252
      a' e test_store_page count' h' = Ret (- EEXIST, h').
Proof.
  apply (failed_device_stuck cfg0 (λ _, 0) (λ _ _, 0) (λ _, CONNECTED) (λ _, true) (λ _ _ _, true) 2 5 252
    no_memory 0 made_file test_store_page test_name 3 made_host);
    [exact made_host_ok|left|reflexivity|by split_and!|reflexivity|reflexivity|reflexivity|discriminate].
Defined.

Lemma device_store_correct_witness :
  ∃ g, device_attr_store cfg0 (λ _, 0) (λ _ _, 0) (λ _, CONNECTED) (λ _, true) (λ _ _ _, true) 2 5 252
      good_answers 0 test_store_page 3 made_host =
      Ret (3, made_host <| hw := hw made_host |> <| files := [Some g] |> <| IS_indexes := 8 |>) ∧
    running 2 252 made_host test_name made_file g.
Proof.
  apply (device_store_correct cfg0 (λ _, 0) (λ _ _, 0) (λ _, CONNECTED) (λ _, true) (λ _ _ _, true) 2 5 252
    good_answers 0 made_file test_store_page test_name 3 made_host 0);
    [reflexivity..].
Defined.

Lemma session_destroy_undefined_witness :
  IS_session_destroy rep (λ _, 0) (empty_host ((zero_session rep) <| cb_num := 3 |> <| IS_conns := [[]; []] |>)) = Ub.
Proof. apply (session_destroy_undefined rep). reflexivity. Defined.

(** Two groups, of which the second could be given the name [r0] only once. *)
Lemma device_names_unique_witness :
  ∃ h, star (dev_step cfg0 (λ _, 0) (λ _ _, 0) (λ _, CONNECTED) (λ _, true) (λ _ _ _, true) 2 5 252) (empty_host sized_session) h ∧
    (∃ f g, files h !! 0%nat = Some (Some f) ∧ files h !! 1%nat = Some (Some g) ∧ file_name f = test_name ∧ file_name g = []) ∧
    ∀ e g, e ∈ devs_list h → files h !! e = Some (Some g) → test_name = file_name g → 0%nat = e.
Proof.
  set (h1 := (empty_host sized_session) <| files := [Some made_file] |> <| devs_list := [0%nat] |>).
  set (h2 := h1 <| files := [Some made_file; Some made_file] |> <| devs_list := [1; 0]%nat |>).
  destruct (create_failure cfg0 (λ _, 0) (λ _ _, 0) (λ _, CONNECTED) (λ _, true) (λ _ _ _, true) 2 5 252
    no_memory test_name 0 made_file h2) as (f & E & Hf); [reflexivity|by split_and!|discriminate|].
  eexists. assert (star (dev_step cfg0 (λ _, 0) (λ _ _, 0) (λ _, CONNECTED) (λ _, true) (λ _ _ _, true) 2 5 252)
    (empty_host sized_session) (h2 <| IS_indexes := 8 |> <| files := [Some f; Some made_file] |>)) as Hstar.
  { eapply star_step; [apply (step_make _ _ _ _ _ _ _ _ _ _ h1 true [x64; x30] (Some 0%nat)); reflexivity|].
    eapply star_step; [apply (step_make _ _ _ _ _ _ _ _ _ _ h2 true [x64; x30] (Some 1%nat)); reflexivity|].
    eapply star_one, (step_store _ _ _ _ _ _ _ _ _ _ _ no_memory 0 test_store_page 3 (-12)); [by right; left|].
    unfold device_attr_store. rewrite (M_bind_Ret _ _ _ test_name h2) by reflexivity.
    change (MAX_IS_DEV_NAME <=? alen test_name) with false. cbv iota.
    rewrite (M_bind_Ret _ _ _ None h2) by reflexivity. cbv beta iota. by erewrite M_bind_Ret by exact E. }
  split; [exact Hstar|]. split; [exists f, made_file; split_and!; [done..|apply Hf|done]|].
  intros e g He Eg Hn.
  apply (device_names_unique cfg0 (λ _, 0) (λ _ _, 0) (λ _, CONNECTED) (λ _, true) (λ _ _ _, true) 2 5 252
    (empty_host sized_session) _ 0 e f g eq_refl Hstar);
    [by right; left|done|done|done|by rewrite (fd_name _ _ _ Hf)|by rewrite (fd_name _ _ _ Hf)].
Defined.
