(* ===== verification/Configfs.v ===== *)
(** The files a session and its devices have in configfs ([is_configfs.c]): the attribute
    tables of kernels from 4.4 on and of those before, and which function serves which file.
    On the older kernels one function serves all writes to a device, so that fault injection
    cannot be switched on. *)

From S2P Require Import Prelude Config MT Fault State CtxPool Chunks Transfer Placement Portal Device.

(** * Attribute tables *)

Definition S_IRUGO : Z := 292.  (* 0444 *)
Definition S_IWUGO : Z := 146.  (* 0222 *)

(** What a show function prints: a string, or a number by [%d]. *)
Inductive shown : Type := ShownStr (s : string) | ShownInt (z : Z).

(** [struct configfs_attribute], [struct configfs_item_operations], [struct
    configfs_group_operations] and [struct config_item_type] of items with states [I]; [E] is
    what the environment answers while a store function runs.  Making an item takes the
    allocation's success and the name. *)
Section types.
Context (E I : Type).
Definition show_fn : Type := I → M host shown.
Definition store_fn : Type := E → I → list byte → Z → M host Z.
Record configfs_attribute : Type := { ca_name : string; ca_mode : Z; ca_show : option show_fn; ca_store : option store_fn }.
Record configfs_item_operations : Type := { store_attribute : option store_fn; show_attribute : option show_fn }.
Record configfs_group_operations : Type := { make_group : bool → list byte → M host (option nat); drop_item : nat → M host () }.
Record config_item_type : Type := {
  ct_item_ops : option configfs_item_operations; ct_attrs : list configfs_attribute;
  ct_group_ops : option configfs_group_operations }.
End types.
Arguments ca_name {E I}. Arguments ca_mode {E I}. Arguments ca_show {E I}. Arguments ca_store {E I}.
Arguments Build_configfs_attribute {E I}.
Arguments store_attribute {E I}. Arguments show_attribute {E I}. Arguments Build_configfs_item_operations {E I}.
Arguments ct_item_ops {E I}. Arguments ct_attrs {E I}. Arguments ct_group_ops {E I}. Arguments Build_config_item_type {E I}.

Section tables.
Context (cfg : config) (post_ret : Z → Z) (rand : nat → Z → Z) (cm_result : Z → test_state)
  (rdma_create_id_ok : Z → bool) (ctx_alloc_ok : Z → Z → Z → bool) (submit_queues : Z)
  (fuel : nat) (IS_major : Z) (sscanf_llu : string → option Z) (snprintf_d : Z → string).

(** [LINUX_VERSION_CODE >= KERNEL_VERSION(4, 4, 0)]. *)
Context (since_4_4 : bool).
Definition method {A} (f : A) : option A := if since_4_4 then Some f else None.

(** The functions of [Device], as the tables hold them. *)
#[local] Definition show_state : show_fn nat := λ d, s ← state_attr_show d; mret (ShownStr s).
#[local] Definition store_device : store_fn blk_answers nat :=
  device_attr_store cfg post_ret rand cm_result rdma_create_id_ok ctx_alloc_ok submit_queues fuel IS_major.
#[local] Definition show_enable : show_fn nat := λ _, z ← fault_injection_enable_attr_show; mret (ShownInt z).
#[local] Definition store_enable : store_fn blk_answers nat := λ _ _, fault_injection_enable_attr_store.
#[local] Definition show_count : show_fn nat := λ _, z ← fault_injection_fault_count_attr_show cfg; mret (ShownInt z).
#[local] Definition show_distr : show_fn nat := λ _, s ← fault_injection_distr_attr_show snprintf_d; mret (ShownStr s).
#[local] Definition store_distr : store_fn blk_answers nat := λ _ _ page,
  fault_injection_distr_attr_store cfg sscanf_llu (String.string_of_list_byte page).

Definition device_item_attr : configfs_attribute blk_answers nat :=
  {| ca_name := "device"; ca_mode := Z.lor S_IWUGO S_IRUGO; ca_show := method show_state; ca_store := method store_device |}.
Definition state_item_attr : configfs_attribute blk_answers nat :=
  {| ca_name := "state"; ca_mode := S_IRUGO; ca_show := method show_state; ca_store := None |}.
Definition fault_injection_enable_item_attr : configfs_attribute blk_answers nat :=
  {| ca_name := "fault_injection_enable"; ca_mode := Z.lor S_IWUGO S_IRUGO;
     ca_show := method show_enable; ca_store := method store_enable |}.
Definition fault_injection_fault_count_item_attr : configfs_attribute blk_answers nat :=
  {| ca_name := "fault_injection_fault_count"; ca_mode := S_IRUGO; ca_show := method show_count; ca_store := None |}.
Definition fault_injection_distr_item_attr : configfs_attribute blk_answers nat :=
  {| ca_name := "fault_injection_distr"; ca_mode := Z.lor S_IWUGO S_IRUGO;
     ca_show := method show_distr; ca_store := method store_distr |}.

Definition IS_device_item_attrs : list (configfs_attribute blk_answers nat) :=
  [device_item_attr; state_item_attr; fault_injection_enable_item_attr; fault_injection_fault_count_item_attr;
   fault_injection_distr_item_attr].
(** Before 4.4: one pair of functions for all files, which do not look at the attribute. *)
Definition IS_device_item_ops : configfs_item_operations blk_answers nat :=
  {| store_attribute := Some store_device; show_attribute := Some show_state |}.
Definition IS_device_type : config_item_type blk_answers nat :=
  {| ct_item_ops := if since_4_4 then None else Some IS_device_item_ops; ct_attrs := IS_device_item_attrs;
     ct_group_ops := None |}.

(** A session has one file, for its portals; the environment says which connections can be
    allocated. *)
#[local] Definition store_session : store_fn (Z → bool) () := λ conn_ok _, portal_attr_store cfg submit_queues conn_ok.
Definition IS_session_devices_group_ops : configfs_group_operations :=
  {| make_group := IS_device_make_group; drop_item := IS_device_drop cfg post_ret |}.
Definition portal_item_attr : configfs_attribute (Z → bool) () :=
  {| ca_name := "portal"; ca_mode := S_IWUGO; ca_show := None; ca_store := method store_session |}.
Definition IS_session_item_ops : configfs_item_operations (Z → bool) () :=
  {| store_attribute := Some store_session; show_attribute := None |}.
Definition IS_session_item_attrs : list (configfs_attribute (Z → bool) ()) := [portal_item_attr].
Definition IS_session_type : config_item_type (Z → bool) () :=
  {| ct_item_ops := if since_4_4 then None else Some IS_session_item_ops; ct_attrs := IS_session_item_attrs;
     ct_group_ops := Some IS_session_devices_group_ops |}.
End tables.

(** * Files

    What configfs does with a file of an item, as its documentation says: a file can be opened
    for what its mode permits and a function is there for, the attribute's own one since 4.4,
    that of the item before. *)
Section files.
Context {E I : Type} (since_4_4 : bool) (t : config_item_type E I).

Definition attribute (name : string) : option (configfs_attribute E I) :=
  head (filter (λ a, ca_name a = name) (ct_attrs t)).
Definition write_file (name : string) : option (store_fn E I) :=
  a ← attribute name;
  if Z.land (ca_mode a) S_IWUGO =? 0 then None
  else if since_4_4 then ca_store a else o ← ct_item_ops t; store_attribute o.
Definition read_file (name : string) : option (show_fn I) :=
  a ← attribute name;
  if Z.land (ca_mode a) S_IRUGO =? 0 then None
  else if since_4_4 then ca_show a else o ← ct_item_ops t; show_attribute o.
End files.

(** * The switch of fault injection

    Nothing but the session's creation and the store function of its file changes it. *)

Definition fi_switch (w : world) : Z := inject_fault (IS_fault_injection (sess w)).
Definition same_switch (w w' : world) : Prop := fi_switch w' = fi_switch w.
#[local] Instance same_switch_refl : Reflexive same_switch.
Proof. by intros w. Qed.
#[local] Instance same_switch_trans : Transitive same_switch.
Proof. intros w1 w2 w3 H1 H2. unfold same_switch in *. congruence. Qed.

(** ** Messages *)

Lemma with_cb_switch s c f s' : with_cb s c f = Some s' → IS_fault_injection s' = IS_fault_injection s.
Proof. unfold with_cb. intros (cb & _ & (cb' & _ & (l & _ & [= <-])%bind_Some)%bind_Some)%bind_Some. done. Qed.

Lemma single_switch s c s' : IS_single_chunk_init s c = Some s' → IS_fault_injection s' = IS_fault_injection s.
Proof.
  unfold IS_single_chunk_init. intros (cb & _ & ([k u] & E & [= <-])%bind_Some)%bind_Some.
  eapply (for_brk_partial (λ u, IS_fault_injection u = IS_fault_injection s)); [exact E|done|].
  intros i t r Hi Ht (key & _ & Er)%bind_Some. destruct (truthy key); [|by injection Er as <-].
  apply bind_Some in Er as (addr & _ & (t1 & E1%with_cb_switch & (m & _ & (t2 & E2%with_cb_switch & (m' & _ & [= <-])%bind_Some)%bind_Some)%bind_Some)%bind_Some).
  cbn in *. congruence.
Qed.
Lemma list_switch s c s' : IS_chunk_list_init s c = Some s' → IS_fault_injection s' = IS_fault_injection s.
Proof.
  unfold IS_chunk_list_init. intros (cb & _ & ([u j] & E & Ew%with_cb_switch)%bind_Some)%bind_Some. rewrite Ew.
  eapply (for_up_keeps (λ u, IS_fault_injection u.1 = IS_fault_injection s)) in E; [exact E|done|].
  intros i [t n] t' Hi Ht (key & _ & Er)%bind_Some. destruct (truthy key); [|by injection Er as <-].
  apply bind_Some in Er as (addr & _ & (t1 & E1%with_cb_switch & (x & _ & (m & _ & (k & _ & (t2 & E2%with_cb_switch & [= <-])%bind_Some)%bind_Some)%bind_Some)%bind_Some)%bind_Some).
  cbn in *. congruence.
Qed.

Lemma client_recv_switch s c len_ok r s' : client_recv s c len_ok = Some (r, s') → IS_fault_injection s' = IS_fault_injection s.
Proof.
  unfold client_recv. intros (cb & _ & E)%bind_Some. destruct len_ok; [|by injection E as _ <-]. cbn [negb] in E.
  destruct (_ <? _); [by injection E as _ <-|].
  destruct (ri_type _); try (by injection E as _ <-).
  all: repeat (let H := fresh "F" in apply bind_Some in E as (? & H & E); try apply with_cb_switch in H); injection E as _ <-; try congruence.
  - apply bind_Some in F as (l & _ & [= <-]). apply list_switch in F1. cbn in *. congruence.
  - apply bind_Some in F as (l & _ & [= <-]). apply single_switch in F1. cbn in *. congruence.
Qed.

(** ** Faults *)

Lemma update_disk_switch fi d x fi' : update_disk fi d x = Some fi' → inject_fault fi' = inject_fault fi.
Proof. unfold update_disk. by intros (l & _ & [= <-])%bind_Some. Qed.
Lemma access_switch fi d fi' : IS_fault_injection_access fi d = Some fi' → inject_fault fi' = inject_fault fi.
Proof. unfold IS_fault_injection_access. by intros (x & _ & (c & _ & E%update_disk_switch)%bind_Some)%bind_Some. Qed.
Lemma init_uniform_switch cfg fi rate fi' : init_uniform_distr cfg fi rate = Some fi' → inject_fault fi' = inject_fault fi.
Proof.
  intros E. eapply (for_up_keeps (λ u, inject_fault u = inject_fault fi)); [exact E|done|].
  intros i t t' Hi Ht (x & _ & (g & _ & ([y g'] & _ & (r & _ & Et%update_disk_switch)%bind_Some)%bind_Some)%bind_Some)%bind_Some. congruence.
Qed.
Lemma inject_switch fi d v fi' : IS_fault_injection_inject_fault fi d = Some (v, fi') → inject_fault fi' = inject_fault fi.
Proof.
  unfold IS_fault_injection_inject_fault. intros E.
  destruct (negb _); [by injection E as _ <-|]. apply bind_Some in E as (x & _ & E). destruct (_ <=? 0); [|by injection E as _ <-].
  by apply bind_Some in E as ([y g] & _ & (r & _ & (fi2 & Eu%update_disk_switch & [= _ <-])%bind_Some)%bind_Some).
Qed.

(** ** The data path *)

Create HintDb switch.
Ltac switch_ops := repeat first [solve [auto 2 with switch nocore] | progress keeps_walk].

Section data_path.
Context (cfg : config) (post_ret : Z → Z).

Lemma switch_upd_sess f : (∀ s, IS_fault_injection (f s) = IS_fault_injection s) → keeps same_switch (upd_sess f).
Proof. intros Hf. apply keeps_modify. intros w. unfold same_switch, fi_switch. cbn. by rewrite Hf. Qed.
Lemma switch_set_cb i cb : keeps same_switch (set_cb i cb).
Proof. unfold set_cb. switch_ops. by apply switch_upd_sess. Qed.
Lemma switch_set_cb_state i st : keeps same_switch (set_cb_state i st).
Proof. unfold set_cb_state. switch_ops. by apply switch_upd_sess. Qed.
Lemma switch_get_cb i : keeps same_switch (get_cb i).
Proof. unfold get_cb. switch_ops. Qed.
Lemma switch_get_cb_state i : keeps same_switch (get_cb_state i).
Proof. unfold get_cb_state. switch_ops. Qed.
#[local] Hint Resolve switch_set_cb switch_set_cb_state switch_get_cb switch_get_cb_state : switch.
Lemma switch_upd_cb i f : keeps same_switch (upd_cb i f).
Proof. unfold upd_cb. switch_ops. Qed.
Lemma switch_get_pool c p : keeps same_switch (get_pool c p).
Proof. unfold get_pool. switch_ops. Qed.
Lemma switch_set_pool c p x : keeps same_switch (set_pool c p x).
Proof. unfold set_pool. switch_ops. by apply switch_upd_sess. Qed.
#[local] Hint Resolve switch_upd_cb switch_get_pool switch_set_pool : switch.
Lemma switch_get_ctx r : keeps same_switch (get_ctx r).
Proof. unfold get_ctx. switch_ops. Qed.
Lemma switch_set_ctx r c : keeps same_switch (set_ctx r c).
Proof. unfold set_ctx. switch_ops. Qed.
#[local] Hint Resolve switch_get_ctx switch_set_ctx : switch.
Lemma switch_upd_ctx r f : keeps same_switch (upd_ctx r f).
Proof. unfold upd_ctx. switch_ops. Qed.
Lemma switch_get_req r : keeps same_switch (get_req r).
Proof. unfold get_req. switch_ops. Qed.
#[local] Hint Resolve switch_get_req : switch.
Lemma switch_upd_req r f : keeps same_switch (upd_req r f).
Proof. unfold upd_req. switch_ops. Qed.
Lemma switch_deref {A} (o : option A) : keeps same_switch (deref o).
Proof. apply keeps_lift; apply _. Qed.
Lemma switch_new_counter v : keeps same_switch (new_counter v).
Proof. unfold new_counter. switch_ops. Qed.
Lemma switch_dec c : keeps same_switch (atomic_dec_and_test c).
Proof. unfold atomic_dec_and_test. switch_ops. Qed.
Lemma switch_get_ctx_pool c p : keeps same_switch (IS_get_ctx c p).
Proof. unfold IS_get_ctx. switch_ops. Qed.
Lemma switch_insert_ctx r : keeps same_switch (IS_insert_ctx r).
Proof. unfold IS_insert_ctx. switch_ops. Qed.
Lemma switch_post p : keeps same_switch (ib_post post_ret p).
Proof. unfold ib_post, emit. switch_ops. Qed.
Lemma switch_target ts i : keeps same_switch (the_target ts i).
Proof. apply keeps_lift; apply _. Qed.
#[local] Hint Resolve switch_upd_ctx switch_upd_req switch_deref switch_new_counter switch_dec
  switch_get_ctx_pool switch_insert_ctx switch_post switch_target : switch.

(** Completions. *)
Lemma switch_poll fuel c : keeps same_switch (poll_loop fuel c).
Proof. induction fuel as [|fuel IH]; cbn [poll_loop]; unfold ib_poll_cq; switch_ops; apply IH. Qed.
Lemma switch_pick fuel refs j : keeps same_switch (pick_ctx fuel refs j).
Proof. revert j. induction fuel as [|fuel IH]; intros j; cbn [pick_ctx]; switch_ops; apply IH. Qed.
#[local] Hint Resolve switch_poll switch_pick : switch.
Lemma switch_read_bios copy off bios :
  (∀ o page, keeps same_switch (copy o page)) → keeps same_switch (read_bios copy off bios).
Proof. intros Hc. revert off. induction bios as [|b bios IH]; intros off; cbn [read_bios]; switch_ops. Qed.
Lemma switch_copy_bio refs off page : keeps same_switch (copy_bio cfg refs off page).
Proof. unfold copy_bio. switch_ops. Qed.
Lemma switch_read_segments refs off segs : keeps same_switch (read_segments cfg refs off segs).
Proof. revert off. induction segs as [|x segs IH]; intros off; cbn [read_segments]; switch_ops; apply IH. Qed.
Lemma switch_merge_page refs off page : keeps same_switch (merge_page cfg refs off page).
Proof. unfold merge_page. switch_ops. Qed.
#[local] Hint Resolve switch_read_bios switch_copy_bio switch_read_segments switch_merge_page : switch.
Lemma switch_merge_segments refs off segs : keeps same_switch (merge_segments cfg refs off segs).
Proof. revert off. induction segs as [|x segs IH]; intros off; cbn [merge_segments]; switch_ops. Qed.
Lemma switch_load l ix : keeps same_switch (load_bufs l ix).
Proof. induction ix as [|i ix IH]; cbn [load_bufs]; switch_ops. Qed.
Lemma switch_store l ix bs : keeps same_switch (store_bufs l ix bs).
Proof. revert bs. induction ix as [|i ix IH]; intros [|b bs]; cbn [store_bufs]; switch_ops. Qed.
#[local] Hint Resolve switch_merge_segments switch_load switch_store : switch.
Lemma switch_encode e l len rows tbls src dst : keeps same_switch (encode_bufs cfg e l len rows tbls src dst).
Proof. unfold encode_bufs. switch_ops. Qed.
#[local] Hint Resolve switch_encode : switch.
Lemma switch_read_pages refs rq : keeps same_switch (read_pages cfg refs rq).
Proof. unfold read_pages, read_pages_rep, read_pages_ec, recover. switch_ops; apply switch_read_bios; intros; switch_ops. Qed.
#[local] Hint Resolve switch_read_pages : switch.
Lemma switch_end_request r : keeps same_switch (end_request r).
Proof. unfold end_request. switch_ops. Qed.
#[local] Hint Resolve switch_end_request : switch.
Lemma switch_read_done r : keeps same_switch (client_read_done cfg r).
Proof. unfold client_read_done. switch_ops. Qed.
Lemma switch_write_done r : keeps same_switch (client_write_done r).
Proof. unfold client_write_done. switch_ops. Qed.
Lemma switch_recv_msg c b : keeps same_switch (recv_msg c b).
Proof.
  unfold recv_msg. intros w a w' (s & w1 & [= <- <-] & ([r s'] & w2 & E & (u & w3 & [= _ <-] & [= _ <-])%M_bind_inv)%M_bind_inv)%M_bind_inv.
  unfold lift in E. destruct (client_recv _ _ _) as [[r' t]|] eqn:Er; [|done]. injection E as _ <- <-.
  unfold same_switch, fi_switch. cbn. by rewrite (client_recv_switch _ _ _ _ _ Er).
Qed.
#[local] Hint Resolve switch_read_done switch_write_done switch_recv_msg : switch.
Lemma switch_handler c : keeps same_switch (rdma_cq_event_handler cfg post_ret c).
Proof. unfold rdma_cq_event_handler, client_send. cbv zeta. switch_ops. Qed.
#[local] Hint Resolve switch_handler : switch.
Lemma switch_send c f : keeps same_switch (send_and_wait cfg post_ret c f).
Proof. unfold send_and_wait, post_msg. switch_ops. Qed.
#[local] Hint Resolve switch_send : switch.

(** Requests. *)
Lemma switch_prepare op fl req cnt i off len t r full : keeps same_switch (prepare cfg op fl req cnt i off len t r full).
Proof. unfold prepare. switch_ops. Qed.
#[local] Hint Resolve switch_prepare : switch.
Lemma switch_get_read ts conn off len req cnt : keeps same_switch (get_ctxs_read cfg ts conn off len req cnt).
Proof. unfold get_ctxs_read. switch_ops. Qed.
Lemma switch_get_write ts conn off len req cnt : keeps same_switch (get_ctxs_write cfg ts conn off len req cnt).
Proof. unfold get_ctxs_write. switch_ops. Qed.
Lemma switch_link l : keeps same_switch (link_ctxs cfg l).
Proof. unfold link_ctxs. switch_ops. Qed.
(** The counters change, not the switch. *)
Lemma switch_counters {A B} (g : fault_injection → option A) (f : A → fault_injection) (k : A → M world B) :
  (∀ x a, g x = Some a → inject_fault (f a) = inject_fault x) →
  (∀ a w b w', k a w = Ret (b, w') → same_switch (w <| sess := (sess w) <| IS_fault_injection := f a |> |>) w') →
  keeps same_switch (x ← gets (λ w, IS_fault_injection (sess w)); a ← lift (g x); k a).
Proof.
  intros Hg Hk w b w' (x & w1 & [= <- <-] & (a & w2 & E & Em)%M_bind_inv)%M_bind_inv.
  unfold lift in E. destruct (g _) as [a'|] eqn:Ea; [|done]. injection E as <- <-.
  etransitivity; [|by eapply Hk]. unfold same_switch, fi_switch. cbn. by apply Hg.
Qed.
Lemma switch_then_sess {B} (x : fault_injection) (m : M world B) w b w' :
  keeps same_switch m → (upd_sess (λ s, s <| IS_fault_injection := x |>);; m) w = Ret (b, w') →
  same_switch (w <| sess := (sess w) <| IS_fault_injection := x |> |>) w'.
Proof. intros Hm (u & w1 & [= _ <-] & E)%M_bind_inv. by eapply Hm. Qed.
Lemma switch_inject ts l : keeps same_switch (inject_faults cfg post_ret ts l).
Proof.
  unfold inject_faults. apply keeps_loop; [apply _..|]. intros i [].
  apply (switch_counters (λ f, IS_fault_injection_inject_fault f i) snd); [intros x [v fi] Hx; by apply inject_switch in Hx|].
  intros [v fi] w b w'. apply switch_then_sess. unfold IS_send_fault. switch_ops.
Qed.
Lemma switch_is_bad ts l i : keeps same_switch (is_bad ts l i).
Proof. unfold is_bad. switch_ops. Qed.
#[local] Hint Resolve switch_get_read switch_get_write switch_link switch_inject switch_is_bad : switch.
Lemma switch_find_parity fuel ts l j : keeps same_switch (find_parity cfg fuel ts l j).
Proof. revert j. induction fuel as [|fuel IH]; intros j; cbn [find_parity]; switch_ops. Qed.
Lemma switch_post_read ts l i : keeps same_switch (post_read post_ret ts l i).
Proof.
  unfold post_read. do 6 (apply keeps_bind; [apply _|solve [switch_ops]|intros ?]).
  apply (switch_counters (λ f, IS_fault_injection_access f i) id); [by intros x fi Hx%access_switch|].
  intros fi w b w'. apply switch_then_sess. switch_ops.
Qed.
#[local] Hint Resolve switch_find_parity switch_post_read : switch.
Lemma switch_rdma_read ts off len req : keeps same_switch (IS_rdma_read cfg post_ret ts off len req).
Proof. unfold IS_rdma_read, start_read, post_reads, wait_reads. switch_ops. Qed.
Lemma switch_copy_pages l off bios : keeps same_switch (copy_pages cfg l off bios).
Proof. revert off. induction bios as [|b bios IH]; intros off; cbn [copy_pages]; switch_ops. Qed.
Lemma switch_split_page l off page : keeps same_switch (split_page cfg l off page).
Proof. unfold split_page. switch_ops. Qed.
#[local] Hint Resolve switch_copy_pages switch_split_page : switch.
Lemma switch_split_segments l off segs : keeps same_switch (split_segments cfg l off segs).
Proof. revert off. induction segs as [|b segs IH]; intros off; cbn [split_segments]; switch_ops. Qed.
Lemma switch_split_bios l off bios : keeps same_switch (split_bios cfg l off bios).
Proof. revert off. induction bios as [|b bios IH]; intros off; cbn [split_bios]; switch_ops. Qed.
#[local] Hint Resolve switch_split_segments switch_split_bios : switch.
Lemma switch_rdma_write ts off len req : keeps same_switch (IS_rdma_write cfg post_ret ts off len req).
Proof. unfold IS_rdma_write, start_write, fill_pages, write_pages_ec, post_writes, wait_writes. switch_ops. Qed.
#[local] Hint Resolve switch_rdma_read switch_rdma_write : switch.
Lemma switch_queue_rq req : keeps same_switch (IS_queue_rq cfg post_ret req).
Proof. unfold IS_queue_rq, IS_request, IS_transfer_chunk. switch_ops. Qed.

(** Mapping slabs. *)
Lemma switch_chunk_map rand cm_result create_ok ctx_ok queues n i :
  keeps same_switch (IS_single_chunk_map cfg post_ret rand cm_result create_ok ctx_ok queues n i).
Proof.
  unfold IS_single_chunk_map, query_server, rdma_connect, bind_server, IS_ctx_dma_setup, IS_send_query, IS_send_bind_single.
  switch_ops; by apply switch_upd_sess.
Qed.
#[local] Hint Resolve switch_chunk_map : switch.
Lemma switch_trigger rand cm_result create_ok ctx_ok queues n fuel :
  keeps same_switch (rdma_trigger cfg post_ret rand cm_result create_ok ctx_ok queues n fuel).
Proof.
  unfold rdma_trigger. apply keeps_loop; [apply _..|]. intros i t. generalize (i * NDISKS cfg). intros x. revert t.
  induction fuel as [|fuel IH]; intros t; cbn [map_until]; switch_ops.
Qed.
Lemma switch_send_done c n : keeps same_switch (IS_send_done post_ret c n).
Proof. unfold IS_send_done, post_msg. switch_ops. Qed.
End data_path.

(** * What files can do *)

Section steps.
Context (cfg : config) (post_ret : Z → Z) (rand : nat → Z → Z) (cm_result : Z → test_state)
  (rdma_create_id_ok : Z → bool) (ctx_alloc_ok : Z → Z → Z → bool) (submit_queues : Z)
  (fuel : nat) (IS_major : Z) (sscanf_llu : string → option Z) (snprintf_d : Z → string).

#[local] Abbreviation device_type since := (IS_device_type cfg post_ret rand cm_result rdma_create_id_ok ctx_alloc_ok submit_queues
  fuel IS_major sscanf_llu snprintf_d since).
#[local] Abbreviation session_type since := (IS_session_type cfg post_ret submit_queues since).

Definition faults_off (h : host) : Prop := fi_switch (hw h) = 0.
Definition same_host_switch (h h' : host) : Prop := same_switch (hw h) (hw h').
#[local] Instance same_host_switch_refl : Reflexive same_host_switch.
Proof. by intros h. Qed.
#[local] Instance same_host_switch_trans : Transitive same_host_switch.
Proof. intros h1 h2 h3 H1 H2. unfold same_host_switch, same_switch in *. congruence. Qed.

(** What user space can do to a session: make and remove devices, read and write the files of
    a device and of the session, do block I/O. *)
Inductive fs_step (since_4_4 : bool) (h h' : host) : Prop :=
| fs_make ops ok name r (Ho : ct_group_ops (session_type since_4_4) = Some ops) (E : make_group ops ok name h = Ret (r, h'))
| fs_drop ops d (Ho : ct_group_ops (session_type since_4_4) = Some ops) (E : drop_item ops d h = Ret ((), h'))
| fs_write name f a d page count r (Hf : write_file since_4_4 (device_type since_4_4) name = Some f)
    (E : f a d page count h = Ret (r, h'))
| fs_read name f d r (Hf : read_file since_4_4 (device_type since_4_4) name = Some f) (E : f d h = Ret (r, h'))
| fs_session name f ok page count r (Hf : write_file since_4_4 (session_type since_4_4) name = Some f)
    (E : f ok () page count h = Ret (r, h'))
| fs_io req r (E : in_world (IS_queue_rq cfg post_ret req) h = Ret (r, h')).

Lemma switch_in_world {A} (m : M world A) : keeps same_switch m → keeps same_host_switch (in_world m).
Proof.
  intros Hm h a h' E. unfold in_world in E. destruct (m (hw h)) as [[b w]| | |] eqn:Em; try done. injection E as _ <-.
  by apply (Hm (hw h) b w).
Qed.
Lemma switch_get_file d : keeps same_host_switch (get_file d).
Proof. unfold get_file. keeps_walk. Qed.
Lemma switch_set_file d f : keeps same_host_switch (set_file d f).
Proof. unfold set_file. keeps_walk. Qed.
#[local] Hint Resolve switch_in_world switch_get_file switch_set_file switch_trigger switch_send_done switch_queue_rq : switch.
Lemma switch_upd_file d g : keeps same_host_switch (upd_file d g).
Proof. unfold upd_file. switch_ops. Qed.
#[local] Hint Resolve switch_upd_file : switch.
Lemma switch_device_store a d page count : keeps same_host_switch
  (device_attr_store cfg post_ret rand cm_result rdma_create_id_ok ctx_alloc_ok submit_queues fuel IS_major a d page count).
Proof. unfold device_attr_store, IS_file_find, IS_create_device. cbv zeta. switch_ops. Qed.
Lemma switch_make ok name : keeps same_host_switch (IS_device_make_group ok name).
Proof. unfold IS_device_make_group. cbv zeta. switch_ops. Qed.
Lemma switch_drop d : keeps same_host_switch (IS_device_drop cfg post_ret d).
Proof. unfold IS_device_drop, IS_destroy_device. switch_ops. Qed.
Lemma switch_state_show d : keeps same_host_switch (state_attr_show d).
Proof. unfold state_attr_show. switch_ops. Qed.
#[local] Hint Resolve switch_device_store switch_make switch_drop switch_state_show : switch.

Lemma session_create_switch ok n s0 r s :
  IS_session_create cfg ok submit_queues n s0 = Some (r, s) → inject_fault (IS_fault_injection s0) = 0 →
  inject_fault (IS_fault_injection s) = 0.
Proof.
  unfold IS_session_create. cbv zeta. intros (s1 & E1 & ([j [ret conns]] & _ & E)%bind_Some)%bind_Some H0.
  assert (inject_fault (IS_fault_injection s1) = 0) as H1.
  { eapply (for_up_keeps (λ u, inject_fault (IS_fault_injection u) = 0)); [exact E1|exact H0|].
    by intros i u u' _ Hu (m & _ & (k & _ & (c & _ & [= <-])%bind_Some)%bind_Some)%bind_Some. }
  destruct (ret =? 0); [|by injection E as _ <-].
  by apply bind_Some in E as (f & Ef%init_uniform_switch & [= _ <-]).
Qed.
Lemma portal_store_off ok buf count h r h' :
  portal_attr_store cfg submit_queues ok buf count h = Ret (r, h') → faults_off h → faults_off h'.
Proof.
  unfold portal_attr_store. intros (x & h1 & E1 & E)%M_bind_inv H0. unfold lift in E1. destruct (portal_string buf); [|done].
  injection E1 as <- <-. apply M_bind_inv in E as (h2 & h3 & [= <- <-] & E).
  destruct (IS_session_find_by_portal _ _); [by injection E as _ <-|].
  apply M_bind_inv in E as (old & h4 & E2 & E). unfold lift in E2. destruct (portals h !! self h); [|done]. injection E2 as <- <-.
  apply M_bind_inv in E as (p & h4 & E2 & E). unfold lift in E2. destruct (store_portal _ _); [|done]. injection E2 as <- <-.
  apply M_bind_inv in E as ([[n q] p'] & h4 & E2 & E). unfold lift in E2. destruct (portal_parser _); [|done]. injection E2 as -> <-.
  apply M_bind_inv in E as ([ret s] & h4 & E2 & E). unfold lift in E2. destruct (IS_session_create _ _ _ _ _) as [[ret' s']|] eqn:Es; [|done].
  injection E2 as -> -> <-. apply M_bind_inv in E as (u & h4 & [= _ <-] & E).
  assert (faults_off (h <| portals := <[self h := p']> (portals h) |> <| hw := (hw h) <| sess := s |> |>)) as H1.
  { by apply (session_create_switch _ _ _ _ _ Es). }
  destruct (negb (ret =? 0)); by injection E as _ <-.
Qed.

(** Before 4.4 one function serves all writes to a device and one all reads. *)
Lemma old_write name f : write_file false (device_type false) name = Some f →
  f = device_attr_store cfg post_ret rand cm_result rdma_create_id_ok ctx_alloc_ok submit_queues fuel IS_major.
Proof. unfold write_file. intros (x & _ & E)%bind_Some. destruct (_ =? 0); [done|]. by injection E as <-. Qed.
Lemma old_read name f : read_file false (device_type false) name = Some f → f = λ d, s ← state_attr_show d; mret (ShownStr s).
Proof. unfold read_file. intros (x & _ & E)%bind_Some. destruct (_ =? 0); [done|]. by injection E as <-. Qed.
Lemma old_session name f : write_file false (session_type false) name = Some f → f = λ ok _, portal_attr_store cfg submit_queues ok.
Proof. unfold write_file. intros (x & _ & E)%bind_Some. destruct (_ =? 0); [done|]. by injection E as <-. Qed.

Lemma old_step_off h h' : fs_step false h h' → faults_off h → faults_off h'.
Proof.
  assert (∀ {A} (m : M host A) r, keeps same_host_switch m → m h = Ret (r, h') → faults_off h → faults_off h') as Hk.
  { intros A m r Hm E H0. unfold faults_off in *. by rewrite (Hm _ _ _ E). }
  intros [ops ok name r [= <-] E|ops d [= <-] E|name f a d page count r Hf E|name f d r Hf E|name f ok page count r Hf E|req r E].
  - eapply Hk; [|exact E]. apply switch_make.
  - eapply Hk; [|exact E]. apply switch_drop.
  - rewrite (old_write _ _ Hf) in E. eapply Hk; [|exact E]. apply switch_device_store.
  - rewrite (old_read _ _ Hf) in E. eapply Hk; [|exact E]. switch_ops.
  - rewrite (old_session _ _ Hf) in E. by eapply portal_store_off.
  - eapply Hk; [|exact E]. switch_ops.
Qed.

(** C39: on kernels before 4.4 fault injection cannot be switched on.  There, configfs writes
    every file of a device through the same function, which takes what is written for the name
    of a block device - also what is written to [fault_injection_enable] - and reads every
    file through the one that shows the device's state.  So the switch stays off in whatever
    order devices are made and removed, the files of devices and session written and read,
    with whatever contents, and pages read and written, whatever the servers do. *)
Theorem faults_stay_off h h' : star (fs_step false) h h' → faults_off h → faults_off h'.
Proof. intros Hs H0. eapply (star_inv _ faults_off); [|exact Hs|exact H0]. intros x y Hx Hxy. by eapply old_step_off. Qed.

(** Since 4.4 the file has functions of its own: what is written to it is the switch, and is
    read back. *)
Theorem enable_file_roundtrip a d page z count h :
  scan_d page = Some z → ∃ f g h', write_file true (device_type true) "fault_injection_enable" = Some f ∧
    read_file true (device_type true) "fault_injection_enable" = Some g ∧
    f a d page count h = Ret (count, h') ∧ fi_switch (hw h') = u32 z ∧ g d h' = Ret (ShownInt (i32 (u32 z)), h').
Proof.
  intros Hz. exists (λ _ _, fault_injection_enable_attr_store), (λ _, x ← fault_injection_enable_attr_show; mret (ShownInt x)).
  eexists. split; [reflexivity|]. split; [reflexivity|]. split.
  - unfold fault_injection_enable_attr_store. erewrite M_bind_Ret by (unfold lift; by rewrite Hz). reflexivity.
  - done.
Qed.
End steps.

(** ** A concrete history

    On an old kernel, 1 is written to [fault_injection_enable] of a device. *)
Definition one_page : list byte := [x31; x0a].

Lemma faults_stay_off_witness :
  ∃ f h, write_file false (IS_device_type cfg0 (λ _, 0) (λ _ _, 0) (λ _, CONNECTED) (λ _, true) (λ _ _ _, true) 2 5 252 (λ _, None)
      (λ _, EmptyString) false) "fault_injection_enable" = Some f ∧
    f good_answers 0%nat one_page 2 made_host = Ret (2, h) ∧ name_of h 0%nat = Some [x31] ∧ faults_off h.
Proof.
  destruct (device_store_correct cfg0 (λ _, 0) (λ _ _, 0) (λ _, CONNECTED) (λ _, true) (λ _ _ _, true) 2 5 252
    good_answers 0 made_file one_page [x31] 2 made_host 0 (hw made_host)) as (g & E & Hg); [reflexivity..|].
  eexists _, _. split; [reflexivity|]. split; [exact E|]. split; [unfold name_of; cbn; by rewrite (ru_name _ _ _ _ _ _ Hg)|].
  apply (faults_stay_off cfg0 (λ _, 0) (λ _ _, 0) (λ _, CONNECTED) (λ _, true) (λ _ _ _, true) 2 5 252 (λ _, None) (λ _, EmptyString) made_host);
    [|reflexivity].
  eapply star_step; [|apply star_refl]. eapply (fs_write _ _ _ _ _ _ _ _ _ _ _ _ _ _ "fault_injection_enable"); [reflexivity|exact E].
Defined.

Lemma enable_file_roundtrip_witness :
  ∃ f g h', write_file true (IS_device_type cfg0 (λ _, 0) (λ _ _, 0) (λ _, CONNECTED) (λ _, true) (λ _ _ _, true) 2 5 252 (λ _, None)
      (λ _, EmptyString) true) "fault_injection_enable" = Some f ∧
    read_file true (IS_device_type cfg0 (λ _, 0) (λ _ _, 0) (λ _, CONNECTED) (λ _, true) (λ _ _ _, true) 2 5 252 (λ _, None)
      (λ _, EmptyString) true) "fault_injection_enable" = Some g ∧
    f good_answers 0%nat one_page 2 made_host = Ret (2, h') ∧ fi_switch (hw h') = 1 ∧ g 0%nat h' = Ret (ShownInt 1, h').
Proof. by apply (enable_file_roundtrip cfg0 _ _ _ _ _ _ _ _ _ _ good_answers 0%nat one_page 1 2 made_host). Defined.
