(* ===== verification/Failure.v ===== *)
(** Failures ([is_main.c]): the connection manager's events, the loss of a server
    ([IS_disconnect_handler]) with its failure detector, and eviction of slabs by a
    server ([evict_handler]). *)

From S2P Require Import Prelude Config MT Fault State CtxPool Chunks Transfer Placement GF256 GFVect GFMatrix Decode.

Section failure.
Context (cfg : config) (post_ret : Z → Z) (submit_queues : Z).

(** * Failure detection *)

(** Which splits of a stripe are lost: the loop of [IS_disconnect_handler] over the
    first [NDISKS] chunks.  The state of the server is read before the test for -1. *)
Definition detect (s : session) (d : detector) : option detector :=
  in_err ← for_up 0 (NDISKS cfg) (λ i l, aset l i 0) (src_in_err d);
  '(_, d) ← for_brk 0 (NDISKS cfg) (λ i d,
    if negb (nerrs d <? NDISKS cfg - NDATAS cfg) then Some (Stop d)
    else
      j ← aget (cb_index_map s) i;
      st ← aget (cb_state_list s) j;
      if bool_decide (st = CB_FAIL) || (j <? 0) then
        e ← aset (src_in_err d) i 1;
        l ← aset (src_err_list d) (nerrs d) i;
        Some (Next (d <| src_in_err := e |> <| src_err_list := l |> <| nerrs := nerrs d + 1 |>
                      <| nsrcerrs := if i <? NDATAS cfg then nsrcerrs d + 1 else nsrcerrs d |>))
      else Some (Next d))
    (d <| src_in_err := in_err |> <| nerrs := 0 |> <| nsrcerrs := 0 |>);
  Some d.

(** * Loss of a server *)

(** Give back the contexts in flight to the lost server; reads are issued again. *)
Definition retry_requests (c : Z) : M world Z :=
  loop 0 submit_queues (λ i err,
    loop 0 IS_QUEUE_DEPTH (λ j err,
      let r := {| rf_conn := i; rf_pool := c; rf_ix := j |} in
      ctx ← get_ctx r;
      if in_flight ctx =? CTX_R_IN_FLIGHT then
        IS_insert_ctx r;;
        ctx ← get_ctx r; req ← deref (ctx_req ctx);
        IS_request cfg post_ret req
      else if in_flight ctx =? CTX_W_IN_FLIGHT then IS_insert_ctx r;; mret err
      else mret err) err) 0.

(** Run a partial operation of the session. *)
Definition on_sess (f : session → option session) : M world () :=
  s ← gets sess; s ← lift (f s); modify (λ w, w <| sess := s |>).

Definition IS_disconnect_handler (c : Z) : M world Z :=
  cb ← get_cb c;
  st ← get_cb_state (cb_index cb);
  if decide (st = CB_CONNECTED) then set_cb_state (cb_index cb) CB_FAIL;; mret (cb_index cb)
  else
    set_cb_state (cb_index cb) CB_FAIL;;
    w ← get;
    d ← lift (detect (sess w) (det w));
    modify (λ w, w <| det := d |>);;
    on_sess (λ s, disconnect_unmap s c);;
    upd_cb c (λ cb, cb <| chunk_size_g := 0 |>);;
    err ← retry_requests (cb_index cb);
    on_sess (λ s, disconnect_free s c);;
    mret err.

(** * Connection manager events *)

Inductive cm_event : Set :=
| ADDR_RESOLVED_EV | ROUTE_RESOLVED_EV | CONNECT_REQUEST_EV | ESTABLISHED_EV
| CONNECT_FAILED_EV | DISCONNECTED_EV | DEVICE_REMOVAL_EV | OTHER_EV.

(** [IS_cma_event_handler]; wake-ups are not modelled, [conns_count] is only logged. *)
Definition IS_cma_event_handler (c : Z) (ev : cm_event) : M world Z :=
  let set_state st := upd_cb c (λ cb, cb <| cb_st := st |>);; mret 0 in
  match ev with
  | ADDR_RESOLVED_EV => set_state ADDR_RESOLVED
  | ROUTE_RESOLVED_EV => set_state ROUTE_RESOLVED
  | CONNECT_REQUEST_EV => set_state CONNECT_REQUEST
  | ESTABLISHED_EV => set_state CONNECTED
  | CONNECT_FAILED_EV => set_state ERROR
  | DISCONNECTED_EV =>
      upd_cb c (λ cb, cb <| cb_st := CM_DISCONNECT |>);; _ ← IS_disconnect_handler c; mret 0
  | DEVICE_REMOVAL_EV => mret (-1)
  | OTHER_EV => mret 0
  end.

(** * Eviction *)

(** One scan of [IS_chunk_wait_in_flight_requests]: whether some request in flight uses
    a chunk that is going away. *)
Definition scan_in_flight (c : Z) : M world bool :=
  cb ← get_cb c;
  loop 0 submit_queues (λ i err,
    loop 0 IS_QUEUE_DEPTH (λ j err,
      if err : bool then mret err
      else
        ctx ← get_ctx {| rf_conn := i; rf_pool := c; rf_ix := j |};
        if (in_flight ctx =? CTX_R_IN_FLIGHT) || (in_flight ctx =? CTX_W_IN_FLIGHT) then
          m ← lift (aget (chunk_map cb) (chunk_index ctx)); mret (m =? -1)
        else mret err) err) false.

(** The scans repeat until none is found; without completions in between nothing would
    change, so a positive scan waits. *)
Definition IS_chunk_wait_in_flight_requests (c : Z) : M world () :=
  err ← scan_in_flight c; if err : bool then wait else mret ().

(** First pass of [evict_handler]: chunks tagged ['s'] are withdrawn.  The local
    [evict_list] is returned with the session. *)
Definition evict_unmap (s : session) (c : Z) : option (session * list Z) :=
  for_up 0 MAX_MR_SIZE_GB (λ i '(s, evict_list),
    cb ← aget (cb_list s) c;
    tag ← aget (evict_chunk_map cb) i;
    if tag =? chr_s then
      sess_chunk_index ← aget (chunk_map cb) i;
      m ← aset (cb_index_map s) sess_chunk_index NO_CB_MAPPED;
      evict_list ← aset evict_list sess_chunk_index 1;
      s ← with_cb (s <| cb_index_map := m |>) c (λ cb,
        l ← aset (chunk_map cb) i (-1);
        k ← aset (ri_rkey (send_buf cb)) i 1;
        Some (cb <| chunk_map := l |> <| send_buf := (send_buf cb) <| ri_rkey := k |> |>));
      Some (s, evict_list)
    else
      s ← with_cb s c (λ cb, k ← aset (ri_rkey (send_buf cb)) i 0;
        Some (cb <| send_buf := (send_buf cb) <| ri_rkey := k |> |>));
      Some (s, evict_list)) (s, replicate (Z.to_nat (DISKSIZE_G cfg)) (-1)).

(** Second pass: the chunks no longer count as mapped. *)
Definition evict_unmark (s : session) (c : Z) : option session :=
  for_up 0 MAX_MR_SIZE_GB (λ i s,
    cb ← aget (cb_list s) c;
    tag ← aget (evict_chunk_map cb) i;
    if tag =? chr_s then
      with_cb s c (λ cb, r ← aset (remote_mapped cb) i CHUNK_UNMAPPED; Some (cb <| remote_mapped := r |>))
    else Some s) s.

(** Freeing one session chunk. *)
Definition evict_free1 (i : Z) (s : session) : option session :=
  k ← aset (chunk_map_cb_chunk s) i (-1);
  let s := s <| chunk_map_cb_chunk := k |> <| free_chunk_index := free_chunk_index s + 1 |> in
  u ← aset (unmapped_chunk_list s) (free_chunk_index s) i;
  Some (s <| unmapped_chunk_list := u |>).

(** Rounds of [evict_handler] between its two waits. *)
Definition evict_requested (c : Z) : M world () := _ ← IS_send_activity cfg post_ret c; mret ().

Definition evict_stopped (rand : Z → Z → Z) (cm_result : Z → test_state) (rdma_create_id_ok : Z → bool)
    (kzalloc_ok : Z → Z → Z → bool) (NUM_CB : Z) (c : Z) : M world () :=
  cb ← get_cb c;
  let size_g := shrink_size_g cb in
  if size_g =? 0 then upd_cb c (λ cb, cb <| c_state := C_READY |>)
  else
    upd_cb c (λ cb, cb <| send_buf := (send_buf cb) <| ri_rkey := replicate 32 0 |> |>);;
    s ← gets sess;
    '(s, evict_list) ← lift (evict_unmap s c);
    modify (λ w, w <| sess := s |>);;
    IS_chunk_wait_in_flight_requests c;;
    on_sess (λ s, evict_unmark s c);;
    upd_sess (λ s, s <| mapped_cb_num := mapped_cb_num s - size_g |>);;
    upd_cb c (λ cb, cb <| chunk_size_g := chunk_size_g cb - size_g |> <| shrink_size_g := 0 |>);;
    _ ← IS_send_done post_ret c size_g;
    upd_cb c (λ cb, cb <| c_state := C_READY |>);;
    set_cb_state c CB_EVICTING;;
    loop 0 (DISKSIZE_G cfg) (λ i _,
      v ← lift (aget evict_list i);
      if v =? 1 then
        on_sess (evict_free1 i);;
        _ ← IS_single_chunk_map cfg post_ret (rand i) cm_result rdma_create_id_ok kzalloc_ok
              submit_queues NUM_CB i;
        mret ()
      else mret ()) ();;
    set_cb_state c CB_MAPPED.
End failure.

(** * The detector feeds the decoder *)

(** Split [i] is lost: its server has failed. *)
Definition lost (s : session) (i : Z) : bool :=
  match aget (cb_index_map s) i with
  | Some j => match aget (cb_state_list s) j with Some st => bool_decide (st = CB_FAIL) | None => true end
  | None => true
  end.

Abbreviation alive errs := (λ x, truthy (default 1 (aget errs x)) = false).

Lemma filter_seqZ_step errs r n :
  0 < n → alen (filter (alive errs) (seqZ r n)) =
    (if truthy (default 1 (aget errs r)) then 0 else 1) + alen (filter (alive errs) (seqZ (r + 1) (n - 1))).
Proof.
  intros Hn. rewrite seqZ_cons by lia. change (Z.succ r) with (r + 1). replace (Z.pred n) with (n - 1) by lia.
  destruct (truthy _) eqn:E; [rewrite filter_cons_False by congruence; lia|].
  rewrite filter_cons_True by done. unfold alen. cbn. lia.
Qed.

Lemma survivors_mark errs m i e :
  0 <= i < m → aget errs i = Some 0 → aset errs i 1 = Some e →
  alen (survivors e m) = alen (survivors errs m) - 1.
Proof.
  intros Hi H0 He. unfold survivors.
  enough (∀ n : nat, ∀ r, alen (filter (alive e) (seqZ r (Z.of_nat n))) =
    alen (filter (alive errs) (seqZ r (Z.of_nat n))) - (if decide (r <= i < r + Z.of_nat n) then 1 else 0)) as H.
  { specialize (H (Z.to_nat m) 0). rewrite Z2Nat.id in H by lia. rewrite H. by rewrite decide_True by lia. }
  induction n as [|n IH]; intros r; [by rewrite decide_False by lia|].
  rewrite (filter_seqZ_step e), (filter_seqZ_step errs) by lia.
  replace (Z.of_nat (S n) - 1) with (Z.of_nat n) by lia. rewrite IH.
  destruct (Z.eq_dec r i) as [->|].
  - rewrite (aget_aset_eq _ _ _ _ He), H0. cbn. repeat case_decide; lia.
  - rewrite (aget_aset_ne _ _ _ _ _ He) by lia. repeat case_decide; lia.
Qed.

Lemma survivors_zero m errs :
  0 <= m → (∀ i, 0 <= i < m → aget errs i = Some 0) → alen (survivors errs m) = m.
Proof.
  intros Hm H0. unfold survivors.
  enough (∀ n : nat, ∀ r, 0 <= r → r + Z.of_nat n <= m → alen (filter (alive errs) (seqZ r (Z.of_nat n))) = Z.of_nat n) as H.
  { specialize (H (Z.to_nat m) 0). rewrite Z2Nat.id in H by lia. apply H; lia. }
  induction n as [|n IH]; intros r Hr Hn; [done|].
  rewrite filter_seqZ_step by lia. replace (Z.of_nat (S n) - 1) with (Z.of_nat n) by lia.
  rewrite IH, H0 by lia. cbn. lia.
Qed.

(** The detector after looking at the first [i] splits. *)
Record detecting (cfg : config) (s : session) (i : Z) (d : detector) : Prop := {
  dt_err : alen (src_in_err d) = NDISKS cfg;
  dt_list : alen (src_err_list d) = NDISKS cfg;
  dt_counts : 0 <= nsrcerrs d <= nerrs d ∧ nerrs d <= i ∧ nerrs d <= NDISKS cfg - NDATAS cfg;
  dt_data : i <= NDATAS cfg → nsrcerrs d = nerrs d;
  dt_src : ∀ p e, 0 <= p < nsrcerrs d → aget (src_err_list d) p = Some e → 0 <= e < NDATAS cfg;
  dt_par : ∀ p e, nsrcerrs d <= p < nerrs d → aget (src_err_list d) p = Some e → NDATAS cfg <= e < NDISKS cfg;
  dt_clear : ∀ x, i <= x < NDISKS cfg → aget (src_in_err d) x = Some 0;
  dt_marks : ∀ x, 0 <= x < i → aget (src_in_err d) x = Some (if lost s x then 1 else 0);
  dt_listed : ∀ x, 0 <= x < i → lost s x = true → ∃ p, 0 <= p < nerrs d ∧ aget (src_err_list d) p = Some x;
  dt_surv : alen (survivors (src_in_err d) (NDISKS cfg)) = NDISKS cfg - nerrs d;
  dt_found : ∀ p x, 0 <= p < nerrs d → aget (src_err_list d) p = Some x → 0 <= x < i ∧ lost s x = true;
  dt_nodup : NoDup (take (Z.to_nat (nerrs d)) (src_err_list d))
}.

Lemma detect_step cfg s i d :
  config_ok cfg → 0 <= i < NDISKS cfg → nerrs d < NDISKS cfg - NDATAS cfg → detecting cfg s i d → lost s i = true →
  ∃ e l, aset (src_in_err d) i 1 = Some e ∧ aset (src_err_list d) (nerrs d) i = Some l ∧
    detecting cfg s (i + 1) (d <| src_in_err := e |> <| src_err_list := l |> <| nerrs := nerrs d + 1 |>
      <| nsrcerrs := if i <? NDATAS cfg then nsrcerrs d + 1 else nsrcerrs d |>).
Proof.
  intros Hc Hi Hlt [HE HL [HC1 [HC2 HC3]] HD HS HP HZ HM HLI HV HF HN] Hlost.
  pose proof (cfg_NDATAS _ Hc). pose proof (aset_Some (src_in_err d) i 1 ltac:(lia)) as Ee.
  pose proof (aset_Some (src_err_list d) (nerrs d) i ltac:(lia)) as El.
  eexists _, _. split; [exact Ee|]. split; [exact El|].
  split; cbn; rewrite ?alen_insert; try done.
  - destruct (Z.ltb_spec i (NDATAS cfg)); lia.
  - intros Hle. destruct (Z.ltb_spec i (NDATAS cfg)); [|lia]. rewrite HD by lia. lia.
  - intros p e Hp. rewrite aget_insert by lia. case_decide as Heq.
    + intros [= <-]. destruct (Z.ltb_spec i (NDATAS cfg)); lia.
    + intros He. apply (HS p e); [|done]. destruct (Z.ltb_spec i (NDATAS cfg)); [|lia]. pose proof (HD ltac:(lia)). lia.
  - intros p e Hp. rewrite aget_insert by lia. case_decide as Heq.
    + intros [= <-]. destruct (Z.ltb_spec i (NDATAS cfg)) as [Hlti|]; [|lia]. pose proof (HD ltac:(lia)). lia.
    + intros He. apply (HP p e); [|done]. destruct (Z.ltb_spec i (NDATAS cfg)) as [Hlti|]; [|lia].
      pose proof (HD ltac:(lia)). lia.
  - intros x Hx. rewrite aget_insert by lia. rewrite decide_False by lia. apply HZ. lia.
  - intros x Hx. rewrite aget_insert by lia. case_decide; [subst; by rewrite Hlost|]. apply HM. lia.
  - intros x Hx Hlx. destruct (decide (x = i)) as [->|].
    + exists (nerrs d). split; [lia|]. by rewrite aget_insert, decide_True by lia.
    + destruct (HLI x ltac:(lia) Hlx) as (p & Hp & E). exists p. split; [lia|].
      by rewrite aget_insert, decide_False by lia.
  - rewrite (survivors_mark (src_in_err d) (NDISKS cfg) i); [lia|done|apply HZ; lia|exact Ee].
  - intros p x Hp. rewrite aget_insert by lia. case_decide; [intros [= <-]; split; [lia|done]|]. intros Hx.
    destruct (HF p x ltac:(lia) Hx). split; [lia|done].
  - replace (Z.to_nat (nerrs d + 1)) with (S (Z.to_nat (nerrs d))) by lia.
    erewrite take_S_r by (apply list_lookup_insert_eq; unfold alen in HL; lia). rewrite take_insert_ge by lia.
    apply NoDup_app. split; [done|]. split; [|by apply NoDup_singleton]. intros x Hx ->%list_elem_of_singleton.
    apply elem_of_aget in Hx as [p Ep]. pose proof (aget_lt _ _ _ Ep) as Hp. unfold alen in Hp. rewrite length_take in Hp.
    rewrite aget_take in Ep by lia. destruct (HF p i ltac:(lia) Ep). lia.
Qed.

Lemma detect_skip cfg s i d :
  config_ok cfg → 0 <= i < NDISKS cfg → detecting cfg s i d → lost s i = false → detecting cfg s (i + 1) d.
Proof.
  intros Hc Hi [HE HL HC HD HS HP HZ HM HLI HV HF HN] Hlost. split; try done.
  - lia.
  - intros Hle. apply HD. lia.
  - intros x Hx. apply HZ. lia.
  - intros x Hx. destruct (decide (x = i)) as [->|]; [rewrite Hlost; apply HZ; lia|apply HM; lia].
  - intros x Hx Hlx. destruct (decide (x = i)) as [->|]; [congruence|]. apply HLI; [lia|done].
  - intros p x Hp Hx. destruct (HF p x Hp Hx). split; [lia|done].
Qed.

(** All the splits of the first stripe have a server. *)
Definition all_mapped (cfg : config) (s : session) : Prop :=
  ∀ i, 0 <= i < NDISKS cfg → ∃ j, slab_map s i = Some j ∧ 0 <= j < alen (cb_state_list s).

(** The detector stops at split [i], the end unless it has found as many as it looks for. *)
Lemma detect_detecting cfg s d :
  config_ok cfg → all_mapped cfg s →
  alen (src_in_err d) = NDISKS cfg → alen (src_err_list d) = NDISKS cfg →
  ∃ d' i, detect cfg s d = Some d' ∧ detecting cfg s i d' ∧ 0 <= i <= NDISKS cfg ∧
    (nerrs d' < NDISKS cfg - NDATAS cfg → i = NDISKS cfg).
Proof.
  intros Hc Hmap HE HL. pose proof (cfg_NDATAS _ Hc). unfold detect.
  destruct (for_up_fill (λ _, 0) (λ i l, aset l i 0) (NDISKS cfg) (src_in_err d)) as (z & -> & Lz & Hz & _);
    [lia|done|]. step_bind.
  match goal with |- context [for_brk 0 (NDISKS cfg) ?body ?s0] => destruct (for_brk_inv
    (λ i d, detecting cfg s i d) (λ i d, detecting cfg s i d ∧ nerrs d = NDISKS cfg - NDATAS cfg)
    body 0 (NDISKS cfg) s0) as (k & d' & -> & Hd) end; [lia| | |].
  - split; cbn; try done; try (intros; lia); [|constructor].
    rewrite survivors_zero; [lia|lia|]. intros i Hi. apply Hz. lia.
  - intros i t Hi Ht. destruct (Z.ltb_spec (nerrs t) (NDISKS cfg - NDATAS cfg)); cbn [negb].
    + destruct (Hmap i Hi) as (j & Ej & Hj). rewrite Ej. step_bind.
      destruct (proj2 (aget_is_Some (cb_state_list s) j) Hj) as [st Est]. rewrite Est. step_bind.
      assert (lost s i = bool_decide (st = CB_FAIL)) as Hl by (unfold lost; by rewrite Ej, Est).
      destruct (Z.ltb_spec j 0); [lia|]. rewrite orb_false_r, <- Hl. destruct (lost s i) eqn:El.
      * destruct (detect_step cfg s i t) as (e & l & -> & -> & Hnew); [done..|]. step_bind. by eexists.
      * eexists; split; [done|]. by apply detect_skip.
    + eexists; split; [done|]. split; [done|]. destruct (dt_counts _ _ _ _ Ht). lia.
  - step_bind. destruct Hd as [[-> Hd]|[Hk [Hd Hn]]]; [exists d', (NDISKS cfg)|exists d', k]; split_and!; (done || lia).
Qed.

(** How many splits of the stripe are lost. *)
Definition losses (cfg : config) (s : session) : Z := alen (filter (λ i, lost s i = true) (seqZ 0 (NDISKS cfg))).

(** What the detector finds. *)
Record findings (cfg : config) (s : session) (d : detector) : Prop := {
  fd_erasures : erasures (NDATAS cfg) (NDISKS cfg) (src_err_list d) (src_in_err d) (nerrs d) (nsrcerrs d);
  fd_bound : nerrs d <= NDISKS cfg - NDATAS cfg;
  fd_count : nerrs d = Z.min (losses cfg s) (NDISKS cfg - NDATAS cfg);
  fd_marked : ∀ x, 0 <= x < NDISKS cfg → aget (src_in_err d) x = Some 0 ∨ aget (src_in_err d) x = Some 1 ∧ lost s x = true;
  fd_found : ∀ p x, 0 <= p < nerrs d → aget (src_err_list d) p = Some x → 0 <= x < NDISKS cfg ∧ lost s x = true;
  fd_nodup : NoDup (take (Z.to_nat (nerrs d)) (src_err_list d));
  fd_exact : losses cfg s <= NDISKS cfg - NDATAS cfg →
    (∀ x, 0 <= x < NDISKS cfg → aget (src_in_err d) x = Some (if lost s x then 1 else 0)) ∧
    (∀ x, 0 <= x < NDISKS cfg → lost s x = true → ∃ p, 0 <= p < nerrs d ∧ aget (src_err_list d) p = Some x)
}.

Lemma detect_spec cfg s d :
  config_ok cfg → all_mapped cfg s →
  alen (src_in_err d) = NDISKS cfg → alen (src_err_list d) = NDISKS cfg →
  ∃ d', detect cfg s d = Some d' ∧ findings cfg s d'.
Proof.
  intros Hc Hmap HE HL. pose proof (cfg_NDATAS _ Hc) as Hn.
  destruct (detect_detecting cfg s d) as (d' & i & E & [DE DL DC DD DS DP DZ DM DLI DV DF DN] & Hi & Hfull); [done..|].
  exists d'. split; [done|].
  pose proof (filter_count (lost s) (seqZ 0 (NDISKS cfg))) as Hcount.
  assert (alen (seqZ 0 (NDISKS cfg)) = NDISKS cfg) as Lm by (unfold alen; rewrite length_seqZ; lia).
  rewrite Lm in Hcount. fold (losses cfg s) in Hcount. pose proof DV as Hsurv. unfold survivors in DV.
  assert (∀ x, x ∈ seqZ 0 (NDISKS cfg) → lost s x = false → alive (src_in_err d') x) as Hsub.
  { intros x Hx%elem_of_seqZ Hlx. destruct (decide (x < i)); [by rewrite DM, Hlx by lia|by rewrite DZ by lia]. }
  pose proof (filter_le (λ x, lost s x = false) (alive (src_in_err d')) _ Hsub) as Hle. rewrite DV in Hle.
  assert (i = NDISKS cfg → losses cfg s = nerrs d') as Hwhole.
  { intros ->. rewrite (filter_ext_in (alive (src_in_err d')) (λ x, lost s x = false)) in DV; [lia|].
    intros x Hx%elem_of_seqZ. rewrite DM by lia. by destruct (lost s x). }
  assert (losses cfg s <= NDISKS cfg - NDATAS cfg → ∀ x, 0 <= x < NDISKS cfg → i <= x → lost s x = false) as Hrest.
  { intros Hl x Hx Hix. destruct (decide (nerrs d' < NDISKS cfg - NDATAS cfg)); [lia|].
    refine (filter_full (λ x, lost s x = false) (alive (src_in_err d')) _ Hsub _ x _ _);
      [rewrite DV; lia|apply elem_of_seqZ; lia|by rewrite DZ by lia]. }
  split; [split; (done || lia)|lia| | | |done|].
  - destruct (decide (nerrs d' < NDISKS cfg - NDATAS cfg)) as [Hlt|]; [rewrite (Hwhole (Hfull Hlt)); lia|lia].
  - intros x Hx. destruct (decide (x < i)); [|left; by apply DZ; lia]. rewrite DM by lia. destruct (lost s x); [by right|by left].
  - intros p x Hp Hx. destruct (DF p x Hp Hx). split; [lia|done].
  - intros Hl. split.
    + intros x Hx. destruct (decide (x < i)); [apply DM; lia|]. rewrite DZ, (Hrest Hl x) by lia. done.
    + intros x Hx Hlx. apply DLI; [|done]. destruct (decide (x < i)); [lia|]. rewrite (Hrest Hl x) in Hlx by lia. done.
Qed.

(** C25: failure detection: with every split of the stripe mapped, the detector reads and
    writes inside its arrays; what it leaves is exactly what the decoder expects
    ([erasures]: lost splits in increasing order, data before parity, marked, at least
    [NDATAS] survivors); it counts the lost splits of the stripe up to [NDISKS - NDATAS],
    where it stops, and marks and lists no other; and when at most [NDISKS - NDATAS] of them
    are lost, the marked splits are precisely the lost ones, and all of them are listed. *)
Theorem detect_correct cfg s d :
  config_ok cfg → all_mapped cfg s →
  alen (src_in_err d) = NDISKS cfg → alen (src_err_list d) = NDISKS cfg →
  ∃ d', detect cfg s d = Some d' ∧
    erasures (NDATAS cfg) (NDISKS cfg) (src_err_list d') (src_in_err d') (nerrs d') (nsrcerrs d') ∧
    nerrs d' = Z.min (losses cfg s) (NDISKS cfg - NDATAS cfg) ∧
    (∀ x, 0 <= x < NDISKS cfg → aget (src_in_err d') x = Some 0 ∨ aget (src_in_err d') x = Some 1 ∧ lost s x = true) ∧
    (∀ p x, 0 <= p < nerrs d' → aget (src_err_list d') p = Some x → 0 <= x < NDISKS cfg ∧ lost s x = true) ∧
    (losses cfg s <= NDISKS cfg - NDATAS cfg → ∀ x, 0 <= x < NDISKS cfg →
      aget (src_in_err d') x = Some (if lost s x then 1 else 0) ∧
      (lost s x = true → ∃ p, 0 <= p < nerrs d' ∧ aget (src_err_list d') p = Some x)).
Proof.
  intros Hc Hmap HE HL. destruct (detect_spec cfg s d) as (d' & E & [F1 F2 F3 F4 F5 F6 F7]); [done..|].
  exists d'. split_and!; try done. intros Hl x Hx. destruct (F7 Hl) as [Hm Hls]. split; [by apply Hm|by apply Hls].
Qed.

Definition failed_session : session :=
  (zero_session rep) <| cb_num := 4 |> <| cb_state_list := [CB_MAPPED; CB_FAIL; CB_MAPPED; CB_IDLE] |>
    <| cb_index_map := [0; 2; 1] |>.

(** Of three replicas two are lost, as many as there are parities. *)
Definition two_failed : session :=
  failed_session <| cb_state_list := [CB_MAPPED; CB_FAIL; CB_FAIL; CB_IDLE] |>.

Lemma detect_correct_witness : ∃ d',
  detect rep two_failed {| src_in_err := [7; 7; 7]; src_err_list := [0; 0; 0]; nerrs := 0; nsrcerrs := 0 |} = Some d' ∧
  nerrs d' = 2 ∧ src_in_err d' = [0; 1; 1] ∧
  (∀ x, 0 <= x < 3 → aget (src_in_err d') x = Some (if lost two_failed x then 1 else 0) ∧
    (lost two_failed x = true → ∃ p, 0 <= p < 2 ∧ aget (src_err_list d') p = Some x)).
Proof.
  destruct (detect_correct rep two_failed {| src_in_err := [7; 7; 7]; src_err_list := [0; 0; 0]; nerrs := 0; nsrcerrs := 0 |})
    as (d' & E & _ & Hn & _ & _ & Hx); [exact rep_ok| |reflexivity|reflexivity|].
  - intros i Hi. change (NDISKS rep) with 3 in Hi. change (alen (cb_state_list two_failed)) with 4.
    assert (i = 0 ∨ i = 1 ∨ i = 2) as [-> | [-> | ->]] by lia; eexists; (split; [reflexivity|lia]).
  - exists d'. change (Z.min _ _) with 2 in Hn. split; [exact E|]. split; [exact Hn|]. rewrite Hn in Hx.
    split; [vm_compute in E; injection E as <-; reflexivity|]. apply Hx. vm_compute. discriminate.
Defined.

(** The detector looks at the first slab only: whatever the servers of the other slabs, its
    marks, counts and decode tables are those of the splits of slab 0. *)
Theorem detect_first_slab cfg s s' d :
  (∀ i, 0 <= i < NDISKS cfg → aget (cb_index_map s) i = aget (cb_index_map s') i) → cb_state_list s = cb_state_list s' →
  detect cfg s d = detect cfg s' d.
Proof.
  intros Hmap Hst. unfold detect. destruct (for_up 0 (NDISKS cfg) (λ i l, aset l i 0) (src_in_err d)); [|done]. step_bind.
  erewrite for_brk_ext; [done|]. intros i t Hi. cbv beta. by rewrite (Hmap i Hi), Hst.
Qed.

(** The detector indexes the server states with the map entry before it tests the
    entry for -1: a disconnection while the first split of the stripe is unmapped, for
    instance after an earlier failure, reads outside the array. *)
Theorem detect_unmapped_undefined cfg s d :
  config_ok cfg → alen (src_in_err d) = NDISKS cfg → slab_map s 0 = Some NO_CB_MAPPED →
  detect cfg s d = None.
Proof.
  intros Hc HE Hm. pose proof (cfg_NDATAS _ Hc). unfold detect.
  destruct (for_up_fill (λ _, 0) (λ i l, aset l i 0) (NDISKS cfg) (src_in_err d)) as (z & -> & _); [lia|done|].
  step_bind. unfold for_brk. replace (Z.to_nat (NDISKS cfg - 0)) with (S (Z.to_nat (NDISKS cfg - 1))) by lia.
  cbn [for_brk_n nerrs update_field]. destruct (Z.ltb_spec 0 (NDISKS cfg - NDATAS cfg)); [|lia]. cbn [negb].
  rewrite Hm. step_bind. unfold NO_CB_MAPPED. done.
Qed.

Lemma detect_unmapped_undefined_witness :
  detect rep offer_session {| src_in_err := [0; 0; 0]; src_err_list := [0; 0; 0]; nerrs := 0; nsrcerrs := 0 |} = None.
Proof. apply detect_unmapped_undefined; [exact rep_ok|reflexivity|reflexivity]. Defined.

(** A read in flight has [chunk_index] -1 ([IS_rdma_read] does not set it), and the
    eviction thread indexes the slab map of the server with it: scanning while a read is
    in flight is undefined. *)
Theorem scan_in_flight_undefined submit_queues c w cb ctx :
  0 < submit_queues → get_cb c w = Ret (cb, w) →
  get_ctx {| rf_conn := 0; rf_pool := c; rf_ix := 0 |} w = Ret (ctx, w) →
  in_flight ctx = CTX_R_IN_FLIGHT → chunk_index ctx = -1 →
  scan_in_flight submit_queues c w = Ub.
Proof.
  intros Hq Hcb Hctx Hf Hi. unfold scan_in_flight. erewrite M_bind_Ret by done. unfold loop.
  replace (Z.to_nat (submit_queues - 0)) with (S (Z.to_nat (submit_queues - 1))) by lia.
  change (Z.to_nat (IS_QUEUE_DEPTH - 0)) with 256%nat. cbn [loop_n].
  unfold mbind at 1, M_bind at 1. unfold mbind at 1, M_bind at 1. erewrite M_bind_Ret by done.
  rewrite Hf, Hi. cbn [orb Z.eqb]. change (CTX_R_IN_FLIGHT =? CTX_R_IN_FLIGHT) with true. cbn [orb].
  by unfold mbind, M_bind, lift.
Qed.

(** One server, one connection, a pool with a read in flight. *)
Definition reading_world : world :=
  {| sess := failed_session <| cb_list := [connected_cb 0 offer_msg] |>
       <| IS_conns := [[Some {| ctx_pool := [(zero_ctx rep) <| in_flight := CTX_R_IN_FLIGHT |> <| chunk_index := -1 |>];
            free_ctxs := {| pool_len := 1; ctx_list := [0]; pool_head := 0; pool_tail := -1 |} |}]] |>;
     reqs := []; counters := []; cqs := [[]]; posted := [];
     det := {| src_in_err := [0; 0; 0]; src_err_list := [0; 0; 0]; nerrs := 0; nsrcerrs := 0 |} |}.

Lemma scan_in_flight_undefined_witness : scan_in_flight 1 0 reading_world = Ub.
Proof. eapply (scan_in_flight_undefined 1 0 reading_world); [lia|reflexivity..]. Defined.
