(* ===== verification/Recovery.v ===== *)
(** Erasure coding as the sources mean it.  The statements that build the encode tables
    ([IS_ec_init]) and the decode tables ([IS_disconnect_handler]) are commented out; here they
    are written down, and what they would set is shown to be what the reads of [EcRead] need,
    together with what the failure detector finds. *)

From S2P Require Import Prelude GF256 GFVect Avx GFMatrix Decode Cauchy Config MT Fault State CtxPool Chunks Store Transfer Completion Slots Stripe WritePath Reads ReadPath EcRead Failure.

(** * The tables *)

Section tables.
Context (cfg : config) (e : ec_env).

#[local] Abbreviation k := (NDATAS cfg).
#[local] Abbreviation m := (NDISKS cfg).
#[local] Abbreviation zeros n := (replicate (Z.to_nat n) x00).

(** The generator and the encode tables, as the commented body of [IS_ec_init] makes them. *)
Definition documented_encode : option (list byte * list byte) :=
  enc ← gf_gen_cauchy1_matrix (zeros (m * k)) m k;
  tbls ← ec_init_tables k (m - k) (drop (Z.to_nat (k * k)) enc) (zeros ((m - k) * k * 32));
  Some (enc, tbls).

(** The decode tables and [decode_index], as the commented statements of
    [IS_disconnect_handler] make them after the failure detector [d]; [idx] is what
    [decode_index] held. *)
Definition documented_decode (enc : list byte) (d : detector) (idx : list Z) : option (Z * list byte * list Z) :=
  '(ret, dec, _, ix) ← gf_gen_decode_matrix (m * k) (zeros (m * k)) (zeros (m * k)) enc (zeros (m * k)) (zeros (m * k))
    idx (src_err_list d) (src_in_err d) (nerrs d) (nsrcerrs d) k m;
  tbls ← ec_init_tables k (nerrs d) dec (zeros ((m - k) * k * 32));
  Some (ret, tbls, ix).

(** The tables are set to those. *)
Definition encode_set (enc : list byte) : Prop := ∃ tbls, documented_encode = Some (enc, tbls) ∧ encode_tbls e = Some tbls.
Definition decode_set (enc : list byte) (d : detector) : Prop := ∃ idx ret tbls,
  alen idx = k ∧ documented_decode enc d idx = Some (ret, tbls, decode_index e) ∧ decode_tbls e = Some tbls.

Context (Hcfg : config_ok cfg).

Lemma encode_set_facts enc : encode_set enc → m * k <= alen enc ∧ mat_eq k (cell k enc) identity ∧
  (∀ r c, 0 <= r < m → 0 <= c < k → cell k enc r c = cauchy_entry k r c) ∧
  encode_tbls e = ec_init_tables k (m - k) (drop (Z.to_nat (k * k)) enc) (zeros ((m - k) * k * 32)).
Proof using Hcfg.
  intros (tbls & Ed & Et). pose proof (cfg_NDATAS _ Hcfg). unfold documented_encode in Ed.
  destruct (cauchy_matrix_facts (zeros (m * k)) m k) as (enc' & E & Le & Hid & Hc);
    [lia|unfold alen; rewrite length_replicate; lia|]. rewrite E in Ed. cbn [mbind option_bind] in Ed.
  apply bind_Some in Ed as (tbls' & Etb & [= <- <-]). by rewrite Et, Etb.
Qed.

(** ** The encode tables are those of the code *)
Lemma encode_set_coded enc : build cfg = EC e → kernels e → encode_set enc → coded cfg enc.
Proof using Hcfg.
  intros Hec Hker (Le & Hid & _ & Et)%encode_set_facts. pose proof (cfg_NDATAS _ Hcfg).
  split; [lia|apply Hcfg|]. rewrite Hec. split_and!; [done|done|done|]. eexists. split; [|exact Et].
  unfold alen. rewrite length_replicate. lia.
Qed.

(** ** The decode tables are those of the losses *)
Lemma decode_set_decodes enc d :
  encode_set enc → decode_set enc d →
  erasures k m (src_err_list d) (src_in_err d) (nerrs d) (nsrcerrs d) → nerrs d <= m - k → decodes cfg enc e d.
Proof using Hcfg.
  intros (Le & Hid & Hc & _)%encode_set_facts (idx & ret & tbls & Li & Ed & Et) Her Hn.
  pose proof (cfg_NDATAS _ Hcfg) as Hk. pose proof (er_counts _ _ _ _ _ _ Her) as Hcnt.
  assert (alen (zeros (m * k)) = m * k) as Lz by (unfold alen; rewrite length_replicate; nia).
  assert (square k (m * k) (zeros (m * k))) as Hsq by (split; [done|nia]).
  destruct (gf_gen_decode_matrix_spec k m (m * k) (zeros (m * k)) (zeros (m * k)) enc (zeros (m * k)) (zeros (m * k)) idx
    (src_err_list d) (src_in_err d) (nerrs d) (nsrcerrs d)) as (ret' & dec & inv & ix & E & Ldec & _ & Hdc); try done; [lia|nia|].
  unfold documented_decode in Ed. rewrite E in Ed. cbn [mbind option_bind] in Ed. apply bind_Some in Ed as (tbls' & Etb & [= <- <- Hix]). subst ix.
  destruct (dc_total _ _ _ _ _ _ _ _ _ Hdc) as [-> Hsv].
  { apply (cauchy_survivors_independent k m); [lia|apply Hcfg|apply Her|done]. }
  exists dec, (zeros ((m - k) * k * 32)). split_and!; [exact Hdc|exact Hsv|nia| |by rewrite Et, Etb].
  unfold alen. rewrite length_replicate. nia.
Qed.
End tables.

(** * The detector *)

(** With at most as many servers lost as there are parities, the detector knows them. *)
Lemma ups_losses cfg s ss' :
  0 <= NDISKS cfg → (∀ i, 0 <= i < NDISKS cfg → up ss' no_fault i = negb (lost s i)) →
  alen (ups ss' no_fault 0 (NDISKS cfg)) = NDISKS cfg - losses cfg s.
Proof.
  intros Hm Hup. pose proof (filter_count (lost s) (seqZ 0 (NDISKS cfg))) as Hc. rewrite alen_seqZ in Hc by done.
  unfold losses, ups. rewrite Z.sub_0_r. rewrite (filter_ext_in _ (λ x, lost s x = false)); [lia|].
  intros i Hi%elem_of_seqZ. rewrite Hup by lia. by destruct (lost s i).
Qed.

Lemma detect_detected cfg s d ss' :
  config_ok cfg → all_mapped cfg s → alen (src_in_err d) = NDISKS cfg → alen (src_err_list d) = NDISKS cfg →
  (∀ i, 0 <= i < NDISKS cfg → up ss' no_fault i = negb (lost s i)) → NDATAS cfg <= alen (ups ss' no_fault 0 (NDISKS cfg)) →
  ∃ d', detect cfg s d = Some d' ∧ detected cfg ss' no_fault d'.
Proof.
  intros Hc Hall HE HL Hup Hups. pose proof (cfg_NDATAS _ Hc) as Hn. rewrite (ups_losses cfg s) in Hups by (done || lia).
  destruct (detect_spec cfg s d) as (d' & E & [D1 D2 D3 D4 D5 D6 D7]); [done..|].
  destruct (D7 ltac:(lia)) as [Hmarks Hlisted]. exists d'. split; [done|]. split; [done|done| |..].
  - intros x Hx. rewrite Hmarks, Hup by done. by destruct (lost s x).
  - intros x Hx Hux. rewrite Hup in Hux by done. apply Hlisted; [done|]. by destruct (lost s x).
  - intros p x Hp Hx. destruct (D5 p x Hp Hx) as [? Hl]. by rewrite Hup, Hl by lia.
  - done.
Qed.

(** * Reads *)

Section read.
Context (cfg : config) (post_ret : Z → Z) (enc : list byte) (e : ec_env).

(** The failure detector ran on session [s], where the servers of the lost disks, and of no
    others, counted as failed, and found [d]. *)
Record detected_in (ss : list slot) (s : session) (d0 d : detector) : Prop := {
  di_run : detect cfg s d0 = Some d;
  di_arrays : alen (src_in_err d0) = NDISKS cfg ∧ alen (src_err_list d0) = NDISKS cfg;
  di_mapped : all_mapped cfg s;
  di_lost : ∀ i, 0 <= i < NDISKS cfg → up ss no_fault i = negb (lost s i)
}.

(** No split is lost and none is marked; or the detector found the lost ones and the decode
    tables are set for them. *)
Definition repairable (ss : list slot) (d : detector) : Prop :=
  ((∀ i, 0 <= i < NDATAS cfg → up ss no_fault i = true) ∧ nsrcerrs d <= 0) ∨
  ((∃ s d0, detected_in ss s d0 d) ∧ decode_set cfg e enc d).

(** The state of the module for a read: the contexts of the slots are free, fault injection
    is off, and enough disks are on servers. *)
Record able (conn : Z) (ss : list slot) (w : world) : Prop := {
  ab_ready : ∀ t, t ∈ ss → ready cfg (conns_of w) conn t;
  ab_off : inject_fault (IS_fault_injection (sess w)) ≠ 1;
  ab_armed : armed cfg (NDATAS cfg) (IS_fault_injection (sess w));
  ab_enough : NDATAS cfg <= alen (ups ss no_fault 0 (NDISKS cfg));
  ab_repairable : repairable ss (det w)
}.

Context (Hcfg : config_ok cfg) (Hec : build cfg = EC e) (Hker : kernels e) (Hset : encode_set cfg e enc) (Hpost : ∀ n, post_ret n = 0).

Lemma able_puts_together conn ss page rq old w :
  placed ss → alen ss = NDISKS cfg → able conn ss w →
  rq_bio rq = [[old]] → alen old = IS_PAGE_SIZE → rq_bytes rq = IS_PAGE_SIZE → alen page = IS_PAGE_SIZE →
  puts_together cfg enc conn ss no_fault page rq w page.
Proof using Hcfg Hec Hker Hset.
  intros Hpl Hlen [_ _ _ Hups [[Hall Hn]|[(s & d0 & [Erun [L1 L2] Hmap Hlost]) Hdec]]] Hb Ho Hy Hp;
    pose proof (encode_set_coded cfg e Hcfg enc Hec Hker Hset) as Hcoded.
  - assert (assemble cfg (stripe_buf cfg enc page) = page) as E.
    { apply (assemble_shares cfg enc Hcoded); [done|]. intros i Hi. by apply (stripe_split cfg enc Hcoded e). }
    rewrite <- E at 2. apply (puts_together_bufs cfg enc e Hcoded Hec conn ss Hlen no_fault Hups page rq old w); try done.
    intros i Hi. by rewrite Hall.
  - destruct (detect_detected cfg s d0 ss) as (d' & E' & Hd); [done..|]. assert (d' = det w) as -> by congruence.
    apply (puts_together_page cfg enc e Hcoded Hec conn ss Hpl Hlen no_fault Hups page rq old w); try done.
    intros _. apply (decode_set_decodes cfg e Hcfg); [done|done|apply Hd|apply Hd].
Qed.

Lemma able_request_Ret ss req rq old page w :
  read_request cfg ss req rq old w → rq_bytes rq = IS_PAGE_SIZE → alen page = IS_PAGE_SIZE →
  able (conn_id rq) ss w →
  (∀ i s, i ∈ firsts cfg ss no_fault → aget ss i = Some s →
     usable (sess w) (s_pool s) ∧ delivers w (s_pool s) (read_wc (sref (conn_id rq) s) (stripe_buf cfg enc page i))) →
  ∃ v, IS_queue_rq cfg post_ret req w = Ret (BLK_MQ_RQ_QUEUE_OK, v) ∧
    stripe_was_read cfg (conn_id rq) ss no_fault w (chunk_offset cfg rq) req rq page v.
Proof using Hcfg Hec Hker Hset Hpost.
  intros Hq Hby Hp Ha Hdel. pose proof Hq as [Hpl Hlen _ Ebio Hold _ _]. pose proof Ha as [H1 H2 H3 H4 _].
  apply (served_request_Ret cfg post_ret enc e (encode_set_coded cfg e Hcfg enc Hec Hker Hset) Hec Hpost ss req rq old page page w Hq Hby).
  - by split.
  - by eapply able_puts_together.
Qed.

(** C10: an erasure-coded read, from the block layer down, at full strength or with up to
    [NDISKS - NDATAS] disks of the slab lost, in a build whose encode tables are set as the
    commented statements of [IS_ec_init] would set them (no compiled code does).  Either no
    data split is lost and the failure detector has marked none; or the detector ran when
    the servers of the lost disks, and only they, counted as failed - the slab is slab 0 or
    lost the same disks - and the decode tables are set for what it found as the commented
    statements of [IS_disconnect_handler] would set them.  The contexts of the slab's slots
    are free, fault injection is off, the first [NDATAS] disks that are left are on servers
    that are up and deliver their lines of a stripe, and the AVX kernels meet their contract.
    Then the read is accepted after posting exactly one RDMA read, of one split's length at
    the request's slab offset divided by [NDATAS], to each of these disks, parities
    standing in for lost splits; the page the request gets is, byte for byte, the page of
    that stripe; the request is ended exactly once, and every context is back on top of its
    free list.  ([unmarked_read_stale] is what happens when the detector missed the loss.) *)
Theorem stripe_read_correct ss req rq old page w :
  read_request cfg ss req rq old w → rq_bytes rq = IS_PAGE_SIZE → alen page = IS_PAGE_SIZE →
  able (conn_id rq) ss w →
  (∀ i s, i ∈ firsts cfg ss no_fault → aget ss i = Some s →
     usable (sess w) (s_pool s) ∧ delivers w (s_pool s) (read_wc (sref (conn_id rq) s) (stripe_buf cfg enc page i))) →
  ∃ v, IS_queue_rq cfg post_ret req w = Ret (BLK_MQ_RQ_QUEUE_OK, v) ∧
    stripe_was_read cfg (conn_id rq) ss no_fault w (chunk_offset cfg rq) req rq page v.
Proof using Hcfg Hec Hker Hset Hpost. apply able_request_Ret. Qed.
End read.

(** * A concrete recovery *)

Lemma env_kernels errs errl n ns : kernels (ec_env_for errs errl n ns).
Proof. split_and!; apply avx_kernel_ok; lia. Qed.
Lemma env_encode_set errs errl n ns :
  let e := ec_env_for errs errl n ns in encode_set (ec e) e ec_enc.
Proof. eexists. split; [|reflexivity]. vm_compute. reflexivity. Qed.

(** The session when the second of the servers of disks 1 and 4 was lost. *)
Definition two_down : session :=
  (test_session ec_test none_out) <| cb_state_list := (λ d, if two_out d then CB_FAIL else CB_MAPPED) <$> disks ec_test |>.
Definition fresh_det : detector := {| src_in_err := replicate 6 0; src_err_list := replicate 6 0; nerrs := 0; nsrcerrs := 0 |}.

Lemma two_down_detected : detected_in ec_test (test_slots ec_test two_out) two_down fresh_det ec_lost.
Proof.
  split; [vm_compute; reflexivity|done| |].
  - refine (six (λ i, ∃ j, slab_map two_down i = Some j ∧ 0 <= j < alen (cb_state_list two_down)) _ _ _ _ _ _);
      eexists; (split; [reflexivity|vm_compute; by split]).
  - by apply (six (λ i, up (test_slots ec_test two_out) no_fault i = negb (lost two_down i))).
Qed.
Lemma ec_decode_set : decode_set ec_test ec_test_env ec_enc ec_lost.
Proof. exists [0; 0; 0; 0]. eexists _, _. split; [done|]. split; [vm_compute; reflexivity|vm_compute; reflexivity]. Qed.

Lemma stripe_world_able page : able ec_test ec_enc ec_test_env 0 (test_slots ec_test two_out) (stripe_world page).
Proof.
  destruct (stripe_world_ready page) as (H1 & H2 & H3). split; [done|done|done|vm_compute; discriminate|].
  right. split; [exists two_down, fresh_det; exact two_down_detected|exact ec_decode_set].
Qed.

(** All six disks are there, and the detector never ran. *)
Definition whole_world (page : list byte) : world :=
  {| sess := test_session ec_test none_out; reqs := [test_rq false]; counters := [];
     cqs := (λ d, [None; Some (read_wc (sref 0 (test_slot none_out d)) (stripe_buf ec_test ec_enc page d))]) <$> disks ec_test;
     posted := []; det := no_det |}.

Lemma stripe_read_correct_witness :
  (∃ v, IS_queue_rq ec_test (λ _, 0) 0 (stripe_world test_page) = Ret (BLK_MQ_RQ_QUEUE_OK, v) ∧
    stripe_was_read ec_test 0 (test_slots ec_test two_out) no_fault (stripe_world test_page) 8192 0 (test_rq false) test_page v) ∧
  (∃ v, IS_queue_rq ec_test (λ _, 0) 0 (whole_world test_page) = Ret (BLK_MQ_RQ_QUEUE_OK, v) ∧
    stripe_was_read ec_test 0 (test_slots ec_test none_out) no_fault (whole_world test_page) 8192 0 (test_rq false) test_page v).
Proof.
  pose proof (stripe_read_correct ec_test (λ _, 0) ec_enc ec_test_env (ec_ok _) eq_refl (env_kernels _ _ _ _) (env_encode_set _ _ _ _)
    (λ _, eq_refl)) as Hread. split.
  - apply (Hread (test_slots ec_test two_out) 0%nat (test_rq false) test_page test_page);
      [exact stripe_world_request|reflexivity|exact test_page_len|apply stripe_world_able|].
    intros i s _. apply stripe_world_delivers.
  - apply (Hread (test_slots ec_test none_out) 0%nat (test_rq false) test_page test_page);
      [|reflexivity|exact test_page_len| |].
    + split; [apply test_placed|reflexivity|reflexivity|reflexivity|exact test_page_len|reflexivity|reflexivity].
    + split.
      * intros t. by apply test_ready.
      * discriminate.
      * split; [reflexivity|]. intros i d E. apply aget_elem in E. apply elem_of_replicate in E as [-> _]. by split.
      * vm_compute; discriminate.
      * left. split; [|vm_compute; discriminate]. intros i Hi. change (NDATAS ec_test) with 4 in Hi.
        apply (six (λ i, up (test_slots ec_test none_out) no_fault i = true)); try done. lia.
    + intros i s _ [-> Hd]%test_slots_aget. split; [by apply test_usable|]. exists 1%nat, [].
      by apply (aget_disks ec_test (λ d, [None; Some (read_wc (sref 0 (test_slot none_out d)) (stripe_buf ec_test ec_enc test_page d))])).
Defined.
