(* ===== verification/Remote.v ===== *)
(** The memory of the servers, and a write read back: the two ends of the data path put
    together, with losses in between. *)

From S2P Require Import Prelude GF256 GFVect GFMatrix Decode Cauchy Config MT Fault State CtxPool Chunks Store Transfer Completion Slots Stripe WritePath Reads ReadPath EcRead Failure Recovery.

(** * Remote memory *)

(** The memory of every server, by server and address, and what RDMA does to it. *)
Definition memory : Type := Z → Z → byte.
Definition rdma_write (mem : memory) (cb addr : Z) (bs : list byte) : memory := λ c a,
  if decide (c = cb ∧ addr <= a < addr + alen bs) then bget bs (a - addr) else mem c a.
Definition rdma_read (mem : memory) (cb addr len : Z) : list byte := (λ o, mem cb (addr + o)) <$> seqZ 0 len.

(** What the adapters do with a posted work request: a write moves as many bytes of the
    context's buffer as it says to the address it names. *)
Definition post_cb (p : post) : Z := match p with PostSend c _ | PostRdma c _ _ | PostRecv c => c end.
Definition perform (cs : list connection) (mem : memory) (p : post) : memory :=
  match p with
  | PostRdma cb r wr =>
      match wr_opcode wr, ctx_of cs r with
      | WR_RDMA_WRITE, Some c => rdma_write mem cb (wr_remote_addr wr) (take (Z.to_nat (wr_length wr)) (rdma_buf c))
      | _, _ => mem
      end
  | _ => mem
  end.
Definition performed (cs : list connection) (mem : memory) (ps : list post) : memory := foldl (perform cs) mem ps.

Lemma rdma_read_write mem cb addr bs : rdma_read (rdma_write mem cb addr bs) cb addr (alen bs) = bs.
Proof.
  apply array_ext. intros o Ho. unfold rdma_read. rewrite aget_map. destruct (Z.lt_ge_cases o (alen bs)).
  - rewrite seqZ_at by lia. cbn. unfold rdma_write. rewrite decide_True by (split; [done|lia]).
    rewrite aget_bget by lia. f_equal. f_equal. lia.
  - rewrite (proj2 (aget_None bs o)) by lia.
    assert (alen (seqZ 0 (alen bs)) = alen bs) as Hl by (apply alen_seqZ; unfold alen; lia).
    by rewrite (proj2 (aget_None (seqZ 0 (alen bs)) o)) by lia.
Qed.

Lemma rdma_read_ext mem mem' cb addr len :
  (∀ a, addr <= a < addr + len → mem cb a = mem' cb a) → rdma_read mem cb addr len = rdma_read mem' cb addr len.
Proof.
  intros H. unfold rdma_read. apply list_fmap_ext. intros i o [E Hi]%lookup_seqZ. apply H. lia.
Qed.

(** A post leaves the other servers alone. *)
Lemma perform_other cs mem p q : post_cb p ≠ q → ∀ a, perform cs mem p q a = mem q a.
Proof.
  intros Hq a. destruct p as [| cb r wr |]; [done| |done]. cbn in Hq |- *. destruct (wr_opcode wr); try done.
  destruct (ctx_of cs r); [|done]. unfold rdma_write. by rewrite decide_False by (intros [? _]; congruence).
Qed.

Lemma performed_other cs ps q : q ∉ post_cb <$> ps → ∀ mem a, performed cs mem ps q a = mem q a.
Proof.
  induction ps as [|p ps IH]; intros Hq mem a; [done|]. cbn in Hq. apply not_elem_of_cons in Hq as [Hp Hq].
  change (performed cs (perform cs mem p) ps q a = mem q a). rewrite (IH Hq). apply perform_other. congruence.
Qed.

(** Of several posts to different servers, each one's effect is there at the end. *)
Lemma performed_one cs p ps mem :
  NoDup (post_cb <$> ps) → p ∈ ps → ∃ mem', ∀ a, performed cs mem ps (post_cb p) a = perform cs mem' p (post_cb p) a.
Proof.
  revert mem. induction ps as [|p' ps IH]; intros mem Hnd Hp; [by apply elem_of_nil in Hp|].
  cbn in Hnd. apply NoDup_cons in Hnd as [Hn Hnd]. apply elem_of_cons in Hp as [->|Hp].
  - exists mem. intros a. by apply (performed_other cs ps (post_cb p') Hn (perform cs mem p')).
  - by apply IH.
Qed.

(** The same bytes are read when nothing is written over them. *)
Lemma perform_apart cs mem cb r wr q addr len :
  cb ≠ q ∨ wr_remote_addr wr + wr_length wr <= addr ∨ addr + len <= wr_remote_addr wr → 0 <= wr_length wr →
  rdma_read (perform cs mem (PostRdma cb r wr)) q addr len = rdma_read mem q addr len.
Proof.
  intros Hd Hl. apply rdma_read_ext. intros a Ha. cbn. destruct (wr_opcode wr); try done.
  destruct (ctx_of cs r) as [c|]; [|done]. unfold rdma_write. rewrite decide_False; [done|].
  intros [-> Hr]. destruct Hd as [?|Hd]; [done|]. unfold alen in Hr. rewrite length_take in Hr. lia.
Qed.

Lemma performed_apart cs mem ps q addr len :
  (∀ cb r wr, PostRdma cb r wr ∈ ps → 0 <= wr_length wr ∧
     (cb ≠ q ∨ wr_remote_addr wr + wr_length wr <= addr ∨ addr + len <= wr_remote_addr wr)) →
  rdma_read (performed cs mem ps) q addr len = rdma_read mem q addr len.
Proof.
  revert mem. induction ps as [|p ps IH]; intros mem H; [done|].
  change (rdma_read (performed cs (perform cs mem p) ps) q addr len = rdma_read mem q addr len).
  rewrite IH by (intros cb r wr Hin; apply (H cb r wr); by right).
  destruct p as [| cb r wr |]; [done| |done]. destruct (H cb r wr) as [Hl Hd]; [by left|]. by apply perform_apart.
Qed.

(** * What a write leaves in the memory of the servers *)

Section roundtrip.
Context (cfg : config) (post_ret : Z → Z) (enc : list byte).
Context (Hcoded : coded cfg enc) (Hpost : ∀ n, post_ret n = 0).

(** Where the server keeps its line of a page at [offset] of the slab. *)
Definition place (ck : remote_chunk_g) (offset : Z) : Z := u64 (remote_addr ck + offset / NDATAS cfg).
Definition held (mem : memory) (s : slot) (ck : remote_chunk_g) (offset : Z) : list byte :=
  rdma_read mem (s_pool s) (place ck offset) (cb_size cfg).

(** The posts of a request are to different servers. *)
Lemma disk_posts op conn offset len (ss : list slot) :
  ∃ sl, sl `sublist_of` (s_pool <$> ss) ∧
    post_cb <$> mjoin (option_list <$> (disk_post op conn offset len <$> ss)) = sl.
Proof.
  eexists. split; [|done]. induction ss as [|s ss IH]; [done|]. cbn. rewrite fmap_app. unfold disk_post at 1.
  destruct (s_disk s) as [d|]; cbn; [by apply sublist_skip|by apply sublist_cons].
Qed.

(** Every server on which the page has a disk holds its line of the page. *)
Lemma written_memory conn ss w offset req rq page v mem i s ci ck :
  placed ss → written cfg enc conn ss w offset req rq page v →
  aget ss i = Some s → s_disk s = Some (ci, ck) →
  held (performed (conns_of v) mem (drop (length (posted w)) (posted v))) s ck offset = stripe_buf cfg enc page i.
Proof using Hcoded.
  intros Hpl [Hposts Hpages _ _ _] Es Ed. rewrite Hposts, drop_app_length.
  set (ps := mjoin _). set (p := PostRdma (s_pool s) (sref conn s) (disk_wr WR_RDMA_WRITE (offset / NDATAS cfg) (cb_size cfg) ck)).
  assert (p ∈ ps) as Hp.
  { unfold ps. apply list_elem_of_join. exists (option_list (Some p)). split; [by left|].
    apply list_elem_of_fmap. exists (Some p). split; [done|]. unfold write_posts. apply list_elem_of_fmap.
    exists s. split; [|by eapply aget_elem]. unfold disk_post. by rewrite Ed. }
  destruct (disk_posts WR_RDMA_WRITE conn (offset / NDATAS cfg) (cb_size cfg) ss) as (sl & Hsub & Esl).
  assert (NoDup (post_cb <$> ps)) as Hnd.
  { unfold ps, write_posts. rewrite Esl. eapply sublist_NoDup; [|exact Hsub]. apply Hpl. }
  destruct (performed_one (conns_of v) p ps mem Hnd Hp) as (mem' & Hm).
  destruct (Hpages i s Es) as (c & Ec & Hb & _); [unfold mapped; by rewrite Ed|].
  unfold held. rewrite (rdma_read_ext _ (perform (conns_of v) mem' p)) by (intros a _; apply Hm).
  unfold p, perform. cbn [wr_opcode disk_wr wr_remote_addr wr_length]. rewrite Ec, Hb.
  pose proof (alen_stripe cfg enc Hcoded page i) as Hl.
  rewrite take_ge by (unfold alen in Hl; lia). rewrite <- Hl. apply rdma_read_write.
Qed.

(** * Reading it back *)

(** Of the disks of a slab, those that are left are where they were. *)
Definition survivors_of (ss ss' : list slot) : Prop := ∀ i s' d,
  aget ss' i = Some s' → s_disk s' = Some d → ∃ s, aget ss i = Some s ∧ s_pool s = s_pool s' ∧ s_disk s = Some d.

(** Their servers are up and answer a read of a line at [offset] with what they hold. *)
Definition answers (mem : memory) (conn : Z) (ss : list slot) (offset : Z) (w : world) : Prop := ∀ s ci ck,
  s ∈ ss → s_disk s = Some (ci, ck) →
  usable (sess w) (s_pool s) ∧ delivers w (s_pool s) (read_wc (sref conn s) (held mem s ck offset)).

(** Under replication, a page that was written is read back as long as the first disk of its
    slab is left, whatever became of the others, if nothing else was written over it. *)
Theorem replica_roundtrip ss req rq page w mem0 :
  build cfg = REP → placed ss → alen ss = NDISKS cfg → alen page = IS_PAGE_SIZE →
  reqs w !! req = Some rq → rq_bio rq = [[page]] → rq_bytes rq = IS_PAGE_SIZE → rq_write rq = true →
  lookup_targets cfg (sess w) (slab_index cfg rq) = Some (target_of <$> ss) →
  (∀ s, s ∈ ss → writable cfg (conn_id rq) w s) →
  ∃ v, IS_queue_rq cfg post_ret req w = Ret (BLK_MQ_RQ_QUEUE_OK, v) ∧
    let mem := performed (conns_of v) mem0 (drop (length (posted w)) (posted v)) in
    ∀ ss' req' rq' old u mem' s ci ck,
      read_request cfg ss' req' rq' old u → chunk_offset cfg rq' = chunk_offset cfg rq → survivors_of ss ss' →
      held mem' s ck (chunk_offset cfg rq) = held mem s ck (chunk_offset cfg rq) →
      readable cfg (conn_id rq') ss' u 0 s ci ck (held mem' s ck (chunk_offset cfg rq')) →
      ∃ v', IS_queue_rq cfg post_ret req' u = Ret (BLK_MQ_RQ_QUEUE_OK, v') ∧
        was_read (conn_id rq') ss' u (chunk_offset cfg rq') (rq_bytes rq') req' rq' s ck page v'.
Proof using Hcoded Hpost.
  intros Hrep Hpl Hlen Hp Erq Hbio Hby Hwr Hts Hw.
  destruct (write_request_Ret cfg post_ret enc Hcoded Hpost ss req rq page w) as (v & E & Hv); [done..|].
  exists v. split; [exact E|]. intros mem ss' req' rq' old u mem' s ci ck Hq Hoff Hsame Hkeep Hr.
  pose proof (cd_splits _ _ Hcoded) as Hk. pose proof (cd_build _ _ Hcoded) as Hb. rewrite Hrep in Hb. destruct Hb as [H1 _].
  rewrite Hoff, Hkeep in Hr. destruct (rd_first _ _ _ _ _ _ _ _ _ Hr) as [Es' Ed' _].
  destruct (Hsame 0 s _ Es' Ed') as (t & Et & Ep & Ed).
  pose proof (written_memory (conn_id rq) ss w _ req rq page v mem0 0 t ci ck Hpl Hv Et Ed) as Hh.
  fold mem in Hh. unfold held in Hh, Hr. rewrite Ep in Hh. rewrite Hh, (stripe_rep cfg enc Hcoded) in Hr by (done || lia).
  by apply (read_request_Ret cfg post_ret Hrep H1 ltac:(lia) Hpost ss' req' rq' old u s ci ck).
Qed.
End roundtrip.

Section stripe_roundtrip.
Context (cfg : config) (post_ret : Z → Z) (enc : list byte) (e : ec_env).
Context (Hcfg : config_ok cfg) (Hec : build cfg = EC e) (Hker : kernels e) (Hset : encode_set cfg e enc) (Hpost : ∀ n, post_ret n = 0).

(** C6: An erasure-coded page that was written can be read back, in a build whose tables are
    set as the commented statements of the sources would set them (no compiled code does):
    the encode tables as in [IS_ec_init], the decode tables, when they are needed, as in
    [IS_disconnect_handler].  A write request of one page finds the disks of its slab in
    different pools ([placed]), their servers up, and its contexts free.  In any later state [u] a read
    request is for the same place of a slab of which up to [NDISKS - NDATAS] disks were lost
    in between; nothing else was written over the lines on those that are left, and their
    servers answer with what they hold.  Either no data split is lost and none is marked, or
    the failure detector ran when the servers of the lost disks, and only they, counted as
    failed; the contexts of the slab's slots are free and fault injection is off.  Then the
    write is accepted, and so is the read; it asks the servers for the lines that the write
    left in their memory, and is ended once with exactly the page that was written.
    ([unmarked_read_stale] is what happens when the detector missed a loss.) *)
Theorem write_read_roundtrip ss req rq page w mem0 :
  placed ss → alen ss = NDISKS cfg → alen page = IS_PAGE_SIZE →
  reqs w !! req = Some rq → rq_bio rq = [[page]] → rq_bytes rq = IS_PAGE_SIZE → rq_write rq = true →
  lookup_targets cfg (sess w) (slab_index cfg rq) = Some (target_of <$> ss) →
  (∀ s, s ∈ ss → writable cfg (conn_id rq) w s) →
  ∃ v, IS_queue_rq cfg post_ret req w = Ret (BLK_MQ_RQ_QUEUE_OK, v) ∧
    let mem := performed (conns_of v) mem0 (drop (length (posted w)) (posted v)) in
    ∀ ss' req' rq' old u mem',
      read_request cfg ss' req' rq' old u → rq_bytes rq' = IS_PAGE_SIZE → chunk_offset cfg rq' = chunk_offset cfg rq →
      survivors_of ss ss' → able cfg enc e (conn_id rq') ss' u →
      (∀ s ci ck, s ∈ ss' → s_disk s = Some (ci, ck) → held cfg mem' s ck (chunk_offset cfg rq) = held cfg mem s ck (chunk_offset cfg rq)) →
      answers cfg mem' (conn_id rq') ss' (chunk_offset cfg rq') u →
      ∃ v', IS_queue_rq cfg post_ret req' u = Ret (BLK_MQ_RQ_QUEUE_OK, v') ∧
        stripe_was_read cfg (conn_id rq') ss' no_fault u (chunk_offset cfg rq') req' rq' page v'.
Proof using Hcfg Hec Hker Hset Hpost.
  intros Hpl Hlen Hp Erq Hbio Hby Hwr Hts Hw. pose proof (encode_set_coded cfg e Hcfg enc Hec Hker Hset) as Hcoded.
  destruct (write_request_Ret cfg post_ret enc Hcoded Hpost ss req rq page w) as (v & E & Hv); [done..|].
  exists v. split; [exact E|]. intros mem ss' req' rq' old u mem' Hq Hby' Hoff Hsame Hab Hkeep Hans.
  apply (able_request_Ret cfg post_ret enc e Hcfg Hec Hker Hset Hpost ss' req' rq' old page u Hq Hby' Hp Hab).
  intros i s' Hi Es'. destruct (firsts_mapped cfg ss' no_fault i s' Hi Es') as (ci & ck & Ed').
  destruct (Hsame i s' _ Es' Ed') as (s & Es & Epool & Ed).
  destruct (Hans s' ci ck) as [Hu Hd]; [by eapply aget_elem|done|]. rewrite Hoff in Hd. split; [exact Hu|].
  rewrite (Hkeep s' ci ck) in Hd by (done || by eapply aget_elem).
  pose proof (written_memory cfg enc Hcoded (conn_id rq) ss w _ req rq page v mem0 i s ci ck Hpl Hv Es Ed) as Hheld.
  fold mem in Hheld. unfold held in Hheld, Hd. rewrite Epool in Hheld. by rewrite Hheld in Hd.
Qed.
End stripe_roundtrip.

(** ** Without and with losses *)

(** The page is written with all six servers up, and read after the loss of two. *)
Lemma none_out_survivors cfg out : survivors_of (test_slots cfg none_out) (test_slots cfg out).
Proof.
  intros i s' d [-> Hi]%test_slots_aget Ed. exists (test_slot none_out i).
  split; [by apply (aget_disks cfg (test_slot none_out))|]. split; [done|].
  unfold test_slot in *. cbn in *. by destruct (out i).
Qed.

Lemma ec_written : ∃ v,
  IS_queue_rq ec_test (λ _, 0) 0 (write_world ec_test none_out) = Ret (BLK_MQ_RQ_QUEUE_OK, v) ∧
  written ec_test ec_enc 0 (test_slots ec_test none_out) (write_world ec_test none_out) 8192 0 (test_rq true) test_page v.
Proof.
  apply (write_request_Ret ec_test (λ _, 0) ec_enc ec_coded (λ _, eq_refl)
    (test_slots ec_test none_out) 0 (test_rq true) test_page (write_world ec_test none_out));
    [apply test_placed|reflexivity|exact test_page_len|reflexivity|reflexivity|reflexivity|reflexivity|reflexivity|].
  intros s. by apply test_writable.
Qed.

Lemma rep_written : ∃ v,
  IS_queue_rq rep (λ _, 0) 0 (write_world rep none_out) = Ret (BLK_MQ_RQ_QUEUE_OK, v) ∧
  written rep [x01; x01; x01] 0 (test_slots rep none_out) (write_world rep none_out) 8192 0 (test_rq true) test_page v.
Proof.
  apply (write_request_Ret rep (λ _, 0) [x01; x01; x01] rep_coded (λ _, eq_refl)
    (test_slots rep none_out) 0 (test_rq true) test_page (write_world rep none_out));
    [apply test_placed|reflexivity|exact test_page_len|reflexivity|reflexivity|reflexivity|reflexivity|reflexivity|].
  intros s. by apply test_writable.
Qed.

Lemma write_read_roundtrip_witness :
  ∃ v v', IS_queue_rq ec_test (λ _, 0) 0 (write_world ec_test none_out) = Ret (BLK_MQ_RQ_QUEUE_OK, v) ∧
    IS_queue_rq ec_test (λ _, 0) 0 (stripe_world test_page) = Ret (BLK_MQ_RQ_QUEUE_OK, v') ∧
    stripe_was_read ec_test 0 (test_slots ec_test two_out) no_fault (stripe_world test_page) 8192 0 (test_rq false) test_page v'.
Proof.
  destruct (write_read_roundtrip ec_test (λ _, 0) ec_enc ec_test_env (ec_ok _) eq_refl (env_kernels _ _ _ _) (env_encode_set _ _ _ _) (λ _, eq_refl)
    (test_slots ec_test none_out) 0 (test_rq true) test_page (write_world ec_test none_out) (λ _ _, x00)) as (v & E & Hread);
    [apply test_placed|reflexivity|exact test_page_len|reflexivity|reflexivity|reflexivity|reflexivity|reflexivity| |].
  { intros s. by apply test_writable. }
  destruct ec_written as (v1 & E1 & Hv). assert (v1 = v) as -> by congruence.
  destruct (Hread (test_slots ec_test two_out) 0%nat (test_rq false) test_page (stripe_world test_page) _
    stripe_world_request eq_refl eq_refl (none_out_survivors ec_test two_out) (stripe_world_able test_page)
    (λ s ci ck _ _, eq_refl)) as (v' & E' & Hv').
  - intros s ci ck [i Es]%elem_of_aget Ed.
    destruct (none_out_survivors ec_test two_out i s _ Es Ed) as (t & Et & Ep & Ed').
    pose proof (written_memory ec_test ec_enc ec_coded 0 _ _ _ _ _ _ v (λ _ _, x00) i t ci ck (test_placed ec_test none_out) Hv Et Ed') as Hh.
    unfold held in *. rewrite Ep in Hh. change (conn_id (test_rq false)) with 0.
    change (chunk_offset ec_test (test_rq false)) with 8192. rewrite Hh. by apply stripe_world_delivers.
  - exists v, v'. by split_and!.
Defined.

(** Only the first of three replicas is left. *)
Definition first_left (d : Z) : bool := negb (d =? 0).

Lemma first_replica_memory mem v :
  written rep [x01; x01; x01] 0 (test_slots rep none_out) (write_world rep none_out) 8192 0 (test_rq true) test_page v →
  held rep (performed (conns_of v) mem (drop (length (posted (write_world rep none_out))) (posted v)))
    (test_slot none_out 0) (test_remote 0) 8192 = test_page.
Proof.
  intros Hv. pose proof (written_memory rep [x01; x01; x01] rep_coded 0 _ _ _ _ _ _ v mem 0 (test_slot none_out 0) 0 (test_remote 0)
    (test_placed rep none_out) Hv eq_refl eq_refl) as Hh.
  by rewrite (stripe_rep rep [x01; x01; x01] rep_coded test_page 0 eq_refl ltac:(cbn; lia) test_page_len) in Hh.
Qed.

Lemma first_left_readable :
  readable rep 0 (test_slots rep first_left) (read_world_of test_page first_left 0) 0 (test_slot first_left 0) 0 (test_remote 0) test_page.
Proof.
  split.
  - intros t. by apply test_ready.
  - split; [reflexivity|reflexivity|lia].
  - by apply (test_usable rep first_left 0).
  - by exists 1%nat, [].
  - exact test_page_len.
  - discriminate.
  - by eexists.
Qed.

Lemma replica_roundtrip_witness :
  ∃ v v', IS_queue_rq rep (λ _, 0) 0 (write_world rep none_out) = Ret (BLK_MQ_RQ_QUEUE_OK, v) ∧
    IS_queue_rq rep (λ _, 0) 0 (read_world_of test_page first_left 0) = Ret (BLK_MQ_RQ_QUEUE_OK, v') ∧
    was_read 0 (test_slots rep first_left) (read_world_of test_page first_left 0) 8192 4096 0 (test_rq false)
      (test_slot first_left 0) (test_remote 0) test_page v'.
Proof.
  destruct (replica_roundtrip rep (λ _, 0) [x01; x01; x01] rep_coded (λ _, eq_refl)
    (test_slots rep none_out) 0 (test_rq true) test_page (write_world rep none_out) (λ _ _, x00)) as (v & E & Hread);
    [reflexivity|apply test_placed|reflexivity|exact test_page_len|reflexivity|reflexivity|reflexivity|reflexivity|reflexivity| |].
  { intros s. by apply test_writable. }
  destruct rep_written as (v1 & E1 & Hv). assert (v1 = v) as -> by congruence.
  destruct (Hread (test_slots rep first_left) 0%nat (test_rq false) test_page (read_world_of test_page first_left 0) _
    (test_slot first_left 0) 0 (test_remote 0) (test_read_request test_page first_left 0) eq_refl
    (none_out_survivors rep first_left) eq_refl) as (v' & E' & Hv').
  - change (conn_id (test_rq false)) with 0. change (chunk_offset rep (test_rq false)) with 8192.
    change (held ?c ?m (test_slot first_left 0) ?k ?o) with (held c m (test_slot none_out 0) k o).
    rewrite (first_replica_memory _ v Hv). exact first_left_readable.
  - exists v, v'. by split_and!.
Defined.
