(* ===== verification/Disk.v ===== *)
(** The device as a whole: against the memory of the servers and the losses they suffer, the
    block device is a map from page numbers to pages. *)

From stdpp Require Import gmap.
From S2P Require Import Prelude GF256 GFVect GFMatrix Decode Cauchy Config MT Fault State CtxPool Chunks Store Transfer Completion Slots Stripe WritePath Reads ReadPath EcRead Failure Recovery Remote.

(** * What a device promises *)

(** A request carries what the block layer saw of its end: the page in it, when it was
    accepted and ended exactly once.  Disks can be lost, and a slab none of whose disks is
    left can be mapped anew. *)
Inductive event : Type :=
  | Write (p : Z) (page : list byte) (got : option (list byte))
  | Read (p : Z) (got : option (list byte))
  | Lose
  | Remap (slab : Z).

Abbreviation device := (gmap Z (list byte)).

Section device.
Context (slab_of : Z → Z).

Inductive device_step : device → event → device → Prop :=
  | device_write d p page : device_step d (Write p page (Some page)) (<[p := page]> d)
  | device_read d p page : d !! p = Some page → device_step d (Read p (Some page)) d
  | device_lose d : device_step d Lose d
  | device_remap d slab : device_step d (Remap slab) (filter (λ e, slab_of e.1 ≠ slab) d).
End device.

(** Runs of a labelled step relation. *)
Inductive run {S L} (step : S → L → S → Prop) : S → list L → S → Prop :=
  | run_nil s : run step s [] s
  | run_cons s l s' ls s'' : step s l s' → run step s' ls s'' → run step s (l :: ls) s''.

(** A simulation carries over to runs. *)
Lemma run_simulation {S A L} (step : S → L → S → Prop) (astep : A → L → A → Prop) (R : S → A → Prop) :
  (∀ s l s' a, R s a → step s l s' → ∃ a', astep a l a' ∧ R s' a') →
  ∀ s ls s' a, R s a → run step s ls s' → ∃ a', run astep a ls a' ∧ R s' a'.
Proof.
  intros Hsim s ls s' a HR Hrun. revert a HR. induction Hrun as [s|s l s1 ls s2 Hs Hrun IH]; intros a HR.
  - exists a. split; [constructor|done].
  - destruct (Hsim s l s1 a HR Hs) as (a1 & Ha & HR1). destruct (IH a1 HR1) as (a2 & Ha2 & HR2).
    exists a2. split; [by econstructor|done].
Qed.

(** What such a device is for: a page reads as it was last written, unless its slab was lost
    as a whole. *)
Definition leaves (slab_of : Z → Z) (p : Z) (ev : event) : Prop :=
  match ev with Write q _ _ => q ≠ p | Remap slab => slab ≠ slab_of p | _ => True end.

Lemma device_leaves slab_of d evs d' p page :
  d !! p = Some page → Forall (leaves slab_of p) evs → run (device_step slab_of) d evs d' → d' !! p = Some page.
Proof.
  intros Hp Hl Hrun. induction Hrun as [d|d ev d1 evs d2 Hs Hrun IH]; [done|].
  apply Forall_cons in Hl as [Hev Hl]. apply IH; [|done].
  destruct Hs as [d q page'|d q page' E|d|d slab]; cbn in Hev; [|done..|].
  - by rewrite lookup_insert_ne.
  - by apply map_lookup_filter_Some.
Qed.

Lemma run_app {S L} (step : S → L → S → Prop) s ls ls' s'' :
  run step s (ls ++ ls') s'' → ∃ s', run step s ls s' ∧ run step s' ls' s''.
Proof.
  revert s. induction ls as [|l ls IH]; intros s H; cbn in H; [exists s; split; [constructor|done]|].
  inversion H as [|s0 l0 s1 ls0 s2 Hs Hrun]; subst. apply IH in Hrun as (s' & H1 & H2).
  exists s'. split; [by econstructor|done].
Qed.

Lemma last_written slab_of d evs evs' p page got got' d' :
  run (device_step slab_of) d (evs ++ Write p page got :: evs' ++ [Read p got']) d' → Forall (leaves slab_of p) evs' →
  got = Some page ∧ got' = Some page.
Proof.
  intros (d1 & _ & Hrun)%run_app Hl. inversion Hrun as [|s0 l0 d2 ls0 s2 Hw Hrest]; subst. clear Hrun.
  apply run_app in Hrest as (d3 & Hmid & Hlast). inversion Hlast as [|s0 l0 d4 ls0 s2 Hr _]; subst.
  inversion Hw; subst. inversion Hr as [|? ? page' E| |]; subst.
  assert (d4 !! p = Some page) as E' by (eapply device_leaves; [|exact Hl|exact Hmid]; by rewrite lookup_insert_eq).
  split; congruence.
Qed.

(** * Where the pages are *)

(** The server and the remote slab of each session chunk: what [lookup_target] finds. *)
Definition maps : Type := Z → option (Z * remote_chunk_g).
Definition home (s : session) : maps := λ x, t ← lookup_target s x; cb ← t_cb_ptr t; ck ← t_chunk t; Some (cb, ck).

Lemma home_slots cfg s slab ss i t :
  lookup_targets cfg s slab = Some (target_of <$> ss) → alen ss = NDISKS cfg → aget ss i = Some t →
  home s (slab * NDISKS cfg + i) = (λ d, (s_pool t, d.2)) <$> s_disk t.
Proof.
  intros E Hlen Et. pose proof (aget_lt _ _ _ Et) as Hi. unfold home.
  rewrite (lookup_targets_aget cfg s slab _ i E) by lia. rewrite aget_map, Et. cbn. unfold target_of.
  by destruct (s_disk t) as [[ci ck]|].
Qed.

(** The slabs lent to the device are apart and do not wrap around the address space. *)
Record maps_apart (m : maps) : Prop := {
  ma_room : ∀ x c ck, m x = Some (c, ck) → 0 <= remote_addr ck ∧ remote_addr ck + ONE_GB <= 2 ^ 64;
  ma_apart : ∀ x y c ck ck', x ≠ y → m x = Some (c, ck) → m y = Some (c, ck') →
    remote_addr ck + ONE_GB <= remote_addr ck' ∨ remote_addr ck' + ONE_GB <= remote_addr ck
}.

Section disk.
Context (cfg : config) (post_ret : Z → Z) (enc : list byte).
Context (Hcfg : config_ok cfg) (Hcoded : coded cfg enc) (Hpost : ∀ n, post_ret n = 0).

(** The slab of a page, and its offset there. *)
Definition slab_of (p : Z) : Z := p * IS_PAGE_SIZE / 2 ^ SLAB_SHIFT cfg.
Definition offset_of (p : Z) : Z := (p * IS_PAGE_SIZE) mod 2 ^ SLAB_SHIFT cfg.
Definition in_device (p : Z) : Prop := 0 <= p * IS_PAGE_SIZE < DATASIZE_G cfg * ONE_GB.

(** The request is for page [p]. *)
Record for_page (p : Z) (rq : request) : Prop := {
  fp_pos : rq_pos rq * 512 = p * IS_PAGE_SIZE;
  fp_bytes : rq_bytes rq = IS_PAGE_SIZE;
  fp_device : in_device p
}.

(** A page starts a whole number of lines into each disk of its slab, and its line ends
    inside the disk. *)
Lemma page_line p : ∃ q, offset_of p / NDATAS cfg = q * cb_size cfg ∧ 0 <= q ∧ (q + 1) * cb_size cfg <= ONE_GB ∧
  p = slab_of p * (2 ^ SLAB_SHIFT cfg / IS_PAGE_SIZE) + q.
Proof using Hcfg Hcoded.
  destruct (share_size cfg enc Hcoded) as [Hsz Hpos]. pose proof (cfg_slab _ Hcfg) as Hs. pose proof (cfg_NDATAS _ Hcfg) as Hn.
  unfold offset_of, slab_of. rewrite Hs. set (n := NDATAS cfg) in *. set (sz := cb_size cfg) in *.
  assert (n * ONE_GB = (n * 262144) * IS_PAGE_SIZE) as Hg by (unfold ONE_GB, IS_PAGE_SIZE; lia).
  assert (0 < IS_PAGE_SIZE) by done. set (b := n * 262144) in *. assert (0 < b) by (unfold b; lia).
  exists (p mod b). rewrite Hg, (Z.mul_mod_distr_r p b IS_PAGE_SIZE), (Z.div_mul_cancel_r p b IS_PAGE_SIZE), Z.div_mul by lia.
  pose proof (Z.mod_pos_bound p b ltac:(lia)) as Hq. pose proof (Z.div_mod p b ltac:(lia)) as Hp. split_and!.
  - rewrite <- Hsz. replace (p mod b * (n * sz)) with ((p mod b * sz) * n) by lia. by rewrite Z.div_mul by lia.
  - lia.
  - assert (b * sz = ONE_GB) as <-. { unfold b. unfold ONE_GB. unfold IS_PAGE_SIZE in Hsz. lia. }
    apply Z.mul_le_mono_nonneg_r; lia.
  - lia.
Qed.

Lemma slab_page p rq : for_page p rq → slab_index cfg rq = slab_of p ∧ chunk_offset cfg rq = offset_of p.
Proof using Hcfg Hcoded.
  intros [Hpos Hby Hdev].
  destruct (slab_index_correct cfg rq Hcfg) as (-> & -> & _); [|by rewrite Hpos].
  split; rewrite ?Hpos, ?Hby; [apply Hdev|done|]. destruct Hdev. unfold IS_PAGE_SIZE, ONE_GB in *. lia.
Qed.

(** The lines of a page are where the slabs of its disks are; those of different pages are
    apart. *)
Lemma place_line m x c ck p :
  maps_apart m → m x = Some (c, ck) →
  ∃ q, place cfg ck (offset_of p) = remote_addr ck + q * cb_size cfg ∧ 0 <= q ∧ (q + 1) * cb_size cfg <= ONE_GB ∧
    p = slab_of p * (2 ^ SLAB_SHIFT cfg / IS_PAGE_SIZE) + q.
Proof using Hcfg Hcoded.
  intros Hm Hx. destruct (page_line p) as (q & Hq & Hq0 & Hq1 & Hp). destruct (ma_room _ Hm _ _ _ Hx) as [H0 H1].
  destruct (share_size cfg enc Hcoded) as [_ Hpos].
  exists q. split_and!; try done. unfold place. rewrite Hq. apply wrap_small. nia.
Qed.

Lemma places_apart m p p' i i' c ck ck' :
  maps_apart m → p ≠ p' → 0 <= i < NDISKS cfg → 0 <= i' < NDISKS cfg →
  m (slab_of p * NDISKS cfg + i) = Some (c, ck) → m (slab_of p' * NDISKS cfg + i') = Some (c, ck') →
  place cfg ck (offset_of p) + cb_size cfg <= place cfg ck' (offset_of p') ∨
  place cfg ck' (offset_of p') + cb_size cfg <= place cfg ck (offset_of p).
Proof using Hcfg Hcoded.
  intros Hm Hne Hi Hi' Hx Hy. destruct (share_size cfg enc Hcoded) as [_ Hpos].
  destruct (place_line m _ c ck p Hm Hx) as (q & -> & Hq0 & Hq1 & Hp).
  destruct (place_line m _ c ck' p' Hm Hy) as (q' & -> & Hq0' & Hq1' & Hp').
  destruct (decide (slab_of p * NDISKS cfg + i = slab_of p' * NDISKS cfg + i')) as [Heq|Hd].
  - assert (slab_of p = slab_of p') as Hs by nia. rewrite Heq, Hy in Hx. injection Hx as ->.
    assert (q ≠ q') by congruence. destruct (Z.lt_total q q') as [?|[?|?]]; [left; nia|done|right; nia].
  - destruct (ma_apart _ Hm _ _ _ _ _ Hd Hx Hy); [left|right]; nia.
Qed.

(** * The device in memory *)

(** With the pages that were written since their slab was mapped. *)
Record system : Type := { st_mem : memory; st_maps : maps; st_written : gset Z }.

(** Every disk that is left has its line of every page of the device. *)
Record represents (st : system) (d : device) : Prop := {
  rp_apart : maps_apart (st_maps st);
  rp_dom : dom d = st_written st;
  rp_len : ∀ p page, d !! p = Some page → alen page = IS_PAGE_SIZE;
  rp_lines : ∀ p page i c ck, d !! p = Some page → 0 <= i < NDISKS cfg →
    st_maps st (slab_of p * NDISKS cfg + i) = Some (c, ck) →
    rdma_read (st_mem st) c (place cfg ck (offset_of p)) (cb_size cfg) = stripe_buf cfg enc page i
}.

(** What the block layer sees of the end of a request. *)
Definition seen (req : nat) (rq : request) (r : res (queue_rc * world)) : option (list byte) :=
  match r with
  | Ret (BLK_MQ_RQ_QUEUE_OK, v) =>
      rq' ← reqs v !! req;
      match rq_bio rq' with [[page]] => if rq_ended rq' =? rq_ended rq + 1 then Some page else None | _ => None end
  | _ => None
  end.
(** The posts of a call reach the servers. *)
Definition after (w : world) (mem : memory) (r : res (queue_rc * world)) : memory :=
  match r with Ret (_, v) => performed (conns_of v) mem (drop (length (posted w)) (posted v)) | _ => mem end.

(** How a build reads: [can_read] is what it needs of the state and of the servers'
    answers to give back a page whose lines are in memory. *)
Class Reader (can_read : memory → list slot → request → world → Prop) : Prop := reads_back :
  ∀ mem ss req rq old page u, read_request cfg ss req rq old u → rq_bytes rq = IS_PAGE_SIZE → alen page = IS_PAGE_SIZE →
  can_read mem ss rq u →
  (∀ i s ci ck, aget ss i = Some s → s_disk s = Some (ci, ck) → held cfg mem s ck (chunk_offset cfg rq) = stripe_buf cfg enc page i) →
  ∃ v, IS_queue_rq cfg post_ret req u = Ret (BLK_MQ_RQ_QUEUE_OK, v) ∧
    reqs v !! req = Some (ended (rq <| rq_bio := [[page]] |>)) ∧
    after u mem (Ret (BLK_MQ_RQ_QUEUE_OK, v)) = mem.

(** The servers keep what is in the slabs of [m]. *)
Definition kept (m : maps) (mem mem' : memory) : Prop := ∀ x c ck a,
  m x = Some (c, ck) → remote_addr ck <= a < remote_addr ck + ONE_GB → mem' c a = mem c a.

(** A write request of one page whose servers are up. *)
Record write_request (ss : list slot) (req : nat) (rq : request) (page : list byte) (w : world) : Prop := {
  wq_placed : placed ss;
  wq_slots : alen ss = NDISKS cfg;
  wq_here : reqs w !! req = Some rq;
  wq_page : rq_bio rq = [[page]];
  wq_len : alen page = IS_PAGE_SIZE;
  wq_is_write : rq_write rq = true;
  wq_targets : lookup_targets cfg (sess w) (slab_index cfg rq) = Some (target_of <$> ss);
  wq_writable : ∀ s, s ∈ ss → writable cfg (conn_id rq) w s;
  wq_servers : NDATAS cfg <= servers ss
}.

(** One request, or one loss, at a time.  A request starts in any state of the module in
    which its servers are up; whether it ends, and with what, is for the code to say.  A
    server that is lost, or that lends a new slab, does as it likes with its other memory. *)
Inductive step (can_read : memory → list slot → request → world → Prop) : system → event → system → Prop :=
  | step_write mem m ps p page ss req rq w r :
      for_page p rq → write_request ss req rq page w → (∀ x, home (sess w) x = m x) →
      r = IS_queue_rq cfg post_ret req w →
      step can_read {| st_mem := mem; st_maps := m; st_written := ps |} (Write p page (seen req rq r))
        {| st_mem := after w mem r; st_maps := m; st_written := {[p]} ∪ ps |}
  | step_read mem m ps p ss req rq old u r :
      p ∈ ps → for_page p rq → read_request cfg ss req rq old u → can_read mem ss rq u → (∀ x, home (sess u) x = m x) →
      r = IS_queue_rq cfg post_ret req u →
      step can_read {| st_mem := mem; st_maps := m; st_written := ps |} (Read p (seen req rq r))
        {| st_mem := after u mem r; st_maps := m; st_written := ps |}
  | step_lose mem mem' m m' ps :
      (∀ x d, m' x = Some d → m x = Some d) → kept m' mem mem' →
      step can_read {| st_mem := mem; st_maps := m; st_written := ps |} Lose {| st_mem := mem'; st_maps := m'; st_written := ps |}
  | step_remap mem mem' m m' ps slab :
      (∀ i, 0 <= i < NDISKS cfg → m (slab * NDISKS cfg + i) = None) →
      (∀ x, x / NDISKS cfg ≠ slab → m' x = m x) → maps_apart m' → kept m mem mem' →
      step can_read {| st_mem := mem; st_maps := m; st_written := ps |} (Remap slab)
        {| st_mem := mem'; st_maps := m'; st_written := filter (λ p, slab_of p ≠ slab) ps |}.

Lemma seen_ended req rq v page :
  reqs v !! req = Some (ended (rq <| rq_bio := [[page]] |>)) → seen req rq (Ret (BLK_MQ_RQ_QUEUE_OK, v)) = Some page.
Proof. intros E. cbn. rewrite E. cbn. by rewrite Z.eqb_refl. Qed.

(** ** Every step is one of the device *)

Lemma lines_kept m mem mem' p i c ck :
  maps_apart m → m (slab_of p * NDISKS cfg + i) = Some (c, ck) →
  (∀ a, remote_addr ck <= a < remote_addr ck + ONE_GB → mem' c a = mem c a) →
  rdma_read mem' c (place cfg ck (offset_of p)) (cb_size cfg) = rdma_read mem c (place cfg ck (offset_of p)) (cb_size cfg).
Proof using Hcfg Hcoded.
  intros Hm Hx Hk. destruct (place_line m _ c ck p Hm Hx) as (q & -> & Hq0 & Hq1 & _).
  destruct (share_size cfg enc Hcoded) as [_ Hpos]. apply rdma_read_ext. intros a Ha. apply Hk. nia.
Qed.

Lemma lose_represents mem mem' m m' ps d :
  (∀ x d, m' x = Some d → m x = Some d) → kept m' mem mem' →
  represents {| st_mem := mem; st_maps := m; st_written := ps |} d →
  represents {| st_mem := mem'; st_maps := m'; st_written := ps |} d.
Proof using Hcfg Hcoded.
  intros Hsub Hk [Hm Hdom Hl Hr]. cbn in *. split; cbn; [|done..|].
  - destruct Hm as [Hroom Hap]. split; [intros x c ck Hx; by eapply Hroom, Hsub|].
    intros x y c ck ck' Hne Hx Hy. eapply Hap; eauto.
  - intros p page i c ck Hp Hi Hx. rewrite <- (Hr p page i c ck) by auto.
    apply (lines_kept m _ _ _ i); [done|by apply Hsub|]. intros a. by eapply Hk.
Qed.

Lemma remap_represents mem mem' m m' ps slab d :
  (∀ i, 0 <= i < NDISKS cfg → m (slab * NDISKS cfg + i) = None) →
  (∀ x, x / NDISKS cfg ≠ slab → m' x = m x) → maps_apart m' → kept m mem mem' →
  represents {| st_mem := mem; st_maps := m; st_written := ps |} d →
  represents {| st_mem := mem'; st_maps := m'; st_written := filter (λ p, slab_of p ≠ slab) ps |}
    (filter (λ e, slab_of e.1 ≠ slab) d).
Proof using Hcfg Hcoded.
  intros Hnone Hsame Hm' Hk [Hm Hdom Hl Hr]. cbn in *. split; cbn; [done|..].
  - apply set_eq. intros p. rewrite elem_of_dom, elem_of_filter, <- Hdom, elem_of_dom. split.
    + intros [page [E Hs]%map_lookup_filter_Some]. split; [done|by exists page].
    + intros [Hs [page E]]. exists page. by apply map_lookup_filter_Some.
  - intros p page [Hp _]%map_lookup_filter_Some. by eapply Hl.
  - intros p page i c ck [Hp Hs]%map_lookup_filter_Some Hi Hx. cbn in Hs.
    rewrite Hsame in Hx by (rewrite Z.div_add_l, Z.div_small by lia; lia).
    rewrite <- (Hr p page i c ck) by done. apply (lines_kept m _ _ _ i); [done..|]. intros a. by eapply Hk.
Qed.

Lemma write_post_slot conn ss offset cb r wr :
  PostRdma cb r wr ∈ mjoin (option_list <$> (write_posts conn ss (offset / NDATAS cfg) (cb_size cfg))) →
  ∃ i s d, aget ss i = Some s ∧ s_disk s = Some d ∧ cb = s_pool s ∧ wr_length wr = cb_size cfg ∧
    wr_remote_addr wr = place cfg d.2 offset.
Proof.
  intros (l & Hp & Hl)%list_elem_of_join. apply list_elem_of_fmap in Hl as (o & -> & Ho).
  unfold write_posts in Ho. apply list_elem_of_fmap in Ho as (s & -> & Hs). apply elem_of_aget in Hs as [i Es].
  unfold disk_post in Hp. destruct (s_disk s) as [d|] eqn:Ed; [|by apply elem_of_nil in Hp].
  apply list_elem_of_singleton in Hp as [= -> -> ->]. by exists i, s, d.
Qed.

Lemma write_represents mem m ps p page ss req rq w v d :
  for_page p rq → write_request ss req rq page w → (∀ x, home (sess w) x = m x) →
  written cfg enc (conn_id rq) ss w (chunk_offset cfg rq) req rq page v →
  represents {| st_mem := mem; st_maps := m; st_written := ps |} d →
  represents {| st_mem := after w mem (Ret (BLK_MQ_RQ_QUEUE_OK, v)); st_maps := m; st_written := {[p]} ∪ ps |} (<[p := page]> d).
Proof using Hcfg Hcoded.
  intros Hfp Hq Hh Hv [Hm Hdom Hl Hr]. cbn in *. destruct (slab_page p rq Hfp) as [Hslab Hoff].
  assert (∀ i s, aget ss i = Some s → m (slab_of p * NDISKS cfg + i) = (λ d, (s_pool s, d.2)) <$> s_disk s) as Hhome.
  { intros i s Es. rewrite <- Hh, <- Hslab. apply home_slots with (ss := ss); [apply (wq_targets _ _ _ _ _ Hq)|apply (wq_slots _ _ _ _ _ Hq)|done]. }
  split; cbn; [done|by rewrite dom_insert_L, Hdom|..].
  - intros p' page' [[-> <-]|[_ E]]%lookup_insert_Some; [apply (wq_len _ _ _ _ _ Hq)|by eapply Hl].
  - intros p' page' i c ck E Hi Hx. apply lookup_insert_Some in E as [[<- <-]|[Hne E]].
    + destruct (proj2 (aget_is_Some ss i)) as [s Es]; [rewrite (wq_slots _ _ _ _ _ Hq); lia|].
      rewrite (Hhome i s Es) in Hx. destruct (s_disk s) as [[ci ck']|] eqn:Ed; [|done]. cbn in Hx. injection Hx as <- <-.
      rewrite <- Hoff. eapply (written_memory cfg enc Hcoded); [apply Hq|exact Hv|exact Es|exact Ed].
    + rewrite performed_apart; [by eapply Hr|]. rewrite (wr_posts _ _ _ _ _ _ _ _ _ _ Hv), drop_app_length.
      intros cb r wr Hin. destruct (write_post_slot _ _ _ _ _ _ Hin) as (j & s & d' & Es & Ed & -> & -> & ->).
      destruct (share_size cfg enc Hcoded) as [_ Hpos]. split; [lia|].
      destruct (decide (s_pool s = c)) as [<-|]; [|by left]. right. rewrite Hoff.
      pose proof (Hhome j s Es) as Hy. rewrite Ed in Hy. pose proof (aget_lt _ _ _ Es) as Hj. rewrite (wq_slots _ _ _ _ _ Hq) in Hj.
      eapply places_apart; [done|exact Hne|exact Hj|exact Hi|exact Hy|exact Hx].
Qed.

Context (can_read : memory → list slot → request → world → Prop) `{!Reader can_read}.

Lemma read_lines mem m ps p page ss req rq old u d :
  for_page p rq → read_request cfg ss req rq old u → (∀ x, home (sess u) x = m x) →
  represents {| st_mem := mem; st_maps := m; st_written := ps |} d → d !! p = Some page →
  ∀ i s ci ck, aget ss i = Some s → s_disk s = Some (ci, ck) →
    held cfg mem s ck (chunk_offset cfg rq) = stripe_buf cfg enc page i.
Proof using Hcfg Hcoded.
  intros Hfp Hq Hh HR E i s ci ck Es Ed. destruct (slab_page p rq Hfp) as [Hslab ->].
  pose proof (aget_lt _ _ _ Es) as Hi. rewrite (rq_slots _ _ _ _ _ _ Hq) in Hi. unfold held.
  apply (rp_lines _ _ HR p page i _ ck E Hi). cbn.
  rewrite <- Hh, <- Hslab, (home_slots cfg _ _ ss i s); [by rewrite Ed|apply Hq|apply (rq_slots _ _ _ _ _ _ Hq)|done].
Qed.

Lemma step_simulation st ev st' d :
  represents st d → step can_read st ev st' → ∃ d', device_step slab_of d ev d' ∧ represents st' d'.
Proof using All.
  intros HR Hs. destruct Hs as [mem m ps p page ss req rq w r Hfp Hq Hh ->|mem m ps p ss req rq old u r Hps Hfp Hq Hc Hh ->|
    mem mem' m m' ps Hsub Hk|mem mem' m m' ps slab Hn Hsame Hm' Hk].
  - pose proof Hq as [Hpl Hlen Erq Hbio Hp Hwr Hts Hw Hsv].
    destruct (write_request_Ret cfg post_ret enc Hcoded Hpost ss req rq page w) as (v & -> & Hv); [done..|apply Hfp|done|done|done|].
    exists (<[p := page]> d). split; [|by eapply write_represents].
    rewrite (seen_ended req rq v page); [constructor|]. rewrite (wr_reqs _ _ _ _ _ _ _ _ _ _ Hv).
    destruct (Z.leb_spec (NDATAS cfg) (servers ss)); [|lia]. rewrite list_lookup_insert_eq by (by eapply lookup_lt_Some).
    f_equal. destruct rq; cbn in *; by subst.
  - assert (p ∈ dom d) as [page E]%elem_of_dom by by rewrite (rp_dom _ _ HR).
    destruct (reads_back mem ss req rq old page u) as (v & -> & Ev & Hsame);
      [done|apply Hfp|by apply (rp_len _ _ HR p)|exact Hc|by eapply read_lines|].
    exists d. rewrite Hsame, (seen_ended req rq v page Ev). split; [by constructor|done].
  - exists d. split; [constructor|by eapply lose_represents].
  - eexists. split; [constructor|by eapply remap_represents].
Qed.

(** The device that the code implements on the servers is the abstract one, for every way
    requests and losses follow each other. *)
Lemma run_represents st d evs st' :
  represents st d → run (step can_read) st evs st' → ∃ d', run (device_step slab_of) d evs d' ∧ represents st' d'.
Proof using All. intros HR Hrun. eapply run_simulation; [|exact HR|exact Hrun]. intros ????. apply step_simulation. Qed.
End disk.

(** * The two builds as readers *)

Definition reads_only (p : post) : Prop := match p with PostRdma _ _ wr => wr_opcode wr = WR_RDMA_READ | _ => True end.

Lemma performed_reads cs mem ps : Forall reads_only ps → performed cs mem ps = mem.
Proof.
  intros Hps. revert mem. induction Hps as [|p ps Hp Hps IH]; intros mem; [done|].
  change (performed cs (perform cs mem p) ps = mem). rewrite IH. destruct p as [| cb r wr |]; try done.
  cbn in *. by rewrite Hp.
Qed.

Lemma after_reads w mem rc v ps :
  posted v = posted w ++ ps → Forall reads_only ps → after w mem (Ret (rc, v)) = mem.
Proof. intros E H. cbn. rewrite E, drop_app_length. by apply performed_reads. Qed.

Section readers.
Context (cfg : config) (post_ret : Z → Z) (enc : list byte).
Context (Hcoded : coded cfg enc) (Hpost : ∀ n, post_ret n = 0).

(** Replication: the first disk of the slab is left, its server delivers what it holds. *)
Definition replica_left (mem : memory) (ss : list slot) (rq : request) (u : world) : Prop :=
  ∃ s ci ck, readable cfg (conn_id rq) ss u 0 s ci ck (held cfg mem s ck (chunk_offset cfg rq)).

Lemma replica_reader : build cfg = REP → Reader cfg post_ret enc replica_left.
Proof using Hcoded Hpost.
  intros Hrep mem ss req rq old page u Hq Hby Hp (s & ci & ck & Hr) Hlines.
  pose proof (cd_splits _ _ Hcoded) as Hk. pose proof (cd_build _ _ Hcoded) as Hb. rewrite Hrep in Hb. destruct Hb as [H1 _].
  destruct (rd_first _ _ _ _ _ _ _ _ _ Hr) as [Es Ed _]. rewrite (Hlines 0 s ci ck Es Ed), (stripe_rep cfg enc Hcoded) in Hr by (done || lia).
  destruct (read_request_Ret cfg post_ret Hrep H1 ltac:(lia) Hpost ss req rq old u s ci ck page Hq Hr) as (v & E & [Hposts _ Hreqs]).
  exists v. split_and!; [exact E| |].
  - rewrite Hreqs. apply list_lookup_insert_eq. eapply lookup_lt_Some, Hq.
  - eapply after_reads; [exact Hposts|]. by repeat constructor.
Qed.

(** Erasure coding: the tables are set, enough disks are left and the failure detector knows
    which. *)
Definition stripe_left (e : ec_env) (mem : memory) (ss : list slot) (rq : request) (u : world) : Prop :=
  able cfg enc e (conn_id rq) ss u ∧ answers cfg mem (conn_id rq) ss (chunk_offset cfg rq) u.

Lemma stripe_reader e : config_ok cfg → build cfg = EC e → kernels e → encode_set cfg e enc → Reader cfg post_ret enc (stripe_left e).
Proof using Hpost.
  intros Hcfg Hec Hker Hset mem ss req rq old page u Hq Hby Hp [Hab Hans] Hlines.
  destruct (able_request_Ret cfg post_ret enc e Hcfg Hec Hker Hset Hpost ss req rq old page u Hq Hby Hp Hab) as (v & E & Hv).
  - intros i s Hi Es. destruct (firsts_mapped cfg ss no_fault i s Hi Es) as (ci & ck & Ed).
    destruct (Hans s ci ck) as [Hu Hd]; [by eapply aget_elem|done|]. split; [exact Hu|]. by rewrite (Hlines i s ci ck) in Hd.
  - destruct Hv as [(order & _ & Hposts) _ Hreqs]. exists v. split_and!; [exact E| |].
    + rewrite Hreqs. apply list_lookup_insert_eq. eapply lookup_lt_Some, Hq.
    + eapply after_reads; [exact Hposts|]. apply Forall_forall. intros p (l & Hp' & Hl)%list_elem_of_join.
      apply list_elem_of_fmap in Hl as (o & -> & (i & -> & _)%list_elem_of_fmap).
      destruct (aget ss i) as [s|]; [|by apply elem_of_nil in Hp']. cbn in Hp'. unfold disk_post in Hp'.
      destruct (s_disk s); [|by apply elem_of_nil in Hp']. by apply list_elem_of_singleton in Hp' as ->.
Qed.
End readers.

(** ** Replication *)

(** Every disk that is left holds every page written since its slab was mapped. *)
Record replicated (cfg : config) (st : system) (d : device) : Prop := {
  rl_dom : dom d = st_written st;
  rl_pages : ∀ p page i c ck, d !! p = Some page → 0 <= i < NDISKS cfg →
    st_maps st (slab_of cfg p * NDISKS cfg + i) = Some (c, ck) →
    rdma_read (st_mem st) c (place cfg ck (offset_of cfg p)) IS_PAGE_SIZE = page
}.

Definition copies (cfg : config) : list byte := replicate (Z.to_nat (NDISKS cfg)) x01.
Lemma copies_coded cfg : config_ok cfg → build cfg = REP → NDATAS cfg = 1 → coded cfg (copies cfg).
Proof.
  intros Hcfg Hrep Hone. pose proof (cfg_NDATAS _ Hcfg). split; [lia|apply Hcfg|]. rewrite Hrep. split; [done|].
  intros r Hr. unfold cell, copies. apply bget_Some, aget_replicate. lia.
Qed.

Lemma represents_replicated cfg st d :
  config_ok cfg → build cfg = REP → NDATAS cfg = 1 → represents cfg (copies cfg) st d → replicated cfg st d.
Proof.
  intros Hcfg Hrep Hone [_ Hdom Hl Hr]. pose proof (copies_coded cfg Hcfg Hrep Hone) as Hcoded. split; [done|].
  intros p page i c ck Hp Hi Hx. destruct (share_size cfg (copies cfg) Hcoded) as [Hs _].
  rewrite <- (stripe_rep cfg (copies cfg) Hcoded page i Hrep Hi (Hl _ _ Hp)), <- (Hr p page i c ck Hp Hi Hx). f_equal. lia.
Qed.

(** C5: The replicated block device keeps pages.  One request at a time, each write finding the
    disks of its slab in different pools ([placed]), their servers up and at least one of them
    there, and each read being of a page that was written and of a slab whose first disk is left, on a server that is
    up and answers with what its memory holds (with the first disk lost a read returns
    stale bytes, [degraded_read_stale]), with the contexts of the slab's slots free and fault
    injection off: whatever the order in which pages are written and read, disks are lost
    and empty slabs mapped anew, the requests that the block layer sees are those of a map
    from page numbers to pages.  Each write is accepted and ended once, and so is each read,
    with the page last written there; and afterwards every disk that is left holds every
    page. *)
Theorem device_refined cfg post_ret m mem evs st :
  config_ok cfg → build cfg = REP → NDATAS cfg = 1 → (∀ n, post_ret n = 0) → maps_apart m →
  run (step cfg post_ret (replica_left cfg)) {| st_mem := mem; st_maps := m; st_written := ∅ |} evs st →
  ∃ d, run (device_step (slab_of cfg)) ∅ evs d ∧ replicated cfg st d.
Proof.
  intros Hcfg Hrep Hone Hpost Hm Hrun. pose proof (copies_coded cfg Hcfg Hrep Hone) as Hcoded.
  pose proof (replica_reader cfg post_ret (copies cfg) Hcoded Hpost Hrep) as Hreader.
  destruct (run_represents cfg post_ret (copies cfg) Hcfg Hcoded Hpost (replica_left cfg)
    {| st_mem := mem; st_maps := m; st_written := ∅ |} ∅ evs st) as (d & Hd & HR); [by split|done|].
  exists d. split; [done|by apply represents_replicated].
Qed.

(** ** Erasure coding *)

(** The erasure-coded device keeps pages, where its tables are set as the sources document. *)
Theorem stripe_device_refined cfg post_ret enc e m mem evs st :
  config_ok cfg → build cfg = EC e → kernels e → encode_set cfg e enc → (∀ n, post_ret n = 0) → maps_apart m →
  run (step cfg post_ret (stripe_left cfg enc e)) {| st_mem := mem; st_maps := m; st_written := ∅ |} evs st →
  ∃ d, run (device_step (slab_of cfg)) ∅ evs d ∧ represents cfg enc st d.
Proof.
  intros Hcfg Hec Hker Hset Hpost Hm Hrun.
  pose proof (stripe_reader cfg post_ret enc Hpost e Hcfg Hec Hker Hset) as Hreader.
  eapply run_represents; [done|by eapply encode_set_coded|done..| |exact Hrun]. by split.
Qed.

(** * A page survives losses *)

Lemma test_home cfg out x d : home (test_session cfg out) x = Some d → 0 <= x < NDISKS cfg ∧ out x = false ∧ d = (x, test_remote x).
Proof.
  unfold home, lookup_target. change (cb_index_map (test_session cfg out)) with ((λ d, if out d then NO_CB_MAPPED else d) <$> disks cfg).
  rewrite aget_map. intros H. destruct (aget (disks cfg) x) as [y|] eqn:E; [|done].
  pose proof (aget_lt _ _ _ E) as Hx. unfold disks, alen in Hx. rewrite length_seqZ in Hx.
  unfold disks in E. rewrite seqZ_at in E by lia. injection E as <-. cbn in H.
  split; [lia|]. revert H. rewrite Z.add_0_l. destruct (out x); [done|]. intros H. split; [done|].
  assert ((x =? NO_CB_MAPPED) = false) as Hn by (apply Z.eqb_neq; unfold NO_CB_MAPPED; lia). rewrite Hn in H. cbn in H.
  change (cb_list _) with (test_cb <$> disks cfg) in H. change (chunk_map_cb_chunk _) with ((λ _, 0) <$> disks cfg) in H.
  rewrite !aget_disks in H by lia. cbn in H. by injection H as <-.
Qed.

Lemma test_maps_apart cfg out : NDISKS cfg <= 256 → maps_apart (home (test_session cfg out)).
Proof.
  intros Hn. split.
  - intros x c ck (Hx & _ & [= -> ->])%test_home. cbn. unfold ONE_GB. lia.
  - intros x y c ck ck' Hne (_ & _ & [= -> _])%test_home (_ & _ & [= -> _])%test_home. done.
Qed.

Lemma test_homes out x d : home (test_session ec_test out) x = Some d → home (test_session ec_test none_out) x = Some d.
Proof.
  intros (Hx & _ & ->)%test_home. revert x Hx. by apply six.
Qed.
Lemma rep_homes out x d : home (test_session rep out) x = Some d → home (test_session rep none_out) x = Some d.
Proof.
  intros (Hx & _ & ->)%test_home. change (NDISKS rep) with 3 in Hx.
  assert (x = 0 ∨ x = 1 ∨ x = 2) as [->|[->| ->]] by lia; done.
Qed.

Lemma test_for_page write : for_page ec_test 2 (test_rq write).
Proof. split; [done|done|]. by unfold in_device. Qed.

Lemma test_write_request : write_request ec_test (test_slots ec_test none_out) 0 (test_rq true) test_page (write_world ec_test none_out).
Proof.
  split; [apply test_placed|reflexivity|reflexivity|reflexivity|exact test_page_len|reflexivity|reflexivity| |vm_compute; discriminate].
  intros s. by apply test_writable.
Qed.

Lemma rep_for_page write : for_page rep 2 (test_rq write).
Proof. split; [done|done|]. by unfold in_device. Qed.
Lemma rep_write_request : write_request rep (test_slots rep none_out) 0 (test_rq true) test_page (write_world rep none_out).
Proof.
  split; [apply test_placed|reflexivity|reflexivity|reflexivity|exact test_page_len|reflexivity|reflexivity| |vm_compute; discriminate].
  intros s. by apply test_writable.
Qed.

(** The memory after the write answers the read of a state in which two servers are lost. *)
Lemma test_stripe_left mem v :
  IS_queue_rq ec_test (λ _, 0) 0 (write_world ec_test none_out) = Ret (BLK_MQ_RQ_QUEUE_OK, v) →
  stripe_left ec_test ec_enc ec_test_env (after (write_world ec_test none_out) mem (Ret (BLK_MQ_RQ_QUEUE_OK, v)))
    (test_slots ec_test two_out) (test_rq false) (stripe_world test_page).
Proof.
  intros E. destruct ec_written as (v1 & E1 & Hv). assert (v1 = v) as -> by congruence. clear E E1.
  split; [apply stripe_world_able|]. intros s ci ck [i Es]%elem_of_aget Ed.
  destruct (none_out_survivors ec_test two_out i s _ Es Ed) as (t & Et & Ep & Ed').
  pose proof (written_memory ec_test ec_enc ec_coded 0 _ _ _ _ _ _ v mem i t ci ck (test_placed ec_test none_out) Hv Et Ed') as Hh.
  unfold held in *. rewrite Ep in Hh. change (conn_id (test_rq false)) with 0.
  change (chunk_offset ec_test (test_rq false)) with 8192. unfold after. rewrite Hh. by apply stripe_world_delivers.
Qed.

(** The page is read from the first replica when the others are lost. *)
Lemma rep_replica_left mem v :
  IS_queue_rq rep (λ _, 0) 0 (write_world rep none_out) = Ret (BLK_MQ_RQ_QUEUE_OK, v) →
  replica_left rep (after (write_world rep none_out) mem (Ret (BLK_MQ_RQ_QUEUE_OK, v)))
    (test_slots rep first_left) (test_rq false) (read_world_of test_page first_left 0).
Proof.
  intros E. destruct rep_written as (v1 & E1 & Hv). assert (v1 = v) as -> by congruence. clear E E1.
  exists (test_slot first_left 0), 0, (test_remote 0). change (chunk_offset rep (test_rq false)) with 8192.
  change (held rep ?m (test_slot first_left 0) ?k ?o) with (held rep m (test_slot none_out 0) k o).
  unfold after. rewrite (first_replica_memory mem v Hv). by apply first_left_readable.
Qed.

Lemma device_refined_witness :
  ∃ evs st d, run (step rep (λ _, 0) (replica_left rep))
      {| st_mem := λ _ _, x00; st_maps := home (test_session rep none_out); st_written := ∅ |} evs st ∧
    run (device_step (slab_of rep)) ∅ evs d ∧ replicated rep st d ∧
    evs = [Write 2 test_page (Some test_page); Lose; Read 2 (Some test_page)] ∧
    st_maps st = home (test_session rep first_left).
Proof.
  destruct rep_written as (v & E & _). pose proof (rep_replica_left (λ _ _, x00) v E) as Hleft. set (mem := after _ _ _) in Hleft.
  assert (run (step rep (λ _, 0) (replica_left rep))
    {| st_mem := λ _ _, x00; st_maps := home (test_session rep none_out); st_written := ∅ |}
    [Write 2 test_page (seen 0 (test_rq true) (Ret (BLK_MQ_RQ_QUEUE_OK, v))); Lose;
     Read 2 (seen 0 (test_rq false) (IS_queue_rq rep (λ _, 0) 0 (read_world_of test_page first_left 0)))]
    {| st_mem := after (read_world_of test_page first_left 0) mem (IS_queue_rq rep (λ _, 0) 0 (read_world_of test_page first_left 0));
       st_maps := home (test_session rep first_left); st_written := {[2]} ∪ ∅ |}) as Hrun.
  { eapply run_cons; [|eapply run_cons; [|eapply run_cons; [|apply run_nil]]].
    - eapply step_write; [apply rep_for_page|exact rep_write_request|reflexivity|symmetry; exact E].
    - apply (step_lose rep _ _ mem mem (home (test_session rep none_out)) (home (test_session rep first_left)) ({[2]} ∪ ∅));
        [exact (rep_homes first_left)|intros x c ck a _ _; reflexivity].
    - eapply step_read; [set_solver|apply rep_for_page|apply test_read_request|exact Hleft|reflexivity|reflexivity]. }
  eexists _, _. destruct (device_refined rep (λ _, 0) (home (test_session rep none_out)) (λ _ _, x00) _ _ rep_ok eq_refl eq_refl
    (λ _, eq_refl) (test_maps_apart rep none_out ltac:(done)) Hrun) as (d & Hd & Hst).
  exists d. clear - Hrun Hd Hst. split_and!; [exact Hrun|exact Hd|exact Hst| |reflexivity].
  destruct (last_written _ ∅ [] [Lose] 2 test_page _ _ d Hd) as [-> ->]; [by repeat constructor|done].
Defined.

(** The erasure-coded page is read when two servers are lost. *)
Lemma stripe_device_refined_witness :
  ∃ evs st d, run (step ec_test (λ _, 0) (stripe_left ec_test ec_enc ec_test_env))
      {| st_mem := λ _ _, x00; st_maps := home (test_session ec_test none_out); st_written := ∅ |} evs st ∧
    run (device_step (slab_of ec_test)) ∅ evs d ∧ represents ec_test ec_enc st d ∧
    evs = [Write 2 test_page (Some test_page); Lose; Read 2 (Some test_page)] ∧
    st_maps st = home (test_session ec_test two_out).
Proof.
  destruct ec_written as (v & E & _). pose proof (test_stripe_left (λ _ _, x00) v E) as Hleft.
  set (mem := after _ _ _) in Hleft.
  assert (run (step ec_test (λ _, 0) (stripe_left ec_test ec_enc ec_test_env))
    {| st_mem := λ _ _, x00; st_maps := home (test_session ec_test none_out); st_written := ∅ |}
    [Write 2 test_page (seen 0 (test_rq true) (Ret (BLK_MQ_RQ_QUEUE_OK, v))); Lose;
     Read 2 (seen 0 (test_rq false) (IS_queue_rq ec_test (λ _, 0) 0 (stripe_world test_page)))]
    {| st_mem := after (stripe_world test_page) mem (IS_queue_rq ec_test (λ _, 0) 0 (stripe_world test_page));
       st_maps := home (test_session ec_test two_out); st_written := {[2]} ∪ ∅ |}) as Hrun.
  { eapply run_cons; [|eapply run_cons; [|eapply run_cons; [|apply run_nil]]].
    - eapply step_write; [apply test_for_page|exact test_write_request|reflexivity|symmetry; exact E].
    - apply (step_lose ec_test _ _ mem mem (home (test_session ec_test none_out)) (home (test_session ec_test two_out)) ({[2]} ∪ ∅));
        [exact (test_homes two_out)|intros x c ck a _ _; reflexivity].
    - eapply step_read; [set_solver|apply test_for_page|exact stripe_world_request|exact Hleft|reflexivity|reflexivity]. }
  eexists _, _. destruct (stripe_device_refined ec_test (λ _, 0) ec_enc ec_test_env (home (test_session ec_test none_out)) (λ _ _, x00) _ _
    (ec_ok ec_test_env) eq_refl (env_kernels _ _ _ _) (env_encode_set _ _ _ _) (λ _, eq_refl) (test_maps_apart ec_test none_out ltac:(done)) Hrun)
    as (d & Hd & Hst).
  exists d. clear - Hrun Hd Hst. split_and!; [exact Hrun|exact Hd|exact Hst| |reflexivity].
  destruct (last_written _ ∅ [] [Lose] 2 test_page _ _ d Hd) as [-> ->]; [by repeat constructor|done].
Defined.
