(* ===== verification/Retry.v ===== *)
(** The loss of a server while a read is in flight: [IS_disconnect_handler] together with the
    read path ([is_main.c]).  The handler marks the server as failed, runs the detector,
    unmaps its slabs, gives back the contexts that were in flight to it and issues their
    requests again; here its steps meet the reads of [EcRead] and [ReadPath]. *)

From S2P Require Import Prelude GF256 GFVect GFMatrix Decode Cauchy Config MT Fault State CtxPool Chunks Store Transfer Completion Slots Stripe WritePath Reads ReadPath EcRead Failure Recovery.

(** * The slab without the lost server *)

(** [ss'] is [ss] without the disks on server [c]. *)
Record without_server (c : Z) (ss ss' : list slot) : Prop := {
  ws_len : alen ss' = alen ss;
  ws_slot : ∀ i s, aget ss i = Some s → ∃ s', aget ss' i = Some s' ∧
    s_disk s' = (if decide (s_pool s = c) then None else s_disk s) ∧ (mapped s' = true → s_pool s' = s_pool s)
}.

Lemma without_target c ss ss' i s :
  without_server c ss ss' → aget ss i = Some s → ∃ s', aget ss' i = Some s' ∧
    target_of s' = if decide (s_pool s = c) then {| t_cb := NO_CB_MAPPED; t_cb_ptr := None; t_chunk_index := 0; t_chunk := None |}
                   else target_of s.
Proof.
  intros [_ H] Es. destruct (H i s Es) as (s' & Es' & Ed & Ep). exists s'. split; [done|]. unfold target_of, mapped in *.
  rewrite Ed in Ep |- *. case_decide as Hc; [done|]. destruct (s_disk s) as [[ci ck]|]; [|done]. by rewrite Ep.
Qed.

(** Requests that come after the unmapping find the slab without that server. *)
Lemma lookup_lost cfg c s t slab ss ss' :
  lookup_targets cfg s slab = Some (target_of <$> ss) → alen ss = NDISKS cfg → without_server c ss ss' → c ≠ NO_CB_MAPPED →
  (∀ x v, slab_map s x = Some v → slab_map t x = Some (if decide (v = c) then NO_CB_MAPPED else v)) →
  chunk_map_cb_chunk t = chunk_map_cb_chunk s → (∀ d, d ≠ c → aget (cb_list t) d = aget (cb_list s) d) →
  (∀ r, r ∈ ss → mapped r = true) → lookup_targets cfg t slab = Some (target_of <$> ss').
Proof.
  intros E Hlen Hw Hc Hm Hk Hcb Hall.
  apply lookup_targets_Some; [unfold alen in *; rewrite length_fmap; pose proof (ws_len _ _ _ Hw); unfold alen in *; lia|].
  intros i Hi. pose proof (lookup_targets_aget cfg s slab _ i E Hi) as El.
  destruct (proj2 (aget_is_Some ss i)) as [r Er]; [lia|].
  assert (mapped r = true) as Hmr by (apply Hall; by eapply aget_elem).
  destruct (without_target c ss ss' i r Hw Er) as (r' & Er' & Et). rewrite aget_map, Er in El. cbn in El.
  rewrite aget_map, Er'. cbn. rewrite Et. clear Et. unfold lookup_target in *. unfold target_of in *. unfold mapped in Hmr.
  destruct (s_disk r) as [[ci ck]|]; [|done].
  destruct (aget (cb_index_map s) (slab * NDISKS cfg + i)) as [v|] eqn:Ev; [|done]. rewrite (Hm _ _ Ev), Hk. cbn in El |- *.
  destruct (Z.eqb_spec v NO_CB_MAPPED) as [->|Hv]; cbn [negb] in El; [done|].
  apply bind_Some in El as (cb & Ecb & El). apply bind_Some in El as (j & Ej & El). rewrite Ej.
  assert (s_pool r = v) as Hp.
  { destruct (negb (j =? -1)); [apply bind_Some in El as (? & _ & [=])|injection El as ->]; done. }
  rewrite Hp in *. case_decide; [by subst v|].
  rewrite (proj2 (Z.eqb_neq v NO_CB_MAPPED)) by done. cbn [negb]. rewrite Hcb, Ecb by done. step_bind. exact El.
Qed.

(** * The handler up to the retries *)

(** The session once the server counts as failed. *)
Definition failed (s : session) (c : Z) : session := s <| cb_state_list := <[Z.to_nat c := CB_FAIL]> (cb_state_list s) |>.

Lemma failed_maps cfg s c : maps_ok cfg s → maps_ok cfg (failed s c).
Proof. intros [H1 H2 H3 H4 H5 H6 H7 H8]. split; try done. cbn. by rewrite alen_insert. Qed.

Lemma disconnect_unmap_frame s c t :
  disconnect_unmap s c = Some t → IS_conns t = IS_conns s ∧ IS_fault_injection t = IS_fault_injection s.
Proof.
  intros E. unfold disconnect_unmap in E.
  eapply (for_up_keeps (λ t, IS_conns t = IS_conns s ∧ IS_fault_injection t = IS_fault_injection s)); [exact E|done|].
  intros i u u' _ [H1 H2] Eb. apply bind_Some in Eb as (cb & _ & Eb). apply bind_Some in Eb as (x & _ & Eb).
  destruct (negb (x =? -1)); [|by injection Eb as <-].
  apply bind_Some in Eb as (u1 & E1 & Eb). apply bind_Some in Eb as (m & _ & [= <-]). cbn.
  unfold with_cb in E1. apply bind_Some in E1 as (cb1 & _ & E1). apply bind_Some in E1 as (cb2 & _ & E1).
  by apply bind_Some in E1 as (l & _ & [= <-]).
Qed.

(** One turn of the scan. *)
#[local] Abbreviation turn cfg post_ret c i j err := (
  let r := {| rf_conn := i; rf_pool := c; rf_ix := j |} in
  ctx ← get_ctx r;
  if in_flight ctx =? CTX_R_IN_FLIGHT then
    IS_insert_ctx r;;
    ctx ← get_ctx r; req ← deref (ctx_req ctx);
    IS_request cfg post_ret req
  else if in_flight ctx =? CTX_W_IN_FLIGHT then IS_insert_ctx r;; mret err
  else mret err) (only parsing).

Section handler.
Context (cfg : config) (post_ret : Z → Z) (submit_queues : Z).

(** The session [t] in which the requests are issued again. *)
Record taken_down (s : session) (c : Z) (cb : kernel_cb) (t : session) : Prop := {
  td_unmapping : unmapping (failed s c) t c cb;
  td_len : alen (cb_index_map t) = alen (cb_index_map s);
  td_map : ∀ x v, slab_map s x = Some v → slab_map t x = Some (if decide (v = c) then NO_CB_MAPPED else v);
  td_conns : IS_conns t = IS_conns s;
  td_fault : IS_fault_injection t = IS_fault_injection s
}.

Lemma taken_down_cb s c cb t d : taken_down s c cb t → d ≠ c → aget (cb_list s) c = Some cb → aget (cb_list t) d = aget (cb_list s) d.
Proof.
  intros [[(cb' & -> & _) _ _ _ _] _ _ _ _] Hd Hcb. rewrite aget_insert by (by eapply aget_lt). by rewrite decide_False.
Qed.

(** The handler, given what the retries do: everything else of it succeeds, and leaves the
    maps consistent and without the server. *)
Lemma handler_Ret c cb st d w :
  maps_ok cfg (sess w) → aget (cb_list (sess w)) c = Some cb → cb_ok cb →
  aget (cb_state_list (sess w)) c = Some st → st ≠ CB_CONNECTED → detect cfg (failed (sess w) c) (det w) = Some d →
  ∃ t, taken_down (sess w) c cb t ∧
    IS_disconnect_handler cfg post_ret submit_queues c w =
      (err ← retry_requests cfg post_ret submit_queues c; on_sess (λ s, disconnect_free s c);; mret err)
        (w <| sess := t |> <| det := d |>).
Proof.
  intros Hok Hcb Hcok Est Hst Ed. pose proof (aget_lt _ _ _ Hcb) as Hc. destruct (m_cb _ _ Hok c cb Hcb) as [Eix _].
  pose proof (aget_lt _ _ _ Est) as Hcs.
  destruct (disconnect_unmap_correct cfg (failed (sess w) c) c cb (failed_maps cfg _ c Hok) Hcb Hcok) as (t & Et & Hun & Hl & Hx).
  destruct (disconnect_unmap_frame _ _ _ Et) as [Fc Ff]. destruct Hun as [(cb' & Ecb & E1 & E2 & E3 & Hcb') U2 U3 U4 U5].
  set (t1 := t <| cb_list := <[Z.to_nat c := cb' <| chunk_size_g := 0 |>]> (cb_list t) |>).
  exists t1. split.
  - split; [|done..]. split; [|done..]. exists (cb' <| chunk_size_g := 0 |>). subst t1. cbn. rewrite Ecb, list_insert_insert_eq.
    split_and!; try done. by destruct Hcb'.
  - unfold IS_disconnect_handler. erewrite M_bind_Ret by (by apply get_cb_Ret). rewrite Eix.
    erewrite M_bind_Ret by (by apply get_cb_state_Ret). rewrite decide_False by done.
    assert (set_cb_state c CB_FAIL w = Ret ((), w <| sess := failed (sess w) c |>)) as E.
    { unfold set_cb_state. erewrite M_bind_Ret by done. by erewrite M_bind_Ret by (unfold lift; by rewrite aset_Some by lia). }
    erewrite M_bind_Ret by exact E. erewrite M_bind_Ret by done. set (w1 := w <| sess := failed (sess w) c |>).
    assert (detect cfg (sess w1) (det w1) = Some d) as Ed1 by exact Ed.
    erewrite M_bind_Ret by (unfold lift; by rewrite Ed1). erewrite M_bind_Ret by done.
    assert (∀ (u : world) s', disconnect_unmap (sess u) c = Some s' → on_sess (λ s, disconnect_unmap s c) u = Ret ((), u <| sess := s' |>)) as Hon.
    { intros u s' Es. unfold on_sess. erewrite M_bind_Ret by done. by erewrite M_bind_Ret by (unfold lift; by rewrite Es). }
    erewrite M_bind_Ret by (apply Hon; exact Et).
    assert (aget (cb_list t) c = Some cb') as Hcb1 by (rewrite Ecb, aget_insert by done; by rewrite decide_True).
    erewrite M_bind_Ret.
    2: { unfold upd_cb. erewrite M_bind_Ret by (apply get_cb_Ret; exact Hcb1). unfold set_cb. erewrite M_bind_Ret by done.
         by erewrite M_bind_Ret by (unfold lift; by rewrite aset_Some by (by eapply aget_lt)). }
    reflexivity.
Qed.

(** ** The scan *)

(** All contexts of server [c] but [ix] of connection [conn] are idle. *)
Definition one_in_flight (c conn ix : Z) (cs : list connection) : Prop :=
  ∀ i j, 0 <= i < submit_queues → 0 <= j < IS_QUEUE_DEPTH →
    ∃ x, ctx_of cs {| rf_conn := i; rf_pool := c; rf_ix := j |} = Some x ∧
      in_flight x = if decide (i = conn ∧ j = ix) then CTX_R_IN_FLIGHT else CTX_IDLE.

Lemma idle_turn c i j err x w :
  ctx_of (conns_of w) {| rf_conn := i; rf_pool := c; rf_ix := j |} = Some x → in_flight x = CTX_IDLE →
  (turn cfg post_ret c i j err : M world Z) w = Ret (err, w).
Proof. intros Ex Hx. cbv zeta. erewrite M_bind_Ret by (by apply get_ctx_Ret). by rewrite Hx. Qed.

(** The one request in flight is issued again, and nothing else happens. *)
Lemma retry_Ret c conn ix x req u cs v :
  0 <= conn < submit_queues → 0 <= ix < IS_QUEUE_DEPTH → one_in_flight c conn ix (conns_of u) →
  ctx_of (conns_of u) {| rf_conn := conn; rf_pool := c; rf_ix := ix |} = Some x → ctx_req x = Some req →
  IS_insert_ctx {| rf_conn := conn; rf_pool := c; rf_ix := ix |} u = Ret ((), with_conns u cs) →
  (∀ r, ctx_of cs r = ctx_of (conns_of u) r) →
  IS_request cfg post_ret req (with_conns u cs) = Ret (0, v) →
  (∀ i j, i ≠ conn ∨ j ≠ ix → ctx_of (conns_of v) {| rf_conn := i; rf_pool := c; rf_ix := j |} =
     ctx_of (conns_of u) {| rf_conn := i; rf_pool := c; rf_ix := j |}) →
  retry_requests cfg post_ret submit_queues c u = Ret (0, v).
Proof.
  intros Hconn Hix Hone Ex Hreq Eins Hcs Ereq Hrest.
  assert (∀ i j y, 0 <= i < submit_queues → 0 <= j < IS_QUEUE_DEPTH → i ≠ conn ∨ j ≠ ix → y = u ∨ y = v →
    (turn cfg post_ret c i j 0 : M world Z) y = Ret (0, y)) as Hidle.
  { intros i j y Hi Hj Hne Hy. destruct (Hone i j Hi Hj) as (z & Ez & Hz). rewrite decide_False in Hz by lia.
    apply (idle_turn c i j 0 z); [|done]. destruct Hy as [->| ->]; [done|]. by rewrite Hrest. }
  unfold retry_requests. apply (loop_one _ 0 conn submit_queues 0 0 u v); [done| | |].
  - intros i Hi. apply loop_idle; [done|]. intros j Hj. apply Hidle; [lia|done|lia|by left].
  - apply (loop_one _ 0 ix IS_QUEUE_DEPTH 0 0 u v); [done| | |].
    + intros j Hj. apply Hidle; [done|lia|lia|by left].
    + destruct (Hone conn ix Hconn Hix) as (z & Ez & Hz). assert (z = x) as -> by congruence. rewrite decide_True in Hz by done.
      cbv zeta. erewrite M_bind_Ret by (by apply get_ctx_Ret). rewrite Hz. change (CTX_R_IN_FLIGHT =? CTX_R_IN_FLIGHT) with true. cbv iota.
      erewrite M_bind_Ret by exact Eins. erewrite M_bind_Ret by (apply get_ctx_Ret; rewrite conns_of_with, Hcs; exact Ex).
      rewrite Hreq. by erewrite M_bind_Ret by done.
    + intros j Hj. apply Hidle; [done|lia|lia|by right].
  - intros i Hi. apply loop_idle; [done|]. intros j Hj. apply Hidle; [lia|done|lia|by right].
Qed.
End handler.

(** * The lost read *)

(** The server of a disk is the one its session chunk is mapped to. *)
Lemma slab_server cfg s slab ss i r :
  lookup_targets cfg s slab = Some (target_of <$> ss) → alen ss = NDISKS cfg → aget ss i = Some r → mapped r = true →
  slab_map s (slab * NDISKS cfg + i) = Some (s_pool r).
Proof.
  intros E Hlen Er Hm. pose proof (aget_lt _ _ _ Er). pose proof (lookup_targets_aget cfg s slab _ i E ltac:(lia)) as El.
  rewrite aget_map, Er in El. cbn in El. unfold lookup_target in El. unfold target_of in El. unfold mapped in Hm.
  destruct (s_disk r) as [[ci ck]|]; [|done].
  destruct (aget (cb_index_map s) (slab * NDISKS cfg + i)) as [v|] eqn:Ev; [|done]. cbn in El.
  destruct (negb (v =? NO_CB_MAPPED)); [|done].
  apply bind_Some in El as (cb & _ & El). apply bind_Some in El as (j & _ & El).
  destruct (negb (j =? -1)); [apply bind_Some in El as (? & _ & [=])|injection El as ?]; congruence.
Qed.

Section lost.
Context (cfg : config) (post_ret : Z → Z) (submit_queues : Z) (Hcfg : config_ok cfg).

(** Server [c], which is about to be lost, holds a disk of slab 0, the others are on servers
    that are up; one context of its pools is in flight, context [ix] of the connection of the
    read request [req]; and the contexts the read needs when it is issued again are free. *)
Record losing (c ix : Z) (ss ss' : list slot) (req : nat) (rq : request) (old : list byte) (w : world) : Prop := {
  lo_maps : maps_ok cfg (sess w);
  lo_cb : ∃ cb, aget (cb_list (sess w)) c = Some cb ∧ cb_ok cb;
  lo_state : ∃ st, aget (cb_state_list (sess w)) c = Some st ∧ st ≠ CB_CONNECTED;
  lo_slots : alen ss = NDISKS cfg;
  lo_targets : lookup_targets cfg (sess w) 0 = Some (target_of <$> ss);
  lo_alive : ∀ s, s ∈ ss → mapped s = true ∧
    ∃ st, aget (cb_state_list (sess w)) (s_pool s) = Some st ∧ (s_pool s ≠ c → st ≠ CB_FAIL);
  lo_det : alen (src_in_err (det w)) = NDISKS cfg ∧ alen (src_err_list (det w)) = NDISKS cfg;
  lo_left : without_server c ss ss';
  lo_placed : placed ss';
  lo_req : reqs w !! req = Some rq;
  lo_read : rq_write rq = false;
  lo_bio : rq_bio rq = [[old]];
  lo_old : alen old = IS_PAGE_SIZE;
  lo_slab : slab_index cfg rq = 0;
  lo_range : 0 <= conn_id rq < submit_queues ∧ 0 <= ix < IS_QUEUE_DEPTH;
  lo_one : one_in_flight submit_queues c (conn_id rq) ix (conns_of w);
  lo_ctx : ∃ x, ctx_of (conns_of w) {| rf_conn := conn_id rq; rf_pool := c; rf_ix := ix |} = Some x ∧ ctx_req x = Some req ∧
    alen (rdma_buf x) = cb_size cfg ∧ alen (ctxs x) = NDISKS cfg;
  lo_room : ∃ f, free_ctxs <$> pool_of (conns_of w) (conn_id rq) c = Some f ∧ -1 <= pool_tail f < alen (ctx_list f) - 1;
  lo_ready : ∀ t, t ∈ ss' → if decide (s_pool t = c) then s_ix t = ix else ready cfg (conns_of w) (conn_id rq) t
}.

Section losing.
Context (c ix : Z) (ss ss' : list slot) (req : nat) (rq : request) (old : list byte) (w : world).
Context (Hlo : losing c ix ss ss' req rq old w).

Lemma lost_slot i : 0 <= i < NDISKS cfg → ∃ s st, aget ss i = Some s ∧ mapped s = true ∧ slab_map (sess w) i = Some (s_pool s) ∧
  aget (cb_state_list (sess w)) (s_pool s) = Some st ∧ (s_pool s ≠ c → st ≠ CB_FAIL).
Proof using Hlo.
  intros Hi. destruct (proj2 (aget_is_Some ss i)) as [s Es]; [by rewrite (lo_slots _ _ _ _ _ _ _ _ Hlo)|].
  destruct (lo_alive _ _ _ _ _ _ _ _ Hlo s) as (Hm & st & Est & Hst); [by eapply aget_elem|]. exists s, st. split_and!; try done.
  apply (slab_server cfg (sess w) 0 ss i s); try done; apply Hlo.
Qed.

(** The lost disks are those of the servers marked as failed. *)
Lemma up_lost i : 0 <= i < NDISKS cfg → up ss' no_fault i = negb (lost (failed (sess w) c) i).
Proof using Hlo.
  intros Hi. destruct (lost_slot i Hi) as (s & st & Es & Hm & Emap & Est & Hst). pose proof (aget_lt _ _ _ Est) as Hp.
  destruct (ws_slot _ _ _ (lo_left _ _ _ _ _ _ _ _ Hlo) i s Es) as (s' & Es' & Ed & _).
  unfold up, lost. rewrite Es', serves_mapped. cbn. rewrite Emap. unfold mapped in *. rewrite Ed.
  destruct (lo_state _ _ _ _ _ _ _ _ Hlo) as (stc & Ec & _). pose proof (aget_lt _ _ _ Ec).
  rewrite aget_insert by done. destruct (decide (c = s_pool s)) as [->|Hne].
  - rewrite decide_True by done. by rewrite bool_decide_true.
  - rewrite decide_False, Est by done. destruct (s_disk s); [|done]. rewrite bool_decide_false; [done|]. by apply Hst.
Qed.

Lemma lost_all_mapped : all_mapped cfg (failed (sess w) c).
Proof using Hlo.
  intros i Hi. destruct (lost_slot i Hi) as (s & st & Es & Hm & Emap & Est & _). exists (s_pool s). split; [done|].
  cbn. rewrite alen_insert. by eapply aget_lt.
Qed.

Lemma left_pool i s' : aget ss' i = Some s' → mapped s' = true → s_pool s' ≠ c.
Proof using Hlo.
  intros Es' Hm. destruct (lo_left _ _ _ _ _ _ _ _ Hlo) as [Hl H]. pose proof (aget_lt _ _ _ Es') as Hi.
  destruct (proj2 (aget_is_Some ss i)) as [s Es]; [lia|]. destruct (H i s Es) as (s'' & E & Ed & Ep).
  assert (s'' = s') as -> by congruence. rewrite (Ep Hm). intros Hc. unfold mapped in Hm. rewrite Ed, decide_True in Hm; done.
Qed.

(** The world the request is issued again in: the server is down, the detector has run and
    the context is back in its pool. *)
Definition retrying (t : session) (d : detector) (cs : list connection) : world :=
  with_conns (w <| sess := t |> <| det := d |>) cs.

Lemma retrying_usable cb t d cs p :
  taken_down (sess w) c cb t → aget (cb_list (sess w)) c = Some cb → p ≠ c → usable (sess w) p → usable (sess (retrying t d cs)) p.
Proof using Hlo.
  intros Ht Hcb Hp (cbp & st & Ep & He & Est & Hst). exists cbp, st. cbn.
  rewrite (taken_down_cb _ _ _ _ p Ht Hp Hcb). split_and!; try done.
  rewrite (un_states _ _ _ _ (td_unmapping _ _ _ _ Ht)). cbn. destruct (m_cb _ _ (lo_maps _ _ _ _ _ _ _ _ Hlo) p cbp Ep) as [-> _].
  destruct (lo_state _ _ _ _ _ _ _ _ Hlo) as (stc & Ec & _). rewrite aget_insert by (by eapply aget_lt). rewrite decide_False by done.
  by destruct (m_cb _ _ (lo_maps _ _ _ _ _ _ _ _ Hlo) p cbp Ep) as [<- _].
Qed.

Lemma retrying_request cb t d cs :
  taken_down (sess w) c cb t → aget (cb_list (sess w)) c = Some cb → read_request cfg ss' req rq old (retrying t d cs).
Proof using Hlo.
  intros Ht Hcb. destruct Hlo. split; try done.
  - rewrite (ws_len _ _ _ lo_left0). done.
  - cbn. rewrite lo_slab0. apply (lookup_lost cfg c (sess w) _ 0 ss ss'); try done.
    + pose proof (aget_lt _ _ _ Hcb). unfold NO_CB_MAPPED. lia.
    + apply (td_map _ _ _ _ Ht).
    + apply (un_slot _ _ _ _ (td_unmapping _ _ _ _ Ht)).
    + intros p Hp. by apply (taken_down_cb _ _ _ _ p Ht Hp Hcb).
    + intros r Hr. by apply lo_alive0.
Qed.

Lemma retrying_ready cs t :
  pushed (conns_of w) cs {| rf_conn := conn_id rq; rf_pool := c; rf_ix := ix |} → t ∈ ss' → ready cfg cs (conn_id rq) t.
Proof using Hlo.
  intros [P1 P2] Ht. pose proof (lo_ready _ _ _ _ _ _ _ _ Hlo t Ht) as Hr. unfold ready, top_free in *. rewrite P2, P1. cbn.
  destruct (decide (s_pool t = c)) as [Hc|Hc].
  - rewrite decide_True by done. destruct (lo_room _ _ _ _ _ _ _ _ Hlo) as (f & Ef & Htl).
    destruct (lo_ctx _ _ _ _ _ _ _ _ Hlo) as (x & Ex & _ & Hb & Hl). rewrite Hc, Ef, Hr. split.
    + unfold pool_insert. cbn. rewrite aset_Some by lia. cbn. eexists. split; [done|]. cbn. split; [lia|].
      by rewrite aget_insert, decide_True by lia.
    + exists x. unfold sref. by rewrite Hc, Hr.
  - rewrite decide_False by (by intros [_ ?]). done.
Qed.

(** The handler succeeds when the read that is issued again does, and the maps are consistent
    again without the server. *)
Lemma losing_Ret :
  ∃ cb t d cs, aget (cb_list (sess w)) c = Some cb ∧ taken_down (sess w) c cb t ∧ detect cfg (failed (sess w) c) (det w) = Some d ∧
    pushed (conns_of w) cs {| rf_conn := conn_id rq; rf_pool := c; rf_ix := ix |} ∧
    ∀ v fi, IS_request cfg post_ret req (retrying t d cs) = Ret (0, v) →
      sess v = (sess (retrying t d cs)) <| IS_conns := conns_of v |> <| IS_fault_injection := fi |> →
      (∀ r, r ∉ sref (conn_id rq) <$> ss' → ctx_of (conns_of v) r = ctx_of cs r) →
      ∃ s', IS_disconnect_handler cfg post_ret submit_queues c w = Ret (0, v <| sess := s' |>) ∧ maps_ok cfg s' ∧
        (∀ x p, slab_map (sess w) x = Some p → slab_map s' x = Some (if decide (p = c) then NO_CB_MAPPED else p)) ∧
        aget (cb_state_list s') c = Some CB_FAIL.
Proof using Hlo Hcfg.
  destruct (lo_cb _ _ _ _ _ _ _ _ Hlo) as (cb & Hcb & Hcok). destruct (lo_state _ _ _ _ _ _ _ _ Hlo) as (st & Est & Hst).
  destruct (lo_det _ _ _ _ _ _ _ _ Hlo) as [HE HL]. pose proof (lo_maps _ _ _ _ _ _ _ _ Hlo) as Hok.
  destruct (detect_detecting cfg (failed (sess w) c) (det w) Hcfg lost_all_mapped HE HL) as (d & _ & Ed & _).
  destruct (handler_Ret cfg post_ret submit_queues c cb st d w) as (t & Ht & Eh); [done..|].
  destruct (lo_ctx _ _ _ _ _ _ _ _ Hlo) as (x & Ex & Hxr & _). destruct (lo_room _ _ _ _ _ _ _ _ Hlo) as (f & Ef & Htl).
  pose proof Ht as [Hun Hlen Hmap Hconns _].
  set (u := w <| sess := t |> <| det := d |>) in *. assert (conns_of u = conns_of w) as Hu by exact Hconns.
  destruct (IS_insert_ctx_Ret u {| rf_conn := conn_id rq; rf_pool := c; rf_ix := ix |} f x) as (cs & Eins & Hpush); [by rewrite Hu..|done|].
  rewrite Hu in Hpush. exists cb, t, d, cs. split_and!; [done..|]. intros v fi Ereq Hs Hoth.
  assert (retry_requests cfg post_ret submit_queues c u = Ret (0, v)) as Eretry.
  { destruct (lo_range _ _ _ _ _ _ _ _ Hlo) as [Hcr Hixr].
    apply (retry_Ret cfg post_ret submit_queues c (conn_id rq) ix x req u cs v); rewrite ?Hu; try done.
    - apply Hlo.
    - apply Hpush.
    - intros i j Hne. rewrite Hoth; [apply Hpush|]. intros (r & Er & Hr)%list_elem_of_fmap. injection Er as Ei Ep Ej.
      pose proof (lo_ready _ _ _ _ _ _ _ _ Hlo r Hr) as Hrr. rewrite decide_True in Hrr by done. lia. }
  destruct (disconnect_free_correct cfg (failed (sess w) c) (sess v) c cb) as (s' & Es' & Hok' & Hfr).
  - by apply failed_maps.
  - done.
  - done.
  - rewrite Hs. destruct Hun. by split.
  - by rewrite Hs.
  - rewrite Hs. exact Hmap.
  - exists s'. split_and!.
    + rewrite Eh. fold u. erewrite M_bind_Ret by exact Eretry. unfold on_sess.
      erewrite M_bind_Ret; [reflexivity|]. erewrite M_bind_Ret by done. by erewrite M_bind_Ret by (unfold lift; by rewrite Es').
    + done.
    + intros y p Hp. rewrite (fg_index _ _ _ _ _ _ Hfr), Hs. by apply Hmap.
    + rewrite (fg_states _ _ _ _ _ _ Hfr), Hs. cbn. rewrite (un_states _ _ _ _ Hun). cbn.
      rewrite aget_insert by (by eapply aget_lt). by rewrite decide_True.
Qed.
End losing.
End lost.

(** What the handler leaves behind. *)
Record handled (cfg : config) (c : Z) (w v : world) : Prop := {
  hd_maps : maps_ok cfg (sess v);
  hd_map : ∀ x p, slab_map (sess w) x = Some p → slab_map (sess v) x = Some (if decide (p = c) then NO_CB_MAPPED else p);
  hd_state : aget (cb_state_list (sess v)) c = Some CB_FAIL
}.

(** A server that is up, of a slab 0 whose disks are all on servers. *)
Definition serving (cfg : config) (s : session) (d : detector) (c : Z) : Prop :=
  maps_ok cfg s ∧ (∃ cb, aget (cb_list s) c = Some cb ∧ cb_ok cb) ∧
  (∃ st, aget (cb_state_list s) c = Some st ∧ st ≠ CB_CONNECTED) ∧ is_Some (detect cfg (failed s c) d).

(** All contexts of server [c] but one are idle. *)
Definition all_idle (submit_queues c conn ix : Z) (cs : list connection) : Prop :=
  ∀ i j, 0 <= i < submit_queues → 0 <= j < IS_QUEUE_DEPTH → i ≠ conn ∨ j ≠ ix →
    ∃ x, ctx_of cs {| rf_conn := i; rf_pool := c; rf_ix := j |} = Some x ∧ in_flight x = CTX_IDLE.

(** All contexts of a pool are free. *)
Definition pool_full (cs : list connection) (conn c : Z) : Prop :=
  ∃ f, free_ctxs <$> pool_of cs conn c = Some f ∧ alen (ctx_list f) <= pool_tail f + 1.

Lemma insert_overruns conn c ix w :
  pool_full (conns_of w) conn c → IS_insert_ctx {| rf_conn := conn; rf_pool := c; rf_ix := ix |} w = Ub.
Proof.
  intros (f & Ef & Hf). unfold IS_insert_ctx. destruct (pool_of (conns_of w) conn c) as [p|] eqn:Ep; [|done]. injection Ef as <-.
  erewrite M_bind_Ret by (by apply get_pool_Ret). cbn [rf_ix]. unfold lift at 1. destruct (aget (ctx_pool p) ix); [|done].
  erewrite M_bind_Ret by done. apply M_bind_Ub. unfold lift, pool_insert. cbn. rewrite (proj2 (aset_None _ _ _)); [done|lia].
Qed.

(** ** Erasure coding *)

Section erasure.
Context (cfg : config) (post_ret : Z → Z) (submit_queues : Z) (enc : list byte) (e : ec_env).
Context (Hcfg : config_ok cfg) (Hcoded : coded cfg enc) (Hec : build cfg = EC e) (Hpost : ∀ n, post_ret n = 0).

(** C11: a server is lost while one erasure-coded read waits for it ([losing]): the read is in
    slab 0, all of whose disks are on servers, none of which but the lost one has failed;
    of the lost server's contexts exactly one is in flight, that of the read, and all the
    others are idle (a context left in flight by an earlier read makes the handler
    undefined, [read_then_loss_overruns]); the maps are consistent, the other contexts the
    read needs are free and fault injection is off.  The encode tables are set as the commented statements of
    [IS_ec_init] would set them, and the decode tables as those of this handler would for
    what its detector finds (no compiled code sets either); the AVX kernels meet their
    contract; and at least [NDATAS] disks are left, on servers that are up and deliver
    the lines of [page].  Then the handler marks the server as failed, finds the lost split,
    unmaps the server's slabs, gives the context back and issues the request again; the
    second read goes to the first [NDATAS] disks that are left, the lost split is rebuilt,
    and the request is ended once, with [page]; afterwards all maps are consistent and
    without the server. *)
Theorem lost_read_retried c ix ss ss' req rq old page w :
  kernels e → encode_set cfg e enc →
  losing cfg submit_queues c ix ss ss' req rq old w → rq_bytes rq = IS_PAGE_SIZE → alen page = IS_PAGE_SIZE →
  NDATAS cfg <= alen (ups ss' no_fault 0 (NDISKS cfg)) →
  inject_fault (IS_fault_injection (sess w)) ≠ 1 → armed cfg (NDATAS cfg) (IS_fault_injection (sess w)) →
  (∀ d, detect cfg (failed (sess w) c) (det w) = Some d → decode_set cfg e enc d) →
  (∀ i s, i ∈ firsts cfg ss' no_fault → aget ss' i = Some s →
     usable (sess w) (s_pool s) ∧ delivers w (s_pool s) (read_wc (sref (conn_id rq) s) (stripe_buf cfg enc page i))) →
  ∃ v, IS_disconnect_handler cfg post_ret submit_queues c w = Ret (0, v) ∧ handled cfg c w v ∧
    reqs v = <[req := ended (rq <| rq_bio := [[page]] |>)]> (reqs w) ∧
    ∃ order, order ≡ₚ firsts cfg ss' no_fault ∧
      posted v = posted w ++ read_posts (conn_id rq) ss' (chunk_offset cfg rq / NDATAS cfg) (cb_size cfg) order.
Proof using Hcfg Hec Hpost.
  intros Hker Hset Hlo Hby Hp Hups Hoff Ha Hdec Hdel. pose proof (encode_set_coded cfg e Hcfg enc Hec Hker Hset) as Hcd.
  destruct (losing_Ret cfg post_ret submit_queues Hcfg c ix ss ss' req rq old w Hlo) as (cb & t & d & cs & Hcb & Ht & Ed & Hpush & Hend).
  set (u := retrying w t d cs) in *.
  destruct (detect_detected cfg (failed (sess w) c) (det w) ss' Hcfg) as (d' & Ed' & Hd).
  { by eapply lost_all_mapped. } { apply Hlo. } { apply Hlo. } { intros i Hi. by eapply up_lost. } { done. }
  assert (d' = d) as -> by congruence.
  destruct (stripe_retry_Ret cfg post_ret enc e Hcd Hec Hpost ss' req rq old page u) as (v & E & [V1 _ V3 [fi V4] _ V5 _]); [|done|done| |].
  { by eapply retrying_request. }
  { split; [split|].
    - intros s Hs. by eapply retrying_ready.
    - cbn. by rewrite (td_fault _ _ _ _ Ht).
    - cbn. by rewrite (td_fault _ _ _ _ Ht).
    - exact Hd.
    - intros _. apply (decode_set_decodes cfg e Hcfg); [done|by apply Hdec|apply Hd|apply Hd].
    - intros i s Hi Es. destruct (Hdel i s Hi Es) as [Hu Hq]. split; [|exact Hq].
      eapply retrying_usable; [done..| |done]. eapply left_pool; [done..|]. apply (elem_firsts cfg) in Hi as [Hi _].
      unfold up in Hi. by rewrite Es, serves_mapped in Hi. }
  destruct (Hend v fi E V4 V5) as (s' & Eh & Hok & Hmap & Hst). exists (v <| sess := s' |>). split; [exact Eh|].
  split; [by split|]. split; [exact V3|exact V1].
Qed.

(** C20: after an erasure-coded read the contexts of the disks that were not read still count as
    in flight, although they are back in their pools: when the server of such a disk is lost
    later on, with all its contexts free, the handler gives back a context that is not out,
    past the end of the free list. *)
Theorem read_then_loss_overruns ss req rq old page w i s :
  read_request cfg ss req rq old w → rq_bytes rq = IS_PAGE_SIZE → alen page = IS_PAGE_SIZE →
  stripe_readable cfg enc e (conn_id rq) ss page w → aget ss i = Some s → mapped s = true → i ∉ firsts cfg ss no_fault →
  serving cfg (sess w) (det w) (s_pool s) → 0 <= conn_id rq < submit_queues → 0 <= s_ix s < IS_QUEUE_DEPTH →
  all_idle submit_queues (s_pool s) (conn_id rq) (s_ix s) (conns_of w) → pool_full (conns_of w) (conn_id rq) (s_pool s) →
  ∃ v, IS_queue_rq cfg post_ret req w = Ret (BLK_MQ_RQ_QUEUE_OK, v) ∧
    stripe_was_read cfg (conn_id rq) ss no_fault w (chunk_offset cfg rq) req rq page v ∧
    IS_disconnect_handler cfg post_ret submit_queues (s_pool s) v = Ub.
Proof using Hcoded Hec Hpost.
  intros Hq Hby Hp Hrd Es Hm Hi (Hok & (cb & Hcb & Hcok) & (st & Est & Hst) & [d Ed]) Hconn Hix Hidle Hfull.
  destruct (stripe_retry_Ret cfg post_ret enc e Hcoded Hec Hpost ss req rq old page w Hq Hby Hp Hrd) as (v & E & Hv).
  exists v. split; [by rewrite (IS_queue_rq_request cfg post_ret _ _ _ E)|]. split; [exact Hv|].
  destruct Hv as [_ V2 _ [fi V4] V6 V5 V7]. destruct (V7 i s Es Hm Hi) as (x & Ex & Hxf & _). set (c := s_pool s) in *.
  destruct (handler_Ret cfg post_ret submit_queues c cb st d v) as (t & [_ _ _ Hconns _] & ->); try (done || by rewrite V4).
  { rewrite V4. by destruct Hok. }
  { rewrite V6, V4, <- Ed. by apply detect_first_slab. }
  apply M_bind_Ub. set (u := v <| sess := t |> <| det := d |>).
  assert (conns_of u = conns_of v) as Hu by exact Hconns.
  assert (∀ k j err, 0 <= k < submit_queues → 0 <= j < IS_QUEUE_DEPTH → k ≠ conn_id rq ∨ j ≠ s_ix s →
    (turn cfg post_ret c k j err : M world Z) u = Ret (err, u)) as Hturn.
  { intros k j err Hk Hj Hne. destruct (Hidle k j Hk Hj Hne) as (y & Ey & Hy). apply (idle_turn cfg post_ret c k j err y); [|done].
    rewrite Hu, V5; [done|]. intros (r & Er & [n En]%elem_of_aget)%list_elem_of_fmap. injection Er as Ek Ec Ej.
    destruct (rq_placed _ _ _ _ _ _ Hq) as [Hnd _]. assert (n = i) as ->.
    { destruct (decide (n = i)) as [|Hni]; [done|]. exfalso. apply (pool_ne ss (rq_placed _ _ _ _ _ _ Hq) n i r s); (done || congruence). }
    assert (r = s) as -> by congruence. lia. }
  unfold retry_requests. apply (loop_Ub _ 0 (conn_id rq) submit_queues 0 u); [done| |].
  - intros k Hk. apply loop_idle; [done|]. intros j Hj. apply Hturn; [lia|done|lia].
  - apply (loop_Ub _ 0 (s_ix s) IS_QUEUE_DEPTH 0 u); [done| |].
    + intros j Hj. apply Hturn; [done|lia|lia].
    + cbv zeta. erewrite M_bind_Ret by (apply get_ctx_Ret; rewrite Hu; exact Ex). rewrite Hxf.
      change (CTX_R_IN_FLIGHT =? CTX_R_IN_FLIGHT) with true. cbv iota. apply M_bind_Ub, insert_overruns.
      rewrite Hu. unfold pool_full. pose proof (V2 s (aget_elem _ _ _ Es)) as Hf. fold c in Hf. by rewrite Hf.
Qed.
End erasure.

(** ** Replication *)

Section replication.
Context (cfg : config) (post_ret : Z → Z) (submit_queues : Z).
Context (Hcfg : config_ok cfg) (Hrep : build cfg = REP) (Hone : NDATAS cfg = 1) (Hpost : ∀ n, post_ret n = 0).

(** Under replication the same loss goes wrong when the server held the first disk: the
    request is issued again to disk [g], the first that is left, and ended without an error,
    but with what the context of the lost disk last held. *)
Theorem lost_replica_read_stale c ix ss ss' req rq old w g s ci ck data s0 c0 :
  losing cfg submit_queues c ix ss ss' req rq old w → 0 < g → first_mapped ss' g s ci ck →
  usable (sess w) (s_pool s) → delivers w (s_pool s) (read_wc (sref (conn_id rq) s) data) → alen data = IS_PAGE_SIZE →
  inject_fault (IS_fault_injection (sess w)) ≠ 1 → is_Some (IS_fault_injection_access (IS_fault_injection (sess w)) g) →
  aget ss' 0 = Some s0 → ctx_of (conns_of w) (sref (conn_id rq) s0) = Some c0 →
  ∃ v, IS_disconnect_handler cfg post_ret submit_queues c w = Ret (0, v) ∧ handled cfg c w v ∧
    reqs v = <[req := ended (rq <| rq_bio := [[rdma_buf c0]] |>)]> (reqs w) ∧
    posted v = posted w ++ [PostRdma (s_pool s) (sref (conn_id rq) s) (disk_wr WR_RDMA_READ (chunk_offset cfg rq) (rq_bytes rq) ck)].
Proof using Hcfg Hrep Hone Hpost.
  intros Hlo Hg Hfirst Hu Hdel Hl Hoff Ha Es0 Ec0. pose proof (cfg_NDATAS _ Hcfg) as Hn.
  destruct (losing_Ret cfg post_ret submit_queues Hcfg c ix ss ss' req rq old w Hlo) as (cb & t & d & cs & Hcb & Ht & Ed & Hpush & Hend).
  set (u := retrying w t d cs) in *.
  destruct (degraded_request_Ret cfg post_ret Hrep Hone ltac:(lia) Hpost ss' req rq old u g s ci ck data s0 c0)
    as (v & E & [V1 _ V3 [fi V4] V5]); [|done| |done| |].
  { by eapply retrying_request. }
  { split; [|done| |exact Hdel|done| |].
    - intros r Hr. by eapply retrying_ready.
    - eapply retrying_usable; [done..| |done]. eapply left_pool; [done|apply Hfirst|]. unfold mapped. by rewrite (fm_disk _ _ _ _ _ Hfirst).
    - cbn. by rewrite (td_fault _ _ _ _ Ht).
    - cbn. by rewrite (td_fault _ _ _ _ Ht). }
  { change (conns_of u) with cs. by rewrite (push_ctx _ _ _ Hpush). }
  destruct (Hend v fi E V4 V5) as (s' & Eh & Hok & Hmap & Hst). exists (v <| sess := s' |>). split; [exact Eh|].
  split; [by split|]. split; [exact V3|exact V1].
Qed.
End replication.

(** * A concrete loss

    Six servers with one disk of slab 0 each, one connection; the pool of server [b] has all
    its contexts, [out] of them at work: its context 0 is out for a read when [fl] says so. *)
Section fixture.
Context (cfg : config) (b fl tail : Z).

Definition loss_cb (i : Z) : kernel_cb :=
  (zero_cb i) <| cb_st := AFTER_FREE_MEM |> <| chunk_list := test_remote i :: replicate 31 (test_remote 0) |>
    <| remote_mapped := replicate 32 CHUNK_MAPPED |> <| chunk_map := i :: replicate 31 (-1) |> <| evict_chunk_map := replicate 32 0 |>.
Definition loss_ctx : rdma_ctx := (test_ctx cfg) <| ctx_req := Some 0%nat |> <| in_flight := fl |>.
Definition loss_pool : ctx_pool_list :=
  {| ctx_pool := loss_ctx :: replicate 255 (test_ctx cfg);
     free_ctxs := {| pool_len := 256; ctx_list := seqZ 1 255 ++ [0]; pool_head := 0; pool_tail := tail |} |}.
Definition loss_session : session :=
  (zero_session cfg) <| cb_num := 6 |> <| cb_state_list := replicate 6 CB_MAPPED |>
    <| cb_list := loss_cb <$> seqZ 0 6 |> <| cb_index_map := seqZ 0 6 |> <| chunk_map_cb_chunk := replicate 6 0 |>
    <| unmapped_chunk_list := replicate 6 0 |> <| free_chunk_index := -1 |>
    <| IS_conns := [(λ d, Some (if d =? b then loss_pool else test_pool cfg)) <$> seqZ 0 6] |>.
(** The disks of slab 0, without those in [out]. *)
Definition loss_slot (out : Z → bool) (d : Z) : slot :=
  {| s_pool := d; s_ix := if d =? b then 0 else 1; s_disk := if out d then None else Some (0, test_remote d) |}.
Definition loss_slots (out : Z → bool) : list slot := loss_slot out <$> seqZ 0 6.
Definition loss_det : detector := {| src_in_err := replicate 6 0; src_err_list := replicate 6 0; nerrs := 0; nsrcerrs := 0 |}.
Definition loss_world (line : Z → list byte) : world :=
  {| sess := loss_session; reqs := [test_rq false]; counters := [];
     cqs := (λ d, [Some (read_wc (sref 0 (loss_slot (λ _, false) d)) (line d))]) <$> seqZ 0 6;
     posted := []; det := loss_det |}.

Lemma aget_six {A} (f : Z → A) d : 0 <= d < 6 → aget (f <$> seqZ 0 6) d = Some (f d).
Proof. intros Hd. by rewrite aget_map, seqZ_at. Qed.
Lemma aget_six_inv {A} (f : Z → A) d x : aget (f <$> seqZ 0 6) d = Some x → 0 <= d < 6 ∧ x = f d.
Proof.
  intros E. pose proof (aget_lt _ _ _ E) as Hd. change (alen (f <$> seqZ 0 6)) with 6 in Hd. rewrite aget_six in E by done.
  by injection E as <-.
Qed.

Lemma loss_cb_ok i : cb_ok (loss_cb i).
Proof. by split. Qed.
Lemma loss_chunks i j x : aget (chunk_map (loss_cb i)) j = Some x → x ≠ -1 → j = 0 ∧ x = i.
Proof.
  change (chunk_map (loss_cb i)) with ([i] ++ replicate 31 (-1)). intros E Hx. pose proof (aget_lt _ _ _ E) as Hj. destruct (decide (j = 0)) as [->|Hne].
  - change (Some i = Some x) in E. split; congruence.
  - exfalso. apply Hx. rewrite aget_app, decide_False in E by (change (alen [i]) with 1; lia). apply aget_elem in E.
    by apply elem_of_replicate in E as [-> _].
Qed.

Lemma loss_maps_ok : DISKSIZE_G cfg = 6 → maps_ok cfg loss_session.
Proof.
  intros H6. split; rewrite ?H6; try done.
  - intros c cb [_ ->]%aget_six_inv. done.
  - intros x c E _. change (aget (seqZ 0 6) x = Some c) in E. pose proof (aget_lt _ _ _ E) as Hx. change (alen (seqZ 0 6)) with 6 in Hx.
    rewrite seqZ_at in E by done. injection E as <-. exists (loss_cb x), 0. split_and!; [by apply aget_six| |done|apply loss_cb_ok].
    change (aget (replicate 6 0) x = Some 0). apply aget_replicate. lia.
  - intros c cb i x [Hc ->]%aget_six_inv E Hx. destruct (loss_chunks c i x E Hx) as [-> ->].
    split; [change (aget (seqZ 0 6) c = Some c); by rewrite seqZ_at|change (aget (replicate 6 0) c = Some 0); apply aget_replicate; lia].
Qed.

Lemma loss_pool_of d : 0 <= d < 6 → pool_of (IS_conns loss_session) 0 d = Some (if d =? b then loss_pool else test_pool cfg).
Proof.
  intros Hd. change ((p ← aget ((λ d, Some (if d =? b then loss_pool else test_pool cfg)) <$> seqZ 0 6) d; p) =
    Some (if d =? b then loss_pool else test_pool cfg)). by rewrite aget_six.
Qed.
Lemma loss_ctx_of d j : 0 <= d < 6 → d ≠ b → 0 <= j < 2 →
  ctx_of (IS_conns loss_session) {| rf_conn := 0; rf_pool := d; rf_ix := j |} = Some (test_ctx cfg).
Proof.
  intros Hd Hb Hj. unfold ctx_of. cbn [rf_conn rf_pool rf_ix]. rewrite loss_pool_of by done.
  rewrite (proj2 (Z.eqb_neq d b)) by done. assert (j = 0 ∨ j = 1) as [-> | ->] by lia; reflexivity.
Qed.
Lemma loss_ctx_big j : 0 <= b < 6 → 0 <= j < 256 →
  ctx_of (IS_conns loss_session) {| rf_conn := 0; rf_pool := b; rf_ix := j |} = Some (if decide (j = 0) then loss_ctx else test_ctx cfg).
Proof.
  intros Hb Hj. unfold ctx_of. cbn [rf_conn rf_pool rf_ix]. rewrite loss_pool_of, Z.eqb_refl by done.
  change (aget ([loss_ctx] ++ replicate 255 (test_ctx cfg)) j = Some (if decide (j = 0) then loss_ctx else test_ctx cfg)).
  case_decide as Hd; [by rewrite Hd|]. rewrite aget_app, decide_False by (change (alen [loss_ctx]) with 1; lia).
  apply aget_replicate. change (alen [loss_ctx]) with 1. lia.
Qed.
Lemma test_ctx_sizes : 0 <= cb_size cfg → NDISKS cfg = 6 → alen (rdma_buf (test_ctx cfg)) = cb_size cfg ∧ alen (ctxs (test_ctx cfg)) = NDISKS cfg.
Proof.
  intros Hc H6. unfold alen. cbn [test_ctx rdma_buf ctxs update_field]. split; [|unfold zero_ctx; cbn; rewrite length_replicate; lia].
  change (Z.of_nat (length (replicate (Z.to_nat (cb_size cfg)) x00)) = cb_size cfg). rewrite length_replicate. lia.
Qed.

Lemma loss_slots_aget out i s : aget (loss_slots out) i = Some s → 0 <= i < 6 ∧ s = loss_slot out i.
Proof. apply aget_six_inv. Qed.
Lemma loss_placed out : placed (loss_slots out).
Proof.
  split; [by apply (bool_decide_unpack (NoDup [0; 1; 2; 3; 4; 5]))|].
  intros i s [Hi ->]%loss_slots_aget. unfold mapped, loss_slot. cbn. destruct (out i); [done|]. unfold NO_CB_MAPPED. cbn. lia.
Qed.

Lemma loss_ready out d : 0 <= b < 6 → 0 <= cb_size cfg → NDISKS cfg = 6 → 0 <= d < 6 → d ≠ b ∨ tail = 255 →
  ready cfg (IS_conns loss_session) 0 (loss_slot out d).
Proof.
  intros Hb Hc H6 Hd Ht. destruct (test_ctx_sizes Hc H6) as [Hs1 Hs2]. unfold ready, top_free, sref. cbn [s_pool s_ix loss_slot].
  rewrite loss_pool_of by done. destruct (Z.eqb_spec d b) as [->|Hne].
  - destruct Ht as [|Ht]; [done|]. split; [eexists; split; [reflexivity|]; cbn [free_ctxs loss_pool pool_tail ctx_list]; rewrite Ht; split; [lia|reflexivity]|].
    exists loss_ctx. split; [by apply (loss_ctx_big 0)|]. split; [exact Hs1|exact Hs2].
  - split; [eexists; split; [reflexivity|]; by split|]. exists (test_ctx cfg). split; [by apply loss_ctx_of|]. by split.
Qed.
Lemma loss_usable d : 0 <= d < 6 → usable loss_session d.
Proof.
  intros Hd. exists (loss_cb d), CB_MAPPED. split_and!; [by apply aget_six|done| |done].
  change (aget (replicate 6 CB_MAPPED) d = Some CB_MAPPED). apply aget_replicate. lia.
Qed.
Lemma loss_delivers out line d : 0 <= d < 6 → delivers (loss_world line) d (read_wc (sref 0 (loss_slot out d)) (line d)).
Proof. intros Hd. exists 0%nat, []. by apply (aget_six (λ d, [Some (read_wc (sref 0 (loss_slot out d)) (line d))])). Qed.
Lemma loss_armed : NDISKS cfg = 6 → armed cfg 4 (IS_fault_injection loss_session).
Proof.
  intros H6. cbn. unfold zero_fault. rewrite H6. split; [by rewrite H6|]. intros i d E. apply aget_elem in E.
  apply elem_of_replicate in E as [-> _]. by split.
Qed.
End fixture.

(** Disk 1 is lost, on server 1, with the tables that rebuild it. *)
Definition lost1_env : ec_env := ec_env_for [0; 1; 0; 0; 0; 0] [1; 0; 0; 0; 0; 0] 1 1.
Definition lost1 : config := ec lost1_env.
Definition lost1_world : world := loss_world lost1 1 CTX_R_IN_FLIGHT 254 (stripe_buf lost1 ec_enc test_page).
Definition none_lost (d : Z) : bool := false.

Lemma lost1_losing : losing lost1 1 1 0 (loss_slots 1 none_lost) (loss_slots 1 one_out) 0 (test_rq false) test_page lost1_world.
Proof.
  split; try done.
  - by apply loss_maps_ok.
  - exists (loss_cb 1). split; [by apply aget_six|apply loss_cb_ok].
  - by exists CB_MAPPED.
  - intros s [i [Hi ->]%loss_slots_aget]%elem_of_aget. split; [done|]. exists CB_MAPPED. split; [|done].
    change (aget (replicate 6 CB_MAPPED) i = Some CB_MAPPED). apply aget_replicate. lia.
  - split; [done|]. intros i s [Hi ->]%loss_slots_aget. exists (loss_slot 1 one_out i). split; [by apply (aget_six (loss_slot 1 one_out))|].
    split; [|done]. cbn. unfold one_out. destruct (Z.eqb_spec i 1); [by rewrite decide_True|by rewrite decide_False].
  - apply loss_placed.
  - intros i j Hi Hj. assert (i = 0) as -> by lia. eexists. split; [apply (loss_ctx_big lost1 1 CTX_R_IN_FLIGHT 254 j); [lia|exact Hj]|].
    destruct (decide (j = 0)) as [->|Hne]; [by rewrite decide_True|]. by rewrite decide_False by (intros [_ ?]; done).
  - exists (loss_ctx lost1 CTX_R_IN_FLIGHT). split; [by apply (loss_ctx_big lost1 1 CTX_R_IN_FLIGHT 254 0)|]. split; [done|].
    by apply (test_ctx_sizes lost1).
  - eexists. split; [cbn [conns_of lost1_world]; by rewrite (loss_pool_of lost1 1 CTX_R_IN_FLIGHT 254)|]. split; vm_compute; (done || discriminate).
  - intros t [i [Hi ->]%loss_slots_aget]%elem_of_aget. cbn [s_pool loss_slot]. case_decide as Hc; [by rewrite Hc|].
    apply (loss_ready lost1); try done. by left.
Qed.

Lemma lost_read_retried_witness :
  ∃ v, IS_disconnect_handler lost1 (λ _, 0) 1 1 lost1_world = Ret (0, v) ∧ handled lost1 1 lost1_world v ∧
    reqs v = [ended (test_rq false)] ∧
    ∃ order, order ≡ₚ [0; 2; 3; 4] ∧ posted v = read_posts 0 (loss_slots 1 one_out) 2048 1024 order.
Proof.
  apply (lost_read_retried lost1 (λ _, 0) 1 ec_enc lost1_env (ec_ok lost1_env) eq_refl (λ _, eq_refl)
    1 0 (loss_slots 1 none_lost) (loss_slots 1 one_out) 0 (test_rq false) test_page test_page lost1_world
    (env_kernels _ _ _ _) (env_encode_set _ _ _ _) lost1_losing).
  - reflexivity.
  - exact test_page_len.
  - vm_compute; discriminate.
  - discriminate.
  - by apply (loss_armed lost1).
  - intros d [= <-]. exists [0; 0; 0; 0]. eexists _, _. split; [reflexivity|]. split; [vm_compute; reflexivity|vm_compute; reflexivity].
  - intros i s _ [Hi ->]%loss_slots_aget. split; [by apply (loss_usable lost1)|]. by apply (loss_delivers lost1 1 CTX_R_IN_FLIGHT 254 one_out).
Defined.

(** All six disks are there, all contexts are free; disk 5 is not read. *)
Definition idle_world : world := loss_world ec_test 5 CTX_IDLE 255 (stripe_buf ec_test ec_enc test_page).

Lemma none_lost_detected : detected ec_test (loss_slots 5 none_lost) no_fault loss_det.
Proof.
  split; try (vm_compute; discriminate).
  - split; try (vm_compute; (done || discriminate || by split)); intros p x Hp; cbn in Hp; lia.
  - by apply (six (λ i, aget (src_in_err loss_det) i = Some (if up (loss_slots 5 none_lost) no_fault i then 0 else 1))).
  - by apply (six (λ i, up (loss_slots 5 none_lost) no_fault i = false → ∃ p, 0 <= p < 0 ∧ aget (src_err_list loss_det) p = Some i)).
  - intros p i Hp. cbn in Hp. lia.
  - constructor.
Qed.

Lemma read_then_loss_overruns_witness :
  ∃ v, IS_queue_rq ec_test (λ _, 0) 0 idle_world = Ret (BLK_MQ_RQ_QUEUE_OK, v) ∧
    stripe_was_read ec_test 0 (loss_slots 5 none_lost) no_fault idle_world 8192 0 (test_rq false) test_page v ∧
    IS_disconnect_handler ec_test (λ _, 0) 1 5 v = Ub.
Proof.
  apply (read_then_loss_overruns ec_test (λ _, 0) 1 ec_enc ec_test_env ec_coded eq_refl (λ _, eq_refl)
    (loss_slots 5 none_lost) 0 (test_rq false) test_page test_page idle_world 5 (loss_slot 5 none_lost 5)); try done.
  - split; [apply loss_placed|reflexivity|reflexivity|reflexivity|exact test_page_len|reflexivity|reflexivity].
  - split; [split|].
    + intros s [i [Hi ->]%loss_slots_aget]%elem_of_aget. apply (loss_ready ec_test 5 CTX_IDLE 255); try done. by right.
    + discriminate.
    + by apply (loss_armed ec_test).
    + exact none_lost_detected.
    + done.
    + intros i s _ [Hi ->]%loss_slots_aget. split; [by apply (loss_usable ec_test)|].
      by apply (loss_delivers ec_test 5 CTX_IDLE 255 none_lost).
  - by apply (bool_decide_unpack (5 ∉ [0; 1; 2; 3])).
  - split; [by apply (loss_maps_ok ec_test)|]. split; [exists (loss_cb 5); split; [by apply aget_six|apply loss_cb_ok]|].
    split; [by exists CB_MAPPED|]. eexists. reflexivity.
  - intros i j Hi Hj Hne. assert (i = 0) as -> by lia. eexists.
    split; [apply (loss_ctx_big ec_test 5 CTX_IDLE 255 j); [lia|exact Hj]|]. by destruct (decide (j = 0)).
  - eexists. split; [cbn [conns_of idle_world]; by rewrite (loss_pool_of ec_test 5 CTX_IDLE 255)|]. vm_compute; discriminate.
Defined.
