(* ===== verification/Loss.v ===== *)
(** The loss of servers while a write waits for them: [IS_rdma_write] and
    [rdma_cq_event_handler], followed by [IS_disconnect_handler] ([is_main.c]).  A write goes
    on without the servers that are lost; it is ended when [NDATAS] disks have completed. *)

From S2P Require Import Prelude GF256 GFVect GFMatrix Decode Cauchy Config MT Fault State CtxPool Chunks Store Transfer Completion Slots Stripe WritePath Reads ReadPath EcRead Failure Retry.

(** * The session after the write *)

(** The maps do not depend on the state of the connections. *)
Lemma maps_ok_states cfg s t (lost : Z → bool) :
  maps_ok cfg s →
  (∀ p, aget (cb_list t) p = if lost p then (λ cb, cb <| cb_st := ERROR |>) <$> aget (cb_list s) p else aget (cb_list s) p) →
  cb_index_map t = cb_index_map s → chunk_map_cb_chunk t = chunk_map_cb_chunk s →
  unmapped_chunk_list t = unmapped_chunk_list s → free_chunk_index t = free_chunk_index s →
  cb_state_list t = cb_state_list s → maps_ok cfg t.
Proof.
  intros [HI HS HL HT HC HF HB HN] Hcb E1 E2 E3 E4 E5.
  assert (∀ c cb, aget (cb_list t) c = Some cb → ∃ cb0, aget (cb_list s) c = Some cb0 ∧ cb_index cb = cb_index cb0 ∧
    recv_buf cb = recv_buf cb0 ∧ chunk_map cb = chunk_map cb0) as Hinv.
  { intros c cb E. rewrite Hcb in E. destruct (lost c); [|by exists cb].
    apply fmap_Some in E as (cb0 & E & ->). by exists cb0. }
  assert (∀ c cb0, aget (cb_list s) c = Some cb0 → ∃ cb, aget (cb_list t) c = Some cb ∧ chunk_map cb = chunk_map cb0 ∧
    (cb_ok cb0 → cb_ok cb)) as Hfwd.
  { intros c cb0 E. rewrite Hcb, E. destruct (lost c); [|by exists cb0]. cbn. eexists. split; [done|]. split; [done|]. by intros []. }
  split; rewrite ?E1, ?E2, ?E3, ?E4, ?E5; try done.
  - rewrite HT. apply Z.le_antisymm; apply Z.le_ngt; intros Hlt.
    + destruct (proj2 (aget_is_Some (cb_list s) (alen (cb_list t)))) as [x Ex]; [unfold alen in *; lia|].
      destruct (Hfwd _ _ Ex) as (y & Ey & _). apply aget_lt in Ey. lia.
    + destruct (proj2 (aget_is_Some (cb_list t) (alen (cb_list s)))) as [x Ex]; [unfold alen in *; lia|].
      destruct (Hinv _ _ Ex) as (y & Ey & _). apply aget_lt in Ey. lia.
  - intros c cb E. destruct (Hinv c cb E) as (cb0 & E0 & -> & -> & _). by apply HC.
  - intros x c Hx Hc. destruct (HF x c Hx Hc) as (cb0 & i & F1 & F2 & F3 & F4).
    destruct (Hfwd c cb0 F1) as (cb & Ecb & Em & Hok). exists cb, i. rewrite Em. auto.
  - intros c cb i x E. destruct (Hinv c cb E) as (cb0 & E0 & _ & _ & Em). rewrite Em. by apply HB.
Qed.

(** ** The scan when nothing is in flight *)

Lemma disconnect_free_frame s c t : disconnect_free s c = Some t → IS_conns t = IS_conns s.
Proof.
  intros E. eapply (for_up_keeps (λ t, IS_conns t = IS_conns s)); [exact E|done|].
  intros i u u' _ Hu Eb. rewrite <- Hu. unfold disconnect_free_body in Eb. apply bind_Some in Eb as (cb & _ & Eb).
  apply bind_Some in Eb as (x & _ & Eb). destruct (negb (x =? -1)); [|by injection Eb as <-].
  apply bind_Some in Eb as (k & _ & Eb). apply bind_Some in Eb as (m & _ & Eb).
  unfold with_cb in Eb. apply bind_Some in Eb as (cb1 & _ & Eb). apply bind_Some in Eb as (cb2 & _ & Eb).
  by apply bind_Some in Eb as (l & _ & [= <-]).
Qed.

(** All contexts of server [c] are idle. *)
Definition idle (submit_queues c : Z) (cs : list connection) : Prop :=
  ∀ i j, 0 <= i < submit_queues → 0 <= j < IS_QUEUE_DEPTH →
    ∃ x, ctx_of cs {| rf_conn := i; rf_pool := c; rf_ix := j |} = Some x ∧ in_flight x = CTX_IDLE.

Lemma idle_retry cfg post_ret submit_queues c w :
  0 <= submit_queues → idle submit_queues c (conns_of w) → retry_requests cfg post_ret submit_queues c w = Ret (0, w).
Proof.
  intros Hq Hidle. unfold retry_requests. apply loop_idle; [done|]. intros i Hi. apply loop_idle; [done|]. intros j Hj.
  destruct (Hidle i j Hi Hj) as (x & Ex & Hx). cbv zeta. erewrite M_bind_Ret by (by apply get_ctx_Ret). by rewrite Hx.
Qed.

(** With nothing in flight the handler only takes the server down: the contexts, the requests
    and the queues stay as they are. *)
Lemma idle_handler_Ret cfg post_ret submit_queues c cb st d w :
  maps_ok cfg (sess w) → aget (cb_list (sess w)) c = Some cb → cb_ok cb →
  aget (cb_state_list (sess w)) c = Some st → st ≠ CB_CONNECTED → detect cfg (failed (sess w) c) (det w) = Some d →
  0 <= submit_queues → idle submit_queues c (conns_of w) →
  ∃ s', IS_disconnect_handler cfg post_ret submit_queues c w = Ret (0, w <| sess := s' |> <| det := d |>) ∧
    IS_conns s' = conns_of w ∧ handled cfg c w (w <| sess := s' |> <| det := d |>).
Proof.
  intros Hok Hcb Hcok Est Hst Ed Hq Hidle.
  destruct (handler_Ret cfg post_ret submit_queues c cb st d w) as (t & [Hun Hlen Hmap Hconns _] & Eh); [done..|].
  destruct (disconnect_free_correct cfg (failed (sess w) c) t c cb (failed_maps cfg _ c Hok) Hcb Hcok Hun Hlen Hmap)
    as (s' & Es' & Hok' & Hfr).
  assert (idle submit_queues c (conns_of (w <| sess := t |> <| det := d |>))) as Hidle'.
  { intros i j Hi Hj. change (conns_of (w <| sess := t |> <| det := d |>)) with (IS_conns t). rewrite Hconns. by apply Hidle. }
  exists s'. split_and!.
  - rewrite Eh. erewrite M_bind_Ret by (by apply idle_retry). unfold on_sess.
    erewrite M_bind_Ret; [reflexivity|]. erewrite M_bind_Ret by done. by erewrite M_bind_Ret by (unfold lift; change (sess (w <| sess := t |> <| det := d |>)) with t; by rewrite Es').
  - by rewrite (disconnect_free_frame _ _ _ Es'), Hconns.
  - split; [done| |].
    + intros x p Hp. cbn. unfold slab_map. rewrite (fg_index _ _ _ _ _ _ Hfr). by apply Hmap.
    + cbn. rewrite (fg_states _ _ _ _ _ _ Hfr), (un_states _ _ _ _ Hun). cbn. rewrite aget_insert by (by eapply aget_lt).
      by rewrite decide_True.
Qed.

(** * The write *)

Section loss.
Context (cfg : config) (post_ret : Z → Z) (submit_queues : Z) (enc : list byte).
Context (Hcfg : config_ok cfg) (Hcoded : coded cfg enc) (Hpost : ∀ n, post_ret n = 0) (Hqueues : 0 <= submit_queues).

(** What the handler for server [c] does after the write: it takes the server down, and
    neither issues the request again nor gives back its context. *)
Definition taken_off (c : Z) (v : world) : Prop :=
  ∃ u, IS_disconnect_handler cfg post_ret submit_queues c v = Ret (0, u) ∧ handled cfg c v u ∧
    reqs u = reqs v ∧ posted u = posted v ∧ conns_of u = conns_of v.

(** C12: a write request of one page, any of whose servers are lost while it waits (their
    connections are in the error state, they are marked as failed, or their queues deliver an
    error), in either build: the disks of the slab take their contexts from different pools
    ([placed]), the contexts of its slots are free, and the servers that are not lost deliver their
    completions; in the erasure-coding build the encode tables are set as the commented
    statements of [IS_ec_init] would set them ([coded]; unset, no write returns,
    [unset_tables_write]) and the kernels meet their contract.  It is accepted after posting
    one RDMA write per disk on a server, with the lines of the page's stripe; it is ended
    exactly once if at least [NDATAS] of the disks complete, and never if fewer do; the
    connections of the lost servers end up in the error state, and their contexts, which
    still name the request, do not come back to their pools, while all others do.  A write
    leaves [in_flight] of its contexts as it was.  So if all contexts of a lost server were
    idle before the write ([idle]: no earlier read left one as in flight, as
    [read_then_loss_overruns] shows it can), and the maps are consistent, the server more than
    merely connected and the detector defined ([serving]), then [IS_disconnect_handler] neither gives the contexts back nor
    issues the write again when it takes that server down. *)
Theorem write_survives_losses (gone : slot → bool) ss req rq page w :
  placed ss → alen ss = NDISKS cfg → alen page = IS_PAGE_SIZE →
  reqs w !! req = Some rq → rq_bio rq = [[page]] → rq_bytes rq = IS_PAGE_SIZE → rq_write rq = true →
  lookup_targets cfg (sess w) (slab_index cfg rq) = Some (target_of <$> ss) →
  (∀ s, s ∈ ss → ready cfg (conns_of w) (conn_id rq) s ∧ answered (conn_id rq) gone w s) →
  ∃ v, IS_queue_rq cfg post_ret req w = Ret (BLK_MQ_RQ_QUEUE_OK, v) ∧
    settled cfg enc (conn_id rq) ss gone w (chunk_offset cfg rq) req rq page v ∧
    ∀ s, s ∈ ss → dropped gone s = true → serving cfg (sess w) (det w) (s_pool s) →
      idle submit_queues (s_pool s) (conns_of w) → taken_off (s_pool s) v.
Proof using Hcfg Hcoded Hpost Hqueues.
  intros Hpl Hlen Hp Erq Ebio Hby Hwr Ets Hw.
  destruct (rdma_write_settled cfg post_ret enc Hcoded Hpost (conn_id rq) ss Hpl Hlen gone (chunk_offset cfg rq) req rq page w)
    as (v & E & Hv); [done..|].
  exists v. split; [by eapply queue_write_Ret|]. split; [exact Hv|].
  intros s [i Es]%elem_of_aget [Hm Hg]%andb_true_iff (Hok & (cb & Hcb & Hcok) & (st & Est & Hst) & [d Ed]) Hidle.
  destruct Hv as [_ V2 V3 V4 _ _ V7 V8]. set (c := s_pool s) in *.
  assert (∃ cb', aget (cb_list (sess v)) c = Some cb' ∧ cb_ok cb') as (cb' & Hcb' & Hcok').
  { rewrite V8, Hcb. destruct (failing ss gone (NDISKS cfg) c); [|by exists cb]. eexists. split; [done|]. by destruct Hcok. }
  assert (cb_state_list (sess v) = cb_state_list (sess w)) as Hst' by by rewrite V7.
  assert (cb_index_map (sess v) = cb_index_map (sess w)) as Him by by rewrite V7.
  destruct (idle_handler_Ret cfg post_ret submit_queues c cb' st d v) as (s' & Eh & Hc & Hh); try done.
  - apply (maps_ok_states cfg (sess w) (sess v) (failing ss gone (NDISKS cfg)) Hok V8 Him); [|..|exact Hst']; by rewrite V7.
  - by rewrite Hst'.
  - rewrite <- Ed, V4. apply detect_first_slab; [intros; cbn; by rewrite Him|]. cbn. by rewrite Hst'.
  - intros j k Hj Hk. set (r := {| rf_conn := j; rf_pool := c; rf_ix := k |}).
    destruct (Hidle j k Hj Hk) as (x & Ex & Hx). fold r in Ex.
    destruct (decide (r ∈ sref (conn_id rq) <$> ss)) as [(t & Er & [n Et]%elem_of_aget)%list_elem_of_fmap|Hr];
      [|by exists x; rewrite V3].
    assert (t = s) as ->.
    { destruct (decide (n = i)) as [->|Hni]; [congruence|]. exfalso.
      apply (pool_ne ss Hpl n i t s); [done..|]. by injection Er as _ Ep _. }
    destruct (V2 i s Es Hm) as (y & Ey & _ & Hy). rewrite Hg in Hy. destruct Hy as (_ & z & Ez & Hyz).
    rewrite Er in Ex |- *. exists y. split; [done|]. rewrite Hyz. assert (z = x) as -> by congruence. done.
  - eexists. split; [exact Eh|]. by split_and!.
Qed.
End loss.

(** * A concrete write

    Six servers with one disk of slab 0 each; server 5 is lost while the write waits for it. *)

Definition lost_at (b : Z) (s : slot) : bool := s_pool s =? b.
Definition lossy_cb (i : Z) : kernel_cb := if i =? 5 then (loss_cb i) <| cb_st := ERROR |> else loss_cb i.
Definition lossy_world : world :=
  (loss_world ec_test 5 CTX_IDLE 255 (λ _, []))
    <| sess := (loss_session ec_test 5 CTX_IDLE 255) <| cb_list := lossy_cb <$> seqZ 0 6 |> |>
    <| reqs := [test_rq true] |> <| cqs := (λ d, [Some (write_wc (sref 0 (loss_slot 5 none_lost d)))]) <$> seqZ 0 6 |>.

Lemma lossy_sess : aget (cb_list (sess lossy_world)) 5 = Some ((loss_cb 5) <| cb_st := ERROR |>) ∧
  ∀ d, 0 <= d < 6 → d ≠ 5 → aget (cb_list (sess lossy_world)) d = Some (loss_cb d).
Proof.
  split; [done|]. intros d Hd Hne. etransitivity; [apply (aget_six lossy_cb d Hd)|].
  unfold lossy_cb. by rewrite (proj2 (Z.eqb_neq d 5)).
Qed.
Lemma lossy_answered s : s ∈ loss_slots 5 none_lost →
  ready ec_test (conns_of lossy_world) 0 s ∧ answered 0 (lost_at 5) lossy_world s.
Proof.
  intros [i [Hi ->]%loss_slots_aget]%elem_of_aget. split.
  - apply (loss_ready ec_test 5 CTX_IDLE 255); try done. by right.
  - intros _. unfold lost_at. cbn [s_pool loss_slot]. destruct (Z.eqb_spec i 5) as [->|Hne].
    + exists ((loss_cb 5) <| cb_st := ERROR |>). split; [apply lossy_sess|by left].
    + split.
      * exists (loss_cb i), CB_MAPPED. split_and!; [by apply lossy_sess|done| |done].
        change (aget (replicate 6 CB_MAPPED) i = Some CB_MAPPED). apply aget_replicate. lia.
      * exists 0%nat, []. by apply (aget_six (λ d, [Some (write_wc (sref 0 (loss_slot 5 none_lost d)))])).
Qed.
Lemma lossy_maps_ok : maps_ok ec_test (sess lossy_world).
Proof.
  apply (maps_ok_states ec_test (loss_session ec_test 5 CTX_IDLE 255) _ (λ p, p =? 5)); try done; [by apply loss_maps_ok|].
  intros p. destruct (Z.eqb_spec p 5) as [->|Hne]; [done|].
  change (aget (lossy_cb <$> seqZ 0 6) p = aget (loss_cb <$> seqZ 0 6) p).
  rewrite !aget_map. destruct (aget (seqZ 0 6) p) as [x|] eqn:E; [|done]. cbn.
  assert (x = p) as -> by (pose proof (aget_lt _ _ _ E) as Hp; change (alen (seqZ 0 6)) with 6 in Hp; rewrite seqZ_at in E by done; by injection E).
  unfold lossy_cb. by rewrite (proj2 (Z.eqb_neq p 5)).
Qed.

Lemma write_survives_losses_witness :
  ∃ v, IS_queue_rq ec_test (λ _, 0) 0 lossy_world = Ret (BLK_MQ_RQ_QUEUE_OK, v) ∧
    settled ec_test ec_enc 0 (loss_slots 5 none_lost) (lost_at 5) lossy_world 8192 0 (test_rq true) test_page v ∧
    taken_off ec_test (λ _, 0) 1 5 v.
Proof.
  destruct (write_survives_losses ec_test (λ _, 0) 1 ec_enc (ec_ok ec_test_env) ec_coded (λ _, eq_refl) ltac:(lia) (lost_at 5)
    (loss_slots 5 none_lost) 0 (test_rq true) test_page lossy_world) as (v & E & Hv & Hc); [apply loss_placed|reflexivity|exact test_page_len|reflexivity..| |].
  - apply lossy_answered.
  - exists v. split; [exact E|]. split; [exact Hv|]. apply (Hc (loss_slot 5 none_lost 5)).
    + apply (aget_elem _ 5). reflexivity.
    + reflexivity.
    + change (s_pool (loss_slot 5 none_lost 5)) with 5. split; [exact lossy_maps_ok|]. split; [exists (lossy_cb 5); split; [exact (proj1 lossy_sess)|by split]|].
      split; [exists CB_MAPPED; split; [reflexivity|discriminate]|]. eexists. reflexivity.
    + intros i j Hi Hj. assert (i = 0) as -> by lia. eexists.
      split; [apply (loss_ctx_big ec_test 5 CTX_IDLE 255 j); [lia|exact Hj]|]. by destruct (decide (j = 0)).
Defined.
