(* ===== verification/Connect.v ===== *)
(** Connecting to a server ([is_main.c]): address resolution and connection with the events
    of the connection manager they wait for, the queue pair, the message buffers, and what
    is undone when a step fails. *)

From S2P Require Import Prelude Config MT Fault State CtxPool Chunks Transfer Placement GF256 GFVect GFMatrix Decode Failure.

Definition EINTR : Z := 4.

(** * The state of a connection *)

(** A pointer of [struct kernel_cb] to an object of the verbs library. *)
Inductive pointer : Set := Null | Err | Live | Dangling.
#[export] Instance pointer_eq_dec : EqDecision pointer.
Proof. solve_decision. Defined.

(** [struct ib_sge] of a message buffer in its work request; [Z] numbers stand for the DMA
    addresses and keys the library hands out. *)
Record work_request : Type := { sg_addr : Z; sg_length : Z; sg_lkey : Z; num_sge : Z }.

(** What the connection manager may deliver while a thread waits: an event, with the answer
    of [rdma_resolve_route] should it be asked, or a signal to the thread. *)
Inductive cm_input : Type := Event (ev : cm_event) (route_ret : Z) | Signal.

(** The part of [struct kernel_cb] that concerns the connection; [None] for a buffer that is
    not mapped, [recvs] counts the receives posted. *)
Record link : Type := {
  lk_state : test_state; inputs : list cm_input;
  addr_type : Z; lk_addr : list Z; lk_port : Z; txdepth : Z;
  pd : pointer; cq : pointer; qp : pointer; dma_mr : pointer;
  recv_dma_addr : option Z; send_dma_addr : option Z;
  rq_wr : option work_request; sq_wr : option work_request; recvs : Z
}.
#[export] Instance link_settable : Settable link := λ r,
  Build_link (lk_state r) (inputs r) (addr_type r) (lk_addr r) (lk_port r) (txdepth r) (pd r) (cq r) (qp r) (dma_mr r)
    (recv_dma_addr r) (send_dma_addr r) (rq_wr r) (sq_wr r) (recvs r).

(** What the library answers to each call of an attempt: 0 or the error. *)
Record verbs : Type := {
  resolve_addr_ret : Z; alloc_pd_ret : Z; create_cq_ret : Z; create_qp_ret : Z; get_dma_mr_ret : Z;
  post_recv_ret : Z; connect_ret : Z;
  recv_addr : Z; send_addr : Z; mr_lkey : Z;
  sizeof_msg : Z  (* [sizeof(cb->recv_buf)], the size of [struct IS_rdma_info] *)
}.

(** * Events *)

(** What [IS_cma_event_handler] does to the state, and whether it wakes the thread. *)
Definition on_event (ev : cm_event) (route_ret : Z) (st : test_state) : test_state * bool :=
  match ev with
  | ADDR_RESOLVED_EV => (ADDR_RESOLVED, truthy route_ret)
  | ROUTE_RESOLVED_EV => (ROUTE_RESOLVED, true)
  | CONNECT_REQUEST_EV => (CONNECT_REQUEST, true)
  | ESTABLISHED_EV => (CONNECTED, true)
  | CONNECT_FAILED_EV => (ERROR, true)
  | DISCONNECTED_EV => (CM_DISCONNECT, false)
  | DEVICE_REMOVAL_EV => (st, false)
  | OTHER_EV => (st, true)
  end.

(** A thread that sleeps in [wait_event_interruptible(cb->sem, cb->state >= goal)]. *)
Fixpoint sleep (goal st : test_state) (evs : list cm_input) : option (test_state * list cm_input) :=
  match evs with
  | [] => None
  | Signal :: evs => Some (st, evs)
  | Event ev r :: evs =>
      let '(st, wake) := on_event ev r st in
      if wake && (test_state_num goal <=? test_state_num st) then Some (st, evs) else sleep goal st evs
  end.
Definition wait_event_interruptible (goal : test_state) : M link () := λ l,
  if test_state_num goal <=? test_state_num (lk_state l) then Ret ((), l)
  else
    match sleep goal (lk_state l) (inputs l) with
    | Some (st, evs) => Ret ((), l <| lk_state := st |> <| inputs := evs |>)
    | None => Wait
    end.

Section connect.
Context (v : verbs).

(** * Address *)

Definition AF_INET : Z := 2.
Definition AF_INET6 : Z := 10.

(** [fill_sockaddr]: family, address bytes and port. *)
Definition fill_sockaddr (l : link) : option (Z * list Z * Z) :=
  if addr_type l =? AF_INET then
    if 4 <=? alen (lk_addr l) then Some (AF_INET, take 4 (lk_addr l), lk_port l) else None
  else if addr_type l =? AF_INET6 then
    if 16 <=? alen (lk_addr l) then Some (AF_INET6, take 16 (lk_addr l), lk_port l) else None
  else Some (0, [], 0).

(** [IS_bind_client]. *)
Definition IS_bind_client : M link Z :=
  l ← get;
  _ ← lift (fill_sockaddr l);
  if truthy (resolve_addr_ret v) then mret (resolve_addr_ret v)
  else
    wait_event_interruptible ROUTE_RESOLVED;;
    l ← get;
    if decide (lk_state l = ROUTE_RESOLVED) then mret 0 else mret (- EINTR).

(** * The queue pair *)

(** [IS_create_qp]. *)
Definition IS_create_qp : M link Z :=
  when (create_qp_ret v =? 0) (modify (λ l, l <| qp := Live |>));; mret (create_qp_ret v).

(** [IS_free_qp]: each pointer keeps its value. *)
Definition destroy (p : pointer) : option pointer := match p with Live => Some Dangling | _ => None end.
Definition IS_free_qp : M link () :=
  l ← get;
  q ← lift (destroy (qp l)); c ← lift (destroy (cq l)); p ← lift (destroy (pd l));
  modify (λ l, l <| qp := q |> <| cq := c |> <| pd := p |>).

(** [IS_setup_qp]. *)
Definition IS_setup_qp : M link Z :=
  if truthy (alloc_pd_ret v) then modify (λ l, l <| pd := Err |>);; mret (alloc_pd_ret v)
  else
    modify (λ l, l <| pd := Live |>);;
    if truthy (create_cq_ret v) then
      modify (λ l, l <| cq := Err |> <| pd := Dangling |>);; mret (create_cq_ret v)
    else
      modify (λ l, l <| cq := Live |>);;
      ret ← IS_create_qp;
      if truthy ret then modify (λ l, l <| cq := Dangling |> <| pd := Dangling |>);; mret ret
      else mret 0.

(** * The message buffers *)

(** [IS_setup_wr]; the keys are those of the DMA region, [local_dma_lkey] being 0. *)
Definition IS_setup_wr : M link () :=
  l ← get;
  ra ← lift (recv_dma_addr l); sa ← lift (send_dma_addr l);
  match dma_mr l with
  | Live =>
      let wr a := {| sg_addr := a; sg_length := sizeof_msg v; sg_lkey := mr_lkey v; num_sge := 1 |} in
      modify (λ l, l <| rq_wr := Some (wr ra) |> <| sq_wr := Some (wr sa) |>)
  | _ => undefined
  end.

(** [IS_setup_buffers]; [cb->mem] is [DMA].  The other regions are never registered, and the
    buffers stay mapped when the region cannot be had. *)
Definition IS_setup_buffers : M link Z :=
  l ← get;
  match pd l with
  | Live =>
      modify (λ l, l <| recv_dma_addr := Some (recv_addr v) |> <| send_dma_addr := Some (send_addr v) |>);;
      if truthy (get_dma_mr_ret v) then
        modify (λ l, l <| dma_mr := Err |>);; mret (get_dma_mr_ret v)
      else modify (λ l, l <| dma_mr := Live |>);; IS_setup_wr;; mret 0
  | _ => undefined
  end.

(** [IS_free_buffers]. *)
Definition IS_free_buffers : M link () :=
  l ← get;
  m ← lift (match dma_mr l with Null => Some Null | p => destroy p end);
  match pd l with
  | Live => modify (λ l, l <| dma_mr := m |> <| recv_dma_addr := None |> <| send_dma_addr := None |>)
  | _ => undefined
  end.

(** * Connecting *)

(** [IS_connect_client]. *)
Definition IS_connect_client : M link Z :=
  if truthy (connect_ret v) then mret (connect_ret v)
  else
    wait_event_interruptible CONNECTED;;
    l ← get;
    if decide (lk_state l = ERROR) then mret (-1) else mret 0.

(** [rdma_connect_upper]. *)
Definition rdma_connect_upper : M link Z :=
  ret ← IS_bind_client;
  if truthy ret then mret ret
  else
    ret ← IS_setup_qp;
    if truthy ret then mret ret
    else
      ret ← IS_setup_buffers;
      if truthy ret then IS_free_qp;; mret ret else mret 0.

(** [rdma_connect_down]; a receive can only be posted on a queue pair. *)
Definition rdma_connect_down : M link Z :=
  l ← get;
  match qp l with
  | Live =>
      when (post_recv_ret v =? 0) (modify (λ l, l <| recvs := recvs l + 1 |>));;
      if truthy (post_recv_ret v) then IS_free_buffers;; mret (post_recv_ret v)
      else
        ret ← IS_connect_client;
        if truthy ret then IS_free_buffers;; mret ret else mret 0
  | _ => undefined
  end.

(** How [IS_single_chunk_map] connects: one after the other, the results unused. *)
Definition connect : M link () := _ ← rdma_connect_upper; _ ← rdma_connect_down; mret ().

(** * What an attempt leaves *)

(** A [kernel_cb] after [kernel_cb_init]. *)
Record fresh (l : link) : Prop := {
  fr_pd : pd l = Null; fr_cq : cq l = Null; fr_qp : qp l = Null; fr_mr : dma_mr l = Null;
  fr_recv : recv_dma_addr l = None; fr_send : send_dma_addr l = None; fr_rq : rq_wr l = None
}.

(** The work request for the message buffer at [a]. *)
Definition message_wr (a : Z) : work_request := {| sg_addr := a; sg_length := sizeof_msg v; sg_lkey := mr_lkey v; num_sge := 1 |}.

(** Queue pair and buffers can be used. *)
Record ready (l : link) : Prop := {
  rd_pd : pd l = Live; rd_cq : cq l = Live; rd_qp : qp l = Live; rd_mr : dma_mr l = Live;
  rd_recv : recv_dma_addr l = Some (recv_addr v); rd_send : send_dma_addr l = Some (send_addr v);
  rd_rq : rq_wr l = Some (message_wr (recv_addr v)); rd_sq : sq_wr l = Some (message_wr (send_addr v))
}.

(** No queue pair and no buffers, but for the DMA mappings when [mapped]. *)
Record undone (mapped : bool) (l : link) : Prop := {
  un_pd : pd l ≠ Live; un_cq : cq l ≠ Live; un_qp : qp l ≠ Live; un_mr : dma_mr l ≠ Live;
  un_recv : recv_dma_addr l = if mapped then Some (recv_addr v) else None;
  un_send : send_dma_addr l = if mapped then Some (send_addr v) else None
}.

(** Only the buffers are gone. *)
Record half_undone (l : link) : Prop := {
  hu_pd : pd l = Live; hu_cq : cq l = Live; hu_qp : qp l = Live; hu_mr : dma_mr l = Dangling;
  hu_recv : recv_dma_addr l = None; hu_send : send_dma_addr l = None
}.

Lemma M_bind_Wait {W A B} (m : M W A) (f : A → M W B) w : m w = Wait → (m ≫= f) w = Wait.
Proof. intros E. unfold mbind, M_bind. by rewrite E. Qed.

(** A wait changes the state and uses up events. *)
Lemma wait_cases goal l :
  match wait_event_interruptible goal l with
  | Ret (_, l') => ∃ st evs, l' = l <| lk_state := st |> <| inputs := evs |>
  | Wait => sleep goal (lk_state l) (inputs l) = None
  | _ => False
  end.
Proof.
  unfold wait_event_interruptible. destruct (_ <=? _); [exists (lk_state l), (inputs l); by destruct l|].
  destruct (sleep _ _ _) as [[st evs]|] eqn:E; [|done]. by exists st, evs.
Qed.

(** The wait for the address ends with the route, or with an error, or not at all. *)
Lemma bind_client_cases l : is_Some (fill_sockaddr l) →
  match IS_bind_client l with
  | Ret (r, l') => ∃ st evs, l' = l <| lk_state := st |> <| inputs := evs |> ∧ (r = 0 → st = ROUTE_RESOLVED)
  | Wait => resolve_addr_ret v = 0 ∧ sleep ROUTE_RESOLVED (lk_state l) (inputs l) = None
  | _ => False
  end.
Proof.
  intros [a Ha]. unfold IS_bind_client. rewrite (M_bind_Ret get _ l l l) by done. rewrite Ha.
  rewrite (M_bind_Ret (lift (Some a)) _ l a l) by done. unfold truthy.
  destruct (Z.eqb_spec (resolve_addr_ret v) 0) as [Hr|Hr]; cbn [negb].
  - pose proof (wait_cases ROUTE_RESOLVED l) as Hw. destruct (wait_event_interruptible _ l) as [[[] l']| | |] eqn:E; try done.
    + rewrite (M_bind_Ret _ _ _ _ _ E), (M_bind_Ret get _ l' l' l') by done. destruct Hw as (st & evs & ->). cbn.
      destruct (decide (st = ROUTE_RESOLVED)); by exists st, evs.
    + by rewrite (M_bind_Wait _ _ _ E).
  - exists (lk_state l), (inputs l). by destruct l.
Qed.

Lemma setup_qp_run l : IS_setup_qp l =
  if truthy (alloc_pd_ret v) then Ret (alloc_pd_ret v, l <| pd := Err |>)
  else if truthy (create_cq_ret v) then Ret (create_cq_ret v, l <| pd := Live |> <| cq := Err |> <| pd := Dangling |>)
  else if truthy (create_qp_ret v) then
    Ret (create_qp_ret v, l <| pd := Live |> <| cq := Live |> <| cq := Dangling |> <| pd := Dangling |>)
  else Ret (0, l <| pd := Live |> <| cq := Live |> <| qp := Live |>).
Proof.
  unfold IS_setup_qp, IS_create_qp. destruct (truthy (alloc_pd_ret v)); [done|]. destruct (truthy (create_cq_ret v)); [done|].
  unfold truthy, mbind, M_bind, when. destruct (create_qp_ret v =? 0) eqn:E; cbn; by rewrite E.
Qed.

Lemma setup_buffers_run l : pd l = Live →
  let l1 := l <| recv_dma_addr := Some (recv_addr v) |> <| send_dma_addr := Some (send_addr v) |> in
  IS_setup_buffers l =
    if truthy (get_dma_mr_ret v) then Ret (get_dma_mr_ret v, l1 <| dma_mr := Err |>)
    else Ret (0, l1 <| dma_mr := Live |> <| rq_wr := Some (message_wr (recv_addr v)) |> <| sq_wr := Some (message_wr (send_addr v)) |>).
Proof.
  intros Hp. unfold IS_setup_buffers. rewrite (M_bind_Ret get _ l l l), Hp by done. by destruct (truthy (get_dma_mr_ret v)).
Qed.

Lemma upper_cases l : fresh l → is_Some (fill_sockaddr l) →
  match rdma_connect_upper l with
  | Ret (r, l') =>
      if r =? 0 then lk_state l' = ROUTE_RESOLVED ∧ ready l'
      else ∃ mapped, undone mapped l' ∧ (mapped = true → r = get_dma_mr_ret v)
  | Wait => resolve_addr_ret v = 0 ∧ sleep ROUTE_RESOLVED (lk_state l) (inputs l) = None
  | _ => False
  end.
Proof.
  intros [F1 F2 F3 F4 F5 F6 F7] Ha. unfold rdma_connect_upper. pose proof (bind_client_cases l Ha) as Hb.
  destruct (IS_bind_client l) as [[r l1]| | |] eqn:Eb; try done; [|by rewrite (M_bind_Wait _ _ _ Eb)].
  rewrite (M_bind_Ret _ _ _ _ _ Eb). clear Eb. destruct Hb as (st & evs & -> & Hst). unfold truthy at 1.
  destruct (Z.eqb_spec r 0) as [Hr|Hr]; cbn [negb].
  2: { cbn. destruct (Z.eqb_spec r 0); [done|]. exists false. split; [|done]. split; cbn; congruence. }
  specialize (Hst Hr) as ->. clear Hr r. set (l1 := l <| lk_state := ROUTE_RESOLVED |> <| inputs := evs |>).
  pose proof (setup_qp_run l1) as Eq. destruct (IS_setup_qp l1) as [[r l2]| | |] eqn:E2;
    [|by repeat destruct (truthy _)..]. rewrite (M_bind_Ret _ _ _ _ _ E2). clear E2.
  destruct (truthy (alloc_pd_ret v)) eqn:T1; [injection Eq as -> ->; rewrite T1; apply truthy_true in T1|].
  { cbn. destruct (Z.eqb_spec (alloc_pd_ret v) 0); [done|]. exists false. split; [|done]. split; cbn; congruence. }
  destruct (truthy (create_cq_ret v)) eqn:T2; [injection Eq as -> ->; rewrite T2; apply truthy_true in T2|].
  { cbn. destruct (Z.eqb_spec (create_cq_ret v) 0); [done|]. exists false. split; [|done]. split; cbn; congruence. }
  destruct (truthy (create_qp_ret v)) eqn:T3; [injection Eq as -> ->; rewrite T3; apply truthy_true in T3|].
  { cbn. destruct (Z.eqb_spec (create_qp_ret v) 0); [done|]. exists false. split; [|done]. split; cbn; congruence. }
  injection Eq as -> ->. change (truthy 0) with false. cbv iota.
  set (l2 := l1 <| pd := Live |> <| cq := Live |> <| qp := Live |>).
  pose proof (setup_buffers_run l2 eq_refl) as Eb. cbv zeta in Eb. destruct (truthy (get_dma_mr_ret v)) eqn:T4.
  - rewrite (M_bind_Ret _ _ _ _ _ Eb), T4. apply truthy_true in T4. unfold IS_free_qp, mbind, M_bind. cbn.
    destruct (Z.eqb_spec (get_dma_mr_ret v) 0); [done|]. by exists true.
  - rewrite (M_bind_Ret _ _ _ _ _ Eb). done.
Qed.

(** *** What ends the wait for the route *)








(** ** The second half *)

Lemma free_buffers_run l : ready l →
  ∃ l', IS_free_buffers l = Ret ((), l') ∧ half_undone l' ∧ recvs l' = recvs l ∧ lk_state l' = lk_state l.
Proof.
  intros [R1 R2 R3 R4 R5 R6 R7 R8]. unfold IS_free_buffers. rewrite (M_bind_Ret get _ l l l), R4, R1 by done.
  eexists. split; [reflexivity|]. by split.
Qed.

Lemma connect_client_cases l : lk_state l = ROUTE_RESOLVED →
  match IS_connect_client l with
  | Ret (r, l') => ∃ st evs, l' = l <| lk_state := st |> <| inputs := evs |> ∧
      (r = 0 → st ≠ ERROR ∧ sleep CONNECTED ROUTE_RESOLVED (inputs l) = Some (st, evs))
  | Wait => connect_ret v = 0 ∧ sleep CONNECTED ROUTE_RESOLVED (inputs l) = None
  | _ => False
  end.
Proof.
  intros Hst. unfold IS_connect_client, truthy. destruct (Z.eqb_spec (connect_ret v) 0) as [Ec|Ec]; cbn [negb].
  2: { exists (lk_state l), (inputs l). by destruct l. }
  unfold wait_event_interruptible, mbind, M_bind. rewrite Hst. cbn [test_state_num]. change (5 <=? 4) with false. cbv iota.
  destruct (sleep _ _ _) as [[st evs]|] eqn:E; [|done]. cbn. destruct (decide (st = ERROR)); by exists st, evs.
Qed.

Lemma connect_down_correct l : ready l → lk_state l = ROUTE_RESOLVED →
  match rdma_connect_down l with
  | Ret (r, l') =>
      if r =? 0 then ready l' ∧ recvs l' = recvs l + 1 ∧ lk_state l' ≠ ERROR ∧
        (∃ evs, sleep CONNECTED ROUTE_RESOLVED (inputs l) = Some (lk_state l', evs))
      else half_undone l' ∧ (post_recv_ret v = 0 → recvs l' = recvs l + 1)
  | Wait => post_recv_ret v = 0 ∧ connect_ret v = 0 ∧ sleep CONNECTED ROUTE_RESOLVED (inputs l) = None
  | _ => False
  end.
Proof.
  intros Hr Hst. unfold rdma_connect_down. rewrite (M_bind_Ret get _ l l l), (rd_qp _ Hr) by done. unfold when, truthy at 1.
  destruct (Z.eqb_spec (post_recv_ret v) 0) as [Ep|Ep]; cbn [negb].
  2: { destruct (free_buffers_run l Hr) as (l' & E & Hu & _). rewrite M_bind_ret. unfold truthy.
       destruct (Z.eqb_spec (post_recv_ret v) 0); [done|]. cbn [negb]. rewrite (M_bind_Ret _ _ _ _ _ E). cbn.
       by destruct (Z.eqb_spec (post_recv_ret v) 0). }
  set (l1 := l <| recvs := recvs l + 1 |>). rewrite (M_bind_Ret (modify _) _ l () l1) by done.
  assert (ready l1) as Hr1 by (destruct Hr; by split). rewrite Ep. change (truthy 0) with false. cbv iota.
  assert (∀ l2, ready l2 → recvs l2 = recvs l + 1 → ∀ r, r ≠ 0 →
    match (IS_free_buffers;; mret r : M link Z) l2 with
    | Ret (r, l') => if r =? 0 then ready l' ∧ recvs l' = recvs l + 1 ∧ lk_state l' ≠ ERROR ∧
        (∃ evs, sleep CONNECTED ROUTE_RESOLVED (inputs l) = Some (lk_state l', evs))
      else half_undone l' ∧ (0 = 0 → recvs l' = recvs l + 1)
    | Wait => 0 = 0 ∧ connect_ret v = 0 ∧ sleep CONNECTED ROUTE_RESOLVED (inputs l) = None
    | _ => False end) as Hfree.
  { intros l2 H2 Hrec r Hrne. destruct (free_buffers_run l2 H2) as (l' & E & Hu & Er & _). rewrite (M_bind_Ret _ _ _ _ _ E). cbn.
    destruct (Z.eqb_spec r 0); [done|]. split; [done|congruence]. }
  pose proof (connect_client_cases l1 Hst) as Hc. destruct (IS_connect_client l1) as [[r l2]| | |] eqn:E; try done;
    [|by rewrite (M_bind_Wait _ _ _ E)].
  rewrite (M_bind_Ret _ _ _ _ _ E). destruct Hc as (st & evs & -> & Hz). unfold truthy.
  assert (ready (l1 <| lk_state := st |> <| inputs := evs |>)) as H2 by (destruct Hr1; by split).
  destruct (Z.eqb_spec r 0) as [->|Hrne]; cbn [negb]; [|by apply Hfree].
  destruct (Hz eq_refl) as [He Es]. cbn. split_and!; [done..|]. by exists evs.
Qed.

(** C34: both halves run one after the other; the result of the first is ignored.  If it
    failed, the second posts a receive on a queue pair that does not exist, which is
    undefined; if it succeeded, then either one receive is posted, everything is ready and
    the state is the one the connection manager's events led to, or the buffers have been
    released while the queue pair, completion queue and protection domain stay. *)
Theorem connect_correct l : fresh l → is_Some (fill_sockaddr l) →
  match rdma_connect_upper l with
  | Ret (r, l1) =>
      if r =? 0 then
        match connect l with
        | Ret (_, l2) =>
            (ready l2 ∧ recvs l2 = recvs l1 + 1 ∧ lk_state l2 ≠ ERROR ∧
              ∃ evs, sleep CONNECTED ROUTE_RESOLVED (inputs l1) = Some (lk_state l2, evs)) ∨ half_undone l2
        | Wait => connect_ret v = 0 ∧ sleep CONNECTED ROUTE_RESOLVED (inputs l1) = None
        | _ => False
        end
      else connect l = Ub
  | Wait => connect l = Wait
  | _ => False
  end.
Proof.
  intros Hf Ha. pose proof (upper_cases l Hf Ha) as Hu. unfold connect.
  destruct (rdma_connect_upper l) as [[r l1]| | |] eqn:E; try done; [|by apply M_bind_Wait].
  rewrite (M_bind_Ret _ _ _ _ _ E). destruct (Z.eqb_spec r 0) as [Hr|Hr].
  - destruct Hu as [Hst Hrd]. pose proof (connect_down_correct l1 Hrd Hst) as Hd.
    destruct (rdma_connect_down l1) as [[r2 l2]| | |] eqn:E2; try done;
      [|rewrite (M_bind_Wait _ _ _ E2); by destruct Hd as (_ & ? & ?)].
    rewrite (M_bind_Ret _ _ _ _ _ E2). cbn. destruct (r2 =? 0); [by left|right]. by destruct Hd.
  - destruct Hu as (mapped & Hun & _). apply M_bind_Ub. unfold rdma_connect_down.
    rewrite (M_bind_Ret get _ l1 l1 l1) by done. pose proof (un_qp _ _ Hun). by destruct (qp l1).
Qed.
End connect.

(** The events that make a connection, with the handler of [Failure]. *)
Lemma on_event_handler cfg post_ret submit_queues c ev r w : ev ≠ DISCONNECTED_EV →
  IS_cma_event_handler cfg post_ret submit_queues c ev w =
    match ev with
    | DEVICE_REMOVAL_EV => Ret (-1, w)
    | OTHER_EV => Ret (0, w)
    | _ => (upd_cb c (λ cb, cb <| cb_st := (on_event ev r (cb_st cb)).1 |>);; mret 0) w
    end.
Proof. by destruct ev. Qed.

(** * Concrete runs *)

Definition test_verbs (mr : Z) : verbs := {|
  resolve_addr_ret := 0; alloc_pd_ret := 0; create_cq_ret := 0; create_qp_ret := 0; get_dma_mr_ret := mr;
  post_recv_ret := 0; connect_ret := 0; recv_addr := 0x1000; send_addr := 0x2000; mr_lkey := 7; sizeof_msg := 392 |}.
Definition test_link (evs : list cm_input) : link := {|
  lk_state := IDLE; inputs := evs; addr_type := AF_INET; lk_addr := [192; 168; 0; 11]; lk_port := 9400; txdepth := 257;
  pd := Null; cq := Null; qp := Null; dma_mr := Null; recv_dma_addr := None; send_dma_addr := None;
  rq_wr := None; sq_wr := None; recvs := 0 |}.
Definition good_events : list cm_input := [Event ADDR_RESOLVED_EV 0; Event ROUTE_RESOLVED_EV 0; Event ESTABLISHED_EV 0].

Lemma test_link_fresh evs : fresh (test_link evs).
Proof. by split. Qed.


Lemma connect_correct_witness :
  ∃ l', connect (test_verbs 0) (test_link good_events) = Ret ((), l') ∧ ready (test_verbs 0) l' ∧ lk_state l' = CONNECTED.
Proof.
  pose proof (connect_correct (test_verbs 0) (test_link good_events)) as H.
  destruct (rdma_connect_upper (test_verbs 0) (test_link good_events)) as [[r l1]| | |] eqn:E;
    try (vm_compute in E; discriminate E).
  assert (r = 0) as -> by (vm_compute in E; injection E as <- _; reflexivity).
  destruct (connect (test_verbs 0) (test_link good_events)) as [[[] l2]| | |] eqn:E2; try (vm_compute in E2; discriminate E2).
  exists l2. split; [reflexivity|]. vm_compute in E2. injection E2 as E2. rewrite <- E2 in *.
  destruct H as [(Hr & _)|Hu]; [split; reflexivity|eexists; reflexivity| |].
  - split; [exact Hr|reflexivity].
  - pose proof (hu_mr _ Hu) as Hm. discriminate Hm.
Defined.

(** When the route cannot be asked for, the handler wakes the thread but leaves the state, so
    the thread sleeps on for an event that nobody is going to send. *)
Lemma resolve_route_error_hangs :
  rdma_connect_upper (test_verbs 0) (test_link [Event ADDR_RESOLVED_EV (- EINVAL)]) = Wait.
Proof. reflexivity. Qed.

(** A signal during the second wait passes for a connection. *)
Lemma interrupted_connect :
  ∃ l1 l2, rdma_connect_upper (test_verbs 0) (test_link [Event ADDR_RESOLVED_EV 0; Event ROUTE_RESOLVED_EV 0; Signal]) = Ret (0, l1) ∧
    rdma_connect_down (test_verbs 0) l1 = Ret (0, l2) ∧ lk_state l2 = ROUTE_RESOLVED.
Proof. eexists _, _. split; [vm_compute; reflexivity|]. by split; [vm_compute; reflexivity|]. Qed.
