(* ===== verification/Kmod.v ===== *)
(** The module ([is_main.c]: [IS_init_module], [IS_cleanup_module]; [is_configfs.c]: the
    subsystem), and the placement of its hardware queues on memory nodes ([is_mq.c]:
    [IS_alloc_hctx], old kernels). *)

From S2P Require Import Prelude Config.

(** * Hardware queues *)

(** [DIV_ROUND_UP] of non-negative numbers. *)
Definition DIV_ROUND_UP (n d : Z) : Z := (n + d - 1) / d.

(** The state of the loop of [IS_alloc_hctx]. *)
Record split : Set := { sp_n : Z; sp_node : Z; sp_tip : Z; b_size : Z }.
#[export] Instance split_settable : Settable split := λ r, Build_split (sp_n r) (sp_node r) (sp_tip r) (b_size r).

(** The node, counted among the online ones, of queue [hctx_index]; division by zero has
    no value. *)
Definition hctx_node (nr_hw_queues nr_online_nodes hctx_index : Z) : option Z :=
  if nr_online_nodes =? 0 then None
  else
    st ← for_up 0 hctx_index (λ _ st,
      if b_size st =? 0 then None
      else
        st ← (if sp_n st mod b_size st =? 0 then
                let tip := sp_tip st - 1 in
                Some {| sp_n := 0; sp_node := sp_node st + 1; sp_tip := tip;
                        b_size := if tip =? 0 then nr_hw_queues / nr_online_nodes else b_size st |}
              else Some st);
        Some (st <| sp_n := sp_n st + 1 |>))
      {| sp_n := 1; sp_node := 0; sp_tip := nr_hw_queues mod nr_online_nodes;
         b_size := DIV_ROUND_UP nr_hw_queues nr_online_nodes |};
    Some (sp_node st).

(** [for_each_online_node]: the real node that the memory comes from; [max_node] when the
    list runs out. *)
Fixpoint online_node (online : list Z) (max_node node : Z) : Z :=
  match online with
  | [] => max_node
  | n :: online => if node =? 0 then n else online_node online max_node (node - 1)
  end.
Definition IS_alloc_hctx (nr_hw_queues : Z) (online : list Z) (max_node hctx_index : Z) : option Z :=
  node ← hctx_node nr_hw_queues (alen online) hctx_index; Some (online_node online max_node node).

(** * The module *)

(** What loading has set up: the configfs subsystem, the block device number, the number of
    queues, the lock and the list of sessions; and what has been done so far. *)
Inductive setup : Set := RegisterSubsystem | SetQueues (n : Z) | RegisterBlkdev (major : Z) | InitLock | InitList.
Record kmod : Set := {
  subsystem : bool; blkdev : option Z; submit_queues : Z; lock_ready : bool; list_ready : bool; steps : list setup }.
#[export] Instance kmod_settable : Settable kmod := λ r,
  Build_kmod (subsystem r) (blkdev r) (submit_queues r) (lock_ready r) (list_ready r) (steps r).

Definition act (k : kmod) (a : setup) : kmod :=
  let k := k <| steps := steps k ++ [a] |> in
  match a with
  | RegisterSubsystem => k <| subsystem := true |>
  | SetQueues n => k <| submit_queues := n |>
  | RegisterBlkdev major => k <| blkdev := Some major |>
  | InitLock => k <| lock_ready := true |>
  | InitList => k <| list_ready := true |>
  end.

(** [IS_create_configfs_files]: the error of [configfs_register_subsystem]. *)
Definition IS_create_configfs_files (err : Z) (k : kmod) : Z * kmod :=
  if err =? 0 then (0, act k RegisterSubsystem) else (err, k).
Definition IS_destroy_configfs_files (k : kmod) : kmod := k <| subsystem := false |>.

(** [IS_init_module], given that error, the processors online and what [register_blkdev]
    returns. *)
Definition IS_init_module (err num_online_cpus IS_major : Z) (k : kmod) : Z * kmod :=
  let '(ret, k) := IS_create_configfs_files err k in
  if negb (ret =? 0) then (1, k)
  else
    let k := act k (SetQueues num_online_cpus) in
    if IS_major <? 0 then (IS_major, k)
    else (0, act (act (act k (RegisterBlkdev IS_major)) InitLock) InitList).

(** [IS_cleanup_module]; the sessions left, destroyed one after the other
    ([IS_session_destroy], modelled in [Device]). *)
Definition IS_cleanup_module {S W : Type} (IS_session_destroy : S → W → option W) (sessions : list S) (k : kmod) (w : W)
    : option (kmod * W) :=
  let k := k <| blkdev := None |> in
  w ← foldl (λ o s, w ← o; IS_session_destroy s w) (Some w) sessions;
  Some (IS_destroy_configfs_files k, w).

(** * Theorems *)

(** ** Queues *)

(** The first queue of a node: every node gets [q / n] queues and the first [q mod n] nodes
    one more. *)
Definition first_queue (q n node : Z) : Z := node * (q / n) + Z.min node (q mod n).

Lemma first_queue_ends q n : 0 < n → 0 <= q → first_queue q n 0 = 0 ∧ first_queue q n n = q.
Proof.
  intros Hn Hq. unfold first_queue. pose proof (Z.mod_pos_bound q n Hn). pose proof (Z.div_mod q n). lia.
Qed.

Definition node_size (q n node : Z) : Z := q / n + (if node <? q mod n then 1 else 0).

Lemma first_queue_step q n node : first_queue q n (node + 1) = first_queue q n node + node_size q n node.
Proof. unfold first_queue, node_size. destruct (Z.ltb_spec node (q mod n)); lia. Qed.

Lemma node_size_bounds q n node : q / n <= node_size q n node <= q / n + 1.
Proof. unfold node_size. destruct (_ <? _); lia. Qed.

Lemma DIV_ROUND_UP_size q n : 0 < n → 0 <= q → DIV_ROUND_UP q n = node_size q n 0.
Proof.
  intros Hn Hq. unfold DIV_ROUND_UP, node_size. pose proof (Z.mod_pos_bound q n Hn) as Hm.
  pose proof (Z.div_mod q n ltac:(lia)) as E. destruct (Z.ltb_spec 0 (q mod n)).
  - symmetry. apply Z.div_unique with (r := q mod n - 1); lia.
  - symmetry. apply Z.div_unique with (r := n - 1); lia.
Qed.

(** The loop at queue [i]: it belongs to the current node, whose size is the bucket size. *)
Record splitting (q n i : Z) (st : split) : Prop := {
  st_node : 0 <= sp_node st;
  st_from : i = first_queue q n (sp_node st) + sp_n st - 1;
  st_pos : 1 <= sp_n st <= b_size st;
  st_tip : sp_tip st = q mod n - sp_node st;
  st_size : b_size st = node_size q n (sp_node st)
}.

Lemma node_size_pos q n node :
  0 < n → 0 <= q → 0 <= node → first_queue q n node < q → 1 <= node_size q n node.
Proof.
  intros Hn Hq Hnode H. pose proof (Z.div_pos q n Hq Hn). unfold node_size, first_queue in *. pose proof (Z.mod_pos_bound q n Hn).
  pose proof (Z.div_mod q n ltac:(lia)). destruct (Z.ltb_spec node (q mod n)); nia.
Qed.

Lemma split_step q n i st :
  0 < n → 0 <= i → i + 1 < q → splitting q n i st →
  ∃ st', (if b_size st =? 0 then None
      else
        st ← (if sp_n st mod b_size st =? 0 then
                let tip := sp_tip st - 1 in
                Some {| sp_n := 0; sp_node := sp_node st + 1; sp_tip := tip;
                        b_size := if tip =? 0 then q / n else b_size st |}
              else Some st);
        Some (st <| sp_n := sp_n st + 1 |>)) = Some st' ∧ splitting q n (i + 1) st'.
Proof.
  intros Hn Hi Hq [Hnode Hfrom Hpos Htip Hsize]. pose proof (first_queue_step q n (sp_node st)) as Hstep.
  destruct (Z.eqb_spec (b_size st) 0); [lia|]. destruct (Z.eqb_spec (sp_n st mod b_size st) 0) as [E|E].
  - assert (sp_n st = b_size st) as Hlast.
    { destruct (Z.lt_ge_cases (sp_n st) (b_size st)); [rewrite Z.mod_small in E by lia|]; lia. }
    step_bind. eexists. split; [done|].
    assert ((if sp_tip st - 1 =? 0 then q / n else b_size st) = node_size q n (sp_node st + 1)) as Hb.
    { rewrite Hsize. unfold node_size. destruct (Z.eqb_spec (sp_tip st - 1) 0),
        (Z.ltb_spec (sp_node st) (q mod n)), (Z.ltb_spec (sp_node st + 1) (q mod n)); lia. }
    pose proof (node_size_pos q n (sp_node st + 1) Hn ltac:(lia) ltac:(lia) ltac:(lia)).
    constructor; cbn; [lia|lia|rewrite Hb; lia|lia|done].
  - step_bind. eexists. split; [done|]. constructor; cbn; try done; [lia|].
    assert (sp_n st ≠ b_size st) by (intros Heq; apply E; rewrite Heq; by apply Z.mod_same). lia.
Qed.

(** Queues are split evenly, as the comment says: consecutive queues share a node, every
    node gets [q / n] queues or one more, and the larger nodes come first.  The division in
    the loop is never by zero, even with fewer queues than nodes. *)
Theorem hctx_node_correct q n i :
  0 < n → 0 <= i < q →
  ∃ node, hctx_node q n i = Some node ∧ 0 <= node < n ∧ first_queue q n node <= i < first_queue q n (node + 1).
Proof.
  intros Hn Hi. destruct (first_queue_ends q n) as [H0 HN]; [lia|lia|].
  unfold hctx_node. destruct (Z.eqb_spec n 0); [lia|].
  match goal with |- context [for_up 0 i ?body ?s0] =>
    destruct (for_up_inv (λ j st, splitting q n j st) body 0 i s0) as (st & -> & Hst) end; [lia| | |].
  - assert (0 <= 0 < q) as Hq by lia. pose proof (node_size_pos q n 0 Hn ltac:(lia) ltac:(lia) ltac:(lia)).
    constructor; cbn; rewrite ?DIV_ROUND_UP_size by lia; lia.
  - intros j st Hj Hst. apply split_step; [lia..|done].
  - step_bind. exists (sp_node st). split; [done|]. destruct Hst as [Hnode Hfrom Hpos Htip Hsize].
    pose proof (first_queue_step q n (sp_node st)). split; [|lia]. split; [lia|].
    destruct (Z.lt_ge_cases (sp_node st) n) as [|Hge]; [done|].
    assert (q <= first_queue q n (sp_node st)); [|lia]. rewrite <- HN at 1. unfold first_queue.
    pose proof (Z.div_pos q n). nia.
Qed.

Lemma hctx_node_correct_witness :
  ∃ node, hctx_node 10 4 5 = Some node ∧ 0 <= node < 4 ∧ first_queue 10 4 node <= 5 < first_queue 10 4 (node + 1).
Proof. apply (hctx_node_correct 10 4 5); lia. Defined.

(** Ten queues on four nodes. *)
Example hctx_node_test : hctx_node 10 4 <$> seqZ 0 10 = Some <$> [0; 0; 0; 1; 1; 1; 2; 2; 3; 3].
Proof. reflexivity. Qed.

(** ** Loading *)

Definition fresh : kmod :=
  {| subsystem := false; blkdev := None; submit_queues := 0; lock_ready := false; list_ready := false; steps := [] |}.

(** Loading succeeds exactly when both registrations do, and then everything is set up;
    when the subsystem cannot be registered nothing is; but when the block device number
    cannot be had, loading fails and leaves the configfs subsystem of the unloaded module
    registered. *)
Theorem IS_init_module_correct err cpus IS_major :
  let '(ret, k) := IS_init_module err cpus IS_major fresh in
  (ret = 0 ↔ err = 0 ∧ 0 <= IS_major) ∧
  (ret = 0 → subsystem k = true ∧ blkdev k = Some IS_major ∧ submit_queues k = cpus ∧
     lock_ready k = true ∧ list_ready k = true) ∧
  (err ≠ 0 → k = fresh) ∧
  (err = 0 → IS_major < 0 → ret = IS_major ∧ subsystem k = true ∧ blkdev k = None).
Proof.
  unfold IS_init_module, IS_create_configfs_files. destruct (Z.eqb_spec err 0) as [->|He]; cbn.
  - destruct (Z.ltb_spec IS_major 0); cbn; (split; [lia|]); (split; [|split; [done|]]); try done; lia.
  - destruct (Z.eqb_spec err 0); [done|]. cbn. split; [lia|]. split; [done|]. split; [done|]. lia.
Qed.

(** The subsystem is open to users before the lock and the list of sessions, which making a
    session uses, are initialised. *)
Lemma init_exposes cpus IS_major :
  0 <= IS_major →
  let k := (IS_init_module 0 cpus IS_major fresh).2 in
  ∃ early, early `prefix_of` steps k ∧ subsystem (foldl act fresh early) = true ∧
    lock_ready (foldl act fresh early) = false ∧ list_ready (foldl act fresh early) = false.
Proof.
  intros H. cbn. destruct (Z.ltb_spec IS_major 0); [lia|]. cbn. exists [RegisterSubsystem]. split; [|done]. by eexists.
Qed.

(** Unloading after a load gives everything back, if the sessions can be destroyed. *)
Lemma IS_cleanup_module_correct {S W} (destroy : S → W → option W) sessions k w k' w' :
  IS_cleanup_module destroy sessions k w = Some (k', w') → subsystem k' = false ∧ blkdev k' = None.
Proof. unfold IS_cleanup_module. by intros (v & _ & [= <- _])%bind_Some. Qed.
