(* ===== verification/Monitor.v ===== *)
(** The resource monitor ([resource_monitor/rdma-common.c], [daemon.c]): the memory
    server's region table, its client connections, the messages it answers, and the
    memory pressure policy. *)

From S2P Require Import Prelude Config State.

Definition MAX_CLIENT : Z := 32.
Definition EXTRA_CHUNK_NUM : Z := 2.
Definition MAX_FREE_MEM_GB : Z := 32.
Definition FREE_MEM_EVICT_THRESHOLD : Z := 10.
Definition FREE_MEM_EXPAND_THRESHOLD : Z := 20.
Definition MEM_EVICT_HIT_THRESHOLD : Z := 1.
Definition MEM_EXPAND_HIT_THRESHOLD : Z := 20.
Definition CHUNK_MALLOCED : Z := 1.
Definition CHUNK_EMPTY : Z := 0.

(** The monitor's own [htonll], on a little-endian host: a function, not the macro. *)
Definition htonll (value : Z) : Z :=
  u64 (Z.lor (Z.shiftl (ntohl (Z.land value 0xFFFFFFFF)) 32) (ntohl (u32 (Z.shiftr value 32)))).

(** * State *)

Inductive conn_state : Set := CONN_IDLE | CONN_CONNECTED | CONN_MAPPED | CONN_FAILED.
Inductive server_state : Set := S_WAIT | S_BIND | S_DONE.
#[export] Instance conn_state_eq_dec : EqDecision conn_state.
Proof. solve_decision. Defined.

(** [struct connection]; the message is the one of the manager ([rdma_info]).  [recvs] is
    the number of receives that are posted on the queue pair and that no message has
    used; [qp_busy] is [cq_qp_state]. *)
Record connection : Type := {
  conn_index : Z;
  sess_chunk_map : list Z;
  mapped_chunk_size : Z;
  connected : bool;
  recv_msg : rdma_info;
  send_msg : rdma_info;
  srv_state : server_state;
  stop_sem : Z;
  evict_sem : Z;
  recvs : Z;
  qp_busy : bool
}.

(** [struct rdma_remote_mem]: a region pointer is reduced to whether it is live, a
    memory registration to its address and key. *)
Record rdma_remote_mem : Type := {
  region_live : list bool;
  mr_list : list (option (Z * Z));
  size_gb : Z;
  mapped_size : Z;
  conn_map : list Z;
  malloc_map : list Z;
  conn_chunk_map : list Z
}.

(** [struct rdma_session]; connections are kept in the slots that point to them. *)
Record rdma_session : Type := {
  conns : list (option connection);
  conns_state : list conn_state;
  conn_num : Z;
  rdma_remote : rdma_remote_mem;
  running : bool;
  sent : list (Z * rdma_info)      (* messages sent, by connection *)
}.

#[export] Instance connection_settable : Settable connection := λ r,
  Build_connection (conn_index r) (sess_chunk_map r) (mapped_chunk_size r) (connected r) (recv_msg r)
    (send_msg r) (srv_state r) (stop_sem r) (evict_sem r) (recvs r) (qp_busy r).
#[export] Instance rdma_remote_mem_settable : Settable rdma_remote_mem := λ r,
  Build_rdma_remote_mem (region_live r) (mr_list r) (size_gb r) (mapped_size r) (conn_map r) (malloc_map r)
    (conn_chunk_map r).
#[export] Instance rdma_session_settable : Settable rdma_session := λ r,
  Build_rdma_session (conns r) (conns_state r) (conn_num r) (rdma_remote r) (running r) (sent r).

Definition get_conn (s : rdma_session) (c : Z) : option connection := o ← aget (conns s) c; o.
Definition set_conn (s : rdma_session) (c : Z) (x : connection) : option rdma_session :=
  l ← aset (conns s) c (Some x); Some (s <| conns := l |>).
Definition upd_conn (c : Z) (f : connection → connection) (s : rdma_session) : option rdma_session :=
  conn ← get_conn s c; set_conn s c (f conn).

(** ** Allocation *)

(** [free(region_list[i])]: freeing twice is undefined. *)
Definition free_region (m : rdma_remote_mem) (i : Z) : option rdma_remote_mem :=
  b ← aget (region_live m) i;
  if b : bool then l ← aset (region_live m) i false; Some (m <| region_live := l |>) else None.

(** [posix_memalign], [memset] and the mark in [malloc_map]. *)
Definition alloc_region (m : rdma_remote_mem) (i : Z) : option rdma_remote_mem :=
  l ← aset (region_live m) i true;
  k ← aset (malloc_map m) i CHUNK_MALLOCED;
  Some (m <| region_live := l |> <| malloc_map := k |>).

(** [malloc_map[i] == CHUNK_MALLOCED && conn_map[i] == -1]. *)
Definition is_free (m : rdma_remote_mem) (i : Z) : option bool :=
  a ← aget (malloc_map m) i; c ← aget (conn_map m) i; Some ((a =? CHUNK_MALLOCED) && (c =? -1)).

(** * Start-up *)

(** How much of [free_mem_g] GB is offered. *)
Definition initial_size (free_mem_g : Z) : Z :=
  let g := if FREE_MEM_EXPAND_THRESHOLD <? free_mem_g
           then free_mem_g - (FREE_MEM_EVICT_THRESHOLD + FREE_MEM_EXPAND_THRESHOLD) / 2
           else if FREE_MEM_EVICT_THRESHOLD <? free_mem_g then free_mem_g - FREE_MEM_EVICT_THRESHOLD
           else 0 in
  if MAX_FREE_MEM_GB <? g then MAX_FREE_MEM_GB else g.

(** [rdma_session_init], given the free memory of the host in GB. *)
Definition rdma_session_init (free_mem_g : Z) (s : rdma_session) : option rdma_session :=
  m ← for_up 0 MAX_FREE_MEM_GB (λ i m,
    c ← aset (conn_map m) i (-1); k ← aset (conn_chunk_map m) i (-1); a ← aset (malloc_map m) i CHUNK_EMPTY;
    Some (m <| conn_map := c |> <| conn_chunk_map := k |> <| malloc_map := a |>)) (rdma_remote s);
  let g := initial_size free_mem_g in
  m ← for_up 0 g (λ i m, alloc_region m i) m;
  let m := m <| size_gb := g |> <| mapped_size := 0 |> in
  s ← for_up 0 MAX_CLIENT (λ i s,
    l ← aset (conns s) i None; t ← aset (conns_state s) i CONN_IDLE;
    Some (s <| conns := l |> <| conns_state := t |>)) (s <| rdma_remote := m |>);
  Some (s <| conn_num := 0 |>).

(** [get_free_mem]: every decimal digit of the line, as one number. *)
Definition get_free_mem (result : list byte) : Z :=
  foldl (λ res b, if (48 <=? b2z b) && (b2z b <=? 57) then res * 10 + (b2z b - 48) else res) 0 result.

(** * Connections *)

(** [post_receives]: one more message can come in. *)
Definition post_receives (c : Z) (s : rdma_session) : option rdma_session :=
  upd_conn c (λ x, x <| recvs := recvs x + 1 |>) s.

(** The network puts a message into [recv_msg] and uses up a posted receive; without one
    the message stays with the sender, who tries again for ever ([rnr_retry_count] of
    [build_params] is 7): no value. *)
Definition deliver (c : Z) (msg : rdma_info) (s : rdma_session) : option rdma_session :=
  conn ← get_conn s c;
  if 0 <? recvs conn then set_conn s c (conn <| recv_msg := msg |> <| recvs := recvs conn - 1 |>) else None.

(** [build_connection]: the first idle slot; without one the connection has no index
    and stays outside of the table ([None]).  [msg] is what the allocated messages hold. *)
Definition build_connection (msg : rdma_info) (s : rdma_session) : option (option Z * rdma_session) :=
  let new := {| conn_index := -1; sess_chunk_map := replicate (Z.to_nat MAX_FREE_MEM_GB) (-1);
                mapped_chunk_size := 0; connected := false; recv_msg := msg; send_msg := msg;
                srv_state := S_WAIT; stop_sem := 0; evict_sem := 0; recvs := 0; qp_busy := true |} in
  '(i, s) ← for_brk 0 MAX_CLIENT (λ i s,
    st ← aget (conns_state s) i;
    if bool_decide (st = CONN_IDLE) then
      s ← set_conn s i (new <| conn_index := i |>);
      t ← aset (conns_state s) i CONN_CONNECTED;
      Some (Stop (s <| conns_state := t |>))
    else Some (Next s)) s;
  let s := s <| conn_num := conn_num s + 1 |> in
  if i <? MAX_CLIENT then s ← post_receives i s; Some (Some i, s) else Some (None, s).

(** [destroy_connection]. *)
Definition destroy_connection (c : Z) (s : rdma_session) : option rdma_session :=
  conn ← get_conn s c;
  s ← (if 0 <? mapped_chunk_size conn then
         m ← for_up 0 MAX_MR_SIZE_GB (λ i m,
           index ← aget (sess_chunk_map conn) i;
           if index =? -1 then Some m
           else
             a ← aset (conn_map m) index (-1); k ← aset (conn_chunk_map m) index (-1);
             Some (m <| conn_map := a |> <| conn_chunk_map := k |>)) (rdma_remote s);
         Some (s <| rdma_remote := m <| mapped_size := mapped_size m - mapped_chunk_size conn |> |>)
       else Some s);
  l ← aset (conns s) (conn_index conn) None;
  t ← aset (conns_state s) (conn_index conn) CONN_IDLE;
  let s := s <| conns := l |> <| conns_state := t |> <| conn_num := conn_num s - 1 |> in
  Some (if conn_num s =? 0 then s <| running := false |> else s).

(** * Messages *)

(** [send_message] busy-waits for the connection; [None] also stands for that hang. *)
Definition send_message (c : Z) (s : rdma_session) : option rdma_session :=
  conn ← get_conn s c;
  if connected conn then Some (s <| sent := sent s ++ [(c, send_msg conn)] |>) else None.

Definition upd_send (f : rdma_info → rdma_info) (conn : connection) : connection :=
  conn <| send_msg := f (send_msg conn) |>.

(** Take chunk [i] for connection [c]: map it, register it with address and key [mr],
    and put them in the message. *)
Definition serve_chunk (mr : Z → Z * Z) (c i : Z) (s : rdma_session) : option rdma_session :=
  conn ← get_conn s c;
  let m := rdma_remote s in
  k ← aset (sess_chunk_map conn) i i;
  a ← aset (conn_map m) i (conn_index conn);
  r ← aset (mr_list m) i (Some (mr i));
  b ← aset (ri_buf (send_msg conn)) i (htonll (mr i).1);
  q ← aset (ri_rkey (send_msg conn)) i (ntohl (mr i).2);
  set_conn (s <| rdma_remote := m <| conn_map := a |> <| mr_list := r |> |>) c
    (conn <| sess_chunk_map := k |> <| send_msg := (send_msg conn) <| ri_buf := b |> <| ri_rkey := q |> |>).

(** The head of both binds: the size field and no keys. *)
Definition start_bind (c size : Z) (s : rdma_session) : option rdma_session :=
  conn ← get_conn s c;
  q ← for_up 0 MAX_FREE_MEM_GB (λ i l, aset l i 0) (ri_rkey (send_msg conn));
  set_conn s c (upd_send (λ m, m <| ri_size_gb := size |> <| ri_rkey := q |>) conn).

(** The tail: sizes, type, send. *)
Definition finish_bind (c size : Z) (ty : msg_type) (s : rdma_session) : option rdma_session :=
  let m := rdma_remote s in
  s ← upd_conn c (λ conn, upd_send (λ m, m <| ri_type := ty |>)
        (conn <| mapped_chunk_size := mapped_chunk_size conn + size |>))
      (s <| rdma_remote := m <| mapped_size := mapped_size m + size |> |>);
  send_message c s.

Definition send_single_mr (mr : Z → Z * Z) (c client_chunk_index : Z) (s : rdma_session) : option rdma_session :=
  s ← start_bind c client_chunk_index s;
  '(_, s) ← for_brk 0 MAX_FREE_MEM_GB (λ i s,
    b ← is_free (rdma_remote s) i;
    if b : bool then s ← serve_chunk mr c i s; Some (Stop s) else Some (Next s)) s;
  finish_bind c 1 INFO_SINGLE s.

Definition send_mr (mr : Z → Z * Z) (c size : Z) (s : rdma_session) : option rdma_session :=
  s ← start_bind c size s;
  '(_, (s, _)) ← for_brk 0 MAX_FREE_MEM_GB (λ i '(s, j),
    b ← is_free (rdma_remote s) i;
    if b : bool then
      s ← serve_chunk mr c i s;
      Some (if j + 1 =? size then Stop (s, j + 1) else Next (s, j + 1))
    else Some (Next (s, j))) (s, 0);
  finish_bind c size INFO s.

Definition send_free_mem_size (c : Z) (s : rdma_session) : option rdma_session :=
  let m := rdma_remote s in
  s ← upd_conn c (upd_send (λ x, x <| ri_type := FREE_SIZE |> <| ri_size_gb := size_gb m - mapped_size m |>)) s;
  send_message c s.

(** [send_stop]; the wait for the client's answer follows ([stop_sem]). *)
Definition send_stop (c n : Z) (s : rdma_session) : option rdma_session :=
  s ← upd_conn c (upd_send (λ x, x <| ri_type := STOP |> <| ri_size_gb := n |>)) s; send_message c s.

Definition send_evict (c n : Z) (s : rdma_session) : option rdma_session :=
  conn ← get_conn s c;
  q ← for_up 0 MAX_MR_SIZE_GB (λ i l, aset l i 0) (ri_rkey (send_msg conn));
  s ← set_conn s c (upd_send (λ x, x <| ri_type := EVICT |> <| ri_size_gb := n |> <| ri_rkey := q |>) conn);
  send_message c s.

Definition send_fault_done (c : Z) (s : rdma_session) : option rdma_session :=
  s ← upd_conn c (upd_send (λ x, x <| ri_type := FAULT_DONE |>)) s; send_message c s.

(** [recv_done], for a chunk with a key: the client has given it back. *)
Definition take_back (c i : Z) (s : rdma_session) : option rdma_session :=
  x ← get_conn s c;
  index ← aget (sess_chunk_map x) i;
  k ← aset (sess_chunk_map x) i (-1);
  s ← set_conn s c (x <| sess_chunk_map := k |>);
  let m := rdma_remote s in
  r ← aget (mr_list m) index; _ ← r;
  r ← aset (mr_list m) index None;
  m ← free_region (m <| mr_list := r |>) index;
  a ← aset (conn_map m) index (-1);
  l ← aset (malloc_map m) index CHUNK_EMPTY;
  h ← aset (conn_chunk_map m) index (-1);
  Some (s <| rdma_remote := m <| conn_map := a |> <| malloc_map := l |> <| conn_chunk_map := h |> |>).

Definition recv_done (c : Z) (s : rdma_session) : option rdma_session :=
  conn ← get_conn s c;
  let evict_g := ri_size_gb (recv_msg conn) in
  s ← for_up 0 MAX_MR_SIZE_GB (λ i s,
    rkey ← aget (ri_rkey (recv_msg conn)) i;
    if truthy rkey then take_back c i s else Some s) s;
  let m := rdma_remote s in
  s ← upd_conn c (λ x, x <| mapped_chunk_size := mapped_chunk_size x - evict_g |> <| stop_sem := stop_sem x + 1 |>)
      (s <| rdma_remote := m <| size_gb := size_gb m - evict_g |> <| mapped_size := mapped_size m - evict_g |> |>);
  x ← get_conn s c;
  s ← (if mapped_chunk_size x =? 0 then
         t ← aset (conns_state s) (conn_index x) CONN_CONNECTED; Some (s <| conns_state := t |>)
       else Some s);
  post_receives c s.

(** [die] ends the process. *)
Inductive outcome : Type := Alive (s : rdma_session) | Died.

(** [on_completion] for a completed receive ([recv_msg] holds the message) or send; the
    pause of [FAULT] before its answer only takes time. *)
Inductive completion : Set := RecvOk | SendOk | Failed.

Definition on_completion (mr : Z → Z * Z) (c : Z) (w : completion) (s : rdma_session) : option outcome :=
  match w with
  | Failed => Some Died
  | SendOk => s ← upd_conn c (λ x, x <| qp_busy := false |>) s; Some (Alive s)
  | RecvOk =>
      conn ← get_conn s c;
      let busy := upd_conn c (λ x, x <| qp_busy := true |>) in
      let finish s := s ← post_receives c s; Some (Alive s) in
      let bound s := t ← aset (conns_state s) (conn_index conn) CONN_MAPPED; finish (s <| conns_state := t |>) in
      match ri_type (recv_msg conn) with
      | QUERY => s ← busy s; s ← send_free_mem_size c s; finish s
      | BIND =>
          s ← busy s; s ← upd_conn c (λ x, x <| srv_state := S_BIND |>) s;
          s ← send_mr mr c (ri_size_gb (recv_msg conn)) s; bound s
      | BIND_SINGLE =>
          s ← busy s; s ← upd_conn c (λ x, x <| srv_state := S_BIND |>) s;
          s ← send_single_mr mr c (ri_size_gb (recv_msg conn)) s; bound s
      | ACTIVITY => s ← upd_conn c (λ x, x <| evict_sem := evict_sem x + 1 |>) s; Some (Alive s)
      | FAULT => s ← busy s; s ← send_fault_done c s; finish s
      | DONE => s ← busy s; s ← recv_done c s; Some (Alive s)
      | _ => Some Died
      end
  end.

(** [daemon.c]: [on_connect_request], [on_connection], [on_disconnect]. *)
Definition on_connection (c : Z) (s : rdma_session) : option rdma_session :=
  s ← upd_conn c (λ x, x <| connected := true |>) s; send_free_mem_size c s.
Definition on_disconnect (c : Z) (s : rdma_session) : option rdma_session := destroy_connection c s.

(** * Memory pressure *)

(** First part of [evict_mem]: free unmapped chunks, up to [stop_g]; whether that was
    enough, and what is left to evict. *)
Definition evict_unmapped (stop_g : Z) (m : rdma_remote_mem) : option (bool * Z * rdma_remote_mem) :=
  '(i, (freed_g, m)) ← for_brk 0 MAX_FREE_MEM_GB (λ i '(freed_g, m),
    b ← is_free m i;
    if b : bool then
      m ← free_region m i;
      l ← aset (malloc_map m) i CHUNK_EMPTY;
      let m := m <| malloc_map := l |> in
      if freed_g + 1 =? stop_g then Some (Stop (freed_g + 1, m <| size_gb := size_gb m - stop_g |>))
      else Some (Next (freed_g + 1, m))
    else Some (Next (freed_g, m))) (0, m);
  if i <? MAX_FREE_MEM_GB then Some (true, 0, m)
  else Some (false, stop_g - freed_g, m <| size_gb := size_gb m - freed_g |>).

(** Which connections are asked about their activity: all mapped ones, or those of
    randomly probed chunks. *)
Fixpoint probe (fuel : nat) (select : list Z) (r : Z) : option Z :=
  match fuel with
  | O => None
  | S fuel' =>
      x ← aget select r;
      if negb (x =? 0) then probe fuel' select ((r + 1) mod MAX_FREE_MEM_GB) else Some r
  end.

Definition evict_select (rand : Z → Z) (evict_g : Z) (s : rdma_session) : option (list Z * Z) :=
  let m := rdma_remote s in
  let send_list := replicate (Z.to_nat MAX_CLIENT) (-1) in
  select ← for_up 0 MAX_FREE_MEM_GB (λ i l, c ← aget (conn_map m) i; aset l i (if c =? -1 then -1 else 0))
    (replicate (Z.to_nat MAX_FREE_MEM_GB) 0);
  if mapped_size m <? evict_g + EXTRA_CHUNK_NUM then
    let evict_g := if mapped_size m <? evict_g then mapped_size m else evict_g in
    send_list ← for_up 0 MAX_CLIENT (λ i l,
      st ← aget (conns_state s) i;
      if bool_decide (st = CONN_MAPPED) then _ ← get_conn s i; aset l i 1 else Some l) send_list;
    Some (send_list, evict_g)
  else
    '(send_list, _) ← for_up 0 (evict_g + EXTRA_CHUNK_NUM) (λ j '(send_list, select),
      r ← probe (S (Z.to_nat MAX_FREE_MEM_GB)) select (rand j mod MAX_FREE_MEM_GB);
      select ← aset select r 1;
      c ← aget (conn_map m) r;
      send_list ← aset send_list c 1;
      Some (send_list, select)) (send_list, select);
    Some (send_list, evict_g).

(** [evict_mem] gives up its turn where it waits for a client, so it is cut there: the
    completions of the other thread run in between. [k] entries of [evict_list] are
    allocated, none initialised; [j] is the number to evict. *)
Record eviction : Type := {
  send_list : list Z;
  ev_j : Z;
  evict_list : list (option (Z * Z));      (* activity and chunk *)
  ev_n : Z                                  (* entries filled *)
}.

(** Up to the [EVICT] messages (lines 271-358). [None]: enough unmapped chunks. *)
Definition evict_begin (rand : Z → Z) (stop_g : Z) (s : rdma_session) : option (option eviction * rdma_session) :=
  '(enough, evict_g, m) ← evict_unmapped stop_g (rdma_remote s);
  let s := s <| rdma_remote := m |> in
  if enough : bool then Some (None, s)
  else
    '(l, j) ← evict_select rand evict_g s;
    k ← for_up 0 MAX_CLIENT (λ i k,
      x ← aget l i;
      if x =? 1 then conn ← get_conn s i; Some (k + mapped_chunk_size conn) else Some k) 0;
    s ← for_up 0 MAX_CLIENT (λ i s, x ← aget l i; if x =? 1 then send_evict i j s else Some s) s;
    Some (Some {| send_list := l; ev_j := j; evict_list := replicate (Z.to_nat k) None; ev_n := 0 |}, s).

(** One round of the loop at 360-375 for a chosen connection: [sem_wait] ([None] also
    stands for its blocking), the reset of the answer's message, the activities. *)
Definition evict_collect (i : Z) (e : eviction) (s : rdma_session) : option (eviction * rdma_session) :=
  conn ← get_conn s i;
  if 0 <? evict_sem conn then
    q ← for_up 0 MAX_MR_SIZE_GB (λ m l, aset l m 0) (ri_rkey (send_msg conn));
    s ← set_conn s i (upd_send (λ m, m <| ri_size_gb := 0 |> <| ri_rkey := q |>)
          (conn <| evict_sem := evict_sem conn - 1 |>));
    '(l, n) ← for_up 0 MAX_MR_SIZE_GB (λ m '(l, n),
      b ← aget (ri_buf (recv_msg conn)) m;
      if truthy b then l ← aset l n (Some (ntohll b, m)); Some (l, n + 1) else Some (l, n)) (evict_list e, ev_n e);
    s ← post_receives i s;
    Some ({| send_list := send_list e; ev_j := ev_j e; evict_list := l; ev_n := n |}, s)
  else None.

(** The round [n] of the selection sort at 380-401: the least active chunk left moves to
    place [n]; its key is set in the stop message of the connection that uses it. Reading
    an uninitialised entry is undefined. *)
Definition sort_least (n : Z) (l : list (option (Z * Z))) : option (list (option (Z * Z))) :=
  for_up (n + 1) (alen l) (λ m l,
    a ← aget l n; a ← a; b ← aget l m; b ← b;
    if b.1 <? a.1 then l ← aset l n (Some b); aset l m (Some a) else Some l) l.

Definition choose_chunk (n : Z) (st : eviction * Z * rdma_session) : option (eviction * Z * rdma_session) :=
  let '(e, _, s) := st in
  l ← sort_least n (evict_list e);
  x ← aget l n; x ← x;
  c ← aget (conn_map (rdma_remote s)) x.2;
  y ← aget (send_list e) c;
  sl ← (if y =? 1 then aset (send_list e) c 2 else Some (send_list e));
  conn ← get_conn s c;
  q ← aset (ri_rkey (send_msg conn)) x.2 1;
  s ← set_conn s c (upd_send (λ m, m <| ri_rkey := q |> <| ri_size_gb := ri_size_gb m + 1 |>) conn);
  Some ({| send_list := sl; ev_j := ev_j e; evict_list := l; ev_n := ev_n e |}, c, s).

(** All rounds; the last connection is kept in [conn_index] ([-1] before the first). *)
Definition evict_choose (e : eviction) (s : rdma_session) : option (eviction * Z * rdma_session) :=
  for_up 0 (ev_j e) choose_chunk (e, -1, s).

(** One round of the loop at 403-409: every stop message carries the size meant for the
    connection chosen last. *)
Definition evict_stop (e : eviction) (conn_index i : Z) (s : rdma_session) : option rdma_session :=
  x ← aget (send_list e) i;
  if x =? 2 then conn ← get_conn s conn_index; send_stop i (ri_size_gb (send_msg conn)) s
  else if x =? 1 then send_stop i 0 s
  else Some s.

(** The [sem_wait] at the end of [send_stop]. *)
Definition stop_wait (c : Z) (s : rdma_session) : option rdma_session :=
  conn ← get_conn s c;
  if 0 <? stop_sem conn then set_conn s c (conn <| stop_sem := stop_sem conn - 1 |>) else None.

(** The policy of [free_mem]: the counters of consecutive rounds of shortage and plenty,
    and the last free memory. [filtered] is the weighted mean of the reading and
    [last_free_mem_g], a computation in [float]. *)
Record policy : Type := { last_free_mem_g : Z; evict_hit_count : Z; expand_hit_count : Z }.
Inductive action : Set := NoAction | Evict (stop_g : Z) | Expand (size_g : Z).

Definition policy_step (filtered size_gb : Z) (p : policy) : action * policy :=
  if filtered <? FREE_MEM_EVICT_THRESHOLD then
    let hit := evict_hit_count p + 1 in
    if MEM_EVICT_HIT_THRESHOLD <=? hit then
      let stop := FREE_MEM_EVICT_THRESHOLD - filtered in
      let stop := if size_gb <? stop then size_gb else stop in
      (if 0 <? stop then Evict stop else NoAction,
       {| last_free_mem_g := filtered + stop; evict_hit_count := 0; expand_hit_count := 0 |})
    else (NoAction, {| last_free_mem_g := filtered; evict_hit_count := hit; expand_hit_count := 0 |})
  else if FREE_MEM_EXPAND_THRESHOLD <? filtered then
    let hit := expand_hit_count p + 1 in
    if MEM_EXPAND_HIT_THRESHOLD <=? hit then
      let size := filtered - FREE_MEM_EXPAND_THRESHOLD in
      let size := if MAX_FREE_MEM_GB <? size + size_gb then MAX_FREE_MEM_GB - size_gb else size in
      (Expand size, {| last_free_mem_g := filtered - size; evict_hit_count := 0; expand_hit_count := 0 |})
    else (NoAction, {| last_free_mem_g := filtered; evict_hit_count := 0; expand_hit_count := hit |})
  else (NoAction, {| last_free_mem_g := filtered; evict_hit_count := evict_hit_count p;
                     expand_hit_count := expand_hit_count p |}).

(** Lines 460-472: allocate the first empty chunks. The count is tested after a chunk is
    taken, so a size of 0 takes every empty chunk. *)
Definition expand (expand_size_g : Z) (m : rdma_remote_mem) : option rdma_remote_mem :=
  '(_, (_, m)) ← for_brk 0 MAX_FREE_MEM_GB (λ i '(j, m),
    a ← aget (malloc_map m) i;
    if a =? CHUNK_EMPTY then
      m ← alloc_region m i;
      Some (if j + 1 =? expand_size_g then Stop (j + 1, m) else Next (j + 1, m))
    else Some (Next (j, m))) (0, m);
  Some (m <| size_gb := size_gb m + expand_size_g |>).
