(* ===== verification/Regions.v ===== *)
(** The memory server never gives one region to two clients and never frees memory that
    a client uses: the ownership invariant of [Monitor], kept by every operation. *)

From S2P Require Import Prelude Config State Monitor.

(** * The invariant *)

Record regions_ok (m : rdma_remote_mem) : Prop := {
  rk_live : alen (region_live m) = 32;
  rk_mr : alen (mr_list m) = 32;
  rk_conn : alen (conn_map m) = 32;
  rk_malloc : alen (malloc_map m) = 32;
  rk_chunk : alen (conn_chunk_map m) = 32;
  (* [malloc_map] tells which regions are live. *)
  rk_flag : ∀ i, aget (malloc_map m) i =
              (λ b : bool, if b then CHUNK_MALLOCED else CHUNK_EMPTY) <$> aget (region_live m) i;
  (* A region in use is live and registered. *)
  rk_used : ∀ i c, aget (conn_map m) i = Some c → c ≠ -1 →
              0 <= c < MAX_CLIENT ∧ aget (region_live m) i = Some true ∧ ∃ r, aget (mr_list m) i = Some (Some r)
}.

(** Slot [c]: every region the connection lists is its own. *)
Record conn_ok (m : rdma_remote_mem) (c : Z) (x : connection) : Prop := {
  co_index : conn_index x = c;
  co_len : alen (sess_chunk_map x) = 32;
  co_own : ∀ i k, aget (sess_chunk_map x) i = Some k → k = -1 ∨ (k = i ∧ aget (conn_map m) i = Some c)
}.

Record session_ok (s : rdma_session) : Prop := {
  so_regions : regions_ok (rdma_remote s);
  so_conns : alen (conns s) = MAX_CLIENT;
  so_state : alen (conns_state s) = MAX_CLIENT;
  so_conn : ∀ c x, aget (conns s) c = Some (Some x) → conn_ok (rdma_remote s) c x
}.

(** ** What the invariant sees *)

Definition mview (m : rdma_remote_mem) :=
  (region_live m, mr_list m, conn_map m, malloc_map m, conn_chunk_map m).
Definition cview (x : connection) : Z * list Z := (conn_index x, sess_chunk_map x).

(** A session as seen through a view [V] of its connections. *)
Definition sview {T} (V : connection → T) (s : rdma_session) :=
  (mview (rdma_remote s), fmap (M := option) V <$> conns s, (alen (conns_state s), running s)).

(** A view that does not look at what the messages to a client change. *)
Class Quiet {T} (V : connection → T) : Prop := {
  quiet_send x m : V (x <| send_msg := m |>) = V x;
  quiet_size x n : V (x <| mapped_chunk_size := n |>) = V x;
  quiet_state x t : V (x <| srv_state := t |>) = V x;
  quiet_busy x b : V (x <| qp_busy := b |>) = V x;
  quiet_conn x b : V (x <| connected := b |>) = V x;
  quiet_stop x n : V (x <| stop_sem := n |>) = V x
}.
#[export] Instance cview_quiet : Quiet cview.
Proof. by constructor. Qed.

Lemma mview_ok m m' : mview m = mview m' → regions_ok m → regions_ok m'.
Proof.
  unfold mview. destruct m, m'; cbn. intros [= -> -> -> -> ->] []. by constructor.
Qed.

Lemma sview_ok s s' : sview cview s' = sview cview s → session_ok s → session_ok s'.
Proof.
  unfold sview. intros [[Hm Hc]%pair_equal_spec [Hs _]%pair_equal_spec]%pair_equal_spec [Hr Hl Ht Hx].
  assert (∀ c x', aget (conns s') c = Some (Some x') → ∃ x, aget (conns s) c = Some (Some x) ∧ cview x' = cview x)
    as Hcv.
  { intros c x' E. pose proof (f_equal (λ l, aget l c) Hc) as E'. cbv beta in E'.
    rewrite !aget_map, E in E'.
    destruct (aget (conns s) c) as [[x|]|]; cbn in E'; try done. injection E' as E'. eauto using f_equal2. }
  constructor.
  - by eapply mview_ok.
  - pose proof (f_equal length Hc) as E. rewrite !length_fmap in E. unfold alen in *. lia.
  - by rewrite Hs.
  - intros c x' (x & E & Ev)%Hcv. destruct (Hx c x E) as [H1 H2 H3]. injection Ev as E1 E2.
    unfold mview in Hm. injection Hm as _ _ Hcm _ _.
    constructor; rewrite ?E1, ?E2, ?Hcm; done.
Qed.

Lemma get_conn_inv s c x : get_conn s c = Some x → aget (conns s) c = Some (Some x).
Proof. unfold get_conn. intros (o & E & ->)%bind_Some. done. Qed.

Lemma set_conn_inv s c x s' :
  set_conn s c x = Some s' → ∃ l, aset (conns s) c (Some x) = Some l ∧ s' = s <| conns := l |>.
Proof. unfold set_conn. intros (l & E & [= <-])%bind_Some. eauto. Qed.

Section quiet.
Context {T} (V : connection → T).

Lemma set_conn_view s c x y s' :
  get_conn s c = Some x → V y = V x → set_conn s c y = Some s' → sview V s' = sview V s.
Proof.
  intros Ex%get_conn_inv Ev (l & El & ->)%set_conn_inv. unfold sview.
  apply pair_equal_spec; split; [apply pair_equal_spec; split; [done|]|done].
  change (conns (s <| conns := l |>)) with l.
  apply array_ext. intros i Hi. rewrite !aget_map, (aget_aset _ _ _ i _ El). case_decide; [|done]. subst.
  rewrite Ex. cbn. by rewrite Ev.
Qed.

Lemma upd_conn_view c f s s' :
  (∀ x, V (f x) = V x) → upd_conn c f s = Some s' → sview V s' = sview V s.
Proof.
  intros Hf. unfold upd_conn. intros (x & Ex & E)%bind_Some. by eapply set_conn_view; [done|apply Hf|].
Qed.

(** The operations that only send messages. *)
Context `{!Quiet V}.

Lemma send_message_view c s s' : send_message c s = Some s' → sview V s' = sview V s.
Proof. unfold send_message. intros (x & Ex & E)%bind_Some. destruct (connected x); [by injection E as <-|done]. Qed.

Lemma upd_send_view c f s s1 s2 :
  upd_conn c (upd_send f) s = Some s1 → send_message c s1 = Some s2 → sview V s2 = sview V s.
Proof. intros E1 ->%send_message_view. eapply upd_conn_view; [|done]. intros x. apply quiet_send. Qed.

Lemma send_free_mem_size_view c s s' : send_free_mem_size c s = Some s' → sview V s' = sview V s.
Proof. unfold send_free_mem_size. intros (s1 & E1 & E2)%bind_Some. by eapply upd_send_view. Qed.
Lemma send_stop_view c n s s' : send_stop c n s = Some s' → sview V s' = sview V s.
Proof. unfold send_stop. intros (s1 & E1 & E2)%bind_Some. by eapply upd_send_view. Qed.
Lemma send_fault_done_view c s s' : send_fault_done c s = Some s' → sview V s' = sview V s.
Proof. unfold send_fault_done. intros (s1 & E1 & E2)%bind_Some. by eapply upd_send_view. Qed.
Lemma send_evict_view c n s s' : send_evict c n s = Some s' → sview V s' = sview V s.
Proof.
  unfold send_evict. intros (x & Ex & E)%bind_Some.
  apply bind_Some in E as (q & _ & E). apply bind_Some in E as (s1 & E1 & ->%send_message_view).
  eapply set_conn_view; [done| |done]. apply quiet_send.
Qed.
Lemma on_connection_view c s s' : on_connection c s = Some s' → sview V s' = sview V s.
Proof.
  unfold on_connection. intros (s1 & E1 & ->%send_free_mem_size_view)%bind_Some.
  eapply upd_conn_view; [|done]. intros x. apply quiet_conn.
Qed.
Lemma stop_wait_view c s s' : stop_wait c s = Some s' → sview V s' = sview V s.
Proof.
  unfold stop_wait. intros (x & Ex & E)%bind_Some. destruct (0 <? stop_sem x); [|done].
  eapply set_conn_view; [done| |done]. apply quiet_stop.
Qed.

Lemma evict_choose_view e s e' c s' : evict_choose e s = Some (e', c, s') → sview V s' = sview V s.
Proof.
  unfold evict_choose. intros E.
  eapply (for_up_keeps (λ st : eviction * Z * rdma_session, sview V st.2 = sview V s)) in E; [done|done|].
  intros n [[e1 c1] t] [[e2 c2] t2] _ Ht E2. clear E. rename E2 into E. unfold choose_chunk in E.
  do 6 apply bind_Some in E as (? & _ & E). apply bind_Some in E as (y & Ey & E).
  apply bind_Some in E as (? & _ & E). apply bind_Some in E as (t1 & E1 & [= _ _ <-]).
  cbn in Ht |- *. rewrite <- Ht. eapply set_conn_view; [done| |done]. apply quiet_send.
Qed.

Lemma evict_stop_view e c i s s' : evict_stop e c i s = Some s' → sview V s' = sview V s.
Proof.
  unfold evict_stop. intros (x & _ & E)%bind_Some.
  destruct (x =? 2); [|destruct (x =? 1); [by eapply send_stop_view|by injection E as <-]].
  apply bind_Some in E as (y & _ & E). by eapply send_stop_view.
Qed.

Lemma start_bind_view c size s s' : start_bind c size s = Some s' → sview V s' = sview V s.
Proof.
  unfold start_bind. intros (x & Ex & E)%bind_Some. apply bind_Some in E as (q & _ & E).
  eapply set_conn_view; [done| |done]. apply quiet_send.
Qed.
Lemma finish_bind_view c size ty s s' : finish_bind c size ty s = Some s' → sview V s' = sview V s.
Proof.
  unfold finish_bind. intros (s1 & E1 & ->%send_message_view)%bind_Some.
  eapply upd_conn_view in E1 as ->; [done|]. intros x. unfold upd_send. by rewrite quiet_send, quiet_size.
Qed.
End quiet.

(** The other operations that leave the regions and their owners alone. *)
Lemma post_receives_view c s s' : post_receives c s = Some s' → sview cview s' = sview cview s.
Proof. unfold post_receives. by apply upd_conn_view. Qed.
Lemma deliver_view c msg s s' : deliver c msg s = Some s' → sview cview s' = sview cview s.
Proof.
  unfold deliver. intros (x & Ex & E)%bind_Some. destruct (0 <? recvs x); [|done].
  by eapply set_conn_view; [done| |done].
Qed.
Lemma evict_collect_view i e s e' s' : evict_collect i e s = Some (e', s') → sview cview s' = sview cview s.
Proof.
  unfold evict_collect. intros (x & Ex & E)%bind_Some. destruct (0 <? evict_sem x); [|done].
  apply bind_Some in E as (q & _ & E). apply bind_Some in E as (s1 & E1 & E).
  apply bind_Some in E as ([l n] & _ & E). apply bind_Some in E as (s2 & E2%post_receives_view & [= _ <-]).
  rewrite E2. by eapply set_conn_view; [done| |done].
Qed.

(** * Regions change hands *)

(** The map entries and the connections' lists agree after a region is taken or given
    back: slot [c] changes its list at [i] to [k], the connection map there becomes [o]. *)
Lemma conn_ok_upd m m' c d x i o cm :
  aset (conn_map m) i o = Some cm → conn_map m' = cm →
  conn_ok m d x → (∀ k, aget (conn_map m) i = Some k → k = d → k = o ∨ c = d) →
  c ≠ d → conn_ok m' d x.
Proof.
  intros Ecm Em [H1 H2 H3] Hold Hne. constructor; [done..|]. intros j k E.
  destruct (H3 j k E) as [->|[-> Ec]]; [by left|right]. split; [done|].
  rewrite Em, (aget_aset _ _ _ _ _ Ecm). destruct (decide (i = j)) as [->|]; [|done].
  destruct (Hold d Ec eq_refl) as [->|]; done.
Qed.

Lemma is_free_spec m i b : is_free m i = Some b →
  regions_ok m → b = true → aget (region_live m) i = Some true ∧ aget (conn_map m) i = Some (-1).
Proof.
  unfold is_free. intros E Hm ->. bind_inv E. injection E as [Ha Hc]%andb_true_iff.
  apply Z.eqb_eq in Ha, Hc. subst. split; [|done]. rewrite (rk_flag _ Hm) in E0.
  destruct (aget (region_live m) i) as [[]|]; [done|by injection E0|done].
Qed.

(** A free region is given to connection [c]. *)
Lemma serve_chunk_ok mr c i s s' :
  session_ok s → is_free (rdma_remote s) i = Some true → serve_chunk mr c i s = Some s' → session_ok s'.
Proof.
  intros [Hr Hl Ht Hx] Hf E. destruct (is_free_spec _ _ _ Hf Hr eq_refl) as [Hlive Hfree].
  unfold serve_chunk in E. apply bind_Some in E as (x & Ex%get_conn_inv & E).
  apply bind_Some in E as (k' & E0 & E). apply bind_Some in E as (cm & E1 & E).
  apply bind_Some in E as (ml & E2 & E). do 2 apply bind_Some in E as (? & _ & E).
  apply set_conn_inv in E as (l & El & ->). cbn in El.
  destruct (Hx c x Ex) as [Hidx Hlen Hown]. rewrite Hidx in E1.
  pose proof (aget_lt _ _ _ Ex) as Hc. rewrite Hl in Hc. pose proof (aget_lt _ _ _ Hfree) as Hi.
  constructor; cbn.
  - destruct Hr. constructor; cbn; rewrite ?(aset_length _ _ _ _ E1), ?(aset_length _ _ _ _ E2); try done.
    intros j d. rewrite (aget_aset _ _ _ _ _ E1). case_decide; [subst|].
    + intros [= <-] _. rewrite (aget_aset_eq _ _ _ _ E2). split_and!; [lia|lia|done|eauto].
    + intros Ed Hd. rewrite (aget_aset_ne _ _ _ _ _ E2) by done. eauto.
  - by rewrite (aset_length _ _ _ _ El).
  - done.
  - intros d y. rewrite (aget_aset _ _ _ _ _ El). case_decide; [subst|].
    + intros [= <-]. constructor; cbn; [done|by rewrite (aset_length _ _ _ _ E0)|].
      intros j k. rewrite (aget_aset _ _ _ _ _ E0), (aget_aset _ _ _ _ _ E1).
      case_decide; [subst; intros [= <-]; by right|]. apply Hown.
    + intros Ey. eapply conn_ok_upd; [exact E1|done|by apply Hx| |done]. rewrite Hfree. intros k [= <-] <-.
      pose proof (aget_lt _ _ _ Ey). lia.
Qed.

Lemma send_single_mr_ok mr c n s s' : session_ok s → send_single_mr mr c n s = Some s' → session_ok s'.
Proof.
  unfold send_single_mr. intros Hs (s1 & E1 & E)%bind_Some. apply bind_Some in E as ([k s2] & E2 & E).
  eapply sview_ok; [by eapply finish_bind_view|].
  eapply (for_brk_partial session_ok) in E2; [done|by eapply sview_ok; [eapply start_bind_view|]|].
  clear. intros i t r _ Ht E. apply bind_Some in E as (b & Eb & E). destruct b; [|by injection E as <-].
  apply bind_Some in E as (t' & Et & [= <-]). by eapply serve_chunk_ok.
Qed.

Lemma send_mr_ok mr c n s s' : session_ok s → send_mr mr c n s = Some s' → session_ok s'.
Proof.
  unfold send_mr. intros Hs (s1 & E1 & E)%bind_Some. apply bind_Some in E as ([k [s2 j]] & E2 & E).
  eapply sview_ok; [by eapply finish_bind_view|].
  eapply (for_brk_partial (λ st, session_ok st.1)) in E2; [done|by eapply sview_ok; [eapply start_bind_view|]|].
  clear. intros i [t j] r _ Ht E. apply bind_Some in E as (b & Eb & E). destruct b; [|by injection E as <-].
  apply bind_Some in E as (t' & Et & [= <-]). destruct (_ =? _); by eapply serve_chunk_ok.
Qed.

(** Chunk [i] of connection [c] is given back: the list of [c] first, the maps after. *)
Lemma release_ok m m' i cm :
  regions_ok m → aset (conn_map m) i (-1) = Some cm → conn_map m' = cm →
  region_live m' = region_live m → malloc_map m' = malloc_map m → mr_list m' = mr_list m →
  alen (conn_chunk_map m') = 32 → regions_ok m'.
Proof.
  intros [] Ecm Em El Ea Er Hk. constructor; rewrite ?El, ?Ea, ?Er, ?Em, ?(aset_length _ _ _ _ Ecm); try done.
  intros j d. rewrite (aget_aset _ _ _ _ _ Ecm). case_decide; [by intros [= <-]|eauto].
Qed.

Lemma destroy_maps_ok c x m m' :
  regions_ok m → conn_ok m c x →
  for_up 0 MAX_MR_SIZE_GB (λ i m,
    index ← aget (sess_chunk_map x) i;
    if index =? -1 then Some m
    else
      a ← aset (conn_map m) index (-1); k ← aset (conn_chunk_map m) index (-1);
      Some (m <| conn_map := a |> <| conn_chunk_map := k |>)) m = Some m' →
  regions_ok m' ∧ ∀ i d, aget (conn_map m) i = Some d → d ≠ c → aget (conn_map m') i = Some d.
Proof.
  intros Hr [Hidx Hlen Hown] E.
  eapply (for_up_keeps (λ t, regions_ok t ∧
    (∀ i d, aget (conn_map m) i = Some d → d ≠ c → aget (conn_map t) i = Some d))) in E; [done|done|].
  clear E. intros i t t' Hi [Ht Hd] E. apply bind_Some in E as (k & Ek & E).
  destruct (Z.eqb_spec k (-1)); [by injection E as <-|].
  destruct (Hown i k Ek) as [->|[-> Ec]]; [done|].
  apply bind_Some in E as (cm & Ecm & E). apply bind_Some in E as (km & Ekm & [= <-]). split.
  - eapply release_ok; [done|exact Ecm|done..|]. cbn. rewrite (aset_length _ _ _ _ Ekm). apply Ht.
  - intros j d Ed Hne. cbn. rewrite (aget_aset _ _ _ _ _ Ecm). case_decide; [|by apply Hd].
    subst. congruence.
Qed.

Lemma destroy_connection_ok c s s' : session_ok s → destroy_connection c s = Some s' → session_ok s'.
Proof.
  intros [Hr Hl Ht Hx]. unfold destroy_connection. intros (x & Ex%get_conn_inv & E)%bind_Some.
  pose proof (Hx c x Ex) as Hc. pose proof (co_index _ _ _ Hc) as Hidx.
  apply bind_Some in E as (s1 & E1 & E). apply bind_Some in E as (l & El & E).
  apply bind_Some in E as (t & Et & E). rewrite Hidx in El, Et.
  assert (conns s1 = conns s ∧ conns_state s1 = conns_state s ∧ regions_ok (rdma_remote s1) ∧
          ∀ i d, aget (conn_map (rdma_remote s)) i = Some d → d ≠ c →
                 aget (conn_map (rdma_remote s1)) i = Some d) as (Es & Est & Hr1 & Hd).
  { destruct (0 <? mapped_chunk_size x); [|by injection E1 as <-].
    apply bind_Some in E1 as (m & Em & [= <-]).
    destruct (destroy_maps_ok c x _ m Hr Hc Em) as [H1 H2].
    split_and!; [done|done|by eapply mview_ok; [|exact H1]|done]. }
  assert (session_ok (s1 <| conns := l |> <| conns_state := t |> <| conn_num := conn_num s1 - 1 |>)) as Hok.
  { constructor; cbn; [done|by rewrite (aset_length _ _ _ _ El), Es|by rewrite (aset_length _ _ _ _ Et), Est|].
    intros d y. rewrite (aget_aset _ _ _ _ _ El), Es. case_decide; [done|]. intros Ey.
    destruct (Hx d y Ey) as [H1 H2 H3]. constructor; [done..|]. intros i k Ek.
    destruct (H3 i k Ek) as [->|[-> Ed]]; [by left|right]. split; [done|]. by apply Hd. }
  cbv zeta in E. destruct (_ =? 0) in E; injection E as <-; [|done]. destruct Hok. by constructor.
Qed.

(** A new connection owns nothing; it takes an idle slot. *)
Lemma build_connection_ok msg s i s' : session_ok s → build_connection msg s = Some (i, s') → session_ok s'.
Proof.
  intros Hs. unfold build_connection. intros E. cbv zeta in E. apply bind_Some in E as ([k s1] & E1 & E).
  assert (session_ok s1) as H1.
  2: { destruct (k <? MAX_CLIENT); [|injection E as _ <-; by eapply sview_ok; [|exact H1]].
       apply bind_Some in E as (s2 & E2%post_receives_view & [= _ <-]).
       eapply sview_ok; [exact E2|]. by eapply sview_ok; [|exact H1]. }
  eapply (for_brk_partial session_ok) in E1; [done|done|]. clear. intros i t r Hi Ht E.
  apply bind_Some in E as (st & _ & E). case_bool_decide; [|by injection E as <-].
  apply bind_Some in E as (t1 & (l & El & ->)%set_conn_inv & E).
  apply bind_Some in E as (ts & Ets & [= <-]). destruct Ht as [Hr Hl Hst Hx].
  constructor; cbn; [done|by rewrite (aset_length _ _ _ _ El)|by rewrite (aset_length _ _ _ _ Ets)|].
  intros d y. rewrite (aget_aset _ _ _ _ _ El). case_decide; [|apply Hx]. subst. intros [= <-].
  constructor; cbn; [done|done|]. intros j z Ej. left.
  apply aget_Some in Ej as [_ Ej]. by apply (lookup_replicate_1 32) in Ej as [-> _].
Qed.

(** A live region that nobody uses is freed. *)
Lemma free_region_inv m i m' :
  free_region m i = Some m' →
  ∃ l, aget (region_live m) i = Some true ∧ aset (region_live m) i false = Some l ∧ m' = m <| region_live := l |>.
Proof.
  unfold free_region. intros (b & Eb & E)%bind_Some. destruct b; [|done].
  apply bind_Some in E as (l & El & [= <-]). eauto.
Qed.

Lemma evict_unmapped_ok g m b e m' :
  regions_ok m → evict_unmapped g m = Some (b, e, m') →
  regions_ok m' ∧ conn_map m' = conn_map m ∧ mr_list m' = mr_list m.
Proof.
  intros Hm. unfold evict_unmapped. intros ([k [f m1]] & E1 & E)%bind_Some.
  set (Q t := regions_ok t ∧ conn_map t = conn_map m ∧ mr_list t = mr_list m).
  assert (Q m1) as H1.
  { eapply (for_brk_partial (λ st : Z * rdma_remote_mem, Q st.2)) in E1; [done|done|]. clear E1 E.
    intros i [f' t] r Hi (Ht & Ec & Er) E. cbn in Ht, Ec, Er. apply bind_Some in E as (fr & Ef & E).
    destruct fr; [|by injection E as <-]. destruct (is_free_spec _ _ _ Ef Ht eq_refl) as [Hlive Hfree].
    apply bind_Some in E as (t1 & (l & _ & El & ->)%free_region_inv & E).
    apply bind_Some in E as (a & Ea & E). cbn in Ea.
    assert (regions_ok (t <| region_live := l |> <| malloc_map := a |>)) as Hok.
    { destruct Ht. constructor; cbn; rewrite ?(aset_length _ _ _ _ El), ?(aset_length _ _ _ _ Ea); try done.
      - intros j. rewrite (aget_aset _ _ _ _ _ El), (aget_aset _ _ _ _ _ Ea). by case_decide.
      - intros j c Ej Hc. rewrite (aget_aset_ne _ _ _ _ _ El); [eauto|]. intros <-. congruence. }
    destruct (_ =? _); injection E as <-; (split; [by eapply mview_ok; [|exact Hok]|done]). }
  destruct H1 as (H1 & H2 & H3). destruct (k <? MAX_FREE_MEM_GB); injection E as _ _ <-; [done|].
  split; [by eapply mview_ok; [|exact H1]|done].
Qed.

(** Regions are added while no region is lost. *)
Lemma alloc_region_ok m i m' :
  regions_ok m → alloc_region m i = Some m' →
  regions_ok m' ∧ conn_map m' = conn_map m ∧ mr_list m' = mr_list m.
Proof.
  intros [] (l & El & E)%bind_Some. apply bind_Some in E as (a & Ea & [= <-]). split; [|done].
  constructor; cbn; rewrite ?(aset_length _ _ _ _ El), ?(aset_length _ _ _ _ Ea); try done.
  - intros j. rewrite (aget_aset _ _ _ _ _ El), (aget_aset _ _ _ _ _ Ea). by case_decide.
  - intros j c Ej Hc. rewrite (aget_aset _ _ _ _ _ El). case_decide; [|eauto].
    destruct (rk_used0 j c Ej Hc) as (? & ? & ?). done.
Qed.

Lemma expand_ok g m m' :
  regions_ok m → Monitor.expand g m = Some m' →
  regions_ok m' ∧ conn_map m' = conn_map m ∧ mr_list m' = mr_list m.
Proof.
  intros Hm. unfold Monitor.expand. intros ([k [j m1]] & E1 & [= <-])%bind_Some.
  set (Q t := regions_ok t ∧ conn_map t = conn_map m ∧ mr_list t = mr_list m).
  assert (Q m1) as (H1 & H2); [|by split; [eapply mview_ok; [|exact H1]|]].
  eapply (for_brk_partial (λ st : Z * rdma_remote_mem, Q st.2)) in E1; [done|done|]. clear E1.
  intros i [f' t] r Hi (Ht & Ec & Er) E. cbn in Ht, Ec, Er. apply bind_Some in E as (a & Ea & E).
  destruct (a =? CHUNK_EMPTY); [|by injection E as <-]. apply bind_Some in E as (t1 & E1 & E).
  destruct (alloc_region_ok t i t1 Ht E1) as (H1 & H2 & H3).
  destruct (_ =? _); injection E as <-; (split; [done|cbn; split; congruence]).
Qed.

(** A chunk that a client gives back is its own; it is taken from the client and freed. *)
Lemma take_back_ok c i t t' : session_ok t → take_back c i t = Some t' → session_ok t'.
Proof.
  intros Ht E. unfold take_back in E.
  apply bind_Some in E as (z & Ez%get_conn_inv & E). apply bind_Some in E as (index & Ei & E).
  apply bind_Some in E as (k & Ek & E). apply bind_Some in E as (t1 & (l & El & ->)%set_conn_inv & E).
  apply bind_Some in E as (r & Er & E). apply bind_Some in E as (? & -> & E).
  apply bind_Some in E as (ml & Eml & E).
  apply bind_Some in E as (m & (lv & Elive & Elv & ->)%free_region_inv & E). cbn in Elive, Elv.
  apply bind_Some in E as (cm & Ecm & E). apply bind_Some in E as (a & Ea & E).
  apply bind_Some in E as (h & Eh & [= <-]). cbn in Ecm, Ea, Eh.
  destruct Ht as [Hr Hl Hst Hx]. destruct (Hx c z Ez) as [Hidx Hlen Hown].
  assert (index = i ∧ aget (conn_map (rdma_remote t)) i = Some c) as [-> Ec].
  { destruct (Hown i index Ei) as [->|[-> Ec]]; [by destruct (aget_lt _ _ _ Elive)|done]. }
  constructor; cbn; [|by rewrite (aset_length _ _ _ _ El)|done|].
  - destruct Hr. constructor; cbn; rewrite ?(aset_length _ _ _ _ Elv), ?(aset_length _ _ _ _ Ecm),
      ?(aset_length _ _ _ _ Eml), ?(aset_length _ _ _ _ Ea), ?(aset_length _ _ _ _ Eh); try done.
    + intros j. rewrite (aget_aset _ _ _ _ _ Elv), (aget_aset _ _ _ _ _ Ea). by case_decide.
    + intros j d. rewrite (aget_aset _ _ _ _ _ Ecm), (aget_aset _ _ _ _ _ Elv), (aget_aset _ _ _ _ _ Eml).
      case_decide; [by intros [= <-]|eauto].
  - intros d y. rewrite (aget_aset _ _ _ _ _ El). case_decide; [subst d|].
    + intros [= <-]. constructor; cbn; [done|by rewrite (aset_length _ _ _ _ Ek)|].
      intros j k'. rewrite (aget_aset _ _ _ _ _ Ek), (aget_aset _ _ _ _ _ Ecm).
      case_decide; [intros [= <-]; by left|apply Hown].
    + intros Ey. eapply conn_ok_upd; [exact Ecm|done|by apply Hx| |done]. rewrite Ec. by intros ? [= <-] <-.
Qed.

Lemma recv_done_ok c s s' : session_ok s → recv_done c s = Some s' → session_ok s'.
Proof.
  intros Hs. unfold recv_done. intros (x & Ex & E)%bind_Some. apply bind_Some in E as (s1 & E1 & E).
  apply bind_Some in E as (s2 & E2 & E). apply bind_Some in E as (y & Ey & E).
  assert (session_ok s2) as H2.
  { assert (session_ok s1) as H1; [|by apply (sview_ok s1); [eapply upd_conn_view in E2 as ->|]].
    eapply (for_up_keeps session_ok) in E1; [done|done|]. clear - s. intros i t t' Hi Ht E.
    apply bind_Some in E as (q & _ & E). destruct (truthy q); [|by injection E as <-].
    by eapply take_back_ok. }
  apply bind_Some in E as (s3 & E3 & E%post_receives_view). eapply sview_ok; [exact E|].
  destruct (mapped_chunk_size y =? 0); [|by injection E3 as <-].
  apply bind_Some in E3 as (ts & Ets & [= <-]). eapply sview_ok; [|exact H2].
  unfold sview. cbn. by rewrite (aset_length _ _ _ _ Ets).
Qed.

Lemma set_state_ok s c v l :
  session_ok s → aset (conns_state s) c v = Some l → session_ok (s <| conns_state := l |>).
Proof. intros Hs E. eapply sview_ok; [|exact Hs]. unfold sview. cbn. by rewrite (aset_length _ _ _ _ E). Qed.

(** A message arrives and is handled. *)
Lemma on_completion_ok mr c w s s' : session_ok s → on_completion mr c w s = Some (Alive s') → session_ok s'.
Proof.
  assert (∀ c f t t', (∀ x, cview (f x) = cview x) → upd_conn c f t = Some t' → session_ok t → session_ok t') as Hupd.
  { intros c' f t t' Hf E. by apply sview_ok, (upd_conn_view _ c' f). }
  assert (∀ c t t', post_receives c t = Some t' → session_ok t → session_ok t') as Hpost.
  { intros c' t t' E. by apply sview_ok, (post_receives_view c'). }
  intros Hs. destruct w; cbn [on_completion]; [| |done].
  2: { intros (t & Et & [= <-])%bind_Some. by eapply Hupd in Et. }
  intros (x & Ex & E)%bind_Some. cbv zeta in E.
  destruct (ri_type (recv_msg x)); try done; apply bind_Some in E as (b & Eb%Hupd & E); try done.
  - apply bind_Some in E as (t & Et & [= <-]). by eapply recv_done_ok.
  - by injection E as <-.
  - apply bind_Some in E as (t & Et%Hupd & E); [|done..]. apply bind_Some in E as (u & Eu & E).
    apply bind_Some in E as (l & El & E). apply bind_Some in E as (v & Ev%Hpost & [= <-]); [done|].
    eapply set_state_ok; [|done]. eapply send_mr_ok; [|exact Eu]. done.
  - apply bind_Some in E as (t & Et%Hupd & E); [|done..]. apply bind_Some in E as (u & Eu & E).
    apply bind_Some in E as (l & El & E). apply bind_Some in E as (v & Ev%Hpost & [= <-]); [done|].
    eapply set_state_ok; [|done]. eapply send_single_mr_ok; [|exact Eu]. done.
  - apply bind_Some in E as (t & Et%(send_free_mem_size_view cview) & E).
    apply bind_Some in E as (v & Ev%Hpost & [= <-]); [done|]. by eapply sview_ok.
  - apply bind_Some in E as (t & Et%(send_fault_done_view cview) & E).
    apply bind_Some in E as (v & Ev%Hpost & [= <-]); [done|]. by eapply sview_ok.
Qed.

Lemma evict_begin_ok rand g s e s' : session_ok s → evict_begin rand g s = Some (e, s') → session_ok s'.
Proof.
  intros [Hr Hl Hst Hx]. unfold evict_begin. intros ([[b f] m] & E1 & E)%bind_Some.
  destruct (evict_unmapped_ok _ _ _ _ _ Hr E1) as (Hm & Hcm & _).
  assert (session_ok (s <| rdma_remote := m |>)) as Hok.
  { constructor; cbn; [done..|]. intros c x Ex. destruct (Hx c x Ex) as [H1 H2 H3].
    constructor; [done..|]. by rewrite Hcm. }
  destruct b; [by injection E as _ <-|]. apply bind_Some in E as ([l j] & _ & E).
  apply bind_Some in E as (k & _ & E). apply bind_Some in E as (t & Et & [= _ <-]).
  eapply (for_up_keeps session_ok) in Et; [done|done|]. clear - s. intros i t t' _ Ht E.
  apply bind_Some in E as (y & _ & E). destruct (y =? 1); [|by injection E as <-].
  by eapply sview_ok; [eapply send_evict_view|].
Qed.

(** * The server as a step relation *)

(** What the connection manager, the completion thread and the memory thread do, in any
    order. A client's message is arbitrary, and comes in when a receive is posted; an operation that would leave its arrays or
    free a dead region has no step, and [evict_collect], [stop_wait] and [send_message]
    none while they wait. *)
Inductive mon_step (mr : Z → Z * Z) : rdma_session → rdma_session → Prop :=
| step_connect msg i s s' : build_connection msg s = Some (i, s') → mon_step mr s s'
| step_connection c s s' : on_connection c s = Some s' → mon_step mr s s'
| step_disconnect c s s' : on_disconnect c s = Some s' → mon_step mr s s'
| step_recv c msg s s1 s' :
    deliver c msg s = Some s1 → on_completion mr c RecvOk s1 = Some (Alive s') → mon_step mr s s'
| step_sent c s s' : on_completion mr c SendOk s = Some (Alive s') → mon_step mr s s'
| step_begin rand g s e s' : evict_begin rand g s = Some (e, s') → mon_step mr s s'
| step_collect i e s e' s' : evict_collect i e s = Some (e', s') → mon_step mr s s'
| step_choose e s e' c s' : evict_choose e s = Some (e', c, s') → mon_step mr s s'
| step_stop e c i s s' : evict_stop e c i s = Some s' → mon_step mr s s'
| step_wait c s s' : stop_wait c s = Some s' → mon_step mr s s'
| step_expand g s m : Monitor.expand g (rdma_remote s) = Some m → mon_step mr s (s <| rdma_remote := m |>).

Lemma mon_step_ok mr s s' : session_ok s → mon_step mr s s' → session_ok s'.
Proof.
  intros Hs Hstep. destruct Hstep as [msg i s s' E|c s s' E|c s s' E|c msg s s1 s' E1 E|c s s' E|rand g s e s' E
    |i e s e' s' E|e s e' c s' E|e c i s s' E|c s s' E|g s m E].
  - by eapply build_connection_ok.
  - by eapply sview_ok; [eapply on_connection_view|].
  - by eapply destroy_connection_ok.
  - eapply on_completion_ok; [|exact E]. by eapply sview_ok; [eapply deliver_view|].
  - by eapply on_completion_ok.
  - by eapply evict_begin_ok.
  - by eapply sview_ok; [eapply evict_collect_view|].
  - by eapply sview_ok; [eapply evict_choose_view|].
  - by eapply sview_ok; [eapply evict_stop_view|].
  - by eapply sview_ok; [eapply stop_wait_view|].
  - destruct Hs as [Hr Hl Hst Hx]. destruct (expand_ok _ _ _ Hr E) as (Hm & Hcm & _).
    constructor; cbn; [done..|]. intros c x Ex. destruct (Hx c x Ex) as [H1 H2 H3].
    constructor; [done..|]. by rewrite Hcm.
Qed.

(** ** Start-up *)

(** The session is a zeroed global. *)
Definition zero_mem : rdma_remote_mem :=
  {| region_live := replicate 32 false; mr_list := replicate 32 None; size_gb := 0; mapped_size := 0;
     conn_map := replicate 32 0; malloc_map := replicate 32 0; conn_chunk_map := replicate 32 0 |}.
Definition session0 : rdma_session :=
  {| conns := replicate 32 None; conns_state := replicate 32 CONN_IDLE; conn_num := 0; rdma_remote := zero_mem;
     running := true; sent := [] |}.

Lemma initial_size_range g : 0 <= initial_size g <= MAX_FREE_MEM_GB.
Proof.
  unfold initial_size, FREE_MEM_EXPAND_THRESHOLD, FREE_MEM_EVICT_THRESHOLD, MAX_FREE_MEM_GB.
  change ((10 + 20) / 2) with 15. repeat case_match; lia.
Qed.

(** The state after start-up with [g] regions. *)
Definition started (g : Z) : rdma_session :=
  {| conns := replicate 32 None; conns_state := replicate 32 CONN_IDLE; conn_num := 0;
     rdma_remote := {| region_live := replicate (Z.to_nat g) true ++ replicate (Z.to_nat (32 - g)) false;
       mr_list := replicate 32 None; size_gb := g; mapped_size := 0; conn_map := replicate 32 (-1);
       malloc_map := replicate (Z.to_nat g) 1 ++ replicate (Z.to_nat (32 - g)) 0;
       conn_chunk_map := replicate 32 (-1) |};
     running := true; sent := [] |}.

Lemma z32_cases (P : Z → Prop) :
  Forall P (Z.of_nat <$> seq 0 33) → ∀ z, 0 <= z <= 32 → P z.
Proof.
  intros H z Hz. rewrite Forall_forall in H. apply H, list_elem_of_fmap. exists (Z.to_nat z).
  split; [lia|]. apply elem_of_seq. lia.
Qed.

Lemma rdma_session_init_started g : rdma_session_init g session0 = Some (started (initial_size g)).
Proof.
  unfold rdma_session_init. pose proof (initial_size_range g) as H. revert H. generalize (initial_size g) as z.
  apply z32_cases. cbn. repeat constructor.
Qed.

Lemma started_ok g : 0 <= g <= 32 → session_ok (started g).
Proof.
  intros Hg. constructor; try done.
  - constructor; cbn; try done; unfold alen; rewrite ?length_app, ?length_replicate; try lia.
    + intros i. by rewrite <- aget_map, fmap_app, !fmap_replicate.
    + intros i c E Hc. apply aget_Some in E as [_ E]. by apply (lookup_replicate_1 32) in E as [-> _].
  - intros c x E. apply aget_Some in E as [_ E]. by apply (lookup_replicate_1 32) in E as [? _].
Qed.

(** Start-up offers at most 32 GB and leaves the host at least the eviction threshold
    (or all it had); the regions offered are allocated and free, every connection slot is
    idle, and the ownership invariant holds. *)
Theorem rdma_session_init_correct g :
  0 <= g →
  ∃ s, rdma_session_init g session0 = Some s ∧ session_ok s ∧
    let n := size_gb (rdma_remote s) in
    0 <= n <= MAX_FREE_MEM_GB ∧ Z.min g FREE_MEM_EVICT_THRESHOLD <= g - n ∧
    mapped_size (rdma_remote s) = 0 ∧ conn_num s = 0 ∧
    (∀ i, 0 <= i < MAX_FREE_MEM_GB → is_free (rdma_remote s) i = Some (bool_decide (i < n))) ∧
    (∀ c, 0 <= c < MAX_CLIENT → aget (conns_state s) c = Some CONN_IDLE).
Proof.
  intros Hg. pose proof (initial_size_range g) as Hn. exists (started (initial_size g)).
  split; [apply rdma_session_init_started|]. split; [by apply started_ok|]. cbn zeta.
  change (size_gb (rdma_remote (started ?n))) with n.
  split; [done|]. split.
  { unfold initial_size, FREE_MEM_EXPAND_THRESHOLD, FREE_MEM_EVICT_THRESHOLD, MAX_FREE_MEM_GB.
    change ((10 + 20) / 2) with 15. repeat case_match; lia. }
  split; [done|]. split; [done|]. revert Hn. generalize (initial_size g) as n. intros n Hn.
  unfold MAX_FREE_MEM_GB, MAX_CLIENT in *. split.
  - intros i Hi. unfold is_free. cbn [rdma_remote started malloc_map conn_map].
    rewrite (aget_replicate 32 (-1)) by lia. rewrite aget_app by lia.
    assert (alen (replicate (Z.to_nat n) 1) = n) as -> by arr_lia.
    case_decide; rewrite aget_replicate by lia; cbn;
      [by rewrite bool_decide_eq_true_2|by rewrite bool_decide_eq_false_2].
  - intros c Hc. cbn [conns_state started]. by rewrite (aget_replicate 32) by lia.
Qed.

Lemma rdma_session_init_correct_witness :
  ∃ s, rdma_session_init 40 session0 = Some s ∧ session_ok s ∧
    let n := size_gb (rdma_remote s) in
    0 <= n <= MAX_FREE_MEM_GB ∧ Z.min 40 FREE_MEM_EVICT_THRESHOLD <= 40 - n ∧
    mapped_size (rdma_remote s) = 0 ∧ conn_num s = 0 ∧
    (∀ i, 0 <= i < MAX_FREE_MEM_GB → is_free (rdma_remote s) i = Some (bool_decide (i < n))) ∧
    (∀ c, 0 <= c < MAX_CLIENT → aget (conns_state s) c = Some CONN_IDLE).
Proof. apply (rdma_session_init_correct 40). lia. Defined.

(** A client connects and binds one chunk. *)
Definition bind_msg : rdma_info :=
  {| ri_buf := replicate 32 0; ri_rkey := replicate 32 0; ri_size_gb := 5; ri_type := BIND_SINGLE |}.
Definition test_mr (i : Z) : Z * Z := (0x7f00 + i, 0x10 + i).
Definition after_bind : option rdma_session :=
  '(_, s) ← build_connection bind_msg (started 1);
  s ← on_connection 0 s;
  s ← deliver 0 bind_msg s;
  o ← on_completion test_mr 0 RecvOk s;
  match o with Alive s => Some s | Died => None end.
Definition bound_session : rdma_session := default (started 1) after_bind.

Lemma bound_session_reach : star (mon_step test_mr) (started 1) bound_session.
Proof.
  assert (after_bind = Some bound_session) as E by (vm_compute; reflexivity). revert E.
  generalize bound_session as b. unfold after_bind. intros b ([i s1] & E1 & E)%bind_Some.
  apply bind_Some in E as (s2 & E2 & E). apply bind_Some in E as (s3 & E3 & E).
  apply bind_Some in E as ([s4|] & E4 & E); [|done]. injection E as <-.
  eapply star_step; [by eapply step_connect|]. eapply star_step; [by eapply step_connection|].
  by eapply star_one, step_recv.
Qed.
