(* ===== verification/Serve.v ===== *)
(** What the memory server's messages do ([Monitor] over sessions that meet [Regions]'
    invariant): binding, giving back, eviction and growth, and the agreement of the two
    sides of the protocol. *)

From S2P Require Import Prelude Config State Chunks Monitor Regions.

(** * Free regions *)

Lemma is_free_dec m i : regions_ok m → 0 <= i < MAX_FREE_MEM_GB →
  is_free m i = Some (bool_decide (aget (region_live m) i = Some true ∧ aget (conn_map m) i = Some (-1))).
Proof.
  intros [H1 H2 H3 H4 H5 H6 _] Hi. unfold is_free, MAX_FREE_MEM_GB in *. rewrite H6.
  destruct (proj2 (aget_is_Some (region_live m) i)) as [b Eb]; [lia|].
  destruct (proj2 (aget_is_Some (conn_map m) i)) as [c Ec]; [lia|]. rewrite Eb, Ec. cbn.
  destruct b; cbn; [|rewrite bool_decide_eq_false_2; [done|by intros [??]]].
  destruct (Z.eqb_spec c (-1)) as [->|]; [by rewrite bool_decide_eq_true_2|].
  rewrite bool_decide_eq_false_2; [done|]. by intros [_ [= ?]].
Qed.

Definition first_free (m : rdma_remote_mem) (i : Z) : Prop :=
  0 <= i < MAX_FREE_MEM_GB ∧ is_free m i = Some true ∧ ∀ j, 0 <= j < i → is_free m j = Some false.

(** * Binding *)

Lemma start_bind_Some c n s x :
  get_conn s c = Some x → info_ok (send_msg x) →
  ∃ q l, aset (conns s) c (Some (upd_send (λ m, m <| ri_size_gb := n |> <| ri_rkey := q |>) x)) = Some l ∧
    start_bind c n s = Some (s <| conns := l |>) ∧ alen q = 32 ∧ ∀ j, 0 <= j < 32 → aget q j = Some 0.
Proof.
  intros Ex [Hb Hq]. unfold start_bind. rewrite Ex. step_bind.
  destruct (for_up_fill (λ _, 0) (λ i l, aset l i 0) MAX_FREE_MEM_GB (ri_rkey (send_msg x)))
    as (q & -> & Hl & Hz & _); [rewrite Hq; done|done|]. step_bind.
  pose proof (aget_lt _ _ _ (get_conn_inv _ _ _ Ex)).
  exists q. eexists. unfold set_conn. rewrite aset_Some by done. step_bind.
  split; [done|]. split; [done|]. split; [by rewrite Hl, Hq|apply Hz].
Qed.

(** The state after region [i] went to connection [c] and the message with its key left. *)
Record bound (mr : Z → Z * Z) (c i n : Z) (s s' : rdma_session) (m : rdma_info) : Prop := {
  bd_sent : sent s' = sent s ++ [(c, m)];
  bd_type : ri_type m = INFO_SINGLE;
  bd_size : ri_size_gb m = n;
  bd_ok : info_ok m;
  bd_addr : aget (ri_buf m) i = Some (htonll (mr i).1);
  bd_keys : ∀ j, 0 <= j < 32 → aget (ri_rkey m) j = Some (if decide (i = j) then ntohl (mr i).2 else 0);
  bd_map : ∀ j, aget (conn_map (rdma_remote s')) j =
             if decide (i = j) then Some c else aget (conn_map (rdma_remote s)) j;
  bd_mr : aget (mr_list (rdma_remote s')) i = Some (Some (mr i));
  bd_conn : ∃ x', get_conn s' c = Some x' ∧ aget (sess_chunk_map x') i = Some i;
  bd_others : ∀ d, d ≠ c → aget (conns s') d = aget (conns s) d;
  bd_mapped : mapped_size (rdma_remote s') = mapped_size (rdma_remote s) + 1;
  bd_live : region_live (rdma_remote s') = region_live (rdma_remote s)
}.

Lemma send_single_mr_bound mr c n s x i :
  session_ok s → get_conn s c = Some x → connected x = true → info_ok (send_msg x) →
  first_free (rdma_remote s) i →
  ∃ s' m, send_single_mr mr c n s = Some s' ∧ bound mr c i n s s' m.
Proof.
  intros [Hr Hl Hst Hx] Ex Hcon Hm (Hi & Hfree & Hfirst). pose proof (get_conn_inv _ _ _ Ex) as Ex'.
  pose proof (aget_lt _ _ _ Ex') as Hc. destruct (Hx c x Ex') as [Hidx Hlen _].
  destruct (start_bind_Some c n s x Ex Hm) as (q & l & El & E & Hq & Hz). unfold send_single_mr. rewrite E.
  step_bind. destruct Hr. unfold MAX_FREE_MEM_GB in Hi.
  rewrite aset_Some in El by done. injection El as <-. clear E.
  set (x1 := upd_send _ x). set (s1 := s <| conns := _ |>).
  set (x2 := x1 <| sess_chunk_map := <[Z.to_nat i := i]> (sess_chunk_map x) |>
    <| send_msg := (send_msg x1) <| ri_buf := <[Z.to_nat i := htonll (mr i).1]> (ri_buf (send_msg x)) |>
       <| ri_rkey := <[Z.to_nat i := ntohl (mr i).2]> q |> |>).
  set (m2 := (rdma_remote s) <| conn_map := <[Z.to_nat i := c]> (conn_map (rdma_remote s)) |>
    <| mr_list := <[Z.to_nat i := Some (mr i)]> (mr_list (rdma_remote s)) |>).
  set (s2 := s1 <| rdma_remote := m2 |> <| conns := <[Z.to_nat c := Some x2]> (conns s1) |>).
  assert (aget (conns s1) c = Some (Some x1)) as Ex1 by (unfold s1; cbn; by rewrite aget_insert, decide_True by done).
  assert (serve_chunk mr c i s1 = Some s2) as E2.
  { unfold serve_chunk, get_conn. rewrite Ex1. step_bind. cbn.
    destruct Hm as [Hb _]. unfold MAX_MR_SIZE_GB in Hb.
    rewrite aset_Some by lia. step_bind. rewrite aset_Some by lia. step_bind. rewrite aset_Some by lia. step_bind.
    rewrite aset_Some by lia. step_bind. rewrite aset_Some by lia. step_bind. unfold set_conn. cbn.
    rewrite aset_Some by (by rewrite alen_insert). step_bind. by rewrite Hidx. }
  erewrite (for_brk_first (λ _, true) _ 0 i MAX_FREE_MEM_GB s1 s2); [|done| |].
  2: { intros j Hj. cbn. rewrite Hfirst by done. done. }
  2: { cbn. rewrite Hfree. step_bind. rewrite E2. done. }
  step_bind. unfold finish_bind, upd_conn, get_conn. cbn.
  rewrite aget_insert, decide_True by (done || by rewrite alen_insert). step_bind. unfold set_conn.
  cbn. rewrite aset_Some by (by rewrite !alen_insert). step_bind.
  unfold send_message, get_conn. cbn. rewrite aget_insert, decide_True by (done || by rewrite !alen_insert). step_bind.
  cbn. rewrite Hcon. eexists _, _. split; [reflexivity|]. destruct Hm as [Hb Hk]. unfold MAX_MR_SIZE_GB in *.
  constructor; cbn; try done.
  - constructor; cbn; by rewrite alen_insert.
  - change (aget (<[Z.to_nat i := htonll (mr i).1]> (ri_buf (send_msg x))) i = Some (htonll (mr i).1)).
    by rewrite aget_insert, decide_True by (done || lia).
  - intros j Hj. match goal with |- aget ?l j = _ => change l with (<[Z.to_nat i := ntohl (mr i).2]> q) end.
    rewrite aget_insert by lia. case_decide; [done|by apply Hz].
  - intros j. by rewrite aget_insert by lia.
  - by rewrite aget_insert, decide_True by (done || lia).
  - eexists. unfold get_conn. cbn. rewrite aget_insert, decide_True by (done || by rewrite !alen_insert).
    split; [reflexivity|]. cbn. by rewrite aget_insert, decide_True by (done || lia).
  - intros d Hd. by rewrite !aget_insert, !decide_False by (done || by rewrite ?alen_insert).
Qed.

(** Binding a chunk: the lowest free region goes to the client; the message that
    leaves holds its key and address at the region's index and no other key, the client's
    chunk in the size field; the region belongs to the client, no other connection and no
    other region changes, and the invariant is kept. *)
Theorem send_single_mr_correct mr c n s x i :
  session_ok s → get_conn s c = Some x → connected x = true → info_ok (send_msg x) →
  first_free (rdma_remote s) i →
  ∃ s' m, send_single_mr mr c n s = Some s' ∧ session_ok s' ∧ bound mr c i n s s' m.
Proof.
  intros Hs Ex Hc Hm Hf. destruct (send_single_mr_bound mr c n s x i) as (s' & m & E & H); [done..|].
  exists s', m. split; [done|]. split; [|done]. by eapply send_single_mr_ok.
Qed.

(** A connected client, one free region. *)
Definition ready_session : rdma_session :=
  default (started 1) ('(_, s) ← build_connection bind_msg (started 1); on_connection 0 s).
Lemma ready_session_ok : session_ok ready_session.
Proof.
  assert ((('(_, s) ← build_connection bind_msg (started 1); on_connection 0 s) : option _) = Some ready_session) as E
    by (vm_compute; reflexivity).
  apply bind_Some in E as ([i s] & E1 & E2). eapply sview_ok; [by eapply on_connection_view|].
  eapply build_connection_ok; [|done]. apply started_ok. lia.
Qed.
Lemma ready_conn : ∃ x, get_conn ready_session 0 = Some x ∧ connected x = true ∧ info_ok (send_msg x).
Proof. eexists. split; [vm_compute; reflexivity|]. split; [reflexivity|split; reflexivity]. Qed.

Lemma send_single_mr_correct_witness :
  ∃ s' m, send_single_mr test_mr 0 5 ready_session = Some s' ∧ session_ok s' ∧
    bound test_mr 0 0 5 ready_session s' m.
Proof.
  destruct ready_conn as (x & Ex & Hc & Hm).
  apply (send_single_mr_correct test_mr 0 5 ready_session x 0);
    [exact ready_session_ok|exact Ex|exact Hc|exact Hm|].
  split; [unfold MAX_FREE_MEM_GB; lia|]. split; [vm_compute; reflexivity|lia].
Defined.

(** With no region free the reply of a bind carries no key at all, yet the server
    counts a chunk as mapped to the client. *)
Theorem send_single_mr_exhausted mr c n s x :
  session_ok s → get_conn s c = Some x → connected x = true → info_ok (send_msg x) →
  (∀ i, 0 <= i < MAX_FREE_MEM_GB → is_free (rdma_remote s) i = Some false) →
  ∃ s' m, send_single_mr mr c n s = Some s' ∧ sent s' = sent s ++ [(c, m)] ∧ ri_type m = INFO_SINGLE ∧
    (∀ j, 0 <= j < 32 → aget (ri_rkey m) j = Some 0) ∧
    conn_map (rdma_remote s') = conn_map (rdma_remote s) ∧
    mapped_size (rdma_remote s') = mapped_size (rdma_remote s) + 1 ∧
    ∃ x', get_conn s' c = Some x' ∧ mapped_chunk_size x' = mapped_chunk_size x + 1.
Proof.
  intros [Hr Hl Hst Hx] Ex Hcon Hm Hfull. pose proof (get_conn_inv _ _ _ Ex) as Ex'.
  pose proof (aget_lt _ _ _ Ex') as Hc.
  destruct (start_bind_Some c n s x Ex Hm) as (q & l & El & E & Hq & Hz). unfold send_single_mr. rewrite E.
  step_bind. rewrite aset_Some in El by done. injection El as <-. clear E.
  set (x1 := upd_send _ x). set (s1 := s <| conns := _ |>).
  destruct (for_brk_search (λ _, false) (λ i s, b ← is_free (rdma_remote s) i;
    if b : bool then s ← serve_chunk mr c i s; Some (Stop s) else Some (Next s)) 0 MAX_FREE_MEM_GB s1)
    as (k & -> & _); [done| |].
  { intros j Hj. cbn. by rewrite Hfull. }
  step_bind. unfold finish_bind, upd_conn, get_conn. cbn.
  rewrite aget_insert, decide_True by done. step_bind. unfold set_conn.
  cbn. rewrite aset_Some by (by rewrite !alen_insert). step_bind.
  unfold send_message, get_conn. cbn. rewrite aget_insert, decide_True by (done || by rewrite !alen_insert). step_bind.
  cbn. rewrite Hcon. eexists _, _. split; [reflexivity|]. cbn. split_and!; try done.
  eexists. rewrite aget_insert, decide_True by (done || by rewrite !alen_insert). by split.
Qed.

Lemma bound_session_ok : session_ok bound_session.
Proof.
  apply (star_inv (mon_step test_mr) session_ok _ _ (mon_step_ok test_mr) bound_session_reach).
  apply started_ok. lia.
Qed.

(** The second chunk asked of a server of one region. *)
Lemma send_single_mr_exhausted_witness :
  ∃ s' m, send_single_mr test_mr 0 5 bound_session = Some s' ∧ sent s' = sent bound_session ++ [(0, m)] ∧
    ri_type m = INFO_SINGLE ∧ (∀ j, 0 <= j < 32 → aget (ri_rkey m) j = Some 0) ∧
    conn_map (rdma_remote s') = conn_map (rdma_remote bound_session) ∧
    mapped_size (rdma_remote s') = mapped_size (rdma_remote bound_session) + 1 ∧
    ∃ x', get_conn s' 0 = Some x' ∧ mapped_chunk_size x' = 2.
Proof.
  destruct (get_conn bound_session 0) as [x|] eqn:Ex; [|discriminate Ex].
  assert (connected x = true ∧ info_ok (send_msg x) ∧ mapped_chunk_size x = 1) as (Hc & Hm & Hx).
  { vm_compute in Ex. injection Ex as <-. split; [reflexivity|]. split; [split; reflexivity|reflexivity]. }
  destruct (send_single_mr_exhausted test_mr 0 5 bound_session x)
    as (s' & m & H1 & H2 & H3 & H4 & H5 & H6 & x' & H7 & H8); [exact bound_session_ok|exact Ex|exact Hc|exact Hm| |].
  { intros i Hi. revert i Hi. assert (∀ i, 0 <= i <= 32 → i = 32 ∨ is_free (rdma_remote bound_session) i = Some false) as Hz.
    { apply z32_cases. vm_compute. repeat (constructor; [tauto|]). constructor. }
    intros i Hi. unfold MAX_FREE_MEM_GB in Hi. destruct (Hz i); [lia|lia|done]. }
  exists s', m. split_and!; [done..|]. exists x'. split; [done|lia].
Defined.

(** * The two sides of the protocol *)

(** The server's function is the manager's macro on 64-bit words. *)
Lemma htonll_macro x : 0 <= x < 2 ^ 64 → htonll x = State.htonll x.
Proof.
  intros Hx. unfold htonll, State.htonll. rewrite (ntohll_halves x Hx).
  change 0xFFFFFFFF with (Z.ones 32). rewrite Z.land_ones, Z.shiftr_div_pow2, ntohl_u32, Z.shiftl_mul_pow2 by lia.
  pose proof (ntohl_range (x mod 2 ^ 32)). pose proof (ntohl_range (x / 2 ^ 32)).
  rewrite lor_concat by lia. unfold u64. rewrite wrap_small by lia. done.
Qed.

(** C16: the two sides agree on a chunk: the message with which the server answers
    [BIND_SINGLE] makes the manager, whenever it handles it, map the chunk it asked for to
    that server with exactly the key and address under which the server registered the
    region, and the region belongs to that client. *)
Theorem bind_single_agreement cfg mr c n s x i addr key :
  session_ok s → get_conn s c = Some x → connected x = true → info_ok (send_msg x) →
  first_free (rdma_remote s) i → mr i = (addr, key) → 0 <= addr < 2 ^ 64 → 0 < key < 2 ^ 32 →
  ∃ s' m, send_single_mr mr c n s = Some s' ∧ sent s' = sent s ++ [(c, m)] ∧
    aget (conn_map (rdma_remote s')) i = Some c ∧
    ∀ ms k cb, maps_ok cfg ms → aget (cb_list ms) k = Some cb → cb_ok cb → recv_buf cb = m →
      test_state_num CONNECTED <= test_state_num (cb_st cb) →
      slab_map ms n = Some NO_CB_MAPPED → aget (chunk_map cb) i = Some (-1) →
      ∃ ms' cb', client_recv ms k true = Some (0, ms') ∧ maps_ok cfg ms' ∧
        slab_map ms' n = Some k ∧ slab_slot ms' n = Some i ∧ aget (cb_list ms') k = Some cb' ∧
        aget (chunk_list cb') i = Some {| remote_rkey := key; remote_addr := addr |}.
Proof.
  intros Hs Ex Hc Hm Hf Emr Haddr Hkey.
  destruct (send_single_mr_bound mr c n s x i) as (s' & m & E & [B1 B2 B3 B4 B5 B6 B7 B8 B9 B10 B11 B12]); [done..|].
  exists s', m. split; [done|]. split; [done|]. split; [by rewrite B7, decide_True|].
  intros ms k cb Hok Hcb Hcok Hbuf Hst Hslab Hmap. rewrite Emr in B5, B6. cbn in B5, B6.
  destruct Hf as [Hi _]. unfold MAX_FREE_MEM_GB in Hi.
  destruct (client_recv_single cfg ms k cb i (ntohl key) (htonll addr)) as (ms' & E' & Hok' & [A1 A2 A3 A4 A5 A6] & _);
    [done|done|done|by rewrite Hbuf|done|by rewrite Hbuf, B3| |done|].
  { rewrite Hbuf. split; [rewrite B6, decide_True by lia; done|]. split_and!; [|done|].
    - intros H0. assert (key = ntohl (ntohl key)) as Hk by (by rewrite ntohl_involutive by lia).
      rewrite H0 in Hk. change (ntohl 0) with 0 in Hk. lia.
    - intros j Hj. by rewrite B6, decide_False by lia. }
  rewrite Hbuf, B3 in A1, A2. destruct A3 as (cb' & F1 & F2 & F3 & F4). exists ms', cb'.
  split_and!; [done..|]. rewrite F3, htonll_macro, ntohl_involutive by lia.
  unfold State.htonll. by rewrite (proj1 (ntohll_involutive addr ltac:(lia))).
Qed.

Lemma bind_single_agreement_witness :
  ∃ s' m, send_single_mr test_mr 0 0 ready_session = Some s' ∧ sent s' = sent ready_session ++ [(0, m)] ∧
    aget (conn_map (rdma_remote s')) 0 = Some 0 ∧
    ∀ ms k cb, maps_ok rep ms → aget (cb_list ms) k = Some cb → cb_ok cb → recv_buf cb = m →
      test_state_num CONNECTED <= test_state_num (cb_st cb) →
      slab_map ms 0 = Some NO_CB_MAPPED → aget (chunk_map cb) 0 = Some (-1) →
      ∃ ms' cb', client_recv ms k true = Some (0, ms') ∧ maps_ok rep ms' ∧
        slab_map ms' 0 = Some k ∧ slab_slot ms' 0 = Some 0 ∧ aget (cb_list ms') k = Some cb' ∧
        aget (chunk_list cb') 0 = Some {| remote_rkey := 0x10; remote_addr := 0x7f00 |}.
Proof.
  destruct ready_conn as (x & Ex & Hc & Hm).
  apply (bind_single_agreement rep test_mr 0 0 ready_session x 0 0x7f00 0x10);
    [exact ready_session_ok|exact Ex|exact Hc|exact Hm| |reflexivity|lia|lia].
  split; [unfold MAX_FREE_MEM_GB; lia|]. split; [vm_compute; reflexivity|lia].
Defined.

(** * Giving back *)

(** Chunk [j] has a key in the message. *)
Definition given (m : rdma_info) (j : Z) : bool := truthy (default 0 (aget (ri_rkey m) j)).

(** Progress of [recv_done] from [s], where [x] is the client: chunks below [i] are done. *)
Record giving (m : rdma_info) (c i : Z) (x : connection) (s t : rdma_session) : Prop := {
  gv_ok : session_ok t;
  gv_conn : ∃ y, aget (conns t) c = Some (Some y) ∧ mapped_chunk_size y = mapped_chunk_size x ∧
              stop_sem y = stop_sem x ∧
              ∀ j, aget (sess_chunk_map y) j =
                (λ k, if (j <? i) && given m j then -1 else k) <$> aget (sess_chunk_map x) j;
  gv_map : ∀ j, aget (conn_map (rdma_remote t)) j =
             (λ k, if (j <? i) && given m j then -1 else k) <$> aget (conn_map (rdma_remote s)) j;
  gv_live : ∀ j, aget (region_live (rdma_remote t)) j =
             (λ b, if (j <? i) && given m j then false else b) <$> aget (region_live (rdma_remote s)) j;
  gv_others : ∀ d, d ≠ c → aget (conns t) d = aget (conns s) d;
  gv_size : size_gb (rdma_remote t) = size_gb (rdma_remote s) ∧
            mapped_size (rdma_remote t) = mapped_size (rdma_remote s) ∧ conns_state t = conns_state s
}.

(** One entry of an array that the loop passes: [v] where the message has a key. *)
Lemma passed {A} (m : rdma_info) i j (v : A) (o : option A) :
  (λ k, if (j <? i + 1) && given m j then v else k) <$> o =
  if decide (i = j) then (λ k, if given m i then v else k) <$> o
  else (λ k, if (j <? i) && given m j then v else k) <$> o.
Proof.
  case_decide; [subst; by rewrite (proj2 (Z.ltb_lt j (j + 1))) by lia|].
  by destruct (Z.ltb_spec j (i + 1)), (Z.ltb_spec j i); try lia.
Qed.

Lemma take_back_giving m c i x s t :
  giving m c i x s t → given m i = true → aget (sess_chunk_map x) i = Some i → 0 <= i →
  ∃ t', take_back c i t = Some t' ∧ giving m c (i + 1) x s t'.
Proof.
  intros [Hok (y & Ey & Ems & Ess & Hy) Hmap Hlive Hoth (Hsz1 & Hsz2 & Hsz3)] Hg Exi Hi.
  assert (aget (sess_chunk_map y) i = Some i) as Eyi by (by rewrite Hy, Exi, Z.ltb_irrefl).
  pose proof (so_conn _ Hok c y Ey) as [Hidx Hlen Hown]. pose proof (aget_lt _ _ _ Ey).
  destruct (Hown i i Eyi) as [->|[_ Ec]]; [lia|]. pose proof (aget_lt _ _ _ Eyi).
  destruct (so_regions _ Hok) as [H1 H2 H3 H4 H5 H6 H7].
  destruct (H7 i c Ec) as (_ & Elv & r & Er); [lia|].
  assert (∃ t', take_back c i t = Some t' ∧
    conns t' = <[Z.to_nat c := Some (y <| sess_chunk_map := <[Z.to_nat i := -1]> (sess_chunk_map y) |>)]> (conns t) ∧
    conns_state t' = conns_state t ∧ size_gb (rdma_remote t') = size_gb (rdma_remote t) ∧
    mapped_size (rdma_remote t') = mapped_size (rdma_remote t) ∧
    conn_map (rdma_remote t') = <[Z.to_nat i := -1]> (conn_map (rdma_remote t)) ∧
    region_live (rdma_remote t') = <[Z.to_nat i := false]> (region_live (rdma_remote t)))
    as (t' & E & F1 & F2 & F3 & F4 & F5 & F6).
  { unfold take_back, get_conn. rewrite Ey. step_bind. rewrite Eyi. step_bind. rewrite aset_Some by lia. step_bind.
    unfold set_conn. rewrite aset_Some by lia. step_bind. cbn. rewrite Er. step_bind. rewrite aset_Some by lia.
    step_bind. unfold free_region. cbn. rewrite Elv. step_bind. rewrite aset_Some by lia. step_bind.
    cbn. rewrite aset_Some by lia. step_bind. rewrite aset_Some by lia. step_bind. rewrite aset_Some by lia. step_bind.
    eexists. split; [reflexivity|]. done. }
  exists t'. split; [done|]. constructor.
  - by eapply take_back_ok.
  - eexists. rewrite F1, aget_insert, decide_True by lia. split; [reflexivity|]. cbn. split; [done|]. split; [done|].
    intros j. rewrite passed, aget_insert by lia. case_decide; [subst; by rewrite Exi, Hg|apply Hy].
  - intros j. rewrite passed, F5, aget_insert by lia. case_decide; [subst|apply Hmap].
    specialize (Hmap j). rewrite Ec in Hmap. destruct (aget (conn_map (rdma_remote s)) j); [|done]. cbn. by rewrite Hg.
  - intros j. rewrite passed, F6, aget_insert by lia. case_decide; [subst|apply Hlive].
    specialize (Hlive j). rewrite Elv in Hlive.
    destruct (aget (region_live (rdma_remote s)) j); [|done]. cbn. by rewrite Hg.
  - intros d Hd. rewrite F1, aget_insert, decide_False by (done || lia). by apply Hoth.
  - by rewrite F2, F3, F4.
Qed.

Lemma giving_start m c s x : session_ok s → aget (conns s) c = Some (Some x) → giving m c 0 x s s.
Proof.
  intros Hs Ex.
  assert (∀ A (l : list A) j v, aget l j = (λ k, if (j <? 0) && given m j then v else k) <$> aget l j) as Hid.
  { intros A l j v. destruct (aget l j) eqn:E; [|done]. apply aget_lt in E. cbn.
    by destruct (Z.ltb_spec j 0); [lia|]. }
  constructor; [done| |intros j; apply Hid|intros j; apply Hid|done|done].
  exists x. split_and!; [done..|]. intros j. apply Hid.
Qed.

Lemma giving_skip m c i x s t : giving m c i x s t → given m i = false → giving m c (i + 1) x s t.
Proof.
  intros [Gok (z & Gz & Gm & Gss & Gy) Gmap Glive Goth Gsz] Hg.
  assert (∀ A (l o : list A) v, (∀ j, aget l j = (λ k, if (j <? i) && given m j then v else k) <$> aget o j) →
    ∀ j, aget l j = (λ k, if (j <? i + 1) && given m j then v else k) <$> aget o j) as Hid.
  { intros A l o v H j. rewrite passed. case_decide; [|apply H]. subst. rewrite H, Z.ltb_irrefl, Hg. cbn.
    by destruct (aget o j). }
  constructor; [done| |by apply Hid|by apply Hid|done|done].
  exists z. split_and!; [done..|]. by apply Hid.
Qed.

(** The loop of [recv_done]. *)
Lemma recv_done_loop c s x :
  session_ok s → get_conn s c = Some x → info_ok (recv_msg x) →
  (∀ j, 0 <= j < 32 → given (recv_msg x) j = true → aget (sess_chunk_map x) j = Some j) →
  ∃ t, for_up 0 MAX_MR_SIZE_GB (λ i s, rkey ← aget (ri_rkey (recv_msg x)) i;
         if truthy rkey then take_back c i s else Some s) s = Some t ∧ giving (recv_msg x) c MAX_MR_SIZE_GB x s t.
Proof.
  intros Hs Ex [_ Hk] Hgiven. apply (for_up_inv (λ i t, giving (recv_msg x) c i x s t)); [done| |].
  { by apply giving_start, get_conn_inv. }
  intros i t Hi Ht. destruct (proj2 (aget_is_Some (ri_rkey (recv_msg x)) i)) as [k Ek]; [lia|]. rewrite Ek. step_bind.
  assert (given (recv_msg x) i = truthy k) as Hgi by (unfold given; by rewrite Ek). destruct (truthy k) eqn:Et.
  - apply take_back_giving; [done|done|apply Hgiven; [done|done]|lia].
  - exists t. split; [done|]. by apply giving_skip.
Qed.

(** The rest of it, from a state [t] with client [y]. *)
Lemma recv_done_end c s x t y :
  let n := ri_size_gb (recv_msg x) in
  get_conn s c = Some x → session_ok t → aget (conns t) c = Some (Some y) →
  for_up 0 MAX_MR_SIZE_GB (λ i s, rkey ← aget (ri_rkey (recv_msg x)) i;
    if truthy rkey then take_back c i s else Some s) s = Some t →
  ∃ s', recv_done c s = Some s' ∧ (∀ d, d ≠ c → aget (conns s') d = aget (conns t) d) ∧
    region_live (rdma_remote s') = region_live (rdma_remote t) ∧ conn_map (rdma_remote s') = conn_map (rdma_remote t) ∧
    size_gb (rdma_remote s') = size_gb (rdma_remote t) - n ∧
    mapped_size (rdma_remote s') = mapped_size (rdma_remote t) - n ∧
    (∀ d, aget (conns_state s') d = if decide (d = c ∧ mapped_chunk_size y = n) then Some CONN_CONNECTED
       else aget (conns_state t) d) ∧
    ∃ x', get_conn s' c = Some x' ∧ mapped_chunk_size x' = mapped_chunk_size y - n.
Proof.
  intros n Ex Hok Ey E. pose proof (aget_lt _ _ _ Ey).
  unfold recv_done. rewrite Ex. step_bind. rewrite E. step_bind. fold n. unfold upd_conn, get_conn. cbn.
  rewrite Ey. step_bind. unfold set_conn. cbn. rewrite aset_Some by done. step_bind. cbn.
  rewrite aget_insert, decide_True by done. step_bind. cbn.
  rewrite (co_index _ _ _ (so_conn _ Hok c y Ey)).
  pose proof (so_conns _ Hok) as Hcl. pose proof (so_state _ Hok) as Hsl.
  destruct (Z.eqb_spec (mapped_chunk_size y - n) 0) as [Hz|Hz].
  - rewrite aset_Some by lia. step_bind. unfold post_receives, upd_conn, get_conn. cbn.
    rewrite aget_insert, decide_True by done. step_bind. unfold set_conn. cbn.
    rewrite aset_Some by (by rewrite alen_insert). step_bind.
    eexists. split; [reflexivity|]. cbn. split_and!; try done.
    + intros d Hd. by rewrite !aget_insert, !decide_False by (rewrite ?alen_insert; done).
    + intros d. rewrite aget_insert by lia. destruct (decide (c = d)) as [->|].
      * by rewrite decide_True by (split; [done|lia]).
      * by rewrite decide_False by (intros [? _]; done).
    + eexists. rewrite aget_insert, decide_True by (rewrite ?alen_insert; done). by split.
  - step_bind. unfold post_receives, upd_conn, get_conn. cbn.
    rewrite aget_insert, decide_True by done. step_bind. unfold set_conn. cbn.
    rewrite aset_Some by (by rewrite alen_insert). step_bind.
    eexists. split; [reflexivity|]. cbn. split_and!; try done.
    + intros d Hd. by rewrite !aget_insert, !decide_False by (rewrite ?alen_insert; done).
    + intros d. rewrite decide_False by (intros [_ ?]; lia). done.
    + eexists. rewrite aget_insert, decide_True by (rewrite ?alen_insert; done). by split.
Qed.

(** [DONE] from a client that lists only its own chunks cannot fail: exactly the
    chunks with a key are freed and unmapped, once each, every other region and connection
    is untouched; the sizes shrink by the size the message states, and a client left with
    no chunk counts as merely connected. *)
Theorem recv_done_correct c s x :
  session_ok s → get_conn s c = Some x → info_ok (recv_msg x) →
  (∀ j, 0 <= j < 32 → given (recv_msg x) j = true → aget (sess_chunk_map x) j = Some j) →
  ∃ s', recv_done c s = Some s' ∧ session_ok s' ∧
    (∀ j, aget (conn_map (rdma_remote s')) j =
       (λ k, if given (recv_msg x) j then -1 else k) <$> aget (conn_map (rdma_remote s)) j) ∧
    (∀ j, aget (region_live (rdma_remote s')) j =
       (λ b, if given (recv_msg x) j then false else b) <$> aget (region_live (rdma_remote s)) j) ∧
    (∀ d, d ≠ c → aget (conns s') d = aget (conns s) d) ∧
    (∀ d, aget (conns_state s') d =
       if decide (d = c ∧ mapped_chunk_size x = ri_size_gb (recv_msg x)) then Some CONN_CONNECTED
       else aget (conns_state s) d) ∧
    size_gb (rdma_remote s') = size_gb (rdma_remote s) - ri_size_gb (recv_msg x) ∧
    mapped_size (rdma_remote s') = mapped_size (rdma_remote s) - ri_size_gb (recv_msg x) ∧
    ∃ x', get_conn s' c = Some x' ∧ mapped_chunk_size x' = mapped_chunk_size x - ri_size_gb (recv_msg x).
Proof.
  intros Hs Ex Hm Hgiven.
  destruct (recv_done_loop c s x) as (t & E & [Hok (y & Ey & Ems & _ & _) Hmap Hlive Hoth (Hs1 & Hs2 & Hs3)]); [done..|].
  destruct (recv_done_end c s x t y) as (s' & Er & G1 & G2 & G3 & G4 & G5 & G6 & G7); [done..|].
  assert (∀ A (l : list A) j v, alen l = 32 →
    (λ k, if (j <? MAX_MR_SIZE_GB) && given (recv_msg x) j then v else k) <$> aget l j =
    (λ k, if given (recv_msg x) j then v else k) <$> aget l j) as Hfin.
  { intros A l j v Hl. destruct (aget l j) eqn:El; [|done]. apply aget_lt in El. rewrite Hl in El.
    by rewrite (proj2 (Z.ltb_lt j MAX_MR_SIZE_GB)) by (unfold MAX_MR_SIZE_GB; lia). }
  destruct (so_regions _ Hs).
  exists s'. split; [done|]. split; [by apply (recv_done_ok c s)|].
  split; [intros j; by rewrite G3, Hmap, Hfin|]. split; [intros j; by rewrite G2, Hlive, Hfin|].
  split; [intros d Hd; by rewrite G1, Hoth|]. split; [intros d; by rewrite G6, Hs3, Ems|].
  split; [by rewrite G4, Hs1|]. split; [by rewrite G5, Hs2|]. by rewrite <- Ems.
Qed.

(** The client of [bound_session] gives its chunk back. *)
Definition done_msg : rdma_info :=
  {| ri_buf := replicate 32 0; ri_rkey := 1 :: replicate 31 0; ri_size_gb := 1; ri_type := DONE |}.
Definition done_session : rdma_session :=
  default bound_session (upd_conn 0 (λ x, x <| recv_msg := done_msg |>) bound_session).

Lemma recv_done_correct_witness :
  ∃ x s', get_conn done_session 0 = Some x ∧ recv_done 0 done_session = Some s' ∧ session_ok s' ∧
    aget (conn_map (rdma_remote s')) 0 = Some (-1) ∧ size_gb (rdma_remote s') = 0.
Proof.
  destruct (get_conn done_session 0) as [x|] eqn:Ex; [|vm_compute in Ex; discriminate Ex].
  assert (recv_msg x = done_msg ∧ sess_chunk_map x = 0 :: replicate 31 (-1)) as [Hm Hc]
    by (vm_compute in Ex; injection Ex as <-; split; reflexivity).
  destruct (recv_done_correct 0 done_session x) as (s' & E & Hok & Hmap & _ & _ & _ & Hsz & _).
  - assert (upd_conn 0 (λ x, x <| recv_msg := done_msg |>) bound_session = Some done_session) as E
      by (vm_compute; reflexivity).
    eapply sview_ok; [eapply upd_conn_view; [|exact E]; done|exact bound_session_ok].
  - exact Ex.
  - rewrite Hm. split; reflexivity.
  - intros j Hj. rewrite Hm, Hc. revert j Hj.
    assert (∀ j, 0 <= j <= 32 → given done_msg j = true → aget (0 :: replicate 31 (-1)) j = Some j) as Hz.
    { apply (z32_cases (λ j, given done_msg j = true → aget (0 :: replicate 31 (-1)) j = Some j)).
      cbn. repeat (constructor; [vm_compute; intros H; (reflexivity || discriminate H)|]). constructor. }
    intros j Hj. apply Hz. lia.
  - exists x, s'. split; [done|]. split; [done|]. split; [done|]. split.
    + rewrite Hmap, Hm. reflexivity.
    + rewrite Hsz, Hm. reflexivity.
Defined.
