(* ===== verification/Evict.v ===== *)
(** Memory pressure on the server: what is freed, who is asked, how many regions the
    policy takes or adds. *)

From S2P Require Import Prelude Config State Monitor Regions Serve.

(** * Freeing unused regions *)

Definition free_now (m : rdma_remote_mem) (i : Z) : bool := default false (is_free m i).
Definition free_list (m : rdma_remote_mem) (n : Z) : list Z := filter (λ i, free_now m i = true) (seqZ 0 n).

Lemma free_list_step m i :
  0 <= i → free_list m (i + 1) = free_list m i ++ (if free_now m i then [i] else []).
Proof.
  intros Hi. unfold free_list. rewrite seqZ_app, filter_app by lia. f_equal.
  rewrite Z.add_0_l, (seqZ_cons i 1), seqZ_nil by lia.
  destruct (free_now m i) eqn:E; [by rewrite filter_cons_True|]. by rewrite filter_cons_False by congruence.
Qed.

Lemma free_list_range m n : 0 <= n → 0 <= alen (free_list m n) <= n.
Proof.
  intros Hn. unfold free_list, alen.
  pose proof (length_filter (λ i, free_now m i = true) (seqZ 0 n)) as H. rewrite length_seqZ in H. lia.
Qed.

Lemma free_list_mono m i n : 0 <= i <= n → alen (free_list m i) <= alen (free_list m n).
Proof.
  intros H. unfold free_list. replace n with (i + (n - i)) by lia. rewrite seqZ_app, filter_app, alen_app by lia.
  unfold alen. lia.
Qed.

(** The unused regions below [k] are gone from [m], the rest is as it was. *)
Record freed_below (m : rdma_remote_mem) (k : Z) (m' : rdma_remote_mem) : Prop := {
  fb_live : ∀ j, aget (region_live m') j =
              (λ b, if (j <? k) && free_now m j then false else b) <$> aget (region_live m) j;
  fb_malloc : ∀ j, aget (malloc_map m') j =
              (λ b, if (j <? k) && free_now m j then CHUNK_EMPTY else b) <$> aget (malloc_map m) j;
  fb_conn : conn_map m' = conn_map m;
  fb_mapped : mapped_size m' = mapped_size m
}.

Lemma freed_step m i m' :
  regions_ok m → freed_below m i m' → free_now m i = true → 0 <= i < 32 →
  ∃ t l, is_free m' i = Some true ∧ free_region m' i = Some t ∧ aset (malloc_map t) i CHUNK_EMPTY = Some l ∧
    freed_below m (i + 1) (t <| malloc_map := l |>) ∧ size_gb t = size_gb m'.
Proof.
  intros Hr [Hl Ha Hc Hs] Hf Hi. destruct Hr.
  destruct (is_free m i) as [[]|] eqn:Ef; unfold free_now in Hf; rewrite Ef in Hf; try done.
  assert (aget (region_live m) i = Some true ∧ aget (conn_map m) i = Some (-1)) as [Elv Ecm]
    by (by apply (is_free_spec _ _ _ Ef)).
  assert (aget (region_live m') i = Some true) as Elv' by (by rewrite Hl, Elv, Z.ltb_irrefl).
  assert (aget (malloc_map m') i = Some CHUNK_MALLOCED) as Ema by (by rewrite Ha, Z.ltb_irrefl, rk_flag, Elv).
  pose proof (aget_lt _ _ _ Elv'). pose proof (aget_lt _ _ _ Ema).
  unfold is_free, free_region. rewrite Ema, Hc, Ecm, Elv'. step_bind. rewrite aset_Some by lia. step_bind.
  eexists _, _. split; [done|]. split; [done|]. split; [by apply aset_Some|]. split; [|done].
  assert (free_now m i = true) as Hfn by (unfold free_now; by rewrite Ef).
  constructor; cbn; [| |done|done].
  - intros j. rewrite aget_insert by lia. case_decide; [subst|].
    + rewrite Elv. cbn. by rewrite (proj2 (Z.ltb_lt j (j + 1))), Hfn by lia.
    + rewrite Hl. by destruct (Z.ltb_spec j (i + 1)), (Z.ltb_spec j i); try lia.
  - intros j. rewrite aget_insert by lia. case_decide; [subst|].
    + rewrite rk_flag, Elv. cbn. by rewrite (proj2 (Z.ltb_lt j (j + 1))), Hfn by lia.
    + rewrite Ha. by destruct (Z.ltb_spec j (i + 1)), (Z.ltb_spec j i); try lia.
Qed.

Lemma freed_skip m i m' :
  regions_ok m → freed_below m i m' → free_now m i = false → 0 <= i < 32 →
  is_free m' i = Some false ∧ freed_below m (i + 1) m'.
Proof.
  intros Hr [Hl Ha Hc Hs] Hf Hi. destruct (is_free m i) as [[]|] eqn:Ef; unfold free_now in Hf;
    rewrite Ef in Hf; [done| |by rewrite is_free_dec in Ef].
  split; [rewrite <- Ef; unfold is_free; rewrite Ha, Hc, Z.ltb_irrefl; by destruct (aget (malloc_map m) i)|].
  assert (free_now m i = false) as Hfn by (unfold free_now; by rewrite Ef).
  constructor; [| |done|done]; intros j; [rewrite Hl|rewrite Ha];
    (destruct (decide (j = i)) as [->|]; [by rewrite Hfn, !andb_false_r|]);
    by destruct (Z.ltb_spec j (i + 1)), (Z.ltb_spec j i); try lia.
Qed.

(** The first part of an eviction frees unused memory only, lowest regions first,
    until it has freed the size asked for (then nothing is left to evict) or no unused
    region is left (then the rest is still to evict); memory in use is not touched, and
    the offered size shrinks by exactly what was freed. *)
Theorem evict_unmapped_correct g m :
  regions_ok m → 0 < g →
  let n := alen (free_list m MAX_FREE_MEM_GB) in
  ∃ k m', evict_unmapped g m = Some (g <=? n, if g <=? n then 0 else g - n, m') ∧ regions_ok m' ∧
    freed_below m k m' ∧ 0 <= k <= MAX_FREE_MEM_GB ∧ alen (free_list m k) = Z.min g n ∧
    size_gb m' = size_gb m - Z.min g n.
Proof.
  intros Hr Hg n.
  unfold evict_unmapped.
  match goal with |- context [for_brk 0 MAX_FREE_MEM_GB ?body ?s0] =>
    destruct (for_brk_inv
      (λ i st, st.1 = alen (free_list m i) ∧ st.1 < g ∧ freed_below m i st.2 ∧ size_gb st.2 = size_gb m)
      (λ i st, st.1 = g ∧ alen (free_list m (i + 1)) = g ∧ freed_below m (i + 1) st.2 ∧ size_gb st.2 = size_gb m - g)
      body 0 MAX_FREE_MEM_GB s0) as (k & [f t] & E & H) end; [done| | |].
  - cbn. split_and!; [done|done| |done]. constructor; [| |done|done]; intros j; cbn.
    + destruct (aget (region_live m) j) eqn:Ej; [|done]. apply aget_lt in Ej. cbn.
      by rewrite (proj2 (Z.ltb_ge j 0)) by lia.
    + destruct (aget (malloc_map m) j) eqn:Ej; [|done]. apply aget_lt in Ej. cbn.
      by rewrite (proj2 (Z.ltb_ge j 0)) by lia.
  - intros i [f t] Hi (Hf & Hlt & Hb & Hsz). cbn [fst snd] in *. unfold MAX_FREE_MEM_GB in Hi.
    destruct (free_now m i) eqn:Efr.
    + destruct (freed_step m i t Hr Hb Efr Hi) as (u & l & -> & E2 & E3 & Hb' & Hsz'). step_bind.
      rewrite E2. step_bind. rewrite E3. step_bind. pose proof (free_list_step m i ltac:(lia)) as Hstep.
      rewrite Efr in Hstep. apply (f_equal alen) in Hstep. rewrite alen_app in Hstep.
      change (alen [i]) with 1 in Hstep.
      destruct (Z.eqb_spec (f + 1) g); eexists; (split; [done|]); cbn.
      * split_and!; [lia|lia| |lia]. destruct Hb'. by constructor.
      * split_and!; [lia|lia|done|lia].
    + destruct (freed_skip m i t Hr Hb Efr Hi) as [-> Hb']. step_bind. eexists. split; [done|]. cbn.
      split_and!; [|done|done|done]. rewrite free_list_step, Efr, app_nil_r by lia. done.
  - rewrite E. step_bind. cbn [fst snd] in *.
    destruct H as [(-> & Hf & Hlt & Hb & Hsz)|(Hk & Hf & Hn & Hb & Hsz)].
    + rewrite Z.ltb_irrefl. fold n in Hf. rewrite (proj2 (Z.leb_gt g n)) by lia.
      exists MAX_FREE_MEM_GB. eexists. rewrite Hf, Z.min_r by lia. split; [reflexivity|].
      assert (freed_below m MAX_FREE_MEM_GB (t <| size_gb := size_gb t - n |>)) as Hb' by (by destruct Hb; constructor).
      split_and!; [|done|done|done|done|cbn; lia].
      destruct (evict_unmapped_ok g m false (g - n) (t <| size_gb := size_gb t - n |>)) as [? _]; [done| |done].
      unfold evict_unmapped. rewrite E. step_bind. by rewrite Z.ltb_irrefl, Hf.
    + rewrite (proj2 (Z.ltb_lt k MAX_FREE_MEM_GB)) by lia.
      pose proof (free_list_mono m (k + 1) MAX_FREE_MEM_GB ltac:(lia)). fold n in H.
      rewrite (proj2 (Z.leb_le g n)) by lia. exists (k + 1), t. rewrite Z.min_l by lia. split; [done|].
      split_and!; [|done|lia|lia|done|done].
      destruct (evict_unmapped_ok g m true 0 t) as [? _]; [done| |done].
      unfold evict_unmapped. rewrite E. step_bind. by rewrite (proj2 (Z.ltb_lt k MAX_FREE_MEM_GB)) by lia.
Qed.

Lemma evict_unmapped_correct_witness :
  ∃ k m', evict_unmapped 3 (rdma_remote (started 5)) = Some (true, 0, m') ∧ regions_ok m' ∧
    freed_below (rdma_remote (started 5)) k m' ∧ 0 <= k <= MAX_FREE_MEM_GB ∧
    alen (free_list (rdma_remote (started 5)) k) = 3 ∧ size_gb m' = 5 - 3.
Proof.
  assert (alen (free_list (rdma_remote (started 5)) MAX_FREE_MEM_GB) = 5) as Hn by (vm_compute; reflexivity).
  destruct (evict_unmapped_correct 3 (rdma_remote (started 5))) as (k & m' & E & H1 & H2 & H3 & H4 & H5);
    [apply (started_ok 5); lia|lia|].
  rewrite Hn in E, H4, H5. exists k, m'. split_and!; [exact E|exact H1|exact H2|lia|lia|exact H4|exact H5].
Defined.

(** * The clients asked *)

(** The probe ends at a region in use that was not chosen yet, if there is one ([f]). *)
Lemma probe_correct select f fuel : ∀ r,
  alen select = 32 → 0 <= r < 32 → aget select f = Some 0 → (f - r) mod 32 < Z.of_nat fuel →
  ∃ r', probe fuel select r = Some r' ∧ aget select r' = Some 0.
Proof.
  induction fuel as [|fuel IH]; intros r Hs Hr Hf Hd.
  { pose proof (Z.mod_pos_bound (f - r) 32). lia. }
  pose proof (aget_lt _ _ _ Hf) as Hfr. rewrite Hs in Hfr. cbn [probe].
  destruct (proj2 (aget_is_Some select r)) as [x Ex]; [lia|]. rewrite Ex. step_bind.
  destruct (Z.eqb_spec x 0) as [->|Hx]; [by exists r|]. cbn [negb]. unfold MAX_FREE_MEM_GB.
  apply IH; [done|by apply Z.mod_pos_bound|done|].
  assert (r ≠ f) by congruence. rewrite Zminus_mod_idemp_r.
  replace (f - (r + 1)) with (f - r - 1) by lia.
  pose proof (Z.mod_pos_bound (f - r) 32 ltac:(lia)) as Hb.
  assert ((f - r) mod 32 ≠ 0) as Hnz.
  { intros E0. apply Z.mod_divide in E0 as [q Hq]; [|lia]. lia. }
  rewrite <- Zminus_mod_idemp_l, (Z.mod_small ((f - r) mod 32 - 1)) by lia. lia.
Qed.

(** Without one it never ends. *)
Lemma probe_diverges select : alen select = 32 → (∀ i, aget select i ≠ Some 0) →
  ∀ fuel r, 0 <= r < 32 → probe fuel select r = None.
Proof.
  intros Hs Hn fuel. induction fuel as [|fuel IH]; intros r Hr; [done|]. cbn [probe].
  destruct (proj2 (aget_is_Some select r)) as [x Ex]; [lia|]. rewrite Ex. step_bind.
  destruct (Z.eqb_spec x 0) as [->|Hx]; [by destruct (Hn r)|]. apply IH. by apply Z.mod_pos_bound.
Qed.

Definition used_now (m : rdma_remote_mem) (i : Z) : bool := bool_decide (aget (conn_map m) i ≠ Some (-1)).
Definition used_list (m : rdma_remote_mem) : list Z := filter (λ i, used_now m i = true) (seqZ 0 MAX_FREE_MEM_GB).

Lemma selectable m :
  regions_ok m →
  ∃ sel, for_up 0 MAX_FREE_MEM_GB (λ i l, c ← aget (conn_map m) i; aset l i (if c =? -1 then -1 else 0))
      (replicate (Z.to_nat MAX_FREE_MEM_GB) 0) = Some sel ∧ alen sel = 32 ∧
    ∀ i, 0 <= i < 32 → aget sel i = Some (if used_now m i then 0 else -1).
Proof.
  intros Hr. destruct (for_up_fill (λ i, if used_now m i then 0 else -1)
    (λ i l, c ← aget (conn_map m) i; aset l i (if c =? -1 then -1 else 0)) MAX_FREE_MEM_GB
    (replicate (Z.to_nat MAX_FREE_MEM_GB) 0)) as (sel & E & Hl & H & _); [done| |by exists sel].
  intros i t Hi _. unfold used_now. destruct (proj2 (aget_is_Some (conn_map m) i)) as [c Ec];
    [rewrite (rk_conn _ Hr); done|]. rewrite Ec. step_bind. f_equal.
  destruct (Z.eqb_spec c (-1)) as [->|]; [rewrite bool_decide_eq_false_2; [done|by intros []]|].
  rewrite bool_decide_eq_true_2; [done|congruence].
Qed.

(** Choosing [n] regions among those in use: state [(send_list, select)] of the loop. *)
Record chosen (m : rdma_remote_mem) (j : Z) (st : list Z * list Z) : Prop := {
  ch_send : alen st.1 = MAX_CLIENT;
  ch_sel : alen st.2 = 32;
  ch_only : ∀ c, aget st.1 c = Some 1 → ∃ i, aget (conn_map m) i = Some c ∧ c ≠ -1;
  ch_vals : ∀ c v, aget st.1 c = Some v → v = -1 ∨ v = 1;
  ch_left : ∃ l, NoDup l ∧ alen l = alen (used_list m) - j ∧ ∀ i, i ∈ l → aget st.2 i = Some 0;
  ch_used : ∀ i, aget st.2 i = Some 0 → ∃ c, aget (conn_map m) i = Some c ∧ c ≠ -1
}.

Lemma chosen_step m rand j st :
  regions_ok m → chosen m j st → 0 <= j < alen (used_list m) →
  ∃ st', (let '(send_list, select) := st in
      r ← probe (S (Z.to_nat MAX_FREE_MEM_GB)) select (rand j mod MAX_FREE_MEM_GB);
      select ← aset select r 1; c ← aget (conn_map m) r; send_list ← aset send_list c 1;
      Some (send_list, select)) = Some st' ∧ chosen m (j + 1) st'.
Proof.
  destruct st as [sl sel]. intros Hr [H1 H2 H3 Hv (l & Hnd & Hl & Hl0) H5] Hj. cbn [fst snd] in *.
  destruct l as [|f l]; [unfold alen in Hl at 1; cbn in Hl; lia|].
  destruct (probe_correct sel f (S (Z.to_nat MAX_FREE_MEM_GB)) (rand j mod MAX_FREE_MEM_GB)) as (r & -> & Er).
  { done. } { by apply Z.mod_pos_bound. } { apply Hl0, list_elem_of_here. }
  { pose proof (Z.mod_pos_bound (f - rand j mod MAX_FREE_MEM_GB) 32). change (Z.of_nat _) with 33. lia. }
  step_bind. pose proof (aget_lt _ _ _ Er). rewrite aset_Some by lia. step_bind.
  destruct (H5 r Er) as (c & Ec & Hc). rewrite Ec. step_bind.
  destruct (rk_used _ Hr r c Ec Hc) as (Hcr & _). unfold MAX_CLIENT in *. rewrite aset_Some by lia. step_bind.
  eexists. split; [reflexivity|]. constructor; cbn [fst snd]; rewrite ?alen_insert; try done.
  - intros d. rewrite aget_insert by lia. case_decide; [subst; intros _; eauto|apply H3].
  - intros d v. rewrite aget_insert by lia. case_decide; [intros [= <-]; by right|apply Hv].
  - destruct (decide (r ∈ f :: l)) as [Hin|Hni].
    + apply list_elem_of_split in Hin as (l1 & l2 & El). exists (l1 ++ l2). rewrite El in Hnd, Hl, Hl0.
      apply NoDup_app in Hnd as (N1 & N2 & N3). apply NoDup_cons in N3 as [N3 N4].
      assert (∀ i, i ∈ l1 ++ l2 → r ≠ i) as Hne.
      { intros i Hi <-. apply elem_of_app in Hi as [Hi|Hi]; [|done]. by apply (N2 r Hi), list_elem_of_here. }
      split; [apply NoDup_app; split_and!; [done|intros i Hi Hi2; by apply (N2 i Hi), list_elem_of_further|done]|].
      rewrite !alen_app in *. split; [unfold alen in *; cbn in Hl; lia|]. intros i Hi.
      rewrite aget_insert, decide_False by (done || by apply Hne). apply Hl0.
      apply elem_of_app in Hi as [?|?]; apply elem_of_app; [by left|right; by apply list_elem_of_further].
    + exists l. apply NoDup_cons in Hnd as [Hf Hnd]. split; [done|]. split; [unfold alen in *; cbn in Hl; lia|].
      intros i Hi. rewrite aget_insert, decide_False by (done || (intros ->; apply Hni; by apply list_elem_of_further)).
      apply Hl0. by apply list_elem_of_further.
  - intros i. rewrite aget_insert by lia. case_decide; [done|]. apply H5.
Qed.

(** Choosing whom to ask ends and stays in its arrays as long as the count of mapped
    chunks does not exceed the regions in use: the number to evict is capped by it, and
    only mapped clients, or holders of a region in use, are asked. *)
Theorem evict_select_correct rand evict_g s :
  session_ok s → 0 <= evict_g → mapped_size (rdma_remote s) <= alen (used_list (rdma_remote s)) →
  (∀ c, aget (conns_state s) c = Some CONN_MAPPED → is_Some (get_conn s c)) →
  ∃ sl, evict_select rand evict_g s = Some (sl, Z.min evict_g (mapped_size (rdma_remote s))) ∧ alen sl = MAX_CLIENT ∧
    ∀ c, aget sl c = Some 1 → aget (conns_state s) c = Some CONN_MAPPED ∨
      ∃ i, aget (conn_map (rdma_remote s)) i = Some c ∧ c ≠ -1.
Proof.
  intros [Hr Hl Hst Hx] Hg Hms Hmap. unfold evict_select.
  destruct (selectable _ Hr) as (sel & -> & Hsl & Hsel). step_bind. unfold EXTRA_CHUNK_NUM.
  destruct (Z.ltb_spec (mapped_size (rdma_remote s)) (evict_g + 2)) as [Hlt|Hge].
  - match goal with |- context [for_up 0 MAX_CLIENT ?body ?s0] =>
      destruct (for_up_inv (λ i l, alen l = MAX_CLIENT ∧
        ∀ c, aget l c = Some 1 → aget (conns_state s) c = Some CONN_MAPPED) body 0 MAX_CLIENT s0)
        as (sl & -> & Hsl' & Hc) end; [done| | |].
    + split; [done|]. intros c E. apply aget_Some in E as [_ E]. by apply (lookup_replicate_1 32) in E as [? _].
    + intros i l Hi [Hll Hc]. destruct (proj2 (aget_is_Some (conns_state s) i)) as [st Est]; [lia|].
      rewrite Est. step_bind. case_bool_decide as Em; [|by exists l].
      destruct (Hmap i) as [x Ex]; [by rewrite Est, Em|]. rewrite Ex. step_bind.
      rewrite aset_Some by lia. eexists. split; [done|]. split; [by rewrite alen_insert|].
      intros c. rewrite aget_insert by lia. case_decide; [subst; congruence|apply Hc].
    + step_bind. exists sl. split; [|split; [done|by left; apply Hc]]. repeat f_equal.
      destruct (Z.ltb_spec (mapped_size (rdma_remote s)) evict_g); lia.
  - match goal with |- context [for_up 0 (evict_g + 2) ?body ?s0] =>
      destruct (for_up_inv (λ j st, chosen (rdma_remote s) j st) body 0 (evict_g + 2) s0)
        as ([sl sel'] & -> & [H1 _ H3 _ _ _]) end; [lia| | |].
    + constructor; cbn [fst snd]; try done.
      * intros c E. apply aget_Some in E as [_ E]. by apply (lookup_replicate_1 32) in E as [? _].
      * intros c v E. apply aget_Some in E as [_ E]. left. by apply (lookup_replicate_1 32) in E as [? _].
      * exists (used_list (rdma_remote s)). split; [apply NoDup_filter, NoDup_seqZ|]. split; [lia|].
        intros i [Hu Hi%elem_of_seqZ]%list_elem_of_filter. unfold MAX_FREE_MEM_GB in Hi.
        by rewrite Hsel, Hu by lia.
      * intros i E. pose proof (aget_lt _ _ _ E) as Hi. rewrite Hsl in Hi. rewrite Hsel in E by done.
        destruct (used_now (rdma_remote s) i) eqn:Eu; [|done]. unfold used_now in Eu.
        apply bool_decide_eq_true in Eu. destruct (proj2 (aget_is_Some (conn_map (rdma_remote s)) i)) as [c Ec];
          [rewrite (rk_conn _ Hr); done|]. exists c. split; [done|]. congruence.
    + intros j st Hj Hc. apply chosen_step; [done|done|lia].
    + step_bind. exists sl. split; [rewrite Z.min_l by lia; done|]. split; [done|]. intros c E. right. by apply H3.
Qed.

Lemma evict_select_correct_witness :
  ∃ sl, evict_select (λ _, 7) 1 bound_session = Some (sl, 1) ∧ alen sl = MAX_CLIENT ∧
    ∀ c, aget sl c = Some 1 → aget (conns_state bound_session) c = Some CONN_MAPPED ∨
      ∃ i, aget (conn_map (rdma_remote bound_session)) i = Some c ∧ c ≠ -1.
Proof.
  apply (evict_select_correct (λ _, 7) 1 bound_session); [exact bound_session_ok|lia|vm_compute; discriminate|].
  intros c E. pose proof (aget_lt _ _ _ E) as Hc. change (alen (conns_state bound_session)) with 32 in Hc.
  destruct (decide (c = 0)) as [->|Hne]; [vm_compute; by eexists|].
  assert (∀ z, 0 <= z <= 32 → z = 0 ∨ z = 32 ∨ aget (conns_state bound_session) z = Some CONN_IDLE) as Hz.
  { apply (z32_cases (λ z, z = 0 ∨ z = 32 ∨ aget (conns_state bound_session) z = Some CONN_IDLE)).
    cbn [fmap list_fmap seq]. repeat (constructor; [vm_compute; tauto|]). constructor. }
  destruct (Hz c) as [?|[?|Ei]]; [lia|lia|lia|]. rewrite Ei in E. discriminate E.
Defined.

(** Once the count of mapped chunks runs ahead of the regions in use (a bind that
    found no free region counts one) the random probe has nothing left to find and never
    ends, however long it runs. *)
Theorem probe_never_ends select r fuel :
  alen select = 32 → (∀ i, aget select i ≠ Some 0) → 0 <= r < 32 → probe fuel select r = None.
Proof. intros. by apply probe_diverges. Qed.

Lemma probe_never_ends_witness : probe 1000 (replicate 32 (-1)) 5 = None.
Proof.
  apply probe_never_ends; [reflexivity| |lia].
  intros i E. apply aget_Some in E as [_ E]. apply (lookup_replicate_1 32) in E as [E _]. discriminate E.
Defined.

(** * The policy *)

(** The policy evicts only below the low threshold, never more than is offered or
    than it takes to get back to the threshold; it grows only above the high threshold,
    after [MEM_EXPAND_HIT_THRESHOLD] such readings, never past [MAX_FREE_MEM_GB] and never
    so far that the host falls below the threshold; its counters stay in range. *)
Theorem policy_step_correct filtered size p :
  0 <= size <= MAX_FREE_MEM_GB → evict_hit_count p = 0 → 0 <= expand_hit_count p < MEM_EXPAND_HIT_THRESHOLD →
  let '(a, p') := policy_step filtered size p in
  evict_hit_count p' = 0 ∧ 0 <= expand_hit_count p' < MEM_EXPAND_HIT_THRESHOLD ∧
  match a with
  | NoAction => last_free_mem_g p' = filtered ∧
      (filtered < FREE_MEM_EVICT_THRESHOLD → size = 0) ∧
      (FREE_MEM_EXPAND_THRESHOLD < filtered → expand_hit_count p' = expand_hit_count p + 1)
  | Evict g => filtered < FREE_MEM_EVICT_THRESHOLD ∧ 0 < g <= size ∧
      last_free_mem_g p' = filtered + g ∧ filtered + g <= FREE_MEM_EVICT_THRESHOLD ∧ expand_hit_count p' = 0
  | Expand g => FREE_MEM_EXPAND_THRESHOLD < filtered ∧ 0 <= g ∧ size + g <= MAX_FREE_MEM_GB ∧
      FREE_MEM_EXPAND_THRESHOLD <= last_free_mem_g p' ∧ last_free_mem_g p' = filtered - g ∧
      expand_hit_count p = MEM_EXPAND_HIT_THRESHOLD - 1 ∧ expand_hit_count p' = 0
  end.
Proof.
  unfold policy_step, FREE_MEM_EVICT_THRESHOLD, FREE_MEM_EXPAND_THRESHOLD, MEM_EVICT_HIT_THRESHOLD,
    MEM_EXPAND_HIT_THRESHOLD, MAX_FREE_MEM_GB. intros Hs He Hx. rewrite He.
  change (1 <=? 0 + 1) with true. destruct (Z.ltb_spec filtered 10); cbn.
  - destruct (Z.ltb_spec size (10 - filtered)); [destruct (Z.ltb_spec 0 size)|destruct (Z.ltb_spec 0 (10 - filtered))];
      cbn; lia.
  - destruct (Z.ltb_spec 20 filtered); [|cbn; lia]. destruct (Z.leb_spec 20 (expand_hit_count p + 1)); [|cbn; lia].
    destruct (Z.ltb_spec 32 (filtered - 20 + size)); cbn; lia.
Qed.

Lemma policy_step_correct_witness :
  let '(a, p') := policy_step 4 12 {| last_free_mem_g := 9; evict_hit_count := 0; expand_hit_count := 3 |} in
  a = Evict 6 ∧ evict_hit_count p' = 0 ∧ expand_hit_count p' = 0.
Proof.
  pose proof (policy_step_correct 4 12 {| last_free_mem_g := 9; evict_hit_count := 0; expand_hit_count := 3 |}) as H.
  cbn in H |- *. destruct H as (H1 & H2 & H3 & H4 & H5 & H6 & H7);
    [unfold MAX_FREE_MEM_GB; lia|reflexivity|unfold MEM_EXPAND_HIT_THRESHOLD; lia|].
  split; [reflexivity|]. split; [exact H1|exact H7].
Defined.

(** * Activities *)

Lemma evict_choose_empty e s :
  (∀ i x, aget (evict_list e) i = Some x → x = None) → 1 <= ev_j e → evict_choose e s = None.
Proof.
  intros Hn Hj. unfold evict_choose. rewrite for_up_step by lia.
  assert (choose_chunk 0 (e, -1, s) = None) as ->; [|done]. unfold choose_chunk.
  destruct (sort_least 0 (evict_list e)) as [l|] eqn:E; [|done]. step_bind.
  assert (l = evict_list e) as ->.
  { unfold sort_least in E. destruct (Z.lt_ge_cases 1 (alen (evict_list e))) as [Hlt|].
    - rewrite for_up_step in E by lia. destruct (proj2 (aget_is_Some (evict_list e) 0)) as [x Ex]; [lia|].
      rewrite Ex, (Hn 0 x Ex) in E. done.
    - rewrite for_up_empty in E by lia. by injection E. }
  destruct (aget (evict_list e) 0) as [x|] eqn:Ex; [|done]. by rewrite (Hn 0 x Ex).
Qed.

(** A client's answer that reports no activity at all (the manager's
    [IS_send_activity] writes only zeros) leaves [evict_list] uninitialised, and the sort
    that follows reads it. *)
Theorem zero_activity_undefined i e s e' s' x :
  get_conn s i = Some x → (∀ m, 0 <= m < MAX_MR_SIZE_GB → aget (ri_buf (recv_msg x)) m = Some 0) →
  (∀ m y, aget (evict_list e) m = Some y → y = None) → 1 <= ev_j e →
  evict_collect i e s = Some (e', s') → evict_choose e' s' = None.
Proof.
  intros Ex Hz He Hj E. unfold evict_collect in E. rewrite Ex in E. cbn in E.
  destruct (0 <? evict_sem x); [|done]. apply bind_Some in E as (q & _ & E). apply bind_Some in E as (t & _ & E).
  apply bind_Some in E as ([l n] & El & E). apply bind_Some in E as (u & _ & [= <- _]). apply evict_choose_empty; [|done]. cbn.
  match type of El with for_up 0 ?hi ?body ?s0 = _ =>
    destruct (for_up_inv (λ _ st, st = s0) body 0 hi s0) as (st & E' & ->) end; [done|done| |].
  - intros m st Hm ->. exists (evict_list e, ev_n e). split; [|done]. by rewrite Hz.
  - rewrite E' in El. injection El as <- <-. done.
Qed.

(** The client of [bound_session] has answered with zeros. *)
Definition asked_session : rdma_session :=
  default bound_session (upd_conn 0 (λ x, x <| evict_sem := 1 |> <| recvs := 0 |>) bound_session).
Definition asked : eviction :=
  {| send_list := 1 :: replicate 31 (-1); ev_j := 1; evict_list := [None]; ev_n := 0 |}.

Lemma zero_activity_undefined_witness :
  ∃ e' s', evict_collect 0 asked asked_session = Some (e', s') ∧ evict_choose e' s' = None.
Proof.
  destruct (get_conn asked_session 0) as [x|] eqn:Ex; [|vm_compute in Ex; discriminate Ex].
  destruct (evict_collect 0 asked asked_session) as [[e' s']|] eqn:E; [|vm_compute in E; discriminate E].
  exists e', s'. split; [reflexivity|].
  apply (zero_activity_undefined 0 asked asked_session e' s' x); [exact Ex| | |cbn; lia|exact E].
  - assert (ri_buf (recv_msg x) = replicate 32 0) as -> by (vm_compute in Ex; injection Ex as <-; reflexivity).
    intros m Hm. unfold MAX_MR_SIZE_GB in Hm. apply aget_replicate. lia.
  - intros m y Ey. apply aget_Some in Ey as [_ Ey]. cbn in Ey.
    destruct (Z.to_nat m) as [|[]]; cbn in Ey; [by injection Ey|done|done].
Defined.
