(* ===== verification/Ownership.v ===== *)
(** Who owns the memory of the server: what [Regions] keeps invariant, together with what
    can be undefined in a state that is reached, and what the two threads can do to each
    other ([rdma-common.c]). *)

From S2P Require Import Prelude Config State Chunks Monitor Regions Serve Evict.

(** * What is defined *)

Lemma destroy_connection_Some s c x :
  session_ok s → aget (conns s) c = Some (Some x) → is_Some (destroy_connection c s).
Proof.
  intros [Hr Hl Ht Hx] Ex. pose proof (aget_lt _ _ _ Ex) as Hc. destruct (Hx c x Ex) as [Hidx Hlen Hown].
  unfold destroy_connection, get_conn. rewrite Ex. step_bind. rewrite Hidx.
  assert (∃ s1, (if 0 <? mapped_chunk_size x then
      m ← for_up 0 MAX_MR_SIZE_GB (λ i m,
        index ← aget (sess_chunk_map x) i;
        if index =? -1 then Some m
        else
          a ← aset (conn_map m) index (-1); k ← aset (conn_chunk_map m) index (-1);
          Some (m <| conn_map := a |> <| conn_chunk_map := k |>)) (rdma_remote s);
      Some (s <| rdma_remote := m <| mapped_size := mapped_size m - mapped_chunk_size x |> |>)
    else Some s) = Some s1 ∧ conns s1 = conns s ∧ conns_state s1 = conns_state s) as (s1 & -> & Ec & Es).
  { destruct (0 <? mapped_chunk_size x); [|by exists s].
    match goal with |- context [for_up 0 MAX_MR_SIZE_GB ?body ?m0] => destruct (for_up_inv
      (λ _ m, alen (conn_map m) = 32 ∧ alen (conn_chunk_map m) = 32) body 0 MAX_MR_SIZE_GB m0) as (m & -> & _) end;
      [done|by destruct Hr| |by eexists].
    intros i m Hi [L1 L2]. unfold MAX_MR_SIZE_GB in Hi. destruct (proj2 (aget_is_Some (sess_chunk_map x) i)) as [k Ek]; [lia|].
    rewrite Ek. step_bind. destruct (Z.eqb_spec k (-1)); [by eexists|]. destruct (Hown i k Ek) as [->|[-> _]]; [done|].
    rewrite !aset_Some by lia. step_bind. eexists. split; [done|]. cbn. by rewrite !alen_insert. }
  step_bind. rewrite Ec, Es, !aset_Some by lia. step_bind. by eexists.
Qed.

Lemma expand_Some g m : regions_ok m → is_Some (Monitor.expand g m).
Proof.
  intros Hr. unfold Monitor.expand.
  match goal with |- context [for_brk 0 MAX_FREE_MEM_GB ?body ?s0] => destruct (for_brk_inv
    (λ _ st, regions_ok st.2) (λ _ _, True) body 0 MAX_FREE_MEM_GB s0) as (k & [j m'] & -> & _) end; [done|done| |by eexists].
  intros i [j t] Hi Ht. cbn in Ht. unfold MAX_FREE_MEM_GB in Hi. pose proof Ht as [L1 _ _ L4 _ _ _].
  destruct (proj2 (aget_is_Some (malloc_map t) i)) as [a Ea]; [lia|]. rewrite Ea. step_bind.
  destruct (a =? CHUNK_EMPTY); [|by eexists].
  assert (alloc_region t i = Some (t <| region_live := <[Z.to_nat i := true]> (region_live t) |>
    <| malloc_map := <[Z.to_nat i := CHUNK_MALLOCED]> (malloc_map t) |>)) as E by (unfold alloc_region; by rewrite !aset_Some by lia).
  destruct (alloc_region_ok t i _ Ht E) as [Hok _]. rewrite E. step_bind. eexists. split; [done|]. by destruct (_ =? _).
Qed.

Lemma send_single_mr_Some mr c n s x :
  session_ok s → get_conn s c = Some x → connected x = true → info_ok (send_msg x) → is_Some (send_single_mr mr c n s).
Proof.
  intros Hs Ex Hc Hm. destruct (decide (Forall (λ i, is_free (rdma_remote s) i = Some false) (seqZ 0 MAX_FREE_MEM_GB))) as [Hno|Hyes].
  - destruct (send_single_mr_exhausted mr c n s x) as (s' & m & -> & _); [done..| |by eexists].
    intros i Hi. rewrite Forall_forall in Hno. by apply Hno, elem_of_seqZ.
  - assert (∀ i, 0 <= i < MAX_FREE_MEM_GB → ∃ b, is_free (rdma_remote s) i = Some b) as Hb.
    { intros i Hi. rewrite is_free_dec by (apply Hs || done). by eexists. }
    assert (∃ i, first_free (rdma_remote s) i) as [i Hi].
    { destruct (for_brk_search (λ i, default false (is_free (rdma_remote s) i))
        (λ i (t : ()), Some (if default false (is_free (rdma_remote s) i) then Stop t else Next t)) 0 MAX_FREE_MEM_GB ())
        as (k & _ & Hk & Hlt & Hat); [done|done|].
      destruct (decide (k < MAX_FREE_MEM_GB)) as [Hk'|Hk'].
      - exists k. split; [lia|]. split.
        + destruct (Hb k) as [b Eb]; [lia|]. specialize (Hat Hk'). rewrite Eb in Hat |- *. by rewrite <- Hat.
        + intros j Hj. destruct (Hb j) as [b Eb]; [lia|]. specialize (Hlt j Hj). rewrite Eb in Hlt |- *. by rewrite <- Hlt.
      - exfalso. apply Hyes, Forall_forall. intros j Hj%elem_of_seqZ. destruct (Hb j) as [b Eb]; [lia|].
        specialize (Hlt j ltac:(lia)). rewrite Eb in Hlt |- *. by rewrite <- Hlt. }
    destruct (send_single_mr_correct mr c n s x i) as (s' & m & -> & _); [done..|by eexists].
Qed.

(** A chunk that the client does not have is not there to be taken back. *)
Lemma take_back_unlisted c i s x :
  get_conn s c = Some x → aget (sess_chunk_map x) i = Some (-1) → take_back c i s = None.
Proof.
  intros Ex Ei. unfold take_back. rewrite Ex. step_bind. rewrite Ei. step_bind.
  destruct (aset (sess_chunk_map x) i (-1)) as [k|]; [|done]. step_bind.
  destruct (set_conn s c _) as [s'|] eqn:E; [|done]. step_bind. by rewrite (proj2 (aget_None _ (-1))) by lia.
Qed.

(** Connection [c] lists every chunk that the message gives a key for. *)
Definition all_listed (x : connection) : Prop :=
  ∀ j, 0 <= j < 32 → given (recv_msg x) j = true → aget (sess_chunk_map x) j ≠ Some (-1).

Lemma take_back_listed c i s s' x :
  get_conn s c = Some x → take_back c i s = Some s' →
  ∃ y, get_conn s' c = Some y ∧ ∀ j, j ≠ i → aget (sess_chunk_map y) j = aget (sess_chunk_map x) j.
Proof.
  intros Ex E. unfold take_back in E. rewrite Ex in E. cbn [mbind option_bind] in E.
  apply bind_Some in E as (index & Ei & E). apply bind_Some in E as (k & Ek & E).
  apply bind_Some in E as (t1 & (l & El & ->)%set_conn_inv & E).
  do 7 apply bind_Some in E as (? & _ & E). injection E as <-.
  eexists. unfold get_conn. cbn. rewrite (aget_aset_eq _ _ _ _ El). split; [done|]. cbn.
  intros j Hj. by rewrite (aget_aset_ne _ _ _ _ _ Ek) by done.
Qed.

Lemma recv_done_defined c s x :
  session_ok s → get_conn s c = Some x → info_ok (recv_msg x) → (is_Some (recv_done c s) ↔ all_listed x).
Proof.
  intros Hs Ex Hm. split.
  - intros [s' E]. unfold recv_done in E. rewrite Ex in E. cbn [mbind option_bind] in E. apply bind_Some in E as (t & E & _).
    eapply (for_up_partial (λ i t, (∃ y, get_conn t c = Some y ∧ ∀ j, i <= j → aget (sess_chunk_map y) j = aget (sess_chunk_map x) j) ∧
      ∀ j, 0 <= j < i → given (recv_msg x) j = true → aget (sess_chunk_map x) j ≠ Some (-1))) in E; [by destruct E|done| |].
    + split; [by exists x|lia].
    + clear E t. intros i t t' Hi [(y & Ey & Hy) Hj] E. apply bind_Some in E as (k & Ek & E).
      assert (given (recv_msg x) i = truthy k) as Hg by (unfold given; by rewrite Ek). destruct (truthy k).
      * destruct (take_back_listed c i t t' y Ey E) as (z & Ez & Hz). split.
        { exists z. split; [done|]. intros j Hij. rewrite Hz by lia. apply Hy. lia. }
        intros j Hij. destruct (decide (j = i)) as [->|]; [|apply Hj; lia]. intros _ Hno.
        rewrite <- Hy in Hno by lia. by rewrite (take_back_unlisted c i t y Ey Hno) in E.
      * injection E as <-. split; [exists y; split; [done|intros j Hij; apply Hy; lia]|].
        intros j Hij Hgj. destruct (decide (j = i)) as [->|]; [congruence|apply Hj; [lia|done]].
  - intros Hall. destruct (recv_done_correct c s x) as (s' & -> & _); [done..| |by eexists].
    intros j Hj Hg. destruct (so_conn _ Hs c x (get_conn_inv _ _ _ Ex)) as [_ Hlen Hown].
    destruct (proj2 (aget_is_Some (sess_chunk_map x) j)) as [k Ek]; [lia|]. rewrite Ek. f_equal.
    destruct (Hown j k Ek) as [->|[-> _]]; [by destruct (Hall j Hj Hg)|done].
Qed.

(** * Ownership *)

(** C15: who owns the server's memory.  The handlers of the connection manager, of completions
    and of the memory thread run one at a time, in any order ([mon_step]; between threads
    nothing keeps them apart, [evict_race]); an operation that would leave its arrays or free
    a dead region has no step.  In every state reached from start-up: a region listed by a
    connection is its own slot's, live and registered; and two connections never list the
    same region.  And these operations, which free, add or hand over regions, can take their
    step: closing any connection of the table; freeing the unused regions; adding regions;
    and binding a chunk for a connected client, the arrays of messages having their 32
    entries.  [DONE] can exactly when its client lists every chunk the message names with a
    key: for any other the handler indexes the table of registrations with -1. *)
Theorem monitor_safe mr g s0 s :
  rdma_session_init g session0 = Some s0 → star (mon_step mr) s0 s →
  (∀ c x i k, aget (conns s) c = Some (Some x) → aget (sess_chunk_map x) i = Some k → k ≠ -1 →
     k = i ∧ aget (conn_map (rdma_remote s)) i = Some c ∧ aget (region_live (rdma_remote s)) i = Some true ∧
     ∃ r, aget (mr_list (rdma_remote s)) i = Some (Some r)) ∧
  (∀ c d x y i k, aget (conns s) c = Some (Some x) → aget (conns s) d = Some (Some y) →
     aget (sess_chunk_map x) i = Some k → aget (sess_chunk_map y) i = Some k → k ≠ -1 → c = d) ∧
  (∀ c x, aget (conns s) c = Some (Some x) → is_Some (destroy_connection c s)) ∧
  (∀ stop_g, 0 < stop_g → is_Some (evict_unmapped stop_g (rdma_remote s))) ∧
  (∀ n, is_Some (Monitor.expand n (rdma_remote s))) ∧
  (∀ c x n, aget (conns s) c = Some (Some x) → connected x = true → info_ok (send_msg x) → is_Some (send_single_mr mr c n s)) ∧
  (∀ c x, aget (conns s) c = Some (Some x) → info_ok (recv_msg x) → (is_Some (recv_done c s) ↔ all_listed x)).
Proof.
  intros E Hstar. rewrite rdma_session_init_started in E. injection E as <-.
  assert (session_ok s) as Hs.
  { apply (star_inv (mon_step mr) session_ok _ _ (mon_step_ok mr) Hstar).
    apply started_ok, initial_size_range. }
  pose proof Hs as [Hr Hl Hst Hx]. assert (∀ c x i k, aget (conns s) c = Some (Some x) → aget (sess_chunk_map x) i = Some k → k ≠ -1 →
     k = i ∧ aget (conn_map (rdma_remote s)) i = Some c) as Hown.
  { intros c x i k Ec Ek Hk. destruct (co_own _ _ _ (Hx c x Ec) i k Ek) as [|[]]; done. }
  assert (∀ c x, aget (conns s) c = Some (Some x) → get_conn s c = Some x) as Hget by (intros c x Ex; unfold get_conn; by rewrite Ex).
  split_and!.
  - intros c x i k Ec Ek Hk. destruct (Hown c x i k Ec Ek Hk) as [-> Eo].
    destruct (rk_used _ Hr i c Eo) as (? & ? & ?); [|done]. pose proof (aget_lt _ _ _ Ec). lia.
  - intros c d x y i k Ec Ed Ek Ek' Hk. destruct (Hown c x i k Ec Ek Hk) as [-> Eo].
    destruct (Hown d y i i Ed Ek' Hk) as [_ Eo']. congruence.
  - intros c x. by apply destroy_connection_Some.
  - intros n Hn. destruct (evict_unmapped_correct n (rdma_remote s) Hr Hn) as (k & m' & -> & _). by eexists.
  - intros n. by apply expand_Some.
  - intros c x n Ex. apply (send_single_mr_Some mr c n s x Hs), Hget, Ex.
  - intros c x Ex. apply recv_done_defined; [done|by apply Hget].
Qed.

(** * The memory thread and the completion thread

    [evict_mem] finds region [i] unused and frees it; nothing is locked in between, and the
    completion thread can give the region to a client there.  The client then lists, and has
    the key of, memory that is freed: the first part of [monitor_safe] is lost. *)
Theorem evict_race mr c n s x i :
  session_ok s → get_conn s c = Some x → connected x = true → info_ok (send_msg x) → first_free (rdma_remote s) i →
  is_free (rdma_remote s) i = Some true ∧
  ∃ s' m msg, send_single_mr mr c n s = Some s' ∧ free_region (rdma_remote s') i = Some m ∧
    sent s' = sent s ++ [(c, msg)] ∧ aget (ri_rkey msg) i = Some (ntohl (mr i).2) ∧
    (∃ x', get_conn s' c = Some x' ∧ aget (sess_chunk_map x') i = Some i) ∧ aget (region_live m) i = Some false.
Proof.
  intros Hs Ex Hc Hm Hf. pose proof Hf as (Hi & Hfree & _). split; [done|].
  destruct (send_single_mr_correct mr c n s x i) as (s' & msg & E & Hok & [B1 _ _ _ _ B2 _ _ B3 _ _ B4]); [done..|].
  destruct (is_free_spec _ _ _ Hfree (so_regions _ Hs) eq_refl) as [Hlive _].
  pose proof (aget_lt _ _ _ Hlive). exists s'. unfold free_region. rewrite B4, Hlive. step_bind. rewrite aset_Some by lia. step_bind.
  eexists _, msg. split_and!; [done|done|done| |done|].
  - rewrite B2 by (unfold MAX_FREE_MEM_GB in Hi; lia). by rewrite decide_True.
  - cbn. by rewrite aget_insert, decide_True by lia.
Qed.

Lemma evict_race_witness :
  is_free (rdma_remote ready_session) 0 = Some true ∧
  ∃ s' m msg, send_single_mr test_mr 0 5 ready_session = Some s' ∧ free_region (rdma_remote s') 0 = Some m ∧
    sent s' = sent ready_session ++ [(0, msg)] ∧ aget (ri_rkey msg) 0 = Some (ntohl 0x10) ∧
    (∃ x', get_conn s' 0 = Some x' ∧ aget (sess_chunk_map x') 0 = Some 0) ∧ aget (region_live m) 0 = Some false.
Proof.
  destruct ready_conn as (x & Ex & Hc & Hm).
  apply (evict_race test_mr 0 5 ready_session x 0); [exact ready_session_ok|exact Ex|exact Hc|exact Hm|].
  split; [unfold MAX_FREE_MEM_GB; lia|]. split; [vm_compute; reflexivity|lia].
Defined.

(** * A client with one region *)

Lemma monitor_safe_witness :
  (aget (conn_map (rdma_remote bound_session)) 0 = Some 0) ∧
  (∀ c x i k, aget (conns bound_session) c = Some (Some x) → aget (sess_chunk_map x) i = Some k → k ≠ -1 →
     k = i ∧ aget (conn_map (rdma_remote bound_session)) i = Some c ∧
     aget (region_live (rdma_remote bound_session)) i = Some true ∧
     ∃ r, aget (mr_list (rdma_remote bound_session)) i = Some (Some r)) ∧
  is_Some (destroy_connection 0 bound_session) ∧ recv_done 0 bound_session ≠ None ∧
  is_Some (evict_unmapped 3 (rdma_remote bound_session)) ∧ is_Some (Monitor.expand 2 (rdma_remote bound_session)) ∧
  is_Some (send_single_mr test_mr 0 7 bound_session).
Proof.
  destruct (monitor_safe test_mr 11 (started 1) bound_session (rdma_session_init_started 11) bound_session_reach)
    as (H1 & _ & H3 & H4 & H5 & H6 & H7).
  destruct (aget (conns bound_session) 0) as [[x|]|] eqn:Ex; [|vm_compute in Ex; discriminate Ex..].
  assert (recv_msg x = bind_msg ∧ connected x = true ∧ info_ok (send_msg x)) as (Hm & Hc & Hi).
  { vm_compute in Ex. injection Ex as <-. split; [reflexivity|]. split; [reflexivity|]. by split. }
  split; [vm_compute; reflexivity|]. split; [exact H1|]. split; [exact (H3 0 x Ex)|]. split.
  - destruct (proj2 (H7 0 x Ex ltac:(rewrite Hm; by split))) as [s ->]; [|done].
    intros j Hj. rewrite Hm. unfold given. cbn [ri_rkey bind_msg]. by rewrite (aget_replicate 32) by lia.
  - split; [apply H4; lia|]. split; [apply H5|]. by apply (H6 0 x 7).
Defined.
