(* ===== verification/Pressure.v ===== *)
(** The memory thread of the monitor ([free_mem] of [rdma-common.c]) round by round: the
    filter of the free memory, which computes in [float] and [double], and what the policy
    makes of a series of readings. *)

From Stdlib Require Import Floats.SpecFloat.
From S2P Require Import Prelude Config State Monitor Regions Evict.

(** * C floating point *)

(** A [double] has 53 bits of precision, a [float] 24; both round to nearest even.  An
    [int] is exact in the first, and rounded in the second. *)
Definition double_of_int (z : Z) : spec_float := binary_normalize 53 1024 z 0 false.
Definition float_of_int (z : Z) : spec_float := binary_normalize 24 128 z 0 false.
Definition float_of_double (x : spec_float) : spec_float :=
  match x with S754_finite s m e => binary_normalize 24 128 (cond_Zopp s (Zpos m)) e s | _ => x end.
Definition double_mul : spec_float → spec_float → spec_float := SFmul 53 1024.
Definition double_add : spec_float → spec_float → spec_float := SFadd 53 1024.
Definition double_sub : spec_float → spec_float → spec_float := SFsub 53 1024.
Definition float_mul : spec_float → spec_float → spec_float := SFmul 24 128.

(** The conversion to [int] drops the fraction; what does not fit has no value. *)
Definition int_of_double (x : spec_float) : option Z :=
  match x with
  | S754_zero _ => Some 0
  | S754_finite s m e =>
      let z := cond_Zopp s (if 0 <=? e then Z.shiftl (Zpos m) e else Z.shiftr (Zpos m) (- e)) in
      if (- 2 ^ 31 <=? z) && (z <? 2 ^ 31) then Some z else None
  | _ => None
  end.

(** * The filter *)

(** [0.7], and [1 - 0.7] in a [float]. *)
Definition CURR_FREE_MEM_WEIGHT : spec_float := SFdiv 53 1024 (double_of_int 7) (double_of_int 10).
Definition last_free_mem_weight : spec_float := float_of_double (double_sub (double_of_int 1) CURR_FREE_MEM_WEIGHT).

(** [(int)(CURR_FREE_MEM_WEIGHT * free_mem_g + last_free_mem_g * last_free_mem_weight)]: the
    first product is a [double], the second a [float]. *)
Definition free_filter (free_mem_g last_free_mem_g : Z) : option Z :=
  int_of_double (double_add (double_mul CURR_FREE_MEM_WEIGHT (double_of_int free_mem_g))
                            (float_mul (float_of_int last_free_mem_g) last_free_mem_weight)).

(** * The thread *)

Definition ONE_MB : Z := 1048576.
(** [(int)(get_free_mem() / ONE_MB)] of the line read. *)
Definition free_mem_g (result : list byte) : Z := i32 (Z.quot (get_free_mem result) ONE_MB).

(** The state before the loop. *)
Definition free_mem_start (result : list byte) : policy :=
  {| last_free_mem_g := free_mem_g result; evict_hit_count := 0; expand_hit_count := 0 |}.

(** One turn of the loop, up to what it does to the regions ([evict_mem], [Monitor.expand]). *)
Definition free_mem_round (free size_gb : Z) (p : policy) : option (action * policy) :=
  filtered ← free_filter free (last_free_mem_g p); Some (policy_step filtered size_gb p).

(** Turn after turn, with the free memory and the size on offer that each one finds. *)
Fixpoint free_mem (turns : list (Z * Z)) (p : policy) : option (list action * policy) :=
  match turns with
  | [] => Some ([], p)
  | (free, size_gb) :: turns =>
      '(a, p) ← free_mem_round free size_gb p; '(acts, p) ← free_mem turns p; Some (a :: acts, p)
  end.

(** * The filter computes a weighted mean *)

(** On a host with less than 64 GB free, the roundings do not show. *)
Definition filter_agrees (n : nat) : bool :=
  forallb (λ a, forallb (λ b,
    match free_filter (Z.of_nat a) (Z.of_nat b) with Some z => z =? (7 * Z.of_nat a + 3 * Z.of_nat b) / 10 | None => false end)
    (seq 0 n)) (seq 0 n).

Lemma filter_agrees_mean n free last :
  filter_agrees n = true → 0 <= free < Z.of_nat n → 0 <= last < Z.of_nat n →
  free_filter free last = Some ((7 * free + 3 * last) / 10).
Proof.
  unfold filter_agrees. rewrite forallb_forall. intros H Hf Hl.
  specialize (H (Z.to_nat free) ltac:(apply in_seq; lia)). rewrite forallb_forall in H.
  specialize (H (Z.to_nat last) ltac:(apply in_seq; lia)). rewrite !Z2Nat.id in H by lia.
  destruct (free_filter free last); [|done]. by apply Z.eqb_eq in H as ->.
Qed.

Lemma filter_agrees_64 : filter_agrees 64 = true.
Proof. vm_compute. reflexivity. Qed.

Lemma free_filter_mean free last :
  0 <= free < 64 → 0 <= last < 64 → free_filter free last = Some ((7 * free + 3 * last) / 10).
Proof. intros. by apply (filter_agrees_mean 64 free last filter_agrees_64). Qed.

(** * The policy answers the readings *)

(** Where the thread's state stays. *)
Record steady (p : policy) : Prop := {
  sy_last : 0 <= last_free_mem_g p < 64;
  sy_evict : evict_hit_count p = 0;
  sy_expand : 0 <= expand_hit_count p < MEM_EXPAND_HIT_THRESHOLD
}.
Definition turn_ok (t : Z * Z) : Prop := 0 <= t.1 < 64 ∧ 0 <= t.2 <= MAX_FREE_MEM_GB.
(** What the filter gives. *)
Definition filtered (free : Z) (p : policy) : Z := (7 * free + 3 * last_free_mem_g p) / 10.

Lemma round_step free size p :
  turn_ok (free, size) → steady p →
  ∃ a p1, free_mem_round free size p = Some (a, p1) ∧ policy_step (filtered free p) size p = (a, p1) ∧ steady p1.
Proof.
  intros [Hf Hs] [Hl He Hx]. cbn in Hf, Hs. unfold free_mem_round. rewrite free_filter_mean by done. cbn.
  fold (filtered free p). pose proof (policy_step_correct (filtered free p) size p Hs He Hx) as Ha.
  assert (0 <= filtered free p < 64) as Hr by (unfold filtered; split; [apply Z.div_pos; lia|apply Z.div_lt_upper_bound; lia]).
  destruct (policy_step (filtered free p) size p) as [a p1]. destruct Ha as (H1 & H2 & Ha).
  exists a, p1. split_and!; [done..|]. split; [|done..].
  unfold FREE_MEM_EVICT_THRESHOLD, FREE_MEM_EXPAND_THRESHOLD in Ha. destruct a as [|g|g]; lia.
Qed.

Lemma free_mem_total turns p : Forall turn_ok turns → steady p → ∃ acts p', free_mem turns p = Some (acts, p').
Proof.
  intros Ht. revert p. induction Ht as [|[free size] turns Ht _ IH]; intros p Hp; [by eexists _, _|].
  destruct (round_step free size p Ht Hp) as (a & p1 & E & _ & Hp1). destruct (IH p1 Hp1) as (acts & p' & E').
  exists (a :: acts), p'. cbn [free_mem]. rewrite E. cbn. by rewrite E'.
Qed.

Lemma turn_step free size turns p acts p' :
  turn_ok (free, size) → steady p → free_mem ((free, size) :: turns) p = Some (acts, p') →
  ∃ a acts' p1, policy_step (filtered free p) size p = (a, p1) ∧ steady p1 ∧ free_mem turns p1 = Some (acts', p') ∧ acts = a :: acts'.
Proof.
  intros Ht Hp E. destruct (round_step free size p Ht Hp) as (a & p1 & E1 & Hstep & Hp1).
  cbn [free_mem] in E. rewrite E1 in E. cbn in E. apply bind_Some in E as ([acts' p2] & E & [= <- <-]). by exists a, acts', p1.
Qed.

(** ** Shortage *)

(** What one turn does to the last free memory, and when it acts. *)
Lemma shortage_turn free size p a p1 :
  free < FREE_MEM_EVICT_THRESHOLD → 0 < size <= MAX_FREE_MEM_GB → steady p → policy_step (filtered free p) size p = (a, p1) →
  (∃ g, a = Evict g) ∨ 12 < last_free_mem_g p ∧ 10 * last_free_mem_g p1 <= 63 + 3 * last_free_mem_g p.
Proof.
  intros Hf Hs [Hl He Hx]. unfold filtered. set (f := (7 * free + 3 * last_free_mem_g p) / 10).
  pose proof (Z.div_mod (7 * free + 3 * last_free_mem_g p) 10 ltac:(lia)) as Hd. fold f in Hd.
  pose proof (Z.mod_pos_bound (7 * free + 3 * last_free_mem_g p) 10 ltac:(lia)).
  unfold policy_step, FREE_MEM_EVICT_THRESHOLD, FREE_MEM_EXPAND_THRESHOLD, MEM_EVICT_HIT_THRESHOLD, MAX_FREE_MEM_GB in *. rewrite He.
  destruct (Z.ltb_spec f 10).
  - intros E. left. change (1 <=? 0 + 1) with true in E. cbv iota zeta in E.
    destruct (Z.ltb_spec size (10 - f)); [destruct (Z.ltb_spec 0 size)|destruct (Z.ltb_spec 0 (10 - f))];
      injection E as <- _; (lia || by eexists).
  - intros E. right. destruct (20 <? f) eqn:Ef; [destruct (MEM_EXPAND_HIT_THRESHOLD <=? expand_hit_count p + 1)|];
      injection E as _ <-; cbn; [|lia..]. apply Z.ltb_lt in Ef. destruct (Z.ltb_spec 32 (f - 20 + size)); lia.
Qed.

Definition short (t : Z * Z) : Prop := t.1 < FREE_MEM_EVICT_THRESHOLD ∧ 0 < t.2.

(** [n] turns of shortage are enough when the last free memory is at most [l]. *)
Definition evicts_within (n : nat) (l : Z) : Prop := ∀ turns p acts p',
  Forall turn_ok turns → Forall short turns → (n <= length turns)%nat → steady p → last_free_mem_g p <= l →
  free_mem turns p = Some (acts, p') → ∃ g, Evict g ∈ acts.

Lemma evicts_later n l l' : evicts_within n l → 63 + 3 * l' < 10 * (l + 1) → evicts_within (S n) l'.
Proof.
  intros IH Hl turns p acts p' Hok Hsh Hlen Hp Hle E. destruct turns as [|[free size] turns]; [cbn in Hlen; lia|].
  apply Forall_cons in Hok as [Ht Hok], Hsh as [[Hf Hs] Hsh]. cbn in Hf, Hs. pose proof (proj2 Ht) as Hm. cbn in Hm.
  destruct (turn_step _ _ _ _ _ _ Ht Hp E) as (a & acts' & p1 & Hstep & Hp1 & E' & ->).
  destruct (shortage_turn free size p a p1 Hf ltac:(lia) Hp Hstep) as [[g ->]|[_ Hlast]]; [exists g; by left|].
  destruct (IH turns p1 acts' p') as [g Hg]; [done..|cbn in Hlen; lia|done|lia|done|]. exists g. by right.
Qed.

Lemma evicts_within_12 : evicts_within 1 12.
Proof.
  intros turns p acts p' Hok Hsh Hlen Hp Hle E. destruct turns as [|[free size] turns]; [cbn in Hlen; lia|].
  apply Forall_cons in Hok as [Ht Hok], Hsh as [[Hf Hs] Hsh]. cbn in Hf, Hs. pose proof (proj2 Ht) as Hm. cbn in Hm.
  destruct (turn_step _ _ _ _ _ _ Ht Hp E) as (a & acts' & p1 & Hstep & Hp1 & E' & ->).
  destruct (shortage_turn free size p a p1 Hf ltac:(lia) Hp Hstep) as [[g ->]|[Hlast _]]; [exists g; by left|lia].
Qed.

Lemma evicts_within_64 : evicts_within 4 63.
Proof.
  apply (evicts_later 3 54); [|lia]. apply (evicts_later 2 22); [|lia]. apply (evicts_later 1 12); [|lia].
  exact evicts_within_12.
Qed.

(** ** Plenty *)

Lemma plenty_turn free size p a p1 :
  FREE_MEM_EXPAND_THRESHOLD + 1 < free → steady p → policy_step (filtered free p) size p = (a, p1) →
  (∃ g, a = Expand g) ∨
  154 + 3 * last_free_mem_g p < 10 * (last_free_mem_g p1 + 1) ∧
  (19 <= last_free_mem_g p → expand_hit_count p1 = expand_hit_count p + 1).
Proof.
  intros Hf [Hl He Hx]. unfold filtered. set (f := (7 * free + 3 * last_free_mem_g p) / 10).
  pose proof (Z.div_mod (7 * free + 3 * last_free_mem_g p) 10 ltac:(lia)) as Hd. fold f in Hd.
  pose proof (Z.mod_pos_bound (7 * free + 3 * last_free_mem_g p) 10 ltac:(lia)).
  unfold policy_step, FREE_MEM_EVICT_THRESHOLD, FREE_MEM_EXPAND_THRESHOLD in *.
  destruct (Z.ltb_spec f 10); [lia|]. destruct (Z.ltb_spec 20 f); intros E.
  - destruct (MEM_EXPAND_HIT_THRESHOLD <=? expand_hit_count p + 1); injection E as <- <-; [left; by eexists|right; cbn; lia].
  - injection E as <- <-. right. cbn. lia.
Qed.

Definition plenty (t : Z * Z) : Prop := FREE_MEM_EXPAND_THRESHOLD + 1 < t.1.
Definition expands_within (n : nat) (l : Z) : Prop := ∀ turns p acts p',
  Forall turn_ok turns → Forall plenty turns → (n <= length turns)%nat → steady p → l <= last_free_mem_g p →
  free_mem turns p = Some (acts, p') → ∃ g, Expand g ∈ acts.

Lemma expands_later n l l' : expands_within n l → 10 * l <= 154 + 3 * l' → expands_within (S n) l'.
Proof.
  intros IH Hl turns p acts p' Hok Hpl Hlen Hp Hle E. destruct turns as [|[free size] turns]; [cbn in Hlen; lia|].
  apply Forall_cons in Hok as [Ht Hok], Hpl as [Hf Hpl].
  destruct (turn_step _ _ _ _ _ _ Ht Hp E) as (a & acts' & p1 & Hstep & Hp1 & E' & ->).
  destruct (plenty_turn free size p a p1 Hf Hp Hstep) as [[g ->]|[Hlast _]]; [exists g; by left|].
  destruct (IH turns p1 acts' p') as [g Hg]; [done..|cbn in Hlen; lia|done|lia|done|]. exists g. by right.
Qed.

Lemma expands_counted n turns p acts p' :
  Forall turn_ok turns → Forall plenty turns → (n <= length turns)%nat → steady p → 19 <= last_free_mem_g p →
  MEM_EXPAND_HIT_THRESHOLD - expand_hit_count p <= Z.of_nat n →
  free_mem turns p = Some (acts, p') → ∃ g, Expand g ∈ acts.
Proof.
  revert turns p acts. induction n as [|n IH]; intros turns p acts Hok Hpl Hlen Hp Hle Hn E; [destruct (sy_expand _ Hp); lia|].
  destruct turns as [|[free size] turns]; [cbn in Hlen; lia|].
  apply Forall_cons in Hok as [Ht Hok], Hpl as [Hf Hpl].
  destruct (turn_step _ _ _ _ _ _ Ht Hp E) as (a & acts' & p1 & Hstep & Hp1 & E' & ->).
  destruct (plenty_turn free size p a p1 Hf Hp Hstep) as [[g ->]|[Hlast Hhit]]; [exists g; by left|].
  destruct (IH turns p1 acts') as [g Hg]; [done..|cbn in Hlen; lia|done|lia|rewrite Hhit by done; lia|done|]. exists g. by right.
Qed.

Lemma expands_within_0 : expands_within 22 0.
Proof.
  apply (expands_later 21 15); [|lia]. apply (expands_later 20 19); [|lia].
  intros turns p acts p' Hok Hpl Hlen Hp Hle E. destruct (sy_expand _ Hp). apply (expands_counted 20 turns p acts p'); try done.
  change MEM_EXPAND_HIT_THRESHOLD with 20. lia.
Qed.

(** ** Neither *)

Lemma modest_no_expand turns p acts p' :
  Forall turn_ok turns → Forall (λ t, t.1 <= FREE_MEM_EXPAND_THRESHOLD + 1) turns → steady p →
  last_free_mem_g p <= FREE_MEM_EXPAND_THRESHOLD → free_mem turns p = Some (acts, p') → ∀ g, Expand g ∉ acts.
Proof.
  revert p acts. induction turns as [|[free size] turns IH]; intros p acts Hok Hle Hp Hl E g.
  { injection E as <- _. apply not_elem_of_nil. }
  apply Forall_cons in Hok as [Ht Hok], Hle as [Hf Hle]. cbn in Hf. pose proof (proj2 Ht) as Hm. cbn in Hm.
  destruct (turn_step _ _ _ _ _ _ Ht Hp E) as (a & acts' & p1 & Hstep & Hp1 & E' & ->).
  pose proof (policy_step_correct (filtered free p) size p Hm (sy_evict _ Hp) (sy_expand _ Hp)) as Hs. rewrite Hstep in Hs.
  assert (filtered free p <= FREE_MEM_EXPAND_THRESHOLD) as Hfl.
  { unfold filtered, FREE_MEM_EXPAND_THRESHOLD in *. apply Z.lt_succ_r, Z.div_lt_upper_bound; lia. }
  destruct Hs as (_ & _ & Ha). unfold FREE_MEM_EVICT_THRESHOLD, FREE_MEM_EXPAND_THRESHOLD in *.
  apply not_elem_of_cons. split; [destruct a; (done || lia)|]. apply (IH p1); try done. destruct a; lia.
Qed.

(** C40: The memory thread answers what it reads, on a host with less than 64 GB: however the
    readings vary, its turns all have a result; of four turns or more that all read less
    than the low threshold while something is on offer, one evicts; of 22 or more that all
    read at least 22 GB, one expands.  But the filter drops the fraction: as long as the
    free memory is never more than 21 GB, which is above the high threshold, a thread that
    started at no more than 20 never expands. *)
Theorem pressure_answered turns p :
  Forall turn_ok turns → steady p →
  ∃ acts p', free_mem turns p = Some (acts, p') ∧
    ((4 <= length turns)%nat → Forall short turns → ∃ g, Evict g ∈ acts) ∧
    ((22 <= length turns)%nat → Forall plenty turns → ∃ g, Expand g ∈ acts) ∧
    (Forall (λ t, t.1 <= FREE_MEM_EXPAND_THRESHOLD + 1) turns → last_free_mem_g p <= FREE_MEM_EXPAND_THRESHOLD →
     ∀ g, Expand g ∉ acts).
Proof.
  intros Hok Hp. destruct (free_mem_total turns p Hok Hp) as (acts & p' & E). exists acts, p'. destruct (sy_last _ Hp).
  split_and!; [exact E|..].
  - intros Hlen Hs. by apply (evicts_within_64 turns p acts p'); (done || lia).
  - intros Hlen Hs. by apply (expands_within_0 turns p acts p').
  - intros Hle Hl. by eapply modest_no_expand.
Qed.

(** The free memory falls from 13 to 9 GB. *)
Lemma pressure_answered_witness :
  ∃ acts p', free_mem [(9, 8); (9, 8); (9, 8); (9, 8)] {| last_free_mem_g := 13; evict_hit_count := 0; expand_hit_count := 3 |} = Some (acts, p') ∧
    ∃ g, Evict g ∈ acts.
Proof.
  destruct (pressure_answered [(9, 8); (9, 8); (9, 8); (9, 8)] {| last_free_mem_g := 13; evict_hit_count := 0; expand_hit_count := 3 |})
    as (acts & p' & E & Hshort & _).
  - unfold turn_ok, MAX_FREE_MEM_GB. repeat constructor; cbn; lia.
  - split; cbn; unfold MEM_EXPAND_HIT_THRESHOLD; lia.
  - exists acts, p'. split; [exact E|]. apply Hshort; [cbn; lia|]. unfold short, FREE_MEM_EVICT_THRESHOLD. repeat constructor; cbn; lia.
Defined.
