(* ===== verification/Flow.v ===== *)
(** Flow control on the server ([Monitor]): one receive is posted for each client, so a
    message is never overwritten before it has been handled; and the memory thread, which
    ends with the last client and is never started again. *)

From S2P Require Import Prelude Config State Monitor Regions.

(** * What the operations on regions leave alone *)

(** Connections through a view, and whether the memory thread goes on. *)
Definition oview {T} (V : connection → T) (s : rdma_session) : list (option T) * bool :=
  (fmap (M := option) V <$> conns s, running s).

(** A view that does not see the regions of a connection either. *)
Class Apart {T} (V : connection → T) : Prop := {
  apart_quiet :: Quiet V;
  apart_map x l : V (x <| sess_chunk_map := l |>) = V x
}.

Section apart.
Context {T} (V : connection → T) `{!Apart V}.

Lemma sview_oview s s' : sview V s' = sview V s → oview V s' = oview V s.
Proof. unfold sview, oview. intros [[_ H1]%pair_equal_spec [_ H2]%pair_equal_spec]%pair_equal_spec. by f_equal. Qed.

Lemma set_conn_oview s s0 c x y s' :
  oview V s0 = oview V s → get_conn s0 c = Some x → V y = V x → set_conn s0 c y = Some s' → oview V s' = oview V s.
Proof. intros <- Ex Ev E. by eapply sview_oview, set_conn_view. Qed.

Lemma upd_conn_oview c f s s' : (∀ x, V (f x) = V x) → upd_conn c f s = Some s' → oview V s' = oview V s.
Proof. intros Hf E. by eapply sview_oview, upd_conn_view. Qed.

Lemma serve_chunk_oview mr c i s s' : serve_chunk mr c i s = Some s' → oview V s' = oview V s.
Proof.
  unfold serve_chunk. intros (x & Ex & E)%bind_Some. do 5 apply bind_Some in E as (? & _ & E).
  eapply set_conn_oview; [| | |exact E]; [done|exact Ex|]. by rewrite quiet_send, apart_map.
Qed.

Lemma send_single_mr_oview mr c n s s' : send_single_mr mr c n s = Some s' → oview V s' = oview V s.
Proof.
  unfold send_single_mr. intros (s1 & E1%(start_bind_view V)%sview_oview & E)%bind_Some.
  apply bind_Some in E as ([k s2] & E2 & E%(finish_bind_view V)%sview_oview). rewrite E, <- E1.
  eapply (for_brk_partial (λ t, oview V t = oview V s1)) in E2; [done|done|]. clear - Apart0. intros i t r _ Ht E.
  apply bind_Some in E as (b & Eb & E). destruct b; [|by injection E as <-].
  apply bind_Some in E as (t' & Et%serve_chunk_oview & [= <-]). congruence.
Qed.

Lemma send_mr_oview mr c n s s' : send_mr mr c n s = Some s' → oview V s' = oview V s.
Proof.
  unfold send_mr. intros (s1 & E1%(start_bind_view V)%sview_oview & E)%bind_Some.
  apply bind_Some in E as ([k [s2 j]] & E2 & E%(finish_bind_view V)%sview_oview). rewrite E, <- E1.
  eapply (for_brk_partial (λ t, oview V t.1 = oview V s1)) in E2; [done|done|]. clear - Apart0. intros i [t j] r _ Ht E.
  apply bind_Some in E as (b & Eb & E). destruct b; [|by injection E as <-].
  apply bind_Some in E as (t' & Et%serve_chunk_oview & [= <-]). cbn in Ht. destruct (_ =? _); cbn [fst]; congruence.
Qed.

Lemma take_back_oview c i s s' : take_back c i s = Some s' → oview V s' = oview V s.
Proof.
  unfold take_back. intros (x & Ex & E)%bind_Some. do 2 apply bind_Some in E as (? & _ & E).
  apply bind_Some in E as (t & Et & E). do 7 apply bind_Some in E as (? & _ & E). injection E as <-.
  change (oview V t = oview V s). eapply set_conn_oview; [| | |exact Et]; [done|exact Ex|apply apart_map].
Qed.

(** All of [recv_done] but the receive it posts at the end. *)
Lemma recv_done_oview c s s' :
  recv_done c s = Some s' → ∃ t, oview V t = oview V s ∧ post_receives c t = Some s'.
Proof.
  unfold recv_done. intros (x & Ex & E)%bind_Some. apply bind_Some in E as (s1 & E1 & E).
  apply bind_Some in E as (s2 & E2 & E). apply bind_Some in E as (y & Ey & E).
  apply bind_Some in E as (s3 & E3 & Ep). exists s3. split; [|done].
  transitivity (oview V s2); [|transitivity (oview V s1)].
  - destruct (mapped_chunk_size y =? 0); [|by injection E3 as <-]. by apply bind_Some in E3 as (? & _ & [= <-]).
  - apply upd_conn_oview in E2; [done|]. intros z. by rewrite quiet_stop, quiet_size.
  - eapply (for_up_keeps (λ t, oview V t = oview V s)) in E1; [done|done|]. clear - Apart0. intros i t t' _ Ht E.
    apply bind_Some in E as (q & _ & E). destruct (truthy q); [|by injection E as <-].
    apply take_back_oview in E. congruence.
Qed.

(** All of the handler of a message: it ends by posting a receive, unless the message
    is an activity answer. *)
Lemma on_completion_oview mr c s s' :
  on_completion mr c RecvOk s = Some (Alive s') →
  ∃ t, oview V t = oview V s ∧
    (post_receives c t = Some s' ∨ upd_conn c (λ x, x <| evict_sem := evict_sem x + 1 |>) t = Some s').
Proof.
  cbn [on_completion]. intros (x & Ex & E)%bind_Some. cbv beta zeta in E.
  assert (∀ t t', upd_conn c (λ x, x <| qp_busy := true |>) t = Some t' → oview V t' = oview V t) as Hbusy.
  { intros t t'. apply upd_conn_oview. intros z. apply quiet_busy. }
  assert (∀ t t', upd_conn c (λ x, x <| srv_state := S_BIND |>) t = Some t' → oview V t' = oview V t) as Hbind.
  { intros t t'. apply upd_conn_oview. intros z. apply quiet_state. }
  assert (∀ t u, (u ← post_receives c t; Some (Alive u)) = Some (Alive u) → post_receives c t = Some u) as Hpost.
  { by intros t u (w & Hv & [= <-])%bind_Some. }
  destruct (ri_type (recv_msg x)); try done; apply bind_Some in E as (b & Eb & E).
  1: { apply bind_Some in E as (t & Et & [= <-]). apply recv_done_oview in Et as (u & Eu & Ep).
       exists u. split; [by rewrite Eu, (Hbusy _ _ Eb)|by left]. }
  1: { injection E as <-. exists s. split; [done|by right]. }
  all: apply Hbusy in Eb.
  - apply bind_Some in E as (t & Et%Hbind & E). apply bind_Some in E as (u & Eu%send_mr_oview & E).
    apply bind_Some in E as (l & El & E). apply Hpost in E. eexists. split; [|left; exact E].
    change (oview V u = oview V s). congruence.
  - apply bind_Some in E as (t & Et%Hbind & E). apply bind_Some in E as (u & Eu%send_single_mr_oview & E).
    apply bind_Some in E as (l & El & E). apply Hpost in E. eexists. split; [|left; exact E].
    change (oview V u = oview V s). congruence.
  - apply bind_Some in E as (t & Et%(send_free_mem_size_view V)%sview_oview & E%Hpost).
    exists t. split; [congruence|by left].
  - apply bind_Some in E as (t & Et%(send_fault_done_view V)%sview_oview & E%Hpost).
    exists t. split; [congruence|by left].
Qed.

Lemma evict_begin_oview rand g s e s' : evict_begin rand g s = Some (e, s') → oview V s' = oview V s.
Proof.
  unfold evict_begin. intros ([[b f] m] & E1 & E)%bind_Some. destruct b; [by injection E as _ <-|].
  apply bind_Some in E as ([l j] & _ & E). apply bind_Some in E as (k & _ & E).
  apply bind_Some in E as (t & Et & [= _ <-]).
  eapply (for_up_keeps (λ t, oview V t = oview V s)) in Et; [done|done|]. clear - Apart0. intros i t t' _ Ht E.
  apply bind_Some in E as (y & _ & E). destruct (y =? 1); [|by injection E as <-].
  apply (send_evict_view V), sview_oview in E. congruence.
Qed.
End apart.

(** * Receives and activity answers *)

Definition fview (x : connection) : Z * Z := (recvs x, evict_sem x).
#[export] Instance fview_apart : Apart fview.
Proof. by repeat constructor. Qed.

(** What flow control sees of a session. *)
Definition flow (s : rdma_session) : list (option (Z * Z)) := fmap (M := option) fview <$> conns s.

(** Every connection either has a receive posted, or an activity answer that waits for the
    memory thread. *)
Definition flow_ok (l : list (option (Z * Z))) : Prop :=
  ∀ c r e, aget l c = Some (Some (r, e)) → 0 <= r ∧ 0 <= e ∧ r + e = 1.

(** [s'] is [s] but for connection [c], whose view goes through [g]. *)
Definition moved (c : Z) (g : Z * Z → Z * Z) (s s' : rdma_session) : Prop :=
  ∃ v, aget (flow s) c = Some (Some v) ∧ aset (flow s) c (Some (g v)) = Some (flow s').

Lemma oview_flow s s' : oview fview s' = oview fview s → flow s' = flow s.
Proof. by intros [? _]%pair_equal_spec. Qed.
Lemma sview_flow s s' : sview fview s' = sview fview s → flow s' = flow s.
Proof. by intros ?%sview_oview%oview_flow. Qed.

Lemma get_conn_flow s c x : get_conn s c = Some x → aget (flow s) c = Some (Some (fview x)).
Proof. intros E%get_conn_inv. unfold flow. by rewrite aget_map, E. Qed.

Lemma aset_map {A B} (f : A → B) (l l' : list A) i x :
  aset l i x = Some l' → aset (f <$> l) i (f x) = Some (f <$> l').
Proof.
  unfold aset. rewrite length_fmap. destruct (_ && _); [|done]. intros [= <-]. by rewrite list_fmap_insert.
Qed.

Lemma set_conn_flow g s c x y s' :
  get_conn s c = Some x → fview y = g (fview x) → set_conn s c y = Some s' → moved c g s s'.
Proof.
  intros Ex Ev (l & El & ->)%set_conn_inv. exists (fview x). split; [by apply get_conn_flow|].
  rewrite <- Ev. by apply (aset_map (fmap fview)) in El.
Qed.

Lemma upd_conn_flow g c f s s' :
  (∀ x, fview (f x) = g (fview x)) → upd_conn c f s = Some s' → moved c g s s'.
Proof. unfold upd_conn. intros Hf (x & Ex & E)%bind_Some. by eapply set_conn_flow; [|apply Hf|]. Qed.

Definition posted (v : Z * Z) : Z * Z := (v.1 + 1, v.2).

Lemma post_receives_flow c s s' : post_receives c s = Some s' → moved c posted s s'.
Proof. by apply upd_conn_flow. Qed.

(** The invariant under a change at [c]. *)
Lemma moved_ok c g s s' :
  moved c g s s' → flow_ok (flow s) →
  (∀ r e, 0 <= r → 0 <= e → r + e = 1 → aget (flow s) c = Some (Some (r, e)) → 
     let v := g (r, e) in 0 <= v.1 ∧ 0 <= v.2 ∧ v.1 + v.2 = 1) →
  flow_ok (flow s').
Proof.
  intros ([r e] & Ev & Es) Hs Hg d r' e'. rewrite (aget_aset _ _ _ _ _ Es). case_decide; [subst|by apply Hs].
  destruct (Hs d r e Ev) as (? & ? & ?). specialize (Hg r e). cbv zeta in Hg.
  destruct (g (r, e)) as [r1 e1]. intros [= <- <-]. by apply Hg.
Qed.

(** A message is handled: the receive is posted again, or the answer is left for the
    memory thread. *)
Definition answered (v : Z * Z) : Z * Z := (v.1, v.2 + 1).

Lemma on_completion_flow mr c s s' :
  on_completion mr c RecvOk s = Some (Alive s') → moved c posted s s' ∨ moved c answered s s'.
Proof.
  intros (t & Et%oview_flow & [E|E])%(on_completion_oview fview); [left|right].
  - apply post_receives_flow in E as (v & E). rewrite Et in E. by exists v.
  - eapply (upd_conn_flow answered) in E as (v & E); [|done]. rewrite Et in E. by exists v.
Qed.

(** ** The steps *)

Lemma deliver_flow c msg s s' : deliver c msg s = Some s' →
  moved c (λ v, (v.1 - 1, v.2)) s s' ∧ ∃ x, get_conn s c = Some x ∧ 0 < recvs x.
Proof.
  unfold deliver. intros (x & Ex & E)%bind_Some. destruct (Z.ltb_spec 0 (recvs x)) as [Hx|]; [|done].
  split; [|by exists x]. by eapply set_conn_flow; [exact Ex| |exact E].
Qed.

(** A message comes in and is handled. *)
Lemma recv_step_flow mr c msg s s1 s' :
  flow_ok (flow s) → deliver c msg s = Some s1 → on_completion mr c RecvOk s1 = Some (Alive s') → flow_ok (flow s').
Proof.
  intros Hs [(v & Ev & Es1) (x & Ex%get_conn_flow & Hx)]%deliver_flow E%on_completion_flow.
  rewrite Ev in Ex. injection Ex as ->. destruct (Hs c _ _ Ev) as (H1 & H2 & H3). cbn in Es1.
  assert (∀ g, moved c g s1 s' → let u := g (recvs x - 1, evict_sem x) in
    0 <= u.1 ∧ 0 <= u.2 ∧ u.1 + u.2 = 1 → flow_ok (flow s')) as Hg.
  { intros g (u & Eu & Eu') w Hw d r e. rewrite (aget_aset_eq _ _ _ _ Es1) in Eu. injection Eu as <-.
    rewrite (aget_aset _ _ _ _ _ Eu'). case_decide; [subst; fold w; destruct w; intros [= <- <-]; done|].
    rewrite (aget_aset_ne _ _ _ _ _ Es1) by done. apply Hs. }
  destruct E as [E|E]; apply Hg in E; cbn; try done; lia.
Qed.

Lemma collect_flow i e s e' s' : flow_ok (flow s) → evict_collect i e s = Some (e', s') → flow_ok (flow s').
Proof.
  unfold evict_collect. intros Hs (x & Ex & E)%bind_Some. destruct (Z.ltb_spec 0 (evict_sem x)) as [Hx|]; [|done].
  apply bind_Some in E as (q & _ & E). apply bind_Some in E as (s1 & E1 & E).
  apply bind_Some in E as ([l n] & _ & E). apply bind_Some in E as (s2 & (u & Eu & Eu')%post_receives_flow & [= _ <-]).
  eapply (set_conn_flow (λ v, (v.1, v.2 - 1))) in E1 as (v & Ev & Ev'); [|exact Ex|done].
  apply get_conn_flow in Ex. rewrite Ev in Ex. injection Ex as ->. destruct (Hs i _ _ Ev) as (H1 & H2 & H3).
  rewrite (aget_aset_eq _ _ _ _ Ev') in Eu. injection Eu as <-. intros d r f.
  rewrite (aget_aset _ _ _ _ _ Eu'). case_decide; [subst; cbn; intros [= <- <-]; lia|].
  rewrite (aget_aset_ne _ _ _ _ _ Ev') by done. apply Hs.
Qed.

Lemma build_connection_flow msg s i s' : flow_ok (flow s) → build_connection msg s = Some (i, s') → flow_ok (flow s').
Proof.
  intros Hs. unfold build_connection. intros E. cbv zeta in E. apply bind_Some in E as ([k s1] & E1 & E).
  eapply (for_brk_ended (λ t, flow t = flow s) (λ k t, aset (flow s) k (Some (0, 0)) = Some (flow t))) in E1;
    [|unfold MAX_CLIENT; lia|done|].
  - destruct E1 as [[-> E1]|[Hk E1]].
    + rewrite Z.ltb_irrefl in E. injection E as _ <-. change (flow_ok (flow s1)). by rewrite E1.
    + rewrite (proj2 (Z.ltb_lt _ _)) in E by lia.
      apply bind_Some in E as (s2 & (u & Eu & Eu')%post_receives_flow & [= _ <-]).
      change (flow (s1 <| conn_num := conn_num s1 + 1 |>)) with (flow s1) in Eu, Eu'.
      rewrite (aget_aset_eq _ _ _ _ E1) in Eu. injection Eu as <-. intros d r f.
      rewrite (aget_aset _ _ _ _ _ Eu'). case_decide; [intros [= <- <-]; lia|].
      rewrite (aget_aset_ne _ _ _ _ _ E1) by done. apply Hs.
  - clear. intros j t r Hj Ht E. apply bind_Some in E as (st & _ & E). case_bool_decide; [|by injection E as <-].
    apply bind_Some in E as (t1 & (l & El & ->)%set_conn_inv & E). apply bind_Some in E as (ts & _ & [= <-]).
    rewrite <- Ht. by apply (aset_map (fmap fview)) in El.
Qed.

Lemma destroy_connection_flow c s s' : flow_ok (flow s) → destroy_connection c s = Some s' → flow_ok (flow s').
Proof.
  intros Hs. unfold destroy_connection. intros (x & Ex & E)%bind_Some.
  apply bind_Some in E as (s1 & E1 & E). apply bind_Some in E as (l & El & E).
  apply bind_Some in E as (t & Et & E). cbv zeta in E.
  assert (flow s1 = flow s) as Es.
  { destruct (0 <? mapped_chunk_size x); [|by injection E1 as <-]. by apply bind_Some in E1 as (m & _ & [= <-]). }
  assert (flow s' = fmap (M := option) fview <$> l) as Es' by (destruct (_ =? 0) in E; by injection E as <-).
  apply (aset_map (fmap fview)) in El. change (aset (flow s1) (conn_index x) None = Some (fmap (M := option) fview <$> l)) in El. rewrite Es in El.
  intros d r e. rewrite Es', (aget_aset _ _ _ _ _ El). case_decide; [done|]. apply Hs.
Qed.

Lemma mon_step_flow mr s s' : flow_ok (flow s) → mon_step mr s s' → flow_ok (flow s').
Proof.
  intros Hs Hstep. destruct Hstep as [msg i s s' E|c s s' E|c s s' E|c msg s s1 s' E1 E|c s s' E|rand g s e s' E
    |i e s e' s' E|e s e' c s' E|e c i s s' E|c s s' E|g s m E].
  - by eapply build_connection_flow.
  - by rewrite (sview_flow _ _ (on_connection_view fview _ _ _ E)).
  - by eapply destroy_connection_flow.
  - by eapply recv_step_flow.
  - cbn in E. apply bind_Some in E as (t & E & [= <-]).
    by apply (upd_conn_view fview), sview_flow in E as ->.
  - by rewrite (oview_flow _ _ (evict_begin_oview fview _ _ _ _ _ E)).
  - by eapply collect_flow.
  - by rewrite (sview_flow _ _ (evict_choose_view fview _ _ _ _ _ E)).
  - by rewrite (sview_flow _ _ (evict_stop_view fview _ _ _ _ _ E)).
  - by rewrite (sview_flow _ _ (stop_wait_view fview _ _ _ E)).
  - done.
Qed.

(** C17: In every state that the server can reach, each client has exactly one credit: either
    one receive is posted for it, or its activity answer waits for the memory thread; and
    while an answer waits, no message of that client can come in, so the buffer that the
    memory thread reads is never overwritten. *)
Theorem one_receive mr g s0 s c x :
  rdma_session_init g session0 = Some s0 → star (mon_step mr) s0 s → get_conn s c = Some x →
  ((recvs x = 1 ∧ evict_sem x = 0) ∨ (recvs x = 0 ∧ evict_sem x = 1)) ∧
  (evict_sem x ≠ 0 → ∀ msg, deliver c msg s = None).
Proof.
  intros E Hstar Ex. rewrite rdma_session_init_started in E. injection E as <-.
  assert (flow_ok (flow s)) as Hs.
  { apply (star_inv (mon_step mr) (λ t, flow_ok (flow t)) _ _ (mon_step_flow mr) Hstar).
    intros d r e Ed. apply aget_Some in Ed as [_ Ed]. unfold flow in Ed. cbn [conns started] in Ed.
    rewrite fmap_replicate in Ed. apply lookup_replicate in Ed as [Ed _]. done. }
  pose proof (get_conn_flow _ _ _ Ex) as Ev. destruct (Hs c _ _ Ev) as (H1 & H2 & H3). split; [lia|].
  intros Hx msg. unfold deliver. rewrite Ex. cbn. destruct (Z.ltb_spec 0 (recvs x)); [lia|done].
Qed.

Lemma one_receive_witness :
  ∃ x, get_conn bound_session 0 = Some x ∧
    ((recvs x = 1 ∧ evict_sem x = 0) ∨ (recvs x = 0 ∧ evict_sem x = 1)) ∧
    (evict_sem x ≠ 0 → ∀ msg, deliver 0 msg bound_session = None).
Proof.
  destruct (get_conn bound_session 0) as [x|] eqn:Ex; [|vm_compute in Ex; discriminate Ex].
  exists x. split; [done|]. apply (one_receive test_mr 11 (started 1) bound_session 0 x);
    [apply (rdma_session_init_started 11)|apply bound_session_reach|exact Ex].
Defined.

(** * The memory thread

    [free_mem] runs [while (running)]; [destroy_connection] of the last client clears the
    flag and nothing sets it again, although the server goes on accepting clients. *)

Definition blind (x : connection) : () := ().
#[export] Instance blind_apart : Apart blind.
Proof. by repeat constructor. Qed.

Lemma oview_running s s' : oview blind s' = oview blind s → running s' = running s.
Proof. by intros [_ ?]%pair_equal_spec. Qed.
Lemma sview_running s s' : sview blind s' = sview blind s → running s' = running s.
Proof. by intros ?%sview_oview%oview_running. Qed.
Lemma set_conn_running s c x s' : set_conn s c x = Some s' → running s' = running s.
Proof. by intros (l & _ & ->)%set_conn_inv. Qed.
Lemma upd_conn_running c f s s' : upd_conn c f s = Some s' → running s' = running s.
Proof. unfold upd_conn. by intros (x & _ & E%set_conn_running)%bind_Some. Qed.

Lemma build_connection_running msg s i s' : build_connection msg s = Some (i, s') → running s' = running s.
Proof.
  unfold build_connection. intros E. cbv zeta in E. apply bind_Some in E as ([k s1] & E1 & E).
  transitivity (running s1).
  - destruct (k <? MAX_CLIENT); [|by injection E as _ <-].
    by apply bind_Some in E as (s2 & E2%upd_conn_running & [= _ <-]).
  - eapply (for_brk_partial (λ t, running t = running s)) in E1; [done|done|]. clear. intros j t r _ Ht E.
    apply bind_Some in E as (st & _ & E). case_bool_decide; [|by injection E as <-].
    apply bind_Some in E as (t1 & E1%set_conn_running & E). apply bind_Some in E as (ts & _ & [= <-]).
    by rewrite <- Ht.
Qed.

Lemma destroy_connection_running c s s' :
  destroy_connection c s = Some s' → running s' = if conn_num s =? 1 then false else running s.
Proof.
  unfold destroy_connection. intros (x & _ & E)%bind_Some. apply bind_Some in E as (s1 & E1 & E).
  do 2 apply bind_Some in E as (? & _ & E). cbv zeta in E.
  assert (running s1 = running s ∧ conn_num s1 = conn_num s) as [Hr Hn].
  { destruct (0 <? mapped_chunk_size x); [|by injection E1 as <-]. by apply bind_Some in E1 as (m & _ & [= <-]). }
  cbn in E. rewrite Hn in E.
  destruct (Z.eqb_spec (conn_num s - 1) 0), (Z.eqb_spec (conn_num s) 1); try lia; by injection E as <-.
Qed.

Lemma mon_step_running mr s s' : running s = false → mon_step mr s s' → running s' = false.
Proof.
  intros Hs Hstep. destruct Hstep as [msg i s s' E|c s s' E|c s s' E|c msg s s1 s' E1 E|c s s' E|rand g s e s' E
    |i e s e' s' E|e s e' c s' E|e c i s s' E|c s s' E|g s m E]; rewrite <- Hs.
  - by eapply build_connection_running.
  - by apply (on_connection_view blind), sview_running in E.
  - apply destroy_connection_running in E. destruct (_ =? 1) in E; congruence.
  - apply (on_completion_oview blind) in E as (t & Et%oview_running & E).
    unfold deliver in E1. apply bind_Some in E1 as (x & _ & E1). destruct (0 <? recvs x); [|done].
    apply set_conn_running in E1. destruct E as [E%upd_conn_running|E%upd_conn_running]; congruence.
  - by apply bind_Some in E as (t & E%upd_conn_running & [= <-]).
  - by apply (evict_begin_oview blind), oview_running in E.
  - unfold evict_collect in E. apply bind_Some in E as (x & _ & E). destruct (0 <? evict_sem x); [|done].
    apply bind_Some in E as (q & _ & E). apply bind_Some in E as (s1 & E1%set_conn_running & E).
    apply bind_Some in E as ([l n] & _ & E). apply bind_Some in E as (s2 & E2%upd_conn_running & [= _ <-]). congruence.
  - by apply (evict_choose_view blind), sview_running in E.
  - by apply (evict_stop_view blind), sview_running in E.
  - by apply (stop_wait_view blind), sview_running in E.
  - done.
Qed.

(** When the last client disconnects the memory thread is told to end, and whatever
    happens afterwards, clients that connect and bind included, it is never told to run
    again. *)
Theorem memory_thread_ends mr c s s' t :
  conn_num s = 1 → on_disconnect c s = Some s' → star (mon_step mr) s' t → running t = false.
Proof.
  intros Hn E Hstar. apply (star_inv (mon_step mr) (λ t, running t = false) s' t); [|done|].
  - intros u u' Hu Hstep. by eapply mon_step_running.
  - apply destroy_connection_running in E. by rewrite Hn in E.
Qed.

(** The client of [bound_session] leaves and another one comes. *)
Lemma memory_thread_ends_witness :
  ∃ s' t i, on_disconnect 0 bound_session = Some s' ∧ build_connection bind_msg s' = Some (i, t) ∧
    conn_num t = 1 ∧ running t = false.
Proof.
  destruct (on_disconnect 0 bound_session) as [s'|] eqn:E; [|vm_compute in E; discriminate E].
  destruct (build_connection bind_msg s') as [[i t]|] eqn:E'; [|vm_compute in E; injection E as <-; vm_compute in E'; discriminate E'].
  exists s', t, i. split; [done|]. split; [done|]. split.
  - vm_compute in E. injection E as <-. vm_compute in E'. injection E' as <- <-. reflexivity.
  - apply (memory_thread_ends test_mr 0 bound_session s' t); [reflexivity|exact E|].
    apply star_one. by eapply step_connect.
Defined.
