(* ===== verification/Daemon.v ===== *)
(** The server's process ([daemon.c], [util.c]): its arguments, the device context, the
    dispatch of connection events and the loop that waits for them, and the pause that
    models a page fault. *)

From S2P Require Import Prelude Config State Portal Monitor Regions Flow.

(** * Arguments *)

(** [atoi]: [strtol] in base 10, cut to an [int]. *)
Definition atoi (s : list byte) : Z :=
  let long z := i32 (Z.max (- 2 ^ 63) (Z.min z (2 ^ 63 - 1))) in
  match skip_spaces s with
  | x2d :: s' => long (- scan_digits 0 s')
  | x2b :: s' => long (scan_digits 0 s')
  | s' => long (scan_digits 0 s')
  end.

(** What [getopt(argc, argv, "f:v::")] answers, in order; then [argv + optind]. *)
Inductive opt : Set := OptF (optarg : list byte) | OptV (optarg : option (list byte)) | OptOther.

Record settings : Set := { verbose_level : Z; fault_latency_us : Z }.

(** [usage] ends the process; [Bad] is a return of 1. *)
Inductive parsed : Set := Usage | Bad | Parsed (ip : list byte) (port : Z) (st : settings).

Fixpoint parse_opts (opts : list opt) (st : settings) : parsed + settings :=
  match opts with
  | [] => inr st
  | OptV None :: opts => parse_opts opts {| verbose_level := 1; fault_latency_us := fault_latency_us st |}
  | OptV (Some a) :: opts => parse_opts opts {| verbose_level := atoi a; fault_latency_us := fault_latency_us st |}
  | OptF a :: opts =>
      if atoi a <=? 0 then inl Bad
      else parse_opts opts {| verbose_level := verbose_level st; fault_latency_us := atoi a |}
  | OptOther :: _ => inl Usage
  end.

Definition parse_args (opts : list opt) (rest : list (list byte)) (st : settings) : parsed :=
  match parse_opts opts st with
  | inl r => r
  | inr st =>
      match rest with
      | ip :: p :: _ =>
          let port := atoi p in
          if (port <=? 0) || (65535 <? port) then Bad else Parsed ip port st
      | _ => Usage
      end
  end.

(** * Connection events *)

(** The verbs that set a connection up; the process dies when one fails. *)
Inductive verb : Set :=
| AllocPd | CreateChannel | CreateCq | ReqNotify | StartPoller       (* [build_context] *)
| CreateQp | RegSend | RegRecv | PostRecv                             (* [build_connection] *)
| Accept.

(** [s_ctx] is reduced to the device it was built for. *)
Record daemon : Type := { s_ctx : option Z; session : rdma_session }.
#[export] Instance daemon_settable : Settable daemon := λ d, Build_daemon (s_ctx d) (session d).

Inductive result : Type := Running (d : daemon) | Dead.

(** [id->verbs] is [verbs]; events of a connection name its slot. *)
Inductive cm_event : Type :=
| ConnectRequest (verbs : Z) (msg : rdma_info)
| Established (c : Z)
| Disconnected (c : Z)
| OtherEvent.

Definition build_context (ok : verb → bool) (verbs : Z) (d : daemon) : result :=
  match s_ctx d with
  | Some v => if v =? verbs then Running d else Dead
  | None =>
      if ok AllocPd && ok CreateChannel && ok CreateCq && ok ReqNotify && ok StartPoller
      then Running (d <| s_ctx := Some verbs |>) else Dead
  end.

(** [build_connection] starts with [build_context] and the queue pair; the rest of it is
    the function of [Monitor] and the registration of the two messages. *)
Definition on_connect_request (ok : verb → bool) (verbs : Z) (msg : rdma_info) (d : daemon) : option result :=
  match build_context ok verbs d with
  | Dead => Some Dead
  | Running d =>
      if ok CreateQp then
        '(_, s) ← build_connection msg (session d);
        Some (if ok RegSend && ok RegRecv && ok PostRecv && ok Accept then Running (d <| session := s |>) else Dead)
      else Some Dead
  end.

Definition on_event (ok : verb → bool) (e : cm_event) (d : daemon) : option result :=
  match e with
  | ConnectRequest verbs msg => on_connect_request ok verbs msg d
  | Established c => s ← on_connection c (session d); Some (Running (d <| session := s |>))
  | Disconnected c => s ← on_disconnect c (session d); Some (Running (d <| session := s |>))
  | OtherEvent => Some Dead
  end.

(** The loop of [main], until [rdma_get_cm_event] fails: every handler returns 0, so it
    never breaks. *)
Fixpoint event_loop (l : list ((verb → bool) * cm_event)) (d : daemon) : option result :=
  match l with
  | [] => Some (Running d)
  | (ok, e) :: l =>
      r ← on_event ok e d;
      match r with Running d => event_loop l d | Dead => Some Dead end
  end.

(** * The pause of a [FAULT] message *)

(** A reading of the clock, [tv_sec] and [tv_nsec]. *)
Definition timespec : Set := Z * Z.

Definition diff_in_us (start current : timespec) : Z :=
  i64 ((current.1 - start.1) * 1000000 + Z.quot (current.2 - start.2) 1000).

(** The readings that follow reading [i], and the number of the last one. *)
Fixpoint spin (fuel i : nat) (clock : nat → timespec) (start : timespec) (microseconds : Z) : option nat :=
  match fuel with
  | O => None
  | S fuel' =>
      if diff_in_us start (clock i) <? microseconds then spin fuel' (S i) clock start microseconds else Some i
  end.
Definition spin_microseconds (fuel : nat) (clock : nat → timespec) (microseconds : Z) : option nat :=
  spin fuel 1 clock (clock 0%nat) microseconds.

(** * Theorems *)

(** ** Arguments *)

Definition opt_ok (o : opt) : bool :=
  match o with OptF a => 0 <? atoi a | OptV _ => true | OptOther => false end.
Definition apply_opt (st : settings) (o : opt) : settings :=
  match o with
  | OptF a => {| verbose_level := verbose_level st; fault_latency_us := atoi a |}
  | OptV a => {| verbose_level := from_option atoi 1 a; fault_latency_us := fault_latency_us st |}
  | OptOther => st
  end.

Lemma parse_opts_correct opts st st' :
  parse_opts opts st = inr st' ↔ forallb opt_ok opts = true ∧ st' = foldl apply_opt st opts.
Proof.
  revert st. induction opts as [|[a|[a|]|] opts IH]; intros st; cbn; [by split; [intros [= ->]|intros [_ ->]]| |apply IH..|by split; [|intros []]].
  destruct (Z.leb_spec (atoi a) 0), (Z.ltb_spec 0 (atoi a)); try lia; [by split; [|intros []]|]. apply IH.
Qed.

(** [parse_args] succeeds exactly on known options with positive latencies, an address and
    a port of a TCP socket; the last option of a kind counts, and the default stands when
    there is none. *)
Theorem parse_args_correct opts rest st ip port st' :
  parse_args opts rest st = Parsed ip port st' ↔
  forallb opt_ok opts = true ∧ st' = foldl apply_opt st opts ∧
  ∃ p more, rest = ip :: p :: more ∧ port = atoi p ∧ 1 <= port <= 65535.
Proof.
  unfold parse_args. pose proof (parse_opts_correct opts st) as Hp. destruct (parse_opts opts st) as [r|s] eqn:E.
  - split.
    + intros ->. exfalso. clear Hp. revert st E. induction opts as [|[a|[a|]|] opts IH]; intros st E; cbn in E;
        [done| |by eapply IH..|done]. destruct (_ <=? _); [done|by eapply IH].
    + intros (H1 & H2 & _). exfalso. assert (inl r = inr st') as [=]. by apply Hp.
  - destruct (proj1 (Hp s) eq_refl) as [Hok ->]. split.
    + destruct rest as [|ip' [|p more]]; [done..|]. destruct (Z.leb_spec (atoi p) 0), (Z.ltb_spec 65535 (atoi p));
        cbn; intros [=]; subst. split; [done|]. split; [done|]. exists p, more. split_and!; [done|done|lia|lia].
    + intros (_ & -> & p & more & -> & -> & Hr).
      destruct (Z.leb_spec (atoi p) 0), (Z.ltb_spec 65535 (atoi p)); try lia. done.
Qed.

(** The defaults of [daemon.c] and [util.c], [-f 50 -v 10.0.0.1 9400]. *)
Definition defaults : settings := {| verbose_level := 0; fault_latency_us := 30 |}.
Definition test_ip : list byte := String.list_byte_of_string "10.0.0.1".
Example parse_args_test :
  parse_args [OptF (String.list_byte_of_string "50"); OptV None] [test_ip; String.list_byte_of_string "9400"] defaults =
  Parsed test_ip 9400 {| verbose_level := 1; fault_latency_us := 50 |}.
Proof. reflexivity. Qed.

(** ** Events *)

(** When an event ends the process. *)
Definition fatal (ok : verb → bool) (e : cm_event) (d : daemon) : bool :=
  match e with
  | ConnectRequest v _ =>
      match s_ctx d with
      | Some w => negb (w =? v)
      | None => negb (ok AllocPd && ok CreateChannel && ok CreateCq && ok ReqNotify && ok StartPoller)
      end || negb (ok CreateQp && ok RegSend && ok RegRecv && ok PostRecv && ok Accept)
  | Established _ | Disconnected _ => false
  | OtherEvent => true
  end.

(** The device context after an event. *)
Definition ctx_after (e : cm_event) (d : daemon) : option Z :=
  match e, s_ctx d with ConnectRequest v _, None => Some v | _, c => c end.

Lemma on_event_correct mr ok e d r :
  on_event ok e d = Some r →
  match r with
  | Dead => fatal ok e d = true
  | Running d' => fatal ok e d = false ∧ mon_step mr (session d) (session d') ∧ s_ctx d' = ctx_after e d
  end.
Proof.
  destruct e as [v msg|c|c|]; cbn [on_event].
  - unfold on_connect_request, build_context, fatal, ctx_after. intros E.
    assert (∀ d1, session d1 = session d →
      (if ok CreateQp then
         '(_, s) ← build_connection msg (session d1);
         Some (if ok RegSend && ok RegRecv && ok PostRecv && ok Accept then Running (d1 <| session := s |>) else Dead)
       else Some Dead) = Some r →
      match r with
      | Dead => ok CreateQp && ok RegSend && ok RegRecv && ok PostRecv && ok Accept = false
      | Running d' => ok CreateQp && ok RegSend && ok RegRecv && ok PostRecv && ok Accept = true ∧
                      mon_step mr (session d) (session d') ∧ s_ctx d' = s_ctx d1
      end) as Hrest.
    { clear E. intros d1 Hd E. destruct (ok CreateQp); [|by injection E as <-].
      apply bind_Some in E as ([i s] & Es & [= <-]). rewrite Hd in Es.
      destruct (ok RegSend && _ && _ && _) eqn:Eo; cbn; rewrite Eo; [|done].
      split; [done|]. split; [by eapply step_connect|done]. }
    destruct (s_ctx d) as [w|] eqn:Ed.
    + destruct (w =? v); [|by injection E as <-]. apply Hrest in E; [|done].
      destruct r as [d'|]; [|by rewrite E]. destruct E as (-> & ? & ->). done.
    + destruct (ok AllocPd && _ && _ && _ && _); [|by injection E as <-]. apply Hrest in E; [|done].
      destruct r as [d'|]; [|by rewrite E]. destruct E as (-> & ? & ->). done.
  - intros (s & E & [= <-])%bind_Some. split; [done|]. split; [by eapply step_connection|]. cbn. by destruct (s_ctx d).
  - intros (s & E & [= <-])%bind_Some. split; [done|]. split; [by eapply step_disconnect|]. cbn. by destruct (s_ctx d).
  - by intros [= <-].
Qed.

(** The devices that connection requests came from. *)
Definition devices (l : list ((verb → bool) * cm_event)) : list Z :=
  omap (λ e, match e.2 with ConnectRequest v _ => Some v | _ => None end) l.

(** A server that is still running after a sequence of events has taken steps of the step
    relation of [Regions] only, so everything proved of reachable sessions holds of it; it
    has served clients of one device; and no event was of an unknown kind. *)
Theorem event_loop_correct mr l d d' :
  event_loop l d = Some (Running d') →
  star (mon_step mr) (session d) (session d') ∧
  (∀ v, v ∈ devices l → s_ctx d' = Some v) ∧ (s_ctx d ≠ None → s_ctx d' = s_ctx d) ∧
  ∀ ok, (ok, OtherEvent) ∉ l.
Proof.
  revert d. induction l as [|[ok e] l IH]; intros d E; cbn in E.
  - injection E as <-. split; [constructor|]. split; [by intros v Hv%elem_of_nil|].
    split; [done|]. by intros ok Hin%elem_of_nil.
  - apply bind_Some in E as ([d1|] & E1 & E); [|done].
    apply (on_event_correct mr) in E1 as (Hf & Hstep & Hc). destruct (IH d1 E) as (Hs & Hv & Hk & Ho).
    split; [by eapply star_step|]. split; [|split].
    + intros v. unfold devices. destruct e as [w msg|c|c|]; cbn; try apply Hv.
      intros [->|Hin]%elem_of_cons; [|by apply Hv]. assert (s_ctx d1 = Some w) as Hd; [|by rewrite Hk, Hd by congruence].
      rewrite Hc. unfold ctx_after, fatal in *. destruct (s_ctx d) as [u|]; [|done].
      apply orb_false_iff in Hf as [Hf _]. apply negb_false_iff, Z.eqb_eq in Hf. by subst.
    + intros Hn. assert (s_ctx d1 = s_ctx d) as Hd by (rewrite Hc; unfold ctx_after; by destruct e, (s_ctx d) eqn:?).
      by rewrite Hk, Hd by congruence.
    + intros ok' [[= -> <-]|Hin]%elem_of_cons; [done|by eapply Ho].
Qed.

(** Two clients come from one device. *)
Definition test_events : list ((verb → bool) * cm_event) :=
  [(λ _, true, ConnectRequest 7 bind_msg); (λ _, true, Established 0);
   (λ _, true, ConnectRequest 7 bind_msg); (λ _, true, Disconnected 0)].
Definition test_daemon : daemon := {| s_ctx := None; session := started 1 |}.

Lemma event_loop_correct_witness :
  ∃ d', event_loop test_events test_daemon = Some (Running d') ∧
    star (mon_step test_mr) (started 1) (session d') ∧ s_ctx d' = Some 7.
Proof.
  destruct (event_loop test_events test_daemon) as [[d'|]|] eqn:E; [|vm_compute in E; discriminate E..].
  exists d'. split; [done|]. destruct (event_loop_correct test_mr test_events test_daemon d') as (Hs & Hv & _ & _); [exact E|].
  split; [exact Hs|]. apply Hv. left.
Defined.

(** The memory thread initialises the session when the server may already have accepted
    clients: they are forgotten. *)
Theorem early_clients_forgotten g s s' c :
  alen (conns s) = MAX_CLIENT → rdma_session_init g s = Some s' → get_conn s' c = None ∧ conn_num s' = 0.
Proof.
  intros Hl E. unfold rdma_session_init in E. do 2 apply bind_Some in E as (? & _ & E).
  apply bind_Some in E as (t & E & [= <-]). split; [|done].
  apply (for_up_partial (λ i t, alen (conns t) = MAX_CLIENT ∧ ∀ j, 0 <= j < i → aget (conns t) j = Some None)) in E
    as [Ht Hn]; [|unfold MAX_CLIENT; lia|split; [done|lia]|].
  - unfold get_conn. cbn. destruct (aget (conns t) c) as [o|] eqn:Ec; [|done].
    pose proof (aget_lt _ _ _ Ec). rewrite Hn in Ec by lia. by injection Ec as <-.
  - clear. intros i t t' Hi [Ht Hn] E. apply bind_Some in E as (l & El & E).
    apply bind_Some in E as (k & _ & [= <-]). cbn. split; [by rewrite (aset_length _ _ _ _ El)|].
    intros j Hj. rewrite (aget_aset _ _ _ _ _ El). case_decide; [done|]. apply Hn. lia.
Qed.

(** ** The pause *)

Definition nanoseconds (t : timespec) : Z := t.1 * 10 ^ 9 + t.2.
Definition timespec_ok (t : timespec) : Prop := 0 <= t.1 < 2 ^ 40 ∧ 0 <= t.2 < 10 ^ 9.

Lemma diff_in_us_bounds a b :
  timespec_ok a → timespec_ok b →
  let d := diff_in_us a b in
  1000 * d - 999 <= nanoseconds b - nanoseconds a <= 1000 * d + 999.
Proof.
  intros [Ha1 Ha2] [Hb1 Hb2]. unfold diff_in_us, nanoseconds.
  pose proof (Z.quot_rem' (b.2 - a.2) 1000) as E.
  assert (- 1000 < Z.rem (b.2 - a.2) 1000 < 1000) as Hr.
  { pose proof (Z.rem_bound_abs (b.2 - a.2) 1000). lia. }
  rewrite i64_small by lia. lia.
Qed.

(** The pause ends at the first reading that is late enough, which is no more than a
    microsecond before the time asked for; on a clock that advances it ends. *)
Theorem spin_microseconds_correct clock us :
  (∀ i, timespec_ok (clock i)) →
  (∀ fuel k, spin_microseconds fuel clock us = Some k →
     1000 * us - 999 <= nanoseconds (clock k) - nanoseconds (clock 0%nat) ∧
     ∀ j, (1 <= j < k)%nat → diff_in_us (clock 0%nat) (clock j) < us) ∧
  ∀ n, us <= diff_in_us (clock 0%nat) (clock n) → (1 <= n)%nat → is_Some (spin_microseconds n clock us).
Proof.
  intros Hok. unfold spin_microseconds. split.
  - intros fuel k.
    assert (∀ i, (∀ j, (1 <= j < i)%nat → diff_in_us (clock 0%nat) (clock j) < us) →
      spin fuel i clock (clock 0%nat) us = Some k →
      us <= diff_in_us (clock 0%nat) (clock k) ∧ ∀ j, (1 <= j < k)%nat → diff_in_us (clock 0%nat) (clock j) < us) as H.
    { induction fuel as [|fuel IH]; intros i Hi; cbn; [done|]. destruct (Z.ltb_spec (diff_in_us (clock 0%nat) (clock i)) us).
      - apply IH. intros j Hj. destruct (decide (j = i)) as [->|]; [done|]. apply Hi. lia.
      - intros [= <-]. done. }
    intros E. destruct (H 1%nat) as [H1 H2]; [lia|done|]. split; [|done].
    pose proof (diff_in_us_bounds (clock 0%nat) (clock k) (Hok _) (Hok _)) as Hb. cbv zeta in Hb. lia.
  - intros n Hn H1.
    assert (∀ fuel i, (1 <= i ∧ i <= n < i + fuel)%nat → is_Some (spin fuel i clock (clock 0%nat) us)) as H; [|apply H; lia].
    intros fuel. induction fuel as [|fuel IH]; intros i Hi; [lia|]. cbn.
    destruct (Z.ltb_spec (diff_in_us (clock 0%nat) (clock i)) us); [|done].
    destruct (decide (i = n)) as [->|]; [exfalso; lia|]. apply IH. lia.
Qed.
