(* ===== verification/Einj.v ===== *)
(** The ACPI error injection module ([einj/einj.c]): the tables of the firmware, the
    parameters it is given, the injection protocol with its busy wait, the trigger
    action table, the debugfs files and the module's start and end. *)

From S2P Require Import Prelude Config.

(** * The interface of ACPI and the kernel *)

(** Numbers of the ACPI specification that the module names. *)
Class ACPI : Type := {
  PROCESSOR_CORRECTABLE : Z; PROCESSOR_UNCORRECTABLE : Z; PROCESSOR_FATAL : Z;
  MEMORY_CORRECTABLE : Z; MEMORY_UNCORRECTABLE : Z; MEMORY_FATAL : Z;
  PCIX_CORRECTABLE : Z; PCIX_UNCORRECTABLE : Z; PCIX_FATAL : Z;
  WRITE_REGISTER : Z; WRITE_REGISTER_VALUE : Z; ADR_SPACE_SYSTEM_MEMORY : Z;
  ACT_SET_ERROR_TYPE : Z; ACT_SET_ERROR_TYPE_WITH_ADDRESS : Z; ACT_TRIGGER_ERROR : Z;
  (* [sizeof] of [acpi_table_header], [acpi_table_einj], [acpi_einj_entry], [acpi_einj_trigger] *)
  sizeof_header : Z; sizeof_table : Z; sizeof_entry : Z; sizeof_trigger : Z;
  (* laws *)
  memory_types_nonzero : 0 < MEMORY_CORRECTABLE ∧ 0 < MEMORY_UNCORRECTABLE ∧ 0 < MEMORY_FATAL;
  sizes_ok : 0 < sizeof_header < sizeof_table ∧ 0 < sizeof_entry ∧ 0 < sizeof_trigger < 2 ^ 32
}.

(** The actions the module asks the firmware's table for. *)
Inductive action : Set :=
| BEGIN_OPERATION | GET_TRIGGER_TABLE | SET_ERROR_TYPE | GET_ERROR_TYPE | END_OPERATION
| EXECUTE_OPERATION | CHECK_BUSY_STATUS | GET_COMMAND_STATUS | TRIGGER_ERROR.
#[export] Instance action_eq_dec : EqDecision action.
Proof. solve_decision. Defined.

(** [struct acpi_whea_header] with its register region. *)
Record acpi_entry : Type := { act : Z; instruction : Z; space_id : Z; address : Z; bit_width : Z }.
(** [struct acpi_einj_trigger] and the entries behind it in memory. *)
Record acpi_trigger : Type := { header_size : Z; table_size : Z; entry_count : Z; trigger_entry : Z → acpi_entry }.
(** [struct acpi_table_einj] and its entries. *)
Record acpi_table : Type := { header_length : Z; tab_length : Z; entries : Z; tab_entry : Z → acpi_entry }.

Definition PAGE_SHIFT : Z := 12.
Definition PAGE_SIZE : Z := 4096.
Definition PAGE_MASK : Z := 2 ^ 64 - PAGE_SIZE.
Definition ENODEV : Z := 19.
Definition EBUSY : Z := 16.

(** * Data *)

Definition SPIN_UNIT : Z := 100.
Definition FIRMWARE_TIMEOUT : Z := 1000000.
Definition ACPI5_VENDOR_BIT : Z := 0x80000000.
Definition MEM_ERROR_MASK `{ACPI} : Z := Z.lor (Z.lor MEMORY_CORRECTABLE MEMORY_UNCORRECTABLE) MEMORY_FATAL.
Definition SETWA_FLAGS_APICID : Z := 1.
Definition SETWA_FLAGS_MEM : Z := 2.
Definition SETWA_FLAGS_PCIE_SBDF : Z := 4.
Definition EINJ_OP_BUSY : Z := 1.
Definition EINJ_STATUS_SUCCESS : Z := 0.

Record set_error_type_with_address : Type := {
  v5_type : Z; vendor_extension : Z; v5_flags : Z; apicid : Z;
  memory_address : Z; memory_address_range : Z; pcie_sbdf : Z }.
Record einj_parameter : Type := { v4_type : Z; reserved1 : Z; reserved2 : Z; param1 : Z; param2 : Z }.
(** [sizeof] of the two, and of [struct vendor_error_type_extension]. *)
Definition sizeof_v5 : Z := 40.
Definition sizeof_v4 : Z := 40.
Definition sizeof_vendor : Z := 16.

#[export] Instance v5_settable : Settable set_error_type_with_address := λ r,
  Build_set_error_type_with_address (v5_type r) (vendor_extension r) (v5_flags r) (apicid r)
    (memory_address r) (memory_address_range r) (pcie_sbdf r).
#[export] Instance v4_settable : Settable einj_parameter := λ r,
  Build_einj_parameter (v4_type r) (reserved1 r) (reserved2 r) (param1 r) (param2 r).

(** [void *einj_param]: the memory of the firmware it points to, at its physical address. *)
Inductive parameter : Type :=
| V5 (pa : Z) (p : set_error_type_with_address)
| V4 (pa : Z) (p : einj_parameter).

(** What the module takes from the kernel and has to give back. *)
Inductive owner : Set := Trigger | Module | Addr.
Inductive resource : Set :=
| Region (start size : Z)      (* request_mem_region *)
| Ioremap (start size : Z)     (* ioremap_cache *)
| Iomem (start size : Z)       (* acpi_os_map_iomem *)
| Nodes (o : owner)            (* the entries of an apei_resources *)
| Requested (o : owner)        (* apei_resources_request *)
| Gars (o : owner)             (* apei_exec_pre_map_gars *)
| Debugfs.
#[export] Instance owner_eq_dec : EqDecision owner.
Proof. solve_decision. Defined.
#[export] Instance resource_eq_dec : EqDecision resource.
Proof. solve_decision. Defined.

(** The module's variables; how many answers the kernel and the firmware have given; the
    actions executed (last first); what is held, how many releases there were of something
    not held, and how many times [apei_exec_pre_map_gars] failed. *)
Record einj : Type := {
  asked : nat; actions : list action; held : list resource; strays : Z; failed_premaps : Z;
  acpi5 : bool; param_extension : bool; notrigger : Z; vendor_flags : Z; vendor_dev : option (list Z);
  einj_param : option parameter;
  error_type : Z; error_flags : Z; error_param1 : Z; error_param2 : Z; error_param3 : Z; error_param4 : Z
}.
#[export] Instance einj_settable : Settable einj := λ r,
  Build_einj (asked r) (actions r) (held r) (strays r) (failed_premaps r) (acpi5 r) (param_extension r)
    (notrigger r) (vendor_flags r) (vendor_dev r) (einj_param r) (error_type r) (error_flags r)
    (error_param1 r) (error_param2 r) (error_param3 r) (error_param4 r).

(** The module as it is loaded. *)
Definition loaded (param_ext : bool) : einj := {|
  asked := 0; actions := []; held := []; strays := 0; failed_premaps := 0; acpi5 := false;
  param_extension := param_ext; notrigger := 0; vendor_flags := 0; vendor_dev := None; einj_param := None;
  error_type := 0; error_flags := 0; error_param1 := 0; error_param2 := 0; error_param3 := 0; error_param4 := 0 |}.

(** Removes the first occurrence. *)
Fixpoint remove1 (r : resource) (l : list resource) : list resource :=
  match l with [] => [] | x :: l => if decide (x = r) then l else x :: remove1 r l end.

Section einj.
Context `{ACPI}.
(** The environment: the answers of the kernel, of the firmware and of the memory it shares,
    in the order they are asked for; the two tables; which pages are normal RAM. *)
Context (oracle : nat → Z) (einj_tab : acpi_table) (trigger_mem : Z → acpi_trigger) (page_is_ram : Z → bool).

Definition ask : M einj Z :=
  n ← gets asked; modify (λ w, w <| asked := S n |>);; mret (oracle n).
Definition ask_ok : M einj bool := a ← ask; mret (truthy a).
Definition ask_rc : M einj Z := a ← ask; mret (i32 a).
Definition ask_u32 : M einj Z := a ← ask; mret (u32 a).
Definition ask_u64 : M einj Z := a ← ask; mret (u64 a).

Definition acquire (r : resource) : M einj () := modify (λ w, w <| held := r :: held w |>).
Definition release (r : resource) : M einj () :=
  modify (λ w, if decide (r ∈ held w) then w <| held := remove1 r (held w) |> else w <| strays := strays w + 1 |>).
(** Releases that do nothing when there is nothing to release. *)
Definition release_any (r : resource) : M einj () := modify (λ w, w <| held := remove1 r (held w) |>).

(** Requests that may be refused. *)
Definition request (r : resource) : M einj bool := ok ← ask_ok; when ok (acquire r);; mret ok.
Definition request_mem_region (start size : Z) : M einj bool := request (Region start size).
Definition ioremap_cache (start size : Z) : M einj bool := request (Ioremap start size).
Definition acpi_os_map_iomem (start size : Z) : M einj bool := request (Iomem start size).
Definition apei_exec_collect_resources (o : owner) : M einj Z := acquire (Nodes o);; ask_rc.
Definition apei_resources_fini (o : owner) : M einj () := release_any (Nodes o).
Definition apei_resources_add (o : owner) : M einj Z :=
  rc ← ask_rc; when (rc =? 0) (acquire (Nodes o));; mret rc.
Definition apei_resources_sub : M einj Z := ask_rc.
Definition apei_resources_request (o : owner) : M einj Z :=
  rc ← ask_rc; when (rc =? 0) (acquire (Requested o));; mret rc.
Definition apei_resources_release (o : owner) : M einj () := release (Requested o).
(** A failed [pre_map] undoes what it mapped itself. *)
Definition apei_exec_pre_map_gars (o : owner) : M einj Z :=
  rc ← ask_rc;
  (if rc =? 0 then acquire (Gars o) else modify (λ w, w <| failed_premaps := failed_premaps w + 1 |>));;
  mret rc.
Definition apei_exec_post_unmap_gars (o : owner) : M einj () := release (Gars o).

(** [apei_exec_run] and [apei_exec_run_optional]: the return value and the context's value
    afterwards. *)
Definition apei_exec_run (a : action) : M einj (Z * Z) :=
  modify (λ w, w <| actions := a :: actions w |>);; rc ← ask_rc; v ← ask_u64; mret (rc, v).

(** * What the platform can inject *)

(** [__einj_get_available_error_type], and under the mutex. *)
Definition __einj_get_available_error_type (type : Z) : M einj (Z * Z) :=
  '(rc, v) ← apei_exec_run GET_ERROR_TYPE;
  if truthy rc then mret (rc, type) else mret (0, u32 v).
Definition einj_get_available_error_type (type : Z) : M einj (Z * Z) := __einj_get_available_error_type type.

(** The bit and the text of a line of [available_error_type]. *)
Definition error_type_lines : list (Z * string) := [
  (0x0001, "0x00000001	Processor Correctable"); (0x0002, "0x00000002	Processor Uncorrectable non-fatal");
  (0x0004, "0x00000004	Processor Uncorrectable fatal"); (0x0008, "0x00000008	Memory Correctable");
  (0x0010, "0x00000010	Memory Uncorrectable non-fatal"); (0x0020, "0x00000020	Memory Uncorrectable fatal");
  (0x0040, "0x00000040	PCI Express Correctable"); (0x0080, "0x00000080	PCI Express Uncorrectable non-fatal");
  (0x0100, "0x00000100	PCI Express Uncorrectable fatal"); (0x0200, "0x00000200	Platform Correctable");
  (0x0400, "0x00000400	Platform Uncorrectable non-fatal"); (0x0800, "0x00000800	Platform Uncorrectable fatal") ]%string.

(** [available_error_type_show]: the lines printed. *)
Definition available_error_type_show : M einj (Z * list string) :=
  '(rc, available) ← einj_get_available_error_type 0;
  if truthy rc then mret (rc, [])
  else mret (0, (filter (λ l, truthy (Z.land available l.1) = true) error_type_lines).*2).

(** [error_type_get]. *)
Definition error_type_get : M einj (Z * Z) := t ← gets error_type; mret (0, t).

(** [error_type_set]. *)
Definition error_type_set (val : Z) : M einj Z :=
  let vendor := u32 (Z.land val ACPI5_VENDOR_BIT) in
  let tval := u32 (Z.land val 0x7fffffff) in
  if truthy (Z.land tval (u32 (tval - 1))) then mret (- EINVAL)
  else
    let set := modify (λ w, w <| error_type := u32 val |>);; mret 0 in
    if truthy vendor then set
    else
      '(rc, available) ← einj_get_available_error_type 0;
      if truthy rc then mret rc
      else if negb (truthy (Z.land val available)) then mret (- EINVAL)
      else set.

(** * The parameters of the firmware *)

(** [check_vendor_extension]: the numbers it prints into [vendor_dev]. *)
Definition check_vendor_extension (paddr : Z) (v5param : set_error_type_with_address) : M einj () :=
  let offset := i32 (vendor_extension v5param) in
  if offset =? 0 then mret ()
  else
    let pa := u64 (paddr + offset) in
    v ← acpi_os_map_iomem pa sizeof_vendor;
    if negb v then mret ()
    else
      sbdf ← ask_u32; vendor ← ask; device ← ask; rev ← ask;
      modify (λ w, w <| vendor_dev := Some [Z.shiftr sbdf 24; Z.land (Z.shiftr sbdf 16) 0xff; Z.land (Z.shiftr sbdf 11) 0x1f;
                                            Z.land (Z.shiftr sbdf 8) 0x7; u16 vendor; u16 device; u8 rev] |>);;
      release (Iomem pa sizeof_vendor).

(** An entry of the table; what lies behind the table is not read. *)
Definition table_entry (i : Z) : option acpi_entry :=
  if (0 <=? i) && (sizeof_table + (i + 1) * sizeof_entry <=? tab_length einj_tab) then Some (tab_entry einj_tab i) else None.

Definition is_write_to_memory (e : acpi_entry) : bool :=
  (instruction e =? WRITE_REGISTER) && (space_id e =? ADR_SPACE_SYSTEM_MEMORY).

(** The loop of [einj_get_parameter_address]: [pa_v4] and [pa_v5]. *)
Definition find_parameters : M einj (Z * Z) :=
  loop 0 (entries einj_tab) (λ i '(pa_v4, pa_v5),
    e ← lift (table_entry i);
    let pa_v4 := if (act e =? ACT_SET_ERROR_TYPE) && is_write_to_memory e then address e else pa_v4 in
    let pa_v5 := if (act e =? ACT_SET_ERROR_TYPE_WITH_ADDRESS) && is_write_to_memory e then address e else pa_v5 in
    mret (pa_v4, pa_v5)) (0, 0).

Definition read_v5 : M einj set_error_type_with_address :=
  t ← ask_u32; v ← ask_u32; f ← ask_u32; a ← ask_u32; m ← ask_u64; r ← ask_u64; s ← ask_u32;
  mret (Build_set_error_type_with_address t v f a m r s).
Definition read_v4 : M einj einj_parameter :=
  t ← ask_u64; r1 ← ask_u64; r2 ← ask_u64; p1 ← ask_u64; p2 ← ask_u64; mret (Build_einj_parameter t r1 r2 p1 p2).

(** The unpublished parameter of older firmware. *)
Definition get_v4 (pa_v4 : Z) : M einj (option parameter) :=
  ext ← gets param_extension;
  if ext && truthy pa_v4 then
    ok ← acpi_os_map_iomem pa_v4 sizeof_v4;
    if negb ok then mret None
    else
      p ← read_v4;
      if truthy (reserved1 p) || truthy (reserved2 p) then release (Iomem pa_v4 sizeof_v4);; mret None
      else mret (Some (V4 pa_v4 p))
  else mret None.

(** [einj_get_parameter_address]. *)
Definition einj_get_parameter_address : M einj (option parameter) :=
  '(pa_v4, pa_v5) ← find_parameters;
  if truthy pa_v5 then
    ok ← acpi_os_map_iomem pa_v5 sizeof_v5;
    if ok : bool then
      p ← read_v5;
      modify (λ w, w <| acpi5 := true |>);;
      check_vendor_extension pa_v5 p;;
      mret (Some (V5 pa_v5 p))
    else get_v4 pa_v4
  else get_v4 pa_v4.

(** * The trigger action table *)

(** [einj_check_trigger_header]. *)
Definition einj_check_trigger_header (t : acpi_trigger) : Z :=
  if negb (header_size t =? sizeof_trigger) then - EINVAL
  else if (PAGE_SIZE <? table_size t) || (table_size t <? header_size t) then - EINVAL
  else if negb (entry_count t =? (table_size t - header_size t) / sizeof_entry) then - EINVAL
  else 0.

(** An entry of a trigger table of which [size] bytes are mapped. *)
Definition mapped_entry (t : acpi_trigger) (size i : Z) : option acpi_entry :=
  if (0 <=? i) && (sizeof_trigger + (i + 1) * sizeof_entry <=? size) then Some (trigger_entry t i) else None.

(** [einj_get_trigger_parameter_region]: its index. *)
Definition einj_get_trigger_parameter_region (t : acpi_trigger) (size p1 p2 : Z) : M einj (option Z) :=
  r ← loop_ret 0 (entry_count t) (λ i (_ : ()),
    e ← lift (mapped_entry t size i);
    if (act e =? ACT_TRIGGER_ERROR) && (instruction e =? WRITE_REGISTER_VALUE)
       && (space_id e =? ADR_SPACE_SYSTEM_MEMORY) && (Z.land (address e) p2 =? Z.land p1 p2)
    then mret (inr i) else mret (inl ())) ();
  mret (match r with inr i => Some i | inl _ => None end).

(** The labels of [__einj_error_trigger], from the last one up; [tab] is the size of the
    table that is mapped. *)
Definition out (p : Z) (tab : option Z) (rc : Z) : M einj Z :=
  match tab with Some size => release (Ioremap p size) | None => mret () end;; mret rc.
Definition out_rel_header (p : Z) (tab : option Z) (rc : Z) : M einj Z :=
  release (Region p sizeof_trigger);; out p tab rc.
Definition out_rel_entry (p size : Z) (tab : option Z) (rc : Z) : M einj Z :=
  release (Region (u64 (p + sizeof_trigger)) (size - sizeof_trigger));; out_rel_header p tab rc.
Definition out_fini (p size rc : Z) : M einj Z :=
  apei_resources_fini Trigger;; out_rel_entry p size (Some size) rc.
Definition out_release (p size rc : Z) : M einj Z :=
  apei_resources_release Trigger;; out_fini p size rc.

(** The block that takes the target address out of the trigger's resources. *)
Definition sub_target (t : acpi_trigger) (size p1 p2 : Z) : M einj Z :=
  o ← einj_get_trigger_parameter_region t size p1 p2;
  match o with
  | Some _ =>
      rc ← apei_resources_add Addr;
      if truthy rc then mret rc
      else rc ← apei_resources_sub; apei_resources_fini Addr;; mret rc
  | None => apei_resources_fini Addr;; mret 0
  end.

(** [__einj_error_trigger]. *)
Definition __einj_error_trigger (p type p1 p2 : Z) : M einj Z :=
  r ← request_mem_region p sizeof_trigger;
  if negb r then out p None (- EIO)
  else
  m ← ioremap_cache p sizeof_trigger;
  if negb m then out_rel_header p None (- EIO)
  else
  let t := trigger_mem p in
  let rc := einj_check_trigger_header t in
  if truthy rc then out_rel_header p (Some sizeof_trigger) rc
  else if negb (truthy (entry_count t)) then out_rel_header p (Some sizeof_trigger) rc
  else
  let size := table_size t in
  r ← request_mem_region (u64 (p + sizeof_trigger)) (size - sizeof_trigger);
  if negb r then out_rel_header p (Some sizeof_trigger) (- EIO)
  else
  release (Ioremap p sizeof_trigger);;
  m ← ioremap_cache p size;
  if negb m then out_rel_entry p size None (- EIO)
  else
  rc ← apei_exec_collect_resources Trigger;
  if truthy rc then out_fini p size rc
  else
  rc ← apei_resources_sub;
  if truthy rc then out_fini p size rc
  else
  w ← get;
  rc ← (if (param_extension w || acpi5 w) && truthy (Z.land type MEM_ERROR_MASK) && truthy p2
        then sub_target t size p1 p2 else mret 0);
  if truthy rc then out_fini p size rc
  else
  rc ← apei_resources_request Trigger;
  if truthy rc then out_fini p size rc
  else
  _ ← apei_exec_pre_map_gars Trigger;
  '(rc, _) ← apei_exec_run TRIGGER_ERROR;
  apei_exec_post_unmap_gars Trigger;;
  out_release p size rc.

(** * Injection *)

(** [einj_timedout]. *)
Definition einj_timedout (t : Z) : bool * Z :=
  if i64 t <? SPIN_UNIT then (true, t) else (false, u64 (t - SPIN_UNIT)).

(** The loop until the operation is over: its error, or 0. *)
Fixpoint busy_wait (fuel : nat) (timeout : Z) : M einj Z :=
  match fuel with
  | O => wait
  | S fuel =>
      '(rc, val) ← apei_exec_run CHECK_BUSY_STATUS;
      if truthy rc then mret rc
      else if negb (truthy (Z.land val EINJ_OP_BUSY)) then mret 0
      else
        let '(over, timeout) := einj_timedout timeout in
        if over then mret (- EIO) else busy_wait fuel timeout
  end.
(** The firmware has [FIRMWARE_TIMEOUT / SPIN_UNIT] spins. *)
Definition busy_fuel : nat := Z.to_nat (FIRMWARE_TIMEOUT / SPIN_UNIT + 1).

(** What is written to the firmware's ACPI 5 parameters. *)
Definition set_v5 (vendor_flags type flags p1 p2 p3 p4 : Z) (p : set_error_type_with_address)
    : set_error_type_with_address :=
  let p := p <| v5_type := type |> in
  if truthy (Z.land type ACPI5_VENDOR_BIT) then
    let p := if vendor_flags =? SETWA_FLAGS_APICID then p <| apicid := u32 p1 |>
             else if vendor_flags =? SETWA_FLAGS_MEM then p <| memory_address := p1 |> <| memory_address_range := p2 |>
             else if vendor_flags =? SETWA_FLAGS_PCIE_SBDF then p <| pcie_sbdf := u32 p1 |>
             else p in
    p <| v5_flags := vendor_flags |>
  else if truthy flags then
    p <| v5_flags := flags |> <| memory_address := p1 |> <| memory_address_range := p2 |>
      <| apicid := u32 p3 |> <| pcie_sbdf := u32 p4 |>
  else if (type =? PROCESSOR_CORRECTABLE) || (type =? PROCESSOR_UNCORRECTABLE) || (type =? PROCESSOR_FATAL) then
    p <| apicid := u32 p1 |> <| v5_flags := SETWA_FLAGS_APICID |>
  else if (type =? MEMORY_CORRECTABLE) || (type =? MEMORY_UNCORRECTABLE) || (type =? MEMORY_FATAL) then
    p <| memory_address := p1 |> <| memory_address_range := p2 |> <| v5_flags := SETWA_FLAGS_MEM |>
  else if (type =? PCIX_CORRECTABLE) || (type =? PCIX_UNCORRECTABLE) || (type =? PCIX_FATAL) then
    p <| pcie_sbdf := u32 p1 |> <| v5_flags := SETWA_FLAGS_PCIE_SBDF |>
  else p.

(** The error type is set in the parameters, or by an action of its own: its error, or 0. *)
Definition set_type (type flags p1 p2 p3 p4 : Z) : M einj Z :=
  w ← get;
  if acpi5 w then
    match einj_param w with
    | Some (V5 pa p) =>
        modify (λ w, w <| einj_param := Some (V5 pa (set_v5 (vendor_flags w) type flags p1 p2 p3 p4 p)) |>);; mret 0
    | _ => undefined
    end
  else
    '(rc, _) ← apei_exec_run SET_ERROR_TYPE;
    if truthy rc then mret rc
    else
      match einj_param w with
      | None => mret 0
      | Some (V4 pa p) =>
          modify (λ w, w <| einj_param := Some (V4 pa (p <| param1 := p1 |> <| param2 := p2 |>)) |>);; mret 0
      | Some (V5 _ _) => undefined
      end.

(** [__einj_error_inject]. *)
Definition __einj_error_inject (type flags p1 p2 p3 p4 : Z) : M einj Z :=
  '(rc, _) ← apei_exec_run BEGIN_OPERATION;
  if truthy rc then mret rc
  else
  rc ← set_type type flags p1 p2 p3 p4;
  if truthy rc then mret rc
  else
  '(rc, _) ← apei_exec_run EXECUTE_OPERATION;
  if truthy rc then mret rc
  else
  rc ← busy_wait busy_fuel FIRMWARE_TIMEOUT;
  if truthy rc then mret rc
  else
  '(rc, val) ← apei_exec_run GET_COMMAND_STATUS;
  if truthy rc then mret rc
  else if negb (val =? EINJ_STATUS_SUCCESS) then mret (- EBUSY)
  else
  '(rc, trigger_paddr) ← apei_exec_run GET_TRIGGER_TABLE;
  if truthy rc then mret rc
  else
  n ← gets notrigger;
  rc ← (if n =? 0 then __einj_error_trigger trigger_paddr type p1 p2 else mret 0);
  if truthy rc then mret rc
  else
  '(rc, _) ← apei_exec_run END_OPERATION;
  mret rc.

(** [PFN_DOWN]. *)
Definition PFN_DOWN (x : Z) : Z := Z.shiftr x PAGE_SHIFT.

(** [einj_error_inject]. *)
Definition einj_error_inject (type flags p1 p2 p3 p4 : Z) : M einj Z :=
  let legal := Z.lor (Z.lor SETWA_FLAGS_APICID SETWA_FLAGS_MEM) SETWA_FLAGS_PCIE_SBDF in
  if truthy flags && truthy (Z.ldiff flags legal) then mret (- EINVAL)
  else
  w ← get;
  let inject := __einj_error_inject type flags p1 p2 p3 p4 in
  if negb (param_extension w || acpi5 w) then inject
  else if (if truthy (Z.land type ACPI5_VENDOR_BIT) then negb (vendor_flags w =? SETWA_FLAGS_MEM)
           else negb (truthy (Z.land type MEM_ERROR_MASK)) && negb (truthy (Z.land flags SETWA_FLAGS_MEM)))
  then inject
  else if negb (page_is_ram (PFN_DOWN (Z.land p1 p2))) || negb (Z.land p2 PAGE_MASK =? PAGE_MASK) then mret (- EINVAL)
  else inject.

(** [error_inject_set]. *)
Definition error_inject_set : M einj Z :=
  w ← get;
  if negb (truthy (error_type w)) then mret (- EINVAL)
  else einj_error_inject (error_type w) (error_flags w) (error_param1 w) (error_param2 w) (error_param3 w) (error_param4 w).

(** * The module *)

(** [einj_check_table]. *)
Definition einj_check_table : Z :=
  if negb (header_length einj_tab =? sizeof_table - sizeof_header) && negb (header_length einj_tab =? sizeof_table) then - EINVAL
  else if tab_length einj_tab <? sizeof_table then - EINVAL
  else if negb (entries einj_tab =? (tab_length einj_tab - sizeof_table) / sizeof_entry) then - EINVAL
  else 0.

(** Debugfs files, made one by one up to the first failure. *)
Fixpoint create_files (names : list string) : M einj bool :=
  match names with
  | [] => mret true
  | _ :: names => ok ← ask_ok; if ok : bool then create_files names else mret false
  end.

(** The end of the mapping of the parameters, in [einj_init] and [einj_exit]. *)
Definition unmap_param : M einj () :=
  w ← get;
  match einj_param w with
  | None => mret ()
  | Some (V5 pa _) | Some (V4 pa _) => release (Iomem pa (if acpi5 w then sizeof_v5 else sizeof_v4))
  end.

(** The labels of [einj_init]. *)
Definition err_cleanup (rc : Z) : M einj Z := release_any Debugfs;; mret rc.
Definition err_fini (rc : Z) : M einj Z := apei_resources_fini Module;; err_cleanup rc.
Definition err_release (rc : Z) : M einj Z := apei_resources_release Module;; err_fini rc.
Definition err_unmap (rc : Z) : M einj Z := unmap_param;; apei_exec_post_unmap_gars Module;; err_release rc.

(** What [acpi_get_table] answers. *)
Inductive table_status : Set := Found | NotFound | Failed.

(** [einj_init]. *)
Definition einj_init (acpi_disabled : bool) (status : table_status) : M einj Z :=
  if acpi_disabled then mret (- ENODEV)
  else
  match status with
  | NotFound => mret (- ENODEV)
  | Failed => mret (- EINVAL)
  | Found =>
  if truthy einj_check_table then mret (- EINVAL)
  else
  dir ← request Debugfs;
  if negb dir then err_cleanup (- ENOMEM)
  else
  ok ← create_files ["available_error_type"; "error_type"; "error_inject"]%string;
  if negb ok then err_cleanup (- ENOMEM)
  else
  rc ← apei_exec_collect_resources Module;
  if truthy rc then err_fini rc
  else
  rc ← apei_resources_request Module;
  if truthy rc then err_fini rc
  else
  _ ← apei_exec_pre_map_gars Module;
  param ← einj_get_parameter_address;
  modify (λ w, w <| einj_param := param |>);;
  w ← get;
  ok ← (if (param_extension w || acpi5 w) && bool_decide (is_Some param)
        then create_files ["flags"; "param1"; "param2"; "param3"; "param4"; "notrigger"]%string else mret true);
  if negb ok then err_unmap (- ENOMEM)
  else
  w ← get;
  ok ← (if bool_decide (is_Some (vendor_dev w)) then create_files ["vendor"; "vendor_flags"]%string else mret true);
  if negb ok then err_unmap (- ENOMEM) else mret 0
  end.

(** [einj_exit]. *)
Definition einj_exit : M einj () :=
  unmap_param;; apei_exec_post_unmap_gars Module;; apei_resources_release Module;; apei_resources_fini Module;;
  release_any Debugfs.

(** * What is held *)

(** Where the parameters are. *)
Definition location (o : option parameter) : option (bool * Z) :=
  match o with Some (V5 pa _) => Some (true, pa) | Some (V4 pa _) => Some (false, pa) | None => None end.
(** The module's variables, but for the contents of the parameters. *)
Definition settings (w : einj) :=
  (acpi5 w, param_extension w, notrigger w, vendor_flags w, vendor_dev w, location (einj_param w),
   (error_type w, error_flags w, error_param1 w, error_param2 w, error_param3 w, error_param4 w)).

(** The actions [a] have been executed, [l] is held besides [h], the stray releases exceed
    the failed [pre_map]s by [k], and the variables are [S]. *)
Record own (h : list resource) (a : list action) (l : list resource) (k : Z)
  (S : bool * bool * Z * Z * option (list Z) * option (bool * Z) * (Z * Z * Z * Z * Z * Z)) (w : einj) : Prop := {
  own_actions : actions w = a;
  own_held : held w = l ++ h;
  own_strays : strays w - failed_premaps w = k;
  own_settings : settings w = S
}.

Lemma own_here w : own (held w) (actions w) [] (strays w - failed_premaps w) (settings w) w.
Proof. by split. Qed.

Section triples.
Context (h : list resource).
#[local] Abbreviation own := (own h).

Lemma hoare_ask a l k S : hoare (own a l k S) ask (λ _, own a l k S).
Proof. intros w [E1 E2 E3 E4]. eexists _, _. split; [reflexivity|]. by split. Qed.
Lemma hoare_ask_ok a l k S : hoare (own a l k S) ask_ok (λ _, own a l k S).
Proof. eapply hoare_bind; [apply hoare_ask|]. intros x. by apply hoare_ret. Qed.
Lemma hoare_ask_rc a l k S : hoare (own a l k S) ask_rc (λ _, own a l k S).
Proof. eapply hoare_bind; [apply hoare_ask|]. intros x. by apply hoare_ret. Qed.
Lemma hoare_ask_u32 a l k S : hoare (own a l k S) ask_u32 (λ _, own a l k S).
Proof. eapply hoare_bind; [apply hoare_ask|]. intros x. by apply hoare_ret. Qed.
Lemma hoare_ask_u64 a l k S : hoare (own a l k S) ask_u64 (λ _, own a l k S).
Proof. eapply hoare_bind; [apply hoare_ask|]. intros x. by apply hoare_ret. Qed.

Lemma hoare_acquire r a l k S : hoare (own a l k S) (acquire r) (λ _, own a (r :: l) k S).
Proof. apply hoare_modify. intros w [E1 E2 E3 E4]. split; cbn; try done. by rewrite E2. Qed.

Lemma remove1_app r l : r ∈ l → remove1 r (l ++ h) = remove1 r l ++ h.
Proof.
  induction l as [|x l IH]; intros Hr; [by apply elem_of_nil in Hr|]. cbn. case_decide; [done|].
  apply elem_of_cons in Hr as [->|Hr]; [done|]. cbn. by rewrite IH.
Qed.
Lemma remove1_notin r l : r ∉ l → remove1 r l = l.
Proof.
  induction l as [|x l IH]; intros Hr; [done|]. apply not_elem_of_cons in Hr as [Hx Hr]. cbn.
  rewrite decide_False by done. by rewrite IH.
Qed.

Lemma hoare_release r a l k S : r ∈ l → hoare (own a l k S) (release r) (λ _, own a (remove1 r l) k S).
Proof.
  intros Hr. apply hoare_modify. intros w [E1 E2 E3 E4].
  rewrite decide_True by (rewrite E2; apply elem_of_app; by left). split; cbn; try done. rewrite E2. by apply remove1_app.
Qed.
(** Releasing what is not held. *)
Lemma hoare_stray r a l k S : r ∉ l ++ h → hoare (own a l k S) (release r) (λ _, own a l (k + 1) S).
Proof.
  intros Hr. apply hoare_modify. intros w [E1 E2 E3 E4]. rewrite decide_False by by rewrite E2.
  split; cbn; try done. lia.
Qed.
Lemma hoare_release_any r a l k S : r ∈ l ∨ r ∉ h → hoare (own a l k S) (release_any r) (λ _, own a (remove1 r l) k S).
Proof.
  intros Hr. apply hoare_modify. intros w [E1 E2 E3 E4]. split; cbn; try done. rewrite E2.
  destruct (decide (r ∈ l)); [by apply remove1_app|]. destruct Hr as [?|Hr]; [done|].
  rewrite !remove1_notin; [done|done|]. rewrite elem_of_app. by intros [|].
Qed.

Lemma hoare_request r a l k S : hoare (own a l k S) (request r) (λ ok, own a (if ok then r :: l else l) k S).
Proof.
  eapply hoare_bind; [apply hoare_ask_ok|]. intros [].
  - eapply hoare_bind; [apply hoare_acquire|]. intros ?. by apply hoare_ret.
  - by apply hoare_ret.
Qed.
Lemma hoare_acquire_rc r a l k S :
  hoare (own a l k S) (rc ← ask_rc; when (rc =? 0) (acquire r);; mret rc)
    (λ rc, own a (if rc =? 0 then r :: l else l) k S).
Proof.
  eapply hoare_bind; [apply hoare_ask_rc|]. intros rc. unfold when. destruct (rc =? 0) eqn:Erc.
  - eapply hoare_bind; [apply hoare_acquire|]. intros ?. apply hoare_ret. by rewrite Erc.
  - apply hoare_bind with (R := λ _, own a l k S); [by apply hoare_ret|]. intros ?. apply hoare_ret. by rewrite Erc.
Qed.
Lemma hoare_collect o a l k S : hoare (own a l k S) (apei_exec_collect_resources o) (λ _, own a (Nodes o :: l) k S).
Proof. eapply hoare_bind; [apply hoare_acquire|]. intros ?. apply hoare_ask_rc. Qed.
(** A failed [pre_map] leaves a stray [post_unmap] to be done. *)
Lemma hoare_pre_map o a l k S :
  hoare (own a l k S) (apei_exec_pre_map_gars o)
    (λ rc, own a (if rc =? 0 then Gars o :: l else l) (if rc =? 0 then k else k - 1) S).
Proof.
  eapply hoare_bind; [apply hoare_ask_rc|]. intros rc. destruct (rc =? 0) eqn:Erc.
  - eapply hoare_bind; [apply hoare_acquire|]. intros ?. apply hoare_ret. by rewrite Erc.
  - eapply (hoare_bind _ _ (λ _, own a l (k - 1) S)).
    + apply hoare_modify. intros w [E1 E2 E3 E4]. split; cbn; try done. lia.
    + intros ?. apply hoare_ret. by rewrite Erc.
Qed.
Lemma hoare_run x a l k S : hoare (own a l k S) (apei_exec_run x) (λ _, own (x :: a) l k S).
Proof.
  eapply (hoare_bind _ _ (λ _, own (x :: a) l k S)).
  { apply hoare_modify. intros w [E1 E2 E3 E4]. split; cbn; try done. by rewrite E1. }
  intros ?. eapply hoare_bind; [apply hoare_ask_rc|]. intros rc.
  eapply hoare_bind; [apply hoare_ask_u64|]. intros v. by apply hoare_ret.
Qed.

(** ** The trigger *)

Lemma remove1_eq r l : remove1 r (r :: l) = l.
Proof. cbn. by rewrite decide_True. Qed.
Lemma remove1_ne r x l : x ≠ r → remove1 r (x :: l) = x :: remove1 r l.
Proof. intros Hx. cbn. by rewrite decide_False. Qed.

Definition mapped (p : Z) (tab : option Z) : list resource :=
  match tab with Some size => [Ioremap p size] | None => [] end.
(** [m] answers [rc] and leaves nothing held besides [h]. *)
Definition clean (a : list action) (k : Z) S (rc : Z) : Z → einj → Prop := λ r w, r = rc ∧ own a [] k S w.

Lemma hoare_out p tab rc a k S : hoare (own a (mapped p tab) k S) (out p tab rc) (clean a k S rc).
Proof.
  unfold out. destruct tab as [size|].
  - eapply hoare_bind; [by apply hoare_release; left|]. intros ?. cbn. rewrite decide_True by done. by apply hoare_ret.
  - eapply hoare_bind; [by apply (hoare_ret _ _ (λ _, own a [] k S))|]. intros ?. by apply hoare_ret.
Qed.

Lemma hoare_out_rel_header p tab rc a k S :
  hoare (own a (mapped p tab ++ [Region p sizeof_trigger]) k S) (out_rel_header p tab rc) (clean a k S rc).
Proof.
  eapply hoare_bind; [apply hoare_release, elem_of_app; right; by left|]. intros ?.
  destruct tab as [size|]; cbn [mapped app]; rewrite ?remove1_ne, remove1_eq by done;
    [apply (hoare_out p (Some size))|apply (hoare_out p None)].
Qed.

#[local] Abbreviation entry_region p size := (Region (u64 (p + sizeof_trigger)) (size - sizeof_trigger)).
Lemma hoare_out_rel_entry p size tab rc a k S :
  hoare (own a (mapped p tab ++ [entry_region p size; Region p sizeof_trigger]) k S) (out_rel_entry p size tab rc)
    (clean a k S rc).
Proof.
  eapply hoare_bind; [apply hoare_release, elem_of_app; right; by left|]. intros ?.
  destruct tab as [s|]; cbn [mapped app]; rewrite ?remove1_ne, remove1_eq by done;
    [apply (hoare_out_rel_header p (Some s))|apply (hoare_out_rel_header p None)].
Qed.

#[local] Abbreviation in_table p size := [Nodes Trigger; Ioremap p size; entry_region p size; Region p sizeof_trigger].
Lemma hoare_out_fini p size rc a k S : hoare (own a (in_table p size) k S) (out_fini p size rc) (clean a k S rc).
Proof.
  eapply hoare_bind; [by apply hoare_release_any; left; left|]. intros ?. rewrite remove1_eq.
  apply (hoare_out_rel_entry p size (Some size)).
Qed.
Lemma hoare_out_release p size rc a k S :
  hoare (own a (Requested Trigger :: in_table p size) k S) (out_release p size rc) (clean a k S rc).
Proof.
  eapply hoare_bind; [by apply hoare_release; left|]. intros ?. rewrite remove1_eq. apply hoare_out_fini.
Qed.

Lemma mapped_entry_is_Some t i :
  einj_check_trigger_header t = 0 → 0 <= i < entry_count t → is_Some (mapped_entry t (table_size t) i).
Proof.
  unfold einj_check_trigger_header. intros E Hi. pose proof sizes_ok as (_ & He & Ht).
  destruct (Z.eqb_spec (header_size t) sizeof_trigger) as [Hh|]; [|done]. cbn in E.
  destruct (PAGE_SIZE <? table_size t); [done|]. destruct (Z.ltb_spec (table_size t) (header_size t)) as [|Hs]; [done|]. cbn in E.
  destruct (Z.eqb_spec (entry_count t) ((table_size t - header_size t) / sizeof_entry)) as [Hc|]; [|done].
  unfold mapped_entry. rewrite (proj2 (andb_true_iff _ _)); [by eexists|]. split; apply Z.leb_le; [lia|].
  rewrite Hh in Hc, Hs. pose proof (Z.mul_div_le (table_size t - sizeof_trigger) sizeof_entry He). nia.
Qed.

(** The search of the table reads mapped entries only. *)
Lemma hoare_region t p1 p2 a l k S : einj_check_trigger_header t = 0 →
  hoare (own a l k S) (einj_get_trigger_parameter_region t (table_size t) p1 p2) (λ _, own a l k S).
Proof.
  intros Ht. unfold einj_get_trigger_parameter_region.
  eapply (hoare_bind _ _ (λ _, own a l k S)); [|intros ?; by apply hoare_ret]. unfold loop_ret.
  assert (∀ n i, 0 <= i → i + Z.of_nat n <= Z.max 0 (entry_count t) →
    hoare (own a l k S) (loop_ret_n n i (λ i (_ : ()),
      e ← lift (mapped_entry t (table_size t) i);
      if (act e =? ACT_TRIGGER_ERROR) && (instruction e =? WRITE_REGISTER_VALUE)
         && (space_id e =? ADR_SPACE_SYSTEM_MEMORY) && (Z.land (address e) p2 =? Z.land p1 p2)
      then mret (inr i) else mret (inl ())) ()) (λ _, own a l k S)) as Hloop; [|apply Hloop; lia].
  induction n as [|n IH]; intros i H0 Hn; cbn [loop_ret_n]; [by apply hoare_ret|].
  destruct (mapped_entry_is_Some t i Ht) as [e ->]; [lia|].
  eapply (hoare_bind _ _ (λ _, own a l k S)).
  - eapply (hoare_bind _ _ (λ _, own a l k S)); [by apply (hoare_ret _ e)|]. intros ?.
    apply hoare_if; intros _; by apply hoare_ret.
  - intros [[]|r]; [apply IH; lia|by apply hoare_ret].
Qed.

Context (Haddr : Nodes Addr ∉ h) (Hgars : Gars Trigger ∉ h).

Lemma hoare_sub_target t p1 p2 a l k S : einj_check_trigger_header t = 0 → Nodes Addr ∉ l →
  hoare (own a l k S) (sub_target t (table_size t) p1 p2) (λ _, own a l k S).
Proof.
  intros Ht Hl. eapply hoare_bind; [by apply hoare_region|]. intros [i|].
  - eapply hoare_bind; [apply hoare_acquire_rc|]. intros rc. unfold truthy.
    destruct (rc =? 0); cbn [negb]; [|by apply hoare_ret].
    eapply hoare_bind; [apply hoare_ask_rc|]. intros ?.
    eapply hoare_bind; [by apply hoare_release_any; left; left|]. intros ?. rewrite remove1_eq. by apply hoare_ret.
  - eapply hoare_bind; [by apply hoare_release_any; right|]. intros ?. rewrite remove1_notin by done. by apply hoare_ret.
Qed.

(** What the trigger leaves: the action is executed once or not at all. *)
Definition triggered (a : list action) (k : Z) S : Z → einj → Prop := λ _ w, own a [] k S w ∨ own (TRIGGER_ERROR :: a) [] k S w.
Lemma clean_triggered a k S rc r w : clean a k S rc r w → triggered a k S r w.
Proof. intros [_ Hw]. by left. Qed.
#[local] Hint Resolve clean_triggered : core.

(** From the mapped table on. *)
Lemma hoare_run_trigger p type p1 p2 a k S : einj_check_trigger_header (trigger_mem p) = 0 →
  let size := table_size (trigger_mem p) in
  hoare (own a (in_table p size) k S)
    (rc ← apei_resources_sub;
     if truthy rc then out_fini p size rc
     else
     w ← get;
     rc ← (if (param_extension w || acpi5 w) && truthy (Z.land type MEM_ERROR_MASK) && truthy p2
           then sub_target (trigger_mem p) size p1 p2 else mret 0);
     if truthy rc then out_fini p size rc
     else
     rc ← apei_resources_request Trigger;
     if truthy rc then out_fini p size rc
     else
     _ ← apei_exec_pre_map_gars Trigger;
     '(rc, _) ← apei_exec_run TRIGGER_ERROR;
     apei_exec_post_unmap_gars Trigger;;
     out_release p size rc) (triggered a k S).
Proof.
  intros Ht size. assert (∀ rc, hoare (own a (in_table p size) k S) (out_fini p size rc) (triggered a k S)) as Hfini.
  { intros rc. by eapply hoare_conseq; [apply hoare_out_fini| |eauto]. }
  eapply hoare_bind; [apply hoare_ask_rc|]. intros rc1. apply hoare_if; intros _; [apply Hfini|].
  apply hoare_get. intros w0 Hw0. apply hoare_conseq with (P' := own a (in_table p size) k S) (Q' := triggered a k S); [|by intros ? ->|done].
  eapply (hoare_bind _ _ (λ _, own a (in_table p size) k S)).
  { apply hoare_if; intros _; [|by apply hoare_ret]. apply hoare_sub_target; [done|].
    repeat (apply not_elem_of_cons; split; [done|]). apply not_elem_of_nil. }
  intros rc2. apply hoare_if; intros _; [apply Hfini|].
  eapply hoare_bind; [apply hoare_acquire_rc|]. intros rc3. unfold truthy.
  destruct (rc3 =? 0); cbn [negb]; [|apply Hfini].
  eapply hoare_bind; [apply hoare_pre_map|]. intros rc4. cbv beta.
  eapply hoare_bind; [apply hoare_run|]. intros [rc5 v]. cbv beta iota.
  apply hoare_bind with (R := λ _, own (TRIGGER_ERROR :: a) (Requested Trigger :: in_table p size) k S).
  - destruct (rc4 =? 0).
    + eapply hoare_conseq; [by apply hoare_release; left|done|]. intros ? ?. by rewrite remove1_eq.
    + eapply hoare_conseq; [apply hoare_stray|done|].
      * cbn. repeat (apply not_elem_of_cons; split; [done|]). done.
      * intros ? ?. by rewrite Z.sub_add.
  - intros ?. eapply hoare_conseq; [apply hoare_out_release|done|]. intros r w [_ Hw]. by right.
Qed.

Lemma hoare_trigger p type p1 p2 a k S : hoare (own a [] k S) (__einj_error_trigger p type p1 p2) (triggered a k S).
Proof.
  unfold __einj_error_trigger. eapply hoare_bind; [apply hoare_request|]. intros []; cbn [negb].
  2: { by eapply hoare_conseq; [apply (hoare_out p None)| |eauto]. }
  eapply hoare_bind; [apply hoare_request|]. intros []; cbn [negb].
  2: { by eapply hoare_conseq; [apply (hoare_out_rel_header p None)| |eauto]. }
  assert (∀ rc, hoare (own a [Ioremap p sizeof_trigger; Region p sizeof_trigger] k S)
    (out_rel_header p (Some sizeof_trigger) rc) (triggered a k S)) as Hheader.
  { intros rc. by eapply hoare_conseq; [apply (hoare_out_rel_header p (Some sizeof_trigger))| |eauto]. }
  apply hoare_if; [intros _; apply Hheader|]. intros Ht%truthy_false.
  apply hoare_if; intros _; [apply Hheader|].
  eapply hoare_bind; [apply hoare_request|]. intros []; cbn [negb]; [|apply Hheader].
  eapply hoare_bind; [by apply hoare_release; right; left|]. intros ?. rewrite remove1_ne, remove1_eq by done.
  eapply hoare_bind; [apply hoare_request|]. intros []; cbn [negb].
  2: { by eapply hoare_conseq; [apply (hoare_out_rel_entry p _ None)| |eauto]. }
  eapply hoare_bind; [apply hoare_collect|]. intros rc0.
  apply hoare_if; intros _; [|by apply hoare_run_trigger].
  by eapply hoare_conseq; [apply hoare_out_fini| |eauto].
Qed.

(** ** The injection protocol *)

(** The actions of an injection that succeeds: with [n] polls, [fired] when the trigger
    table has a trigger to be fired. *)
Definition protocol (v5 : bool) (n : nat) (fired : bool) : list action :=
  BEGIN_OPERATION :: (if v5 then [] else [SET_ERROR_TYPE]) ++ EXECUTE_OPERATION :: replicate n CHECK_BUSY_STATUS
    ++ GET_COMMAND_STATUS :: GET_TRIGGER_TABLE :: (if fired then [TRIGGER_ERROR] else []) ++ [END_OPERATION].

(** The actions [p] have been executed, after those of [a0]. *)
Context (a0 : list action) (k : Z)
  (vars : bool * bool * Z * Z * option (list Z) * option (bool * Z) * (Z * Z * Z * Z * Z * Z)).
Definition did (p : list action) : einj → Prop := own (reverse p ++ a0) [] k vars.

Lemma did_run x p : hoare (did p) (apei_exec_run x) (λ _, did (p ++ [x])).
Proof. eapply hoare_conseq; [apply hoare_run|done|]. intros r w. unfold did. by rewrite reverse_snoc. Qed.

Lemma i64_small_u64 t : 0 <= t < 2 ^ 63 → i64 t = t.
Proof. intros Ht. apply i64_small. lia. Qed.

Lemma hoare_busy_wait fuel t p : 0 <= t < 2 ^ 63 → t / SPIN_UNIT < Z.of_nat fuel →
  hoare (did p) (busy_wait fuel t)
    (λ _ w, ∃ n, (1 <= n <= fuel)%nat ∧ did (p ++ replicate n CHECK_BUSY_STATUS) w).
Proof.
  revert t p. induction fuel as [|f IH]; intros t p Ht Hf.
  { pose proof (Z.div_pos t SPIN_UNIT). unfold SPIN_UNIT in *. lia. }
  cbn [busy_wait]. eapply hoare_bind; [apply did_run|]. intros [rc val]. cbv beta iota.
  assert (∀ r : Z, hoare (did (p ++ [CHECK_BUSY_STATUS])) (mret r : M einj Z)
    (λ _ w, ∃ n, (1 <= n <= S f)%nat ∧ did (p ++ replicate n CHECK_BUSY_STATUS) w)) as Hend.
  { intros r. apply hoare_ret. intros w Hw. exists 1%nat. split; [lia|done]. }
  apply hoare_if; intros _; [apply Hend|]. apply hoare_if; intros _; [apply Hend|].
  unfold einj_timedout. rewrite i64_small_u64 by done. destruct (Z.ltb_spec t SPIN_UNIT); [apply Hend|].
  unfold SPIN_UNIT in *. unfold u64. rewrite wrap_small by lia.
  eapply hoare_conseq; [apply IH; [lia|]|done|].
  - replace (t - 100) with (t + (-1) * 100) by lia. rewrite Z.div_add by lia. lia.
  - intros r w (n & Hn & Hw). exists (S n). split; [lia|]. cbn. by rewrite <- app_assoc in Hw.
Qed.

(** The module knows which parameters it has. *)
Definition param_ok (w : einj) : Prop :=
  acpi5 w = match einj_param w with Some (V5 _ _) => true | _ => false end.
Lemma param_ok_settings w w' : settings w' = settings w → param_ok w → param_ok w'.
Proof.
  unfold settings, param_ok. intros E Hp. injection E as E1 _ _ _ _ E2 _. rewrite E1, Hp.
  by destruct (einj_param w) as [[]|], (einj_param w') as [[]|].
Qed.

Lemma hoare_set_type p type flags p1 p2 p3 p4 v5 :
  hoare (λ w, did p w ∧ param_ok w ∧ acpi5 w = v5) (set_type type flags p1 p2 p3 p4)
    (λ _, did (p ++ if v5 : bool then [] else [SET_ERROR_TYPE])).
Proof.
  unfold set_type. apply hoare_get. intros w0 (Hw0 & Hp & <-). unfold param_ok in Hp.
  destruct (acpi5 w0) eqn:E5.
  - destruct (einj_param w0) as [[pa q|]|] eqn:Eq; try done. eapply hoare_bind.
    + apply (hoare_modify _ _ (λ _, did (p ++ []))). intros w ->. rewrite app_nil_r.
      destruct Hw0 as [H1 H2 H3 H4]. split; try done. rewrite <- H4. unfold settings. cbn. by rewrite Eq.
    + intros ?. by apply hoare_ret.
  - apply hoare_conseq with (P' := did p) (Q' := λ _, did (p ++ [SET_ERROR_TYPE])); [|by intros ? ->|done].
    eapply hoare_bind; [apply did_run|]. intros [rc v]. apply hoare_if; intros _; [by apply hoare_ret|].
    destruct (einj_param w0) as [[|pa q]|] eqn:Eq; [done| |by apply hoare_ret].
    apply hoare_bind with (R := λ _, did (p ++ [SET_ERROR_TYPE])); [|intros ?; by apply hoare_ret].
    apply hoare_modify. intros w [H1 H2 H3 H4]. split; try done. pose proof (own_settings _ _ _ _ _ _ Hw0) as H5.
    assert (location (einj_param w) = location (einj_param w0)) as El by (unfold settings in *; congruence).
    rewrite <- H4. unfold settings. cbn. by rewrite El, Eq.
Qed.

Definition stopped (v5 : bool) (p : list action) (rc : Z) (w : einj) : Prop :=
  ∃ n fired, (n <= busy_fuel)%nat ∧ did p w ∧ p `prefix_of` protocol v5 n fired ∧
    (rc = 0 → p = protocol v5 n fired ∧ (1 <= n)%nat).
Definition injected (v5 : bool) (rc : Z) (w : einj) : Prop := ∃ p, stopped v5 p rc w.

Lemma hoare_stop v5 p q n fired (rc : Z) : rc ≠ 0 → (n <= busy_fuel)%nat → p ++ q = protocol v5 n fired →
  hoare (did p) (mret rc) (injected v5).
Proof.
  intros Hrc Hn E. apply hoare_ret. intros w Hw. exists p, n, fired. split_and!; [done..|by exists q|done].
Qed.

Lemma busy_fuel_enough : FIRMWARE_TIMEOUT / SPIN_UNIT < Z.of_nat busy_fuel.
Proof. unfold busy_fuel. rewrite Z2Nat.id; done. Qed.

(** The end of an injection, after the polls. *)
Lemma hoare_after_busy type p1 p2 (v5 : bool) n p : (1 <= n <= busy_fuel)%nat →
  p = BEGIN_OPERATION :: (if v5 then [] else [SET_ERROR_TYPE]) ++ EXECUTE_OPERATION :: replicate n CHECK_BUSY_STATUS →
  hoare (did p)
    ('(rc, val) ← apei_exec_run GET_COMMAND_STATUS;
     if truthy rc then mret rc
     else if negb (val =? EINJ_STATUS_SUCCESS) then mret (- EBUSY)
     else
     '(rc, trigger_paddr) ← apei_exec_run GET_TRIGGER_TABLE;
     if truthy rc then mret rc
     else
     n ← gets notrigger;
     rc ← (if n =? 0 then __einj_error_trigger trigger_paddr type p1 p2 else mret 0);
     if truthy rc then mret rc
     else
     '(rc, _) ← apei_exec_run END_OPERATION;
     mret rc) (injected v5).
Proof.
  intros Hn Hp. assert (∀ fired, protocol v5 n fired =
    p ++ GET_COMMAND_STATUS :: GET_TRIGGER_TABLE :: (if fired then [TRIGGER_ERROR] else []) ++ [END_OPERATION]) as Eprot.
  { intros fired. rewrite Hp. unfold protocol. cbn. by rewrite <- !app_assoc. }
  assert (∀ q q' fired (rc : Z), rc ≠ 0 → p ++ q ++ q' = protocol v5 n fired → hoare (did (p ++ q)) (mret rc : M einj Z) (injected v5)) as Hstop.
  { intros q q' fired rc Hrc Eq. eapply (hoare_stop _ _ q'); [done|apply Hn|]. by rewrite <- app_assoc. }
  clear Hp. eapply hoare_bind; [apply did_run|]. intros [rc1 val]. cbv beta iota.
  apply hoare_if; [intros Hrc%truthy_true; by apply (Hstop [_] [GET_TRIGGER_TABLE; TRIGGER_ERROR; END_OPERATION] true)|intros _].
  apply hoare_if; intros _; [by apply (Hstop [_] [GET_TRIGGER_TABLE; TRIGGER_ERROR; END_OPERATION] true)|].
  eapply hoare_bind; [apply did_run|]. intros [rc2 pa]. cbv beta iota. rewrite <- app_assoc. cbn [app].
  apply hoare_if; [intros Hrc%truthy_true; by apply (Hstop [_; _] [TRIGGER_ERROR; END_OPERATION] true)|intros _].
  apply hoare_bind with (R := λ _, did (p ++ [GET_COMMAND_STATUS; GET_TRIGGER_TABLE])).
  { intros w Hw. by exists (notrigger w), w. }
  intros no. apply hoare_bind with (R := λ _ w, ∃ fired : bool,
    did (p ++ GET_COMMAND_STATUS :: GET_TRIGGER_TABLE :: if fired then [TRIGGER_ERROR] else []) w).
  { apply hoare_if; intros _.
    - eapply hoare_conseq; [apply hoare_trigger|done|]. intros r w [Hw|Hw]; [by exists false|exists true].
      unfold did. by rewrite (app_assoc p [_; _] [_] : p ++ [_; _; _] = _), reverse_snoc.
    - apply hoare_ret. intros w Hw. by exists false. }
  intros rc3. apply hoare_pre. intros w0 [fired Hf].
  apply hoare_conseq with (P' := did (p ++ GET_COMMAND_STATUS :: GET_TRIGGER_TABLE :: if fired then [TRIGGER_ERROR] else []))
    (Q' := injected v5); [|by intros ? ->|done].
  apply hoare_if; [intros Hrc%truthy_true; by apply (Hstop _ [END_OPERATION] fired)|intros _].
  eapply hoare_bind; [apply did_run|]. intros [rc4 v]. cbv beta iota. rewrite <- app_assoc. cbn [app].
  apply hoare_ret. intros w Hw. exists (protocol v5 n fired), n, fired. rewrite Eprot.
  split_and!; [apply Hn|done|done|]. intros _. split; [done|apply Hn].
Qed.

Lemma hoare_inject type flags p1 p2 p3 p4 (v5 : bool) :
  hoare (λ w, did [] w ∧ param_ok w ∧ acpi5 w = v5) (__einj_error_inject type flags p1 p2 p3 p4) (injected v5).
Proof.
  pose (set := if v5 then [] else [SET_ERROR_TYPE]).
  pose (rest := [GET_COMMAND_STATUS; GET_TRIGGER_TABLE; TRIGGER_ERROR; END_OPERATION]).
  assert (∀ p q (rc : Z), rc ≠ 0 → p ++ q = protocol v5 0 true → hoare (did p) (mret rc : M einj Z) (injected v5)) as Hstop.
  { intros p q rc Hrc. apply hoare_stop; [done|lia]. }
  unfold __einj_error_inject.
  apply hoare_bind with (R := λ _ w, did [BEGIN_OPERATION] w ∧ param_ok w ∧ acpi5 w = v5).
  { intros w (Hw & Hp & H5). destruct (did_run BEGIN_OPERATION [] w Hw) as (r & w' & E & Hw'). exists r, w'.
    split_and!; [done..| |]; pose proof (own_settings _ _ _ _ _ _ Hw) as E1; pose proof (own_settings _ _ _ _ _ _ Hw') as E2;
      rewrite <- E1 in E2; [by eapply param_ok_settings|]. unfold settings in E2. congruence. }
  intros [rc1 v1]. cbv beta iota. apply hoare_if.
  { intros Hrc%truthy_true. eapply hoare_conseq; [|by intros w [Hw _]; exact Hw|by intros r w Hi; exact Hi].
    by apply (Hstop _ (set ++ EXECUTE_OPERATION :: rest)). }
  intros _. eapply hoare_bind; [apply hoare_set_type|]. intros rc2. fold set.
  apply hoare_if; [intros Hrc%truthy_true; by apply (Hstop _ (EXECUTE_OPERATION :: rest))|intros _].
  eapply hoare_bind; [apply did_run|]. intros [rc3 v3]. cbv beta iota. apply hoare_if.
  { intros Hrc%truthy_true. apply (Hstop _ rest); [done|]. by rewrite <- app_assoc. }
  intros _. eapply hoare_bind; [apply hoare_busy_wait; [done|apply busy_fuel_enough]|]. intros rc4.
  apply hoare_pre. intros w0 (n & Hn & Hw0).
  eapply hoare_conseq with (P' := did _); [|intros w ->; exact Hw0|by intros r w Hi; exact Hi].
  apply hoare_if.
  - intros Hrc%truthy_true. apply (hoare_stop v5 _ rest n true); [done|lia|].
    unfold protocol. fold set. by rewrite <- !app_assoc.
  - intros _. apply (hoare_after_busy _ _ _ _ n); [lia|]. fold set. by rewrite <- !app_assoc.
Qed.
End triples.

Lemma inject_ends w : param_ok w → Nodes Addr ∉ held w → Gars Trigger ∉ held w →
  hoare (λ v, v = w) error_inject_set
    (injected (held w) (actions w) (strays w - failed_premaps w) (settings w) (acpi5 w)).
Proof.
  intros Hp Ha Hg. pose proof (own_here w : did (held w) (actions w) (strays w - failed_premaps w) (settings w) [] w) as Hw.
  set (post := injected _ _ _ _ _).
  assert (∀ rc, rc ≠ 0 → hoare (λ v, v = w) (mret rc : M einj Z) post) as Hstop.
  { intros rc Hrc. apply hoare_ret. intros v ->. exists [], 0%nat, true. split_and!; [lia|done|apply prefix_nil|done]. }
  unfold error_inject_set. apply hoare_get. intros w0 ->. apply hoare_if; intros _; [by apply Hstop|].
  unfold einj_error_inject. apply hoare_if; intros _; [by apply Hstop|]. apply hoare_get. intros w0 ->.
  set (inject := __einj_error_inject _ _ _ _ _ _). assert (hoare (λ v, v = w) inject post) as Hin.
  { eapply hoare_conseq; [exact (hoare_inject (held w) Ha Hg (actions w) (strays w - failed_premaps w) (settings w) _ _ _ _ _ _ (acpi5 w))| |].
    - intros v ->. by split_and!.
    - intros r v Hi. exact Hi. }
  repeat (apply hoare_if; intros _); try done; by apply Hstop.
Qed.

(** C23: an injection ordered through [error_inject] ends, whatever the firmware and the
    kernel answer: it follows the protocol - begin, set the type, execute, poll at most
    10001 times, read the status, fetch and fire the trigger, end - and stops early only
    with an error; every region, mapping and request it took is given back, and nothing is
    released twice except where a failed [pre_map] was ignored. *)
Theorem error_inject_set_safe w :
  param_ok w → Nodes Addr ∉ held w → Gars Trigger ∉ held w →
  ∃ rc w', error_inject_set w = Ret (rc, w') ∧
    held w' = held w ∧ strays w' - strays w = failed_premaps w' - failed_premaps w ∧ settings w' = settings w ∧
    ∃ p n fired, actions w' = reverse p ++ actions w ∧ (n <= busy_fuel)%nat ∧
      p `prefix_of` protocol (acpi5 w) n fired ∧ (rc = 0 → p = protocol (acpi5 w) n fired ∧ (1 <= n)%nat).
Proof.
  intros Hp Ha Hg. destruct (inject_ends w Hp Ha Hg w eq_refl) as (rc & w' & E & p & n & fired & Hn & [H1 H2 H3 H4] & Hpre & Hz).
  exists rc, w'. split_and!; [done|done|lia|done|]. by exists p, n, fired.
Qed.

(** ** The busy wait *)

(** What poll [j] from [w] on tells: the result of the loop, or nothing while the firmware
    is busy. *)
Definition poll (w : einj) (j : nat) : option Z :=
  let rc := i32 (oracle (asked w + 2 * j)) in
  let val := u64 (oracle (asked w + 2 * j + 1)) in
  if truthy rc then Some rc else if negb (truthy (Z.land val EINJ_OP_BUSY)) then Some 0 else None.

Lemma busy_wait_step f t w : 0 <= t < 2 ^ 63 → ∃ w1, actions w1 = CHECK_BUSY_STATUS :: actions w ∧
  (∀ j, poll w1 j = poll w (S j)) ∧
  busy_wait (S f) t w = match poll w 0 with
    | Some r => Ret (r, w1)
    | None => if t <? SPIN_UNIT then Ret (- EIO, w1) else busy_wait f (t - SPIN_UNIT) w1
    end.
Proof.
  intros Ht. exists (w <| actions := CHECK_BUSY_STATUS :: actions w |> <| asked := S (S (asked w)) |>).
  split; [done|]. split.
  - intros j. unfold poll. cbn [asked update_field].
    replace (asked w + 2 * S j)%nat with (S (S (asked w)) + 2 * j)%nat by lia. done.
  - unfold poll. rewrite Nat.mul_0_r, Nat.add_0_r, Nat.add_1_r. cbn [busy_wait].
    erewrite M_bind_Ret by reflexivity. cbv beta iota. destruct (truthy _); [done|]. destruct (negb _); [done|].
    unfold einj_timedout. rewrite i64_small_u64 by done. destruct (Z.ltb_spec t SPIN_UNIT); [done|].
    unfold u64. rewrite wrap_small; [done|]. unfold SPIN_UNIT in *. lia.
Qed.

Lemma div_spin t : SPIN_UNIT <= t → (t - SPIN_UNIT) / SPIN_UNIT = t / SPIN_UNIT - 1.
Proof. intros _. replace (t - SPIN_UNIT) with (t + (-1) * SPIN_UNIT) by lia. rewrite Z.div_add by done. lia. Qed.

Lemma busy_wait_ready f t w n r : 0 <= t < 2 ^ 63 → t / SPIN_UNIT < Z.of_nat f → Z.of_nat n <= t / SPIN_UNIT →
  (∀ j, (j < n)%nat → poll w j = None) → poll w n = Some r →
  ∃ w', busy_wait f t w = Ret (r, w') ∧ actions w' = replicate (S n) CHECK_BUSY_STATUS ++ actions w.
Proof.
  revert t w n. induction f as [|f IH]; intros t w n Ht Hf Hn Hbusy Hr; [lia|].
  destruct (busy_wait_step f t w Ht) as (w1 & Ha & Hp & ->). destruct n as [|n].
  - rewrite Hr. exists w1. split; [done|]. by rewrite Ha.
  - rewrite (Hbusy 0%nat) by lia. destruct (Z.ltb_spec t SPIN_UNIT) as [Hlt|Hge].
    { rewrite Z.div_small in Hn by lia. lia. }
    pose proof (div_spin t Hge). unfold SPIN_UNIT in Hge.
    destruct (IH (t - SPIN_UNIT) w1 n) as (w' & E & E'); [unfold SPIN_UNIT; lia|lia|lia| |by rewrite Hp|].
    { intros j Hj. rewrite Hp. apply Hbusy. lia. }
    exists w'. split; [done|]. rewrite E', Ha. by rewrite (replicate_S_end (S n)), <- app_assoc.
Qed.

Lemma busy_wait_timeout f t w : 0 <= t < 2 ^ 63 → t / SPIN_UNIT < Z.of_nat f →
  (∀ j, Z.of_nat j <= t / SPIN_UNIT → poll w j = None) →
  ∃ w', busy_wait f t w = Ret (- EIO, w') ∧
    actions w' = replicate (Z.to_nat (t / SPIN_UNIT + 1)) CHECK_BUSY_STATUS ++ actions w.
Proof.
  revert t w. induction f as [|f IH]; intros t w Ht Hf Hbusy.
  { pose proof (Z.div_pos t SPIN_UNIT). unfold SPIN_UNIT in *. lia. }
  destruct (busy_wait_step f t w Ht) as (w1 & Ha & Hp & ->).
  assert (0 <= t / SPIN_UNIT) by (apply Z.div_pos; unfold SPIN_UNIT; lia).
  rewrite (Hbusy 0%nat) by lia. destruct (Z.ltb_spec t SPIN_UNIT) as [Hlt|Hge].
  - exists w1. split; [done|]. rewrite Z.div_small by lia. by rewrite Ha.
  - pose proof (div_spin t Hge) as Ed. destruct (IH (t - SPIN_UNIT) w1) as (w' & E & E'); [unfold SPIN_UNIT in *; lia|lia| |].
    { intros j Hj. rewrite Hp. apply Hbusy. lia. }
    exists w'. split; [done|]. rewrite E', Ha, Ed. replace (Z.to_nat (t / SPIN_UNIT + 1)) with (S (Z.to_nat (t / SPIN_UNIT - 1 + 1))) by lia.
    by rewrite replicate_S_end, <- app_assoc.
Qed.

(** Firmware that answers within its millisecond is served: if poll [n <= 10000] is the
    first that tells anything but "busy", the wait ends there with what it tells, after
    [n + 1] polls; firmware that stays busy for 10001 polls is given up with [-EIO]. *)
Theorem busy_wait_correct w :
  (∀ n r, Z.of_nat n <= FIRMWARE_TIMEOUT / SPIN_UNIT → (∀ j, (j < n)%nat → poll w j = None) → poll w n = Some r →
    ∃ w', busy_wait busy_fuel FIRMWARE_TIMEOUT w = Ret (r, w') ∧
      actions w' = replicate (S n) CHECK_BUSY_STATUS ++ actions w) ∧
  ((∀ j, Z.of_nat j <= FIRMWARE_TIMEOUT / SPIN_UNIT → poll w j = None) →
    ∃ w', busy_wait busy_fuel FIRMWARE_TIMEOUT w = Ret (- EIO, w') ∧
      actions w' = replicate busy_fuel CHECK_BUSY_STATUS ++ actions w).
Proof.
  split.
  - intros n r. by apply busy_wait_ready; [|apply busy_fuel_enough].
  - intros Hb. apply busy_wait_timeout; [done|apply busy_fuel_enough|done].
Qed.

(** ** The error type *)

Lemma land_pow2_zero x k : 0 <= k → Z.land x (2 ^ k) = 0 ↔ Z.testbit x k = false.
Proof.
  intros Hk. split.
  - intros E. apply (f_equal (λ z, Z.testbit z k)) in E.
    by rewrite Z.land_spec, Z.pow2_bits_true, andb_true_r, Z.bits_0 in E.
  - intros E. apply Z.bits_inj_0. intros i. rewrite Z.land_spec, Z.pow2_bits_eqb by done.
    destruct (Z.eqb_spec k i) as [<-|]; [by rewrite E|apply andb_false_r].
Qed.

Lemma land_pred_zero t : 0 <= t < 2 ^ 31 → Z.land t (u32 (t - 1)) = 0 ↔ t = 0 ∨ ∃ k, 0 <= k < 31 ∧ t = 2 ^ k.
Proof.
  intros Ht. destruct (decide (t = 0)) as [->|Hne]; [by split; [left|]|].
  unfold u32. rewrite wrap_small by lia. pose proof (Z.log2_spec t) as [Hlo Hhi]; [lia|].
  pose proof (Z.log2_nonneg t) as Hn. split.
  - intros E. right. exists (Z.log2 t). split.
    { split; [done|]. apply (Z.pow_lt_mono_r_iff 2); lia. }
    destruct (decide (t = 2 ^ Z.log2 t)) as [|Hr]; [done|exfalso].
    assert (Z.log2 (t - 1) = Z.log2 t) as El by (apply Z.log2_unique; lia).
    apply (f_equal (λ z, Z.testbit z (Z.log2 t))) in E. rewrite Z.land_spec, Z.bit_log2, <- El, Z.bit_log2, Z.bits_0 in E by lia.
    done.
  - intros [?|(k & Hk & ->)]; [done|]. replace (2 ^ k - 1) with (Z.ones k) by (rewrite Z.ones_equiv; lia).
    rewrite Z.land_ones by lia. apply Z.mod_same. lia.
Qed.

Lemma low_bits val : Z.land val 0x7fffffff = val mod 2 ^ 31.
Proof. change 0x7fffffff with (Z.ones 31). by rewrite Z.land_ones. Qed.

(** Without the vendor bit, the bits an available type can share with [val] are the low 31. *)
Lemma land_available val available : Z.testbit val 31 = false → 0 <= available < 2 ^ 32 →
  Z.land val available = Z.land available (val mod 2 ^ 31).
Proof.
  intros H31 Ha. rewrite <- Z.land_ones by done. apply Z.bits_inj'. intros i Hi. rewrite !Z.land_spec, Z.testbit_ones_nonneg by done.
  destruct (Z.ltb_spec i 31); [rewrite andb_true_r; apply andb_comm|]. rewrite !andb_false_r.
  destruct (decide (i = 31)) as [->|]; [by rewrite H31|].
  assert (Z.testbit available i = false) as ->; [|apply andb_false_r].
  apply (range_land 32) in Ha as <-; [|done]. rewrite Z.land_spec, Z.ones_spec_high by lia. apply andb_false_r.
Qed.

Lemma get_available_run type w :
  let told := i32 (oracle (asked w)) in
  einj_get_available_error_type type w =
    Ret (if truthy told then (told, type) else (0, u32 (u64 (oracle (S (asked w))))),
         w <| actions := GET_ERROR_TYPE :: actions w |> <| asked := S (S (asked w)) |>).
Proof.
  cbv zeta. unfold einj_get_available_error_type, __einj_get_available_error_type.
  erewrite M_bind_Ret by reflexivity. cbv beta iota. by destruct (truthy _).
Qed.

(** Storing an error type succeeds, and takes effect, exactly when at most one of the
    low 31 bits is set and either the vendor bit is set or the firmware tells its
    capabilities and that one bit is among them; in every other case the type in force
    stays. *)
Theorem error_type_set_correct val w : 0 <= val < 2 ^ 64 →
  let told := i32 (oracle (asked w)) in
  let available := u32 (u64 (oracle (S (asked w)))) in
  ∃ rc w', error_type_set val w = Ret (rc, w') ∧
    error_type w' = (if rc =? 0 then u32 val else error_type w) ∧
    (rc = 0 ↔
      if Z.testbit val 31 then val mod 2 ^ 31 = 0 ∨ ∃ k, 0 <= k < 31 ∧ val mod 2 ^ 31 = 2 ^ k
      else told = 0 ∧ ∃ k, 0 <= k < 31 ∧ val mod 2 ^ 31 = 2 ^ k ∧ Z.testbit available k = true).
Proof.
  intros Hv told available. pose proof (Z.mod_pos_bound val (2 ^ 31)) as Hm.
  pose proof (land_pred_zero (val mod 2 ^ 31)) as Hone.
  unfold error_type_set. rewrite low_bits. unfold u32 at 1 3. rewrite !(wrap_small _ (val mod _)) by lia.
  destruct (truthy (Z.land (val mod 2 ^ 31) _)) eqn:Et.
  { apply truthy_true in Et. eexists _, w. split; [reflexivity|]. split; [done|]. split; [done|].
    intros Hz. exfalso. apply Et, Hone; [lia|]. destruct (Z.testbit val 31); [done|].
    destruct Hz as (_ & k & Hk & E & _). right. by exists k. }
  apply truthy_false in Et. apply Hone in Et; [|lia].
  assert (truthy (u32 (Z.land val ACPI5_VENDOR_BIT)) = Z.testbit val 31) as ->.
  { unfold u32, ACPI5_VENDOR_BIT. change 0x80000000 with (2 ^ 31). pose proof (land_pow2_zero val 31) as Hb.
    rewrite wrap_small. - destruct (Z.testbit val 31); [apply truthy_true|apply truthy_false]; [|by apply Hb].
      intros E%Hb; done. - rewrite Z.land_comm. by apply (land_range_l 32). }
  destruct (Z.testbit val 31) eqn:E31.
  { eexists _, _. split; [reflexivity|]. by split. }
  erewrite M_bind_Ret by apply get_available_run. fold told available.
  destruct (truthy told) eqn:Etold; cbv beta iota.
  { rewrite Etold. apply truthy_true in Etold. eexists _, _. split; [reflexivity|].
    destruct (Z.eqb_spec told 0); [done|]. split; [done|]. by split; [|intros []]. }
  apply truthy_false in Etold. change (truthy 0) with false. cbv iota.
  rewrite (land_available val available E31) by apply u32_range.
  destruct (truthy (Z.land available (val mod 2 ^ 31))) eqn:Eav; cbn [negb]; eexists _, _; (split; [reflexivity|]); (split; [done|]).
  - apply truthy_true in Eav. split; [intros _; split; [done|]|done].
    destruct Et as [Et|(k & Hk & Et)]; [by rewrite Et, Z.land_0_r in Eav|]. exists k. split_and!; [lia..|done|].
    rewrite Et in Eav. destruct (Z.testbit available k) eqn:Ek; [done|]. by apply land_pow2_zero in Ek; [|lia].
  - apply truthy_false in Eav. split; [done|]. intros (_ & k & Hk & E & Ek). rewrite E in Eav.
    apply land_pow2_zero in Eav; [congruence|lia].
Qed.

(** ** Where memory errors go *)

(** Every address the firmware may pick under the mask lies in normal RAM. *)
Definition page_ok (addr range : Z) : Prop :=
  ∀ a, 0 <= a < 2 ^ 64 → Z.land a range = Z.land addr range → page_is_ram (PFN_DOWN a) = true.
(** If the firmware is told an address for a memory error, it is in normal RAM. *)
Definition target_ok (w : einj) : Prop :=
  match einj_param w with
  | Some (V5 _ p) => Z.testbit (v5_flags p) 1 = true → page_ok (memory_address p) (memory_address_range p)
  | _ => True
  end.

Lemma shiftr_page_mask a : 0 <= a < 2 ^ 64 → PFN_DOWN (Z.land a PAGE_MASK) = PFN_DOWN a.
Proof.
  intros Ha. unfold PFN_DOWN, PAGE_SHIFT. change PAGE_MASK with (Z.shiftl (Z.ones 52) 12).
  rewrite Z.shiftr_land, Z.shiftr_shiftl_l by lia. change (12 - 12) with 0. rewrite Z.shiftl_0_r, Z.land_ones by lia.
  apply Z.mod_small. rewrite Z.shiftr_div_pow2 by lia. split; [apply Z.div_pos; lia|]. apply Z.div_lt_upper_bound; lia.
Qed.

Lemma page_ok_checked p1 p2 : 0 <= p1 < 2 ^ 64 →
  page_is_ram (PFN_DOWN (Z.land p1 p2)) = true → Z.land p2 PAGE_MASK = PAGE_MASK → page_ok p1 p2.
Proof.
  intros H1 Hram Hmask a Ha E. rewrite <- Hram, <- E. f_equal.
  assert (0 <= Z.land a p2 < 2 ^ 64) as Hap by by apply (land_range_l 64).
  by rewrite <- (shiftr_page_mask a Ha), <- (shiftr_page_mask _ Hap), <- Z.land_assoc, Hmask.
Qed.

Lemma memory_type_masked type :
  (type =? MEMORY_CORRECTABLE) || (type =? MEMORY_UNCORRECTABLE) || (type =? MEMORY_FATAL) = true →
  truthy (Z.land type MEM_ERROR_MASK) = true.
Proof.
  intros Ht. apply truthy_true. unfold MEM_ERROR_MASK. rewrite !Z.land_lor_distr_r.
  intros [[E1 E2]%Z.lor_eq_0_iff E3]%Z.lor_eq_0_iff. pose proof memory_types_nonzero as (M1 & M2 & M3).
  rewrite !orb_true_iff, !Z.eqb_eq in Ht. destruct Ht as [[-> | ->] | ->]; rewrite Z.land_diag in *; lia.
Qed.

(** [einj_error_inject] checks the target when it must. *)
Definition unchecked (vf type flags : Z) : bool :=
  if truthy (Z.land type ACPI5_VENDOR_BIT) then negb (vf =? SETWA_FLAGS_MEM)
  else negb (truthy (Z.land type MEM_ERROR_MASK)) && negb (truthy (Z.land flags SETWA_FLAGS_MEM)).

Lemma set_v5_target vf type flags p1 p2 p3 p4 p :
  vf ∈ [0; SETWA_FLAGS_APICID; SETWA_FLAGS_MEM; SETWA_FLAGS_PCIE_SBDF] →
  (unchecked vf type flags = false → page_ok p1 p2) →
  (Z.testbit (v5_flags p) 1 = true → page_ok (memory_address p) (memory_address_range p)) →
  let q := set_v5 vf type flags p1 p2 p3 p4 p in
  Z.testbit (v5_flags q) 1 = true → page_ok (memory_address q) (memory_address_range q).
Proof.
  intros Hvf Hchk Hp. unfold set_v5, unchecked in *. destruct (truthy (Z.land type ACPI5_VENDOR_BIT)).
  - rewrite !elem_of_cons, elem_of_nil in Hvf. destruct Hvf as [->|[->|[->|[->|[]]]]]; cbn; try done.
    intros _. by apply Hchk.
  - destruct (truthy flags).
    { intros Hb. change (Z.testbit flags 1 = true) in Hb. apply Hchk, andb_false_iff. right. apply negb_false_iff, truthy_true.
      change SETWA_FLAGS_MEM with (2 ^ 1). intros E%land_pow2_zero; [congruence|done]. }
    destruct ((type =? PROCESSOR_CORRECTABLE) || _ || _); [by cbn|].
    destruct ((type =? MEMORY_CORRECTABLE) || (type =? MEMORY_UNCORRECTABLE) || _) eqn:Em.
    { cbn. intros _. apply Hchk. by rewrite memory_type_masked. }
    destruct ((type =? PCIX_CORRECTABLE) || _ || _); by cbn.
Qed.

(** *** What leaves the parameters alone *)

Definition same_param (w w' : einj) : Prop :=
  einj_param w' = einj_param w ∧ vendor_flags w' = vendor_flags w ∧ acpi5 w' = acpi5 w.
#[local] Instance same_param_refl : Reflexive same_param.
Proof. by split. Qed.
#[local] Instance same_param_trans : Transitive same_param.
Proof. intros w1 w2 w3 (A & B & C) (A' & B' & C'). split_and!; congruence. Qed.
Lemma keeps_request r : keeps same_param (request r).
Proof. unfold request, ask_ok, ask, when, acquire. keeps_walk. Qed.
Lemma keeps_ask_rc : keeps same_param ask_rc.
Proof. unfold ask_rc, ask. keeps_walk. Qed.
Lemma keeps_release r : keeps same_param (release r).
Proof. unfold release. keeps_walk. by destruct (decide _). Qed.
Lemma keeps_release_any r : keeps same_param (release_any r).
Proof. unfold release_any. keeps_walk. Qed.
Lemma keeps_acquire r : keeps same_param (acquire r).
Proof. unfold acquire. keeps_walk. Qed.
Lemma keeps_run a : keeps same_param (apei_exec_run a).
Proof. unfold apei_exec_run, ask_rc, ask_u64, ask. keeps_walk. Qed.

Create HintDb einj.
#[local] Hint Resolve keeps_request keeps_ask_rc keeps_release keeps_release_any keeps_acquire keeps_run : einj.
Ltac keeps_ops := repeat first [solve [auto 1 with einj nocore] | progress keeps_walk].

Lemma keeps_out_fini p size rc : keeps same_param (out_fini p size rc).
Proof. unfold out_fini, out_rel_entry, out_rel_header, out, apei_resources_fini. keeps_ops. Qed.
Lemma keeps_sub_target t size p1 p2 : keeps same_param (sub_target t size p1 p2).
Proof.
  unfold sub_target, einj_get_trigger_parameter_region, apei_resources_add, apei_resources_sub, apei_resources_fini, when.
  keeps_ops.
Qed.
#[local] Hint Resolve keeps_out_fini keeps_sub_target : einj.

Lemma keeps_trigger p type p1 p2 : keeps same_param (__einj_error_trigger p type p1 p2).
Proof.
  unfold __einj_error_trigger, request_mem_region, ioremap_cache, out_release, out_rel_entry, out_rel_header, out,
    apei_exec_collect_resources, apei_resources_sub, apei_resources_request, apei_exec_pre_map_gars,
    apei_exec_post_unmap_gars, apei_resources_release, when.
  keeps_ops.
Qed.
Lemma keeps_busy_wait fuel t : keeps same_param (busy_wait fuel t).
Proof.
  revert t. induction fuel as [|f IH]; intros t; cbn [busy_wait]; [by intros w a w'|]. keeps_ops; try apply IH.
Qed.
#[local] Hint Resolve keeps_trigger keeps_busy_wait : einj.

(** An injection changes the parameters in [set_type] only. *)
Lemma inject_param type flags p1 p2 p3 p4 w rc w' :
  __einj_error_inject type flags p1 p2 p3 p4 w = Ret (rc, w') →
  same_param w w' ∨
  ∃ w1 r w2, same_param w w1 ∧ set_type type flags p1 p2 p3 p4 w1 = Ret (r, w2) ∧ same_param w2 w'.
Proof.
  unfold __einj_error_inject. intros ([rc1 v1] & w1 & E1%keeps_run & E)%M_bind_inv.
  destruct (truthy rc1); [left; by injection E as _ <-|]. right.
  apply M_bind_inv in E as (r & w2 & E2 & E). exists w1, r, w2. split_and!; [done..|].
  destruct (truthy r); [by injection E as _ <-|]. revert E.
  match goal with |- ?m _ = _ → _ => assert (keeps same_param m) as Hk; [keeps_ops|apply Hk] end.
Qed.

Lemma set_type_target type flags p1 p2 p3 p4 w r w' : set_type type flags p1 p2 p3 p4 w = Ret (r, w') →
  vendor_flags w ∈ [0; SETWA_FLAGS_APICID; SETWA_FLAGS_MEM; SETWA_FLAGS_PCIE_SBDF] →
  (acpi5 w = true → unchecked (vendor_flags w) type flags = false → page_ok p1 p2) → target_ok w → target_ok w'.
Proof.
  unfold set_type. intros (w0 & w1 & [= <- <-] & E)%M_bind_inv Hvf Hchk Ht. destruct (acpi5 w).
  - unfold target_ok in Ht. destruct (einj_param w) as [[pa q|]|]; try done. injection E as _ <-.
    unfold target_ok. cbn [einj_param update_field]. apply set_v5_target; auto.
  - apply M_bind_inv in E as ([rc v] & w2 & (Ep & _)%keeps_run & E). unfold target_ok in *.
    destruct (truthy rc); [injection E as _ <-; by rewrite Ep|].
    destruct (einj_param w) as [[]|]; try done; injection E as _ <-; [done|by rewrite Ep].
Qed.

(** As long as the vendor flags are 0 or one of the three flags, the firmware is never told
    to inject a memory error anywhere but into normal RAM: if the parameters name a memory
    target, every address that the firmware may choose under the given mask lies in one RAM
    page; every injection keeps this, whatever was injected before it. *)
Theorem target_checked w rc w' : error_inject_set w = Ret (rc, w') →
  0 <= error_param1 w < 2 ^ 64 →
  vendor_flags w ∈ [0; SETWA_FLAGS_APICID; SETWA_FLAGS_MEM; SETWA_FLAGS_PCIE_SBDF] →
  target_ok w → target_ok w'.
Proof.
  intros E H1 Hvf Ht. unfold error_inject_set in E. apply M_bind_inv in E as (w0 & w1 & [= <- <-] & E).
  destruct (negb (truthy (error_type w))); [by injection E as _ <-|]. unfold einj_error_inject in E.
  set (ty := error_type w) in *. set (fl := error_flags w) in *. set (p1 := error_param1 w) in *. set (p2 := error_param2 w) in *.
  destruct (truthy fl && _); [by injection E as _ <-|]. apply M_bind_inv in E as (w0 & w1 & [= <- <-] & E).
  assert (∀ p3 p4, __einj_error_inject ty fl p1 p2 p3 p4 w = Ret (rc, w') →
    (acpi5 w = true → unchecked (vendor_flags w) ty fl = false → page_ok p1 p2) → target_ok w') as Hin.
  { intros p3 p4 [(Ep & _)|(w1 & r & w2 & (E1 & E2 & E3) & Es & (E4 & _))]%inject_param Hchk.
    - unfold target_ok in *. by rewrite Ep.
    - apply set_type_target in Es; [unfold target_ok in *; by rewrite E4|by rewrite E2|by rewrite E2, E3|].
      unfold target_ok in *. by rewrite E1. }
  destruct (param_extension w || acpi5 w) eqn:Ep; cbn [negb] in E.
  2: { apply (Hin _ _ E). intros H5. by rewrite H5, orb_true_r in Ep. }
  destruct (if truthy (Z.land ty ACPI5_VENDOR_BIT) then _ else _) eqn:Eu in E; [apply (Hin _ _ E); unfold unchecked; congruence|].
  destruct (negb (page_is_ram _) || _) eqn:Er in E; [by injection E as _ <-|]. apply (Hin _ _ E). intros _ _.
  apply orb_false_iff in Er as [Hram%negb_false_iff Hmask%negb_false_iff%Z.eqb_eq]. by apply page_ok_checked.
Qed.

(** ** Loading and unloading *)

Definition is_v5 (o : option parameter) : bool := match o with Some (V5 _ _) => true | _ => false end.
Definition iomem (o : option parameter) : list resource :=
  match o with Some (V5 pa _) | Some (V4 pa _) => [Iomem pa 40] | None => [] end.
Lemma iomem_location o o' : location o = location o' → iomem o = iomem o' ∧ is_v5 o = is_v5 o'.
Proof. by destruct o as [[]|], o' as [[]|]; intros [=]; subst. Qed.

(** The variables while the module is loaded with [param_extension = pe]. *)
Definition vars (b5 pe : bool) (vd : option (list Z)) (o : option parameter) :=
  (b5, pe, 0, 0, vd, location o, (0, 0, 0, 0, 0, 0)).

#[local] Abbreviation owns := (own []).

(** What a loaded module holds; [g] tells whether [pre_map] succeeded. *)
Definition gars (g : bool) : list resource := if g then [Gars Module] else [].
Definition debt (g : bool) : Z := if g then 0 else -1.
Definition module_held (o : option parameter) (g : bool) : list resource :=
  iomem o ++ gars g ++ [Requested Module; Nodes Module; Debugfs].

Lemma hoare_unmap_param o l a k S :
  hoare (λ w, owns a (iomem o ++ l) k S w ∧ param_ok w ∧ location (einj_param w) = location o) unmap_param
    (λ _, owns a l k S).
Proof.
  unfold unmap_param. apply hoare_get. intros w0 (Hw & Hp & Hl). unfold param_ok in Hp.
  apply iomem_location in Hl as [Hi _]. rewrite <- Hi in Hw. clear Hi o.
  assert (∀ pa, owns a ([Iomem pa 40] ++ l) k S w0 →
    hoare (λ w, w = w0) (release (Iomem pa (if acpi5 w0 then sizeof_v5 else sizeof_v4))) (λ _, owns a l k S)) as Hrel.
  { intros pa Ho. change sizeof_v4 with 40. change sizeof_v5 with 40. destruct (acpi5 w0);
      (eapply hoare_conseq; [by apply (hoare_release [] (Iomem pa 40) a (Iomem pa 40 :: l)); left|by intros w ->|];
       intros ? ?; by rewrite remove1_eq). }
  destruct (einj_param w0) as [[pa p|pa p]|]; cbn [iomem] in Hw; [by apply Hrel..|].
  apply hoare_ret. by intros w ->.
Qed.

(** The common end of [einj_exit] and of a failed [einj_init]. *)
Lemma hoare_post_unmap g a S :
  hoare (owns a (gars g ++ [Requested Module; Nodes Module; Debugfs]) (debt g) S) (apei_exec_post_unmap_gars Module)
    (λ _, owns a [Requested Module; Nodes Module; Debugfs] 0 S).
Proof.
  destruct g; cbn [gars debt app].
  - eapply hoare_conseq; [by apply hoare_release; left|done|]. intros ? ?. by rewrite remove1_eq.
  - eapply hoare_conseq; [apply hoare_stray|done|done].
    rewrite app_nil_r. repeat (apply not_elem_of_cons; split; [done|]). apply not_elem_of_nil.
Qed.
Lemma hoare_err_cleanup rc a (l : list resource) S : l = [] ∨ l = [Debugfs] → hoare (owns a l 0 S) (err_cleanup rc) (λ r w, r = rc ∧ owns a [] 0 S w).
Proof.
  intros Hl. eapply hoare_bind; [apply hoare_release_any; right; apply not_elem_of_nil|]. intros ?. apply hoare_ret.
  by destruct Hl as [-> | ->].
Qed.
Lemma hoare_err_fini rc a S : hoare (owns a [Nodes Module; Debugfs] 0 S) (err_fini rc) (λ r w, r = rc ∧ owns a [] 0 S w).
Proof.
  eapply hoare_bind; [by apply hoare_release_any; left; left|]. intros ?. rewrite remove1_eq. apply hoare_err_cleanup. by right.
Qed.
Lemma hoare_err_unmap rc o g a S :
  hoare (λ w, owns a (module_held o g) (debt g) S w ∧ param_ok w ∧ location (einj_param w) = location o) (err_unmap rc)
    (λ r w, r = rc ∧ owns a [] 0 S w).
Proof.
  unfold err_unmap, err_release. eapply hoare_bind; [apply hoare_unmap_param|]. intros ?.
  eapply hoare_bind; [apply hoare_post_unmap|]. intros ?.
  eapply hoare_bind; [by apply hoare_release; left|]. intros ?. rewrite remove1_eq. apply hoare_err_fini.
Qed.
Lemma hoare_exit o g a S :
  hoare (λ w, owns a (module_held o g) (debt g) S w ∧ param_ok w ∧ location (einj_param w) = location o) einj_exit
    (λ _, owns a [] 0 S).
Proof.
  unfold einj_exit. eapply hoare_bind; [apply hoare_unmap_param|]. intros ?.
  eapply hoare_bind; [apply hoare_post_unmap|]. intros ?.
  eapply hoare_bind; [by apply hoare_release; left|]. intros ?. rewrite remove1_eq.
  eapply hoare_bind; [by apply hoare_release_any; left; left|]. intros ?. rewrite remove1_eq.
  eapply hoare_conseq; [by apply hoare_release_any; left; left|done|]. intros ? ?. by rewrite remove1_eq.
Qed.

Lemma table_entry_is_Some i : einj_check_table = 0 → 0 <= i < entries einj_tab → is_Some (table_entry i).
Proof.
  unfold einj_check_table. intros E Hi. pose proof sizes_ok as (_ & He & _).
  destruct (negb _ && negb _); [done|]. destruct (Z.ltb_spec (tab_length einj_tab) sizeof_table); [done|].
  destruct (Z.eqb_spec (entries einj_tab) ((tab_length einj_tab - sizeof_table) / sizeof_entry)) as [Hc|]; [|done].
  unfold table_entry. rewrite (proj2 (andb_true_iff _ _)); [by eexists|]. split; apply Z.leb_le; [lia|].
  pose proof (Z.mul_div_le (tab_length einj_tab - sizeof_table) sizeof_entry He). nia.
Qed.

Lemma hoare_find_parameters a l k S : einj_check_table = 0 →
  hoare (owns a l k S) find_parameters (λ _, owns a l k S).
Proof.
  intros Ht w Hw. unfold find_parameters.
  destruct (loop_inv (λ _ _ w, owns a l k S w) (λ i '(pa_v4, pa_v5),
    e ← lift (table_entry i);
    let pa_v4 := if (act e =? ACT_SET_ERROR_TYPE) && is_write_to_memory e then address e else pa_v4 in
    let pa_v5 := if (act e =? ACT_SET_ERROR_TYPE_WITH_ADDRESS) && is_write_to_memory e then address e else pa_v5 in
    mret (pa_v4, pa_v5)) 0 (Z.max 0 (entries einj_tab)) (0, 0) w) as (r & w' & E & Hw'); try done; try lia.
  - intros i [p4 p5] v Hi Hv. destruct (table_entry_is_Some i Ht) as [e ->]; [lia|]. erewrite M_bind_Ret by apply lift_Some. cbv zeta. eexists _, _. split; [reflexivity|done].
  - unfold loop in *. exists r, w'. split; [|done]. rewrite <- E.
    by replace (Z.to_nat (Z.max 0 (entries einj_tab) - 0)) with (Z.to_nat (entries einj_tab - 0)) by lia.
Qed.

Lemma hoare_get_v4 pa_v4 a l k S :
  hoare (owns a l k S) (get_v4 pa_v4) (λ o w, owns a (iomem o ++ l) k S w ∧ is_v5 o = false).
Proof.
  unfold get_v4. apply hoare_bind with (R := λ _, owns a l k S); [by intros w Hw; exists (param_extension w), w|]. intros ext.
  apply hoare_if; intros _; [|by apply hoare_ret].
  eapply hoare_bind; [apply hoare_request|]. intros []; cbn [negb]; [|by apply hoare_ret].
  apply hoare_bind with (R := λ _, owns a (Iomem pa_v4 sizeof_v4 :: l) k S).
  { unfold read_v4. do 5 (eapply hoare_bind; [apply hoare_ask_u64|]; intros ?). by apply hoare_ret. }
  intros p. apply hoare_if; intros _; [|by apply hoare_ret].
  eapply hoare_bind; [by apply hoare_release; left|]. intros ?. rewrite remove1_eq. by apply hoare_ret.
Qed.

Lemma hoare_vendor paddr p a l k pe :
  hoare (owns a l k (vars true pe None None)) (check_vendor_extension paddr p)
    (λ _ w, ∃ vd, owns a l k (vars true pe vd None) w).
Proof.
  unfold check_vendor_extension. apply hoare_if; intros _; [by apply hoare_ret; eauto|].
  eapply hoare_bind; [apply hoare_request|]. intros []; cbn [negb]; [|by apply hoare_ret; eauto].
  eapply hoare_bind; [apply hoare_ask_u32|]; intros sbdf. do 3 (eapply hoare_bind; [apply hoare_ask|]; intros ?).
  eapply hoare_bind.
  { apply (hoare_modify _ _ (λ _ w, ∃ vd, owns a (Iomem (u64 (paddr + i32 (vendor_extension p))) sizeof_vendor :: l) k (vars true pe vd None) w)).
    intros w [E1 E2 E3 E4]. eexists. split; [done..|]. unfold settings, vars in *. cbn. injection E4 as -> -> -> -> _ -> -> -> -> -> -> ->.
    reflexivity. }
  intros ?. apply hoare_pre. intros w [vd Hw].
  eapply hoare_conseq; [by apply hoare_release; left|by intros ? ->; exact Hw|]. intros ? ?. rewrite remove1_eq. by exists vd.
Qed.

Lemma hoare_param_address a l k pe : einj_check_table = 0 →
  hoare (owns a l k (vars false pe None None)) einj_get_parameter_address
    (λ o w, ∃ vd, owns a (iomem o ++ l) k (vars (is_v5 o) pe vd None) w).
Proof.
  intros Ht. unfold einj_get_parameter_address. eapply hoare_bind; [by apply hoare_find_parameters|]. intros [pa_v4 pa_v5].
  assert (hoare (owns a l k (vars false pe None None)) (get_v4 pa_v4)
    (λ o w, ∃ vd, owns a (iomem o ++ l) k (vars (is_v5 o) pe vd None) w)) as Hv4.
  { eapply hoare_conseq; [apply hoare_get_v4|done|]. intros o w [Hw E]. exists None. by rewrite E. }
  apply hoare_if; intros _; [|done]. eapply hoare_bind; [apply hoare_request|]. intros []; [|done].
  apply hoare_bind with (R := λ _, owns a (Iomem pa_v5 sizeof_v5 :: l) k (vars false pe None None)).
  { unfold read_v5. do 4 (eapply hoare_bind; [apply hoare_ask_u32|]; intros ?).
    do 2 (eapply hoare_bind; [apply hoare_ask_u64|]; intros ?). eapply hoare_bind; [apply hoare_ask_u32|]. intros ?. by apply hoare_ret. }
  intros p. eapply hoare_bind.
  { apply (hoare_modify _ _ (λ _, owns a (Iomem pa_v5 sizeof_v5 :: l) k (vars true pe None None))).
    intros w [E1 E2 E3 E4]. split; try done. unfold settings, vars in *. cbn. by injection E4 as _ -> -> -> -> -> -> -> -> -> -> ->. }
  intros ?. eapply hoare_bind; [apply hoare_vendor|]. intros ?. by apply hoare_ret.
Qed.

Lemma hoare_create_files names a l k S : hoare (owns a l k S) (create_files names) (λ _, owns a l k S).
Proof.
  induction names as [|n names IH]; [by apply hoare_ret|]. cbn [create_files].
  eapply hoare_bind; [apply hoare_ask_ok|]. intros []; [apply IH|by apply hoare_ret].
Qed.

(** A module that is loaded with parameters at the place of [o]. *)
Record running (o : option parameter) (g : bool) (w : einj) : Prop := {
  run_held : held w = module_held o g;
  run_strays : strays w - failed_premaps w = debt g;
  run_param : param_ok w;
  run_location : location (einj_param w) = location o
}.

Lemma hoare_init pe acpi_disabled status :
  hoare (λ w, w = loaded pe) (einj_init acpi_disabled status)
    (λ rc w, if rc =? 0 then ∃ o g, running o g w else held w = [] ∧ strays w = failed_premaps w).
Proof.
  set (post := λ (rc : Z) (w : einj), _). set (v0 := vars false pe None None).
  assert (∀ rc a S m, rc ≠ 0 → (hoare m (mret rc : M einj Z) (λ r w, r = rc ∧ owns a [] 0 S w)) →
    hoare m (mret rc) post) as Hret.
  { intros rc a S m Hrc Hm. eapply hoare_conseq; [exact Hm|done|]. intros r w (-> & [_ E1 E2 _]). unfold post.
    destruct (Z.eqb_spec rc 0); [done|]. split; [done|lia]. }
  assert (∀ rc a S P m, rc ≠ 0 → hoare P m (λ r w, r = rc ∧ owns a [] 0 S w) → hoare P m post) as Hend.
  { intros rc a S P m Hrc Hm. eapply hoare_conseq; [exact Hm|done|]. intros r w (-> & [_ E1 E2 _]). unfold post.
    destruct (Z.eqb_spec rc 0); [done|]. split; [done|lia]. }
  clear Hret. apply hoare_conseq with (P' := owns [] [] 0 v0) (Q' := post); [|by intros w ->|done].
  assert (∀ rc, rc ≠ 0 → hoare (owns [] [] 0 v0) (mret rc) post) as Hnone.
  { intros rc Hrc. eapply (Hend rc); [done|]. by apply hoare_ret. }
  unfold einj_init. apply hoare_if; intros _; [by apply Hnone|]. destruct status; [|by apply Hnone..].
  apply hoare_if; [intros _; by apply Hnone|]. intros Ht%truthy_false.
  eapply hoare_bind; [apply hoare_request|]. intros []; cbn [negb];
    [|by eapply (Hend (- ENOMEM)); [|apply hoare_err_cleanup; left]].
  eapply hoare_bind; [apply hoare_create_files|]. intros []; cbn [negb];
    [|by eapply (Hend (- ENOMEM)); [|apply hoare_err_cleanup; right]].
  eapply hoare_bind; [apply hoare_collect|]. intros rc1.
  apply hoare_if; [intros Hrc%truthy_true; by eapply Hend; [|apply hoare_err_fini]|intros _].
  eapply hoare_bind; [apply hoare_acquire_rc|]. intros rc2. unfold truthy at 1.
  destruct (Z.eqb_spec rc2 0) as [->|Hrc]; cbn [negb]; [|by eapply Hend; [|apply hoare_err_fini]].
  eapply hoare_bind; [apply hoare_pre_map|]. intros rc3. cbv beta.
  apply hoare_conseq with (P' := owns [] (gars (rc3 =? 0) ++ [Requested Module; Nodes Module; Debugfs]) (debt (rc3 =? 0)) v0)
    (Q' := post); [|by destruct (rc3 =? 0)|done].
  generalize (rc3 =? 0). clear rc1 rc3. intros g.
  eapply hoare_bind; [by apply hoare_param_address|]. intros o. apply hoare_pre. intros w [vd Hw].
  apply hoare_conseq with (P' := owns [] (module_held o g) (debt g) (vars (is_v5 o) pe vd None)) (Q' := post); [|by intros ? ->|done].
  clear w Hw. set (held_now := λ w, owns [] (module_held o g) (debt g) (vars (is_v5 o) pe vd o) w ∧ param_ok w ∧ location (einj_param w) = location o).
  apply hoare_bind with (R := λ _, held_now).
  { apply hoare_modify. intros w [E1 E2 E3 E4]. assert (settings (w <| einj_param := o |>) = vars (is_v5 o) pe vd o) as E.
    { unfold settings, vars in *. cbn. by injection E4 as -> -> -> -> -> _ -> -> -> -> -> ->. }
    split; [by split|]. split; [|done]. unfold param_ok. cbn. unfold settings, vars in E. injection E as -> _ _ _ _ _ _ _ _ _ _. by destruct o as [[]|]. }
  intros ?. apply hoare_get. intros w0 Hw0. apply hoare_conseq with (P' := held_now) (Q' := post); [|by intros ? ->|done]. clear Hw0.
  assert (hoare held_now (err_unmap (- ENOMEM)) post) as Herr.
  { by eapply (Hend (- ENOMEM)); [|apply hoare_err_unmap]. }
  assert (∀ (b : bool) names, hoare held_now (if b then create_files names else mret true) (λ _, held_now)) as Hfiles.
  { intros b names. destruct b; [|by apply hoare_ret]. intros w (Hw & Hp & Hl).
    destruct (hoare_create_files names _ _ _ _ w Hw) as (r & w' & E & Hw'). exists r, w'. split; [done|].
    pose proof (own_settings _ _ _ _ _ _ Hw) as E1. pose proof (own_settings _ _ _ _ _ _ Hw') as E2. rewrite <- E1 in E2.
    split; [done|]. split; [by eapply param_ok_settings|]. rewrite <- Hl. unfold settings in E2. congruence. }
  eapply hoare_bind; [apply Hfiles|]. intros []; cbn [negb]; [|done].
  apply hoare_get. intros w1 Hw1. apply hoare_conseq with (P' := held_now) (Q' := post); [|by intros ? ->|done]. clear Hw1.
  eapply hoare_bind; [apply Hfiles|]. intros []; cbn [negb]; [|done].
  apply hoare_ret. intros w ([E1 E2 E3 E4] & Hp & Hl). exists o, g. split; try done. by rewrite E2, app_nil_r.
Qed.

(** The debugfs files of variables: a write stores the value. *)
Definition debugfs_store (f p1 p2 p3 p4 nt vf : Z) : M einj () :=
  modify (λ w, w <| error_flags := u32 f |> <| error_param1 := u64 p1 |> <| error_param2 := u64 p2 |> <| error_param3 := u64 p3 |>
                 <| error_param4 := u64 p4 |> <| notrigger := u32 nt |> <| vendor_flags := u32 vf |>).

(** What goes on between loading and unloading: injections, and reads and writes of the
    debugfs files. *)
Inductive use (w w' : einj) : Prop :=
| use_inject rc (E : error_inject_set w = Ret (rc, w'))
| use_type val rc (E : error_type_set val w = Ret (rc, w'))
| use_show r (E : available_error_type_show w = Ret (r, w'))
| use_store f p1 p2 p3 p4 nt vf (E : debugfs_store f p1 p2 p3 p4 nt vf w = Ret ((), w')).

Lemma running_held o g w : running o g w → (Nodes Addr ∉ held w) ∧ (Gars Trigger ∉ held w).
Proof.
  intros [-> _ _ _]. unfold module_held, iomem, gars.
  split; rewrite !elem_of_app, !elem_of_cons, elem_of_nil; intros [E|[E|E]];
    repeat (destruct E as [E|E]; [done|]); try done; destruct o as [[]|]; try (by apply elem_of_nil in E);
    try (by apply list_elem_of_singleton in E); destruct g; try (by apply elem_of_nil in E); by apply list_elem_of_singleton in E.
Qed.

Lemma get_available_running type o g w r w' : einj_get_available_error_type type w = Ret (r, w') → running o g w → running o g w'.
Proof. rewrite get_available_run. intros [= _ <-] [H1 H2 H3 H4]. by split. Qed.

Lemma use_running o g w w' : use w w' → running o g w → running o g w'.
Proof.
  intros Hu Hr. destruct Hu as [rc E|val rc E|r E|f p1 p2 p3 p4 nt vf E].
  - destruct (running_held _ _ _ Hr) as [Ha Hg]. destruct Hr as [H1 H2 H3 H4].
    destruct (inject_ends w H3 Ha Hg w eq_refl) as (rc' & w1 & E' & p & n & fired & _ & [_ E1 E2 E3] & _).
    rewrite E in E'. injection E' as _ <-. split; [by rewrite E1|lia|by eapply param_ok_settings|].
    rewrite <- H4. unfold settings in E3. congruence.
  - unfold error_type_set in E. destruct (truthy _); [by injection E as _ <-|].
    assert (∀ v, (modify (λ w, w <| error_type := u32 val |>);; mret 0) v = Ret (rc, w') → running o g v → running o g w') as Hset.
    { intros v [= _ <-] [H1 H2 H3 H4]. by split. }
    destruct (truthy (u32 _)); [by eapply Hset|].
    apply M_bind_inv in E as ([r v] & w1 & E1 & E). eapply get_available_running in E1; [|exact Hr].
    destruct (truthy r); [by injection E as _ <-|]. destruct (negb _); [by injection E as _ <-|by eapply Hset].
  - unfold available_error_type_show in E. apply M_bind_inv in E as ([rc v] & w1 & E1 & E).
    eapply get_available_running in E1; [|done]. destruct (truthy rc); by injection E as _ <-.
  - injection E as <-. destruct Hr as [H1 H2 H3 H4]. by split.
Qed.

(** C24: loading the module ends, whatever ACPI and the kernel answer; when it fails, everything
    it took has been given back, and when it succeeds, unloading gives back everything, after
    any sequence of injections and of reads and writes of its files; nothing is given back
    twice, except where a failed [pre_map] was ignored. *)
Theorem module_balanced pe acpi_disabled status :
  ∃ rc w, einj_init acpi_disabled status (loaded pe) = Ret (rc, w) ∧
    if rc =? 0 then
      ∀ w1, star use w w1 → ∃ w2, einj_exit w1 = Ret ((), w2) ∧ held w2 = [] ∧ strays w2 = failed_premaps w2
    else held w = [] ∧ strays w = failed_premaps w.
Proof.
  destruct (hoare_init pe acpi_disabled status _ eq_refl) as (rc & w & E & Hw). exists rc, w. split; [done|].
  destruct (rc =? 0); [|done]. destruct Hw as (o & g & Hr). intros w1 Hs.
  assert (running o g w1) as [H1 H2 H3 H4] by (eapply (star_inv use (running o g)); [|exact Hs|exact Hr]; intros x y Hx Hxy; by eapply use_running).
  destruct (hoare_exit o g (actions w1) (settings w1) w1) as ([] & w2 & E2 & [_ F1 F2 _]).
  { split; [|done]. split; try done. by rewrite app_nil_r. }
  exists w2. split; [done|]. split; [done|lia].
Qed.
End einj.

(** * Concrete runs *)

(** The numbers of ACPI as Linux has them. *)
Definition acpi_linux : ACPI.
Proof.
  refine {| PROCESSOR_CORRECTABLE := 1; PROCESSOR_UNCORRECTABLE := 2; PROCESSOR_FATAL := 4;
    MEMORY_CORRECTABLE := 8; MEMORY_UNCORRECTABLE := 16; MEMORY_FATAL := 32;
    PCIX_CORRECTABLE := 64; PCIX_UNCORRECTABLE := 128; PCIX_FATAL := 256;
    WRITE_REGISTER := 2; WRITE_REGISTER_VALUE := 3; ADR_SPACE_SYSTEM_MEMORY := 0;
    ACT_SET_ERROR_TYPE := 2; ACT_SET_ERROR_TYPE_WITH_ADDRESS := 8; ACT_TRIGGER_ERROR := 255;
    sizeof_header := 36; sizeof_table := 48; sizeof_entry := 32; sizeof_trigger := 16 |}; lia.
Defined.
#[local] Existing Instance acpi_linux.

Definition no_entry : acpi_entry := {| act := 0; instruction := 0; space_id := 0; address := 0; bit_width := 0 |}.
Definition empty_trigger (p : Z) : acpi_trigger :=
  {| header_size := 16; table_size := 16; entry_count := 0; trigger_entry := λ _, no_entry |}.
Definition empty_table : acpi_table := {| header_length := 12; tab_length := 48; entries := 0; tab_entry := λ _, no_entry |}.
(** Answers: those of [l], then 0. *)
Definition answers (l : list Z) (n : nat) : Z := default 0 (l !! n).

(** A module with ACPI 5 parameters and an error of [type] to be injected. *)
Definition test_einj (type flags addr mask : Z) : einj :=
  (loaded false) <| acpi5 := true |> <| notrigger := 1 |> <| error_type := type |> <| error_flags := flags |>
    <| error_param1 := addr |> <| error_param2 := mask |>
    <| einj_param := Some (V5 0x1000 (Build_set_error_type_with_address 0 0 0 0 0 0 0)) |>.

Lemma error_inject_set_safe_witness :
  ∃ rc w', error_inject_set (answers []) empty_trigger (λ _, true) (test_einj 8 0 0x5000 PAGE_MASK) = Ret (rc, w') ∧ held w' = [].
Proof.
  destruct (error_inject_set_safe (answers []) empty_trigger (λ _, true) (test_einj 8 0 0x5000 PAGE_MASK)) as (rc & w' & E & Hh & _).
  - reflexivity.
  - apply not_elem_of_nil.
  - apply not_elem_of_nil.
  - exists rc, w'. split; [exact E|exact Hh].
Defined.

Lemma busy_wait_correct_witness :
  ∃ w', busy_wait (answers [0; 1; 0; 1]) busy_fuel FIRMWARE_TIMEOUT (loaded false) = Ret (0, w') ∧
    actions w' = [CHECK_BUSY_STATUS; CHECK_BUSY_STATUS; CHECK_BUSY_STATUS].
Proof.
  destruct (busy_wait_correct (answers [0; 1; 0; 1]) (loaded false)) as [Hready _].
  apply (Hready 2%nat 0).
  - vm_compute. discriminate.
  - intros [|[|j]] Hj; [reflexivity|reflexivity|lia].
  - reflexivity.
Defined.

Lemma error_type_set_correct_witness :
  ∃ w', error_type_set (answers [0; 24]) 8 (loaded false) = Ret (0, w') ∧ error_type w' = 8.
Proof.
  destruct (error_type_set_correct (answers [0; 24]) 8 (loaded false)) as (rc & w' & E & Et & Hrc); [lia|].
  assert (rc = 0) as ->.
  { apply Hrc. split; [reflexivity|]. exists 3. repeat split; lia. }
  exists w'. split; [exact E|exact Et].
Defined.

Lemma target_checked_witness :
  ∃ w', error_inject_set (answers []) empty_trigger (λ pfn, pfn =? 5) (test_einj 8 0 0x5000 PAGE_MASK) = Ret (0, w') ∧
    target_ok (λ pfn, pfn =? 5) w'.
Proof.
  eexists. split; [vm_compute; reflexivity|].
  apply (target_checked (answers []) empty_trigger (λ pfn, pfn =? 5) (test_einj 8 0 0x5000 PAGE_MASK) 0).
  - reflexivity.
  - vm_compute. split; [discriminate|reflexivity].
  - left.
  - intros Hb. discriminate Hb.
Defined.

(** With other vendor flags the check is passed over, and an address left from an injection
    that needs none becomes the target of a memory error: here page 5 is not RAM. *)
Lemma vendor_flags_unchecked :
  ∃ w1 w2, let ram := λ pfn, negb (pfn =? 5) in
    error_inject_set (answers []) empty_trigger ram (test_einj 1 SETWA_FLAGS_APICID 0x5000 PAGE_MASK) = Ret (0, w1) ∧
    target_ok ram w1 ∧
    error_inject_set (answers []) empty_trigger ram
      (w1 <| error_type := ACPI5_VENDOR_BIT |> <| error_flags := 0 |> <| vendor_flags := 3 |>) = Ret (0, w2) ∧
    ¬ target_ok ram w2.
Proof.
  eexists _, _. split; [vm_compute; reflexivity|]. split; [by intros Hb|]. split; [vm_compute; reflexivity|].
  intros Hok. specialize (Hok eq_refl 0x5000). discriminate Hok; [lia|done].
Qed.

Lemma module_balanced_witness :
  ∃ w w2, einj_init (answers [1; 1; 1; 1]) empty_table false Found (loaded false) = Ret (0, w) ∧
    einj_exit w = Ret ((), w2) ∧ held w2 = [].
Proof.
  destruct (module_balanced (answers [1; 1; 1; 1]) empty_table empty_trigger (λ _, true) false false Found) as (rc & w & E & Hw).
  assert (rc = 0) as ->.
  { apply (f_equal (λ r, match r with Ret (rc, _) => rc | _ => -1 end)) in E. symmetry. exact E. }
  destruct (Hw w) as (w2 & E2 & Hh & _); [apply star_refl|].
  exists w, w2. split; [exact E|]. split; [exact E2|exact Hh].
Defined.
